(* ===== verification/_CoqProject ===== *)
-Q . S2P
Prelude.v
PyNum.v
PyTime.v
PyValue.v
PyRegex.v
Models.v
AuditRetention.v
StateMachine.v
Goal.v
WorkItem.v
ApprovalRequest.v
Decision.v
AgentRole.v
EvolutionProposal.v
AgentRun.v
Metadata.v
AuditEvent.v
CompanyContext.v
Artifact.v
AgentPromptConfig.v
Budget.v
DomainEvents.v
WakeupAdapter.v
ExecutionPolicy.v
GovernancePolicies.v
Lifecycles.v
Store.v
Frames.v
AgentRunLifecycle.v
BudgetGuard.v
ExecutionLedger.v
ExecutionInvariants.v
ClaimInversion.v
AgentRunner.v
Scenario.v
ExecutionTheorems.v
RunnerTheorems.v
ApprovalGate.v
Outcomes.v
WorkItems.v
OutcomeTheorems.v
Goals.v
Event.v
Proposals.v
Tenancy.v
Knowledge.v
Retention.v
RetentionTheorems.v
WorkItemTheorems.v
SkillRelease.v
ReleaseStore.v
EvolutionRuntime.v
SkillExecution.v
EvaluationBatch.v
ReleaseInvariants.v
EvolutionHistory.v
ReleaseTheorems.v
Deployment.v
DeploymentTriples.v
ReleaseProtocol.v
DeploymentTheorems.v
ReleaseEvidence.v
ReleaseRecovery.v
ReleaseScenario.v
ProcessSupervisor.v
CoordinatorWorkflow.v
CoordinatorDispatch.v
CoordinatorStore.v
CoordinatorRefinement.v
CoordinatorEvents.v
OutboxDelivery.v
DevPlan.v
DevTasks.v
DevWorkflow.v
DevSteps.v
DevTheorems.v
QaDomain.v
QaAcceptance.v
QaTheorems.v
QaReports.v
