(* ===== verification/Prelude.v ===== *)
(** * Wisdoverse Cell: control plane, coordinator and evolution runtime

    Wisdoverse Cell runs a company of AI agents.  Its control plane
    ([src/shared/control_plane]) decides which agent may do what at which cost,
    runs the agent and keeps the evidence; its coordinator
    ([src/services/orchestration/coordinator]) turns incoming events into
    decisions for the agents and publishes them; its evolution runtime
    ([src/shared/evolution]) releases new versions of the agents' skills; two of
    its agents plan and collect development work ([src/agents/dev_agent]) and
    check it ([src/agents/qa_agent]).  This library models them as executable
    functions and proves what they guarantee.

    ** How the program is modelled

    - A Python function that may raise is a function into [result]; code that
      changes state is a function in the monad [M S] of this file, which keeps
      the changes made before an exception, as Python does.  Exceptions are
      values ([exn]) with the class and fields their handlers look at.
    - [PyNum]: floats as binary64 [spec_float], [Decimal] as an exact integer
      and exponent.  [PyTime]: datetimes as microseconds with an optional zone,
      with the calendar the period arithmetic needs.  [PyValue]: the JSON-like
      values of [Any] columns, dictionaries as ordered association lists.
      [PyRegex]: the regular expressions the redaction uses.
    - The database is the record [Store.DB] of tables; a [Session] has a working
      copy and a committed copy, so that a commit, a rollback and a crash are
      different events.  Row locks and serialisable transactions are the serial
      order of the operations.  Foreign keys and unique keys that an operation
      can violate raise [IntegrityError].
    - Code that is not in the repository is a parameter: the class [Store.Env]
      holds the wall clock, the identifiers of [uuid4]/ULID, SHA-256, the
      parsing and printing of floats; [AgentRunner] adds the HTTP client and
      the executor reply schema, [ProcessSupervisor] the operating system,
      [CoordinatorStore.SqlOrder] the order the database gives to ties,
      [CoordinatorEvents] the language model and the scratchpad's file system, [DevWorkflow.DevPorts] what the Dev agent calls,
      [QaAcceptance.QaPorts] what the QA agent calls,
      [OutboxDelivery] the message bus, [SkillRelease.ReleaseEnv] HMAC, MD5 and
      the JSON spelling of a command, [SkillExecution.redis] the Redis server, [ReleaseProtocol] what becomes of
      each call on the network.  What a theorem needs of them is a
      hypothesis of it, and its witness gives concrete functions.

    ** Files and sources (below [src/shared/control_plane] unless said)

    - [Models]: [models.py].  [StateMachine]: [domain/state_machine.py] and the
      class [Lifecycle] that every lifecycle aggregate instantiates.  [Goal],
      [WorkItem], [ApprovalRequest], [Decision], [AgentRole],
      [EvolutionProposal], [AgentRun], [Metadata], [AuditEvent],
      [CompanyContext], [Artifact], [AgentPromptConfig], [Budget],
      [WakeupAdapter], [ExecutionPolicy] (with [execution_links.py]),
      [GovernancePolicies], [AuditRetention]: the modules of the same name in
      [domain/].  [DomainEvents]: [domain/events.py], [domain_event_audit.py].
      [Lifecycles]: theorems on histories of commands, proved once against
      [Lifecycle].
    - [Store]: the tables and the store modules the ledger calls
      ([audit_event_store], [approval_store], [agent_run_store],
      [artifact_store], [budget_store], [event_outbox_store]).  [Frames]: which
      tables each of them leaves alone.
    - [AgentRunLifecycle]: [domain/lifecycle/agent_run_lifecycle.py] and
      [run_evidence.py].  [BudgetGuard]: [budget_guard.py], [budget_use_cases.py].  [ApprovalGate]: [approval_gate.py] and
      [approval_use_cases.py].
    - [ExecutionLedger]: [execution_store.py] (claim, settle, recover, control).
      [ExecutionInvariants], [ClaimInversion]: the invariant of the ledger, what a
      granted claim went through, which code can deny.  [Scenario]: the ledger as
      a transition system, and a company for the witnesses.
      [ExecutionTheorems]: its guarantees.
    - [AgentRunner]: [agent_runner.py] ([wake], the HTTP and
      builtin adapters) and [adapter_registry.py].  [RunnerTheorems]: their guarantees and those of
      the budgets.  [ProcessSupervisor]: its
      [_execute_process] and the parsing of the command line.
    - Coordinator: [CoordinatorWorkflow], [CoordinatorDispatch] (its domain),
      [CoordinatorStore] and [CoordinatorRefinement] (the two state stores),
      [CoordinatorEvents] (the event use case, its unit of work and the writes of
      [src/shared/infra/scratchpad.py]),
      [OutboxDelivery] (retry of the outbox), [Event]
      ([src/shared/schemas/event.py]).
    - [Outcomes]: [outcome_store.py].  [WorkItems]: [work_item_store.py],
      [work_item_use_cases.py], [work_item_operation_use_cases.py]
      and [work_item_execution_use_cases.py] with the wakeup of
      [agent_operation_use_cases.py].  [Goals]: the stores and use cases of
      goals and decisions.  [Proposals]: those of evolution proposals.
      [OutcomeTheorems], [Tenancy], [WorkItemTheorems]: what they guarantee together.
    - Evolution runtime (below [src/shared/evolution]): [SkillRelease]
      ([domain/skill_release.py], [release_contract.py],
      [domain/experiment.py]), [ReleaseStore] ([db/release_store.py] and the
      tables), [EvolutionRuntime] ([db/repository.py], [canary_router.py], the
      check of [skill_optimizer.py]), [SkillExecution]
      ([db/skill_execution_store.py], [evolution_guard.py], [kill_switch.py]).
      [ReleaseInvariants], [EvolutionHistory]: what each operation did, the invariant of the tables,
      histories of operations.  [ReleaseTheorems]: its guarantees, on the release of
      [ReleaseScenario] for the witnesses.
    - Releases of the control plane: [EvaluationBatch]
      ([src/shared/evolution/evaluation_batch.py]), [Deployment]
      ([evolution_deployment_store.py], [evolution_evaluation_use_cases.py] and
      its store), [ReleaseProtocol] (the routes of
      [api_routes/evolution_releases.py] with [evolution_deployment_gateway.py],
      and the protocol they follow as a step relation over both processes and
      the messages between them).  [DeploymentTriples] says with
      Hoare triples what each operation leaves in the tables.
      [DeploymentTheorems], [ReleaseEvidence], [ReleaseRecovery]: the guarantees, on the release of
      [ReleaseScenario] for the witnesses.
    - Knowledge and retention: [Knowledge] ([domain/knowledge.py],
      [knowledge_store.py], [knowledge_use_cases.py]), [Retention]
      ([domain/physical_retention.py], [retention_store.py],
      [retention_use_cases.py], [api_routes/retention.py]), and their guarantees,
      [RetentionTheorems].
    - Dev agent (below [src/agents/dev_agent]): [DevPlan] (schemas, sanitizer,
      risk, routing and validation of workflows in [core], with
      [src/shared/evolution/prompt_safety_scanner.py]), [DevTasks] (the task
      machine, [models/dev.py], [db/repository.py]), [DevWorkflow] (planning,
      execution, events, requests, result collection of [core], the loop of
      [app/main.py]).  [DevSteps]: what each repository operation changes and the
      rules that carry a property through the use cases; [DevTheorems]: the
      guarantees.  The operations of the agent are atomic here; two that overlap
      in the running agent are not interleaved.
    - QA agent (below [src/agents/qa_agent]): [QaDomain] (the domain and models,
      the translation of events, [shared/core/qa_acceptance.py] and the summary
      of [.acceptance/runner.py]), [QaAcceptance] (tables, stores, runner,
      notifications, outbox and the use cases).  [QaTheorems]: histories in which
      any number of workers are between their checks and their record;
      [QaReports]: the reports of the acceptance framework, and a sample.

    ** What the theorems show

    - Ledger: at most one active lease per resource in every reachable state;
      a reservation is charged exactly once; a granted claim was within every
      applicable budget, held a usable approval when one was required and had
      the authorisation it was granted on; claims are idempotent; settlement and
      recovery have exactly the stated effect, and a denied claim dispatches
      nothing.
    - Runner: an adapter is called only after the lease and the run are
      committed, only at allow-listed addresses; every way a wakeup can end
      leaves the lease settled, charged or held for recovery; a local process
      that is not cancelled from outside is polled no longer than its deadline, then
      reaped and its workspace removed.
    - Budgets, approvals, lifecycles: one active policy per target, the guard's
      decision, approvals resolved once, the reachable statuses of each
      aggregate, and the gates of releases, outcomes and rollouts.
    - Audit: no secret matched by the redaction survives it, the export of a
      window is exact.
    - Coordinator: the PostgreSQL store refines the in-memory one on writes that
      fit its columns, up to the order within a batch; decisions are
      stored before they are projected or published; the outbox loses no event
      and drains when the bus is up; the workflow aggregate replays from its
      events and round-trips through storage.
    - Work and outcomes: over every history of operations a work item is
      completed only with an accepted review of an unchanged artifact of its
      latest run; a review decides whether its item can be completed; a leased
      item is frozen; no command of a company changes another company's rows;
      a rollout to canary or active had an approval, as recorded or as claimed.
    - Evolution runtime: over every history of operations a skill has one live
      version and at most one canary, which has a running experiment with at
      most a tenth of the traces; a command is applied once; a promotion was
      approved and measured; a rollback undoes it; a score counts once.
    - Releases: over every interleaving of evaluations, requests, recoveries,
      deliveries and acknowledgements, with messages lost, late or repeated, a
      command for live traffic traces back to an eligible comparison of recorded
      batches and to an approval of that decision, and the control plane records
      a state only after the runtime has reached it; the routes are runs of this
      protocol, and a lost answer is repaired by reconciliation.
    - Knowledge and retention: in every history an identifier that was deleted
      is never read again and a record keeps its provenance; a retention run
      removes only old, published events that are evidence of nothing, is
      answered alike when it is repeated, and a removed event still answers its
      idempotency key.
    - Dev agent: a workflow is accepted exactly when its dependencies have an
      order; over every history tasks follow their machine, a merge request
      comes after a passed scan, a workflow of high risk runs only through the
      approval gate, the limit of concurrent workflows holds without manual
      retries; and no task is ever delivered, a defect of the log query.
    - QA agent: whatever fails and however workers interleave, runs, findings and
      staged events agree and an event has one run at most; a replayed event
      changes nothing; the framework's gate is the verdict recorded, announced
      and read by the Dev agent.

    ** Bounds and fuel

    [ProcessSupervisor.poll] has fuel [fuel_for timeout], four turns for every
    second of the timeout and two more; [process_put_away] proves that it is
    enough whenever a turn of the loop takes the quarter second it sleeps.  The
    redaction recurses to [MAX_DETAIL_DEPTH] as the source does; the regular
    expression matcher recurses on the text.  The other recursions are
    structural.

    ** Not modelled

    The HTTP API and authentication (routing and parsing around the use cases),
    the scheduler and process entry points, projections that only read
    (timeline, metrics, list endpoints), the language-model calls, the other agents
    and gateways, the optimizer, reflector and memory of the self-evolution
    runtime, and the shared infrastructure clients.  Nor are the
    stores and use cases of companies, artifacts, templates and agent
    registration, and the scratchpad's snapshot, size and compaction. *)

From Stdlib Require Export ZArith Ascii String Sorted.
From stdpp Require Export base option list strings gmap sets pretty.

#[global] Open Scope Z_scope.

Declare Scope cell_scope.
Delimit Scope cell_scope with cell.
#[global] Open Scope cell_scope.

(** ** Python exceptions

    [Exn cls msg] is an instance of the exception class named [cls] with the
    message [msg]; [ExecutionDenied reason status_code] is the exception of
    [domain/execution_policy.py] and [AgentWakeupError detail status_code
    error_category] the one of [agent_runner.py], whose fields the callers read. *)
Inductive exn :=
  | Exn (cls msg : string)
  | ExecutionDenied (reason : string) (status_code : Z)
  | AgentWakeupError (detail : string) (status_code : Z) (error_category : string).

#[global] Instance exn_eq_dec : EqDecision exn.
Proof. solve_decision. Defined.

(** Every exception class of the development derives from [ValueError] except
    the ones listed here. *)
Definition is_value_error (e : exn) : bool :=
  match e with
  | ExecutionDenied _ _ => true
  | AgentWakeupError _ _ _ => false
  | Exn cls _ =>
      negb (bool_decide (cls ∈ ["TypeError"; "KeyError"; "IntegrityError";
                                "OverflowError"; "BudgetExceededError"]))
  end.

(** ** Computations that return or raise *)
Inductive result (A : Type) :=
  | Ok (a : A)
  | Raise (e : exn).
Arguments Ok {_} _.
Arguments Raise {_} _.

#[global] Instance result_ret : MRet result := λ A a, Ok a.
#[global] Instance result_bind : MBind result := λ A B k m,
  match m with Ok a => k a | Raise e => Raise e end.
#[global] Instance result_fmap : FMap result := λ A B f m,
  match m with Ok a => Ok (f a) | Raise e => Raise e end.

Definition raise_if (b : bool) (e : exn) : result unit :=
  if b then Raise e else Ok ().

(** [try: m except ValueError: h] *)
Definition catch_value_error {A} (m : result A) (h : exn → result A) : result A :=
  match m with
  | Ok a => Ok a
  | Raise e => if is_value_error e then h e else Raise e
  end.

Definition is_ok {A} (m : result A) : bool :=
  match m with Ok _ => true | Raise _ => false end.

Section mapR.
Context {A B : Type} (f : A → result B).

Fixpoint mapR (l : list A) : result (list B) :=
  match l with
  | [] => Ok []
  | x :: l' => y ← f x; ys ← mapR l'; Ok (y :: ys)
  end.
End mapR.

Lemma bind_Ok {A B} (m : result A) (k : A → result B) b :
  m ≫= k = Ok b ↔ ∃ a, m = Ok a ∧ k a = Ok b.
Proof. destruct m; cbn; naive_solver. Qed.

Lemma bind_Raise {A B} (m : result A) (k : A → result B) e :
  m ≫= k = Raise e ↔ m = Raise e ∨ ∃ a, m = Ok a ∧ k a = Raise e.
Proof. destruct m; cbn; naive_solver. Qed.

Lemma raise_if_Ok b e u : raise_if b e = Ok u ↔ b = false.
Proof. destruct b, u; cbn; naive_solver. Qed.

Lemma mapR_Ok {A B} (f : A → result B) l l' :
  mapR f l = Ok l' ↔ Forall2 (λ x y, f x = Ok y) l l'.
Proof.
  revert l'; induction l as [|x l IH]; intros l'; cbn.
  - split; [intros [= <-]; constructor | inversion 1; done].
  - rewrite bind_Ok. setoid_rewrite bind_Ok. setoid_rewrite IH. split.
    + intros (y & ? & ys & ? & [= <-]); by constructor.
    + inversion 1; simplify_eq; eauto.
Qed.

(** ** Stateful computations that return or raise

    A Python exception does not undo the mutations made before it, so the
    final state is kept on both branches. *)
Definition M (S A : Type) : Type := S → result A * S.

#[global] Instance M_ret S : MRet (M S) := λ A a s, (Ok a, s).
#[global] Instance M_bind S : MBind (M S) := λ A B k m s,
  match m s with
  | (Ok a, s') => k a s'
  | (Raise e, s') => (Raise e, s')
  end.

Definition raiseM {S A} (e : exn) : M S A := λ s, (Raise e, s).
Definition getM {S} : M S S := λ s, (Ok s, s).
Definition getsM {S A} (f : S → A) : M S A := λ s, (Ok (f s), s).
Definition modifyM {S} (f : S → S) : M S unit := λ s, (Ok (), f s).
Definition liftM {S A} (m : result A) : M S A := λ s, (m, s).
Definition raise_ifM {S} (b : bool) (e : exn) : M S unit :=
  if b then raiseM e else mret ().
Definition whenM {S} (b : bool) (m : M S unit) : M S unit :=
  if b then m else mret ().

(** The outcome of [m] as a value. *)
Definition tryM {S A} (m : M S A) : M S (result A) := λ s,
  let '(r, s') := m s in (Ok r, s').

(** [try: m except ...: h]: the handler starts in the state [m] left. *)
Definition catchM {S A} (m : M S A) (h : exn → M S A) : M S A := λ s,
  match m s with
  | (Ok a, s') => (Ok a, s')
  | (Raise e, s') => h e s'
  end.

Fixpoint forM {S A} (l : list A) (f : A → M S unit) : M S unit :=
  match l with
  | [] => mret ()
  | x :: l' => f x ≫= λ _, forM l' f
  end.

Lemma M_bind_run {S A B} (m : M S A) (k : A → M S B) s :
  (m ≫= k) s = match m s with (Ok a, s') => k a s' | (Raise e, s') => (Raise e, s') end.
Proof. reflexivity. Qed.

Lemma M_bind_inv {S A B} (m : M S A) (k : A → M S B) s r s' :
  (m ≫= k) s = (r, s') →
  (∃ a s1, m s = (Ok a, s1) ∧ k a s1 = (r, s')) ∨
  (∃ e, m s = (Raise e, s') ∧ r = Raise e).
Proof.
  unfold mbind, M_bind. destruct (m s) as [[a|e] s1]; intros; simplify_eq; eauto.
Qed.

Lemma M_bind_Ok {S A B} (m : M S A) (k : A → M S B) s b s' :
  (m ≫= k) s = (Ok b, s') ↔ ∃ a s1, m s = (Ok a, s1) ∧ k a s1 = (Ok b, s').
Proof.
  unfold mbind, M_bind. destruct (m s) as [[a|e] s1]; naive_solver.
Qed.

(** [frame P m]: [m] maintains the state relation [P] on both branches. *)
Definition preserves {S A} (P : S → Prop) (m : M S A) : Prop :=
  ∀ s r s', m s = (r, s') → P s → P s'.

Lemma preserves_bind {S A B} (P : S → Prop) (m : M S A) (k : A → M S B) :
  preserves P m → (∀ a, preserves P (k a)) → preserves P (m ≫= k).
Proof.
  intros Hm Hk s r s' H Hs.
  apply M_bind_inv in H as [(a & s1 & H1 & H2)|(e & H1 & ->)]; [|by eapply Hm].
  eapply Hk; [exact H2|]. by eapply Hm.
Qed.

Lemma preserves_ret {S A} (P : S → Prop) (a : A) : preserves P (mret (M := M S) a).
Proof. by intros s r s' [= <- <-]. Qed.
Lemma preserves_raise {S A} (P : S → Prop) e : preserves P (raiseM (S := S) (A := A) e).
Proof. by intros s r s' [= <- <-]. Qed.
Lemma preserves_lift {S A} (P : S → Prop) (m : result A) : preserves P (liftM (S := S) m).
Proof. by intros s r s' [= <- <-]. Qed.
Lemma preserves_gets {S A} (P : S → Prop) (f : S → A) : preserves P (getsM f).
Proof. by intros s r s' [= <- <-]. Qed.
Lemma preserves_modify {S} (P : S → Prop) (f : S → S) :
  (∀ s, P s → P (f s)) → preserves P (modifyM f).
Proof. intros Hf s r s' [= <- <-]. auto. Qed.
Lemma preserves_raise_if {S} (P : S → Prop) b e : preserves P (raise_ifM (S := S) b e).
Proof. destruct b; [apply preserves_raise | apply preserves_ret]. Qed.
Lemma preserves_when {S} (P : S → Prop) b (m : M S unit) :
  preserves P m → preserves P (whenM b m).
Proof. destruct b; [done | intros _; apply preserves_ret]. Qed.
Lemma preserves_for {S A} (P : S → Prop) (l : list A) (f : A → M S unit) :
  (∀ x, x ∈ l → preserves P (f x)) → preserves P (forM l f).
Proof.
  induction l as [|x l IH]; intros Hf; cbn; [apply preserves_ret|].
  apply preserves_bind; [apply Hf; left|]. intros _. apply IH. intros; apply Hf; by right.
Qed.
Lemma preserves_catch {S A} (P : S → Prop) (m : M S A) h :
  preserves P m → (∀ e, preserves P (h e)) → preserves P (catchM m h).
Proof.
  intros Hm Hh s r s'. unfold catchM. destruct (m s) as [[a|e] s1] eqn:E.
  - intros [= <- <-]. by eapply Hm.
  - intros H ?. eapply Hh; [exact H|]. by eapply Hm.
Qed.

Create HintDb cell.
#[export] Hint Resolve preserves_ret preserves_raise preserves_lift preserves_gets
  preserves_raise_if preserves_when preserves_bind : cell.

(** Splits a hypothesis about a monadic computation into its steps. *)
Ltac inv_bind :=
  repeat match goal with
  | H : mbind (M := result) _ _ = Ok _ |- _ =>
      let a := fresh "a" in let Ha := fresh "Hm" in
      apply bind_Ok in H as (a & Ha & H)
  | H : raise_if _ _ = Ok _ |- _ => apply raise_if_Ok in H
  | H : Ok _ = Ok _ |- _ => injection H as H; subst
  | H : Raise _ = Ok _ |- _ => discriminate H
  | H : mret _ = Ok _ |- _ => injection H as H; subst
  end.

(** ** Strings

    A Python [str] is modelled on the code points below 256 (Latin-1). *)
Definition code (c : ascii) : N := N_of_ascii c.

(** [str.isspace] on one Latin-1 character. *)
Definition is_space (c : ascii) : bool :=
  let n := code c in
  ((9 <=? n)%N && (n <=? 13)%N) || ((28 <=? n)%N && (n <=? 32)%N)
  || (n =? 133)%N || (n =? 160)%N.

Fixpoint lstrip (s : string) : string :=
  match s with
  | EmptyString => ""
  | String c s' => if is_space c then lstrip s' else s
  end.

Fixpoint rstrip (s : string) : string :=
  match s with
  | EmptyString => ""
  | String c s' =>
      match rstrip s' with
      | EmptyString => if is_space c then "" else String c ""
      | r => String c r
      end
  end.

Definition strip (s : string) : string := rstrip (lstrip s).
#[global] Arguments strip : simpl never.

(** [str.lower] on one Latin-1 character. *)
Definition lower_ascii (c : ascii) : ascii :=
  let n := code c in
  if ((65 <=? n) && (n <=? 90))%N
     || ((192 <=? n) && (n <=? 222) && negb (n =? 215))%N
  then ascii_of_N (n + 32) else c.

Fixpoint lower (s : string) : string :=
  match s with
  | EmptyString => ""
  | String c s' => String (lower_ascii c) (lower s')
  end.

(** [not s] for a string *)
Definition str_empty (s : string) : bool :=
  match s with EmptyString => true | _ => false end.

(** [value or ""] *)
Definition str_or_empty (o : option string) : string := default "" o.

(** [s.split(sep)] for a one-character separator *)
Fixpoint str_split (sep : ascii) (s : string) : list string :=
  match s with
  | EmptyString => [""]
  | String c s' =>
      if decide (c = sep) then "" :: str_split sep s'
      else match str_split sep s' with
           | x :: xs => String c x :: xs
           | [] => [String c ""]
           end
  end.

(** [s.rstrip(c)] for one character *)
Fixpoint rstrip_char (c : ascii) (s : string) : string :=
  match s with
  | EmptyString => ""
  | String a s' =>
      let t := rstrip_char c s' in
      if str_empty t && bool_decide (a = c) then "" else String a t
  end.

(** [x if x else None]-style truthiness of an optional string *)
Definition truthy (o : option string) : bool :=
  match o with Some s => negb (str_empty s) | None => false end.

Fixpoint str_join (sep : string) (l : list string) : string :=
  match l with
  | [] => ""
  | [x] => x
  | x :: l' => x +:+ sep +:+ str_join sep l'
  end.

Fixpoint str_startswith (p s : string) : bool :=
  match p, s with
  | EmptyString, _ => true
  | String a p', String b s' => Ascii.eqb a b && str_startswith p' s'
  | _, _ => false
  end.

Fixpoint str_drop (n : nat) (s : string) : string :=
  match n, s with
  | O, _ => s
  | S n', String _ s' => str_drop n' s'
  | S _, EmptyString => ""
  end.

(** [s[:n]] *)
Fixpoint str_take (n : nat) (s : string) : string :=
  match n, s with
  | S n', String c s' => String c (str_take n' s')
  | _, _ => ""
  end.

Lemma str_take_length n s : (String.length (str_take n s) ≤ n)%nat.
Proof.
  revert s. induction n as [|n IH]; intros [|c s]; cbn; try lia.
  specialize (IH s). lia.
Qed.

Lemma str_take_all n s : (String.length s ≤ n)%nat → str_take n s = s.
Proof.
  revert s. induction n as [|n IH]; intros [|c s]; cbn; intros; try done; try lia.
  rewrite IH; [done|lia].
Qed.
#[global] Arguments str_take : simpl never.

Lemma is_space_lower c : is_space (lower_ascii c) = is_space c.
Proof. by destruct c as [[] [] [] [] [] [] [] []]. Qed.

Lemma lower_ascii_idem c : lower_ascii (lower_ascii c) = lower_ascii c.
Proof. by destruct c as [[] [] [] [] [] [] [] []]. Qed.

Lemma lower_idem s : lower (lower s) = lower s.
Proof. induction s as [|c s IH]; cbn; [done|]. by rewrite lower_ascii_idem, IH. Qed.

Lemma lstrip_lower s : lstrip (lower s) = lower (lstrip s).
Proof.
  induction s as [|c s IH]; cbn; [done|]. rewrite is_space_lower.
  by destruct (is_space c).
Qed.

Lemma rstrip_lower s : rstrip (lower s) = lower (rstrip s).
Proof.
  induction s as [|c s IH]; cbn; [done|]. rewrite IH, is_space_lower.
  by destruct (rstrip s); cbn; destruct (is_space c).
Qed.

Lemma strip_lower s : strip (lower s) = lower (strip s).
Proof. unfold strip. by rewrite lstrip_lower, rstrip_lower. Qed.

Lemma rstrip_idem s : rstrip (rstrip s) = rstrip s.
Proof.
  induction s as [|c s IH]; cbn; [done|].
  destruct (rstrip s) as [|d r] eqn:E.
  - destruct (is_space c) eqn:Ec; cbn; by rewrite ?Ec.
  - cbn in *. by rewrite IH.
Qed.

Lemma lstrip_rstrip_head s c s' : lstrip s = String c s' → is_space c = false.
Proof.
  induction s as [|d s IH]; cbn; [done|].
  destruct (is_space d) eqn:Ed; [done|]. by intros [= <- <-].
Qed.

Lemma strip_idem s : strip (strip s) = strip s.
Proof.
  unfold strip. destruct (lstrip s) as [|c s'] eqn:E; [done|].
  apply lstrip_rstrip_head in E.
  assert (lstrip (rstrip (String c s')) = rstrip (String c s')) as ->.
  { cbn. destruct (rstrip s'); rewrite ?E; cbn; by rewrite ?E. }
  apply rstrip_idem.
Qed.

Lemma str_empty_true s : str_empty s = true ↔ s = "".
Proof. by destruct s. Qed.
Lemma str_empty_false s : str_empty s = false ↔ s ≠ "".
Proof. by destruct s. Qed.

(** ** Sorting: Python's [sorted] is stable, as insertion sort is *)
Section sorting.
Context {A : Type} (leb : A → A → bool).

Fixpoint insert_sorted (x : A) (l : list A) : list A :=
  match l with
  | [] => [x]
  | y :: l' => if leb x y then x :: l else y :: insert_sorted x l'
  end.

Definition py_sorted (l : list A) : list A := foldr insert_sorted [] l.

Lemma insert_sorted_perm x l : insert_sorted x l ≡ₚ x :: l.
Proof.
  induction l as [|y l IH]; cbn; [done|].
  destruct (leb x y); [done|]. by rewrite IH, Permutation_swap.
Qed.

Lemma py_sorted_perm l : py_sorted l ≡ₚ l.
Proof.
  induction l as [|x l IH]; cbn; [done|]. by rewrite insert_sorted_perm, IH.
Qed.

Context (leb_total : ∀ x y, leb x y = true ∨ leb y x = true).
Context (leb_trans : ∀ x y z, leb x y = true → leb y z = true → leb x z = true).

Lemma insert_sorted_sorted x l :
  StronglySorted (λ a b, leb a b = true) l →
  StronglySorted (λ a b, leb a b = true) (insert_sorted x l).
Proof.
  induction 1 as [|y l Hs IH Hall]; cbn.
  - by repeat constructor.
  - destruct (leb x y) eqn:E.
    + constructor; [by constructor|]. constructor; [done|].
      eapply Forall_impl; [exact Hall|]. intros; eauto.
    + constructor; [done|]. rewrite insert_sorted_perm. constructor; [|done].
      destruct (leb_total x y); congruence.
Qed.

Lemma py_sorted_sorted l : StronglySorted (λ a b, leb a b = true) (py_sorted l).
Proof. induction l; cbn; [constructor | by apply insert_sorted_sorted]. Qed.
End sorting.

(** Python compares strings by code point, lexicographically. *)
Fixpoint str_leb (a b : string) : bool :=
  match a, b with
  | EmptyString, _ => true
  | String _ _, EmptyString => false
  | String x a', String y b' =>
      if (code x <? code y)%N then true
      else if (code x =? code y)%N then str_leb a' b' else false
  end.

Lemma code_inj x y : code x = code y → x = y.
Proof.
  unfold code. intros H.
  by rewrite <- (ascii_N_embedding x), <- (ascii_N_embedding y), H.
Qed.

Ltac code_cases :=
  repeat match goal with
  | |- context [(?x <? ?y)%N] => destruct (N.ltb_spec x y)
  | H : context [(?x <? ?y)%N] |- _ => destruct (N.ltb_spec x y)
  | |- context [(?x =? ?y)%N] => destruct (N.eqb_spec x y)
  | H : context [(?x =? ?y)%N] |- _ => destruct (N.eqb_spec x y)
  end.

Lemma str_leb_total a b : str_leb a b = true ∨ str_leb b a = true.
Proof.
  revert b; induction a as [|x a IH]; intros [|y b]; cbn; auto.
  code_cases; auto; lia.
Qed.

Lemma str_leb_trans a b c :
  str_leb a b = true → str_leb b c = true → str_leb a c = true.
Proof.
  revert b c; induction a as [|x a IH]; intros [|y b] [|z c]; cbn; try done.
  code_cases; try done; try lia. eauto.
Qed.

Lemma str_leb_antisym a b : str_leb a b = true → str_leb b a = true → a = b.
Proof.
  revert b; induction a as [|x a IH]; intros [|y b]; cbn; try done.
  code_cases; try done; try lia. intros. f_equal; auto using code_inj.
Qed.

Definition str_sorted (l : list string) : list string := py_sorted str_leb l.

(** A list whose order is antisymmetric on it has one sorted rearrangement. *)
Lemma sorted_unique_on {A} (R : A → A → Prop) (l1 l2 : list A) :
  (∀ x y, x ∈ l1 → y ∈ l1 → R x y → R y x → x = y) →
  StronglySorted R l1 → StronglySorted R l2 → l1 ≡ₚ l2 → l1 = l2.
Proof.
  intros Hanti H1. revert l2 Hanti. induction H1 as [|x l1 Hs IH Hall]; intros l2 Hanti H2 HP.
  - by apply Permutation_nil_l in HP.
  - destruct H2 as [|y l2 Hs2 Hall2]; [by apply Permutation_nil_r in HP|].
    assert (x = y) as ->.
    { assert (x ∈ y :: l2) as [->|Hx]%elem_of_cons by (rewrite <- HP; left); [done|].
      assert (y ∈ x :: l1) as Hy by (rewrite HP; left).
      pose proof Hy as [->|Hy']%elem_of_cons; [done|].
      rewrite Forall_forall in Hall, Hall2. apply Hanti; [left|done|auto..]. }
    f_equal. apply IH; [|done|by eapply Permutation_cons_inv].
    intros a b Ha Hb. apply Hanti; by right.
Qed.

Lemma sorted_unique {A} (leb : A → A → bool) (l1 l2 : list A) :
  (∀ x y, leb x y = true → leb y x = true → x = y) →
  StronglySorted (λ a b, leb a b = true) l1 → StronglySorted (λ a b, leb a b = true) l2 →
  l1 ≡ₚ l2 → l1 = l2.
Proof. intros Hanti. apply (sorted_unique_on (λ a b, leb a b = true)). eauto. Qed.

Lemma str_sorted_perm_eq (l1 l2 : list string) :
  l1 ≡ₚ l2 → str_sorted l1 = str_sorted l2.
Proof.
  intros HP. apply (sorted_unique str_leb); [apply str_leb_antisym|..].
  - apply py_sorted_sorted; [apply str_leb_total | apply str_leb_trans].
  - apply py_sorted_sorted; [apply str_leb_total | apply str_leb_trans].
  - unfold str_sorted. by rewrite !py_sorted_perm.
Qed.

(** ** [enum.StrEnum]

    A string enumeration: its members in declaration order and the value of
    each; [str(member)] and an f-string both give the value. *)
Class StrEnum (E : Type) := {
  enum_name : string;
  members : list E;
  value : E → string;
  enum_eq_dec :: EqDecision E;
  members_all : ∀ x : E, x ∈ members;
  value_inj : ∀ x y : E, value x = value y → x = y;
}.
Arguments enum_name E {_}.
Arguments members E {_}.

(** [E(s)]: the member with that value. *)
Definition lookup_value {E} `{!StrEnum E} (s : string) : option E :=
  list_find (λ x, value x = s) (members E) ≫= λ p, Some p.2.

Definition parse_enum {E} `{!StrEnum E} (s : string) : result E :=
  match lookup_value s with
  | Some x => Ok x
  | None => Raise (Exn "ValueError"
              ("'" +:+ s +:+ "' is not a valid " +:+ enum_name E))
  end.

Lemma lookup_value_Some {E} `{!StrEnum E} s (x : E) :
  lookup_value s = Some x ↔ value x = s.
Proof.
  unfold lookup_value. split.
  - destruct (list_find _ _) as [[i y]|] eqn:H; cbn; [|done]. intros [= ->].
    by apply list_find_Some in H as (_ & H & _).
  - intros <-. destruct (list_find _ _) as [[i y]|] eqn:H; cbn.
    + apply list_find_Some in H as (_ & H%value_inj & _). by subst.
    + apply list_find_None in H. rewrite Forall_forall in H.
      destruct (H x); [apply members_all | done].
Qed.

Lemma parse_enum_value {E} `{!StrEnum E} (x : E) : parse_enum (value x) = Ok x.
Proof. unfold parse_enum. by rewrite (proj2 (lookup_value_Some _ x) eq_refl). Qed.

Lemma parse_enum_Ok {E} `{!StrEnum E} s (x : E) : parse_enum s = Ok x ↔ value x = s.
Proof.
  unfold parse_enum. rewrite <- lookup_value_Some.
  destruct (lookup_value s); naive_solver.
Qed.

(** The annotation [E | str]: a member, or a plain string still to be parsed. *)
Inductive enum_or_str (E : Type) :=
  | Member (x : E)
  | Str (s : string).
Arguments Member {_} _.
Arguments Str {_} _.

#[global] Instance enum_or_str_eq_dec E `{EqDecision E} : EqDecision (enum_or_str E).
Proof. solve_decision. Defined.

(** [str(v)] *)
Definition str_of {E} `{!StrEnum E} (v : enum_or_str E) : string :=
  match v with Member x => value x | Str s => s end.

(** Finds the enumeration's instance fields by computation. *)
Ltac solve_str_enum :=
  first [ intros []; cbn; set_solver
        | intros [] []; cbn; intros; first [done | discriminate] ].

Lemma filter_all {A} (P : A → Prop) `{!∀ x, Decision (P x)} (l : list A) :
  (∀ x, x ∈ l → P x) → filter P l = l.
Proof.
  induction l as [|x l IH]; intros Hall; [done|]. rewrite filter_cons_True by (apply Hall; left).
  f_equal. apply IH. intros y Hy. apply Hall. by right.
Qed.
Lemma filter_none {A} (P : A → Prop) `{!∀ x, Decision (P x)} (l : list A) :
  (∀ x, x ∈ l → ¬ P x) → filter P l = [].
Proof.
  induction l as [|x l IH]; intros Hall; [done|]. rewrite filter_cons_False by (apply Hall; left).
  apply IH. intros y Hy. apply Hall. by right.
Qed.

(** ** Rows of a table

    A table is the list of its rows in the order the database returns them. *)
Section rows.
Context {R K : Type} `{EqDecision K} (key : R → K).

Definition get_row (k : K) (t : list R) : option R :=
  head (filter (λ r, key r = k) t).

Definition update_row (k : K) (f : R → R) (t : list R) : list R :=
  (λ r, if decide (key r = k) then f r else r) <$> t.

Lemma get_row_Some k t r : get_row k t = Some r → r ∈ t ∧ key r = k.
Proof.
  unfold get_row. intros H. apply head_Some in H as [l Hl].
  assert (r ∈ filter (λ r, key r = k) t) as Hin by (rewrite Hl; left).
  by apply list_elem_of_filter in Hin as [? ?].
Qed.

Lemma get_row_None k t : get_row k t = None → ∀ r, r ∈ t → key r ≠ k.
Proof.
  unfold get_row. intros H%head_None r Hr Hk.
  assert (r ∈ filter (λ r, key r = k) t) as Hin by (by apply list_elem_of_filter).
  rewrite H in Hin. by apply not_elem_of_nil in Hin.
Qed.

Lemma elem_of_update_row k f t r :
  r ∈ update_row k f t ↔ ∃ r0, r0 ∈ t ∧ r = (if decide (key r0 = k) then f r0 else r0).
Proof. unfold update_row. rewrite list_elem_of_fmap. naive_solver. Qed.

(** A column that [f] leaves alone. *)
Lemma update_row_fmap {B} (g : R → B) k f t :
  (∀ r, g (f r) = g r) → g <$> update_row k f t = g <$> t.
Proof.
  intros Hf. unfold update_row. rewrite <- list_fmap_compose.
  apply list_fmap_ext. intros i r _. cbn. by case_decide.
Qed.

Lemma get_row_update k f t :
  (∀ r, key (f r) = key r) → get_row k (update_row k f t) = f <$> get_row k t.
Proof.
  intros Hf. unfold get_row, update_row. induction t as [|r t IH]; [done|].
  rewrite fmap_cons, !filter_cons. destruct (decide (key r = k)) as [Hk|Hk].
  - by rewrite decide_True by (by rewrite Hf).
  - by rewrite decide_False by done.
Qed.

Lemma get_row_fmap k f t :
  (∀ r, key (f r) = key r) → get_row k (f <$> t) = f <$> get_row k t.
Proof.
  intros Hf. unfold get_row. induction t as [|r t IH]; [done|]. cbn. rewrite Hf. by case_decide.
Qed.

Lemma get_row_snoc k t r :
  k ∉ key <$> t → key r = k → get_row k (t ++ [r]) = Some r.
Proof.
  intros Hk Hr. unfold get_row. rewrite filter_app, filter_cons, decide_True by done.
  assert (filter (λ r, key r = k) t = []) as ->; [|done].
  destruct (filter _ t) as [|r0 l] eqn:Hf; [done|]. exfalso. apply Hk.
  assert (r0 ∈ filter (λ r, key r = k) t) as [<- Hin]%list_elem_of_filter by (rewrite Hf; left).
  by apply list_elem_of_fmap_2.
Qed.

Lemma get_row_elem k t r : NoDup (key <$> t) → r ∈ t → key r = k → get_row k t = Some r.
Proof.
  intros Hnd Hin Hk. destruct (get_row k t) as [r'|] eqn:Hg; [|by destruct (get_row_None _ _ Hg _ Hin)].
  apply get_row_Some in Hg as [Hin' Hk']. f_equal.
  apply list_elem_of_lookup in Hin as [i Hi]. apply list_elem_of_lookup in Hin' as [j Hj].
  assert (i = j) as ->; [|congruence].
  eapply (NoDup_lookup _ _ _ k Hnd); rewrite list_lookup_fmap; [by rewrite Hi, <- Hk | by rewrite Hj, <- Hk'].
Qed.

Lemma update_row_keys k f t :
  (∀ r, key (f r) = key r) → key <$> update_row k f t = key <$> t.
Proof. apply update_row_fmap. Qed.
End rows.

(** Rows are determined by a key without duplicates. *)
Lemma get_row_NoDup {R K} (key : R → K) t r r' :
  NoDup (key <$> t) → r ∈ t → r' ∈ t → key r = key r' → r = r'.
Proof.
  intros Hnd Hr Hr' Hk.
  apply list_elem_of_lookup in Hr as [i Hi]. apply list_elem_of_lookup in Hr' as [j Hj].
  assert (i = j) as ->; [|congruence].
  eapply (NoDup_lookup _ _ _ (key r) Hnd); rewrite list_lookup_fmap; [by rewrite Hi | by rewrite Hj, Hk].
Qed.

(** ** Hoare triples for computations that return or raise

    [triple P m Q X]: run from a state of [P], the computation [m] ends in [Q]
    with its value when it returns, and in [X] when it raises. *)

Definition triple {S A} (P : S → Prop) (m : M S A) (Q : A → S → Prop) (X : S → Prop) : Prop :=
  ∀ s r s', P s → m s = (r, s') → match r with Ok a => Q a s' | Raise _ => X s' end.

Section rules.
Context {S : Type}.
Implicit Types P X : S → Prop.

Lemma triple_bind {A B} P (R : A → S → Prop) (Q : B → S → Prop) X (m : M S A) (k : A → M S B) :
  triple P m R X → (∀ a, triple (R a) (k a) Q X) → triple P (m ≫= k) Q X.
Proof.
  intros Hm Hk s r s' HP H. apply M_bind_inv in H as [(a & s1 & H1 & H2)|(e & H1 & ->)].
  - eapply Hk; [|exact H2]. by apply (Hm _ _ _ HP H1).
  - apply (Hm _ _ _ HP H1).
Qed.

(** A step that keeps the assertion. *)
Lemma triple_step {A B} P (Q : B → S → Prop) X (m : M S A) (k : A → M S B) :
  triple P m (λ _, P) X → (∀ a, triple P (k a) Q X) → triple P (m ≫= k) Q X.
Proof. intros Hm. by apply triple_bind. Qed.

(** A step that keeps the assertion and whose value is remembered. *)
Lemma triple_know {A B} P (φ : A → Prop) (Q : B → S → Prop) X (m : M S A) (k : A → M S B) :
  triple P m (λ a s, φ a ∧ P s) X → (∀ a, φ a → triple P (k a) Q X) → triple P (m ≫= k) Q X.
Proof.
  intros Hm Hk. eapply triple_bind; [exact Hm|]. intros a s r s' [Ha HP]. by apply (Hk a Ha).
Qed.

(** A step whose value is remembered. *)
Lemma triple_learn {A B} P P' (φ : A → Prop) (Q : B → S → Prop) X (m : M S A) (k : A → M S B) :
  triple P m (λ a s, φ a ∧ P' s) X → (∀ a, φ a → triple P' (k a) Q X) → triple P (m ≫= k) Q X.
Proof.
  intros Hm Hk. eapply triple_bind; [exact Hm|]. intros a s r s' [Ha HP]. by apply (Hk a Ha).
Qed.

Lemma triple_conseq {A} P P' (Q Q' : A → S → Prop) X X' (m : M S A) :
  triple P' m Q' X' → (∀ s, P s → P' s) → (∀ a s, Q' a s → Q a s) → (∀ s, X' s → X s) →
  triple P m Q X.
Proof. intros Hm HP HQ HX s r s' Hs H. specialize (Hm s r s' (HP _ Hs) H). destruct r; auto. Qed.

Lemma triple_exists {A B} (φ : A → Prop) (P : A → S → Prop) (Q : B → S → Prop) X (m : M S B) :
  (∀ x, φ x → triple (P x) m Q X) → triple (λ s, ∃ x, φ x ∧ P x s) m Q X.
Proof. intros Hm s r s' (x & Hx & HP) H. by apply (Hm x Hx s r s'). Qed.

Lemma triple_ret {A} P (Q : A → S → Prop) X (a : A) : (∀ s, P s → Q a s) → triple P (mret a) Q X.
Proof. intros HQ s r s' HP [= <- <-]. by apply HQ. Qed.
Lemma triple_raise {A} P (Q : A → S → Prop) X e : (∀ s, P s → X s) → triple P (raiseM e) Q X.
Proof. intros HX s r s' HP [= <- <-]. by apply HX. Qed.
Lemma triple_lift {A} P X (m : result A) : (∀ s, P s → X s) → triple P (liftM m) (λ a s, m = Ok a ∧ P s) X.
Proof. intros HX s r s' HP [= <- <-]. destruct m; [done|]. by apply HX. Qed.
Lemma triple_gets {A} P X (f : S → A) : triple P (getsM f) (λ a s, a = f s ∧ P s) X.
Proof. by intros s r s' HP [= <- <-]. Qed.
Lemma triple_modify P (Q : unit → S → Prop) X f : (∀ s, P s → Q () (f s)) → triple P (modifyM f) Q X.
Proof. intros HQ s r s' HP [= <- <-]. by apply HQ. Qed.
Lemma triple_raise_if P X b e :
  (∀ s, P s → X s) → triple P (raise_ifM b e) (λ _ s, b = false ∧ P s) X.
Proof.
  intros HX s r s' HP. destruct b; intros [= <- <-]; [by apply HX | done].
Qed.
Lemma triple_when P X b (m : M S unit) : triple P m (λ _, P) X → triple P (whenM b m) (λ _, P) X.
Proof. intros Hm s r s' HP. destruct b; [by apply Hm | by intros [= <- <-]]. Qed.
End rules.

(** Walks a computation whose steps keep the assertion. *)
Ltac step := first [eapply triple_step | eapply triple_know].
