(* ===== verification/PyNum.v ===== *)
(** * Python numbers: [float], [decimal.Decimal] and their printed forms

    The control plane stores money twice: Float columns (IEEE binary64) for
    policies and usage, Numeric(18,6) for reservations, and moves between the
    two with [Decimal(str(x))] and [float(d)].  This file models those two types
    and the conversions between them, on the specification floats of the
    standard library, so that every amount can be evaluated. *)

From Stdlib Require Export SpecFloat.
From S2P Require Import Prelude.

(** ** Binary64 floats *)
Abbreviation float := spec_float.

Definition f_add : float → float → float := SFadd 53 1024.
Definition f_zero : float := S754_zero false.
Definition f_lt (x y : float) : bool := SFltb x y.
Definition f_le (x y : float) : bool := SFleb x y.

(** [math.isfinite] *)
Definition f_isfinite (x : float) : bool :=
  match x with
  | S754_zero _ | S754_finite _ _ _ => true
  | S754_infinity _ | S754_nan => false
  end.

(** The nearest float to [± c / d], ties to even. *)
Definition float_of_ratio (s : bool) (c d : positive) : float :=
  SFdiv 53 1024 (S754_finite s c 0) (S754_finite false d 0).

(** ** [decimal.Decimal] under the default context (28 digits, half even) *)
Inductive decimal :=
  | DFin (sign : bool) (coef : N) (exp : Z)
  | DInf (sign : bool)
  | DNaN.

#[global] Instance decimal_eq_dec : EqDecision decimal.
Proof. solve_decision. Defined.

Definition dec_zero : decimal := DFin false 0 0.

Definition signed (s : bool) (c : N) : Z := if s then - Z.of_N c else Z.of_N c.

(** The coefficient of [± c * 10^e] at the smaller exponent [e0]. *)
Definition scale_to (e0 : Z) (s : bool) (c : N) (e : Z) : Z :=
  signed s c * 10 ^ (e - e0).

(** The numeric order; [None] when an operand is a NaN. *)
Definition dec_compare (x y : decimal) : option comparison :=
  match x, y with
  | DFin s1 c1 e1, DFin s2 c2 e2 =>
      let e0 := Z.min e1 e2 in
      Some (Z.compare (scale_to e0 s1 c1 e1) (scale_to e0 s2 c2 e2))
  | DInf s1, DInf s2 =>
      Some (if Bool.eqb s1 s2 then Eq else if s1 then Lt else Gt)
  | DInf s, DFin _ _ _ => Some (if s then Lt else Gt)
  | DFin _ _ _, DInf s => Some (if s then Gt else Lt)
  | _, _ => None
  end.

Definition dec_ltb (x y : decimal) : bool :=
  match dec_compare x y with Some Lt => true | _ => false end.
Definition dec_leb (x y : decimal) : bool :=
  match dec_compare x y with Some Lt | Some Eq => true | _ => false end.
Definition dec_is_finite (x : decimal) : bool :=
  match x with DFin _ _ _ => true | _ => false end.

(** Division of a magnitude by [10^k], rounded half to even. *)
Definition div_half_even (n : N) (d : N) : N :=
  let q := (n / d)%N in
  let r := (2 * (n mod d))%N in
  if (r <? d)%N then q
  else if (d <? r)%N then (q + 1)%N
  else if N.even q then q else (q + 1)%N.

Definition num_digits (n : N) : Z := Z.of_nat (String.length (pretty n)).

(** Rounds a finite result to the 28 digits of the default context. *)
Definition dec_fix (s : bool) (c : N) (e : Z) : decimal :=
  let excess := num_digits c - 28 in
  if excess <=? 0 then DFin s c e
  else
    let c1 := div_half_even c (10 ^ Z.to_N excess)%N in
    if num_digits c1 <=? 28 then DFin s c1 (e + excess)
    else DFin s (c1 / 10)%N (e + excess + 1).

Definition dec_add (x y : decimal) : decimal :=
  match x, y with
  | DFin s1 c1 e1, DFin s2 c2 e2 =>
      let e0 := Z.min e1 e2 in
      let z := scale_to e0 s1 c1 e1 + scale_to e0 s2 c2 e2 in
      let s := if z =? 0 then s1 && s2 else z <? 0 in
      dec_fix s (Z.to_N (Z.abs z)) e0
  | DInf s1, DInf s2 => if Bool.eqb s1 s2 then DInf s1 else DNaN
  | DInf s, DFin _ _ _ | DFin _ _ _, DInf s => DInf s
  | _, _ => DNaN
  end.

(** [x.quantize(Decimal("0.000001"))] on a finite [x]; [None] is
    [InvalidOperation]: the result needs more than 28 digits. *)
Definition dec_quantize6 (x : decimal) : option decimal :=
  match x with
  | DFin s c e =>
      let c' := if -6 <=? e then (c * 10 ^ Z.to_N (e + 6))%N
                else div_half_even c (10 ^ Z.to_N (-6 - e))%N in
      if num_digits c' <=? 28 then Some (DFin s c' (-6)) else None
  | _ => None
  end.

(** ** Digits and printing *)
Fixpoint zeros (n : nat) : string :=
  match n with O => "" | S n' => String "0" (zeros n') end.


Definition sign_str (s : bool) : string := if s then "-" else "".

(** [str(Decimal)] *)
Definition dec_str (x : decimal) : string :=
  match x with
  | DNaN => "NaN"
  | DInf s => sign_str s +:+ "Infinity"
  | DFin s c e =>
      let ds := pretty c in
      let n := Z.of_nat (String.length ds) in
      let left := e + n in
      let dot := if (e <=? 0) && (-6 <? left) then left else 1 in
      let body :=
        if dot <=? 0 then "0." +:+ zeros (Z.to_nat (- dot)) +:+ ds
        else if n <=? dot then ds +:+ zeros (Z.to_nat (dot - n))
        else str_take (Z.to_nat dot) ds +:+ "." +:+ str_drop (Z.to_nat dot) ds in
      let ex := left - dot in
      let tail := if ex =? 0 then ""
                  else "E" +:+ (if 0 <=? ex then "+" else "-") +:+ pretty (Z.abs_N ex) in
      sign_str s +:+ body +:+ tail
  end.

(** [float(Decimal)]: correctly rounded. *)
Definition float_of_decimal (x : decimal) : float :=
  match x with
  | DNaN => S754_nan
  | DInf s => S754_infinity s
  | DFin s 0 _ => S754_zero s
  | DFin s (Npos c) e =>
      match e with
      | Zneg k => float_of_ratio s c (Pos.pow 10 k)
      | Z0 => float_of_ratio s c 1
      | Zpos k => float_of_ratio s (c * Pos.pow 10 k) 1
      end
  end.

(** The float literal [n / 10^k]. *)
Definition float_lit (n : Z) (k : nat) : float :=
  float_of_decimal (DFin (n <? 0) (Z.abs_N n) (- Z.of_nat k)).

(** The exponent [k] with [10^k <= n/d < 10^(k+1)]. *)
Definition floor_log10 (n d : N) : Z :=
  if (d <=? n)%N then num_digits (n / d)%N - 1
  else - num_digits (((d + n - 1) / n) - 1)%N.

(** The decimals of [k] significant digits around [n/d], nearest first. *)
Definition digit_candidates (n d : N) (k : nat) : list decimal :=
  let e := floor_log10 n d - Z.of_nat k + 1 in
  let '(n', d') := if 0 <=? e then (n, d * 10 ^ Z.to_N e)%N
                   else (n * 10 ^ Z.to_N (- e), d)%N in
  let lo := (n' / d')%N in
  let near := div_half_even n' d' in
  let other := if (near =? lo)%N then (lo + 1)%N else lo in
  [DFin false near e; DFin false other e].

(** Drops trailing zeros of a positive coefficient. *)
Fixpoint trim_zeros (fuel : nat) (c : N) (e : Z) : N * Z :=
  match fuel with
  | O => (c, e)
  | S f => if ((c mod 10 =? 0) && (0 <? c))%N then trim_zeros f (c / 10)%N (e + 1) else (c, e)
  end.

(** The shortest decimal that reads back as the positive float [m * 2^e]. *)
Definition shortest (m : positive) (e : Z) : N * Z :=
  let '(n, d) := match e with
                 | Zneg k => (Npos m, Npos (Pos.pow 2 k))
                 | Z0 => (Npos m, 1%N)
                 | Zpos k => (Npos (m * Pos.pow 2 k), 1%N)
                 end in
  let reads x := match SFcompare (float_of_decimal x) (S754_finite false m e) with
                 | Some Eq => true | _ => false end in
  let cands := mjoin (digit_candidates n d <$> seq 1 17) in
  match head (filter (λ x, reads x = true) cands) with
  | Some (DFin _ c k) => trim_zeros 20 c k
  | _ => (n, 0)
  end.

(** [repr(float)], which is also [str(float)] and [json.dumps(float)]. *)
Definition float_repr (x : float) : string :=
  match x with
  | S754_nan => "nan"
  | S754_infinity s => sign_str s +:+ "inf"
  | S754_zero s => sign_str s +:+ "0.0"
  | S754_finite s m e =>
      let '(c, k) := shortest m e in
      let ds := pretty c in
      let n := Z.of_nat (String.length ds) in
      let dot := n + k in
      sign_str s +:+
      (if (-4 <? dot) && (dot <=? 16) then
         if dot <=? 0 then "0." +:+ zeros (Z.to_nat (- dot)) +:+ ds
         else if n <=? dot then ds +:+ zeros (Z.to_nat (dot - n)) +:+ ".0"
         else str_take (Z.to_nat dot) ds +:+ "." +:+ str_drop (Z.to_nat dot) ds
       else
         let ex := dot - 1 in
         str_take 1 ds +:+ (if 1 <? n then "." +:+ str_drop 1 ds else "")
         +:+ "e" +:+ (if 0 <=? ex then "+" else "-")
         +:+ (if Z.abs ex <? 10 then "0" else "") +:+ pretty (Z.abs_N ex))
  end.

(** ** [Decimal(str)] *)
Definition digit_of (c : ascii) : option N :=
  let n := code c in
  if ((48 <=? n) && (n <=? 57))%N then Some (n - 48)%N else None.

(** The longest prefix of digits: its number, its length, the rest. *)
Fixpoint span_digits (acc : N) (k : nat) (s : string) : N * nat * string :=
  match s with
  | String c s' =>
      match digit_of c with
      | Some d => span_digits (acc * 10 + d)%N (S k) s'
      | None => (acc, k, s)
      end
  | EmptyString => (acc, k, "")
  end.

Fixpoint drop_underscores (s : string) : string :=
  match s with
  | EmptyString => ""
  | String c s' => if Ascii.eqb c "_" then drop_underscores s' else String c (drop_underscores s')
  end.

Definition take_sign (s : string) : bool * string :=
  match s with
  | String "-" s' => (true, s')
  | String "+" s' => (false, s')
  | _ => (false, s)
  end.

(** The exponent part after the digits: nothing, or [E[+-]digits]. *)
Definition parse_exponent (s : string) : option Z :=
  match s with
  | EmptyString => Some 0
  | String "e" s' =>
      let '(neg, t) := take_sign s' in
      match span_digits 0 0 t with
      | (n, S _, "") => Some (signed neg n)
      | _ => None
      end
  | _ => None
  end.

Definition all_digits (s : string) : bool :=
  match span_digits 0 0 s with (_, _, "") => true | _ => false end.

(** [Decimal(text)]; [None] is [InvalidOperation]. *)
Definition parse_decimal (text : string) : option decimal :=
  let '(neg, s) := take_sign (lower (drop_underscores (strip text))) in
  if bool_decide (s = "inf") || bool_decide (s = "infinity") then Some (DInf neg)
  else if str_startswith "nan" s && all_digits (str_drop 3 s) then Some DNaN
  else if str_startswith "snan" s && all_digits (str_drop 4 s) then Some DNaN
  else
    let '(i, ki, s1) := span_digits 0 0 s in
    let '(c, kf, s2) := match s1 with
                        | String "." s1' => span_digits i 0 s1'
                        | _ => (i, O, s1)
                        end in
    if (ki + kf =? 0)%nat then None
    else ex ← parse_exponent s2; Some (DFin neg c (ex - Z.of_nat kf)).

(** [Decimal(str(x))] for a float [x] *)
Definition decimal_of_float (x : float) : option decimal := parse_decimal (float_repr x).

(** ** Sanity: printed and parsed values *)
Example repr_tenth : float_repr (float_lit 1 1) = "0.1".
Proof. vm_compute. reflexivity. Qed.
Example repr_sum :
  float_repr (f_add (float_lit 1 1) (float_lit 2 1)) = "0.30000000000000004".
Proof. vm_compute. reflexivity. Qed.
Example repr_small : float_repr (float_lit 1 7) = "1e-07".
Proof. vm_compute. reflexivity. Qed.
Example repr_large : float_repr (float_of_decimal (DFin false 1 22)) = "1e+22".
Proof. vm_compute. reflexivity. Qed.
Example repr_integer : float_repr (float_of_decimal (DFin false 100 0)) = "100.0".
Proof. vm_compute. reflexivity. Qed.
Example repr_third : float_repr (float_of_ratio true 1 3) = "-0.3333333333333333".
Proof. vm_compute. reflexivity. Qed.
Example repr_subnormal :
  float_repr (float_of_decimal (DFin false 5 (-324))) = "5e-324".
Proof. vm_compute. reflexivity. Qed.
Example repr_23 : float_repr (float_of_decimal (DFin false 1 23)) = "1e+23".
Proof. vm_compute. reflexivity. Qed.
Example parse_sci : parse_decimal " -1_2.50e-3 " = Some (DFin true 1250 (-5)).
Proof. vm_compute. reflexivity. Qed.
Example parse_bad : parse_decimal "1.2.3" = None.
Proof. vm_compute. reflexivity. Qed.
Example str_quantized :
  dec_str <$> dec_quantize6 (DFin false 15 (-1)) = Some "1.500000".
Proof. vm_compute. reflexivity. Qed.

(** ** Laws of the decimal order *)
Lemma dec_leb_not_ltb x y :
  dec_is_finite x = true → dec_is_finite y = true →
  dec_leb x y = negb (dec_ltb y x).
Proof.
  destruct x as [s1 c1 e1| |], y as [s2 c2 e2| |]; try done. intros _ _.
  unfold dec_leb, dec_ltb; cbn. rewrite (Z.min_comm e2 e1), Z.compare_antisym.
  by destruct (_ ?= _).
Qed.

#[global] Arguments dec_ltb : simpl never.
#[global] Arguments dec_leb : simpl never.
#[global] Arguments dec_add : simpl never.
#[global] Arguments dec_quantize6 : simpl never.
#[global] Arguments parse_decimal : simpl never.
#[global] Arguments float_repr : simpl never.
#[global] Arguments f_isfinite : simpl never.
