(* ===== verification/PyTime.v ===== *)
(** * Python datetimes and the proleptic Gregorian calendar

    A [datetime] is a wall-clock instant, counted in microseconds from the day
    with ordinal 0, and an optional UTC offset; a naive datetime has none.  The
    calendar functions are those of the standard library's [_pydatetime]. *)

From S2P Require Import Prelude.

Definition us_per_second : Z := 1000000.
Definition us_per_hour : Z := 3600 * us_per_second.
Definition us_per_day : Z := 24 * us_per_hour.

Record datetime := Datetime { dt_local : Z; dt_offset : option Z }.

#[global] Instance datetime_eq_dec : EqDecision datetime.
Proof. solve_decision. Defined.

(** An instant of the UTC time line, in microseconds. *)
Abbreviation instant := Z (only parsing).

(** [value.replace(tzinfo=UTC)] when naive, else [value.astimezone(UTC)] *)
Definition as_utc (d : datetime) : instant :=
  match dt_offset d with
  | None => dt_local d
  | Some off => dt_local d - off
  end.

Definition of_utc (t : instant) : datetime := Datetime t (Some 0).

Lemma as_utc_of_utc t : as_utc (of_utc t) = t.
Proof. cbn. lia. Qed.

(** ** Calendar *)
Definition is_leap (y : Z) : bool :=
  (y mod 4 =? 0) && (negb (y mod 100 =? 0) || (y mod 400 =? 0)).

Definition days_before_year (y : Z) : Z :=
  let y := y - 1 in y * 365 + y / 4 - y / 100 + y / 400.

Definition days_before_month_table (m : Z) : Z :=
  match m with
  | 1 => 0 | 2 => 31 | 3 => 59 | 4 => 90 | 5 => 120 | 6 => 151
  | 7 => 181 | 8 => 212 | 9 => 243 | 10 => 273 | 11 => 304 | 12 => 334
  | _ => 0
  end.

Definition days_in_month_table (m : Z) : Z :=
  match m with
  | 2 => 28 | 4 | 6 | 9 | 11 => 30 | _ => 31
  end.

Definition b2z (b : bool) : Z := if b then 1 else 0.

Definition ymd2ord (y m d : Z) : Z :=
  days_before_year y + (days_before_month_table m + b2z ((2 <? m) && is_leap y)) + d.

(** Linear arithmetic with [/] and [mod] by constants. *)
Ltac zdiv := Z.to_euclidean_division_equations; lia.

(** Month and day of the day number [n] of a year. *)
Definition month_day (leapyear : bool) (n : Z) : Z * Z :=
  let month := Z.shiftr (n + 50) 5 in
  let preceding := days_before_month_table month + b2z ((2 <? month) && leapyear) in
  if n <? preceding then
    let month := month - 1 in
    let preceding := preceding - (days_in_month_table month + b2z ((month =? 2) && leapyear)) in
    (month, n - preceding + 1)
  else (month, n - preceding + 1).

(** The date inside a 400-year cycle, from the day number [n] of the cycle. *)
Definition cycle2ymd (n : Z) : Z * Z * Z :=
  let n100 := n / 36524 in let n := n mod 36524 in
  let n4 := n / 1461 in let n := n mod 1461 in
  let n1 := n / 365 in let n := n mod 365 in
  let year := 1 + n100 * 100 + n4 * 4 + n1 in
  if (n1 =? 4) || (n100 =? 4) then (year - 1, 12, 31)
  else
    let leapyear := (n1 =? 3) && (negb (n4 =? 24) || (n100 =? 3)) in
    let '(m, d) := month_day leapyear n in (year, m, d).

Definition ord2ymd (ordinal : Z) : Z * Z * Z :=
  let n := ordinal - 1 in
  let n400 := n / 146097 in
  let '(y, m, d) := cycle2ymd (n mod 146097) in
  (n400 * 400 + y, m, d).

(** First month of the quarter: [((month - 1) // 3) * 3 + 1]. *)
Definition quarter_month (m : Z) : Z := (m - 1) / 3 * 3 + 1.

Definition days_before_month (leap : bool) (m : Z) : Z :=
  days_before_month_table m + b2z ((2 <? m) && leap).

(** The integers [n], [n+1], ... of a range satisfy [f]. *)
Fixpoint all_below (k : nat) (n : Z) (f : Z → bool) : bool :=
  match k with
  | O => true
  | S k' => if f n then all_below k' (n + 1) f else false
  end.

Lemma all_below_spec k n f i :
  all_below k n f = true → n ≤ i < n + Z.of_nat k → f i = true.
Proof.
  revert n. induction k as [|k IH]; intros n H Hi; [lia|].
  cbn in H. destruct (f n) eqn:E; [|done].
  destruct (decide (i = n)) as [->|]; [done|]. apply (IH (n + 1)); [done | lia].
Qed.

(** Inside a year: 365 or 366 days, checked one by one. *)
Definition year_day_ok (leap : bool) (n : Z) : bool :=
  let '(m, d) := month_day leap n in
  (days_before_month leap m + d =? n + 1) && (1 <=? d) && (1 <=? m) && (m <=? 12)
  && bool_decide (month_day leap (days_before_month leap m) = (m, 1))
  && bool_decide (month_day leap (days_before_month leap (quarter_month m)) = (quarter_month m, 1))
  && (0 <=? days_before_month leap (quarter_month m))
  && (days_before_month leap (quarter_month m) <=? days_before_month leap m).

Lemma year_day_ok_all leap n : 0 ≤ n < 365 + b2z leap → year_day_ok leap n = true.
Proof.
  intros H. destruct leap; cbn in H;
    [apply (all_below_spec 366 0) | apply (all_below_spec 365 0)];
    try lia; vm_compute; reflexivity.
Qed.

(** The first day of each year of the cycle, and which years are leap. *)
Definition year_start_ok (k : Z) : bool :=
  let a := k / 100 in let b := k mod 100 / 4 in let c := k mod 4 in
  (days_before_year (k + 1) =? 36524 * a + 1461 * b + 365 * c)
  && Bool.eqb (is_leap (k + 1)) ((c =? 3) && (negb (b =? 24) || (a =? 3))).

Lemma year_start a b c :
  0 ≤ a ≤ 3 → 0 ≤ b ≤ 24 → 0 ≤ c ≤ 3 →
  days_before_year (1 + a * 100 + b * 4 + c) = 36524 * a + 1461 * b + 365 * c
  ∧ is_leap (1 + a * 100 + b * 4 + c) = ((c =? 3) && (negb (b =? 24) || (a =? 3))).
Proof.
  intros Ha Hb Hc.
  assert (year_start_ok (a * 100 + b * 4 + c) = true) as H.
  { apply (all_below_spec 400 0); [vm_compute; reflexivity | lia]. }
  unfold year_start_ok in H.
  replace ((a * 100 + b * 4 + c) / 100) with a in H by zdiv.
  replace ((a * 100 + b * 4 + c) mod 100 / 4) with b in H by zdiv.
  replace ((a * 100 + b * 4 + c) mod 4) with c in H by zdiv.
  replace (a * 100 + b * 4 + c + 1) with (1 + a * 100 + b * 4 + c) in H by lia.
  apply andb_prop in H as [H1%Z.eqb_eq H2%eqb_prop]. done.
Qed.

Lemma cycle2ymd_split a b c n :
  0 ≤ a ≤ 3 → 0 ≤ b ≤ 24 → 0 ≤ c ≤ 3 → 0 ≤ n < 365 →
  cycle2ymd (36524 * a + 1461 * b + 365 * c + n)
  = let '(m, d) := month_day ((c =? 3) && (negb (b =? 24) || (a =? 3))) n in
    (1 + a * 100 + b * 4 + c, m, d).
Proof.
  intros Ha Hb Hc Hn. unfold cycle2ymd. cbv zeta.
  replace ((36524 * a + 1461 * b + 365 * c + n) / 36524) with a by zdiv.
  replace ((36524 * a + 1461 * b + 365 * c + n) mod 36524)
    with (1461 * b + 365 * c + n) by zdiv.
  replace ((1461 * b + 365 * c + n) / 1461) with b by zdiv.
  replace ((1461 * b + 365 * c + n) mod 1461) with (365 * c + n) by zdiv.
  replace ((365 * c + n) / 365) with c by zdiv.
  replace ((365 * c + n) mod 365) with n by zdiv.
  destruct (Z.eqb_spec c 4), (Z.eqb_spec a 4); try lia. done.
Qed.

(** What holds of every day [n] of a cycle. *)
Definition cycle_day_spec (n : Z) : Prop :=
  ∀ y m d, cycle2ymd n = (y, m, d) →
  ymd2ord y m d = n + 1 ∧ 1 ≤ d ∧ 1 ≤ m ≤ 12
  ∧ cycle2ymd (ymd2ord y m 1 - 1) = (y, m, 1)
  ∧ cycle2ymd (ymd2ord y (quarter_month m) 1 - 1) = (y, quarter_month m, 1)
  ∧ 1 ≤ ymd2ord y (quarter_month m) 1 ≤ ymd2ord y m 1.

(** A date [(y, m, d)] that is the day [k] of the year [y = 1 + 100a + 4b + c]. *)
Lemma date_of_year_day a b c k m d :
  0 ≤ a ≤ 3 → 0 ≤ b ≤ 24 → 0 ≤ c ≤ 3 →
  let y := 1 + a * 100 + b * 4 + c in
  0 ≤ k < 365 + b2z (is_leap y) → month_day (is_leap y) k = (m, d) →
  ymd2ord y m d = 36524 * a + 1461 * b + 365 * c + k + 1 ∧ 1 ≤ d ∧ 1 ≤ m ≤ 12
  ∧ cycle2ymd (ymd2ord y m 1 - 1) = (y, m, 1)
  ∧ cycle2ymd (ymd2ord y (quarter_month m) 1 - 1) = (y, quarter_month m, 1)
  ∧ 1 ≤ ymd2ord y (quarter_month m) 1 ≤ ymd2ord y m 1.
Proof.
  intros Ha Hb Hc y Hk Hmd. destruct (year_start a b c Ha Hb Hc) as [Hdby Hleap].
  fold y in Hdby, Hleap.
  pose proof (year_day_ok_all _ _ Hk) as Hok. unfold year_day_ok in Hok. rewrite Hmd in Hok.
  repeat (apply andb_prop in Hok as [Hok ?]).
  rewrite ?Z.leb_le, ?Z.eqb_eq, ?bool_decide_eq_true in *.
  assert (days_before_month (is_leap y) m < 365) as Hm.
  { unfold days_before_month, days_before_month_table.
    assert (m = 1 ∨ m = 2 ∨ m = 3 ∨ m = 4 ∨ m = 5 ∨ m = 6 ∨ m = 7 ∨ m = 8 ∨ m = 9
            ∨ m = 10 ∨ m = 11 ∨ m = 12) as Hcases by lia.
    destruct (is_leap y); naive_solver lia. }
  assert (∀ m' d', ymd2ord y m' d'
      = 36524 * a + 1461 * b + 365 * c + days_before_month (is_leap y) m' + d') as Hord.
  { intros. unfold ymd2ord, days_before_month. rewrite Hdby. lia. }
  assert (∀ m', 0 ≤ days_before_month (is_leap y) m' < 365 →
     month_day (is_leap y) (days_before_month (is_leap y) m') = (m', 1) →
     cycle2ymd (ymd2ord y m' 1 - 1) = (y, m', 1)) as Hback.
  { intros m' Hm' Hd'. rewrite Hord, Z.add_simpl_r, cycle2ymd_split by lia.
    by rewrite <- Hleap, Hd'. }
  repeat split; try (rewrite ?Hord; lia); apply Hback; try done; lia.
Qed.

Lemma cycle_ok n : 0 ≤ n < 146097 → cycle_day_spec n.
Proof.
  intros Hn y m d H.
  set (a := n / 36524). set (r := n mod 36524). set (b := r / 1461).
  set (r' := r mod 1461). set (c := r' / 365). set (k := r' mod 365).
  assert (n = 36524 * a + 1461 * b + 365 * c + k ∧ 0 ≤ a ≤ 4 ∧ 0 ≤ b ≤ 24 ∧ 0 ≤ c ≤ 4
    ∧ 0 ≤ k < 365 ∧ (a = 4 → b = 0 ∧ c = 0 ∧ k = 0)
    ∧ (c = 4 → k = 0 ∧ (b = 24 → False))) as (En & Ha & Hb & Hc & Hk & Ha4 & Hc4)
    by (subst a b c k r r'; zdiv).
  assert (cycle2ymd n = if (c =? 4) || (a =? 4) then (1 + a * 100 + b * 4 + c - 1, 12, 31)
    else let '(m, d) := month_day ((c =? 3) && (negb (b =? 24) || (a =? 3))) k in
         (1 + a * 100 + b * 4 + c, m, d)) as Hdef by done.
  clearbody a b c k. clear r r'. rewrite Hdef in H. clear Hdef.
  destruct (Z.eqb_spec a 4) as [->|Ha']; [|destruct (Z.eqb_spec c 4) as [->|Hc']].
  - destruct Ha4 as (-> & -> & ->); [done|]. rewrite orb_true_r in H.
    injection H as <- <- <-. subst n.
    apply (date_of_year_day 3 24 3 365); try lia; vm_compute; done.
  - destruct Hc4 as [-> Hb24]; [done|]. cbn [orb] in H.
    replace (1 + a * 100 + b * 4 + 4 - 1) with (1 + a * 100 + b * 4 + 3) in H by lia.
    injection H as <- <- <-.
    destruct (year_start a b 3) as [_ Hl]; try lia.
    replace (b =? 24) with false in Hl by lia. cbn in Hl.
    assert (n = 36524 * a + 1461 * b + 365 * 3 + 365) as -> by lia.
    apply (date_of_year_day a b 3 365); rewrite ?Hl; try lia; vm_compute; done.
  - cbn [orb] in H. destruct (year_start a b c) as [_ Hl]; try lia.
    rewrite <- Hl in H.
    destruct (month_day _ k) as [m' d'] eqn:Hmd. injection H as <- <- <-. subst n.
    apply (date_of_year_day a b c k); try lia; [|done]. destruct (is_leap _); cbn; lia.
Qed.

Lemma ymd2ord_shift k y m d : ymd2ord (k * 400 + y) m d = k * 146097 + ymd2ord y m d.
Proof.
  unfold ymd2ord.
  assert (is_leap (k * 400 + y) = is_leap y) as ->.
  { unfold is_leap. rewrite (Z.add_comm (k * 400)).
    replace ((y + k * 400) mod 4) with (y mod 4) by zdiv.
    replace ((y + k * 400) mod 100) with (y mod 100) by zdiv.
    by replace ((y + k * 400) mod 400) with (y mod 400) by zdiv. }
  unfold days_before_year. cbv zeta. zdiv.
Qed.

(** The facts about the calendar the rest of the development uses. *)
Lemma ord2ymd_facts n y m d :
  ord2ymd n = (y, m, d) →
  ymd2ord y m d = n ∧ 1 ≤ d ∧ 1 ≤ m ≤ 12
  ∧ ord2ymd (ymd2ord y m 1) = (y, m, 1)
  ∧ ord2ymd (ymd2ord y (quarter_month m) 1) = (y, quarter_month m, 1)
  ∧ ymd2ord y (quarter_month m) 1 ≤ ymd2ord y m 1.
Proof.
  unfold ord2ymd. intros H.
  assert (0 ≤ (n - 1) mod 146097 < 146097) as Hr by (apply Z.mod_pos_bound; lia).
  destruct (cycle2ymd ((n - 1) mod 146097)) as [[y0 m0] d0] eqn:E.
  injection H as <- <- <-.
  destruct (cycle_ok _ Hr _ _ _ E) as (H1 & H2 & H3 & H4 & H5 & H6).
  pose proof (Z_div_mod_eq_full (n - 1) 146097).
  assert (ymd2ord y0 m0 1 ≤ ymd2ord y0 m0 d0) by (unfold ymd2ord; lia).
  rewrite !ymd2ord_shift.
  assert (∀ m1, 1 ≤ ymd2ord y0 m1 1 ≤ (n - 1) mod 146097 + 1 →
     cycle2ymd (ymd2ord y0 m1 1 - 1) = (y0, m1, 1) →
     ord2ymd ((n - 1) / 146097 * 146097 + ymd2ord y0 m1 1)
     = ((n - 1) / 146097 * 400 + y0, m1, 1)) as Hstart.
  { intros m1 Hm1 Heq. unfold ord2ymd.
    replace ((n - 1) / 146097 * 146097 + ymd2ord y0 m1 1 - 1)
      with (ymd2ord y0 m1 1 - 1 + (n - 1) / 146097 * 146097) by lia.
    rewrite Z.div_add, Z_mod_plus_full by lia.
    rewrite Z.div_small, Z.mod_small by lia. by rewrite Heq. }
  repeat split; try lia; apply Hstart; try done; lia.
Qed.

(** ** Truncating an instant *)
Definition ordinal_of (t : instant) : Z := t / us_per_day.

(** [now.replace(hour=0, minute=0, second=0, microsecond=0)] *)
Definition at_midnight (t : instant) : instant := ordinal_of t * us_per_day.

(** [now.replace(month=f(month), day=1, hour=0, ...)] *)
Definition at_month_start (f : Z → Z) (t : instant) : instant :=
  let '(y, m, _) := ord2ymd (ordinal_of t) in ymd2ord y (f m) 1 * us_per_day.

Lemma ordinal_of_midnight n : ordinal_of (n * us_per_day) = n.
Proof. unfold ordinal_of. by rewrite Z.div_mul. Qed.

Lemma at_midnight_le t : at_midnight t ≤ t < at_midnight t + us_per_day.
Proof.
  unfold at_midnight, ordinal_of.
  assert (0 < us_per_day) by done.
  pose proof (Z_div_mod_eq_full t us_per_day).
  pose proof (Z.mod_pos_bound t us_per_day). lia.
Qed.

Lemma at_midnight_idem t : at_midnight (at_midnight t) = at_midnight t.
Proof. unfold at_midnight. by rewrite ordinal_of_midnight. Qed.

Lemma at_month_start_le f t :
  f = id ∨ f = quarter_month → at_month_start f t ≤ t.
Proof.
  intros Hf. unfold at_month_start.
  destruct (ord2ymd (ordinal_of t)) as [[y m] d] eqn:E.
  pose proof (at_midnight_le t) as [Hle _]. unfold at_midnight in Hle.
  apply ord2ymd_facts in E as (E & ? & ? & _ & _ & Hq).
  assert (ymd2ord y m 1 ≤ ymd2ord y m d) by (unfold ymd2ord; lia).
  etransitivity; [|exact Hle]. apply Z.mul_le_mono_nonneg_r; [done|].
  destruct Hf as [->| ->]; cbn; lia.
Qed.

Lemma at_month_start_idem f t :
  f = id ∨ f = quarter_month →
  at_month_start f (at_month_start f t) = at_month_start f t.
Proof.
  intros Hf. unfold at_month_start at 2 3.
  destruct (ord2ymd (ordinal_of t)) as [[y m] d] eqn:E.
  apply ord2ymd_facts in E as (_ & _ & Hm & Hid & Hq & _).
  unfold at_month_start. rewrite ordinal_of_midnight.
  destruct Hf as [->| ->]; cbn.
  - by rewrite Hid.
  - rewrite Hq. unfold quarter_month. do 2 f_equal.
    replace ((m - 1) / 3 * 3 + 1 - 1) with ((m - 1) / 3 * 3) by zdiv.
    by rewrite Z.div_mul.
Qed.

Example calendar_leap : ord2ymd (ymd2ord 2024 2 29) = (2024, 2, 29).
Proof. vm_compute. reflexivity. Qed.

(** ** [isoformat] *)

(** A non-negative number with at least [w] digits. *)
Definition zero_pad (w : nat) (n : Z) : string :=
  let t := pretty n in
  Nat.iter (w - String.length t) (String "0") t.

(** [hh:mm:ss] with the microseconds when there are any. *)
Definition iso_hms (us : Z) : string :=
  zero_pad 2 (us / us_per_hour) +:+ ":" +:+ zero_pad 2 (us / (60 * us_per_second) mod 60)
  +:+ ":" +:+ zero_pad 2 (us / us_per_second mod 60)
  +:+ (if us mod us_per_second =? 0 then "" else "." +:+ zero_pad 6 (us mod us_per_second)).

Definition iso_offset (off : Z) : string :=
  let sign := if off <? 0 then "-" else "+" in
  let off := Z.abs off in
  sign +:+ zero_pad 2 (off / us_per_hour) +:+ ":"
  +:+ zero_pad 2 (off / (60 * us_per_second) mod 60)
  +:+ (if off mod (60 * us_per_second) =? 0 then ""
       else ":" +:+ zero_pad 2 (off / us_per_second mod 60)
            +:+ (if off mod us_per_second =? 0 then "" else "." +:+ zero_pad 6 (off mod us_per_second))).

Definition isoformat (sep : string) (d : datetime) : string :=
  let '(y, m, day) := ord2ymd (dt_local d / us_per_day) in
  zero_pad 4 y +:+ "-" +:+ zero_pad 2 m +:+ "-" +:+ zero_pad 2 day +:+ sep
  +:+ iso_hms (dt_local d mod us_per_day)
  +:+ match dt_offset d with None => "" | Some off => iso_offset off end.

Example isoformat_utc :
  isoformat "T" (of_utc (ymd2ord 2026 8 7 * us_per_day + 3723000004)) = "2026-08-07T01:02:03.000004+00:00".
Proof. vm_compute. reflexivity. Qed.
