(* ===== verification/PyValue.v ===== *)
(** * Python values: the [Any] of the records' JSON columns

    Dictionaries keep their insertion order and have string keys; an [Enum] member
    carries its string value, any other object its [str] (also where [repr] would
    be called, as for a datetime inside a container); the constructors are the types the metadata, audit and adapter code tells
    apart.  [str], [bool], [int] and [json.dumps] are modelled on them. *)

From Stdlib Require Export SpecFloat.
From S2P Require Import Prelude PyNum PyTime.

Inductive pyval :=
  | PNone
  | PBool (b : bool)
  | PInt (z : Z)
  | PFloat (f : float)
  | PStr (s : string)
  | PList (l : list pyval)
  | PTuple (l : list pyval)
  | PSet (l : list pyval)
  | PDict (d : list (string * pyval))
  | PEnum (v : string)
  | PDatetime (d : datetime)
  | PObject (text : string).

Abbreviation pydict := (list (string * pyval)).

Section pyval_ind.
Context (P : pyval → Prop).
Context (Hnone : P PNone) (Hbool : ∀ b, P (PBool b)) (Hint : ∀ z, P (PInt z))
  (Hfloat : ∀ f, P (PFloat f)) (Hstr : ∀ s, P (PStr s))
  (Hlist : ∀ l, Forall P l → P (PList l)) (Htuple : ∀ l, Forall P l → P (PTuple l))
  (Hset : ∀ l, Forall P l → P (PSet l))
  (Hdict : ∀ d, Forall (λ kv, P kv.2) d → P (PDict d))
  (Henum : ∀ s, P (PEnum s)) (Hdt : ∀ d, P (PDatetime d))
  (Hobj : ∀ s, P (PObject s)).

Fixpoint pyval_ind' (v : pyval) : P v :=
  let go := fix go (l : list pyval) : Forall P l :=
    match l with
    | [] => Forall_nil_2 P
    | x :: l' => Forall_cons_2 P x l' (pyval_ind' x) (go l')
    end in
  match v with
  | PNone => Hnone
  | PBool b => Hbool b
  | PInt z => Hint z
  | PFloat f => Hfloat f
  | PStr s => Hstr s
  | PList l => Hlist l (go l)
  | PTuple l => Htuple l (go l)
  | PSet l => Hset l (go l)
  | PDict d => Hdict d
      ((fix god (d : list (string * pyval)) : Forall (λ kv, P kv.2) d :=
          match d with
          | [] => Forall_nil_2 _
          | kv :: d' => Forall_cons_2 (λ kv, P kv.2) kv d' (pyval_ind' kv.2) (god d')
          end) d)
  | PEnum s => Henum s
  | PDatetime d => Hdt d
  | PObject s => Hobj s
  end.
End pyval_ind.

(** ** Dictionaries *)
Section dict.
Context {V : Type}.

Fixpoint dict_get (d : list (string * V)) (k : string) : option V :=
  match d with
  | [] => None
  | (k', v) :: d' => if decide (k' = k) then Some v else dict_get d' k
  end.

(** [d[k] = v]: an existing key keeps its position. *)
Fixpoint dict_set (d : list (string * V)) (k : string) (v : V) : list (string * V) :=
  match d with
  | [] => [(k, v)]
  | (k', v') :: d' => if decide (k' = k) then (k', v) :: d' else (k', v') :: dict_set d' k v
  end.

(** [d.pop(k, None)] *)
Definition dict_pop (d : list (string * V)) (k : string) : list (string * V) :=
  filter (λ kv, kv.1 ≠ k) d.

(** [d.update(e)], also [{**d, **e}] *)
Definition dict_update (d e : list (string * V)) : list (string * V) :=
  foldl (λ acc kv, dict_set acc kv.1 kv.2) d e.

Lemma dict_get_set_eq d k v : dict_get (dict_set d k v) k = Some v.
Proof.
  induction d as [|[k' v'] d IH]; cbn; [by case_decide|].
  case_decide; cbn; by case_decide.
Qed.

Lemma dict_get_set_ne d k k' v : k ≠ k' → dict_get (dict_set d k v) k' = dict_get d k'.
Proof.
  intros Hne. induction d as [|[k0 v0] d IH]; cbn; [by case_decide|].
  repeat case_decide; cbn; repeat case_decide; congruence.
Qed.

Lemma dict_set_keys d k v :
  (dict_set d k v).*1 = if decide (k ∈ d.*1) then d.*1 else d.*1 ++ [k].
Proof.
  induction d as [|[k0 v0] d IH]; [done|].
  simpl dict_set. rewrite fmap_cons. change ((k0, v0).1) with k0.
  destruct (decide (k ∈ k0 :: d.*1)) as [Hin|Hin];
    destruct (decide (k0 = k)) as [->|Hne]; rewrite fmap_cons; simpl fst.
  - done.
  - rewrite IH, decide_True by set_solver. done.
  - set_solver.
  - rewrite IH, decide_False by set_solver. done.
Qed.

Lemma dict_get_pop_eq d k : dict_get (dict_pop d k) k = None.
Proof.
  unfold dict_pop. induction d as [|[k0 v0] d IH]; [done|]. rewrite filter_cons. cbn.
  case_decide; [|done]. simpl dict_get. by rewrite decide_False.
Qed.

Lemma dict_set_NoDup d k v : NoDup d.*1 → NoDup (dict_set d k v).*1.
Proof.
  rewrite dict_set_keys. case_decide; [done|]. intros. apply NoDup_app.
  split; [done|]. split; [set_solver | apply NoDup_singleton].
Qed.

Lemma dict_update_NoDup d e : NoDup d.*1 → NoDup (dict_update d e).*1.
Proof.
  unfold dict_update. revert d. induction e as [|[k v] e IH]; cbn; [done|].
  intros. apply IH. by apply dict_set_NoDup.
Qed.
End dict.

(** [value or {}] *)
Definition dict_or_empty (o : option pydict) : pydict := default [] o.

(** [d.get(k)] with Python's [None] default *)
Definition dget (d : pydict) (k : string) : pyval := default PNone (dict_get d k).

(** ** Truthiness *)
Definition py_bool (v : pyval) : bool :=
  match v with
  | PNone => false
  | PBool b => b
  | PInt z => negb (z =? 0)
  | PFloat f => match f with S754_zero _ => false | _ => true end
  | PStr s => negb (str_empty s)
  | PList [] | PTuple [] | PSet [] => false
  | PDict [] => false
  | PEnum s => negb (str_empty s)
  | _ => true
  end.

(** [a or b] *)
Definition py_or (a b : pyval) : pyval := if py_bool a then a else b.

(** ** [repr] and [str] *)
Definition hex_digit (n : N) : string :=
  match n with
  | 10 => "a" | 11 => "b" | 12 => "c" | 13 => "d" | 14 => "e" | 15 => "f"
  | _ => pretty n
  end%N.
Definition hex2 (n : N) : string := hex_digit (n / 16)%N +:+ hex_digit (n mod 16)%N.

Definition char (n : N) : string := String (ascii_of_N n) "".

(** Escape of one character inside [repr(str)] quoted with [q]. *)
Definition repr_char (q : ascii) (c : ascii) : string :=
  let n := code c in
  if (n =? 92)%N then "\\"
  else if Ascii.eqb c q then "\" +:+ String c ""
  else if (n =? 10)%N then "\n"
  else if (n =? 13)%N then "\r"
  else if (n =? 9)%N then "\t"
  else if ((n <? 32) || ((127 <=? n) && (n <=? 160)) || (n =? 173))%N then "\x" +:+ hex2 n
  else String c "".

Fixpoint str_flat_map (f : ascii → string) (s : string) : string :=
  match s with
  | EmptyString => ""
  | String c s' => f c +:+ str_flat_map f s'
  end.

Fixpoint str_has (n : N) (s : string) : bool :=
  match s with
  | EmptyString => false
  | String c s' => (code c =? n)%N || str_has n s'
  end.

Definition str_repr (s : string) : string :=
  let q := if str_has 39 s && negb (str_has 34 s) then ascii_of_N 34 else ascii_of_N 39 in
  String q (str_flat_map (repr_char q) s) +:+ String q "".

Fixpoint py_repr (v : pyval) : string :=
  match v with
  | PNone => "None"
  | PBool b => if b then "True" else "False"
  | PInt z => pretty z
  | PFloat f => float_repr f
  | PStr s => str_repr s
  | PList l => "[" +:+ str_join ", " (map py_repr l) +:+ "]"
  | PTuple l =>
      match l with
      | [x] => "(" +:+ py_repr x +:+ ",)"
      | _ => "(" +:+ str_join ", " (map py_repr l) +:+ ")"
      end
  | PSet l => match l with
              | [] => "set()"
              | _ => "{" +:+ str_join ", " (map py_repr l) +:+ "}"
              end
  | PDict d => "{" +:+ str_join ", "
                 (map (λ kv, str_repr kv.1 +:+ ": " +:+ py_repr kv.2) d) +:+ "}"
  | PEnum s => str_repr s
  | PDatetime d => isoformat " " d
  | PObject s => s
  end.

Definition py_str (v : pyval) : string :=
  match v with
  | PStr s => s
  | PEnum s => s
  | _ => py_repr v
  end.

(** [str(v or "")] *)
Definition py_str_or (v : pyval) : string := if py_bool v then py_str v else "".

(** ** [int(v)] *)
Definition value_error (msg : string) : exn := Exn "ValueError" msg.

(** Digits with single underscores between them. *)
Fixpoint int_digits (acc : N) (after_digit : bool) (s : string) : option N :=
  match s with
  | EmptyString => if after_digit then Some acc else None
  | String c s' =>
      match digit_of c with
      | Some d => int_digits (acc * 10 + d)%N true s'
      | None => if Ascii.eqb c "_" && after_digit then int_digits acc false s' else None
      end
  end.

Definition parse_int (s : string) : option Z :=
  let '(neg, t) := take_sign (strip s) in
  signed neg <$> int_digits 0 false t.

Definition float_trunc (s : bool) (m : positive) (e : Z) : Z :=
  let z := if 0 <=? e then Zpos m * 2 ^ e else Zpos m / 2 ^ (- e) in
  if s then - z else z.

Definition py_int (v : pyval) : result Z :=
  match v with
  | PInt z => Ok z
  | PBool b => Ok (if b then 1 else 0)
  | PFloat (S754_zero _) => Ok 0
  | PFloat (S754_finite s m e) => Ok (float_trunc s m e)
  | PFloat (S754_infinity _) => Raise (Exn "OverflowError" "cannot convert float infinity to integer")
  | PFloat S754_nan => Raise (value_error "cannot convert float NaN to integer")
  | PStr s | PEnum s =>
      match parse_int s with
      | Some z => Ok z
      | None => Raise (value_error ("invalid literal for int() with base 10: " +:+ str_repr s))
      end
  | _ => Raise (Exn "TypeError" "int() argument")
  end.

(** ** [json.dumps(v, sort_keys=True)] *)
Definition json_char (c : ascii) : string :=
  let n := code c in
  if (n =? 34)%N then "\" +:+ char 34
  else if (n =? 92)%N then "\\"
  else if (n =? 8)%N then "\b"
  else if (n =? 12)%N then "\f"
  else if (n =? 10)%N then "\n"
  else if (n =? 13)%N then "\r"
  else if (n =? 9)%N then "\t"
  else if ((n <? 32) || (127 <=? n))%N && negb (n =? 127)%N then "\u00" +:+ hex2 n
  else String c "".

Definition json_str (s : string) : string := char 34 +:+ str_flat_map json_char s +:+ char 34.

Definition key_leb {V} (a b : string * V) : bool := str_leb a.1 b.1.

Section json.
Context (comma colon : string) (allow_nan : bool).

Definition json_member (kv : string * string) : string := json_str kv.1 +:+ colon +:+ kv.2.

Definition json_float (f : float) : result string :=
  if f_isfinite f then Ok (float_repr f)
  else if negb allow_nan then Raise (value_error "Out of range float values are not JSON compliant")
  else Ok (match f with
           | S754_infinity true => "-Infinity" | S754_infinity false => "Infinity" | _ => "NaN"
           end).

Fixpoint json_dump_with (v : pyval) : result string :=
  match v with
  | PNone => Ok "null"
  | PBool b => Ok (if b then "true" else "false")
  | PInt z => Ok (pretty z)
  | PFloat f => json_float f
  | PStr s => Ok (json_str s)
  | PList l | PTuple l =>
      es ← mapR json_dump_with l; Ok ("[" +:+ str_join comma es +:+ "]")
  | PDict d =>
      es ← mapR (λ kv, e ← json_dump_with kv.2; Ok (kv.1, e)) d;
      Ok ("{" +:+ str_join comma (map json_member (py_sorted key_leb es)) +:+ "}")
  | PEnum s => Ok (json_str s)
  | _ => Raise (Exn "TypeError" "Object is not JSON serializable")
  end.
End json.

(** [separators=(",", ":"), allow_nan=False] *)
Definition json_dumps : pyval → result string := json_dump_with "," ":" false.
(** The defaults. *)
Definition json_spaced : pyval → result string := json_dump_with ", " ": " true.
#[global] Arguments json_dumps : simpl never.
#[global] Arguments json_spaced : simpl never.

(** ** What any value answers *)
Definition type_error (msg : string) : exn := Exn "TypeError" msg.
Definition attribute_error : exn := Exn "AttributeError" "object has no attribute 'get'".
(** [v.get], for a value that is asked as a dictionary *)
Definition as_pydict (v : pyval) : result pydict :=
  match v with PDict d => Ok d | _ => Raise attribute_error end.
(** The members of an iterable *)
Definition py_iter (v : pyval) : result (list pyval) :=
  match v with
  | PList l | PTuple l | PSet l => Ok l
  | PStr s => Ok ((λ c, PStr (String c "")) <$> list_ascii_of_string s)
  | PDict d => Ok (PStr <$> d.*1)
  | _ => Raise (type_error "object is not iterable")
  end.
