(* ===== verification/PyRegex.v ===== *)
(** * The fragment of [re] the control plane uses

    A backtracking matcher with Python's priorities: alternatives are tried in
    order and a repetition takes as many characters as it can, giving them back
    one at a time.  Repetition is over character classes only, as in the
    patterns of the sources. *)

From S2P Require Import Prelude.

Inductive regex :=
  | REps
  | RClass (p : ascii → bool)
  | RStar (p : ascii → bool)
  | RSeq (r1 r2 : regex)
  | RAlt (r1 r2 : regex)
  | RBoundary                      (* [\b] *)
  | RBegin                         (* [^] *)
  | REnd.                          (* [$] *)

(** [\w] on a Latin-1 character. *)
Definition is_word (c : ascii) : bool :=
  let n := code c in
  ((48 <=? n) && (n <=? 57) || (65 <=? n) && (n <=? 90) || (97 <=? n) && (n <=? 122)
   || (n =? 95) || (192 <=? n) && negb (n =? 215) && negb (n =? 247)
   || bool_decide (n ∈ [170; 178; 179; 181; 185; 186; 188; 189; 190]))%N.

Definition word_at (s : string) : bool :=
  match s with EmptyString => false | String c _ => is_word c end.

Definition word_before (prev : option ascii) : bool := from_option is_word false prev.

Section star.
Context {A : Type} (p : ascii → bool) (k : option ascii → string → option A).

Fixpoint match_star (prev : option ascii) (s : string) : option A :=
  match s with
  | String c s' =>
      if p c then
        match match_star (Some c) s' with
        | Some r => Some r
        | None => k prev s
        end
      else k prev s
  | EmptyString => k prev s
  end.
End star.

(** [prev] is the character before the position; [k] continues the match. *)
Fixpoint re_match {A} (r : regex) (prev : option ascii) (s : string)
    (k : option ascii → string → option A) : option A :=
  match r with
  | REps => k prev s
  | RClass p =>
      match s with
      | String c s' => if p c then k (Some c) s' else None
      | EmptyString => None
      end
  | RStar p => match_star p k prev s
  | RSeq r1 r2 => re_match r1 prev s (λ prev' s', re_match r2 prev' s' k)
  | RAlt r1 r2 =>
      match re_match r1 prev s k with
      | Some x => Some x
      | None => re_match r2 prev s k
      end
  | RBoundary => if Bool.eqb (word_before prev) (word_at s) then None else k prev s
  | RBegin => match prev with None => k prev s | Some _ => None end
  | REnd => if bool_decide (s = "" ∨ s = String (ascii_of_N 10) "") then k prev s else None
  end.

(** The length of the match that starts here. *)
Definition match_length (r : regex) (prev : option ascii) (s : string) : option nat :=
  re_match r prev s (λ _ rest, Some (String.length s - String.length rest)%nat).

(** [bool(pattern.search(s))] *)
Fixpoint search_from (r : regex) (prev : option ascii) (s : string) : bool :=
  match match_length r prev s with
  | Some _ => true
  | None => match s with
            | EmptyString => false
            | String c s' => search_from r (Some c) s'
            end
  end.
Definition re_search (r : regex) (s : string) : bool := search_from r None s.

(** [pattern.sub(f, s)], for a pattern that matches no empty text; [skip] counts
    the characters of the current match still to be passed over. *)
Fixpoint sub_from (r : regex) (f : string → string) (prev : option ascii) (skip : nat)
    (s : string) : string :=
  match s with
  | EmptyString => ""
  | String c s' =>
      match skip with
      | S skip' => sub_from r f (Some c) skip' s'
      | O => match match_length r prev s with
             | Some (S n) => f (str_take (S n) s) +:+ sub_from r f (Some c) n s'
             | _ => String c (sub_from r f (Some c) 0 s')
             end
      end
  end.
Definition re_sub (r : regex) (f : string → string) (s : string) : string := sub_from r f None 0 s.

(** ** Building patterns, all under [(?i)] *)
Definition chr (c : ascii) : regex := RClass (λ x, Ascii.eqb (lower_ascii x) (lower_ascii c)).
Fixpoint lit (s : string) : regex :=
  match s with
  | EmptyString => REps
  | String c EmptyString => chr c
  | String c s' => RSeq (chr c) (lit s')
  end.
Fixpoint alts (l : list regex) : regex :=
  match l with
  | [] => RClass (λ _, false)
  | [r] => r
  | r :: l' => RAlt r (alts l')
  end.
Fixpoint seqs (l : list regex) : regex :=
  match l with
  | [] => REps
  | [r] => r
  | r :: l' => RSeq r (seqs l')
  end.
Definition opt (r : regex) : regex := RAlt r REps.
(** [p{n,}] and [p{n}] *)
Fixpoint times (n : nat) (p : ascii → bool) : regex :=
  match n with O => REps | S n' => RSeq (RClass p) (times n' p) end.
Definition at_least (n : nat) (p : ascii → bool) : regex := RSeq (times n p) (RStar p).

Definition one_of (chars : string) (c : ascii) : bool :=
  bool_decide (c ∈ list_ascii_of_string chars).
Definition is_digit_char (c : ascii) : bool := ((48 <=? code c) && (code c <=? 57))%N.
Definition is_letter (c : ascii) : bool :=
  ((65 <=? code c) && (code c <=? 90) || (97 <=? code c) && (code c <=? 122))%N.
Definition alnum (c : ascii) : bool := is_digit_char c || is_letter c.
Definition alnum_or (chars : string) (c : ascii) : bool := alnum c || one_of chars c.
