(* ===== verification/Models.v ===== *)
(** * Records and vocabularies of the control plane

    The enumerations and Pydantic records of [shared/control_plane/models.py],
    with the source's members, values and fields.  A field annotated with an
    enumeration holds the member or, since the models are configured with
    [use_enum_values], its plain string value: [enum_or_str].  Field validators
    are the [valid_...] predicates of the records that have them. *)

From S2P Require Import Prelude PyNum PyValue PyTime.

(** ** Vocabularies *)

Inductive GoalStatus :=
  | GoalStatus_DRAFT
  | GoalStatus_ACTIVE
  | GoalStatus_PAUSED
  | GoalStatus_COMPLETED
  | GoalStatus_CANCELLED.
#[global] Instance GoalStatus_eq_dec : EqDecision GoalStatus.
Proof. solve_decision. Defined.
Definition GoalStatus_value (x : GoalStatus) : string :=
  match x with
  | GoalStatus_DRAFT => "draft"
  | GoalStatus_ACTIVE => "active"
  | GoalStatus_PAUSED => "paused"
  | GoalStatus_COMPLETED => "completed"
  | GoalStatus_CANCELLED => "cancelled"
  end.
#[global] Program Instance GoalStatus_StrEnum : StrEnum GoalStatus := {|
  enum_name := "GoalStatus";
  members := [GoalStatus_DRAFT; GoalStatus_ACTIVE; GoalStatus_PAUSED; GoalStatus_COMPLETED; GoalStatus_CANCELLED];
  value := GoalStatus_value;
|}.
Solve All Obligations with solve_str_enum.

Inductive WorkItemStatus :=
  | WorkItemStatus_QUEUED
  | WorkItemStatus_READY
  | WorkItemStatus_RUNNING
  | WorkItemStatus_BLOCKED
  | WorkItemStatus_AWAITING_APPROVAL
  | WorkItemStatus_COMPLETED
  | WorkItemStatus_FAILED
  | WorkItemStatus_CANCELLED.
#[global] Instance WorkItemStatus_eq_dec : EqDecision WorkItemStatus.
Proof. solve_decision. Defined.
Definition WorkItemStatus_value (x : WorkItemStatus) : string :=
  match x with
  | WorkItemStatus_QUEUED => "queued"
  | WorkItemStatus_READY => "ready"
  | WorkItemStatus_RUNNING => "running"
  | WorkItemStatus_BLOCKED => "blocked"
  | WorkItemStatus_AWAITING_APPROVAL => "awaiting_approval"
  | WorkItemStatus_COMPLETED => "completed"
  | WorkItemStatus_FAILED => "failed"
  | WorkItemStatus_CANCELLED => "cancelled"
  end.
#[global] Program Instance WorkItemStatus_StrEnum : StrEnum WorkItemStatus := {|
  enum_name := "WorkItemStatus";
  members := [WorkItemStatus_QUEUED; WorkItemStatus_READY; WorkItemStatus_RUNNING; WorkItemStatus_BLOCKED; WorkItemStatus_AWAITING_APPROVAL; WorkItemStatus_COMPLETED; WorkItemStatus_FAILED; WorkItemStatus_CANCELLED];
  value := WorkItemStatus_value;
|}.
Solve All Obligations with solve_str_enum.

Inductive WorkItemPriority :=
  | WorkItemPriority_LOW
  | WorkItemPriority_MEDIUM
  | WorkItemPriority_HIGH
  | WorkItemPriority_CRITICAL.
#[global] Instance WorkItemPriority_eq_dec : EqDecision WorkItemPriority.
Proof. solve_decision. Defined.
Definition WorkItemPriority_value (x : WorkItemPriority) : string :=
  match x with
  | WorkItemPriority_LOW => "low"
  | WorkItemPriority_MEDIUM => "medium"
  | WorkItemPriority_HIGH => "high"
  | WorkItemPriority_CRITICAL => "critical"
  end.
#[global] Program Instance WorkItemPriority_StrEnum : StrEnum WorkItemPriority := {|
  enum_name := "WorkItemPriority";
  members := [WorkItemPriority_LOW; WorkItemPriority_MEDIUM; WorkItemPriority_HIGH; WorkItemPriority_CRITICAL];
  value := WorkItemPriority_value;
|}.
Solve All Obligations with solve_str_enum.

Inductive AgentKind :=
  | AgentKind_ORGANIZATION_ROLE
  | AgentKind_BUSINESS_RUNTIME_AGENT
  | AgentKind_CAPABILITY_MODULE
  | AgentKind_INTEGRATION_GATEWAY
  | AgentKind_SYSTEM_WORKER.
#[global] Instance AgentKind_eq_dec : EqDecision AgentKind.
Proof. solve_decision. Defined.
Definition AgentKind_value (x : AgentKind) : string :=
  match x with
  | AgentKind_ORGANIZATION_ROLE => "organization_role"
  | AgentKind_BUSINESS_RUNTIME_AGENT => "business_runtime_agent"
  | AgentKind_CAPABILITY_MODULE => "capability_module"
  | AgentKind_INTEGRATION_GATEWAY => "integration_gateway"
  | AgentKind_SYSTEM_WORKER => "system_worker"
  end.
#[global] Program Instance AgentKind_StrEnum : StrEnum AgentKind := {|
  enum_name := "AgentKind";
  members := [AgentKind_ORGANIZATION_ROLE; AgentKind_BUSINESS_RUNTIME_AGENT; AgentKind_CAPABILITY_MODULE; AgentKind_INTEGRATION_GATEWAY; AgentKind_SYSTEM_WORKER];
  value := AgentKind_value;
|}.
Solve All Obligations with solve_str_enum.

Inductive AgentInteractionMode :=
  | AgentInteractionMode_DIRECT
  | AgentInteractionMode_ROUTED
  | AgentInteractionMode_INTERNAL
  | AgentInteractionMode_NONE.
#[global] Instance AgentInteractionMode_eq_dec : EqDecision AgentInteractionMode.
Proof. solve_decision. Defined.
Definition AgentInteractionMode_value (x : AgentInteractionMode) : string :=
  match x with
  | AgentInteractionMode_DIRECT => "direct"
  | AgentInteractionMode_ROUTED => "routed"
  | AgentInteractionMode_INTERNAL => "internal"
  | AgentInteractionMode_NONE => "none"
  end.
#[global] Program Instance AgentInteractionMode_StrEnum : StrEnum AgentInteractionMode := {|
  enum_name := "AgentInteractionMode";
  members := [AgentInteractionMode_DIRECT; AgentInteractionMode_ROUTED; AgentInteractionMode_INTERNAL; AgentInteractionMode_NONE];
  value := AgentInteractionMode_value;
|}.
Solve All Obligations with solve_str_enum.

Inductive AgentRunStatus :=
  | AgentRunStatus_PENDING
  | AgentRunStatus_RUNNING
  | AgentRunStatus_SUCCEEDED
  | AgentRunStatus_FAILED
  | AgentRunStatus_CANCELLED
  | AgentRunStatus_TIMED_OUT.
#[global] Instance AgentRunStatus_eq_dec : EqDecision AgentRunStatus.
Proof. solve_decision. Defined.
Definition AgentRunStatus_value (x : AgentRunStatus) : string :=
  match x with
  | AgentRunStatus_PENDING => "pending"
  | AgentRunStatus_RUNNING => "running"
  | AgentRunStatus_SUCCEEDED => "succeeded"
  | AgentRunStatus_FAILED => "failed"
  | AgentRunStatus_CANCELLED => "cancelled"
  | AgentRunStatus_TIMED_OUT => "timed_out"
  end.
#[global] Program Instance AgentRunStatus_StrEnum : StrEnum AgentRunStatus := {|
  enum_name := "AgentRunStatus";
  members := [AgentRunStatus_PENDING; AgentRunStatus_RUNNING; AgentRunStatus_SUCCEEDED; AgentRunStatus_FAILED; AgentRunStatus_CANCELLED; AgentRunStatus_TIMED_OUT];
  value := AgentRunStatus_value;
|}.
Solve All Obligations with solve_str_enum.

Inductive DecisionStatus :=
  | DecisionStatus_PROPOSED
  | DecisionStatus_ACCEPTED
  | DecisionStatus_REJECTED
  | DecisionStatus_SUPERSEDED.
#[global] Instance DecisionStatus_eq_dec : EqDecision DecisionStatus.
Proof. solve_decision. Defined.
Definition DecisionStatus_value (x : DecisionStatus) : string :=
  match x with
  | DecisionStatus_PROPOSED => "proposed"
  | DecisionStatus_ACCEPTED => "accepted"
  | DecisionStatus_REJECTED => "rejected"
  | DecisionStatus_SUPERSEDED => "superseded"
  end.
#[global] Program Instance DecisionStatus_StrEnum : StrEnum DecisionStatus := {|
  enum_name := "DecisionStatus";
  members := [DecisionStatus_PROPOSED; DecisionStatus_ACCEPTED; DecisionStatus_REJECTED; DecisionStatus_SUPERSEDED];
  value := DecisionStatus_value;
|}.
Solve All Obligations with solve_str_enum.

Inductive ApprovalCategory :=
  | ApprovalCategory_FINANCE
  | ApprovalCategory_LEGAL
  | ApprovalCategory_CUSTOMER
  | ApprovalCategory_TECHNICAL.
#[global] Instance ApprovalCategory_eq_dec : EqDecision ApprovalCategory.
Proof. solve_decision. Defined.
Definition ApprovalCategory_value (x : ApprovalCategory) : string :=
  match x with
  | ApprovalCategory_FINANCE => "finance"
  | ApprovalCategory_LEGAL => "legal"
  | ApprovalCategory_CUSTOMER => "customer"
  | ApprovalCategory_TECHNICAL => "technical"
  end.
#[global] Program Instance ApprovalCategory_StrEnum : StrEnum ApprovalCategory := {|
  enum_name := "ApprovalCategory";
  members := [ApprovalCategory_FINANCE; ApprovalCategory_LEGAL; ApprovalCategory_CUSTOMER; ApprovalCategory_TECHNICAL];
  value := ApprovalCategory_value;
|}.
Solve All Obligations with solve_str_enum.

Inductive ApprovalStatus :=
  | ApprovalStatus_PENDING
  | ApprovalStatus_APPROVED
  | ApprovalStatus_REJECTED
  | ApprovalStatus_EXPIRED
  | ApprovalStatus_CANCELLED.
#[global] Instance ApprovalStatus_eq_dec : EqDecision ApprovalStatus.
Proof. solve_decision. Defined.
Definition ApprovalStatus_value (x : ApprovalStatus) : string :=
  match x with
  | ApprovalStatus_PENDING => "pending"
  | ApprovalStatus_APPROVED => "approved"
  | ApprovalStatus_REJECTED => "rejected"
  | ApprovalStatus_EXPIRED => "expired"
  | ApprovalStatus_CANCELLED => "cancelled"
  end.
#[global] Program Instance ApprovalStatus_StrEnum : StrEnum ApprovalStatus := {|
  enum_name := "ApprovalStatus";
  members := [ApprovalStatus_PENDING; ApprovalStatus_APPROVED; ApprovalStatus_REJECTED; ApprovalStatus_EXPIRED; ApprovalStatus_CANCELLED];
  value := ApprovalStatus_value;
|}.
Solve All Obligations with solve_str_enum.

Inductive ArtifactType :=
  | ArtifactType_PRD
  | ArtifactType_REPORT
  | ArtifactType_QA_RESULT
  | ArtifactType_ISSUE
  | ArtifactType_MERGE_REQUEST
  | ArtifactType_CODE_PATCH
  | ArtifactType_RUN_WALKTHROUGH
  | ArtifactType_OTHER.
#[global] Instance ArtifactType_eq_dec : EqDecision ArtifactType.
Proof. solve_decision. Defined.
Definition ArtifactType_value (x : ArtifactType) : string :=
  match x with
  | ArtifactType_PRD => "prd"
  | ArtifactType_REPORT => "report"
  | ArtifactType_QA_RESULT => "qa_result"
  | ArtifactType_ISSUE => "issue"
  | ArtifactType_MERGE_REQUEST => "merge_request"
  | ArtifactType_CODE_PATCH => "code_patch"
  | ArtifactType_RUN_WALKTHROUGH => "run_walkthrough"
  | ArtifactType_OTHER => "other"
  end.
#[global] Program Instance ArtifactType_StrEnum : StrEnum ArtifactType := {|
  enum_name := "ArtifactType";
  members := [ArtifactType_PRD; ArtifactType_REPORT; ArtifactType_QA_RESULT; ArtifactType_ISSUE; ArtifactType_MERGE_REQUEST; ArtifactType_CODE_PATCH; ArtifactType_RUN_WALKTHROUGH; ArtifactType_OTHER];
  value := ArtifactType_value;
|}.
Solve All Obligations with solve_str_enum.

Inductive BudgetScope :=
  | BudgetScope_COMPANY
  | BudgetScope_GOAL
  | BudgetScope_AGENT
  | BudgetScope_WORK_ITEM.
#[global] Instance BudgetScope_eq_dec : EqDecision BudgetScope.
Proof. solve_decision. Defined.
Definition BudgetScope_value (x : BudgetScope) : string :=
  match x with
  | BudgetScope_COMPANY => "company"
  | BudgetScope_GOAL => "goal"
  | BudgetScope_AGENT => "agent"
  | BudgetScope_WORK_ITEM => "work_item"
  end.
#[global] Program Instance BudgetScope_StrEnum : StrEnum BudgetScope := {|
  enum_name := "BudgetScope";
  members := [BudgetScope_COMPANY; BudgetScope_GOAL; BudgetScope_AGENT; BudgetScope_WORK_ITEM];
  value := BudgetScope_value;
|}.
Solve All Obligations with solve_str_enum.

Inductive BudgetPeriod :=
  | BudgetPeriod_DAILY
  | BudgetPeriod_MONTHLY
  | BudgetPeriod_QUARTERLY
  | BudgetPeriod_TOTAL.
#[global] Instance BudgetPeriod_eq_dec : EqDecision BudgetPeriod.
Proof. solve_decision. Defined.
Definition BudgetPeriod_value (x : BudgetPeriod) : string :=
  match x with
  | BudgetPeriod_DAILY => "daily"
  | BudgetPeriod_MONTHLY => "monthly"
  | BudgetPeriod_QUARTERLY => "quarterly"
  | BudgetPeriod_TOTAL => "total"
  end.
#[global] Program Instance BudgetPeriod_StrEnum : StrEnum BudgetPeriod := {|
  enum_name := "BudgetPeriod";
  members := [BudgetPeriod_DAILY; BudgetPeriod_MONTHLY; BudgetPeriod_QUARTERLY; BudgetPeriod_TOTAL];
  value := BudgetPeriod_value;
|}.
Solve All Obligations with solve_str_enum.

Inductive EvolutionTier :=
  | EvolutionTier_L1
  | EvolutionTier_L2
  | EvolutionTier_L3.
#[global] Instance EvolutionTier_eq_dec : EqDecision EvolutionTier.
Proof. solve_decision. Defined.
Definition EvolutionTier_value (x : EvolutionTier) : string :=
  match x with
  | EvolutionTier_L1 => "L1"
  | EvolutionTier_L2 => "L2"
  | EvolutionTier_L3 => "L3"
  end.
#[global] Program Instance EvolutionTier_StrEnum : StrEnum EvolutionTier := {|
  enum_name := "EvolutionTier";
  members := [EvolutionTier_L1; EvolutionTier_L2; EvolutionTier_L3];
  value := EvolutionTier_value;
|}.
Solve All Obligations with solve_str_enum.

Inductive EvolutionRolloutState :=
  | EvolutionRolloutState_PROPOSED
  | EvolutionRolloutState_SHADOW
  | EvolutionRolloutState_CANARY
  | EvolutionRolloutState_ACTIVE
  | EvolutionRolloutState_ROLLED_BACK
  | EvolutionRolloutState_REJECTED.
#[global] Instance EvolutionRolloutState_eq_dec : EqDecision EvolutionRolloutState.
Proof. solve_decision. Defined.
Definition EvolutionRolloutState_value (x : EvolutionRolloutState) : string :=
  match x with
  | EvolutionRolloutState_PROPOSED => "proposed"
  | EvolutionRolloutState_SHADOW => "shadow"
  | EvolutionRolloutState_CANARY => "canary"
  | EvolutionRolloutState_ACTIVE => "active"
  | EvolutionRolloutState_ROLLED_BACK => "rolled_back"
  | EvolutionRolloutState_REJECTED => "rejected"
  end.
#[global] Program Instance EvolutionRolloutState_StrEnum : StrEnum EvolutionRolloutState := {|
  enum_name := "EvolutionRolloutState";
  members := [EvolutionRolloutState_PROPOSED; EvolutionRolloutState_SHADOW; EvolutionRolloutState_CANARY; EvolutionRolloutState_ACTIVE; EvolutionRolloutState_ROLLED_BACK; EvolutionRolloutState_REJECTED];
  value := EvolutionRolloutState_value;
|}.
Solve All Obligations with solve_str_enum.

(** ** Records *)

Record CompanyContextRecord := {
  cc_company_id : string;
  cc_name : string;
  cc_mission : string;
  cc_metadata : pydict;
  cc_created_at : datetime;
  cc_updated_at : datetime;
}.

Record GoalRecord := {
  goal_id : string;
  goal_company_id : string;
  goal_title : string;
  goal_description : string;
  goal_record_status : option (enum_or_str GoalStatus);
  goal_parent_goal_id : option string;
  goal_owner_agent_id : option string;
  goal_owner_user_id : option string;
  goal_success_metric : string;
  goal_target_value : option float;
  goal_current_value : option float;
  goal_due_at : option datetime;
  goal_tags : list string;
  goal_metadata : pydict;
  goal_created_at : datetime;
  goal_updated_at : datetime;
}.

Record AgentRoleRecord := {
  role_id : string;
  role_company_id : string;
  role_agent_id : string;
  role_display_name : string;
  role_agent_kind : enum_or_str AgentKind;
  role_interaction_mode : enum_or_str AgentInteractionMode;
  role_role : string;
  role_title : string;
  role_domain : string;
  role_reports_to_agent_id : option string;
  role_adapter_type : string;
  role_adapter_config : pydict;
  role_context_sources : list string;
  role_capabilities : list string;
  role_responsibilities : list string;
  role_subscribed_events : list string;
  role_published_events : list string;
  role_permissions : list string;
  role_budget_policy_id : option string;
  role_escalation_policy : pydict;
  role_record_status : option string;
  role_created_by : string;
  role_metadata : pydict;
  role_created_at : datetime;
  role_updated_at : datetime;
}.

Record WorkItemRecord := {
  wi_work_item_id : string;
  wi_company_id : string;
  wi_title : string;
  wi_description : string;
  wi_record_status : option (enum_or_str WorkItemStatus);
  wi_priority : enum_or_str WorkItemPriority;
  wi_goal_id : option string;
  wi_owner_agent_id : option string;
  wi_owner_user_id : option string;
  wi_source : string;
  wi_external_ref : option string;
  wi_dependencies : list string;
  wi_approval_required : bool;
  wi_metadata : pydict;
  wi_created_at : datetime;
  wi_updated_at : datetime;
}.

Record AgentRunRecord := {
  run_id : string;
  run_company_id : string;
  run_agent_id : string;
  run_record_status : enum_or_str AgentRunStatus;
  run_trace_id : option string;
  run_goal_id : option string;
  run_work_item_id : option string;
  run_trigger_event_id : option string;
  run_input_event : option pydict;
  run_output_events : list pydict;
  run_started_at : datetime;
  run_completed_at : option datetime;
  run_error_category : option string;
  run_error_message : option string;
  run_last_successful_step : option string;
  run_cost_usd : float;
  run_input_tokens : Z;
  run_output_tokens : Z;
  run_metadata : pydict;
}.

Record DecisionRecord := {
  decision_id : string;
  decision_company_id : string;
  decision_title : string;
  decision_rationale : string;
  decision_record_status : option (enum_or_str DecisionStatus);
  decision_run_id : option string;
  decision_work_item_id : option string;
  decision_goal_id : option string;
  decision_options : list pydict;
  decision_selected_option : option string;
  decision_decided_by : option string;
  decision_metadata : pydict;
  decision_created_at : datetime;
  decision_updated_at : datetime;
}.

Record ApprovalRequestRecord := {
  approval_id : string;
  approval_company_id : string;
  approval_category : enum_or_str ApprovalCategory;
  approval_record_status : option (enum_or_str ApprovalStatus);
  approval_requested_by : string;
  approval_source_agent_id : string;
  approval_proposed_action : string;
  approval_reason : string;
  approval_risk : string;
  approval_rollback_note : string;
  approval_affected_resources : list string;
  approval_artifact_links : list string;
  approval_run_id : option string;
  approval_work_item_id : option string;
  approval_goal_id : option string;
  approval_trace_id : option string;
  approval_resolved_by : option string;
  approval_resolved_at : option datetime;
  approval_expires_at : option datetime;
  approval_metadata : pydict;
  approval_created_at : datetime;
  approval_updated_at : datetime;
}.

Record ArtifactRecord := {
  artifact_id : string;
  artifact_company_id : string;
  artifact_type : enum_or_str ArtifactType;
  artifact_title : string;
  artifact_uri : string;
  artifact_content_hash : option string;
  artifact_run_id : option string;
  artifact_work_item_id : option string;
  artifact_goal_id : option string;
  artifact_created_by_agent_id : option string;
  artifact_metadata : pydict;
  artifact_created_at : datetime;
}.

Record BudgetPolicyRecord := {
  bp_budget_id : string;
  bp_company_id : string;
  bp_scope : enum_or_str BudgetScope;
  bp_period : enum_or_str BudgetPeriod;
  bp_limit_usd : float;
  bp_scope_id : option string;
  bp_warning_threshold : float;
  bp_status : option string;
  bp_model_allowlist : list string;
  bp_metadata : option pydict;
  bp_created_at : datetime;
  bp_updated_at : datetime;
}.

Record BudgetUsageRecord := {
  bu_usage_id : string;
  bu_company_id : string;
  bu_budget_id : string;
  bu_cost_usd : float;
  bu_model : option string;
  bu_input_tokens : option Z;
  bu_output_tokens : option Z;
  bu_run_id : option string;
  bu_trace_id : option string;
  bu_metadata : option pydict;
  bu_created_at : datetime;
}.

Record AuditEventRecord := {
  ae_audit_event_id : string;
  ae_company_id : string;
  ae_action : string;
  ae_target_type : string;
  ae_target_id : string;
  ae_actor_type : string;
  ae_actor_id : string;
  ae_trace_id : option string;
  ae_run_id : option string;
  ae_work_item_id : option string;
  ae_idempotency_key : option string;
  ae_detail : pydict;
  ae_created_at : datetime;
}.

Record EvolutionProposalRecord := {
  proposal_id : string;
  proposal_company_id : string;
  proposal_tier : enum_or_str EvolutionTier;
  proposal_scope : string;
  proposal_evidence : pydict;
  proposal_expected_benefit : string;
  proposal_risk : string;
  proposal_approval_state : option (enum_or_str ApprovalStatus);
  proposal_record_rollout_state : option (enum_or_str EvolutionRolloutState);
  proposal_approval_id : option string;
  proposal_metadata : pydict;
  proposal_created_at : datetime;
  proposal_updated_at : datetime;
}.

(** ** Field validators *)

(** [ApprovalRequest]: non-empty decision context and affected resources. *)
Definition valid_approval_request (r : ApprovalRequestRecord) : bool :=
  negb (str_empty (approval_proposed_action r)) && negb (str_empty (approval_reason r))
  && negb (str_empty (approval_risk r)) && negb (str_empty (approval_rollback_note r))
  && negb (bool_decide (approval_affected_resources r = [])).

(** [BudgetPolicy]: a positive limit and a warning threshold in (0, 1]. *)
Definition valid_budget_policy (r : BudgetPolicyRecord) : bool :=
  negb (f_le (bp_limit_usd r) f_zero)
  && negb (f_le (bp_warning_threshold r) f_zero || f_lt (float_lit 1 0) (bp_warning_threshold r)).

(** [BudgetUsage]: non-negative cost and token counts. *)
Definition valid_budget_usage (r : BudgetUsageRecord) : bool :=
  negb (f_lt (bu_cost_usd r) f_zero)
  && negb (default 0 (bu_input_tokens r) <? 0) && negb (default 0 (bu_output_tokens r) <? 0).
