(* ===== verification/AuditRetention.v ===== *)
(** * Audit redaction and export ([domain/audit_retention.py])

    The bounded redaction of audit detail and the tenant-scoped export window. *)

From S2P Require Import Prelude PyNum PyTime PyValue PyRegex Models.

Definition MAX_AUDIT_RETENTION_DAYS : Z := 3650.
Definition MAX_DETAIL_DEPTH : nat := 8.
Definition MAX_DETAIL_ITEMS : nat := 100.
Definition MAX_DETAIL_STRING_LENGTH : nat := 4096.

(** ** The patterns *)
Definition _SENSITIVE_KEY : regex := alts
  [lit "secret"; lit "token"; lit "password"; lit "passwd";
   RSeq (lit "auth") (opt (lit "orization")); lit "cookie"; lit "credential";
   seqs [lit "api"; opt (RClass (one_of "_-")); lit "key"];
   seqs [lit "private"; opt (RClass (one_of "_-")); lit "key"];
   seqs [lit "session"; opt (RClass (one_of "_-")); lit "key"]].

Definition key_start : regex := RAlt RBegin (RClass (one_of "_-")).
Definition key_end : regex := RAlt REnd (RClass (one_of "_-")).

Definition _FREEFORM_KEY : regex := seqs
  [key_start;
   alts (lit <$> ["body"; "request"; "response"; "prompt"; "message"; "content"; "text"; "note";
                  "description"; "metadata"; "email"; "phone"; "address"; "name"; "user_agent";
                  "ip_address"]);
   key_end].

Definition _LINKAGE_KEY : regex := seqs
  [key_start; alts (lit <$> ["id"; "ids"; "hash"; "checksum"; "digest"]); key_end].

Definition _SECRET_VALUE : regex := alts
  [seqs [RBoundary; lit "Bearer"; at_least 1 is_space; at_least 8 (alnum_or "._~+/=-")];
   seqs [RBoundary;
         alts [RSeq (lit "sk-") (at_least 16 alnum);
               RSeq (lit "ghp_") (at_least 20 alnum);
               RSeq (lit "github_pat_") (at_least 20 (alnum_or "_"));
               RSeq (lit "AKIA") (times 16 alnum);
               seqs [lit "xox"; RClass (λ c, one_of "baprs" (lower_ascii c)); lit "-";
                     at_least 10 (alnum_or "-")];
               RSeq (lit "AIza") (at_least 30 (alnum_or "_-"));
               seqs [lit "eyJ"; at_least 10 (alnum_or "_-"); lit "."; at_least 10 (alnum_or "_-");
                     lit "."; at_least 10 (alnum_or "_-")]];
         RBoundary];
   seqs [RBoundary;
         alts [seqs [lit "api"; opt (RClass (one_of "_ -")); lit "key"];
               seqs [lit "access"; opt (RClass (one_of "_ -")); lit "token"];
               seqs [lit "refresh"; opt (RClass (one_of "_ -")); lit "token"];
               lit "secret"; lit "password"; lit "credential";
               RSeq (lit "auth") (opt (lit "orization")); lit "cookie"];
         RBoundary; RStar is_space; RClass (one_of ":="); RStar is_space;
         at_least 1 (λ c, negb (is_space c || one_of ",;" c))]].

Definition url_char (c : ascii) : bool :=
  negb (is_space c || one_of "][()<>'" c || (code c =? 34)%N).

Definition _CREDENTIAL_URL : regex := seqs
  [RBoundary; RAlt (RSeq (lit "http") (opt (lit "s"))) (lit "ftp"); lit "://";
   at_least 1 url_char].

(** ** [urlsplit], for the text [_CREDENTIAL_URL] matches: a scheme, [://] and
       characters without brackets or white space *)

(** [s.partition(c)], with [None] when the separator is absent *)
Fixpoint partition (c : ascii) (s : string) : string * option string :=
  match s with
  | EmptyString => ("", None)
  | String x s' =>
      if Ascii.eqb x c then ("", Some s')
      else let '(a, b) := partition c s' in (String x a, b)
  end.

(** [s.rpartition(c)], with [None] when the separator is absent *)
Fixpoint rpartition (c : ascii) (s : string) : option string * string :=
  match s with
  | EmptyString => (None, "")
  | String x s' =>
      match rpartition c s' with
      | (Some a, b) => (Some (String x a), b)
      | (None, b) => if Ascii.eqb x c then (Some "", s') else (None, String x b)
      end
  end.

(** The authority ends at the first of [/?#]. *)
Fixpoint split_netloc (s : string) : string * string :=
  match s with
  | EmptyString => ("", "")
  | String x s' =>
      if one_of "/?#" x then ("", s) else let '(a, b) := split_netloc s' in (String x a, b)
  end.

Record SplitResult := {
  sr_scheme : string; sr_netloc : string; sr_path : string; sr_query : string;
  sr_fragment : string;
}.

Definition urlsplit (url : string) : SplitResult :=
  let '(scheme, rest) := partition ":" url in
  let '(netloc, rest) := split_netloc (str_drop 2 (default "" rest)) in
  let '(rest, fragment) := partition "#" rest in
  let '(path, query) := partition "?" rest in
  {| sr_scheme := lower scheme; sr_netloc := netloc; sr_path := path;
     sr_query := default "" query; sr_fragment := default "" fragment |}.

Definition has_userinfo (u : SplitResult) : bool :=
  bool_decide (is_Some (rpartition "@" (sr_netloc u)).1).

Definition host_port (u : SplitResult) : string * option string :=
  partition ":" (rpartition "@" (sr_netloc u)).2.

(** [parsed.hostname or ""]: lower case up to a zone *)
Definition hostname (u : SplitResult) : string :=
  let '(host, zone) := partition "%" (host_port u).1 in
  lower host +:+ match zone with Some z => "%" +:+ z | None => "" end.

(** [parsed.port] *)
Definition port (u : SplitResult) : result (option Z) :=
  match (host_port u).2 with
  | None => Ok None
  | Some p =>
      if str_empty p then Ok None
      else if negb (all_digits p) then Raise (value_error "Port could not be cast to integer value")
      else let n := default 0 (parse_int p) in
           if n <=? 65535 then Ok (Some n) else Raise (value_error "Port out of range 0-65535")
  end.

(** ** Redaction of text *)

(** [s.rstrip(".,;)")] *)
Fixpoint rstrip_chars (chars s : string) : string :=
  match s with
  | EmptyString => ""
  | String c s' =>
      match rstrip_chars chars s' with
      | EmptyString => if one_of chars c then "" else String c ""
      | r => String c r
      end
  end.

Definition _redact_url (m : string) : string :=
  let candidate := rstrip_chars ".,;)" m in
  let suffix := str_drop (String.length candidate) m in
  let parsed := urlsplit candidate in
  if negb (has_userinfo parsed) then m
  else
    match port parsed with
    | Raise _ => "[REDACTED_URL]" +:+ suffix
    | Ok p =>
        let host := hostname parsed in
        let host := if one_of host ":" && negb (str_startswith "[" host)
                    then "[" +:+ host +:+ "]" else host in
        let host := match p with
                    | Some n => if n =? 0 then host else host +:+ ":" +:+ pretty n
                    | None => host
                    end in
        sr_scheme parsed +:+ "://[REDACTED]@" +:+ host +:+ sr_path parsed
        +:+ (if str_empty (sr_query parsed) then "" else "?" +:+ sr_query parsed)
        +:+ (if str_empty (sr_fragment parsed) then "" else "#" +:+ sr_fragment parsed)
        +:+ suffix
    end.

Definition _redact_text (v : string) : string :=
  str_take MAX_DETAIL_STRING_LENGTH
    (re_sub _SECRET_VALUE (λ _, "[REDACTED]") (re_sub _CREDENTIAL_URL _redact_url v)).

Definition _iso (d : datetime) : string :=
  let text := isoformat "T" (of_utc (as_utc d)) in
  str_take (String.length text - 6) text +:+ "Z".

(** ** Redaction of values *)

(** The key is dropped, its value is hidden, or the value is looked into. *)
Definition dropped_key (key : string) : bool :=
  re_search _FREEFORM_KEY key && negb (re_search _LINKAGE_KEY key).
Definition sensitive_key (key : string) : bool := re_search _SENSITIVE_KEY key.

Section pairs.
Context (sanitize : pyval → pyval).

Fixpoint sanitize_items (items pairs : pydict) : pydict :=
  match items with
  | [] => pairs
  | (raw_key, raw_value) :: items' =>
      let key := str_take 128 raw_key in
      if dropped_key key then sanitize_items items' pairs
      else if sensitive_key key
      then sanitize_items items' (dict_set pairs key (PStr "[REDACTED]"))
      else sanitize_items items' (dict_set pairs key (sanitize raw_value))
  end.

(** The entries of a mapping, with the count of those left out. *)
Definition sanitize_mapping (d : pydict) : pydict :=
  let items := take MAX_DETAIL_ITEMS (py_sorted key_leb d) in
  let pairs := sanitize_items items [] in
  if (MAX_DETAIL_ITEMS <? length d)%nat
  then dict_set pairs "_truncated_items"
         (PInt (Z.of_nat (length d) - Z.of_nat MAX_DETAIL_ITEMS))
  else pairs.
End pairs.

(** [levels] counts the levels that may still be entered: the depth of the code
    is [MAX_DETAIL_DEPTH + 1 - levels]. *)
Fixpoint _sanitize_value (levels : nat) (v : pyval) : pyval :=
  match levels with
  | O => PStr "[TRUNCATED]"
  | S levels' =>
      match v with
      | PDict d =>
          PDict (py_sorted key_leb (sanitize_mapping (_sanitize_value levels') d))
      | PList l | PTuple l =>
          let clipped := map (_sanitize_value levels') (take MAX_DETAIL_ITEMS l) in
          PTuple (if (MAX_DETAIL_ITEMS <? length l)%nat
                  then clipped ++ [PStr "[TRUNCATED_ITEMS]"] else clipped)
      | PStr s | PEnum s => PStr (_redact_text (str_take MAX_DETAIL_STRING_LENGTH s))
      | PDatetime d => PStr (_iso d)
      | PNone | PBool _ | PInt _ | PFloat _ => v
      | PSet _ | PObject _ => PStr "[UNSUPPORTED_VALUE]"
      end
  end.

Fixpoint _thaw (v : pyval) : pyval :=
  match v with
  | PDict d => PDict (map (λ kv, (kv.1, _thaw kv.2)) d)
  | PTuple l => PList (map _thaw l)
  | _ => v
  end.

Definition sanitize_audit_detail (v : option pydict) : pydict :=
  match v with
  | None => []
  | Some d => match _sanitize_value (S MAX_DETAIL_DEPTH) (PDict d) with PDict d' => d' | _ => [] end
  end.

Definition audit_detail_for_storage (v : option pydict) : pydict :=
  match _thaw (PDict (sanitize_audit_detail v)) with PDict d => d | _ => [] end.

Example redacts :
  audit_detail_for_storage (Some
    [("url", PStr "see https://bob:pw@Example.com:8080/x?q=1.");
     ("api_key", PStr "abc"); ("message", PStr "hi"); ("message_id", PInt 3);
     ("line", PStr "token Bearer abcdefgh12345")])
  = [("api_key", PStr "[REDACTED]");
     ("line", PStr "token [REDACTED]");
     ("message_id", PInt 3);
     ("url", PStr "see https://[REDACTED]@example.com:8080/x?q=1.")].
Proof. vm_compute. reflexivity. Qed.

(** ** The export *)
Record AuditRetentionPolicy := { retention_days : Z; oldest_exportable_at : option instant }.

Definition audit_retention_error (msg : string) : exn := Exn "AuditRetentionError" msg.

(** The constructor, with its [__post_init__]. *)
Definition mk_retention_policy (days : Z) (oldest : option instant) : result AuditRetentionPolicy :=
  _ ← raise_if (negb ((1 <=? days) && (days <=? MAX_AUDIT_RETENTION_DAYS)))
        (audit_retention_error "invalid_retention_days");
  Ok {| retention_days := days; oldest_exportable_at := oldest |}.

Record SanitizedAuditEvent := {
  sa_record : AuditEventRecord;
  sa_detail : pydict;
  sa_created_at : instant;
}.

Record AuditEventExport := {
  ex_company_id : string;
  ex_since : instant;
  ex_until : instant;
  ex_policy : AuditRetentionPolicy;
  ex_events : list SanitizedAuditEvent;
  ex_source_counts : list (string * nat);
}.

Definition export_total (e : AuditEventExport) : nat := length (ex_events e).

Definition _sanitize_event (r : AuditEventRecord) : SanitizedAuditEvent := {|
  sa_record := r; sa_detail := sanitize_audit_detail (Some (ae_detail r));
  sa_created_at := as_utc (ae_created_at r) |}.

Definition _require_aware (d : datetime) (field : string) : result instant :=
  match dt_offset d with
  | None => Raise (audit_retention_error (field +:+ "_must_include_timezone"))
  | Some _ => Ok (as_utc d)
  end.

(** The sort key [(created_at, audit_event_id)] *)
Definition event_leb (a b : AuditEventRecord) : bool :=
  let ta := as_utc (ae_created_at a) in let tb := as_utc (ae_created_at b) in
  (ta <? tb) || (ta =? tb) && str_leb (ae_audit_event_id a) (ae_audit_event_id b).

(** [Counter(keys)], in order of first appearance *)
Definition counter (keys : list string) : list (string * nat) :=
  foldl (λ acc k, dict_set acc k (S (default O (dict_get acc k)))) [] keys.

Definition export_audit_events (records : list AuditEventRecord) (company_id : string)
    (since until : datetime) (days : Z) (now : datetime) : result AuditEventExport :=
  let company := strip company_id in
  _ ← raise_if (str_empty company) (audit_retention_error "company_id_required");
  current ← _require_aware now "now";
  start ← _require_aware since "since";
  end_ ← _require_aware until "until";
  _ ← raise_if ((end_ <? start) || (current <? end_)) (audit_retention_error "invalid_export_window");
  _ ← raise_if (negb ((1 <=? days) && (days <=? MAX_AUDIT_RETENTION_DAYS)))
        (audit_retention_error "invalid_retention_days");
  let oldest := current - days * us_per_day in
  _ ← raise_if (start <? oldest) (audit_retention_error "export_window_outside_retention");
  let selected := filter (λ r, ae_company_id r = company) records in
  let selected := filter (λ r, start ≤ as_utc (ae_created_at r) ≤ end_) selected in
  let selected := py_sorted event_leb selected in
  let events := _sanitize_event <$> selected in
  policy ← mk_retention_policy days (Some oldest);
  Ok {| ex_company_id := company; ex_since := start; ex_until := end_; ex_policy := policy;
        ex_events := events;
        ex_source_counts := py_sorted key_leb (counter ((λ e, ae_actor_type (sa_record e)) <$> events)) |}.

(** ** Redaction: what may leave the ledger *)

(** One entry of a redacted mapping. *)
Definition entry_safe (safe : pyval → Prop) (kv : string * pyval) : Prop :=
  (String.length kv.1 ≤ 128)%nat ∧ dropped_key kv.1 = false
  ∧ (sensitive_key kv.1 = true → kv.2 = PStr "[REDACTED]")
  ∧ (kv.2 = PStr "[REDACTED]" ∨ (∃ z, kv.2 = PInt z) ∨ safe kv.2).

(** Values nested at most [n] levels deep, with bounded containers and texts, no
    free-form key, and nothing under a sensitive key. *)
Fixpoint export_safe (n : nat) (v : pyval) : Prop :=
  match n with
  | O => v = PStr "[TRUNCATED]"
  | S n' =>
      match v with
      | PDict d =>
          (length d ≤ S MAX_DETAIL_ITEMS)%nat
          ∧ StronglySorted (λ a b, key_leb a b = true) d
          ∧ ∀ kv, kv ∈ d → entry_safe (export_safe n') kv
      | PTuple l =>
          (length l ≤ S MAX_DETAIL_ITEMS)%nat
          ∧ ∀ x, x ∈ l → x = PStr "[TRUNCATED_ITEMS]" ∨ export_safe n' x
      | PStr s => (String.length s ≤ MAX_DETAIL_STRING_LENGTH)%nat ∨ ∃ d, s = _iso d
      | PNone | PBool _ | PInt _ | PFloat _ => True
      | _ => False
      end
  end.

Lemma key_leb_total {V} (a b : string * V) : key_leb a b = true ∨ key_leb b a = true.
Proof. apply str_leb_total. Qed.
Lemma key_leb_trans {V} (a b c : string * V) :
  key_leb a b = true → key_leb b c = true → key_leb a c = true.
Proof. apply str_leb_trans. Qed.

Lemma dict_set_elem {V} (d : list (string * V)) k v kv :
  kv ∈ dict_set d k v → kv ∈ d ∨ kv = (k, v).
Proof.
  induction d as [|[k' v'] d IH]; cbn; [set_solver|].
  case_decide; subst; rewrite !elem_of_cons; naive_solver.
Qed.

Lemma dict_set_length {V} (d : list (string * V)) k v : (length (dict_set d k v) ≤ S (length d))%nat.
Proof. induction d as [|[k' v'] d IH]; cbn; [lia|]. case_decide; cbn; lia. Qed.

(** What holds of the pairs collected so far holds of all of them. *)
Lemma sanitize_items_inv sanitize items pairs (P : string * pyval → Prop) :
  (∀ kv, kv ∈ pairs → P kv) →
  (∀ k, dropped_key (str_take 128 k) = false → sensitive_key (str_take 128 k) = true →
     P (str_take 128 k, PStr "[REDACTED]")) →
  (∀ k v, dropped_key (str_take 128 k) = false → sensitive_key (str_take 128 k) = false →
     P (str_take 128 k, sanitize v)) →
  ∀ kv, kv ∈ sanitize_items sanitize items pairs → P kv.
Proof.
  intros Hp Hs Hv. revert pairs Hp. induction items as [|[k v] items IH]; intros pairs Hp; cbn; [done|].
  destruct (dropped_key (str_take 128 k)) eqn:Ed; [by apply IH|].
  destruct (sensitive_key (str_take 128 k)) eqn:Es; apply IH; intros kv [Hkv| ->]%dict_set_elem; auto.
Qed.

Lemma sanitize_items_length sanitize items pairs :
  (length (sanitize_items sanitize items pairs) ≤ length items + length pairs)%nat.
Proof.
  revert pairs. induction items as [|[k v] items IH]; intros pairs; cbn; [lia|].
  repeat case_match; etransitivity; try apply IH;
    try (pose proof (dict_set_length pairs (str_take 128 k) (PStr "[REDACTED]")));
    try (pose proof (dict_set_length pairs (str_take 128 k) (sanitize v))); lia.
Qed.

(** One mapping, given that its values are redacted one level down. *)
Lemma sanitized_dict_safe n d :
  (∀ v, export_safe n (_sanitize_value n v)) →
  export_safe (S n) (_sanitize_value (S n) (PDict d)).
Proof.
  intros IH. set (f := _sanitize_value n).
  change (_sanitize_value (S n) (PDict d)) with (PDict (py_sorted key_leb (sanitize_mapping f d))).
  cbn [export_safe]. split; [|split].
  - rewrite py_sorted_perm. pose proof (sanitize_items_length f (take MAX_DETAIL_ITEMS (py_sorted key_leb d)) []) as Hl.
    rewrite length_take in Hl. simpl length in Hl. unfold sanitize_mapping.
    destruct (_ <? _)%nat; [|lia]. etransitivity; [apply dict_set_length|]. lia.
  - apply py_sorted_sorted; [apply key_leb_total | apply key_leb_trans].
  - intros kv Hkv. rewrite py_sorted_perm in Hkv.
    assert (kv ∈ sanitize_items f (take MAX_DETAIL_ITEMS (py_sorted key_leb d)) []
            ∨ ∃ z, kv = ("_truncated_items", PInt z)) as [Hin|[z ->]].
    { unfold sanitize_mapping in Hkv. destruct (_ <? _)%nat; [|by left].
      apply dict_set_elem in Hkv as [|]; eauto. }
    + clear Hkv. revert kv Hin.
      apply (sanitize_items_inv f _ [] (entry_safe (export_safe n))); [set_solver| |].
      * intros k Hd Hs. split_and!; cbn [fst snd]; auto using str_take_length.
      * intros k w Hd Hs. split_and!; cbn [fst snd]; auto using str_take_length. congruence.
    + split_and!; [cbn; lia | vm_compute; reflexivity | | by eauto].
      intros H. exfalso. by vm_compute in H.
Qed.

Lemma sanitized_list_safe n l :
  (∀ v, export_safe n (_sanitize_value n v)) →
  export_safe (S n) (_sanitize_value (S n) (PTuple l)).
Proof.
  intros IH. cbn -[MAX_DETAIL_ITEMS Nat.ltb Nat.min].
  assert (∀ x, x ∈ map (_sanitize_value n) (take MAX_DETAIL_ITEMS l) → export_safe n x) as Hm.
  { intros x Hx. apply list_elem_of_In, in_map_iff in Hx as (y & <- & _). apply IH. }
  destruct (Nat.ltb_spec MAX_DETAIL_ITEMS (length l));
    rewrite ?length_app, length_map, length_take; simpl length; split; [lia| |lia|auto].
  intros x [Hx|Hx%list_elem_of_singleton]%elem_of_app; auto.
Qed.

(** C37: whatever the detail, its redaction is bounded (nine levels, 101 entries,
    128-character keys, 4096-character texts, keys in order), keeps no free-form
    key and hides every value under a key that names a secret. *)
Theorem sanitized_detail_safe (v : pyval) :
  export_safe (S MAX_DETAIL_DEPTH) (_sanitize_value (S MAX_DETAIL_DEPTH) v).
Proof.
  generalize (S MAX_DETAIL_DEPTH) as n. intros n. revert v.
  induction n as [|n IH]; intros v; [done|].
  destruct v as [| | | |s|l|l|l|d|s|d|s]; try done;
    try (left; apply str_take_length); try (left; apply Nat.leb_le; reflexivity).
  - by apply (sanitized_list_safe n l).
  - by apply sanitized_list_safe.
  - by apply sanitized_dict_safe.
  - right. eauto.
Qed.

(** A bearer token that follows an [Authorization:] label is not hidden: the label
    alternative of the pattern ends its match at the word [Bearer]. *)
Theorem bearer_header_token_survives :
  audit_detail_for_storage (Some [("line", PStr "Authorization: Bearer abcdefgh12345")])
  = [("line", PStr "[REDACTED] abcdefgh12345")].
Proof. vm_compute. reflexivity. Qed.

(** ** The export window *)
Lemma event_leb_total a b : event_leb a b = true ∨ event_leb b a = true.
Proof.
  unfold event_leb. cbv zeta. generalize (as_utc (ae_created_at a)), (as_utc (ae_created_at b)).
  intros x y. destruct (Z.ltb_spec x y), (Z.ltb_spec y x), (Z.eqb_spec x y), (Z.eqb_spec y x);
    cbn; auto; try lia. apply str_leb_total.
Qed.

Lemma event_leb_trans a b c : event_leb a b = true → event_leb b c = true → event_leb a c = true.
Proof.
  unfold event_leb. cbv zeta.
  generalize (as_utc (ae_created_at a)), (as_utc (ae_created_at b)), (as_utc (ae_created_at c)).
  intros x y z. rewrite !orb_true_iff, !andb_true_iff, !Z.ltb_lt, !Z.eqb_eq.
  intros [?|[? ?]] [?|[? ?]]; try (left; lia). right. split; [lia|]. by eapply str_leb_trans.
Qed.

Definition counter_sum (c : list (string * nat)) : nat := sum_list c.*2.

Lemma counter_sum_set (acc : list (string * nat)) k :
  counter_sum (dict_set acc k (S (default O (dict_get acc k)))) = S (counter_sum acc).
Proof.
  unfold counter_sum. induction acc as [|[k' n] acc IH]; cbn; [done|].
  case_decide; subst; cbn; [lia|]. cbn in IH. rewrite IH. lia.
Qed.

Lemma counter_sum_length keys : counter_sum (counter keys) = length keys.
Proof.
  set (f := λ (acc : list (string * nat)) k, dict_set acc k (S (default O (dict_get acc k)))).
  assert (∀ acc, counter_sum (foldl f acc keys) = length keys + counter_sum acc)%nat as H.
  { induction keys as [|k keys IH]; intros acc; [done|]. cbn [foldl length].
    rewrite IH. unfold f. rewrite counter_sum_set. lia. }
  unfold counter. fold f. rewrite H. cbn. lia.
Qed.

Lemma sanitize_sorted l :
  StronglySorted (λ a b, event_leb a b = true) l →
  StronglySorted (λ a b, event_leb (sa_record a) (sa_record b) = true) (_sanitize_event <$> l).
Proof.
  induction 1 as [|a l Hs IH Hall]; [constructor|]. constructor; [done|].
  by apply Forall_fmap.
Qed.

(** The record belongs to the export. *)
Definition in_export (company : string) (start end_ : instant) (r : AuditEventRecord) : Prop :=
  ae_company_id r = company ∧ start ≤ as_utc (ae_created_at r) ≤ end_.

(** An export holds exactly the records of its company inside its window, once
    each, in chronological order and redacted; its per-source counts add up to its
    size, and the window lies inside the retention period. *)
Theorem export_exact records company_id since until days now e :
  export_audit_events records company_id since until days now = Ok e →
  (∀ a, a ∈ ex_events e ↔
     ∃ r, r ∈ records ∧ in_export (strip company_id) (ex_since e) (ex_until e) r
          ∧ a = _sanitize_event r)
  ∧ (length (ex_events e) ≤ length records)%nat
  ∧ StronglySorted (λ a b, event_leb (sa_record a) (sa_record b) = true) (ex_events e)
  ∧ counter_sum (ex_source_counts e) = export_total e
  ∧ as_utc now - days * us_per_day ≤ ex_since e ≤ ex_until e ∧ ex_until e ≤ as_utc now.
Proof.
  unfold export_audit_events, _require_aware. intros H. inv_bind. cbn.
  repeat match goal with Hm : match _ with _ => _ end = Ok _ |- _ =>
    destruct (dt_offset _); [injection Hm as <-|discriminate Hm] end.
  rewrite orb_false_iff, !Z.ltb_ge in *.
  set (sel := filter _ (filter _ records)). split_and!; try lia.
  - intros ev. rewrite list_elem_of_fmap. setoid_rewrite py_sorted_perm. subst sel.
    setoid_rewrite list_elem_of_filter. setoid_rewrite list_elem_of_filter. unfold in_export.
    naive_solver.
  - rewrite length_fmap, py_sorted_perm. subst sel. etransitivity; apply length_filter.
  - apply sanitize_sorted, py_sorted_sorted; [apply event_leb_total | apply event_leb_trans].
  - unfold counter_sum. rewrite py_sorted_perm. fold (counter_sum (counter ((λ e, ae_actor_type (sa_record e)) <$> (_sanitize_event <$> py_sorted event_leb sel)))).
    by rewrite counter_sum_length, length_fmap.
Qed.

Definition sample_record (company id : string) (t : Z) : AuditEventRecord := {|
  ae_audit_event_id := id; ae_company_id := company; ae_action := "a"; ae_target_type := "t";
  ae_target_id := "x"; ae_actor_type := "user"; ae_actor_id := ""; ae_trace_id := None;
  ae_run_id := None; ae_work_item_id := None; ae_idempotency_key := None;
  ae_detail := [("token", PStr "t")]; ae_created_at := of_utc t |}.

Lemma export_exact_witness :
  ∃ e, export_audit_events
         [sample_record "cmp_1" "aud_2" 7; sample_record "cmp_2" "aud_3" 6;
          sample_record "cmp_1" "aud_1" 7] " cmp_1" (of_utc 5) (of_utc 9) 90 (of_utc 9) = Ok e
    ∧ (λ a, ae_audit_event_id (sa_record a)) <$> ex_events e = ["aud_1"; "aud_2"]
    ∧ counter_sum (ex_source_counts e) = 2%nat.
Proof.
  eexists. split; [vm_compute; reflexivity|]. split; [reflexivity|].
  eapply (export_exact [sample_record "cmp_1" "aud_2" 7; sample_record "cmp_2" "aud_3" 6;
          sample_record "cmp_1" "aud_1" 7] " cmp_1" (of_utc 5) (of_utc 9) 90 (of_utc 9)).
  vm_compute. reflexivity.
Defined.
