(* ===== verification/StateMachine.v ===== *)
(** * The state-machine value object and the lifecycle contract

    [ControlPlaneStateMachine] is the immutable transition table of
    [domain/state_machine.py].  [Lifecycle] is the contract the aggregates built
    on it (goals, work items, approvals, decisions, agent roles, agent runs,
    rollouts) promise to their callers; the theorems about sequences of
    transitions are proved once, against the contract. *)

From S2P Require Import Prelude.

#[global] Program Instance str_enum_countable E `{!StrEnum E} : Countable E :=
  inj_countable value lookup_value _.
Next Obligation. intros. by apply lookup_value_Some. Qed.

Record ControlPlaneStateMachine (St : Type) `{!StrEnum St} := {
  transitions : gmap St (gset St);
}.
Arguments transitions {_ _} _.

Section machine.
Context {St : Type} `{!StrEnum St}.
Implicit Types (m : ControlPlaneStateMachine St) (s t : St).

(** A dictionary literal: a later row replaces an earlier one. *)
Definition transition_rows (rows : list (St * list St)) : gmap St (gset St) :=
  foldl (λ acc row, <[row.1 := list_to_set row.2]> acc) ∅ rows.

(** Every target named by a row. *)
Definition all_targets (table : gmap St (gset St)) : gset St :=
  union_list (map_to_list table).*2.

(** [__post_init__]: a target without a row of its own is an error. *)
Definition post_init (table : gmap St (gset St)) : result (ControlPlaneStateMachine St) :=
  let missing_targets := all_targets table ∖ dom table in
  if decide (missing_targets = ∅) then Ok {| transitions := table |}
  else Raise (Exn "InvalidControlPlaneStateMachineError"
         ("missing_transition_rows:" +:+
          str_join ", " (str_sorted (value <$> elements missing_targets)))).

Definition from_transitions (rows : list (St * list St)) : result (ControlPlaneStateMachine St) :=
  post_init (transition_rows rows).

Definition terminal_states m : gset St :=
  dom (filter (λ row, row.2 = ∅) (transitions m)).

Definition allowed_targets m (current : St) : result (gset St) :=
  match transitions m !! current with
  | Some targets => Ok targets
  | None => Raise (Exn "InvalidControlPlaneStateMachineError"
              ("unknown_current_state:" +:+ value current))
  end.

Definition can_transition m (current target : St) : result bool :=
  targets ← allowed_targets m current; Ok (bool_decide (target ∈ targets)).

Definition is_terminal m s : result bool :=
  targets ← allowed_targets m s; Ok (bool_decide (targets = ∅)).

Definition ensure_can_transition m (current target : St)
    (subject error_type transition_name : string) : result unit :=
  ok ← can_transition m current target;
  if ok : bool then Ok ()
  else Raise (Exn error_type
         (subject +:+ ": illegal " +:+ transition_name +:+ " "
          +:+ value current +:+ " -> " +:+ value target)).

(** The machine a module builds at import time from its literal table. *)
Definition machine_of (rows : list (St * list St)) : ControlPlaneStateMachine St :=
  match from_transitions rows with
  | Ok m => m
  | Raise _ => {| transitions := ∅ |}
  end.

(** The transition relation of the table. *)
Definition allowed m s t : Prop :=
  ∃ targets, transitions m !! s = Some targets ∧ t ∈ targets.

(** Every target has a row of its own. *)
Definition closed m : Prop :=
  ∀ s t, allowed m s t → is_Some (transitions m !! t).

(** Every state has a row: [allowed_targets] cannot raise. *)
Definition total m : Prop := ∀ s, is_Some (transitions m !! s).

#[export] Instance allowed_dec m s t : Decision (allowed m s t).
Proof.
  destruct (transitions m !! s) as [ts|] eqn:E.
  - destruct (decide (t ∈ ts)) as [H|H].
    + left. by exists ts.
    + right. intros (ts' & Hs & Ht). rewrite E in Hs. by simplify_eq.
  - right. intros (ts' & Hs & _). by rewrite E in Hs.
Defined.

Lemma elem_of_all_targets (table : gmap St (gset St)) t :
  t ∈ all_targets table ↔ ∃ s ts, table !! s = Some ts ∧ t ∈ ts.
Proof.
  unfold all_targets. rewrite elem_of_union_list. split.
  - intros (ts & Hts & Ht). apply list_elem_of_fmap in Hts as ([s ts'] & -> & Hin).
    exists s, ts'. by rewrite <- elem_of_map_to_list.
  - intros (s & ts & Hs & Ht). exists ts. split; [|done].
    apply list_elem_of_fmap. exists (s, ts). by rewrite elem_of_map_to_list.
Qed.

Lemma post_init_Ok (table : gmap St (gset St)) m :
  post_init table = Ok m ↔ transitions m = table ∧ closed m.
Proof.
  unfold post_init. split.
  - case_decide as Hd; [|done]. intros [= <-]. split; [done|].
    intros s t (ts & Hs & Ht). cbn in Hs. apply elem_of_dom.
    assert (t ∈ all_targets table) by (apply elem_of_all_targets; eauto). cbn. set_solver.
  - destruct m as [table']; cbn. intros [-> Hc]. rewrite decide_True; [done|].
    apply elem_of_equiv_empty_L. intros t [Ht Hd]%elem_of_difference.
    apply elem_of_all_targets in Ht as (s & ts & Hs & Ht). apply Hd, elem_of_dom.
    apply (Hc s t). by exists ts.
Qed.

Lemma can_transition_true m s t : can_transition m s t = Ok true ↔ allowed m s t.
Proof.
  unfold can_transition, allowed_targets, allowed.
  destruct (transitions m !! s) as [ts|]; cbn; [|naive_solver].
  split; [intros [= H%bool_decide_eq_true]; eauto|].
  intros (ts' & [= ->] & Ht). by rewrite bool_decide_eq_true_2.
Qed.

Lemma can_transition_total m s t :
  total m → can_transition m s t = Ok (bool_decide (allowed m s t)).
Proof.
  intros Htot. destruct (bool_decide (allowed m s t)) eqn:E.
  - apply can_transition_true. by apply bool_decide_eq_true in E.
  - apply bool_decide_eq_false in E. unfold can_transition, allowed_targets.
    destruct (Htot s) as [ts Hs]. rewrite Hs. cbn. f_equal.
    apply bool_decide_eq_false_2. intros Ht. apply E. by exists ts.
Qed.

Lemma is_terminal_total m s :
  total m → is_terminal m s = Ok (bool_decide (s ∈ terminal_states m)).
Proof.
  intros Htot. unfold is_terminal, allowed_targets. destruct (Htot s) as [ts Hs].
  rewrite Hs. cbn. f_equal. apply bool_decide_ext. unfold terminal_states.
  rewrite elem_of_dom. split.
  - intros ->. exists ∅. by apply map_lookup_filter_Some.
  - intros [ts' [Hs' H]%map_lookup_filter_Some]. cbn in H. by simplify_eq.
Qed.

Lemma terminal_not_allowed m s t : s ∈ terminal_states m → ¬ allowed m s t.
Proof.
  unfold terminal_states. rewrite elem_of_dom.
  intros [ts [Hs H]%map_lookup_filter_Some] (ts' & Hs' & Ht). cbn in H.
  simplify_eq. set_solver.
Qed.

(** Only two outcomes: the move is allowed, or the given error is raised. *)
Lemma ensure_can_transition_total m s t subject error_type name :
  total m →
  ensure_can_transition m s t subject error_type name =
  if bool_decide (allowed m s t) then Ok ()
  else Raise (Exn error_type (subject +:+ ": illegal " +:+ name +:+ " "
         +:+ value s +:+ " -> " +:+ value t)).
Proof.
  intros Htot. unfold ensure_can_transition. by rewrite can_transition_total.
Qed.
End machine.

Definition total_b {St} `{!StrEnum St} (m : ControlPlaneStateMachine St) : bool :=
  forallb (λ s, bool_decide (is_Some (transitions m !! s))) (members St).

Lemma total_b_spec {St} `{!StrEnum St} (m : ControlPlaneStateMachine St) :
  total_b m = true → total m.
Proof.
  unfold total_b. rewrite forallb_forall. intros H s.
  eapply bool_decide_eq_true, H, list_elem_of_In, members_all.
Qed.

Lemma machine_of_ok {St} `{!StrEnum St} (rows : list (St * list St)) :
  is_ok (from_transitions rows) = true → from_transitions rows = Ok (machine_of rows).
Proof. unfold machine_of. by destruct (from_transitions rows). Qed.

(** ** The contract of a lifecycle aggregate

    [lc_noop] tells the aggregates that accept a transition to the current
    state without an event from the strict ones that refuse it. *)
Class Lifecycle (Agg St : Type) `{!StrEnum St} := {
  lc_machine : ControlPlaneStateMachine St;
  lc_noop : bool;
  lc_status : Agg → result St;
  lc_step : Agg → St → result Agg;
  lc_events : Agg → list (St * St);
  lc_total : total lc_machine;
  lc_step_Ok : ∀ a s t a',
    lc_status a = Ok s → lc_step a t = Ok a' →
    (lc_noop = true ∧ t = s ∧ a' = a) ∨
    (allowed lc_machine s t ∧ lc_status a' = Ok t ∧ lc_events a' = lc_events a ++ [(s, t)]);
  lc_step_progress : ∀ a s t,
    lc_status a = Ok s → (allowed lc_machine s t ∨ (lc_noop = true ∧ t = s)) →
    ∃ a', lc_step a t = Ok a';
}.

Section lifecycle.
Context {Agg St : Type} `{!StrEnum St} `{!Lifecycle Agg St}.
Implicit Types (a : Agg) (s t : St).

(** A sequence of transition commands; the first refusal stops it. *)
Fixpoint lc_run a (targets : list St) : result Agg :=
  match targets with
  | [] => Ok a
  | t :: ts => a' ← lc_step a t; lc_run a' ts
  end.

(** An event log that starts at [s], ends at [t] and follows the table. *)
Inductive chain : St → list (St * St) → St → Prop :=
  | chain_nil s : chain s [] s
  | chain_snoc s log t u :
      chain s log t → allowed lc_machine t u → chain s (log ++ [(t, u)]) u.

Lemma chain_rtc s log t : chain s log t → rtc (allowed lc_machine) s t.
Proof. induction 1; [done|]. by eapply rtc_r. Qed.

(** A step from a terminal state changes nothing. *)
Lemma lc_terminal_step a s t a' :
  lc_status a = Ok s → s ∈ terminal_states lc_machine → lc_step a t = Ok a' → a' = a.
Proof.
  intros Hs Hterm Hstep.
  destruct (lc_step_Ok _ _ _ _ Hs Hstep) as [(_ & _ & ->)|(Hal & _)]; [done|].
  by destruct (terminal_not_allowed _ _ t Hterm).
Qed.

Lemma lc_terminal_run a s ts a' :
  lc_status a = Ok s → s ∈ terminal_states lc_machine → lc_run a ts = Ok a' → a' = a.
Proof.
  intros Hs Hterm. induction ts as [|t ts IH]; cbn; intros H; inv_bind; [done|].
  apply (lc_terminal_step _ s) in Hm; [|done..]. subst. auto.
Qed.

(** The events a run appends lead from the first status to the last one. *)
Lemma lc_run_chain_from s0 log0 a s ts a' :
  lc_status a = Ok s → chain s0 log0 s → lc_events a = log0 →
  lc_run a ts = Ok a' →
  ∃ s', lc_status a' = Ok s' ∧ chain s0 (lc_events a') s'.
Proof.
  revert a s log0. induction ts as [|t ts IH]; intros a s log0 Hs Hc He H;
    cbn in H; inv_bind.
  - by exists s.
  - destruct (lc_step_Ok _ _ _ _ Hs Hm) as [(_ & -> & ->)|(Hal & Hs' & He')].
    + by eapply IH.
    + eapply IH; [exact Hs'| |exact He'|exact H]. subst log0. by constructor.
Qed.

(** Conversely, every walk of the table can be commanded. *)
Lemma lc_run_walk a s t :
  lc_status a = Ok s → rtc (allowed lc_machine) s t →
  ∃ ts a', lc_run a ts = Ok a' ∧ lc_status a' = Ok t.
Proof.
  intros Hs Hr. revert a Hs. induction Hr as [s|s u t Hsu Hr IH]; intros a Hs.
  - by exists [], a.
  - destruct (lc_step_progress a s u Hs) as [a1 Ha1]; [by left|].
    destruct (lc_step_Ok _ _ _ _ Hs Ha1) as [(_ & -> & ->)|(_ & Hs' & _)].
    + destruct (IH a Hs) as (ts & a' & ? & ?). by exists ts, a'.
    + destruct (IH a1 Hs') as (ts & a' & ? & ?). exists (u :: ts), a'.
      cbn. by rewrite Ha1.
Qed.
End lifecycle.

(** The proof of the contract, for an aggregate whose transition [tr] unfolds to
    the status check, the table check and the appended event. *)
Ltac lifecycle_step_Ok tr Htotal :=
  let a := fresh "a" in let s := fresh "s" in let t := fresh "t" in
  let a' := fresh "a'" in let Hs := fresh "Hs" in let H := fresh "H" in
  intros a s t a' Hs H; unfold tr in H; cbn in H; rewrite Hs in H; cbn in H;
  try (case_decide; [left; simplify_eq; by auto|]);
  rewrite (ensure_can_transition_total _ _ _ _ _ _ Htotal) in H;
  case_bool_decide; cbn in H; [|discriminate H];
  try rewrite Hs in H; cbn in H; simplify_eq; right;
  split_and!; [done| try done | cbn; rewrite ?fmap_app; done].

Ltac lifecycle_progress tr Htotal :=
  let a := fresh "a" in let s := fresh "s" in let t := fresh "t" in
  let Hs := fresh "Hs" in let Hal := fresh "Hal" in
  intros a s t Hs Hal; unfold tr; cbn; rewrite Hs; cbn;
  try (case_decide; [eexists; reflexivity|]);
  destruct Hal as [Hal|[? ?]]; try done;
  rewrite (ensure_can_transition_total _ _ _ _ _ _ Htotal), bool_decide_eq_true_2 by done;
  cbn; try rewrite Hs; eexists; reflexivity.
