(* ===== verification/Goal.v ===== *)
(** * Goal aggregate: operator objective lifecycle ([domain/goal.py]) *)

From S2P Require Import Prelude PyNum PyValue PyTime Models StateMachine.

Definition goal_status (v : option (enum_or_str GoalStatus)) : result (option GoalStatus) :=
  match v with
  | None => Ok None
  | Some (Member x) => Ok (Some x)
  | Some (Str s) => Some <$> parse_enum s
  end.

Definition VALID_TRANSITIONS : list (GoalStatus * list GoalStatus) :=
  [(GoalStatus_DRAFT,
     [GoalStatus_ACTIVE; GoalStatus_PAUSED; GoalStatus_COMPLETED; GoalStatus_CANCELLED]);
   (GoalStatus_ACTIVE, [GoalStatus_PAUSED; GoalStatus_COMPLETED; GoalStatus_CANCELLED]);
   (GoalStatus_PAUSED, [GoalStatus_ACTIVE; GoalStatus_COMPLETED; GoalStatus_CANCELLED]);
   (GoalStatus_COMPLETED, [GoalStatus_ACTIVE; GoalStatus_PAUSED; GoalStatus_CANCELLED]);
   (GoalStatus_CANCELLED, [])].

Definition STATE_MACHINE : ControlPlaneStateMachine GoalStatus := machine_of VALID_TRANSITIONS.
Definition TERMINAL_STATUSES : gset GoalStatus := terminal_states STATE_MACHINE.

(** [None] leaves the persisted current value as it is. *)
Definition goal_current_value_for_transition (target_status : enum_or_str GoalStatus)
    (explicit_current_value target_value : option float) : result (option float) :=
  match explicit_current_value with
  | Some v => Ok (Some v)
  | None =>
      ts ← goal_status (Some target_status);
      if decide (ts = Some GoalStatus_COMPLETED) then Ok target_value else Ok None
  end.

Record GoalStatusChanged := {
  gsc_goal_id : string;
  gsc_company_id : string;
  gsc_from_status : GoalStatus;
  gsc_to_status : GoalStatus;
}.

Record Goal := {
  record : GoalRecord;
  _events : list GoalStatusChanged;
}.

Definition from_record (r : GoalRecord) : Goal := {| record := r; _events := [] |}.

Definition status (g : Goal) : result GoalStatus :=
  o ← goal_status (goal_record_status (record g));
  match o with
  | Some s => Ok s
  | None => Raise (Exn "InvalidGoalTransitionError"
              ("Goal " +:+ goal_id (record g) +:+ ": missing status"))
  end.

Definition is_terminal_goal (g : Goal) : result bool :=
  s ← status g; is_terminal STATE_MACHINE s.

(** [record.model_copy(update={"status": s})] *)
Definition with_status (r : GoalRecord) (s : GoalStatus) : GoalRecord := {|
  goal_id := goal_id r; goal_company_id := goal_company_id r;
  goal_title := goal_title r; goal_description := goal_description r;
  goal_record_status := Some (Member s);
  goal_parent_goal_id := goal_parent_goal_id r;
  goal_owner_agent_id := goal_owner_agent_id r; goal_owner_user_id := goal_owner_user_id r;
  goal_success_metric := goal_success_metric r; goal_target_value := goal_target_value r;
  goal_current_value := goal_current_value r; goal_due_at := goal_due_at r;
  goal_tags := goal_tags r; goal_metadata := goal_metadata r;
  goal_created_at := goal_created_at r; goal_updated_at := goal_updated_at r |}.

Definition transition_to (g : Goal) (target : option (enum_or_str GoalStatus)) : result Goal :=
  o ← goal_status target;
  match o with
  | None => Raise (Exn "InvalidGoalTransitionError"
              ("Goal " +:+ goal_id (record g) +:+ ": missing transition target"))
  | Some target_status =>
      current ← status g;
      if decide (target_status = current) then Ok g
      else
        _ ← ensure_can_transition STATE_MACHINE current target_status
              ("Goal " +:+ goal_id (record g)) "InvalidGoalTransitionError" "transition";
        previous ← status g;
        Ok {| record := with_status (record g) target_status;
              _events := _events g ++
                [{| gsc_goal_id := goal_id (record g);
                    gsc_company_id := goal_company_id (record g);
                    gsc_from_status := previous;
                    gsc_to_status := target_status |}] |}
  end.

Definition current_value_for_update (g : Goal) (explicit_current_value : option float)
    : result (option float) :=
  s ← status g;
  goal_current_value_for_transition (Member s) explicit_current_value
    (goal_target_value (record g)).

(** The drained events and the aggregate left behind. *)
Definition pull_events (g : Goal) : list GoalStatusChanged * Goal :=
  (_events g, {| record := record g; _events := [] |}).

Lemma goal_machine_total : total STATE_MACHINE.
Proof. apply total_b_spec. vm_compute. reflexivity. Qed.

(** The table is accepted at import time. *)
Lemma goal_machine_ok : from_transitions VALID_TRANSITIONS = Ok STATE_MACHINE.
Proof. apply machine_of_ok. vm_compute. reflexivity. Qed.

#[global] Opaque STATE_MACHINE.
#[global] Arguments status : simpl never.

#[export] Program Instance goal_lifecycle : Lifecycle Goal GoalStatus := {|
  lc_machine := STATE_MACHINE;
  lc_noop := true;
  lc_status := status;
  lc_step := λ g t, transition_to g (Some (Member t));
  lc_events := λ g, (λ e, (gsc_from_status e, gsc_to_status e)) <$> _events g;
  lc_total := goal_machine_total;
|}.
Next Obligation. lifecycle_step_Ok transition_to goal_machine_total. Qed.
Next Obligation. lifecycle_progress transition_to goal_machine_total. Qed.
