(* ===== verification/WorkItem.v ===== *)
(** * WorkItem aggregate and status policy ([domain/work_item.py]) *)

From S2P Require Import Prelude PyNum PyValue PyTime Models StateMachine.

Definition work_item_status (v : option (enum_or_str WorkItemStatus)) : result (option WorkItemStatus) :=
  match v with
  | None => Ok None
  | Some (Member x) => Ok (Some x)
  | Some (Str s) => Some <$> parse_enum s
  end.

Definition agent_run_status (v : option (enum_or_str AgentRunStatus)) : result (option AgentRunStatus) :=
  match v with
  | None => Ok None
  | Some (Member x) => Ok (Some x)
  | Some (Str s) => Some <$> parse_enum s
  end.

Definition WORK_ITEM_CLOSE_STATUSES : gset WorkItemStatus :=
  {[ WorkItemStatus_COMPLETED; WorkItemStatus_FAILED; WorkItemStatus_CANCELLED ]}.

Definition VALID_TRANSITIONS : list (WorkItemStatus * list WorkItemStatus) :=
  [(WorkItemStatus_QUEUED,
     [WorkItemStatus_READY; WorkItemStatus_RUNNING; WorkItemStatus_BLOCKED;
      WorkItemStatus_AWAITING_APPROVAL; WorkItemStatus_COMPLETED; WorkItemStatus_FAILED;
      WorkItemStatus_CANCELLED]);
   (WorkItemStatus_READY,
     [WorkItemStatus_RUNNING; WorkItemStatus_BLOCKED; WorkItemStatus_AWAITING_APPROVAL;
      WorkItemStatus_COMPLETED; WorkItemStatus_FAILED; WorkItemStatus_CANCELLED]);
   (WorkItemStatus_RUNNING,
     [WorkItemStatus_BLOCKED; WorkItemStatus_AWAITING_APPROVAL; WorkItemStatus_COMPLETED;
      WorkItemStatus_FAILED; WorkItemStatus_CANCELLED]);
   (WorkItemStatus_BLOCKED,
     [WorkItemStatus_READY; WorkItemStatus_RUNNING; WorkItemStatus_AWAITING_APPROVAL;
      WorkItemStatus_COMPLETED; WorkItemStatus_FAILED; WorkItemStatus_CANCELLED]);
   (WorkItemStatus_AWAITING_APPROVAL,
     [WorkItemStatus_READY; WorkItemStatus_RUNNING; WorkItemStatus_BLOCKED;
      WorkItemStatus_COMPLETED; WorkItemStatus_FAILED; WorkItemStatus_CANCELLED]);
   (WorkItemStatus_COMPLETED,
     [WorkItemStatus_READY; WorkItemStatus_RUNNING; WorkItemStatus_BLOCKED;
      WorkItemStatus_AWAITING_APPROVAL; WorkItemStatus_FAILED; WorkItemStatus_CANCELLED]);
   (WorkItemStatus_FAILED,
     [WorkItemStatus_RUNNING; WorkItemStatus_AWAITING_APPROVAL; WorkItemStatus_CANCELLED]);
   (WorkItemStatus_CANCELLED, [])].

Definition STATE_MACHINE : ControlPlaneStateMachine WorkItemStatus := machine_of VALID_TRANSITIONS.

(** True when [status] is valid for the explicit close command. *)
Definition is_work_item_close_status (status : enum_or_str WorkItemStatus) : result bool :=
  typed_status ← work_item_status (Some status);
  Ok (match typed_status with
      | Some s => bool_decide (s ∈ WORK_ITEM_CLOSE_STATUSES)
      | None => false
      end).

(** The work-item status an agent-run status leads to. *)
Definition work_item_status_from_agent_run_status
    (run_status : option (enum_or_str AgentRunStatus)) : result WorkItemStatus :=
  status ← agent_run_status run_status;
  Ok (match status with
      | None => WorkItemStatus_RUNNING
      | Some AgentRunStatus_SUCCEEDED => WorkItemStatus_COMPLETED
      | Some AgentRunStatus_FAILED => WorkItemStatus_FAILED
      | Some AgentRunStatus_CANCELLED => WorkItemStatus_CANCELLED
      | Some _ => WorkItemStatus_RUNNING
      end).

Record WorkItemStatusChanged := {
  wsc_work_item_id : string;
  wsc_company_id : string;
  wsc_from_status : WorkItemStatus;
  wsc_to_status : WorkItemStatus;
}.

Record WorkItem := {
  record : WorkItemRecord;
  _events : list WorkItemStatusChanged;
}.

Definition from_record (r : WorkItemRecord) : WorkItem := {| record := r; _events := [] |}.

Definition status (g : WorkItem) : result WorkItemStatus :=
  o ← work_item_status (wi_record_status (record g));
  match o with
  | Some s => Ok s
  | None => Raise (Exn "InvalidWorkItemTransitionError"
              ("WorkItem " +:+ wi_work_item_id (record g) +:+ ": missing status"))
  end.

Definition is_closed (g : WorkItem) : result bool :=
  s ← status g; is_terminal STATE_MACHINE s.

(** [record.model_copy(update=...)] *)
Definition with_status (r : WorkItemRecord) (s : WorkItemStatus) : WorkItemRecord := {|
  wi_work_item_id := wi_work_item_id r; wi_company_id := wi_company_id r;
  wi_title := wi_title r; wi_description := wi_description r;
  wi_record_status := Some (Member s); wi_priority := wi_priority r;
  wi_goal_id := wi_goal_id r; wi_owner_agent_id := wi_owner_agent_id r;
  wi_owner_user_id := wi_owner_user_id r; wi_source := wi_source r;
  wi_external_ref := wi_external_ref r; wi_dependencies := wi_dependencies r;
  wi_approval_required := wi_approval_required r; wi_metadata := wi_metadata r;
  wi_created_at := wi_created_at r; wi_updated_at := wi_updated_at r |}.

Definition transition_to (g : WorkItem) (target : option (enum_or_str WorkItemStatus)) : result WorkItem :=
  o ← work_item_status target;
  match o with
  | None => Raise (Exn "InvalidWorkItemTransitionError"
              ("WorkItem " +:+ wi_work_item_id (record g) +:+ ": missing transition target"))
  | Some target_status =>
      current ← status g;
      if decide (target_status = current) then Ok g
      else
        _ ← ensure_can_transition STATE_MACHINE current target_status
              ("WorkItem " +:+ wi_work_item_id (record g)) "InvalidWorkItemTransitionError" "transition";
        previous ← status g;
        Ok {| record := with_status (record g) target_status;
              _events := _events g ++
                [{| wsc_work_item_id := wi_work_item_id (record g);
                    wsc_company_id := wi_company_id (record g);
                    wsc_from_status := previous;
                    wsc_to_status := target_status |}] |}
  end.

(** The drained events and the aggregate left behind. *)
Definition pull_events (g : WorkItem) : list WorkItemStatusChanged * WorkItem :=
  (_events g, {| record := record g; _events := [] |}).

Lemma work_item_machine_total : total STATE_MACHINE.
Proof. apply total_b_spec. vm_compute. reflexivity. Qed.

(** The table is accepted at import time. *)
Lemma work_item_machine_ok : from_transitions VALID_TRANSITIONS = Ok STATE_MACHINE.
Proof. apply machine_of_ok. vm_compute. reflexivity. Qed.

#[global] Opaque STATE_MACHINE.
#[global] Arguments status : simpl never.

#[export] Program Instance work_item_lifecycle : Lifecycle WorkItem WorkItemStatus := {|
  lc_machine := STATE_MACHINE;
  lc_noop := true;
  lc_status := status;
  lc_step := λ g t, transition_to g (Some (Member t));
  lc_events := λ g, (λ e, (wsc_from_status e, wsc_to_status e)) <$> _events g;
  lc_total := work_item_machine_total;
|}.
Next Obligation. lifecycle_step_Ok transition_to work_item_machine_total. Qed.
Next Obligation. lifecycle_progress transition_to work_item_machine_total. Qed.
