(* ===== verification/ApprovalRequest.v ===== *)
(** * ApprovalRequest aggregate and lifecycle policy ([domain/approval_request.py]) *)

From S2P Require Import Prelude PyNum PyValue PyTime Models StateMachine.

Definition approval_status (v : option (enum_or_str ApprovalStatus)) : result (option ApprovalStatus) :=
  match v with
  | None => Ok None
  | Some (Member x) => Ok (Some x)
  | Some (Str s) => Some <$> parse_enum s
  end.

Definition VALID_TRANSITIONS : list (ApprovalStatus * list ApprovalStatus) :=
  [(ApprovalStatus_PENDING,
     [ApprovalStatus_APPROVED; ApprovalStatus_REJECTED; ApprovalStatus_EXPIRED;
      ApprovalStatus_CANCELLED]);
   (ApprovalStatus_APPROVED, []);
   (ApprovalStatus_REJECTED, []);
   (ApprovalStatus_EXPIRED, []);
   (ApprovalStatus_CANCELLED, [])].

Definition STATE_MACHINE : ControlPlaneStateMachine ApprovalStatus := machine_of VALID_TRANSITIONS.
Definition TERMINAL_STATUSES : gset ApprovalStatus := terminal_states STATE_MACHINE.

Definition approval_status_is_approved (v : option (enum_or_str ApprovalStatus)) : result bool :=
  s ← approval_status v; Ok (bool_decide (s = Some ApprovalStatus_APPROVED)).

Record ApprovalStatusChanged := {
  asc_approval_id : string;
  asc_company_id : string;
  asc_from_status : ApprovalStatus;
  asc_to_status : ApprovalStatus;
}.

Record ApprovalRequest := {
  record : ApprovalRequestRecord;
  _events : list ApprovalStatusChanged;
}.

Definition from_record (r : ApprovalRequestRecord) : ApprovalRequest := {| record := r; _events := [] |}.

Definition status (g : ApprovalRequest) : result ApprovalStatus :=
  o ← approval_status (approval_record_status (record g));
  match o with
  | Some s => Ok s
  | None => Raise (Exn "InvalidApprovalTransitionError"
              ("ApprovalRequest " +:+ approval_id (record g) +:+ ": missing status"))
  end.

Definition is_terminal_approval (g : ApprovalRequest) : result bool :=
  s ← status g; is_terminal STATE_MACHINE s.

(** [record.model_copy(update=...)] *)
Definition with_status (r : ApprovalRequestRecord) (s : ApprovalStatus) : ApprovalRequestRecord := {|
  approval_id := approval_id r; approval_company_id := approval_company_id r;
  approval_category := approval_category r; approval_record_status := Some (Member s);
  approval_requested_by := approval_requested_by r;
  approval_source_agent_id := approval_source_agent_id r;
  approval_proposed_action := approval_proposed_action r;
  approval_reason := approval_reason r; approval_risk := approval_risk r;
  approval_rollback_note := approval_rollback_note r;
  approval_affected_resources := approval_affected_resources r;
  approval_artifact_links := approval_artifact_links r;
  approval_run_id := approval_run_id r; approval_work_item_id := approval_work_item_id r;
  approval_goal_id := approval_goal_id r; approval_trace_id := approval_trace_id r;
  approval_resolved_by := approval_resolved_by r;
  approval_resolved_at := approval_resolved_at r;
  approval_expires_at := approval_expires_at r; approval_metadata := approval_metadata r;
  approval_created_at := approval_created_at r;
  approval_updated_at := approval_updated_at r |}.

Definition transition_to (g : ApprovalRequest) (target : option (enum_or_str ApprovalStatus)) : result ApprovalRequest :=
  o ← approval_status target;
  match o with
  | None => Raise (Exn "InvalidApprovalTransitionError"
              ("ApprovalRequest " +:+ approval_id (record g) +:+ ": missing transition target"))
  | Some target_status =>
      current ← status g;
      if decide (target_status = current) then Ok g
      else
        _ ← ensure_can_transition STATE_MACHINE current target_status
              ("ApprovalRequest " +:+ approval_id (record g)) "InvalidApprovalTransitionError" "transition";
        previous ← status g;
        Ok {| record := with_status (record g) target_status;
              _events := _events g ++
                [{| asc_approval_id := approval_id (record g);
                    asc_company_id := approval_company_id (record g);
                    asc_from_status := previous;
                    asc_to_status := target_status |}] |}
  end.

(** The drained events and the aggregate left behind. *)
Definition pull_events (g : ApprovalRequest) : list ApprovalStatusChanged * ApprovalRequest :=
  (_events g, {| record := record g; _events := [] |}).

Definition is_approved (g : ApprovalRequest) : result bool :=
  s ← status g; approval_status_is_approved (Some (Member s)).

Lemma approval_machine_total : total STATE_MACHINE.
Proof. apply total_b_spec. vm_compute. reflexivity. Qed.

(** The table is accepted at import time. *)
Lemma approval_machine_ok : from_transitions VALID_TRANSITIONS = Ok STATE_MACHINE.
Proof. apply machine_of_ok. vm_compute. reflexivity. Qed.

#[global] Opaque STATE_MACHINE.
#[global] Arguments status : simpl never.

#[export] Program Instance approval_lifecycle : Lifecycle ApprovalRequest ApprovalStatus := {|
  lc_machine := STATE_MACHINE;
  lc_noop := true;
  lc_status := status;
  lc_step := λ g t, transition_to g (Some (Member t));
  lc_events := λ g, (λ e, (asc_from_status e, asc_to_status e)) <$> _events g;
  lc_total := approval_machine_total;
|}.
Next Obligation. lifecycle_step_Ok transition_to approval_machine_total. Qed.
Next Obligation. lifecycle_progress transition_to approval_machine_total. Qed.
