(* ===== verification/Decision.v ===== *)
(** * Decision aggregate and lifecycle policy ([domain/decision.py]) *)

From S2P Require Import Prelude PyNum PyValue PyTime Models StateMachine.

Definition decision_status (v : option (enum_or_str DecisionStatus)) : result (option DecisionStatus) :=
  match v with
  | None => Ok None
  | Some (Member x) => Ok (Some x)
  | Some (Str s) => Some <$> parse_enum s
  end.

Definition VALID_TRANSITIONS : list (DecisionStatus * list DecisionStatus) :=
  [(DecisionStatus_PROPOSED,
     [DecisionStatus_ACCEPTED; DecisionStatus_REJECTED; DecisionStatus_SUPERSEDED]);
   (DecisionStatus_ACCEPTED, [DecisionStatus_SUPERSEDED]);
   (DecisionStatus_REJECTED, [DecisionStatus_SUPERSEDED]);
   (DecisionStatus_SUPERSEDED, [])].

Definition STATE_MACHINE : ControlPlaneStateMachine DecisionStatus := machine_of VALID_TRANSITIONS.
Definition TERMINAL_STATUSES : gset DecisionStatus := terminal_states STATE_MACHINE.

Record DecisionStatusChanged := {
  dsc_decision_id : string;
  dsc_company_id : string;
  dsc_from_status : DecisionStatus;
  dsc_to_status : DecisionStatus;
}.

Record Decision := {
  record : DecisionRecord;
  _events : list DecisionStatusChanged;
}.

Definition from_record (r : DecisionRecord) : Decision := {| record := r; _events := [] |}.

Definition status (g : Decision) : result DecisionStatus :=
  o ← decision_status (decision_record_status (record g));
  match o with
  | Some s => Ok s
  | None => Raise (Exn "InvalidDecisionTransitionError"
              ("Decision " +:+ decision_id (record g) +:+ ": missing status"))
  end.

Definition is_terminal_decision (g : Decision) : result bool :=
  s ← status g; is_terminal STATE_MACHINE s.

(** [record.model_copy(update=...)] *)
Definition with_status (r : DecisionRecord) (s : DecisionStatus) : DecisionRecord := {|
  decision_id := decision_id r; decision_company_id := decision_company_id r;
  decision_title := decision_title r; decision_rationale := decision_rationale r;
  decision_record_status := Some (Member s); decision_run_id := decision_run_id r;
  decision_work_item_id := decision_work_item_id r;
  decision_goal_id := decision_goal_id r; decision_options := decision_options r;
  decision_selected_option := decision_selected_option r;
  decision_decided_by := decision_decided_by r; decision_metadata := decision_metadata r;
  decision_created_at := decision_created_at r;
  decision_updated_at := decision_updated_at r |}.

Definition transition_to (g : Decision) (target : option (enum_or_str DecisionStatus)) : result Decision :=
  o ← decision_status target;
  match o with
  | None => Raise (Exn "InvalidDecisionTransitionError"
              ("Decision " +:+ decision_id (record g) +:+ ": missing transition target"))
  | Some target_status =>
      current ← status g;
      if decide (target_status = current) then Ok g
      else
        _ ← ensure_can_transition STATE_MACHINE current target_status
              ("Decision " +:+ decision_id (record g)) "InvalidDecisionTransitionError" "transition";
        previous ← status g;
        Ok {| record := with_status (record g) target_status;
              _events := _events g ++
                [{| dsc_decision_id := decision_id (record g);
                    dsc_company_id := decision_company_id (record g);
                    dsc_from_status := previous;
                    dsc_to_status := target_status |}] |}
  end.

(** The drained events and the aggregate left behind. *)
Definition pull_events (g : Decision) : list DecisionStatusChanged * Decision :=
  (_events g, {| record := record g; _events := [] |}).

Lemma decision_machine_total : total STATE_MACHINE.
Proof. apply total_b_spec. vm_compute. reflexivity. Qed.

(** The table is accepted at import time. *)
Lemma decision_machine_ok : from_transitions VALID_TRANSITIONS = Ok STATE_MACHINE.
Proof. apply machine_of_ok. vm_compute. reflexivity. Qed.

#[global] Opaque STATE_MACHINE.
#[global] Arguments status : simpl never.

#[export] Program Instance decision_lifecycle : Lifecycle Decision DecisionStatus := {|
  lc_machine := STATE_MACHINE;
  lc_noop := true;
  lc_status := status;
  lc_step := λ g t, transition_to g (Some (Member t));
  lc_events := λ g, (λ e, (dsc_from_status e, dsc_to_status e)) <$> _events g;
  lc_total := decision_machine_total;
|}.
Next Obligation. lifecycle_step_Ok transition_to decision_machine_total. Qed.
Next Obligation. lifecycle_progress transition_to decision_machine_total. Qed.
