(* ===== verification/AgentRole.v ===== *)
(** * AgentRole aggregate and runtime-status policy ([domain/agent_role.py]) *)

From S2P Require Import Prelude PyNum PyValue PyTime Models StateMachine.

Inductive AgentRoleStatus :=
  | AgentRoleStatus_ACTIVE
  | AgentRoleStatus_PAUSED
  | AgentRoleStatus_DISABLED
  | AgentRoleStatus_INACTIVE
  | AgentRoleStatus_RETIRED
  | AgentRoleStatus_TERMINATED.
#[global] Instance AgentRoleStatus_eq_dec : EqDecision AgentRoleStatus.
Proof. solve_decision. Defined.
Definition AgentRoleStatus_value (x : AgentRoleStatus) : string :=
  match x with
  | AgentRoleStatus_ACTIVE => "active"
  | AgentRoleStatus_PAUSED => "paused"
  | AgentRoleStatus_DISABLED => "disabled"
  | AgentRoleStatus_INACTIVE => "inactive"
  | AgentRoleStatus_RETIRED => "retired"
  | AgentRoleStatus_TERMINATED => "terminated"
  end.
#[global] Program Instance AgentRoleStatus_StrEnum : StrEnum AgentRoleStatus := {|
  enum_name := "AgentRoleStatus";
  members := [AgentRoleStatus_ACTIVE; AgentRoleStatus_PAUSED; AgentRoleStatus_DISABLED;
              AgentRoleStatus_INACTIVE; AgentRoleStatus_RETIRED; AgentRoleStatus_TERMINATED];
  value := AgentRoleStatus_value;
|}.
Solve All Obligations with solve_str_enum.

(** Strings are matched after trimming and lowering; an unknown one is the
    domain's own error, with the text as given. *)
Definition agent_role_status (v : option (enum_or_str AgentRoleStatus))
    : result (option AgentRoleStatus) :=
  match v with
  | None => Ok None
  | Some (Member x) => Ok (Some x)
  | Some (Str s) =>
      catch_value_error (Some <$> parse_enum (lower (strip s)))
        (λ _, Raise (Exn "InvalidAgentRoleStatusError" s))
  end.

Definition VALID_TRANSITIONS : list (AgentRoleStatus * list AgentRoleStatus) :=
  [(AgentRoleStatus_ACTIVE,
     [AgentRoleStatus_PAUSED; AgentRoleStatus_DISABLED; AgentRoleStatus_INACTIVE;
      AgentRoleStatus_RETIRED; AgentRoleStatus_TERMINATED]);
   (AgentRoleStatus_PAUSED,
     [AgentRoleStatus_ACTIVE; AgentRoleStatus_DISABLED; AgentRoleStatus_INACTIVE;
      AgentRoleStatus_RETIRED; AgentRoleStatus_TERMINATED]);
   (AgentRoleStatus_DISABLED,
     [AgentRoleStatus_ACTIVE; AgentRoleStatus_INACTIVE; AgentRoleStatus_RETIRED;
      AgentRoleStatus_TERMINATED]);
   (AgentRoleStatus_INACTIVE,
     [AgentRoleStatus_ACTIVE; AgentRoleStatus_DISABLED; AgentRoleStatus_RETIRED;
      AgentRoleStatus_TERMINATED]);
   (AgentRoleStatus_RETIRED, []);
   (AgentRoleStatus_TERMINATED, [])].

Definition STATE_MACHINE : ControlPlaneStateMachine AgentRoleStatus := machine_of VALID_TRANSITIONS.
Definition TERMINAL_STATUSES : gset AgentRoleStatus := terminal_states STATE_MACHINE.

Definition RUNNABLE_STATUSES : gset AgentRoleStatus := {[ AgentRoleStatus_ACTIVE ]}.

Record AgentRoleStatusChanged := {
  rsc_role_id : string;
  rsc_agent_id : string;
  rsc_company_id : string;
  rsc_from_status : AgentRoleStatus;
  rsc_to_status : AgentRoleStatus;
}.

Record AgentRole := {
  record : AgentRoleRecord;
  _events : list AgentRoleStatusChanged;
}.

Definition from_record (r : AgentRoleRecord) : AgentRole := {| record := r; _events := [] |}.

Definition status (g : AgentRole) : result AgentRoleStatus :=
  o ← agent_role_status (Str <$> role_record_status (record g));
  match o with
  | Some s => Ok s
  | None => Raise (Exn "InvalidAgentRoleStatusError"
              ("AgentRole " +:+ role_agent_id (record g) +:+ ": missing status"))
  end.

Definition is_terminal_role (g : AgentRole) : result bool :=
  s ← status g; is_terminal STATE_MACHINE s.

(** [record.model_copy(update=...)] *)
Definition with_status (r : AgentRoleRecord) (s : AgentRoleStatus) : AgentRoleRecord := {|
  role_id := role_id r; role_company_id := role_company_id r;
  role_agent_id := role_agent_id r; role_display_name := role_display_name r;
  role_agent_kind := role_agent_kind r; role_interaction_mode := role_interaction_mode r;
  role_role := role_role r; role_title := role_title r; role_domain := role_domain r;
  role_reports_to_agent_id := role_reports_to_agent_id r;
  role_adapter_type := role_adapter_type r; role_adapter_config := role_adapter_config r;
  role_context_sources := role_context_sources r;
  role_capabilities := role_capabilities r;
  role_responsibilities := role_responsibilities r;
  role_subscribed_events := role_subscribed_events r;
  role_published_events := role_published_events r;
  role_permissions := role_permissions r;
  role_budget_policy_id := role_budget_policy_id r;
  role_escalation_policy := role_escalation_policy r;
  role_record_status := Some (value s); role_created_by := role_created_by r;
  role_metadata := role_metadata r; role_created_at := role_created_at r;
  role_updated_at := role_updated_at r |}.

Definition transition_to (g : AgentRole) (target : option (enum_or_str AgentRoleStatus)) : result AgentRole :=
  o ← agent_role_status target;
  match o with
  | None => Raise (Exn "InvalidAgentRoleStatusError"
              ("AgentRole " +:+ role_agent_id (record g) +:+ ": missing transition target"))
  | Some target_status =>
      current ← status g;
      if decide (target_status = current) then Ok g
      else
        _ ← ensure_can_transition STATE_MACHINE current target_status
              ("AgentRole " +:+ role_agent_id (record g)) "InvalidAgentRoleTransitionError" "transition";
        previous ← status g;
        Ok {| record := with_status (record g) target_status;
              _events := _events g ++
                [{| rsc_role_id := role_id (record g);
                    rsc_agent_id := role_agent_id (record g);
                    rsc_company_id := role_company_id (record g);
                    rsc_from_status := previous;
                    rsc_to_status := target_status |}] |}
  end.

(** The drained events and the aggregate left behind. *)
Definition pull_events (g : AgentRole) : list AgentRoleStatusChanged * AgentRole :=
  (_events g, {| record := record g; _events := [] |}).

(** True when the role is eligible for wakeup execution. *)
Definition is_runnable (g : AgentRole) : result bool :=
  s ← status g; Ok (bool_decide (s ∈ RUNNABLE_STATUSES)).

(** A member's value is already trimmed and lower-case. *)
Lemma agent_role_status_value (s : AgentRoleStatus) :
  agent_role_status (Some (Str (value s))) = Ok (Some s).
Proof. by destruct s. Qed.

Lemma agent_role_machine_total : total STATE_MACHINE.
Proof. apply total_b_spec. vm_compute. reflexivity. Qed.

(** The table is accepted at import time. *)
Lemma agent_role_machine_ok : from_transitions VALID_TRANSITIONS = Ok STATE_MACHINE.
Proof. apply machine_of_ok. vm_compute. reflexivity. Qed.

#[global] Opaque STATE_MACHINE.
#[global] Arguments status : simpl never.

#[export] Program Instance agent_role_lifecycle : Lifecycle AgentRole AgentRoleStatus := {|
  lc_machine := STATE_MACHINE;
  lc_noop := true;
  lc_status := status;
  lc_step := λ g t, transition_to g (Some (Member t));
  lc_events := λ g, (λ e, (rsc_from_status e, rsc_to_status e)) <$> _events g;
  lc_total := agent_role_machine_total;
|}.
Next Obligation.
  lifecycle_step_Ok transition_to agent_role_machine_total.
  unfold status. simpl role_record_status. simpl fmap. by rewrite agent_role_status_value.
Qed.
Next Obligation. lifecycle_progress transition_to agent_role_machine_total. Qed.
