(* ===== verification/EvolutionProposal.v ===== *)
(** * EvolutionProposal aggregate: the rollout state machine ([domain/evolution_proposal.py]) *)

From S2P Require Import Prelude PyNum PyValue PyTime Models StateMachine.

Definition evolution_rollout_state (v : option (enum_or_str EvolutionRolloutState)) : result (option EvolutionRolloutState) :=
  match v with
  | None => Ok None
  | Some (Member x) => Ok (Some x)
  | Some (Str s) => Some <$> parse_enum s
  end.

Definition VALID_ROLLOUT_TRANSITIONS : list (EvolutionRolloutState * list EvolutionRolloutState) :=
  [(EvolutionRolloutState_PROPOSED,
     [EvolutionRolloutState_SHADOW; EvolutionRolloutState_CANARY;
      EvolutionRolloutState_REJECTED]);
   (EvolutionRolloutState_SHADOW,
     [EvolutionRolloutState_CANARY; EvolutionRolloutState_ROLLED_BACK]);
   (EvolutionRolloutState_CANARY,
     [EvolutionRolloutState_ACTIVE; EvolutionRolloutState_ROLLED_BACK]);
   (EvolutionRolloutState_ACTIVE, [EvolutionRolloutState_ROLLED_BACK]);
   (EvolutionRolloutState_ROLLED_BACK, []);
   (EvolutionRolloutState_REJECTED, [])].

Definition ROLLOUT_STATE_MACHINE : ControlPlaneStateMachine EvolutionRolloutState := machine_of VALID_ROLLOUT_TRANSITIONS.
Definition TERMINAL_ROLLOUT_STATES : gset EvolutionRolloutState := terminal_states ROLLOUT_STATE_MACHINE.

Definition ROLLOUT_STATES_REQUIRING_APPROVAL : gset EvolutionRolloutState :=
  {[ EvolutionRolloutState_CANARY; EvolutionRolloutState_ACTIVE ]}.

Definition rollout_state_requires_approval (v : option (enum_or_str EvolutionRolloutState))
    : result bool :=
  target ← evolution_rollout_state v;
  Ok (match target with
      | Some t => bool_decide (t ∈ ROLLOUT_STATES_REQUIRING_APPROVAL)
      | None => false
      end).

Definition approval_state_is_approved (v : option (enum_or_str ApprovalStatus)) : bool :=
  match v with
  | None => false
  | Some s => bool_decide (str_of s = value ApprovalStatus_APPROVED)
  end.

Record EvolutionRolloutStatusChanged := {
  esc_proposal_id : string;
  esc_company_id : string;
  esc_from_state : EvolutionRolloutState;
  esc_to_state : EvolutionRolloutState;
}.

Record EvolutionProposal := {
  record : EvolutionProposalRecord;
  _events : list EvolutionRolloutStatusChanged;
}.

Definition from_record (r : EvolutionProposalRecord) : EvolutionProposal := {| record := r; _events := [] |}.

Definition rollout_state (g : EvolutionProposal) : result EvolutionRolloutState :=
  o ← evolution_rollout_state (proposal_record_rollout_state (record g));
  match o with
  | Some s => Ok s
  | None => Raise (Exn "InvalidEvolutionRolloutTransitionError"
              ("EvolutionProposal " +:+ proposal_id (record g) +:+ ": missing rollout state"))
  end.

Definition is_terminal_rollout (g : EvolutionProposal) : result bool :=
  s ← rollout_state g; is_terminal ROLLOUT_STATE_MACHINE s.

(** [record.model_copy(update=...)] *)
Definition with_rollout_state (r : EvolutionProposalRecord) (s : EvolutionRolloutState) : EvolutionProposalRecord := {|
  proposal_id := proposal_id r; proposal_company_id := proposal_company_id r;
  proposal_tier := proposal_tier r; proposal_scope := proposal_scope r;
  proposal_evidence := proposal_evidence r;
  proposal_expected_benefit := proposal_expected_benefit r;
  proposal_risk := proposal_risk r; proposal_approval_state := proposal_approval_state r;
  proposal_record_rollout_state := Some (Member s);
  proposal_approval_id := proposal_approval_id r;
  proposal_metadata := proposal_metadata r; proposal_created_at := proposal_created_at r;
  proposal_updated_at := proposal_updated_at r |}.

Definition advance_rollout (g : EvolutionProposal) (target : option (enum_or_str EvolutionRolloutState)) : result EvolutionProposal :=
  o ← evolution_rollout_state target;
  match o with
  | None => Raise (Exn "InvalidEvolutionRolloutTransitionError"
              ("EvolutionProposal " +:+ proposal_id (record g) +:+ ": missing rollout target"))
  | Some target_status =>
      current ← rollout_state g;
      _ ← ensure_can_transition ROLLOUT_STATE_MACHINE current target_status
              ("EvolutionProposal " +:+ proposal_id (record g)) "InvalidEvolutionRolloutTransitionError" "rollout transition";
        previous ← rollout_state g;
        Ok {| record := with_rollout_state (record g) target_status;
              _events := _events g ++
                [{| esc_proposal_id := proposal_id (record g);
                    esc_company_id := proposal_company_id (record g);
                    esc_from_state := previous;
                    esc_to_state := target_status |}] |}
  end.

(** The drained events and the aggregate left behind. *)
Definition pull_events (g : EvolutionProposal) : list EvolutionRolloutStatusChanged * EvolutionProposal :=
  (_events g, {| record := record g; _events := [] |}).

Lemma rollout_machine_total : total ROLLOUT_STATE_MACHINE.
Proof. apply total_b_spec. vm_compute. reflexivity. Qed.

(** The table is accepted at import time. *)
Lemma rollout_machine_ok : from_transitions VALID_ROLLOUT_TRANSITIONS = Ok ROLLOUT_STATE_MACHINE.
Proof. apply machine_of_ok. vm_compute. reflexivity. Qed.

#[global] Opaque ROLLOUT_STATE_MACHINE.
#[global] Arguments rollout_state : simpl never.

#[export] Program Instance rollout_lifecycle : Lifecycle EvolutionProposal EvolutionRolloutState := {|
  lc_machine := ROLLOUT_STATE_MACHINE;
  lc_noop := false;
  lc_status := rollout_state;
  lc_step := λ g t, advance_rollout g (Some (Member t));
  lc_events := λ g, (λ e, (esc_from_state e, esc_to_state e)) <$> _events g;
  lc_total := rollout_machine_total;
|}.
Next Obligation. lifecycle_step_Ok advance_rollout rollout_machine_total. Qed.
Next Obligation. lifecycle_progress advance_rollout rollout_machine_total. Qed.
