(* ===== verification/AgentRun.v ===== *)
(** * AgentRun aggregate ([domain/agent_run.py]) *)

From S2P Require Import Prelude PyNum PyValue PyTime Models StateMachine.

Definition VALID_TRANSITIONS : list (AgentRunStatus * list AgentRunStatus) :=
  [(AgentRunStatus_PENDING,
     [AgentRunStatus_RUNNING; AgentRunStatus_CANCELLED; AgentRunStatus_FAILED]);
   (AgentRunStatus_RUNNING,
     [AgentRunStatus_SUCCEEDED; AgentRunStatus_FAILED; AgentRunStatus_CANCELLED;
      AgentRunStatus_TIMED_OUT]);
   (AgentRunStatus_SUCCEEDED, []);
   (AgentRunStatus_FAILED, []);
   (AgentRunStatus_CANCELLED, []);
   (AgentRunStatus_TIMED_OUT, [])].

Definition STATE_MACHINE : ControlPlaneStateMachine AgentRunStatus := machine_of VALID_TRANSITIONS.
Definition TERMINAL_STATUSES : gset AgentRunStatus := terminal_states STATE_MACHINE.

Record AgentRunStatusChanged := {
  runsc_run_id : string;
  runsc_agent_id : string;
  runsc_company_id : string;
  runsc_from_status : AgentRunStatus;
  runsc_to_status : AgentRunStatus;
}.

Record AgentRun := {
  record : AgentRunRecord;
  _events : list AgentRunStatusChanged;
}.

Definition from_record (r : AgentRunRecord) : AgentRun := {| record := r; _events := [] |}.

(** The record's status.  A plain string finds the row of the member it equals;
    another string has no row in the table. *)
Definition status (g : AgentRun) : result AgentRunStatus :=
  match run_record_status (record g) with
  | Member x => Ok x
  | Str s =>
      match lookup_value s with
      | Some x => Ok x
      | None => Raise (Exn "InvalidControlPlaneStateMachineError"
                  ("unknown_current_state:" +:+ s))
      end
  end.

Definition is_terminal_run (g : AgentRun) : result bool :=
  s ← status g; is_terminal STATE_MACHINE s.

(** [record.model_copy(update=...)] *)
Definition with_status (r : AgentRunRecord) (s : AgentRunStatus) : AgentRunRecord := {|
  run_id := run_id r; run_company_id := run_company_id r; run_agent_id := run_agent_id r;
  run_record_status := Member s; run_trace_id := run_trace_id r;
  run_goal_id := run_goal_id r; run_work_item_id := run_work_item_id r;
  run_trigger_event_id := run_trigger_event_id r; run_input_event := run_input_event r;
  run_output_events := run_output_events r; run_started_at := run_started_at r;
  run_completed_at := run_completed_at r; run_error_category := run_error_category r;
  run_error_message := run_error_message r;
  run_last_successful_step := run_last_successful_step r; run_cost_usd := run_cost_usd r;
  run_input_tokens := run_input_tokens r; run_output_tokens := run_output_tokens r;
  run_metadata := run_metadata r |}.

Definition transition_to (g : AgentRun) (target_status : AgentRunStatus) : result AgentRun :=
  current ← status g;
  _ ← ensure_can_transition STATE_MACHINE current target_status
        ("AgentRun " +:+ run_id (record g)) "InvalidAgentRunTransitionError" "transition";
  previous ← status g;
  Ok {| record := with_status (record g) target_status;
        _events := _events g ++
          [{| runsc_run_id := run_id (record g);
              runsc_agent_id := run_agent_id (record g);
              runsc_company_id := run_company_id (record g);
              runsc_from_status := previous;
              runsc_to_status := target_status |}] |}.

(** The drained events and the aggregate left behind. *)
Definition pull_events (g : AgentRun) : list AgentRunStatusChanged * AgentRun :=
  (_events g, {| record := record g; _events := [] |}).

Lemma agent_run_machine_total : total STATE_MACHINE.
Proof. apply total_b_spec. vm_compute. reflexivity. Qed.

(** The table is accepted at import time. *)
Lemma agent_run_machine_ok : from_transitions VALID_TRANSITIONS = Ok STATE_MACHINE.
Proof. apply machine_of_ok. vm_compute. reflexivity. Qed.

#[global] Opaque STATE_MACHINE.
#[global] Arguments status : simpl never.

#[export] Program Instance agent_run_lifecycle : Lifecycle AgentRun AgentRunStatus := {|
  lc_machine := STATE_MACHINE;
  lc_noop := false;
  lc_status := status;
  lc_step := transition_to;
  lc_events := λ g, (λ e, (runsc_from_status e, runsc_to_status e)) <$> _events g;
  lc_total := agent_run_machine_total;
|}.
Next Obligation. lifecycle_step_Ok transition_to agent_run_machine_total. Qed.
Next Obligation. lifecycle_progress transition_to agent_run_machine_total. Qed.
