(* ===== verification/Metadata.v ===== *)
(** * JSON-friendly metadata ([domain/metadata.py])

    Metadata is frozen on the way in (keys trimmed, sequences and sets turned
    into tuples, enumerations and dates into strings) and thawed on the way
    out. *)

From S2P Require Import Prelude PyNum PyTime PyValue.

Definition metadata_key_required : exn :=
  Exn "InvalidControlPlaneMetadataError" "metadata_key_required".

Definition _clean_metadata_key (k : string) : result string :=
  let key := strip k in
  if str_empty key then Raise metadata_key_required else Ok key.

(** A dictionary comprehension: a repeated key keeps its first position and
    takes the last value. *)
Definition dict_of_items {V} (items : list (string * V)) : list (string * V) :=
  dict_update [] items.

Fixpoint _freeze_metadata_value (v : pyval) : result pyval :=
  match v with
  | PEnum s => Ok (PStr s)
  | PDatetime d => Ok (PStr (isoformat "T" d))
  | PDict d =>
      items ← mapR (λ kv, k ← _clean_metadata_key kv.1;
                          x ← _freeze_metadata_value kv.2; Ok (k, x)) d;
      Ok (PDict (dict_of_items items))
  | PList l | PTuple l => xs ← mapR _freeze_metadata_value l; Ok (PTuple xs)
  | PSet l =>
      xs ← mapR (λ x, y ← _freeze_metadata_value x; Ok (py_str x, y)) l;
      Ok (PTuple (py_sorted key_leb xs).*2)
  | PNone | PBool _ | PInt _ | PFloat _ | PStr _ => Ok v
  | PObject text => Ok (PStr text)
  end.

Definition _freeze_metadata_mapping (d : pydict) : result pydict :=
  items ← mapR (λ kv, k ← _clean_metadata_key kv.1;
                      x ← _freeze_metadata_value kv.2; Ok (k, x)) d;
  Ok (dict_of_items items).

Fixpoint _unfreeze_metadata_value (v : pyval) : pyval :=
  match v with
  | PDict d => PDict (map (λ kv, (kv.1, _unfreeze_metadata_value kv.2)) d)
  | PTuple l => PList (map _unfreeze_metadata_value l)
  | _ => v
  end.

Record ControlPlaneMetadata := { values : pydict }.

(** The constructor, with its [__post_init__]. *)
Definition mk_metadata (d : pydict) : result ControlPlaneMetadata :=
  vs ← _freeze_metadata_mapping d; Ok {| values := vs |}.

Definition empty_metadata : result ControlPlaneMetadata := mk_metadata [].

Definition from_mapping (v : option pydict) : result ControlPlaneMetadata :=
  mk_metadata (dict_or_empty v).

Definition keys_tuple (m : ControlPlaneMetadata) : list string := str_sorted (values m).*1.

Definition as_dict (m : ControlPlaneMetadata) : pydict :=
  map (λ kv, (kv.1, _unfreeze_metadata_value kv.2)) (values m).

(** [ControlPlaneMetadata.from_mapping(v).as_dict()] *)
Definition clean_metadata (v : option pydict) : result pydict :=
  m ← from_mapping v; Ok (as_dict m).

(** ** JSON values with clean keys *)
Fixpoint json_clean (v : pyval) : bool :=
  match v with
  | PNone | PBool _ | PInt _ | PFloat _ | PStr _ => true
  | PList l => forallb json_clean l
  | PDict d =>
      forallb (λ kv, json_clean kv.2 && negb (str_empty kv.1) && bool_decide (strip kv.1 = kv.1)) d
      && bool_decide (NoDup d.*1)
  | _ => false
  end.

Definition json_clean_dict (d : pydict) : bool := json_clean (PDict d).

Lemma clean_key_Ok k k' : _clean_metadata_key k = Ok k' → k' ≠ "" ∧ strip k' = k'.
Proof.
  unfold _clean_metadata_key. destruct (str_empty _) eqn:E; [done|].
  intros [= <-]. apply str_empty_false in E. split; [done | apply strip_idem].
Qed.

Lemma clean_key_fixed k : k ≠ "" → strip k = k → _clean_metadata_key k = Ok k.
Proof. unfold _clean_metadata_key. intros Hne ->. by destruct k. Qed.

Lemma dict_update_snoc {V} (d : list (string * V)) (e : list (string * V)) k v :
  dict_update d (e ++ [(k, v)]) = dict_set (dict_update d e) k v.
Proof. unfold dict_update. by rewrite foldl_app. Qed.

Lemma dict_set_fresh {V} (d : list (string * V)) k v :
  k ∉ d.*1 → dict_set d k v = d ++ [(k, v)].
Proof.
  induction d as [|[k' v'] d IH]; cbn; [done|]. intros [? ?]%not_elem_of_cons.
  rewrite decide_False by done. by rewrite IH.
Qed.

(** Items with distinct keys are the dictionary itself. *)
Lemma dict_of_items_NoDup {V} (d : list (string * V)) : NoDup d.*1 → dict_of_items d = d.
Proof.
  unfold dict_of_items. induction d as [|[k v] d IH] using rev_ind; [done|].
  rewrite fmap_app, dict_update_snoc. intros (H1 & H2 & _)%NoDup_app.
  rewrite IH by done. apply dict_set_fresh. set_solver.
Qed.

Lemma dict_of_items_elem {V} (d : list (string * V)) kv : kv ∈ dict_of_items d → kv ∈ d.
Proof.
  unfold dict_of_items. induction d as [|[k v] d IH] using rev_ind; [done|].
  rewrite dict_update_snoc. generalize (dict_update [] d) IH. clear IH.
  intros e. induction e as [|[k' v'] e IHe]; cbn; intros IH.
  - rewrite list_elem_of_singleton, elem_of_app, list_elem_of_singleton. auto.
  - case_decide as Ek; rewrite elem_of_cons.
    + subst. intros [->|H]; [set_solver|]. assert (kv ∈ d) by (apply IH; by right). set_solver.
    + intros [->|H]; [set_solver|]. apply IHe; [|done]. intros. apply IH. by right.
Qed.

Lemma forallb_map {A B} (f : B → bool) (g : A → B) l :
  forallb f (map g l) = forallb (λ x, f (g x)) l.
Proof. induction l; cbn; by f_equal. Qed.

Lemma fst_map_snd {V W} (f : V → W) (d : list (string * V)) :
  (map (λ kv, (kv.1, f kv.2)) d).*1 = d.*1.
Proof. induction d as [|[k v] d IH]; cbn; by f_equal. Qed.

(** What comes out of freezing and thawing a dictionary is clean, given that
    it is for the values inside. *)
Lemma thawed_dict_clean (d items : pydict) :
  Forall2 (λ kv ky, (k ← _clean_metadata_key kv.1;
            x ← _freeze_metadata_value kv.2; Ok (k, x)) = Ok ky) d items →
  Forall (λ kv, ∀ f, _freeze_metadata_value kv.2 = Ok f →
            json_clean (_unfreeze_metadata_value f) = true) d →
  json_clean (_unfreeze_metadata_value (PDict (dict_of_items items))) = true.
Proof.
  intros H2 HF. cbn. rewrite forallb_map, fst_map_snd. apply andb_true_intro. split.
  - apply forallb_forall. intros [k x] Hin%list_elem_of_In%dict_of_items_elem.
    apply list_elem_of_lookup in Hin as [i Hi].
    destruct (Forall2_lookup_r _ _ _ _ _ H2 Hi) as ([k0 x0] & Hi0 & Heq). inv_bind.
    simplify_eq. cbn in *. rewrite Forall_lookup in HF.
    rewrite (HF _ _ Hi0 _ Hm0). apply clean_key_Ok in Hm as [Hne Hs].
    cbn. apply andb_true_intro. split.
    + apply negb_true_iff. by apply str_empty_false.
    + by apply bool_decide_eq_true.
  - apply bool_decide_eq_true. apply dict_update_NoDup. constructor.
Qed.

Lemma freeze_list_clean (l xs : list pyval) :
  Forall2 (λ v f, _freeze_metadata_value v = Ok f) l xs →
  Forall (λ v, ∀ f, _freeze_metadata_value v = Ok f →
            json_clean (_unfreeze_metadata_value f) = true) l →
  forallb json_clean (map _unfreeze_metadata_value xs) = true.
Proof.
  induction 1; cbn; [done|]. intros [H1 H2]%Forall_cons. by rewrite H1, IHForall2.
Qed.

Lemma forallb_perm {A} (f : A → bool) l1 l2 : l1 ≡ₚ l2 → forallb f l1 = forallb f l2.
Proof. induction 1; cbn; try congruence. by destruct (f x), (f y). Qed.

Lemma unfreeze_freeze_clean v f :
  _freeze_metadata_value v = Ok f → json_clean (_unfreeze_metadata_value f) = true.
Proof.
  revert f. induction v as [| | |x| |l IH|l IH|l IH|d IH| | |] using pyval_ind';
    intros g H; cbn in H; inv_bind; try done.
  - apply mapR_Ok in Hm. cbn. by eapply freeze_list_clean.
  - apply mapR_Ok in Hm. cbn. by eapply freeze_list_clean.
  - apply mapR_Ok in Hm. cbn.
    rewrite (forallb_perm _ _ (map _unfreeze_metadata_value a.*2))
      by (apply Permutation_map, fmap_Permutation, py_sorted_perm).
    eapply freeze_list_clean; [|exact IH].
    clear IH. induction Hm; cbn; constructor; inv_bind; done.
  - apply mapR_Ok in Hm. by eapply thawed_dict_clean.
Qed.

(** A clean value is its own image. *)
Lemma freeze_clean_fixed v :
  json_clean v = true → ∃ f, _freeze_metadata_value v = Ok f ∧ _unfreeze_metadata_value f = v.
Proof.
  induction v as [| | |x| |l IH|l IH|l IH|d IH| | |] using pyval_ind'; cbn; intros H;
    try done; try (by eexists).
  - assert (∃ xs, mapR _freeze_metadata_value l = Ok xs ∧ map _unfreeze_metadata_value xs = l)
      as (xs & Hxs & Hu).
    { induction IH as [|v l Hv IH IHl]; cbn in *; [by exists []|].
      apply andb_prop in H as [H1 H2]. destruct (Hv H1) as (f & -> & Hf).
      destruct (IHl H2) as (xs & -> & Hxs). exists (f :: xs). cbn. by rewrite Hf, Hxs. }
    exists (PTuple xs). by rewrite Hxs; cbn; rewrite Hu.
  - apply andb_prop in H as [H Hnd%bool_decide_eq_true].
    assert (∃ xs, mapR (λ kv : string * pyval, k ← _clean_metadata_key kv.1;
              x ← _freeze_metadata_value kv.2; Ok (k, x)) d = Ok xs
            ∧ map (λ kv, (kv.1, _unfreeze_metadata_value kv.2)) xs = d) as (xs & Hxs & Hu).
    { clear Hnd. induction IH as [|[k v] d Hv IH IHd]; cbn in *; [by exists []|].
      apply andb_prop in H as [H1 H2]. apply andb_prop in H1 as [H1 Hs%bool_decide_eq_true].
      apply andb_prop in H1 as [H1 Hne%negb_true_iff]. apply str_empty_false in Hne.
      rewrite clean_key_fixed by done. destruct (Hv H1) as (f & -> & Hf).
      destruct (IHd H2) as (xs & -> & Hxs). exists ((k, f) :: xs). cbn. by rewrite Hf, Hxs. }
    exists (PDict xs). rewrite Hxs; cbn. rewrite dict_of_items_NoDup; [by rewrite Hu|].
    by rewrite <- (fst_map_snd _unfreeze_metadata_value), Hu.
Qed.

Lemma clean_metadata_as_value d r :
  clean_metadata (Some d) = Ok r ↔
  ∃ f, _freeze_metadata_value (PDict d) = Ok f ∧ _unfreeze_metadata_value f = PDict r.
Proof.
  unfold clean_metadata, from_mapping, mk_metadata, _freeze_metadata_mapping, as_dict; cbn.
  destruct (mapR _ d); cbn; naive_solver.
Qed.

Lemma metadata_normal d r :
  clean_metadata (Some d) = Ok r → json_clean_dict r = true ∧ clean_metadata (Some r) = Ok r.
Proof.
  intros (f & Hf & Hu)%clean_metadata_as_value.
  pose proof (unfreeze_freeze_clean _ _ Hf) as Hc. rewrite Hu in Hc. split; [done|].
  apply clean_metadata_as_value. by apply freeze_clean_fixed.
Qed.

(** Metadata that is accepted comes out as plain JSON with trimmed,
    non-empty, distinct keys, and a second pass leaves it unchanged. *)
Theorem metadata_normal_form d r :
  clean_metadata (Some d) = Ok r →
  json_clean_dict r = true ∧ clean_metadata (Some r) = Ok r.
Proof. apply metadata_normal. Qed.

Definition sample_metadata : pydict :=
  [(" k ", PSet [PStr "b"; PStr "a"]); ("k", PTuple [PEnum "x"; PDict [("n ", PNone)]])].

Lemma metadata_normal_form_witness :
  clean_metadata (Some sample_metadata)
  = Ok [("k", PList [PStr "x"; PDict [("n", PNone)]])]
  ∧ json_clean_dict [("k", PList [PStr "x"; PDict [("n", PNone)]])] = true.
Proof.
  split; [reflexivity|]. apply (metadata_normal_form sample_metadata). reflexivity.
Defined.
