(* ===== verification/AuditEvent.v ===== *)
(** * AuditEvent aggregate: append-only evidence policy ([domain/audit_event.py]) *)

From S2P Require Import Prelude PyNum PyValue PyTime Models Metadata.

Definition clean_audit_text (v : option string) (field_name : string) : result string :=
  let cleaned := strip (str_or_empty v) in
  if str_empty cleaned then Raise (Exn "InvalidAuditEventError" (field_name +:+ "_required"))
  else Ok cleaned.

Definition clean_optional_audit_text (v : option string) : option string :=
  match v with
  | None => None
  | Some s => let cleaned := strip s in if str_empty cleaned then None else Some cleaned
  end.

Definition clean_audit_actor_type (v : option string) : string :=
  let cleaned := strip (str_or_empty v) in if str_empty cleaned then "system" else cleaned.

Definition clean_audit_actor_id (v : option string) : string := strip (str_or_empty v).

Definition clean_audit_detail (v : option pydict) : result pydict := clean_metadata v.

Record AuditEvent := { record : AuditEventRecord }.

Definition _normalize_append_record (r : AuditEventRecord) : result AuditEventRecord :=
  audit_event_id ← clean_audit_text (Some (ae_audit_event_id r)) "audit_event_id";
  company_id ← clean_audit_text (Some (ae_company_id r)) "company_id";
  action ← clean_audit_text (Some (ae_action r)) "action";
  target_type ← clean_audit_text (Some (ae_target_type r)) "target_type";
  target_id ← clean_audit_text (Some (ae_target_id r)) "target_id";
  detail ← clean_audit_detail (Some (ae_detail r));
  Ok {| ae_audit_event_id := audit_event_id;
        ae_company_id := company_id;
        ae_action := action;
        ae_target_type := target_type;
        ae_target_id := target_id;
        ae_actor_type := clean_audit_actor_type (Some (ae_actor_type r));
        ae_actor_id := clean_audit_actor_id (Some (ae_actor_id r));
        ae_trace_id := clean_optional_audit_text (ae_trace_id r);
        ae_run_id := clean_optional_audit_text (ae_run_id r);
        ae_work_item_id := clean_optional_audit_text (ae_work_item_id r);
        ae_idempotency_key := clean_optional_audit_text (ae_idempotency_key r);
        ae_detail := detail;
        ae_created_at := ae_created_at r |}.

Definition for_append (r : AuditEventRecord) : result AuditEvent :=
  r' ← _normalize_append_record r; Ok {| record := r' |}.

Definition from_record (r : AuditEventRecord) : result AuditEvent :=
  r' ← _normalize_append_record r; Ok {| record := r' |}.

(** A required text field in normal form. *)
Definition clean_text (s : string) : Prop := s ≠ "" ∧ strip s = s.

(** The form every appended audit row has. *)
Definition well_formed_audit (r : AuditEventRecord) : Prop :=
  clean_text (ae_audit_event_id r) ∧ clean_text (ae_company_id r) ∧ clean_text (ae_action r)
  ∧ clean_text (ae_target_type r) ∧ clean_text (ae_target_id r) ∧ clean_text (ae_actor_type r)
  ∧ strip (ae_actor_id r) = ae_actor_id r
  ∧ (∀ o, o ∈ [ae_trace_id r; ae_run_id r; ae_work_item_id r; ae_idempotency_key r] →
       match o with Some s => clean_text s | None => True end)
  ∧ json_clean_dict (ae_detail r) = true.

Lemma clean_audit_text_Ok v f s : clean_audit_text v f = Ok s → clean_text s.
Proof.
  unfold clean_audit_text. destruct (str_empty _) eqn:E; [done|]. intros [= <-].
  apply str_empty_false in E. split; [done | apply strip_idem].
Qed.

Lemma clean_audit_text_fixed s f : clean_text s → clean_audit_text (Some s) f = Ok s.
Proof. unfold clean_audit_text; cbn. intros [Hne ->]. by destruct s. Qed.

Lemma clean_optional_ok v :
  match clean_optional_audit_text v with Some s => clean_text s | None => True end.
Proof.
  destruct v as [s|]; cbn; [|done]. destruct (str_empty (strip s)) eqn:E; [done|].
  apply str_empty_false in E. split; [done | apply strip_idem].
Qed.

Lemma clean_optional_fixed o :
  match o with Some s => clean_text s | None => True end → clean_optional_audit_text o = o.
Proof. destruct o as [s|]; cbn; [|done]. intros [Hne ->]. by destruct s. Qed.

Lemma clean_actor_type_ok v : clean_text (clean_audit_actor_type v).
Proof.
  unfold clean_audit_actor_type. destruct (str_empty _) eqn:E; [done|].
  apply str_empty_false in E. split; [done | apply strip_idem].
Qed.

Lemma normalize_append_well_formed r r' :
  _normalize_append_record r = Ok r' → well_formed_audit r'.
Proof.
  unfold _normalize_append_record. intros H; inv_bind.
  unfold well_formed_audit; cbn. do 5 (split; [by eapply clean_audit_text_Ok|]).
  split; [apply clean_actor_type_ok|]. split; [|split].
  - apply strip_idem.
  - intros o Ho. repeat (apply elem_of_cons in Ho as [->|Ho]; [apply clean_optional_ok|]).
    by apply not_elem_of_nil in Ho.
  - by apply metadata_normal in Hm4 as [? ?].
Qed.

Lemma normalize_append_fixed r :
  well_formed_audit r → clean_metadata (Some (ae_detail r)) = Ok (ae_detail r) →
  _normalize_append_record r = Ok r.
Proof.
  intros (H1 & H2 & H3 & H4 & H5 & H6 & H7 & H8 & _) Hd.
  unfold _normalize_append_record, clean_audit_detail.
  rewrite !clean_audit_text_fixed, Hd by done. cbn.
  destruct r; cbn in *. f_equal. f_equal.
  - unfold clean_audit_actor_type; cbn. destruct H6 as [Hne ->]. by destruct ae_actor_type.
  - done.
  - apply clean_optional_fixed, H8. set_solver.
  - apply clean_optional_fixed, H8. set_solver.
  - apply clean_optional_fixed, H8. set_solver.
  - apply clean_optional_fixed, H8. set_solver.
Qed.

(** An audit row is accepted only in normal form (required fields present
    and trimmed, blank optional references dropped, detail plain JSON), and
    re-reading an appended row through the aggregate changes nothing. *)
Theorem audit_append_normal_form r a :
  for_append r = Ok a → well_formed_audit (record a) ∧ from_record (record a) = Ok a.
Proof.
  unfold for_append. intros H; inv_bind. cbn.
  pose proof (normalize_append_well_formed _ _ Hm) as Hwf. split; [done|].
  assert (clean_metadata (Some (ae_detail a0)) = Ok (ae_detail a0)) as Hd.
  { unfold _normalize_append_record in Hm. inv_bind. cbn.
    match goal with H : clean_audit_detail _ = Ok _ |- _ => apply metadata_normal in H as [_ H]; exact H end. }
  unfold from_record. by rewrite normalize_append_fixed.
Qed.

Definition sample_audit : AuditEventRecord := {|
  ae_audit_event_id := "aud_1"; ae_company_id := " cmp_1"; ae_action := "execution.claimed";
  ae_target_type := "execution"; ae_target_id := "work:w1 "; ae_actor_type := " ";
  ae_actor_id := " ops "; ae_trace_id := Some "  "; ae_run_id := Some "run_1";
  ae_work_item_id := None; ae_idempotency_key := None;
  ae_detail := [("ceiling_usd", PStr "1.500000")]; ae_created_at := of_utc 0 |}.

Lemma audit_append_normal_form_witness :
  ∃ a, for_append sample_audit = Ok a ∧ well_formed_audit (record a)
       ∧ ae_actor_type (record a) = "system" ∧ ae_trace_id (record a) = None.
Proof.
  eexists. split; [reflexivity|]. split; [|split; reflexivity].
  apply (audit_append_normal_form sample_audit). reflexivity.
Defined.
