(* ===== verification/CompanyContext.v ===== *)
(** * CompanyContext aggregate: the tenant boundary ([domain/company_context.py]) *)

From S2P Require Import Prelude PyNum PyValue PyTime Models Metadata.

Definition clean_company_name (v : option string) : result string :=
  let cleaned := strip (str_or_empty v) in
  if str_empty cleaned then Raise (Exn "InvalidCompanyContextError" "name_required")
  else Ok cleaned.

Definition clean_company_mission (v : option string) : string := strip (str_or_empty v).

Inductive CompanyContextEvent :=
  | CompanyContextCreated (company_id : string) (name_length mission_length : nat)
      (metadata_keys : list string)
  | CompanyContextUpdated (company_id : string)
      (name_changed mission_changed metadata_changed : bool)
      (name_length mission_length : nat) (metadata_keys : list string).

Record CompanyContext := {
  record : CompanyContextRecord;
  _events : list CompanyContextEvent;
}.

Definition with_fields (r : CompanyContextRecord) (name mission : string) (metadata : pydict)
    : CompanyContextRecord := {|
  cc_company_id := cc_company_id r; cc_name := name; cc_mission := mission;
  cc_metadata := metadata; cc_created_at := cc_created_at r; cc_updated_at := cc_updated_at r |}.

Definition _normalize_record (r : CompanyContextRecord) : result CompanyContextRecord :=
  name ← clean_company_name (Some (cc_name r));
  metadata ← clean_metadata (Some (cc_metadata r));
  Ok (with_fields r name (clean_company_mission (Some (cc_mission r))) metadata).

Definition for_creation (r : CompanyContextRecord) : result CompanyContext :=
  r' ← _normalize_record r; Ok {| record := r'; _events := [] |}.

Definition from_record (r : CompanyContextRecord) : result CompanyContext :=
  r' ← _normalize_record r; Ok {| record := r'; _events := [] |}.

(** [ControlPlaneMetadata.from_mapping(record.metadata).keys_tuple] *)
Definition metadata_keys_of (r : CompanyContextRecord) : result (list string) :=
  m ← from_mapping (Some (cc_metadata r)); Ok (keys_tuple m).

Definition apply_update (c : CompanyContext) (name mission : option string)
    (metadata : option pydict) : result CompanyContext :=
  name' ← match name with
          | Some n => clean_company_name (Some n)
          | None => Ok (cc_name (record c))
          end;
  let mission' := match mission with
                  | Some m => clean_company_mission (Some m)
                  | None => cc_mission (record c)
                  end in
  metadata' ← match metadata with
              | Some d => clean_metadata (Some d)
              | None => Ok (cc_metadata (record c))
              end;
  r ← (if bool_decide (is_Some name) || bool_decide (is_Some mission)
          || bool_decide (is_Some metadata)
       then _normalize_record (with_fields (record c) name' mission' metadata')
       else Ok (record c));
  keys ← metadata_keys_of r;
  Ok {| record := r;
        _events := _events c ++
          [CompanyContextUpdated (cc_company_id r)
             (bool_decide (is_Some name)) (bool_decide (is_Some mission))
             (bool_decide (is_Some metadata))
             (String.length (cc_name r)) (String.length (cc_mission r)) keys] |}.

Definition mark_created (c : CompanyContext) : result CompanyContext :=
  keys ← metadata_keys_of (record c);
  Ok {| record := record c;
        _events := _events c ++
          [CompanyContextCreated (cc_company_id (record c))
             (String.length (cc_name (record c))) (String.length (cc_mission (record c))) keys] |}.

Definition pull_events (c : CompanyContext) : list CompanyContextEvent * CompanyContext :=
  (_events c, {| record := record c; _events := [] |}).

(** Tenant invariant: a trimmed non-empty name, a trimmed mission, clean metadata. *)
Definition tenant_ok (r : CompanyContextRecord) : Prop :=
  cc_name r ≠ "" ∧ strip (cc_name r) = cc_name r ∧ strip (cc_mission r) = cc_mission r
  ∧ json_clean_dict (cc_metadata r) = true.

Lemma normalize_tenant_ok r r' :
  _normalize_record r = Ok r' → tenant_ok r' ∧ cc_company_id r' = cc_company_id r.
Proof.
  unfold _normalize_record, clean_company_name. intros H; inv_bind.
  destruct (str_empty _) eqn:E; [done|]. simplify_eq. apply str_empty_false in E.
  split; [|done]. split; [done|]. split; [apply strip_idem|]. split; [apply strip_idem|].
  by apply metadata_normal in Hm0 as [? ?].
Qed.

(** An update that is accepted keeps the tenant invariant and the tenant's
    identity, and appends exactly one event, which names the fields that were
    supplied and carries lengths and key names, never the texts themselves. *)
Theorem company_update_keeps_tenant c name mission metadata c' :
  tenant_ok (record c) → apply_update c name mission metadata = Ok c' →
  tenant_ok (record c') ∧ cc_company_id (record c') = cc_company_id (record c)
  ∧ ∃ keys, _events c' = _events c ++
      [CompanyContextUpdated (cc_company_id (record c))
         (bool_decide (is_Some name)) (bool_decide (is_Some mission))
         (bool_decide (is_Some metadata))
         (String.length (cc_name (record c'))) (String.length (cc_mission (record c'))) keys]
      ∧ metadata_keys_of (record c') = Ok keys.
Proof.
  intros Hok. unfold apply_update. intros H; inv_bind. cbn.
  assert (tenant_ok a1 ∧ cc_company_id a1 = cc_company_id (record c)) as [Hok' Hid].
  { destruct (_ || _); [|by simplify_eq].
    by apply normalize_tenant_ok in Hm1. }
  split_and!; [done..|]. exists a2. by rewrite <- Hid.
Qed.

Definition sample_company : CompanyContextRecord := {|
  cc_company_id := "cmp_1"; cc_name := "Cell"; cc_mission := ""; cc_metadata := [];
  cc_created_at := of_utc 0; cc_updated_at := of_utc 0 |}.

Lemma company_update_keeps_tenant_witness :
  ∃ c', apply_update {| record := sample_company; _events := [] |} (Some " Wisdoverse ") None None
        = Ok c' ∧ tenant_ok (record c') ∧ cc_name (record c') = "Wisdoverse".
Proof.
  eexists. split; [reflexivity|]. split; [|reflexivity].
  eapply (company_update_keeps_tenant {| record := sample_company; _events := [] |}
            (Some " Wisdoverse ") None None); [|reflexivity].
  repeat split; done.
Defined.
