(* ===== verification/Artifact.v ===== *)
(** * Artifact aggregate: evidence records ([domain/artifact.py]) *)

From S2P Require Import Prelude PyNum PyValue PyTime Models Metadata.

Definition artifact_type_value (v : option (enum_or_str ArtifactType)) : option string :=
  str_of <$> v.

Definition _required_text (v : option string) (field_name : string) : result string :=
  let cleaned := strip (str_or_empty v) in
  if str_empty cleaned then Raise (Exn "InvalidArtifactError" (field_name +:+ "_required"))
  else Ok cleaned.

Record ArtifactCreated := {
  ac_artifact_id : string;
  ac_company_id : string;
  ac_artifact_type : string;
  ac_goal_id : option string;
  ac_work_item_id : option string;
  ac_run_id : option string;
  ac_created_by_agent_id : option string;
  ac_has_content_hash : bool;
}.

Record Artifact := {
  record : ArtifactRecord;
  _events : list ArtifactCreated;
}.

Definition artifact_type_of (r : ArtifactRecord) : string :=
  let v := str_of (artifact_type r) in
  if str_empty v then value ArtifactType_OTHER else v.

Definition _normalize_creation_record (r : ArtifactRecord) : result ArtifactRecord :=
  title ← _required_text (Some (artifact_title r)) "title";
  uri ← _required_text (Some (artifact_uri r)) "uri";
  metadata ← clean_metadata (Some (artifact_metadata r));
  Ok {| artifact_id := artifact_id r; artifact_company_id := artifact_company_id r;
        artifact_type := Str (artifact_type_of r);
        artifact_title := title; artifact_uri := uri;
        artifact_content_hash := artifact_content_hash r; artifact_run_id := artifact_run_id r;
        artifact_work_item_id := artifact_work_item_id r; artifact_goal_id := artifact_goal_id r;
        artifact_created_by_agent_id := artifact_created_by_agent_id r;
        artifact_metadata := metadata; artifact_created_at := artifact_created_at r |}.

Definition for_creation (r : ArtifactRecord) : result Artifact :=
  r' ← _normalize_creation_record r; Ok {| record := r'; _events := [] |}.

Definition from_record (r : ArtifactRecord) : Artifact := {| record := r; _events := [] |}.

Definition with_execution_links (a : Artifact) (goal_id work_item_id : option string)
    : result Artifact :=
  let r := record a in
  r' ← _normalize_creation_record
    {| artifact_id := artifact_id r; artifact_company_id := artifact_company_id r;
       artifact_type := artifact_type r; artifact_title := artifact_title r;
       artifact_uri := artifact_uri r; artifact_content_hash := artifact_content_hash r;
       artifact_run_id := artifact_run_id r; artifact_work_item_id := work_item_id;
       artifact_goal_id := goal_id;
       artifact_created_by_agent_id := artifact_created_by_agent_id r;
       artifact_metadata := artifact_metadata r; artifact_created_at := artifact_created_at r |};
  Ok {| record := r'; _events := _events a |}.

Definition mark_created (a : Artifact) : Artifact :=
  let r := record a in
  {| record := r;
     _events := _events a ++
       [{| ac_artifact_id := artifact_id r; ac_company_id := artifact_company_id r;
           ac_artifact_type := artifact_type_of r; ac_goal_id := artifact_goal_id r;
           ac_work_item_id := artifact_work_item_id r; ac_run_id := artifact_run_id r;
           ac_created_by_agent_id := artifact_created_by_agent_id r;
           ac_has_content_hash := truthy (artifact_content_hash r) |}] |}.

Definition pull_events (a : Artifact) : list ArtifactCreated * Artifact :=
  (_events a, {| record := record a; _events := [] |}).

Lemma required_text_Ok v f s : _required_text v f = Ok s → s ≠ "" ∧ strip s = s.
Proof.
  unfold _required_text. destruct (str_empty _) eqn:E; [done|]. intros [= <-].
  apply str_empty_false in E. split; [done | apply strip_idem].
Qed.

Lemma required_text_fixed s f : s ≠ "" → strip s = s → _required_text (Some s) f = Ok s.
Proof. unfold _required_text; cbn. intros Hne ->. by destruct s. Qed.

(** Linking an accepted artifact to its goal and work item cannot fail and
    touches nothing but the two links. *)
Lemma artifact_links_total r a g w :
  for_creation r = Ok a →
  ∃ a', with_execution_links a g w = Ok a' ∧ artifact_goal_id (record a') = g
    ∧ artifact_work_item_id (record a') = w
    ∧ artifact_title (record a') = artifact_title (record a)
    ∧ artifact_uri (record a') = artifact_uri (record a)
    ∧ artifact_type (record a') = artifact_type (record a)
    ∧ artifact_content_hash (record a') = artifact_content_hash (record a)
    ∧ artifact_metadata (record a') = artifact_metadata (record a).
Proof.
  unfold for_creation, _normalize_creation_record. intros H; inv_bind. cbn.
  apply required_text_Ok in Hm0 as [? ?]. apply required_text_Ok in Hm1 as [? ?].
  apply metadata_normal in Hm2 as [_ Hd].
  unfold with_execution_links, _normalize_creation_record.
  rewrite !required_text_fixed by done. cbn [record artifact_metadata mbind result_bind].
  rewrite Hd. eexists. split; [reflexivity|]. cbn. repeat split; try done.
  unfold artifact_type_of; cbn. do 2 f_equal. by destruct (str_empty (str_of (artifact_type r))) eqn:E;
    cbn; rewrite ?E.
Qed.
