(* ===== verification/AgentPromptConfig.v ===== *)
(** * AgentPromptConfig aggregate: prompt-update policy ([domain/agent_prompt_config.py])

    The record's [created_at] and [updated_at], which the aggregate carries
    through unread, are left out. *)

From S2P Require Import Prelude PyNum PyValue PyTime Models Metadata.

Definition AGENT_PROMPT_MAX_LENGTH : N := 50000.
Definition AGENT_PROMPT_UPDATED_BY_MAX_LENGTH : nat := 128.

Record AgentPromptConfigRecord := {
  apc_company_id : string;
  apc_agent_id : string;
  apc_system_prompt : string;
  apc_updated_by : string;
  apc_metadata : pydict;
}.

Definition clean_system_prompt (v : pyval) : result string :=
  let prompt := strip (py_str_or v) in
  if (AGENT_PROMPT_MAX_LENGTH <? N.of_nat (String.length prompt))%N
  then Raise (Exn "InvalidAgentPromptConfigError" "system_prompt_too_long")
  else Ok prompt.

Definition clean_updated_by (v : pyval) : string :=
  let text := strip (if py_bool v then py_str v else "webui") in
  let cut := str_take AGENT_PROMPT_UPDATED_BY_MAX_LENGTH text in
  if str_empty cut then "webui" else cut.

Record AgentPromptConfigUpdated := {
  apu_company_id : string;
  apu_agent_id : string;
  apu_prompt_length : nat;
  apu_metadata_keys : list string;
}.

Record AgentPromptConfig := {
  record : AgentPromptConfigRecord;
  _events : list AgentPromptConfigUpdated;
}.

Definition from_record (r : AgentPromptConfigRecord) : AgentPromptConfig :=
  {| record := r; _events := [] |}.

Definition for_target (company_id agent_id : string) (existing : option AgentPromptConfigRecord)
    : AgentPromptConfig :=
  match existing with
  | Some r => from_record r
  | None => from_record {| apc_company_id := company_id; apc_agent_id := agent_id;
              apc_system_prompt := ""; apc_updated_by := "system"; apc_metadata := [] |}
  end.

Definition update (c : AgentPromptConfig) (system_prompt updated_by : pyval)
    (metadata : option pydict) : result AgentPromptConfig :=
  prompt ← clean_system_prompt system_prompt;
  let actor := clean_updated_by updated_by in
  clean ← clean_metadata metadata;
  m ← from_mapping (Some clean);
  Ok {| record := {| apc_company_id := apc_company_id (record c);
                     apc_agent_id := apc_agent_id (record c);
                     apc_system_prompt := prompt; apc_updated_by := actor;
                     apc_metadata := clean |};
        _events := _events c ++
          [{| apu_company_id := apc_company_id (record c);
              apu_agent_id := apc_agent_id (record c);
              apu_prompt_length := String.length prompt;
              apu_metadata_keys := keys_tuple m |}] |}.

Definition pull_events (c : AgentPromptConfig) : list AgentPromptConfigUpdated * AgentPromptConfig :=
  (_events c, {| record := record c; _events := [] |}).

(** The recorded actor is never empty and fits its column. *)
Lemma clean_updated_by_bounds v :
  clean_updated_by v ≠ "" ∧ (String.length (clean_updated_by v) ≤ AGENT_PROMPT_UPDATED_BY_MAX_LENGTH)%nat.
Proof.
  unfold clean_updated_by. destruct (str_empty _) eqn:E.
  - split; [done | cbn; unfold AGENT_PROMPT_UPDATED_BY_MAX_LENGTH; lia].
  - apply str_empty_false in E. split; [done | apply str_take_length].
Qed.

(** An accepted update stores a trimmed prompt within the length bound. *)
Lemma prompt_update_bounds c p u d c' :
  update c p u d = Ok c' →
  (N.of_nat (String.length (apc_system_prompt (record c'))) ≤ AGENT_PROMPT_MAX_LENGTH)%N
  ∧ strip (apc_system_prompt (record c')) = apc_system_prompt (record c')
  ∧ json_clean_dict (apc_metadata (record c')) = true.
Proof.
  unfold update, clean_system_prompt. intros H; inv_bind. cbn.
  destruct (_ <? _)%N eqn:E; [done|]. simplify_eq. apply N.ltb_ge in E.
  split_and!; [done | apply strip_idem|].
  destruct d as [d|]; [by apply metadata_normal in Hm0 as []|].
  cbn in Hm0. by simplify_eq.
Qed.
