(* ===== verification/Budget.v ===== *)
(** * Budget value objects, usage and policy aggregates

    [domain/budget_amount.py], [domain/budget_usage.py] and
    [domain/budget_policy.py]. *)

From S2P Require Import Prelude PyNum PyValue PyTime Models StateMachine.

(** ** Amounts and thresholds *)
Record BudgetAmount := { usd : float }.

(** The constructor, with its [__post_init__]. *)
Definition mk_amount (v : float) : result BudgetAmount :=
  if negb (f_isfinite v) then Raise (value_error "budget amount must be finite")
  else if f_lt v f_zero then Raise (value_error "budget amount must be non-negative")
  else Ok {| usd := v |}.

Definition zero_amount : result BudgetAmount := mk_amount f_zero.
Definition non_negative_usd (v : float) : result BudgetAmount := mk_amount v.

Definition positive_usd (v : float) : result BudgetAmount :=
  amount ← mk_amount v;
  if f_le (usd amount) f_zero then Raise (value_error "budget amount must be positive")
  else Ok amount.

Definition plus (a b : BudgetAmount) : result BudgetAmount := mk_amount (f_add (usd a) (usd b)).
Definition exceeds (a b : BudgetAmount) : bool := f_lt (usd b) (usd a).

Record BudgetWarningThreshold := { ratio : float }.

Definition from_ratio (v : float) : result BudgetWarningThreshold :=
  if negb (f_isfinite v) then Raise (value_error "budget warning threshold must be finite")
  else if f_le v f_zero || f_lt (float_lit 1 0) v
  then Raise (value_error "budget warning threshold must be within (0, 1]")
  else Ok {| ratio := v |}.

(** An amount the constructor accepts. *)
Definition amount_ok (v : float) : Prop := f_isfinite v = true ∧ f_lt v f_zero = false.

Lemma mk_amount_Ok v a : mk_amount v = Ok a ↔ a = {| usd := v |} ∧ amount_ok v.
Proof.
  unfold mk_amount, amount_ok. destruct (f_isfinite v), (f_lt v f_zero); cbn; naive_solver.
Qed.

Lemma f_compare_finite x y :
  f_isfinite x = true → f_isfinite y = true → is_Some (SFcompare x y).
Proof.
  destruct x as [[]|[]| |[] m1 e1], y as [[]|[]| |[] m2 e2]; cbn; try done; intros _ _;
    try (destruct (e1 ?= e2)); try (destruct (Pos.compare_cont Eq m1 m2)); eauto.
Qed.

(** Two finite floats are ordered one way or the other. *)
Lemma f_le_not_lt x y :
  f_isfinite x = true → f_isfinite y = true → f_le x y = negb (f_lt y x).
Proof.
  intros Hx Hy. unfold f_le, f_lt, SFleb, SFltb.
  assert (SFcompare y x = CompOpp <$> SFcompare x y) as ->.
  { destruct x as [[]|[]| |[] m1 e1], y as [[]|[]| |[] m2 e2]; try done; cbn.
    - rewrite (Z.compare_antisym e1 e2). destruct (e1 ?= e2); cbn; try done.
      change (Pos.compare_cont Eq m2 m1) with (m2 ?= m1)%positive.
      change (Pos.compare_cont Eq m1 m2) with (m1 ?= m2)%positive.
      rewrite (Pos.compare_antisym m1 m2). by destruct (m1 ?= m2)%positive.
    - rewrite (Z.compare_antisym e1 e2). destruct (e1 ?= e2); cbn; try done.
      change (Pos.compare_cont Eq m2 m1) with (m2 ?= m1)%positive.
      change (Pos.compare_cont Eq m1 m2) with (m1 ?= m2)%positive.
      rewrite (Pos.compare_antisym m1 m2). by destruct (m1 ?= m2)%positive. }
  destruct (f_compare_finite x y Hx Hy) as [c ->]. by destruct c.
Qed.

(** ** Usage *)
Definition budget_token_count (v : option Z) (field_name : string) : result Z :=
  let count := default 0 v in
  if count <? 0 then Raise (Exn "InvalidBudgetUsageError" (field_name +:+ "_must_be_non_negative"))
  else Ok count.

Definition clean_budget_usage_model (v : option string) : result string :=
  let cleaned := strip (str_or_empty v) in
  if str_empty cleaned then Raise (Exn "InvalidBudgetUsageError" "model_required")
  else Ok cleaned.

Record BudgetUsageRecorded := {
  bur_usage_id : string;
  bur_company_id : string;
  bur_budget_id : string;
  bur_cost_usd : float;
  bur_model : string;
  bur_input_tokens : Z;
  bur_output_tokens : Z;
  bur_run_id : option string;
  bur_trace_id : option string;
  bur_metadata_keys : list string;
}.

Record BudgetUsage := {
  usage_record : BudgetUsageRecord;
  usage_events : list BudgetUsageRecorded;
}.

Definition _normalize_usage_record (r : BudgetUsageRecord) : result BudgetUsageRecord :=
  cost ← non_negative_usd (bu_cost_usd r);
  model ← clean_budget_usage_model (bu_model r);
  input_tokens ← budget_token_count (bu_input_tokens r) "input_tokens";
  output_tokens ← budget_token_count (bu_output_tokens r) "output_tokens";
  Ok {| bu_usage_id := bu_usage_id r; bu_company_id := bu_company_id r;
        bu_budget_id := bu_budget_id r; bu_cost_usd := usd cost; bu_model := Some model;
        bu_input_tokens := Some input_tokens; bu_output_tokens := Some output_tokens;
        bu_run_id := bu_run_id r; bu_trace_id := bu_trace_id r;
        bu_metadata := Some (dict_or_empty (bu_metadata r)); bu_created_at := bu_created_at r |}.

Definition usage_for_recording (r : BudgetUsageRecord) : result BudgetUsage :=
  r' ← _normalize_usage_record r; Ok {| usage_record := r'; usage_events := [] |}.

Definition usage_from_record (r : BudgetUsageRecord) : result BudgetUsage :=
  r' ← _normalize_usage_record r; Ok {| usage_record := r'; usage_events := [] |}.

Definition mark_recorded (u : BudgetUsage) : BudgetUsage :=
  let r := usage_record u in
  {| usage_record := r;
     usage_events := usage_events u ++
       [{| bur_usage_id := bu_usage_id r; bur_company_id := bu_company_id r;
           bur_budget_id := bu_budget_id r; bur_cost_usd := bu_cost_usd r;
           bur_model := str_or_empty (bu_model r);
           bur_input_tokens := default 0 (bu_input_tokens r);
           bur_output_tokens := default 0 (bu_output_tokens r);
           bur_run_id := bu_run_id r; bur_trace_id := bu_trace_id r;
           bur_metadata_keys := str_sorted (dict_or_empty (bu_metadata r)).*1 |}] |}.

Definition pull_usage_events (u : BudgetUsage) : list BudgetUsageRecorded * BudgetUsage :=
  (usage_events u, {| usage_record := usage_record u; usage_events := [] |}).

(** Spend evidence that may be stored. *)
Definition usage_ok (r : BudgetUsageRecord) : Prop :=
  amount_ok (bu_cost_usd r)
  ∧ (∃ m, bu_model r = Some m ∧ m ≠ "" ∧ strip m = m)
  ∧ (∃ n, bu_input_tokens r = Some n ∧ 0 ≤ n) ∧ (∃ n, bu_output_tokens r = Some n ∧ 0 ≤ n)
  ∧ is_Some (bu_metadata r).

Lemma normalize_usage_ok r r' : _normalize_usage_record r = Ok r' → usage_ok r'.
Proof.
  unfold _normalize_usage_record, non_negative_usd, clean_budget_usage_model, budget_token_count.
  intros H; inv_bind. apply mk_amount_Ok in Hm as [-> Ha].
  destruct (str_empty _) eqn:E; [done|]. apply str_empty_false in E.
  destruct (default 0 (bu_input_tokens r) <? 0) eqn:E1; [done|].
  destruct (default 0 (bu_output_tokens r) <? 0) eqn:E2; [done|]. simplify_eq.
  apply Z.ltb_ge in E1, E2. split_and!; cbn; try done; eauto 10 using strip_idem.
Qed.

Lemma normalize_usage_fixed r : usage_ok r → _normalize_usage_record r = Ok r.
Proof.
  intros (Ha & (m & Hm & Hne & Hs) & (i & Hi & ?) & (o & Ho & ?) & (d & Hd)).
  unfold _normalize_usage_record, non_negative_usd, clean_budget_usage_model, budget_token_count.
  rewrite (proj2 (mk_amount_Ok _ {| usd := bu_cost_usd r |})) by done. cbn.
  rewrite Hm; cbn. rewrite Hs. apply str_empty_false in Hne as ->.
  rewrite Hi, Ho, Hd; cbn. rewrite !(proj2 (Z.ltb_ge _ _)) by done. cbn. destruct r; cbn in *.
  by subst.
Qed.

(** ** Policy *)
Inductive BudgetPolicyStatus :=
  | BudgetPolicyStatus_ACTIVE
  | BudgetPolicyStatus_PAUSED
  | BudgetPolicyStatus_ARCHIVED.
#[global] Instance BudgetPolicyStatus_eq_dec : EqDecision BudgetPolicyStatus.
Proof. solve_decision. Defined.
Definition BudgetPolicyStatus_value (x : BudgetPolicyStatus) : string :=
  match x with
  | BudgetPolicyStatus_ACTIVE => "active"
  | BudgetPolicyStatus_PAUSED => "paused"
  | BudgetPolicyStatus_ARCHIVED => "archived"
  end.
#[global] Program Instance BudgetPolicyStatus_StrEnum : StrEnum BudgetPolicyStatus := {|
  enum_name := "BudgetPolicyStatus";
  members := [BudgetPolicyStatus_ACTIVE; BudgetPolicyStatus_PAUSED; BudgetPolicyStatus_ARCHIVED];
  value := BudgetPolicyStatus_value;
|}.
Solve All Obligations with solve_str_enum.

Definition normalize_budget_policy_status (s : string) : string := lower (strip s).

Definition budget_policy_status (v : option (enum_or_str BudgetPolicyStatus))
    : result (option BudgetPolicyStatus) :=
  match v with
  | None => Ok None
  | Some (Member x) => Ok (Some x)
  | Some (Str s) =>
      catch_value_error (Some <$> parse_enum (normalize_budget_policy_status s))
        (λ _, Raise (Exn "InvalidBudgetPolicyStatusError" s))
  end.

Definition is_budget_policy_status (s : string) : bool :=
  bool_decide (normalize_budget_policy_status s ∈ value <$> members BudgetPolicyStatus).

Definition is_active_budget_policy_status (s : option string) : bool :=
  match s with
  | None => false
  | Some s => bool_decide (normalize_budget_policy_status s = value BudgetPolicyStatus_ACTIVE)
  end.

(** [BudgetPolicyConflictPolicy] *)
Definition requires_unique_active_policy (v : option (enum_or_str BudgetPolicyStatus)) : bool :=
  match v with
  | Some (Member x) => bool_decide (x = BudgetPolicyStatus_ACTIVE)
  | Some (Str s) => is_active_budget_policy_status (Some s)
  | None => is_active_budget_policy_status None
  end.

Definition ensure_no_active_conflict (existing : option BudgetPolicyRecord)
    (current_budget_id : option string) : result unit :=
  match existing with
  | Some r =>
      raise_if (bool_decide (Some (bp_budget_id r) ≠ current_budget_id))
        (Exn "BudgetPolicyConflictError" (bp_budget_id r))
  | None => Ok ()
  end.

Definition VALID_TRANSITIONS : list (BudgetPolicyStatus * list BudgetPolicyStatus) :=
  [(BudgetPolicyStatus_ACTIVE, [BudgetPolicyStatus_PAUSED; BudgetPolicyStatus_ARCHIVED]);
   (BudgetPolicyStatus_PAUSED, [BudgetPolicyStatus_ACTIVE; BudgetPolicyStatus_ARCHIVED]);
   (BudgetPolicyStatus_ARCHIVED, [])].

Definition STATE_MACHINE : ControlPlaneStateMachine BudgetPolicyStatus :=
  machine_of VALID_TRANSITIONS.
Definition TERMINAL_STATUSES : gset BudgetPolicyStatus := terminal_states STATE_MACHINE.

(** [_scope_id_for_policy]: a company policy has no scope id, the others need one. *)
Definition _scope_id_for_policy (scope : enum_or_str BudgetScope) (scope_id : option string)
    : result (option string) :=
  let cleaned := strip <$> scope_id in
  if decide (str_of scope = value BudgetScope_COMPANY) then
    if truthy cleaned then Raise (Exn "InvalidBudgetPolicyError" "company_scope_id_forbidden")
    else Ok None
  else if truthy cleaned then Ok cleaned
  else Raise (Exn "InvalidBudgetPolicyError" "scope_id_required").

Definition _clean_model_allowlist (values : list string) : list string :=
  filter (λ s, s ≠ "") (strip <$> values).

Inductive BudgetPolicyEvent :=
  | BudgetPolicyCreated (budget_id company_id scope : string) (scope_id : option string)
      (period : string) (limit_usd warning_threshold : float) (status : BudgetPolicyStatus)
      (model_allowlist : list string)
  | BudgetPolicyUpdated (budget_id company_id scope : string) (scope_id : option string)
      (period : string) (from_status to_status : BudgetPolicyStatus)
      (changed_fields : list string).

Record BudgetPolicy := {
  record : BudgetPolicyRecord;
  _events : list BudgetPolicyEvent;
}.

Definition status_of_record (r : BudgetPolicyRecord) : result BudgetPolicyStatus :=
  o ← budget_policy_status (Str <$> bp_status r);
  match o with
  | Some s => Ok s
  | None => Raise (Exn "InvalidBudgetPolicyStatusError"
              ("BudgetPolicy " +:+ bp_budget_id r +:+ ": missing status"))
  end.

Definition status (p : BudgetPolicy) : result BudgetPolicyStatus := status_of_record (record p).

Definition is_terminal_policy (p : BudgetPolicy) : result bool :=
  s ← status p; is_terminal STATE_MACHINE s.

Definition _normalize_record (r : BudgetPolicyRecord) : result BudgetPolicyRecord :=
  scope_id ← _scope_id_for_policy (bp_scope r) (bp_scope_id r);
  limit ← positive_usd (bp_limit_usd r);
  threshold ← from_ratio (bp_warning_threshold r);
  s ← status_of_record r;
  Ok {| bp_budget_id := bp_budget_id r; bp_company_id := bp_company_id r;
        bp_scope := bp_scope r; bp_period := bp_period r;
        bp_limit_usd := usd limit; bp_scope_id := scope_id;
        bp_warning_threshold := ratio threshold; bp_status := Some (value s);
        bp_model_allowlist := _clean_model_allowlist (bp_model_allowlist r);
        bp_metadata := Some (dict_or_empty (bp_metadata r));
        bp_created_at := bp_created_at r; bp_updated_at := bp_updated_at r |}.

Definition for_creation (r : BudgetPolicyRecord) : result BudgetPolicy :=
  r' ← _normalize_record r; Ok {| record := r'; _events := [] |}.

Definition from_record (r : BudgetPolicyRecord) : result BudgetPolicy :=
  r' ← _normalize_record r; Ok {| record := r'; _events := [] |}.

Definition _transition_status (p : BudgetPolicy) (target : option (enum_or_str BudgetPolicyStatus))
    : result BudgetPolicyStatus :=
  o ← budget_policy_status target;
  match o with
  | None => Raise (Exn "InvalidBudgetPolicyStatusError"
              ("BudgetPolicy " +:+ bp_budget_id (record p) +:+ ": missing transition target"))
  | Some target_status =>
      current ← status p;
      if decide (target_status = current) then Ok target_status
      else
        _ ← ensure_can_transition STATE_MACHINE current target_status
              ("BudgetPolicy " +:+ bp_budget_id (record p))
              "InvalidBudgetPolicyTransitionError" "transition";
        Ok target_status
  end.

(** An optional update: the validated new value, or the old one. *)
Definition updated {A B} (o : option A) (f : A → result B) (old : B) : result B :=
  match o with Some x => f x | None => Ok old end.

Definition apply_update (p : BudgetPolicy) (limit_usd warning_threshold : option float)
    (new_status : option string) (model_allowlist : option (list string))
    (metadata : option pydict) (changed_fields : list string) : result BudgetPolicy :=
  let r := record p in
  previous_status ← status p;
  limit ← updated limit_usd (λ v, a ← positive_usd v; Ok (usd a)) (bp_limit_usd r);
  threshold ← updated warning_threshold (λ v, t ← from_ratio v; Ok (ratio t))
                (bp_warning_threshold r);
  st ← updated new_status (λ s, t ← _transition_status p (Some (Str s)); Ok (Some (value t)))
         (bp_status r);
  let allow := match model_allowlist with
               | Some l => _clean_model_allowlist l
               | None => bp_model_allowlist r
               end in
  let meta := match metadata with Some d => Some d | None => bp_metadata r end in
  let changed := bool_decide (is_Some limit_usd) || bool_decide (is_Some warning_threshold)
                 || bool_decide (is_Some new_status) || bool_decide (is_Some model_allowlist)
                 || bool_decide (is_Some metadata) in
  r' ← (if changed then
          _normalize_record
            {| bp_budget_id := bp_budget_id r; bp_company_id := bp_company_id r;
               bp_scope := bp_scope r; bp_period := bp_period r; bp_limit_usd := limit;
               bp_scope_id := bp_scope_id r; bp_warning_threshold := threshold;
               bp_status := st; bp_model_allowlist := allow; bp_metadata := meta;
               bp_created_at := bp_created_at r; bp_updated_at := bp_updated_at r |}
        else Ok r);
  to_status ← status_of_record r';
  Ok {| record := r';
        _events := _events p ++
          [BudgetPolicyUpdated (bp_budget_id r') (bp_company_id r') (str_of (bp_scope r'))
             (bp_scope_id r') (str_of (bp_period r')) previous_status to_status
             (str_sorted changed_fields)] |}.

Definition mark_created (p : BudgetPolicy) : result BudgetPolicy :=
  let r := record p in
  s ← status p;
  Ok {| record := r;
        _events := _events p ++
          [BudgetPolicyCreated (bp_budget_id r) (bp_company_id r) (str_of (bp_scope r))
             (bp_scope_id r) (str_of (bp_period r)) (bp_limit_usd r) (bp_warning_threshold r)
             s (bp_model_allowlist r)] |}.

Definition pull_events (p : BudgetPolicy) : list BudgetPolicyEvent * BudgetPolicy :=
  (_events p, {| record := record p; _events := [] |}).

(** ** The policy invariant *)

(** What every stored policy satisfies: a positive finite limit, a threshold in
    (0, 1], a scope id exactly where the scope needs one, a known status in
    canonical spelling, and a cleaned allow-list. *)
Definition scope_ok (scope : enum_or_str BudgetScope) (scope_id : option string) : Prop :=
  if decide (str_of scope = value BudgetScope_COMPANY) then scope_id = None
  else ∃ s, scope_id = Some s ∧ s ≠ "" ∧ strip s = s.

Definition policy_ok (r : BudgetPolicyRecord) : Prop :=
  scope_ok (bp_scope r) (bp_scope_id r)
  ∧ amount_ok (bp_limit_usd r) ∧ f_le (bp_limit_usd r) f_zero = false
  ∧ f_isfinite (bp_warning_threshold r) = true
  ∧ f_le (bp_warning_threshold r) f_zero = false
  ∧ f_lt (float_lit 1 0) (bp_warning_threshold r) = false
  ∧ (∃ s : BudgetPolicyStatus, bp_status r = Some (value s))
  ∧ (∀ m, m ∈ bp_model_allowlist r → m ≠ "" ∧ strip m = m)
  ∧ is_Some (bp_metadata r).

Lemma scope_id_ok scope o o' : _scope_id_for_policy scope o = Ok o' → scope_ok scope o'.
Proof.
  unfold _scope_id_for_policy, scope_ok. case_decide.
  - destruct (truthy _); [done|]. by intros [= <-].
  - destruct o as [s|]; cbn; [|done]. destruct (str_empty (strip s)) eqn:E; cbn; [done|].
    intros [= <-]. apply str_empty_false in E. eauto using strip_idem.
Qed.

Lemma scope_id_fixed scope o : scope_ok scope o → _scope_id_for_policy scope o = Ok o.
Proof.
  unfold _scope_id_for_policy, scope_ok. case_decide; [by intros ->|].
  intros (s & -> & Hne & Hs). cbn. rewrite Hs. by apply str_empty_false in Hne as ->.
Qed.

Lemma positive_usd_Ok v a :
  positive_usd v = Ok a ↔ a = {| usd := v |} ∧ amount_ok v ∧ f_le v f_zero = false.
Proof.
  unfold positive_usd. rewrite bind_Ok. setoid_rewrite mk_amount_Ok. split.
  - intros (a' & [-> Ha] & Hl). cbn in Hl. by destruct (f_le v f_zero); simplify_eq.
  - intros (-> & Ha & Hl). eexists. split; [by split|]. cbn. by rewrite Hl.
Qed.

Lemma from_ratio_Ok v t :
  from_ratio v = Ok t ↔ t = {| ratio := v |} ∧ f_isfinite v = true ∧ f_le v f_zero = false
                        ∧ f_lt (float_lit 1 0) v = false.
Proof.
  unfold from_ratio. destruct (f_isfinite v), (f_le v f_zero), (f_lt (float_lit 1 0) v); cbn; naive_solver.
Qed.

Lemma status_value_parse (s : BudgetPolicyStatus) :
  budget_policy_status (Some (Str (value s))) = Ok (Some s).
Proof. by destruct s. Qed.

Lemma allowlist_clean l m : m ∈ _clean_model_allowlist l → m ≠ "" ∧ strip m = m.
Proof.
  unfold _clean_model_allowlist. intros [Hne Hm]%list_elem_of_filter. split; [done|].
  apply list_elem_of_fmap in Hm as (m' & -> & _). apply strip_idem.
Qed.

Lemma allowlist_fixed l :
  (∀ m, m ∈ l → m ≠ "" ∧ strip m = m) → _clean_model_allowlist l = l.
Proof.
  unfold _clean_model_allowlist. induction l as [|m l IH]; intros H; [done|].
  destruct (H m) as [Hne Hs]; [left|]. rewrite fmap_cons, filter_cons, Hs.
  rewrite decide_True by done. f_equal. apply IH. intros m' Hm'. apply H. by right.
Qed.

Lemma normalize_policy_ok r r' : _normalize_record r = Ok r' → policy_ok r'.
Proof.
  unfold _normalize_record. intros H. inv_bind.
  apply positive_usd_Ok in Hm0 as (-> & ? & ?). apply from_ratio_Ok in Hm1 as (-> & ? & ? & ?).
  unfold policy_ok; cbn. split_and!; eauto using scope_id_ok, allowlist_clean.
Qed.

Lemma normalize_policy_fixed r : policy_ok r → _normalize_record r = Ok r.
Proof.
  intros (Hsc & Ha & Hl & Hf & Ht & Hu & (s & Hs) & Hm & (d & Hd)). unfold _normalize_record.
  rewrite (scope_id_fixed _ _ Hsc). cbn.
  rewrite (proj2 (positive_usd_Ok _ {| usd := bp_limit_usd r |})) by done. cbn.
  rewrite (proj2 (from_ratio_Ok _ {| ratio := bp_warning_threshold r |})) by done. cbn.
  unfold status_of_record. rewrite Hs. cbn [fmap option_fmap option_map].
  rewrite status_value_parse. cbn. rewrite Hd, allowlist_fixed by done. cbn.
  destruct r; cbn in *. by subst.
Qed.

Lemma budget_machine_total : total STATE_MACHINE.
Proof. apply total_b_spec. vm_compute. reflexivity. Qed.
#[global] Opaque STATE_MACHINE.

Lemma transition_status_Ok p target current t :
  status p = Ok current → _transition_status p target = Ok t →
  t = current ∨ allowed STATE_MACHINE current t.
Proof.
  intros Hs. unfold _transition_status. intros H. inv_bind. destruct a; [|done]. inv_bind.
  rewrite Hs in Hm0. simplify_eq. case_decide; [simplify_eq; by left|]. inv_bind.
  rewrite (ensure_can_transition_total _ _ _ _ _ _ budget_machine_total) in Hm0.
  case_bool_decide; [by right | done].
Qed.

(** Normalization keeps the identity, the scope and a canonical status. *)
Lemma normalize_policy_keeps r r' :
  _normalize_record r = Ok r' → scope_ok (bp_scope r) (bp_scope_id r) →
  (∃ s : BudgetPolicyStatus, bp_status r = Some (value s)) →
  bp_budget_id r' = bp_budget_id r ∧ bp_company_id r' = bp_company_id r ∧ bp_scope r' = bp_scope r
  ∧ bp_scope_id r' = bp_scope_id r ∧ bp_period r' = bp_period r ∧ bp_status r' = bp_status r.
Proof.
  unfold _normalize_record, status_of_record. intros H Hsc [s Hs].
  rewrite (scope_id_fixed _ _ Hsc), Hs in H. cbn [fmap option_fmap option_map] in H.
  rewrite status_value_parse in H. cbn in H. inv_bind. cbn. by rewrite Hs.
Qed.

(** The status an update asks for. *)
Lemma updated_status_ok p st st' s :
  status p = Ok s → bp_status (record p) = Some (value s) →
  updated st (λ s, t ← _transition_status p (Some (Str s)); Ok (Some (value t)))
    (bp_status (record p)) = Ok st' →
  ∃ s', st' = Some (value s') ∧ (s' = s ∨ allowed STATE_MACHINE s s').
Proof.
  intros Hs Hv. destruct st as [x|]; cbn [updated]; intros H; inv_bind.
  - eexists. split; [reflexivity|]. by eapply transition_status_Ok.
  - rewrite Hv. eauto.
Qed.

(** An update of a stored policy keeps it well formed and keeps its identity,
    its company, its scope and its period; its status stays or follows the
    transition table (an archived policy stays archived), and exactly one event
    records the change. *)
Theorem budget_policy_update p limit thr st allow meta fields p' :
  policy_ok (record p) → apply_update p limit thr st allow meta fields = Ok p' →
  policy_ok (record p')
  ∧ bp_budget_id (record p') = bp_budget_id (record p)
  ∧ bp_company_id (record p') = bp_company_id (record p)
  ∧ bp_scope (record p') = bp_scope (record p) ∧ bp_scope_id (record p') = bp_scope_id (record p)
  ∧ bp_period (record p') = bp_period (record p)
  ∧ (∃ s s', status p = Ok s ∧ status p' = Ok s' ∧ (s' = s ∨ allowed STATE_MACHINE s s'))
  ∧ length (_events p') = S (length (_events p)).
Proof.
  intros Hok Hu. pose proof Hok as (Hsc & _ & _ & _ & _ & _ & (s & Hv) & _).
  assert (status p = Ok s) as Hs.
  { unfold status, status_of_record. rewrite Hv. cbn [fmap option_fmap option_map].
    by rewrite status_value_parse. }
  unfold apply_update in Hu. rewrite Hs in Hu. cbn [mbind result_bind] in Hu.
  apply bind_Ok in Hu as (lim & _ & Hu). apply bind_Ok in Hu as (th & _ & Hu).
  apply bind_Ok in Hu as (st' & Hst & Hu).
  destruct (updated_status_ok _ _ _ _ Hs Hv Hst) as (s' & -> & Hmove).
  apply bind_Ok in Hu as (r' & Hr & Hu). apply bind_Ok in Hu as (to & Hto & [= <-]). cbn [record _events].
  assert (policy_ok r' ∧ bp_budget_id r' = bp_budget_id (record p)
    ∧ bp_company_id r' = bp_company_id (record p) ∧ bp_scope r' = bp_scope (record p)
    ∧ bp_scope_id r' = bp_scope_id (record p) ∧ bp_period r' = bp_period (record p)
    ∧ bp_status r' = Some (value s')) as (? & ? & ? & ? & ? & ? & Hv').
  { destruct (_ || _) eqn:Ech.
    - split; [by eapply normalize_policy_ok|].
      apply normalize_policy_keeps in Hr as (? & ? & ? & ? & ? & ?); cbn in *; eauto 10.
    - rewrite !orb_false_iff in Ech. destruct Ech as [[[[_ _] Est] _] _].
      destruct st; [by apply bool_decide_eq_false in Est; destruct Est|]. cbn in Hst.
      simplify_eq. by split_and!. }
  split_and!; try done; [|by rewrite length_app; cbn; lia].
  exists s, s'. split_and!; try done.
  unfold status, status_of_record. cbn [record]. rewrite Hv'. cbn [fmap option_fmap option_map].
  by rewrite status_value_parse.
Qed.

Definition sample_policy : BudgetPolicyRecord := {|
  bp_budget_id := "bud_1"; bp_company_id := "cmp_1"; bp_scope := Member BudgetScope_COMPANY;
  bp_period := Member BudgetPeriod_MONTHLY; bp_limit_usd := float_lit 10 0; bp_scope_id := None;
  bp_warning_threshold := float_lit 8 1; bp_status := Some "active"; bp_model_allowlist := [];
  bp_metadata := Some []; bp_created_at := of_utc 0; bp_updated_at := of_utc 0 |}.

Lemma budget_policy_update_witness :
  ∃ p', apply_update {| record := sample_policy; _events := [] |} (Some (float_lit 20 0)) None
          (Some " Paused ") None None ["status"; "limit_usd"] = Ok p'
    ∧ policy_ok (record p') ∧ bp_status (record p') = Some "paused".
Proof.
  eexists. split; [vm_compute; reflexivity|]. split; [|reflexivity].
  eapply (budget_policy_update {| record := sample_policy; _events := [] |} (Some (float_lit 20 0))
            None (Some " Paused ") None None ["status"; "limit_usd"]);
    [apply (normalize_policy_ok sample_policy); vm_compute; reflexivity | vm_compute; reflexivity].
Defined.
