(* ===== verification/DomainEvents.v ===== *)
(** * Domain events and the audit rows built from them

    [domain/events.py] and [domain_event_audit.py]: the events the aggregates
    raise, their payloads, and the durable audit event each becomes. *)

From S2P Require Import Prelude PyNum PyValue PyTime Models Metadata StateMachine.
From S2P Require Import Goal WorkItem ApprovalRequest Decision AgentRole EvolutionProposal AgentRun.
From S2P Require Import AuditEvent CompanyContext Artifact AgentPromptConfig Budget.

Inductive domain_event :=
  | EvAgentRun (e : AgentRunStatusChanged)
  | EvAgentRole (e : AgentRoleStatusChanged)
  | EvPromptConfig (e : AgentPromptConfigUpdated)
  | EvArtifact (e : ArtifactCreated)
  | EvBudgetPolicy (e : BudgetPolicyEvent)
  | EvBudgetUsage (e : BudgetUsageRecorded)
  | EvCompany (e : CompanyContextEvent)
  | EvApproval (e : ApprovalStatusChanged)
  | EvDecision (e : DecisionStatusChanged)
  | EvRollout (e : EvolutionRolloutStatusChanged)
  | EvGoal (e : GoalStatusChanged)
  | EvWorkItem (e : WorkItemStatusChanged).

(** The class name. *)
Definition event_name (ev : domain_event) : string :=
  match ev with
  | EvAgentRun _ => "AgentRunStatusChanged"
  | EvAgentRole _ => "AgentRoleStatusChanged"
  | EvPromptConfig _ => "AgentPromptConfigUpdated"
  | EvArtifact _ => "ArtifactCreated"
  | EvBudgetPolicy (BudgetPolicyCreated _ _ _ _ _ _ _ _ _) => "BudgetPolicyCreated"
  | EvBudgetPolicy (BudgetPolicyUpdated _ _ _ _ _ _ _ _) => "BudgetPolicyUpdated"
  | EvBudgetUsage _ => "BudgetUsageRecorded"
  | EvCompany (CompanyContextCreated _ _ _ _) => "CompanyContextCreated"
  | EvCompany (CompanyContextUpdated _ _ _ _ _ _ _) => "CompanyContextUpdated"
  | EvApproval _ => "ApprovalStatusChanged"
  | EvDecision _ => "DecisionStatusChanged"
  | EvRollout _ => "EvolutionRolloutStatusChanged"
  | EvGoal _ => "GoalStatusChanged"
  | EvWorkItem _ => "WorkItemStatusChanged"
  end.

Definition p_opt (o : option string) : pyval :=
  match o with Some s => PStr s | None => PNone end.
Definition p_enum {E} `{!StrEnum E} (x : E) : pyval := PEnum (value x).
Definition p_strs (l : list string) : pyval := PTuple (PStr <$> l).
Definition p_nat (n : nat) : pyval := PInt (Z.of_nat n).

(** [dataclasses.asdict] *)
Definition to_payload (ev : domain_event) : pydict :=
  match ev with
  | EvAgentRun e =>
      [("run_id", PStr (runsc_run_id e)); ("agent_id", PStr (runsc_agent_id e));
       ("company_id", PStr (runsc_company_id e)); ("from_status", p_enum (runsc_from_status e));
       ("to_status", p_enum (runsc_to_status e))]
  | EvAgentRole e =>
      [("role_id", PStr (rsc_role_id e)); ("agent_id", PStr (rsc_agent_id e));
       ("company_id", PStr (rsc_company_id e)); ("from_status", p_enum (rsc_from_status e));
       ("to_status", p_enum (rsc_to_status e))]
  | EvPromptConfig e =>
      [("company_id", PStr (apu_company_id e)); ("agent_id", PStr (apu_agent_id e));
       ("prompt_length", p_nat (apu_prompt_length e));
       ("metadata_keys", p_strs (apu_metadata_keys e))]
  | EvArtifact e =>
      [("artifact_id", PStr (ac_artifact_id e)); ("company_id", PStr (ac_company_id e));
       ("artifact_type", PStr (ac_artifact_type e)); ("goal_id", p_opt (ac_goal_id e));
       ("work_item_id", p_opt (ac_work_item_id e)); ("run_id", p_opt (ac_run_id e));
       ("created_by_agent_id", p_opt (ac_created_by_agent_id e));
       ("has_content_hash", PBool (ac_has_content_hash e))]
  | EvBudgetPolicy (BudgetPolicyCreated b c sc sid pe l w s m) =>
      [("budget_id", PStr b); ("company_id", PStr c); ("scope", PStr sc); ("scope_id", p_opt sid);
       ("period", PStr pe); ("limit_usd", PFloat l); ("warning_threshold", PFloat w);
       ("status", p_enum s); ("model_allowlist", p_strs m)]
  | EvBudgetPolicy (BudgetPolicyUpdated b c sc sid pe f t ch) =>
      [("budget_id", PStr b); ("company_id", PStr c); ("scope", PStr sc); ("scope_id", p_opt sid);
       ("period", PStr pe); ("from_status", p_enum f); ("to_status", p_enum t);
       ("changed_fields", p_strs ch)]
  | EvBudgetUsage e =>
      [("usage_id", PStr (bur_usage_id e)); ("company_id", PStr (bur_company_id e));
       ("budget_id", PStr (bur_budget_id e)); ("cost_usd", PFloat (bur_cost_usd e));
       ("model", PStr (bur_model e)); ("input_tokens", PInt (bur_input_tokens e));
       ("output_tokens", PInt (bur_output_tokens e)); ("run_id", p_opt (bur_run_id e));
       ("trace_id", p_opt (bur_trace_id e)); ("metadata_keys", p_strs (bur_metadata_keys e))]
  | EvCompany (CompanyContextCreated c n m ks) =>
      [("company_id", PStr c); ("name_length", p_nat n); ("mission_length", p_nat m);
       ("metadata_keys", p_strs ks)]
  | EvCompany (CompanyContextUpdated c nc mc dc n m ks) =>
      [("company_id", PStr c); ("name_changed", PBool nc); ("mission_changed", PBool mc);
       ("metadata_changed", PBool dc); ("name_length", p_nat n); ("mission_length", p_nat m);
       ("metadata_keys", p_strs ks)]
  | EvApproval e =>
      [("approval_id", PStr (asc_approval_id e)); ("company_id", PStr (asc_company_id e));
       ("from_status", p_enum (asc_from_status e)); ("to_status", p_enum (asc_to_status e))]
  | EvDecision e =>
      [("decision_id", PStr (dsc_decision_id e)); ("company_id", PStr (dsc_company_id e));
       ("from_status", p_enum (dsc_from_status e)); ("to_status", p_enum (dsc_to_status e))]
  | EvRollout e =>
      [("proposal_id", PStr (esc_proposal_id e)); ("company_id", PStr (esc_company_id e));
       ("from_state", p_enum (esc_from_state e)); ("to_state", p_enum (esc_to_state e))]
  | EvGoal e =>
      [("goal_id", PStr (gsc_goal_id e)); ("company_id", PStr (gsc_company_id e));
       ("from_status", p_enum (gsc_from_status e)); ("to_status", p_enum (gsc_to_status e))]
  | EvWorkItem e =>
      [("work_item_id", PStr (wsc_work_item_id e)); ("company_id", PStr (wsc_company_id e));
       ("from_status", p_enum (wsc_from_status e)); ("to_status", p_enum (wsc_to_status e))]
  end.

Definition _agent_run_action (s : AgentRunStatus) : string :=
  match s with
  | AgentRunStatus_RUNNING => "agent_run.started"
  | AgentRunStatus_SUCCEEDED => "agent_run.succeeded"
  | AgentRunStatus_FAILED => "agent_run.failed"
  | _ => "agent_run." +:+ value s
  end.

Definition _approval_action (s : ApprovalStatus) : string :=
  match s with
  | ApprovalStatus_APPROVED => "approval.granted"
  | ApprovalStatus_REJECTED => "approval.rejected"
  | _ => "approval." +:+ value s
  end.

Record _AuditTarget := { at_action : string; at_target_type : string; at_target_id : string }.

Definition _audit_target_for (ev : domain_event) : _AuditTarget :=
  match ev with
  | EvAgentRun e => {| at_action := _agent_run_action (runsc_to_status e);
      at_target_type := "agent_run"; at_target_id := runsc_run_id e |}
  | EvAgentRole e => {| at_action := "agent_role.status-updated";
      at_target_type := "agent_role"; at_target_id := rsc_agent_id e |}
  | EvPromptConfig e => {| at_action := "agent.prompt-config-updated";
      at_target_type := "agent_prompt_config"; at_target_id := apu_agent_id e |}
  | EvArtifact e => {| at_action := "artifact.created";
      at_target_type := "artifact"; at_target_id := ac_artifact_id e |}
  | EvBudgetPolicy (BudgetPolicyCreated b _ _ _ _ _ _ _ _) =>
      {| at_action := "budget_policy.created"; at_target_type := "budget_policy"; at_target_id := b |}
  | EvBudgetPolicy (BudgetPolicyUpdated b _ _ _ _ _ _ _) =>
      {| at_action := "budget_policy.updated"; at_target_type := "budget_policy"; at_target_id := b |}
  | EvBudgetUsage e => {| at_action := "budget.usage-recorded";
      at_target_type := "budget_usage"; at_target_id := bur_usage_id e |}
  | EvCompany (CompanyContextCreated c _ _ _) =>
      {| at_action := "company.created"; at_target_type := "company"; at_target_id := c |}
  | EvCompany (CompanyContextUpdated c _ _ _ _ _ _) =>
      {| at_action := "company.updated"; at_target_type := "company"; at_target_id := c |}
  | EvApproval e => {| at_action := _approval_action (asc_to_status e);
      at_target_type := "approval"; at_target_id := asc_approval_id e |}
  | EvDecision e => {| at_action := "decision.updated";
      at_target_type := "decision"; at_target_id := dsc_decision_id e |}
  | EvRollout e => {| at_action := "evolution_proposal.updated";
      at_target_type := "evolution_proposal"; at_target_id := esc_proposal_id e |}
  | EvGoal e => {| at_action := "goal.updated"; at_target_type := "goal"; at_target_id := gsc_goal_id e |}
  | EvWorkItem e => {| at_action := "work_item.updated";
      at_target_type := "work_item"; at_target_id := wsc_work_item_id e |}
  end.

Record DomainEventAuditContext := {
  ctx_actor_type : string;
  ctx_actor_id : string;
  ctx_trace_id : option string;
  ctx_run_id : option string;
  ctx_work_item_id : option string;
  ctx_detail : pydict;
}.

(** [new_id] and [now] are the generated identifier and the creation time of the
    row. *)
Definition audit_event_from_domain_event (new_id : string) (now : datetime)
    (ev : domain_event) (ctx : DomainEventAuditContext) : result AuditEventRecord :=
  let target := _audit_target_for ev in
  payload ← clean_audit_detail (Some (to_payload ev));
  extra ← clean_audit_detail (Some (ctx_detail ctx));
  let detail := dict_update (dict_set payload "domain_event" (PStr (event_name ev))) extra in
  match dict_get detail "company_id" with
  | Some (PStr company_id) =>
      Ok {| ae_audit_event_id := new_id; ae_company_id := company_id;
            ae_action := at_action target; ae_target_type := at_target_type target;
            ae_target_id := at_target_id target; ae_actor_type := ctx_actor_type ctx;
            ae_actor_id := ctx_actor_id ctx; ae_trace_id := ctx_trace_id ctx;
            ae_run_id := ctx_run_id ctx; ae_work_item_id := ctx_work_item_id ctx;
            ae_idempotency_key := None; ae_detail := detail; ae_created_at := now |}
  | _ => Raise (Exn "ValidationError" "company_id")
  end.

(** The tenant an event belongs to. *)
Definition event_company (ev : domain_event) : string :=
  match ev with
  | EvAgentRun e => runsc_company_id e
  | EvAgentRole e => rsc_company_id e
  | EvPromptConfig e => apu_company_id e
  | EvArtifact e => ac_company_id e
  | EvBudgetPolicy (BudgetPolicyCreated _ c _ _ _ _ _ _ _) => c
  | EvBudgetPolicy (BudgetPolicyUpdated _ c _ _ _ _ _ _) => c
  | EvBudgetUsage e => bur_company_id e
  | EvCompany (CompanyContextCreated c _ _ _) => c
  | EvCompany (CompanyContextUpdated c _ _ _ _ _ _) => c
  | EvApproval e => asc_company_id e
  | EvDecision e => dsc_company_id e
  | EvRollout e => esc_company_id e
  | EvGoal e => gsc_company_id e
  | EvWorkItem e => wsc_company_id e
  end.

Lemma freeze_strs l : _freeze_metadata_value (p_strs l) = Ok (p_strs l).
Proof.
  unfold p_strs. cbn. assert (mapR _freeze_metadata_value (PStr <$> l) = Ok (PStr <$> l)) as ->.
  { induction l as [|s l IH]; cbn; [done|]. by rewrite IH. }
  done.
Qed.

Lemma freeze_opt o : _freeze_metadata_value (p_opt o) = Ok (p_opt o).
Proof. by destruct o. Qed.

(** Cleaning a payload cannot fail, and keeps the tenant. *)
Lemma payload_clean ev :
  ∃ d, clean_audit_detail (Some (to_payload ev)) = Ok d
       ∧ dict_get d "company_id" = Some (PStr (event_company ev)).
Proof.
  unfold clean_audit_detail, clean_metadata, from_mapping, mk_metadata, _freeze_metadata_mapping.
  destruct ev as [e|e|e|e|[]|e|[]|e|e|e|e|e]; cbn -[_freeze_metadata_value p_strs p_opt];
    rewrite ?freeze_strs, ?freeze_opt; cbn -[p_strs p_opt]; eexists; split; reflexivity.
Qed.

Lemma dict_update_absent {V} (d e : list (string * V)) k :
  k ∉ e.*1 → dict_get (dict_update d e) k = dict_get d k.
Proof.
  unfold dict_update. revert d. induction e as [|[k' v] e IH]; intros d; [done|].
  cbn. intros [Hne Hin]%not_elem_of_cons. rewrite IH by done. by apply dict_get_set_ne.
Qed.

(** Every domain event becomes an audit row of the event's own tenant that
    names the event, whatever the event, as long as the context detail is
    acceptable and does not itself carry these two keys. *)
Theorem domain_event_audited new_id now ev ctx extra :
  clean_audit_detail (Some (ctx_detail ctx)) = Ok extra →
  "company_id" ∉ extra.*1 → "domain_event" ∉ extra.*1 →
  ∃ row, audit_event_from_domain_event new_id now ev ctx = Ok row
    ∧ ae_company_id row = event_company ev
    ∧ dict_get (ae_detail row) "domain_event" = Some (PStr (event_name ev))
    ∧ ae_action row = at_action (_audit_target_for ev)
    ∧ ae_target_id row = at_target_id (_audit_target_for ev).
Proof.
  intros Hx Hc He. unfold audit_event_from_domain_event.
  destruct (payload_clean ev) as (d & -> & Hd). cbn [mbind result_bind]. rewrite Hx.
  cbn [mbind result_bind]. rewrite dict_update_absent, dict_get_set_ne, Hd by done.
  eexists. split; [reflexivity|]. cbn. split_and!; try done.
  by rewrite dict_update_absent, dict_get_set_eq.
Qed.

Definition sample_event : domain_event := EvWorkItem {|
  wsc_work_item_id := "work_1"; wsc_company_id := "cmp_1";
  wsc_from_status := WorkItemStatus_READY; wsc_to_status := WorkItemStatus_RUNNING |}.
Definition sample_ctx : DomainEventAuditContext := {|
  ctx_actor_type := "operator"; ctx_actor_id := "ops"; ctx_trace_id := None; ctx_run_id := None;
  ctx_work_item_id := Some "work_1"; ctx_detail := [("status", PStr "running")] |}.

Lemma domain_event_audited_witness :
  ∃ row, audit_event_from_domain_event "aud_1" (of_utc 0) sample_event sample_ctx = Ok row
    ∧ ae_company_id row = "cmp_1".
Proof.
  destruct (domain_event_audited "aud_1" (of_utc 0) sample_event sample_ctx
              [("status", PStr "running")]) as (row & H & Hc & _);
    [reflexivity | cbn; set_solver | cbn; set_solver |].
  exists row. split; [exact H | exact Hc].
Defined.
