(* ===== verification/WakeupAdapter.v ===== *)
(** * Agent wakeup adapter configuration ([domain/agent_wakeup_adapter.py])

    The interpretation of a role's adapter contract: action, allow-list key,
    heartbeat interval and timeouts.  [command], which splits a shell line with
    [shlex], is in [ProcessSupervisor.v] beside the supervisor that runs it. *)

From S2P Require Import Prelude PyNum PyValue PyTime Models Metadata.

Definition DEFAULT_AGENT_WAKEUP_ACTION : string := "wakeup".
Definition DEFAULT_AGENT_WAKEUP_ADAPTER_TYPE : string := "builtin".
Definition DEFAULT_HEARTBEAT_INTERVAL_SECONDS : Z := 300.
Definition MIN_HEARTBEAT_INTERVAL_SECONDS : Z := 60.

Record AgentWakeupAdapterConfig := {
  awc_agent_id : string;
  awc_adapter_type : string;
  awc_config : pydict;
}.

Definition from_agent_role (agent : AgentRoleRecord) : result AgentWakeupAdapterConfig :=
  config ← clean_metadata (Some (role_adapter_config agent));
  Ok {| awc_agent_id := role_agent_id agent;
        awc_adapter_type := if str_empty (role_adapter_type agent)
                            then DEFAULT_AGENT_WAKEUP_ADAPTER_TYPE else role_adapter_type agent;
        awc_config := config |}.

Definition action (c : AgentWakeupAdapterConfig) : pyval :=
  default (PStr DEFAULT_AGENT_WAKEUP_ACTION) (dict_get (awc_config c) "action").

Fixpoint string_value (c : AgentWakeupAdapterConfig) (keys : list string) : option string :=
  match keys with
  | [] => None
  | k :: keys' =>
      match dict_get (awc_config c) k with
      | Some (PStr s) => if str_empty (strip s) then string_value c keys' else Some (strip s)
      | _ => string_value c keys'
      end
  end.

Definition allowlist_key (c : AgentWakeupAdapterConfig) : string :=
  match string_value c ["allowlist_key"; "registry_key"] with
  | Some s => s
  | None => awc_adapter_type c +:+ ":" +:+ awc_agent_id c
  end.

(** [config.get("heartbeat_enabled") is True] *)
Definition heartbeat_enabled (c : AgentWakeupAdapterConfig) : bool :=
  match dict_get (awc_config c) "heartbeat_enabled" with Some (PBool true) => true | _ => false end.

(** [int(raw)], where a [TypeError] or [ValueError] gives the default. *)
Definition heartbeat_interval_seconds (c : AgentWakeupAdapterConfig) : result Z :=
  let raw := default (PInt DEFAULT_HEARTBEAT_INTERVAL_SECONDS)
               (dict_get (awc_config c) "heartbeat_interval_seconds") in
  v ← match py_int raw with
      | Ok z => Ok z
      | Raise (Exn "OverflowError" m) => Raise (Exn "OverflowError" m)
      | Raise _ => Ok DEFAULT_HEARTBEAT_INTERVAL_SECONDS
      end;
  Ok (Z.max v MIN_HEARTBEAT_INTERVAL_SECONDS).

(** [float(v)] *)
Definition py_float (v : pyval) : result float :=
  match v with
  | PFloat f => Ok f
  | PInt z => Ok (float_of_decimal (DFin (z <? 0) (Z.abs_N z) 0))
  | PBool b => Ok (if b then float_lit 1 0 else f_zero)
  | PStr s | PEnum s =>
      match parse_decimal s with
      | Some d => Ok (float_of_decimal d)
      | None => Raise (value_error ("could not convert string to float: " +:+ str_repr s))
      end
  | _ => Raise (Exn "TypeError" "float() argument")
  end.

Definition http_timeout_seconds (c : AgentWakeupAdapterConfig) : result float :=
  v ← py_float (default (PInt 30) (dict_get (awc_config c) "timeout_sec"));
  if negb (f_isfinite v) || f_le v f_zero then Raise (value_error "invalid_executor_timeout")
  else Ok (if f_lt (float_lit 120 0) v then float_lit 120 0 else v).

Definition process_timeout_seconds (c : AgentWakeupAdapterConfig) (max_seconds : Z) : result Z :=
  v ← py_int (default (PInt 300) (dict_get (awc_config c) "timeout_sec"));
  if v <=? 0 then Raise (value_error "invalid_executor_timeout")
  else Ok (Z.min v max_seconds).

(** A heartbeat is never due more often than once a minute. *)
Lemma heartbeat_interval_min c n :
  heartbeat_interval_seconds c = Ok n → MIN_HEARTBEAT_INTERVAL_SECONDS ≤ n.
Proof. unfold heartbeat_interval_seconds. intros H; inv_bind. lia. Qed.

(** A process executor that is started runs for a positive, bounded time. *)
Theorem process_timeout_bounds c max_seconds n :
  0 < max_seconds → process_timeout_seconds c max_seconds = Ok n → 0 < n ≤ max_seconds.
Proof.
  unfold process_timeout_seconds. intros Hm H; inv_bind.
  destruct (Z.leb_spec a 0); [done|]. simplify_eq. lia.
Qed.

Lemma process_timeout_bounds_witness :
  let c := {| awc_agent_id := "a"; awc_adapter_type := "process";
              awc_config := [("timeout_sec", PStr "1_000")] |} in
  process_timeout_seconds c 900 = Ok 900 ∧ 0 < 900 ≤ 900.
Proof.
  cbv zeta. split; [reflexivity|].
  eapply (process_timeout_bounds {| awc_agent_id := "a"; awc_adapter_type := "process";
              awc_config := [("timeout_sec", PStr "1_000")] |} 900); [lia | reflexivity].
Defined.
