(* ===== verification/ExecutionPolicy.v ===== *)
(** * Execution policy: frozen intent, capabilities and bounded money

    [domain/execution_policy.py] and [execution_control_use_cases.py].  The hash
    function of [hashlib] is a parameter. *)

From S2P Require Import Prelude PyNum PyValue PyTime Models.

Definition MAX_COST : decimal := DFin false 1000000 0.

Definition invalid_execution_cost : exn := ExecutionDenied "invalid_execution_cost" 400.

(** [bounded_cost] on the printed form of its argument. *)
Definition bounded_cost_str (text : string) : result decimal :=
  match parse_decimal text with
  | None => Raise invalid_execution_cost
  | Some amount =>
      if negb (dec_is_finite amount) || dec_ltb amount dec_zero || dec_ltb MAX_COST amount
      then Raise invalid_execution_cost
      else match dec_quantize6 amount with
           | Some q => Ok q
           | None => Raise (Exn "InvalidOperation" "quantize")
           end
  end.

Definition bounded_cost (v : pyval) : result decimal := bounded_cost_str (py_str v).

Section intent.
Context (sha256_hex : string → string).

(** The dictionary that is hashed. *)
Definition intent_value (agent : AgentRoleRecord) (payload : pydict)
    (work_item_id : option string) : pyval :=
  PDict
    [("company_id", PStr (role_company_id agent));
     ("agent_id", PStr (role_agent_id agent));
     ("adapter_type", PStr (role_adapter_type agent));
     ("adapter_config", PDict (role_adapter_config agent));
     ("permissions", PList (PStr <$> str_sorted (role_permissions agent)));
     ("budget_policy_id", match role_budget_policy_id agent with Some s => PStr s | None => PNone end);
     ("escalation_policy", PDict (role_escalation_policy agent));
     ("work_item_id", match work_item_id with Some s => PStr s | None => PNone end);
     ("input", PDict payload)].

Definition intent_hash (agent : AgentRoleRecord) (payload : pydict)
    (work_item_id : option string) : result string :=
  match json_dumps (intent_value agent payload work_item_id) with
  | Ok encoded => Ok (sha256_hex encoded)
  | Raise _ => Raise (ExecutionDenied "invalid_execution_intent" 400)
  end.
End intent.

Definition authorize_adapter (agent : AgentRoleRecord) : result decimal :=
  if decide (role_record_status agent ≠ Some "active")
  then Raise (ExecutionDenied "agent_not_runnable" 409)
  else if decide (role_adapter_type agent = "builtin") then Ok dec_zero
  else
    let act := py_str (default (PStr "wakeup") (dict_get (role_adapter_config agent) "action")) in
    let required := ["work.execute"; "adapter:" +:+ role_adapter_type agent; "tool:" +:+ act] in
    if negb (forallb (λ r, bool_decide (r ∈ role_permissions agent)) required)
    then Raise (ExecutionDenied "execution_permission_denied" 403)
    else match dict_get (role_adapter_config agent) "max_cost_usd" with
         | None => Raise (ExecutionDenied "execution_cost_ceiling_required" 400)
         | Some v => bounded_cost v
         end.

Definition period_start (period : string) (now : instant) : result instant :=
  if decide (period = "daily") then Ok (at_midnight now)
  else if decide (period = "monthly") then Ok (at_month_start id now)
  else if decide (period = "quarterly") then Ok (at_month_start quarter_month now)
  else if decide (period = "total") then Ok (ymd2ord 1970 1 1 * us_per_day)
  else Raise (ExecutionDenied "unsupported_budget_period" 400).

Definition validate_execution_control (adapter_type action state : string) : result unit :=
  if negb (bool_decide (action ∈ ["pause"; "resume"; "terminate"]))
  then Raise (ExecutionDenied "invalid_execution_control" 400)
  else if decide (state ≠ "running") then Raise (ExecutionDenied "execution_not_running" 409)
  else if decide (adapter_type ≠ "process")
  then Raise (ExecutionDenied "executor_control_not_supported" 409)
  else Ok ().

(** ** Bounded money *)

(** A reservable amount: six decimals, between 0 and one million. *)
Definition ceiling_ok (d : decimal) : Prop :=
  ∃ s c, d = DFin s c (-6) ∧ 0 ≤ signed s c ≤ 1000000 * 10 ^ 6.

Lemma div_half_even_le n d k : (0 < d)%N → (n ≤ k * d)%N → (div_half_even n d ≤ k)%N.
Proof.
  intros Hd Hn. unfold div_half_even. cbv zeta.
  assert (n / d ≤ k)%N as Hq by (apply N.Div0.div_le_upper_bound; lia).
  assert (n = d * (n / d) + n mod d)%N as Hn' by apply N.div_mod'.
  assert (0 < n mod d → n / d < k)%N as Hlt.
  { intros Hr. destruct (decide (n / d = k)%N) as [E|]; [|lia]. rewrite E in Hn'. lia. }
  destruct (N.ltb_spec (2 * (n mod d)) d); [done|].
  destruct (N.ltb_spec d (2 * (n mod d))); [lia|].
  destruct (N.even (n / d)); lia.
Qed.

Lemma num_digits_bound c : (c ≤ 10 ^ 12)%N → num_digits c ≤ 28.
Proof.
  intros Hc. unfold num_digits.
  assert (∀ k (n : N) s, (n < 10 ^ N.of_nat k)%N →
            (String.length (pretty_N_go n s) ≤ String.length s + k)%nat) as Hgo.
  { induction k as [|k IH]; intros n s Hn.
    - assert (n = 0)%N as -> by (cbn in Hn; lia). rewrite pretty_N_go_0. lia.
    - destruct (decide (n = 0)%N) as [->|]; [rewrite pretty_N_go_0; lia|].
      rewrite pretty_N_go_step by lia.
      etransitivity; [apply IH|cbn; lia].
      apply N.Div0.div_lt_upper_bound. rewrite Nat2N.inj_succ, N.pow_succ_r' in Hn. lia. }
  unfold pretty, pretty_N. case_decide; [cbn; lia|].
  specialize (Hgo 13%nat c ""). cbn [String.length] in Hgo.
  assert (c < 10 ^ N.of_nat 13)%N by (cbn; lia). lia.
Qed.

Lemma quantize6_total s c e :
  dec_ltb (DFin s c e) dec_zero = false → dec_ltb MAX_COST (DFin s c e) = false →
  ∃ c', dec_quantize6 (DFin s c e) = Some (DFin s c' (-6)) ∧ 0 ≤ signed s c' ≤ 1000000 * 10 ^ 6.
Proof.
  unfold dec_ltb, MAX_COST, dec_zero, dec_compare, scale_to. intros H0 H1.
  set (c' := if -6 <=? e then (c * 10 ^ Z.to_N (e + 6))%N
             else div_half_even c (10 ^ Z.to_N (-6 - e))%N).
  assert (0 ≤ signed s c) as Hs.
  { destruct (Z.compare_spec (signed s c * 10 ^ (e - e `min` 0)) (signed false 0 * 10 ^ (0 - e `min` 0)));
      [| discriminate |]; cbn in *; assert (0 < 10 ^ (e - e `min` 0)) by (apply Z.pow_pos_nonneg; lia); nia. }
  assert (s = false ∨ c = 0%N) as Hsc by (destruct s; cbn in Hs; [right; lia | by left]).
  assert (signed s c = Z.of_N c) as Hsg by (destruct Hsc as [->| ->]; [done | by destruct s]).
  rewrite Hsg in H1.
  assert (Z.of_N c * 10 ^ (e - 0 `min` e) ≤ 1000000 * 10 ^ (0 - 0 `min` e)) as Hle.
  { destruct (Z.compare_spec (signed false 1000000 * 10 ^ (0 - 0 `min` e))
                (Z.of_N c * 10 ^ (e - 0 `min` e))); [| discriminate |]; cbn [signed] in *; lia. }
  assert (c' ≤ 10 ^ 12)%N as Hc'.
  { subst c'. destruct (Z.leb_spec (-6) e) as [He|He].
    - apply N2Z.inj_le. rewrite N2Z.inj_mul, (N2Z.inj_pow _ (Z.to_N _)), Z2N.id by lia.
      destruct (Z.le_gt_cases 0 e).
      + rewrite Z.min_l, !Z.sub_0_r in Hle by lia.
        rewrite Z.pow_add_r by lia. cbn in *. nia.
      + rewrite Z.min_r, Z.sub_diag in Hle by lia.
        assert (10 ^ 6 = 10 ^ (e + 6) * 10 ^ (0 - e)) as E6
          by (rewrite <- Z.pow_add_r by lia; f_equal; lia).
        assert (0 < 10 ^ (e + 6)) by (apply Z.pow_pos_nonneg; lia).
        change (Z.of_N (10 ^ 12)) with (1000000 * 10 ^ 6). rewrite E6.
        change (Z.of_N 10) with 10. nia.
    - apply div_half_even_le.
      + apply N.neq_0_lt_0. apply N.pow_nonzero. lia.
      + rewrite Z.min_r, Z.sub_diag in Hle by lia.
        apply N2Z.inj_le. rewrite N2Z.inj_mul, (N2Z.inj_pow _ (Z.to_N _)), Z2N.id by lia.
        replace (0 - e) with (6 + (-6 - e)) in Hle by lia.
        rewrite Z.pow_add_r in Hle by lia. change (Z.of_N 10) with 10.
        change (Z.of_N (10 ^ 12)) with (1000000 * 10 ^ 6). lia. }
  exists c'. unfold dec_quantize6. fold c'.
  rewrite (proj2 (Z.leb_le _ _) (num_digits_bound _ Hc')).
  split; [done|].
  assert (Z.of_N c' ≤ 10 ^ 12) by lia.
  destruct Hsc as [->|Hc0]; [cbn; lia|].
  assert (c' = 0%N) as ->.
  { subst c c'. destruct (_ <=? _); [lia|].
    assert (10 ^ Z.to_N (-6 - e) ≠ 0)%N by (apply N.pow_nonzero; lia).
    assert (div_half_even 0 (10 ^ Z.to_N (-6 - e)) ≤ 0)%N by (apply div_half_even_le; lia).
    lia. }
  destruct s; cbn; lia.
Qed.

Lemma bounded_cost_ok text d : bounded_cost_str text = Ok d → ceiling_ok d.
Proof.
  unfold bounded_cost_str. destruct (parse_decimal text) as [[s c e| |]|]; cbn; try done.
  destruct (dec_ltb _ dec_zero) eqn:E0; [done|].
  destruct (dec_ltb MAX_COST _) eqn:E1; [done|]. cbn.
  destruct (quantize6_total s c e E0 E1) as (c' & -> & Hc'). intros [= <-]. by exists s, c'.
Qed.

(** A cost is accepted only as an amount of six decimals between 0 and
    1,000,000 USD, and every text is either accepted so or refused with the
    documented denial: quantization itself never fails. *)
Theorem bounded_cost_total (v : pyval) :
  (∃ d, bounded_cost v = Ok d ∧ ceiling_ok d) ∨ bounded_cost v = Raise invalid_execution_cost.
Proof.
  unfold bounded_cost. destruct (bounded_cost_str (py_str v)) as [d|e] eqn:E.
  - left. exists d. split; [done|]. by eapply bounded_cost_ok.
  - right. revert E. unfold bounded_cost_str.
    destruct (parse_decimal (py_str v)) as [[s c ex| |]|]; cbn; try congruence.
    destruct (dec_ltb _ dec_zero) eqn:E0; [cbn; congruence|].
    destruct (dec_ltb MAX_COST _) eqn:E1; [cbn; congruence|]. cbn.
    destruct (quantize6_total s c ex E0 E1) as (c' & -> & Hc'). congruence.
Qed.

(** An adapter that can act is authorized only for an active role that holds
    the execution permission, the adapter's permission and the tool's
    permission, and only under a declared ceiling in range. *)
Theorem authorize_adapter_sound agent ceiling :
  authorize_adapter agent = Ok ceiling →
  role_record_status agent = Some "active" ∧
  (role_adapter_type agent = "builtin" ∧ ceiling = dec_zero ∨
   "work.execute" ∈ role_permissions agent
   ∧ ("adapter:" +:+ role_adapter_type agent) ∈ role_permissions agent
   ∧ (∃ act, "tool:" +:+ act ∈ role_permissions agent
        ∧ act = py_str (default (PStr "wakeup") (dict_get (role_adapter_config agent) "action")))
   ∧ ceiling_ok ceiling).
Proof.
  unfold authorize_adapter. case_decide as Hs; [done|].
  case_decide as Hb; [intros [= <-]; by auto|].
  destruct (negb _) eqn:Hp; [done|]. apply negb_false_iff in Hp.
  cbn in Hp. repeat (apply andb_prop in Hp as [? Hp]). rewrite !bool_decide_eq_true in *.
  destruct (dict_get _ "max_cost_usd"); [|done]. intros Hc.
  split; [done|]. right. split_and!; eauto using bounded_cost_ok.
Qed.

Definition sample_role : AgentRoleRecord := {|
  role_id := "role_1"; role_company_id := "cmp_1"; role_agent_id := "agent_1";
  role_display_name := "Agent"; role_agent_kind := Member AgentKind_ORGANIZATION_ROLE;
  role_interaction_mode := Member AgentInteractionMode_ROUTED; role_role := "worker";
  role_title := ""; role_domain := ""; role_reports_to_agent_id := None;
  role_adapter_type := "process"; role_adapter_config := [("max_cost_usd", PStr "2.5")];
  role_context_sources := []; role_capabilities := []; role_responsibilities := [];
  role_subscribed_events := []; role_published_events := [];
  role_permissions := ["tool:wakeup"; "work.execute"; "adapter:process"];
  role_budget_policy_id := None; role_escalation_policy := []; role_record_status := Some "active";
  role_created_by := "system"; role_metadata := []; role_created_at := of_utc 0;
  role_updated_at := of_utc 0 |}.

Lemma authorize_adapter_sound_witness :
  authorize_adapter sample_role = Ok (DFin false 2500000 (-6))
  ∧ role_record_status sample_role = Some "active".
Proof.
  split; [vm_compute; reflexivity|].
  apply (authorize_adapter_sound sample_role (DFin false 2500000 (-6))).
  vm_compute; reflexivity.
Defined.

(** ** Budget periods *)

(** The start of a budget period is not after the instant it is computed
    for, and is a fixed point: every usage counted from the start of a period
    lies in that period, and the start belongs to its own period. *)
Theorem period_start_fixed_point period now start :
  period_start period now = Ok start → period ≠ "total" →
  start ≤ now ∧ period_start period start = Ok start.
Proof.
  unfold period_start. intros H Ht.
  repeat (case_decide; [simplify_eq|]); try done.
  - split; [apply at_midnight_le | by rewrite at_midnight_idem].
  - split; [apply at_month_start_le; by left | rewrite at_month_start_idem; by auto].
  - split; [apply at_month_start_le; by right | rewrite at_month_start_idem; by auto].
Qed.

Lemma period_start_fixed_point_witness :
  let now := ymd2ord 2026 8 17 * us_per_day + 12345 in
  period_start "quarterly" now = Ok (ymd2ord 2026 7 1 * us_per_day)
  ∧ ymd2ord 2026 7 1 * us_per_day ≤ now.
Proof.
  cbv zeta. split; [vm_compute; reflexivity|].
  eapply (period_start_fixed_point "quarterly" (ymd2ord 2026 8 17 * us_per_day + 12345));
    [vm_compute; reflexivity | discriminate].
Defined.

(** ** Execution-link consistency

    [domain/execution_links.py] *)

Record ExecutionLinks := {
  el_run_id : option string;
  el_work_item_id : option string;
  el_goal_id : option string;
}.

Definition requested (run_id work_item_id goal_id : option string) : ExecutionLinks :=
  {| el_run_id := run_id; el_work_item_id := work_item_id; el_goal_id := goal_id |}.

Definition ExecutionLinkMismatchError (target : string) : exn :=
  Exn "ExecutionLinkMismatchError" target.

(** [replace(links, work_item_id=...)] and [replace(links, goal_id=...)] *)
Definition set_work_item (l : ExecutionLinks) (w : option string) : ExecutionLinks :=
  {| el_run_id := el_run_id l; el_work_item_id := w; el_goal_id := el_goal_id l |}.
Definition set_goal (l : ExecutionLinks) (g : option string) : ExecutionLinks :=
  {| el_run_id := el_run_id l; el_work_item_id := el_work_item_id l; el_goal_id := g |}.

Definition with_agent_run (l : ExecutionLinks) (run : AgentRunRecord) : result ExecutionLinks :=
  l1 ← (if truthy (run_work_item_id run) then
          if truthy (el_work_item_id l) && bool_decide (el_work_item_id l ≠ run_work_item_id run)
          then Raise (ExecutionLinkMismatchError "work_item")
          else Ok (set_work_item l (run_work_item_id run))
        else Ok l);
  if truthy (run_goal_id run) then
    if truthy (el_goal_id l1) && bool_decide (el_goal_id l1 ≠ run_goal_id run)
    then Raise (ExecutionLinkMismatchError "goal")
    else Ok (set_goal l1 (run_goal_id run))
  else Ok l1.

Definition with_work_item (l : ExecutionLinks) (w : WorkItemRecord) : result ExecutionLinks :=
  if truthy (wi_goal_id w) then
    if truthy (el_goal_id l) && bool_decide (el_goal_id l ≠ wi_goal_id w)
    then Raise (ExecutionLinkMismatchError "goal")
    else Ok (set_goal l (wi_goal_id w))
  else Ok l.

Definition as_goal_work_item_tuple (l : ExecutionLinks) : option string * option string :=
  (el_goal_id l, el_work_item_id l).

(** [ExecutionLinkConsistencyPolicy] delegates to the value object. *)
Definition requested_links (run_id work_item_id goal_id : option string) : ExecutionLinks :=
  requested run_id work_item_id goal_id.
Definition resolve_agent_run (l : ExecutionLinks) (r : AgentRunRecord) : result ExecutionLinks :=
  with_agent_run l r.
Definition resolve_work_item (l : ExecutionLinks) (w : WorkItemRecord) : result ExecutionLinks :=
  with_work_item l w.
Definition persistence_refs (l : ExecutionLinks) : option string * option string :=
  as_goal_work_item_tuple l.

(** [agrees have want]: a reference that is present is the one wanted. *)
Definition agrees (have want : option string) : Prop :=
  truthy want = true → truthy have = true → have = want.

(** Resolving a run and a work item gives links that agree with the request
    and with both records, and the order of the two resolutions does not matter:
    they succeed together, with the same links. *)
Theorem links_resolution_commutes l run w l' :
  (l1 ← resolve_agent_run l run; resolve_work_item l1 w) = Ok l' ↔
  (l1 ← resolve_work_item l w; resolve_agent_run l1 run) = Ok l'.
Proof.
  unfold resolve_agent_run, resolve_work_item, with_agent_run, with_work_item, set_goal, set_work_item.
  destruct l as [r0 w0 g0]; cbn.
  destruct (truthy (run_work_item_id run)) eqn:E1, (truthy (run_goal_id run)) eqn:E2,
    (truthy (wi_goal_id w)) eqn:E3, (truthy w0) eqn:E4, (truthy g0) eqn:E5; cbn;
    repeat (case_bool_decide; cbn; rewrite ?E1, ?E2, ?E3, ?E4, ?E5; cbn);
    try done; naive_solver congruence.
Qed.

Lemma with_agent_run_sound l run l' :
  with_agent_run l run = Ok l' →
  el_run_id l' = el_run_id l
  ∧ agrees (el_work_item_id l) (run_work_item_id run) ∧ agrees (el_goal_id l) (run_goal_id run)
  ∧ (truthy (run_work_item_id run) = true → el_work_item_id l' = run_work_item_id run)
  ∧ (truthy (run_goal_id run) = true → el_goal_id l' = run_goal_id run)
  ∧ (truthy (run_work_item_id run) = false → el_work_item_id l' = el_work_item_id l)
  ∧ (truthy (run_goal_id run) = false → el_goal_id l' = el_goal_id l).
Proof.
  unfold with_agent_run, agrees. destruct l as [r0 w0 g0]; cbn.
  destruct (truthy (run_work_item_id run)) eqn:E1, (truthy (run_goal_id run)) eqn:E2,
    (truthy w0) eqn:E4, (truthy g0) eqn:E5; cbn;
    repeat (case_bool_decide; cbn); rewrite ?E5; cbn; try done;
    repeat (case_bool_decide; cbn); intros ?; simplify_eq; cbn; by split_and!.
Qed.

(** Links are accepted from a run exactly when no reference conflicts; the
    run's own references then replace the requested ones, nothing else moves. *)
Theorem links_from_run_iff l run :
  (∃ l', with_agent_run l run = Ok l'
     ∧ el_run_id l' = el_run_id l
     ∧ el_work_item_id l' = (if truthy (run_work_item_id run) then run_work_item_id run
                             else el_work_item_id l)
     ∧ el_goal_id l' = (if truthy (run_goal_id run) then run_goal_id run else el_goal_id l))
  ↔ agrees (el_work_item_id l) (run_work_item_id run) ∧ agrees (el_goal_id l) (run_goal_id run).
Proof.
  split.
  - intros (l' & H & _). by apply with_agent_run_sound in H as (_ & ? & ? & _).
  - intros [Hw Hg]. unfold with_agent_run, agrees in *. destruct l as [r0 w0 g0]; cbn in *.
    destruct (truthy (run_work_item_id run)), (truthy (run_goal_id run)),
      (truthy w0), (truthy g0) eqn:E5; cbn;
      repeat (case_bool_decide; [exfalso; by auto|]; cbn); rewrite ?E5; cbn;
      repeat (case_bool_decide; [exfalso; by auto|]; cbn);
      eexists; split_and!; reflexivity.
Qed.
