(* ===== verification/GovernancePolicies.v ===== *)
(** * Approval effects, outcome acceptance and release gates

    [domain/approval_resolution.py], [domain/outcome_acceptance.py] and
    [domain/evolution_deployment.py]. *)

From S2P Require Import Prelude PyNum PyValue PyTime Models.

(** ** Approval resolution *)
Record ApprovalResolutionEffect := {
  are_approval_status : ApprovalStatus;
  are_proposal_approval_state : ApprovalStatus;
  are_proposal_rollout_state : option EvolutionRolloutState;
}.

Definition effect_approved (e : ApprovalResolutionEffect) : bool :=
  bool_decide (are_approval_status e = ApprovalStatus_APPROVED).

Definition proposal_update_kwargs (e : ApprovalResolutionEffect)
    : list (string * option string) :=
  [("approval_state", Some (value (are_proposal_approval_state e)));
   ("rollout_state", value <$> are_proposal_rollout_state e)].

Definition proposal_audit_detail (e : ApprovalResolutionEffect) (proposal_id approval_id : string)
    : pydict :=
  let detail := [("proposal_id", PStr proposal_id);
                 ("approval_state", PStr (value (are_proposal_approval_state e)));
                 ("approval_id", PStr approval_id)] in
  match are_proposal_rollout_state e with
  | Some s => dict_set detail "rollout_state" (PStr (value s))
  | None => detail
  end.

(** [ApprovalResolutionPolicy.resolve] *)
Definition resolve (approved : bool) : ApprovalResolutionEffect :=
  if approved then
    {| are_approval_status := ApprovalStatus_APPROVED;
       are_proposal_approval_state := ApprovalStatus_APPROVED;
       are_proposal_rollout_state := None |}
  else
    {| are_approval_status := ApprovalStatus_REJECTED;
       are_proposal_approval_state := ApprovalStatus_REJECTED;
       are_proposal_rollout_state := Some EvolutionRolloutState_REJECTED |}.

(** ** Outcome acceptance *)
Definition denied (reason : string) (status : Z) : exn := ExecutionDenied reason status.

(** [d.get(k, {})] where the result is used as a dictionary. *)
Definition get_dict (v : pyval) (k : string) : result pyval :=
  match v with
  | PDict d => Ok (default (PDict []) (dict_get d k))
  | _ => Raise (Exn "AttributeError" "get")
  end.

(** The output of the run's last event. *)
Definition run_output (run : AgentRunRecord) : result pyval :=
  match last (run_output_events run) with
  | None => Ok (PDict [])
  | Some ev => payload ← get_dict (PDict ev) "payload"; get_dict payload "output"
  end.

Definition validate_outcome (work : WorkItemRecord) (run : AgentRunRecord)
    (artifact : ArtifactRecord) (reason verdict : string) : result unit :=
  _ ← raise_if (negb (bool_decide (verdict ∈ ["accepted"; "rejected"])) || str_empty (strip reason))
        (denied "acceptance_reason_and_verdict_required" 400);
  _ ← raise_if (bool_decide ((str_of <$> wi_record_status work) ∈ [Some "completed"; Some "cancelled"]))
        (denied "work_item_closed" 409);
  _ ← raise_if (bool_decide (artifact_company_id artifact ≠ wi_company_id work)
        || bool_decide (artifact_work_item_id artifact ≠ Some (wi_work_item_id work))
        || bool_decide (artifact_run_id artifact ≠ Some (run_id run))
        || bool_decide (run_work_item_id run ≠ Some (wi_work_item_id work))
        || bool_decide (run_company_id run ≠ wi_company_id work))
        (denied "acceptance_evidence_link_mismatch" 400);
  _ ← raise_if (bool_decide (str_of (run_record_status run) ≠ "succeeded")
        || negb (truthy (artifact_content_hash artifact)))
        (denied "acceptance_successful_evidence_required" 400);
  output ← run_output run;
  match output with
  | PDict d =>
      raise_if (match dict_get d "status" with
                | Some (PStr s) | Some (PEnum s) => bool_decide (s = "recorded")
                | _ => false
                end || negb (py_bool output))
        (denied "recorded_run_is_not_business_output" 400)
  | _ => Raise (Exn "AttributeError" "get")
  end.

Lemma validate_outcome_Ok work run artifact reason verdict :
  validate_outcome work run artifact reason verdict = Ok () →
  (verdict = "accepted" ∨ verdict = "rejected") ∧ strip reason ≠ ""
  ∧ str_of <$> wi_record_status work ∉ [Some "completed"; Some "cancelled"]
  ∧ artifact_company_id artifact = wi_company_id work ∧ run_company_id run = wi_company_id work
  ∧ artifact_work_item_id artifact = Some (wi_work_item_id work)
  ∧ run_work_item_id run = Some (wi_work_item_id work)
  ∧ artifact_run_id artifact = Some (run_id run)
  ∧ str_of (run_record_status run) = "succeeded"
  ∧ (∃ h, artifact_content_hash artifact = Some h ∧ h ≠ "")
  ∧ ∃ d, run_output run = Ok (PDict d) ∧ d ≠ [] ∧ dict_get d "status" ≠ Some (PStr "recorded").
Proof.
  unfold validate_outcome. intros H; inv_bind.
  repeat match goal with H : _ || _ = false |- _ => apply orb_false_iff in H as [? H] end.
  repeat match goal with
  | H : negb _ = false |- _ => apply negb_false_iff in H
  | H : bool_decide _ = true |- _ => apply bool_decide_eq_true in H
  | H : bool_decide _ = false |- _ => apply bool_decide_eq_false in H
  | H : str_empty _ = false |- _ => apply str_empty_false in H
  | H : ¬ (_ ≠ _) |- _ => apply dec_stable in H
  end.
  split; [set_solver|]. do 8 (split; [done|]).
  split.
  - destruct (artifact_content_hash artifact) as [h|]; [|done]. exists h. split; [done|].
    by apply str_empty_false, negb_true_iff.
  - destruct a3 as [| | | | | | | |d| | |]; try done. exists d.
    apply raise_if_Ok, orb_false_iff in H as [Hst Hne%negb_false_iff].
    split_and!; [done | by destruct d |]. intros E. rewrite E in Hst. by case_bool_decide.
Qed.

(** Business acceptance is bound to evidence: an outcome is accepted or
    rejected only with a reason, on an open work item, against an artifact with
    a content hash that belongs to a successful run of that very work item and
    company, whose output is more than a recorded wakeup. *)
Theorem outcome_bound_to_evidence work run artifact reason verdict :
  validate_outcome work run artifact reason verdict = Ok () →
  (verdict = "accepted" ∨ verdict = "rejected") ∧ strip reason ≠ ""
  ∧ str_of <$> wi_record_status work ∉ [Some "completed"; Some "cancelled"]
  ∧ artifact_company_id artifact = wi_company_id work ∧ run_company_id run = wi_company_id work
  ∧ artifact_work_item_id artifact = Some (wi_work_item_id work)
  ∧ run_work_item_id run = Some (wi_work_item_id work)
  ∧ artifact_run_id artifact = Some (run_id run)
  ∧ str_of (run_record_status run) = "succeeded"
  ∧ (∃ h, artifact_content_hash artifact = Some h ∧ h ≠ "")
  ∧ ∃ d, run_output run = Ok (PDict d) ∧ d ≠ [] ∧ dict_get d "status" ≠ Some (PStr "recorded").
Proof. apply validate_outcome_Ok. Qed.

(** ** Release gates *)
Record EvaluationSide := {
  ev_config_revision : string;
  ev_sample_count : Z;
  ev_accepted_outcome_rate : float;
}.

Record EvaluationReport := {
  ev_baseline : EvaluationSide;
  ev_candidate : EvaluationSide;
  ev_eligible : pyval;
}.

Definition TARGET_STATES : list (string * string) :=
  [("shadow", "shadow"); ("canary", "canary"); ("promote", "active"); ("rollback", "rolled_back")].

Definition ALLOWED_ACTIONS (state : option string) : list string :=
  if decide (state = None) then ["shadow"]
  else if decide (state = Some "shadow") then ["canary"; "rollback"]
  else if decide (state = Some "canary") then ["promote"; "rollback"]
  else if decide (state = Some "active") then ["rollback"]
  else [].

Definition validate_release (tier : string) (state : option string) (action : string)
    (report : EvaluationReport) (baseline_ref candidate_ref : string) : result unit :=
  _ ← raise_if (bool_decide (tier ≠ "L1")) (denied "only_l1_skill_release_supported" 400);
  _ ← raise_if (negb (bool_decide (action ∈ ALLOWED_ACTIONS state)))
        (denied "invalid_skill_release_transition" 409);
  _ ← raise_if (bool_decide (ev_config_revision (ev_baseline report) ≠ baseline_ref)
        || bool_decide (ev_config_revision (ev_candidate report) ≠ candidate_ref))
        (denied "evaluation_skill_version_mismatch" 400);
  if bool_decide (action ∈ ["canary"; "promote"]) then
    _ ← raise_if (match ev_eligible report with PBool true => false | _ => true end)
          (denied "evaluation_release_gates_failed" 403);
    _ ← raise_if (Z.min (ev_sample_count (ev_baseline report))
                        (ev_sample_count (ev_candidate report)) <? 50)
          (denied "live_release_sample_count_required" 403);
    raise_if (f_lt (ev_accepted_outcome_rate (ev_candidate report))
                   (ev_accepted_outcome_rate (ev_baseline report)))
      (denied "candidate_outcome_regression" 403)
  else Ok ().

(** The state a validated action leads to. *)
Definition release_step (tier : string) (state : option string) (action : string)
    (report : EvaluationReport) (b c : string) : result (option string) :=
  _ ← validate_release tier state action report b c;
  Ok (dict_get TARGET_STATES action).

(** A history of release actions, each with its own report. *)
Fixpoint release_run (tier : string) (state : option string)
    (actions : list (string * EvaluationReport)) (b c : string) : result (option string) :=
  match actions with
  | [] => Ok state
  | (a, rep) :: rest => s ← release_step tier state a rep b c; release_run tier s rest b c
  end.

(** A report good enough for live traffic. *)
Definition live_grade (report : EvaluationReport) (b c : string) : Prop :=
  ev_eligible report = PBool true
  ∧ 50 ≤ ev_sample_count (ev_baseline report) ∧ 50 ≤ ev_sample_count (ev_candidate report)
  ∧ f_lt (ev_accepted_outcome_rate (ev_candidate report))
         (ev_accepted_outcome_rate (ev_baseline report)) = false
  ∧ ev_config_revision (ev_baseline report) = b ∧ ev_config_revision (ev_candidate report) = c.

Lemma validate_release_sound tier state action report b c :
  validate_release tier state action report b c = Ok () →
  tier = "L1" ∧ action ∈ ALLOWED_ACTIONS state
  ∧ (action = "canary" ∨ action = "promote" → live_grade report b c).
Proof.
  unfold validate_release. intros H; inv_bind.
  apply bool_decide_eq_false, dec_stable in Hm.
  apply negb_false_iff, bool_decide_eq_true in Hm0.
  apply orb_false_iff in Hm1 as [Hb%bool_decide_eq_false%dec_stable Hc%bool_decide_eq_false%dec_stable].
  split_and!; [done..|]. intros Ha. rewrite bool_decide_eq_true_2 in H by set_solver.
  inv_bind. apply Z.ltb_ge in Hm2. unfold live_grade.
  destruct (ev_eligible report) as [|[]| | | | | | | | | |]; try done.
  split_and!; try done; lia.
Qed.

Lemma allowed_actions_cases state a :
  a ∈ ALLOWED_ACTIONS state →
  (state = None ∧ a = "shadow") ∨ (state = Some "shadow" ∧ a = "canary")
  ∨ (state = Some "canary" ∧ a = "promote") ∨ (state = Some "shadow" ∧ a = "rollback")
  ∨ (a = "rollback" ∧ state ≠ None).
Proof.
  unfold ALLOWED_ACTIONS.
  repeat case_decide; subst; intros Ha;
    repeat (apply elem_of_cons in Ha as [->|Ha]; [by eauto 10|]);
    by apply not_elem_of_nil in Ha.
Qed.

(** What a release history has been through when it is in a live state. *)
Definition live_history (state : option string) (actions : list (string * EvaluationReport))
    (b c : string) : Prop :=
  (state = Some "canary" ∨ state = Some "active" →
     ∃ rep, ("canary", rep) ∈ actions ∧ live_grade rep b c)
  ∧ (state = Some "active" → ∃ rep, ("promote", rep) ∈ actions ∧ live_grade rep b c).

Lemma release_step_history tier state a rep b c done_ s' :
  live_history state done_ b c → release_step tier state a rep b c = Ok s' →
  live_history s' (done_ ++ [(a, rep)]) b c.
Proof.
  unfold release_step. intros [H1 H2] H; inv_bind. destruct a0.
  apply validate_release_sound in Hm as (_ & Ha & Hlive).
  assert ((a, rep) ∈ done_ ++ [(a, rep)]) as Hnew
    by (apply elem_of_app; right; by apply list_elem_of_singleton).
  assert (∀ x, x ∈ done_ → x ∈ done_ ++ [(a, rep)]) as Hold
    by (intros; apply elem_of_app; by left).
  destruct (allowed_actions_cases _ _ Ha) as [[-> ->]|[[-> ->]|[[-> ->]|[[-> ->]|[Hr _]]]]];
    cbn; split; intros Hs; try (destruct Hs; discriminate); try discriminate; eauto.
  - destruct H1 as (r & Hr & ?); [by left|]. eauto.
  - subst. destruct Hs; discriminate.
  - subst. discriminate.
Qed.

(** A skill release reaches live traffic only step by step: a history that
    ends in canary or active contains a canary action, and one that ends in
    active a promotion, each validated against an eligible report with at least
    fifty samples on both sides and no outcome regression. *)
Theorem release_gates tier actions b c state :
  release_run tier None actions b c = Ok state → live_history state actions b c.
Proof.
  assert (∀ s prefix, live_history s prefix b c →
    release_run tier s actions b c = Ok state → live_history state (prefix ++ actions) b c) as Hgen.
  { induction actions as [|[a rep] actions IH]; intros s prefix Hs H; cbn in H; inv_bind.
    - by rewrite app_nil_r.
    - change ((a, rep) :: actions) with ([(a, rep)] ++ actions). rewrite app_assoc.
      eapply IH; [|exact H]. by eapply release_step_history. }
  intros H. apply (Hgen None []); [|done]. split; naive_solver.
Qed.

Definition sample_report : EvaluationReport := {|
  ev_baseline := {| ev_config_revision := "v1"; ev_sample_count := 60;
                    ev_accepted_outcome_rate := float_lit 8 1 |};
  ev_candidate := {| ev_config_revision := "v2"; ev_sample_count := 50;
                     ev_accepted_outcome_rate := float_lit 9 1 |};
  ev_eligible := PBool true |}.

Definition sample_release : list (string * EvaluationReport) :=
  [("shadow", sample_report); ("canary", sample_report); ("promote", sample_report)].

Lemma release_gates_witness :
  release_run "L1" None sample_release "v1" "v2" = Ok (Some "active")
  ∧ ∃ rep, ("promote", rep) ∈ sample_release ∧ live_grade rep "v1" "v2".
Proof.
  split; [vm_compute; reflexivity|].
  apply (release_gates "L1" sample_release "v1" "v2" (Some "active"));
    [vm_compute; reflexivity | reflexivity].
Defined.

Definition sample_work : WorkItemRecord := {|
  wi_work_item_id := "work_1"; wi_company_id := "cmp_1"; wi_title := "t"; wi_description := "";
  wi_record_status := Some (Str "running"); wi_priority := Member WorkItemPriority_MEDIUM;
  wi_goal_id := None; wi_owner_agent_id := None; wi_owner_user_id := None; wi_source := "manual";
  wi_external_ref := None; wi_dependencies := []; wi_approval_required := false;
  wi_metadata := []; wi_created_at := of_utc 0; wi_updated_at := of_utc 0 |}.
Definition sample_run : AgentRunRecord := {|
  run_id := "run_1"; run_company_id := "cmp_1"; run_agent_id := "agent_1";
  run_record_status := Str "succeeded"; run_trace_id := None; run_goal_id := None;
  run_work_item_id := Some "work_1"; run_trigger_event_id := None; run_input_event := None;
  run_output_events := [[("payload", PDict [("output", PDict [("status", PStr "ok")])])]];
  run_started_at := of_utc 0; run_completed_at := None; run_error_category := None;
  run_error_message := None; run_last_successful_step := None; run_cost_usd := f_zero;
  run_input_tokens := 0; run_output_tokens := 0; run_metadata := [] |}.
Definition sample_artifact : ArtifactRecord := {|
  artifact_id := "art_1"; artifact_company_id := "cmp_1";
  artifact_type := Member ArtifactType_REPORT; artifact_title := "t"; artifact_uri := "u";
  artifact_content_hash := Some "abc"; artifact_run_id := Some "run_1";
  artifact_work_item_id := Some "work_1"; artifact_goal_id := None;
  artifact_created_by_agent_id := None; artifact_metadata := []; artifact_created_at := of_utc 0 |}.

Lemma outcome_bound_to_evidence_witness :
  validate_outcome sample_work sample_run sample_artifact "checked" "accepted" = Ok ()
  ∧ artifact_run_id sample_artifact = Some (run_id sample_run).
Proof.
  split; [reflexivity|].
  apply (outcome_bound_to_evidence sample_work sample_run sample_artifact "checked" "accepted").
  reflexivity.
Defined.
