(* ===== verification/Lifecycles.v ===== *)
(** * Histories of the lifecycle aggregates

    Theorems about sequences of transition commands, proved against the
    [Lifecycle] contract and the transition tables: the event log an aggregate
    raises replays its status, and the monotone lifecycles (approvals, runs,
    rollouts) end after a bounded number of moves. *)

From S2P Require Import Prelude PyNum PyTime PyValue Models StateMachine.
From S2P Require Import WorkItem ApprovalRequest EvolutionProposal AgentRun.

Section ranked.
Context {Agg St : Type} `{!StrEnum St} `{!Lifecycle Agg St}.
Context (rank : St → nat).
Context (rank_step : ∀ s t, allowed lc_machine s t → (rank t < rank s)%nat).

Lemma chain_length s log t : chain s log t → (length log + rank t ≤ rank s)%nat.
Proof.
  induction 1 as [|s log t u Hc IH Hal]; cbn; [lia|].
  apply rank_step in Hal. rewrite length_app. cbn. lia.
Qed.
End ranked.

Arguments chain_length {Agg St _} lc rank rank_step [s log t] _ : rename.

Lemma chain_last {Agg St} `{!StrEnum St} `{!Lifecycle Agg St} (s : St) log t :
  chain s log t → log = [] ∧ s = t ∨ ∃ log' u, log = log' ++ [(u, t)] ∧ allowed lc_machine u t.
Proof. destruct 1; eauto 10. Qed.

(** A property of every row of a finite table. *)
Definition rows_ok {St} `{!StrEnum St} (m : ControlPlaneStateMachine St) (f : St → St → bool) : bool :=
  forallb (λ s, forallb (λ t, negb (bool_decide (allowed m s t)) || f s t) (members St)) (members St).

Lemma rows_ok_spec {St} `{!StrEnum St} (m : ControlPlaneStateMachine St) f s t :
  rows_ok m f = true → allowed m s t → f s t = true.
Proof.
  unfold rows_ok. rewrite forallb_forall. intros H Hal.
  specialize (H s (proj1 (list_elem_of_In _ _) (members_all s))). rewrite forallb_forall in H.
  specialize (H t (proj1 (list_elem_of_In _ _) (members_all t))).
  by rewrite bool_decide_eq_true_2 in H.
Qed.

Lemma terminal_spec {St} `{!StrEnum St} (m : ControlPlaneStateMachine St) (f : St → bool) s :
  forallb (λ s, negb (f s) || bool_decide (s ∈ terminal_states m)) (members St) = true →
  f s = true → s ∈ terminal_states m.
Proof.
  rewrite forallb_forall. intros H Hf.
  specialize (H s (proj1 (list_elem_of_In _ _) (members_all s))). rewrite Hf in H.
  by apply bool_decide_eq_true in H.
Qed.

(** A run from a fresh aggregate leaves a log that leads to its status. *)
Lemma lc_run_chain {Agg St} `{!StrEnum St} `{!Lifecycle Agg St} (a : Agg) s ts a' :
  lc_status a = Ok s → lc_events a = [] → lc_run a ts = Ok a' →
  ∃ s', lc_status a' = Ok s' ∧ chain s (lc_events a') s'.
Proof. intros Hs He. eapply lc_run_chain_from; eauto using chain_nil. Qed.
Arguments lc_run_chain {Agg St _ _} [a s ts a'] _ _ _.

(** ** Work items *)
Module WorkItems.
Import WorkItem.

Definition event_of (r : WorkItemRecord) (e : WorkItemStatusChanged) : Prop :=
  wsc_work_item_id e = wi_work_item_id r ∧ wsc_company_id e = wi_company_id r.

Lemma transition_ids g t g' :
  transition_to g t = Ok g' →
  wi_work_item_id (record g') = wi_work_item_id (record g)
  ∧ wi_company_id (record g') = wi_company_id (record g)
  ∧ ∀ e, e ∈ _events g' → e ∈ _events g ∨ event_of (record g) e.
Proof.
  unfold transition_to. intros H. inv_bind. destruct a; [|done]. inv_bind.
  case_decide; inv_bind; [by auto|]. cbn. split; [reflexivity|]. split; [reflexivity|].
  intros e [He|He%list_elem_of_singleton]%elem_of_app; [left; exact He|]. subst.
  right. split; reflexivity.
Qed.

Lemma run_ids g ts g' :
  lc_run g ts = Ok g' →
  wi_work_item_id (record g') = wi_work_item_id (record g)
  ∧ wi_company_id (record g') = wi_company_id (record g)
  ∧ ∀ e, e ∈ _events g' → e ∈ _events g ∨ event_of (record g) e.
Proof.
  revert g. induction ts as [|t ts IH]; intros g H; cbn [lc_run] in H; [by simplify_eq; auto|].
  apply bind_Ok in H as (g1 & Hm & H).
  apply (transition_ids g (Some (Member t)) g1) in Hm as (Hi & Hc & He). apply IH in H as (Hi' & Hc' & He').
  split_and!; [congruence|congruence|]. intros e [Hin|[H1 H2]]%He'; [by auto|].
  right. split; congruence.
Qed.

(** The events a work item raises over any accepted sequence of status
    commands lead, along the transition table, from the stored status to the
    final one, and all carry the item's own identifiers: replaying the log
    gives the status. *)
Theorem work_item_history r s ts g :
  status (from_record r) = Ok s → lc_run (from_record r) ts = Ok g →
  (∃ s', status g = Ok s' ∧ chain s (lc_events g) s')
  ∧ ∀ e, e ∈ _events g → event_of r e.
Proof.
  intros Hs H. change (lc_status (from_record r) = Ok s) in Hs. split.
  - destruct (lc_run_chain (a := from_record r) (s := s) Hs eq_refl H) as (s' & H1 & H2).
    exists s'. split; [exact H1 | exact H2].
  - apply run_ids in H as (_ & _ & H). intros e He. destruct (H e He) as [Hn|]; [|done].
    by apply not_elem_of_nil in Hn.
Qed.

Definition sample_item : WorkItemRecord := {|
  wi_work_item_id := "work_1"; wi_company_id := "cmp_1"; wi_title := "t"; wi_description := "";
  wi_record_status := Some (Str "queued"); wi_priority := Str "medium"; wi_goal_id := None;
  wi_owner_agent_id := None; wi_owner_user_id := None; wi_source := ""; wi_external_ref := None;
  wi_dependencies := []; wi_approval_required := false; wi_metadata := [];
  wi_created_at := of_utc 0; wi_updated_at := of_utc 0 |}.

Lemma work_item_history_witness :
  ∃ g, lc_run (from_record sample_item)
         [WorkItemStatus_RUNNING; WorkItemStatus_RUNNING; WorkItemStatus_COMPLETED] = Ok g
    ∧ length (_events g) = 2%nat ∧ ∃ s', status g = Ok s' ∧ chain WorkItemStatus_QUEUED (lc_events g) s'.
Proof.
  eexists. split; [vm_compute; reflexivity|]. split; [reflexivity|].
  eapply (work_item_history sample_item WorkItemStatus_QUEUED
            [WorkItemStatus_RUNNING; WorkItemStatus_RUNNING; WorkItemStatus_COMPLETED]);
    vm_compute; reflexivity.
Defined.
End WorkItems.

(** ** Approvals *)
Module Approvals.
Import ApprovalRequest.

Definition rank (s : ApprovalStatus) : nat :=
  match s with ApprovalStatus_PENDING => 1 | _ => 0 end%nat.

Lemma resolution_rank_step s t : allowed STATE_MACHINE s t → (rank t < rank s)%nat.
Proof.
  intros H. apply Nat.ltb_lt.
  apply (rows_ok_spec STATE_MACHINE (λ s t, (rank t <? rank s)%nat)); [vm_compute; reflexivity|done].
Qed.

Lemma resolved_terminal s : s ≠ ApprovalStatus_PENDING → s ∈ terminal_states STATE_MACHINE.
Proof.
  intros H. apply (terminal_spec STATE_MACHINE (λ s, negb (bool_decide (s = ApprovalStatus_PENDING))));
    [vm_compute; reflexivity|]. by rewrite bool_decide_eq_false_2.
Qed.

(** A resolved approval never changes again, whatever commands follow, and
    a fresh one is resolved at most once: its log holds at most one event, and
    that event leaves [pending]. *)
Theorem approval_resolved_once r s ts g :
  status (from_record r) = Ok s → lc_run (from_record r) ts = Ok g →
  (s ≠ ApprovalStatus_PENDING → g = from_record r)
  ∧ (length (_events g) ≤ 1)%nat
  ∧ ∀ e, e ∈ _events g → asc_from_status e = ApprovalStatus_PENDING.
Proof.
  intros Hs H. change (lc_status (from_record r) = Ok s) in Hs. split_and!.
  - intros Hne. eapply lc_terminal_run; [exact Hs | by apply resolved_terminal | exact H].
  - destruct (lc_run_chain (a := from_record r) (s := s) Hs eq_refl H) as (s' & _ & Hc).
    apply (chain_length approval_lifecycle rank resolution_rank_step) in Hc. cbn in Hc. rewrite length_fmap in Hc.
    destruct s; cbn in Hc; lia.
  - destruct (lc_run_chain (a := from_record r) (s := s) Hs eq_refl H) as (s' & _ & Hc).
    assert (Forall (λ p : ApprovalStatus * ApprovalStatus, p.1 = ApprovalStatus_PENDING) (lc_events g)) as Hall.
    { induction Hc as [|s0 log t u Hc IH Hal]; [constructor|]. apply Forall_app. split; [by apply IH|].
      constructor; [|done]. apply resolution_rank_step in Hal. cbn. destruct t; cbn in Hal; try lia. done. }
    rewrite Forall_forall in Hall. intros e He.
    apply (Hall (asc_from_status e, asc_to_status e)). cbn. apply list_elem_of_fmap. eauto.
Qed.

Definition sample_approval : ApprovalRequestRecord := {|
  approval_id := "appr_1"; approval_company_id := "cmp_1";
  approval_category := Member ApprovalCategory_TECHNICAL; approval_record_status := Some (Str "pending");
  approval_requested_by := "ops"; approval_source_agent_id := "agent_1";
  approval_proposed_action := "run"; approval_reason := "r"; approval_risk := "k";
  approval_rollback_note := "n"; approval_affected_resources := ["work:w1"];
  approval_artifact_links := []; approval_run_id := None; approval_work_item_id := None;
  approval_goal_id := None; approval_trace_id := None; approval_resolved_by := None;
  approval_resolved_at := None; approval_expires_at := None; approval_metadata := [];
  approval_created_at := of_utc 0; approval_updated_at := of_utc 0 |}.

Lemma approval_resolved_once_witness :
  ∃ g, lc_run (from_record sample_approval) [ApprovalStatus_APPROVED; ApprovalStatus_APPROVED] = Ok g
    ∧ (length (_events g) ≤ 1)%nat.
Proof.
  eexists. split; [vm_compute; reflexivity|].
  eapply (approval_resolved_once sample_approval ApprovalStatus_PENDING
            [ApprovalStatus_APPROVED; ApprovalStatus_APPROVED]); vm_compute; reflexivity.
Defined.
End Approvals.

(** ** Agent runs *)
Module AgentRuns.
Import AgentRun.

Definition rank (s : AgentRunStatus) : nat :=
  match s with AgentRunStatus_PENDING => 2 | AgentRunStatus_RUNNING => 1 | _ => 0 end%nat.

Lemma run_rank_step s t : allowed STATE_MACHINE s t → (rank t < rank s)%nat.
Proof.
  intros H. apply Nat.ltb_lt.
  apply (rows_ok_spec STATE_MACHINE (λ s t, (rank t <? rank s)%nat)); [vm_compute; reflexivity|done].
Qed.

(** An agent run makes at most two moves in its life, and once it is
    neither pending nor running every further command is refused with the
    transition error, a repeated completion included. *)
Theorem agent_run_closes r s ts g s' :
  status (from_record r) = Ok s → lc_run (from_record r) ts = Ok g → status g = Ok s' →
  (length (_events g) ≤ 2)%nat
  ∧ (s' ≠ AgentRunStatus_PENDING → s' ≠ AgentRunStatus_RUNNING →
     ∀ t, ∃ msg, transition_to g t = Raise (Exn "InvalidAgentRunTransitionError" msg)).
Proof.
  intros Hs H Hs'. change (lc_status (from_record r) = Ok s) in Hs. split.
  - destruct (lc_run_chain (a := from_record r) (s := s) Hs eq_refl H) as (s'' & _ & Hc).
    apply (chain_length agent_run_lifecycle rank run_rank_step) in Hc. cbn in Hc. rewrite length_fmap in Hc.
    destruct s; cbn in Hc; lia.
  - intros Hp Hr t. unfold transition_to. rewrite Hs'. cbn.
    rewrite (ensure_can_transition_total _ _ _ _ _ _ agent_run_machine_total).
    rewrite bool_decide_eq_false_2; [by eauto|].
    intros Hal%run_rank_step. destruct s'; cbn in Hal; try lia; done.
Qed.

Definition sample_run : AgentRunRecord := {|
  run_id := "run_1"; run_company_id := "cmp_1"; run_agent_id := "agent_1";
  run_record_status := Str "running"; run_trace_id := None; run_goal_id := None;
  run_work_item_id := None; run_trigger_event_id := None; run_input_event := None;
  run_output_events := []; run_started_at := of_utc 0; run_completed_at := None;
  run_error_category := None; run_error_message := None; run_last_successful_step := None;
  run_cost_usd := f_zero; run_input_tokens := 0; run_output_tokens := 0; run_metadata := [] |}.

Lemma agent_run_closes_witness :
  ∃ g, lc_run (from_record sample_run) [AgentRunStatus_SUCCEEDED] = Ok g
    ∧ ∃ msg, transition_to g AgentRunStatus_SUCCEEDED
             = Raise (Exn "InvalidAgentRunTransitionError" msg).
Proof.
  eexists. split; [vm_compute; reflexivity|].
  eapply (agent_run_closes sample_run AgentRunStatus_RUNNING [AgentRunStatus_SUCCEEDED] _ AgentRunStatus_SUCCEEDED);
    first [discriminate | vm_compute; reflexivity].
Defined.
End AgentRuns.

(** ** Rollouts *)
Module Rollouts.
Import EvolutionProposal.

Lemma into_active s : allowed ROLLOUT_STATE_MACHINE s EvolutionRolloutState_ACTIVE →
  s = EvolutionRolloutState_CANARY.
Proof.
  intros H. apply (rows_ok_spec ROLLOUT_STATE_MACHINE (λ s t,
    negb (bool_decide (t = EvolutionRolloutState_ACTIVE))
    || bool_decide (s = EvolutionRolloutState_CANARY))) in H; [|vm_compute; reflexivity].
  cbn in H. by destruct s.
Qed.

(** A change becomes active only out of a canary: the last event of every
    history that ends active is the move from canary, a state whose entry needs
    an approval. *)
Theorem rollout_active_through_canary r s ts g :
  rollout_state (from_record r) = Ok s → s ≠ EvolutionRolloutState_ACTIVE →
  lc_run (from_record r) ts = Ok g → rollout_state g = Ok EvolutionRolloutState_ACTIVE →
  (∃ log, lc_events g = log ++ [(EvolutionRolloutState_CANARY, EvolutionRolloutState_ACTIVE)])
  ∧ rollout_state_requires_approval (Some (Member EvolutionRolloutState_CANARY)) = Ok true
  ∧ rollout_state_requires_approval (Some (Member EvolutionRolloutState_ACTIVE)) = Ok true.
Proof.
  intros Hs Hne H Hact. change (lc_status (from_record r) = Ok s) in Hs. split; [|split; vm_compute; reflexivity].
  destruct (lc_run_chain (a := from_record r) (s := s) Hs eq_refl H) as (s' & Hs' & Hc).
  assert (s' = EvolutionRolloutState_ACTIVE) as -> by (cbn in Hs'; congruence).
  apply chain_last in Hc as [[_ ?]|(log & u & Hlog & Hal)]; [done|].
  apply into_active in Hal as ->. eauto.
Qed.

Definition sample_proposal : EvolutionProposalRecord := {|
  proposal_id := "prop_1"; proposal_company_id := "cmp_1"; proposal_tier := Member EvolutionTier_L2;
  proposal_scope := "s"; proposal_evidence := []; proposal_expected_benefit := "b";
  proposal_risk := "r"; proposal_approval_state := Some (Str "approved");
  proposal_record_rollout_state := Some (Str "proposed"); proposal_approval_id := None;
  proposal_metadata := []; proposal_created_at := of_utc 0; proposal_updated_at := of_utc 0 |}.

Lemma rollout_active_through_canary_witness :
  ∃ g, lc_run (from_record sample_proposal)
         [EvolutionRolloutState_CANARY; EvolutionRolloutState_ACTIVE] = Ok g
    ∧ ∃ log, lc_events g = log ++ [(EvolutionRolloutState_CANARY, EvolutionRolloutState_ACTIVE)].
Proof.
  eexists. split; [vm_compute; reflexivity|].
  eapply (rollout_active_through_canary sample_proposal EvolutionRolloutState_PROPOSED
            [EvolutionRolloutState_CANARY; EvolutionRolloutState_ACTIVE]);
    first [discriminate | vm_compute; reflexivity].
Defined.
End Rollouts.
