(* ===== verification/Store.v ===== *)
(** * The control-plane database session

    The tables the execution ledger reads and writes, the SQLAlchemy session
    around them, and the stores of [audit_event_store.py], [approval_store.py],
    [budget_store.py], [agent_run_store.py], [artifact_store.py] and
    [event_outbox_store.py] that the dispatch code calls.

    A table is the list of its rows.  A session works on [db]; [durable] is what
    the last commit left, and what a rollback returns to.  Primary keys, unique
    constraints and foreign keys raise [IntegrityError]; foreign keys only where
    the backend enforces them (PostgreSQL does, the SQLite of the unit tests
    does not).  Column widths and the other limits of the column types are not
    modelled. *)

From S2P Require Import Prelude PyNum PyTime PyValue Models Metadata AuditEvent Budget.
From S2P Require Import AgentRun DomainEvents.

(** What the code takes from its surroundings: hashing, identifiers, the clock,
    the sum the database computes over a float column, the operator of the
    request and the backend's treatment of foreign keys. *)
Class Env := {
  sha256_hex : string → string;
  ulid : nat → string;
  uuid4_hex : nat → string;
  clock : nat → instant;
  sql_sum : list float → float;
  operator_id : option string;
  enforce_foreign_keys : bool;
}.

(** ** Rows *)
Inductive LeaseState :=
  | LeaseState_RUNNING
  | LeaseState_RECOVERY_REQUIRED
  | LeaseState_SUCCEEDED
  | LeaseState_FAILED.
#[global] Instance LeaseState_eq_dec : EqDecision LeaseState.
Proof. solve_decision. Defined.
Definition LeaseState_value (x : LeaseState) : string :=
  match x with
  | LeaseState_RUNNING => "running"
  | LeaseState_RECOVERY_REQUIRED => "recovery_required"
  | LeaseState_SUCCEEDED => "succeeded"
  | LeaseState_FAILED => "failed"
  end.
#[global] Program Instance LeaseState_StrEnum : StrEnum LeaseState := {|
  enum_name := "ck_execution_state";
  members := [LeaseState_RUNNING; LeaseState_RECOVERY_REQUIRED; LeaseState_SUCCEEDED; LeaseState_FAILED];
  value := LeaseState_value;
|}.
Solve All Obligations with solve_str_enum.

Record ExecutionLease := {
  l_execution_id : string;
  l_company_id : string;
  l_resource_id : string;
  l_intent_hash : string;
  l_run_id : string;
  l_owner_id : string;
  l_state : LeaseState;
  l_control_action : string;
  l_expires_at : instant;
  l_created_at : instant;
}.

Inductive ReservationState := Reserved | Settled.
#[global] Instance ReservationState_eq_dec : EqDecision ReservationState.
Proof. solve_decision. Defined.

Record ExecutionReservation := {
  rv_execution_id : string;
  rv_budget_id : string;
  rv_amount_usd : decimal;
  rv_state : ReservationState;
  rv_created_at : instant;
}.

Record OutboxRow := {
  ob_event_id : string;
  ob_event_type : string;
  ob_source_agent : string;
  ob_payload : pydict;
  ob_trace_id : option string;
  ob_correlation_id : option string;
  ob_status : string;
  ob_attempts : Z;
  ob_last_error : option string;
  ob_created_at : datetime;
}.

(** The receipt of a purged audit row, kept for replay. *)
Record AuditRetentionTombstone := {
  ts_audit_event_id : string;
  ts_company_id : string;
  ts_idempotency_hash : option string;
  ts_receipt : AuditEventRecord;
  ts_purged_at : instant;
}.

(** The immutable review of an outcome. *)
Record OutcomeAcceptance := {
  oa_acceptance_id : string;
  oa_company_id : string;
  oa_work_item_id : string;
  oa_artifact_id : string;
  oa_run_id : string;
  oa_artifact_hash : string;
  oa_verdict : string;
  oa_actor_id : string;
  oa_reason : string;
  oa_created_at : instant;
}.

Record DB := {
  t_companies : list CompanyContextRecord;
  t_goals : list GoalRecord;
  t_roles : list AgentRoleRecord;
  t_runs : list AgentRunRecord;
  t_work_items : list WorkItemRecord;
  t_approvals : list ApprovalRequestRecord;
  t_policies : list BudgetPolicyRecord;
  t_usages : list BudgetUsageRecord;
  t_leases : list ExecutionLease;
  t_reservations : list ExecutionReservation;
  t_artifacts : list ArtifactRecord;
  t_audits : list AuditEventRecord;
  t_outbox : list OutboxRow;
  t_tombstones : list AuditRetentionTombstone;
  t_decisions : list DecisionRecord;
  t_proposals : list EvolutionProposalRecord;
  t_acceptances : list OutcomeAcceptance;
}.

Definition set_companies (x : list CompanyContextRecord) (d : DB) : DB :=
  Build_DB x (t_goals d) (t_roles d) (t_runs d) (t_work_items d) (t_approvals d) (t_policies d)
    (t_usages d) (t_leases d) (t_reservations d) (t_artifacts d) (t_audits d) (t_outbox d)
    (t_tombstones d) (t_decisions d) (t_proposals d) (t_acceptances d).
Definition set_goals (x : list GoalRecord) (d : DB) : DB :=
  Build_DB (t_companies d) x (t_roles d) (t_runs d) (t_work_items d) (t_approvals d) (t_policies d)
    (t_usages d) (t_leases d) (t_reservations d) (t_artifacts d) (t_audits d) (t_outbox d)
    (t_tombstones d) (t_decisions d) (t_proposals d) (t_acceptances d).
Definition set_runs (x : list AgentRunRecord) (d : DB) : DB :=
  Build_DB (t_companies d) (t_goals d) (t_roles d) x (t_work_items d) (t_approvals d) (t_policies d)
    (t_usages d) (t_leases d) (t_reservations d) (t_artifacts d) (t_audits d) (t_outbox d)
    (t_tombstones d) (t_decisions d) (t_proposals d) (t_acceptances d).
Definition set_work_items (x : list WorkItemRecord) (d : DB) : DB :=
  Build_DB (t_companies d) (t_goals d) (t_roles d) (t_runs d) x (t_approvals d) (t_policies d)
    (t_usages d) (t_leases d) (t_reservations d) (t_artifacts d) (t_audits d) (t_outbox d)
    (t_tombstones d) (t_decisions d) (t_proposals d) (t_acceptances d).
Definition set_approvals (x : list ApprovalRequestRecord) (d : DB) : DB :=
  Build_DB (t_companies d) (t_goals d) (t_roles d) (t_runs d) (t_work_items d) x (t_policies d)
    (t_usages d) (t_leases d) (t_reservations d) (t_artifacts d) (t_audits d) (t_outbox d)
    (t_tombstones d) (t_decisions d) (t_proposals d) (t_acceptances d).
Definition set_policies (x : list BudgetPolicyRecord) (d : DB) : DB :=
  Build_DB (t_companies d) (t_goals d) (t_roles d) (t_runs d) (t_work_items d) (t_approvals d) x
    (t_usages d) (t_leases d) (t_reservations d) (t_artifacts d) (t_audits d) (t_outbox d)
    (t_tombstones d) (t_decisions d) (t_proposals d) (t_acceptances d).
Definition set_usages (x : list BudgetUsageRecord) (d : DB) : DB :=
  Build_DB (t_companies d) (t_goals d) (t_roles d) (t_runs d) (t_work_items d) (t_approvals d) (t_policies d)
    x (t_leases d) (t_reservations d) (t_artifacts d) (t_audits d) (t_outbox d)
    (t_tombstones d) (t_decisions d) (t_proposals d) (t_acceptances d).
Definition set_leases (x : list ExecutionLease) (d : DB) : DB :=
  Build_DB (t_companies d) (t_goals d) (t_roles d) (t_runs d) (t_work_items d) (t_approvals d) (t_policies d)
    (t_usages d) x (t_reservations d) (t_artifacts d) (t_audits d) (t_outbox d)
    (t_tombstones d) (t_decisions d) (t_proposals d) (t_acceptances d).
Definition set_reservations (x : list ExecutionReservation) (d : DB) : DB :=
  Build_DB (t_companies d) (t_goals d) (t_roles d) (t_runs d) (t_work_items d) (t_approvals d) (t_policies d)
    (t_usages d) (t_leases d) x (t_artifacts d) (t_audits d) (t_outbox d)
    (t_tombstones d) (t_decisions d) (t_proposals d) (t_acceptances d).
Definition set_artifacts (x : list ArtifactRecord) (d : DB) : DB :=
  Build_DB (t_companies d) (t_goals d) (t_roles d) (t_runs d) (t_work_items d) (t_approvals d) (t_policies d)
    (t_usages d) (t_leases d) (t_reservations d) x (t_audits d) (t_outbox d)
    (t_tombstones d) (t_decisions d) (t_proposals d) (t_acceptances d).
Definition set_audits (x : list AuditEventRecord) (d : DB) : DB :=
  Build_DB (t_companies d) (t_goals d) (t_roles d) (t_runs d) (t_work_items d) (t_approvals d) (t_policies d)
    (t_usages d) (t_leases d) (t_reservations d) (t_artifacts d) x (t_outbox d)
    (t_tombstones d) (t_decisions d) (t_proposals d) (t_acceptances d).
Definition set_outbox (x : list OutboxRow) (d : DB) : DB :=
  Build_DB (t_companies d) (t_goals d) (t_roles d) (t_runs d) (t_work_items d) (t_approvals d) (t_policies d)
    (t_usages d) (t_leases d) (t_reservations d) (t_artifacts d) (t_audits d) x
    (t_tombstones d) (t_decisions d) (t_proposals d) (t_acceptances d).
Definition set_tombstones (x : list AuditRetentionTombstone) (d : DB) : DB :=
  Build_DB (t_companies d) (t_goals d) (t_roles d) (t_runs d) (t_work_items d) (t_approvals d) (t_policies d)
    (t_usages d) (t_leases d) (t_reservations d) (t_artifacts d) (t_audits d) (t_outbox d)
    x (t_decisions d) (t_proposals d) (t_acceptances d).
Definition set_decisions (x : list DecisionRecord) (d : DB) : DB :=
  Build_DB (t_companies d) (t_goals d) (t_roles d) (t_runs d) (t_work_items d) (t_approvals d) (t_policies d)
    (t_usages d) (t_leases d) (t_reservations d) (t_artifacts d) (t_audits d) (t_outbox d)
    (t_tombstones d) x (t_proposals d) (t_acceptances d).
Definition set_proposals (x : list EvolutionProposalRecord) (d : DB) : DB :=
  Build_DB (t_companies d) (t_goals d) (t_roles d) (t_runs d) (t_work_items d) (t_approvals d) (t_policies d)
    (t_usages d) (t_leases d) (t_reservations d) (t_artifacts d) (t_audits d) (t_outbox d)
    (t_tombstones d) (t_decisions d) x (t_acceptances d).
Definition set_acceptances (x : list OutcomeAcceptance) (d : DB) : DB :=
  Build_DB (t_companies d) (t_goals d) (t_roles d) (t_runs d) (t_work_items d) (t_approvals d) (t_policies d)
    (t_usages d) (t_leases d) (t_reservations d) (t_artifacts d) (t_audits d) (t_outbox d)
    (t_tombstones d) (t_decisions d) (t_proposals d) x.

Record Session := { db : DB; durable : DB; ticks : nat; ids : nat }.

Definition with_db (s : Session) (d : DB) : Session :=
  {| db := d; durable := durable s; ticks := ticks s; ids := ids s |}.

Definition update_db (f : DB → DB) : M Session unit := modifyM (λ s, with_db s (f (db s))).
Definition query {A} (f : DB → A) : M Session A := getsM (λ s, f (db s)).

(** [session.commit()] and [session.rollback()] *)
Definition checkpoint : M Session unit :=
  modifyM (λ s, {| db := db s; durable := db s; ticks := ticks s; ids := ids s |}).
Definition rollback (s : Session) : Session := with_db s (durable s).

Definition integrity_error (msg : string) : exn := Exn "IntegrityError" msg.
Definition validation_error (msg : string) : exn := Exn "ValidationError" msg.

(** ** Values on their way to a row *)

(** [to_db_value] *)
Fixpoint to_db_value (v : pyval) : pyval :=
  match v with
  | PEnum s => PStr s
  | PList l => PList (map to_db_value l)
  | PDict d => PDict (map (λ kv, (kv.1, to_db_value kv.2)) d)
  | _ => v
  end.
Definition to_db_dict (d : pydict) : pydict := map (λ kv, (kv.1, to_db_value kv.2)) d.
Definition to_db_enum {E} `{!StrEnum E} (v : enum_or_str E) : enum_or_str E := Str (str_of v).

(** The models strip the strings they are given, the keys of their dictionaries
    included ([ConfigDict(str_strip_whitespace=True)]). *)
Definition strip_keys (d : pydict) : pydict := dict_of_items (map (λ kv, (strip kv.1, kv.2)) d).

Definition validate_audit (r : AuditEventRecord) : AuditEventRecord := {|
  ae_audit_event_id := strip (ae_audit_event_id r); ae_company_id := strip (ae_company_id r);
  ae_action := strip (ae_action r); ae_target_type := strip (ae_target_type r);
  ae_target_id := strip (ae_target_id r); ae_actor_type := strip (ae_actor_type r);
  ae_actor_id := strip (ae_actor_id r); ae_trace_id := strip <$> ae_trace_id r;
  ae_run_id := strip <$> ae_run_id r; ae_work_item_id := strip <$> ae_work_item_id r;
  ae_idempotency_key := strip <$> ae_idempotency_key r; ae_detail := strip_keys (ae_detail r);
  ae_created_at := ae_created_at r |}.

Definition validate_approval (r : ApprovalRequestRecord) : result ApprovalRequestRecord :=
  let r' := {|
    approval_id := strip (approval_id r); approval_company_id := strip (approval_company_id r);
    approval_category := approval_category r; approval_record_status := approval_record_status r;
    approval_requested_by := strip (approval_requested_by r);
    approval_source_agent_id := strip (approval_source_agent_id r);
    approval_proposed_action := strip (approval_proposed_action r);
    approval_reason := strip (approval_reason r); approval_risk := strip (approval_risk r);
    approval_rollback_note := strip (approval_rollback_note r);
    approval_affected_resources := strip <$> approval_affected_resources r;
    approval_artifact_links := strip <$> approval_artifact_links r;
    approval_run_id := strip <$> approval_run_id r;
    approval_work_item_id := strip <$> approval_work_item_id r;
    approval_goal_id := strip <$> approval_goal_id r;
    approval_trace_id := strip <$> approval_trace_id r;
    approval_resolved_by := strip <$> approval_resolved_by r;
    approval_resolved_at := approval_resolved_at r; approval_expires_at := approval_expires_at r;
    approval_metadata := strip_keys (approval_metadata r);
    approval_created_at := approval_created_at r; approval_updated_at := approval_updated_at r |} in
  if valid_approval_request r' then Ok r' else Raise (validation_error "ApprovalRequest").

Definition validate_run (r : AgentRunRecord) : AgentRunRecord := {|
  run_id := strip (run_id r); run_company_id := strip (run_company_id r);
  run_agent_id := strip (run_agent_id r); run_record_status := run_record_status r;
  run_trace_id := strip <$> run_trace_id r; run_goal_id := strip <$> run_goal_id r;
  run_work_item_id := strip <$> run_work_item_id r;
  run_trigger_event_id := strip <$> run_trigger_event_id r;
  run_input_event := strip_keys <$> run_input_event r;
  run_output_events := strip_keys <$> run_output_events r; run_started_at := run_started_at r;
  run_completed_at := run_completed_at r; run_error_category := strip <$> run_error_category r;
  run_error_message := strip <$> run_error_message r;
  run_last_successful_step := strip <$> run_last_successful_step r;
  run_cost_usd := run_cost_usd r; run_input_tokens := run_input_tokens r;
  run_output_tokens := run_output_tokens r; run_metadata := strip_keys (run_metadata r) |}.

Definition validate_usage (r : BudgetUsageRecord) : result BudgetUsageRecord :=
  let r' := {|
    bu_usage_id := strip (bu_usage_id r); bu_company_id := strip (bu_company_id r);
    bu_budget_id := strip (bu_budget_id r); bu_cost_usd := bu_cost_usd r;
    bu_model := strip <$> bu_model r; bu_input_tokens := bu_input_tokens r;
    bu_output_tokens := bu_output_tokens r; bu_run_id := strip <$> bu_run_id r;
    bu_trace_id := strip <$> bu_trace_id r; bu_metadata := strip_keys <$> bu_metadata r;
    bu_created_at := bu_created_at r |} in
  if valid_budget_usage r' then Ok r' else Raise (validation_error "BudgetUsage").

Definition validate_artifact (r : ArtifactRecord) : ArtifactRecord := {|
  artifact_id := strip (artifact_id r); artifact_company_id := strip (artifact_company_id r);
  artifact_type := artifact_type r; artifact_title := strip (artifact_title r);
  artifact_uri := strip (artifact_uri r);
  artifact_content_hash := strip <$> artifact_content_hash r;
  artifact_run_id := strip <$> artifact_run_id r;
  artifact_work_item_id := strip <$> artifact_work_item_id r;
  artifact_goal_id := strip <$> artifact_goal_id r;
  artifact_created_by_agent_id := strip <$> artifact_created_by_agent_id r;
  artifact_metadata := strip_keys (artifact_metadata r);
  artifact_created_at := artifact_created_at r |}.

(** ** The event schema ([shared/schemas/event.py]) *)
Definition event_name_head (c : ascii) : bool :=
  ((97 <=? code c) && (code c <=? 122) || (48 <=? code c) && (code c <=? 57))%N.
Definition event_name_char (c : ascii) : bool :=
  event_name_head c || (code c =? 95)%N || (code c =? 45)%N.

(** Two or more segments separated by dots, each a lower-case letter or a digit
    followed by those, underscores and hyphens: [start] at the head of a segment,
    [dots] separators seen so far. *)
Fixpoint event_type_go (start : bool) (dots : nat) (s : string) : bool :=
  match s with
  | EmptyString => negb start && (0 <? dots)%nat
  | String c s' =>
      if start then event_name_head c && event_type_go false dots s'
      else if (code c =? 46)%N then event_type_go true (S dots) s'
      else event_name_char c && event_type_go false dots s'
  end.
Definition event_type_ok (s : string) : bool := event_type_go true 0 s.

(** [_freeze_json_value] accepts finite JSON only. *)
Fixpoint event_json_ok (v : pyval) : bool :=
  match v with
  | PNone | PBool _ | PInt _ | PStr _ | PEnum _ => true
  | PFloat f => f_isfinite f
  | PList l | PTuple l => forallb event_json_ok l
  | PDict d => forallb (λ kv, event_json_ok kv.2) d
  | _ => false
  end.

Definition audit_event_carries_domain_event (ev : AuditEventRecord) : bool :=
  py_bool (dget (ae_detail ev) "domain_event").

Section stores.
Context `{!Env}.

(** ** Clock, identifiers, references *)
Definition now_utc : M Session instant := λ s,
  (Ok (clock (ticks s)),
   {| db := db s; durable := durable s; ticks := S (ticks s); ids := ids s |}).

Definition fresh {A} (f : nat → A) : M Session A := λ s,
  (Ok (f (ids s)),
   {| db := db s; durable := durable s; ticks := ticks s; ids := S (ids s) |}).

Definition generate_id (prefix : string) : M Session string :=
  fresh (λ n, prefix +:+ "_" +:+ ulid n).
Definition uuid4 : M Session string := fresh uuid4_hex.

Definition fk_ok (keys : list string) (o : option string) : bool :=
  negb enforce_foreign_keys || match o with None => true | Some k => bool_decide (k ∈ keys) end.
Definition company_fk (d : DB) (c : string) : bool :=
  fk_ok (cc_company_id <$> t_companies d) (Some c).
Definition run_fk (d : DB) (o : option string) : bool := fk_ok (run_id <$> t_runs d) o.
Definition work_fk (d : DB) (o : option string) : bool := fk_ok (wi_work_item_id <$> t_work_items d) o.
Definition goal_fk (d : DB) (o : option string) : bool := fk_ok (goal_id <$> t_goals d) o.

(** ** Outbox *)
Definition outbox_event_from_audit_event (event_id : string) (ev : AuditEventRecord)
    : result OutboxRow :=
  detail ← clean_audit_detail (Some (ae_detail ev));
  let payload :=
    [("audit_event_id", PStr (ae_audit_event_id ev)); ("company_id", PStr (ae_company_id ev));
     ("target_type", PStr (ae_target_type ev)); ("target_id", PStr (ae_target_id ev));
     ("actor_type", PStr (ae_actor_type ev)); ("actor_id", PStr (ae_actor_id ev));
     ("domain_event", default (PStr (ae_action ev)) (dict_get detail "domain_event"));
     ("detail", PDict detail)]
    ++ (if truthy (ae_run_id ev) then [("run_id", p_opt (ae_run_id ev))] else [])
    ++ (if truthy (ae_work_item_id ev) then [("work_item_id", p_opt (ae_work_item_id ev))] else []) in
  _ ← raise_if (negb (event_type_ok (ae_action ev)) || negb (event_json_ok (PDict payload)))
        (validation_error "Event");
  Ok {| ob_event_id := event_id; ob_event_type := ae_action ev;
        ob_source_agent := "control-plane"; ob_payload := payload;
        ob_trace_id := ae_trace_id ev; ob_correlation_id := Some (ae_audit_event_id ev);
        ob_status := "pending"; ob_attempts := 0; ob_last_error := None;
        ob_created_at := ae_created_at ev |}.

Definition outbox_add (row : OutboxRow) : M Session unit :=
  d ← query id;
  _ ← raise_ifM (bool_decide (ob_event_id row ∈ ob_event_id <$> t_outbox d))
        (integrity_error "control_plane_event_outbox");
  update_db (λ d, set_outbox (t_outbox d ++ [row]) d).

Definition mark_published (event_id : string) : M Session unit :=
  update_db (λ d, set_outbox (update_row ob_event_id event_id (λ r,
    {| ob_event_id := ob_event_id r; ob_event_type := ob_event_type r;
       ob_source_agent := ob_source_agent r; ob_payload := ob_payload r;
       ob_trace_id := ob_trace_id r; ob_correlation_id := ob_correlation_id r;
       ob_status := "published"; ob_attempts := ob_attempts r + 1; ob_last_error := None;
       ob_created_at := ob_created_at r |}) (t_outbox d)) d).

(** ** Audit events *)
Definition with_actor (r : AuditEventRecord) (actor_id : string) : AuditEventRecord := {|
  ae_audit_event_id := ae_audit_event_id r; ae_company_id := ae_company_id r;
  ae_action := ae_action r; ae_target_type := ae_target_type r; ae_target_id := ae_target_id r;
  ae_actor_type := ae_actor_type r; ae_actor_id := actor_id; ae_trace_id := ae_trace_id r;
  ae_run_id := ae_run_id r; ae_work_item_id := ae_work_item_id r;
  ae_idempotency_key := ae_idempotency_key r; ae_detail := ae_detail r;
  ae_created_at := ae_created_at r |}.

(** The acting operator of the request replaces the claimed actor. *)
Definition with_principal (r : AuditEventRecord) : AuditEventRecord :=
  match operator_id with
  | Some actor => if decide (ae_actor_type r ∈ ["user"; "operator"]) then with_actor r actor else r
  | None => r
  end.

Definition idempotency_digest (company_id key : string) : string :=
  sha256_hex ("[" +:+ json_str company_id +:+ "," +:+ json_str key +:+ "]").

Definition with_key (r : AuditEventRecord) (key : string) : AuditEventRecord := {|
  ae_audit_event_id := ae_audit_event_id r; ae_company_id := ae_company_id r;
  ae_action := ae_action r; ae_target_type := ae_target_type r; ae_target_id := ae_target_id r;
  ae_actor_type := ae_actor_type r; ae_actor_id := ae_actor_id r; ae_trace_id := ae_trace_id r;
  ae_run_id := ae_run_id r; ae_work_item_id := ae_work_item_id r;
  ae_idempotency_key := Some key; ae_detail := ae_detail r; ae_created_at := ae_created_at r |}.

Definition _get_retained_audit (d : DB) (company_id key : string) : option AuditEventRecord :=
  (λ t, with_key (ts_receipt t) key) <$>
    head (filter (λ t, ts_company_id t = company_id
                       ∧ ts_idempotency_hash t = Some (idempotency_digest company_id key))
            (t_tombstones d)).

Definition _get_audit_by_idempotency (d : DB) (company_id key : string) : option AuditEventRecord :=
  head (filter (λ r, ae_company_id r = company_id ∧ ae_idempotency_key r = Some key) (t_audits d)).

(** The row an idempotent append finds. *)
Definition replayed_audit (d : DB) (ev : AuditEventRecord) : option AuditEventRecord :=
  match ae_idempotency_key ev with
  | Some key =>
      if str_empty key then None
      else match _get_retained_audit d (ae_company_id ev) key with
           | Some compact => Some compact
           | None => _get_audit_by_idempotency d (ae_company_id ev) key
           end
  | None => None
  end.

Definition insert_audit (row : AuditEventRecord) : M Session unit :=
  d ← query id;
  _ ← raise_ifM (bool_decide (ae_audit_event_id row ∈ ae_audit_event_id <$> t_audits d)
                 || negb (company_fk d (ae_company_id row)) || negb (run_fk d (ae_run_id row))
                 || negb (work_fk d (ae_work_item_id row)))
        (integrity_error "control_plane_audit_events");
  update_db (λ d, set_audits (t_audits d ++ [row]) d).

Definition append_audit_event (event : AuditEventRecord) : M Session AuditEventRecord :=
  aggregate ← liftM (AuditEvent.for_append (with_principal event));
  let event := AuditEvent.record aggregate in
  d ← query id;
  match replayed_audit d event with
  | Some r => mret r
  | None =>
      _ ← insert_audit event;
      _ ← whenM (audit_event_carries_domain_event event)
            (event_id ← generate_id "evt";
             row ← liftM (outbox_event_from_audit_event event_id event);
             outbox_add row);
      mret event
  end.

(** A new [AuditEvent] model, with its generated identifier and time. *)
Definition new_audit (company_id action target_type target_id actor_type actor_id : string)
    (trace_id run_id work_item_id : option string) (detail : pydict) : M Session AuditEventRecord :=
  audit_event_id ← generate_id "aud";
  now ← now_utc;
  mret (validate_audit {|
    ae_audit_event_id := audit_event_id; ae_company_id := company_id; ae_action := action;
    ae_target_type := target_type; ae_target_id := target_id; ae_actor_type := actor_type;
    ae_actor_id := actor_id; ae_trace_id := trace_id; ae_run_id := run_id;
    ae_work_item_id := work_item_id; ae_idempotency_key := None; ae_detail := detail;
    ae_created_at := of_utc now |}).

Definition append_control_plane_domain_event_audits (events : list domain_event)
    (ctx : DomainEventAuditContext) : M Session unit :=
  forM events (λ ev,
    audit_event_id ← generate_id "aud";
    now ← now_utc;
    row ← liftM (audit_event_from_domain_event audit_event_id (of_utc now) ev ctx);
    _ ← append_audit_event (validate_audit row);
    mret ()).

(** ** Approvals *)
Definition approval_values (r : ApprovalRequestRecord) : ApprovalRequestRecord := {|
  approval_id := approval_id r; approval_company_id := approval_company_id r;
  approval_category := to_db_enum (approval_category r);
  approval_record_status := to_db_enum <$> approval_record_status r;
  approval_requested_by := approval_requested_by r;
  approval_source_agent_id := approval_source_agent_id r;
  approval_proposed_action := approval_proposed_action r; approval_reason := approval_reason r;
  approval_risk := approval_risk r; approval_rollback_note := approval_rollback_note r;
  approval_affected_resources := approval_affected_resources r;
  approval_artifact_links := approval_artifact_links r; approval_run_id := approval_run_id r;
  approval_work_item_id := approval_work_item_id r; approval_goal_id := approval_goal_id r;
  approval_trace_id := approval_trace_id r; approval_resolved_by := approval_resolved_by r;
  approval_resolved_at := approval_resolved_at r; approval_expires_at := approval_expires_at r;
  approval_metadata := to_db_dict (approval_metadata r);
  approval_created_at := approval_created_at r; approval_updated_at := approval_updated_at r |}.

Definition approval_fks (d : DB) (r : ApprovalRequestRecord) : bool :=
  company_fk d (approval_company_id r) && run_fk d (approval_run_id r)
  && work_fk d (approval_work_item_id r) && goal_fk d (approval_goal_id r).

Definition request_approval (approval : ApprovalRequestRecord) : M Session ApprovalRequestRecord :=
  let row := approval_values approval in
  d ← query id;
  _ ← raise_ifM (bool_decide (approval_id row ∈ approval_id <$> t_approvals d)
                 || negb (approval_fks d row))
        (integrity_error "control_plane_approval_requests");
  _ ← update_db (λ d, set_approvals (t_approvals d ++ [row]) d);
  mret row.

Definition get_approval (id_ : string) (d : DB) : option ApprovalRequestRecord :=
  get_row approval_id id_ (t_approvals d).

(** The columns [resolve_approval] assigns. *)
Definition resolve_row (status resolved_by : string) (now : instant) (r : ApprovalRequestRecord)
    : ApprovalRequestRecord := {|
  approval_id := approval_id r; approval_company_id := approval_company_id r;
  approval_category := approval_category r; approval_record_status := Some (Str status);
  approval_requested_by := approval_requested_by r;
  approval_source_agent_id := approval_source_agent_id r;
  approval_proposed_action := approval_proposed_action r; approval_reason := approval_reason r;
  approval_risk := approval_risk r; approval_rollback_note := approval_rollback_note r;
  approval_affected_resources := approval_affected_resources r;
  approval_artifact_links := approval_artifact_links r; approval_run_id := approval_run_id r;
  approval_work_item_id := approval_work_item_id r; approval_goal_id := approval_goal_id r;
  approval_trace_id := approval_trace_id r; approval_resolved_by := Some resolved_by;
  approval_resolved_at := Some (of_utc now); approval_expires_at := approval_expires_at r;
  approval_metadata := approval_metadata r; approval_created_at := approval_created_at r;
  approval_updated_at := of_utc now |}.

Definition resolve_approval (id_ : string) (status : enum_or_str ApprovalStatus)
    (resolved_by : string) : M Session (option ApprovalRequestRecord) :=
  o ← query (get_approval id_);
  match o with
  | None => mret None
  | Some row =>
      if decide (str_of <$> approval_record_status row ≠ Some "pending")
      then raiseM (Exn "InvalidApprovalTransitionError" "approval_already_resolved")
      else
        now ← now_utc;
        _ ← update_db (λ d, set_approvals
              (update_row approval_id id_ (resolve_row (str_of status) resolved_by now)
                 (t_approvals d)) d);
        mret (Some (resolve_row (str_of status) resolved_by now row))
  end.

(** ** Budget usage *)
Definition usage_values (r : BudgetUsageRecord) : BudgetUsageRecord := {|
  bu_usage_id := bu_usage_id r; bu_company_id := bu_company_id r; bu_budget_id := bu_budget_id r;
  bu_cost_usd := bu_cost_usd r; bu_model := bu_model r; bu_input_tokens := bu_input_tokens r;
  bu_output_tokens := bu_output_tokens r; bu_run_id := bu_run_id r; bu_trace_id := bu_trace_id r;
  bu_metadata := to_db_dict <$> bu_metadata r; bu_created_at := bu_created_at r |}.

Definition record_budget_usage (usage : BudgetUsageRecord) : M Session BudgetUsageRecord :=
  aggregate ← liftM (usage_for_recording usage);
  let row := usage_values (usage_record aggregate) in
  d ← query id;
  _ ← raise_ifM (bool_decide (bu_usage_id row ∈ bu_usage_id <$> t_usages d)
                 || negb (company_fk d (bu_company_id row))
                 || negb (fk_ok (bp_budget_id <$> t_policies d) (Some (bu_budget_id row)))
                 || negb (run_fk d (bu_run_id row)))
        (integrity_error "control_plane_budget_usage");
  _ ← update_db (λ d, set_usages (t_usages d ++ [row]) d);
  mret row.

(** ** Agent runs *)
Definition run_values (r : AgentRunRecord) : AgentRunRecord := {|
  run_id := run_id r; run_company_id := run_company_id r; run_agent_id := run_agent_id r;
  run_record_status := to_db_enum (run_record_status r); run_trace_id := run_trace_id r;
  run_goal_id := run_goal_id r; run_work_item_id := run_work_item_id r;
  run_trigger_event_id := run_trigger_event_id r;
  run_input_event := to_db_dict <$> run_input_event r;
  run_output_events := to_db_dict <$> run_output_events r; run_started_at := run_started_at r;
  run_completed_at := run_completed_at r; run_error_category := run_error_category r;
  run_error_message := run_error_message r;
  run_last_successful_step := run_last_successful_step r; run_cost_usd := run_cost_usd r;
  run_input_tokens := run_input_tokens r; run_output_tokens := run_output_tokens r;
  run_metadata := to_db_dict (run_metadata r) |}.

Definition create_agent_run (run : AgentRunRecord) : M Session AgentRunRecord :=
  let row := run_values run in
  d ← query id;
  _ ← raise_ifM (bool_decide (run_id row ∈ run_id <$> t_runs d)
                 || negb (company_fk d (run_company_id row)) || negb (goal_fk d (run_goal_id row))
                 || negb (work_fk d (run_work_item_id row)))
        (integrity_error "control_plane_agent_runs");
  _ ← update_db (λ d, set_runs (t_runs d ++ [row]) d);
  mret row.

Definition get_agent_run (id_ : string) (d : DB) : option AgentRunRecord :=
  get_row run_id id_ (t_runs d).

(** The columns [update_agent_run_status] assigns: a [None] leaves a column. *)
Definition run_status_row (status : string) (error_category error_message last_step : option string)
    (output_events : option (list pydict)) (completed : option datetime) (r : AgentRunRecord)
    : AgentRunRecord := {|
  run_id := run_id r; run_company_id := run_company_id r; run_agent_id := run_agent_id r;
  run_record_status := Str status; run_trace_id := run_trace_id r; run_goal_id := run_goal_id r;
  run_work_item_id := run_work_item_id r; run_trigger_event_id := run_trigger_event_id r;
  run_input_event := run_input_event r;
  run_output_events := default (run_output_events r) output_events;
  run_started_at := run_started_at r;
  run_completed_at := match completed with Some t => Some t | None => run_completed_at r end;
  run_error_category := match error_category with Some x => Some x | None => run_error_category r end;
  run_error_message := match error_message with Some x => Some x | None => run_error_message r end;
  run_last_successful_step := match last_step with Some x => Some x | None => run_last_successful_step r end;
  run_cost_usd := run_cost_usd r; run_input_tokens := run_input_tokens r;
  run_output_tokens := run_output_tokens r; run_metadata := run_metadata r |}.

Definition update_agent_run_status (id_ : string) (status : AgentRunStatus)
    (error_category error_message last_step : option string)
    (output_events : option (list pydict)) : M Session (option AgentRunRecord) :=
  o ← query (get_agent_run id_);
  match o with
  | None => mret None
  | Some row =>
      completed ← (if decide (status ∈ AgentRun.TERMINAL_STATUSES)
                   then now ← now_utc; mret (Some (of_utc now)) else mret None);
      let f := run_status_row (value status) error_category error_message last_step
                 output_events completed in
      _ ← update_db (λ d, set_runs (update_row run_id id_ f (t_runs d)) d);
      mret (Some (f row))
  end.

(** ** Artifacts *)
Definition artifact_values (r : ArtifactRecord) : ArtifactRecord := {|
  artifact_id := artifact_id r; artifact_company_id := artifact_company_id r;
  artifact_type := to_db_enum (artifact_type r); artifact_title := artifact_title r;
  artifact_uri := artifact_uri r; artifact_content_hash := artifact_content_hash r;
  artifact_run_id := artifact_run_id r; artifact_work_item_id := artifact_work_item_id r;
  artifact_goal_id := artifact_goal_id r;
  artifact_created_by_agent_id := artifact_created_by_agent_id r;
  artifact_metadata := to_db_dict (artifact_metadata r);
  artifact_created_at := artifact_created_at r |}.

Definition create_artifact (artifact : ArtifactRecord) : M Session ArtifactRecord :=
  let row := artifact_values artifact in
  d ← query id;
  _ ← raise_ifM (bool_decide (artifact_id row ∈ artifact_id <$> t_artifacts d)
                 || negb (company_fk d (artifact_company_id row))
                 || negb (run_fk d (artifact_run_id row))
                 || negb (work_fk d (artifact_work_item_id row))
                 || negb (goal_fk d (artifact_goal_id row)))
        (integrity_error "control_plane_artifacts");
  _ ← update_db (λ d, set_artifacts (t_artifacts d ++ [row]) d);
  mret row.

(** ** Listings: newest first, at most [limit] *)
Definition newest {R} (created : R → datetime) (limit : nat) (rows : list R) : list R :=
  take limit (py_sorted (λ a b, as_utc (created b) <=? as_utc (created a)) rows).

(** The list queries with the filters their callers here use, the company and
    the run; an empty run is the filter left out. *)
Definition list_approvals (company run : string) (limit : nat) (d : DB) : list ApprovalRequestRecord :=
  newest approval_created_at limit
    (filter (λ r, approval_company_id r = company ∧ (run = "" ∨ approval_run_id r = Some run))
       (t_approvals d)).
Definition list_budget_usage (company run : string) (limit : nat) (d : DB) : list BudgetUsageRecord :=
  newest bu_created_at limit
    (filter (λ r, bu_company_id r = company ∧ (run = "" ∨ bu_run_id r = Some run)) (t_usages d)).
Definition list_audit_events (company run : string) (limit : nat) (d : DB) : list AuditEventRecord :=
  newest ae_created_at limit
    (filter (λ r, ae_company_id r = company ∧ (run = "" ∨ ae_run_id r = Some run)) (t_audits d)).
End stores.
