(* ===== verification/Frames.v ===== *)
(** * What the stores leave alone

    [framed π m]: on both branches [m] leaves the part [π] of the tables as it
    was and commits nothing.  The lemmas here let a proof about the ledger step
    over every audit, approval, run and artifact write. *)

From S2P Require Import Prelude PyNum PyTime PyValue Models Store.

Definition framed {X A} (π : DB → X) (m : M Session A) : Prop :=
  ∀ s r s', m s = (r, s') → π (db s') = π (db s) ∧ durable s' = durable s.

Section framed.
Context {X : Type} (π : DB → X).

Lemma framed_ret {A} (a : A) : framed π (mret a).
Proof. by intros s r s' [= <- <-]. Qed.
Lemma framed_raise {A} e : framed π (raiseM (A := A) e).
Proof. by intros s r s' [= <- <-]. Qed.
Lemma framed_lift {A} (m : result A) : framed π (liftM m).
Proof. by intros s r s' [= <- <-]. Qed.
Lemma framed_query {A} (f : DB → A) : framed π (query f).
Proof. by intros s r s' [= <- <-]. Qed.
Lemma framed_raise_if b e : framed π (raise_ifM b e).
Proof. destruct b; [apply framed_raise | apply framed_ret]. Qed.
Lemma framed_update f : (∀ d, π (f d) = π d) → framed π (update_db f).
Proof. intros Hf s r s' [= <- <-]. cbn. by rewrite Hf. Qed.
Lemma framed_bind {A B} (m : M Session A) (k : A → M Session B) :
  framed π m → (∀ a, framed π (k a)) → framed π (m ≫= k).
Proof.
  intros Hm Hk s r s' H.
  apply M_bind_inv in H as [(a & s1 & H1 & H2)|(e & H1 & ->)]; [|by eapply Hm].
  apply Hm in H1 as [? ?]. apply Hk in H2 as [? ?]. split; congruence.
Qed.
Lemma framed_when b m : framed π m → framed π (whenM b m).
Proof. destruct b; [done | intros _; apply framed_ret]. Qed.
Lemma framed_for {A} (l : list A) f : (∀ x, framed π (f x)) → framed π (forM l f).
Proof.
  intros Hf. induction l as [|x l IH]; cbn; [apply framed_ret|].
  apply framed_bind; auto.
Qed.
Lemma framed_now `{!Env} : framed π now_utc.
Proof. by intros s r s' [= <- <-]. Qed.
Lemma framed_fresh {A} (f : nat → A) : framed π (fresh f).
Proof. by intros s r s' [= <- <-]. Qed.
End framed.

#[export] Hint Resolve framed_ret framed_raise framed_lift framed_query framed_raise_if
  framed_when framed_now framed_fresh : cell.
#[export] Hint Extern 1 (framed _ (generate_id _)) => apply framed_fresh : cell.
#[export] Hint Extern 1 (framed _ uuid4) => apply framed_fresh : cell.

(** Walks a computation; the written tables are compared by computation. *)
Ltac frame :=
  repeat first
    [ progress intros
    | solve [eauto with cell]
    | apply framed_update; intros; reflexivity
    | apply framed_bind
    | apply framed_when
    | apply framed_for
    | match goal with |- framed _ (match ?x with _ => _ end) => destruct x end ].

(** A frame of more tables is a frame of fewer. *)
Lemma framed_fewer {X Y A} (π : DB → X) (g : X → Y) (ρ : DB → Y) (m : M Session A) :
  (∀ d, ρ d = g (π d)) → framed π m → framed ρ m.
Proof. intros Hg Hm s r s' H. apply Hm in H as [H1 H2]. by rewrite !Hg, H1. Qed.

(** ** The parts of the database *)

(** The dispatch ledger: leases, reservations, charges and the policies charged. *)
Definition ledger (d : DB) :=
  (t_leases d, t_reservations d, t_usages d, t_policies d).

(** Everything an audit append leaves alone. *)
Definition business (d : DB) :=
  (ledger d, t_companies d, t_goals d, t_roles d, t_runs d, t_work_items d, t_approvals d,
   t_artifacts d, (t_tombstones d, t_decisions d, t_proposals d, t_acceptances d)).

Section stores.
Context {E : Env}.

Lemma outbox_add_framed row : framed business (outbox_add row).
Proof. unfold outbox_add. frame. Qed.
Lemma insert_audit_framed row : framed business (insert_audit row).
Proof. unfold insert_audit. frame. Qed.
#[local] Hint Resolve outbox_add_framed insert_audit_framed : cell.

Lemma append_audit_framed ev : framed business (append_audit_event ev).
Proof. unfold append_audit_event. frame. Qed.
#[local] Hint Resolve append_audit_framed : cell.

Lemma new_audit_framed c a tt ti at' ai tr ru wo d : framed business (new_audit c a tt ti at' ai tr ru wo d).
Proof. unfold new_audit. frame. Qed.
Lemma domain_audits_framed evs ctx : framed business (append_control_plane_domain_event_audits evs ctx).
Proof. unfold append_control_plane_domain_event_audits. frame. Qed.

Lemma request_approval_framed a : framed ledger (request_approval a).
Proof. unfold request_approval. frame. Qed.
Lemma create_agent_run_framed r : framed ledger (create_agent_run r).
Proof. unfold create_agent_run. frame. Qed.
Lemma update_agent_run_framed i st a b c e : framed ledger (update_agent_run_status i st a b c e).
Proof. unfold update_agent_run_status. frame. Qed.
Lemma create_artifact_framed a : framed ledger (create_artifact a).
Proof. unfold create_artifact. frame. Qed.
End stores.

(** [business] determines each of these. *)
Lemma business_tables d d' :
  business d' = business d →
  t_runs d' = t_runs d ∧ t_work_items d' = t_work_items d ∧ t_approvals d' = t_approvals d
  ∧ t_artifacts d' = t_artifacts d ∧ t_leases d' = t_leases d ∧ t_goals d' = t_goals d
  ∧ t_acceptances d' = t_acceptances d ∧ t_decisions d' = t_decisions d
  ∧ t_proposals d' = t_proposals d.
Proof. unfold business, ledger. intros [=]. by split_and!. Qed.

Lemma business_ledger {A} (m : M Session A) : framed business m → framed ledger m.
Proof. apply (framed_fewer business (λ x, x.1.1.1.1.1.1.1.1)). done. Qed.

#[export] Hint Resolve append_audit_framed new_audit_framed domain_audits_framed
  request_approval_framed create_agent_run_framed update_agent_run_framed
  create_artifact_framed : cell.
#[export] Hint Extern 5 (framed ledger _) => apply business_ledger; solve [eauto with cell] : cell.

(** ** Triples of the ledger *)

(** [P] looks at the ledger and at what is committed, and at nothing else. *)
Definition ledger_stable (P : Session → Prop) : Prop :=
  ∀ s s', ledger (db s') = ledger (db s) → durable s' = durable s → P s → P s'.

Section triples.
Context (X : Session → Prop).

Lemma triple_bind_lift {A B} P (m : result A) (k : A → M Session B) R :
  (∀ s, P s → X s) → (∀ a, m = Ok a → triple P (k a) R X) → triple P (liftM m ≫= k) R X.
Proof.
  intros HX Hk s r s' HP H. apply M_bind_inv in H as [(a & s1 & [= -> <-] & H)|(e & [= -> <-] & ->)]; [|auto].
  by eapply Hk.
Qed.

Lemma triple_weaken {A} (P P' : Session → Prop) (m : M Session A) (Q Q' : A → Session → Prop) :
  triple P' m Q' X → (∀ s, P s → P' s) → (∀ a s, Q' a s → Q a s) → triple P m Q X.
Proof.
  intros Hm HP HQ s r s' H E. specialize (Hm s r s' (HP _ H) E). destruct r; auto.
Qed.

Lemma triple_pre {A} (P P' : Session → Prop) (m : M Session A) Q :
  triple P' m Q X → (∀ s, P s → P' s) → triple P m Q X.
Proof. intros Hm HP. eapply triple_weaken; eauto. Qed.

Lemma triple_framed {A} P (m : M Session A) :
  framed ledger m → ledger_stable P → (∀ s, P s → X s) → triple P m (λ _, P) X.
Proof.
  intros Hm HP HX s r s' H E. apply Hm in E as [E1 E2].
  destruct r; [|apply HX]; by eapply HP.
Qed.

Lemma triple_query {A} P (f : DB → A) : triple P (query f) (λ a s, P s ∧ a = f (db s)) X.
Proof. intros s r s' H [= <- <-]. done. Qed.

Lemma triple_guard (P : Session → Prop) b e :
  (∀ s, P s → X s) → triple P (raise_ifM b e) (λ _ s, P s ∧ b = false) X.
Proof. intros H s r s' HP E. destruct b; injection E as <- <-; auto. Qed.

Lemma triple_update (P : Session → Prop) f (Q : unit → Session → Prop) :
  (∀ s, P s → Q () (with_db s (f (db s)))) → triple P (update_db f) Q X.
Proof. intros H s r s' HP [= <- <-]. auto. Qed.
End triples.

(** A run that is seen to return. *)
Lemma run_ok {S A} (p : result A * S) : is_ok p.1 = true → ∃ a, p = (Ok a, p.2).
Proof. destruct p as [[a|e] s]; [|done]. intros _. by exists a. Qed.
