(* ===== verification/AgentRunLifecycle.v ===== *)
(** * Wakeup runs and their evidence

    [domain/lifecycle/agent_run_lifecycle.py] and [run_evidence.py]: a wakeup run
    is created running, completed or failed through the AgentRun aggregate, and
    leaves a hashed evidence artifact. *)

From S2P Require Import Prelude PyNum PyTime PyValue Models Metadata Budget.
From S2P Require Import Artifact AgentRun DomainEvents Store Frames.

(** ** [json.dumps(value, ensure_ascii=False, sort_keys=True, default=str)] *)
Definition evidence_char (c : ascii) : string :=
  let n := code c in
  if (n <? 32)%N || (n =? 34)%N || (n =? 92)%N then json_char c else String c "".
Definition evidence_str (s : string) : string :=
  char 34 +:+ str_flat_map evidence_char s +:+ char 34.

Definition evidence_float (f : float) : string :=
  match f with
  | S754_nan => "NaN"
  | S754_infinity s => if s then "-Infinity" else "Infinity"
  | _ => float_repr f
  end.

Fixpoint canonical_evidence (v : pyval) : string :=
  match v with
  | PNone => "null"
  | PBool b => if b then "true" else "false"
  | PInt z => pretty z
  | PFloat f => evidence_float f
  | PStr s | PEnum s => evidence_str s
  | PList l | PTuple l => "[" +:+ str_join ", " (map canonical_evidence l) +:+ "]"
  | PDict d =>
      "{" +:+ str_join ", "
        (map (λ kv, evidence_str kv.1 +:+ ": " +:+ kv.2)
           (py_sorted key_leb (map (λ kv, (kv.1, canonical_evidence kv.2)) d))) +:+ "}"
  | PSet _ | PDatetime _ | PObject _ => evidence_str (py_str v)
  end.

Definition canonical_evidence_json (d : pydict) : string := canonical_evidence (PDict d).

Section lifecycle.
Context {E : Env}.

Definition hash_evidence (d : pydict) : string := sha256_hex (canonical_evidence_json d).

(** ** Evidence *)

(** What the artifact is about. *)
Record evidence_args := {
  ev_company_id : string; ev_agent_id : string; ev_run_id : string;
  ev_actor_type : string; ev_actor_id : string; ev_trigger : string;
  ev_trace_id : option string; ev_goal_id : option string; ev_work_item_id : option string;
  ev_adapter_type : string; ev_status : string; ev_input_event : option pydict;
  ev_output_events : list pydict; ev_output_summary : pyval;
  ev_error_category : option string; ev_error_message : option string;
  ev_generated_by : string;
}.

(** [[event.get(key) for event in events if event.get(key)]] *)
Definition event_values (key : string) (events : list pydict) : list pyval :=
  filter (λ v, py_bool v = true) ((λ e, dget e key) <$> events).

Definition run_evidence (a : evidence_args) (approvals usages audits : list string) : pydict :=
  let input := dict_or_empty (ev_input_event a) in
  [("schema_version", PStr "1.0"); ("run_id", PStr (ev_run_id a));
   ("company_id", PStr (ev_company_id a)); ("agent_id", PStr (ev_agent_id a));
   ("status", PStr (ev_status a)); ("trigger", PStr (ev_trigger a));
   ("actor_type", PStr (ev_actor_type a)); ("actor_id", PStr (ev_actor_id a));
   ("trace_id", p_opt (ev_trace_id a)); ("goal_id", p_opt (ev_goal_id a));
   ("work_item_id", p_opt (ev_work_item_id a)); ("adapter_type", PStr (ev_adapter_type a));
   ("input_payload_hash", PStr (hash_evidence input));
   ("output_payload_hash",
     PStr (hash_evidence [("output_events", PList (PDict <$> ev_output_events a))]));
   ("events", PDict
     [("input_event_id", dget input "event_id");
      ("input_event_type", dget input "event_type");
      ("output_event_ids", PList (event_values "event_id" (ev_output_events a)));
      ("output_event_types", PList (event_values "event_type" (ev_output_events a)))]);
   ("approvals", PList (PStr <$> approvals)); ("budget_usage", PList (PStr <$> usages));
   ("audit_events", PList (PStr <$> audits)); ("output_summary", ev_output_summary a);
   ("error_category", p_opt (ev_error_category a));
   ("error_message", p_opt (ev_error_message a))].

Definition create_run_evidence_artifact (a : evidence_args) : M Session ArtifactRecord :=
  approvals ← query (list_approvals (ev_company_id a) (ev_run_id a) 100);
  budget_usage ← query (list_budget_usage (ev_company_id a) (ev_run_id a) 100);
  audit_events ← query (list_audit_events (ev_company_id a) (ev_run_id a) 100);
  let evidence := run_evidence a (approval_id <$> approvals) (bu_usage_id <$> budget_usage)
                    (ae_audit_event_id <$> audit_events) in
  let content_hash := hash_evidence evidence in
  artifact_id_ ← generate_id "art";
  now ← now_utc;
  aggregate ← liftM (Artifact.for_creation (validate_artifact
    {| artifact_id := artifact_id_; artifact_company_id := ev_company_id a;
       artifact_type := Member ArtifactType_RUN_WALKTHROUGH;
       artifact_title := "Run evidence for " +:+ ev_agent_id a;
       artifact_uri := "artifact://control-plane/runs/" +:+ ev_run_id a +:+ "/evidence";
       artifact_content_hash := Some content_hash; artifact_run_id := Some (ev_run_id a);
       artifact_work_item_id := ev_work_item_id a; artifact_goal_id := ev_goal_id a;
       artifact_created_by_agent_id := Some (ev_agent_id a);
       artifact_metadata := [("evidence", PDict evidence); ("hash_algorithm", PStr "sha256");
                             ("generated_by", PStr (ev_generated_by a))];
       artifact_created_at := of_utc now |}));
  artifact ← create_artifact (Artifact.record aggregate);
  let marked := Artifact.mark_created {| Artifact.record := artifact;
                                         Artifact._events := Artifact._events aggregate |} in
  _ ← append_control_plane_domain_event_audits (EvArtifact <$> (Artifact.pull_events marked).1)
        {| ctx_actor_type := ev_actor_type a; ctx_actor_id := ev_actor_id a;
           ctx_trace_id := ev_trace_id a; ctx_run_id := Some (ev_run_id a);
           ctx_work_item_id := ev_work_item_id a;
           ctx_detail := [("uri", PStr (artifact_uri artifact));
                          ("content_hash", PStr content_hash);
                          ("evidence_for", PStr "agent_run")] |};
  mret artifact.

(** ** Runs *)
Definition _validate_run_transition_via_aggregate (id_ : string) (target : AgentRunStatus)
    : M Session (list AgentRunStatusChanged) :=
  current ← query (get_agent_run id_);
  match current with
  | None => mret []
  | Some r =>
      aggregate ← liftM (AgentRun.transition_to (AgentRun.from_record r) target);
      mret (AgentRun.pull_events aggregate).1
  end.

Definition append_agent_run_audit (action id_ company_id agent_id actor_id : string)
    (trace_id work_item_id : option string) (detail : pydict) : M Session unit :=
  ev ← new_audit company_id action "agent_run" id_ "user" actor_id trace_id (Some id_)
         work_item_id detail;
  _ ← append_audit_event ev;
  mret ().

Record AgentWakeupRunRecord := { wr_run : AgentRunRecord; wr_input_event : pydict }.

(** The synthetic wakeup event. *)
Definition wakeup_event (trigger_event_id : string) (agent : AgentRoleRecord) (id_ : string)
    (input_payload : option pydict) (actor_id : string)
    (trace_id goal work_item_id : option string) : pydict :=
  [("event_id", PStr trigger_event_id); ("event_type", PStr "agent.wakeup-requested");
   ("source_agent", PStr actor_id);
   ("payload", PDict
     [("company_id", PStr (role_company_id agent)); ("agent_id", PStr (role_agent_id agent));
      ("run_id", PStr id_); ("actor_id", PStr actor_id);
      ("input", PDict (dict_or_empty input_payload)); ("trace_id", p_opt trace_id);
      ("goal_id", p_opt goal); ("work_item_id", p_opt work_item_id)]);
   ("metadata", PDict [("trace_id", p_opt trace_id)])].

Definition start_agent_wakeup_run (agent : AgentRoleRecord) (input_payload : option pydict)
    (actor_id : string) (trace_id goal work_item_id : option string) (trigger : string)
    (given_run_id : option string) : M Session AgentWakeupRunRecord :=
  trigger_event_id ← generate_id "evt";
  generated ← generate_id "run";
  now ← now_utc;
  let id_ := strip (default generated given_run_id) in
  let input_event := wakeup_event trigger_event_id agent id_ input_payload actor_id
                       trace_id goal work_item_id in
  let run_model := validate_run {|
    run_id := id_; run_company_id := role_company_id agent; run_agent_id := role_agent_id agent;
    run_record_status := Member AgentRunStatus_RUNNING; run_trace_id := trace_id;
    run_goal_id := goal; run_work_item_id := work_item_id;
    run_trigger_event_id := Some trigger_event_id; run_input_event := Some input_event;
    run_output_events := []; run_started_at := of_utc now; run_completed_at := None;
    run_error_category := None; run_error_message := None; run_last_successful_step := None;
    run_cost_usd := f_zero; run_input_tokens := 0; run_output_tokens := 0; run_metadata := [] |} in
  run ← create_agent_run run_model;
  _ ← append_agent_run_audit "agent_run.started" (run_id run) (role_company_id agent)
        (role_agent_id agent) actor_id trace_id work_item_id
        [("trigger", PStr trigger); ("adapter_type", PStr (role_adapter_type agent))];
  mret {| wr_run := run; wr_input_event := input_event |}.

Definition build_agent_wakeup_completion_event (agent : AgentRoleRecord) (id_ : string)
    (trace_id goal work_item_id : option string) (status : string) (output : pydict)
    (error_category error_message : option string) : M Session pydict :=
  let payload :=
    [("company_id", PStr (role_company_id agent)); ("agent_id", PStr (role_agent_id agent));
     ("run_id", PStr id_); ("trace_id", p_opt trace_id); ("goal_id", p_opt goal);
     ("work_item_id", p_opt work_item_id); ("status", PStr status); ("output", PDict output)]
    ++ (if truthy error_category then [("error_category", p_opt error_category)] else [])
    ++ (if truthy error_message then [("error_message", p_opt error_message)] else []) in
  event_id ← generate_id "evt";
  mret [("event_type", PStr "agent.wakeup-completed"); ("source_agent", PStr (role_agent_id agent));
        ("payload", PDict payload); ("metadata", PDict [("trace_id", p_opt trace_id)]);
        ("event_id", PStr event_id)].

(** Audit the aggregate's events, or the plain run event when there are none. *)
Definition audit_run_outcome (events : list AgentRunStatusChanged) (fallback_action id_ : string)
    (agent : AgentRoleRecord) (actor_id : string) (trace_id work_item_id : option string)
    (detail : pydict) : M Session unit :=
  match events with
  | [] => append_agent_run_audit fallback_action id_ (role_company_id agent)
            (role_agent_id agent) actor_id trace_id work_item_id detail
  | _ => append_control_plane_domain_event_audits (EvAgentRun <$> events)
           {| ctx_actor_type := "user"; ctx_actor_id := actor_id; ctx_trace_id := trace_id;
              ctx_run_id := Some id_; ctx_work_item_id := work_item_id; ctx_detail := detail |}
  end.

Definition adapter_or_builtin (agent : AgentRoleRecord) : string :=
  if str_empty (role_adapter_type agent) then "builtin" else role_adapter_type agent.

Definition complete_agent_wakeup_run (agent : AgentRoleRecord) (id_ : string)
    (input_event output : pydict) (actor_id : string)
    (trace_id goal work_item_id : option string) (trigger : string) : M Session string :=
  completion_event ← build_agent_wakeup_completion_event agent id_ trace_id goal work_item_id
                       "succeeded" output None None;
  domain_events ← _validate_run_transition_via_aggregate id_ AgentRunStatus_SUCCEEDED;
  _ ← update_agent_run_status id_ AgentRunStatus_SUCCEEDED None None None
        (Some [completion_event]);
  let summary := py_or (dget output "summary") (dget output "status") in
  let detail := [("trigger", PStr trigger); ("adapter_type", PStr (role_adapter_type agent));
                 ("output_summary", summary)] in
  _ ← audit_run_outcome domain_events "agent_run.succeeded" id_ agent actor_id trace_id
        work_item_id detail;
  artifact ← create_run_evidence_artifact {|
    ev_company_id := role_company_id agent; ev_agent_id := role_agent_id agent;
    ev_run_id := id_; ev_actor_type := "user"; ev_actor_id := actor_id; ev_trigger := trigger;
    ev_trace_id := trace_id; ev_goal_id := goal; ev_work_item_id := work_item_id;
    ev_adapter_type := adapter_or_builtin agent; ev_status := "succeeded";
    ev_input_event := Some input_event; ev_output_events := [completion_event];
    ev_output_summary := summary; ev_error_category := None; ev_error_message := None;
    ev_generated_by := "control_plane_agent_runner" |};
  mret (artifact_id artifact).

Definition fail_agent_wakeup_run (agent : AgentRoleRecord) (id_ : string) (input_event : pydict)
    (actor_id : string) (trace_id goal work_item_id : option string) (trigger : string)
    (error_category error_message : string) (cancelled : bool) : M Session unit :=
  let status_text := if cancelled then "cancelled" else "failed" in
  let target := if cancelled then AgentRunStatus_CANCELLED else AgentRunStatus_FAILED in
  completion_event ← build_agent_wakeup_completion_event agent id_ trace_id goal work_item_id
                       status_text [] (Some error_category) (Some error_message);
  domain_events ← _validate_run_transition_via_aggregate id_ target;
  _ ← update_agent_run_status id_ target (Some error_category) (Some error_message)
        (Some "agent_definition_loaded") (Some [completion_event]);
  let detail := [("trigger", PStr trigger); ("adapter_type", PStr (role_adapter_type agent));
                 ("error_category", PStr error_category); ("error", PStr error_message)] in
  _ ← audit_run_outcome domain_events "agent_run.failed" id_ agent actor_id trace_id
        work_item_id detail;
  _ ← create_run_evidence_artifact {|
    ev_company_id := role_company_id agent; ev_agent_id := role_agent_id agent;
    ev_run_id := id_; ev_actor_type := "user"; ev_actor_id := actor_id; ev_trigger := trigger;
    ev_trace_id := trace_id; ev_goal_id := goal; ev_work_item_id := work_item_id;
    ev_adapter_type := adapter_or_builtin agent; ev_status := status_text;
    ev_input_event := Some input_event; ev_output_events := [completion_event];
    ev_output_summary := PNone; ev_error_category := Some error_category;
    ev_error_message := Some error_message; ev_generated_by := "control_plane_agent_runner" |};
  mret ().

(** ** None of this touches the dispatch ledger *)
Lemma run_audit_framed a i c ag ac t w d : framed business (append_agent_run_audit a i c ag ac t w d).
Proof. unfold append_agent_run_audit. frame. Qed.
#[local] Hint Resolve run_audit_framed : cell.

Lemma run_outcome_framed evs a i ag ac t w d : framed business (audit_run_outcome evs a i ag ac t w d).
Proof. unfold audit_run_outcome. frame. Qed.
Lemma validate_transition_framed i t : framed business (_validate_run_transition_via_aggregate i t).
Proof. unfold _validate_run_transition_via_aggregate. frame. Qed.
Lemma completion_event_framed a i t g w s o ec em :
  framed business (build_agent_wakeup_completion_event a i t g w s o ec em).
Proof. unfold build_agent_wakeup_completion_event. frame. Qed.
Lemma evidence_framed a : framed ledger (create_run_evidence_artifact a).
Proof. unfold create_run_evidence_artifact. frame. Qed.
#[local] Hint Resolve run_outcome_framed validate_transition_framed completion_event_framed
  evidence_framed : cell.

Lemma start_run_framed a ip ac t g w tr r : framed ledger (start_agent_wakeup_run a ip ac t g w tr r).
Proof. unfold start_agent_wakeup_run. frame. Qed.
Lemma complete_run_framed a i ie o ac t g w tr :
  framed ledger (complete_agent_wakeup_run a i ie o ac t g w tr).
Proof. unfold complete_agent_wakeup_run. frame. Qed.
Lemma fail_run_framed a i ie ac t g w tr ec em c :
  framed ledger (fail_agent_wakeup_run a i ie ac t g w tr ec em c).
Proof. unfold fail_agent_wakeup_run. frame. Qed.
End lifecycle.

#[export] Hint Resolve start_run_framed complete_run_framed fail_run_framed : cell.
