(* ===== verification/BudgetGuard.v ===== *)
(** * Budget guard and budget use cases

    [budget_store.py], [budget_guard.py] and [budget_use_cases.py]: the policy
    that is active for a scope and a period, the check of an estimated cost
    against it, and the creation and update of policies with their conflict rule. *)

From S2P Require Import Prelude PyNum PyTime PyValue Models Budget DomainEvents Store Frames.

Record BudgetDecision := {
  bd_allowed : bool;
  bd_budget_id : option string;
  bd_current_cost_usd : float;
  bd_estimated_cost_usd : float;
  bd_estimated_total_usd : float;
  bd_limit_usd : option float;
  bd_reason : string;
}.

Definition budget_exceeded (reason : string) : exn := Exn "BudgetExceededError" reason.

(** The columns [update_budget_policy] assigns: a [None] leaves a column. *)
Definition update_policy_row (limit threshold : option float) (status : option string)
    (allow : option (list string)) (metadata : option pydict) (now : instant) (r : BudgetPolicyRecord)
    : BudgetPolicyRecord := {|
  bp_budget_id := bp_budget_id r; bp_company_id := bp_company_id r; bp_scope := bp_scope r;
  bp_period := bp_period r; bp_limit_usd := default (bp_limit_usd r) limit;
  bp_scope_id := bp_scope_id r; bp_warning_threshold := default (bp_warning_threshold r) threshold;
  bp_status := match status with Some s => Some s | None => bp_status r end;
  bp_model_allowlist := default (bp_model_allowlist r) allow;
  bp_metadata := match metadata with Some d => Some (to_db_dict d) | None => bp_metadata r end;
  bp_created_at := bp_created_at r; bp_updated_at := of_utc now |}.

Definition policy_values (r : BudgetPolicyRecord) : BudgetPolicyRecord := {|
  bp_budget_id := bp_budget_id r; bp_company_id := bp_company_id r;
  bp_scope := to_db_enum (bp_scope r); bp_period := to_db_enum (bp_period r);
  bp_limit_usd := bp_limit_usd r; bp_scope_id := bp_scope_id r;
  bp_warning_threshold := bp_warning_threshold r; bp_status := bp_status r;
  bp_model_allowlist := bp_model_allowlist r; bp_metadata := to_db_dict <$> bp_metadata r;
  bp_created_at := bp_created_at r; bp_updated_at := bp_updated_at r |}.

(** What an active policy is active for. *)
Definition policy_for (company scope period : string) (scope_id : option string)
    (p : BudgetPolicyRecord) : Prop :=
  bp_company_id p = company ∧ str_of (bp_scope p) = scope ∧ str_of (bp_period p) = period
  ∧ bp_status p = Some "active" ∧ bp_scope_id p = scope_id.
#[global] Instance policy_for_dec c sc pe si p : Decision (policy_for c sc pe si p).
Proof. unfold policy_for. apply _. Defined.

Definition get_active_budget_policy (company scope period : string) (scope_id : option string) (d : DB)
    : option BudgetPolicyRecord :=
  head (newest bp_created_at 1 (filter (policy_for company scope period scope_id) (t_policies d))).

Definition get_budget_policy (budget_id : string) (d : DB) : option BudgetPolicyRecord :=
  get_row bp_budget_id budget_id (t_policies d).

Section budgets.
Context {E : Env}.

(** ** Store *)

(** [float(coalesce(sum(cost_usd), 0.0) or 0.0)] *)
Definition get_budget_usage_total (budget_id : string) (d : DB) : float :=
  match sql_sum (bu_cost_usd <$> filter (λ u, bu_budget_id u = budget_id) (t_usages d)) with
  | S754_zero _ => f_zero
  | x => x
  end.

Definition create_budget_policy (budget : BudgetPolicyRecord) : M Session BudgetPolicyRecord :=
  let row := policy_values budget in
  d ← query id;
  _ ← raise_ifM (bool_decide (bp_budget_id row ∈ bp_budget_id <$> t_policies d)
                 || negb (company_fk d (bp_company_id row)))
        (integrity_error "control_plane_budget_policies");
  _ ← update_db (λ d, set_policies (t_policies d ++ [row]) d);
  mret row.

Definition update_budget_policy (budget_id : string) (limit threshold : option float)
    (status : option string) (allow : option (list string)) (metadata : option pydict)
    : M Session (option BudgetPolicyRecord) :=
  o ← query (get_budget_policy budget_id);
  match o with
  | None => mret None
  | Some row =>
      now ← now_utc;
      let f := update_policy_row limit threshold status allow metadata now in
      _ ← update_db (λ d, set_policies (update_row bp_budget_id budget_id f (t_policies d)) d);
      mret (Some (f row))
  end.

(** ** Guard *)
Record check_args := {
  ck_company_id : string; ck_scope : BudgetScope; ck_period : BudgetPeriod;
  ck_estimated_cost_usd : float; ck_scope_id : option string; ck_model : option string }.

Definition check (a : check_args) : M Session BudgetDecision :=
  estimated ← liftM (non_negative_usd (ck_estimated_cost_usd a));
  policy_ ← query (get_active_budget_policy (ck_company_id a) (value (ck_scope a))
                     (value (ck_period a)) (ck_scope_id a));
  match policy_ with
  | None =>
      mret {| bd_allowed := true; bd_budget_id := None; bd_current_cost_usd := f_zero;
              bd_estimated_cost_usd := usd estimated; bd_estimated_total_usd := usd estimated;
              bd_limit_usd := None; bd_reason := "no_active_policy" |}
  | Some policy =>
      limit ← liftM (positive_usd (bp_limit_usd policy));
      total ← query (get_budget_usage_total (bp_budget_id policy));
      current ← liftM (non_negative_usd total);
      if truthy (ck_model a) && negb (bool_decide (bp_model_allowlist policy = []))
         && negb (bool_decide (str_or_empty (ck_model a) ∈ bp_model_allowlist policy))
      then mret {| bd_allowed := false; bd_budget_id := Some (bp_budget_id policy);
                   bd_current_cost_usd := usd current; bd_estimated_cost_usd := usd estimated;
                   bd_estimated_total_usd := usd estimated; bd_limit_usd := Some (usd limit);
                   bd_reason := "model_not_allowed" |}
      else
        estimated_total ← liftM (plus current estimated);
        let allowed := negb (exceeds estimated_total limit) in
        mret {| bd_allowed := allowed; bd_budget_id := Some (bp_budget_id policy);
                bd_current_cost_usd := usd current; bd_estimated_cost_usd := usd estimated;
                bd_estimated_total_usd := usd estimated_total; bd_limit_usd := Some (usd limit);
                bd_reason := if allowed then "" else "budget_exceeded" |}
  end.

Definition ensure_allowed (a : check_args) : M Session BudgetDecision :=
  decision ← check a;
  if bd_allowed decision then mret decision else raiseM (budget_exceeded (bd_reason decision)).

Definition record_usage (company_id budget_id : string) (cost_usd : float) (model : string)
    (input_tokens output_tokens : Z) (run trace_id : option string) : M Session BudgetUsageRecord :=
  cost ← liftM (non_negative_usd cost_usd);
  usage_id ← generate_id "busg";
  now ← now_utc;
  u ← liftM (validate_usage {|
    bu_usage_id := usage_id; bu_company_id := company_id; bu_budget_id := budget_id;
    bu_cost_usd := usd cost; bu_model := Some model; bu_input_tokens := Some input_tokens;
    bu_output_tokens := Some output_tokens; bu_run_id := run; bu_trace_id := trace_id;
    bu_metadata := Some []; bu_created_at := of_utc now |});
  usage ← liftM (usage_for_recording u);
  recorded ← record_budget_usage (usage_record usage);
  let marked := mark_recorded {| usage_record := recorded; usage_events := usage_events usage |} in
  _ ← append_control_plane_domain_event_audits (EvBudgetUsage <$> (pull_usage_events marked).1)
        {| ctx_actor_type := "system"; ctx_actor_id := "budget_guard"; ctx_trace_id := trace_id;
           ctx_run_id := run; ctx_work_item_id := None; ctx_detail := [] |};
  mret recorded.

(** ** Use cases *)
Definition _ensure_company (company_id : string) : M Session unit :=
  o ← query (λ d, get_row cc_company_id company_id (t_companies d));
  match o with
  | Some _ => mret ()
  | None =>
      created ← now_utc;
      updated ← now_utc;
      d ← query id;
      _ ← raise_ifM (bool_decide (strip company_id ∈ cc_company_id <$> t_companies d))
            (integrity_error "control_plane_companies");
      update_db (λ d, set_companies (t_companies d ++
        [{| cc_company_id := strip company_id; cc_name := "Wisdoverse Cell";
            cc_mission := "AI-native company operations"; cc_metadata := [];
            cc_created_at := of_utc created; cc_updated_at := of_utc updated |}]) d)
  end.

(** [BudgetPolicyConflictError] becomes [ActiveBudgetPolicyConflictError]. *)
Definition _ensure_no_active_policy_conflict (company scope period : string)
    (scope_id current_budget_id : option string) : M Session unit :=
  existing ← query (get_active_budget_policy company scope period scope_id);
  match ensure_no_active_conflict existing current_budget_id with
  | Ok _ => mret ()
  | Raise (Exn _ id_) => raiseM (Exn "ActiveBudgetPolicyConflictError" id_)
  | Raise e => raiseM e
  end.

Definition create_budget_policy_with_audit (budget : BudgetPolicyRecord) (created_by : string)
    : M Session BudgetPolicyRecord :=
  aggregate ← liftM (Budget.for_creation budget);
  let r := Budget.record aggregate in
  _ ← _ensure_company (bp_company_id r);
  st ← liftM (Budget.status aggregate);
  _ ← whenM (requires_unique_active_policy (Some (Member st)))
        (_ensure_no_active_policy_conflict (bp_company_id r) (str_of (bp_scope r))
           (str_of (bp_period r)) (bp_scope_id r) None);
  created ← create_budget_policy r;
  marked ← liftM (Budget.mark_created {| Budget.record := created;
                                         Budget._events := Budget._events aggregate |});
  _ ← append_control_plane_domain_event_audits (EvBudgetPolicy <$> (Budget.pull_events marked).1)
        {| ctx_actor_type := "user"; ctx_actor_id := created_by; ctx_trace_id := None;
           ctx_run_id := None; ctx_work_item_id := None; ctx_detail := [] |};
  mret created.

Record policy_update := {
  pu_limit_usd : option float; pu_warning_threshold : option float; pu_status : option string;
  pu_model_allowlist : option (list string); pu_metadata : option pydict;
  pu_changed_fields : list string }.

(** The new value of a field the request names. *)
Definition if_given {A B} (o : option A) (b : B) : option B := (λ _, b) <$> o.

Definition update_budget_policy_with_audit (company_id budget_id : string) (u : policy_update)
    (actor_id : string) : M Session BudgetPolicyRecord :=
  existing_ ← query (get_budget_policy budget_id);
  match existing_ with
  | None => raiseM (Exn "BudgetPolicyNotFoundError" budget_id)
  | Some existing =>
      if decide (bp_company_id existing ≠ company_id)
      then raiseM (Exn "BudgetPolicyNotFoundError" budget_id)
      else
        aggregate ← liftM (Budget.from_record existing);
        wanted ← liftM (budget_policy_status (Str <$> pu_status u));
        _ ← whenM (requires_unique_active_policy (Member <$> wanted))
              (_ensure_no_active_policy_conflict company_id (str_of (bp_scope existing))
                 (str_of (bp_period existing)) (bp_scope_id existing) (Some budget_id));
        changed ← liftM (Budget.apply_update aggregate (pu_limit_usd u) (pu_warning_threshold u)
                           (pu_status u) (pu_model_allowlist u) (pu_metadata u) (pu_changed_fields u));
        let r := Budget.record changed in
        updated_ ← update_budget_policy budget_id
                     (if_given (pu_limit_usd u) (bp_limit_usd r))
                     (if_given (pu_warning_threshold u) (bp_warning_threshold r))
                     (if_given (pu_status u) (str_or_empty (bp_status r)))
                     (if_given (pu_model_allowlist u) (bp_model_allowlist r))
                     (if_given (pu_metadata u) (dict_or_empty (bp_metadata r)));
        match updated_ with
        | None => raiseM (Exn "BudgetPolicyNotFoundError" budget_id)
        | Some updated =>
            _ ← append_control_plane_domain_event_audits
                  (EvBudgetPolicy <$> (Budget.pull_events changed).1)
                  {| ctx_actor_type := "user"; ctx_actor_id := actor_id; ctx_trace_id := None;
                     ctx_run_id := None; ctx_work_item_id := None; ctx_detail := [] |};
            mret updated
        end
  end.

(** ** One active policy per scope and period *)
Inductive budget_command :=
  | CreatePolicy (budget : BudgetPolicyRecord) (created_by : string)
  | UpdatePolicy (company_id budget_id : string) (u : policy_update) (actor_id : string).

Definition run_command (c : budget_command) : M Session BudgetPolicyRecord :=
  match c with
  | CreatePolicy budget by_ => create_budget_policy_with_audit budget by_
  | UpdatePolicy company id_ u by_ => update_budget_policy_with_audit company id_ u by_
  end.

(** Commands one after the other, whatever each of them returns or raises. *)
Fixpoint run_commands (cs : list budget_command) (s : Session) : Session :=
  match cs with
  | [] => s
  | c :: cs' => run_commands cs' (run_command c s).2
  end.

Definition same_target (p q : BudgetPolicyRecord) : Prop :=
  bp_company_id p = bp_company_id q ∧ str_of (bp_scope p) = str_of (bp_scope q)
  ∧ str_of (bp_period p) = str_of (bp_period q) ∧ bp_scope_id p = bp_scope_id q.

Definition unique_active (d : DB) : Prop :=
  ∀ p q, p ∈ t_policies d → q ∈ t_policies d → bp_status p = Some "active" → bp_status q = Some "active" →
    same_target p q → bp_budget_id p = bp_budget_id q.

Lemma get_active_None c sc pe si d :
  get_active_budget_policy c sc pe si d = None →
  ∀ p, p ∈ t_policies d → ¬ policy_for c sc pe si p.
Proof.
  unfold get_active_budget_policy, newest. intros H p Hp Hf.
  assert (p ∈ py_sorted (λ a b, as_utc (bp_created_at b) <=? as_utc (bp_created_at a))
            (filter (policy_for c sc pe si) (t_policies d))) as Hin.
  { rewrite py_sorted_perm. by apply list_elem_of_filter. }
  destruct (py_sorted _ _) as [|q l]; [by apply not_elem_of_nil in Hin | done].
Qed.

Lemma get_active_Some c sc pe si d p :
  get_active_budget_policy c sc pe si d = Some p → p ∈ t_policies d ∧ policy_for c sc pe si p.
Proof.
  unfold get_active_budget_policy, newest. intros H%head_Some_elem_of.
  apply elem_of_take in H as (i & Hi & _). apply list_elem_of_lookup_2 in Hi.
  rewrite py_sorted_perm in Hi. apply list_elem_of_filter in Hi as [? ?]. done.
Qed.

(** What every sequence of commands maintains. *)
Definition policies_inv (s : Session) : Prop :=
  NoDup (bp_budget_id <$> t_policies (db s)) ∧ unique_active (db s).

Lemma policies_stable : ledger_stable policies_inv.
Proof.
  intros s s' H _ Hs. injection H as _ _ _ H. unfold policies_inv, unique_active in *. by rewrite H.
Qed.

Lemma insert_policy_inv s row :
  policies_inv s → bp_budget_id row ∉ bp_budget_id <$> t_policies (db s) →
  (bp_status row = Some "active" → ∀ p, p ∈ t_policies (db s) →
     ¬ policy_for (bp_company_id row) (str_of (bp_scope row)) (str_of (bp_period row)) (bp_scope_id row) p) →
  policies_inv (with_db s (set_policies (t_policies (db s) ++ [row]) (db s))).
Proof.
  intros [Hn Hu] Hid Hf. split; cbn.
  - rewrite fmap_app. apply NoDup_app. split_and!; [done|set_solver|apply NoDup_singleton].
  - intros p q Hp Hq Hap Haq (H1 & H2 & H3 & H4). cbn in Hp, Hq.
    apply elem_of_app in Hp as [Hp|Hp%list_elem_of_singleton];
    apply elem_of_app in Hq as [Hq|Hq%list_elem_of_singleton]; subst; try done.
    + by apply (Hu p q).
    + exfalso. by eapply (Hf Haq p Hp).
    + exfalso. by eapply (Hf Hap q Hq).
Qed.

Lemma update_policy_inv s budget_id old f :
  policies_inv s → get_budget_policy budget_id (db s) = Some old →
  (∀ r, bp_budget_id (f r) = bp_budget_id r ∧ same_target (f r) r) →
  (bp_status (f old) = Some "active" → bp_status old ≠ Some "active" →
     ∀ q, q ∈ t_policies (db s) →
       policy_for (bp_company_id old) (str_of (bp_scope old)) (str_of (bp_period old)) (bp_scope_id old) q →
       bp_budget_id q = budget_id) →
  policies_inv (with_db s (set_policies (update_row bp_budget_id budget_id f (t_policies (db s))) (db s))).
Proof.
  intros [Hn Hu] Hold Hf Hnew. apply get_row_Some in Hold as [Hin Hid]. split; cbn.
  - rewrite update_row_keys; [done|]. intros r. apply Hf.
  - intros p q [p0 [Hp0 ->]]%elem_of_update_row [q0 [Hq0 ->]]%elem_of_update_row.
    assert (∀ r, r ∈ t_policies (db s) → bp_budget_id r = budget_id → r = old) as Huniq.
    { intros r Hr Hk. by eapply (get_row_NoDup bp_budget_id); [done..|congruence]. }
    destruct (Hf old) as [Hfid (F1 & F2 & F3 & F4)].
    assert (∀ r, r ∈ t_policies (db s) → bp_budget_id r ≠ budget_id → bp_status r = Some "active" →
      bp_status (f old) = Some "active" → same_target (f old) r → False) as Hcross.
    { intros r Hr Hk Hra Hoa (T1 & T2 & T3 & T4). destruct (decide (bp_status old = Some "active")) as [Ho|Ho].
      - apply Hk. rewrite <- Hid. symmetry. apply (Hu old r); try done. by split_and!; congruence.
      - apply Hk, Hnew; try done. by split_and!; congruence. }
    intros Hpa Hqa Ht. case_decide as Hkp; case_decide as Hkq.
    + pose proof (Huniq _ Hp0 Hkp). pose proof (Huniq _ Hq0 Hkq). by subst.
    + pose proof (Huniq _ Hp0 Hkp) as ->. exfalso. by eapply Hcross.
    + pose proof (Huniq _ Hq0 Hkq) as ->. exfalso.
      destruct Ht as (T1 & T2 & T3 & T4). eapply (Hcross p0); first [done | by split_and!].
    + by apply (Hu p0 q0).
Qed.

Lemma policies_framed {A} (m : M Session A) :
  framed ledger m → triple policies_inv m (λ _, policies_inv) policies_inv.
Proof. intros H. by apply triple_framed; [|apply policies_stable|]. Qed.

Lemma ensure_company_framed c : framed ledger (_ensure_company c).
Proof. unfold _ensure_company. frame. Qed.
#[local] Hint Resolve ensure_company_framed : cell.

Lemma conflict_readonly b c sc pe si cur :
  framed id (whenM b (_ensure_no_active_policy_conflict c sc pe si cur)).
Proof. unfold _ensure_no_active_policy_conflict. frame. Qed.

(** What the conflict check found out, when it passes. *)
Lemma no_conflict_triple c sc pe si cur :
  triple policies_inv (_ensure_no_active_policy_conflict c sc pe si cur)
    (λ _ s, policies_inv s ∧ ∀ q, q ∈ t_policies (db s) → policy_for c sc pe si q → Some (bp_budget_id q) = cur)
    policies_inv.
Proof.
  unfold _ensure_no_active_policy_conflict. eapply triple_bind; [apply triple_query|].
  intros [p|]; cbn.
  - case_bool_decide as Hp; cbn; [apply triple_raise; by intros s [? _]|].
    apply triple_ret. intros s [Hi Hs]. split; [done|]. symmetry in Hs.
    apply get_active_Some in Hs as [Hin Hf]. intros q Hq Hfq. rewrite <- Hp. f_equal. destruct Hf as (? & ? & ? & ? & ?), Hfq as (? & ? & ? & ? & ?).
    apply (proj2 Hi q p); try done. by split_and!; congruence.
  - apply triple_ret. intros s [Hi Hs]. split; [done|]. intros q Hq Hfq. exfalso.
    by eapply get_active_None.
Qed.

Lemma created_status r g st :
  Budget.for_creation r = Ok g → Budget.status g = Ok st → bp_status (Budget.record g) = Some (value st).
Proof.
  unfold Budget.for_creation. intros H Hst. apply bind_Ok in H as (r' & Hr & [= <-]).
  destruct (normalize_policy_ok _ _ Hr) as (_ & _ & _ & _ & _ & _ & (s & Hs) & _).
  unfold Budget.status, status_of_record in Hst. cbn [Budget.record] in *. rewrite Hs in *.
  cbn [fmap option_fmap option_map] in Hst. rewrite status_value_parse in Hst. cbn in Hst. congruence.
Qed.

(** An active [r] would have no rival. *)
Definition no_rival (r : BudgetPolicyRecord) (s : Session) : Prop :=
  bp_status r = Some "active" → ∀ q, q ∈ t_policies (db s) →
    ¬ policy_for (bp_company_id r) (str_of (bp_scope r)) (str_of (bp_period r)) (bp_scope_id r) q.

Lemma create_row_triple r :
  triple (λ s, policies_inv s ∧ no_rival r s)
    (create_budget_policy r) (λ _, policies_inv) policies_inv.
Proof.
  unfold create_budget_policy. eapply triple_bind; [apply triple_query|]. intros d.
  eapply triple_bind; [apply triple_guard; intros s H; apply H|]. intros ?.
  apply triple_bind with (R := λ _, policies_inv); [|intros ?; by apply triple_ret].
  apply triple_update. intros s (((Hi & Hn) & ->) & Hb). unfold id in Hb.
  apply orb_false_iff in Hb as [Hb _]. apply bool_decide_eq_false in Hb. by apply insert_policy_inv.
Qed.

Lemma create_policy_triple budget by_ :
  triple policies_inv (create_budget_policy_with_audit budget by_) (λ _, policies_inv) policies_inv.
Proof.
  apply triple_bind_lift; [done|]. intros g Hg. cbv zeta.
  apply triple_bind with (R := λ _, policies_inv); [apply policies_framed; eauto with cell|]. intros ?.
  apply triple_bind_lift; [done|]. intros st Hst.
  apply triple_bind with (R := λ _ s, policies_inv s ∧ no_rival (Budget.record g) s).
  - unfold no_rival. rewrite (created_status _ _ _ Hg Hst). intros s r s' Hi H. cbn [requires_unique_active_policy] in H.
    case_bool_decide as Ha.
    + eapply no_conflict_triple in H; [|done]. destruct r; [|done].
      destruct H as [Hi' Hn]. split; [exact Hi'|]. intros _ q Hq Hf. by specialize (Hn q Hq Hf).
    + injection H as <- <-. split; [done|]. by destruct st.
  - intros ?. apply triple_bind with (R := λ _, policies_inv); [apply create_row_triple|]. intros created.
    apply triple_bind_lift; [done|]. intros marked _.
    apply triple_bind with (R := λ _, policies_inv); [apply policies_framed; eauto with cell|].
    intros ?. by apply triple_ret.
Qed.

Lemma update_row_triple existing budget_id limit thr st allow meta :
  triple (λ s, policies_inv s ∧ get_budget_policy budget_id (db s) = Some existing
    ∧ (st = Some "active" → ∀ q, q ∈ t_policies (db s) →
         policy_for (bp_company_id existing) (str_of (bp_scope existing)) (str_of (bp_period existing))
           (bp_scope_id existing) q → bp_budget_id q = budget_id))
    (update_budget_policy budget_id limit thr st allow meta) (λ _, policies_inv) policies_inv.
Proof.
  unfold update_budget_policy. eapply triple_bind; [apply triple_query|].
  intros [row|]; [|apply triple_ret; by intros s [[? _] _]].
  intros s r s' ((Hi & Hex & Hnew) & Hrow) H. apply M_bind_inv in H as [(now & s1 & [= <- <-] & H)|(e & [=] & _)].
  cbv zeta in H. apply M_bind_inv in H as [([] & s2 & [= <-] & [= <- <-])|(e & [=] & _)].
  assert (row = existing) as -> by congruence.
  apply (update_policy_inv s budget_id existing); try done. cbn. intros Ha Hold q Hq Hf.
  destruct st as [x|]; [|done]. by apply Hnew.
Qed.

(** The status an update writes is the one it asked for. *)
Lemma applied_status g limit thr st allow meta fields g' wanted :
  Budget.apply_update g limit thr (Some st) allow meta fields = Ok g' →
  budget_policy_status (Some (Str st)) = Ok wanted →
  bp_status (Budget.record g') = value <$> wanted.
Proof.
  unfold Budget.apply_update. intros H Hw. cbv zeta in H.
  apply bind_Ok in H as (prev & _ & H). apply bind_Ok in H as (l & _ & H).
  apply bind_Ok in H as (t & _ & H). apply bind_Ok in H as (st' & Hst & H).
  rewrite (bool_decide_eq_true_2 (is_Some (Some st))) in H by done. rewrite !orb_true_r in H. cbn in H.
  apply bind_Ok in H as (r' & Hr & H). apply bind_Ok in H as (to & Hto & [= <-]). cbn [Budget.record].
  cbn [updated] in Hst. apply bind_Ok in Hst as (tgt & Htgt & [= <-]).
  unfold _transition_status in Htgt. rewrite Hw in Htgt. cbn in Htgt. destruct wanted as [w|]; [|done].
  apply bind_Ok in Htgt as (cur & _ & Htgt).
  assert (tgt = w) as ->.
  { case_decide; [by simplify_eq|]. apply bind_Ok in Htgt as (u & _ & Htgt). by simplify_eq. }
  unfold _normalize_record, status_of_record in Hr. cbn [bp_status fmap option_fmap option_map] in Hr.
  rewrite status_value_parse in Hr. cbn in Hr. inv_bind. done.
Qed.

Lemma update_policy_triple company id_ u by_ :
  triple policies_inv (update_budget_policy_with_audit company id_ u by_) (λ _, policies_inv) policies_inv.
Proof.
  unfold update_budget_policy_with_audit. eapply triple_bind; [apply triple_query|].
  intros [existing|]; [|apply triple_raise; by intros s [? _]].
  case_decide as Hc; [apply triple_raise; by intros s [? _]|].
  apply triple_bind_lift; [by intros s [? _]|]. intros g _.
  apply triple_bind_lift; [by intros s [? _]|]. intros wanted Hw.
  eapply triple_bind.
  { instantiate (1 := λ _ s, policies_inv s ∧ get_budget_policy id_ (db s) = Some existing
      ∧ (requires_unique_active_policy (Member <$> wanted) = true → ∀ q, q ∈ t_policies (db s) →
           policy_for (bp_company_id existing) (str_of (bp_scope existing)) (str_of (bp_period existing))
             (bp_scope_id existing) q → bp_budget_id q = id_)).
    intros s r s' [Hi Hex] H. destruct (requires_unique_active_policy _).
    - assert (db s' = db s) as Hdb by (by eapply conflict_readonly in H as [? _]).
      cbn [whenM] in H. eapply no_conflict_triple in H; [|done]. destruct r; [|done]. destruct H as [Hi' Hn].
      split_and!; [done|by rewrite Hdb|]. intros _ q Hq Hf. rewrite Hc in Hf. specialize (Hn q Hq Hf). congruence.
    - injection H as <- <-. done. }
  intros ?. apply triple_bind_lift; [by intros s [? _]|]. intros changed Hch. cbv zeta.
  apply triple_bind with (R := λ _, policies_inv).
  - eapply triple_pre; [apply (update_row_triple existing)|]. intros s (Hi & Hex & Hn). split_and!; [done|done|].
    intros Ha. apply Hn. destruct (pu_status u) as [st|]; [|done]. cbn in Ha. injection Ha as Ha.
    cbn [fmap option_fmap option_map] in Hw. rewrite (applied_status _ _ _ _ _ _ _ _ _ Hch Hw) in Ha.
    destruct wanted as [[]|]; done.
  - intros [updated|]; [|by apply triple_raise].
    apply triple_bind with (R := λ _, policies_inv); [apply policies_framed; eauto with cell|].
    intros ?. by apply triple_ret.
Qed.

Lemma command_triple c : triple policies_inv (run_command c) (λ _, policies_inv) policies_inv.
Proof. destruct c; [apply create_policy_triple | apply update_policy_triple]. Qed.
End budgets.
