(* ===== verification/ExecutionLedger.v ===== *)
(** * The dispatch ledger ([execution_store.py], [execution_ports.py])

    Leases, cost reservations and their settlement.  Every operation runs under
    row locks held to the end of its transaction (a claim locks the company row),
    so an operation is one step of the session; the interleaving of transactions
    is the order of the steps. *)

From S2P Require Import Prelude PyNum PyTime PyValue Models Metadata AuditRetention Budget.
From S2P Require Import WorkItem DomainEvents WakeupAdapter ExecutionPolicy Store Frames AgentRunLifecycle.

Record ExecutionTicket := {
  tk_execution_id : string;
  tk_run_id : string;
  tk_owner_id : string;
  tk_ceiling_usd : decimal;
  tk_replay : bool;
}.

(** The arguments of a dispatch request. *)
Record claim_args := {
  ca_agent : AgentRoleRecord;
  ca_run_id : string;
  ca_payload : pydict;
  ca_work_item_id : option string;
  ca_goal_id : option string;
  ca_actor_id : string;
  ca_idempotency_key : string;
}.

Definition lease_active (l : ExecutionLease) : bool :=
  bool_decide (l_state l ∈ [LeaseState_RUNNING; LeaseState_RECOVERY_REQUIRED]).

Definition with_lease_state (st : LeaseState) (l : ExecutionLease) : ExecutionLease := {|
  l_execution_id := l_execution_id l; l_company_id := l_company_id l;
  l_resource_id := l_resource_id l; l_intent_hash := l_intent_hash l; l_run_id := l_run_id l;
  l_owner_id := l_owner_id l; l_state := st; l_control_action := l_control_action l;
  l_expires_at := l_expires_at l; l_created_at := l_created_at l |}.

Definition with_expiry (t : instant) (l : ExecutionLease) : ExecutionLease := {|
  l_execution_id := l_execution_id l; l_company_id := l_company_id l;
  l_resource_id := l_resource_id l; l_intent_hash := l_intent_hash l; l_run_id := l_run_id l;
  l_owner_id := l_owner_id l; l_state := l_state l; l_control_action := l_control_action l;
  l_expires_at := t; l_created_at := l_created_at l |}.

Definition with_control (action : string) (l : ExecutionLease) : ExecutionLease := {|
  l_execution_id := l_execution_id l; l_company_id := l_company_id l;
  l_resource_id := l_resource_id l; l_intent_hash := l_intent_hash l; l_run_id := l_run_id l;
  l_owner_id := l_owner_id l; l_state := l_state l; l_control_action := action;
  l_expires_at := l_expires_at l; l_created_at := l_created_at l |}.

Definition get_lease (id_ : string) (d : DB) : option ExecutionLease :=
  get_row l_execution_id id_ (t_leases d).

Definition update_lease (id_ : string) (f : ExecutionLease → ExecutionLease) : M Session unit :=
  update_db (λ d, set_leases (update_row l_execution_id id_ f (t_leases d)) d).

(** [work:{work_item_id}] or [agent:{agent_id}] *)
Definition resource_of (agent : AgentRoleRecord) (work_item_id : option string) : string :=
  if truthy work_item_id then "work:" +:+ str_or_empty work_item_id
  else "agent:" +:+ role_agent_id agent.

(** The columns of a work item that dispatch writes. *)
Definition with_work_status (st : string) (now : instant) (r : WorkItemRecord) : WorkItemRecord := {|
  wi_work_item_id := wi_work_item_id r; wi_company_id := wi_company_id r; wi_title := wi_title r;
  wi_description := wi_description r; wi_record_status := Some (Str st);
  wi_priority := wi_priority r; wi_goal_id := wi_goal_id r;
  wi_owner_agent_id := wi_owner_agent_id r; wi_owner_user_id := wi_owner_user_id r;
  wi_source := wi_source r; wi_external_ref := wi_external_ref r;
  wi_dependencies := wi_dependencies r; wi_approval_required := wi_approval_required r;
  wi_metadata := wi_metadata r; wi_created_at := wi_created_at r; wi_updated_at := of_utc now |}.

(** A new attempt forgets the acceptance of the previous one. *)
Definition without_acceptance (r : WorkItemRecord) : WorkItemRecord := {|
  wi_work_item_id := wi_work_item_id r; wi_company_id := wi_company_id r; wi_title := wi_title r;
  wi_description := wi_description r; wi_record_status := wi_record_status r;
  wi_priority := wi_priority r; wi_goal_id := wi_goal_id r;
  wi_owner_agent_id := wi_owner_agent_id r; wi_owner_user_id := wi_owner_user_id r;
  wi_source := wi_source r; wi_external_ref := wi_external_ref r;
  wi_dependencies := wi_dependencies r; wi_approval_required := wi_approval_required r;
  wi_metadata := dict_pop (dict_pop (wi_metadata r) "acceptance_id") "accepted_artifact_id";
  wi_created_at := wi_created_at r; wi_updated_at := wi_updated_at r |}.

Definition get_work_item (id_ : string) (d : DB) : option WorkItemRecord :=
  get_row wi_work_item_id id_ (t_work_items d).

Definition work_status (r : WorkItemRecord) : option string := str_of <$> wi_record_status r.
Definition approval_row_status (r : ApprovalRequestRecord) : option string :=
  str_of <$> approval_record_status r.

(** The approval is spent on one execution. *)
Definition consume_approval (execution_id id_ : string) (r : ApprovalRequestRecord)
    : ApprovalRequestRecord := {|
  approval_id := approval_id r; approval_company_id := approval_company_id r;
  approval_category := approval_category r; approval_record_status := approval_record_status r;
  approval_requested_by := approval_requested_by r;
  approval_source_agent_id := approval_source_agent_id r;
  approval_proposed_action := approval_proposed_action r; approval_reason := approval_reason r;
  approval_risk := approval_risk r; approval_rollback_note := approval_rollback_note r;
  approval_affected_resources := approval_affected_resources r;
  approval_artifact_links := approval_artifact_links r; approval_run_id := Some id_;
  approval_work_item_id := approval_work_item_id r; approval_goal_id := approval_goal_id r;
  approval_trace_id := approval_trace_id r; approval_resolved_by := approval_resolved_by r;
  approval_resolved_at := approval_resolved_at r; approval_expires_at := approval_expires_at r;
  approval_metadata := dict_set (approval_metadata r) "consumed_execution_id" (PStr execution_id);
  approval_created_at := approval_created_at r; approval_updated_at := approval_updated_at r |}.

(** The latest run of the agent: by start, then by identifier, descending. *)
Definition run_newer (a b : AgentRunRecord) : bool :=
  let ta := as_utc (run_started_at a) in let tb := as_utc (run_started_at b) in
  (tb <? ta) || (ta =? tb) && str_leb (run_id b) (run_id a).
Definition latest_run (company agent : string) (d : DB) : option AgentRunRecord :=
  head (py_sorted run_newer
    (filter (λ r, run_company_id r = company ∧ run_agent_id r = agent) (t_runs d))).

(** The active policies of the company, in lock order. *)
Definition active_policies (company : string) (d : DB) : list BudgetPolicyRecord :=
  py_sorted (λ a b, str_leb (bp_budget_id a) (bp_budget_id b))
    (filter (λ p, bp_company_id p = company ∧ bp_status p = Some "active") (t_policies d)).

Definition policy_applies (agent current : AgentRoleRecord) (work_item_id goal : option string)
    (p : BudgetPolicyRecord) : bool :=
  let scope := str_of (bp_scope p) in
  bool_decide (scope = "company")
  || bool_decide (scope = "agent") && bool_decide (bp_scope_id p = Some (role_agent_id agent))
  || bool_decide (scope = "work_item") && bool_decide (bp_scope_id p = work_item_id)
  || bool_decide (scope = "goal") && bool_decide (bp_scope_id p = goal)
  || bool_decide (Some (bp_budget_id p) = role_budget_policy_id current).

(** [Decimal(str(consumed or 0))] of a float the database returned *)
Definition consumed_decimal (f : float) : decimal :=
  match f with
  | S754_zero _ => dec_zero
  | _ => default DNaN (decimal_of_float f)
  end.

(** The primary key of a reservation *)
Definition rv_key (r : ExecutionReservation) : string * string := (rv_execution_id r, rv_budget_id r).

(** The exact sum of a NUMERIC column, in units of [10 ^ -6]. *)
Definition micro (x : decimal) : Z :=
  match x with
  | DFin s c e => if 0 <=? e + 6 then signed s c * 10 ^ (e + 6) else signed s c / 10 ^ (- (e + 6))
  | _ => 0
  end.
Definition of_micro (n : Z) : decimal :=
  if n =? 0 then dec_zero else DFin (n <? 0) (Z.abs_N n) (-6).
Definition reserved_rows (budget_id : string) (d : DB) : list ExecutionReservation :=
  filter (λ r, rv_budget_id r = budget_id ∧ rv_state r = Reserved) (t_reservations d).
Definition reserved_decimal (budget_id : string) (d : DB) : decimal :=
  of_micro (foldr Z.add 0 ((λ r, micro (rv_amount_usd r)) <$> reserved_rows budget_id d)).

Definition usages_since (budget_id : string) (start : instant) (d : DB) : list BudgetUsageRecord :=
  filter (λ u, bu_budget_id u = budget_id ∧ start ≤ as_utc (bu_created_at u)) (t_usages d).

(** [str(config.get("model") or config.get("target_model") or "")] *)
Definition executor_model (current : AgentRoleRecord) : string :=
  let config := role_adapter_config current in
  py_str (py_or (py_or (dget config "model") (dget config "target_model")) (PStr "")).

(** [v == "text"] for a value of a JSON column or payload *)
Definition is_str (v : pyval) (s : string) : bool :=
  match v with PStr x | PEnum x => bool_decide (x = s) | _ => false end.
(** [v is True] *)
Definition is_true (v : pyval) : bool := match v with PBool true => true | _ => false end.

Definition denied {A} (reason : string) (status : Z) : M Session A :=
  raiseM (ExecutionDenied reason status).

Section ledger.
Context {E : Env}.

Definition _audit (company_id resource action actor_id : string) (detail : pydict)
    : M Session unit :=
  ev ← new_audit company_id action "execution" resource "operator" actor_id None None None detail;
  _ ← append_audit_event ev;
  mret ().

Definition _transition_work (work : WorkItemRecord) (state actor_id : string) : M Session unit :=
  aggregate ← liftM (WorkItem.transition_to (WorkItem.from_record work) (Some (Str state)));
  st ← liftM (WorkItem.status aggregate);
  now ← now_utc;
  _ ← update_db (λ d, set_work_items
        (update_row wi_work_item_id (wi_work_item_id work) (with_work_status (value st) now)
           (t_work_items d)) d);
  append_control_plane_domain_event_audits (EvWorkItem <$> (WorkItem.pull_events aggregate).1)
    {| ctx_actor_type := "operator"; ctx_actor_id := actor_id; ctx_trace_id := None;
       ctx_run_id := None; ctx_work_item_id := Some (wi_work_item_id work);
       ctx_detail := [("status", PStr state)] |}.

(** Returns the state the lease has afterwards. *)
Definition _mark_abandoned (lease : ExecutionLease) (now : instant) : M Session LeaseState :=
  if decide (l_state lease = LeaseState_RUNNING ∧ l_expires_at lease ≤ now) then
    _ ← update_lease (l_execution_id lease) (with_lease_state LeaseState_RECOVERY_REQUIRED);
    _ ← _audit (l_company_id lease) (l_resource_id lease) "execution.recovery_required" "system"
          [("execution_id", PStr (l_execution_id lease)); ("automatic_replay", PBool false)];
    _ ← checkpoint;
    mret LeaseState_RECOVERY_REQUIRED
  else mret (l_state lease).

(** A lease is in the way: mark it if it expired, and refuse. *)
Definition refuse_held {A} (lease : ExecutionLease) (now : instant) : M Session A :=
  st ← _mark_abandoned lease now;
  denied (if decide (st = LeaseState_RECOVERY_REQUIRED) then "execution_recovery_required"
          else "execution_in_progress") 409.

(** ** The stages of a claim *)

Definition check_heartbeat (a : claim_args) (current : AgentRoleRecord) (now : instant)
    : M Session unit :=
  if is_str (dget (ca_payload a) "trigger") "heartbeat" then
    latest ← query (latest_run (role_company_id (ca_agent a)) (role_agent_id (ca_agent a)));
    config ← liftM (WakeupAdapter.from_agent_role current);
    interval ← liftM (heartbeat_interval_seconds config);
    match latest with
    | Some r =>
        let last := as_utc (default (run_started_at r) (run_completed_at r)) in
        raise_ifM (now - last <? interval * us_per_second)
          (ExecutionDenied "heartbeat_interval_not_elapsed" 409)
    | None => mret ()
    end
  else mret ().

Definition check_work (a : claim_args) : M Session (option WorkItemRecord) :=
  if truthy (ca_work_item_id a) then
    work ← query (get_work_item (str_or_empty (ca_work_item_id a)));
    match work with
    | None => denied "work_item_not_found" 404
    | Some w =>
        _ ← raise_ifM (negb (bool_decide (wi_company_id w = role_company_id (ca_agent a))))
              (ExecutionDenied "work_item_not_found" 404);
        _ ← raise_ifM (bool_decide (work_status w ∈ [Some "completed"; Some "cancelled"]))
              (ExecutionDenied "work_item_closed" 409);
        _ ← forM (wi_dependencies w) (λ dependency_id,
              dependency ← query (get_work_item dependency_id);
              match dependency with
              | Some dep =>
                  raise_ifM (negb (bool_decide (wi_company_id dep = wi_company_id w))
                             || negb (bool_decide (work_status dep = Some "completed")))
                    (ExecutionDenied "work_item_dependency_not_accepted" 403)
              | None => denied "work_item_dependency_not_accepted" 403
              end);
        mret (Some w)
    end
  else mret None.

Definition bound_approvals (a : claim_args) (digest : string) (now : instant) (d : DB)
    : list ApprovalRequestRecord :=
  filter (λ r, from_option (λ t, now <? as_utc t) false (approval_expires_at r) = true)
    (filter (λ r, approval_company_id r = role_company_id (ca_agent a)
                  ∧ approval_source_agent_id r = role_agent_id (ca_agent a)
                  ∧ is_str (dget (approval_metadata r) "execution_intent_hash") digest = true)
       (t_approvals d)).

Definition usable_approval (r : ApprovalRequestRecord) : bool :=
  bool_decide (approval_row_status r = Some "approved")
  && negb (py_bool (dget (approval_metadata r) "consumed_execution_id")).

Definition execution_approval (a : claim_args) (resource digest : string) (ceiling : decimal)
    (now : instant) : M Session ApprovalRequestRecord :=
  approval_id_ ← generate_id "apr";
  created ← now_utc;
  updated ← now_utc;
  liftM (validate_approval {|
    approval_id := approval_id_; approval_company_id := role_company_id (ca_agent a);
    approval_category := Member ApprovalCategory_TECHNICAL;
    approval_record_status := Some (Member ApprovalStatus_PENDING);
    approval_requested_by := ca_actor_id a;
    approval_source_agent_id := role_agent_id (ca_agent a);
    approval_proposed_action := "Execute " +:+ resource +:+ " using " +:+ role_adapter_type (ca_agent a);
    approval_reason := "Review the bound dispatch intent before any executor call.";
    approval_risk := "The executor can produce external effects and incur the declared cost ceiling.";
    approval_rollback_note := "Pause the role; uncertain external effects require reconciliation.";
    approval_affected_resources := [resource]; approval_artifact_links := [];
    approval_run_id := None; approval_work_item_id := ca_work_item_id a;
    approval_goal_id := ca_goal_id a; approval_trace_id := None; approval_resolved_by := None;
    approval_resolved_at := None;
    approval_expires_at := Some (of_utc (now + 24 * us_per_hour));
    approval_metadata :=
      [("execution_intent_hash", PStr digest); ("execution_key", PStr (ca_idempotency_key a));
       ("reviewed_parameters", PDict (audit_detail_for_storage (Some (ca_payload a))));
       ("reviewed_adapter_type", PStr (role_adapter_type (ca_agent a)));
       ("cost_ceiling_usd", PStr (dec_str ceiling))];
    approval_created_at := of_utc created; approval_updated_at := of_utc updated |}).

Definition requires_approval (current : AgentRoleRecord) (work : option WorkItemRecord) : bool :=
  match work with Some w => wi_approval_required w | None => false end
  || is_true (dget (role_escalation_policy current) "approval_required").

(** The approval that admits this very intent, if one is required. *)
Definition check_approval (a : claim_args) (current : AgentRoleRecord)
    (work : option WorkItemRecord) (resource digest : string) (ceiling : decimal) (now : instant)
    : M Session (option ApprovalRequestRecord) :=
  if requires_approval current work then
    valid ← query (bound_approvals a digest now);
    match head (filter (λ r, usable_approval r = true) valid) with
    | Some approved => mret (Some approved)
    | None =>
        _ ← whenM (negb (existsb (λ r, bool_decide (approval_row_status r = Some "pending")) valid))
              (request ← execution_approval a resource digest ceiling now;
               _ ← request_approval request; mret ());
        _ ← match work with
            | Some w => _transition_work w "awaiting_approval" (ca_actor_id a)
            | None => mret ()
            end;
        _ ← _audit (role_company_id (ca_agent a)) resource "execution.approval_required"
              (ca_actor_id a) [("intent_hash", PStr digest)];
        _ ← checkpoint;
        denied "execution_approval_required" 403
    end
  else mret None.

(** One policy admits the ceiling on top of what is consumed and reserved. *)
Definition check_policy (current : AgentRoleRecord) (ceiling : decimal) (now : instant)
    (policy : BudgetPolicyRecord) : M Session unit :=
  _ ← raise_ifM (negb (bool_decide (bp_model_allowlist policy = []))
                 && negb (bool_decide (executor_model current ∈ bp_model_allowlist policy)))
        (ExecutionDenied "execution_model_not_allowed" 403);
  start ← liftM (period_start (str_of (bp_period policy)) now);
  d ← query id;
  let consumed := consumed_decimal (sql_sum (bu_cost_usd <$> usages_since (bp_budget_id policy) start d)) in
  let total := dec_add (dec_add consumed (reserved_decimal (bp_budget_id policy) d)) ceiling in
  match dec_compare total (default DNaN (decimal_of_float (bp_limit_usd policy))) with
  | None => raiseM (Exn "InvalidOperation" "comparison involving NaN")
  | Some Gt => denied "execution_budget_exceeded" 403
  | Some _ => mret ()
  end.

Definition check_budgets (a : claim_args) (current : AgentRoleRecord) (ceiling : decimal)
    (now : instant) : M Session (list BudgetPolicyRecord) :=
  policies ← query (active_policies (role_company_id (ca_agent a)));
  let selected := filter (λ p, policy_applies (ca_agent a) current (ca_work_item_id a)
                                 (ca_goal_id a) p = true) policies in
  _ ← raise_ifM (dec_ltb dec_zero ceiling && bool_decide (selected = []))
        (ExecutionDenied "execution_budget_required" 403);
  _ ← raise_ifM (truthy (role_budget_policy_id current)
                 && negb (existsb (λ p, bool_decide (Some (bp_budget_id p) = role_budget_policy_id current))
                            selected))
        (ExecutionDenied "execution_budget_inactive" 403);
  _ ← forM selected (check_policy current ceiling now);
  mret selected.

(** Insert the lease and spend the approval: one flush. *)
Definition insert_lease (lease : ExecutionLease) (approved : option ApprovalRequestRecord)
    : M Session unit :=
  d ← query id;
  _ ← raise_ifM (bool_decide (l_execution_id lease ∈ l_execution_id <$> t_leases d)
                 || bool_decide (l_run_id lease ∈ l_run_id <$> t_leases d)
                 || negb (company_fk d (l_company_id lease)))
        (integrity_error "control_plane_execution_leases");
  _ ← update_db (λ d, set_leases (t_leases d ++ [lease]) d);
  match approved with
  | None => mret ()
  | Some r =>
      _ ← raise_ifM (negb (run_fk d (Some (l_run_id lease))))
            (integrity_error "control_plane_approval_requests.run_id");
      update_db (λ d, set_approvals
        (update_row approval_id (approval_id r) (consume_approval (l_execution_id lease) (l_run_id lease))
           (t_approvals d)) d)
  end.

Definition insert_reservations (rows : list ExecutionReservation) : M Session unit :=
  d ← query id;
  _ ← raise_ifM (negb (bool_decide (NoDup (rv_key <$> t_reservations d ++ rows))))
        (integrity_error "control_plane_execution_reservations");
  update_db (λ d, set_reservations (t_reservations d ++ rows) d).

Definition reservation_for (execution_id : string) (ceiling : decimal) (now : instant)
    (p : BudgetPolicyRecord) : ExecutionReservation := {|
  rv_execution_id := execution_id; rv_budget_id := bp_budget_id p; rv_amount_usd := ceiling;
  rv_state := Reserved; rv_created_at := now |}.

Definition dispatch_digest (a : claim_args) (intent : string) : string :=
  sha256_hex (intent +:+ ":" +:+ ca_idempotency_key a +:+ ":" +:+ ca_actor_id a).
Definition execution_id_of (company key : string) : string := sha256_hex (company +:+ ":" +:+ key).

(** The lease that holds the resource. *)
Definition active_lease (company resource : string) (d : DB) : option ExecutionLease :=
  head (filter (λ l, l_company_id l = company ∧ l_resource_id l = resource ∧ lease_active l = true)
          (t_leases d)).

(** The dispatch itself, once every check has passed. *)
Definition grant (a : claim_args) (execution_id resource digest : string) (ceiling : decimal)
    (now : instant) (work : option WorkItemRecord) (approved : option ApprovalRequestRecord)
    (owner : string) (selected : list BudgetPolicyRecord) : M Session ExecutionTicket :=
  _ ← insert_lease {| l_execution_id := execution_id; l_company_id := role_company_id (ca_agent a);
                      l_resource_id := resource; l_intent_hash := digest; l_run_id := ca_run_id a;
                      l_owner_id := owner; l_state := LeaseState_RUNNING;
                      l_control_action := "resume"; l_expires_at := now + 1000 * us_per_second;
                      l_created_at := now |} approved;
  _ ← insert_reservations (reservation_for execution_id ceiling now <$> selected);
  _ ← match work with
      | Some w =>
          _ ← _transition_work w "running" (ca_actor_id a);
          update_db (λ d, set_work_items
            (update_row wi_work_item_id (wi_work_item_id w) without_acceptance (t_work_items d)) d)
      | None => mret ()
      end;
  _ ← _audit (role_company_id (ca_agent a)) resource "execution.claimed" (ca_actor_id a)
        [("execution_id", PStr execution_id); ("intent_hash", PStr digest);
         ("ceiling_usd", PStr (dec_str ceiling))];
  mret {| tk_execution_id := execution_id; tk_run_id := ca_run_id a; tk_owner_id := owner;
          tk_ceiling_usd := ceiling; tk_replay := false |}.

Definition get_role (company agent : string) (d : DB) : option AgentRoleRecord :=
  head (filter (λ r, role_company_id r = company ∧ role_agent_id r = agent) (t_roles d)).

Definition _claim (a : claim_args) : M Session ExecutionTicket :=
  let agent := ca_agent a in
  now ← now_utc;
  company ← query (λ d, get_row cc_company_id (role_company_id agent) (t_companies d));
  _ ← raise_ifM (negb (bool_decide (is_Some company))) (ExecutionDenied "company_not_found" 404);
  row ← query (get_role (role_company_id agent) (role_agent_id agent));
  match row with
  | None => denied "agent_not_found" 404
  | Some current =>
      ceiling ← liftM (authorize_adapter current);
      intent ← liftM (intent_hash sha256_hex current (ca_payload a) (ca_work_item_id a));
      requested ← liftM (intent_hash sha256_hex agent (ca_payload a) (ca_work_item_id a));
      _ ← raise_ifM (negb (bool_decide (intent = requested)))
            (ExecutionDenied "execution_configuration_changed" 409);
      let digest := dispatch_digest a intent in
      let execution_id := execution_id_of (role_company_id agent) (ca_idempotency_key a) in
      existing ← query (get_lease execution_id);
      match existing with
      | Some lease =>
          if decide (l_intent_hash lease ≠ digest) then denied "idempotency_key_conflict" 409
          else if decide (l_state lease ∈ [LeaseState_SUCCEEDED; LeaseState_FAILED])
          then mret {| tk_execution_id := execution_id; tk_run_id := l_run_id lease;
                       tk_owner_id := l_owner_id lease; tk_ceiling_usd := ceiling;
                       tk_replay := true |}
          else refuse_held lease now
      | None =>
          let resource := resource_of agent (ca_work_item_id a) in
          active ← query (active_lease (role_company_id agent) resource);
          match active with
          | Some lease => refuse_held lease now
          | None =>
              _ ← check_heartbeat a current now;
              work ← check_work a;
              approved ← check_approval a current work resource digest ceiling now;
              owner ← uuid4;
              selected ← check_budgets a current ceiling now;
              grant a execution_id resource digest ceiling now work approved owner selected
          end
      end
  end.

Definition claim (a : claim_args) : M Session ExecutionTicket :=
  catchM (_claim a) (λ e,
    match e with
    | ExecutionDenied reason _ =>
        let agent := ca_agent a in
        company ← query (λ d, get_row cc_company_id (role_company_id agent) (t_companies d));
        _ ← whenM (bool_decide (is_Some company))
              (_ ← _audit (role_company_id agent) (resource_of agent (ca_work_item_id a))
                     "execution.denied" (ca_actor_id a)
                     [("reason", PStr reason); ("external_dispatch", PBool false)];
               checkpoint);
        raiseM e
    | _ => raiseM e
    end).

(** ** After the dispatch *)

Definition control_action (t : ExecutionTicket) : M Session string :=
  value_ ← query (λ d, head (filter (λ l, l_execution_id l = tk_execution_id t
                                       ∧ l_owner_id l = tk_owner_id t) (t_leases d)));
  mret (match value_ with
        | Some l => if str_empty (l_control_action l) then "terminate" else l_control_action l
        | None => "terminate"
        end).

Definition mark_uncertain (t : ExecutionTicket) : M Session unit :=
  o ← query (get_lease (tk_execution_id t));
  match o with
  | None => denied "execution_owner_lost" 409
  | Some lease =>
      if decide (l_owner_id lease ≠ tk_owner_id t) then denied "execution_owner_lost" 409
      else
        now ← now_utc;
        _ ← update_lease (l_execution_id lease)
              (λ l, with_expiry now (with_lease_state LeaseState_RECOVERY_REQUIRED l));
        _ ← _audit (l_company_id lease) (l_resource_id lease) "execution.effects_uncertain" "system"
              [("run_id", PStr (tk_run_id t)); ("automatic_replay", PBool false)];
        checkpoint
  end.

Definition lease_of_run (company id_ : string) (d : DB) : option ExecutionLease :=
  head (filter (λ l, l_company_id l = company ∧ l_run_id l = id_) (t_leases d)).

Definition request_control (id_ company action reason actor_id : string) : M Session pydict :=
  lease_ ← query (lease_of_run company id_);
  run_ ← query (get_agent_run id_);
  match lease_, run_ with
  | Some lease, Some run =>
      role_ ← query (get_role company (run_agent_id run));
      match role_ with
      | None => denied "agent_not_found" 404
      | Some role =>
          _ ← liftM (validate_execution_control (role_adapter_type role) action
                       (value (l_state lease)));
          _ ← update_lease (l_execution_id lease) (with_control action);
          _ ← _audit company (l_resource_id lease) ("execution." +:+ action +:+ "_requested")
                actor_id [("run_id", PStr id_); ("reason", PStr reason)];
          mret [("run_id", PStr id_); ("requested_action", PStr action); ("state", PStr "requested")]
      end
  | _, _ => denied "execution_not_found" 404
  end.

(** ** Settlement *)
Definition settle_row (r : ExecutionReservation) : ExecutionReservation := {|
  rv_execution_id := rv_execution_id r; rv_budget_id := rv_budget_id r;
  rv_amount_usd := rv_amount_usd r; rv_state := Settled; rv_created_at := rv_created_at r |}.

Definition execution_usage (company budget_id id_ execution_id : string) (cost : decimal)
    (failed estimated : bool) : M Session BudgetUsageRecord :=
  usage_id ← generate_id "busg";
  now ← now_utc;
  liftM (validate_usage {|
    bu_usage_id := usage_id; bu_company_id := company; bu_budget_id := budget_id;
    bu_cost_usd := float_of_decimal cost; bu_model := Some "executor";
    bu_input_tokens := Some 0; bu_output_tokens := Some 0; bu_run_id := Some id_;
    bu_trace_id := None;
    bu_metadata := Some [("execution_id", PStr execution_id); ("failed_attempt", PBool failed);
                         ("charged_ceiling", PBool estimated)];
    bu_created_at := of_utc now |}).

Definition settle_reservation (lease : ExecutionLease) (t : ExecutionTicket) (cost : decimal)
    (failed estimated : bool) (r : ExecutionReservation) : M Session unit :=
  if decide (rv_state r ≠ Reserved) then denied "execution_already_settled" 409
  else
    _ ← update_db (λ d, set_reservations (update_row rv_key (rv_key r) settle_row (t_reservations d)) d);
    usage ← execution_usage (l_company_id lease) (rv_budget_id r) (tk_run_id t)
              (tk_execution_id t) cost failed estimated;
    _ ← record_budget_usage usage;
    mret ().

Definition with_run_cost (cost : float) (estimated : bool) (r : AgentRunRecord) : AgentRunRecord := {|
  run_id := run_id r; run_company_id := run_company_id r; run_agent_id := run_agent_id r;
  run_record_status := run_record_status r; run_trace_id := run_trace_id r;
  run_goal_id := run_goal_id r; run_work_item_id := run_work_item_id r;
  run_trigger_event_id := run_trigger_event_id r; run_input_event := run_input_event r;
  run_output_events := run_output_events r; run_started_at := run_started_at r;
  run_completed_at := run_completed_at r; run_error_category := run_error_category r;
  run_error_message := run_error_message r; run_last_successful_step := run_last_successful_step r;
  run_cost_usd := cost; run_input_tokens := run_input_tokens r;
  run_output_tokens := run_output_tokens r;
  run_metadata := dict_set (run_metadata r) "cost_is_estimate" (PBool estimated) |}.

Definition reservations_of (execution_id : string) (d : DB) : list ExecutionReservation :=
  filter (λ r, rv_execution_id r = execution_id) (t_reservations d).

Definition settle (t : ExecutionTicket) (cost : decimal) (failed estimated : bool) : M Session unit :=
  lease_ ← query (get_lease (tk_execution_id t));
  match lease_ with
  | None => denied "execution_owner_lost" 409
  | Some lease =>
      if decide (l_owner_id lease ≠ tk_owner_id t ∨ l_state lease ≠ LeaseState_RUNNING)
      then denied "execution_owner_lost" 409
      else
        reservations ← query (reservations_of (tk_execution_id t));
        _ ← forM reservations (settle_reservation lease t cost failed estimated);
        run_ ← query (λ d, head (filter (λ r, run_id r = tk_run_id t
                                           ∧ run_company_id r = l_company_id lease) (t_runs d)));
        match run_ with
        | None => denied "execution_run_not_found" 409
        | Some run =>
            _ ← update_db (λ d, set_runs (update_row run_id (run_id run)
                  (with_run_cost (float_of_decimal cost) estimated) (t_runs d)) d);
            update_lease (l_execution_id lease)
              (with_lease_state (if failed then LeaseState_FAILED else LeaseState_SUCCEEDED))
        end
  end.

(** [max((r.amount_usd for r in reservations), default=Decimal(0))] *)
Definition max_amount (rows : list ExecutionReservation) : decimal :=
  match rows with
  | [] => dec_zero
  | r :: rows' => foldl (λ m r, if dec_ltb m (rv_amount_usd r) then rv_amount_usd r else m)
                    (rv_amount_usd r) rows'
  end.

Definition recover (id_ company reason actor_id : string) : M Session pydict :=
  lease_ ← query (lease_of_run company id_);
  match lease_ with
  | None => denied "execution_not_found" 404
  | Some lease =>
      now ← now_utc;
      if negb (lease_active lease) || (now <? l_expires_at lease)
      then denied "execution_not_abandoned" 409
      else
        _ ← update_lease (l_execution_id lease) (with_lease_state LeaseState_RUNNING);
        reservations ← query (reservations_of (l_execution_id lease));
        let ceiling := max_amount reservations in
        _ ← settle {| tk_execution_id := l_execution_id lease; tk_run_id := l_run_id lease;
                      tk_owner_id := l_owner_id lease; tk_ceiling_usd := ceiling;
                      tk_replay := false |} ceiling true true;
        run_ ← query (get_agent_run id_);
        _ ← match run_ with
            | Some run =>
                if decide (str_of (run_record_status run) = "running") then
                  role_ ← query (get_role company (run_agent_id run));
                  match role_ with
                  | None => denied "recovery_agent_required" 409
                  | Some role =>
                      fail_agent_wakeup_run role id_ (dict_or_empty (run_input_event run)) actor_id
                        (run_trace_id run) (run_goal_id run) (run_work_item_id run)
                        "operator_reconciliation" "operator_reconciled_abandoned_execution"
                        "external_effects_reviewed" false
                  end
                else mret ()
            | None => mret ()
            end;
        _ ← (if str_startswith "work:" (l_resource_id lease) then
               work_ ← query (get_work_item (str_drop 5 (l_resource_id lease)));
               match work_ with
               | Some work => _transition_work work "failed" actor_id
               | None => mret ()
               end
             else mret ());
        _ ← _audit company (l_resource_id lease) "execution.reconciled" actor_id
              [("run_id", PStr id_); ("reason", PStr reason); ("automatic_replay", PBool false)];
        mret [("run_id", PStr id_); ("state", PStr "failed");
              ("handoff", PStr "operator_reviewed_retry")]
  end.
End ledger.
