(* ===== verification/ExecutionInvariants.v ===== *)
(** * Invariants of the dispatch ledger

    The ledger invariant and its preservation by every ledger operation: a
    resource has at most one active lease, a reservation is held exactly while
    its lease is active, and a settled reservation has been charged exactly
    once. *)

From S2P Require Import Prelude PyNum PyTime PyValue Models Metadata Budget.
From S2P Require Import Store Frames AgentRunLifecycle ExecutionLedger.

(** The execution a usage row was charged for. *)
Definition usage_execution (u : BudgetUsageRecord) : pyval :=
  dget (dict_or_empty (bu_metadata u)) "execution_id".
Definition charges (e b : string) (u : BudgetUsageRecord) : bool :=
  bool_decide (bu_budget_id u = b) && is_str (usage_execution u) e.
Definition charge_count (e b : string) (us : list BudgetUsageRecord) : nat :=
  length (filter (λ u, charges e b u = true) us).
#[global] Arguments charge_count : simpl never.

Record ledger_inv (d : DB) : Prop := {
  inv_execution_id : NoDup (l_execution_id <$> t_leases d);
  inv_run_id : NoDup (l_run_id <$> t_leases d);
  (** one active lease per resource of a company *)
  inv_active : ∀ a b, a ∈ t_leases d → b ∈ t_leases d →
    lease_active a = true → lease_active b = true →
    l_company_id a = l_company_id b → l_resource_id a = l_resource_id b →
    l_execution_id a = l_execution_id b;
  inv_reservation_key : NoDup (rv_key <$> t_reservations d);
  (** held exactly while the lease is active *)
  inv_held : ∀ r, r ∈ t_reservations d → ∃ l, l ∈ t_leases d
    ∧ l_execution_id l = rv_execution_id r ∧ (rv_state r = Reserved ↔ lease_active l = true);
  (** charged once when settled, not at all before *)
  inv_charged : ∀ r, r ∈ t_reservations d →
    charge_count (rv_execution_id r) (rv_budget_id r) (t_usages d)
    = (if decide (rv_state r = Settled) then 1 else 0)%nat;
  inv_usage_lease : ∀ u e, u ∈ t_usages d → is_str (usage_execution u) e = true →
    ∃ l, l ∈ t_leases d ∧ l_execution_id l = e;
  (** identifiers carry no surrounding blanks *)
  inv_policy_id : ∀ p, p ∈ t_policies d → strip (bp_budget_id p) = bp_budget_id p;
  inv_reserved_id : ∀ r, r ∈ t_reservations d → strip (rv_budget_id r) = rv_budget_id r;
}.

Lemma ledger_inv_ext d d' : ledger d' = ledger d → ledger_inv d → ledger_inv d'.
Proof.
  unfold ledger. intros [= H1 H2 H3 H4] []. constructor; rewrite ?H1, ?H2, ?H3, ?H4; auto.
Qed.

(** The invariant of the working copy and of the committed tables. *)
Definition good (s : Session) : Prop := ledger_inv (db s) ∧ ledger_inv (durable s).

Lemma good_stable : ledger_stable good.
Proof. intros s s' H1 H2 [H H']. split; [by eapply ledger_inv_ext | by rewrite H2]. Qed.

#[export] Hint Resolve good_stable : cell.

(** ** Small facts *)
Lemma active_lease_None company resource d :
  active_lease company resource d = None →
  ∀ l, l ∈ t_leases d → lease_active l = true → l_company_id l = company →
  l_resource_id l = resource → False.
Proof.
  unfold active_lease. intros H%head_None l Hl Ha Hc Hr.
  assert (l ∈ filter (λ l, l_company_id l = company ∧ l_resource_id l = resource
                          ∧ lease_active l = true) (t_leases d)) as Hin
    by (apply list_elem_of_filter; auto).
  rewrite H in Hin. by apply not_elem_of_nil in Hin.
Qed.

Lemma active_lease_Some company resource d l :
  active_lease company resource d = Some l →
  l ∈ t_leases d ∧ lease_active l = true ∧ l_company_id l = company ∧ l_resource_id l = resource.
Proof.
  unfold active_lease. intros H%head_Some_elem_of. apply list_elem_of_filter in H. naive_solver.
Qed.

(** ** Changing a lease without ending or reviving it *)
Definition same_identity (f : ExecutionLease → ExecutionLease) : Prop :=
  ∀ l, l_execution_id (f l) = l_execution_id l ∧ l_run_id (f l) = l_run_id l
       ∧ l_company_id (f l) = l_company_id l ∧ l_resource_id (f l) = l_resource_id l.

Lemma update_lease_inv id_ f d :
  same_identity f →
  (∀ l, l ∈ t_leases d → l_execution_id l = id_ → lease_active (f l) = lease_active l) →
  ledger_inv d → ledger_inv (set_leases (update_row l_execution_id id_ f (t_leases d)) d).
Proof.
  intros Hid Hact [].
  assert (∀ l, l ∈ update_row l_execution_id id_ f (t_leases d) → ∃ l0, l0 ∈ t_leases d
    ∧ l_execution_id l = l_execution_id l0 ∧ l_company_id l = l_company_id l0
    ∧ l_resource_id l = l_resource_id l0 ∧ lease_active l = lease_active l0) as Hback.
  { intros l (l0 & Hl0 & ->)%elem_of_update_row. exists l0. case_decide; [|done].
    destruct (Hid l0) as (? & ? & ? & ?). auto 10. }
  assert (∀ l, l ∈ t_leases d → ∃ l', l' ∈ update_row l_execution_id id_ f (t_leases d)
    ∧ l_execution_id l' = l_execution_id l ∧ lease_active l' = lease_active l) as Hforth.
  { intros l Hl. eexists. split; [apply elem_of_update_row; eauto|]. case_decide; [|done].
    destruct (Hid l) as (? & _). auto. }
  constructor; cbn; try done.
  - rewrite update_row_keys; [done | apply Hid].
  - rewrite (update_row_fmap l_execution_id l_run_id); [done | apply Hid].
  - intros a b (a0 & Ha & -> & -> & -> & ->)%Hback (b0 & Hb & -> & -> & -> & ->)%Hback. eauto.
  - intros r Hr. destruct (inv_held0 r Hr) as (l & Hl & He & Hs).
    destruct (Hforth l Hl) as (l' & Hl' & He' & Ha'). exists l'. split_and!; [done|congruence|].
    by rewrite Ha'.
  - intros u e Hu He. destruct (inv_usage_lease0 u e Hu He) as (l & Hl & Hle).
    destruct (Hforth l Hl) as (l' & Hl' & He' & _). exists l'. split; [done|congruence].
Qed.

Lemma with_lease_state_identity st : same_identity (with_lease_state st).
Proof. by intros l. Qed.

Lemma recovery_active l : lease_active (with_lease_state LeaseState_RECOVERY_REQUIRED l) = true.
Proof. done. Qed.

(** ** The parts that only read or write elsewhere *)
Section frames.
Context {E : Env}.

Lemma audit_framed c r a ac d : framed business (_audit c r a ac d).
Proof. unfold _audit. frame. Qed.
Lemma transition_work_framed w st ac : framed ledger (_transition_work w st ac).
Proof. unfold _transition_work. frame. Qed.
Lemma check_heartbeat_framed a c n : framed business (check_heartbeat a c n).
Proof. unfold check_heartbeat. frame. Qed.
Lemma check_work_framed a : framed business (check_work a).
Proof. unfold check_work, denied. frame. Qed.
Lemma check_policy_framed c ce n p : framed business (check_policy c ce n p).
Proof. unfold check_policy, denied. frame. Qed.
#[local] Hint Resolve check_policy_framed : cell.
Lemma check_budgets_framed a c ce n : framed business (check_budgets a c ce n).
Proof. unfold check_budgets. frame. Qed.
Lemma execution_approval_framed a r d c n : framed business (execution_approval a r d c n).
Proof. unfold execution_approval. frame. Qed.
End frames.

#[export] Hint Resolve audit_framed transition_work_framed check_heartbeat_framed check_work_framed
  check_budgets_framed execution_approval_framed : cell.

(** ** Claims *)
Section claims.
Context {E : Env}.

Lemma checkpoint_good : triple good checkpoint (λ _, good) good.
Proof. intros s r s' [H _] [= <- <-]. by split. Qed.

(** A framed step keeps what is known about the ledger. *)
Lemma good_framed {A} (m : M Session A) (P : Session → Prop) :
  framed ledger m → ledger_stable P →
  triple (λ s, good s ∧ P s) m (λ _ s, good s ∧ P s) good.
Proof.
  intros Hm HP. apply triple_framed; [done| |by intros s []].
  intros s s' H1 H2 [H3 H4]. split; [by eapply good_stable | by eapply HP].
Qed.

Lemma good_framed_only {A} (m : M Session A) : framed ledger m → triple good m (λ _, good) good.
Proof. intros Hm. apply triple_framed; [done | apply good_stable | done]. Qed.

Lemma mark_abandoned_good lease now :
  triple (λ s, good s ∧ lease ∈ t_leases (db s) ∧ lease_active lease = true)
    (_mark_abandoned lease now) (λ _, good) good.
Proof.
  unfold _mark_abandoned. case_decide; [|by apply triple_ret; intros s [? _]].
  apply triple_bind with (R := λ _, good); [|intros [];
    apply triple_bind with (R := λ _, good); [apply good_framed_only; eauto with cell | intros _;
    apply triple_bind with (R := λ _, good); [apply checkpoint_good | intros _; by apply triple_ret]]].
  apply triple_update. intros s ([H1 H2] & Hl & Ha). split; [|done]. cbn.
  apply update_lease_inv; [apply with_lease_state_identity| |done].
  intros l Hl' Hid. rewrite recovery_active.
  assert (l = lease) as -> by (eapply get_row_NoDup; [apply (inv_execution_id _ H1) | done..]).
  done.
Qed.

Lemma refuse_held_good {A} lease now (Q : A → Session → Prop) :
  triple (λ s, good s ∧ lease ∈ t_leases (db s) ∧ lease_active lease = true)
    (refuse_held lease now) Q good.
Proof.
  eapply triple_bind; [apply mark_abandoned_good|]. intros st. by apply triple_raise.
Qed.

Lemma check_approval_good a c w r d ce n (P : Session → Prop) :
  ledger_stable P →
  triple (λ s, good s ∧ P s) (check_approval a c w r d ce n) (λ _ s, good s ∧ P s) good.
Proof.
  intros HP. unfold check_approval. destruct (requires_approval c w); [|by apply triple_ret].
  eapply triple_bind; [apply triple_query|]. intros valid.
  destruct (head _) as [approved|]; [apply triple_ret; intros s H; exact (proj1 H)|].
  apply triple_pre with (P' := λ s, good s ∧ P s); [|by intros s [? _]].
  eapply triple_bind; [apply good_framed; [frame|done]|]. intros ?.
  eapply triple_bind; [apply good_framed; [frame|done]|]. intros ?.
  eapply triple_bind; [apply good_framed; [frame|done]|]. intros ?.
  eapply triple_bind; [eapply triple_pre; [apply checkpoint_good | by intros s []]|].
  intros ?. by apply triple_raise.
Qed.

(** *** The grant *)

(** The resource is free. *)
Definition free (company resource : string) (s : Session) : Prop :=
  active_lease company resource (db s) = None.

Lemma free_stable c r : ledger_stable (free c r).
Proof. intros s s' H _. unfold free, active_lease. injection H as H _ _ _. by rewrite H. Qed.

Lemma insert_lease_inv d lease :
  ledger_inv d → lease_active lease = true →
  active_lease (l_company_id lease) (l_resource_id lease) d = None →
  l_execution_id lease ∉ l_execution_id <$> t_leases d →
  l_run_id lease ∉ l_run_id <$> t_leases d →
  ledger_inv (set_leases (t_leases d ++ [lease]) d).
Proof.
  intros [] Ha Hfree He Hr. constructor; cbn; try done.
  - rewrite fmap_app. apply NoDup_app. split_and!; [done|set_solver|apply NoDup_singleton].
  - rewrite fmap_app. apply NoDup_app. split_and!; [done|set_solver|apply NoDup_singleton].
  - intros a b Hia Hib Haa Hab Hc Hres.
    apply elem_of_app in Hia as [Hia|Hia%list_elem_of_singleton];
    apply elem_of_app in Hib as [Hib|Hib%list_elem_of_singleton]; subst; try done; eauto.
    + exfalso. by eapply active_lease_None.
    + exfalso. by eapply active_lease_None.
  - intros r Hin. destruct (inv_held0 r Hin) as (l & Hl & ?). exists l.
    split; [apply elem_of_app; by left | done].
  - intros u e Hu Hx. destruct (inv_usage_lease0 u e Hu Hx) as (l & Hl & ?). exists l.
    split; [apply elem_of_app; by left | done].
Qed.

(** No usage was charged for an execution without a lease. *)
Lemma charge_count_fresh d e b :
  ledger_inv d → e ∉ l_execution_id <$> t_leases d → charge_count e b (t_usages d) = O.
Proof.
  intros [] He. unfold charge_count. destruct (filter _ _) as [|u us] eqn:Ef; [done|].
  exfalso. apply He. assert (u ∈ filter (λ u, charges e b u = true) (t_usages d)) as Hu
    by (rewrite Ef; left).
  apply list_elem_of_filter in Hu as [Hc Hu]. unfold charges in Hc.
  apply andb_prop in Hc as [_ Hc]. destruct (inv_usage_lease0 u e Hu Hc) as (l & Hl & <-).
  apply list_elem_of_fmap. eauto.
Qed.

(** What the new reservations need. *)
Definition granted (e : string) (s : Session) : Prop :=
  (∃ l, l ∈ t_leases (db s) ∧ l_execution_id l = e ∧ lease_active l = true)
  ∧ ∀ b, charge_count e b (t_usages (db s)) = O.

Lemma insert_lease_good lease approved :
  lease_active lease = true →
  triple (λ s, good s ∧ free (l_company_id lease) (l_resource_id lease) s)
    (insert_lease lease approved) (λ _ s, good s ∧ granted (l_execution_id lease) s) good.
Proof.
  intros Ha. unfold insert_lease.
  eapply triple_bind; [apply triple_query|]. intros d.
  eapply triple_bind; [apply triple_guard; by intros s [[? _] _]|]. intros [].
  eapply triple_bind with (R := λ _ s, good s ∧ granted (l_execution_id lease) s).
  - apply triple_update. intros s ([[[H1 H2] Hfree] ->] & Hb). unfold id in Hb.
    rewrite !orb_false_iff, !bool_decide_eq_false in Hb. destruct Hb as [[He Hr] _].
    split; [split; [|done]|].
    + by apply insert_lease_inv.
    + split; [exists lease; split_and!; [cbn; apply elem_of_app; right; by apply list_elem_of_singleton|done|done]|].
      intros b. cbn. by apply charge_count_fresh.
  - intros []. destruct approved as [r|]; [|by apply triple_ret].
    eapply triple_bind; [apply triple_guard; by intros s []|]. intros [].
    apply triple_update. intros s [[H1 H2] _]. split.
    + by eapply good_stable; [..|exact H1].
    + exact H2.
Qed.

Lemma insert_reservations_inv d rows e :
  ledger_inv d → NoDup (rv_key <$> t_reservations d ++ rows) →
  (∃ l, l ∈ t_leases d ∧ l_execution_id l = e ∧ lease_active l = true) →
  (∀ b, charge_count e b (t_usages d) = O) →
  (∀ r, r ∈ rows → rv_execution_id r = e ∧ rv_state r = Reserved ∧ strip (rv_budget_id r) = rv_budget_id r) →
  ledger_inv (set_reservations (t_reservations d ++ rows) d).
Proof.
  intros [] Hnd (l & Hl & Hle & Hact) Hz Hrows. constructor; cbn; try done.
  - intros r [Hr|Hr]%elem_of_app; [by apply inv_held0|].
    destruct (Hrows r Hr) as (He & Hs & _). exists l. split_and!; [done|congruence|].
    by rewrite Hs, Hact.
  - intros r [Hr|Hr]%elem_of_app; [by apply inv_charged0|].
    destruct (Hrows r Hr) as (He & Hs & _). by rewrite He, Hs, Hz.
  - intros r [Hr|Hr]%elem_of_app; [by apply inv_reserved_id0|]. by apply Hrows.
Qed.

Lemma insert_reservations_good e ceiling now selected :
  triple (λ s, good s ∧ granted e s ∧ ∀ p, p ∈ selected → p ∈ t_policies (db s))
    (insert_reservations (reservation_for e ceiling now <$> selected)) (λ _, good) good.
Proof.
  unfold insert_reservations. eapply triple_bind; [apply triple_query|]. intros d.
  eapply triple_bind; [apply triple_guard; by intros s [[? _] _]|]. intros [].
  apply triple_update. intros s ([([H1 H2] & Hg & Hp) ->] & Hb). split; [|done].
  unfold id in Hb. rewrite negb_false_iff, bool_decide_eq_true in Hb.
  destruct Hg as [Hl Hz]. eapply insert_reservations_inv; [done..|].
  intros r (p & -> & Hin)%list_elem_of_fmap. cbn. split_and!; [done|done|].
  apply (inv_policy_id _ H1). auto.
Qed.

Definition from_policies (selected : list BudgetPolicyRecord) (s : Session) : Prop :=
  ∀ p, p ∈ selected → p ∈ t_policies (db s).

Lemma from_policies_stable l : ledger_stable (from_policies l).
Proof. intros s s' H _ HP p Hp. injection H as _ _ _ H. rewrite H. auto. Qed.

Lemma active_policies_sub company d p : p ∈ active_policies company d → p ∈ t_policies d.
Proof. unfold active_policies. rewrite py_sorted_perm, list_elem_of_filter. by intros [_ ?]. Qed.

Lemma check_budgets_good a c ce n (P : Session → Prop) :
  ledger_stable P →
  triple (λ s, good s ∧ P s) (check_budgets a c ce n)
    (λ selected s, good s ∧ P s ∧ from_policies selected s) good.
Proof.
  intros HP. unfold check_budgets. eapply triple_bind; [apply triple_query|]. intros policies.
  set (sel := filter _ policies).
  apply triple_pre with (P' := λ s, good s ∧ P s ∧ from_policies sel s).
  2: { intros s [[H1 H2] ->]. split_and!; [done..|]. intros p [_ Hp]%list_elem_of_filter.
       by eapply active_policies_sub. }
  assert (ledger_stable (λ s, P s ∧ from_policies sel s)) as HS.
  { intros s s' H1 H2 [H3 H4]. split; [by eapply HP | by eapply from_policies_stable]. }
  eapply triple_bind; [apply good_framed; [frame|done]|]. intros ?.
  eapply triple_bind; [apply good_framed; [frame|done]|]. intros ?.
  eapply triple_bind; [apply good_framed|]; [|done|].
  - apply framed_for. intros p. apply business_ledger, check_policy_framed.
  - intros ?. by apply triple_ret.
Qed.

Lemma grant_good a e r d ce n w ap ow sel :
  triple (λ s, good s ∧ free (role_company_id (ca_agent a)) r s ∧ from_policies sel s)
    (grant a e r d ce n w ap ow sel) (λ _, good) good.
Proof.
  unfold grant.
  apply triple_bind with (R := λ _ s, good s ∧ granted e s ∧ from_policies sel s).
  - intros s res s' (H1 & H2 & H3) Hi.
    pose proof (insert_lease_good {| l_execution_id := e; l_company_id := role_company_id (ca_agent a);
      l_resource_id := r; l_intent_hash := d; l_run_id := ca_run_id a; l_owner_id := ow;
      l_state := LeaseState_RUNNING; l_control_action := "resume";
      l_expires_at := n + 1000 * us_per_second; l_created_at := n |} ap eq_refl s res s'
      (conj H1 H2) Hi) as Hres.
    destruct res; [|done]. destruct Hres as [? ?]. split_and!; [done..|].
    assert (t_policies (db s') = t_policies (db s)) as Hp.
    { assert (framed t_policies (insert_lease {| l_execution_id := e; l_company_id := role_company_id (ca_agent a);
        l_resource_id := r; l_intent_hash := d; l_run_id := ca_run_id a; l_owner_id := ow;
        l_state := LeaseState_RUNNING; l_control_action := "resume";
        l_expires_at := n + 1000 * us_per_second; l_created_at := n |} ap)) as Hf
        by (unfold insert_lease; frame). by apply Hf in Hi as [? _]. }
    intros p Hp'. rewrite Hp. auto.
  - intros ?. apply triple_bind with (R := λ _, good).
    + eapply triple_pre; [apply insert_reservations_good|]. intros s (? & ? & ?). by split_and!.
    + intros ?. apply triple_bind with (R := λ _, good).
      * apply good_framed_only. frame.
      * intros ?. apply triple_bind with (R := λ _, good);
          [apply good_framed_only; eauto with cell | intros ?; by apply triple_ret].
Qed.

Lemma claim_body_good a : triple good (_claim a) (λ _, good) good.
Proof.
  unfold _claim, denied.
  apply triple_bind with (R := λ _, good); [apply good_framed_only; eauto with cell|]. intros now.
  apply triple_bind with (R := λ _, good); [apply good_framed_only; eauto with cell|]. intros company.
  apply triple_bind with (R := λ _, good); [apply good_framed_only; eauto with cell|]. intros ?.
  apply triple_bind with (R := λ _, good); [apply good_framed_only; eauto with cell|].
  intros [current|]; [|by apply triple_raise].
  apply triple_bind with (R := λ _, good); [apply good_framed_only; eauto with cell|]. intros ceiling.
  apply triple_bind with (R := λ _, good); [apply good_framed_only; eauto with cell|]. intros intent.
  apply triple_bind with (R := λ _, good); [apply good_framed_only; eauto with cell|]. intros requested.
  apply triple_bind with (R := λ _, good); [apply good_framed_only; eauto with cell|]. intros ?.
  cbv zeta. eapply triple_bind; [apply triple_query|]. intros [lease|].
  - case_decide; [by apply triple_raise; intros s [? _]|].
    case_decide as Hfin; [by apply triple_ret; intros s [? _]|].
    eapply triple_pre; [apply refuse_held_good|]. intros s [Hg Hl].
    symmetry in Hl. apply get_row_Some in Hl as [Hl _]. split_and!; [done..|].
    clear -Hfin. unfold lease_active. apply bool_decide_eq_true. destruct (l_state lease); set_solver.
  - eapply triple_bind; [eapply triple_pre; [apply triple_query | by intros s [H _]; exact H]|].
    intros [lease|].
    + eapply triple_pre; [apply refuse_held_good|]. intros s [Hg Hl].
      symmetry in Hl. apply active_lease_Some in Hl as (? & ? & _). by split_and!.
    + set (P := free (role_company_id (ca_agent a)) (resource_of (ca_agent a) (ca_work_item_id a))).
      apply triple_pre with (P' := λ s, good s ∧ P s); [|by intros s [? ?]].
      assert (ledger_stable P) as HP by apply free_stable.
      eapply triple_bind; [apply good_framed; [eauto with cell|done]|]. intros ?.
      eapply triple_bind; [apply good_framed; [eauto with cell|done]|]. intros work.
      eapply triple_bind; [by apply check_approval_good|]. intros approved.
      eapply triple_bind; [apply good_framed; [eauto with cell|done]|]. intros owner.
      eapply triple_bind; [by apply check_budgets_good|]. intros selected.
      apply grant_good.
Qed.

(** A claim keeps the invariant on every exit, refusals included. *)
Lemma claim_good a : triple good (claim a) (λ _, good) good.
Proof.
  intros s r s' Hg. unfold claim, catchM.
  destruct (_claim a s) as [[t|e] s1] eqn:Ec;
    pose proof (claim_body_good a s _ _ Hg Ec) as Hg1; [by intros [= <- <-]|].
  assert (triple good
    (match e with
     | ExecutionDenied reason _ =>
         company ← query (λ d, get_row cc_company_id (role_company_id (ca_agent a)) (t_companies d));
         _ ← whenM (bool_decide (is_Some company))
               (_ ← _audit (role_company_id (ca_agent a)) (resource_of (ca_agent a) (ca_work_item_id a))
                      "execution.denied" (ca_actor_id a)
                      [("reason", PStr reason); ("external_dispatch", PBool false)]; checkpoint);
         raiseM e
     | _ => raiseM e
     end : M Session ExecutionTicket) (λ _, good) good) as Hh.
  { destruct e as [|reason st|]; [by apply triple_raise| |by apply triple_raise].
    apply triple_bind with (R := λ _, good); [apply good_framed_only; eauto with cell|]. intros company.
    apply triple_bind with (R := λ _, good); [|intros ?; by apply triple_raise].
    destruct (bool_decide _); [|by apply triple_ret].
    apply triple_bind with (R := λ _, good); [apply good_framed_only; eauto with cell|].
    intros ?. apply checkpoint_good. }
  intros Eh. exact (Hh s1 r s' Hg1 Eh).
Qed.
End claims.

(** ** Settlement *)
Definition settle_keys (ks : list (string * string)) (t : list ExecutionReservation)
    : list ExecutionReservation :=
  (λ r, if decide (rv_key r ∈ ks) then settle_row r else r) <$> t.
#[global] Arguments settle_keys : simpl never.
#[global] Arguments update_row : simpl never.

Lemma settle_keys_nil t : settle_keys [] t = t.
Proof.
  unfold settle_keys. rewrite <- (list_fmap_id t) at 2. apply list_fmap_ext. intros i r _.
  rewrite decide_False; [done | apply not_elem_of_nil].
Qed.

Lemma settle_keys_cons k ks t :
  settle_keys ks (update_row rv_key k settle_row t) = settle_keys (k :: ks) t.
Proof.
  unfold settle_keys, update_row. rewrite <- list_fmap_compose. apply list_fmap_ext.
  intros i r _. cbn. destruct (decide (rv_key r = k)) as [Hk|Hk].
  - rewrite (decide_True (P := rv_key r ∈ k :: ks)) by (rewrite Hk; left).
    by case_decide.
  - destruct (decide (rv_key r ∈ ks)).
    + by rewrite decide_True by (by right).
    + rewrite decide_False; [done|]. by intros [?|?]%elem_of_cons.
Qed.

Section settlement.
Context {E : Env}.

(** The usage row charged for a reservation. *)
Definition charge_of (company : string) (t : ExecutionTicket) (cost : decimal)
    (r : ExecutionReservation) (u : BudgetUsageRecord) : Prop :=
  rv_state r = Reserved ∧ bu_budget_id u = strip (rv_budget_id r)
  ∧ bu_company_id u = strip company
  ∧ usage_execution u = PStr (tk_execution_id t) ∧ bu_cost_usd u = float_of_decimal cost
  ∧ bu_run_id u = Some (strip (tk_run_id t)).

Lemma execution_usage_Ok c b i e cost f g s u s' :
  execution_usage c b i e cost f g s = (Ok u, s') →
  bu_budget_id u = strip b ∧ bu_company_id u = strip c ∧ bu_run_id u = Some (strip i)
  ∧ bu_cost_usd u = float_of_decimal cost
  ∧ bu_metadata u = Some [("execution_id", PStr e); ("failed_attempt", PBool f);
                          ("charged_ceiling", PBool g)].
Proof.
  unfold execution_usage. rewrite M_bind_Ok. intros (uid & s1 & _ & H).
  apply M_bind_Ok in H as (now & s2 & _ & H). unfold liftM, validate_usage in H.
  case_match; simplify_eq. cbn. by split_and!.
Qed.

Lemma record_usage_Ok u s u' s' :
  record_budget_usage u s = (Ok u', s') →
  s' = with_db s (set_usages (t_usages (db s) ++ [u']) (db s))
  ∧ bu_budget_id u' = bu_budget_id u ∧ bu_company_id u' = bu_company_id u
  ∧ bu_cost_usd u' = bu_cost_usd u ∧ bu_run_id u' = bu_run_id u
  ∧ bu_metadata u' = Some (to_db_dict (dict_or_empty (bu_metadata u))).
Proof.
  unfold record_budget_usage. rewrite M_bind_Ok. intros (agg & s1 & [= Ha ->] & H).
  apply M_bind_Ok in H as (d & s2 & [= <- <-] & H).
  apply M_bind_Ok in H as ([] & s3 & Hr & H).
  apply M_bind_Ok in H as ([] & s4 & [= <-] & [= <- <-]).
  unfold raise_ifM in Hr. case_match; [done|]. injection Hr as <-.
  unfold usage_for_recording, _normalize_usage_record in Ha. inv_bind.
  apply mk_amount_Ok in Hm0 as [-> _]. by split_and!.
Qed.

Lemma settle_reservation_Ok lease t cost f g r s s' :
  settle_reservation lease t cost f g r s = (Ok (), s') →
  ∃ u, charge_of (l_company_id lease) t cost r u
    ∧ db s' = set_usages (t_usages (db s) ++ [u])
                (set_reservations (update_row rv_key (rv_key r) settle_row (t_reservations (db s))) (db s))
    ∧ durable s' = durable s.
Proof.
  unfold settle_reservation. case_decide as Hst; [done|].
  rewrite M_bind_Ok. intros ([] & s1 & [= <-] & H).
  apply M_bind_Ok in H as (u & s2 & Hu & H). apply M_bind_Ok in H as (u' & s3 & Hr & [= <-]).
  assert (framed id (execution_usage (l_company_id lease) (rv_budget_id r) (tk_run_id t)
            (tk_execution_id t) cost f g)) as Hf by (unfold execution_usage; frame).
  destruct (Hf _ _ _ Hu) as [Hdb Hdur]. unfold id in Hdb.
  apply execution_usage_Ok in Hu as (Hb & Hc & Hi & Hcost & Hmeta).
  apply record_usage_Ok in Hr as (-> & Hb' & Hc' & Hcost' & Hi' & Hmeta').
  exists u'. split; [|split; [cbn; rewrite Hdb; done | done]].
  unfold charge_of, usage_execution. rewrite Hmeta', Hmeta. cbn.
  split_and!; try congruence. destruct (rv_state r); [done | by destruct Hst].
Qed.

Lemma settle_loop lease t cost f g rs s s' :
  forM rs (settle_reservation lease t cost f g) s = (Ok (), s') →
  ∃ us, Forall2 (charge_of (l_company_id lease) t cost) rs us
    ∧ db s' = set_usages (t_usages (db s) ++ us)
                (set_reservations (settle_keys (rv_key <$> rs) (t_reservations (db s))) (db s))
    ∧ durable s' = durable s.
Proof.
  revert s. induction rs as [|r rs IH]; intros s H.
  - injection H as <-. exists []. split_and!; [constructor| |done].
    cbn. rewrite settle_keys_nil, app_nil_r. by destruct (db s).
  - cbn [forM] in H. apply M_bind_Ok in H as ([] & s1 & H1 & H2).
    apply settle_reservation_Ok in H1 as (u & Hu & Hdb & Hdur).
    apply IH in H2 as (us & Hus & Hdb' & Hdur'). exists (u :: us).
    split_and!; [by constructor| |congruence].
    rewrite Hdb', Hdb. cbn. rewrite settle_keys_cons, <- app_assoc. done.
Qed.

(** What a successful settlement does, in full. *)
Lemma settle_Ok t cost failed g s s' :
  settle t cost failed g s = (Ok (), s') →
  ∃ lease us, get_lease (tk_execution_id t) (db s) = Some lease
    ∧ l_owner_id lease = tk_owner_id t ∧ l_state lease = LeaseState_RUNNING
    ∧ Forall2 (charge_of (l_company_id lease) t cost) (reservations_of (tk_execution_id t) (db s)) us
    ∧ t_leases (db s') = update_row l_execution_id (tk_execution_id t)
        (with_lease_state (if failed then LeaseState_FAILED else LeaseState_SUCCEEDED)) (t_leases (db s))
    ∧ t_reservations (db s') =
        settle_keys (rv_key <$> reservations_of (tk_execution_id t) (db s)) (t_reservations (db s))
    ∧ t_usages (db s') = t_usages (db s) ++ us
    ∧ t_policies (db s') = t_policies (db s) ∧ durable s' = durable s.
Proof.
  unfold settle. rewrite M_bind_Ok. intros (lease_ & s1 & [= <- <-] & H).
  destruct (get_lease _ _) as [lease|] eqn:Hl; [|done].
  case_decide as Hn; [done|]. apply M_bind_Ok in H as (rs & s2 & [= <- <-] & H).
  apply M_bind_Ok in H as ([] & s3 & Hloop & H).
  apply M_bind_Ok in H as (run_ & s4 & [= <- <-] & H).
  destruct (head _) as [run|]; [|done].
  apply M_bind_Ok in H as ([] & s5 & [= <-] & [= <-]). cbn.
  apply settle_loop in Hloop as (us & Hus & Hdb & Hdur).
  assert (l_execution_id lease = tk_execution_id t) as Hid by (by apply get_row_Some in Hl as [_ ?]).
  exists lease, us. rewrite Hdb, Hid. cbn.
  split_and!; try done.
  - destruct (decide (l_owner_id lease = tk_owner_id t)); [done|]. destruct Hn. by left.
  - destruct (decide (l_state lease = LeaseState_RUNNING)); [done|]. destruct Hn. by right.
Qed.
End settlement.

Section settlement_inv.
Context {E : Env}.

Lemma charge_count_app e b us us' :
  charge_count e b (us ++ us') = (charge_count e b us + charge_count e b us')%nat.
Proof. unfold charge_count. by rewrite filter_app, length_app. Qed.

(** The new charges hit each budget of the execution once, and no other. *)
Lemma charge_count_new company t cost rs us e b :
  Forall2 (charge_of company t cost) rs us → NoDup (rv_budget_id <$> rs) →
  (∀ r, r ∈ rs → strip (rv_budget_id r) = rv_budget_id r) →
  charge_count e b us =
  (if decide (e = tk_execution_id t ∧ b ∈ rv_budget_id <$> rs) then 1 else 0)%nat.
Proof.
  induction 1 as [|r u rs us (_ & Hb & _ & He & _) Hall IH]; intros Hnd Hcl.
  - rewrite decide_False; [done|]. intros [_ H]. by apply not_elem_of_nil in H.
  - apply NoDup_cons in Hnd as [Hni Hnd]. change (u :: us) with ([u] ++ us).
    rewrite charge_count_app, IH; [|done|intros; apply Hcl; by right].
    rewrite Hcl in Hb by left. unfold charge_count, charges. rewrite filter_cons, He, Hb. cbn.
    destruct (decide (rv_budget_id r = b)) as [<-|Hne].
    + rewrite bool_decide_eq_true_2 by done. cbn.
      rewrite (decide_False (P := e = tk_execution_id t ∧ rv_budget_id r ∈ _)) by (by intros [_ ?]).
      destruct (decide (tk_execution_id t = e)) as [->|Hne].
      * rewrite bool_decide_eq_true_2 by done. rewrite !decide_True; [done|split; [done|left]|done].
      * rewrite bool_decide_eq_false_2 by done. rewrite !decide_False; [done| |done]. by intros [? _].
    + rewrite bool_decide_eq_false_2 by done. cbn. apply decide_ext. rewrite elem_of_cons. naive_solver.
Qed.

Lemma key_of_execution e d r :
  r ∈ t_reservations d → rv_key r ∈ rv_key <$> reservations_of e d ↔ rv_execution_id r = e.
Proof.
  intros Hr. unfold reservations_of. rewrite list_elem_of_fmap. split.
  - intros (r' & Hk & [<- _]%list_elem_of_filter). unfold rv_key in Hk. congruence.
  - intros He. exists r. split; [done|]. by apply list_elem_of_filter.
Qed.

(** One budget is reserved at most once by an execution. *)
Lemma budgets_NoDup e d : NoDup (rv_key <$> t_reservations d) → NoDup (rv_budget_id <$> reservations_of e d).
Proof.
  unfold reservations_of. generalize (t_reservations d) as rs. induction rs as [|r rs IH]; [constructor|].
  rewrite fmap_cons, NoDup_cons, filter_cons. intros [Hni Hnd]. case_decide as He; [|by apply IH].
  rewrite fmap_cons, NoDup_cons. split; [|by apply IH].
  intros (r' & Hb & [He' Hr']%list_elem_of_filter)%list_elem_of_fmap. apply Hni, list_elem_of_fmap.
  exists r'. split; [|done]. unfold rv_key. congruence.
Qed.

Lemma final_inactive (failed : bool) l :
  lease_active (with_lease_state (if failed then LeaseState_FAILED else LeaseState_SUCCEEDED) l) = false.
Proof. by destruct failed. Qed.

Lemma elem_of_settle_execution e d r :
  r ∈ settle_keys (rv_key <$> reservations_of e d) (t_reservations d) ↔
  ∃ r0, r0 ∈ t_reservations d ∧ r = if decide (rv_execution_id r0 = e) then settle_row r0 else r0.
Proof.
  assert (∀ r0, r0 ∈ t_reservations d →
    (if decide (rv_key r0 ∈ rv_key <$> reservations_of e d) then settle_row r0 else r0)
    = if decide (rv_execution_id r0 = e) then settle_row r0 else r0) as Heq.
  { intros r0 Hr0. apply decide_ext. by apply key_of_execution. }
  unfold settle_keys. rewrite list_elem_of_fmap. split.
  - intros (r0 & -> & Hr0). exists r0. split; [done|]. by apply Heq.
  - intros (r0 & Hr0 & ->). exists r0. split; [|done]. symmetry. by apply Heq.
Qed.

Lemma settle_keys_keys ks rs : rv_key <$> settle_keys ks rs = rv_key <$> rs.
Proof.
  unfold settle_keys. rewrite <- list_fmap_compose. apply list_fmap_ext. intros i r _. cbn.
  by case_decide.
Qed.

(** The reservations of an active lease are held. *)
Lemma active_reserved d lease r :
  ledger_inv d → lease ∈ t_leases d → lease_active lease = true →
  r ∈ t_reservations d → rv_execution_id r = l_execution_id lease → rv_state r = Reserved.
Proof.
  intros Hinv Hl Ha Hr He. destruct (inv_held _ Hinv r Hr) as (l & Hl' & He' & Hs). apply Hs.
  assert (l = lease) as ->; [|done].
  eapply get_row_NoDup; [exact (inv_execution_id _ Hinv) | done..|]. congruence.
Qed.

(** After the settlement of [t], every reservation is charged as it should. *)
Lemma settled_charges d company t cost us r0 :
  ledger_inv d →
  Forall2 (charge_of company t cost) (reservations_of (tk_execution_id t) d) us →
  (∀ r, r ∈ t_reservations d → rv_execution_id r = tk_execution_id t → rv_state r = Reserved) →
  r0 ∈ t_reservations d →
  charge_count (rv_execution_id r0) (rv_budget_id r0) (t_usages d ++ us)
  = (if decide (rv_state (if decide (rv_execution_id r0 = tk_execution_id t) then settle_row r0 else r0)
                = Settled) then 1 else 0)%nat.
Proof.
  intros Hinv Hus Hres Hr0. rewrite charge_count_app, (inv_charged _ Hinv r0 Hr0).
  rewrite (charge_count_new _ _ _ _ _ _ _ Hus (budgets_NoDup _ _ (inv_reservation_key _ Hinv))).
  2: { intros r Hr. apply (inv_reserved_id _ Hinv). by apply list_elem_of_filter in Hr as [_ ?]. }
  destruct (decide (rv_execution_id r0 = tk_execution_id t)) as [Hx|Hx].
  - rewrite (Hres r0 Hr0 Hx). rewrite (decide_True (P := rv_execution_id r0 = tk_execution_id t ∧ _)); [done|].
    split; [done|]. apply list_elem_of_fmap. exists r0. split; [done|]. by apply list_elem_of_filter.
  - rewrite (decide_False (P := rv_execution_id r0 = tk_execution_id t ∧ _)); [lia|]. by intros [? _].
Qed.

Lemma settle_inv t cost failed g s s' :
  ledger_inv (db s) → settle t cost failed g s = (Ok (), s') → ledger_inv (db s').
Proof.
  intros Hinv H. apply settle_Ok in H as (lease & us & Hl & Ho & Hst & Hus & HL & HR & HU & HP & _).
  apply get_row_Some in Hl as [Hl Hid].
  set (f := with_lease_state (if failed then LeaseState_FAILED else LeaseState_SUCCEEDED)) in *.
  assert (∀ r, r ∈ t_reservations (db s) → rv_execution_id r = tk_execution_id t → rv_state r = Reserved) as Hres.
  { intros r Hr Hx. eapply active_reserved; [exact Hinv | exact Hl | | done | congruence].
    unfold lease_active. by rewrite Hst. }
  assert (∀ l, l ∈ t_leases (db s) → (if decide (l_execution_id l = tk_execution_id t) then f l else l)
    ∈ t_leases (db s')) as HinL by (intros l ?; rewrite HL; apply elem_of_update_row; eauto).
  constructor.
  - rewrite HL, update_row_keys; [apply (inv_execution_id _ Hinv) | done].
  - rewrite HL, (update_row_fmap l_execution_id l_run_id) by done. apply (inv_run_id _ Hinv).
  - rewrite HL. intros a b (a0 & Ha & ->)%elem_of_update_row (b0 & Hb & ->)%elem_of_update_row.
    destruct (decide _); [by unfold f; rewrite final_inactive|].
    destruct (decide _); [by unfold f; rewrite final_inactive|]. by apply (inv_active _ Hinv).
  - rewrite HR, settle_keys_keys. apply (inv_reservation_key _ Hinv).
  - rewrite HR. intros r (r0 & Hr0 & ->)%elem_of_settle_execution.
    destruct (inv_held _ Hinv r0 Hr0) as (l & Hl' & He' & Hs).
    exists (if decide (l_execution_id l = tk_execution_id t) then f l else l). split; [by apply HinL|].
    rewrite He'. destruct (decide (rv_execution_id r0 = tk_execution_id t)); [|done].
    split; [exact He'|]. unfold f. by rewrite final_inactive.
  - rewrite HR, HU. intros r (r0 & Hr0 & ->)%elem_of_settle_execution.
    rewrite <- (settled_charges _ _ _ _ _ _ Hinv Hus Hres Hr0). by case_decide.
  - rewrite HU. intros u x [Hu|Hu]%elem_of_app Hx.
    + destruct (inv_usage_lease _ Hinv u x Hu Hx) as (l & Hl' & Hle).
      eexists. split; [by apply HinL|]. by case_decide.
    + apply list_elem_of_lookup in Hu as [i Hi].
      destruct (Forall2_lookup_r _ _ _ _ _ Hus Hi) as (r & _ & (_ & _ & _ & He & _)).
      rewrite He in Hx. apply bool_decide_eq_true in Hx.
      eexists. split; [by apply (HinL lease)|]. rewrite decide_True by done. rewrite <- Hx. exact Hid.
  - rewrite HP. apply (inv_policy_id _ Hinv).
  - rewrite HR. intros r (r0 & Hr0 & ->)%elem_of_settle_execution.
    case_decide; exact (inv_reserved_id _ Hinv r0 Hr0).
Qed.
End settlement_inv.
