(* ===== verification/ClaimInversion.v ===== *)
(** * What a granted claim went through

    The stages of a successful, non-replayed claim, read back from its result:
    every check looked at the tables the claim started from. *)

From S2P Require Import Prelude PyNum PyTime PyValue Models Metadata Budget ExecutionPolicy.
From S2P Require Import WorkItem Store Frames AgentRunLifecycle ExecutionLedger ExecutionInvariants.
From S2P Require Import StateMachine AuditEvent DomainEvents.

(** One step of a computation that returned. *)
Ltac mstep H :=
  let a := fresh "x" in let s := fresh "s" in let Hm := fresh "Hm" in
  apply M_bind_Ok in H as (a & s & Hm & H).

Lemma raise_if_Ok_M b e (s s' : Session) u : raise_ifM b e s = (Ok u, s') → b = false ∧ s' = s.
Proof. unfold raise_ifM. destruct b; [done|]. by intros [= _ <-]. Qed.

Lemma query_Ok {A} (f : DB → A) s a s' : query f s = (Ok a, s') → a = f (db s) ∧ s' = s.
Proof. by intros [= <- <-]. Qed.

Lemma lift_Ok {A} (m : result A) (s : Session) a s' : liftM m s = (Ok a, s') → m = Ok a ∧ s' = s.
Proof. by intros [= -> <-]. Qed.

Lemma update_Ok (f : DB → DB) s u s' : update_db f s = (Ok u, s') → s' = with_db s (f (db s)).
Proof. by intros [= _ <-]. Qed.

(** Reads back a run that returned, down to the operations with a lemma of their own. *)
Ltac minv :=
  repeat match goal with
  | H : mbind (M := M _) _ _ _ = (Ok _, _) |- _ =>
      let a := fresh "x" in let s := fresh "s" in let Hm := fresh "Hm" in
      apply M_bind_Ok in H as (a & s & Hm & H)
  | H : query _ _ = (Ok _, _) |- _ => apply query_Ok in H as [-> ->]
  | H : liftM _ _ = (Ok _, _) |- _ => apply lift_Ok in H as [H ->]
  | H : raise_ifM _ _ _ = (Ok _, _) |- _ => apply raise_if_Ok_M in H as [H ->]
  | H : update_db _ _ = (Ok _, _) |- _ => apply update_Ok in H as ->
  | H : mret _ _ = (Ok _, _) |- _ => injection H as <- <-
  | H : raiseM _ _ = (Ok _, _) |- _ => discriminate H
  end.

(** The steps that write no business table. *)
Ltac mframes :=
  repeat match goal with
  | H : uuid4 _ = _ |- _ => apply (framed_fresh id) in H as [? ?]
  | H : generate_id _ _ = _ |- _ => apply (framed_fresh id) in H as [? ?]
  | H : now_utc _ = _ |- _ => apply (framed_now id) in H as [? ?]
  | H : new_audit _ _ _ _ _ _ _ _ _ _ _ = _ |- _ => apply new_audit_framed in H as [? ?]
  | H : append_audit_event _ _ = _ |- _ => apply append_audit_framed in H as [? ?]
  | H : append_control_plane_domain_event_audits _ _ _ = _ |- _ =>
      apply domain_audits_framed in H as [? ?]
  end.

Section inversion.
Context {E : Env}.

Lemma claim_Ok a s t s' : claim a s = (Ok t, s') → _claim a s = (Ok t, s').
Proof.
  unfold claim, catchM. destruct (_claim a s) as [[x|e] s1] eqn:H; [done|].
  destruct e; [done| |done]. intros Hh. mstep Hh. mstep Hh. done.
Qed.

Lemma check_heartbeat_readonly a c n : framed id (check_heartbeat a c n).
Proof. unfold check_heartbeat. frame. Qed.
Lemma check_work_readonly a : framed id (check_work a).
Proof. unfold check_work, denied. frame. Qed.
Lemma check_policy_readonly c ce n p : framed id (check_policy c ce n p).
Proof. unfold check_policy, denied. frame. Qed.
#[local] Hint Resolve check_policy_readonly : cell.
Lemma check_budgets_readonly a c ce n : framed id (check_budgets a c ce n).
Proof. unfold check_budgets. frame. Qed.

Lemma check_approval_Ok a c w r d ce n s o s' :
  check_approval a c w r d ce n s = (Ok o, s') →
  s' = s ∧ if requires_approval c w
           then ∃ x, o = Some x ∧ x ∈ bound_approvals a d n (db s) ∧ usable_approval x = true
           else o = None.
Proof.
  unfold check_approval. destruct (requires_approval c w); [|by intros [= <- <-]].
  intros H. mstep H. apply query_Ok in Hm as [-> ->].
  destruct (head _) as [x|] eqn:Hx.
  - injection H as <- <-. split; [done|]. apply head_Some_elem_of in Hx.
    apply list_elem_of_filter in Hx as [? ?]. eauto.
  - do 4 mstep H. done.
Qed.

(** A dependency that allows dispatch. *)
Definition dependency_done (w : WorkItemRecord) (d : DB) (id_ : string) : Prop :=
  ∃ dep, get_work_item id_ d = Some dep ∧ wi_company_id dep = wi_company_id w
         ∧ work_status dep = Some "completed".

Lemma dependencies_Ok w deps s s' :
  forM deps (λ dependency_id,
    dependency ← query (get_work_item dependency_id);
    match dependency with
    | Some dep =>
        raise_ifM (negb (bool_decide (wi_company_id dep = wi_company_id w))
                   || negb (bool_decide (work_status dep = Some "completed")))
          (ExecutionDenied "work_item_dependency_not_accepted" 403)
    | None => denied "work_item_dependency_not_accepted" 403
    end) s = (Ok (), s') →
  ∀ x, x ∈ deps → dependency_done w (db s) x.
Proof.
  induction deps as [|y deps IH]; intros H x; [by intros ?%not_elem_of_nil|].
  cbn [forM] in H. mstep H. destruct x0. mstep Hm. apply query_Ok in Hm0 as [-> ->].
  destruct (get_work_item y (db s)) as [dep|] eqn:Hy; [|done].
  apply raise_if_Ok_M in Hm as [Hb ->].
  rewrite orb_false_iff, !negb_false_iff, !bool_decide_eq_true in Hb. destruct Hb as [Hc Hs].
  intros [->|Hx]%elem_of_cons; [by exists dep | by eapply IH].
Qed.

Lemma check_work_Ok a s o s' :
  check_work a s = (Ok o, s') →
  if truthy (ca_work_item_id a) then
    ∃ w, o = Some w ∧ get_work_item (str_or_empty (ca_work_item_id a)) (db s) = Some w
      ∧ wi_company_id w = role_company_id (ca_agent a)
      ∧ work_status w ≠ Some "completed" ∧ work_status w ≠ Some "cancelled"
      ∧ ∀ x, x ∈ wi_dependencies w → dependency_done w (db s) x
  else o = None.
Proof.
  unfold check_work. destruct (truthy _); [|by intros [= <- <-]].
  intros H. mstep H. apply query_Ok in Hm as [-> ->].
  destruct (get_work_item _ _) as [w|] eqn:Hw; [|done].
  mstep H. destruct x. apply raise_if_Ok_M in Hm as [Hc ->]. mstep H. destruct x.
  apply raise_if_Ok_M in Hm as [Hs ->]. mstep H. destruct x. injection H as <- <-.
  apply negb_false_iff, bool_decide_eq_true in Hc. apply bool_decide_eq_false in Hs.
  exists w. split_and!; [done|done|done|set_solver|set_solver|].
  by eapply dependencies_Ok.
Qed.

(** One policy has room for [ceiling] on top of what it has spent and reserved. *)
Definition policy_admits (current : AgentRoleRecord) (ceiling : decimal) (now : instant) (d : DB)
    (p : BudgetPolicyRecord) : Prop :=
  (bp_model_allowlist p = [] ∨ executor_model current ∈ bp_model_allowlist p)
  ∧ ∃ start limit,
      period_start (str_of (bp_period p)) now = Ok start
      ∧ decimal_of_float (bp_limit_usd p) = Some limit
      ∧ dec_leb (dec_add (dec_add
          (consumed_decimal (sql_sum (bu_cost_usd <$> usages_since (bp_budget_id p) start d)))
          (reserved_decimal (bp_budget_id p) d)) ceiling) limit = true.

Lemma check_policy_Ok c ce n p s s' :
  check_policy c ce n p s = (Ok (), s') → policy_admits c ce n (db s) p.
Proof.
  unfold check_policy. intros H. mstep H. destruct x. apply raise_if_Ok_M in Hm as [Hb ->].
  mstep H. apply lift_Ok in Hm as [Hstart ->]. mstep H. apply query_Ok in Hm as [-> ->]. unfold id in H.
  split.
  - apply andb_false_iff in Hb as [Hb|Hb]; apply negb_false_iff, bool_decide_eq_true in Hb; auto.
  - exists x. destruct (decimal_of_float (bp_limit_usd p)) as [limit|].
    + exists limit. split_and!; [done..|]. unfold dec_leb.
      cbn [default from_option] in H. cbv zeta in H. destruct (dec_compare _ _) as [[]|]; done.
    + cbn [default from_option] in H. cbv zeta in H. unfold dec_compare in H.
      destruct (dec_add _ _); done.
Qed.

(** The policies that apply to a claim. *)
Definition applicable (a : claim_args) (current : AgentRoleRecord) (d : DB) : list BudgetPolicyRecord :=
  filter (λ p, policy_applies (ca_agent a) current (ca_work_item_id a) (ca_goal_id a) p = true)
    (active_policies (role_company_id (ca_agent a)) d).

Lemma check_policies_Ok c ce n ps s s' :
  forM ps (check_policy c ce n) s = (Ok (), s') → ∀ p, p ∈ ps → policy_admits c ce n (db s) p.
Proof.
  revert s. induction ps as [|p ps IH]; intros s H q; [by intros ?%not_elem_of_nil|].
  cbn [forM] in H. mstep H. destruct x. pose proof (check_policy_Ok _ _ _ _ _ _ Hm) as Hp.
  destruct (check_policy_readonly _ _ _ _ _ _ _ Hm) as [Hdb _]. unfold id in Hdb.
  intros [->|Hq]%elem_of_cons; [done|]. rewrite <- Hdb. by eapply IH.
Qed.

Lemma check_budgets_Ok a c ce n s ps s' :
  check_budgets a c ce n s = (Ok ps, s') →
  ps = applicable a c (db s) ∧ (∀ p, p ∈ ps → policy_admits c ce n (db s) p)
  ∧ (dec_ltb dec_zero ce = true → ps ≠ [])
  ∧ (truthy (role_budget_policy_id c) = true →
     ∃ p, p ∈ ps ∧ Some (bp_budget_id p) = role_budget_policy_id c).
Proof.
  unfold check_budgets. intros H. mstep H. apply query_Ok in Hm as [-> ->].
  mstep H. destruct x. apply raise_if_Ok_M in Hm as [Hb ->].
  mstep H. destruct x. apply raise_if_Ok_M in Hm as [Hi ->].
  mstep H. destruct x. injection H as <- <-. split_and!; [done| | |].
  - by eapply check_policies_Ok.
  - intros Hc. rewrite Hc in Hb. cbn in Hb. by apply bool_decide_eq_false in Hb.
  - intros Ht. rewrite Ht in Hi. cbn in Hi. apply negb_false_iff, existsb_exists in Hi as (p & Hp & He).
    exists p. rewrite list_elem_of_In. split; [done|]. by apply bool_decide_eq_true in He.
Qed.

Lemma transition_to_reaches g st g' :
  WorkItem.transition_to g (Some (Str (value st))) = Ok g' → WorkItem.status g' = Ok st.
Proof.
  unfold WorkItem.transition_to, WorkItem.work_item_status. rewrite parse_enum_value. cbn.
  intros H. apply bind_Ok in H as (c & Hc & H). case_decide as Hd; [by simplify_eq|].
  apply bind_Ok in H as (u & _ & H). apply bind_Ok in H as (p & _ & H). injection H as <-. done.
Qed.

Lemma transition_work_Ok w st ac s s' :
  _transition_work w (value (E := WorkItemStatus) st) ac s = (Ok (), s') →
  ∃ now, t_work_items (db s') =
    update_row wi_work_item_id (wi_work_item_id w) (with_work_status (value st) now) (t_work_items (db s))
  ∧ ledger (db s') = ledger (db s) ∧ t_approvals (db s') = t_approvals (db s).
Proof.
  unfold _transition_work. intros H. mstep H. apply lift_Ok in Hm as [Ht ->].
  mstep H. apply lift_Ok in Hm as [Hs ->]. mstep H. injection Hm as <- <-. mstep H. injection Hm as <- <-.
  apply transition_to_reaches in Ht. assert (x0 = st) as -> by congruence.
  apply domain_audits_framed in H as [H _].
  exists (clock (ticks s)). unfold business in H. injection H as HL HR HU HP _ _ _ _ HW HA _ _.
  rewrite HW, HA. unfold ledger. by rewrite HL, HR, HU, HP.
Qed.

Definition new_lease (a : claim_args) (e r d : string) (n : instant) (ow : string) : ExecutionLease := {|
  l_execution_id := e; l_company_id := role_company_id (ca_agent a); l_resource_id := r;
  l_intent_hash := d; l_run_id := ca_run_id a; l_owner_id := ow; l_state := LeaseState_RUNNING;
  l_control_action := "resume"; l_expires_at := n + 1000 * us_per_second; l_created_at := n |}.

Lemma insert_lease_Ok lease ap s s' :
  insert_lease lease ap s = (Ok (), s') →
  l_execution_id lease ∉ l_execution_id <$> t_leases (db s)
  ∧ match ap with
    | None => db s' = set_leases (t_leases (db s) ++ [lease]) (db s)
    | Some x => run_fk (db s) (Some (l_run_id lease)) = true
        ∧ db s' = set_approvals (update_row approval_id (approval_id x)
                    (consume_approval (l_execution_id lease) (l_run_id lease)) (t_approvals (db s)))
                    (set_leases (t_leases (db s) ++ [lease]) (db s))
    end.
Proof.
  unfold insert_lease. intros H. mstep H. apply query_Ok in Hm as [-> ->].
  mstep H. destruct x. apply raise_if_Ok_M in Hm as [Hb ->]. unfold id in *.
  rewrite !orb_false_iff, !bool_decide_eq_false in Hb. destruct Hb as [[He _] _]. split; [done|].
  mstep H. injection Hm as <- <-. destruct ap as [x|]; [|by injection H as <-].
  mstep H. destruct x0. apply raise_if_Ok_M in Hm as [Hf ->]. injection H as <-.
  apply negb_false_iff in Hf. done.
Qed.

(** The whole effect of a grant on the ledger, the approvals and the work items. *)
Lemma grant_Ok a e r d ce n w ap ow sel s t s' :
  grant a e r d ce n w ap ow sel s = (Ok t, s') →
  t = {| tk_execution_id := e; tk_run_id := ca_run_id a; tk_owner_id := ow;
         tk_ceiling_usd := ce; tk_replay := false |}
  ∧ e ∉ l_execution_id <$> t_leases (db s)
  ∧ t_leases (db s') = t_leases (db s) ++ [new_lease a e r d n ow]
  ∧ t_reservations (db s') = t_reservations (db s) ++ (reservation_for e ce n <$> sel)
  ∧ t_usages (db s') = t_usages (db s)
  ∧ t_approvals (db s') = match ap with
      | None => t_approvals (db s)
      | Some x => update_row approval_id (approval_id x) (consume_approval e (ca_run_id a)) (t_approvals (db s))
      end
  ∧ (is_Some ap → run_fk (db s) (Some (ca_run_id a)) = true)
  ∧ (∀ w0, w = Some w0 → ∃ now, t_work_items (db s') =
       update_row wi_work_item_id (wi_work_item_id w0) without_acceptance
         (update_row wi_work_item_id (wi_work_item_id w0) (with_work_status "running" now)
            (t_work_items (db s)))).
Proof.
  unfold grant. fold (new_lease a e r d n ow). intros H. mstep H. destruct x.
  apply insert_lease_Ok in Hm as [He Hap]. mstep H. destruct x.
  unfold insert_reservations in Hm. mstep Hm. apply query_Ok in Hm0 as [-> ->].
  mstep Hm. destruct x. apply raise_if_Ok_M in Hm0 as [_ ->]. injection Hm as <-.
  mstep H. destruct x. mstep H. destruct x. injection H as <- <-.
  apply audit_framed in Hm0 as [Hb _]. injection Hb as HL HR HU HP _ _ _ _ HW HA _ _.
  assert (ledger (db s1) = ledger (set_reservations (t_reservations (db s0) ++
            (reservation_for e ce n <$> sel)) (db s0))
    ∧ t_approvals (db s1) = t_approvals (db s0)
    ∧ ∀ w0, w = Some w0 → ∃ now, t_work_items (db s1) =
       update_row wi_work_item_id (wi_work_item_id w0) without_acceptance
         (update_row wi_work_item_id (wi_work_item_id w0) (with_work_status "running" now)
            (t_work_items (db s0)))) as (Hl2 & Ha2 & Hw2).
  { destruct w as [w0|]; [|by injection Hm as <-].
    mstep Hm. destruct x. injection Hm as <-.
    apply (transition_work_Ok w0 WorkItemStatus_RUNNING) in Hm0 as (now & Hw0 & Hl0 & Ha0).
    split_and!; [exact Hl0 | exact Ha0 |]. intros w1 [= <-]. exists now. cbn. by rewrite Hw0. }
  injection Hl2 as HL2 HR2 HU2 HP2. cbn in *.
  rewrite HL, HR, HU, HA, HW, HL2, HR2, HU2, Ha2.
  destruct ap as [x|].
  - destruct Hap as [Hf Hdb]. rewrite Hdb in *. cbn in *. split_and!; done.
  - rewrite Hap in *. cbn in *. split_and!; done.
Qed.

(** A claim that returns has read the role it names, which may use its adapter
    and is the one the caller hashed; it continues in the state it started from,
    one clock reading later. *)
Lemma claim_checked a s t s' :
  _claim a s = (Ok t, s') →
  ∃ current ceiling intent,
    get_role (role_company_id (ca_agent a)) (role_agent_id (ca_agent a)) (db s) = Some current
    ∧ authorize_adapter current = Ok ceiling
    ∧ intent_hash sha256_hex current (ca_payload a) (ca_work_item_id a) = Ok intent
    ∧ intent_hash sha256_hex (ca_agent a) (ca_payload a) (ca_work_item_id a) = Ok intent
    ∧ let now := clock (ticks s) in
      let digest := dispatch_digest a intent in
      let resource := resource_of (ca_agent a) (ca_work_item_id a) in
      let execution_id := execution_id_of (role_company_id (ca_agent a)) (ca_idempotency_key a) in
      match get_lease execution_id (db s) with
      | Some lease =>
          l_intent_hash lease = digest ∧ l_state lease ∈ [LeaseState_SUCCEEDED; LeaseState_FAILED]
          ∧ t = {| tk_execution_id := execution_id; tk_run_id := l_run_id lease;
                   tk_owner_id := l_owner_id lease; tk_ceiling_usd := ceiling; tk_replay := true |}
          ∧ db s' = db s
      | None =>
          active_lease (role_company_id (ca_agent a)) resource (db s) = None
          ∧ ∃ s1, db s1 = db s
            ∧ (_ ← check_heartbeat a current now;
               work ← check_work a;
               approved ← check_approval a current work resource digest ceiling now;
               owner ← uuid4;
               selected ← check_budgets a current ceiling now;
               grant a execution_id resource digest ceiling now work approved owner selected) s1
              = (Ok t, s')
      end.
Proof.
  unfold _claim, denied. intros H.
  mstep H. injection Hm as <- <-. mstep H. apply query_Ok in Hm as [-> ->].
  mstep H. destruct x. apply raise_if_Ok_M in Hm as [_ ->].
  mstep H. apply query_Ok in Hm as [-> ->]. cbn [db] in H.
  destruct (get_role _ _ _) as [current|]; [|done].
  mstep H. apply lift_Ok in Hm as [Hauth ->]. mstep H. apply lift_Ok in Hm as [Hint ->].
  mstep H. apply lift_Ok in Hm as [Hreq ->]. mstep H. destruct x2.
  apply raise_if_Ok_M in Hm as [Heq ->]. apply negb_false_iff, bool_decide_eq_true in Heq. subst x1.
  cbv zeta in H. mstep H. apply query_Ok in Hm as [-> ->]. cbn [db] in H.
  exists current, x, x0. cbv zeta. split_and!; [done..|].
  destruct (get_lease _ _) as [lease|].
  - case_decide as Hd; [done|]. case_decide as Hs; [by injection H as <- <-|].
    unfold refuse_held, denied in H. mstep H. done.
  - mstep H. apply query_Ok in Hm as [-> ->]. cbn [db] in H.
    destruct (active_lease _ _ _) as [lease|]; [unfold refuse_held, denied in H; mstep H; done|].
    split; [done|]. eexists. split; [|exact H]. done.
Qed.

(** The stages of a granted claim. *)
Lemma claim_new_inv a s t s' :
  claim a s = (Ok t, s') → tk_replay t = false →
  ∃ current ceiling intent work approved owner selected sg,
    let company := role_company_id (ca_agent a) in
    let e := execution_id_of company (ca_idempotency_key a) in
    let resource := resource_of (ca_agent a) (ca_work_item_id a) in
    let now := clock (ticks s) in
    let digest := dispatch_digest a intent in
    get_role company (role_agent_id (ca_agent a)) (db s) = Some current
    ∧ authorize_adapter current = Ok ceiling
    ∧ intent_hash sha256_hex current (ca_payload a) (ca_work_item_id a) = Ok intent
    ∧ intent_hash sha256_hex (ca_agent a) (ca_payload a) (ca_work_item_id a) = Ok intent
    ∧ active_lease company resource (db s) = None
    ∧ (∃ s1 s2, db s1 = db s ∧ check_work a s1 = (Ok work, s2))
    ∧ (∃ s1 s2, db s1 = db s
         ∧ check_approval a current work resource digest ceiling now s1 = (Ok approved, s2))
    ∧ (∃ s1 s2, db s1 = db s ∧ check_budgets a current ceiling now s1 = (Ok selected, s2))
    ∧ db sg = db s
    ∧ grant a e resource digest ceiling now work approved owner selected sg = (Ok t, s').
Proof.
  intros H Hr. apply claim_Ok, claim_checked in H as (current & ceiling & intent & Hrole & Hauth & Hint & Hreq & H).
  cbv zeta in H. destruct (get_lease _ _) as [lease|]; [by destruct H as (_ & _ & -> & _)|].
  destruct H as (Hact & s0 & Hdb0 & H).
  mstep H. apply check_heartbeat_readonly in Hm as [Hdb1 _]. unfold id in Hdb1.
  mstep H. pose proof (check_work_readonly _ _ _ _ Hm) as [Hdb2 _]. unfold id in Hdb2.
  mstep H. pose proof (check_approval_Ok _ _ _ _ _ _ _ _ _ _ Hm0) as [-> _].
  mstep H. injection Hm1 as <- <-.
  mstep H. pose proof (check_budgets_readonly _ _ _ _ _ _ _ Hm1) as [Hdb3 _]. unfold id in Hdb3. cbn [db] in Hdb3.
  eexists current, ceiling, intent, x0, x1, _, x2, s3. cbv zeta. split_and!; try done.
  - exists s1, s2. split; [congruence|done].
  - exists s2, s2. split; [congruence|done].
  - eexists _, s3. split; [|exact Hm1]. cbn. congruence.
  - congruence.
Qed.

(** A replayed claim: the lease of the key is closed and nothing is written. *)
Definition replay_ticket (l : ExecutionLease) (t : ExecutionTicket) : ExecutionTicket := {|
  tk_execution_id := tk_execution_id t; tk_run_id := l_run_id l; tk_owner_id := l_owner_id l;
  tk_ceiling_usd := tk_ceiling_usd t; tk_replay := true |}.

Lemma claim_replay_inv a s t s' :
  _claim a s = (Ok t, s') → tk_replay t = true →
  ∃ l intent,
    get_lease (execution_id_of (role_company_id (ca_agent a)) (ca_idempotency_key a)) (db s) = Some l
    ∧ l_state l ∈ [LeaseState_SUCCEEDED; LeaseState_FAILED]
    ∧ intent_hash sha256_hex (ca_agent a) (ca_payload a) (ca_work_item_id a) = Ok intent
    ∧ l_intent_hash l = dispatch_digest a intent
    ∧ tk_execution_id t = execution_id_of (role_company_id (ca_agent a)) (ca_idempotency_key a)
    ∧ t = replay_ticket l t ∧ db s' = db s.
Proof.
  intros H Hr. apply claim_checked in H as (current & ceiling & intent & _ & _ & _ & Hreq & H).
  cbv zeta in H. destruct (get_lease _ _) as [lease|].
  - destruct H as (Hd & Hs & -> & Hdb). exists lease, intent. done.
  - destruct H as (_ & s0 & _ & H). do 5 mstep H. apply grant_Ok in H as (-> & _). done.
Qed.
End inversion.

(** ** Who denies

    [plain m]: [m] never raises [ExecutionDenied].  A refusal of the dispatch
    ledger therefore comes from one of its own checks, which all run before the
    lease is inserted; from there on only validation and integrity errors are
    possible, and those commit nothing. *)

Definition denial (e : exn) : bool :=
  match e with ExecutionDenied _ _ => true | _ => false end.

Definition plain_result {A} (m : result A) : Prop :=
  match m with Raise e => denial e = false | Ok _ => True end.

Definition plain {A} (m : M Session A) : Prop := ∀ s, plain_result (m s).1.

(** *** Results *)
Lemma plain_bind {A B} (m : result A) (k : A → result B) :
  plain_result m → (∀ a, plain_result (k a)) → plain_result (m ≫= k).
Proof. destruct m; cbn; auto. Qed.

Lemma plain_fmap {A B} (f : A → B) (m : result A) : plain_result m → plain_result (f <$> m).
Proof. by destruct m. Qed.

Lemma plain_raise_if b cls msg : plain_result (raise_if b (Exn cls msg)).
Proof. by destruct b. Qed.

Lemma plain_mapR {A B} (f : A → result B) l :
  Forall (λ x, plain_result (f x)) l → plain_result (mapR f l).
Proof.
  induction 1; cbn; [done|]. apply plain_bind; [done|]. intros ?. by apply plain_bind.
Qed.

Lemma plain_parse {T} `{!StrEnum T} s : plain_result (parse_enum (E := T) s).
Proof. unfold parse_enum. by case_match. Qed.

Lemma plain_key k : plain_result (_clean_metadata_key k).
Proof. unfold _clean_metadata_key. by case_match. Qed.

Lemma plain_freeze v : plain_result (_freeze_metadata_value v).
Proof.
  induction v as [| | |x| |l IH|l IH|l IH|d IH| | |] using pyval_ind'; cbn; try done;
    apply plain_bind; try (intros ?; exact I); apply plain_mapR; try done.
  - eapply Forall_impl; [exact IH|]. intros x Hx. by apply plain_bind.
  - eapply Forall_impl; [exact IH|]. intros x Hx. apply plain_bind; [apply plain_key|].
    intros ?. by apply plain_bind.
Qed.

Lemma plain_metadata o : plain_result (clean_metadata o).
Proof.
  unfold clean_metadata, from_mapping, mk_metadata, _freeze_metadata_mapping.
  repeat (apply plain_bind; [|intros ?; exact I]). apply plain_mapR, Forall_forall.
  intros kv _. apply plain_bind; [apply plain_key|]. intros ?. apply plain_bind; [apply plain_freeze|done].
Qed.

Lemma plain_work_status o : plain_result (WorkItem.work_item_status o).
Proof. destruct o as [[]|]; cbn; try done. apply plain_fmap, plain_parse. Qed.

Lemma plain_status g : plain_result (WorkItem.status g).
Proof. apply plain_bind; [apply plain_work_status|]. by intros []. Qed.

Lemma plain_transition g o : plain_result (WorkItem.transition_to g o).
Proof.
  apply plain_bind; [apply plain_work_status|]. intros [st|]; [|exact eq_refl].
  apply plain_bind; [apply plain_status|]. intros c. case_decide; [exact I|].
  apply plain_bind.
  - unfold ensure_can_transition, can_transition, allowed_targets.
    apply plain_bind; [apply plain_bind; [|by intros]|by intros []].
    by destruct (transitions _ !! _).
  - intros ?. apply plain_bind; [apply plain_status|by intros].
Qed.

Lemma plain_append ev : plain_result (AuditEvent.for_append ev).
Proof.
  assert (∀ o f, plain_result (AuditEvent.clean_audit_text o f)) as Ht
    by (intros; unfold AuditEvent.clean_audit_text; by case_match).
  apply plain_bind; [|by intros]. unfold AuditEvent._normalize_append_record.
  repeat (apply plain_bind; [apply Ht|intros ?]). apply plain_bind; [apply plain_metadata|by intros].
Qed.

Lemma plain_event_row i n ev ctx : plain_result (audit_event_from_domain_event i n ev ctx).
Proof.
  unfold audit_event_from_domain_event.
  apply plain_bind; [apply plain_metadata|]. intros payload.
  apply plain_bind; [apply plain_metadata|]. intros extra. cbv zeta.
  by destruct (dict_get _ "company_id") as [[]|].
Qed.

(** *** Computations of the session *)
Section plain.
Context {E : Env}.

Lemma plainM_ret {A} (a : A) : plain (mret a).
Proof. by intros s. Qed.
Lemma plainM_query {A} (f : DB → A) : plain (query f).
Proof. by intros s. Qed.
Lemma plainM_update f : plain (update_db f).
Proof. by intros s. Qed.
Lemma plainM_fresh {A} (f : nat → A) : plain (fresh f).
Proof. by intros s. Qed.
Lemma plainM_now : plain now_utc.
Proof. by intros s. Qed.
Lemma plainM_lift {A} (m : result A) : plain_result m → plain (liftM m).
Proof. by intros H s. Qed.
Lemma plainM_raise_if b t : plain (raise_ifM b (integrity_error t)).
Proof. by intros s; destruct b. Qed.
Lemma plainM_when b m : plain m → plain (whenM b m).
Proof. destruct b; [done | intros _; apply plainM_ret]. Qed.
Lemma plainM_bind {A B} (m : M Session A) (k : A → M Session B) :
  plain m → (∀ a, plain (k a)) → plain (m ≫= k).
Proof.
  intros Hm Hk s. unfold mbind, M_bind. specialize (Hm s). destruct (m s) as [[a|e] s1]; [apply Hk|done].
Qed.
Lemma plainM_for {A} (l : list A) f : (∀ x, plain (f x)) → plain (forM l f).
Proof.
  intros Hf. induction l as [|x l IH]; cbn [forM]; [apply plainM_ret | by apply plainM_bind].
Qed.
#[local] Hint Resolve plainM_ret plainM_query plainM_update plainM_now plainM_lift plainM_raise_if
  plain_append plain_event_row plain_transition plain_status : cell.
#[local] Hint Extern 1 (plain (generate_id _)) => apply plainM_fresh : cell.

Ltac plain :=
  repeat first
    [ progress intros
    | solve [eauto with cell]
    | apply plainM_bind
    | apply plainM_when
    | apply plainM_for
    | match goal with |- plain (match ?x with _ => _ end) => destruct x end ].

Lemma plain_append_event ev : plain (append_audit_event ev).
Proof.
  unfold append_audit_event, insert_audit, outbox_add. plain.
  apply plainM_lift, plain_bind; [apply plain_metadata|]. intros detail.
  apply plain_bind; [apply plain_raise_if | by intros].
Qed.
#[local] Hint Resolve plain_append_event : cell.

Lemma plain_audit c r a ac d : plain (_audit c r a ac d).
Proof. unfold _audit, new_audit. plain. Qed.

Lemma plain_transition_work w st ac : plain (_transition_work w st ac).
Proof. unfold _transition_work, append_control_plane_domain_event_audits. plain. Qed.
#[local] Hint Resolve plain_audit plain_transition_work : cell.

(** Once the checks have passed nothing denies any more. *)
Lemma plain_grant a e r d ce n w ap ow sel : plain (grant a e r d ce n w ap ow sel).
Proof. unfold grant, insert_lease, insert_reservations. plain. Qed.
End plain.

(** *** Refusals dispatch nothing *)

(** The ledger up to the state of its leases. *)
Definition dispatched (d : DB) :=
  (with_lease_state LeaseState_RUNNING <$> t_leases d, t_reservations d, t_usages d, t_policies d).

(** Nothing was dispatched between [s] and [s'], in the working copy or in what
    is committed. *)
Definition quiet (s s' : Session) : Prop :=
  dispatched (db s') = dispatched (db s)
  ∧ (dispatched (durable s') = dispatched (durable s) ∨ dispatched (durable s') = dispatched (db s)).

#[global] Instance quiet_preorder : PreOrder quiet.
Proof.
  split; [by split; [|left]|]. intros s1 s2 s3 [H1 D1] [H2 D2]. split; [congruence|].
  destruct D2 as [D2|D2]; [|right; congruence]. destruct D1; [left|right]; congruence.
Qed.

Definition withholds {A} (m : M Session A) : Prop := ∀ s r s', m s = (r, s') → quiet s s'.
Definition denies_quietly {A} (m : M Session A) : Prop :=
  ∀ s e s', m s = (Raise e, s') → denial e = true → quiet s s'.

Section quiet.
Context {E : Env}.

Lemma withholds_denies {A} (m : M Session A) : withholds m → denies_quietly m.
Proof. intros H s e s' Hm _. by eapply H. Qed.

Lemma plain_denies {A} (m : M Session A) : plain m → denies_quietly m.
Proof. intros H s e s' Hm He. specialize (H s). rewrite Hm in H. cbn in H. congruence. Qed.

Lemma framed_withholds {A} (m : M Session A) : framed ledger m → withholds m.
Proof.
  intros H s r s' [H1 H2]%H. injection H1 as HL HR HU HP.
  unfold quiet, dispatched. rewrite HL, HR, HU, HP, H2. auto.
Qed.

Lemma withholds_bind {A B} (m : M Session A) (k : A → M Session B) :
  withholds m → (∀ a, withholds (k a)) → withholds (m ≫= k).
Proof.
  intros Hm Hk s r s' [(a & s1 & H1 & H2)|(e & H1 & ->)]%M_bind_inv; [|by eapply Hm].
  etransitivity; [by eapply Hm | by eapply Hk].
Qed.

Lemma denies_bind {A B} (m : M Session A) (k : A → M Session B) :
  withholds m → (∀ a, denies_quietly (k a)) → denies_quietly (m ≫= k).
Proof.
  intros Hm Hk s e s' [(a & s1 & H1 & H2)|(e' & H1 & [= <-])]%M_bind_inv He; [|by eapply Hm].
  etransitivity; [by eapply Hm | by eapply Hk].
Qed.

Lemma withholds_checkpoint : withholds checkpoint.
Proof. intros s r s' [= <- <-]. split; [done | by right]. Qed.

Lemma withholds_lease_state id_ st : withholds (update_lease id_ (with_lease_state st)).
Proof.
  intros s r s' [= <- <-]. assert (∀ d, dispatched (set_leases (update_row l_execution_id id_
    (with_lease_state st) (t_leases d)) d) = dispatched d) as Hd.
  { intros d. unfold dispatched, update_row. cbn. do 3 f_equal.
    rewrite <- list_fmap_compose. apply list_fmap_ext. intros i l _. cbn. by case_decide. }
  unfold quiet. cbn. rewrite Hd. auto.
Qed.
#[local] Hint Resolve withholds_checkpoint withholds_lease_state : cell.

Lemma refuse_held_withholds {A} lease now : withholds (refuse_held (A := A) lease now).
Proof.
  unfold refuse_held, _mark_abandoned, denied.
  apply withholds_bind; [|intros; apply framed_withholds; frame].
  case_decide; [|apply framed_withholds; frame].
  apply withholds_bind; [auto with cell|intros ?].
  apply withholds_bind; [apply framed_withholds; eauto with cell|intros ?].
  apply withholds_bind; [auto with cell|intros ?; apply framed_withholds; frame].
Qed.

Lemma check_approval_withholds a c w r d ce n : withholds (check_approval a c w r d ce n).
Proof.
  unfold check_approval, denied. destruct (requires_approval c w); [|apply framed_withholds; frame].
  apply withholds_bind; [apply framed_withholds; frame|]. intros valid.
  destruct (head _); [apply framed_withholds; frame|].
  do 3 (apply withholds_bind; [apply framed_withholds; frame|intros ?]).
  apply withholds_bind; [auto with cell|intros ?; apply framed_withholds; frame].
Qed.

Lemma claim_body_denies a : denies_quietly (_claim a).
Proof.
  unfold _claim. do 4 (apply denies_bind; [apply framed_withholds; frame|intros ?]).
  destruct a3 as [current|]; [|apply withholds_denies, framed_withholds; unfold denied; frame].
  do 5 (apply denies_bind; [apply framed_withholds; frame|intros ?]).
  destruct a7 as [lease|].
  { repeat case_decide; apply withholds_denies; try (apply framed_withholds; unfold denied; solve [frame]).
    apply refuse_held_withholds. }
  apply denies_bind; [apply framed_withholds; frame|]. intros [lease|].
  { apply withholds_denies, refuse_held_withholds. }
  apply denies_bind; [apply framed_withholds, business_ledger, check_heartbeat_framed|]. intros ?.
  apply denies_bind; [apply framed_withholds, business_ledger, check_work_framed|]. intros ?.
  apply denies_bind; [apply check_approval_withholds|]. intros ?.
  apply denies_bind; [apply framed_withholds; frame|]. intros ?.
  apply denies_bind; [apply framed_withholds, business_ledger, check_budgets_framed|]. intros ?.
  apply plain_denies, plain_grant.
Qed.

Lemma append_Ok ev g :
  AuditEvent.for_append ev = Ok g →
  ae_idempotency_key (AuditEvent.record g) = AuditEvent.clean_optional_audit_text (ae_idempotency_key ev)
  ∧ ae_action (AuditEvent.record g) = strip (ae_action ev)
  ∧ ae_company_id (AuditEvent.record g) = strip (ae_company_id ev)
  ∧ ae_target_id (AuditEvent.record g) = strip (ae_target_id ev).
Proof.
  assert (∀ o f x, AuditEvent.clean_audit_text o f = Ok x → x = strip (str_or_empty o)) as Ht.
  { intros o f x. unfold AuditEvent.clean_audit_text. case_match; by intros [= <-]. }
  unfold AuditEvent.for_append, AuditEvent._normalize_append_record. intros H. inv_bind.
  repeat match goal with H : AuditEvent.clean_audit_text _ _ = Ok _ |- _ => apply Ht in H end.
  subst. done.
Qed.

Lemma principal_fields r :
  ae_idempotency_key (with_principal r) = ae_idempotency_key r
  ∧ ae_action (with_principal r) = ae_action r ∧ ae_company_id (with_principal r) = ae_company_id r
  ∧ ae_target_id (with_principal r) = ae_target_id r.
Proof. unfold with_principal. by repeat case_match. Qed.

(** The row [_audit] writes. *)
Lemma audit_Ok c r a ac d s s' :
  _audit c r a ac d s = (Ok (), s') →
  ∃ ev, t_audits (db s') = t_audits (db s) ++ [ev] ∧ ae_action ev = strip a
    ∧ ae_company_id ev = strip c ∧ ae_target_id ev = strip r.
Proof.
  unfold _audit. intros H. mstep H. unfold new_audit in Hm. mstep Hm. mstep Hm.
  injection Hm0 as <- <-. injection Hm1 as <- <-. injection Hm as <- <-.
  mstep H. injection H as <-. unfold append_audit_event in Hm.
  mstep Hm. apply lift_Ok in Hm0 as [Hf ->]. mstep Hm. apply query_Ok in Hm0 as [-> ->].
  apply append_Ok in Hf as (Hk & Ha & Hc & Hr).
  destruct (principal_fields (validate_audit {| ae_audit_event_id := "aud" +:+ "_" +:+ ulid (ids s);
    ae_company_id := c; ae_action := a; ae_target_type := "execution"; ae_target_id := r;
    ae_actor_type := "operator"; ae_actor_id := ac; ae_trace_id := None; ae_run_id := None;
    ae_work_item_id := None; ae_idempotency_key := None; ae_detail := d;
    ae_created_at := of_utc (clock (ticks s)) |})) as (Pk & Pa & Pc & Pr).
  rewrite Pk in Hk. rewrite Pa in Ha. rewrite Pc in Hc. rewrite Pr in Hr. cbn in Hk, Ha, Hc, Hr.
  rewrite strip_idem in Ha, Hc, Hr. unfold replayed_audit in Hm. rewrite Hk in Hm.
  mstep Hm. destruct x1. unfold insert_audit in Hm0.
  mstep Hm0. apply query_Ok in Hm1 as [-> ->]. mstep Hm0. destruct x1. apply raise_if_Ok_M in Hm1 as [_ ->].
  injection Hm0 as <-. mstep Hm. destruct x1. injection Hm as <- <-.
  assert (t_audits (db s1) = t_audits (db s) ++ [AuditEvent.record x0]) as Ht.
  { destruct (audit_event_carries_domain_event _); [|by injection Hm0 as <-].
    mstep Hm0. injection Hm as <- <-. mstep Hm0. apply lift_Ok in Hm as [_ ->].
    unfold outbox_add in Hm0. mstep Hm0. apply query_Ok in Hm as [-> ->].
    mstep Hm0. destruct x1. apply raise_if_Ok_M in Hm as [_ ->]. by injection Hm0 as <-. }
  exists (AuditEvent.record x0). done.
Qed.

(** The handler of a refused claim: without the company nothing is written,
    otherwise the refusal is audited and committed. *)
Lemma handler_inv {A} a e resource detail s (r : result A) s' :
  (company ← query (λ d, get_row cc_company_id (role_company_id (ca_agent a)) (t_companies d));
   _ ← whenM (bool_decide (is_Some company))
         (_ ← _audit (role_company_id (ca_agent a)) resource "execution.denied" (ca_actor_id a) detail;
          checkpoint);
   raiseM e) s = (r, s') →
  quiet s s'
  ∧ ((get_row cc_company_id (role_company_id (ca_agent a)) (t_companies (db s)) = None
      ∧ s' = s ∧ r = Raise e)
     ∨ (∃ s2, _audit (role_company_id (ca_agent a)) resource "execution.denied" (ca_actor_id a) detail s
              = (Ok (), s2) ∧ checkpoint s2 = (Ok (), s') ∧ r = Raise e)
     ∨ (∃ e', denial e' = false ∧ r = Raise e')).
Proof.
  intros H. split.
  { eapply withholds_bind in H; [done | apply framed_withholds; frame|]. intros o.
    apply withholds_bind; [|intros; apply framed_withholds; frame].
    destruct (bool_decide _); cbn; [|apply framed_withholds; frame].
    apply withholds_bind; [apply framed_withholds; eauto with cell|auto with cell]. }
  apply M_bind_inv in H as [(o & s1 & [= <- <-] & H)|(? & [=] & _)].
  destruct (get_row _ _ _) as [c|]; cbn in H; [|left; by injection H as <- <-].
  apply M_bind_inv in H as [([] & s1 & H1 & [= <- <-])|(e' & H1 & ->)];
    apply M_bind_inv in H1 as [([] & s2 & H2 & H3)|(e'' & H2 & He)]; right.
  - left. by exists s2.
  - done.
  - done.
  - right. exists e''. injection He as ->. split; [|done].
    pose proof (plain_audit (role_company_id (ca_agent a)) resource "execution.denied" (ca_actor_id a)
      detail s) as Hp. rewrite H2 in Hp. exact Hp.
Qed.
End quiet.
