(* ===== verification/AgentRunner.v ===== *)
(** * The agent runner ([agent_runner.py], [adapter_registry.py])

    A wakeup claims its dispatch, records the run, commits both, calls the
    adapter, settles the cost and closes the run.  The network exchange, the
    local process, the validation of a versioned executor response and the
    settings are arguments ([adapters]); an adapter call is a computation of the
    session, because other transactions run while it does. *)

From S2P Require Import Prelude PyNum PyTime PyValue Models Metadata AgentRole WakeupAdapter ExecutionPolicy.
From S2P Require Import DomainEvents Store Frames AgentRunLifecycle ExecutionLedger ExecutionInvariants ClaimInversion.

(** ** Adapter registry *)
Inductive AdapterKind := KindBuiltin | KindHttp | KindLocal.
#[global] Instance adapter_kind_eq_dec : EqDecision AdapterKind.
Proof. solve_decision. Defined.

Record AdapterDefinition := { ad_adapter_type : string; ad_kind : AdapterKind; ad_description : string }.

(** The registry is a dictionary by adapter type. *)
Definition registry_of (definitions : list AdapterDefinition) : list (string * AdapterDefinition) :=
  dict_update [] ((λ d, (ad_adapter_type d, d)) <$> definitions).

Definition DEFAULT_ADAPTER_REGISTRY : list (string * AdapterDefinition) := registry_of
  [ {| ad_adapter_type := "builtin"; ad_kind := KindBuiltin;
       ad_description := "Record wakeups for built-in deployed agents." |};
    {| ad_adapter_type := "http"; ad_kind := KindHttp;
       ad_description := "Call a deployed agent request boundary over HTTP." |};
    {| ad_adapter_type := "process"; ad_kind := KindLocal;
       ad_description := "Run an operator-reviewed local process command." |};
    {| ad_adapter_type := "codex_local"; ad_kind := KindLocal;
       ad_description := "Run a local Codex command through the process adapter." |};
    {| ad_adapter_type := "claude_local"; ad_kind := KindLocal;
       ad_description := "Run a local Claude command through the process adapter." |} ].

Definition is_registered (adapter_type : string) : bool :=
  bool_decide (is_Some (dict_get DEFAULT_ADAPTER_REGISTRY adapter_type)).
Definition is_local (adapter_type : string) : bool :=
  match dict_get DEFAULT_ADAPTER_REGISTRY adapter_type with
  | Some d => bool_decide (ad_kind d = KindLocal)
  | None => false
  end.

(** ** What is outside *)
Record ExecutorResponse := {
  er_status : string; er_summary : string; er_cost_usd : float; er_cost_is_estimate : bool;
  er_output : pydict; er_artifact_references : list string }.

(** The outcome of one streamed POST: no answer, or the status, the number of
    bytes received, whether the content type is JSON, the parsed JSON if it
    parses, and the decoded text. *)
Inductive http_reply :=
  | TransportError
  | Reply (status_code : Z) (size : Z) (is_json : bool) (json : option pyval) (text : string).

Record adapters := {
  http_post : string → float → pydict → pydict → M Session http_reply;
  execute_process : AgentWakeupAdapterConfig → pydict → option ExecutionTicket → M Session pydict;
  model_validate : pyval → option ExecutorResponse;
  local_adapter_enabled : bool;
  local_adapter_allowlist : string;
  http_adapter_allowlist : string;
  internal_service_key : string;
}.

(** The non-empty trimmed entries of a comma-separated setting. *)
Definition allowlist_entries (setting : string) : list string :=
  filter (λ x, x ≠ "") (strip <$> str_split "," setting).
Definition http_allowlist_entries (setting : string) : list string :=
  rstrip_char "/" <$> allowlist_entries setting.

Record AgentWakeupResult := {
  ar_run_id : string; ar_output : pyval; ar_evidence_artifact_id : option string }.

(** The arguments of a wakeup. *)
Record wake_args := {
  wk_agent : AgentRoleRecord;
  wk_input_payload : option pydict;
  wk_actor_id : string;
  wk_trace_id : option string;
  wk_goal_id : option string;
  wk_work_item_id : option string;
  wk_trigger : string;
  wk_idempotency_key : option string;
}.

(** [exc.error_category] or the class name; [exc.detail] or the text *)
Definition error_category_of (e : exn) : string :=
  match e with
  | AgentWakeupError _ _ category => category
  | ExecutionDenied _ _ => "ExecutionDenied"
  | Exn cls _ => cls
  end.
Definition error_message_of (e : exn) : string :=
  match e with
  | AgentWakeupError detail _ _ => detail
  | ExecutionDenied reason _ => reason
  | Exn _ msg => msg
  end.

(** [isinstance(exc, InvalidAgentRoleStatusError)] *)
Definition invalid_status (e : exn) : bool :=
  match e with Exn cls _ => bool_decide (cls = "InvalidAgentRoleStatusError") | _ => false end.

Definition wakeup_error (detail : string) (status : Z) : exn :=
  AgentWakeupError detail status "wakeup_error".
Definition uncertain (detail : string) : exn := AgentWakeupError detail 409 "uncertain_effects".

(** [max(a, b)] *)
Definition dec_max (a b : decimal) : decimal := if dec_ltb a b then b else a.

Section runner.
Context {E : Env}.
Context (X : adapters).

(** ** The HTTP adapter *)
Definition executor_output (adapter : string) (r : ExecutorResponse) : pydict :=
  [("status", PStr (if decide (er_status r = "succeeded") then "ok" else "recorded"));
   ("adapter", PStr adapter); ("cost_usd", PFloat (er_cost_usd r));
   ("cost_is_estimate", PBool (er_cost_is_estimate r)); ("summary", PStr (er_summary r));
   ("response", PDict (er_output r)); ("artifact_references", PList (PStr <$> er_artifact_references r))].

Definition contract_v1 (c : AgentWakeupAdapterConfig) : bool :=
  is_str (dget (awc_config c) "contract_version") "1.0".

Definition http_headers (c : AgentWakeupAdapterConfig) (request : pydict) : pydict :=
  [("Idempotency-Key", PStr (py_str (dget request "run_id")))]
  ++ (if contract_v1 c then [("X-Executor-Contract", PStr "1.0")] else [])
  ++ (if str_empty (internal_service_key X) then []
      else [("X-Internal-Key", PStr (internal_service_key X))])
  ++ (if py_bool (dget request "trace_id")
      then [("X-Trace-ID", PStr (py_str (dget request "trace_id")))] else []).

(** The body of an answer, or the exception its status, size or syntax raises. *)
Definition http_body (reply : http_reply) : result pyval :=
  match reply with
  | TransportError => Raise (uncertain "executor_effects_uncertain")
  | Reply status size is_json json text =>
      if 500 <=? status then Raise (uncertain "executor_effects_uncertain")
      else if negb ((200 <=? status) && (status <? 300))
      then Raise (Exn "HTTPStatusError" (pretty status))
      else if 1000000 <? size then Raise (uncertain "executor_output_limit_exceeded")
      else if is_json then
             match json with
             | Some body => Ok body
             | None => Raise (uncertain "executor_contract_invalid")
             end
           else Ok (PDict [("text", PStr text)])
  end.

Definition _execute_http (c : AgentWakeupAdapterConfig) (request : pydict) : M Session pydict :=
  match string_value c ["base_url"; "url"; "endpoint"] with
  | None => raiseM (AgentWakeupError "http_adapter_base_url_required" 400 "adapter_config_error")
  | Some base_url =>
      if decide (rstrip_char "/" base_url ∉ http_allowlist_entries (http_adapter_allowlist X))
      then raiseM (AgentWakeupError "http_adapter_endpoint_not_allowlisted" 403 "adapter_not_allowlisted")
      else
        let path := default "/agent/request" (string_value c ["path"]) in
        let url := rstrip_char "/" base_url +:+
                     (if str_startswith "/" path then path else "/" +:+ path) in
        timeout ← liftM (http_timeout_seconds c);
        reply ← http_post X url timeout (http_headers c request) request;
        body ← liftM (http_body reply);
        if contract_v1 c then
          match model_validate X body with
          | None => raiseM (uncertain "executor_contract_invalid")
          | Some r =>
              if decide (er_status r = "failed") then raiseM (wakeup_error "http_executor_failed" 502)
              else mret (executor_output "http" r)
          end
        else
          mret [("status", PStr "recorded"); ("adapter", PStr "http"); ("response", body);
                ("summary", match body with PDict d => dget d "status" | _ => PStr "ok" end)]
  end.

(** ** The adapter of a role *)
Definition adapter_request (agent : AgentRoleRecord) (c : AgentWakeupAdapterConfig)
    (ticket : option ExecutionTicket) (id_ : string) (a : wake_args) : pydict :=
  [("schema_version", PStr "1.0"); ("company_id", PStr (role_company_id agent));
   ("action", WakeupAdapter.action c); ("agent_id", PStr (role_agent_id agent));
   ("run_id", PStr id_); ("trace_id", p_opt (wk_trace_id a)); ("goal_id", p_opt (wk_goal_id a));
   ("work_item_id", p_opt (wk_work_item_id a));
   ("input", PDict (dict_or_empty (wk_input_payload a)));
   ("max_cost_usd", match ticket with
                    | Some t => PFloat (float_of_decimal (tk_ceiling_usd t))
                    | None => PInt 0
                    end)].

Definition builtin_output (agent : AgentRoleRecord) : pydict :=
  [("status", PStr "recorded");
   ("summary", PStr (role_display_name agent +:+ " wakeup was recorded by the control plane."));
   ("agent_kind", match role_agent_kind agent with Member x => PEnum (value x) | Str s => PStr s end); ("role", PStr (role_role agent));
   ("title", PStr (role_title agent)); ("capabilities", PList (PStr <$> role_capabilities agent));
   ("responsibilities", PList (PStr <$> role_responsibilities agent))].

Definition _execute_adapter (a : wake_args) (ticket : option ExecutionTicket) (id_ : string)
    : M Session pydict :=
  let agent := wk_agent a in
  c ← liftM (WakeupAdapter.from_agent_role agent);
  if negb (is_registered (awc_adapter_type c))
  then raiseM (AgentWakeupError "unsupported_adapter_type" 400 "unsupported_adapter")
  else
    let request := adapter_request agent c ticket id_ a in
    if decide (awc_adapter_type c = "builtin") then mret (builtin_output agent)
    else if decide (awc_adapter_type c = "http") then _execute_http c request
    else if is_local (awc_adapter_type c) then
      if negb (local_adapter_enabled X)
      then raiseM (AgentWakeupError "local_adapter_disabled" 403 "adapter_disabled")
      else if decide (allowlist_key c ∉ allowlist_entries (local_adapter_allowlist X))
      then raiseM (AgentWakeupError "local_adapter_not_allowlisted" 403 "adapter_not_allowlisted")
      else execute_process X c request ticket
    else raiseM (wakeup_error "unsupported_adapter_type" 400).

(** ** Waking an agent *)

(** The claim, its refusals as wakeup errors. *)
Definition claim_for_wakeup (a : wake_args) (actor_id id_ : string) : M Session ExecutionTicket :=
  catchM (claim {| ca_agent := wk_agent a; ca_run_id := id_;
                   ca_payload := dict_or_empty (wk_input_payload a);
                   ca_work_item_id := wk_work_item_id a; ca_goal_id := wk_goal_id a;
                   ca_actor_id := actor_id;
                   ca_idempotency_key := if truthy (wk_idempotency_key a)
                                         then str_or_empty (wk_idempotency_key a) else id_ |})
    (λ e, match e with
          | ExecutionDenied reason code => raiseM (AgentWakeupError reason code "execution_denied")
          | _ => raiseM e
          end).

(** [events[-1].get("payload", {}).get("output", {})] *)
Definition last_output (events : list pydict) : result pyval :=
  match last events with
  | None => Ok (PDict [])
  | Some event =>
      match default (PDict []) (dict_get event "payload") with
      | PDict payload => Ok (default (PDict []) (dict_get payload "output"))
      | _ => Raise (Exn "AttributeError" "get")
      end
  end.

(** The answer to a repeated key. *)
Definition replay_result (t : ExecutionTicket) : M Session AgentWakeupResult :=
  existing ← query (get_agent_run (tk_run_id t));
  match existing with
  | None => raiseM (wakeup_error "execution_recovery_required" 409)
  | Some run =>
      if decide (str_of (run_record_status run) ≠ "succeeded")
      then raiseM (wakeup_error "previous_attempt_failed" 409)
      else
        output ← liftM (last_output (run_output_events run));
        mret {| ar_run_id := tk_run_id t; ar_output := output; ar_evidence_artifact_id := None |}
  end.

(** The reported cost, settled; [true] when it is above the ceiling. *)
Definition settle_output (t : ExecutionTicket) (output : pydict) : M Session bool :=
  let estimated := negb (bool_decide (is_Some (dict_get output "cost_usd")))
                   || is_true (dget output "cost_is_estimate") in
  cost ← liftM (bounded_cost (default (PObject (dec_str (tk_ceiling_usd t))) (dict_get output "cost_usd")));
  let cost := if estimated then dec_max cost (tk_ceiling_usd t) else cost in
  let over := dec_ltb (tk_ceiling_usd t) cost in
  _ ← settle t cost over estimated;
  mret over.

(** The [try] block: its outcome and the [settled] flag. *)
Definition attempt (execute : M Session pydict) (ticket : option ExecutionTicket)
    : M Session (result pydict * bool) :=
  r ← tryM execute;
  match r, ticket with
  | Raise e, _ => mret (Raise e, false)
  | Ok output, None => mret (Ok output, false)
  | Ok output, Some t =>
      r ← tryM (settle_output t output);
      match r with
      | Raise e => mret (Raise e, false)
      | Ok true => mret (Raise (AgentWakeupError "executor_cost_ceiling_exceeded" 502 "executor_contract"), true)
      | Ok false => mret (Ok output, true)
      end
  end.

(** The [except] block. *)
Definition fail_wakeup (a : wake_args) (actor_id : string) (ticket : option ExecutionTicket)
    (id_ : string) (input_event : pydict) (settled : bool) (e : exn) : M Session AgentWakeupResult :=
  let category := error_category_of e in
  match ticket, decide (category = "uncertain_effects") with
  | Some t, left _ => _ ← mark_uncertain t; raiseM e
  | _, _ =>
      _ ← match ticket with
          | Some t => whenM (negb settled) (settle t (tk_ceiling_usd t) true true)
          | None => mret ()
          end;
      _ ← fail_agent_wakeup_run (wk_agent a) id_ input_event actor_id (wk_trace_id a) (wk_goal_id a)
            (wk_work_item_id a) (wk_trigger a) category (error_message_of e)
            (bool_decide (category = "cancelled"));
      raiseM (match e with
              | AgentWakeupError _ _ _ => e
              | _ => AgentWakeupError "agent_wakeup_failed" 502 category
              end)
  end.

(** From the start of the run to its end. *)
Definition run_dispatch (execute : option ExecutionTicket → string → M Session pydict)
    (a : wake_args) (actor_id : string) (ticket : option ExecutionTicket) (id_ : string)
    : M Session AgentWakeupResult :=
  run_record ← start_agent_wakeup_run (wk_agent a) (wk_input_payload a) actor_id (wk_trace_id a)
                 (wk_goal_id a) (wk_work_item_id a) (wk_trigger a) (Some id_);
  let started := run_id (wr_run run_record) in
  _ ← whenM (bool_decide (is_Some ticket)) checkpoint;
  r ← attempt (execute ticket started) ticket;
  match r with
  | (Raise e, settled) => fail_wakeup a actor_id ticket started (wr_input_event run_record) settled e
  | (Ok output, _) =>
      evidence ← complete_agent_wakeup_run (wk_agent a) started (wr_input_event run_record) output actor_id
                   (wk_trace_id a) (wk_goal_id a) (wk_work_item_id a) (wk_trigger a);
      mret {| ar_run_id := started; ar_output := PDict output; ar_evidence_artifact_id := Some evidence |}
  end.

(** [wake], for a store with ([governed]) or without a dispatch ledger. *)
Definition wake_with (governed : bool) (execute : option ExecutionTicket → string → M Session pydict)
    (a : wake_args) : M Session AgentWakeupResult :=
  let actor_id := default (wk_actor_id a) operator_id in
  match AgentRole.is_runnable (AgentRole.from_record (wk_agent a)) with
  | Raise e =>
      raiseM (if invalid_status e then AgentWakeupError "invalid_agent_status" 409 "invalid_agent_status"
              else e)
  | Ok false => raiseM (wakeup_error "agent_not_runnable" 409)
  | Ok true =>
      id_ ← generate_id "run";
      if governed then
        t ← claim_for_wakeup a actor_id id_;
        if tk_replay t then replay_result t
        else run_dispatch execute a actor_id (Some t) id_
      else run_dispatch execute a actor_id None id_
  end.

Definition wake (governed : bool) (a : wake_args) : M Session AgentWakeupResult :=
  wake_with governed (_execute_adapter a) a.
End runner.
