(* ===== verification/Scenario.v ===== *)
(** * The ledger as a transition system

    The transactions of the dispatch ledger as steps of the session, and the
    properties of every reachable state.  An operation that raises is rolled
    back, except a refused claim and an uncertain outcome, which commit their
    evidence first. *)

From S2P Require Import Prelude PyNum PyTime PyValue Models Metadata Budget ExecutionPolicy Store.
From S2P Require Import Frames AgentRunLifecycle ExecutionLedger ExecutionInvariants Lifecycles.

(** What is committed satisfies the invariant. *)
Definition safe (s : Session) : Prop := ledger_inv (durable s).

Lemma good_safe s : good s → safe s.
Proof. by intros [_ ?]. Qed.

Lemma rollback_good s : safe s → good (rollback s).
Proof. by split. Qed.

(** The lease of the ticket has not been closed by someone else. *)
Definition still_held (t : ExecutionTicket) (s : Session) : Prop :=
  ∀ l, get_lease (tk_execution_id t) (db s) = Some l → lease_active l = true.

Section steps.
Context {E : Env}.

Lemma settle_durable t cost f g : framed (λ _, ()) (settle t cost f g).
Proof.
  unfold settle, settle_reservation, denied, execution_usage, record_budget_usage, update_lease. frame.
Qed.

Lemma settle_triple t cost f g : triple good (settle t cost f g) (λ _, good) safe.
Proof.
  intros s r s' [H1 H2] H. destruct (settle_durable _ _ _ _ _ _ _ H) as [_ Hd].
  destruct r as [[]|e]; [|unfold safe; by rewrite Hd]. split; [|by rewrite Hd].
  by eapply settle_inv.
Qed.

Lemma mark_uncertain_good t :
  triple (λ s, good s ∧ still_held t s) (mark_uncertain t) (λ _, good) good.
Proof.
  unfold mark_uncertain, denied. eapply triple_bind; [apply triple_query|].
  intros [lease|]; [|apply triple_raise; by intros s [[? _] _]].
  case_decide; [apply triple_raise; by intros s [[? _] _]|].
  apply triple_bind with (R := λ _ s, (good s ∧ still_held t s) ∧ Some lease = get_lease (tk_execution_id t) (db s)).
  { apply triple_framed; [eauto with cell| |by intros s [[? _] _]].
    intros s s' H1 H2 [[H3 H4] H5]. pose proof (f_equal (λ x, x.1.1.1) H1) as Hl. cbn in Hl.
    unfold still_held, get_lease in *. rewrite Hl. split; [split; [|done]|done].
    by eapply good_stable. }
  intros now.
  apply triple_bind with (R := λ _, good); [|intros ?; apply triple_bind with (R := λ _, good);
    [apply good_framed_only; eauto with cell | intros ?; apply checkpoint_good]].
  apply triple_update. intros s [[[H1 H2] Hh] Hl]. split; [|done]. cbn. symmetry in Hl.
  pose proof (Hh lease Hl) as Ha. apply get_row_Some in Hl as [Hin Hid].
  apply update_lease_inv; [by intros l| |done].
  intros l Hl Hle. assert (l = lease) as ->; [|done].
  by eapply get_row_NoDup; [apply (inv_execution_id _ H1)|..].
Qed.

Lemma request_control_good i c a re ac : triple good (request_control i c a re ac) (λ _, good) good.
Proof.
  unfold request_control, denied.
  apply triple_bind with (R := λ _, good); [apply good_framed_only; eauto with cell|]. intros lease_.
  apply triple_bind with (R := λ _, good); [apply good_framed_only; eauto with cell|]. intros run_.
  destruct lease_ as [lease|]; [|by apply triple_raise].
  destruct run_ as [run|]; [|by apply triple_raise].
  apply triple_bind with (R := λ _, good); [apply good_framed_only; eauto with cell|].
  intros [role|]; [|by apply triple_raise].
  apply triple_bind with (R := λ _, good); [apply good_framed_only; eauto with cell|]. intros ?.
  apply triple_bind with (R := λ _, good).
  - apply triple_update. intros s [H1 H2]. split; [|done]. by apply update_lease_inv.
  - intros ?. apply triple_bind with (R := λ _, good);
      [apply good_framed_only; eauto with cell | intros ?; by apply triple_ret].
Qed.

(** Read-only and ledger-neutral steps, where only the commit must survive. *)
Lemma safe_framed {A} (m : M Session A) : framed ledger m → triple good m (λ _, good) safe.
Proof. intros Hm. apply triple_framed; [done | apply good_stable | apply good_safe]. Qed.

Lemma recover_triple i c re ac : triple good (recover i c re ac) (λ _, good) safe.
Proof.
  unfold recover, denied. eapply triple_bind; [apply triple_query|].
  intros [lease|]; [|apply triple_raise; by intros s [[_ ?] _]].
  apply triple_bind with (R := λ _ s, good s ∧ lease ∈ t_leases (db s)).
  { eapply triple_pre with (P' := λ s, good s ∧ lease ∈ t_leases (db s)).
    - apply triple_framed; [eauto with cell| |by intros s [[_ ?] _]].
      intros s s' H1 H2 [H3 H4]. split; [by eapply good_stable|].
      pose proof (f_equal (λ x, x.1.1.1) H1) as Hl. cbn in Hl. by rewrite Hl.
    - intros s [Hg Hl]. split; [done|]. symmetry in Hl. apply head_Some_elem_of in Hl.
      by apply list_elem_of_filter in Hl as [_ ?]. }
  intros now. destruct (negb _ || _) eqn:Hab; [apply triple_raise; by intros s [[_ ?] _]|].
  apply orb_false_iff in Hab as [Hact _]. apply negb_false_iff in Hact.
  apply triple_bind with (R := λ _, good).
  { apply triple_update. intros s [[H1 H2] Hl]. split; [|done].
    apply update_lease_inv; [apply with_lease_state_identity| |done].
    intros l Hl' Hid. assert (l = lease) as ->; [|by rewrite Hact].
    by eapply get_row_NoDup; [apply (inv_execution_id _ H1)|..]. }
  intros ?. apply triple_bind with (R := λ _, good); [apply safe_framed; eauto with cell|]. intros rs.
  cbv zeta. apply triple_bind with (R := λ _, good); [apply settle_triple|]. intros ?.
  apply triple_bind with (R := λ _, good); [apply safe_framed; eauto with cell|]. intros run_.
  apply triple_bind with (R := λ _, good); [apply safe_framed; frame|]. intros ?.
  apply triple_bind with (R := λ _, good); [apply safe_framed; frame|]. intros ?.
  apply triple_bind with (R := λ _, good); [apply safe_framed; eauto with cell|]. intros ?.
  by apply triple_ret.
Qed.

(** ** Steps *)
Inductive step : Session → Session → Prop :=
  | step_claim a s r s' : claim a s = (r, s') → step s s'
  | step_settle t cost failed estimated s s' :
      settle t cost failed estimated s = (Ok (), s') → step s s'
  | step_settle_abort t cost failed estimated s e s' :
      settle t cost failed estimated s = (Raise e, s') → step s (rollback s')
  | step_recover i c reason actor s d s' :
      recover i c reason actor s = (Ok d, s') → step s s'
  | step_recover_abort i c reason actor s e s' :
      recover i c reason actor s = (Raise e, s') → step s (rollback s')
  | step_uncertain t s r s' :
      still_held t s → mark_uncertain t s = (r, s') → step s s'
  | step_control i c action reason actor s r s' :
      request_control i c action reason actor s = (r, s') → step s s'
  (** spend recorded outside the ledger names no execution *)
  | step_usage u s :
      usage_execution u = PNone →
      step s (with_db s (set_usages (t_usages (db s) ++ [u]) (db s)))
  | step_policies ps s :
      (∀ p, p ∈ ps → strip (bp_budget_id p) = bp_budget_id p) →
      step s (with_db s (set_policies ps (db s)))
  (** every other part of the program leaves the ledger's tables alone *)
  | step_other s s' :
      ledger (db s') = ledger (db s) → durable s' = durable s → step s s'
  | step_commit s s' : checkpoint s = (Ok (), s') → step s s'
  | step_rollback s : step s (rollback s).

Lemma charge_count_unrelated e b u : usage_execution u = PNone → charge_count e b [u] = O.
Proof.
  intros Hu. unfold charge_count. rewrite filter_cons, decide_False; [done|].
  unfold charges. rewrite Hu. cbn. by rewrite andb_false_r.
Qed.

Lemma unrelated_usage_inv d u :
  ledger_inv d → usage_execution u = PNone → ledger_inv (set_usages (t_usages d ++ [u]) d).
Proof.
  intros [] Hu. constructor; cbn; try done.
  - intros r Hr. rewrite charge_count_app, (inv_charged r Hr).
    rewrite charge_count_unrelated by done. lia.
  - intros u' e [Hin|Hin%list_elem_of_singleton]%elem_of_app He; [by eapply inv_usage_lease|].
    subst u'. by rewrite Hu in He.
Qed.

Lemma step_good s s' : step s s' → good s → good s'.
Proof.
  destruct 1 as [a s r s' H|t cost f g s s' H|t cost f g s e s' H|i c re ac s d s' H|i c re ac s e s' H
    |t s r s' Hh H|i c a re ac s r s' H|u s Hu|ps s Hps|s s' H1 H2|s s' H|s]; intros Hg.
  - apply claim_good in H; [by destruct r | done].
  - by apply (settle_triple _ _ _ _ _ _ _ Hg H).
  - apply rollback_good. by apply (settle_triple _ _ _ _ _ _ _ Hg H).
  - by apply (recover_triple _ _ _ _ _ _ _ Hg H).
  - apply rollback_good. by apply (recover_triple _ _ _ _ _ _ _ Hg H).
  - apply mark_uncertain_good in H; [by destruct r | done].
  - apply request_control_good in H; [by destruct r | done].
  - destruct Hg as [H1 H2]. split; [by apply unrelated_usage_inv | done].
  - destruct Hg as [[] H2]. split; [by constructor | done].
  - by eapply good_stable.
  - by apply checkpoint_good in H.
  - apply rollback_good. by apply good_safe.
Qed.

Lemma steps_good s s' : rtc step s s' → good s → good s'.
Proof. induction 1; eauto using step_good. Qed.
End steps.

(** A session before the first dispatch. *)
Definition fresh_ledger (s : Session) : Prop :=
  (∀ d, d ∈ [db s; durable s] → t_leases d = [] ∧ t_reservations d = [] ∧ t_usages d = []
     ∧ ∀ p, p ∈ t_policies d → strip (bp_budget_id p) = bp_budget_id p).

Lemma fresh_good s : fresh_ledger s → good s.
Proof.
  intros H. split; [destruct (H (db s)) as (HL & HR & HU & HP) | destruct (H (durable s)) as (HL & HR & HU & HP)];
    try set_solver; constructor; rewrite ?HL, ?HR, ?HU; cbn; try done; try constructor; set_solver.
Qed.

(** ** A concrete company

    An environment and a small database on which the dispatch operations are
    evaluated: one company, one agent with a process adapter and a 2.5 USD
    ceiling, two work items, one company budget. *)

(** The clock advances by [tick] microseconds at each reading; hashing keeps its
    input readable. *)
Definition sample_env (tick : Z) (foreign_keys : bool) : Env := {|
  sha256_hex := λ s, "sha:" +:+ s;
  ulid := λ n, pretty (N.of_nat n);
  uuid4_hex := λ n, "owner" +:+ pretty (N.of_nat n);
  clock := λ n, ymd2ord 2026 8 17 * us_per_day + Z.of_nat n * tick;
  sql_sum := foldl f_add f_zero;
  operator_id := None;
  enforce_foreign_keys := foreign_keys;
|}.

Definition sample_company : CompanyContextRecord := {|
  cc_company_id := "cmp_1"; cc_name := "Cell"; cc_mission := ""; cc_metadata := [];
  cc_created_at := of_utc 0; cc_updated_at := of_utc 0 |}.

Definition sample_work (id_ status : string) (deps : list string) (approval : bool) : WorkItemRecord := {|
  wi_work_item_id := id_; wi_company_id := "cmp_1"; wi_title := "t"; wi_description := "";
  wi_record_status := Some (Str status); wi_priority := Str "medium"; wi_goal_id := None;
  wi_owner_agent_id := None; wi_owner_user_id := None; wi_source := "manual"; wi_external_ref := None;
  wi_dependencies := deps; wi_approval_required := approval; wi_metadata := [];
  wi_created_at := of_utc 0; wi_updated_at := of_utc 0 |}.

Definition sample_db (works : list WorkItemRecord) : DB := {|
  t_companies := [sample_company]; t_goals := []; t_roles := [sample_role]; t_runs := [];
  t_work_items := works; t_approvals := []; t_policies := [sample_policy]; t_usages := [];
  t_leases := []; t_reservations := []; t_artifacts := []; t_audits := []; t_outbox := [];
  t_tombstones := []; t_decisions := []; t_proposals := []; t_acceptances := [] |}.

Definition sample_session (works : list WorkItemRecord) : Session :=
  {| db := sample_db works; durable := sample_db works; ticks := 0; ids := 0 |}.

Definition sample_claim (run key work : string) : claim_args := {|
  ca_agent := sample_role; ca_run_id := run; ca_payload := [("task", PStr "build")];
  ca_work_item_id := Some work; ca_goal_id := None; ca_actor_id := "ops";
  ca_idempotency_key := key |}.

(** Two open items, the first depending on a completed one. *)
Definition works : list WorkItemRecord :=
  [sample_work "w1" "ready" ["w0"] false; sample_work "w0" "completed" [] false].
