(* ===== verification/ExecutionTheorems.v ===== *)
(** * What the dispatch ledger guarantees

    The properties of [execution_store.py], proved from the invariant of the
    transition system, from the stages of a granted claim and from the frames of
    the stores, each with a run on the sample company. *)

From S2P Require Import Prelude PyNum PyTime PyValue Models Metadata Budget WorkItem AuditEvent ExecutionPolicy.
From S2P Require Import Store Frames AgentRunLifecycle ExecutionLedger ExecutionInvariants ClaimInversion.
From S2P Require Import Scenario Lifecycles.

(** ** Sample runs *)
Section samples.
Definition plain_env : Env := sample_env 1 false.
#[local] Existing Instance plain_env.

Definition start : Session := sample_session works.
Definition first_claim : claim_args := sample_claim "run_1" "k1" "w1".
Definition after_claim : Session := (claim first_claim start).2.
Definition first_ticket : ExecutionTicket := {|
  tk_execution_id := "sha:cmp_1:k1"; tk_run_id := "run_1"; tk_owner_id := "owner0";
  tk_ceiling_usd := DFin false 2500000 (-6); tk_replay := false |}.

Definition sample_run (id_ : string) : AgentRunRecord := {|
  run_id := id_; run_company_id := "cmp_1"; run_agent_id := role_agent_id sample_role;
  run_record_status := Str "running"; run_trace_id := None; run_goal_id := None;
  run_work_item_id := Some "w1"; run_trigger_event_id := None; run_input_event := None;
  run_output_events := []; run_started_at := of_utc 0; run_completed_at := None;
  run_error_category := None; run_error_message := None; run_last_successful_step := None;
  run_cost_usd := f_zero; run_input_tokens := 0; run_output_tokens := 0; run_metadata := [] |}.
(** The run rows the lifecycle writes between the claim and the settlement. *)
Definition with_runs (ids_ : list string) (s : Session) : Session :=
  with_db s (set_runs (sample_run <$> ids_) (db s)).
Definition two_usd : decimal := DFin false 2 0.
Definition after_settle : Session :=
  (settle first_ticket two_usd false false (with_runs ["run_1"] after_claim)).2.
End samples.

(** ** Every reachable state *)
Section reachable.
Context {E : Env}.

(** C1.  Mutual exclusion: in every committed state reachable from an empty
    ledger through claims, settlements, recoveries, control requests and
    aborted transactions, a resource of a company has at most one active
    lease. *)
Theorem one_active_lease s0 s a b :
  fresh_ledger s0 → rtc step s0 s →
  a ∈ t_leases (durable s) → b ∈ t_leases (durable s) →
  lease_active a = true → lease_active b = true →
  l_company_id a = l_company_id b → l_resource_id a = l_resource_id b → a = b.
Proof.
  intros Hf Hs Ha Hb Haa Hab Hc Hr.
  destruct (steps_good _ _ Hs (fresh_good _ Hf)) as [_ Hi].
  eapply (get_row_NoDup l_execution_id); [apply (inv_execution_id _ Hi)|done..|].
  by eapply (inv_active _ Hi).
Qed.

(** C2.  Money is held exactly while the work is out and charged exactly
    once, as long as uncertain effects are reported only for a dispatch whose
    lease is still active ([still_held], which [mark_uncertain] does not check:
    see [late_uncertain_breaks_exclusion]): in every committed state reached by
    such a history a reservation is held if and only if its lease is active, and
    its budget carries one charge for the execution if it is settled and none
    otherwise. *)
Theorem reservations_charged_once s0 s r :
  fresh_ledger s0 → rtc step s0 s → r ∈ t_reservations (durable s) →
  ∃ l, l ∈ t_leases (durable s) ∧ l_execution_id l = rv_execution_id r
    ∧ (rv_state r = Reserved ↔ lease_active l = true)
    ∧ charge_count (rv_execution_id r) (rv_budget_id r) (t_usages (durable s))
      = (if decide (rv_state r = Settled) then 1 else 0)%nat.
Proof.
  intros Hf Hs Hr. destruct (steps_good _ _ Hs (fresh_good _ Hf)) as [_ Hi].
  destruct (inv_held _ Hi r Hr) as (l & ? & ? & ?). exists l.
  split_and!; [done..|]. by apply (inv_charged _ Hi).
Qed.
End reachable.

(** The sample run: claim, commit, settle, commit. *)
Section reachable_witness.
#[local] Existing Instance plain_env.

Definition committed : Session := (checkpoint after_claim).2.
Definition settled : Session := (checkpoint after_settle).2.

Lemma start_fresh : fresh_ledger start.
Proof.
  intros d Hd. assert (d = sample_db works) as -> by set_solver. split_and!; try reflexivity.
  intros p ->%list_elem_of_singleton. vm_compute. reflexivity.
Qed.

Lemma first_step : step start after_claim.
Proof. apply (step_claim first_claim start (claim first_claim start).1). apply surjective_pairing. Qed.

Lemma committed_reachable : rtc step start committed.
Proof.
  apply rtc_l with after_claim; [exact first_step|].
  apply rtc_once, step_commit. reflexivity.
Qed.

Lemma settled_reachable : rtc step start settled.
Proof.
  apply rtc_l with after_claim; [exact first_step|].
  apply rtc_l with (with_runs ["run_1"] after_claim); [apply step_other; vm_compute; reflexivity|].
  apply rtc_l with after_settle; [|apply rtc_once, step_commit; reflexivity].
  apply (step_settle first_ticket two_usd false false). vm_compute. reflexivity.
Qed.

Definition held_lease : ExecutionLease := {|
  l_execution_id := "sha:cmp_1:k1"; l_company_id := "cmp_1"; l_resource_id := "work:w1";
  l_intent_hash := from_option l_intent_hash "" (head (t_leases (db after_claim)));
  l_run_id := "run_1"; l_owner_id := "owner0"; l_state := LeaseState_RUNNING;
  l_control_action := "resume"; l_expires_at := 63922609000000000;
  l_created_at := 63922608000000000 |}.
Definition settled_reservation : ExecutionReservation := {|
  rv_execution_id := "sha:cmp_1:k1"; rv_budget_id := "bud_1";
  rv_amount_usd := DFin false 2500000 (-6); rv_state := Settled;
  rv_created_at := 63922608000000000 |}.

Lemma one_active_lease_witness :
  held_lease ∈ t_leases (durable committed) ∧ lease_active held_lease = true ∧ held_lease = held_lease.
Proof.
  assert (held_lease ∈ t_leases (durable committed)) as H by (vm_compute; left).
  split; [exact H|]. split; [reflexivity|].
  exact (one_active_lease start committed held_lease held_lease start_fresh committed_reachable H H
           eq_refl eq_refl eq_refl eq_refl).
Defined.

Lemma reservations_charged_once_witness :
  settled_reservation ∈ t_reservations (durable settled)
  ∧ ∃ l, l ∈ t_leases (durable settled) ∧ l_execution_id l = "sha:cmp_1:k1"
      ∧ (Settled = Reserved ↔ lease_active l = true)
      ∧ charge_count "sha:cmp_1:k1" "bud_1" (t_usages (durable settled)) = 1%nat.
Proof.
  assert (settled_reservation ∈ t_reservations (durable settled)) as H by (vm_compute; left).
  split; [exact H|].
  exact (reservations_charged_once start settled settled_reservation start_fresh settled_reachable H).
Defined.
End reachable_witness.

(** ** What a grant means *)
Section grants.
Context {E : Env}.

(** C5.  A dispatch is authorised and exclusive: when a claim returns a new
    ticket, the stored role (not the caller's copy) is active and holds the
    permissions of its adapter, its configuration is the one the caller hashed,
    no active lease held the resource, the work item, if any, belongs to the
    company, is open and has all its dependencies completed inside the company,
    and the ledger gains exactly this lease while the work item starts running
    without its previous acceptance. *)
Theorem granted_claim_authorized a s t s' :
  claim a s = (Ok t, s') → tk_replay t = false →
  ∃ current ceiling intent,
    let company := role_company_id (ca_agent a) in
    let resource := resource_of (ca_agent a) (ca_work_item_id a) in
    get_role company (role_agent_id (ca_agent a)) (db s) = Some current
    ∧ authorize_adapter current = Ok ceiling ∧ tk_ceiling_usd t = ceiling
    ∧ intent_hash sha256_hex current (ca_payload a) (ca_work_item_id a) = Ok intent
    ∧ intent_hash sha256_hex (ca_agent a) (ca_payload a) (ca_work_item_id a) = Ok intent
    ∧ active_lease company resource (db s) = None
    ∧ tk_execution_id t ∉ l_execution_id <$> t_leases (db s)
    ∧ t_leases (db s') = t_leases (db s) ++
        [new_lease a (tk_execution_id t) resource (dispatch_digest a intent) (clock (ticks s)) (tk_owner_id t)]
    ∧ (truthy (ca_work_item_id a) = true →
       ∃ w now, get_work_item (str_or_empty (ca_work_item_id a)) (db s) = Some w
         ∧ wi_company_id w = company
         ∧ work_status w ≠ Some "completed" ∧ work_status w ≠ Some "cancelled"
         ∧ (∀ x, x ∈ wi_dependencies w → dependency_done w (db s) x)
         ∧ t_work_items (db s') =
             update_row wi_work_item_id (wi_work_item_id w) without_acceptance
               (update_row wi_work_item_id (wi_work_item_id w) (with_work_status "running" now)
                  (t_work_items (db s)))).
Proof.
  intros H Hr. destruct (claim_new_inv _ _ _ _ H Hr)
    as (current & ceiling & intent & work & approved & owner & selected & sg
        & Hrole & Hauth & Hint & Hreq & Hact & (s1 & s2 & Hdb1 & Hwork) & _ & _ & Hdb & Hgrant).
  apply grant_Ok in Hgrant as (-> & He & HL & _ & _ & _ & _ & HW). cbn in *.
  exists current, ceiling, intent. rewrite Hdb in *. split_and!; [done..|].
  intros Ht. apply check_work_Ok in Hwork. rewrite Ht, Hdb1 in Hwork.
  destruct Hwork as (w & -> & ? & ? & ? & ? & ?). destruct (HW w eq_refl) as [now ?].
  exists w, now. done.
Qed.

(** C4.  No ungoverned dispatch: when the work item or the role's escalation
    policy requires approval, a new ticket is only returned on an approval of
    the same company and agent that is bound to this very intent, approved, not
    expired and not yet spent; the claim spends it on this execution, and every
    other approval is left as it was. *)
Theorem granted_claim_approved a s t s' :
  claim a s = (Ok t, s') → tk_replay t = false →
  ∃ current work intent,
    get_role (role_company_id (ca_agent a)) (role_agent_id (ca_agent a)) (db s) = Some current
    ∧ intent_hash sha256_hex current (ca_payload a) (ca_work_item_id a) = Ok intent
    ∧ work = (if truthy (ca_work_item_id a)
              then get_work_item (str_or_empty (ca_work_item_id a)) (db s) else None)
    ∧ if requires_approval current work then
        ∃ x, x ∈ t_approvals (db s)
          ∧ approval_company_id x = role_company_id (ca_agent a)
          ∧ approval_source_agent_id x = role_agent_id (ca_agent a)
          ∧ is_str (dget (approval_metadata x) "execution_intent_hash") (dispatch_digest a intent) = true
          ∧ approval_row_status x = Some "approved"
          ∧ py_bool (dget (approval_metadata x) "consumed_execution_id") = false
          ∧ (∃ e, approval_expires_at x = Some e ∧ clock (ticks s) < as_utc e)
          ∧ t_approvals (db s') = update_row approval_id (approval_id x)
              (consume_approval (tk_execution_id t) (ca_run_id a)) (t_approvals (db s))
      else t_approvals (db s') = t_approvals (db s).
Proof.
  intros H Hr. destruct (claim_new_inv _ _ _ _ H Hr)
    as (current & ceiling & intent & work & approved & owner & selected & sg
        & Hrole & _ & Hint & _ & _ & (s1 & s2 & Hdb1 & Hwork) & (s3 & s4 & Hdb3 & Happ) & _ & Hdb & Hgrant).
  apply grant_Ok in Hgrant as (-> & _ & _ & _ & _ & HA & _ & _). cbn.
  exists current, work, intent. split_and!; [done..| |].
  - apply check_work_Ok in Hwork. rewrite Hdb1 in Hwork.
    destruct (truthy _); [|done]. by destruct Hwork as (w & -> & -> & _).
  - rewrite Hdb in HA. apply check_approval_Ok in Happ as [_ Happ]. rewrite Hdb3 in Happ.
    destruct (requires_approval current work); [|by subst approved].
    destruct Happ as (x & -> & [He [[Hc [Hs Hd]] Hin]%list_elem_of_filter]%list_elem_of_filter & Hu).
    unfold usable_approval in Hu. apply andb_prop in Hu as [Hst Hco].
    apply bool_decide_eq_true in Hst. apply negb_true_iff in Hco.
    exists x. split_and!; try done. destruct (approval_expires_at x) as [e|]; [|done].
    exists e. split; [done|]. by apply Z.ltb_lt.
Qed.

(** C3.  Bounded spend: a new ticket is only returned when every active policy
    that applies to the dispatch (company, agent, work item, goal or the role's
    own) allows the executor's model and has room for the whole cost ceiling
    next to what it has consumed in its period and what other executions hold;
    a positive ceiling needs at least one policy, the role's own policy must be
    active, and the claim reserves the ceiling on each of them and charges
    nothing. *)
Theorem granted_claim_budgeted a s t s' :
  claim a s = (Ok t, s') → tk_replay t = false →
  ∃ current, get_role (role_company_id (ca_agent a)) (role_agent_id (ca_agent a)) (db s) = Some current
    ∧ (∀ p, p ∈ applicable a current (db s) →
         policy_admits current (tk_ceiling_usd t) (clock (ticks s)) (db s) p)
    ∧ (dec_ltb dec_zero (tk_ceiling_usd t) = true → applicable a current (db s) ≠ [])
    ∧ (truthy (role_budget_policy_id current) = true →
       ∃ p, p ∈ applicable a current (db s) ∧ Some (bp_budget_id p) = role_budget_policy_id current)
    ∧ t_reservations (db s') = t_reservations (db s) ++
        (reservation_for (tk_execution_id t) (tk_ceiling_usd t) (clock (ticks s))
           <$> applicable a current (db s))
    ∧ t_usages (db s') = t_usages (db s).
Proof.
  intros H Hr. destruct (claim_new_inv _ _ _ _ H Hr)
    as (current & ceiling & intent & work & approved & owner & selected & sg
        & Hrole & _ & _ & _ & _ & _ & _ & (s3 & s4 & Hdb3 & Hbud) & Hdb & Hgrant).
  apply grant_Ok in Hgrant as (-> & _ & _ & HR & HU & _ & _ & _). cbn.
  apply check_budgets_Ok in Hbud as (-> & Hadm & Hpos & Hown). rewrite Hdb3 in *. rewrite Hdb in HR, HU.
  exists current. split_and!; done.
Qed.
End grants.

Section grant_witnesses.
#[local] Existing Instance plain_env.

Lemma first_claim_granted : claim first_claim start = (Ok first_ticket, after_claim).
Proof. vm_compute. reflexivity. Qed.

Lemma granted_claim_authorized_witness :
  (claim first_claim start).1 = Ok first_ticket
  ∧ ∃ current ceiling intent, get_role "cmp_1" "agent_1" (db start) = Some current
      ∧ authorize_adapter current = Ok ceiling
      ∧ t_leases (db after_claim) = [] ++ [new_lease first_claim "sha:cmp_1:k1" "work:w1"
          (dispatch_digest first_claim intent) (clock 0) "owner0"].
Proof.
  split; [vm_compute; reflexivity|].
  destruct (granted_claim_authorized first_claim start first_ticket after_claim first_claim_granted eq_refl)
    as (current & ceiling & intent & H1 & H2 & _ & _ & _ & _ & _ & H3 & _).
  exists current, ceiling, intent. exact (conj H1 (conj H2 H3)).
Defined.

Lemma granted_claim_budgeted_witness :
  (claim first_claim start).1 = Ok first_ticket
  ∧ ∃ current, get_role "cmp_1" "agent_1" (db start) = Some current
      ∧ applicable first_claim current (db start) ≠ []
      ∧ ∀ p, p ∈ applicable first_claim current (db start) →
          policy_admits current (DFin false 2500000 (-6)) (clock 0) (db start) p.
Proof.
  split; [vm_compute; reflexivity|].
  destruct (granted_claim_budgeted first_claim start first_ticket after_claim first_claim_granted eq_refl)
    as (current & H1 & H2 & H3 & _).
  exists current. exact (conj H1 (conj (H3 eq_refl) H2)).
Defined.

(** The same dispatch on a work item that needs approval: refused with a
    request, approved by the operator, then claimed. *)
Definition governed : Session := sample_session [sample_work "w1" "ready" [] true].
Definition refused : Session := (claim first_claim governed).2.
Definition pending_id : string := from_option approval_id "" (head (t_approvals (db refused))).
Definition approved : Session :=
  (resolve_approval pending_id (Member ApprovalStatus_APPROVED) "owner" refused).2.
Definition approved_ticket : ExecutionTicket :=
  match (claim first_claim approved).1 with Ok t => t | Raise _ => first_ticket end.

Lemma granted_claim_approved_witness :
  (claim first_claim governed).1 = Raise (ExecutionDenied "execution_approval_required" 403)
  ∧ (claim first_claim approved).1 = Ok approved_ticket
  ∧ ∃ current work intent, requires_approval current work = true
      ∧ ∃ x, x ∈ t_approvals (db approved)
          ∧ is_str (dget (approval_metadata x) "execution_intent_hash") (dispatch_digest first_claim intent) = true
          ∧ approval_row_status x = Some "approved".
Proof.
  split; [vm_compute; reflexivity|]. split; [vm_compute; reflexivity|].
  assert (claim first_claim approved = (Ok approved_ticket, (claim first_claim approved).2)) as H
    by (vm_compute; reflexivity).
  destruct (granted_claim_approved first_claim approved approved_ticket _ H eq_refl)
    as (current & work & intent & Hrole & _ & Hwork & Happ).
  assert (requires_approval current work = true) as Hr.
  { rewrite Hwork. vm_compute. reflexivity. }
  rewrite Hr in Happ. destruct Happ as (x & H1 & _ & _ & H2 & H3 & _).
  exists current, work, intent. split; [exact Hr|]. exists x. exact (conj H1 (conj H2 H3)).
Defined.
End grant_witnesses.

(** ** Refusals and replays *)
Section refusals.
Context {E : Env}.

(** C9.  A refused claim dispatches nothing and leaves evidence: when a claim
    raises [ExecutionDenied], no lease, reservation or charge was added or
    removed, neither in the working copy nor in what is committed (a lease may
    only have been marked as needing recovery), and for an existing company the
    refusal is committed together with its audit row. *)
Theorem denied_claim_dispatches_nothing a s reason code s' :
  claim a s = (Raise (ExecutionDenied reason code), s') →
  quiet s s'
  ∧ (is_Some (get_row cc_company_id (role_company_id (ca_agent a)) (t_companies (db s'))) →
     durable s' = db s'
     ∧ ∃ ev, ev ∈ t_audits (durable s') ∧ ae_action ev = "execution.denied"
         ∧ ae_company_id ev = strip (role_company_id (ca_agent a))).
Proof.
  unfold claim, catchM. destruct (_claim a s) as [[t|e] s1] eqn:Hc; [done|]. intros H.
  destruct e as [cls msg|reason0 code0|]; [done| |done].
  pose proof (claim_body_denies a s _ s1 Hc eq_refl) as Hq.
  destruct (handler_inv _ _ _ _ _ _ _ H) as [Hl Hcase].
  split; [etransitivity; [exact Hq | exact Hl]|]. intros Hco.
  destruct Hcase as [(Hno & -> & _)|[(s2 & Ha & [= <-] & _)|(e' & He & [= <-])]]; [|cbn|done].
  - rewrite Hno in Hco. by destruct Hco.
  - split; [done|]. apply audit_Ok in Ha as (ev & -> & ? & ? & _). exists ev. set_solver.
Qed.

(** C7.  An idempotency key dispatches at most once: when the ledger already
    holds the execution of the key, the claim either replays it, returning the
    run of the first dispatch for the same intent once that run has closed, with
    no table changed, or raises; it never returns a new ticket. *)
Theorem claim_idempotent a s l r s' :
  get_lease (execution_id_of (role_company_id (ca_agent a)) (ca_idempotency_key a)) (db s) = Some l →
  claim a s = (r, s') →
  (∃ t intent, r = Ok t ∧ tk_replay t = true ∧ tk_run_id t = l_run_id l
     ∧ tk_execution_id t = l_execution_id l ∧ tk_owner_id t = l_owner_id l
     ∧ l_state l ∈ [LeaseState_SUCCEEDED; LeaseState_FAILED]
     ∧ intent_hash sha256_hex (ca_agent a) (ca_payload a) (ca_work_item_id a) = Ok intent
     ∧ l_intent_hash l = dispatch_digest a intent
     ∧ db s' = db s)
  ∨ ∃ e, r = Raise e.
Proof.
  intros Hl H. destruct r as [t|e]; [left|by right; eexists].
  destruct (tk_replay t) eqn:Hr.
  - apply claim_Ok in H. destruct (claim_replay_inv _ _ _ _ H Hr)
      as (l' & intent & Hl' & Hs & Hint & Hd & He & Ht & Hdb).
    assert (l' = l) as -> by congruence. exists t, intent.
    apply get_row_Some in Hl as [_ Hid]. split_and!; try done.
    + by rewrite Ht.
    + by rewrite Hid.
    + by rewrite Ht.
  - destruct (claim_new_inv _ _ _ _ H Hr) as (? & ? & ? & ? & ? & ? & ? & sg & H1).
    destruct H1 as (_ & _ & _ & _ & _ & _ & _ & _ & Hdb & Hg).
    apply grant_Ok in Hg as (_ & Hn & _). rewrite Hdb in Hn. destruct Hn.
    apply get_row_Some in Hl as [Hin <-]. by apply list_elem_of_fmap_2.
Qed.
End refusals.

Section refusal_witnesses.
#[local] Existing Instance plain_env.

(** The dependency of the item is still open. *)
Definition blocked : Session :=
  sample_session [sample_work "w1" "ready" ["w0"] false; sample_work "w0" "ready" [] false].

Lemma denied_claim_dispatches_nothing_witness :
  (claim first_claim blocked).1 = Raise (ExecutionDenied "work_item_dependency_not_accepted" 403)
  ∧ quiet blocked (claim first_claim blocked).2
  ∧ ∃ ev, ev ∈ t_audits (durable (claim first_claim blocked).2) ∧ ae_action ev = "execution.denied".
Proof.
  assert (claim first_claim blocked = (Raise (ExecutionDenied "work_item_dependency_not_accepted" 403),
            (claim first_claim blocked).2)) as H by (vm_compute; reflexivity).
  destruct (denied_claim_dispatches_nothing _ _ _ _ _ H) as [Hq Hd].
  split; [exact (f_equal fst H)|]. split; [exact Hq|].
  destruct Hd as (_ & ev & H1 & H2 & _); [vm_compute; eexists; reflexivity|].
  exists ev. exact (conj H1 H2).
Defined.

(** The same key again, once the first run has closed. *)
Lemma claim_idempotent_witness :
  ∃ t, (claim first_claim after_settle).1 = Ok t ∧ tk_replay t = true ∧ tk_run_id t = "run_1"
    ∧ db (claim first_claim after_settle).2 = db after_settle.
Proof.
  assert (∃ l, get_lease (execution_id_of "cmp_1" "k1") (db after_settle) = Some l
            ∧ l_run_id l = "run_1") as (l & Hl & Hrun) by (vm_compute; eexists; split; reflexivity).
  destruct (claim_idempotent first_claim after_settle l _ _ Hl (surjective_pairing _))
    as [(t & intent & H1 & H2 & H3 & _ & _ & _ & _ & _ & H4)|[e He]].
  - exists t. rewrite <- Hrun. exact (conj H1 (conj H2 (conj H3 H4))).
  - exfalso. revert He. vm_compute. discriminate.
Defined.
End refusal_witnesses.

(** ** Settlement *)
Section settlements.
Context {E : Env}.

Definition final_state (failed : bool) : LeaseState :=
  if failed then LeaseState_FAILED else LeaseState_SUCCEEDED.

Lemma settle_lease t cost failed g s s' :
  settle t cost failed g s = (Ok (), s') →
  ∃ lease, get_lease (tk_execution_id t) (db s) = Some lease
    ∧ l_owner_id lease = tk_owner_id t ∧ l_state lease = LeaseState_RUNNING
    ∧ get_lease (tk_execution_id t) (db s') = Some (with_lease_state (final_state failed) lease).
Proof.
  intros H. apply settle_Ok in H as (lease & us & Hl & Ho & Hs & _ & HL & _).
  exists lease. split_and!; [done..|]. unfold get_lease. rewrite HL, get_row_update by done.
  unfold get_lease in Hl. by rewrite Hl.
Qed.

(** C8.  What a settlement does: only the owner of a running lease settles it;
    the lease closes with the outcome, every reservation of the execution is
    released and charged once with the given cost to its own budget, the
    reservations of other executions are untouched, and no other charge is
    written. *)
Theorem settle_effect t cost failed estimated s s' :
  settle t cost failed estimated s = (Ok (), s') →
  ∃ lease us, get_lease (tk_execution_id t) (db s) = Some lease
    ∧ l_owner_id lease = tk_owner_id t ∧ l_state lease = LeaseState_RUNNING
    ∧ get_lease (tk_execution_id t) (db s') = Some (with_lease_state (final_state failed) lease)
    ∧ (∀ r, r ∈ t_reservations (db s') ↔
         ∃ r0, r0 ∈ t_reservations (db s)
           ∧ r = if decide (rv_execution_id r0 = tk_execution_id t) then settle_row r0 else r0)
    ∧ t_usages (db s') = t_usages (db s) ++ us
    ∧ Forall2 (charge_of (l_company_id lease) t cost) (reservations_of (tk_execution_id t) (db s)) us
    ∧ durable s' = durable s.
Proof.
  intros H. destruct (settle_lease _ _ _ _ _ _ H) as (lease & Hl & Ho & Hs & Hl').
  apply settle_Ok in H as (lease' & us & Hl2 & _ & _ & Hus & _ & HR & HU & _ & Hd).
  assert (lease' = lease) as -> by congruence.
  exists lease, us. split_and!; try done. intros r. rewrite HR. apply elem_of_settle_execution.
Qed.

(** A ticket settles once: after a settlement, every further settlement of
    the same ticket, with whatever cost and outcome, is refused and changes
    nothing. *)
Theorem settle_once t cost failed estimated s s' cost' failed' estimated' :
  settle t cost failed estimated s = (Ok (), s') →
  settle t cost' failed' estimated' s' = (Raise (ExecutionDenied "execution_owner_lost" 409), s').
Proof.
  intros H. destruct (settle_lease _ _ _ _ _ _ H) as (lease & _ & _ & _ & Hl').
  unfold settle, query, getsM, mbind, M_bind. cbv beta iota. rewrite Hl'.
  rewrite decide_True; [done|]. right. by destruct failed.
Qed.
End settlements.

Section settlement_witnesses.
#[local] Existing Instance plain_env.

Definition running : Session := with_runs ["run_1"] after_claim.
Lemma first_settlement : settle first_ticket two_usd false false running = (Ok (), after_settle).
Proof. vm_compute. reflexivity. Qed.

Lemma settle_effect_witness :
  (settle first_ticket two_usd false false running).1 = Ok ()
  ∧ ∃ us, t_usages (db after_settle) = [] ++ us
      ∧ Forall2 (charge_of "cmp_1" first_ticket two_usd) (reservations_of "sha:cmp_1:k1" (db running)) us.
Proof.
  split; [exact (f_equal fst first_settlement)|].
  destruct (settle_effect _ _ _ _ _ _ first_settlement) as (lease & us & Hl & _ & _ & _ & _ & Hu & Hf & _).
  exists us. split; [exact Hu|].
  assert (l_company_id lease = "cmp_1") as Hc.
  { apply (f_equal (from_option l_company_id "")) in Hl. vm_compute in Hl. symmetry. exact Hl. }
  rewrite Hc in Hf. exact Hf.
Defined.

Lemma settle_once_witness :
  settle first_ticket two_usd false false running = (Ok (), after_settle)
  ∧ (settle first_ticket (DFin false 1 0) true true after_settle).1
    = Raise (ExecutionDenied "execution_owner_lost" 409).
Proof.
  split; [exact first_settlement|].
  exact (f_equal fst (settle_once _ _ _ _ _ _ (DFin false 1 0) true true first_settlement)).
Defined.
End settlement_witnesses.

(** ** Recovery *)
Section recovery.
Context {E : Env}.

(** Recovery is conservative: an operator can only reconcile an active
    lease whose time is over; the lease is closed as failed, each of its
    reservations is released and charged the largest amount any of them
    reserved, other executions are untouched, and nothing is committed yet. *)
Theorem recover_effect id_ company reason actor s d s' :
  recover id_ company reason actor s = (Ok d, s') →
  ∃ lease l' us,
    lease_of_run company id_ (db s) = Some lease
    ∧ lease_active lease = true ∧ l_expires_at lease ≤ clock (ticks s)
    ∧ get_lease (l_execution_id lease) (db s') = Some l' ∧ l_state l' = LeaseState_FAILED
    ∧ (∀ r, r ∈ t_reservations (db s') ↔
         ∃ r0, r0 ∈ t_reservations (db s)
           ∧ r = if decide (rv_execution_id r0 = l_execution_id lease) then settle_row r0 else r0)
    ∧ t_usages (db s') = t_usages (db s) ++ us
    ∧ Forall2 (λ r u, bu_budget_id u = strip (rv_budget_id r)
                 ∧ bu_cost_usd u = float_of_decimal (max_amount (reservations_of (l_execution_id lease) (db s))))
        (reservations_of (l_execution_id lease) (db s)) us
    ∧ durable s' = durable s.
Proof.
  unfold recover, denied. intros H. mstep H. apply query_Ok in Hm as [-> ->].
  destruct (lease_of_run company id_ (db s)) as [lease|] eqn:Hl; [|done].
  mstep H. injection Hm as <- <-. destruct (negb _ || _) eqn:Hab; [done|].
  apply orb_false_iff in Hab as [Hact Hexp]. apply negb_false_iff in Hact. apply Z.ltb_ge in Hexp.
  mstep H. injection Hm as <- <-. mstep H. apply query_Ok in Hm as [-> ->]. cbv zeta in H.
  mstep H. destruct x. rename Hm into Hset.
  assert (ledger (db s') = ledger (db s0) ∧ durable s' = durable s0) as [HF HD].
  { revert H. apply framed_bind; [eauto with cell|]. intros run_.
    apply framed_bind; [unfold denied; frame|]. intros ?.
    apply framed_bind; [frame|]. intros ?.
    apply framed_bind; [eauto with cell|]. intros ?. apply framed_ret. }
  injection HF as HL HR HU _.
  destruct (settle_lease _ _ _ _ _ _ Hset) as (l0 & _ & _ & _ & Hl0).
  apply settle_Ok in Hset as (l1 & us & _ & _ & _ & Hus & _ & HR0 & HU0 & _ & HD0). cbn in *.
  exists lease, (with_lease_state LeaseState_FAILED l0), us. split_and!; try done.
  - unfold get_lease in *. by rewrite HL.
  - intros r. rewrite HR, HR0. apply (elem_of_settle_execution (l_execution_id lease) (db s)).
  - by rewrite HU, HU0.
  - eapply Forall2_impl; [exact Hus|]. intros r u Hc. destruct Hc as (_ & ? & _ & _ & ? & _). done.
  - by rewrite HD, HD0.
Qed.
End recovery.

Section recovery_witness.
(** Every reading of the clock is a quarter of an hour later. *)
Definition slow_env : Env := sample_env (900 * us_per_second) false.
#[local] Existing Instance slow_env.

Definition abandoned : Session := with_runs ["run_1"] (claim first_claim start).2.
Definition recovered := recover "run_1" "cmp_1" "host lost" "ops" abandoned.

Lemma recover_effect_witness :
  is_ok recovered.1 = true
  ∧ ∃ lease l', lease_of_run "cmp_1" "run_1" (db abandoned) = Some lease
      ∧ l_expires_at lease ≤ clock (ticks abandoned)
      ∧ get_lease (l_execution_id lease) (db recovered.2) = Some l' ∧ l_state l' = LeaseState_FAILED.
Proof.
  split; [vm_compute; reflexivity|].
  assert (∃ d, recover "run_1" "cmp_1" "host lost" "ops" abandoned = (Ok d, recovered.2)) as [d H]
    by (eexists; vm_compute; reflexivity).
  destruct (recover_effect _ _ _ _ _ _ _ H) as (lease & l' & us & H1 & _ & H2 & H3 & H4 & _).
  exists lease, l'. exact (conj H1 (conj H2 (conj H3 H4))).
Defined.
End recovery_witness.

(** ** What the code does not do *)
Section limits.
(** A late report of uncertain effects revives a settled lease: after the first
    dispatch was settled and a second one claimed the work item, the first
    owner's [mark_uncertain] makes its closed lease active again and commits,
    so the work item has two active leases. *)
#[local] Existing Instance plain_env.

Definition second_dispatch : Session :=
  (checkpoint (claim (sample_claim "run_2" "k2" "w1") after_settle).2).2.

Theorem late_uncertain_breaks_exclusion :
  (settle first_ticket two_usd false false running).1 = Ok ()
  ∧ is_ok (claim (sample_claim "run_2" "k2" "w1") after_settle).1 = true
  ∧ (mark_uncertain first_ticket second_dispatch).1 = Ok ()
  ∧ (λ l, (l_execution_id l, l_resource_id l, lease_active l))
      <$> t_leases (durable (mark_uncertain first_ticket second_dispatch).2)
    = [("sha:cmp_1:k1", "work:w1", true); ("sha:cmp_1:k2", "work:w1", true)].
Proof. vm_compute. split_and!; reflexivity. Qed.
End limits.

Section foreign_keys.
Context {E : Env}.

(** With foreign keys enforced, as PostgreSQL does, a dispatch that needs an
    approval is never granted unless its run row already exists: spending the
    approval points it at the run, and that is flushed before the run is
    inserted. *)
Theorem approved_dispatch_needs_run a s t s' current :
  enforce_foreign_keys = true →
  claim a s = (Ok t, s') → tk_replay t = false →
  get_role (role_company_id (ca_agent a)) (role_agent_id (ca_agent a)) (db s) = Some current →
  is_true (dget (role_escalation_policy current) "approval_required") = true →
  ca_run_id a ∈ run_id <$> t_runs (db s).
Proof.
  intros Hfk H Hr Hrole Hesc. destruct (claim_new_inv _ _ _ _ H Hr)
    as (current' & ceiling & intent & work & approved & owner & selected & sg
        & Hrole' & _ & _ & _ & _ & _ & (s3 & s4 & Hdb3 & Happ) & _ & Hdb & Hgrant).
  assert (current' = current) as -> by (cbv zeta in Hrole'; congruence).
  apply check_approval_Ok in Happ as [_ Happ]. unfold requires_approval in Happ.
  rewrite Hesc, orb_true_r in Happ. destruct Happ as (x & -> & _).
  apply grant_Ok in Hgrant as (_ & _ & _ & _ & _ & _ & Hfkok & _).
  specialize (Hfkok ltac:(by eexists)). unfold run_fk, fk_ok in Hfkok. rewrite Hfk, Hdb in Hfkok.
  cbn in Hfkok. by apply bool_decide_eq_true in Hfkok.
Qed.
End foreign_keys.

Section foreign_key_run.
(** The same refusal, approval and retry with foreign keys enforced. *)
Definition strict_env : Env := sample_env 1 true.
#[local] Existing Instance strict_env.

Definition strict_approved : Session :=
  let refused := (claim first_claim governed).2 in
  (resolve_approval (from_option approval_id "" (head (t_approvals (db refused))))
     (Member ApprovalStatus_APPROVED) "owner" refused).2.

(** With foreign keys enforced the approved retry fails on the approval's
    reference to the run that does not exist yet. *)
Theorem approved_retry_violates_foreign_key :
  (claim first_claim governed).1 = Raise (ExecutionDenied "execution_approval_required" 403)
  ∧ (approval_row_status <$> t_approvals (db strict_approved)) = [Some "approved"]
  ∧ (claim first_claim strict_approved).1
    = Raise (integrity_error "control_plane_approval_requests.run_id").
Proof. vm_compute. split_and!; reflexivity. Qed.
End foreign_key_run.

Section recovery_limit.
#[local] Existing Instance slow_env.

Definition cancelled_meanwhile : Session :=
  with_db abandoned (set_work_items [sample_work "w1" "cancelled" [] false] (db abandoned)).

(** An abandoned execution cannot be reconciled once its work item was
    cancelled: the transition to failed is illegal and the recovery raises. *)
Theorem recovery_blocked_by_cancelled_work :
  is_ok (recover "run_1" "cmp_1" "host lost" "ops" abandoned).1 = true
  ∧ (recover "run_1" "cmp_1" "host lost" "ops" cancelled_meanwhile).1
    = Raise (Exn "InvalidWorkItemTransitionError" "WorkItem w1: illegal transition cancelled -> failed").
Proof. vm_compute. split_and!; reflexivity. Qed.
End recovery_limit.
