(* ===== verification/RunnerTheorems.v ===== *)
(** * What the runner guarantees

    When the adapter is called, where it may reach, and what a wakeup leaves in
    the dispatch ledger when the adapter returns or raises. *)

From S2P Require Import Prelude PyNum PyTime PyValue Models Metadata AgentRole WakeupAdapter.
From S2P Require Import ExecutionPolicy DomainEvents Store Frames AgentRunLifecycle ExecutionLedger.
From S2P Require Import ExecutionInvariants ClaimInversion AgentRunner Scenario Lifecycles.
From S2P Require Import ExecutionTheorems Budget BudgetGuard.

(** The dispatch and the running run are committed. *)
Definition ready (t : ExecutionTicket) (id_ : string) (s : Session) : Prop :=
  durable s = db s
  ∧ (∃ l, l ∈ t_leases (durable s) ∧ l_execution_id l = tk_execution_id t
       ∧ l_owner_id l = tk_owner_id t ∧ l_run_id l = tk_run_id t ∧ l_state l = LeaseState_RUNNING)
  ∧ ∃ r, r ∈ t_runs (durable s) ∧ run_id r = id_ ∧ str_of (run_record_status r) = "running".

Section runner_facts.
Context {E : Env}.

Lemma start_run_Ok ag ip ac t g w tr i s rec s' :
  start_agent_wakeup_run ag ip ac t g w tr i s = (Ok rec, s') →
  wr_run rec ∈ t_runs (db s') ∧ str_of (run_record_status (wr_run rec)) = "running"
  ∧ ledger (db s') = ledger (db s) ∧ durable s' = durable s.
Proof.
  intros H. destruct (start_run_framed _ _ _ _ _ _ _ _ _ _ _ H) as [HL HD].
  unfold start_agent_wakeup_run in H. mstep H. mstep H. mstep H. cbv zeta in H.
  mstep H. mstep H. injection H as <- <-. cbn [wr_run].
  unfold create_agent_run in Hm2. mstep Hm2. apply query_Ok in Hm4 as [-> ->].
  mstep Hm2. destruct x4. apply raise_if_Ok_M in Hm4 as [_ ->]. mstep Hm2. injection Hm4 as <- <-.
  injection Hm2 as <- <-. destruct (run_audit_framed _ _ _ _ _ _ _ _ _ _ _ Hm3) as [HB _].
  injection HB as _ _ _ _ _ _ _ HR _ _ _ _. split_and!; [|done|done|done].
  rewrite HR. cbn. apply elem_of_app. right. by apply list_elem_of_singleton.
Qed.

(** A wakeup that reaches its adapter: the granted ticket, the started run and
    the committed state the adapter is called in. *)
Definition prepared (a : wake_args) (s : Session) (t : ExecutionTicket) (w : AgentWakeupRunRecord)
    (s3 : Session) : Prop :=
  let actor := default (wk_actor_id a) operator_id in
  AgentRole.is_runnable (AgentRole.from_record (wk_agent a)) = Ok true
  ∧ ∃ id_ s0 s1 s2, generate_id "run" s = (Ok id_, s0)
    ∧ claim_for_wakeup a actor id_ s0 = (Ok t, s1) ∧ tk_replay t = false
    ∧ start_agent_wakeup_run (wk_agent a) (wk_input_payload a) actor (wk_trace_id a) (wk_goal_id a)
        (wk_work_item_id a) (wk_trigger a) (Some id_) s1 = (Ok w, s2)
    ∧ checkpoint s2 = (Ok (), s3).

Lemma claim_for_wakeup_Ok a ac id_ s t s' :
  claim_for_wakeup a ac id_ s = (Ok t, s') →
  ∃ ca, ca_run_id ca = id_ ∧ ca_agent ca = wk_agent a ∧ claim ca s = (Ok t, s')
    ∧ ca_idempotency_key ca
      = if truthy (wk_idempotency_key a) then str_or_empty (wk_idempotency_key a) else id_.
Proof.
  unfold claim_for_wakeup, catchM. destruct (claim _ s) as [[t'|e] s1] eqn:Hc; [|by destruct e].
  intros [= <- <-]. eexists. split_and!; [..|exact Hc|]; done.
Qed.

(** The ledger the adapter starts from: the one of the request, plus the lease
    and the reservations of the ticket. *)
Lemma prepared_ready a s t w s3 :
  prepared a s t w s3 →
  ready t (run_id (wr_run w)) s3 ∧ t_usages (db s3) = t_usages (db s).
Proof.
  intros (_ & id_ & s0 & s1 & s2 & Hid & Hc & Hr & Hs & Hk). injection Hid as <- <-.
  apply claim_for_wakeup_Ok in Hc as (ca & Hrun & _ & Hc & _).
  destruct (claim_new_inv _ _ _ _ Hc Hr) as (cu & ce & it & wk & ap & ow & se & sg & Hg).
  cbv zeta in Hg. destruct Hg as (_ & _ & _ & _ & _ & _ & _ & _ & Hdb & Hg).
  apply grant_Ok in Hg as (-> & _ & HL & _ & HU & _). cbn [db] in Hdb. rewrite Hdb in HL, HU.
  apply start_run_Ok in Hs as (Hin & Hst & HF & _). injection HF as HL2 _ HU2 _.
  injection Hk as <-. unfold ready. cbn. rewrite HL2, HL, HU2, HU. split; [|done].
  split; [done|]. split; [|by exists (wr_run w)].
  eexists. split; [apply elem_of_app; right; by apply list_elem_of_singleton|]. done.
Qed.

(** What a reported uncertainty does. *)
Lemma mark_uncertain_Ok t s s' :
  mark_uncertain t s = (Ok (), s') →
  durable s' = db s'
  ∧ (∃ l, get_lease (tk_execution_id t) (durable s') = Some l ∧ l_state l = LeaseState_RECOVERY_REQUIRED)
  ∧ t_reservations (durable s') = t_reservations (db s) ∧ t_usages (durable s') = t_usages (db s).
Proof.
  unfold mark_uncertain, denied. intros H. mstep H. apply query_Ok in Hm as [-> ->].
  destruct (get_lease _ _) as [lease|] eqn:Hl; [|done]. case_decide; [done|].
  mstep H. injection Hm as <- <-. mstep H. injection Hm as <- <-. mstep H. injection H as <-.
  destruct (audit_framed _ _ _ _ _ _ _ _ Hm) as [HB _]. injection HB as HL HR HU _ _ _ _ _ _ _ _ _. cbn in *.
  split; [done|]. rewrite HR, HU. split_and!; [|done|done].
  exists (with_expiry (clock (ticks s)) (with_lease_state LeaseState_RECOVERY_REQUIRED lease)).
  split; [|done]. unfold get_lease in *. rewrite HL. pose proof (get_row_Some _ _ _ _ Hl) as [_ Hid].
  rewrite Hid, get_row_update by done. by rewrite Hl.
Qed.

(** The [except] block never returns. *)
Lemma fail_wakeup_raises a ac t i ie st e s res s' :
  fail_wakeup a ac t i ie st e s = (Ok res, s') → False.
Proof.
  unfold fail_wakeup. cbv zeta. intros H. destruct t as [t|].
  - destruct (decide _); [|do 2 mstep H; done]. mstep H. done.
  - do 2 mstep H. done.
Qed.
End runner_facts.

Section runner_theorems.
Context {E : Env}.

(** C6.  No effect before the commit: the adapter of a governed wakeup is only
    ever called in a state where the running lease of the ticket and the running
    run row are committed.  Two adapters that agree on such states make [wake]
    behave the same, whatever they would do elsewhere. *)
Theorem adapter_called_after_commit ex1 ex2 a s :
  (∀ t id_ s1, ready t id_ s1 → ex1 (Some t) id_ s1 = ex2 (Some t) id_ s1) →
  wake_with true ex1 a s = wake_with true ex2 a s.
Proof.
  intros Hex. unfold wake_with.
  destruct (AgentRole.is_runnable _) as [[]|e] eqn:Hrun; [|done..].
  set (actor := default (wk_actor_id a) operator_id). rewrite !M_bind_run.
  destruct (generate_id "run" s) as [[id_|e] s0] eqn:Hid; [|done].
  rewrite !M_bind_run.
  destruct (claim_for_wakeup a actor id_ s0) as [[t|e] s1] eqn:Hc; [|done].
  destruct (tk_replay t) eqn:Hr; [done|]. unfold run_dispatch.
  rewrite !M_bind_run.
  destruct (start_agent_wakeup_run _ _ _ _ _ _ _ _ s1) as [[w|e] s2] eqn:Hs; [|done].
  assert (ready t (run_id (wr_run w)) (checkpoint s2).2) as Hready.
  { eapply (prepared_ready a s t w). split; [done|]. exists id_, s0, s1, s2. done. }
  specialize (Hex _ _ _ Hready). cbv zeta.
  rewrite bool_decide_eq_true_2 by done. cbn [whenM]. rewrite !M_bind_run.
  destruct (checkpoint s2) as [[u|e] s3]; [|done]. cbn [snd] in Hex. rewrite !M_bind_run.
  unfold attempt. rewrite !M_bind_run. unfold tryM at 1 3. by rewrite Hex.
Qed.

(** The key of the request, or the identifier it is given. *)
Definition wakeup_key (a : wake_args) (s : Session) : string :=
  if truthy (wk_idempotency_key a) then str_or_empty (wk_idempotency_key a) else "run_" +:+ ulid (ids s).

(** The answer of an earlier attempt under the same key: its lease is closed, its run succeeded, and
    the answer is that run's last output. *)
Definition replayed_attempt (a : wake_args) (s : Session) (res : AgentWakeupResult) : Prop :=
  ∃ lease run output,
    get_lease (execution_id_of (role_company_id (wk_agent a)) (wakeup_key a s)) (db s) = Some lease
    ∧ l_state lease ∈ [LeaseState_SUCCEEDED; LeaseState_FAILED]
    ∧ get_agent_run (l_run_id lease) (db s) = Some run ∧ str_of (run_record_status run) = "succeeded"
    ∧ last_output (run_output_events run) = Ok output
    ∧ res = {| ar_run_id := l_run_id lease; ar_output := output; ar_evidence_artifact_id := None |}.

(** A governed wakeup that returns or raises after its dispatch. *)
Lemma wake_inv ex a s r s' :
  wake_with true ex a s = (r, s') →
  (∃ t w s3, prepared a s t w s3
     ∧ (o ← attempt (ex (Some t) (run_id (wr_run w))) (Some t);
        match o with
        | (Raise e, settled) =>
            fail_wakeup a (default (wk_actor_id a) operator_id) (Some t) (run_id (wr_run w))
              (wr_input_event w) settled e
        | (Ok output, _) =>
            evidence ← complete_agent_wakeup_run (wk_agent a) (run_id (wr_run w)) (wr_input_event w) output
                         (default (wk_actor_id a) operator_id) (wk_trace_id a) (wk_goal_id a)
                         (wk_work_item_id a) (wk_trigger a);
            mret {| ar_run_id := run_id (wr_run w); ar_output := PDict output;
                    ar_evidence_artifact_id := Some evidence |}
        end) s3 = (r, s'))
  ∨ (∃ t ca s0 s1, db s0 = db s ∧ claim ca s0 = (Ok t, s1) ∧ tk_replay t = true
       ∧ ca_agent ca = wk_agent a ∧ ca_idempotency_key ca = wakeup_key a s
       ∧ replay_result t s1 = (r, s'))
  ∨ (∃ e, r = Raise e).
Proof.
  unfold wake_with. destruct (AgentRole.is_runnable _) as [[]|e] eqn:Hrun; cycle 1.
  { intros [= <- <-]. right; right. by eexists. }
  { intros [= <- <-]. right; right. by eexists. }
  set (actor := default (wk_actor_id a) operator_id). rewrite M_bind_run.
  destruct (generate_id "run" s) as [[id_|e] s0] eqn:Hid; [|intros [= <- <-]; right; right; by eexists].
  rewrite M_bind_run.
  destruct (claim_for_wakeup a actor id_ s0) as [[t|e] s1] eqn:Hc; [|intros [= <- <-]; right; right; by eexists].
  destruct (tk_replay t) eqn:Hr.
  { intros H. right; left. destruct (claim_for_wakeup_Ok _ _ _ _ _ _ Hc) as (ca & _ & Hag & Hca & Hkey).
    exists t, ca, s0, s1. injection Hid as <- <-. done. }
  unfold run_dispatch. rewrite M_bind_run.
  destruct (start_agent_wakeup_run _ _ _ _ _ _ _ _ s1) as [[w|e] s2] eqn:Hs;
    [|intros [= <- <-]; right; right; by eexists].
  cbv zeta. rewrite bool_decide_eq_true_2 by done. cbn [whenM]. rewrite M_bind_run.
  destruct (checkpoint s2) as [[u|e] s3] eqn:Hk; [|by inversion Hk].
  intros H. left. exists t, w, s3. split; [|exact H].
  split; [done|]. exists id_, s0, s1, s2. by destruct u.
Qed.

Lemma settle_output_Ok t output s b s' :
  settle_output t output s = (Ok b, s') →
  ∃ cost estimated, b = dec_ltb (tk_ceiling_usd t) cost
    ∧ settle t cost b estimated s = (Ok (), s').
Proof.
  unfold settle_output. intros H. mstep H. apply lift_Ok in Hm as [_ ->]. cbv zeta in H.
  mstep H. destruct x0. injection H as <- <-. by eexists _, _.
Qed.

(** C10.  A wakeup that returns is settled within its ceiling: when the adapter
    leaves the ledger alone and [wake] returns, either it replayed the attempt
    recorded under its key, whose lease is closed and whose run succeeded,
    answered with that run's identifier and last output and changed no table, or
    the lease of its ticket is closed as succeeded and every reservation was
    charged once, the same cost, which is not above the ceiling the claim
    reserved. *)
Theorem wake_returns_settled ex a s res s' :
  (∀ t id_, framed ledger (ex t id_)) →
  wake_with true ex a s = (Ok res, s') →
  (replayed_attempt a s res ∧ db s' = db s)
  ∨ ∃ t w s3 lease us cost, prepared a s t w s3 ∧ ar_run_id res = run_id (wr_run w)
      ∧ get_lease (tk_execution_id t) (db s') = Some (with_lease_state LeaseState_SUCCEEDED lease)
      ∧ dec_ltb (tk_ceiling_usd t) cost = false
      ∧ t_usages (db s') = t_usages (db s) ++ us
      ∧ Forall2 (charge_of (l_company_id lease) t cost) (reservations_of (tk_execution_id t) (db s3)) us.
Proof.
  intros Hex H. apply wake_inv in H as [(t & w & s3 & Hp & H)|[(t & ca & s0 & s1 & Hdb & Hc & Hr & Hag & Hkey & H)|[e [=]]]].
  - right. mstep H. unfold attempt in Hm. mstep Hm. unfold tryM in Hm0.
    destruct (ex (Some t) _ s3) as [r1 s5] eqn:Hx. injection Hm0 as <- <-.
    destruct (Hex _ _ _ _ _ Hx) as [HL HD].
    destruct r1 as [output|e]; [|injection Hm as <- <-; by destruct (fail_wakeup_raises _ _ _ _ _ _ _ _ _ _ H)].
    mstep Hm. unfold tryM in Hm0. destruct (settle_output t output s5) as [[b|e] s6] eqn:Hso;
      injection Hm0 as <- <-; [|injection Hm as <- <-; by destruct (fail_wakeup_raises _ _ _ _ _ _ _ _ _ _ H)].
    destruct b; injection Hm as <- <-; [by destruct (fail_wakeup_raises _ _ _ _ _ _ _ _ _ _ H)|].
    mstep H. injection H as <- <-. destruct (complete_run_framed _ _ _ _ _ _ _ _ _ _ _ _ Hm) as [HF _].
    apply settle_output_Ok in Hso as (cost & est & Hb & Hset).
    destruct (settle_lease _ _ _ _ _ _ Hset) as (lease & Hl & _ & _ & Hl').
    apply settle_Ok in Hset as (lease' & us & Hl2 & _ & _ & Hus & _ & _ & HU & _).
    assert (lease' = lease) as -> by congruence.
    destruct (prepared_ready _ _ _ _ _ Hp) as [_ HU0].
    injection HF as HF1 _ HF3 _. injection HL as _ HL2 HL3 _.
    exists t, w, s3, lease, us, cost. split_and!; try done.
    + unfold get_lease in *. by rewrite HF1.
    + by rewrite HF3, HU, HL3, HU0.
    + unfold reservations_of in *. by rewrite HL2 in Hus.
  - left. apply claim_Ok in Hc. destruct (claim_replay_inv _ _ _ _ Hc Hr)
      as (l & it & Hl & Hst & _ & _ & _ & Ht & Hdb1).
    unfold replay_result in H. mstep H. apply query_Ok in Hm as [-> ->].
    destruct (get_agent_run _ _) as [run|] eqn:Hrun; [|done]. case_decide as Hs; [done|].
    mstep H. apply lift_Ok in Hm as [Hout ->]. injection H as <- <-. split; [|congruence].
    rewrite Hag, Hkey, Hdb in Hl. rewrite Ht in Hrun. cbn in Hrun. rewrite Hdb1, Hdb in Hrun.
    exists l, run, x. split_and!; try done. by rewrite Ht.
Qed.

(** The continuation of a prepared wakeup whose adapter raised. *)
Lemma wake_adapter_raised ex a s t w s3 e s4 :
  prepared a s t w s3 → ex (Some t) (run_id (wr_run w)) s3 = (Raise e, s4) →
  wake_with true ex a s
  = fail_wakeup a (default (wk_actor_id a) operator_id) (Some t) (run_id (wr_run w))
      (wr_input_event w) false e s4.
Proof.
  intros (Hrun & id_ & s0 & s1 & s2 & Hid & Hc & Hr & Hs & Hk) Hx. unfold wake_with. rewrite Hrun.
  rewrite M_bind_run, Hid, M_bind_run, Hc, Hr. unfold run_dispatch.
  rewrite M_bind_run, Hs. cbv zeta. rewrite bool_decide_eq_true_2 by done. cbn [whenM].
  rewrite M_bind_run, Hk, M_bind_run. unfold attempt. rewrite M_bind_run. unfold tryM at 1. by rewrite Hx.
Qed.

(** Failed work is charged its ceiling: when the adapter raises anything
    but uncertain effects, [wake] raises, and unless the settlement itself was
    refused the lease is closed as failed and every reservation is charged the
    whole ceiling. *)
Theorem failed_wakeup_charged ex a s t w s3 e s4 r s' :
  prepared a s t w s3 → ex (Some t) (run_id (wr_run w)) s3 = (Raise e, s4) →
  error_category_of e ≠ "uncertain_effects" →
  wake_with true ex a s = (r, s') →
  ∃ e', r = Raise e'
    ∧ ((∃ s5, settle t (tk_ceiling_usd t) true true s4 = (Raise e', s5))
       ∨ ∃ lease us,
           get_lease (tk_execution_id t) (db s') = Some (with_lease_state LeaseState_FAILED lease)
           ∧ t_usages (db s') = t_usages (db s4) ++ us
           ∧ Forall2 (charge_of (l_company_id lease) t (tk_ceiling_usd t))
               (reservations_of (tk_execution_id t) (db s4)) us).
Proof.
  intros Hp Hx Hcat. rewrite (wake_adapter_raised _ _ _ _ _ _ _ _ Hp Hx). unfold fail_wakeup. cbv zeta.
  destruct (decide _) as [?|_]; [done|]. cbn [whenM negb]. rewrite M_bind_run.
  destruct (settle t (tk_ceiling_usd t) true true s4) as [[[]|e1] s5] eqn:Hset; cycle 1.
  { intros [= <- <-]. exists e1. split; [done|]. left. by exists s5. }
  rewrite M_bind_run. destruct (fail_agent_wakeup_run _ _ _ _ _ _ _ _ _ _ _ s5) as [r6 s6] eqn:Hf.
  destruct (fail_run_framed _ _ _ _ _ _ _ _ _ _ _ _ _ _ Hf) as [HF _]. injection HF as HF1 _ HF3 _.
  destruct (settle_lease _ _ _ _ _ _ Hset) as (lease & Hl & _ & _ & Hl').
  apply settle_Ok in Hset as (lease' & us & Hl2 & _ & _ & Hus & _ & _ & HU & _).
  assert (lease' = lease) as -> by congruence.
  assert (∃ lease us,
    get_lease (tk_execution_id t) (db s6) = Some (with_lease_state LeaseState_FAILED lease)
    ∧ t_usages (db s6) = t_usages (db s4) ++ us
    ∧ Forall2 (charge_of (l_company_id lease) t (tk_ceiling_usd t))
        (reservations_of (tk_execution_id t) (db s4)) us) as Hclosed.
  { exists lease, us. split_and!; [|congruence|done]. unfold get_lease in *. by rewrite HF1. }
  destruct r6 as [u|e6]; intros [= <- <-]; (eexists; split; [reflexivity|right; exact Hclosed]).
Qed.

(** Uncertain effects are never replayed silently: when the adapter cannot
    tell what happened, [wake] raises, and once the report went through the lease
    is committed as needing recovery, its reservations stay held and nothing is
    charged. *)
Theorem uncertain_wakeup_held ex a s t w s3 e s4 r s' :
  prepared a s t w s3 → ex (Some t) (run_id (wr_run w)) s3 = (Raise e, s4) →
  error_category_of e = "uncertain_effects" →
  wake_with true ex a s = (r, s') →
  ∃ e', r = Raise e'
    ∧ ((∃ s5, mark_uncertain t s4 = (Raise e', s5))
       ∨ e' = e ∧ durable s' = db s'
         ∧ (∃ l, get_lease (tk_execution_id t) (durable s') = Some l
                 ∧ l_state l = LeaseState_RECOVERY_REQUIRED)
         ∧ t_reservations (durable s') = t_reservations (db s4)
         ∧ t_usages (durable s') = t_usages (db s4)).
Proof.
  intros Hp Hx Hcat. rewrite (wake_adapter_raised _ _ _ _ _ _ _ _ Hp Hx). unfold fail_wakeup. cbv zeta.
  destruct (decide _) as [_|?]; [|done]. rewrite M_bind_run.
  destruct (mark_uncertain t s4) as [[[]|e1] s5] eqn:Hm; cycle 1.
  { intros [= <- <-]. exists e1. split; [done|]. left. by exists s5. }
  intros [= <- <-]. exists e. split; [done|]. right. split; [done|].
  by apply mark_uncertain_Ok.
Qed.
End runner_theorems.

(** ** Where an adapter may reach *)
Section reach.
Context {E : Env}.

(** The URL of an allow-listed endpoint and a path below it. *)
Definition allowlisted_url (X : adapters) (url : string) : Prop :=
  ∃ base path, base ∈ http_allowlist_entries (http_adapter_allowlist X)
    ∧ str_startswith "/" path = true ∧ url = base +:+ path.

(** The same adapters up to what they do outside. *)
Definition with_effects (X : adapters)
    (post : string → float → pydict → pydict → M Session http_reply)
    (proc : AgentWakeupAdapterConfig → pydict → option ExecutionTicket → M Session pydict) : adapters := {|
  http_post := post; execute_process := proc; model_validate := model_validate X;
  local_adapter_enabled := local_adapter_enabled X;
  local_adapter_allowlist := local_adapter_allowlist X;
  http_adapter_allowlist := http_adapter_allowlist X;
  internal_service_key := internal_service_key X |}.

(** C11.  Deny by default: an adapter call reaches the network only at an
    allow-listed endpoint and starts a process only for a local adapter that is
    enabled and whose key is allow-listed.  Replacing the two effects by others
    that agree there changes nothing, for any role, request and state. *)
Theorem adapter_effects_allowlisted X post proc a t id_ s :
  (∀ url timeout headers request s1, allowlisted_url X url →
     post url timeout headers request s1 = http_post X url timeout headers request s1) →
  (∀ c request ticket s1, local_adapter_enabled X = true → is_local (awc_adapter_type c) = true →
     allowlist_key c ∈ allowlist_entries (local_adapter_allowlist X) →
     proc c request ticket s1 = execute_process X c request ticket s1) →
  _execute_adapter (with_effects X post proc) a t id_ s = _execute_adapter X a t id_ s.
Proof.
  intros Hpost Hproc. unfold _execute_adapter. rewrite !M_bind_run.
  destruct (liftM _ s) as [[c|e] s1]; [|done]. destruct (negb _); [done|].
  case_decide; [done|]. case_decide.
  - unfold _execute_http. cbn [with_effects http_adapter_allowlist]. destruct (string_value c _) as [base|]; [|done].
    case_decide as Hal; [done|]. cbv zeta. rewrite !M_bind_run.
    destruct (liftM (http_timeout_seconds c) s1) as [[tm|e] s2]; [|done].
    rewrite !M_bind_run. cbn [with_effects http_post]. rewrite Hpost; [done|].
    eexists _, _. split; [exact Hal|]. split; [|reflexivity].
    destruct (str_startswith "/" (default _ _)) eqn:Hp; [exact Hp | reflexivity].
  - destruct (is_local _) eqn:Hloc; [|done]. cbn [with_effects local_adapter_enabled local_adapter_allowlist].
    destruct (local_adapter_enabled X) eqn:Hen; [|done]. cbn [negb].
    case_decide as Hal; [done|]. by apply Hproc.
Qed.
End reach.

(** ** Sample wakeups *)
Section runner_witnesses.
#[local] Existing Instance plain_env.

Definition sample_wake : wake_args := {|
  wk_agent := sample_role; wk_input_payload := Some [("task", PStr "build")]; wk_actor_id := "ops";
  wk_trace_id := None; wk_goal_id := None; wk_work_item_id := Some "w1";
  wk_trigger := "manual_wakeup"; wk_idempotency_key := Some "k1" |}.

(** Adapters that report 2 USD, that fail, and that do not know. *)
Definition two_dollars : option ExecutionTicket → string → M Session pydict :=
  λ _ _, mret [("status", PStr "ok"); ("cost_usd", PStr "2")].
Definition crashing : option ExecutionTicket → string → M Session pydict :=
  λ _ _, raiseM (AgentWakeupError "local_adapter_failed" 502 "process_failed").
Definition unknown : option ExecutionTicket → string → M Session pydict :=
  λ _ _, raiseM (uncertain "executor_effects_uncertain").
(** An adapter that refuses to run without a committed run row. *)
Definition guarded : option ExecutionTicket → string → M Session pydict := λ t id_ s,
  if existsb (λ r, bool_decide (run_id r = id_)) (t_runs (durable s)) then two_dollars t id_ s
  else (Raise (Exn "RuntimeError" "run not committed"), s).

Lemma adapter_called_after_commit_witness :
  is_ok (wake_with true two_dollars sample_wake start).1 = true
  ∧ wake_with true two_dollars sample_wake start = wake_with true guarded sample_wake start.
Proof.
  split; [vm_compute; reflexivity|].
  apply (adapter_called_after_commit two_dollars guarded sample_wake start).
  intros t id_ s1 (_ & _ & r & Hr & Hid & _). unfold guarded.
  replace (existsb _ _) with true; [reflexivity|]. symmetry. apply existsb_exists.
  exists r. split; [by apply list_elem_of_In | by apply bool_decide_eq_true].
Defined.

Definition woken := wake_with true two_dollars sample_wake start.

Lemma wake_returns_settled_witness :
  is_ok woken.1 = true
  ∧ ∃ t w s3 lease us cost, prepared sample_wake start t w s3
      ∧ get_lease (tk_execution_id t) (db woken.2) = Some (with_lease_state LeaseState_SUCCEEDED lease)
      ∧ t_usages (db woken.2) = [] ++ us
      ∧ Forall2 (charge_of (l_company_id lease) t cost) (reservations_of (tk_execution_id t) (db s3)) us.
Proof.
  split; [vm_compute; reflexivity|].
  assert (∃ res, wake_with true two_dollars sample_wake start = (Ok res, woken.2)) as [res H]
    by (eexists; vm_compute; reflexivity).
  destruct (wake_returns_settled two_dollars sample_wake start res woken.2
              (λ t id_, framed_ret ledger _) H)
    as [(_ & Hdb)|(t & w & s3 & lease & us & cost & H1 & _ & H2 & _ & H3 & H4)].
  - exfalso. apply (f_equal (λ d, length (t_leases d))) in Hdb. revert Hdb. vm_compute. discriminate.
  - exists t, w, s3, lease, us, cost. exact (conj H1 (conj H2 (conj H3 H4))).
Defined.

(** The state in which the adapter of the sample wakeup is called. *)
Lemma sample_prepared : ∃ t w s3, prepared sample_wake start t w s3.
Proof.
  eexists _, _, _. split; [vm_compute; reflexivity|]. eexists _, _, _, _.
  split; [reflexivity|]. split; [vm_compute; reflexivity|]. split; [reflexivity|].
  split; [vm_compute; reflexivity|]. reflexivity.
Qed.

Lemma failed_wakeup_charged_witness :
  ∃ t w s3 e', prepared sample_wake start t w s3
    ∧ (wake_with true crashing sample_wake start).1 = Raise e'
    ∧ ((∃ s5, settle t (tk_ceiling_usd t) true true s3 = (Raise e', s5))
       ∨ ∃ lease us,
           get_lease (tk_execution_id t) (db (wake_with true crashing sample_wake start).2)
             = Some (with_lease_state LeaseState_FAILED lease)
           ∧ t_usages (db (wake_with true crashing sample_wake start).2) = t_usages (db s3) ++ us
           ∧ Forall2 (charge_of (l_company_id lease) t (tk_ceiling_usd t))
               (reservations_of (tk_execution_id t) (db s3)) us).
Proof.
  destruct sample_prepared as (t & w & s3 & Hp).
  destruct (failed_wakeup_charged crashing sample_wake start t w s3
    (AgentWakeupError "local_adapter_failed" 502 "process_failed") s3 _ _ Hp eq_refl
    ltac:(discriminate) (surjective_pairing _)) as (e' & H1 & H2).
  exists t, w, s3, e'. exact (conj Hp (conj H1 H2)).
Defined.

Lemma uncertain_wakeup_held_witness :
  (wake_with true unknown sample_wake start).1 = Raise (uncertain "executor_effects_uncertain")
  ∧ ∃ t w s3 e', prepared sample_wake start t w s3
    ∧ (wake_with true unknown sample_wake start).1 = Raise e'
    ∧ ((∃ s5, mark_uncertain t s3 = (Raise e', s5))
       ∨ e' = uncertain "executor_effects_uncertain"
         ∧ durable (wake_with true unknown sample_wake start).2 = db (wake_with true unknown sample_wake start).2
         ∧ (∃ l, get_lease (tk_execution_id t) (durable (wake_with true unknown sample_wake start).2) = Some l
                 ∧ l_state l = LeaseState_RECOVERY_REQUIRED)
         ∧ t_reservations (durable (wake_with true unknown sample_wake start).2) = t_reservations (db s3)
         ∧ t_usages (durable (wake_with true unknown sample_wake start).2) = t_usages (db s3)).
Proof.
  split; [vm_compute; reflexivity|]. destruct sample_prepared as (t & w & s3 & Hp).
  destruct (uncertain_wakeup_held unknown sample_wake start t w s3
    (uncertain "executor_effects_uncertain") s3 _ _ Hp eq_refl eq_refl (surjective_pairing _))
    as (e' & H1 & H2).
  exists t, w, s3, e'. exact (conj Hp (conj H1 H2)).
Defined.

(** An HTTP adapter with an empty allow-list. *)
Definition silent : adapters := {|
  http_post := λ _ _ _ _, mret TransportError; execute_process := λ _ _ _, mret [];
  model_validate := λ _, None; local_adapter_enabled := true; local_adapter_allowlist := "process:agent_1";
  http_adapter_allowlist := " https://a.example/ ,"; internal_service_key := "" |}.

(** Effects that refuse everything outside the two lists. *)
Definition fenced_post (url : string) (_ : float) (_ _ : pydict) : M Session http_reply :=
  if str_startswith "https://a.example" url then mret TransportError
  else raiseM (Exn "RuntimeError" "escaped").
Definition fenced_process (c : AgentWakeupAdapterConfig) (_ : pydict) (_ : option ExecutionTicket)
    : M Session pydict :=
  if decide (allowlist_key c = "process:agent_1") then mret [] else raiseM (Exn "RuntimeError" "escaped").

Lemma adapter_effects_allowlisted_witness :
  http_allowlist_entries (http_adapter_allowlist silent) = ["https://a.example"]
  ∧ _execute_adapter (with_effects silent fenced_post fenced_process) sample_wake None "run_1" start
    = _execute_adapter silent sample_wake None "run_1" start.
Proof.
  split; [vm_compute; reflexivity|].
  apply (adapter_effects_allowlisted silent).
  - intros url timeout headers request s1 (base & path & Hb & _ & ->).
    vm_compute in Hb. apply list_elem_of_singleton in Hb as ->. reflexivity.
  - intros c request ticket s1 _ _ Hk. vm_compute (allowlist_entries _) in Hk.
    apply list_elem_of_singleton in Hk. unfold fenced_process. by rewrite decide_True by exact Hk.
Defined.
End runner_witnesses.

(** ** What the budget guard and the budget use cases guarantee

    One active policy per target, and where the guard and the ledger differ. *)

Section budget_theorems.
Context {E : Env}.

(** At most one active policy per target: whatever policies are created and
    updated, in whatever order and whether the commands succeed or raise, no two
    active policies of a company share scope, scope id and period, and policy
    identifiers stay unique. *)
Theorem one_active_policy_per_target cs s :
  policies_inv s → policies_inv (run_commands cs s).
Proof.
  revert s. induction cs as [|c cs IH]; intros s Hs; [done|]. cbn. apply IH.
  destruct (run_command c s) as [r s'] eqn:Hr.
  pose proof (command_triple c s r s' Hs Hr) as Ht. by destruct r.
Qed.

(** The model a check names is one the policy allows. *)
Definition model_admitted (a : check_args) (p : BudgetPolicyRecord) : Prop :=
  truthy (ck_model a) = false ∨ bp_model_allowlist p = [] ∨ str_or_empty (ck_model a) ∈ bp_model_allowlist p.

(** The policy a check looks at and the spend it would lead to. *)
Definition checked_policy (a : check_args) (d : DB) : option BudgetPolicyRecord :=
  get_active_budget_policy (ck_company_id a) (value (ck_scope a)) (value (ck_period a)) (ck_scope_id a) d.
Definition spend_with (a : check_args) (p : BudgetPolicyRecord) (d : DB) : float :=
  f_add (get_budget_usage_total (bp_budget_id p) d) (ck_estimated_cost_usd a).

Lemma admitted a p :
  truthy (ck_model a) && negb (bool_decide (bp_model_allowlist p = []))
    && negb (bool_decide (str_or_empty (ck_model a) ∈ bp_model_allowlist p)) = false ↔ model_admitted a p.
Proof.
  unfold model_admitted. rewrite !andb_false_iff, !negb_false_iff, !bool_decide_eq_true. tauto.
Qed.

Lemma not_admitted a p :
  truthy (ck_model a) && negb (bool_decide (bp_model_allowlist p = []))
    && negb (bool_decide (str_or_empty (ck_model a) ∈ bp_model_allowlist p)) = true → ¬ model_admitted a p.
Proof. rewrite <- admitted. congruence. Qed.

(** An invalid amount is a [ValueError]. *)
Lemma plain_amount v e : mk_amount v = Raise e → ∃ msg, e = value_error msg.
Proof. unfold mk_amount. repeat case_match; intros [= <-]; eauto. Qed.
Lemma plain_positive v e : positive_usd v = Raise e → ∃ msg, e = value_error msg.
Proof.
  unfold positive_usd. intros [H|(a & _ & H)]%bind_Raise; [by eapply plain_amount|].
  revert H. case_match; intros [= <-]; eauto.
Qed.

(** The guard decides by the active policy: it changes nothing; it allows a
    cost without a policy, or when the model is admitted and the recorded spend
    plus the cost stays within the limit; it refuses with [model_not_allowed] or
    [budget_exceeded] exactly for a model that is not listed or a spend above the
    limit. *)
Theorem budget_guard_decides a s r s' :
  ensure_allowed a s = (r, s') →
  s' = s ∧
  match r with
  | Ok d =>
      match checked_policy a (db s) with
      | None => bd_budget_id d = None
      | Some p => bd_budget_id d = Some (bp_budget_id p) ∧ model_admitted a p
          ∧ f_le (spend_with a p (db s)) (bp_limit_usd p) = true
      end
  | Raise (Exn cls reason) =>
      cls = "BudgetExceededError" →
      ∃ p, checked_policy a (db s) = Some p
        ∧ (reason = "model_not_allowed" ∧ ¬ model_admitted a p
           ∨ reason = "budget_exceeded" ∧ f_lt (bp_limit_usd p) (spend_with a p (db s)) = true)
  | Raise _ => False
  end.
Proof.
  unfold ensure_allowed, check, query, getsM, liftM, raiseM, mbind, M_bind, mret, M_ret. cbv beta iota.
  destruct (non_negative_usd _) as [est|e] eqn:Hest; cbv beta iota;
    [|intros [= <- <-]; split; [done | by destruct (plain_amount _ _ Hest) as [msg ->]]].
  apply mk_amount_Ok in Hest as [-> Hest].
  fold (checked_policy a (db s)). destruct (checked_policy a (db s)) as [p|]; [|by intros [= <- <-]].
  destruct (positive_usd _) as [lim|e] eqn:Hlim; cbv beta iota;
    [|intros [= <- <-]; split; [done | by destruct (plain_positive _ _ Hlim) as [msg ->]]].
  apply positive_usd_Ok in Hlim as (-> & Hlim & _).
  destruct (non_negative_usd _) as [cur|e] eqn:Hcur; cbv beta iota;
    [|intros [= <- <-]; split; [done | by destruct (plain_amount _ _ Hcur) as [msg ->]]].
  apply mk_amount_Ok in Hcur as [-> Hcur].
  destruct (truthy (ck_model a) && _ && _) eqn:Hm.
  - intros [= <- <-]. split; [done|]. intros _. exists p. split; [done|]. left. split; [done|].
    by apply not_admitted.
  - apply admitted in Hm. unfold plus. cbn [usd].
    destruct (mk_amount _) as [tot|e] eqn:Htot; cbv beta iota;
      [|intros [= <- <-]; split; [done | by destruct (plain_amount _ _ Htot) as [msg ->]]].
    apply mk_amount_Ok in Htot as [-> Htot]. unfold exceeds. cbn [usd].
    destruct (f_lt (bp_limit_usd p) _) eqn:Hlt; intros [= <- <-]; (split; [done|]).
    + intros _. exists p. split; [done|]. by right.
    + split_and!; [done|done|]. unfold spend_with. rewrite f_le_not_lt by (by destruct Htot, Hlim). by rewrite Hlt.
Qed.
End budget_theorems.

(** *** Sample runs *)
Section budget_witnesses.
#[local] Existing Instance plain_env.

Definition another_policy : BudgetPolicyRecord := {|
  bp_budget_id := "bud_2"; bp_company_id := "cmp_1"; bp_scope := Member BudgetScope_COMPANY;
  bp_period := Member BudgetPeriod_MONTHLY; bp_limit_usd := float_lit 5 0; bp_scope_id := None;
  bp_warning_threshold := float_lit 8 1; bp_status := Some " Paused"; bp_model_allowlist := [" m1 "];
  bp_metadata := Some []; bp_created_at := of_utc 1; bp_updated_at := of_utc 1 |}.
Definition activate : policy_update := {|
  pu_limit_usd := None; pu_warning_threshold := None; pu_status := Some "active";
  pu_model_allowlist := None; pu_metadata := None; pu_changed_fields := ["status"] |}.
(** A paused policy is created for the target of the active one, then activated. *)
Definition rivals : list budget_command :=
  [CreatePolicy another_policy "ops"; UpdatePolicy "cmp_1" "bud_2" activate "ops"].

Lemma one_active_policy_per_target_witness :
  (run_command (UpdatePolicy "cmp_1" "bud_2" activate "ops")
     (run_command (CreatePolicy another_policy "ops") start).2).1
    = Raise (Exn "ActiveBudgetPolicyConflictError" "bud_1")
  ∧ (bp_budget_id <$> t_policies (db (run_commands rivals start))) = ["bud_1"; "bud_2"]
  ∧ policies_inv (run_commands rivals start).
Proof.
  split; [vm_compute; reflexivity|]. split; [vm_compute; reflexivity|].
  apply (one_active_policy_per_target rivals start). split; [apply NoDup_singleton|].
  intros p q Hp Hq _ _ _. apply list_elem_of_singleton in Hp as ->, Hq as ->. reflexivity.
Defined.

Definition sample_check (cost : float) : check_args := {|
  ck_company_id := "cmp_1"; ck_scope := BudgetScope_COMPANY; ck_period := BudgetPeriod_MONTHLY;
  ck_estimated_cost_usd := cost; ck_scope_id := None; ck_model := Some "m1" |}.

Lemma budget_guard_decides_witness :
  (ensure_allowed (sample_check (float_lit 11 0)) start).1 = Raise (Exn "BudgetExceededError" "budget_exceeded")
  ∧ ∃ p, checked_policy (sample_check (float_lit 11 0)) (db start) = Some p
      ∧ ("budget_exceeded" = "model_not_allowed" ∧ ¬ model_admitted (sample_check (float_lit 11 0)) p
         ∨ "budget_exceeded" = "budget_exceeded"
           ∧ f_lt (bp_limit_usd p) (spend_with (sample_check (float_lit 11 0)) p (db start)) = true).
Proof.
  assert (ensure_allowed (sample_check (float_lit 11 0)) start
          = (Raise (Exn "BudgetExceededError" "budget_exceeded"), start)) as H by (vm_compute; reflexivity).
  split; [exact (f_equal fst H)|].
  destruct (budget_guard_decides (sample_check (float_lit 11 0)) start _ _ H) as [_ Hd].
  exact (Hd eq_refl).
Defined.

(** Spend of July 2026, seen in August. *)
Definition july_usage : BudgetUsageRecord := {|
  bu_usage_id := "u1"; bu_company_id := "cmp_1"; bu_budget_id := "bud_1"; bu_cost_usd := float_lit 10 0;
  bu_model := Some "m"; bu_input_tokens := Some 0; bu_output_tokens := Some 0; bu_run_id := None;
  bu_trace_id := None; bu_metadata := Some []; bu_created_at := of_utc (ymd2ord 2026 7 2 * us_per_day) |}.
Definition new_month : Session := with_db start (set_usages [july_usage] (db start)).

(** The guard ignores the period of a policy: a monthly budget that was used up
    last month still refuses every cost this month, while the dispatch ledger,
    which counts from the start of the period, admits 2.5 USD against it. *)
Theorem guard_ignores_budget_period :
  bp_period sample_policy = Member BudgetPeriod_MONTHLY
  ∧ (ensure_allowed (sample_check (float_lit 1 0)) new_month).1
    = Raise (Exn "BudgetExceededError" "budget_exceeded")
  ∧ is_ok (claim first_claim new_month).1 = true.
Proof. vm_compute. split_and!; reflexivity. Qed.
End budget_witnesses.
