(* ===== verification/ApprovalGate.v ===== *)
(** * The approval gate ([approval_gate.py], [approval_use_cases.py])

    Requesting, approving, rejecting and requiring an approval, and the service
    that opens a session for runtime-sensitive actions. *)

From S2P Require Import Prelude PyNum PyTime PyValue Models Metadata StateMachine ApprovalRequest DomainEvents.
From S2P Require Import Store Frames ExecutionLedger ClaimInversion Scenario ExecutionTheorems.

Record ApprovalDecision := { adc_approval_id : string; adc_status : string; adc_approved : bool }.

Definition approval_required_error (msg : string) : exn := Exn "ApprovalRequiredError" msg.

(** The status column of a row, as text. *)
Definition row_status (r : ApprovalRequestRecord) : string := from_option str_of "" (approval_record_status r).

(** The detail the resolution audits carry. *)
Definition resolution_context (resolved_by : string) (row : ApprovalRequestRecord) : DomainEventAuditContext := {|
  ctx_actor_type := "user"; ctx_actor_id := resolved_by; ctx_trace_id := approval_trace_id row;
  ctx_run_id := approval_run_id row; ctx_work_item_id := approval_work_item_id row;
  ctx_detail := [("status", PStr (row_status row)); ("resolved_by", p_opt (approval_resolved_by row));
                 ("category", PStr (str_of (approval_category row)));
                 ("source_agent_id", PStr (approval_source_agent_id row));
                 ("goal_id", p_opt (approval_goal_id row))] |}.

(** [existing.expires_at.replace(tzinfo=UTC) <= datetime.now(UTC)] *)
Definition expired_at (now : instant) (r : ApprovalRequestRecord) : bool :=
  match approval_expires_at r with
  | Some t => dt_local t <=? now
  | None => false
  end.

Record approval_request_args := {
  aq_company_id : string; aq_category : ApprovalCategory; aq_requested_by : string;
  aq_source_agent_id : string; aq_proposed_action : string; aq_reason : string; aq_risk : string;
  aq_rollback_note : string; aq_affected_resources : list string; aq_artifact_links : list string;
  aq_run_id : option string; aq_work_item_id : option string; aq_goal_id : option string;
  aq_trace_id : option string }.

Section gate.
Context {E : Env}.

Definition gate_request_approval (a : approval_request_args) : M Session ApprovalRequestRecord :=
  approval_id_ ← generate_id "apr";
  created ← now_utc;
  updated ← now_utc;
  request ← liftM (validate_approval {|
    approval_id := approval_id_; approval_company_id := aq_company_id a;
    approval_category := Member (aq_category a);
    approval_record_status := Some (Member ApprovalStatus_PENDING);
    approval_requested_by := aq_requested_by a; approval_source_agent_id := aq_source_agent_id a;
    approval_proposed_action := aq_proposed_action a; approval_reason := aq_reason a;
    approval_risk := aq_risk a; approval_rollback_note := aq_rollback_note a;
    approval_affected_resources :=
      match aq_affected_resources a with [] => ["agent:" +:+ aq_source_agent_id a] | l => l end;
    approval_artifact_links := aq_artifact_links a; approval_run_id := aq_run_id a;
    approval_work_item_id := aq_work_item_id a; approval_goal_id := aq_goal_id a;
    approval_trace_id := aq_trace_id a; approval_resolved_by := None; approval_resolved_at := None;
    approval_expires_at := None; approval_metadata := []; approval_created_at := of_utc created;
    approval_updated_at := of_utc updated |});
  request_approval request.

(** From the aggregate's transition to the decision: the common part of
    [approve] and [reject]. *)
Definition resolve_through_aggregate (existing : ApprovalRequestRecord) (id_ : string)
    (target : ApprovalStatus) (resolved_by : string) (approved : bool) : M Session ApprovalDecision :=
  aggregate ← liftM (ApprovalRequest.transition_to (ApprovalRequest.from_record existing)
                       (Some (Member target)));
  let events := (ApprovalRequest.pull_events aggregate).1 in
  row_ ← resolve_approval id_ (Member target) resolved_by;
  match row_ with
  | None => raiseM (approval_required_error ("approval_not_found: " +:+ id_))
  | Some row =>
      _ ← append_control_plane_domain_event_audits (EvApproval <$> events)
            (resolution_context resolved_by row);
      mret {| adc_approval_id := approval_id row; adc_status := row_status row; adc_approved := approved |}
  end.

Definition approve (id_ resolved_by : string) : M Session ApprovalDecision :=
  existing_ ← query (get_approval id_);
  match existing_ with
  | None => raiseM (approval_required_error ("approval_not_found: " +:+ id_))
  | Some existing =>
      expired ← (if bool_decide (is_Some (approval_expires_at existing))
                 then now ← now_utc; mret (expired_at now existing) else mret false);
      if expired : bool then raiseM (approval_required_error "approval_expired")
      else resolve_through_aggregate existing id_ ApprovalStatus_APPROVED resolved_by true
  end.

Definition reject (id_ resolved_by : string) : M Session ApprovalDecision :=
  existing_ ← query (get_approval id_);
  match existing_ with
  | None => raiseM (approval_required_error ("approval_not_found: " +:+ id_))
  | Some existing => resolve_through_aggregate existing id_ ApprovalStatus_REJECTED resolved_by false
  end.

Definition ensure_approved (id_ : string) : M Session ApprovalDecision :=
  row_ ← query (get_approval id_);
  match row_ with
  | None => raiseM (approval_required_error ("approval_not_found: " +:+ id_))
  | Some row =>
      ok ← liftM (ApprovalRequest.is_approved (ApprovalRequest.from_record row));
      if ok : bool
      then mret {| adc_approval_id := approval_id row; adc_status := row_status row; adc_approved := true |}
      else raiseM (approval_required_error ("approval_required: " +:+ id_ +:+ " status=" +:+ row_status row))
  end.

(** [approval_use_cases.resolve_approval] *)
Definition resolve_approval_use_case (id_ resolved_by : string) (approved : bool) : M Session ApprovalDecision :=
  if approved then approve id_ resolved_by else reject id_ resolved_by.

(** ** The service *)
Record ApprovalGateService := {
  sv_source_agent_id : string;
  sv_default_company_id : option string;
  sv_enabled : option bool;
  sv_enforced : option bool;
}.

(** The settings and the run context the service falls back to. *)
Record gate_settings := {
  gs_control_plane_enabled : bool; gs_approval_enforced : bool; gs_company_id : string }.
Record ControlPlaneRunContext := {
  rc_company_id : string; rc_run_id : string; rc_agent_id : string; rc_trace_id : option string;
  rc_goal_id : option string; rc_work_item_id : option string }.

Section service.
Context (cfg : gate_settings).

Definition service_enabled (sv : ApprovalGateService) : bool :=
  match sv_enabled sv with
  | Some b => b
  | None => gs_control_plane_enabled cfg || gs_approval_enforced cfg
  end.
Definition service_enforced (sv : ApprovalGateService) : bool :=
  match sv_enforced sv with Some b => b | None => gs_approval_enforced cfg end.

(** [a or b] on optional text *)
Definition opt_or (a b : option string) : option string := if truthy a then a else b.

(** The request a service call makes: explicit arguments first, then the run
    context, then the defaults. *)
Definition service_request (sv : ApprovalGateService) (ctx : option ControlPlaneRunContext)
    (company_id requested_by : option string) (a : approval_request_args) : approval_request_args := {|
  aq_company_id := str_or_empty (opt_or company_id (opt_or (rc_company_id <$> ctx)
                     (opt_or (sv_default_company_id sv) (Some (gs_company_id cfg)))));
  aq_category := aq_category a;
  aq_requested_by := str_or_empty (opt_or requested_by (Some ("agent:" +:+ sv_source_agent_id sv)));
  aq_source_agent_id := sv_source_agent_id sv; aq_proposed_action := aq_proposed_action a;
  aq_reason := aq_reason a; aq_risk := aq_risk a; aq_rollback_note := aq_rollback_note a;
  aq_affected_resources := aq_affected_resources a; aq_artifact_links := aq_artifact_links a;
  aq_run_id := opt_or (aq_run_id a) (rc_run_id <$> ctx);
  aq_work_item_id := opt_or (aq_work_item_id a) (ctx ≫= rc_work_item_id);
  aq_goal_id := opt_or (aq_goal_id a) (ctx ≫= rc_goal_id);
  aq_trace_id := opt_or (aq_trace_id a) (ctx ≫= rc_trace_id) |}.

(** The session context manager commits on success and rolls back on an
    exception. *)
Definition in_session {A} (m : M Session A) : M Session A := λ s,
  match m s with
  | (Ok a, s') => match checkpoint s' with (_, s2) => (Ok a, s2) end
  | (Raise e, s') => (Raise e, rollback s')
  end.

Definition service_request_approval (sv : ApprovalGateService) (ctx : option ControlPlaneRunContext)
    (company_id requested_by : option string) (a : approval_request_args)
    : M Session (option ApprovalRequestRecord) :=
  if service_enabled sv then
    r ← in_session (gate_request_approval (service_request sv ctx company_id requested_by a)); mret (Some r)
  else mret None.

(** The three entry points differ in what they run on the approval. *)
Definition for_sensitive_action (sv : ApprovalGateService) (id_ : option string)
    (m : string → M Session ApprovalDecision) : M Session (option ApprovalDecision) :=
  if negb (service_enabled sv) then mret None
  else if negb (truthy id_) then
    if service_enforced sv then raiseM (approval_required_error "control_plane_approval_required")
    else mret None
  else d ← in_session (m (str_or_empty id_)); mret (Some d).

Definition approve_for_sensitive_action sv id_ resolved_by := for_sensitive_action sv id_ (λ i, approve i resolved_by).
Definition reject_for_sensitive_action sv id_ resolved_by := for_sensitive_action sv id_ (λ i, reject i resolved_by).
Definition ensure_approved_for_sensitive_action sv id_ := for_sensitive_action sv id_ ensure_approved.
End service.
End gate.

(** ** Facts *)
Section gate_facts.
Context {E : Env}.

Definition resolution (approved : bool) : ApprovalStatus :=
  if approved then ApprovalStatus_APPROVED else ApprovalStatus_REJECTED.

(** What a resolution writes. *)
Lemma resolve_through_Ok x id_ target by_ b s d s' :
  resolve_through_aggregate x id_ target by_ b s = (Ok d, s') →
  ∃ y, get_approval id_ (db s) = Some y ∧ str_of <$> approval_record_status y = Some "pending"
    ∧ adc_approved d = b
    ∧ t_approvals (db s') = update_row approval_id id_ (resolve_row (value target) by_ (clock (ticks s)))
        (t_approvals (db s)).
Proof.
  unfold resolve_through_aggregate. intros H. mstep H. apply lift_Ok in Hm as [_ ->]. cbv zeta in H.
  mstep H. unfold resolve_approval in Hm. mstep Hm. apply query_Ok in Hm0 as [-> ->].
  destruct (get_approval id_ (db s)) as [y|] eqn:Hy; [|injection Hm as <- <-; done].
  case_decide as Hp; [done|]. mstep Hm. injection Hm0 as <- <-. mstep Hm. injection Hm0 as <- <-.
  injection Hm as <- <-. mstep H. injection H as <- <-.
  apply domain_audits_framed in Hm as [HB _]. injection HB as _ _ _ _ _ _ _ _ _ HA _ _.
  exists y. split_and!; [done|done|done|]. by rewrite HA.
Qed.

(** A resolved approval cannot be resolved again, and the attempt writes nothing. *)
Lemma resolve_through_resolved x id_ target by_ b s r s' y :
  get_approval id_ (db s) = Some y → str_of <$> approval_record_status y ≠ Some "pending" →
  resolve_through_aggregate x id_ target by_ b s = (r, s') →
  (∃ e, r = Raise e) ∧ t_approvals (db s') = t_approvals (db s).
Proof.
  intros Hy Hp. unfold resolve_through_aggregate. rewrite M_bind_run.
  destruct (liftM _ s) as [[g|e] s1] eqn:Hl; injection Hl as Hl <-; [|intros [= <- <-]; eauto].
  cbv zeta. rewrite M_bind_run. unfold resolve_approval. rewrite M_bind_run. unfold query, getsM.
  rewrite Hy. rewrite decide_True by done. intros [= <- <-]. eauto.
Qed.

Lemma resolved_again b id_ by_ s r s' y :
  get_approval id_ (db s) = Some y → str_of <$> approval_record_status y ≠ Some "pending" →
  resolve_approval_use_case id_ by_ b s = (r, s') →
  (∃ e, r = Raise e) ∧ t_approvals (db s') = t_approvals (db s).
Proof.
  intros Hy Hp. unfold resolve_approval_use_case.
  destruct b; [unfold approve | unfold reject]; rewrite M_bind_run; unfold query, getsM; rewrite Hy; cbv beta iota.
  - rewrite M_bind_run. destruct (bool_decide _).
    + rewrite M_bind_run. unfold now_utc at 1. unfold mret, M_ret.
      destruct (expired_at _ y); [intros [= <- <-]; eauto|].
      intros H. eapply resolve_through_resolved in H; [exact H|exact Hy|done].
    + cbn -[resolve_through_aggregate]. intros H. eapply resolve_through_resolved in H; [exact H|exact Hy|done].
  - intros H. eapply resolve_through_resolved in H; [exact H|exact Hy|done].
Qed.

Lemma resolution_Ok b id_ by_ s d s' :
  resolve_approval_use_case id_ by_ b s = (Ok d, s') →
  ∃ x now, get_approval id_ (db s) = Some x ∧ str_of <$> approval_record_status x = Some "pending"
    ∧ (b = true → ∀ t, approval_expires_at x = Some t → clock (ticks s) < dt_local t)
    ∧ adc_approved d = b
    ∧ t_approvals (db s') = update_row approval_id id_ (resolve_row (value (resolution b)) by_ now)
        (t_approvals (db s)).
Proof.
  unfold resolve_approval_use_case. destruct b; [unfold approve | unfold reject]; intros H;
    mstep H; apply query_Ok in Hm as [-> ->];
    (destruct (get_approval id_ (db s)) as [x|] eqn:Hx; [|done]).
  - mstep H. assert (db s0 = db s ∧ x0 = expired_at (clock (ticks s)) x) as [Hdb ->].
    { destruct (bool_decide _) eqn:Hb; [mstep Hm; injection Hm0 as <- <-|]; injection Hm as <- <-; [done|].
      unfold expired_at. by destruct (approval_expires_at x); [apply bool_decide_eq_false in Hb; destruct Hb|]. }
    destruct (expired_at _ x) eqn:Hexp; [done|].
    apply resolve_through_Ok in H as (y & Hy & Hp & Hd & HA). rewrite Hdb in *.
    assert (y = x) as -> by congruence. exists x, (clock (ticks s0)). split_and!; [done|done| |done|done].
    intros _ t Ht. unfold expired_at in Hexp. rewrite Ht in Hexp. by apply Z.leb_gt.
  - apply resolve_through_Ok in H as (y & Hy & Hp & Hd & HA). assert (y = x) as -> by congruence.
    exists x, (clock (ticks s)). split_and!; done.
Qed.

(** An approval is resolved by one decision: only a pending approval is
    approved or rejected, and only an unexpired one is approved; the decision is
    written to that row alone; afterwards every further decision on it raises and
    changes no approval. *)
Theorem approval_gate_resolves_once b id_ by_ s d s' b' by_' r s'' :
  resolve_approval_use_case id_ by_ b s = (Ok d, s') →
  resolve_approval_use_case id_ by_' b' s' = (r, s'') →
  (∃ x now, get_approval id_ (db s) = Some x
     ∧ str_of <$> approval_record_status x = Some "pending"
     ∧ (b = true → ∀ t, approval_expires_at x = Some t → clock (ticks s) < dt_local t)
     ∧ adc_approved d = b
     ∧ t_approvals (db s') = update_row approval_id id_ (resolve_row (value (resolution b)) by_ now)
         (t_approvals (db s)))
  ∧ (∃ e, r = Raise e) ∧ t_approvals (db s'') = t_approvals (db s').
Proof.
  intros H H'. destruct (resolution_Ok _ _ _ _ _ _ H) as (x & now & Hx & Hp & Hexp & Hd & HA).
  split; [by exists x, now|].
  eapply (resolved_again b' id_ by_' s' r s'' (resolve_row (value (resolution b)) by_ now x)); [|by destruct b|done].
  unfold get_approval in *. rewrite HA, get_row_update by done. by rewrite Hx.
Qed.

(** Enforcement means an approval: when the gate service is enabled and
    enforced, a sensitive action that is let through names a stored approval whose
    status is approved, and a missing identifier is refused. *)
Theorem sensitive_action_needs_approval cfg sv id_ s o s' :
  service_enabled cfg sv = true → service_enforced cfg sv = true →
  ensure_approved_for_sensitive_action cfg sv id_ s = (Ok o, s') →
  ∃ i x d, id_ = Some i ∧ i ≠ "" ∧ get_approval i (db s) = Some x
    ∧ ApprovalRequest.approval_status (approval_record_status x) = Ok (Some ApprovalStatus_APPROVED)
    ∧ o = Some d ∧ adc_approved d = true ∧ adc_approval_id d = i.
Proof.
  intros Hen Hef. unfold ensure_approved_for_sensitive_action, for_sensitive_action. rewrite Hen, Hef. cbn [negb].
  destruct id_ as [i|]; [|done]. cbn [truthy]. destruct (str_empty i) eqn:Hi; [done|].
  apply str_empty_false in Hi. cbn [negb str_or_empty]. intros H. mstep H. injection H as <- <-.
  unfold in_session in Hm. destruct (ensure_approved _ s) as [[d|e] s2] eqn:He; [|done].
  cbn in Hm. injection Hm as <- <-. unfold ensure_approved in He. mstep He. apply query_Ok in Hm as [-> ->].
  destruct (get_approval _ (db s)) as [x|] eqn:Hx; [|done].
  mstep He. apply lift_Ok in Hm as [Ha ->]. destruct x0; [|done]. injection He as <- <-.
  exists i, x, {| adc_approval_id := approval_id x; adc_status := row_status x; adc_approved := true |}.
  split_and!; [done|done|done| |done|done|].
  - unfold ApprovalRequest.is_approved, ApprovalRequest.status in Ha.
    apply bind_Ok in Ha as (st & Hst & Ha). apply bind_Ok in Hst as (o & Ho & Hst).
    destruct o as [st'|]; [|done]. injection Hst as ->. cbn in Ha. injection Ha as Ha.
    apply bool_decide_eq_true in Ha. injection Ha as ->. exact Ho.
  - cbn. by apply get_row_Some in Hx as [_ ?].
Qed.
End gate_facts.

Section gate_witnesses.
#[local] Existing Instance plain_env.

Lemma approval_gate_resolves_once_witness :
  is_ok (resolve_approval_use_case pending_id "owner" true refused).1 = true
  ∧ (∃ e, (resolve_approval_use_case pending_id "other" false
             (resolve_approval_use_case pending_id "owner" true refused).2).1 = Raise e).
Proof.
  assert (is_ok (resolve_approval_use_case pending_id "owner" true refused).1 = true) as Hok
    by (vm_compute; reflexivity).
  split; [exact Hok|]. destruct (run_ok _ Hok) as [d H].
  destruct (approval_gate_resolves_once _ _ _ _ _ _ false "other" _ _ H (surjective_pairing _)) as (_ & He & _).
  exact He.
Defined.

Definition strict_gate : ApprovalGateService := {|
  sv_source_agent_id := "agent_1"; sv_default_company_id := None; sv_enabled := None; sv_enforced := None |}.
Definition enforcing : gate_settings := {|
  gs_control_plane_enabled := true; gs_approval_enforced := true; gs_company_id := "cmp_1" |}.

Lemma sensitive_action_needs_approval_witness :
  is_ok (ensure_approved_for_sensitive_action enforcing strict_gate (Some pending_id) refused).1 = false
  ∧ ∃ i x, Some pending_id = Some i ∧ get_approval i (db approved) = Some x
      ∧ ApprovalRequest.approval_status (approval_record_status x) = Ok (Some ApprovalStatus_APPROVED).
Proof.
  split; [vm_compute; reflexivity|].
  assert (is_ok (ensure_approved_for_sensitive_action enforcing strict_gate (Some pending_id) approved).1 = true)
    as Hok by (vm_compute; reflexivity).
  destruct (run_ok _ Hok) as [o H].
  destruct (sensitive_action_needs_approval enforcing strict_gate _ _ _ _ eq_refl eq_refl H)
    as (i & x & d & Hi & _ & Hx & Hs & _).
  exact (ex_intro _ i (ex_intro _ x (conj Hi (conj Hx Hs)))).
Defined.
End gate_witnesses.
