(* ===== verification/Outcomes.v ===== *)
(** * Review and acceptance of outcomes ([outcome_store.py], [outcome_models.py])

    An operator reviews an artifact of the latest run of a work item; the review
    is an immutable row, and the work item's metadata names the review in force.
    A work item may be completed only while that review accepts an artifact whose
    hash, run and evidence still agree. *)

From S2P Require Import Prelude PyNum PyTime PyValue Models Metadata GovernancePolicies.
From S2P Require Import DomainEvents Store Frames AgentRunLifecycle ExecutionLedger.

(** The latest run of a work item: by start, then by identifier, descending. *)
Definition latest_run_of_work (company work : string) (d : DB) : option AgentRunRecord :=
  head (py_sorted run_newer
    (filter (λ r, run_company_id r = company ∧ run_work_item_id r = Some work) (t_runs d))).

Definition get_artifact (id_ : string) (d : DB) : option ArtifactRecord :=
  get_row artifact_id id_ (t_artifacts d).
Definition get_acceptance (id_ : string) (d : DB) : option OutcomeAcceptance :=
  get_row oa_acceptance_id id_ (t_acceptances d).

(** The work item with new metadata. *)
Definition with_metadata (m : pydict) (r : WorkItemRecord) : WorkItemRecord := {|
  wi_work_item_id := wi_work_item_id r; wi_company_id := wi_company_id r; wi_title := wi_title r;
  wi_description := wi_description r; wi_record_status := wi_record_status r;
  wi_priority := wi_priority r; wi_goal_id := wi_goal_id r;
  wi_owner_agent_id := wi_owner_agent_id r; wi_owner_user_id := wi_owner_user_id r;
  wi_source := wi_source r; wi_external_ref := wi_external_ref r;
  wi_dependencies := wi_dependencies r; wi_approval_required := wi_approval_required r;
  wi_metadata := m; wi_created_at := wi_created_at r; wi_updated_at := wi_updated_at r |}.

(** The metadata a verdict leaves. *)
Definition reviewed_metadata (verdict artifact_id_ acceptance_id : string) (m : pydict) : pydict :=
  if decide (verdict = "accepted")
  then dict_set (dict_set m "accepted_artifact_id" (PStr artifact_id_)) "acceptance_id" (PStr acceptance_id)
  else dict_pop (dict_pop m "accepted_artifact_id") "acceptance_id".

(** [needle in s] *)
Fixpoint str_contains (needle s : string) : bool :=
  str_startswith needle s ||
  match s with
  | EmptyString => false
  | String _ s' => str_contains needle s'
  end.

Section outcomes.
Context {E : Env}.

(** [hash_evidence] of a JSON value *)
Definition hash_value (v : pyval) : string := sha256_hex (canonical_evidence v).

(** [key in evidence and evidence[key] != value] *)
Definition field_differs (evidence : pyval) (key expected : string) : result bool :=
  let indexed (present : bool) : result bool :=
    if present then Raise (Exn "TypeError" "indices must be integers") else Ok false in
  match evidence with
  | PDict d => Ok (match dict_get d key with Some v => negb (is_str v expected) | None => false end)
  | PList l | PTuple l => indexed (existsb (λ v, is_str v key) l)
  | PStr s | PEnum s => indexed (str_contains key s)
  | _ => Raise (Exn "TypeError" "argument is not iterable")
  end.

Definition _require_payload_integrity (evidence : pyval) (run : AgentRunRecord) : result unit :=
  match evidence with
  | PNone => Ok ()
  | _ =>
      let failed := ExecutionDenied "artifact_evidence_integrity_failed" 409 in
      differs ← field_differs evidence "input_payload_hash"
                  (hash_evidence (dict_or_empty (run_input_event run)));
      if (differs : bool) then Raise failed
      else
        differs ← field_differs evidence "output_payload_hash"
                    (hash_evidence [("output_events", PList (PDict <$> run_output_events run))]);
        raise_if differs failed
  end.

(** The hash of the evidence is the artifact's. *)
Definition evidence_hashed (evidence : pyval) (artifact : ArtifactRecord) : bool :=
  bool_decide (artifact_content_hash artifact = Some (hash_value evidence)).

(** What [review] asks of the evidence: its hash, its run and its status. *)
Definition evidence_of_run (evidence : pyval) (artifact : ArtifactRecord) (run : AgentRunRecord)
    : result bool :=
  if negb (evidence_hashed evidence artifact) then Ok false
  else match evidence with
       | PDict e => Ok (is_str (dget e "run_id") (run_id run) && is_str (dget e "status") "succeeded")
       | _ => Raise (Exn "AttributeError" "get")
       end.

Definition insert_acceptance (row : OutcomeAcceptance) : M Session unit :=
  d ← query id;
  _ ← raise_ifM (bool_decide (oa_acceptance_id row ∈ oa_acceptance_id <$> t_acceptances d)
                 || negb (company_fk d (oa_company_id row))
                 || negb (work_fk d (Some (oa_work_item_id row)))
                 || negb (fk_ok (artifact_id <$> t_artifacts d) (Some (oa_artifact_id row)))
                 || negb (run_fk d (Some (oa_run_id row))))
        (integrity_error "control_plane_outcome_acceptances");
  update_db (λ d, set_acceptances (t_acceptances d ++ [row]) d).

Record review_args := {
  rv_company_id : string; rv_work_item_id : string; rv_artifact_id : string;
  rv_actor_id : string; rv_verdict : string; rv_reason : string }.

(** The checks of [review], in their order: the work item, its latest run and
    the artifact under review. *)
Definition reviewable (a : review_args) (d : DB)
    : result (WorkItemRecord * AgentRunRecord * ArtifactRecord) :=
  match head (filter (λ w, wi_company_id w = rv_company_id a ∧ wi_work_item_id w = rv_work_item_id a)
                (t_work_items d)) with
  | None => Raise (ExecutionDenied "work_item_not_found" 404)
  | Some work =>
      match get_artifact (rv_artifact_id a) d with
      | None => Raise (ExecutionDenied "artifact_not_found" 404)
      | Some artifact =>
          _ ← raise_if (negb (truthy (artifact_run_id artifact))) (ExecutionDenied "artifact_not_found" 404);
          match latest_run_of_work (rv_company_id a) (rv_work_item_id a) d with
          | None => Raise (ExecutionDenied "acceptance_run_required" 400)
          | Some run =>
              _ ← validate_outcome work run artifact (rv_reason a) (rv_verdict a);
              let evidence := dget (artifact_metadata artifact) "evidence" in
              ok ← (match evidence with
                    | PNone => Ok true
                    | _ => evidence_of_run evidence artifact run
                    end : result bool);
              _ ← raise_if (negb ok) (ExecutionDenied "artifact_evidence_integrity_failed" 400);
              _ ← _require_payload_integrity evidence run;
              Ok (work, run, artifact)
          end
      end
  end.

Definition review (a : review_args) : M Session OutcomeAcceptance :=
  d ← query id;
  checked ← liftM (reviewable a d);
  let '(work, run, artifact) := checked in
  hex ← uuid4;
  now ← now_utc;
  let acceptance := {|
    oa_acceptance_id := "acc_" +:+ hex; oa_company_id := rv_company_id a;
    oa_work_item_id := rv_work_item_id a; oa_artifact_id := rv_artifact_id a;
    oa_run_id := run_id run; oa_artifact_hash := str_or_empty (artifact_content_hash artifact);
    oa_verdict := rv_verdict a; oa_actor_id := rv_actor_id a; oa_reason := strip (rv_reason a);
    oa_created_at := now |} in
  _ ← insert_acceptance acceptance;
  _ ← update_db (λ d, set_work_items (update_row wi_work_item_id (rv_work_item_id a)
        (with_metadata (reviewed_metadata (rv_verdict a) (rv_artifact_id a) (oa_acceptance_id acceptance)
                          (wi_metadata work))) (t_work_items d)) d);
  ev ← new_audit (rv_company_id a) ("outcome." +:+ rv_verdict a) "artifact" (rv_artifact_id a)
         "operator" (rv_actor_id a) None (Some (run_id run)) (Some (rv_work_item_id a))
         [("acceptance_id", PStr (oa_acceptance_id acceptance));
          ("artifact_hash", p_opt (artifact_content_hash artifact));
          ("reason", PStr (strip (rv_reason a)))];
  _ ← append_audit_event ev;
  mret acceptance.

(** The review named by the work item's metadata. *)
Definition named_acceptance (work : WorkItemRecord) (d : DB) : result (option OutcomeAcceptance) :=
  match default (PStr "") (dict_get (wi_metadata work) "acceptance_id") with
  | PStr id_ | PEnum id_ => Ok (get_acceptance id_ d)
  | PNone => Ok None
  | _ => Raise (Exn "DBAPIError" "acceptance_id")
  end.

(** The checks of [require_accepted]. *)
Definition accepted_in (work : WorkItemRecord) (d : DB) : result unit :=
  let required := ExecutionDenied "accepted_artifact_required" 409 in
  acceptance_ ← named_acceptance work d;
  match acceptance_ with
  | None => Raise required
  | Some acceptance =>
      match get_artifact (oa_artifact_id acceptance) d with
      | None => Raise required
      | Some artifact =>
          _ ← raise_if (bool_decide (oa_verdict acceptance ≠ "accepted")
                || bool_decide (oa_company_id acceptance ≠ wi_company_id work)
                || bool_decide (oa_work_item_id acceptance ≠ wi_work_item_id work)
                || bool_decide (artifact_content_hash artifact ≠ Some (oa_artifact_hash acceptance))
                || bool_decide (run_id <$> latest_run_of_work (wi_company_id work) (wi_work_item_id work) d
                                ≠ Some (oa_run_id acceptance))) required;
          match get_agent_run (oa_run_id acceptance) d with
          | None => Raise required
          | Some run =>
              let evidence := dget (artifact_metadata artifact) "evidence" in
              _ ← raise_if (match evidence with
                            | PNone => false
                            | _ => negb (evidence_hashed evidence artifact)
                            end) (ExecutionDenied "artifact_evidence_integrity_failed" 409);
              _require_payload_integrity evidence run
          end
      end
  end.

Definition require_accepted (work : WorkItemRecord) : M Session unit :=
  d ← query id;
  liftM (accepted_in work d).
End outcomes.
