(* ===== verification/WorkItems.v ===== *)
(** * Work items: store and use cases

    [work_item_store.py], [work_item_use_cases.py],
    [work_item_operation_use_cases.py]: creation with its links, and the status
    changes an operator may make (update, reassign, block, close).  A change is
    refused while the item is leased to an execution, and completion asks for an
    accepted outcome. *)

From S2P Require Import Prelude PyNum PyTime PyValue Models Metadata WorkItem DomainEvents Store.
From S2P Require Import Frames AgentRunLifecycle BudgetGuard ExecutionLedger Outcomes AgentRunner.

Definition get_goal (id_ : string) (d : DB) : option GoalRecord := get_row goal_id id_ (t_goals d).

(** [model_values] of a work item *)
Definition work_values (r : WorkItemRecord) : WorkItemRecord := {|
  wi_work_item_id := wi_work_item_id r; wi_company_id := wi_company_id r; wi_title := wi_title r;
  wi_description := wi_description r; wi_record_status := to_db_enum <$> wi_record_status r;
  wi_priority := to_db_enum (wi_priority r); wi_goal_id := wi_goal_id r;
  wi_owner_agent_id := wi_owner_agent_id r; wi_owner_user_id := wi_owner_user_id r;
  wi_source := wi_source r; wi_external_ref := wi_external_ref r;
  wi_dependencies := wi_dependencies r; wi_approval_required := wi_approval_required r;
  wi_metadata := to_db_dict (wi_metadata r); wi_created_at := wi_created_at r;
  wi_updated_at := wi_updated_at r |}.

(** The columns [update_work_item_status] assigns: a [None] leaves a column. *)
Definition status_row (st : string) (owner_agent owner_user : option string) (now : instant)
    (r : WorkItemRecord) : WorkItemRecord := {|
  wi_work_item_id := wi_work_item_id r; wi_company_id := wi_company_id r; wi_title := wi_title r;
  wi_description := wi_description r; wi_record_status := Some (Str st);
  wi_priority := wi_priority r; wi_goal_id := wi_goal_id r;
  wi_owner_agent_id := match owner_agent with Some x => Some x | None => wi_owner_agent_id r end;
  wi_owner_user_id := match owner_user with Some x => Some x | None => wi_owner_user_id r end;
  wi_source := wi_source r; wi_external_ref := wi_external_ref r;
  wi_dependencies := wi_dependencies r; wi_approval_required := wi_approval_required r;
  wi_metadata := wi_metadata r; wi_created_at := wi_created_at r; wi_updated_at := of_utc now |}.

(** The unique key on the company and the external reference; a missing
    reference never conflicts. *)
Definition external_ref_taken (r : WorkItemRecord) (d : DB) : bool :=
  match wi_external_ref r with
  | None => false
  | Some ref => existsb (λ w, bool_decide (wi_company_id w = wi_company_id r)
                              && bool_decide (wi_external_ref w = Some ref)) (t_work_items d)
  end.

Definition p_status {E} `{!StrEnum E} (o : option (enum_or_str E)) : pyval := p_opt (str_of <$> o).

Section work_items.
Context {E : Env}.

(** ** Store *)
Definition create_work_item (work_item : WorkItemRecord) : M Session WorkItemRecord :=
  let row := work_values work_item in
  d ← query id;
  _ ← raise_ifM (bool_decide (wi_work_item_id row ∈ wi_work_item_id <$> t_work_items d)
                 || external_ref_taken row d || negb (company_fk d (wi_company_id row))
                 || negb (goal_fk d (wi_goal_id row)))
        (integrity_error "control_plane_work_items");
  _ ← update_db (λ d, set_work_items (t_work_items d ++ [row]) d);
  mret row.

Definition update_work_item_status (id_ st : string) (owner_agent owner_user : option string)
    : M Session (option WorkItemRecord) :=
  row_ ← query (get_work_item id_);
  match row_ with
  | None => mret None
  | Some row =>
      active ← query (active_lease (wi_company_id row) ("work:" +:+ id_));
      _ ← raise_ifM (bool_decide (is_Some active))
            (ExecutionDenied "execution_control_or_recovery_required" 409);
      _ ← liftM (WorkItem.transition_to (WorkItem.from_record row) (Some (Str st)));
      _ ← whenM (bool_decide (st = "completed")) (require_accepted row);
      now ← now_utc;
      let f := status_row st owner_agent owner_user now in
      _ ← update_db (λ d, set_work_items (update_row wi_work_item_id id_ f (t_work_items d)) d);
      mret (Some (f row))
  end.

(** ** Use cases *)

(** A use case names its company: an item of another one is not found. *)
Definition _get_company_work_item (company_id id_ : string) : M Session WorkItemRecord :=
  row_ ← query (get_work_item id_);
  match row_ with
  | Some row => if decide (wi_company_id row = company_id) then mret row
                else raiseM (Exn "WorkItemNotFoundError" id_)
  | None => raiseM (Exn "WorkItemNotFoundError" id_)
  end.

Definition goal_in_company (company_id : string) (goal : string) (d : DB) : bool :=
  match get_goal goal d with
  | Some g => bool_decide (goal_company_id g = company_id)
  | None => false
  end.
Definition work_in_company (company_id : string) (work : string) (d : DB) : bool :=
  match get_work_item work d with
  | Some w => bool_decide (wi_company_id w = company_id)
  | None => false
  end.

Definition create_work_item_with_audit (work_item : WorkItemRecord) (created_by : string)
    : M Session WorkItemRecord :=
  let company_id := wi_company_id work_item in
  _ ← _ensure_company company_id;
  _ ← whenM (truthy (wi_goal_id work_item))
        (found ← query (goal_in_company company_id (str_or_empty (wi_goal_id work_item)));
         raise_ifM (negb found) (Exn "WorkItemGoalNotFoundError" (str_or_empty (wi_goal_id work_item))));
  _ ← forM (wi_dependencies work_item) (λ dependency_id,
        found ← query (work_in_company company_id dependency_id);
        raise_ifM (negb found) (Exn "WorkItemDependencyNotFoundError" dependency_id));
  created ← create_work_item work_item;
  ev ← new_audit company_id "work_item.created" "work_item" (wi_work_item_id created) "user" created_by
         None None (Some (wi_work_item_id created))
         [("work_item_id", PStr (wi_work_item_id created));
          ("status", p_status (wi_record_status created));
          ("priority", PStr (str_of (wi_priority created))); ("goal_id", p_opt (wi_goal_id created));
          ("owner_agent_id", p_opt (wi_owner_agent_id created));
          ("owner_user_id", p_opt (wi_owner_user_id created))];
  _ ← append_audit_event ev;
  mret created.

Record status_change := {
  sc_status : option (enum_or_str WorkItemStatus);
  sc_owner_agent_id : option string; sc_owner_user_id : option string;
  sc_actor_id : string; sc_command : option string; sc_reason : option string }.

Definition change_detail (u : status_change) (updated : WorkItemRecord) : pydict :=
  [("status", p_status (wi_record_status updated));
   ("owner_agent_id", p_opt (wi_owner_agent_id updated));
   ("owner_user_id", p_opt (wi_owner_user_id updated))]
  ++ (if truthy (sc_command u) then [("command", p_opt (sc_command u))] else [])
  ++ (if truthy (sc_reason u) then [("reason", p_opt (sc_reason u))] else []).

Definition update_work_item_status_with_audit (company_id id_ : string) (u : status_change)
    : M Session WorkItemRecord :=
  existing ← _get_company_work_item company_id id_;
  aggregate ← liftM (WorkItem.transition_to (WorkItem.from_record existing) (sc_status u));
  let domain_events := (WorkItem.pull_events aggregate).1 in
  st ← liftM (WorkItem.status aggregate);
  updated_ ← update_work_item_status id_ (value st) (sc_owner_agent_id u) (sc_owner_user_id u);
  match updated_ with
  | None => raiseM (Exn "WorkItemNotFoundError" id_)
  | Some updated =>
      let detail := change_detail u updated in
      match domain_events with
      | _ :: _ =>
          _ ← append_control_plane_domain_event_audits (EvWorkItem <$> domain_events)
                {| ctx_actor_type := "user"; ctx_actor_id := sc_actor_id u; ctx_trace_id := None;
                   ctx_run_id := None; ctx_work_item_id := Some (wi_work_item_id updated);
                   ctx_detail := detail |};
          mret updated
      | [] =>
          ev ← new_audit company_id "work_item.updated" "work_item" (wi_work_item_id updated) "user"
                 (sc_actor_id u) None None (Some (wi_work_item_id updated)) detail;
          _ ← append_audit_event ev;
          mret updated
      end
  end.

(** ** Operator commands *)
Definition reassign_work_item (company_id id_ : string) (owner_agent owner_user : option string)
    (actor_id : string) (reason : option string) : M Session WorkItemRecord :=
  existing ← _get_company_work_item company_id id_;
  _ ← raise_ifM (negb (truthy owner_agent) && negb (truthy owner_user))
        (Exn "WorkItemAssigneeRequiredError" id_);
  update_work_item_status_with_audit company_id id_
    {| sc_status := wi_record_status existing; sc_owner_agent_id := owner_agent;
       sc_owner_user_id := owner_user; sc_actor_id := actor_id; sc_command := Some "reassign";
       sc_reason := reason |}.

Definition block_work_item (company_id id_ actor_id reason : string) : M Session WorkItemRecord :=
  existing ← _get_company_work_item company_id id_;
  update_work_item_status_with_audit company_id id_
    {| sc_status := Some (Member WorkItemStatus_BLOCKED);
       sc_owner_agent_id := wi_owner_agent_id existing;
       sc_owner_user_id := wi_owner_user_id existing; sc_actor_id := actor_id;
       sc_command := Some "block"; sc_reason := Some reason |}.

Definition close_work_item (company_id id_ : string) (st : WorkItemStatus) (actor_id : string)
    (reason : option string) : M Session WorkItemRecord :=
  closes ← liftM (is_work_item_close_status (Member st));
  _ ← raise_ifM (negb closes) (Exn "WorkItemCloseStatusError" (value st));
  existing ← _get_company_work_item company_id id_;
  update_work_item_status_with_audit company_id id_
    {| sc_status := Some (Member st); sc_owner_agent_id := wi_owner_agent_id existing;
       sc_owner_user_id := wi_owner_user_id existing; sc_actor_id := actor_id;
       sc_command := Some "close"; sc_reason := reason |}.
End work_items.

(** ** Running a work item through an agent

    [agent_operation_use_cases.py] and [work_item_execution_use_cases.py]: the
    wakeup of a stored agent, and the status the work item takes from its run. *)

Record AgentWakeupUseCaseResult := {
  uc_run : option AgentRunRecord;
  uc_wakeup : AgentWakeupResult;
}.

Record WorkItemExecutionResult := {
  we_work_item : WorkItemRecord;
  we_agent_wakeup : AgentWakeupUseCaseResult;
}.

(** The arguments of [wake_agent_definition]. *)
Record wake_request := {
  wq_company_id : string; wq_agent_id : string; wq_input_payload : option pydict;
  wq_actor_id : string; wq_trace_id : option string; wq_goal_id : option string;
  wq_work_item_id : option string; wq_idempotency_key : option string }.

Definition _build_agent_input_payload (work : WorkItemRecord) (input_payload : option pydict) : pydict :=
  dict_set (dict_or_empty input_payload) "work_item" (PDict
    [("work_item_id", PStr (wi_work_item_id work)); ("company_id", PStr (wi_company_id work));
     ("title", PStr (wi_title work)); ("description", PStr (wi_description work));
     ("priority", PStr (str_of (wi_priority work))); ("goal_id", p_opt (wi_goal_id work));
     ("owner_agent_id", p_opt (wi_owner_agent_id work));
     ("owner_user_id", p_opt (wi_owner_user_id work)); ("source", PStr (wi_source work));
     ("external_ref", p_opt (wi_external_ref work));
     ("dependencies", PList (PStr <$> wi_dependencies work));
     ("approval_required", PBool (wi_approval_required work));
     ("metadata", PDict (wi_metadata work))]).

(** A successful run leaves the item blocked: its output awaits acceptance. *)
Definition _work_item_status_from_run (r : AgentWakeupUseCaseResult) : result WorkItemStatus :=
  match uc_run r with
  | None => work_item_status_from_agent_run_status None
  | Some run =>
      if decide (str_of (run_record_status run) = "succeeded") then Ok WorkItemStatus_BLOCKED
      else work_item_status_from_agent_run_status (Some (run_record_status run))
  end.

(** [agent_id or owner_agent_id or ""], stripped *)
Definition resolved_agent (agent_id owner : option string) : string :=
  strip (if truthy agent_id then str_or_empty agent_id else str_or_empty owner).

Section execution.
Context {E : Env} (X : adapters).

Definition wake_agent_definition (q : wake_request) : M Session AgentWakeupUseCaseResult :=
  agent_ ← query (get_role (wq_company_id q) (wq_agent_id q));
  match agent_ with
  | None => raiseM (Exn "AgentDefinitionNotFoundError" (wq_agent_id q))
  | Some agent =>
      wakeup ← wake X true {| wk_agent := agent; wk_input_payload := wq_input_payload q;
                 wk_actor_id := wq_actor_id q; wk_trace_id := wq_trace_id q;
                 wk_goal_id := wq_goal_id q; wk_work_item_id := wq_work_item_id q;
                 wk_trigger := "manual_wakeup"; wk_idempotency_key := wq_idempotency_key q |};
      run ← query (get_agent_run (ar_run_id wakeup));
      mret {| uc_run := run; uc_wakeup := wakeup |}
  end.

Record run_work_args := {
  rw_company_id : string; rw_work_item_id : string; rw_agent_id : option string;
  rw_input_payload : option pydict; rw_actor_id : string; rw_trace_id : option string;
  rw_idempotency_key : option string }.

Definition owned_change (st : WorkItemStatus) (agent actor_id : string) : status_change := {|
  sc_status := Some (Member st); sc_owner_agent_id := Some agent; sc_owner_user_id := None;
  sc_actor_id := actor_id; sc_command := None; sc_reason := None |}.

(** The [except] clauses: a refused or uncertain wakeup leaves the item alone. *)
Definition on_wakeup_error (a : run_work_args) (agent : string) (e : exn)
    : M Session AgentWakeupUseCaseResult :=
  match e with
  | AgentWakeupError _ _ category =>
      if decide (category ∈ ["execution_denied"; "uncertain_effects"]) then raiseM e
      else
        _ ← update_work_item_status_with_audit (rw_company_id a) (rw_work_item_id a)
              (owned_change (if decide (category = "cancelled") then WorkItemStatus_CANCELLED
                             else WorkItemStatus_FAILED) agent (rw_actor_id a));
        raiseM e
  | _ => raiseM e
  end.

Definition run_work_item_with_agent (a : run_work_args) : M Session WorkItemExecutionResult :=
  work ← _get_company_work_item (rw_company_id a) (rw_work_item_id a);
  let agent := resolved_agent (rw_agent_id a) (wi_owner_agent_id work) in
  _ ← raise_ifM (str_empty agent) (Exn "WorkItemExecutionAgentRequiredError" (rw_work_item_id a));
  wakeup ← catchM (wake_agent_definition
      {| wq_company_id := rw_company_id a; wq_agent_id := agent;
         wq_input_payload := Some (_build_agent_input_payload work (rw_input_payload a));
         wq_actor_id := rw_actor_id a; wq_trace_id := rw_trace_id a;
         wq_goal_id := wi_goal_id work; wq_work_item_id := Some (wi_work_item_id work);
         wq_idempotency_key := rw_idempotency_key a |})
    (on_wakeup_error a agent);
  final ← liftM (_work_item_status_from_run wakeup);
  updated ← update_work_item_status_with_audit (rw_company_id a) (rw_work_item_id a)
              (owned_change final agent (rw_actor_id a));
  mret {| we_work_item := updated; we_agent_wakeup := wakeup |}.
End execution.
