(* ===== verification/OutcomeTheorems.v ===== *)
(** * What the acceptance of outcomes guarantees

    A review binds the work item to the evidence it looked at, and a work item
    can be completed exactly while a review in force accepts it. *)

From S2P Require Import Prelude PyNum PyTime PyValue Models Metadata WorkItem StateMachine.
From S2P Require Import GovernancePolicies DomainEvents Store Frames AgentRunLifecycle BudgetGuard.
From S2P Require Import ExecutionLedger ClaimInversion Outcomes WorkItems AgentRunner ApprovalGate.

Section outcomes.
Context {E : Env}.

(** ** What a review writes *)
Definition acceptance_of (a : review_args) (run : AgentRunRecord) (artifact : ArtifactRecord)
    (id_ : string) (now : instant) : OutcomeAcceptance := {|
  oa_acceptance_id := id_; oa_company_id := rv_company_id a; oa_work_item_id := rv_work_item_id a;
  oa_artifact_id := rv_artifact_id a; oa_run_id := run_id run;
  oa_artifact_hash := str_or_empty (artifact_content_hash artifact); oa_verdict := rv_verdict a;
  oa_actor_id := rv_actor_id a; oa_reason := strip (rv_reason a); oa_created_at := now |}.

Definition reviewed_db (a : review_args) (work : WorkItemRecord) (acc : OutcomeAcceptance) (d : DB) : DB :=
  set_work_items (update_row wi_work_item_id (rv_work_item_id a)
      (with_metadata (reviewed_metadata (rv_verdict a) (rv_artifact_id a) (oa_acceptance_id acc)
                        (wi_metadata work))) (t_work_items d))
    (set_acceptances (t_acceptances d ++ [acc]) d).

Lemma review_Ok a s acc s' :
  review a s = (Ok acc, s') →
  ∃ work run artifact id_ now,
    reviewable a (db s) = Ok (work, run, artifact)
    ∧ acc = acceptance_of a run artifact id_ now
    ∧ oa_acceptance_id acc ∉ oa_acceptance_id <$> t_acceptances (db s)
    ∧ (∃ hex, id_ = "acc_" +:+ hex)
    ∧ business (db s') = business (reviewed_db a work acc (db s)) ∧ durable s' = durable s.
Proof.
  unfold review, insert_acceptance. intros H. minv. destruct x0 as [[work run] artifact]. minv.
  mframes. repeat match goal with
  | H : _ || _ = false |- _ => apply orb_false_iff in H as [H _]
  | H : bool_decide _ = false |- _ => apply bool_decide_eq_false in H
  end.
  cbn in *. unfold id in *.
  assert (db s1 = db s) as Hs by (by etrans). rewrite Hs in *.
  exists work, run, artifact, ("acc_" +:+ x), x0.
  split_and!; [done | done | done | by exists x | by etrans |].
  by repeat (etrans; [eassumption|]).
Qed.

(** The evidence an artifact carries, if any, is the one that was hashed. *)
Definition evidence_intact (artifact : ArtifactRecord) (run : AgentRunRecord) : Prop :=
  let evidence := dget (artifact_metadata artifact) "evidence" in
  (evidence = PNone ∨ artifact_content_hash artifact = Some (hash_value evidence))
  ∧ _require_payload_integrity evidence run = Ok ().

Lemma reviewable_Ok a d work run artifact :
  reviewable a d = Ok (work, run, artifact) →
  work ∈ t_work_items d ∧ wi_company_id work = rv_company_id a
  ∧ wi_work_item_id work = rv_work_item_id a
  ∧ get_artifact (rv_artifact_id a) d = Some artifact
  ∧ latest_run_of_work (rv_company_id a) (rv_work_item_id a) d = Some run
  ∧ validate_outcome work run artifact (rv_reason a) (rv_verdict a) = Ok ()
  ∧ evidence_intact artifact run.
Proof.
  unfold reviewable, evidence_intact, evidence_of_run. intros H.
  destruct (head _) as [w|] eqn:Hw; [|done].
  apply head_Some_elem_of, list_elem_of_filter in Hw as [[Hc Hi] Hin].
  destruct (get_artifact _ _) as [ar|] eqn:Har; [|done]. inv_bind.
  destruct (latest_run_of_work _ _ _) as [r|] eqn:Hr; [|done]. inv_bind.
  destruct a1. repeat match goal with u : () |- _ => destruct u end. split_and!; try done.
  destruct (dget (artifact_metadata artifact) "evidence"); try (by left); right;
    unfold evidence_hashed in *; cbn in *;
    destruct (bool_decide _) eqn:Hb; cbn in *; simplify_eq; by apply bool_decide_eq_true in Hb.
Qed.

(** ** Completion *)
Lemma update_status_run id_ st oa ou s row g :
  get_work_item id_ (db s) = Some row →
  active_lease (wi_company_id row) ("work:" +:+ id_) (db s) = None →
  WorkItem.transition_to (WorkItem.from_record row) (Some (Str st)) = Ok g →
  update_work_item_status id_ st oa ou s =
  match (if decide (st = "completed") then accepted_in row (db s) else Ok ()) with
  | Raise e => (Raise e, s)
  | Ok _ =>
      let f := status_row st oa ou (clock (ticks s)) in
      (Ok (Some (f row)),
       {| db := set_work_items (update_row wi_work_item_id id_ f (t_work_items (db s))) (db s);
          durable := durable s; ticks := S (ticks s); ids := ids s |})
  end.
Proof.
  intros Hrow Hl Hg. unfold update_work_item_status, query, getsM, mbind, M_bind. rewrite Hrow.
  rewrite Hl, bool_decide_eq_false_2 by (by intros [? ?]).
  unfold raise_ifM, mret, M_ret. cbv beta iota zeta. unfold liftM. rewrite Hg. cbv beta iota zeta.
  unfold whenM. case_decide as Hst.
  - rewrite bool_decide_eq_true_2 by done. unfold require_accepted, query, getsM, liftM, mbind, M_bind.
    unfold id. by destruct (accepted_in row (db s)) as [[]|].
  - by rewrite bool_decide_eq_false_2.
Qed.

Lemma latest_run_elem company work d r :
  latest_run_of_work company work d = Some r → r ∈ t_runs d.
Proof.
  unfold latest_run_of_work. intros H%head_Some_elem_of. rewrite py_sorted_perm in H.
  by apply list_elem_of_filter in H as [_ ?].
Qed.

Lemma accepted_after_review a d work run artifact id_ now d' w :
  NoDup (wi_work_item_id <$> t_work_items d) → NoDup (run_id <$> t_runs d) →
  reviewable a d = Ok (work, run, artifact) → rv_verdict a = "accepted" →
  id_ ∉ oa_acceptance_id <$> t_acceptances d →
  business d' = business (reviewed_db a work (acceptance_of a run artifact id_ now) d) →
  get_work_item (rv_work_item_id a) d' = Some w →
  accepted_in w d' = Ok ().
Proof.
  intros Hw Hr Hck Hv Hid Hb Hget. apply reviewable_Ok in Hck as (Hin & Hc & Hi & Har & Hrun & Hval & Hev).
  apply business_tables in Hb as (Hb1 & Hb2 & _ & Hb3 & _ & _ & Hb4 & _). cbn in Hb1, Hb2, Hb3, Hb4.
  unfold get_work_item in Hget. rewrite Hb2, get_row_update in Hget by done.
  rewrite (get_row_elem _ _ _ _ Hw Hin Hi) in Hget. injection Hget as <-.
  unfold accepted_in, named_acceptance. cbn. unfold reviewed_metadata. rewrite decide_True by done.
  rewrite dict_get_set_eq. cbn. unfold get_acceptance. rewrite Hb4.
  erewrite get_row_snoc by (first [exact Hid | reflexivity]). cbn.
  unfold get_artifact, get_agent_run, latest_run_of_work in *. rewrite Hb3, Har, Hb1, Hc, Hi, Hrun. cbn.
  destruct Hev as [Hh Hpay].
  apply validate_outcome_Ok in Hval as (_ & _ & _ & _ & _ & _ & _ & _ & _ & (h & Hhash & _) & _).
  rewrite Hhash, Hv. cbn. rewrite !bool_decide_eq_false_2 by (cbn; naive_solver). cbn.
  rewrite (get_row_elem _ _ _ _ Hr (latest_run_elem _ _ _ _ Hrun) eq_refl).
  unfold evidence_hashed. destruct Hh as [Hn|He]; [by rewrite Hn|].
  rewrite bool_decide_eq_true_2 by done. by destruct (dget _ _).
Qed.

Lemma rejected_after_review a d work run artifact id_ now d' w :
  NoDup (wi_work_item_id <$> t_work_items d) →
  reviewable a d = Ok (work, run, artifact) → rv_verdict a ≠ "accepted" →
  id_ ≠ "" → (∀ x, x ∈ t_acceptances d → oa_acceptance_id x ≠ "") →
  business d' = business (reviewed_db a work (acceptance_of a run artifact id_ now) d) →
  get_work_item (rv_work_item_id a) d' = Some w →
  accepted_in w d' = Raise (ExecutionDenied "accepted_artifact_required" 409).
Proof.
  intros Hw Hck Hv Hid Hids Hb Hget. apply reviewable_Ok in Hck as (Hin & Hc & Hi & _).
  apply business_tables in Hb as (_ & Hb2 & _ & _ & _ & _ & Hb4 & _). cbn in Hb2, Hb4.
  unfold get_work_item in Hget. rewrite Hb2, get_row_update in Hget by done.
  rewrite (get_row_elem _ _ _ _ Hw Hin Hi) in Hget. injection Hget as <-.
  unfold accepted_in, named_acceptance. cbn. unfold reviewed_metadata. rewrite decide_False by done.
  rewrite dict_get_pop_eq. cbn. destruct (get_acceptance "" d') as [x|] eqn:Hx; [|done]. exfalso.
  apply get_row_Some in Hx as [Hx Hid']. rewrite Hb4 in Hx.
  apply elem_of_app in Hx as [Hx|Hx%list_elem_of_singleton]; [by eapply Hids | by subst x].
Qed.

(** A review decides whether the work item can be completed.  After a review
    has returned, while no execution holds the item and its status may move to
    completed, completing it succeeds when the verdict is "accepted" and is
    refused when it is "rejected". *)
Theorem review_decides_completion a s acc s1 w g oa ou :
  NoDup (wi_work_item_id <$> t_work_items (db s)) → NoDup (run_id <$> t_runs (db s)) →
  (∀ x, x ∈ t_acceptances (db s) → oa_acceptance_id x ≠ "") →
  review a s = (Ok acc, s1) →
  get_work_item (rv_work_item_id a) (db s1) = Some w →
  active_lease (wi_company_id w) ("work:" +:+ rv_work_item_id a) (db s1) = None →
  WorkItem.transition_to (WorkItem.from_record w) (Some (Str "completed")) = Ok g →
  let completion := update_work_item_status (rv_work_item_id a) "completed" oa ou s1 in
  (rv_verdict a = "accepted" ∧ ∃ w' s2, completion = (Ok (Some w'), s2)
     ∧ work_status w' = Some "completed" ∧ get_work_item (rv_work_item_id a) (db s2) = Some w')
  ∨ (rv_verdict a = "rejected"
     ∧ completion = (Raise (ExecutionDenied "accepted_artifact_required" 409), s1)).
Proof.
  intros Hw Hr Hids Hrev Hget Hl Hg. apply review_Ok in Hrev as
    (work & run & artifact & id_ & now & Hck & -> & Hfresh & (hex & Hhex) & Hb & _).
  cbv zeta. rewrite (update_status_run _ _ _ _ _ _ _ Hget Hl Hg), decide_True by done.
  pose proof Hck as (_ & _ & _ & _ & _ & Hval & _)%reviewable_Ok.
  apply validate_outcome_Ok in Hval as ([Hv|Hv] & _).
  - left. split; [done|]. rewrite (accepted_after_review _ _ _ _ _ _ _ _ _ Hw Hr Hck Hv Hfresh Hb Hget).
    eexists _, _. split; [done|]. split; [done|]. unfold get_work_item in *.
    cbn [db t_work_items set_work_items]. by rewrite get_row_update, Hget.
  - right. split; [done|]. erewrite rejected_after_review; try done; [congruence|]. by rewrite Hhex.
Qed.
End outcomes.

(** ** Every completion was reviewed

    The operations that touch work items, executions, artifacts and reviews, run
    one after the other, each in its own session.  Whatever the history, a work
    item that is completed carries the review that accepted it, and that review
    looked at an artifact the company still has, unchanged. *)

(** A review and the artifact it looked at. *)
Definition reviewed (d : DB) (a : OutcomeAcceptance) : Prop :=
  (oa_verdict a = "accepted" ∨ oa_verdict a = "rejected") ∧ oa_reason a ≠ "" ∧ oa_artifact_hash a ≠ ""
  ∧ ∃ artifact, get_artifact (oa_artifact_id a) d = Some artifact
      ∧ artifact_company_id artifact = oa_company_id a
      ∧ artifact_work_item_id artifact = Some (oa_work_item_id a)
      ∧ artifact_run_id artifact = Some (oa_run_id a)
      ∧ artifact_content_hash artifact = Some (oa_artifact_hash a).

Definition evidence_inv (d : DB) : Prop :=
  NoDup (artifact_id <$> t_artifacts d) ∧ ∀ a, a ∈ t_acceptances d → reviewed d a.

Definition kept (s : Session) : Prop := evidence_inv (db s) ∧ evidence_inv (durable s).

Definition evidence_view (d : DB) := (t_acceptances d, t_artifacts d).

Lemma evidence_inv_ext d d' : evidence_view d' = evidence_view d → evidence_inv d → evidence_inv d'.
Proof.
  intros [= H1 H2]. unfold evidence_inv, reviewed, get_artifact. by rewrite H1, H2.
Qed.

Lemma kept_framed {A} (m : M Session A) : framed evidence_view m → preserves kept m.
Proof.
  intros Hm s r s' H [H1 H2]. apply Hm in H as [Hv Hd].
  split; [by eapply evidence_inv_ext | by rewrite Hd].
Qed.

Lemma business_evidence {A} (m : M Session A) : framed business m → framed evidence_view m.
Proof.
  intros Hm s r s' H. apply Hm in H as [Hb Hd]. split; [|done].
  apply business_tables in Hb as (_ & _ & _ & Ha & _ & _ & Hc & _). unfold evidence_view. by rewrite Ha, Hc.
Qed.

Lemma kept_update f : (∀ d, evidence_inv d → evidence_inv (f d)) → preserves kept (update_db f).
Proof. intros Hf s r s' [= <- <-] [H1 H2]. split; [by apply Hf | done]. Qed.

Lemma kept_update_other f : (∀ d, evidence_view (f d) = evidence_view d) → preserves kept (update_db f).
Proof. intros Hf. apply kept_update. intros d. apply evidence_inv_ext, Hf. Qed.

Lemma kept_checkpoint : preserves kept checkpoint.
Proof. by intros s r s' [= <- <-] [H1 H2]. Qed.

Lemma preserves_try {S A} (P : S → Prop) (m : M S A) : preserves P m → preserves P (tryM m).
Proof.
  intros Hm s r s'. unfold tryM. destruct (m s) as [x s1] eqn:Hs. intros [= <- <-]. by eapply Hm.
Qed.

(** Walks a computation; [cell_kept] holds the operations already walked. *)
Create HintDb cell_kept.
Ltac keep :=
  repeat first
    [ progress intros
    | solve [auto with cell_kept nocore]
    | apply preserves_ret | apply preserves_raise | apply preserves_lift | apply preserves_gets
    | apply preserves_raise_if | apply kept_checkpoint
    | apply kept_update_other; intros; reflexivity
    | apply preserves_bind | apply preserves_when | apply preserves_for | apply preserves_catch
    | apply preserves_try
    | apply kept_framed; solve [eauto with cell]
    | apply kept_framed, business_evidence; solve [eauto with cell]
    | match goal with
      | |- preserves _ (match ?x with _ => _ end) => destruct x
      | |- preserves _ (let _ := _ in _) => cbv zeta
      | |- preserves _ (denied _ _) => apply preserves_raise
      | |- preserves _ (query _) => apply preserves_gets
      end ].

Section history.
Context {E : Env}.

Lemma kept_insert_artifact row d :
  artifact_id row ∉ artifact_id <$> t_artifacts d → evidence_inv d →
  evidence_inv (set_artifacts (t_artifacts d ++ [row]) d).
Proof.
  intros Hn [Hd Hr]. split; cbn.
  - rewrite fmap_app. apply NoDup_app. split; [done|]. split; [set_solver | apply NoDup_singleton].
  - intros a Ha. destruct (Hr a Ha) as (? & ? & ? & artifact & Hg & Hrest).
    split_and!; try done. exists artifact. split; [|done].
    unfold get_artifact in *. cbn. apply get_row_Some in Hg as [Hin Hid].
    apply get_row_elem; [|set_solver|done]. rewrite fmap_app. apply NoDup_app.
    split; [done|]. split; [set_solver | apply NoDup_singleton].
Qed.

Lemma kept_create_artifact a : preserves kept (create_artifact a).
Proof.
  unfold create_artifact. intros s r s' H [H1 H2].
  apply M_bind_inv in H as [(d & s1 & [= <- <-] & H)|(e & [=] & _)].
  apply M_bind_inv in H as [(u & s1 & Hg & H)|(e & Hg & ->)].
  - apply raise_if_Ok_M in Hg as [Hg ->]. repeat (apply orb_false_iff in Hg as [Hg _]).
    apply bool_decide_eq_false in Hg.
    apply M_bind_inv in H as [(u' & s1 & [= <- <-] & [= <- <-])|(e & [=] & _)].
    split; [|done]. by apply kept_insert_artifact.
  - by eapply preserves_raise_if; [exact Hg | split].
Qed.
#[local] Hint Resolve kept_create_artifact : cell_kept.

(** *** Executions *)
Lemma kept_start a p ac tr go wo tg i : preserves kept (start_agent_wakeup_run a p ac tr go wo tg i).
Proof. unfold start_agent_wakeup_run, append_agent_run_audit, create_agent_run. keep. Qed.
Lemma kept_run_evidence a : preserves kept (create_run_evidence_artifact a).
Proof. unfold create_run_evidence_artifact. keep. Qed.
Lemma kept_update_run i st a b c e : preserves kept (update_agent_run_status i st a b c e).
Proof. unfold update_agent_run_status. keep. Qed.
#[local] Hint Resolve kept_start kept_run_evidence kept_update_run : cell_kept.
Lemma kept_complete a i ev o ac tr go wo tg : preserves kept (complete_agent_wakeup_run a i ev o ac tr go wo tg).
Proof.
  unfold complete_agent_wakeup_run, _validate_run_transition_via_aggregate, audit_run_outcome,
    append_agent_run_audit, build_agent_wakeup_completion_event. keep.
Qed.
Lemma kept_fail a i ev ac tr go wo tg c m b : preserves kept (fail_agent_wakeup_run a i ev ac tr go wo tg c m b).
Proof.
  unfold fail_agent_wakeup_run, _validate_run_transition_via_aggregate, audit_run_outcome,
    append_agent_run_audit. keep.
Qed.
#[local] Hint Resolve kept_complete kept_fail : cell_kept.

Lemma kept_audit c re ac aci d : preserves kept (_audit c re ac aci d).
Proof. unfold _audit. keep. Qed.
Lemma kept_transition w st ac : preserves kept (_transition_work w st ac).
Proof. unfold _transition_work. keep. Qed.
#[local] Hint Resolve kept_audit kept_transition : cell_kept.
Lemma kept_abandoned l now : preserves kept (_mark_abandoned l now).
Proof. unfold _mark_abandoned, update_lease. keep. Qed.
#[local] Hint Resolve kept_abandoned : cell_kept.
Lemma kept_refuse {A} l now : preserves kept (refuse_held (A := A) l now).
Proof. unfold refuse_held. keep. Qed.
#[local] Hint Resolve kept_refuse : cell_kept.
Lemma kept_claim a : preserves kept (claim a).
Proof.
  unfold claim, _claim, check_heartbeat, check_work, check_approval, execution_approval,
    request_approval, check_budgets, check_policy, grant, insert_lease, insert_reservations. keep.
Qed.
Lemma kept_settle t c f g : preserves kept (settle t c f g).
Proof.
  unfold settle, settle_reservation, update_lease, record_budget_usage, execution_usage. keep.
Qed.
#[local] Hint Resolve kept_claim kept_settle : cell_kept.
Lemma kept_uncertain t : preserves kept (mark_uncertain t).
Proof. unfold mark_uncertain, update_lease. keep. Qed.
Lemma kept_control i c ac re actor : preserves kept (request_control i c ac re actor).
Proof. unfold request_control, update_lease. keep. Qed.
#[local] Hint Resolve kept_uncertain kept_control : cell_kept.
Lemma kept_recover i c re ac : preserves kept (recover i c re ac).
Proof. unfold recover, update_lease. keep. Qed.
#[local] Hint Resolve kept_recover : cell_kept.

(** *** Work items and reviews *)
Lemma kept_ensure_company c : preserves kept (_ensure_company c).
Proof. unfold _ensure_company. keep. Qed.
Lemma kept_require w : preserves kept (require_accepted w).
Proof. unfold require_accepted. keep. Qed.
#[local] Hint Resolve kept_ensure_company kept_require : cell_kept.
Lemma kept_create_work w by_ : preserves kept (create_work_item_with_audit w by_).
Proof. unfold create_work_item_with_audit, create_work_item. keep. Qed.
Lemma kept_change c i u : preserves kept (update_work_item_status_with_audit c i u).
Proof.
  unfold update_work_item_status_with_audit, _get_company_work_item, update_work_item_status. keep.
Qed.
#[local] Hint Resolve kept_create_work kept_change : cell_kept.

Lemma kept_insert_acceptance row d :
  evidence_inv d → reviewed d row → evidence_inv (set_acceptances (t_acceptances d ++ [row]) d).
Proof.
  intros [Hd Hr] Hrow. split; [done|]. cbn.
  intros a [Ha|Ha%list_elem_of_singleton]%elem_of_app; [by apply Hr | by subst a].
Qed.

Lemma reviewable_reviewed a d work run artifact id_ now :
  reviewable a d = Ok (work, run, artifact) → reviewed d (acceptance_of a run artifact id_ now).
Proof.
  intros (Hin & Hc & Hi & Har & Hrun & Hval & _)%reviewable_Ok.
  apply validate_outcome_Ok in Hval as (Hv & Hre & _ & Hac & _ & Haw & _ & Har' & _ & (h & Hh & Hne) & _).
  unfold reviewed. cbn. rewrite Hh. split_and!; [done..|]. exists artifact.
  rewrite Hac, Hc, Haw, Hi. by split_and!.
Qed.

Lemma kept_insert row s r s' :
  insert_acceptance row s = (r, s') → reviewed (db s) row → kept s → kept s'.
Proof.
  unfold insert_acceptance. intros H Hrow [H1 H2].
  apply M_bind_inv in H as [(d & s1 & [= <- <-] & H)|(e & [=] & _)].
  apply M_bind_inv in H as [(u & s1 & Hg & H)|(e & Hg & ->)].
  - apply raise_if_Ok_M in Hg as [_ ->]. injection H as <- <-. split; [|done]. by apply kept_insert_acceptance.
  - by eapply preserves_raise_if; [exact Hg | split].
Qed.

Lemma kept_review a : preserves kept (review a).
Proof.
  unfold review. intros s r s' H Hk.
  apply M_bind_inv in H as [(d & s1 & [= <- <-] & H)|(e & [=] & _)].
  apply M_bind_inv in H as [([[work run] artifact] & s1 & [= Hck <-] & H)|(e & [= _ <-] & _)]; [|done].
  cbv beta iota in H. unfold id in Hck.
  apply M_bind_inv in H as [(hex & s1 & [= _ <-] & H)|(e & [=] & _)].
  apply M_bind_inv in H as [(now & s1 & [= _ <-] & H)|(e & [=] & _)].
  apply M_bind_inv in H as [(u & s1 & Hi & H)|(e & Hi & ->)].
  - apply kept_insert in Hi; [|by eapply reviewable_reviewed|done].
    match type of H with ?m _ = _ => assert (preserves kept m) as Hp by keep end. by eapply Hp.
  - eapply kept_insert; [exact Hi | by eapply reviewable_reviewed | done].
Qed.
#[local] Hint Resolve kept_review : cell_kept.

(** *** Histories *)

(** What the adapters of the runner are trusted with: they answer, and leave the
    reviews and artifacts alone. *)
Definition adapters_apart (X : adapters) : Prop :=
  (∀ url t h b, framed evidence_view (http_post X url t h b))
  ∧ ∀ c q t, framed evidence_view (execute_process X c q t).

Lemma kept_wake X g a : adapters_apart X → preserves kept (wake X g a).
Proof.
  intros [Hp Hx]. unfold wake, wake_with, claim_for_wakeup, replay_result, run_dispatch, attempt,
    settle_output, fail_wakeup, _execute_adapter, _execute_http. keep;
    apply kept_framed; first [apply Hp | apply Hx].
Qed.

Inductive operation :=
  | Wake (governed : bool) (a : wake_args)
  | RunWork (a : run_work_args)
  | Recover (id_ company reason actor : string)
  | Control (id_ company action reason actor : string)
  | CreateArtifact (artifact : ArtifactRecord)
  | CreateWork (work : WorkItemRecord) (created_by : string)
  | ChangeWork (company id_ : string) (u : status_change)
  | Reassign (company id_ : string) (owner_agent owner_user : option string) (actor : string)
      (reason : option string)
  | Block (company id_ actor reason : string)
  | Close (company id_ : string) (st : WorkItemStatus) (actor : string) (reason : option string)
  | Review (a : review_args).

Definition run_operation (X : adapters) (o : operation) : M Session unit :=
  match o with
  | Wake g a => _ ← wake X g a; mret ()
  | RunWork a => _ ← run_work_item_with_agent X a; mret ()
  | Recover i c re ac => _ ← recover i c re ac; mret ()
  | Control i c a re ac => _ ← request_control i c a re ac; mret ()
  | CreateArtifact a => _ ← create_artifact a; mret ()
  | CreateWork w by_ => _ ← create_work_item_with_audit w by_; mret ()
  | ChangeWork c i u => _ ← update_work_item_status_with_audit c i u; mret ()
  | Reassign c i oa ou ac re => _ ← reassign_work_item c i oa ou ac re; mret ()
  | Block c i ac re => _ ← block_work_item c i ac re; mret ()
  | Close c i st ac re => _ ← close_work_item c i st ac re; mret ()
  | Review a => _ ← review a; mret ()
  end.

Lemma kept_operation X o : adapters_apart X → preserves kept (run_operation X o).
Proof.
  intros HX. pose proof (λ g a, kept_wake X g a HX) as Hw.
  destruct o; cbn [run_operation];
    unfold reassign_work_item, block_work_item, close_work_item, run_work_item_with_agent,
      wake_agent_definition, on_wakeup_error, _get_company_work_item; keep; apply Hw.
Qed.

(** Each operation in a session of its own: committed, or rolled back when it raises. *)
Fixpoint run_history (X : adapters) (ops : list operation) (s : Session) : Session :=
  match ops with
  | [] => s
  | o :: ops' => run_history X ops' (in_session (run_operation X o) s).2
  end.

Lemma kept_history X ops s : adapters_apart X → kept s → kept (run_history X ops s).
Proof.
  intros HX. revert s. induction ops as [|o ops IH]; [done|]. intros s Hs. cbn. apply IH.
  unfold in_session. destruct (run_operation X o s) as [[a|e] s1] eqn:Ho; cbn;
    pose proof (kept_operation X o HX _ _ _ Ho Hs) as [H1 H2]; by split.
Qed.


Lemma update_completed_inv id_ oa ou s w s' :
  update_work_item_status id_ "completed" oa ou s = (Ok (Some w), s') →
  ∃ row, get_work_item id_ (db s) = Some row ∧ wi_company_id w = wi_company_id row
    ∧ wi_work_item_id w = id_ ∧ active_lease (wi_company_id row) ("work:" +:+ id_) (db s) = None
    ∧ accepted_in row (db s) = Ok ().
Proof.
  unfold update_work_item_status, require_accepted. intros H. minv.
  destruct (get_work_item id_ (db s)) as [row|] eqn:Hrow; [|done]. minv.
  match goal with H : whenM _ _ _ = _ |- _ =>
    rewrite bool_decide_eq_true_2 in H by done; unfold whenM in H end. minv. mframes.
  match goal with H : bool_decide _ = false |- _ => apply bool_decide_eq_false in H end. exists row. cbn in *. unfold id in *.
  apply get_row_Some in Hrow as Hk. split_and!; try done; [by apply Hk|by apply eq_None_not_Some|].
  by repeat match goal with u : () |- _ => destruct u end.
Qed.

Lemma accepted_in_Ok row d :
  accepted_in row d = Ok () →
  ∃ acc artifact run, acc ∈ t_acceptances d ∧ oa_verdict acc = "accepted"
    ∧ oa_company_id acc = wi_company_id row ∧ oa_work_item_id acc = wi_work_item_id row
    ∧ get_artifact (oa_artifact_id acc) d = Some artifact
    ∧ artifact_content_hash artifact = Some (oa_artifact_hash acc)
    ∧ get_agent_run (oa_run_id acc) d = Some run
    ∧ run_id <$> latest_run_of_work (wi_company_id row) (wi_work_item_id row) d = Some (run_id run)
    ∧ evidence_intact artifact run.
Proof.
  unfold accepted_in. intros H. inv_bind. destruct a as [acc|]; [|done].
  destruct (get_artifact (oa_artifact_id acc) d) as [artifact|] eqn:Har; [|done]. inv_bind.
  destruct (get_agent_run (oa_run_id acc) d) as [run|] eqn:Hrun; [|done]. inv_bind.
  repeat match goal with H : _ || _ = false |- _ => apply orb_false_iff in H as [? H] end.
  repeat match goal with
  | H : bool_decide _ = false |- _ => apply bool_decide_eq_false in H
  | H : ¬ (_ ≠ _) |- _ => apply dec_stable in H
  end.
  assert (acc ∈ t_acceptances d) as Hin.
  { unfold named_acceptance in Hm. destruct (default _ _); simplify_eq/=; by apply get_row_Some in Hm as [? _]. }
  exists acc, artifact, run. apply get_row_Some in Hrun as Hid. destruct Hid as [_ Hid].
  rewrite Hid. split_and!; try done. unfold evidence_intact, evidence_hashed in *. split; [|done].
  destruct (dget (artifact_metadata artifact) "evidence"); try (by left); right;
    match goal with H : negb _ = false |- _ => apply negb_false_iff, bool_decide_eq_true in H; done end.
Qed.

(** C12: whatever was done before, a work item can be completed only with an
    accepted review in force: after any history of wakeups, work-item runs,
    recoveries, operator controls, artifact and work-item commands and reviews,
    each committed or rolled back, completing an item succeeds only if no
    execution holds it and there is a review of that very item and company, with
    a reason and the verdict "accepted", of an artifact that the company still
    has with the hash that was reviewed, produced by the latest run of the item,
    and whose evidence still matches its hash and the stored payloads of the
    run. *)
Theorem completed_work_was_reviewed X ops s0 id_ oa ou w s' :
  adapters_apart X → t_acceptances (db s0) = [] → NoDup (artifact_id <$> t_artifacts (db s0)) →
  durable s0 = db s0 →
  update_work_item_status id_ "completed" oa ou (run_history X ops s0) = (Ok (Some w), s') →
  let d := db (run_history X ops s0) in
  active_lease (wi_company_id w) ("work:" +:+ id_) d = None
  ∧ ∃ acc artifact run, acc ∈ t_acceptances d ∧ oa_verdict acc = "accepted" ∧ oa_reason acc ≠ ""
      ∧ oa_company_id acc = wi_company_id w ∧ oa_work_item_id acc = wi_work_item_id w
      ∧ get_artifact (oa_artifact_id acc) d = Some artifact
      ∧ artifact_company_id artifact = wi_company_id w
      ∧ artifact_work_item_id artifact = Some (wi_work_item_id w)
      ∧ artifact_run_id artifact = Some (run_id run)
      ∧ artifact_content_hash artifact = Some (oa_artifact_hash acc) ∧ oa_artifact_hash acc ≠ ""
      ∧ get_agent_run (oa_run_id acc) d = Some run
      ∧ run_id <$> latest_run_of_work (wi_company_id w) (wi_work_item_id w) d = Some (run_id run)
      ∧ evidence_intact artifact run.
Proof.
  intros HX Hacc Hart Hdur Hup. cbv zeta.
  assert (evidence_inv (db s0)) as Hs0.
  { split; [done|]. rewrite Hacc. intros a Ha. by apply not_elem_of_nil in Ha. }
  assert (kept s0) as Hk by (split; [done | by rewrite Hdur]).
  apply (kept_history X ops) in Hk as [[_ Hrev] _]; [|done].
  apply update_completed_inv in Hup as (row & Hget & Hc & Hid & Hl & Hok).
  apply get_row_Some in Hget as [_ Hrid].
  apply accepted_in_Ok in Hok as (acc & artifact & run & Hin & Hv & Hac & Haw & Har & Hh & Hrun & Hlat & Hev).
  destruct (Hrev acc Hin) as (_ & Hre & Hne & artifact' & Har' & Hb1 & Hb2 & Hb3 & _).
  rewrite Har in Har'. injection Har' as <-. apply get_row_Some in Hrun as Hri. destruct Hri as [_ Hri].
  rewrite Hc, Hid. rewrite Hrid in *. split; [done|]. exists acc, artifact, run.
  split_and!; try done; congruence.
Qed.
End history.
