(* ===== verification/Goals.v ===== *)
(** * Goals and decisions: stores and use cases

    [goal_store.py], [goal_use_cases.py], [decision_store.py] and
    [decision_use_cases.py]: creation with the links each record names, and
    status changes through the aggregates, with their audits. *)

From S2P Require Import Prelude PyNum PyTime PyValue Models Metadata Goal Decision DomainEvents.
From S2P Require Import ExecutionPolicy Store Frames BudgetGuard ExecutionLedger WorkItems.

Definition p_float (o : option float) : pyval := match o with Some f => PFloat f | None => PNone end.

(** [model_values] *)
Definition goal_values (r : GoalRecord) : GoalRecord := {|
  goal_id := goal_id r; goal_company_id := goal_company_id r; goal_title := goal_title r;
  goal_description := goal_description r; goal_record_status := to_db_enum <$> goal_record_status r;
  goal_parent_goal_id := goal_parent_goal_id r; goal_owner_agent_id := goal_owner_agent_id r;
  goal_owner_user_id := goal_owner_user_id r; goal_success_metric := goal_success_metric r;
  goal_target_value := goal_target_value r; goal_current_value := goal_current_value r;
  goal_due_at := goal_due_at r; goal_tags := goal_tags r;
  goal_metadata := to_db_dict (goal_metadata r); goal_created_at := goal_created_at r;
  goal_updated_at := goal_updated_at r |}.

Definition decision_values (r : DecisionRecord) : DecisionRecord := {|
  decision_id := decision_id r; decision_company_id := decision_company_id r;
  decision_title := decision_title r; decision_rationale := decision_rationale r;
  decision_record_status := to_db_enum <$> decision_record_status r;
  decision_run_id := decision_run_id r; decision_work_item_id := decision_work_item_id r;
  decision_goal_id := decision_goal_id r; decision_options := to_db_dict <$> decision_options r;
  decision_selected_option := decision_selected_option r;
  decision_decided_by := decision_decided_by r;
  decision_metadata := to_db_dict (decision_metadata r);
  decision_created_at := decision_created_at r; decision_updated_at := decision_updated_at r |}.

(** The columns a status change assigns: a [None] leaves a column. *)
Definition goal_status_row (st : string) (current : option float) (now : instant) (r : GoalRecord)
    : GoalRecord := {|
  goal_id := goal_id r; goal_company_id := goal_company_id r; goal_title := goal_title r;
  goal_description := goal_description r; goal_record_status := Some (Str st);
  goal_parent_goal_id := goal_parent_goal_id r; goal_owner_agent_id := goal_owner_agent_id r;
  goal_owner_user_id := goal_owner_user_id r; goal_success_metric := goal_success_metric r;
  goal_target_value := goal_target_value r;
  goal_current_value := match current with Some x => Some x | None => goal_current_value r end;
  goal_due_at := goal_due_at r; goal_tags := goal_tags r; goal_metadata := goal_metadata r;
  goal_created_at := goal_created_at r; goal_updated_at := of_utc now |}.

Definition decision_status_row (st : string) (selected decided_by : option string) (now : instant)
    (r : DecisionRecord) : DecisionRecord := {|
  decision_id := decision_id r; decision_company_id := decision_company_id r;
  decision_title := decision_title r; decision_rationale := decision_rationale r;
  decision_record_status := Some (Str st); decision_run_id := decision_run_id r;
  decision_work_item_id := decision_work_item_id r; decision_goal_id := decision_goal_id r;
  decision_options := decision_options r;
  decision_selected_option := match selected with Some x => Some x | None => decision_selected_option r end;
  decision_decided_by := match decided_by with Some x => Some x | None => decision_decided_by r end;
  decision_metadata := decision_metadata r; decision_created_at := decision_created_at r;
  decision_updated_at := of_utc now |}.

(** [decision.model_copy(update={"goal_id": ..., "work_item_id": ...})] *)
Definition with_links (goal work : option string) (r : DecisionRecord) : DecisionRecord := {|
  decision_id := decision_id r; decision_company_id := decision_company_id r;
  decision_title := decision_title r; decision_rationale := decision_rationale r;
  decision_record_status := decision_record_status r; decision_run_id := decision_run_id r;
  decision_work_item_id := work; decision_goal_id := goal; decision_options := decision_options r;
  decision_selected_option := decision_selected_option r;
  decision_decided_by := decision_decided_by r; decision_metadata := decision_metadata r;
  decision_created_at := decision_created_at r; decision_updated_at := decision_updated_at r |}.

Definition get_decision (id_ : string) (d : DB) : option DecisionRecord :=
  get_row decision_id id_ (t_decisions d).

Section goals.
Context {E : Env}.

(** ** Goals *)
Definition create_goal (goal : GoalRecord) : M Session GoalRecord :=
  let row := goal_values goal in
  d ← query id;
  _ ← raise_ifM (bool_decide (goal_id row ∈ goal_id <$> t_goals d)
                 || negb (company_fk d (goal_company_id row))
                 || negb (fk_ok (goal_id row :: (goal_id <$> t_goals d)) (goal_parent_goal_id row)))
        (integrity_error "control_plane_goals");
  _ ← update_db (λ d, set_goals (t_goals d ++ [row]) d);
  mret row.

Definition update_goal_status (id_ st : string) (current : option float)
    : M Session (option GoalRecord) :=
  row_ ← query (get_goal id_);
  match row_ with
  | None => mret None
  | Some row =>
      now ← now_utc;
      let f := goal_status_row st current now in
      _ ← update_db (λ d, set_goals (update_row goal_id id_ f (t_goals d)) d);
      mret (Some (f row))
  end.

Definition create_goal_with_audit (goal : GoalRecord) (created_by : string) : M Session GoalRecord :=
  let company_id := goal_company_id goal in
  _ ← _ensure_company company_id;
  _ ← whenM (truthy (goal_parent_goal_id goal))
        (found ← query (goal_in_company company_id (str_or_empty (goal_parent_goal_id goal)));
         raise_ifM (negb found) (Exn "ParentGoalNotFoundError" (str_or_empty (goal_parent_goal_id goal))));
  created ← create_goal goal;
  ev ← new_audit company_id "goal.created" "goal" (goal_id created) "user" created_by None None None
         [("goal_id", PStr (goal_id created)); ("status", p_status (goal_record_status created));
          ("parent_goal_id", p_opt (goal_parent_goal_id created));
          ("owner_agent_id", p_opt (goal_owner_agent_id created));
          ("owner_user_id", p_opt (goal_owner_user_id created))];
  _ ← append_audit_event ev;
  mret created.

Definition _get_company_goal (company_id id_ : string) : M Session GoalRecord :=
  row_ ← query (get_goal id_);
  match row_ with
  | Some row => if decide (goal_company_id row = company_id) then mret row
                else raiseM (Exn "GoalNotFoundError" id_)
  | None => raiseM (Exn "GoalNotFoundError" id_)
  end.

Definition update_goal_status_with_audit (company_id id_ : string)
    (target : enum_or_str GoalStatus) (current_value : option float) (actor_id : string)
    : M Session GoalRecord :=
  existing ← _get_company_goal company_id id_;
  aggregate ← liftM (Goal.transition_to (Goal.from_record existing) (Some target));
  let domain_events := (Goal.pull_events aggregate).1 in
  st ← liftM (Goal.status aggregate);
  progress ← liftM (Goal.current_value_for_update aggregate current_value);
  updated_ ← update_goal_status id_ (value st) progress;
  match updated_ with
  | None => raiseM (Exn "GoalNotFoundError" id_)
  | Some updated =>
      let detail := [("status", p_status (goal_record_status updated));
                     ("current_value", p_float (goal_current_value updated))] in
      match domain_events with
      | _ :: _ =>
          _ ← append_control_plane_domain_event_audits (EvGoal <$> domain_events)
                {| ctx_actor_type := "user"; ctx_actor_id := actor_id; ctx_trace_id := None;
                   ctx_run_id := None; ctx_work_item_id := None; ctx_detail := detail |};
          mret updated
      | [] =>
          ev ← new_audit company_id "goal.updated" "goal" (goal_id updated) "user" actor_id
                 None None None detail;
          _ ← append_audit_event ev;
          mret updated
      end
  end.

(** ** Decisions *)
Definition create_decision (decision : DecisionRecord) : M Session DecisionRecord :=
  let row := decision_values decision in
  d ← query id;
  _ ← raise_ifM (bool_decide (decision_id row ∈ decision_id <$> t_decisions d)
                 || negb (company_fk d (decision_company_id row)) || negb (run_fk d (decision_run_id row))
                 || negb (work_fk d (decision_work_item_id row))
                 || negb (goal_fk d (decision_goal_id row)))
        (integrity_error "control_plane_decisions");
  _ ← update_db (λ d, set_decisions (t_decisions d ++ [row]) d);
  mret row.

Definition update_decision_status (id_ st : string) (selected decided_by : option string)
    : M Session (option DecisionRecord) :=
  row_ ← query (get_decision id_);
  match row_ with
  | None => mret None
  | Some row =>
      now ← now_utc;
      let f := decision_status_row st selected decided_by now in
      _ ← update_db (λ d, set_decisions (update_row decision_id id_ f (t_decisions d)) d);
      mret (Some (f row))
  end.

Definition run_in_company (company_id id_ : string) (d : DB) : option AgentRunRecord :=
  match get_agent_run id_ d with
  | Some r => if decide (run_company_id r = company_id) then Some r else None
  | None => None
  end.

(** [ExecutionLinkMismatchError] becomes [DecisionLinkMismatchError]. *)
Definition resolved (m : result ExecutionLinks) : result ExecutionLinks :=
  match m with
  | Raise (Exn cls target) =>
      if decide (cls = "ExecutionLinkMismatchError") then Raise (Exn "DecisionLinkMismatchError" target)
      else m
  | _ => m
  end.

(** The run, the work item and the goal a decision names, read from the company. *)
Definition _validate_execution_links (company_id : string) (run work goal : option string) (d : DB)
    : result (option string * option string) :=
  let links := requested_links run work goal in
  links ← (if truthy run then
             match run_in_company company_id (str_or_empty run) d with
             | None => Raise (Exn "DecisionRunNotFoundError" (str_or_empty run))
             | Some r => resolved (resolve_agent_run links r)
             end
           else Ok links);
  links ← (if truthy (el_work_item_id links) then
             let id_ := str_or_empty (el_work_item_id links) in
             match get_work_item id_ d with
             | Some w => if decide (wi_company_id w = company_id) then resolved (resolve_work_item links w)
                         else Raise (Exn "DecisionWorkItemNotFoundError" id_)
             | None => Raise (Exn "DecisionWorkItemNotFoundError" id_)
             end
           else Ok links);
  _ ← raise_if (truthy (el_goal_id links)
                && negb (goal_in_company company_id (str_or_empty (el_goal_id links)) d))
        (Exn "DecisionGoalNotFoundError" (str_or_empty (el_goal_id links)));
  Ok (persistence_refs links).

Definition create_decision_with_audit (decision : DecisionRecord) (created_by : string)
    : M Session DecisionRecord :=
  let company_id := decision_company_id decision in
  _ ← _ensure_company company_id;
  d ← query id;
  refs ← liftM (_validate_execution_links company_id (decision_run_id decision)
                  (decision_work_item_id decision) (decision_goal_id decision) d);
  created ← create_decision (with_links refs.1 refs.2 decision);
  ev ← new_audit company_id "decision.created" "decision" (decision_id created) "user" created_by
         None (decision_run_id created) (decision_work_item_id created)
         [("decision_id", PStr (decision_id created));
          ("status", p_status (decision_record_status created));
          ("goal_id", p_opt (decision_goal_id created));
          ("work_item_id", p_opt (decision_work_item_id created));
          ("run_id", p_opt (decision_run_id created))];
  _ ← append_audit_event ev;
  mret created.

Definition _get_company_decision (company_id id_ : string) : M Session DecisionRecord :=
  row_ ← query (get_decision id_);
  match row_ with
  | Some row => if decide (decision_company_id row = company_id) then mret row
                else raiseM (Exn "DecisionNotFoundError" id_)
  | None => raiseM (Exn "DecisionNotFoundError" id_)
  end.

Definition update_decision_status_with_audit (company_id id_ : string)
    (target : enum_or_str DecisionStatus) (selected decided_by : option string) (actor_id : string)
    : M Session DecisionRecord :=
  existing ← _get_company_decision company_id id_;
  aggregate ← liftM (Decision.transition_to (Decision.from_record existing) (Some target));
  let domain_events := (Decision.pull_events aggregate).1 in
  st ← liftM (Decision.status aggregate);
  updated_ ← update_decision_status id_ (value st) selected decided_by;
  match updated_ with
  | None => raiseM (Exn "DecisionNotFoundError" id_)
  | Some updated =>
      let detail := [("status", p_status (decision_record_status updated));
                     ("selected_option", p_opt (decision_selected_option updated));
                     ("decided_by", p_opt (decision_decided_by updated));
                     ("goal_id", p_opt (decision_goal_id updated))] in
      match domain_events with
      | _ :: _ =>
          _ ← append_control_plane_domain_event_audits (EvDecision <$> domain_events)
                {| ctx_actor_type := "user"; ctx_actor_id := actor_id; ctx_trace_id := None;
                   ctx_run_id := decision_run_id updated;
                   ctx_work_item_id := decision_work_item_id updated; ctx_detail := detail |};
          mret updated
      | [] =>
          ev ← new_audit company_id "decision.updated" "decision" (decision_id updated) "user" actor_id
                 None (decision_run_id updated) (decision_work_item_id updated) detail;
          _ ← append_audit_event ev;
          mret updated
      end
  end.
End goals.
