(* ===== verification/Event.v ===== *)
(** * Integration events ([shared/schemas/event.py])

    The immutable envelope the services exchange, with the validators of its
    fields.  A payload is frozen on construction: tuples become lists, dictionary
    keys strings; anything that is not finite JSON is refused. *)

From S2P Require Import Prelude PyNum PyTime PyValue Store.

Record EventMetadata := {
  em_trace_id : option string;
  em_retry_count : Z;
  em_correlation_id : option string;
}.

Record Event := {
  ev_event_id : string;
  ev_event_type : string;
  ev_timestamp : datetime;
  ev_source : string;
  ev_payload : pydict;
  ev_schema_version : string;
  ev_metadata : EventMetadata;
}.

(** [_AGENT_ID_PATTERN.fullmatch] *)
Fixpoint agent_id_tail (s : string) : bool :=
  match s with
  | EmptyString => true
  | String c s' => event_name_char c && agent_id_tail s'
  end.
Definition agent_id_ok (s : string) : bool :=
  match s with
  | EmptyString => false
  | String c s' => event_name_head c && agent_id_tail s'
  end.

Definition validate_agent_id (agent_id field_name : string) : result string :=
  if agent_id_ok agent_id then Ok agent_id
  else Raise (Exn "ValueError" (field_name +:+ " must be a stable runtime agent ID")).

(** What [_freeze_json_value] returns for a value it accepts. *)
Fixpoint frozen (v : pyval) : pyval :=
  match v with
  | PList l | PTuple l => PList (map frozen l)
  | PDict d => PDict (map (λ kv, (kv.1, frozen kv.2)) d)
  | _ => v
  end.
Definition frozen_dict (d : pydict) : pydict := map (λ kv, (kv.1, frozen kv.2)) d.

(** Pydantic collects the failures of the field validators into one error. *)
Definition event_valid (e : Event) : bool :=
  negb (str_empty (strip (ev_event_id e))) && event_type_ok (ev_event_type e)
  && agent_id_ok (ev_source e) && event_json_ok (PDict (ev_payload e))
  && negb (str_empty (strip (ev_schema_version e))) && (0 <=? em_retry_count (ev_metadata e)).

Definition mk_event (e : Event) : result Event :=
  if event_valid e then
    Ok {| ev_event_id := ev_event_id e; ev_event_type := ev_event_type e;
          ev_timestamp := ev_timestamp e; ev_source := ev_source e;
          ev_payload := frozen_dict (ev_payload e); ev_schema_version := ev_schema_version e;
          ev_metadata := ev_metadata e |}
  else Raise (validation_error "Event").

(** [Event.create], with the identifier and the time its defaults produce. *)
Definition event_create (event_id : string) (now : datetime) (event_type source : string)
    (payload : pydict) (trace_id : option string) : result Event :=
  mk_event {| ev_event_id := event_id; ev_event_type := event_type; ev_timestamp := now;
              ev_source := source; ev_payload := payload; ev_schema_version := "1.0";
              ev_metadata := {| em_trace_id := trace_id; em_retry_count := 0;
                                em_correlation_id := None |} |}.

(** [model_dump(mode="json")] of a payload value: members become their values. *)
Fixpoint to_json (v : pyval) : pyval :=
  match v with
  | PEnum s => PStr s
  | PList l => PList (map to_json l)
  | PDict d => PDict (map (λ kv, (kv.1, to_json kv.2)) d)
  | _ => v
  end.
Definition json_dict (d : pydict) : pydict := map (λ kv, (kv.1, to_json kv.2)) d.

Lemma frozen_json_ok v : event_json_ok v = true → event_json_ok (to_json (frozen v)) = true.
Proof.
  induction v as [| | | | |l IH|l IH|l IH|d IH| | |] using pyval_ind'; cbn; try done.
  1,2: rewrite !forallb_forall; intros H x Hx; rewrite in_map_iff in Hx;
       destruct Hx as (y & <- & Hy); rewrite in_map_iff in Hy; destruct Hy as (z & <- & Hz);
       rewrite List.Forall_forall in IH; by apply IH, H.
  rewrite !forallb_forall. intros H x Hx. rewrite in_map_iff in Hx.
  destruct Hx as (y & <- & Hy). rewrite in_map_iff in Hy. destruct Hy as (z & <- & Hz).
  rewrite List.Forall_forall in IH. cbn. by apply IH, H.
Qed.

(** Freezing and the JSON form are stable. *)
Lemma frozen_to_json v : frozen (to_json (frozen v)) = to_json (frozen v).
Proof.
  induction v as [| | | | |l IH|l IH|l IH|d IH| | |] using pyval_ind'; cbn; try done.
  1,2: f_equal; rewrite !map_map; apply map_ext_in; intros x Hx;
       rewrite List.Forall_forall in IH; by apply IH.
  f_equal. rewrite !map_map. apply map_ext_in. intros [k x] Hx. cbn. f_equal.
  rewrite List.Forall_forall in IH. by apply (IH (k, x)).
Qed.

Lemma mk_event_Ok e e' :
  mk_event e = Ok e' ↔
  event_valid e = true ∧
  e' = {| ev_event_id := ev_event_id e; ev_event_type := ev_event_type e;
          ev_timestamp := ev_timestamp e; ev_source := ev_source e;
          ev_payload := frozen_dict (ev_payload e); ev_schema_version := ev_schema_version e;
          ev_metadata := ev_metadata e |}.
Proof. unfold mk_event. destruct (event_valid e); naive_solver. Qed.
