(* ===== verification/Proposals.v ===== *)
(** * Evolution proposals: store and use cases

    [evolution_proposal_store.py] and [evolution_proposal_use_cases.py]: a
    proposal to change an agent's behaviour, the approval it asks for, the
    rollout states it goes through and the effect of a resolved approval. *)

From S2P Require Import Prelude PyNum PyTime PyValue Models Metadata EvolutionProposal DomainEvents.
From S2P Require Import GovernancePolicies Store Frames BudgetGuard ApprovalGate Event WorkItems.

Definition get_evolution_proposal (id_ : string) (d : DB) : option EvolutionProposalRecord :=
  get_row proposal_id id_ (t_proposals d).

Definition proposal_values (r : EvolutionProposalRecord) : EvolutionProposalRecord := {|
  proposal_id := proposal_id r; proposal_company_id := proposal_company_id r;
  proposal_tier := to_db_enum (proposal_tier r); proposal_scope := proposal_scope r;
  proposal_evidence := to_db_dict (proposal_evidence r);
  proposal_expected_benefit := proposal_expected_benefit r; proposal_risk := proposal_risk r;
  proposal_approval_state := to_db_enum <$> proposal_approval_state r;
  proposal_record_rollout_state := to_db_enum <$> proposal_record_rollout_state r;
  proposal_approval_id := proposal_approval_id r;
  proposal_metadata := to_db_dict (proposal_metadata r);
  proposal_created_at := proposal_created_at r; proposal_updated_at := proposal_updated_at r |}.

(** [proposal.model_copy(update={"approval_state": ..., "approval_id": ...})] *)
Definition with_approval (state : option (enum_or_str ApprovalStatus)) (approval_id_ : option string)
    (r : EvolutionProposalRecord) : EvolutionProposalRecord := {|
  proposal_id := proposal_id r; proposal_company_id := proposal_company_id r;
  proposal_tier := proposal_tier r; proposal_scope := proposal_scope r;
  proposal_evidence := proposal_evidence r;
  proposal_expected_benefit := proposal_expected_benefit r; proposal_risk := proposal_risk r;
  proposal_approval_state := state; proposal_record_rollout_state := proposal_record_rollout_state r;
  proposal_approval_id := approval_id_; proposal_metadata := proposal_metadata r;
  proposal_created_at := proposal_created_at r; proposal_updated_at := proposal_updated_at r |}.

(** The columns an update assigns: a [None] leaves a column. *)
Definition proposal_status_row (approval_state rollout_state approval_id_ : option string)
    (now : instant) (r : EvolutionProposalRecord) : EvolutionProposalRecord := {|
  proposal_id := proposal_id r; proposal_company_id := proposal_company_id r;
  proposal_tier := proposal_tier r; proposal_scope := proposal_scope r;
  proposal_evidence := proposal_evidence r;
  proposal_expected_benefit := proposal_expected_benefit r; proposal_risk := proposal_risk r;
  proposal_approval_state :=
    match approval_state with Some x => Some (Str x) | None => proposal_approval_state r end;
  proposal_record_rollout_state :=
    match rollout_state with Some x => Some (Str x) | None => proposal_record_rollout_state r end;
  proposal_approval_id := match approval_id_ with Some x => Some x | None => proposal_approval_id r end;
  proposal_metadata := proposal_metadata r; proposal_created_at := proposal_created_at r;
  proposal_updated_at := of_utc now |}.

Definition proposal_detail (r : EvolutionProposalRecord) : pydict :=
  [("proposal_id", PStr (proposal_id r)); ("tier", PStr (str_of (proposal_tier r)));
   ("scope", PStr (proposal_scope r)); ("approval_state", p_status (proposal_approval_state r));
   ("rollout_state", p_status (proposal_record_rollout_state r));
   ("approval_id", p_opt (proposal_approval_id r))].

Section proposals.
Context {E : Env}.

(** ** Store *)
Definition create_evolution_proposal (proposal : EvolutionProposalRecord)
    : M Session EvolutionProposalRecord :=
  let row := proposal_values proposal in
  d ← query id;
  _ ← raise_ifM (bool_decide (proposal_id row ∈ proposal_id <$> t_proposals d)
                 || negb (company_fk d (proposal_company_id row))
                 || negb (fk_ok (approval_id <$> t_approvals d) (proposal_approval_id row)))
        (integrity_error "control_plane_evolution_proposals");
  _ ← update_db (λ d, set_proposals (t_proposals d ++ [row]) d);
  mret row.

Definition update_evolution_proposal_status (id_ : string)
    (approval_state rollout_state approval_id_ : option string)
    : M Session (option EvolutionProposalRecord) :=
  row_ ← query (get_evolution_proposal id_);
  match row_ with
  | None => mret None
  | Some row =>
      now ← now_utc;
      let f := proposal_status_row approval_state rollout_state approval_id_ now in
      d ← query id;
      _ ← raise_ifM (negb (fk_ok (approval_id <$> t_approvals d) (proposal_approval_id (f row))))
            (integrity_error "control_plane_evolution_proposals");
      _ ← update_db (λ d, set_proposals (update_row proposal_id id_ f (t_proposals d)) d);
      mret (Some (f row))
  end.

(** [scalar_one_or_none] raises when two proposals share the approval. *)
Definition update_evolution_proposal_approval_state_by_approval (approval_id_ approval_state : string)
    (rollout_state : option string) : M Session (option EvolutionProposalRecord) :=
  rows ← query (λ d, filter (λ r, proposal_approval_id r = Some approval_id_) (t_proposals d));
  match rows with
  | [] => mret None
  | [row] =>
      now ← now_utc;
      let f := proposal_status_row (Some approval_state) rollout_state None now in
      _ ← update_db (λ d, set_proposals (update_row proposal_id (proposal_id row) f (t_proposals d)) d);
      mret (Some (f row))
  | _ => raiseM (Exn "MultipleResultsFound" "evolution_proposal")
  end.

(** ** Use cases *)
Definition approval_in_company (company_id id_ : string) (d : DB) : option ApprovalRequestRecord :=
  match get_approval id_ d with
  | Some a => if decide (approval_company_id a = company_id) then Some a else None
  | None => None
  end.

Definition proposal_approval_request (proposal : EvolutionProposalRecord) (proposed_by : string)
    : approval_request_args := {|
  aq_company_id := proposal_company_id proposal; aq_category := ApprovalCategory_TECHNICAL;
  aq_requested_by := "agent:" +:+ proposed_by; aq_source_agent_id := proposed_by;
  aq_proposed_action := "Review " +:+ str_of (proposal_tier proposal)
                        +:+ " evolution proposal for " +:+ proposal_scope proposal;
  aq_reason := proposal_expected_benefit proposal; aq_risk := proposal_risk proposal;
  aq_rollback_note := "Do not promote the proposal; keep current runtime behavior.";
  aq_affected_resources := [proposal_scope proposal]; aq_artifact_links := []; aq_run_id := None;
  aq_work_item_id := None; aq_goal_id := None; aq_trace_id := None |}.

(** The approval a new proposal is linked to, and its state. *)
Definition linked_approval (proposal : EvolutionProposalRecord) (approval_required : bool)
    (proposed_by : string) : M Session (option string * option (enum_or_str ApprovalStatus)) :=
  if truthy (proposal_approval_id proposal) then
    let id_ := str_or_empty (proposal_approval_id proposal) in
    approval_ ← query (approval_in_company (proposal_company_id proposal) id_);
    match approval_ with
    | None => raiseM (Exn "EvolutionProposalApprovalNotFoundError" id_)
    | Some approval => mret (proposal_approval_id proposal, approval_record_status approval)
    end
  else if approval_required then
    approval ← gate_request_approval (proposal_approval_request proposal proposed_by);
    mret (Some (approval_id approval), approval_record_status approval)
  else mret (proposal_approval_id proposal, Some (Str (value ApprovalStatus_PENDING))).

Definition audit_proposal_created (created : EvolutionProposalRecord) (company_id actor_id : string)
    (trace_id : option string) : M Session unit :=
  ev ← new_audit company_id "evolution_proposal.created" "evolution_proposal" (proposal_id created)
         "agent" actor_id trace_id None None (proposal_detail created);
  _ ← append_audit_event ev;
  mret ().

Definition create_evolution_proposal_with_audit (proposal : EvolutionProposalRecord)
    (approval_required : bool) (proposed_by : string) : M Session EvolutionProposalRecord :=
  _ ← _ensure_company (proposal_company_id proposal);
  linked ← linked_approval proposal approval_required proposed_by;
  created ← create_evolution_proposal (with_approval linked.2 linked.1 proposal);
  _ ← audit_proposal_created created (proposal_company_id proposal) proposed_by None;
  mret created.

Record recorded_proposal := {
  rp_company_id : string; rp_tier : EvolutionTier; rp_scope : string; rp_evidence : pydict;
  rp_expected_benefit : string; rp_risk : string; rp_approval_state : enum_or_str ApprovalStatus;
  rp_approval_id : option string; rp_metadata : pydict }.

(** A new [EvolutionProposal] model: its strings stripped, its rollout proposed. *)
Definition new_proposal (a : recorded_proposal) : M Session EvolutionProposalRecord :=
  id_ ← generate_id "evp";
  created ← now_utc;
  updated ← now_utc;
  state ← liftM (parse_enum (E := ApprovalStatus) (str_of (rp_approval_state a)));
  mret {| proposal_id := id_; proposal_company_id := strip (rp_company_id a);
          proposal_tier := Member (rp_tier a); proposal_scope := strip (rp_scope a);
          proposal_evidence := strip_keys (rp_evidence a);
          proposal_expected_benefit := strip (rp_expected_benefit a);
          proposal_risk := strip (rp_risk a); proposal_approval_state := Some (Member state);
          proposal_record_rollout_state := Some (Member EvolutionRolloutState_PROPOSED);
          proposal_approval_id := strip <$> rp_approval_id a;
          proposal_metadata := strip_keys (rp_metadata a);
          proposal_created_at := of_utc created; proposal_updated_at := of_utc updated |}.

Definition record_evolution_proposal_with_audit (a : recorded_proposal)
    (actor_id : string) (trace_id : option string) : M Session EvolutionProposalRecord :=
  _ ← _ensure_company (rp_company_id a);
  proposal ← new_proposal a;
  created ← create_evolution_proposal proposal;
  _ ← audit_proposal_created created (rp_company_id a) actor_id trace_id;
  mret created.

Definition _get_company_proposal (company_id id_ : string) : M Session EvolutionProposalRecord :=
  row_ ← query (get_evolution_proposal id_);
  match row_ with
  | Some row => if decide (proposal_company_id row = company_id) then mret row
                else raiseM (Exn "EvolutionProposalNotFoundError" id_)
  | None => raiseM (Exn "EvolutionProposalNotFoundError" id_)
  end.

Record proposal_update := {
  pq_approval_state : option (enum_or_str ApprovalStatus);
  pq_rollout_state : option (enum_or_str EvolutionRolloutState);
  pq_approval_id : option string;
  pq_actor_id : string }.

(** [a or b] on optional texts *)
Definition opt_or (a b : option string) : option string := if truthy a then a else b.

(** The approval state the update works with: the one claimed, else the one of
    the approval named. *)
Definition claimed_approval_state (company_id : string) (u : proposal_update)
    : M Session (option string) :=
  let claimed := str_of <$> pq_approval_state u in
  if truthy (pq_approval_id u) then
    let id_ := str_or_empty (pq_approval_id u) in
    approval_ ← query (approval_in_company company_id id_);
    match approval_ with
    | None => raiseM (Exn "EvolutionProposalApprovalNotFoundError" id_)
    | Some approval => mret (opt_or claimed (str_of <$> approval_record_status approval))
    end
  else mret claimed.

Definition update_evolution_proposal_status_with_audit (company_id id_ : string) (u : proposal_update)
    : M Session EvolutionProposalRecord :=
  existing ← _get_company_proposal company_id id_;
  target_ ← liftM (evolution_rollout_state ((λ v, Str (str_of v)) <$> pq_rollout_state u));
  approval_state ← claimed_approval_state company_id u;
  let effective := opt_or approval_state (str_of <$> proposal_approval_state existing) in
  needs ← liftM (rollout_state_requires_approval (Member <$> target_));
  _ ← raise_ifM (needs && negb (approval_state_is_approved (Str <$> effective)))
        (Exn "EvolutionProposalApprovalRequiredError" id_);
  advanced ← (match target_ with
              | None => mret ([], str_of <$> pq_rollout_state u)
              | Some target =>
                  aggregate ← liftM (advance_rollout (EvolutionProposal.from_record existing)
                                       (Some (Member target)));
                  st ← liftM (rollout_state aggregate);
                  mret ((EvolutionProposal.pull_events aggregate).1, Some (value st))
              end : M Session (list EvolutionRolloutStatusChanged * option string));
  let domain_events := advanced.1 in
  updated_ ← update_evolution_proposal_status id_ approval_state advanced.2
               (if truthy (pq_approval_id u) then pq_approval_id u else None);
  match updated_ with
  | None => raiseM (Exn "EvolutionProposalNotFoundError" id_)
  | Some updated =>
      let detail := [("proposal_id", PStr (proposal_id updated));
                     ("approval_state", p_status (proposal_approval_state updated));
                     ("rollout_state", p_status (proposal_record_rollout_state updated));
                     ("approval_id", p_opt (proposal_approval_id updated))] in
      match domain_events with
      | _ :: _ =>
          _ ← append_control_plane_domain_event_audits (EvRollout <$> domain_events)
                {| ctx_actor_type := "user"; ctx_actor_id := pq_actor_id u; ctx_trace_id := None;
                   ctx_run_id := None; ctx_work_item_id := None; ctx_detail := detail |};
          mret updated
      | [] =>
          ev ← new_audit company_id "evolution_proposal.updated" "evolution_proposal"
                 (proposal_id updated) "user" (pq_actor_id u) None None None detail;
          _ ← append_audit_event ev;
          mret updated
      end
  end.

Definition apply_approval_resolution_to_linked_proposal (approval_id_ : string) (approved : bool)
    (resolved_by : string) : M Session (option EvolutionProposalRecord) :=
  let effect := resolve approved in
  proposal_ ← update_evolution_proposal_approval_state_by_approval approval_id_
                (value (are_proposal_approval_state effect)) (value <$> are_proposal_rollout_state effect);
  match proposal_ with
  | None => mret None
  | Some proposal =>
      ev ← new_audit (proposal_company_id proposal) "evolution_proposal.updated" "evolution_proposal"
             (proposal_id proposal) "user" resolved_by None None None
             (proposal_audit_detail effect (proposal_id proposal) approval_id_);
      _ ← append_audit_event ev;
      mret (Some proposal)
  end.

Definition resolution_event_error (msg : string) : exn := Exn "ApprovalResolutionEventError" msg.

Definition _approval_id_from_event (e : Event) : result string :=
  let target := dget (ev_payload e) "target_id" in
  if py_bool target then Ok (py_str target)
  else match dget (ev_payload e) "detail" with
       | PDict detail =>
           if py_bool (dget detail "approval_id") then Ok (py_str (dget detail "approval_id"))
           else Raise (resolution_event_error "approval resolution event missing approval_id")
       | _ => Raise (resolution_event_error "approval resolution event missing approval_id")
       end.

Definition apply_approval_resolution_event_to_linked_proposal (e : Event)
    : M Session (option EvolutionProposalRecord) :=
  _ ← raise_ifM (negb (bool_decide (ev_event_type e ∈ ["approval.granted"; "approval.rejected"])))
        (resolution_event_error ("unsupported approval resolution event: " +:+ ev_event_type e));
  approval_id_ ← liftM (_approval_id_from_event e);
  let resolved_by := py_str (py_or (dget (ev_payload e) "actor_id") (PStr "system")) in
  apply_approval_resolution_to_linked_proposal approval_id_
    (bool_decide (ev_event_type e = "approval.granted")) resolved_by.
End proposals.
