(* ===== verification/Tenancy.v ===== *)
(** * The tenant boundary of the use cases

    Every command on goals, work items, decisions, proposals and outcomes names a
    company.  Whether it returns or raises, it leaves every row of the other
    companies as it was. *)

From S2P Require Import Prelude PyNum PyTime PyValue Models Metadata AuditEvent DomainEvents.
From S2P Require Import Goal Decision WorkItem EvolutionProposal GovernancePolicies Store Frames.
From S2P Require Import BudgetGuard ApprovalGate ExecutionLedger ClaimInversion Outcomes WorkItems.
From S2P Require Import OutcomeTheorems Goals Proposals.

(** The rows of the companies other than [c]; the tables in the last group are
    not written at all. *)
Definition others (c : string) (d : DB) :=
  ((filter (λ r, cc_company_id r ≠ c) (t_companies d), filter (λ r, goal_company_id r ≠ c) (t_goals d),
    filter (λ r, wi_company_id r ≠ c) (t_work_items d),
    filter (λ r, decision_company_id r ≠ c) (t_decisions d),
    filter (λ r, proposal_company_id r ≠ c) (t_proposals d),
    filter (λ r, approval_company_id r ≠ c) (t_approvals d),
    filter (λ r, oa_company_id r ≠ c) (t_acceptances d), filter (λ r, ae_company_id r ≠ c) (t_audits d)),
   (t_roles d, t_runs d, ledger d, t_artifacts d, t_tombstones d)).

(** The tables whose rows a command updates in place. *)
Definition updated_tables (d : DB) := (t_goals d, t_work_items d, t_decisions d, t_proposals d).

Definition tenant_view (c : string) (d : DB) := (others c d, updated_tables d).

(** ** Lists of rows *)
Section rows.
Context {R : Type} (company : R → string) (c : string).

Lemma filter_snoc_own t r :
  company r = c → filter (λ r, company r ≠ c) (t ++ [r]) = filter (λ r, company r ≠ c) t.
Proof. intros Hr. rewrite filter_app, filter_cons, decide_False by naive_solver. apply app_nil_r. Qed.

Lemma filter_update_own {K} `{!EqDecision K} (key : R → K) k f t :
  (∀ r, company (f r) = company r) → (∀ r, r ∈ t → key r = k → company r = c) →
  filter (λ r, company r ≠ c) (update_row key k f t) = filter (λ r, company r ≠ c) t.
Proof.
  intros Hf Ht. induction t as [|r t IH]; [done|]. unfold update_row in *. rewrite fmap_cons, !filter_cons.
  rewrite IH by (intros; apply Ht; [by right|done]).
  destruct (decide (key r = k)) as [Hk|Hk]; [|done].
  assert (company r = c) as Hc by (apply Ht; [by left|done]).
  rewrite !decide_False; [done | naive_solver | rewrite Hf; naive_solver].
Qed.
End rows.

(** The row with the key of a row of the company is that row. *)
Lemma own_rows {R} (company key : R → string) (t : list R) c k r :
  NoDup (key <$> t) → get_row key k t = Some r → company r = c →
  ∀ r', r' ∈ t → key r' = k → company r' = c.
Proof.
  intros Hnd [Hin Hk]%get_row_Some Hc r' Hr' Hk'.
  by rewrite (get_row_NoDup key t r' r Hnd Hr' Hin ltac:(congruence)).
Qed.

(** ** Audits *)
Lemma normalized_company r a : AuditEvent.for_append r = Ok a → ae_company_id (AuditEvent.record a) = strip (ae_company_id r).
Proof.
  unfold AuditEvent.for_append, _normalize_append_record. intros H. inv_bind. cbn.
  unfold clean_audit_text in *. repeat case_match; simplify_eq. done.
Qed.

Section audits.
Context {E : Env}.

Lemma append_audit_tenant c ev :
  strip (ae_company_id ev) = c → framed (tenant_view c) (append_audit_event ev).
Proof.
  intros Hc. unfold append_audit_event. intros s r s' H.
  apply M_bind_inv in H as [(a & s1 & [= Ha <-] & H)|(e & [= _ <-] & _)]; [|done].
  assert (ae_company_id (AuditEvent.record a) = c) as Hac.
  { apply normalized_company in Ha as ->. unfold with_principal. destruct operator_id; [|done]. by case_decide. }
  revert s r s' H. change (framed (tenant_view c) (
    d ← query id;
    match replayed_audit d (AuditEvent.record a) with
    | Some r => mret r
    | None =>
        _ ← insert_audit (AuditEvent.record a);
        _ ← whenM (audit_event_carries_domain_event (AuditEvent.record a))
              (event_id ← generate_id "evt";
               row ← liftM (outbox_event_from_audit_event event_id (AuditEvent.record a));
               outbox_add row);
        mret (AuditEvent.record a)
    end)).
  unfold insert_audit, outbox_add. frame.
  intros s r s' [= <- <-]. split; [|done]. unfold tenant_view, others, updated_tables. cbn.
  by rewrite filter_snoc_own.
Qed.

Lemma new_audit_tenant c co a tt ti at' ai tr ru wo d :
  framed (tenant_view c) (new_audit co a tt ti at' ai tr ru wo d).
Proof. unfold new_audit. frame. Qed.

Lemma audited_tenant {B} c a tt ti at' ai tr ru wo d (k : M Session B) :
  strip c = c → framed (tenant_view c) k →
  framed (tenant_view c) (ev ← new_audit c a tt ti at' ai tr ru wo d; _ ← append_audit_event ev; k).
Proof.
  intros Hc Hk s r s' H. unfold new_audit in H.
  apply M_bind_inv in H as [(ev & s1 & Hev & H)|(e & Hev & ->)]; [|by eapply (new_audit_tenant c)].
  assert (strip (ae_company_id ev) = c) as Hco.
  { apply M_bind_Ok in Hev as (x & s2 & _ & Hev). apply M_bind_Ok in Hev as (y & s3 & _ & [= <- _]).
    cbn. by rewrite strip_idem. }
  apply (new_audit_tenant c) in Hev as [H1 H2].
  apply (framed_bind _ _ _ (append_audit_tenant c ev Hco) (λ _, Hk)) in H as [H3 H4]. split; congruence.
Qed.

(** The keys of a cleaned detail are the trimmed keys it had. *)
Definition no_company (d : pydict) : bool := forallb (λ kv, negb (bool_decide (strip kv.1 = "company_id"))) d.

Lemma clean_keys d x k : clean_metadata (Some d) = Ok x → k ∈ x.*1 → ∃ k0, k0 ∈ d.*1 ∧ k = strip k0.
Proof.
  unfold clean_metadata, from_mapping, mk_metadata, _freeze_metadata_mapping. intros H. inv_bind.
  unfold as_dict. cbn. rewrite fst_map_snd. intros [[k' v] [Hk Hin]]%list_elem_of_fmap.
  apply dict_of_items_elem in Hin. 
  match goal with H : mapR _ _ = Ok _ |- _ => apply mapR_Ok in H; rename H into Hall end.
  apply list_elem_of_lookup in Hin as [i Hi].
  destruct (Forall2_lookup_r _ _ _ _ _ Hall Hi) as ([k0 v0] & Hi0 & Hk0). inv_bind.
  exists k0. split; [apply list_elem_of_fmap; exists (k0, v0); split; [done|by eapply list_elem_of_lookup_2]|].
  cbn in *. unfold _clean_metadata_key in *. case_match; by simplify_eq.
Qed.

Lemma domain_audits_tenant c evs ctx :
  strip c = c → no_company (ctx_detail ctx) = true → (∀ ev, ev ∈ evs → event_company ev = c) →
  framed (tenant_view c) (append_control_plane_domain_event_audits evs ctx).
Proof.
  intros Hc Hno. unfold append_control_plane_domain_event_audits.
  induction evs as [|ev evs IH]; intros Hev; cbn [forM]; [apply framed_ret|].
  apply framed_bind; [|intros _; apply IH; intros; apply Hev; by right].
  do 2 (apply framed_bind; [eauto with cell|]; intros ?). intros s r s' H.
  apply M_bind_inv in H as [(row & s1 & [= Hrow <-] & H)|(e & [= _ <-] & _)]; [|done].
  assert (ae_company_id row = c) as Hco.
  { unfold audit_event_from_domain_event in Hrow.
    destruct (payload_clean ev) as (d & Hd & Hdc). rewrite Hd in Hrow. inv_bind.
    rewrite dict_update_absent, dict_get_set_ne, Hdc in Hrow; [|done|].
    - injection Hrow as <-. cbn. apply Hev. by left.
    - intros Hin. match goal with H : clean_audit_detail (Some (ctx_detail _)) = Ok _ |- _ => rename H into Hx end.
      apply (clean_keys _ _ _ Hx) in Hin as (k0 & [[k1 v] [-> Hin]]%list_elem_of_fmap & Hk).
      unfold no_company in Hno. rewrite forallb_forall in Hno.
      apply list_elem_of_In in Hin. apply Hno in Hin. cbn in *. by rewrite <- Hk in Hin. }
  assert (strip (ae_company_id (validate_audit row)) = c) as Hv by (cbn; by rewrite strip_idem, Hco).
  apply (framed_bind _ _ _ (append_audit_tenant c _ Hv) (λ _, framed_ret _ tt)) in H. done.
Qed.
End audits.

(** ** Computations that stay inside [c] *)
Definition isolated {A} (c : string) (m : M Session A) (s : Session) : Prop :=
  others c (db (m s).2) = others c (db s).

Section isolated.
Context (c : string).

Lemma isolated_framed {A} (m : M Session A) s : framed (others c) m → isolated c m s.
Proof. intros Hm. unfold isolated. destruct (m s) as [r s'] eqn:H. by apply Hm in H as [? _]. Qed.

Lemma isolated_tenant {A} (m : M Session A) s : framed (tenant_view c) m → isolated c m s.
Proof. intros Hm. apply isolated_framed. by apply (framed_fewer (tenant_view c) fst). Qed.

Lemma isolated_bind {A B} (m : M Session A) (k : A → M Session B) s :
  isolated c m s → (∀ a s1, m s = (Ok a, s1) → isolated c (k a) s1) → isolated c (m ≫= k) s.
Proof.
  unfold isolated. rewrite M_bind_run. destruct (m s) as [[a|e] s1]; [|done]. intros Hm Hk.
  specialize (Hk a s1 eq_refl). cbn in *. congruence.
Qed.

Lemma isolated_lift {A B} (m : result A) (k : A → M Session B) s :
  (∀ a, m = Ok a → isolated c (k a) s) → isolated c (liftM m ≫= k) s.
Proof. intros Hk. unfold isolated. rewrite M_bind_run. unfold liftM. destruct m; [by apply Hk | done]. Qed.

Lemma isolated_query {A B} (f : DB → A) (k : A → M Session B) s :
  isolated c (k (f (db s))) s → isolated c (query f ≫= k) s.
Proof. done. Qed.

Lemma isolated_raise {A} e s : isolated c (raiseM (A := A) e) s.
Proof. done. Qed.
Lemma isolated_ret {A} (a : A) s : isolated c (mret a) s.
Proof. done. Qed.
Lemma isolated_raise_if b e s : isolated c (raise_ifM b e) s.
Proof. by destruct b. Qed.
Lemma isolated_when b m s : isolated c m s → isolated c (whenM b m) s.
Proof. by destruct b. Qed.
Lemma isolated_for {A} (l : list A) f s :
  (∀ x s, isolated c (f x) s) → isolated c (forM l f) s.
Proof. intros Hf. revert s. induction l as [|x l IH]; intros s; [done|]. apply isolated_bind; auto. Qed.

(** An insertion of a row of [c]. *)
Lemma isolated_update f s : others c (f (db s)) = others c (db s) → isolated c (update_db f) s.
Proof. done. Qed.
End isolated.

(** Reads a written table. *)
Ltac tables :=
  cbn [db with_db t_companies t_goals t_roles t_runs t_work_items t_approvals t_policies t_usages t_leases t_reservations t_artifacts t_audits t_outbox t_tombstones t_decisions t_proposals t_acceptances
       set_companies set_goals set_runs set_work_items set_approvals set_policies set_usages set_leases set_reservations set_artifacts set_audits set_outbox set_decisions set_proposals set_acceptances].

(** Walks a computation. *)
Ltac stay :=
  repeat first
    [ progress intros
    | solve [auto with cell_tenant nocore]
    | apply isolated_tenant; solve [eauto with cell]
    | match goal with
      | |- isolated _ (mret _) _ => apply isolated_ret
      | |- isolated _ (raiseM _) _ => apply isolated_raise
      | |- isolated _ (raise_ifM _ _) _ => apply isolated_raise_if
      | |- isolated _ (query _) _ => reflexivity
      | |- isolated _ (liftM _) _ => reflexivity
      | |- isolated _ (update_db _) _ =>
          apply isolated_update; unfold others, ledger; tables; by rewrite ?filter_snoc_own
      | |- isolated _ (whenM _ _) _ => apply isolated_when
      | |- isolated _ (forM _ _) _ => apply isolated_for
      | |- isolated _ (mbind _ (query _)) _ => apply isolated_query
      | |- isolated _ (mbind _ (liftM _)) _ => apply isolated_lift
      | |- isolated _ (mbind _ (new_audit _ _ _ _ _ _ _ _ _ _)) _ =>
          apply isolated_tenant, audited_tenant; [done | apply framed_ret]
      | |- isolated _ (mbind _ _) _ => apply isolated_bind
      | |- isolated _ (match ?x with _ => _ end) _ => destruct x
      end ].
Create HintDb cell_tenant.

Section creations.
Context {E : Env} (c : string) (Hc : strip c = c).

Lemma ensure_company_isolated s : isolated c (_ensure_company c) s.
Proof.
  unfold _ensure_company. stay.
Qed.
#[local] Hint Resolve ensure_company_isolated : cell_tenant.

Lemma create_work_isolated w by_ s :
  wi_company_id w = c → isolated c (create_work_item_with_audit w by_) s.
Proof.
  intros Hw. unfold create_work_item_with_audit, create_work_item. rewrite Hw. stay.
Qed.

Lemma create_goal_isolated g by_ s : goal_company_id g = c → isolated c (create_goal_with_audit g by_) s.
Proof.
  intros Hw. unfold create_goal_with_audit, create_goal. rewrite Hw. stay.
Qed.

Lemma create_decision_isolated g by_ s :
  decision_company_id g = c → isolated c (create_decision_with_audit g by_) s.
Proof.
  intros Hw. unfold create_decision_with_audit, create_decision. rewrite Hw. stay.
Qed.

Lemma validated_company a r : validate_approval a = Ok r → approval_company_id r = strip (approval_company_id a).
Proof. unfold validate_approval. case_match; [|done]. by intros [= <-]. Qed.

Lemma request_approval_isolated a s :
  aq_company_id a = c → isolated c (gate_request_approval a) s.
Proof.
  intros Ha. unfold gate_request_approval, request_approval. stay.
  match goal with H : validate_approval _ = Ok _ |- _ =>
    apply validated_company in H; cbn in H; rewrite Ha, Hc in H end.
  apply isolated_update. unfold others. cbn. by rewrite filter_snoc_own.
Qed.

Lemma audit_created_isolated r ac tr s : isolated c (audit_proposal_created r c ac tr) s.
Proof. unfold audit_proposal_created. stay. Qed.
#[local] Hint Resolve audit_created_isolated : cell_tenant.

Lemma insert_proposal_isolated p s :
  proposal_company_id p = c → isolated c (create_evolution_proposal p) s.
Proof. intros Hp. unfold create_evolution_proposal. stay. Qed.

Lemma create_proposal_isolated p req by_ s :
  proposal_company_id p = c → isolated c (create_evolution_proposal_with_audit p req by_) s.
Proof.
  intros Hp. unfold create_evolution_proposal_with_audit, linked_approval. rewrite Hp.
  stay; first [by apply request_approval_isolated | by apply insert_proposal_isolated].
Qed.

Lemma record_proposal_isolated a ac tr s :
  rp_company_id a = c → isolated c (record_evolution_proposal_with_audit a ac tr) s.
Proof.
  intros Ha. unfold record_evolution_proposal_with_audit. rewrite Ha.
  apply isolated_bind; [stay|]. intros _ s1 _. apply isolated_bind; [unfold new_proposal; stay|].
  intros p s2 Hp. assert (proposal_company_id p = c) as Hpc.
  { unfold new_proposal in Hp.
    repeat (apply M_bind_Ok in Hp as (? & ? & _ & Hp)). injection Hp as <- _. cbn. by rewrite Ha. }
  apply isolated_bind; [by apply insert_proposal_isolated|]. stay.
Qed.
End creations.

(** ** Updates *)

(** The events of a transition belong to the record's company. *)
Ltac transition_company :=
  let H := fresh in
  intros H; apply bind_Ok in H as ([st|] & _ & H); [|done];
  apply bind_Ok in H as (cur & _ & H); try (case_decide; [injection H as <-; by intros e ?%not_elem_of_nil|]);
  apply bind_Ok in H as (u & _ & H); apply bind_Ok in H as (p & _ & H); injection H as <-;
  by intros e ->%list_elem_of_singleton.

Lemma work_events_company r t g :
  WorkItem.transition_to (WorkItem.from_record r) t = Ok g →
  ∀ e, e ∈ EvWorkItem <$> (WorkItem.pull_events g).1 → event_company e = wi_company_id r.
Proof. unfold WorkItem.transition_to. transition_company. Qed.
Lemma goal_events_company r t g :
  Goal.transition_to (Goal.from_record r) t = Ok g →
  ∀ e, e ∈ EvGoal <$> (Goal.pull_events g).1 → event_company e = goal_company_id r.
Proof. unfold Goal.transition_to. transition_company. Qed.
Lemma decision_events_company r t g :
  Decision.transition_to (Decision.from_record r) t = Ok g →
  ∀ e, e ∈ EvDecision <$> (Decision.pull_events g).1 → event_company e = decision_company_id r.
Proof. unfold Decision.transition_to. transition_company. Qed.
Lemma rollout_events_company r t g :
  advance_rollout (EvolutionProposal.from_record r) t = Ok g →
  ∀ e, e ∈ EvRollout <$> (EvolutionProposal.pull_events g).1 → event_company e = proposal_company_id r.
Proof. unfold advance_rollout. transition_company. Qed.

(** The primary keys of the updated tables. *)
Definition keys_unique (d : DB) : Prop :=
  NoDup (goal_id <$> t_goals d) ∧ NoDup (wi_work_item_id <$> t_work_items d)
  ∧ NoDup (decision_id <$> t_decisions d) ∧ NoDup (proposal_id <$> t_proposals d).

Section updates.
Context {E : Env} (c : string) (Hc : strip c = c).

(** A store update of a row of the company. *)
Ltac own_update Hown :=
  match goal with H : now_utc _ = _ |- _ => injection H as <- <- end;
  apply isolated_update; unfold others, ledger; tables;
  rewrite filter_update_own; [done | done | exact Hown].

Lemma update_work_isolated id_ st oa ou s :
  (∀ w, w ∈ t_work_items (db s) → wi_work_item_id w = id_ → wi_company_id w = c) →
  isolated c (update_work_item_status id_ st oa ou) s.
Proof.
  intros Hown. unfold update_work_item_status, require_accepted. stay.
  match goal with H : raise_ifM _ _ _ = _ |- _ => apply raise_if_Ok_M in H as [_ ->] end.
  match goal with H : whenM ?b _ ?s1 = (_, ?s2) |- _ =>
    assert (s2 = s1) as -> by (destruct b; cbn [whenM] in H; by minv) end.
  own_update Hown.
Qed.
Lemma update_goal_isolated id_ st cur s :
  (∀ w, w ∈ t_goals (db s) → goal_id w = id_ → goal_company_id w = c) →
  isolated c (update_goal_status id_ st cur) s.
Proof. intros Hown. unfold update_goal_status. stay. own_update Hown. Qed.
Lemma update_decision_isolated id_ st a b s :
  (∀ w, w ∈ t_decisions (db s) → decision_id w = id_ → decision_company_id w = c) →
  isolated c (update_decision_status id_ st a b) s.
Proof. intros Hown. unfold update_decision_status. stay. own_update Hown. Qed.
Lemma update_proposal_isolated id_ a b ap s :
  (∀ w, w ∈ t_proposals (db s) → proposal_id w = id_ → proposal_company_id w = c) →
  isolated c (update_evolution_proposal_status id_ a b ap) s.
Proof.
  intros Hown. unfold update_evolution_proposal_status. stay.
  match goal with H : raise_ifM _ _ _ = _ |- _ => apply raise_if_Ok_M in H as [_ ->] end.
  own_update Hown.
Qed.

(** The domain-event audits of an update. *)
Lemma audits_isolated {A} evs ctx (a : A) s :
  no_company (ctx_detail ctx) = true → (∀ ev, ev ∈ evs → event_company ev = c) →
  isolated c (_ ← append_control_plane_domain_event_audits evs ctx; mret a) s.
Proof.
  intros Hno Hev. apply isolated_tenant, framed_bind; [by apply domain_audits_tenant|].
  intros; apply framed_ret.
Qed.

(** A row read through the company is a row of the company. *)
Lemma company_row_Ok {R} (get : DB → option R) (company : R → string) e s row s1 :
  (row_ ← query get;
   match row_ with
   | Some row => if decide (company row = c) then mret row else raiseM e
   | None => raiseM e
   end) s = (Ok row, s1) →
  s1 = s ∧ get (db s) = Some row ∧ company row = c.
Proof. intros H. minv. destruct (get (db s)) as [w|]; [|by minv]. case_decide; by minv. Qed.

Lemma change_work_isolated id_ u s :
  keys_unique (db s) → isolated c (update_work_item_status_with_audit c id_ u) s.
Proof.
  intros (_ & Hk & _). unfold update_work_item_status_with_audit, _get_company_work_item.
  apply isolated_bind; [stay|]. intros row s1 Hget.
  assert (s1 = s ∧ get_work_item id_ (db s) = Some row ∧ wi_company_id row = c) as (-> & Hrow & Hrc).
  { by apply company_row_Ok in Hget. }
  apply isolated_lift. intros g Hg. apply isolated_lift. intros st _.
  apply isolated_bind; [apply update_work_isolated; by eapply own_rows|]. intros [w|] s1 _; [|stay].
  cbv zeta. destruct (WorkItem.pull_events g).1 as [|e l] eqn:He; [stay|].
  apply audits_isolated.
  - unfold change_detail. cbn. destruct (truthy (sc_command u)), (truthy (sc_reason u)); reflexivity.
  - rewrite <- He, <- Hrc. by eapply work_events_company.
Qed.

Lemma change_goal_isolated id_ t v ac s :
  keys_unique (db s) → isolated c (update_goal_status_with_audit c id_ t v ac) s.
Proof.
  intros (Hk & _). unfold update_goal_status_with_audit, _get_company_goal.
  apply isolated_bind; [stay|]. intros row s1 Hget. apply company_row_Ok in Hget as (-> & Hrow & Hrc).
  apply isolated_lift. intros g Hg. apply isolated_lift. intros st _. apply isolated_lift. intros pr _.
  apply isolated_bind; [apply update_goal_isolated; by eapply own_rows|]. intros [w|] s1 _; [|stay].
  cbv zeta. destruct (Goal.pull_events g).1 as [|e l] eqn:He; [stay|].
  apply audits_isolated; [done|]. rewrite <- He, <- Hrc. by eapply goal_events_company.
Qed.

Lemma change_decision_isolated id_ t a b ac s :
  keys_unique (db s) → isolated c (update_decision_status_with_audit c id_ t a b ac) s.
Proof.
  intros (_ & _ & Hk & _). unfold update_decision_status_with_audit, _get_company_decision.
  apply isolated_bind; [stay|]. intros row s1 Hget. apply company_row_Ok in Hget as (-> & Hrow & Hrc).
  apply isolated_lift. intros g Hg. apply isolated_lift. intros st _.
  apply isolated_bind; [apply update_decision_isolated; by eapply own_rows|]. intros [w|] s1 _; [|stay].
  cbv zeta. destruct (Decision.pull_events g).1 as [|e l] eqn:He; [stay|].
  apply audits_isolated; [done|]. rewrite <- He, <- Hrc. by eapply decision_events_company.
Qed.

Lemma change_proposal_isolated id_ u s :
  keys_unique (db s) → isolated c (update_evolution_proposal_status_with_audit c id_ u) s.
Proof.
  intros (_ & _ & _ & Hk). unfold update_evolution_proposal_status_with_audit, _get_company_proposal.
  apply isolated_bind; [stay|]. intros row s1 Hget. apply company_row_Ok in Hget as (-> & Hrow & Hrc).
  apply isolated_lift. intros target_ _. unfold claimed_approval_state.
  apply isolated_bind; [stay|]. intros ast s1 Hast.
  assert (s1 = s) as -> by (repeat case_match; minv; repeat case_match; by minv). cbv zeta.
  apply isolated_lift. intros needs _. apply isolated_bind; [stay|]. intros u1 s1 Hu1.
  apply raise_if_Ok_M in Hu1 as [_ ->].
  apply isolated_bind; [stay|]. intros [evs ro] s1 Hadv.
  assert (s1 = s ∧ ∀ e, e ∈ EvRollout <$> evs → event_company e = c) as [-> Hevs].
  { destruct target_; minv; [|by split; [|intros e ?%not_elem_of_nil]].
    split; [done|]. rewrite <- Hrc. cbn. by eapply rollout_events_company. }
  apply isolated_bind; [apply update_proposal_isolated; by eapply own_rows|]. intros [w|] s1 _; [|stay].
  cbv zeta. cbn [fst]. destruct evs as [|e l]; [stay|]. by apply audits_isolated.
Qed.

Lemma review_isolated a s :
  rv_company_id a = c → keys_unique (db s) → isolated c (review a) s.
Proof.
  intros Ha (_ & Hk & _). unfold review. apply isolated_query, isolated_lift.
  intros [[work run] artifact] Hck. unfold id in Hck.
  apply reviewable_Ok in Hck as (Hin & Hwc & Hwi & _).
  apply isolated_bind; [stay|]. intros hex s1 Hx. injection Hx as <- <-.
  apply isolated_bind; [stay|]. intros now s1 Hx. injection Hx as <- <-. cbv zeta. rewrite Ha.
  apply isolated_bind; [unfold insert_acceptance; stay|]. intros u s1 Hins.
  assert (t_work_items (db s1) = t_work_items (db s)) as Hw by (unfold insert_acceptance in Hins; by minv).
  apply isolated_bind; [|intros; stay].
  apply isolated_update. unfold others, ledger. tables. rewrite filter_update_own; [done|done|].
  rewrite Hw. intros w' Hw' Hid. by rewrite (get_row_NoDup _ _ w' work Hk Hw' Hin ltac:(congruence)), Hwc.
Qed.

End updates.

(** ** The commands of a company *)
Inductive tenant_command :=
  | NewWork (w : WorkItemRecord) (by_ : string)
  | ChangeWork (id_ : string) (u : status_change)
  | ReassignWork (id_ : string) (owner_agent owner_user : option string) (actor : string)
      (reason : option string)
  | BlockWork (id_ actor reason : string)
  | CloseWork (id_ : string) (st : WorkItemStatus) (actor : string) (reason : option string)
  | ReviewOutcome (work artifact actor verdict reason : string)
  | NewGoal (g : GoalRecord) (by_ : string)
  | ChangeGoal (id_ : string) (t : enum_or_str GoalStatus) (v : option float) (actor : string)
  | NewDecision (r : DecisionRecord) (by_ : string)
  | ChangeDecision (id_ : string) (t : enum_or_str DecisionStatus) (selected decided_by : option string)
      (actor : string)
  | NewProposal (p : EvolutionProposalRecord) (approval_required : bool) (by_ : string)
  | RecordProposal (a : recorded_proposal) (actor : string) (trace : option string)
  | ChangeProposal (id_ : string) (u : proposal_update).

(** The command is for the company [c]. *)
Definition names (c : string) (cmd : tenant_command) : Prop :=
  match cmd with
  | NewWork w _ => wi_company_id w = c
  | NewGoal g _ => goal_company_id g = c
  | NewDecision r _ => decision_company_id r = c
  | NewProposal p _ _ => proposal_company_id p = c
  | RecordProposal a _ _ => rp_company_id a = c
  | _ => True
  end.

Definition drop_result {S A} (m : M S A) : M S unit := _ ← m; mret ().

Definition run_tenant_command {E : Env} (c : string) (cmd : tenant_command) : M Session unit :=
  match cmd with
  | NewWork w by_ => drop_result (create_work_item_with_audit w by_)
  | ChangeWork id_ u => drop_result (update_work_item_status_with_audit c id_ u)
  | ReassignWork id_ oa ou ac re => drop_result (reassign_work_item c id_ oa ou ac re)
  | BlockWork id_ ac re => drop_result (block_work_item c id_ ac re)
  | CloseWork id_ st ac re => drop_result (close_work_item c id_ st ac re)
  | ReviewOutcome work artifact ac verdict re => drop_result (review
      {| rv_company_id := c; rv_work_item_id := work; rv_artifact_id := artifact; rv_actor_id := ac;
         rv_verdict := verdict; rv_reason := re |})
  | NewGoal g by_ => drop_result (create_goal_with_audit g by_)
  | ChangeGoal id_ t v ac => drop_result (update_goal_status_with_audit c id_ t v ac)
  | NewDecision r by_ => drop_result (create_decision_with_audit r by_)
  | ChangeDecision id_ t a b ac => drop_result (update_decision_status_with_audit c id_ t a b ac)
  | NewProposal p req by_ => drop_result (create_evolution_proposal_with_audit p req by_)
  | RecordProposal a ac tr => drop_result (record_evolution_proposal_with_audit a ac tr)
  | ChangeProposal id_ u => drop_result (update_evolution_proposal_status_with_audit c id_ u)
  end.

Lemma drop_isolated {A} c (m : M Session A) s : isolated c m s → isolated c (drop_result m) s.
Proof. intros Hm. apply isolated_bind; [done|]. intros; apply isolated_ret. Qed.

(** C13: the use cases respect the tenant boundary.  A command for one company
    (on work items, goals, decisions, evolution proposals or outcome reviews),
    whether it returns or raises, and whatever identifiers it is given, leaves
    the companies, goals, work items, decisions, proposals, approvals, reviews
    and audit rows of every other company exactly as they were, and does not
    touch roles, runs, leases, budgets and artifacts at all. *)
Theorem tenant_commands_isolated {E : Env} c cmd s r s' :
  strip c = c → keys_unique (db s) → names c cmd →
  run_tenant_command c cmd s = (r, s') → others c (db s') = others c (db s).
Proof.
  intros Hc Hk Hn H. enough (isolated c (run_tenant_command c cmd) s) as Hi.
  { unfold isolated in Hi. by rewrite H in Hi. }
  destruct cmd; cbn [run_tenant_command names] in *; apply drop_isolated;
    eauto using create_work_isolated, change_work_isolated, create_goal_isolated, change_goal_isolated,
      create_decision_isolated, change_decision_isolated, create_proposal_isolated,
      record_proposal_isolated, change_proposal_isolated, review_isolated.
  - unfold reassign_work_item. apply isolated_bind; [unfold _get_company_work_item; stay|].
    intros row s1 Hget. apply company_row_Ok in Hget as (-> & _).
    apply isolated_bind; [stay|]. intros u s1 Hu. apply raise_if_Ok_M in Hu as [_ ->].
    by apply change_work_isolated.
  - unfold block_work_item. apply isolated_bind; [unfold _get_company_work_item; stay|].
    intros row s1 Hget. apply company_row_Ok in Hget as (-> & _). by apply change_work_isolated.
  - unfold close_work_item. apply isolated_lift. intros closes _. apply isolated_bind; [stay|].
    intros u s1 Hu. apply raise_if_Ok_M in Hu as [_ ->].
    apply isolated_bind; [unfold _get_company_work_item; stay|].
    intros row s1 Hget. apply company_row_Ok in Hget as (-> & _). by apply change_work_isolated.
Qed.
