(* ===== verification/Knowledge.v ===== *)
(** * Company knowledge

    [domain/knowledge.py], [knowledge_store.py] and [knowledge_use_cases.py]:
    pointers to artifacts with their owner, readers, version and retention.  A
    row keeps the record; [_record] reads it back in UTC. *)

From S2P Require Import Prelude PyNum PyTime PyValue Models Store Outcomes.

(** ** Records *)
Record KnowledgeRecord := {
  kn_knowledge_id : string; kn_company_id : string; kn_source_artifact_id : string;
  kn_source_company_id : string; kn_owner_actor_id : string; kn_reader_role_ids : list string;
  kn_version : Z; kn_retention_until : option datetime; kn_created_at : datetime;
  kn_updated_at : datetime; kn_deleted_at : option datetime; kn_deleted_by_actor_id : option string }.

Record KnowledgeTombstone := {
  kt_knowledge_id : string; kt_company_id : string; kt_actor_id : string; kt_version : Z;
  kt_deleted_at : datetime }.

Definition knowledge_error (reason : string) : exn := Exn "KnowledgeError" reason.

(** What [str_strip_whitespace] removes at both ends. *)
Definition is_white (c : ascii) : bool :=
  let n := code c in ((9 <=? n) && (n <=? 13) || (n =? 32) || (n =? 133) || (n =? 160))%N.
Fixpoint ltrim (s : string) : string :=
  match s with String c s' => if is_white c then ltrim s' else s | EmptyString => "" end.
Fixpoint rtrim (s : string) : string :=
  match s with
  | String c s' =>
      match rtrim s' with
      | EmptyString => if is_white c then "" else String c ""
      | r => String c r
      end
  | EmptyString => ""
  end.
Definition trim (s : string) : string := rtrim (ltrim s).

Definition text_between (lo hi : nat) (s : string) : bool :=
  (lo <=? String.length s)%nat && (String.length s <=? hi)%nat.

(** [_clean_roles], on roles already trimmed. *)
Definition _clean_roles (values : list string) : result (list string) :=
  let roles := strip <$> filter (λ v, str_empty (strip v) = false) values in
  _ ← raise_if (negb (bool_decide (NoDup roles)) || negb (length roles =? length values)%nat)
        (validation_error "reader roles must be non-empty unique IDs");
  _ ← raise_if (existsb (λ r, negb (text_between 0 64 r)) roles) (validation_error "reader role ID is too long");
  Ok roles.

(** Validation of a record: its texts trimmed, its roles cleaned. *)
Definition validate_knowledge (r : KnowledgeRecord) : result KnowledgeRecord :=
  let r := {| kn_knowledge_id := trim (kn_knowledge_id r); kn_company_id := trim (kn_company_id r);
    kn_source_artifact_id := trim (kn_source_artifact_id r);
    kn_source_company_id := trim (kn_source_company_id r);
    kn_owner_actor_id := trim (kn_owner_actor_id r);
    kn_reader_role_ids := trim <$> kn_reader_role_ids r; kn_version := kn_version r;
    kn_retention_until := kn_retention_until r; kn_created_at := kn_created_at r;
    kn_updated_at := kn_updated_at r; kn_deleted_at := kn_deleted_at r;
    kn_deleted_by_actor_id := trim <$> kn_deleted_by_actor_id r |} in
  _ ← raise_if (negb (text_between 1 64 (kn_knowledge_id r) && text_between 1 48 (kn_company_id r)
                      && text_between 1 48 (kn_source_artifact_id r)
                      && text_between 1 48 (kn_source_company_id r)
                      && text_between 1 128 (kn_owner_actor_id r)
                      && (length (kn_reader_role_ids r) <=? 100)%nat && (1 <=? kn_version r)
                      && match kn_deleted_by_actor_id r with Some a => text_between 0 128 a | None => true end))
        (validation_error "KnowledgeRecord");
  roles ← _clean_roles (kn_reader_role_ids r);
  _ ← raise_if (negb (Bool.eqb (bool_decide (kn_deleted_at r = None))
                               (bool_decide (kn_deleted_by_actor_id r = None))))
        (validation_error "delete timestamp and actor must be supplied together");
  Ok {| kn_knowledge_id := kn_knowledge_id r; kn_company_id := kn_company_id r;
        kn_source_artifact_id := kn_source_artifact_id r; kn_source_company_id := kn_source_company_id r;
        kn_owner_actor_id := kn_owner_actor_id r; kn_reader_role_ids := roles;
        kn_version := kn_version r; kn_retention_until := kn_retention_until r;
        kn_created_at := kn_created_at r; kn_updated_at := kn_updated_at r;
        kn_deleted_at := kn_deleted_at r; kn_deleted_by_actor_id := kn_deleted_by_actor_id r |}.

Definition is_accessible (now : instant) (r : KnowledgeRecord) : bool :=
  bool_decide (kn_deleted_at r = None)
  && match kn_retention_until r with Some t => now <? as_utc t | None => true end.

(** [revise] at an instant, with the later one of [updated_at]. *)
Definition revised (r : KnowledgeRecord) (roles : list string) (until : option datetime) (now : instant)
    : KnowledgeRecord := {|
  kn_knowledge_id := kn_knowledge_id r; kn_company_id := kn_company_id r;
  kn_source_artifact_id := kn_source_artifact_id r; kn_source_company_id := kn_source_company_id r;
  kn_owner_actor_id := kn_owner_actor_id r; kn_reader_role_ids := roles;
  kn_version := kn_version r + 1; kn_retention_until := until; kn_created_at := kn_created_at r;
  kn_updated_at := of_utc now; kn_deleted_at := kn_deleted_at r;
  kn_deleted_by_actor_id := kn_deleted_by_actor_id r |}.

Definition deleted (r : KnowledgeRecord) (actor : string) (now : instant) : KnowledgeRecord := {|
  kn_knowledge_id := kn_knowledge_id r; kn_company_id := kn_company_id r;
  kn_source_artifact_id := kn_source_artifact_id r; kn_source_company_id := kn_source_company_id r;
  kn_owner_actor_id := kn_owner_actor_id r; kn_reader_role_ids := kn_reader_role_ids r;
  kn_version := kn_version r; kn_retention_until := kn_retention_until r;
  kn_created_at := kn_created_at r; kn_updated_at := kn_updated_at r;
  kn_deleted_at := Some (of_utc now); kn_deleted_by_actor_id := Some actor |}.

(** [except KnowledgeError] *)
Definition on_knowledge_error {A} (f : string → exn) (m : result A) : result A :=
  match m with
  | Raise (Exn cls reason) => if decide (cls = "KnowledgeError") then Raise (f reason) else m
  | _ => m
  end.

Definition revise (r : KnowledgeRecord) (expected_version : Z) (roles : list string)
    (until : option datetime) (seen now : instant) : result KnowledgeRecord :=
  _ ← raise_if (negb (is_accessible seen r)) (knowledge_error "knowledge_not_accessible");
  _ ← raise_if (negb (expected_version =? kn_version r)) (knowledge_error "knowledge_version_conflict");
  validate_knowledge (revised r roles until now).

Definition tombstone (r : KnowledgeRecord) (actor : string) (seen now : instant) : result KnowledgeRecord :=
  _ ← raise_if (negb (is_accessible seen r)) (knowledge_error "knowledge_not_accessible");
  _ ← raise_if (negb (bool_decide (actor = kn_owner_actor_id r))) (knowledge_error "knowledge_owner_required");
  validate_knowledge (deleted r actor now).

(** ** Tables *)
Record RetentionReceipt := {
  rc_company_id : string; rc_dry_run : bool; rc_audit_cutoff : instant;
  rc_eligible_audit_events : Z; rc_purged_audit_events : Z;
  rc_purged_published_outbox_events : Z; rc_expired_knowledge : Z; rc_purged_knowledge : Z }.

(** What a retention request did, for its replay ([retention_models.py]). *)
Record RetentionRun := {
  rn_company_id : string; rn_request_id : string; rn_command_hash : string;
  rn_receipt : RetentionReceipt; rn_created_at : instant }.

(** The session with the tables of this file beside its own. *)
Record Shelf := {
  sh_session : Session; sh_knowledge : list KnowledgeRecord; sh_tombstones : list KnowledgeTombstone;
  sh_runs : list RetentionRun }.

Definition on_session {A} (m : M Session A) : M Shelf A := λ s,
  let '(r, x) := m (sh_session s) in
  (r, {| sh_session := x; sh_knowledge := sh_knowledge s; sh_tombstones := sh_tombstones s;
         sh_runs := sh_runs s |}).
Definition put_knowledge (l : list KnowledgeRecord) : M Shelf unit :=
  modifyM (λ s, {| sh_session := sh_session s; sh_knowledge := l; sh_tombstones := sh_tombstones s;
                   sh_runs := sh_runs s |}).
Definition put_tombstones (l : list KnowledgeTombstone) : M Shelf unit :=
  modifyM (λ s, {| sh_session := sh_session s; sh_knowledge := sh_knowledge s; sh_tombstones := l;
                   sh_runs := sh_runs s |}).

(** A request: committed when it returns, rolled back when it raises. *)
Definition request {A} (m : M Shelf A) : M Shelf A := λ s,
  match m s with
  | (Ok a, s') => (Ok a, {| sh_session := (checkpoint (sh_session s')).2; sh_knowledge := sh_knowledge s';
                            sh_tombstones := sh_tombstones s'; sh_runs := sh_runs s' |})
  | (Raise e, s') => (Raise e, {| sh_session := rollback (sh_session s'); sh_knowledge := sh_knowledge s;
                                  sh_tombstones := sh_tombstones s; sh_runs := sh_runs s |})
  end.

Definition in_utc (d : datetime) : datetime := of_utc (as_utc d).
Definition _record (r : KnowledgeRecord) : result KnowledgeRecord := validate_knowledge {|
  kn_knowledge_id := kn_knowledge_id r; kn_company_id := kn_company_id r;
  kn_source_artifact_id := kn_source_artifact_id r; kn_source_company_id := kn_source_company_id r;
  kn_owner_actor_id := kn_owner_actor_id r; kn_reader_role_ids := kn_reader_role_ids r;
  kn_version := kn_version r; kn_retention_until := in_utc <$> kn_retention_until r;
  kn_created_at := in_utc (kn_created_at r); kn_updated_at := in_utc (kn_updated_at r);
  kn_deleted_at := in_utc <$> kn_deleted_at r; kn_deleted_by_actor_id := kn_deleted_by_actor_id r |}.

(** ** The store *)
Definition find_knowledge (id_ company : string) (l : list KnowledgeRecord) : option KnowledgeRecord :=
  head (filter (λ r, kn_knowledge_id r = id_ ∧ kn_company_id r = company) l).

Definition get_knowledge (id_ company : string) : M Shelf (option KnowledgeRecord) :=
  row_ ← getsM (λ s, find_knowledge id_ company (sh_knowledge s));
  match row_ with
  | Some row => r ← liftM (_record row); mret (Some r)
  | None => mret None
  end.

Definition company_has_roles (company : string) (roles : list string) (d : DB) : bool :=
  forallb (λ x, bool_decide (x ∈ role_id <$> filter (λ r, role_company_id r = company) (t_roles d))) roles.

(** The rows that a conditional update changes, and how many there were. *)
Definition update_where (p : KnowledgeRecord → bool) (f : KnowledgeRecord → KnowledgeRecord) : M Shelf Z :=
  l ← getsM sh_knowledge;
  _ ← put_knowledge (map (λ r, if p r then f r else r) l);
  mret (Z.of_nat (length (filter (λ r, p r = true) l))).

Definition current_row (r : KnowledgeRecord) (version : Z) (x : KnowledgeRecord) : bool :=
  bool_decide (kn_knowledge_id x = kn_knowledge_id r) && bool_decide (kn_company_id x = kn_company_id r)
  && (kn_version x =? version) && bool_decide (kn_deleted_at x = None).

(** The columns that a revision writes. *)
Definition write_revision (r x : KnowledgeRecord) : KnowledgeRecord := {|
  kn_knowledge_id := kn_knowledge_id x; kn_company_id := kn_company_id x;
  kn_source_artifact_id := kn_source_artifact_id x; kn_source_company_id := kn_source_company_id x;
  kn_owner_actor_id := kn_owner_actor_id x; kn_reader_role_ids := kn_reader_role_ids r;
  kn_version := kn_version r; kn_retention_until := kn_retention_until r;
  kn_created_at := kn_created_at x; kn_updated_at := kn_updated_at r;
  kn_deleted_at := kn_deleted_at r; kn_deleted_by_actor_id := kn_deleted_by_actor_id r |}.
Definition write_deletion (r x : KnowledgeRecord) : KnowledgeRecord := {|
  kn_knowledge_id := kn_knowledge_id x; kn_company_id := kn_company_id x;
  kn_source_artifact_id := kn_source_artifact_id x; kn_source_company_id := kn_source_company_id x;
  kn_owner_actor_id := kn_owner_actor_id x; kn_reader_role_ids := kn_reader_role_ids x;
  kn_version := kn_version x; kn_retention_until := kn_retention_until x;
  kn_created_at := kn_created_at x; kn_updated_at := kn_updated_at x;
  kn_deleted_at := kn_deleted_at r; kn_deleted_by_actor_id := kn_deleted_by_actor_id r |}.

Section store.
Context {E : Env}.

Definition create_knowledge (r : KnowledgeRecord) : M Shelf KnowledgeRecord :=
  gone ← getsM (λ s, bool_decide (kn_knowledge_id r ∈ kt_knowledge_id <$> sh_tombstones s));
  _ ← raise_ifM gone (value_error "knowledge_id_permanently_deleted");
  l ← getsM sh_knowledge;
  _ ← raise_ifM (bool_decide (kn_knowledge_id r ∈ kn_knowledge_id <$> l))
        (integrity_error "control_plane_knowledge");
  _ ← put_knowledge (l ++ [r]);
  liftM (_record r).

Definition revise_knowledge (r : KnowledgeRecord) (expected_version : Z)
    : M Shelf (option KnowledgeRecord) :=
  n ← update_where (current_row r expected_version) (write_revision r);
  if n =? 1 then get_knowledge (kn_knowledge_id r) (kn_company_id r) else mret None.

(** [delete_knowledge] of the store *)
Definition mark_deleted (r : KnowledgeRecord) (t : KnowledgeTombstone) : M Shelf bool :=
  n ← update_where (current_row r (kn_version r)) (write_deletion r);
  if negb (n =? 1) then mret false
  else
    l ← getsM sh_tombstones;
    _ ← raise_ifM (bool_decide (kt_knowledge_id t ∈ kt_knowledge_id <$> l))
          (integrity_error "control_plane_knowledge_tombstones");
    _ ← put_tombstones (l ++ [t]);
    mret true.

(** ** Use cases *)
Definition now_ : M Shelf instant := on_session now_utc.

Definition _append_audit (company actor action : string) (r : KnowledgeRecord) : M Shelf unit :=
  on_session (ev ← new_audit company action "knowledge" (kn_knowledge_id r) "operator" actor None None None
                     [("version", PInt (kn_version r));
                      ("source_artifact_id", PStr (kn_source_artifact_id r));
                      ("reader_role_count", PInt (Z.of_nat (length (kn_reader_role_ids r))))];
              _ ← append_audit_event ev;
              mret ()).

Definition source_error (id_ : string) : exn := Exn "KnowledgeSourceArtifactError" id_.
Definition conflict_error (id_ : string) : exn := Exn "KnowledgeConflictError" id_.
Definition not_found (id_ : string) : exn := Exn "KnowledgeNotFoundError" id_.
Definition owner_required (id_ : string) : exn := Exn "KnowledgeOwnerRequiredError" id_.
Definition role_error : exn := Exn "KnowledgeRoleNotFoundError" "reader_role_company_mismatch".

(** What every publication checks first. *)
Definition source_of (company artifact : string) (until : option datetime) : M Shelf ArtifactRecord :=
  a_ ← on_session (query (get_artifact artifact));
  match a_ with
  | Some a =>
      _ ← raise_ifM (negb (bool_decide (artifact_company_id a = company))) (source_error artifact);
      _ ← raise_ifM (match until with Some t => bool_decide (dt_offset t = None) | None => false end)
            (value_error "retention_until must include a timezone");
      mret a
  | None => raiseM (source_error artifact)
  end.
Definition granted_roles (company : string) (roles : list string) : M Shelf unit :=
  ok ← on_session (query (company_has_roles company roles));
  raise_ifM (negb ok) role_error.

(** [publish_knowledge] without an identifier *)
Definition publish_new (company artifact actor : string) (roles : list string) (until : option datetime)
    (expected_version : option Z) : M Shelf KnowledgeRecord :=
  a ← source_of company artifact until;
  _ ← raise_ifM (negb (bool_decide (expected_version = None ∨ expected_version = Some 0)))
        (conflict_error "new knowledge must start at version 1");
  _ ← granted_roles company roles;
  u ← on_session uuid4;
  created_at ← now_;
  updated_at ← now_;
  r ← liftM (validate_knowledge {|
    kn_knowledge_id := "knw_" +:+ u; kn_company_id := company; kn_source_artifact_id := artifact;
    kn_source_company_id := artifact_company_id a; kn_owner_actor_id := actor;
    kn_reader_role_ids := roles; kn_version := 1; kn_retention_until := until;
    kn_created_at := of_utc created_at; kn_updated_at := of_utc updated_at;
    kn_deleted_at := None; kn_deleted_by_actor_id := None |});
  created ← create_knowledge r;
  _ ← _append_audit company actor "knowledge.published" created;
  mret created.

(** [publish_knowledge] of an existing record *)
Definition publish_next (company artifact actor id_ : string) (roles : list string)
    (until : option datetime) (expected_version : option Z) : M Shelf KnowledgeRecord :=
  a ← source_of company artifact until;
  match expected_version with
  | None => raiseM (conflict_error "expected_version_required")
  | Some version =>
      current_ ← get_knowledge id_ company;
      match current_ with
      | None => raiseM (not_found id_)
      | Some current =>
          _ ← raise_ifM (negb (bool_decide (kn_owner_actor_id current = actor))) (owner_required id_);
          _ ← raise_ifM (negb (bool_decide (kn_source_artifact_id current = artifact
                               ∧ kn_source_company_id current = artifact_company_id a)))
                (Exn "KnowledgeProvenanceImmutableError" id_);
          _ ← granted_roles company roles;
          seen ← now_;
          now ← (if is_accessible seen current && (version =? kn_version current) then now_ else mret seen);
          next ← liftM (on_knowledge_error (λ reason,
                          if decide (reason = "knowledge_version_conflict") then conflict_error id_
                          else not_found id_) (revise current version roles until seen now));
          saved_ ← revise_knowledge next version;
          match saved_ with
          | None => raiseM (conflict_error id_)
          | Some saved => _ ← _append_audit company actor "knowledge.revised" saved; mret saved
          end
      end
  end.

Definition read_knowledge (id_ company actor : string) (roles scopes : list string)
    : M Shelf KnowledgeRecord :=
  r_ ← get_knowledge id_ company;
  match r_ with
  | None => raiseM (not_found id_)
  | Some r =>
      now ← now_;
      _ ← raise_ifM (negb (is_accessible now r)) (not_found id_);
      _ ← raise_ifM (negb (bool_decide (actor = kn_owner_actor_id r))
                     && negb (existsb (λ x, bool_decide (x ∈ roles)) (kn_reader_role_ids r))
                     && negb (bool_decide ("*" ∈ scopes))) (Exn "KnowledgeReadForbiddenError" id_);
      mret r
  end.

Definition delete_knowledge (id_ company actor : string) : M Shelf KnowledgeTombstone :=
  r_ ← get_knowledge id_ company;
  match r_ with
  | None => raiseM (not_found id_)
  | Some r =>
      seen ← now_;
      now ← (if is_accessible seen r && bool_decide (actor = kn_owner_actor_id r) then now_ else mret seen);
      gone ← liftM (on_knowledge_error (λ reason,
                      if decide (reason = "knowledge_owner_required") then owner_required id_
                      else not_found id_) (tombstone r actor seen now));
      let t := {| kt_knowledge_id := trim (kn_knowledge_id r); kt_company_id := trim company;
                  kt_actor_id := trim actor; kt_version := kn_version r;
                  kt_deleted_at := of_utc now |} in
      _ ← raise_ifM (negb (text_between 1 64 (kt_knowledge_id t) && text_between 1 48 (kt_company_id t)
                           && text_between 1 128 (kt_actor_id t) && (1 <=? kt_version t)))
            (validation_error "KnowledgeTombstone");
      ok ← mark_deleted gone t;
      _ ← raise_ifM (negb ok) (conflict_error id_);
      _ ← on_session (ev ← new_audit company "knowledge.deleted" "knowledge" id_ "operator" actor
                             None None None [("version", PInt (kt_version t));
                                             ("source_artifact_id", PStr (kn_source_artifact_id r))];
                      _ ← append_audit_event ev;
                      mret ());
      mret t
  end.
End store.
