(* ===== verification/Retention.v ===== *)
(** * Physical retention

    [domain/physical_retention.py], [retention_store.py],
    [retention_use_cases.py] and the route of [api_routes/retention.py]: audit
    events past their term are replaced by compact tombstones, expired knowledge
    by tombstones of its identifiers, in batches an operator asks for.  The
    evidence pin is the one of the PostgreSQL dialect. *)

From S2P Require Import Prelude PyNum PyTime PyValue Models Store ClaimInversion Knowledge.

Record RetentionCommand := { rt_company_id : string; rt_batch_size : Z; rt_dry_run : bool }.

Definition command_ok (c : RetentionCommand) : bool :=
  text_between 1 48 (rt_company_id c) && (1 <=? rt_batch_size c) && (rt_batch_size c <=? 1000).

Definition put_runs (l : list RetentionRun) : M Shelf unit :=
  modifyM (λ s, {| sh_session := sh_session s; sh_knowledge := sh_knowledge s;
                   sh_tombstones := sh_tombstones s; sh_runs := l |}).

(** ** Which rows may go *)

(** An outbox row of the event that is still to be published. *)
Definition is_pending (d : DB) (r : AuditEventRecord) : bool :=
  existsb (λ o, bool_decide (ob_correlation_id o = Some (ae_audit_event_id r))
                && negb (bool_decide (ob_status o = "published"))) (t_outbox d).

(** [metadata["evidence"]["audit_events"] @> [id]] *)
Definition pins (id_ : string) (a : ArtifactRecord) : bool :=
  match dict_get (artifact_metadata a) "evidence" with
  | Some (PDict evidence) =>
      match dict_get evidence "audit_events" with
      | Some (PList l) => existsb (λ v, match v with PStr x => bool_decide (x = id_) | _ => false end) l
      | _ => false
      end
  | _ => false
  end.
Definition is_pinned (d : DB) (company : string) (r : AuditEventRecord) : bool :=
  existsb (λ a, bool_decide (artifact_company_id a = company) && pins (ae_audit_event_id r) a) (t_artifacts d).

Definition purgeable (d : DB) (company : string) (cutoff : instant) (r : AuditEventRecord) : bool :=
  bool_decide (ae_company_id r = company) && (as_utc (ae_created_at r) <? cutoff)
  && negb (is_pending d r) && negb (is_pinned d company r).

Definition audit_leb (a b : AuditEventRecord) : bool :=
  (as_utc (ae_created_at a) <? as_utc (ae_created_at b))
  || (as_utc (ae_created_at a) =? as_utc (ae_created_at b)) && str_leb (ae_audit_event_id a) (ae_audit_event_id b).

Definition candidates (d : DB) (c : RetentionCommand) (cutoff : instant) : list AuditEventRecord :=
  take (Z.to_nat (rt_batch_size c))
    (py_sorted audit_leb (filter (λ r, purgeable d (rt_company_id c) cutoff r = true) (t_audits d))).

(** Expired or deleted long enough ago. *)
Definition lapsed (company : string) (now cutoff : instant) (r : KnowledgeRecord) : bool :=
  bool_decide (kn_company_id r = company)
  && (match kn_retention_until r with Some t => as_utc t <? now | None => false end
      || match kn_deleted_at r with Some t => as_utc t <? cutoff | None => false end).

Definition lapsed_knowledge (l : list KnowledgeRecord) (c : RetentionCommand) (now cutoff : instant)
    : list KnowledgeRecord :=
  take (Z.to_nat (rt_batch_size c))
    (py_sorted (λ a b, str_leb (kn_knowledge_id a) (kn_knowledge_id b))
       (filter (λ r, lapsed (rt_company_id c) now cutoff r = true) l)).

Section retention.
Context {E : Env}.

Definition command_digest (c : RetentionCommand) : result string :=
  sha256_hex <$> json_spaced (PDict [("company_id", PStr (rt_company_id c));
    ("batch_size", PInt (rt_batch_size c)); ("dry_run", PBool (rt_dry_run c))]).

(** What is kept of a purged event. *)
Definition compact (r : AuditEventRecord) (detail_sha256 : string) : AuditEventRecord := {|
  ae_audit_event_id := ae_audit_event_id r; ae_company_id := ae_company_id r; ae_action := ae_action r;
  ae_target_type := ae_target_type r; ae_target_id := ae_target_id r;
  ae_actor_type := ae_actor_type r; ae_actor_id := "retention"; ae_trace_id := ae_trace_id r;
  ae_run_id := ae_run_id r; ae_work_item_id := ae_work_item_id r; ae_idempotency_key := None;
  ae_detail := [("retention_tombstone", PBool true); ("detail_sha256", PStr detail_sha256)];
  ae_created_at := ae_created_at r |}.

Definition key_hash (company : string) (r : AuditEventRecord) : option string :=
  match ae_idempotency_key r with
  | Some key => if str_empty key then None else Some (idempotency_digest company key)
  | None => None
  end.

Definition audit_tombstone (company : string) (now : instant) (r : AuditEventRecord)
    : result AuditRetentionTombstone :=
  digest ← sha256_hex <$> json_spaced (PDict (ae_detail r));
  Ok {| ts_audit_event_id := ae_audit_event_id r; ts_company_id := company;
        ts_idempotency_hash := key_hash company r; ts_receipt := compact r digest; ts_purged_at := now |}.

(** The published deliveries of an event. *)
Definition delivered (r : AuditEventRecord) (o : OutboxRow) : bool :=
  bool_decide (ob_correlation_id o = Some (ae_audit_event_id r)) && bool_decide (ob_status o = "published").

(** The tombstone of one event in the place of the event; how many deliveries
    went with it. *)
Definition purge_event (company : string) (now : instant) (r : AuditEventRecord) : M Session Z :=
  t ← liftM (audit_tombstone company now r);
  d ← query id;
  _ ← raise_ifM (bool_decide (ts_audit_event_id t ∈ ts_audit_event_id <$> t_tombstones d)
                 || match ts_idempotency_hash t with
                    | Some h => existsb (λ x, bool_decide (ts_company_id x = company)
                                              && bool_decide (ts_idempotency_hash x = Some h)) (t_tombstones d)
                    | None => false
                    end) (integrity_error "control_plane_audit_retention_tombstones");
  let gone := filter (λ o, delivered r o = true) (t_outbox d) in
  _ ← update_db (λ d, set_tombstones (t_tombstones d ++ [t])
        (set_outbox (filter (λ o, delivered r o = false) (t_outbox d))
           (set_audits (filter (λ x, ae_audit_event_id x ≠ ae_audit_event_id r) (t_audits d)) d)));
  mret (Z.of_nat (length gone)).

Fixpoint purge_events (company : string) (now : instant) (l : list AuditEventRecord) : M Session Z :=
  match l with
  | [] => mret 0
  | r :: l' => n ← purge_event company now r; k ← purge_events company now l'; mret (n + k)
  end.

Definition purge_knowledge (company : string) (now : instant) (r : KnowledgeRecord) : M Shelf unit :=
  l ← getsM sh_tombstones;
  _ ← whenM (bool_decide (kn_knowledge_id r ∉ kt_knowledge_id <$> l))
        (put_tombstones (l ++ [{| kt_knowledge_id := kn_knowledge_id r; kt_company_id := company;
           kt_actor_id := "retention"; kt_version := kn_version r; kt_deleted_at := of_utc now |}]));
  k ← getsM sh_knowledge;
  put_knowledge (filter (λ x, kn_knowledge_id x ≠ kn_knowledge_id r) k).

Definition previous_run (company request_id : string) (l : list RetentionRun) : option RetentionRun :=
  head (filter (λ x, rn_company_id x = company ∧ rn_request_id x = request_id) l).

(** The rows of a new request: counted, and purged unless it is a dry run. *)
Definition carry_out (c : RetentionCommand) (request_id : string) (now cutoff : instant)
    : M Shelf RetentionReceipt :=
  let company := rt_company_id c in
  d ← on_session (query id);
  k ← getsM sh_knowledge;
  let events := candidates d c cutoff in
  let expired := lapsed_knowledge k c now cutoff in
  n ← (if rt_dry_run c then mret 0
       else n ← on_session (purge_events company now events);
            _ ← forM expired (purge_knowledge company now);
            mret n);
  let count_of (l : nat) := if rt_dry_run c then 0 else Z.of_nat l in
  let receipt := {| rc_company_id := company; rc_dry_run := rt_dry_run c; rc_audit_cutoff := cutoff;
    rc_eligible_audit_events := Z.of_nat (length events);
    rc_purged_audit_events := count_of (length events);
    rc_purged_published_outbox_events := n;
    rc_expired_knowledge := Z.of_nat (length expired);
    rc_purged_knowledge := count_of (length expired) |} in
  digest ← (if rt_dry_run c then mret "" else liftM (command_digest c));
  runs ← getsM sh_runs;
  _ ← whenM (negb (rt_dry_run c)) (put_runs (runs ++ [{| rn_company_id := company;
        rn_request_id := request_id; rn_command_hash := digest; rn_receipt := receipt;
        rn_created_at := now |}]));
  mret receipt.

Definition apply (c : RetentionCommand) (request_id : option string) (now cutoff : instant)
    : M Shelf RetentionReceipt :=
  known ← on_session (query (λ d, bool_decide (rt_company_id c ∈ cc_company_id <$> t_companies d)));
  _ ← raise_ifM (negb known) (value_error "retention_company_not_found");
  let request_id := str_or_empty request_id in
  if rt_dry_run c then carry_out c request_id now cutoff
  else
    previous ← getsM (λ s, previous_run (rt_company_id c) request_id (sh_runs s));
    match previous with
    | Some run =>
        digest ← liftM (command_digest c);
        _ ← raise_ifM (negb (bool_decide (rn_command_hash run = digest)))
              (value_error "retention_request_conflict");
        mret (rn_receipt run)
    | None => carry_out c request_id now cutoff
    end.

Definition execute (days : Z) (c : RetentionCommand) (request_id : option string) : M Shelf RetentionReceipt :=
  _ ← raise_ifM (negb ((90 <=? days) && (days <=? 3650))) (value_error "retention_policy_out_of_bounds");
  _ ← raise_ifM (negb (rt_dry_run c)
                 && (negb (truthy request_id) || negb (text_between 0 48 (str_or_empty request_id))))
        (value_error "retention_idempotency_key_required");
  now ← now_;
  apply c request_id now (now - days * us_per_day).

Definition receipt_dump (r : RetentionReceipt) : pydict :=
  [("schema_version", PStr "1.0"); ("company_id", PStr (rc_company_id r));
   ("dry_run", PBool (rc_dry_run r)); ("audit_cutoff", PStr (isoformat "T" (Datetime (rc_audit_cutoff r) None) +:+ "Z"));
   ("eligible_audit_events", PInt (rc_eligible_audit_events r));
   ("purged_audit_events", PInt (rc_purged_audit_events r));
   ("purged_published_outbox_events", PInt (rc_purged_published_outbox_events r));
   ("expired_knowledge", PInt (rc_expired_knowledge r)); ("purged_knowledge", PInt (rc_purged_knowledge r));
   ("minimal_replay_receipts_retained", PBool true)].

(** The route, with the two settings it reads. *)
Definition apply_retention (enabled : bool) (days : Z) (actor : string) (c : RetentionCommand)
    (idempotency_key : option string) : M Shelf RetentionReceipt := request (
  _ ← raise_ifM (negb (rt_dry_run c) && negb enabled) (Exn "HTTPException" "physical_retention_disabled");
  result ← execute days c idempotency_key;
  _ ← whenM (negb (rt_dry_run c)) (on_session (
        ev ← new_audit (rt_company_id c) "retention.applied" "company" (rt_company_id c) "operator" actor
               None None None (receipt_dump result);
        _ ← append_audit_event (with_key ev ("retention:" +:+ str_or_empty idempotency_key));
        mret ()));
  mret result).
End retention.
