(* ===== verification/RetentionTheorems.v ===== *)
(** * What knowledge and retention guarantee

    A deleted identifier never comes back and a record keeps its provenance, in
    every history of publications, revisions, deletions and retention runs; what
    retention removes is old, published and evidence of nothing, and an event it
    removed still answers its idempotency key. *)

From S2P Require Import Prelude PyNum PyTime PyValue Models Store Frames ClaimInversion Scenario Knowledge Retention.

(** ** Changes of the knowledge tables *)
Definition tables : Type := list KnowledgeRecord * list KnowledgeTombstone.

(** The fields that no operation writes. *)
Definition provenance (r : KnowledgeRecord) :=
  (kn_knowledge_id r, kn_company_id r, kn_source_artifact_id r, kn_source_company_id r,
   kn_owner_actor_id r, kn_created_at r).

Inductive knowledge_step : tables → tables → Prop :=
  | step_publish K T r :
      kn_knowledge_id r ∉ kn_knowledge_id <$> K → kn_knowledge_id r ∉ kt_knowledge_id <$> T →
      kn_deleted_at r = None → knowledge_step (K, T) (K ++ [r], T)
  | step_revise K T p f :
      (∀ x, p x = true → kn_deleted_at x = None ∧ provenance (f x) = provenance x
         ∧ kn_version (f x) = kn_version x + 1 ∧ kn_deleted_at (f x) = None) →
      knowledge_step (K, T) ((λ x, if p x : bool then f x else x) <$> K, T)
  | step_delete K T p f t :
      kt_knowledge_id t ∉ kt_knowledge_id <$> T →
      (∀ x, p x = true → kn_knowledge_id x = kt_knowledge_id t ∧ kn_deleted_at x = None
         ∧ provenance (f x) = provenance x ∧ kn_version (f x) = kn_version x
         ∧ kn_deleted_at (f x) ≠ None) →
      (∃ x, x ∈ K ∧ p x = true) →
      knowledge_step (K, T) ((λ x, if p x : bool then f x else x) <$> K, T ++ [t])
  | step_purge K T id_ l :
      id_ ∈ kt_knowledge_id <$> T ++ l → (∀ t, t ∈ l → kt_knowledge_id t = id_ ∧ id_ ∉ kt_knowledge_id <$> T) →
      (length l ≤ 1)%nat →
      knowledge_step (K, T) (filter (λ x, kn_knowledge_id x ≠ id_) K, T ++ l).

Record tables_ok (t : tables) : Prop := {
  tk_records : NoDup (kn_knowledge_id <$> t.1);
  tk_tombstones : NoDup (kt_knowledge_id <$> t.2);
  tk_deleted : ∀ r, r ∈ t.1 → kn_deleted_at r ≠ None ↔ kn_knowledge_id r ∈ kt_knowledge_id <$> t.2 }.

(** What two moments of a history have in common. *)
Record evolves (t t' : tables) : Prop := {
  ev_tombstones : t.2 `prefix_of` t'.2;
  ev_provenance : ∀ r r', r ∈ t.1 → r' ∈ t'.1 → kn_knowledge_id r = kn_knowledge_id r' →
    provenance r' = provenance r;
  ev_version : ∀ r r', r ∈ t.1 → r' ∈ t'.1 → kn_knowledge_id r = kn_knowledge_id r' →
    r' = r ∨ kn_version r < kn_version r' ∨ kn_version r' = kn_version r ∧ kn_deleted_at r' ≠ None;
  ev_dead : ∀ r r', r ∈ t.1 → r' ∈ t'.1 → kn_knowledge_id r = kn_knowledge_id r' →
    kn_deleted_at r ≠ None → r' = r;
  ev_gone : ∀ r, r ∈ t.1 →
    (∃ r', r' ∈ t'.1 ∧ kn_knowledge_id r' = kn_knowledge_id r) ∨ kn_knowledge_id r ∈ kt_knowledge_id <$> t'.2;
  ev_new : ∀ r', r' ∈ t'.1 → kn_knowledge_id r' ∈ kt_knowledge_id <$> t.2 →
    ∃ r, r ∈ t.1 ∧ kn_knowledge_id r = kn_knowledge_id r' }.

Lemma prov_id r r' : provenance r = provenance r' → kn_knowledge_id r = kn_knowledge_id r'.
Proof. by intros [= ? ? ? ? ? ?]. Qed.

Lemma keys_changed (p : KnowledgeRecord → bool) f (K : list KnowledgeRecord) :
  (∀ x, p x = true → provenance (f x) = provenance x) →
  kn_knowledge_id <$> ((λ x, if p x then f x else x) <$> K) = kn_knowledge_id <$> K.
Proof.
  intros H. rewrite <- list_fmap_compose. apply list_fmap_ext. intros i x _. cbn.
  destruct (p x) eqn:Hp; [|done]. by apply prov_id, H.
Qed.

Lemma knowledge_step_ok t t' : knowledge_step t t' → tables_ok t → tables_ok t'.
Proof.
  intros Hs [H1 H2 H3]. destruct Hs as [K T r Hn Ht Hd|K T p f Hf|K T p f t Hn Hf (y & Hy & Hpy)|K T id_ l Hin Hl Hlen];
    cbn in H1, H2, H3; split; cbn; try done.
  - rewrite fmap_app. apply NoDup_app. split; [done|]. split; [set_solver|apply NoDup_singleton].
  - intros x [Hx| ->%list_elem_of_singleton]%elem_of_app; [by apply H3|]. by split.
  - by rewrite keys_changed by (intros x Hx; apply (Hf x Hx)).
  - intros x' (x & -> & Hx)%list_elem_of_fmap.
    destruct (p x) eqn:Hp; [|by apply H3]. destruct (Hf x Hp) as (Hd & Hprov & _ & Hd').
    rewrite (prov_id _ _ Hprov), <- (H3 x Hx). by rewrite Hd, Hd'.
  - by rewrite keys_changed by (intros x Hx; apply (Hf x Hx)).
  - rewrite fmap_app. apply NoDup_app. split; [done|]. split; [set_solver|apply NoDup_singleton].
  - intros x' (x & -> & Hx)%list_elem_of_fmap. rewrite fmap_app, elem_of_app. cbn.
    rewrite list_elem_of_singleton. destruct (p x) eqn:Hp.
    + destruct (Hf x Hp) as (Hid & _ & Hprov & _ & Hd'). rewrite (prov_id _ _ Hprov). naive_solver.
    + rewrite (H3 x Hx). split; [by left|]. intros [?|Heq]; [done|]. exfalso.
      destruct (Hf y Hpy) as (Hidy & _).
      assert (x = y) as ->; [|congruence]. by eapply (get_row_NoDup kn_knowledge_id); [..|congruence].
  - eapply sublist_NoDup; [exact H1|]. apply fmap_sublist, sublist_filter.
  - rewrite fmap_app. apply NoDup_app. split; [done|]. split.
    + intros x Hx (t & -> & Ht)%list_elem_of_fmap. destruct (Hl t Ht) as [Hi Hni].
      by rewrite Hi in Hx.
    + destruct l as [|? [|? ?]]; [constructor|apply NoDup_singleton|cbn in Hlen; lia].
  - intros x [Hne Hx]%list_elem_of_filter. rewrite (H3 x Hx), fmap_app, elem_of_app.
    split; [by left|]. intros [?|(t & Heq & Ht)%list_elem_of_fmap]; [done|].
    exfalso. destruct (Hl t Ht) as [Hi _]. congruence.
Qed.

(** A change of the records in place. *)
Lemma evolves_changed K T (p : KnowledgeRecord → bool) f l :
  NoDup (kn_knowledge_id <$> K) →
  (∀ x, p x = true → kn_deleted_at x = None ∧ provenance (f x) = provenance x
     ∧ (kn_version x < kn_version (f x) ∨ kn_version (f x) = kn_version x ∧ kn_deleted_at (f x) ≠ None)) →
  evolves (K, T) ((λ x, if p x then f x else x) <$> K, T ++ l).
Proof.
  intros Hnd Hf.
  assert (∀ r r', r ∈ K → r' ∈ (λ x, if p x then f x else x) <$> K → kn_knowledge_id r = kn_knowledge_id r' →
    r' = if p r then f r else r) as Hone.
  { intros r r' Hr (x & -> & Hx)%list_elem_of_fmap Hid.
    assert (r = x) as ->; [|done]. eapply (get_row_NoDup kn_knowledge_id); [exact Hnd|done..|].
    rewrite Hid. destruct (p x) eqn:Hp; [|done]. by apply prov_id, (Hf x Hp). }
  split; cbn.
  - by apply prefix_app_r.
  - intros r r' Hr Hr' Hid. rewrite (Hone r r' Hr Hr' Hid). destruct (p r) eqn:Hp; [|done]. by apply (Hf r Hp).
  - intros r r' Hr Hr' Hid. rewrite (Hone r r' Hr Hr' Hid). destruct (p r) eqn:Hp; [|by left].
    right. by apply (Hf r Hp).
  - intros r r' Hr Hr' Hid Hd. rewrite (Hone r r' Hr Hr' Hid). destruct (p r) eqn:Hp; [|done].
    by destruct (Hf r Hp).
  - intros r Hr. left. exists (if p r then f r else r). split; [apply list_elem_of_fmap; by exists r|].
    destruct (p r) eqn:Hp; [|done]. by apply prov_id, (Hf r Hp).
  - intros r' (r & -> & Hr)%list_elem_of_fmap _. exists r. split; [done|].
    destruct (p r) eqn:Hp; [|done]. symmetry. by apply prov_id, (Hf r Hp).
Qed.

Lemma evolves_refl t : tables_ok t → evolves t t.
Proof.
  destruct t as [K T]. intros [H1 _ _]. pose proof (evolves_changed K T (λ _, false) id [] H1) as H.
  rewrite app_nil_r in H. cbn in H. assert ((λ x : KnowledgeRecord, x) <$> K = K) as He by apply list_fmap_id.
  rewrite He in H. by apply H.
Qed.

Lemma evolves_step t t' : knowledge_step t t' → tables_ok t → evolves t t'.
Proof.
  intros Hs Hok. pose proof (evolves_refl t Hok) as [_ R2 R3 R4 _ _]. destruct Hok as [H1 H2 H3].
  destruct Hs as [K T r Hn Ht Hd|K T p f Hf|K T p f t Hn Hf _|K T id_ l Hin Hl Hlen]; cbn in *.
  - assert (∀ x x', x ∈ K → x' ∈ K ++ [r] → kn_knowledge_id x = kn_knowledge_id x' → x' ∈ K) as Hold.
    { intros x x' Hx [?| ->%list_elem_of_singleton]%elem_of_app Hid; [done|]. exfalso. apply Hn.
      rewrite <- Hid. by apply list_elem_of_fmap_2. }
    split; cbn; [done|eauto..| |].
    + intros x Hx. left. exists x. split; [apply elem_of_app; by left|done].
    + intros x [Hx| ->%list_elem_of_singleton]%elem_of_app Hdead; [by exists x|done].
  - rewrite <- (app_nil_r T) at 2. apply evolves_changed; [done|]. intros x Hp.
    destruct (Hf x Hp) as (? & ? & ? & ?). split_and!; try done. left. lia.
  - apply evolves_changed; [done|]. intros x Hp. destruct (Hf x Hp) as (? & ? & ? & ? & ?).
    split_and!; try done. by right.
  - assert (∀ x, x ∈ filter (λ x, kn_knowledge_id x ≠ id_) K → x ∈ K) as Hsub.
    { by intros x [_ ?]%list_elem_of_filter. }
    split; cbn; [by apply prefix_app_r|eauto..| |].
    + intros x Hx. destruct (decide (kn_knowledge_id x = id_)) as [->|Hne]; [by right|]. left. exists x.
      split; [by apply list_elem_of_filter|done].
    + intros x Hx%Hsub _. by exists x.
Qed.

Lemma evolves_trans t1 t2 t3 :
  tables_ok t2 → evolves t1 t2 → evolves t2 t3 → evolves t1 t3.
Proof.
  intros Hok [A1 A2 A3 A4 A5 A6] [B1 B2 B3 B4 B5 B6].
  assert (∀ r r'', r ∈ t1.1 → r'' ∈ t3.1 → kn_knowledge_id r = kn_knowledge_id r'' →
    ∃ r', r' ∈ t2.1 ∧ kn_knowledge_id r' = kn_knowledge_id r) as Hmid.
  { intros r r'' Hr Hr'' Hid. destruct (A5 r Hr) as [?|Hg]; [done|]. rewrite Hid in Hg.
    destruct (B6 r'' Hr'' Hg) as (x & Hx & Hxid). exists x. split; [done|congruence]. }
  split.
  - by etrans.
  - intros r r'' Hr Hr'' Hid. destruct (Hmid r r'' Hr Hr'' Hid) as (r' & Hr' & Hid').
    rewrite (B2 r' r''), (A2 r r'); congruence.
  - intros r r'' Hr Hr'' Hid. destruct (Hmid r r'' Hr Hr'' Hid) as (r' & Hr' & Hid').
    destruct (A3 r r' Hr Hr' (eq_sym Hid')) as [->|[Hlt|[Heq Hd]]].
    + by apply B3.
    + destruct (B3 r' r'' Hr' Hr'' ltac:(congruence)) as [->|[?|[? ?]]]; [by right; left|right; left; lia..].
    + rewrite (B4 r' r'' Hr' Hr'' ltac:(congruence) Hd). by right; right.
  - intros r r'' Hr Hr'' Hid Hd. destruct (Hmid r r'' Hr Hr'' Hid) as (r' & Hr' & Hid').
    assert (r' = r) as -> by (apply A4; congruence). apply B4; congruence.
  - intros r Hr. destruct (A5 r Hr) as [(r' & Hr' & Hid)|Hg].
    + rewrite <- Hid. by apply B5.
    + right. destruct B1 as [l ->]. rewrite fmap_app. apply elem_of_app. by left.
  - intros r'' Hr'' Hg. assert (kn_knowledge_id r'' ∈ kt_knowledge_id <$> t2.2) as Hg2.
    { destruct A1 as [l ->]. rewrite fmap_app. apply elem_of_app. by left. }
    destruct (B6 r'' Hr'' Hg2) as (r' & Hr' & Hid). destruct (A6 r' Hr') as (r & Hr & Hid'); [congruence|].
    exists r. split; [done|congruence].
Qed.

Lemma knowledge_run t t' : rtc knowledge_step t t' → tables_ok t → tables_ok t' ∧ evolves t t'.
Proof.
  induction 1 as [t|t1 t2 t3 Hs _ IH]; intros Hok; [by split; [|apply evolves_refl]|].
  pose proof (knowledge_step_ok _ _ Hs Hok) as Hok2. destruct (IH Hok2) as [Hok3 Hev].
  split; [done|]. eapply evolves_trans; [exact Hok2| |exact Hev]. by apply evolves_step.
Qed.

(** ** Operations *)
Definition tables_of (s : Shelf) : tables := (sh_knowledge s, sh_tombstones s).
Definition at_tables (t : tables) (s : Shelf) : Prop := tables_of s = t.
Definition whatever (s : Shelf) : Prop := True.

Section operations.
Context {E : Env}.

Lemma at_session {A} t (m : M Session A) : triple (at_tables t) (on_session m) (λ _, at_tables t) whatever.
Proof.
  intros s r s' <- H. unfold on_session in H. destruct (m (sh_session s)) as [x y]. injection H as <- <-.
  by destruct x.
Qed.
Lemma at_now t : triple (at_tables t) now_ (λ _, at_tables t) whatever.
Proof. apply at_session. Qed.
Lemma at_knowledge t : triple (at_tables t) (getsM sh_knowledge) (λ l s, l = t.1 ∧ at_tables t s) whatever.
Proof. by intros s r s' <- [= <- <-]. Qed.
Lemma at_tombstones t : triple (at_tables t) (getsM sh_tombstones) (λ l s, l = t.2 ∧ at_tables t s) whatever.
Proof. by intros s r s' <- [= <- <-]. Qed.
Lemma at_put_knowledge t l : triple (at_tables t) (put_knowledge l) (λ _, at_tables (l, t.2)) whatever.
Proof. apply triple_modify. by intros s <-. Qed.
Lemma at_put_tombstones t l : triple (at_tables t) (put_tombstones l) (λ _, at_tables (t.1, l)) whatever.
Proof. apply triple_modify. by intros s <-. Qed.

(** A record as it is read: the row in UTC. *)
Lemma validate_knowledge_Ok r x :
  validate_knowledge r = Ok x →
  kn_knowledge_id x = trim (kn_knowledge_id r) ∧ kn_company_id x = trim (kn_company_id r)
  ∧ kn_owner_actor_id x = trim (kn_owner_actor_id r) ∧ kn_version x = kn_version r
  ∧ kn_retention_until x = kn_retention_until r ∧ kn_deleted_at x = kn_deleted_at r.
Proof. unfold validate_knowledge. cbv zeta. intros H. by inv_bind. Qed.

Lemma get_knowledge_Ok t id_ company :
  triple (at_tables t) (get_knowledge id_ company)
    (λ o s, at_tables t s ∧ ∀ r, o = Some r → ∃ row, row ∈ t.1 ∧ kn_knowledge_id row = id_
        ∧ kn_company_id row = company ∧ _record row = Ok r) whatever.
Proof.
  unfold get_knowledge.
  eapply (triple_know _ (λ o, o = find_knowledge id_ company t.1)).
  { by intros s r s' <- [= <- <-]. }
  intros row_ ->. destruct (find_knowledge _ _ _) as [row|] eqn:Hrow; [|by apply triple_ret].
  eapply triple_know; [by apply triple_lift|]. intros r Hr. apply triple_ret. intros s Hs. split; [done|].
  intros ? [= <-]. exists row. unfold find_knowledge in Hrow.
  apply head_Some_elem_of, list_elem_of_filter in Hrow as [[? ?] ?]. done.
Qed.

Lemma at_source t company artifact until :
  triple (at_tables t) (source_of company artifact until) (λ _, at_tables t) whatever.
Proof.
  unfold source_of. eapply triple_step; [apply at_session|]. intros [a|]; [|by apply triple_raise].
  eapply triple_know; [by apply triple_raise_if|]. intros _ _.
  eapply triple_know; [by apply triple_raise_if|]. intros _ _. by apply triple_ret.
Qed.
Lemma at_roles t company roles :
  triple (at_tables t) (granted_roles company roles) (λ _, at_tables t) whatever.
Proof.
  unfold granted_roles. eapply triple_step; [apply at_session|]. intros ok.
  eapply triple_conseq; [by apply triple_raise_if|done| |done]. by intros [] s [_ ?].
Qed.

(** What an operation may leave. *)
Definition changes {A} (m : M Shelf A) : Prop :=
  ∀ t, triple (at_tables t) m (λ _ s, rtc knowledge_step t (tables_of s)) whatever.

Lemma at_same {A} t (m : M Shelf A) :
  triple (at_tables t) m (λ _, at_tables t) whatever →
  triple (at_tables t) m (λ _ s, rtc knowledge_step t (tables_of s)) whatever.
Proof. intros Hm. eapply triple_conseq; [exact Hm|done| |done]. by intros a s ->. Qed.

(** A tail that leaves the tables alone. *)
Lemma at_tail {A} t t' (m : M Shelf A) :
  rtc knowledge_step t t' → triple (at_tables t') m (λ _, at_tables t') whatever →
  triple (at_tables t') m (λ _ s, rtc knowledge_step t (tables_of s)) whatever.
Proof. intros Ht Hm. eapply triple_conseq; [exact Hm|done| |done]. by intros a s ->. Qed.

Lemma shelf_audit t company actor action r :
  triple (at_tables t) (_append_audit company actor action r) (λ _, at_tables t) whatever.
Proof. apply at_session. Qed.

Lemma create_changes t r :
  kn_deleted_at r = None →
  triple (at_tables t) (create_knowledge r)
    (λ _ s, at_tables (t.1 ++ [r], t.2) s ∧ knowledge_step t (t.1 ++ [r], t.2)) whatever.
Proof.
  intros Hd. unfold create_knowledge.
  eapply (triple_know _ (λ b, b = bool_decide (kn_knowledge_id r ∈ kt_knowledge_id <$> t.2))).
  { by intros s x s' <- [= <- <-]. }
  intros gone ->. eapply triple_know; [by apply triple_raise_if|]. intros [] Ht%bool_decide_eq_false.
  eapply triple_know; [apply at_knowledge|]. intros l ->.
  eapply triple_know; [by apply triple_raise_if|]. intros [] Hk%bool_decide_eq_false.
  eapply triple_bind; [apply at_put_knowledge|]. intros [].
  eapply triple_conseq; [by apply triple_lift|done| |done].
  intros x s [_ Hs]. split; [exact Hs|]. destruct t as [K T]. by apply step_publish.
Qed.

(** The rows that a conditional update changed. *)
Lemma shelf_update t p f :
  triple (at_tables t) (update_where p f)
    (λ n s, n = Z.of_nat (length (filter (λ r, p r = true) t.1))
       ∧ at_tables ((λ x, if p x then f x else x) <$> t.1, t.2) s) whatever.
Proof.
  unfold update_where. eapply triple_know; [apply at_knowledge|]. intros l ->.
  eapply triple_bind; [apply at_put_knowledge|]. intros []. by apply triple_ret.
Qed.

Lemma current_spec r version x :
  current_row r version x = true →
  kn_knowledge_id x = kn_knowledge_id r ∧ kn_version x = version ∧ kn_deleted_at x = None.
Proof.
  unfold current_row. intros [[[H1 _]%andb_true_iff H2]%andb_true_iff H3]%andb_true_iff.
  apply bool_decide_eq_true in H1, H3. apply Z.eqb_eq in H2. done.
Qed.

Lemma revise_changes t next version :
  kn_deleted_at next = None → kn_version next = version + 1 →
  triple (at_tables t) (revise_knowledge next version)
    (λ _ s, ∃ t', knowledge_step t t' ∧ at_tables t' s) whatever.
Proof.
  intros Hd Hv. unfold revise_knowledge. eapply triple_learn; [apply shelf_update|]. intros n ->.
  set (t' := ((λ x, if current_row next version x then write_revision next x else x) <$> t.1, t.2)).
  assert (knowledge_step t t') as Hstep.
  { destruct t as [K T]. apply step_revise. intros x (_ & Hvx & Hdx)%current_spec. cbn.
    by rewrite Hv, Hvx. }
  destruct (_ =? 1).
  - eapply triple_conseq; [apply get_knowledge_Ok|done| |done]. intros o s [Hs _]. by exists t'.
  - apply triple_ret. by exists t'.
Qed.

Lemma delete_changes t r tomb :
  kn_deleted_at r ≠ None → kt_knowledge_id tomb = kn_knowledge_id r →
  triple (at_tables t) (mark_deleted r tomb)
    (λ ok s, ok = true → ∃ t', knowledge_step t t' ∧ at_tables t' s) whatever.
Proof.
  intros Hd Hid. unfold mark_deleted. eapply triple_learn; [apply shelf_update|]. intros n ->.
  destruct (negb _) eqn:Hn; [by apply triple_ret|].
  apply negb_false_iff, Z.eqb_eq in Hn.
  eapply triple_know; [apply at_tombstones|]. intros l ->.
  eapply triple_know; [by apply triple_raise_if|]. intros [] Hk%bool_decide_eq_false.
  eapply triple_bind; [apply at_put_tombstones|]. intros []. apply triple_ret. intros s Hs _.
  eexists. split; [|exact Hs]. destruct t as [K T]. cbn in *. apply step_delete; [done|..].
  - intros x (Hx & Hv & Hdx)%current_spec. split_and!; [congruence|done..].
  - destruct (filter (λ x, current_row r (kn_version r) x = true) K) as [|x ?] eqn:Hf; [cbn in Hn; lia|].
    exists x. assert (x ∈ filter (λ x, current_row r (kn_version r) x = true) K) as Hx by (rewrite Hf; left).
    by apply list_elem_of_filter in Hx as [? ?].
Qed.

Lemma on_error_Ok {A} f (m : result A) x : on_knowledge_error f m = Ok x → m = Ok x.
Proof. unfold on_knowledge_error. destruct m as [|[c r| |]]; try done. by case_decide. Qed.

Lemma revise_Ok r version roles until seen now x :
  revise r version roles until seen now = Ok x → kn_deleted_at x = None ∧ kn_version x = version + 1.
Proof.
  unfold revise. intros H. inv_bind. apply validate_knowledge_Ok in H as (_ & _ & _ & -> & _ & ->). cbn.
  repeat match goal with H : negb _ = false |- _ => apply negb_false_iff in H end.
  match goal with H : is_accessible _ _ = true |- _ => apply andb_true_iff in H as [Ha%bool_decide_eq_true _] end.
  match goal with H : (_ =? _) = true |- _ => apply Z.eqb_eq in H end. split; [done|lia].
Qed.

Lemma tombstone_Ok r actor seen now x :
  tombstone r actor seen now = Ok x → kn_deleted_at x ≠ None ∧ trim (kn_knowledge_id r) = kn_knowledge_id x.
Proof.
  unfold tombstone. intros H. inv_bind. by apply validate_knowledge_Ok in H as (-> & _ & _ & _ & _ & ->).
Qed.

Lemma publish_new_changes company artifact actor roles until version :
  changes (publish_new company artifact actor roles until version).
Proof.
  intros t. unfold publish_new. eapply triple_step; [apply at_source|]. intros a.
  eapply triple_know; [by apply triple_raise_if|]. intros _ _.
  eapply triple_step; [apply at_roles|]. intros _. eapply triple_step; [apply at_session|]. intros u.
  eapply triple_step; [apply at_now|]. intros c0. eapply triple_step; [apply at_now|]. intros c1.
  eapply triple_know; [by apply triple_lift|]. intros r (_ & _ & _ & _ & _ & Hd)%validate_knowledge_Ok.
  eapply triple_bind; [by apply create_changes|]. intros created.
  intros s x s' [Hs Hstep]. revert s x s' Hs.
  eapply triple_step; [apply shelf_audit|]. intros _. apply triple_ret. intros s ->. by apply rtc_once.
Qed.

Lemma at_second_now {A} t (b : bool) (x : A) (k : instant → M Shelf A) Q :
  (∀ i, triple (at_tables t) (k i) Q whatever) →
  ∀ i0, triple (at_tables t) (now ← (if b then now_ else mret i0); k now) Q whatever.
Proof.
  intros Hk i0. eapply triple_step; [|exact Hk]. destruct b; [apply at_now|by apply triple_ret].
Qed.

Lemma publish_next_changes company artifact actor id_ roles until version :
  changes (publish_next company artifact actor id_ roles until version).
Proof.
  intros t. unfold publish_next. eapply triple_step; [apply at_source|]. intros a.
  destruct version as [version|]; [|by apply triple_raise].
  eapply triple_bind; [apply get_knowledge_Ok|]. intros current_ s x s' [Hs _]. revert s x s' Hs.
  destruct current_ as [current|]; [|by apply triple_raise].
  eapply triple_know; [by apply triple_raise_if|]. intros _ _.
  eapply triple_know; [by apply triple_raise_if|]. intros _ _.
  eapply triple_step; [apply at_roles|]. intros _. eapply triple_step; [apply at_now|]. intros seen.
  eapply triple_step. { destruct (_ && _); [apply at_now|by apply triple_ret]. } intros now.
  eapply triple_know; [by apply triple_lift|]. intros next Hnext.
  apply on_error_Ok, revise_Ok in Hnext as [Hd Hv].
  eapply triple_bind; [by apply revise_changes|]. intros saved_. apply triple_exists. intros t' Hstep.
  destruct saved_ as [saved|]; [|by apply triple_raise].
  eapply triple_step; [apply shelf_audit|]. intros _. apply triple_ret. intros s ->. by apply rtc_once.
Qed.

Lemma delete_knowledge_changes id_ company actor : changes (delete_knowledge id_ company actor).
Proof.
  intros t. unfold delete_knowledge.
  eapply triple_bind; [apply get_knowledge_Ok|]. intros r_ s x s' [Hs _]. revert s x s' Hs.
  destruct r_ as [r|]; [|by apply triple_raise].
  eapply triple_step; [apply at_now|]. intros seen.
  eapply triple_step. { destruct (_ && _); [apply at_now|by apply triple_ret]. } intros now.
  eapply triple_know; [by apply triple_lift|]. intros gone Hgone.
  apply on_error_Ok, tombstone_Ok in Hgone as [Hd Hid]. cbv zeta.
  eapply triple_know; [by apply triple_raise_if|]. intros _ _.
  eapply triple_bind; [by apply delete_changes|]. intros ok. cbn beta.
  intros s x s' Hok H. destruct ok; [|by injection H as <- <-].
  destruct (Hok eq_refl) as (t' & Hstep & Hs). revert s x s' Hok Hs H.
  assert (∀ m : M Shelf KnowledgeTombstone, triple (at_tables t') m (λ _, at_tables t') whatever →
    ∀ s x s', (true = true → ∃ t', knowledge_step t t' ∧ at_tables t' s) → at_tables t' s → m s = (x, s') →
    match x with Ok _ => rtc knowledge_step t (tables_of s') | Raise _ => whatever s' end) as Hgo.
  { intros m Hm s x s' _ Hs H. specialize (Hm s x s' Hs H). destruct x; [|done]. rewrite Hm. by apply rtc_once. }
  apply Hgo. eapply triple_know; [by apply triple_raise_if|]. intros _ _.
  eapply triple_step; [apply at_session|]. intros _. by apply triple_ret.
Qed.

Lemma read_changes id_ company actor roles scopes : changes (read_knowledge id_ company actor roles scopes).
Proof.
  intros t. unfold read_knowledge. apply at_same.
  eapply triple_bind; [apply get_knowledge_Ok|]. intros r_ s x s' [Hs _]. revert s x s' Hs.
  destruct r_ as [r|]; [|by apply triple_raise].
  eapply triple_step; [apply at_now|]. intros now.
  eapply triple_know; [by apply triple_raise_if|]. intros _ _.
  eapply triple_know; [by apply triple_raise_if|]. intros _ _. by apply triple_ret.
Qed.

(** Composition: a sequence of changes is one. *)
Lemma changes_keep {A} (m : M Shelf A) : (∀ t, triple (at_tables t) m (λ _, at_tables t) whatever) → changes m.
Proof. intros Hm t. apply at_same, Hm. Qed.
Lemma changes_bind {A B} (m : M Shelf A) (k : A → M Shelf B) :
  changes m → (∀ a, changes (k a)) → changes (m ≫= k).
Proof.
  intros Hm Hk t. eapply triple_bind; [apply Hm|]. intros a s r s' Hs H.
  pose proof (Hk a (tables_of s) s r s' eq_refl H) as Hr. destruct r; [|done]. by etrans.
Qed.
Lemma changes_ret {A} (a : A) : changes (mret a).
Proof. apply changes_keep. intros t. by apply triple_ret. Qed.
Lemma changes_raise {A} e : changes (raiseM e : M Shelf A).
Proof. apply changes_keep. intros t. by apply triple_raise. Qed.
Lemma changes_raise_if b e : changes (raise_ifM b e : M Shelf unit).
Proof. destruct b; [apply changes_raise|apply changes_ret]. Qed.
Lemma changes_lift {A} (m : result A) : changes (liftM m).
Proof. destruct m; [apply changes_ret|apply changes_raise]. Qed.
Lemma changes_gets {A} (f : Shelf → A) : changes (getsM f).
Proof. apply changes_keep. by intros t s r s' Hs [= <- <-]. Qed.
Lemma changes_session {A} (m : M Session A) : changes (on_session m).
Proof. apply changes_keep. intros t. apply at_session. Qed.
Lemma changes_runs l : changes (put_runs l).
Proof. apply changes_keep. intros t. by apply triple_modify. Qed.
Lemma changes_when b (m : M Shelf unit) : changes m → changes (whenM b m).
Proof. destruct b; [done|]. intros _. apply changes_ret. Qed.
Lemma changes_for {A} (l : list A) f : (∀ a, changes (f a)) → changes (forM l f).
Proof.
  intros Hf. induction l as [|a l IH]; cbn; [apply changes_ret|]. by apply changes_bind.
Qed.

Lemma purge_changes company now r : changes (purge_knowledge company now r).
Proof.
  intros t. unfold purge_knowledge. eapply triple_know; [apply at_tombstones|]. intros l ->.
  set (id_ := kn_knowledge_id r). set (rows := filter (λ x, kn_knowledge_id x ≠ id_) t.1).
  assert (∀ T', triple (at_tables (t.1, T')) (k ← getsM sh_knowledge; put_knowledge (filter (λ x, kn_knowledge_id x ≠ id_) k))
            (λ _, at_tables (rows, T')) whatever) as Hend.
  { intros T'. eapply triple_know; [apply at_knowledge|]. intros k ->. apply at_put_knowledge. }
  destruct t as [K T]. destruct (bool_decide _) eqn:Hnew; cbn [whenM].
  - apply bool_decide_eq_true in Hnew. eapply triple_bind; [apply at_put_tombstones|]. intros [].
    eapply triple_conseq; [apply Hend|done| |done]. intros _ s ->. apply rtc_once, step_purge.
    + rewrite fmap_app. apply elem_of_app. right. by left.
    + by intros x ->%list_elem_of_singleton.
    + done.
  - apply bool_decide_eq_false, dec_stable in Hnew. eapply triple_step; [by apply triple_ret|]. intros [].
    eapply triple_conseq; [apply Hend|done| |done]. intros _ s ->. apply rtc_once.
    rewrite <- (app_nil_r T) at 2. apply step_purge; [by rewrite app_nil_r|by intros x ?%elem_of_nil|cbn; lia].
Qed.

Local Ltac keep_changes :=
  repeat lazymatch goal with
    | |- changes (_ ≫= _) => apply changes_bind; [|intros ?]
    | |- changes (mret _) => apply changes_ret
    | |- changes (raiseM _) => apply changes_raise
    | |- changes (raise_ifM _ _) => apply changes_raise_if
    | |- changes (liftM _) => apply changes_lift
    | |- changes (getsM _) => apply changes_gets
    | |- changes (on_session _) => apply changes_session
    | |- changes now_ => apply changes_session
    | |- changes (put_runs _) => apply changes_runs
    | |- changes (whenM _ _) => apply changes_when
    | |- changes (forM _ _) => apply changes_for; intros ?
    | |- changes (purge_knowledge _ _ _) => apply purge_changes
    | |- changes (if ?b then _ else _) => destruct b
    | |- changes (match ?o with Some _ => _ | None => _ end) => destruct o
    end.

Lemma carry_out_changes c request_id now cutoff : changes (carry_out c request_id now cutoff).
Proof. unfold carry_out. cbv zeta. keep_changes. Qed.
Lemma apply_changes c request_id now cutoff : changes (apply c request_id now cutoff).
Proof. unfold apply. cbv zeta. keep_changes; apply carry_out_changes. Qed.
Lemma execute_changes days c request_id : changes (execute days c request_id).
Proof. unfold execute. keep_changes. apply apply_changes. Qed.

Lemma request_steps {A} (m : M Shelf A) s :
  changes m → rtc knowledge_step (tables_of s) (tables_of (request m s).2).
Proof.
  intros Hm. unfold request. destruct (m s) as [r s'] eqn:H. specialize (Hm _ s r s' eq_refl H).
  destruct r; [exact Hm|]. constructor.
Qed.
End operations.

(** ** Histories *)

(** A request to one of the routes of this component, or whatever another
    component does to the session. *)
Inductive shelf_op :=
  | PublishNew (company artifact actor : string) (roles : list string) (until : option datetime)
      (version : option Z)
  | PublishNext (company artifact actor id_ : string) (roles : list string) (until : option datetime)
      (version : option Z)
  | Read (id_ company actor : string) (roles scopes : list string)
  | Delete (id_ company actor : string)
  | Retain (enabled : bool) (days : Z) (actor : string) (c : RetentionCommand) (request_id : option string)
  | Elsewhere (f : Session → Session).

Section histories.
Context {E : Env}.

Definition run_shelf (s : Shelf) (o : shelf_op) : Shelf :=
  match o with
  | PublishNew company artifact actor roles until version =>
      (request (publish_new company artifact actor roles until version) s).2
  | PublishNext company artifact actor id_ roles until version =>
      (request (publish_next company artifact actor id_ roles until version) s).2
  | Read id_ company actor roles scopes => (request (read_knowledge id_ company actor roles scopes) s).2
  | Delete id_ company actor => (request (delete_knowledge id_ company actor) s).2
  | Retain enabled days actor c request_id => (apply_retention enabled days actor c request_id s).2
  | Elsewhere f => {| sh_session := f (sh_session s); sh_knowledge := sh_knowledge s;
                      sh_tombstones := sh_tombstones s; sh_runs := sh_runs s |}
  end.
Definition run_shelves : Shelf → list shelf_op → Shelf := foldl run_shelf.

Lemma run_shelf_steps s o : rtc knowledge_step (tables_of s) (tables_of (run_shelf s o)).
Proof.
  destruct o; cbn [run_shelf]; try apply request_steps.
  - apply publish_new_changes.
  - apply publish_next_changes.
  - apply read_changes.
  - apply delete_knowledge_changes.
  - unfold apply_retention. apply changes_bind; [apply changes_raise_if|intros _].
    apply changes_bind; [apply execute_changes|intros x].
    apply changes_bind; [apply changes_when, changes_session|intros _]. apply changes_ret.
  - constructor.
Qed.
Lemma run_shelves_steps ops s : rtc knowledge_step (tables_of s) (tables_of (run_shelves s ops)).
Proof.
  revert s. induction ops as [|o ops IH]; intros s; cbn; [constructor|].
  etrans; [apply run_shelf_steps|apply IH].
Qed.
End histories.

(** ** What a run removes *)
Section purges.
Context {E : Env}.

Definition not_delivered (l : list AuditEventRecord) (o : OutboxRow) : bool :=
  forallb (λ r, negb (delivered r o)) l.

(** The rows once the events [l] have become the tombstones [ts]. *)
Definition purged (l : list AuditEventRecord) (ts : list AuditRetentionTombstone) (d : DB) : DB :=
  set_tombstones (t_tombstones d ++ ts)
    (set_outbox (filter (λ o, not_delivered l o = true) (t_outbox d))
       (set_audits (filter (λ x, ae_audit_event_id x ∉ ae_audit_event_id <$> l) (t_audits d)) d)).

Lemma purged_nil d : purged [] [] d = d.
Proof.
  unfold purged. rewrite app_nil_r. rewrite (filter_all (λ o, not_delivered [] o = true)) by done.
  rewrite (filter_all (λ x, ae_audit_event_id x ∉ ae_audit_event_id <$> [])); [by destruct d|].
  intros x _. apply not_elem_of_nil.
Qed.

Lemma purged_cons r t l ts d : purged (r :: l) (t :: ts) d = purged l ts (purged [r] [t] d).
Proof.
  assert (∀ A : list AuditEventRecord, filter (λ x, ae_audit_event_id x ∉ ae_audit_event_id <$> r :: l) A
    = filter (λ x, ae_audit_event_id x ∉ ae_audit_event_id <$> l)
        (filter (λ x, ae_audit_event_id x ∉ ae_audit_event_id <$> [r]) A)) as HA.
  { intros A. rewrite list_filter_filter. apply list_filter_iff. intros x.
    rewrite !fmap_cons, !not_elem_of_cons. pose proof (not_elem_of_nil (ae_audit_event_id x)). tauto. }
  assert (∀ O : list OutboxRow, filter (λ o, not_delivered (r :: l) o = true) O
    = filter (λ o, not_delivered l o = true) (filter (λ o, not_delivered [r] o = true) O)) as HO.
  { intros O. rewrite list_filter_filter. apply list_filter_iff. intros o. unfold not_delivered.
    cbn [forallb]. rewrite andb_true_r, andb_true_iff. tauto. }
  destruct d as [a1 a2 a3 a4 a5 a6 a7 a8 a9 a10 a11 A O T a15 a16 a17]. unfold purged at 1.
  cbn [t_audits t_outbox t_tombstones]. rewrite (HA A), (HO O).
  assert (T ++ t :: ts = (T ++ [t]) ++ ts) as -> by by rewrite <- app_assoc. reflexivity.
Qed.

(** The tombstone is new, and so is its key. *)
Definition fresh_tombstone (company : string) (t : AuditRetentionTombstone)
    (T : list AuditRetentionTombstone) : Prop :=
  ∀ h, ts_idempotency_hash t = Some h →
    filter (λ x, ts_company_id x = company ∧ ts_idempotency_hash x = Some h) T = [].

Lemma purge_event_Ok company now r s n s' :
  purge_event company now r s = (Ok n, s') →
  ∃ t, audit_tombstone company now r = Ok t ∧ fresh_tombstone company t (t_tombstones (db s))
    ∧ s' = with_db s (purged [r] [t] (db s))
    ∧ n = Z.of_nat (length (filter (λ o, delivered r o = true) (t_outbox (db s)))).
Proof.
  unfold purge_event. intros H. apply M_bind_inv in H as [(t & s1 & [= Ht <-] & H)|(e & ? & [=])].
  apply M_bind_inv in H as [(d & s1 & [= <- <-] & H)|(e & [= ? ?] & [=])].
  apply M_bind_inv in H as [([] & s1 & Hc & H)|(e & ? & [=])]. unfold raise_ifM in Hc.
  destruct (_ || _) eqn:Hor; [discriminate|]. injection Hc as <-.
  apply M_bind_inv in H as [([] & s1 & [= <-] & H)|(e & [= ? ?] & [=])]. injection H as <- <-.
  exists t. split; [done|]. apply orb_false_iff in Hor as [_ Hh]. split.
  - intros h Hth. rewrite Hth in Hh. apply filter_none. intros x Hx [H1 H2].
    assert (existsb (λ x, bool_decide (ts_company_id x = company)
              && bool_decide (ts_idempotency_hash x = Some h)) (t_tombstones (db s)) = true) as Ht'.
    { apply existsb_exists. exists x. split; [by apply list_elem_of_In|]. by rewrite !bool_decide_true. }
    by rewrite Ht' in Hh.
  - split; [|done].
    assert (∀ O : list OutboxRow, filter (λ o, not_delivered [r] o = true) O = filter (λ o, delivered r o = false) O)
      as HO.
    { intros O. apply list_filter_iff. intros o. cbn. rewrite andb_true_r. by destruct (delivered r o). }
    assert (∀ A : list AuditEventRecord, filter (λ x, ae_audit_event_id x ∉ ae_audit_event_id <$> [r]) A
      = filter (λ x, ae_audit_event_id x ≠ ae_audit_event_id r) A) as HA.
    { intros A. apply list_filter_iff. intros x. cbn. rewrite not_elem_of_cons, elem_of_nil. tauto. }
    unfold purged. rewrite (HO (t_outbox (db s))), (HA (t_audits (db s))). reflexivity.
Qed.

Lemma purge_events_Ok company now l s n s' :
  purge_events company now l s = (Ok n, s') →
  ∃ ts, Forall2 (λ r t, audit_tombstone company now r = Ok t) l ts
    ∧ (∀ i t, ts !! i = Some t → fresh_tombstone company t (t_tombstones (db s) ++ take i ts))
    ∧ s' = with_db s (purged l ts (db s)).
Proof.
  revert s n. induction l as [|r l IH]; cbn [purge_events]; intros s n H.
  - injection H as _ <-. exists []. split; [constructor|]. split; [by intros []|].
    rewrite purged_nil. by destruct s.
  - apply M_bind_inv in H as [(a & s1 & H1 & H)|(e & ? & [=])].
    apply M_bind_inv in H as [(k & s2 & H2 & H)|(e & ? & [=])]. injection H as _ <-.
    apply purge_event_Ok in H1 as (t & Ht & Hf & -> & _). apply IH in H2 as (ts & Hts & Hfs & ->).
    exists (t :: ts). split; [by constructor|]. split.
    + intros [|i] x; cbn; [intros [= <-]; by rewrite app_nil_r|]. intros Hx. apply Hfs in Hx.
      cbn in Hx. by rewrite <- app_assoc in Hx.
    + by rewrite (purged_cons r t l ts).
Qed.
End purges.

(** ** One request *)
Section runs.
Context {E : Env}.

Definition with_session (s : Shelf) (x : Session) : Shelf :=
  {| sh_session := x; sh_knowledge := sh_knowledge s; sh_tombstones := sh_tombstones s; sh_runs := sh_runs s |}.
Definition ticked (x : Session) : Session :=
  {| db := db x; durable := durable x; ticks := S (ticks x); ids := ids x |}.

(** The tombstones once a record is purged: one more, unless it has one. *)
Definition bury (company : string) (now : instant) (l : list KnowledgeTombstone) (r : KnowledgeRecord)
    : list KnowledgeTombstone :=
  if decide (kn_knowledge_id r ∈ kt_knowledge_id <$> l) then l
  else l ++ [{| kt_knowledge_id := kn_knowledge_id r; kt_company_id := company; kt_actor_id := "retention";
                kt_version := kn_version r; kt_deleted_at := of_utc now |}].

Lemma purge_knowledge_Ok company now r s x s' :
  purge_knowledge company now r s = (x, s') → x = Ok () ∧ sh_session s' = sh_session s ∧ sh_runs s' = sh_runs s
    ∧ sh_knowledge s' = filter (λ k, kn_knowledge_id k ≠ kn_knowledge_id r) (sh_knowledge s)
    ∧ sh_tombstones s' = bury company now (sh_tombstones s) r.
Proof.
  unfold purge_knowledge. intros H. apply M_bind_inv in H as [(l & s1 & [= <- <-] & H)|(e & [= ? ?] & ?)].
  unfold bury. apply M_bind_inv in H as [(u & s1 & Hw & H)|(e & Hw & ->)]; unfold whenM in Hw;
    destruct (bool_decide _) eqn:Hb; [| |discriminate Hw..]; injection Hw as <- <-; injection H as <- <-.
  - apply bool_decide_eq_true in Hb. by rewrite decide_False.
  - apply bool_decide_eq_false, dec_stable in Hb. by rewrite decide_True.
Qed.

Lemma purge_all_Ok company now l s x s' :
  forM l (purge_knowledge company now) s = (x, s') → sh_session s' = sh_session s ∧ sh_runs s' = sh_runs s
    ∧ sh_knowledge s' = filter (λ k, kn_knowledge_id k ∉ kn_knowledge_id <$> l) (sh_knowledge s)
    ∧ sh_tombstones s' = foldl (bury company now) (sh_tombstones s) l.
Proof.
  revert s. induction l as [|r l IH]; cbn [forM]; intros s H.
  - injection H as _ <-. split_and!; try done. symmetry. apply filter_all. intros k _. apply not_elem_of_nil.
  - apply M_bind_inv in H as [([] & s1 & H1 & H)|(e & H1 & ->)].
    + apply purge_knowledge_Ok in H1 as (_ & A1 & A2 & A3 & A4). apply IH in H as (B1 & B2 & B3 & B4).
      rewrite A1 in B1. rewrite A2 in B2. rewrite A4 in B4. split_and!; [done..| |done].
      rewrite B3, A3, list_filter_filter. apply list_filter_iff. intros k. cbn. rewrite not_elem_of_cons. naive_solver.
    + by apply purge_knowledge_Ok in H1 as [[=] _].
Qed.

Lemma buried company now l expired :
  l `prefix_of` foldl (bury company now) l expired
  ∧ ∀ k, k ∈ expired → kn_knowledge_id k ∈ kt_knowledge_id <$> foldl (bury company now) l expired.
Proof.
  revert l. induction expired as [|r expired IH]; intros l; cbn; [split; [done|by intros k ?%elem_of_nil]|].
  destruct (IH (bury company now l r)) as [[l' Hl] Hk].
  assert (∃ l0, bury company now l r = l ++ l0 ∧ kn_knowledge_id r ∈ kt_knowledge_id <$> bury company now l r)
    as (l0 & Hl0 & Hr).
  { unfold bury. case_decide; [exists []; by rewrite app_nil_r|]. eexists. split; [done|].
    rewrite fmap_app. apply elem_of_app. right. by left. }
  split; [exists (l0 ++ l'); by rewrite Hl, Hl0, app_assoc|].
  intros k [->|Hin]%elem_of_cons; [|by apply Hk]. rewrite Hl, fmap_app. apply elem_of_app. by left.
Qed.

(** A run that is not a dry one and whose request is new. *)
Lemma carry_out_Ok c request_id now cutoff s rc s' :
  rt_dry_run c = false → carry_out c request_id now cutoff s = (Ok rc, s') →
  ∃ ts digest, let d := db (sh_session s) in let events := candidates d c cutoff in
    let expired := lapsed_knowledge (sh_knowledge s) c now cutoff in
    Forall2 (λ r t, audit_tombstone (rt_company_id c) now r = Ok t) events ts
    ∧ (∀ i t, ts !! i = Some t → fresh_tombstone (rt_company_id c) t (t_tombstones d ++ take i ts))
    ∧ sh_session s' = with_db (sh_session s) (purged events ts d)
    ∧ sh_knowledge s' = filter (λ k, kn_knowledge_id k ∉ kn_knowledge_id <$> expired) (sh_knowledge s)
    ∧ command_digest c = Ok digest
    ∧ sh_runs s' = sh_runs s ++ [{| rn_company_id := rt_company_id c; rn_request_id := request_id;
         rn_command_hash := digest; rn_receipt := rc; rn_created_at := now |}]
    ∧ rc_purged_audit_events rc = Z.of_nat (length events)
    ∧ rc_purged_knowledge rc = Z.of_nat (length expired)
    ∧ sh_tombstones s' = foldl (bury (rt_company_id c) now) (sh_tombstones s) expired.
Proof.
  intros Hdry. unfold carry_out. rewrite Hdry. cbv zeta. intros H.
  apply M_bind_inv in H as [(d & s1 & [= <- <-] & H)|(e & [= ? ?] & [=])].
  apply M_bind_inv in H as [(k & s2 & [= <- <-] & H)|(e & [= ? ?] & [=])]. cbn [sh_session sh_knowledge] in H.
  apply M_bind_inv in H as [(n & s3 & Hp & H)|(e & ? & [=])].
  apply M_bind_inv in Hp as [(m & s4 & Hp & Hk)|(e & ? & [=])].
  apply M_bind_inv in Hk as [([] & s5 & Hk & Hn)|(e & ? & [=])]. injection Hn as <- <-.
  unfold on_session in Hp. destruct (purge_events _ _ _ _) as [x y] eqn:Hpe. injection Hp as -> <-.
  cbn [sh_session] in Hpe. apply purge_events_Ok in Hpe as (ts & Hts & Hf & ->).
  apply purge_all_Ok in Hk as (K1 & K2 & K3 & K4). cbn [sh_session sh_runs sh_knowledge sh_tombstones] in K1, K2, K3, K4.
  apply M_bind_inv in H as [(digest & s6 & [= Hd <-] & H)|(e & ? & [=])].
  apply M_bind_inv in H as [(runs & s7 & [= <- <-] & H)|(e & [= ? ?] & [=])].
  apply M_bind_inv in H as [([] & s8 & [= <-] & H)|(e & [= ? ?] & [=])]. injection H as <- <-.
  exists ts, digest. cbv zeta. rewrite K2. split_and!; try done. exact (f_equal Ok Hd).
Qed.

(** The request of a command, from its guards on. *)
Lemma execute_Ok days c request_id s rc s' :
  execute days c request_id s = (Ok rc, s') →
  90 ≤ days ≤ 3650
  ∧ (rt_dry_run c = false → truthy request_id = true ∧ text_between 0 48 (str_or_empty request_id) = true)
  ∧ let now := clock (ticks (sh_session s)) in
    apply c request_id now (now - days * us_per_day) (with_session s (ticked (sh_session s))) = (Ok rc, s').
Proof.
  unfold execute. intros H.
  apply M_bind_inv in H as [([] & s1 & H1 & H)|(e & ? & [=])]. unfold raise_ifM in H1.
  destruct (negb _) eqn:Hdays; [discriminate|]. injection H1 as <-.
  apply M_bind_inv in H as [([] & s1 & H1 & H)|(e & ? & [=])]. unfold raise_ifM in H1.
  destruct (negb (rt_dry_run c) && _) eqn:Hkey; [discriminate|]. injection H1 as <-.
  apply M_bind_inv in H as [(now & s1 & [= <- <-] & H)|(e & [= ? ?] & [=])].
  apply negb_false_iff, andb_true_iff in Hdays as [H1%Z.leb_le H2%Z.leb_le]. split; [done|]. split; [|exact H].
  intros Hdry. rewrite Hdry in Hkey. apply orb_false_iff in Hkey as [Hk1 Hk2].
  by apply negb_false_iff in Hk1, Hk2.
Qed.

Lemma apply_known c request_id now cutoff s rc s' :
  rt_dry_run c = false → apply c request_id now cutoff s = (Ok rc, s') →
  rt_company_id c ∈ cc_company_id <$> t_companies (db (sh_session s))
  ∧ match previous_run (rt_company_id c) (str_or_empty request_id) (sh_runs s) with
    | Some run => s' = s ∧ rc = rn_receipt run ∧ command_digest c = Ok (rn_command_hash run)
    | None => carry_out c (str_or_empty request_id) now cutoff s = (Ok rc, s')
    end.
Proof.
  intros Hdry. unfold apply. rewrite Hdry. cbv zeta. intros H.
  apply M_bind_inv in H as [(known & s1 & [= <- <-] & H)|(e & [= ? ?] & [=])].
  apply M_bind_inv in H as [([] & s1 & H1 & H)|(e & ? & [=])]. unfold raise_ifM in H1.
  destruct (negb _) eqn:Hk in H1; [discriminate|]. injection H1 as <-.
  apply negb_false_iff, bool_decide_eq_true in Hk. split; [exact Hk|].
  apply M_bind_inv in H as [(p & s1 & [= <- <-] & H)|(e & [= ? ?] & [=])]. cbn [sh_runs] in *.
  destruct (previous_run _ _ _) as [run|] eqn:Hp; cbn [sh_runs] in *.
  - apply M_bind_inv in H as [(digest & s1 & [= Hd <-] & H)|(e & ? & [=])].
    apply M_bind_inv in H as [([] & s1 & H1 & H)|(e & ? & [=])]. unfold raise_ifM in H1.
    destruct (negb _) eqn:Hk' in H1; [discriminate|]. injection H1 as <-. injection H as <- <-.
    apply negb_false_iff, bool_decide_eq_true in Hk'. rewrite Hk'.
    split_and!; [by destruct s|done|exact (f_equal Ok Hd)].
  - by destruct s.
Qed.
(** Which tombstone answers a key. *)
Lemma first_fresh company (T ts : list AuditRetentionTombstone) i t h :
  (∀ j x, ts !! j = Some x → fresh_tombstone company x (T ++ take j ts)) →
  ts !! i = Some t → ts_company_id t = company → ts_idempotency_hash t = Some h →
  ∀ T', head (filter (λ x, ts_company_id x = company ∧ ts_idempotency_hash x = Some h) ((T ++ ts) ++ T')) = Some t.
Proof.
  intros Hf Ht Hc Hh T'. specialize (Hf i t Ht h Hh).
  rewrite <- (take_drop_middle ts i t Ht), !app_assoc, !filter_app, <- filter_app, Hf. cbn [app].
  by rewrite filter_cons_True.
Qed.

Lemma candidate_spec d c cutoff r :
  r ∈ candidates d c cutoff → r ∈ t_audits d ∧ purgeable d (rt_company_id c) cutoff r = true.
Proof.
  intros Hr. unfold candidates in Hr. apply elem_of_take in Hr as (i & Hi & _).
  apply list_elem_of_lookup_2 in Hi. rewrite (py_sorted_perm audit_leb) in Hi.
  by apply list_elem_of_filter in Hi as [? ?].
Qed.

Lemma lapsed_spec l c now cutoff r :
  r ∈ lapsed_knowledge l c now cutoff → r ∈ l ∧ lapsed (rt_company_id c) now cutoff r = true.
Proof.
  intros Hr. unfold lapsed_knowledge in Hr. apply elem_of_take in Hr as (i & Hi & _).
  apply list_elem_of_lookup_2 in Hi. rewrite (py_sorted_perm _) in Hi.
  by apply list_elem_of_filter in Hi as [? ?].
Qed.
Lemma carry_out_dry c request_id now cutoff s x s' :
  rt_dry_run c = true → carry_out c request_id now cutoff s = (x, s') → s' = s.
Proof.
  intros Hdry. unfold carry_out. rewrite Hdry. cbv zeta. intros H.
  apply M_bind_inv in H as [(d & s1 & [= <- <-] & H)|(e & [= ? ?] & ?)].
  apply M_bind_inv in H as [(k & s2 & [= <- <-] & H)|(e & [= ? ?] & ?)].
  injection H as _ <-. by destruct s.
Qed.

(** What a request leaves: either nothing new, or the effect of one run. *)
Lemma execute_effect days c request_id s rc s' :
  execute days c request_id s = (Ok rc, s') →
  let now := clock (ticks (sh_session s)) in let cutoff := now - days * us_per_day in
  let d := db (sh_session s) in
  s' = with_session s (ticked (sh_session s))
  ∨ rt_dry_run c = false
    ∧ ∃ ts, let events := candidates d c cutoff in
      let expired := lapsed_knowledge (sh_knowledge s) c now cutoff in
      Forall2 (λ r t, audit_tombstone (rt_company_id c) now r = Ok t) events ts
      ∧ (∀ i t, ts !! i = Some t → fresh_tombstone (rt_company_id c) t (t_tombstones d ++ take i ts))
      ∧ db (sh_session s') = purged events ts d
      ∧ sh_knowledge s' = filter (λ k, kn_knowledge_id k ∉ kn_knowledge_id <$> expired) (sh_knowledge s)
      ∧ sh_tombstones s' = foldl (bury (rt_company_id c) now) (sh_tombstones s) expired
      ∧ ∃ digest, command_digest c = Ok digest ∧ sh_runs s' = sh_runs s ++
          [{| rn_company_id := rt_company_id c; rn_request_id := str_or_empty request_id;
              rn_command_hash := digest; rn_receipt := rc; rn_created_at := now |}].
Proof.
  intros (_ & _ & H)%execute_Ok. cbv zeta in *. destruct (rt_dry_run c) eqn:Hdry.
  - left. unfold apply in H. rewrite Hdry in H. cbv zeta in H.
    apply M_bind_inv in H as [(known & s1 & [= <- <-] & H)|(e & [= ? ?] & [=])].
    apply M_bind_inv in H as [([] & s1 & H1 & H)|(e & ? & [=])]. unfold raise_ifM in H1.
    destruct (negb _) in H1; [discriminate|]. injection H1 as <-. by apply carry_out_dry in H as ->.
  - apply apply_known in H as [_ H]; [|done]. destruct (previous_run _ _ _) as [run|].
    + destruct H as (-> & _ & _). by left.
    + right. split; [done|]. apply carry_out_Ok in H as (ts & digest & H1 & H2 & H3 & H4 & H5 & H6 & _ & _ & H7);
        [|done]. cbv zeta in *. cbn [sh_session sh_knowledge sh_tombstones sh_runs with_session ticked db] in *.
      exists ts. split_and!; try done; [by rewrite H3|by exists digest].
Qed.
End runs.

(** ** Facts the theorems put together *)
Section facts.
Context {E : Env}.

Lemma record_live row r : _record row = Ok r → kn_deleted_at r = None → kn_deleted_at row = None.
Proof. unfold _record. intros (_ & _ & _ & _ & _ & ->)%validate_knowledge_Ok. cbn. by destruct (kn_deleted_at row). Qed.

Lemma accessible_spec now r :
  is_accessible now r = true ↔ kn_deleted_at r = None ∧ ∀ t, kn_retention_until r = Some t → now < as_utc t.
Proof.
  unfold is_accessible. rewrite andb_true_iff, bool_decide_eq_true.
  destruct (kn_retention_until r) as [t|]; [rewrite Z.ltb_lt|]; naive_solver.
Qed.

Definition may_read (actor : string) (roles scopes : list string) (r : KnowledgeRecord) : Prop :=
  actor = kn_owner_actor_id r ∨ (∃ x, x ∈ kn_reader_role_ids r ∧ x ∈ roles) ∨ "*" ∈ scopes.

Lemma may_read_spec actor roles scopes r :
  negb (bool_decide (actor = kn_owner_actor_id r))
    && negb (existsb (λ x, bool_decide (x ∈ roles)) (kn_reader_role_ids r))
    && negb (bool_decide ("*" ∈ scopes)) = false ↔ may_read actor roles scopes r.
Proof.
  rewrite <- !negb_orb, negb_false_iff, !orb_true_iff, !bool_decide_eq_true, existsb_exists.
  unfold may_read. setoid_rewrite bool_decide_eq_true. setoid_rewrite list_elem_of_In. tauto.
Qed.

(** The computation of a read, from the row it finds. *)
Lemma read_value id_ company actor roles scopes s :
  read_knowledge id_ company actor roles scopes s =
  match find_knowledge id_ company (sh_knowledge s) with
  | None => (Raise (not_found id_), s)
  | Some row =>
      match _record row with
      | Raise e => (Raise e, s)
      | Ok r =>
          ((if negb (is_accessible (clock (ticks (sh_session s))) r) then Raise (not_found id_)
            else if negb (bool_decide (actor = kn_owner_actor_id r))
                 && negb (existsb (λ x, bool_decide (x ∈ roles)) (kn_reader_role_ids r))
                 && negb (bool_decide ("*" ∈ scopes))
            then Raise (Exn "KnowledgeReadForbiddenError" id_) else Ok r),
           with_session s (ticked (sh_session s)))
      end
  end.
Proof.
  unfold read_knowledge, get_knowledge, mbind, mret, M_bind, M_ret, getsM, liftM, raiseM.
  destruct (find_knowledge _ _ _) as [row|]; [|done]. destruct (_record row) as [r|e]; [|done].
  unfold now_, on_session, now_utc, raise_ifM, raiseM, mret, M_ret, with_session, ticked.
  cbn [sh_session sh_knowledge sh_tombstones sh_runs].
  destruct (negb (is_accessible _ r)); [done|]. by destruct (_ && _).
Qed.

Lemma read_iff id_ company actor roles scopes s r :
  (read_knowledge id_ company actor roles scopes s).1 = Ok r ↔
  ∃ row, find_knowledge id_ company (sh_knowledge s) = Some row ∧ _record row = Ok r
    ∧ kn_deleted_at r = None
    ∧ (∀ t, kn_retention_until r = Some t → clock (ticks (sh_session s)) < as_utc t)
    ∧ may_read actor roles scopes r.
Proof.
  rewrite read_value. pose proof (accessible_spec (clock (ticks (sh_session s)))) as Ha.
  destruct (find_knowledge _ _ _) as [row|]; [|split; [done|by intros (? & [=] & _)]].
  destruct (_record row) as [x|e] eqn:Hx; cbn [fst].
  2: { split; [done|]. intros (? & [= <-] & Hr & _). congruence. }
  pose proof (may_read_spec actor roles scopes x) as Hm.
  assert (∀ φ : Prop, (∃ row0, Some row = Some row0 ∧ _record row0 = Ok r ∧ φ) ↔ x = r ∧ φ) as Hone.
  { intros φ. split; [|intros [-> ?]; by exists row]. intros (? & [= <-] & Hr & Hφ). split; [congruence|done]. }
  rewrite Hone. clear Hone Hx. destruct (is_accessible _ x) eqn:Hx; cbn [negb].
  - apply Ha in Hx as [Hx1 Hx2]. destruct (_ && _ && _).
    + split; [done|]. intros (<- & _ & _ & Hmay). by apply Hm in Hmay.
    + split; [|by intros [-> _]]. intros [= <-]. split_and!; try done. by apply Hm.
  - split; [done|]. intros (<- & H1 & H2 & _). assert (is_accessible (clock (ticks (sh_session s))) x = true)
      by (by apply Ha). congruence.
Qed.

Lemma read_keeps id_ company actor roles scopes s :
  tables_of (read_knowledge id_ company actor roles scopes s).2 = tables_of s
  ∧ db (sh_session (read_knowledge id_ company actor roles scopes s).2) = db (sh_session s).
Proof.
  rewrite read_value. destruct (find_knowledge _ _ _) as [row|]; [|done]. by destruct (_record row).
Qed.

Lemma read_accessible id_ company actor roles scopes s r s' :
  read_knowledge id_ company actor roles scopes s = (Ok r, s') →
  ∃ row, row ∈ sh_knowledge s ∧ kn_knowledge_id row = id_ ∧ kn_deleted_at row = None.
Proof.
  intros H. assert ((read_knowledge id_ company actor roles scopes s).1 = Ok r) as Hr by by rewrite H.
  apply read_iff in Hr as (row & Hrow & Hrec & Hd & _). exists row.
  unfold find_knowledge in Hrow. apply head_Some_elem_of, list_elem_of_filter in Hrow as [[? ?] ?].
  split_and!; [done..|]. by eapply record_live.
Qed.

Lemma length_take_le' {A} n (l : list A) : (length (take n l) ≤ n)%nat.
Proof. rewrite length_take. lia. Qed.

Lemma purgeable_spec d company cutoff r :
  purgeable d company cutoff r = true →
  ae_company_id r = company ∧ as_utc (ae_created_at r) < cutoff
  ∧ (∀ o, o ∈ t_outbox d → ob_correlation_id o = Some (ae_audit_event_id r) → ob_status o = "published")
  ∧ (∀ a, a ∈ t_artifacts d → artifact_company_id a = company → pins (ae_audit_event_id r) a = false).
Proof.
  unfold purgeable, is_pending, is_pinned.
  intros [[[H1%bool_decide_eq_true H2%Z.ltb_lt]%andb_true_iff H3%negb_true_iff]%andb_true_iff
          H4%negb_true_iff]%andb_true_iff.
  split_and!; [done..| |].
  - intros o Ho Hc. apply dec_stable. intros Hs.
    rewrite <- not_true_iff_false in H3. apply H3, existsb_exists. exists o.
    split; [by apply list_elem_of_In|]. by rewrite bool_decide_true, bool_decide_false.
  - intros a Ha Hc. apply not_true_iff_false. intros Hp.
    rewrite <- not_true_iff_false in H4. apply H4, existsb_exists. exists a.
    split; [by apply list_elem_of_In|]. by rewrite bool_decide_true, Hp.
Qed.

Lemma lapsed_inv company now cutoff k :
  lapsed company now cutoff k = true →
  kn_company_id k = company
  ∧ ∃ t, kn_retention_until k = Some t ∧ as_utc t < now ∨ kn_deleted_at k = Some t ∧ as_utc t < cutoff.
Proof.
  unfold lapsed. intros [H1%bool_decide_eq_true H2%orb_true_iff]%andb_true_iff. split; [done|].
  destruct H2 as [H|H].
  - destruct (kn_retention_until k) as [t|]; [|done]. exists t. left. split; [done|by apply Z.ltb_lt].
  - destruct (kn_deleted_at k) as [t|]; [|done]. exists t. right. split; [done|by apply Z.ltb_lt].
Qed.

(** The run that a request leaves behind, or finds. *)
Lemma previous_prefix company key l l' run :
  previous_run company key l = Some run → previous_run company key (l ++ l') = Some run.
Proof.
  unfold previous_run. rewrite filter_app. by destruct (filter _ l).
Qed.

Lemma recorded_run c key now cutoff s rc s' :
  rt_dry_run c = false → apply c (Some key) now cutoff s = (Ok rc, s') →
  ∃ run, previous_run (rt_company_id c) key (sh_runs s') = Some run ∧ rn_receipt run = rc
    ∧ command_digest c = Ok (rn_command_hash run).
Proof.
  intros Hdry [_ H]%apply_known; [|done]. cbn [str_or_empty] in H.
  destruct (previous_run _ _ _) as [run|] eqn:Hp.
  - destruct H as (-> & -> & Hd). by exists run.
  - apply carry_out_Ok in H as (ts & digest & H); [|done]. cbv zeta in H.
    destruct H as (_ & _ & _ & _ & Hd & Hr & _). eexists. rewrite Hr. unfold previous_run in *.
    rewrite filter_app. destruct (filter _ (sh_runs s)); [|done]. cbn [app].
    rewrite filter_cons_True by done. cbn [head]. split_and!; [reflexivity|done|exact Hd].
Qed.

Lemma digest_computed c : ∃ h, command_digest c = Ok h.
Proof. by eexists. Qed.

Lemma replay_answer days c' key s run :
  90 ≤ days ≤ 3650 → rt_dry_run c' = false → truthy (Some key) = true → text_between 0 48 key = true →
  rt_company_id c' ∈ cc_company_id <$> t_companies (db (sh_session s)) →
  previous_run (rt_company_id c') key (sh_runs s) = Some run →
  ∃ h, command_digest c' = Ok h
    ∧ execute days c' (Some key) s =
        ((if decide (h = rn_command_hash run) then Ok (rn_receipt run)
          else Raise (value_error "retention_request_conflict")),
         with_session s (ticked (sh_session s))).
Proof.
  intros Hdays Hdry Hkey Hlen Hknown Hprev. destruct (digest_computed c') as [h Hh]. exists h. split; [exact Hh|].
  assert (str_or_empty (Some key) = key) as Hor by done.
  unfold execute. rewrite Hdry, Hkey, Hor, Hlen.
  assert ((90 <=? days) && (days <=? 3650) = true) as -> by (apply andb_true_iff; split; apply Z.leb_le; lia).
  cbn [negb andb orb raise_ifM]. unfold mbind, M_bind, now_, on_session, now_utc.
  cbn [mret M_ret sh_session sh_knowledge sh_tombstones sh_runs].
  unfold apply. rewrite Hdry, Hor. unfold mbind, M_bind, on_session, query, getsM.
  cbn [sh_session sh_knowledge sh_tombstones sh_runs db]. rewrite bool_decide_true by done.
  cbn [negb raise_ifM mret M_ret sh_runs]. rewrite Hprev, Hh. cbn [liftM].
  destruct (decide (h = rn_command_hash run)) as [->|Hne].
  - by rewrite bool_decide_true.
  - by rewrite bool_decide_false by congruence.
Qed.

Lemma purged_member c cutoff ts d r :
  NoDup (ae_audit_event_id <$> t_audits d) → r ∈ t_audits d →
  r ∉ t_audits (purged (candidates d c cutoff) ts d) → r ∈ candidates d c cutoff.
Proof.
  intros Hnd Hr Hgone.
  destruct (decide (ae_audit_event_id r ∈ ae_audit_event_id <$> candidates d c cutoff)) as [Hin|Hno].
  - apply list_elem_of_fmap in Hin as (x & Hid & Hx). assert (r = x) as ->; [|done].
    apply candidate_spec in Hx as [Hx _]. by eapply (get_row_NoDup ae_audit_event_id).
  - exfalso. apply Hgone. unfold purged. by apply list_elem_of_filter.
Qed.

Lemma tombstone_built company now r t :
  audit_tombstone company now r = Ok t →
  ts_company_id t = company ∧ ts_idempotency_hash t = key_hash company r
  ∧ ae_audit_event_id (ts_receipt t) = ae_audit_event_id r ∧ ts_audit_event_id t = ae_audit_event_id r.
Proof. unfold audit_tombstone. intros H. by inv_bind. Qed.

(** An append under a key that a tombstone answers. *)
Lemma append_retained ev g key t s :
  AuditEvent.for_append (with_principal ev) = Ok g →
  ae_idempotency_key (AuditEvent.record g) = Some key → key ≠ "" →
  head (filter (λ x, ts_company_id x = ae_company_id (AuditEvent.record g)
      ∧ ts_idempotency_hash x = Some (idempotency_digest (ae_company_id (AuditEvent.record g)) key))
    (t_tombstones (db s))) = Some t →
  append_audit_event ev s = (Ok (with_key (ts_receipt t) key), s).
Proof.
  intros Hg Hk Hne Ht. unfold append_audit_event. rewrite Hg.
  unfold mbind, M_bind, liftM, query, getsM, replayed_audit. rewrite Hk.
  assert (str_empty key = false) as -> by (by destruct key).
  unfold _get_retained_audit, id. rewrite Ht. done.
Qed.
End facts.

(** ** Theorems *)
Section theorems.
Context {E : Env}.

(** C40: from empty tables, whatever is published, revised, deleted, purged and
    done elsewhere: identifiers stay unique, a record keeps its provenance, its
    version only grows and what was deleted never changes; a tombstone is
    never lost, and its identifier is never read again. *)
Theorem knowledge_history s ops ops' :
  sh_knowledge s = [] → sh_tombstones s = [] →
  let s1 := run_shelves s ops in let s2 := run_shelves s1 ops' in
  tables_ok (tables_of s2)
  ∧ (∀ r r', r ∈ sh_knowledge s1 → r' ∈ sh_knowledge s2 → kn_knowledge_id r = kn_knowledge_id r' →
       provenance r' = provenance r
       ∧ (r' = r ∨ kn_deleted_at r = None
            ∧ (kn_version r < kn_version r' ∨ kn_version r' = kn_version r ∧ kn_deleted_at r' ≠ None)))
  ∧ (∀ t, t ∈ sh_tombstones s1 → t ∈ sh_tombstones s2
       ∧ ∀ company actor roles scopes r,
           (read_knowledge (kt_knowledge_id t) company actor roles scopes s2).1 ≠ Ok r).
Proof.
  intros HK HT s1 s2.
  assert (tables_ok (tables_of s)) as Hok.
  { unfold tables_of. rewrite HK, HT. split; cbn; [constructor..|]. by intros r ?%elem_of_nil. }
  destruct (knowledge_run _ _ (run_shelves_steps ops s) Hok) as [Hok1 _].
  destruct (knowledge_run _ _ (run_shelves_steps ops' s1) Hok1) as [Hok2 [V1 V2 V3 V4 V5 V6]].
  split; [done|]. split.
  - intros r r' Hr Hr' Hid. split; [by apply V2|].
    destruct (kn_deleted_at r) as [t|] eqn:Hd.
    + left. apply V4; try done. by rewrite Hd.
    + destruct (V3 r r' Hr Hr' Hid); [by left|by right].
  - intros t Ht. destruct V1 as [l Hl].
    assert (sh_tombstones s2 = sh_tombstones s1 ++ l) as Hl' by exact Hl. split; [rewrite Hl'; apply elem_of_app; by left|].
    intros company actor roles scopes r Hread.
    destruct (read_knowledge _ _ _ _ _ s2) as [x s3] eqn:Heq. cbn in Hread. subst x.
    apply read_accessible in Heq as (row & Hrow & Hid & Hlive). destruct (tk_deleted _ Hok2 row Hrow) as [_ Hdead].
    assert (kt_knowledge_id t ∈ kt_knowledge_id <$> sh_tombstones s2) as Hin.
    { rewrite Hl', fmap_app. apply elem_of_app. left. by apply list_elem_of_fmap_2. }
    apply Hdead; [|done]. by rewrite Hid.
Qed.

(** A read returns exactly the company's record of that identifier, read in
    UTC, when it is neither deleted nor past its retention and the reader owns
    it, has one of its roles or the scope of everything; it changes no row. *)
Theorem knowledge_read_exactly id_ company actor roles scopes s r :
  ((read_knowledge id_ company actor roles scopes s).1 = Ok r ↔
   ∃ row, find_knowledge id_ company (sh_knowledge s) = Some row ∧ _record row = Ok r
     ∧ kn_deleted_at r = None
     ∧ (∀ t, kn_retention_until r = Some t → clock (ticks (sh_session s)) < as_utc t)
     ∧ (actor = kn_owner_actor_id r ∨ (∃ x, x ∈ kn_reader_role_ids r ∧ x ∈ roles) ∨ "*" ∈ scopes))
  ∧ tables_of (read_knowledge id_ company actor roles scopes s).2 = tables_of s
  ∧ db (sh_session (read_knowledge id_ company actor roles scopes s).2) = db (sh_session s).
Proof. split; [apply read_iff|apply read_keeps]. Qed.


(** A retention request repeated under its key, at any later moment,
    returns the receipt of the first time and changes no row, if its command is
    the same, and is refused otherwise. *)
Theorem retention_replayed days days' c c' key s rc s1 s2 :
  rt_dry_run c = false → execute days c (Some key) s = (Ok rc, s1) →
  sh_runs s1 `prefix_of` sh_runs s2 →
  rt_company_id c ∈ cc_company_id <$> t_companies (db (sh_session s2)) →
  90 ≤ days' ≤ 3650 → rt_company_id c' = rt_company_id c → rt_dry_run c' = false →
  ∃ h h', command_digest c = Ok h ∧ command_digest c' = Ok h'
    ∧ execute days' c' (Some key) s2 =
        ((if decide (h' = h) then Ok rc else Raise (value_error "retention_request_conflict")),
         with_session s2 (ticked (sh_session s2))).
Proof.
  intros Hdry H Hruns Hknown Hdays Hco Hdry'.
  apply execute_Ok in H as (_ & Hkey & H). destruct (Hkey Hdry) as [Hk1 Hk2]. cbv zeta in H.
  destruct (recorded_run _ _ _ _ _ _ _ Hdry H) as (run & Hrun & <- & Hdig).
  assert (previous_run (rt_company_id c') key (sh_runs s2) = Some run) as Hprev.
  { rewrite Hco. destruct Hruns as [l ->]. by apply previous_prefix. }
  destruct (replay_answer days' c' key s2 run) as (h' & Hh' & Heq); try done; [by rewrite Hco|].
  by exists (rn_command_hash run), h'.
Qed.

(** C39: an audit event that retention removed still answers its idempotency key:
    whoever appends under the same key, at any later moment, is given the
    tombstone of that event and appends nothing. *)
Theorem purged_event_replayed days c request_id s rc s' r key ev g s2 T :
  execute days c request_id s = (Ok rc, s') →
  NoDup (ae_audit_event_id <$> t_audits (db (sh_session s))) →
  r ∈ t_audits (db (sh_session s)) → r ∉ t_audits (db (sh_session s')) →
  ae_idempotency_key r = Some key → key ≠ "" →
  t_tombstones (db s2) = t_tombstones (db (sh_session s')) ++ T →
  AuditEvent.for_append (with_principal ev) = Ok g →
  ae_company_id (AuditEvent.record g) = rt_company_id c →
  ae_idempotency_key (AuditEvent.record g) = Some key →
  ∃ x, append_audit_event ev s2 = (Ok x, s2) ∧ ae_audit_event_id x = ae_audit_event_id r
    ∧ ae_idempotency_key x = Some key.
Proof.
  intros H Hnd Hr Hgone Hkey Hne HT Hg Hco Hgk.
  apply execute_effect in H as [->|(_ & ts & Hts & Hf & Hd & _)]; cbv zeta in *.
  { by destruct Hgone. }
  assert (∃ i, candidates (db (sh_session s)) c (clock (ticks (sh_session s)) - days * us_per_day) !! i = Some r) as [i Hi].
  { apply list_elem_of_lookup. rewrite Hd in Hgone. by eapply purged_member. }
  destruct (Forall2_lookup_l _ _ _ _ _ Hts Hi) as (t & Ht & Hbuild).
  assert (append_audit_event ev s2 = (Ok (with_key (ts_receipt t) key), s2)) as Happ.
  { eapply append_retained; [exact Hg|exact Hgk|exact Hne|]. rewrite HT, Hd, Hco.
    apply tombstone_built in Hbuild as (Htc & Hh & _ & _).
    eapply (first_fresh _ _ _ i t _ Hf Ht Htc). rewrite Hh. unfold key_hash. rewrite Hkey. by destruct key. }
  exists (with_key (ts_receipt t) key). split; [exact Happ|]. split; [|done].
  by apply tombstone_built in Hbuild as (_ & _ & Hid & _).
Qed.
End theorems.

(** ** A company with a shelf *)
Section scenario.
#[local] Instance shelf_env : Env := sample_env 1 false.

Definition report_artifact : ArtifactRecord := {|
  artifact_id := "art_1"; artifact_company_id := "cmp_1"; artifact_run_id := None;
  artifact_work_item_id := None; artifact_content_hash := None; artifact_goal_id := None;
  artifact_created_by_agent_id := None; artifact_type := Str "report"; artifact_uri := "file:///r";
  artifact_title := "R"; artifact_metadata := []; artifact_created_at := of_utc 0 |}.

(** An event from 1970 and one of the day. *)
Definition dated_event (id_ : string) (at_ : instant) : AuditEventRecord := {|
  ae_audit_event_id := id_; ae_company_id := "cmp_1"; ae_action := "execution.claimed";
  ae_target_type := "execution"; ae_target_id := "e1"; ae_actor_type := "system"; ae_actor_id := "system";
  ae_trace_id := None; ae_run_id := None; ae_work_item_id := None;
  ae_idempotency_key := Some ("key-" +:+ id_); ae_detail := []; ae_created_at := of_utc at_ |}.

Definition shelf_db : DB :=
  set_artifacts [report_artifact]
    (set_audits [dated_event "aud_old" 0; dated_event "aud_new" (clock 0)] (sample_db [])).
Definition shelf0 : Shelf := {|
  sh_session := {| db := shelf_db; durable := shelf_db; ticks := 0; ids := 0 |};
  sh_knowledge := []; sh_tombstones := []; sh_runs := [] |}.

Definition publish_delete : list shelf_op :=
  [PublishNew "cmp_1" "art_1" "lead" [] None None; Delete "knw_owner0" "cmp_1" "lead"].
Definition publish_again : list shelf_op :=
  [PublishNext "cmp_1" "art_1" "lead" "knw_owner0" [] None (Some 1);
   PublishNew "cmp_1" "art_1" "lead" [] None None].

Lemma deleted_once : kt_knowledge_id <$> sh_tombstones (run_shelves shelf0 publish_delete) = ["knw_owner0"].
Proof. vm_compute. reflexivity. Qed.
Lemma published_again :
  kn_knowledge_id <$> sh_knowledge (run_shelves (run_shelves shelf0 publish_delete) publish_again)
  = ["knw_owner0"; "knw_owner3"].
Proof. vm_compute. reflexivity. Qed.

Lemma knowledge_history_witness :
  ∃ t, t ∈ sh_tombstones (run_shelves (run_shelves shelf0 publish_delete) publish_again)
    ∧ kt_knowledge_id t = "knw_owner0"
    ∧ ∀ company actor roles scopes r,
        (read_knowledge "knw_owner0" company actor roles scopes
           (run_shelves (run_shelves shelf0 publish_delete) publish_again)).1 ≠ Ok r.
Proof.
  assert ("knw_owner0" ∈ kt_knowledge_id <$> sh_tombstones (run_shelves shelf0 publish_delete)) as Hin.
  { rewrite deleted_once. left. }
  apply list_elem_of_fmap in Hin as (t & Hid & Ht).
  destruct (knowledge_history shelf0 publish_delete publish_again eq_refl eq_refl) as (_ & _ & H).
  destruct (H t Ht) as [Ht2 Hread]. exists t. rewrite Hid. exact (conj Ht2 (conj eq_refl Hread)).
Defined.

(** A run of the day's retention. *)
Definition purge_c : RetentionCommand := {| rt_company_id := "cmp_1"; rt_batch_size := 10; rt_dry_run := false |}.
Definition smaller_c : RetentionCommand := {| rt_company_id := "cmp_1"; rt_batch_size := 5; rt_dry_run := false |}.
Definition retained : result RetentionReceipt * Shelf := execute 100 purge_c (Some "req-1") shelf0.

Lemma retained_one :
  match retained.1 with Ok rc => rc_purged_audit_events rc = 1 | Raise _ => False end
  ∧ ae_audit_event_id <$> t_audits (db (sh_session retained.2)) = ["aud_new"]
  ∧ t_companies (db (sh_session retained.2)) = [sample_company].
Proof. vm_compute. auto. Qed.

Lemma retained_ok : ∃ rc, execute 100 purge_c (Some "req-1") shelf0 = (Ok rc, retained.2).
Proof.
  pose proof (proj1 retained_one) as H.
  assert (retained = (retained.1, retained.2)) as Heq by apply surjective_pairing.
  revert H Heq. destruct (retained.1) as [rc|e]; [|by intros []]. intros _ Heq. exists rc. exact Heq.
Qed.


(** The same request again, and another one under its key. *)
Lemma digests_differ : command_digest smaller_c ≠ command_digest purge_c.
Proof. vm_compute. congruence. Qed.

Lemma retention_replayed_witness :
  ∃ rc, execute 365 purge_c (Some "req-1") retained.2 = (Ok rc, with_session retained.2 (ticked (sh_session retained.2)))
    ∧ (execute 100 smaller_c (Some "req-1") retained.2).1 = Raise (value_error "retention_request_conflict").
Proof.
  destruct retained_ok as [rc H]. destruct retained_one as (_ & _ & Hco).
  assert ("cmp_1" ∈ cc_company_id <$> t_companies (db (sh_session retained.2))) as Hin by (rewrite Hco; left).
  destruct (retention_replayed 100 365 purge_c purge_c "req-1" shelf0 rc retained.2 retained.2 eq_refl H
    (reflexivity _) Hin ltac:(lia) eq_refl eq_refl) as (h & h' & Hh & Hh' & Heq).
  destruct (retention_replayed 100 100 purge_c smaller_c "req-1" shelf0 rc retained.2 retained.2 eq_refl H
    (reflexivity _) Hin ltac:(lia) eq_refl eq_refl) as (k & k' & Hk & Hk' & Heq2).
  exists rc. rewrite Heq, Heq2. rewrite decide_True by congruence.
  split; [reflexivity|]. rewrite decide_False; [reflexivity|]. intros ->. apply digests_differ. congruence.
Defined.

(** The old event asked for again under its key. *)
Definition old_event : AuditEventRecord := dated_event "aud_old" 0.
Lemma old_gone : old_event ∈ t_audits shelf_db ∧ old_event ∉ t_audits (db (sh_session retained.2))
  ∧ NoDup (ae_audit_event_id <$> t_audits shelf_db).
Proof.
  split; [left|]. split.
  - intros Hin. destruct retained_one as (_ & Hids & _).
    assert ("aud_old" ∈ ae_audit_event_id <$> t_audits (db (sh_session retained.2))) as H.
    { apply list_elem_of_fmap. by exists old_event. }
    rewrite Hids in H. by apply list_elem_of_singleton in H.
  - vm_compute. apply NoDup_cons. split; [set_solver|]. apply NoDup_singleton.
Qed.

Lemma old_appended : ∃ g, AuditEvent.for_append (with_principal old_event) = Ok g
  ∧ ae_company_id (AuditEvent.record g) = "cmp_1" ∧ ae_idempotency_key (AuditEvent.record g) = Some "key-aud_old".
Proof. eexists. split; [vm_compute; reflexivity|]. by split. Qed.

Lemma purged_event_replayed_witness :
  ∃ x, append_audit_event old_event (sh_session retained.2) = (Ok x, sh_session retained.2)
    ∧ ae_audit_event_id x = "aud_old".
Proof.
  destruct retained_ok as [rc H]. destruct old_gone as (Hin & Hgone & Hnd). destruct old_appended as (g & Hg & Hco & Hk).
  destruct (purged_event_replayed 100 purge_c (Some "req-1") shelf0 rc retained.2 old_event "key-aud_old" old_event g
    (sh_session retained.2) [] H Hnd Hin Hgone eq_refl ltac:(discriminate) (eq_sym (app_nil_r _)) Hg Hco Hk)
    as (x & Hx & Hid & _).
  exists x. exact (conj Hx Hid).
Defined.
End scenario.
