(* ===== verification/WorkItemTheorems.v ===== *)
(** * Rollouts of proposals and work items under execution

    The gate of [update_evolution_proposal_status_with_audit]: what a rollout
    that succeeded had, and what the gate takes on trust. *)

From S2P Require Import Prelude PyNum PyTime PyValue Models Metadata EvolutionProposal StateMachine.
From S2P Require Import DomainEvents GovernancePolicies Store Frames ClaimInversion Scenario.
From S2P Require Import WorkItems ApprovalGate Proposals WorkItem AgentRunLifecycle BudgetGuard.
From S2P Require Import ExecutionLedger AgentRunner Outcomes OutcomeTheorems.
From S2P Require Import Goals Tenancy.

Section gate.
Context {E : Env}.

Lemma claimed_state_Ok c u s o s' :
  claimed_approval_state c u s = (Ok o, s') →
  s' = s ∧ (truthy (pq_approval_id u) = false ∧ o = str_of <$> pq_approval_state u
            ∨ ∃ a, approval_in_company c (str_or_empty (pq_approval_id u)) (db s) = Some a
                   ∧ o = opt_or (str_of <$> pq_approval_state u) (str_of <$> approval_record_status a)).
Proof.
  unfold claimed_approval_state. destruct (truthy (pq_approval_id u)); intros H; minv; [|by eauto].
  destruct (approval_in_company _ _ _) as [a|]; minv; eauto.
Qed.

(** The approval a rollout rests on, when the caller claims none: of the approval
    the update names, in the same company, or of the proposal itself. *)
Definition approved_by_record (c : string) (u : proposal_update) (existing : EvolutionProposalRecord)
    (d : DB) : Prop :=
  (∃ a, approval_in_company c (str_or_empty (pq_approval_id u)) d = Some a
        ∧ str_of <$> approval_record_status a = Some "approved")
  ∨ str_of <$> proposal_approval_state existing = Some "approved".

Lemma opt_or_cases a b : opt_or a b = a ∨ opt_or a b = b.
Proof. unfold opt_or. destruct (truthy a); auto. Qed.

Lemma approved_text o : approval_state_is_approved (Str <$> o) = true → o = Some "approved".
Proof. destruct o; [|done]. cbn. intros H%bool_decide_eq_true. by rewrite H. Qed.

Lemma update_proposal_Ok id_ a b ap s p s' :
  update_evolution_proposal_status id_ a b ap s = (Ok (Some p), s') →
  ∃ row now, p = proposal_status_row a b ap now row ∧ get_evolution_proposal id_ (db s') = Some p.
Proof.
  unfold update_evolution_proposal_status. intros H. minv.
  destruct (get_evolution_proposal id_ (db s)) as [row|] eqn:Hrow; [|by inversion H]. minv. mframes.
  eexists row, _. split; [done|]. unfold get_evolution_proposal in *. cbn [db with_db t_proposals set_proposals].
  unfold id in *. match goal with H : db _ = db s |- _ => rewrite H end.
  by rewrite get_row_update, Hrow.
Qed.

Lemma advanced_state r t g :
  advance_rollout (EvolutionProposal.from_record r) (Some (Member t)) = Ok g → rollout_state g = Ok t.
Proof.
  unfold advance_rollout. intros H. cbn [evolution_rollout_state] in H.
  apply bind_Ok in H as (x & [= <-] & H). apply bind_Ok in H as (cur & _ & H).
  apply bind_Ok in H as (u & _ & H). apply bind_Ok in H as (pr & _ & H). by injection H as <-.
Qed.

(** A proposal reaches canary or active only through its rollout machine and
    with an approval: when an update of the company to one of these states
    returns, the proposal belongs to the company, its machine allows the step
    from the stored state, the stored row has the new state, and the caller
    claimed the approval, or the approval it names, or the proposal itself, is
    approved. *)
Theorem rollout_needs_approval c id_ u s p s' t :
  update_evolution_proposal_status_with_audit c id_ u s = (Ok p, s') →
  pq_rollout_state u = Some (Member t) →
  t ∈ [EvolutionRolloutState_CANARY; EvolutionRolloutState_ACTIVE] →
  ∃ existing, get_evolution_proposal id_ (db s) = Some existing
    ∧ proposal_company_id existing = c
    ∧ is_ok (advance_rollout (EvolutionProposal.from_record existing) (Some (Member t))) = true
    ∧ get_evolution_proposal id_ (db s') = Some p
    ∧ str_of <$> proposal_record_rollout_state p = Some (value t)
    ∧ (str_of <$> pq_approval_state u = Some "approved" ∨ approved_by_record c u existing (db s)).
Proof.
  intros H Ht Hin. unfold update_evolution_proposal_status_with_audit, _get_company_proposal in H.
  rewrite Ht in H. minv. destruct (get_evolution_proposal id_ (db s)) as [row|] eqn:Hrow; [|by minv].
  case_decide as Hco; minv. change (Some <$> parse_enum (value t) = Ok x0) in Hm0.
  rewrite parse_enum_value in Hm0. injection Hm0 as <-. minv.
  apply claimed_state_Ok in Hm1 as [-> Hst].
  assert (get_evolution_proposal id_ (db s') = Some p ∧ str_of <$> proposal_record_rollout_state p = Some (value t))
    as [Hget Hro].
  { rewrite (advanced_state _ _ _ Hm) in Hm0. injection Hm0 as <-.
    destruct x5 as [q|]; [|by minv]. apply update_proposal_Ok in Hm5 as (row' & now & Hq & Hget).
    assert (q = p ∧ business (db s') = business (db s6)) as [<- Hb].
    { cbn [fst] in H. destruct (EvolutionProposal._events x); minv; mframes; split; [done|congruence|done|congruence]. }
    apply business_tables in Hb as (_ & _ & _ & _ & _ & _ & _ & _ & Hpr).
    unfold get_evolution_proposal in *. rewrite Hpr, Hget. by rewrite Hq. }
  exists row. split_and!; try done; [by rewrite Hm|].
  cbn in Hm2. rewrite bool_decide_eq_true_2 in Hm2
    by (unfold ROLLOUT_STATES_REQUIRING_APPROVAL; set_solver).
  injection Hm2 as <-. cbn [andb] in Hm3. apply negb_false_iff, approved_text in Hm3.
  unfold approved_by_record. destruct (opt_or_cases x1 (str_of <$> proposal_approval_state row)) as [Hx|Hx];
    rewrite Hx in Hm3; [|by auto].
  destruct Hst as [[_ ->]|(a & Ha & ->)]; [by auto|].
  destruct (opt_or_cases (str_of <$> pq_approval_state u) (str_of <$> approval_record_status a)) as [Hy|Hy];
    rewrite Hy in Hm3; eauto.
Qed.
End gate.

(** ** Work items under execution, and the work-item theorems on a company

    A work item leased to an execution cannot be changed by its operators.  The
    rest of the file evaluates the theorems on work items, reviews, tenants and
    rollouts on the company of [Scenario], and shows what their hypotheses and
    gates leave open. *)

Section leased.
Context {E : Env}.

(** The work item an operator command is about. *)
Definition changed_work (cmd : tenant_command) : option string :=
  match cmd with
  | Tenancy.ChangeWork id_ _ | ReassignWork id_ _ _ _ _ | BlockWork id_ _ _ | CloseWork id_ _ _ _ => Some id_
  | _ => None
  end.

(** [m] raises and changes nothing. *)
Definition refuses {A} (m : M Session A) (s : Session) : Prop := ∃ e, m s = (Raise e, s).

Lemma refuses_bind {A B} (m : M Session A) (k : A → M Session B) s :
  (refuses m s ∨ ∃ a, m s = (Ok a, s) ∧ refuses (k a) s) → refuses (m ≫= k) s.
Proof.
  unfold refuses. rewrite M_bind_run. intros [[e ->]|(a & -> & H)]; [by eexists | done].
Qed.

Lemma refuses_read {A B} (m : M Session A) (k : A → M Session B) s :
  (∃ r, m s = (r, s)) → (∀ a, m s = (Ok a, s) → refuses (k a) s) → refuses (m ≫= k) s.
Proof.
  intros [[a|e] H] Hk; apply refuses_bind; [right|left; by exists e]. exists a. auto.
Qed.

Lemma get_company_work_reads c id_ s : ∃ r, _get_company_work_item c id_ s = (r, s).
Proof.
  unfold _get_company_work_item, query, getsM, mbind, M_bind. destruct (get_work_item id_ (db s)); [|by eexists].
  case_decide; by eexists.
Qed.

Lemma leased_update_refused id_ st oa ou s w l :
  get_work_item id_ (db s) = Some w →
  active_lease (wi_company_id w) ("work:" +:+ id_) (db s) = Some l →
  refuses (update_work_item_status id_ st oa ou) s.
Proof.
  intros Hw Hl. eexists. unfold update_work_item_status, query, getsM, mbind, M_bind. rewrite Hw, Hl. reflexivity.
Qed.

Lemma leased_change_refused c id_ u s w l :
  get_work_item id_ (db s) = Some w →
  active_lease (wi_company_id w) ("work:" +:+ id_) (db s) = Some l →
  refuses (update_work_item_status_with_audit c id_ u) s.
Proof.
  intros Hw Hl. unfold update_work_item_status_with_audit.
  apply refuses_read; [apply get_company_work_reads|]. intros row _.
  do 2 (apply refuses_read; [by eexists|]; intros ? _).
  apply refuses_bind. left. by eapply leased_update_refused.
Qed.

(** C14: while an execution holds a work item, or waits for its recovery, no
    operator command changes it: updating, reassigning, blocking and closing the
    item all raise, whatever their arguments, and leave the session, its audit
    trail included, exactly as it was. *)
Theorem leased_work_frozen c cmd id_ s w l :
  changed_work cmd = Some id_ → get_work_item id_ (db s) = Some w →
  active_lease (wi_company_id w) ("work:" +:+ id_) (db s) = Some l →
  ∃ e, run_tenant_command c cmd s = (Raise e, s).
Proof.
  intros Hcmd Hw Hl. pose proof (λ u, leased_change_refused c id_ u s w l Hw Hl) as Hr.
  destruct cmd; simplify_eq/=; apply refuses_bind; left; [done| | |].
  - unfold reassign_work_item. apply refuses_read; [apply get_company_work_reads|]. intros row _.
    apply refuses_read; [|by intros]. unfold raise_ifM. case_match; by eexists.
  - unfold block_work_item. apply refuses_read; [apply get_company_work_reads|]. by intros row _.
  - unfold close_work_item. apply refuses_read; [by eexists|]. intros closes _.
    apply refuses_read; [unfold raise_ifM; case_match; by eexists|]. intros ? _.
    apply refuses_read; [apply get_company_work_reads|]. by intros row _.
Qed.
End leased.

(** *** On the sample company *)
Section evaluation.
#[local] Instance sample : Env := sample_env 1 false.

(** An agent process that answers at no cost. *)
Definition worker : adapters := {|
  http_post := λ _ _ _ _, mret TransportError;
  execute_process := λ _ _ _,
    mret [("status", PStr "ok"); ("answer", PStr "done"); ("cost_usd", PFloat f_zero)];
  model_validate := λ _, None; local_adapter_enabled := true;
  local_adapter_allowlist := "process:agent_1"; http_adapter_allowlist := "";
  internal_service_key := "" |}.

Lemma worker_apart : adapters_apart worker.
Proof. by split; intros; apply framed_ret. Qed.

Definition run_w1 : run_work_args := {|
  rw_company_id := "cmp_1"; rw_work_item_id := "w1"; rw_agent_id := Some "agent_1";
  rw_input_payload := None; rw_actor_id := "ops"; rw_trace_id := None;
  rw_idempotency_key := Some "k1" |}.

(** The review of the evidence that the run of [run_w1] leaves. *)
Definition review_w1 (verdict : string) : review_args := {|
  rv_company_id := "cmp_1"; rv_work_item_id := "w1"; rv_artifact_id := "art_12";
  rv_actor_id := "ops"; rv_verdict := verdict; rv_reason := "checked" |}.

Definition after_run : Session := run_history worker [RunWork run_w1] (sample_session works).
Definition accepted_w1 : list operation := [RunWork run_w1; Review (review_w1 "accepted")].

Lemma completed_work_was_reviewed_witness :
  ∃ w s', update_work_item_status "w1" "completed" None None
            (run_history worker accepted_w1 (sample_session works)) = (Ok (Some w), s')
    ∧ ∃ acc, acc ∈ t_acceptances (db (run_history worker accepted_w1 (sample_session works)))
        ∧ oa_verdict acc = "accepted" ∧ oa_work_item_id acc = wi_work_item_id w.
Proof.
  eexists _, _. split; [vm_compute; reflexivity|].
  edestruct (completed_work_was_reviewed worker accepted_w1 (sample_session works) "w1" None None)
    as (_ & acc & artifact & run & Hin & Hv & _ & _ & Hw & _);
    [exact worker_apart | reflexivity | constructor | reflexivity | vm_compute; reflexivity |].
  exists acc. split; [exact Hin|]. split; [exact Hv | exact Hw].
Defined.

Lemma no_reviews_yet x : x ∈ t_acceptances (db after_run) → oa_acceptance_id x ≠ "".
Proof.
  assert (t_acceptances (db after_run) = []) as -> by (vm_compute; reflexivity).
  by intros ?%not_elem_of_nil.
Qed.

(** Decides a hypothesis on a computed session. *)
Ltac evaluate :=
  lazymatch goal with
  | |- NoDup _ => apply (bool_decide_unpack _); vm_compute; exact I
  | |- ∀ _, _ => exact no_reviews_yet
  | |- _ => vm_compute; reflexivity
  end.

Lemma review_decides_completion_witness :
  (∃ w' s2, update_work_item_status "w1" "completed" None None
              (review (review_w1 "accepted") after_run).2 = (Ok (Some w'), s2))
  ∧ update_work_item_status "w1" "completed" None None (review (review_w1 "rejected") after_run).2
    = (Raise (ExecutionDenied "accepted_artifact_required" 409),
       (review (review_w1 "rejected") after_run).2).
Proof.
  split.
  - edestruct (review_decides_completion (review_w1 "accepted") after_run)
      with (s1 := (review (review_w1 "accepted") after_run).2) (oa := @None string) (ou := @None string) as [(_ & w' & s2 & H & _)|[Hv _]];
      cycle 7; [exists w', s2; exact H | discriminate Hv | evaluate..].
  - edestruct (review_decides_completion (review_w1 "rejected") after_run)
      with (s1 := (review (review_w1 "rejected") after_run).2) (oa := @None string) (ou := @None string) as [(Hv & _)|[_ H]];
      cycle 7; [discriminate Hv | exact H | evaluate..].
Defined.

(** A work item whose execution is under way. *)
Definition while_running : Session := (claim (sample_claim "run_1" "k1" "w1") (sample_session works)).2.

Lemma leased_work_frozen_witness :
  ∃ e, run_tenant_command "cmp_1" (CloseWork "w1" WorkItemStatus_CANCELLED "ops" None) while_running
       = (Raise e, while_running).
Proof.
  eapply (leased_work_frozen "cmp_1" (CloseWork "w1" WorkItemStatus_CANCELLED "ops" None) "w1");
    [reflexivity | vm_compute; reflexivity | vm_compute; reflexivity].
Defined.
(** The sample company beside another, which has a work item of its own. *)
Definition foreign_work : WorkItemRecord := {|
  wi_work_item_id := "w9"; wi_company_id := "cmp_2"; wi_title := "t"; wi_description := "";
  wi_record_status := Some (Str "ready"); wi_priority := Str "medium"; wi_goal_id := None;
  wi_owner_agent_id := None; wi_owner_user_id := None; wi_source := "manual"; wi_external_ref := None;
  wi_dependencies := []; wi_approval_required := false; wi_metadata := [];
  wi_created_at := of_utc 0; wi_updated_at := of_utc 0 |}.

Definition two_companies : Session := sample_session (foreign_work :: works).

Definition close (id_ : string) : tenant_command := CloseWork id_ WorkItemStatus_CANCELLED "ops" (Some "dup").

(** Closing the item of the other company is refused, closing one's own works,
    and both leave the other company's rows alone. *)
Lemma tenant_commands_isolated_witness :
  let own := run_tenant_command "cmp_1" (close "w1") two_companies in
  let foreign := run_tenant_command "cmp_1" (close "w9") two_companies in
  own.1 = Ok () ∧ foreign.1 = Raise (Exn "WorkItemNotFoundError" "w9")
  ∧ others "cmp_1" (db own.2) = others "cmp_1" (db two_companies)
  ∧ others "cmp_1" (db foreign.2) = others "cmp_1" (db two_companies).
Proof.
  cbv zeta. split; [vm_compute; reflexivity|]. split; [vm_compute; reflexivity|].
  assert (keys_unique (db two_companies)) as Hk
    by (repeat split; apply (bool_decide_unpack _); vm_compute; exact I).
  split.
  - apply (tenant_commands_isolated "cmp_1" (close "w1") two_companies
             (run_tenant_command "cmp_1" (close "w1") two_companies).1);
      [reflexivity | exact Hk | exact I | apply surjective_pairing].
  - apply (tenant_commands_isolated "cmp_1" (close "w9") two_companies
             (run_tenant_command "cmp_1" (close "w9") two_companies).1);
      [reflexivity | exact Hk | exact I | apply surjective_pairing].
Defined.

(** *** Rollouts *)
Definition proposal_of (approval_state : string) (approval : option string) : EvolutionProposalRecord := {|
  proposal_id := "evp_1"; proposal_company_id := "cmp_1"; proposal_tier := Member EvolutionTier_L2;
  proposal_scope := "s"; proposal_evidence := []; proposal_expected_benefit := "b";
  proposal_risk := "r"; proposal_approval_state := Some (Str approval_state);
  proposal_record_rollout_state := Some (Str "proposed"); proposal_approval_id := approval;
  proposal_metadata := []; proposal_created_at := of_utc 0; proposal_updated_at := of_utc 0 |}.

Definition with_proposal (p : EvolutionProposalRecord) : Session :=
  let d := set_proposals [p] (sample_db works) in {| db := d; durable := d; ticks := 0; ids := 0 |}.

Definition to_canary (claimed : option (enum_or_str ApprovalStatus)) : proposal_update := {|
  pq_approval_state := claimed; pq_rollout_state := Some (Member EvolutionRolloutState_CANARY);
  pq_approval_id := None; pq_actor_id := "ops" |}.

Lemma rollout_needs_approval_witness :
  ∃ p s', update_evolution_proposal_status_with_audit "cmp_1" "evp_1" (to_canary None)
            (with_proposal (proposal_of "approved" None)) = (Ok p, s')
    ∧ get_evolution_proposal "evp_1" (db s') = Some p
    ∧ str_of <$> proposal_record_rollout_state p = Some "canary".
Proof.
  eexists _, _. split; [vm_compute; reflexivity|].
  edestruct (rollout_needs_approval "cmp_1" "evp_1" (to_canary None)
               (with_proposal (proposal_of "approved" None))) with (t := EvolutionRolloutState_CANARY)
    as (existing & _ & _ & _ & Hg & Hr & _);
    [vm_compute; reflexivity | reflexivity | apply list_elem_of_here | split; [exact Hg | exact Hr]].
Defined.

(** *** What the gates leave open *)

(** A proposal bound to an approval that is still pending rolls out when the
    caller claims that it is approved: the claim is taken over the record. *)
Lemma claimed_approval_bypasses_pending :
  let s1 := (create_evolution_proposal_with_audit (proposal_of "pending" None) true "evo"
               (sample_session works)).2 in
  ((λ x, str_of <$> approval_record_status x) <$> t_approvals (db s1)) = [Some "pending"]
  ∧ (update_evolution_proposal_status_with_audit "cmp_1" "evp_1" (to_canary None) s1).1
    = Raise (Exn "EvolutionProposalApprovalRequiredError" "evp_1")
  ∧ is_ok (update_evolution_proposal_status_with_audit "cmp_1" "evp_1"
             (to_canary (Some (Str "approved"))) s1).1 = true.
Proof. cbv zeta. split_and!; vm_compute; reflexivity. Qed.

(** A work item can be created as completed: creation asks for no review. *)
Lemma created_completed_without_review :
  (λ w, work_status w) <$>
    (create_work_item_with_audit (sample_work "w2" "completed" [] false) "ops" (sample_session works)).1
  = Ok (Some "completed").
Proof. vm_compute. reflexivity. Qed.

(** Running a work item again with its idempotency key is refused rather than
    replayed: the first run made the agent the owner of the item, and the owner
    is part of the payload the key is compared with. *)
Lemma rerun_with_same_key_conflicts :
  is_ok (run_work_item_with_agent worker run_w1 (sample_session works)).1 = true
  ∧ (run_work_item_with_agent worker run_w1 after_run).1
    = Raise (AgentWakeupError "idempotency_key_conflict" 409 "execution_denied").
Proof. split; vm_compute; reflexivity. Qed.
End evaluation.
