(* ===== verification/SkillRelease.v ===== *)
(** * Skill releases: the domain rules and the command contract

    [src/shared/evolution/domain/skill_release.py] and
    [src/shared/evolution/release_contract.py]: the lifecycle of a release from
    shadow over canary to active, and the signed command that drives it.  HMAC,
    MD5 and the JSON spelling of pydantic are parameters. *)

From Stdlib Require Import SpecFloat.
From S2P Require Import Prelude PyNum PyTime PyValue Store.

Inductive ReleaseState :=
  | ReleaseState_SHADOW
  | ReleaseState_CANARY
  | ReleaseState_ACTIVE
  | ReleaseState_ROLLED_BACK.
#[global] Instance ReleaseState_eq_dec : EqDecision ReleaseState.
Proof. solve_decision. Defined.
Definition ReleaseState_value (x : ReleaseState) : string :=
  match x with
  | ReleaseState_SHADOW => "shadow"
  | ReleaseState_CANARY => "canary"
  | ReleaseState_ACTIVE => "active"
  | ReleaseState_ROLLED_BACK => "rolled_back"
  end.

Inductive ReleaseAction :=
  | ReleaseAction_SHADOW
  | ReleaseAction_CANARY
  | ReleaseAction_PROMOTE
  | ReleaseAction_ROLLBACK.
#[global] Instance ReleaseAction_eq_dec : EqDecision ReleaseAction.
Proof. solve_decision. Defined.
Definition ReleaseAction_value (x : ReleaseAction) : string :=
  match x with
  | ReleaseAction_SHADOW => "shadow"
  | ReleaseAction_CANARY => "canary"
  | ReleaseAction_PROMOTE => "promote"
  | ReleaseAction_ROLLBACK => "rollback"
  end.

Definition SkillReleaseError (msg : string) : exn := Exn "SkillReleaseError" msg.

(** What a release is about; no command may change it. *)
Record release_identity := {
  ri_deployment_id : string; ri_skill_id : string; ri_agent_id : string;
  ri_baseline_version : Z; ri_candidate_version : Z;
  ri_baseline_config_hash : string; ri_candidate_config_hash : string }.
#[global] Instance release_identity_eq_dec : EqDecision release_identity.
Proof. solve_decision. Defined.

Record SkillReleaseSnapshot := {
  rs_identity : release_identity;
  rs_state : ReleaseState;
  rs_version : Z;
  rs_experiment_id : option string }.

Definition transition (snapshot : option SkillReleaseSnapshot) (action : ReleaseAction)
    (supplied : release_identity) (expected_version : option Z) (experiment_id : option string)
    : result SkillReleaseSnapshot :=
  match snapshot with
  | None =>
      if negb (bool_decide (action = ReleaseAction_SHADOW))
         || negb (bool_decide (expected_version = None ∨ expected_version = Some 0))
      then Raise (SkillReleaseError "release_must_start_in_shadow")
      else Ok {| rs_identity := supplied; rs_state := ReleaseState_SHADOW; rs_version := 1;
                 rs_experiment_id := None |}
  | Some s =>
      if negb (bool_decide (expected_version = Some (rs_version s)))
      then Raise (SkillReleaseError "release_version_conflict")
      else if negb (bool_decide (rs_identity s = supplied))
      then Raise (SkillReleaseError "release_snapshot_changed")
      else
        let next st exp := Ok {| rs_identity := rs_identity s; rs_state := st;
                                 rs_version := rs_version s + 1; rs_experiment_id := exp |} in
        match action, rs_state s with
        | ReleaseAction_CANARY, ReleaseState_SHADOW =>
            next ReleaseState_CANARY (if truthy experiment_id then experiment_id else rs_experiment_id s)
        | ReleaseAction_PROMOTE, ReleaseState_CANARY => next ReleaseState_ACTIVE (rs_experiment_id s)
        | ReleaseAction_ROLLBACK, (ReleaseState_SHADOW | ReleaseState_CANARY | ReleaseState_ACTIVE) =>
            next ReleaseState_ROLLED_BACK (rs_experiment_id s)
        | ReleaseAction_SHADOW, ReleaseState_SHADOW => Ok s
        | _, _ => Raise (SkillReleaseError "invalid_release_transition")
        end
  end.

(** What an accepted command makes of a release. *)
Lemma transition_Ok snapshot action supplied expected exp next :
  transition snapshot action supplied expected exp = Ok next →
  rs_identity next = supplied ∧
  match snapshot with
  | None => action = ReleaseAction_SHADOW ∧ rs_state next = ReleaseState_SHADOW ∧ rs_version next = 1
            ∧ rs_experiment_id next = None
  | Some s =>
      rs_identity s = supplied ∧
      (action = ReleaseAction_SHADOW ∧ rs_state s = ReleaseState_SHADOW ∧ next = s
       ∨ rs_version next = rs_version s + 1 ∧
         (action = ReleaseAction_CANARY ∧ rs_state s = ReleaseState_SHADOW
            ∧ rs_state next = ReleaseState_CANARY
            ∧ rs_experiment_id next = (if truthy exp then exp else rs_experiment_id s)
          ∨ action = ReleaseAction_PROMOTE ∧ rs_state s = ReleaseState_CANARY
            ∧ rs_state next = ReleaseState_ACTIVE ∧ rs_experiment_id next = rs_experiment_id s
          ∨ action = ReleaseAction_ROLLBACK ∧ rs_state s ≠ ReleaseState_ROLLED_BACK
            ∧ rs_state next = ReleaseState_ROLLED_BACK ∧ rs_experiment_id next = rs_experiment_id s))
  end.
Proof.
  unfold transition. destruct snapshot as [s|].
  - case_bool_decide; [|done]. case_bool_decide; [|done]. cbn.
    destruct action, (rs_state s) eqn:?; intros [= <-]; cbn; naive_solver.
  - do 2 case_bool_decide; try done. by intros [= <-].
Qed.

(** ** The command *)
Record SkillReleaseCommand := {
  cm_schema_version : string;
  cm_command_id : string;
  cm_deployment_id : string;
  cm_company_id : string;
  cm_proposal_id : string;
  cm_evaluation_report_id : string;
  cm_evaluation_hash : string;
  cm_skill_id : string;
  cm_agent_id : string;
  cm_baseline_version : Z;
  cm_candidate_version : Z;
  cm_baseline_config_hash : string;
  cm_candidate_config_hash : string;
  cm_action : ReleaseAction;
  cm_traffic_pct : Z;
  cm_minimum_sample_count : Z;
  cm_approval_id : option string;
  cm_expires_at : datetime }.

Definition cm_identity (c : SkillReleaseCommand) : release_identity := {|
  ri_deployment_id := cm_deployment_id c; ri_skill_id := cm_skill_id c; ri_agent_id := cm_agent_id c;
  ri_baseline_version := cm_baseline_version c; ri_candidate_version := cm_candidate_version c;
  ri_baseline_config_hash := cm_baseline_config_hash c;
  ri_candidate_config_hash := cm_candidate_config_hash c |}.

Definition between (lo hi n : Z) : bool := (lo <=? n) && (n <=? hi).
Definition length_between (lo hi : Z) (s : string) : bool := between lo hi (Z.of_nat (String.length s)).

Definition hex64 (s : string) : bool :=
  (String.length s =? 64)%nat
  && forallb (λ c, let n := code c in
        ((48 <=? n) && (n <=? 57) || (97 <=? n) && (n <=? 102))%N) (list_ascii_of_string s).

(** The field constraints of the pydantic model. *)
Definition command_valid (c : SkillReleaseCommand) : bool :=
  bool_decide (cm_schema_version c = "1.0")
  && length_between 1 64 (cm_command_id c) && length_between 1 64 (cm_deployment_id c)
  && length_between 1 48 (cm_company_id c) && length_between 1 48 (cm_proposal_id c)
  && length_between 1 48 (cm_evaluation_report_id c) && hex64 (cm_evaluation_hash c)
  && length_between 1 128 (cm_skill_id c) && length_between 1 64 (cm_agent_id c)
  && (1 <=? cm_baseline_version c) && (1 <=? cm_candidate_version c)
  && hex64 (cm_baseline_config_hash c) && hex64 (cm_candidate_config_hash c)
  && between 0 10 (cm_traffic_pct c) && (50 <=? cm_minimum_sample_count c).

(** What the runtime uses that is not in the repository: HMAC-SHA256 and MD5 as
    hexadecimal texts, and pydantic's spelling of datetimes and of a whole
    command.  The two settings name the company the runtime serves and its
    signing key. *)
Class ReleaseEnv := {
  release_env :: Env;
  hmac_sha256_hex : string → string → string;
  md5_hex : string → string;
  dump_datetime : datetime → string;
  model_dump_json : SkillReleaseCommand → string;
  control_plane_company_id : string;
  evolution_deployment_signing_key : string }.

Section contract.
Context {E : ReleaseEnv}.

Definition canonical_hash (v : pyval) : result string := sha256_hex <$> json_dumps v.

(** [command.model_dump(mode="json")] *)
Definition command_dump (c : SkillReleaseCommand) : pyval := PDict
  [("schema_version", PStr (cm_schema_version c)); ("command_id", PStr (cm_command_id c));
   ("deployment_id", PStr (cm_deployment_id c)); ("company_id", PStr (cm_company_id c));
   ("proposal_id", PStr (cm_proposal_id c));
   ("evaluation_report_id", PStr (cm_evaluation_report_id c));
   ("evaluation_hash", PStr (cm_evaluation_hash c)); ("skill_id", PStr (cm_skill_id c));
   ("agent_id", PStr (cm_agent_id c)); ("baseline_version", PInt (cm_baseline_version c));
   ("candidate_version", PInt (cm_candidate_version c));
   ("baseline_config_hash", PStr (cm_baseline_config_hash c));
   ("candidate_config_hash", PStr (cm_candidate_config_hash c));
   ("action", PStr (ReleaseAction_value (cm_action c))); ("traffic_pct", PInt (cm_traffic_pct c));
   ("minimum_sample_count", PInt (cm_minimum_sample_count c));
   ("approval_id", match cm_approval_id c with Some a => PStr a | None => PNone end);
   ("expires_at", PStr (dump_datetime (cm_expires_at c)))].

Definition sign_command (c : SkillReleaseCommand) (secret : string) : result string :=
  if (String.length secret <? 32)%nat
  then Raise (value_error "evolution_deployment_signing_key_required")
  else Ok (hmac_sha256_hex secret (model_dump_json c)).

Definition expired_or_naive (d : datetime) (now : instant) : bool :=
  match dt_offset d with None => true | Some _ => as_utc d <=? now end.

Definition verify_command (c : SkillReleaseCommand) (signature secret : string) (now : instant)
    : result unit :=
  _ ← raise_if (expired_or_naive (cm_expires_at c) now) (value_error "evolution_command_expired");
  expected ← sign_command c secret;
  raise_if (negb (bool_decide (expected = signature)))
    (value_error "evolution_command_signature_invalid").
End contract.

(** ** The canary experiment

    The aggregate of [src/shared/evolution/domain/experiment.py] on the rows of
    [evolution_experiments]: routing of a trace to an arm, the statistics of the
    two arms, and the decision to promote, roll back or continue.

    The columns are typed, so the coercions of [_coerce_int] and [_coerce_float]
    are the identity on them, and a missing list of scores is empty. *)

(** *** Floating-point operations of Python *)
Definition f_sub : float → float → float := SFsub 53 1024.
Definition f_div : float → float → float := SFdiv 53 1024.
Definition f_abs : float → float := SFabs.
Definition f_of_Z (z : Z) : float := float_lit z 0.
(** [max(a, b)]: the first unless the second is greater *)
Definition f_max (a b : float) : float := if f_lt a b then b else a.
Definition f_nonzero (x : float) : bool := match x with S754_zero _ => false | _ => true end.

(** One step of the compensated summation of [sum]: the running total and the
    correction. *)
Definition sum_step (acc : float * float) (x : float) : float * float :=
  let '(total, c) := acc in
  let t := f_add total x in
  (t, f_add c (if f_le (f_abs x) (f_abs total)
               then f_add (f_sub total t) x else f_add (f_sub x t) total)).

(** [sum] on a list of floats, as CPython computes it from version 3.12 on. *)
Definition py_sum (l : list float) : float :=
  match l with
  | [] => f_zero
  | x :: l' =>
      let '(total, c) := foldl sum_step (f_add f_zero x, f_zero) l' in
      if f_nonzero c && f_isfinite c then f_add total c else total
  end.

(** *** Rows *)
Record EvolutionExperiment := {
  ex_experiment_id : string;
  ex_agent_id : string;
  ex_skill_id : string;
  ex_control_version : Z;
  ex_candidate_version : Z;
  ex_traffic_pct : Z;
  ex_min_samples : Z;
  ex_max_duration_hours : Z;
  ex_success_metric : string;
  ex_min_improvement : float;
  ex_status : string;
  ex_control_results : option (list float);
  ex_candidate_results : option (list float);
  ex_created_at : instant;
  ex_concluded_at : option instant }.

Definition MAX_CANDIDATE_TRAFFIC_PCT : Z := 30.
Definition normalize_traffic_pct (v : Z) : Z := Z.min (Z.max v 0) MAX_CANDIDATE_TRAFFIC_PCT.
Definition normalize_min_samples (v : Z) : Z := Z.max v 1.
Definition normalize_min_improvement (v : float) : float := f_max v f_zero.

(** *** The aggregate *)
Definition InvalidEvolutionExperimentError (msg : string) : exn :=
  Exn "InvalidEvolutionExperimentError" msg.

Definition experiment_id (r : EvolutionExperiment) : result string :=
  let text := strip (ex_experiment_id r) in
  if str_empty text then Raise (InvalidEvolutionExperimentError "experiment_id must not be empty")
  else Ok text.

Definition is_running (r : EvolutionExperiment) : bool := bool_decide (ex_status r = "running").
Definition traffic_pct (r : EvolutionExperiment) : Z := Z.max (ex_traffic_pct r) 0.

Record ExperimentRouteDecision := {
  rd_experiment_id : string; rd_bucket : Z; rd_is_candidate : bool; rd_skill_version : Z }.

Definition route (r : EvolutionExperiment) (bucket : Z) : result ExperimentRouteDecision :=
  _ ← raise_if ((bucket <? 0) || (100 <=? bucket))
        (InvalidEvolutionExperimentError "bucket must be in [0, 100)");
  let candidate := bucket <? traffic_pct r in
  id_ ← experiment_id r;
  Ok {| rd_experiment_id := id_; rd_bucket := bucket; rd_is_candidate := candidate;
        rd_skill_version := if candidate then ex_candidate_version r else ex_control_version r |}.

Record ExperimentScoreSummary := {
  sm_control_scores : list float; sm_candidate_scores : list float;
  sm_min_samples : Z; sm_min_improvement : float }.

Definition mean (l : list float) : float :=
  match l with [] => f_zero | _ => f_div (py_sum l) (f_of_Z (Z.of_nat (length l))) end.

Definition control_mean (s : ExperimentScoreSummary) : float := mean (sm_control_scores s).
Definition candidate_mean (s : ExperimentScoreSummary) : float := mean (sm_candidate_scores s).
Definition degradation (s : ExperimentScoreSummary) : float :=
  f_div (f_sub (control_mean s) (candidate_mean s)) (f_max (control_mean s) (float_lit 1 2)).
Definition has_min_samples (s : ExperimentScoreSummary) : bool :=
  (sm_min_samples s <=? Z.of_nat (length (sm_control_scores s)))
  && (sm_min_samples s <=? Z.of_nat (length (sm_candidate_scores s))).

Definition score_summary (r : EvolutionExperiment) (min_samples_override : option Z)
    : ExperimentScoreSummary := {|
  sm_control_scores := default [] (ex_control_results r);
  sm_candidate_scores := default [] (ex_candidate_results r);
  sm_min_samples := normalize_min_samples (default (ex_min_samples r) min_samples_override);
  sm_min_improvement := normalize_min_improvement (ex_min_improvement r) |}.

Inductive ExperimentRolloutDecision := Promote | Rollback | Continue.
#[global] Instance ExperimentRolloutDecision_eq_dec : EqDecision ExperimentRolloutDecision.
Proof. solve_decision. Defined.

Definition rollback_degradation_threshold : float := float_lit 1 1.

Definition canary_rollout_decision (r : EvolutionExperiment) (min_samples_override : option Z)
    : ExperimentRolloutDecision :=
  let s := score_summary r min_samples_override in
  if negb (has_min_samples s) then Continue
  else if f_le (control_mean s) (candidate_mean s) then Promote
  else if f_lt rollback_degradation_threshold (degradation s) then Rollback
  else Continue.

Definition optimizer_rollout_decision (r : EvolutionExperiment) : ExperimentRolloutDecision :=
  let s := score_summary r None in
  if negb (has_min_samples s) then Continue
  else if f_le (f_add (control_mean s) (sm_min_improvement s)) (candidate_mean s) then Promote
  else if f_lt rollback_degradation_threshold (degradation s) then Rollback
  else Continue.

Definition status_for_decision (d : ExperimentRolloutDecision) : string :=
  match d with Promote => "promoted" | Rollback => "rolled_back" | Continue => "running" end.

(** *** The share of the candidate

    Of the hundred buckets, exactly [traffic_pct] (clamped to a hundred) go to
    the candidate arm. *)
Definition buckets : list Z := seqZ 0 100.

Definition to_candidate (r : EvolutionExperiment) (b : Z) : bool :=
  match route r b with Ok d => rd_is_candidate d | Raise _ => false end.

Definition candidate_buckets (r : EvolutionExperiment) : list Z :=
  filter (λ b, to_candidate r b = true) buckets.

Lemma route_Ok r b :
  0 ≤ b < 100 → str_empty (strip (ex_experiment_id r)) = false →
  route r b = Ok {| rd_experiment_id := strip (ex_experiment_id r); rd_bucket := b;
                    rd_is_candidate := b <? traffic_pct r;
                    rd_skill_version := if b <? traffic_pct r then ex_candidate_version r
                                        else ex_control_version r |}.
Proof.
  intros Hb Hid. unfold route, experiment_id. rewrite Hid.
  destruct (b <? 0) eqn:?; [lia|]. destruct (100 <=? b) eqn:?; [lia|]. done.
Qed.

Lemma filter_ltb_seqZ (t m : Z) (k : nat) :
  length (filter (λ b, (b <? t) = true) (seqZ m (Z.of_nat k)))
  = Z.to_nat (Z.max 0 (Z.min (Z.of_nat k) (t - m))).
Proof.
  revert m. induction k as [|k IH]; intros m.
  { rewrite seqZ_nil by lia. cbn [filter list_filter length]. lia. }
  rewrite seqZ_cons, filter_cons by lia. replace (Z.pred (Z.of_nat (S k))) with (Z.of_nat k) by lia.
  destruct (m <? t) eqn:Hm; [rewrite decide_True by done | rewrite decide_False by done];
    cbn [length]; rewrite IH; lia.
Qed.

Lemma filter_ext_in {A} (f g : A → bool) (l : list A) :
  (∀ x, x ∈ l → f x = g x) → filter (λ x, f x = true) l = filter (λ x, g x = true) l.
Proof.
  induction l as [|x l IH]; intros H; [done|]. rewrite !filter_cons, (H x), IH by set_solver. done.
Qed.

Lemma candidate_share r :
  str_empty (strip (ex_experiment_id r)) = false →
  Z.of_nat (length (candidate_buckets r)) = Z.max 0 (Z.min 100 (ex_traffic_pct r)).
Proof.
  intros Hid. unfold candidate_buckets, buckets.
  rewrite (filter_ext_in _ (λ b, b <? traffic_pct r)).
  - change 100 with (Z.of_nat 100) at 1. rewrite filter_ltb_seqZ. unfold traffic_pct. lia.
  - intros b Hb%elem_of_seqZ. unfold to_candidate. by rewrite route_Ok by (done || lia).
Qed.
