(* ===== verification/ReleaseStore.v ===== *)
(** * The skill release receiver

    The tables of [src/shared/evolution/db/tables.py] and [release_tables.py],
    and [SqlAlchemySkillReleaseStore] of [db/release_store.py]: one signed
    command changes the release ledger, the skill versions and the experiment in
    one transaction.  Row locks are the serial order of the commands. *)

From S2P Require Import Prelude PyNum PyTime PyValue Store SkillRelease.

(** ** Tables *)
Record EvolutionSkillConfig := {
  sk_id : Z; sk_skill_id : string; sk_version : string; sk_status : string;
  sk_system_prompt : string; sk_parameters : option pydict;
  sk_few_shot_examples : option (list pyval); sk_output_format : string; sk_target_model : string;
  sk_success_rate : float; sk_created_at : instant; sk_promoted_at : option instant }.

Record EvolutionSkillRelease := {
  rl_identity : release_identity; rl_company_id : string; rl_proposal_id : string;
  rl_evaluation_report_id : string; rl_evaluation_hash : string;
  rl_state : ReleaseState; rl_version : Z; rl_experiment_id : option string;
  rl_created_at : instant; rl_updated_at : instant }.

(** The dictionary the receiver answers with. *)
Record release_response := {
  rr_deployment_id : string; rr_state : ReleaseState; rr_version : Z;
  rr_experiment_id : option string }.

Record EvolutionSkillReleaseCommand := {
  ck_command_id : string; ck_deployment_id : string; ck_payload_hash : string;
  ck_response : release_response; ck_created_at : instant }.

(** The columns of an execution trace that the runtime reads back. *)
Record EvolutionTrace := {
  tr_trace_id : string; tr_agent_id : string; tr_event_type : string; tr_success : bool;
  tr_skill_used : option string; tr_skill_version : option string; tr_auto_score : option float;
  tr_created_at : instant }.

Record Runtime := {
  e_skills : list EvolutionSkillConfig;
  e_releases : list EvolutionSkillRelease;
  e_commands : list EvolutionSkillReleaseCommand;
  e_experiments : list EvolutionExperiment;
  e_traces : list EvolutionTrace;
  e_ticks : nat }.

Definition set_skills (x : list EvolutionSkillConfig) (s : Runtime) : Runtime :=
  {| e_skills := x; e_releases := e_releases s; e_commands := e_commands s;
     e_experiments := e_experiments s; e_traces := e_traces s; e_ticks := e_ticks s |}.
Definition set_releases (x : list EvolutionSkillRelease) (s : Runtime) : Runtime :=
  {| e_skills := e_skills s; e_releases := x; e_commands := e_commands s;
     e_experiments := e_experiments s; e_traces := e_traces s; e_ticks := e_ticks s |}.
Definition set_commands (x : list EvolutionSkillReleaseCommand) (s : Runtime) : Runtime :=
  {| e_skills := e_skills s; e_releases := e_releases s; e_commands := x;
     e_experiments := e_experiments s; e_traces := e_traces s; e_ticks := e_ticks s |}.
Definition set_experiments (x : list EvolutionExperiment) (s : Runtime) : Runtime :=
  {| e_skills := e_skills s; e_releases := e_releases s; e_commands := e_commands s;
     e_experiments := x; e_traces := e_traces s; e_ticks := e_ticks s |}.
Definition set_traces (x : list EvolutionTrace) (s : Runtime) : Runtime :=
  {| e_skills := e_skills s; e_releases := e_releases s; e_commands := e_commands s;
     e_experiments := e_experiments s; e_traces := x; e_ticks := e_ticks s |}.

(** A transaction: the tables are restored when it raises. *)
Definition in_transaction {A} (m : M Runtime A) : M Runtime A := λ s,
  match m s with
  | (Ok a, s') => (Ok a, s')
  | (Raise e, s') => (Raise e, {| e_skills := e_skills s; e_releases := e_releases s;
       e_commands := e_commands s; e_experiments := e_experiments s; e_traces := e_traces s;
       e_ticks := e_ticks s' |})
  end.

Definition rl_deployment_id (r : EvolutionSkillRelease) : string := ri_deployment_id (rl_identity r).
Definition rl_skill_id (r : EvolutionSkillRelease) : string := ri_skill_id (rl_identity r).
Definition rl_agent_id (r : EvolutionSkillRelease) : string := ri_agent_id (rl_identity r).

(** ** Rows that change *)
Definition with_skill_status (st : string) (promoted : option instant) (r : EvolutionSkillConfig)
    : EvolutionSkillConfig := {|
  sk_id := sk_id r; sk_skill_id := sk_skill_id r; sk_version := sk_version r; sk_status := st;
  sk_system_prompt := sk_system_prompt r; sk_parameters := sk_parameters r;
  sk_few_shot_examples := sk_few_shot_examples r; sk_output_format := sk_output_format r;
  sk_target_model := sk_target_model r; sk_success_rate := sk_success_rate r;
  sk_created_at := sk_created_at r;
  sk_promoted_at := match promoted with Some t => Some t | None => sk_promoted_at r end |}.

Definition with_release (next : SkillReleaseSnapshot) (now : instant) (r : EvolutionSkillRelease)
    : EvolutionSkillRelease := {|
  rl_identity := rl_identity r; rl_company_id := rl_company_id r; rl_proposal_id := rl_proposal_id r;
  rl_evaluation_report_id := rl_evaluation_report_id r; rl_evaluation_hash := rl_evaluation_hash r;
  rl_state := rs_state next; rl_version := rs_version next; rl_experiment_id := rs_experiment_id next;
  rl_created_at := rl_created_at r; rl_updated_at := now |}.

Definition with_conclusion (st : string) (now : instant) (r : EvolutionExperiment)
    : EvolutionExperiment := {|
  ex_experiment_id := ex_experiment_id r; ex_agent_id := ex_agent_id r; ex_skill_id := ex_skill_id r;
  ex_control_version := ex_control_version r; ex_candidate_version := ex_candidate_version r;
  ex_traffic_pct := ex_traffic_pct r; ex_min_samples := ex_min_samples r;
  ex_max_duration_hours := ex_max_duration_hours r; ex_success_metric := ex_success_metric r;
  ex_min_improvement := ex_min_improvement r; ex_status := st;
  ex_control_results := ex_control_results r; ex_candidate_results := ex_candidate_results r;
  ex_created_at := ex_created_at r; ex_concluded_at := Some now |}.

Definition with_exposure (traffic samples : Z) (r : EvolutionExperiment) : EvolutionExperiment := {|
  ex_experiment_id := ex_experiment_id r; ex_agent_id := ex_agent_id r; ex_skill_id := ex_skill_id r;
  ex_control_version := ex_control_version r; ex_candidate_version := ex_candidate_version r;
  ex_traffic_pct := traffic; ex_min_samples := samples;
  ex_max_duration_hours := ex_max_duration_hours r; ex_success_metric := ex_success_metric r;
  ex_min_improvement := ex_min_improvement r; ex_status := ex_status r;
  ex_control_results := ex_control_results r; ex_candidate_results := ex_candidate_results r;
  ex_created_at := ex_created_at r; ex_concluded_at := ex_concluded_at r |}.

Section store.
Context {E : ReleaseEnv}.

Definition e_now : M Runtime instant := λ s,
  (Ok (clock (e_ticks s)),
   {| e_skills := e_skills s; e_releases := e_releases s; e_commands := e_commands s;
      e_experiments := e_experiments s; e_traces := e_traces s; e_ticks := S (e_ticks s) |}).

Definition skill_config_hash (r : EvolutionSkillConfig) : result string := canonical_hash (PDict
  [("skill_id", PStr (sk_skill_id r)); ("version", PStr (sk_version r));
   ("system_prompt", PStr (sk_system_prompt r)); ("parameters", PDict (default [] (sk_parameters r)));
   ("few_shot_examples", PList (default [] (sk_few_shot_examples r)));
   ("output_format", PStr (sk_output_format r)); ("target_model", PStr (sk_target_model r))]).

Definition get_release (deployment : string) (s : Runtime) : option EvolutionSkillRelease :=
  get_row rl_deployment_id deployment (e_releases s).
Definition get_experiment (o : option string) (s : Runtime) : option EvolutionExperiment :=
  o ≫= λ id_, get_row ex_experiment_id id_ (e_experiments s).

(** [by_version.get(str(version))] on the locked rows of the skill *)
Definition skill_version (skill : string) (version : Z) (s : Runtime) : option EvolutionSkillConfig :=
  last (filter (λ r, sk_version r = pretty version)
          (py_sorted (λ a b, sk_id a <=? sk_id b) (filter (λ r, sk_skill_id r = skill) (e_skills s)))).

Definition ownership_error : exn := Exn "ReleaseOwnershipError" "release_company_not_owned".
Definition cas_failed : exn := SkillReleaseError "release_skill_compare_and_swap_failed".

(** Answers with the receipt of a command that was applied before. *)
Definition replayed (c : SkillReleaseCommand) (payload_hash : string) (k : M Runtime release_response)
    : M Runtime release_response :=
  prior_ ← getsM (λ s, get_row ck_command_id (cm_command_id c) (e_commands s));
  match prior_ with
  | Some prior =>
      if decide (ck_payload_hash prior = payload_hash) then mret (ck_response prior)
      else raiseM (Exn "ReleaseCommandConflict" "release_command_id_payload_conflict")
  | None => k
  end.

(** Whether the command fits the release and the skill versions it names. *)
Definition check_release (c : SkillReleaseCommand) (baseline candidate : EvolutionSkillConfig)
    (release : option EvolutionSkillRelease) : result unit :=
  hash_b ← skill_config_hash baseline;
  hash_c ← (if decide (hash_b = cm_baseline_config_hash c) then skill_config_hash candidate
            else Ok "");
  _ ← raise_if (negb (bool_decide (hash_b = cm_baseline_config_hash c))
                || negb (bool_decide (hash_c = cm_candidate_config_hash c)))
        (SkillReleaseError "release_skill_config_hash_mismatch");
  match release with
  | None =>
      if decide (cm_action c = ReleaseAction_SHADOW) then
        _ ← raise_if (negb (bool_decide (sk_status baseline = "active")))
              (SkillReleaseError "release_baseline_not_active");
        raise_if (negb (bool_decide (sk_status candidate ∈ ["candidate"; "shadow"; "retired"])))
          (SkillReleaseError "release_candidate_unavailable")
      else Ok ()
  | Some r =>
      _ ← raise_if (negb (bool_decide (rl_company_id r = cm_company_id c))) ownership_error;
      _ ← raise_if (negb (bool_decide ((rl_proposal_id r, rl_evaluation_report_id r, rl_evaluation_hash r)
                     = (cm_proposal_id c, cm_evaluation_report_id c, cm_evaluation_hash c))))
            (SkillReleaseError "release_evaluation_snapshot_changed");
      raise_if (rl_version r <? 1) (SkillReleaseError "release_version_conflict")
  end.

Definition other_canary (c : SkillReleaseCommand) (s : Runtime) : bool :=
  bool_decide (Exists (λ r, rl_company_id r = cm_company_id c ∧ rl_skill_id r = cm_skill_id c
    ∧ rl_state r = ReleaseState_CANARY ∧ rl_deployment_id r ≠ cm_deployment_id c) (e_releases s)).

Definition new_experiment (c : SkillReleaseCommand) (now : instant) : EvolutionExperiment := {|
  ex_experiment_id := cm_deployment_id c; ex_agent_id := cm_agent_id c;
  ex_skill_id := cm_skill_id c; ex_control_version := cm_baseline_version c;
  ex_candidate_version := cm_candidate_version c; ex_traffic_pct := Z.min (cm_traffic_pct c) 10;
  ex_min_samples := Z.max (cm_minimum_sample_count c) 50; ex_max_duration_hours := 72;
  ex_success_metric := "success_rate"; ex_min_improvement := float_lit 5 2; ex_status := "running";
  ex_control_results := Some []; ex_candidate_results := Some [];
  ex_created_at := now; ex_concluded_at := None |}.

(** The experiment of a canary: a new one, or the running one with the exposure
    the command asks for. *)
Definition canary_experiment (c : SkillReleaseCommand) (baseline : EvolutionSkillConfig)
    (release : option EvolutionSkillRelease) : M Runtime unit :=
  _ ← raise_ifM (negb (truthy (cm_approval_id c))) (SkillReleaseError "release_canary_approval_required");
  taken ← getsM (other_canary c);
  _ ← raise_ifM taken (SkillReleaseError "release_skill_canary_already_running");
  exp_ ← getsM (get_experiment (Some (cm_deployment_id c)));
  match exp_ with
  | None =>
      _ ← raise_ifM (negb (bool_decide (rl_state <$> release = Some ReleaseState_SHADOW))
                     || negb (bool_decide (sk_status baseline = "active")))
            (SkillReleaseError "release_canary_requires_shadow");
      now ← e_now;
      modifyM (λ s, set_experiments (e_experiments s ++ [new_experiment c now]) s)
  | Some exp =>
      _ ← raise_ifM (negb (bool_decide
              ((ex_agent_id exp, ex_skill_id exp, ex_control_version exp, ex_candidate_version exp)
               = (cm_agent_id c, cm_skill_id c, cm_baseline_version c, cm_candidate_version c))))
            (SkillReleaseError "release_experiment_snapshot_changed");
      _ ← raise_ifM (negb (is_running exp)) (SkillReleaseError "release_experiment_not_running");
      modifyM (λ s, set_experiments (update_row ex_experiment_id (cm_deployment_id c)
        (with_exposure (Z.min (cm_traffic_pct c) 10) (Z.max (cm_minimum_sample_count c) 50))
        (e_experiments s)) s)
  end.

(** A guarded update of the status of one skill version. *)
Definition cas_row (id_ : Z) (from to_ : string) (promoted : option instant) (r : EvolutionSkillConfig)
    : EvolutionSkillConfig :=
  if decide (sk_id r = id_ ∧ sk_status r = from) then with_skill_status to_ promoted r else r.

Definition cas_skill (id_ : Z) (from to_ : string) (promoted : option instant) : M Runtime unit :=
  n ← getsM (λ s, length (filter (λ r, sk_id r = id_ ∧ sk_status r = from) (e_skills s)));
  _ ← modifyM (λ s, set_skills (map (cas_row id_ from to_ promoted) (e_skills s)) s);
  raise_ifM (negb (bool_decide (n = 1%nat))) cas_failed.

Definition conclude_row (exp : EvolutionExperiment) (st : string) : M Runtime unit :=
  now ← e_now;
  modifyM (λ s, set_experiments (update_row ex_experiment_id (ex_experiment_id exp)
                                   (with_conclusion st now) (e_experiments s)) s).

(** Enough samples on both arms and the improvement the experiment asks for. *)
Definition quality_gate (c : SkillReleaseCommand) (exp : EvolutionExperiment) : result unit :=
  let min_samples := Z.max (Z.max (cm_minimum_sample_count c) (ex_min_samples exp)) 50 in
  let control := default [] (ex_control_results exp) in
  let candidate := default [] (ex_candidate_results exp) in
  _ ← raise_if ((Z.of_nat (length control) <? min_samples) || (Z.of_nat (length candidate) <? min_samples))
        (SkillReleaseError "release_canary_minimum_sample_count_not_met");
  _ ← raise_if (bool_decide (control = []) || bool_decide (candidate = []))
        (SkillReleaseError "release_canary_quality_data_missing");
  raise_if (f_lt (mean candidate) (f_add (mean control) (ex_min_improvement exp)))
    (SkillReleaseError "release_canary_quality_gate_failed").

Definition promote (c : SkillReleaseCommand) (baseline candidate : EvolutionSkillConfig)
    (current : option SkillReleaseSnapshot) : M Runtime unit :=
  match current with
  | Some cur =>
      _ ← raise_ifM (negb (bool_decide (rs_state cur = ReleaseState_CANARY)))
            (SkillReleaseError "release_promotion_requires_canary");
      exp_ ← getsM (get_experiment (rs_experiment_id cur));
      match exp_ with
      | None => raiseM (SkillReleaseError "release_experiment_not_running")
      | Some exp =>
          _ ← raise_ifM (negb (is_running exp)) (SkillReleaseError "release_experiment_not_running");
          _ ← liftM (quality_gate c exp);
          _ ← raise_ifM (negb (bool_decide (sk_status baseline = "active"))
                         || negb (bool_decide (sk_status candidate ∈ ["candidate"; "shadow"]))) cas_failed;
          _ ← cas_skill (sk_id baseline) "active" "retired" None;
          now ← e_now;
          _ ← cas_skill (sk_id candidate) (sk_status candidate) "active" (Some now);
          conclude_row exp "promoted"
      end
  | None => raiseM (SkillReleaseError "release_promotion_requires_canary")
  end.

Definition rollback_release (baseline candidate : EvolutionSkillConfig)
    (current : option SkillReleaseSnapshot) : M Runtime unit :=
  match current with
  | None => raiseM (SkillReleaseError "release_not_found")
  | Some cur =>
      match rs_state cur with
      | ReleaseState_SHADOW => mret ()
      | ReleaseState_CANARY =>
          exp_ ← getsM (get_experiment (rs_experiment_id cur));
          match exp_ with
          | Some exp => whenM (is_running exp) (conclude_row exp "rolled_back")
          | None => mret ()
          end
      | ReleaseState_ACTIVE =>
          exp_ ← getsM (get_experiment (rs_experiment_id cur));
          _ ← raise_ifM (negb (bool_decide (sk_status candidate = "active"))
                         || negb (bool_decide (sk_status baseline = "retired"))) cas_failed;
          _ ← cas_skill (sk_id candidate) "active" "retired" None;
          _ ← cas_skill (sk_id baseline) "retired" "active" None;
          match exp_ with
          | Some exp => whenM (bool_decide (ex_status exp = "promoted")) (conclude_row exp "rolled_back")
          | None => mret ()
          end
      | ReleaseState_ROLLED_BACK => raiseM (SkillReleaseError "invalid_release_transition")
      end
  end.

Definition next_row (c : SkillReleaseCommand) (r : EvolutionSkillRelease) (next : SkillReleaseSnapshot)
    (now : instant) (x : EvolutionSkillRelease) : EvolutionSkillRelease :=
  if decide (rl_deployment_id x = cm_deployment_id c ∧ rl_version x = rl_version r)
  then with_release next now x else x.

Definition new_release (c : SkillReleaseCommand) (next : SkillReleaseSnapshot) (created updated : instant)
    : EvolutionSkillRelease := {|
  rl_identity := cm_identity c; rl_company_id := cm_company_id c;
  rl_proposal_id := cm_proposal_id c; rl_evaluation_report_id := cm_evaluation_report_id c;
  rl_evaluation_hash := cm_evaluation_hash c; rl_state := rs_state next;
  rl_version := rs_version next; rl_experiment_id := rs_experiment_id next;
  rl_created_at := created; rl_updated_at := updated |}.

Definition write_release (c : SkillReleaseCommand) (release : option EvolutionSkillRelease)
    (next : SkillReleaseSnapshot) : M Runtime unit :=
  match release with
  | None =>
      created ← e_now;
      updated ← e_now;
      modifyM (λ s, set_releases (e_releases s ++ [new_release c next created updated]) s)
  | Some r =>
      now ← e_now;
      n ← getsM (λ s, length (filter (λ x, rl_deployment_id x = cm_deployment_id c
                                         ∧ rl_version x = rl_version r) (e_releases s)));
      _ ← modifyM (λ s, set_releases (map (next_row c r next now) (e_releases s)) s);
      raise_ifM (negb (bool_decide (n = 1%nat))) (SkillReleaseError "release_version_conflict")
  end.

Definition snapshot_of (r : EvolutionSkillRelease) : SkillReleaseSnapshot := {|
  rs_identity := rl_identity r; rs_state := rl_state r; rs_version := rl_version r;
  rs_experiment_id := rl_experiment_id r |}.

Definition response_of (next : SkillReleaseSnapshot) : release_response := {|
  rr_deployment_id := ri_deployment_id (rs_identity next); rr_state := rs_state next;
  rr_version := rs_version next; rr_experiment_id := rs_experiment_id next |}.

(** The effects of a command that has passed the checks on its receipt, its
    versions and its expiry. *)
Definition apply_checked (c : SkillReleaseCommand) (payload_hash : string)
    (baseline candidate : EvolutionSkillConfig) : M Runtime release_response :=
  release ← getsM (get_release (cm_deployment_id c));
  _ ← liftM (check_release c baseline candidate release);
  let exp_id := if decide (cm_action c = ReleaseAction_CANARY) then Some (cm_deployment_id c)
                else release ≫= rl_experiment_id in
  _ ← whenM (bool_decide (cm_action c = ReleaseAction_CANARY)) (canary_experiment c baseline release);
  let current := snapshot_of <$> release in
  next ← liftM (transition current (cm_action c) (cm_identity c)
                  (Some (match current with Some cur => rs_version cur | None => 0 end)) exp_id);
  _ ← (match cm_action c with
       | ReleaseAction_PROMOTE => promote c baseline candidate current
       | ReleaseAction_ROLLBACK => rollback_release baseline candidate current
       | _ => mret ()
       end);
  _ ← write_release c release next;
  created ← e_now;
  _ ← modifyM (λ s, set_commands (e_commands s ++ [{|
        ck_command_id := cm_command_id c; ck_deployment_id := cm_deployment_id c;
        ck_payload_hash := payload_hash; ck_response := response_of next; ck_created_at := created |}]) s);
  mret (response_of next).

Definition apply (c : SkillReleaseCommand) : M Runtime release_response :=
  _ ← raise_ifM (negb (bool_decide (cm_company_id c = control_plane_company_id))) ownership_error;
  payload_hash ← liftM (canonical_hash (command_dump c));
  replayed c payload_hash
    (_ ← raise_ifM (bool_decide (cm_action c ∈ [ReleaseAction_PROMOTE; ReleaseAction_ROLLBACK])
                    && negb (truthy (cm_approval_id c)))
           (SkillReleaseError "release_live_action_approval_required");
     baseline_ ← getsM (skill_version (cm_skill_id c) (cm_baseline_version c));
     candidate_ ← getsM (skill_version (cm_skill_id c) (cm_candidate_version c));
     match baseline_, candidate_ with
     | Some baseline, Some candidate =>
         _ ← raise_ifM (bool_decide (sk_id baseline = sk_id candidate))
               (SkillReleaseError "release_versions_must_differ");
         replayed c payload_hash
           (now ← e_now;
            _ ← raise_ifM (expired_or_naive (cm_expires_at c) now)
                  (SkillReleaseError "evolution_command_expired");
            apply_checked c payload_hash baseline candidate)
     | _, _ => raiseM (SkillReleaseError "release_skill_version_missing")
     end).

(** [SkillReleaseUseCase.apply] in the session of its request, whose body is
    validated first *)
Definition receive (c : SkillReleaseCommand) (signature : string) : M Runtime release_response :=
  in_transaction
    (_ ← raise_ifM (negb (command_valid c)) (validation_error "SkillReleaseCommand");
     now ← e_now;
     _ ← liftM (verify_command c signature evolution_deployment_signing_key now);
     apply c).

(** The receipt of a command, while its release belongs to the company. *)
Definition get_command (id_ : string) (s : Runtime) : option EvolutionSkillReleaseCommand :=
  match get_row ck_command_id id_ (e_commands s) with
  | Some k =>
      match get_release (ck_deployment_id k) s with
      | Some r => if decide (rl_company_id r = control_plane_company_id) then Some k else None
      | None => None
      end
  | None => None
  end.
End store.
