(* ===== verification/EvolutionRuntime.v ===== *)
(** * The evolution runtime: repository, canary router, experiment checks

    The operations of [src/shared/evolution/db/repository.py] on skill versions,
    experiments and traces, the canary router ([canary_router.py]) and the
    experiment check of the skill optimizer, whose notes to its memory are left
    out. *)

From S2P Require Import Prelude PyNum PyTime PyValue Store SkillRelease ReleaseStore.

Definition newest_first {R} (at_ : R → instant) (rows : list R) : list R :=
  py_sorted (λ a b, at_ b <=? at_ a) rows.

(** A row inserted with the next number of the sequence. *)
Definition next_id (rows : list EvolutionSkillConfig) : Z := foldr Z.max 0 (sk_id <$> rows) + 1.

Record skill_seed := {
  sd_skill_id : string; sd_version : string; sd_status : string; sd_system_prompt : string;
  sd_parameters : option pydict; sd_few_shot_examples : option (list pyval);
  sd_output_format : string; sd_target_model : string }.

Section runtime.
Context {E : ReleaseEnv}.

(** ** Repository: skill versions *)
Definition save_skill_config (a : skill_seed) : M Runtime EvolutionSkillConfig :=
  s ← getM;
  now ← e_now;
  _ ← raise_ifM (bool_decide ((sd_skill_id a, sd_version a)
                   ∈ (λ r, (sk_skill_id r, sk_version r)) <$> e_skills s))
        (integrity_error "uq_skill_id_version");
  let row := {| sk_id := next_id (e_skills s); sk_skill_id := sd_skill_id a; sk_version := sd_version a;
     sk_status := sd_status a; sk_system_prompt := sd_system_prompt a;
     sk_parameters := Some (default [] (sd_parameters a));
     sk_few_shot_examples := Some (default [] (sd_few_shot_examples a));
     sk_output_format := sd_output_format a; sk_target_model := sd_target_model a;
     sk_success_rate := f_zero; sk_created_at := now; sk_promoted_at := None |} in
  _ ← modifyM (λ s, set_skills (e_skills s ++ [row]) s);
  mret row.

Definition get_active_skill (skill : string) (s : Runtime) : option EvolutionSkillConfig :=
  head (newest_first sk_created_at
          (filter (λ r, sk_skill_id r = skill ∧ sk_status r = "active") (e_skills s))).

(** [SqlAlchemyEvolutionSkillSeedStore.seed_missing_active_skills]: how many of the
    seeds were missing. *)
Fixpoint seed_missing_active_skills (seeds : list skill_seed) : M Runtime nat :=
  match seeds with
  | [] => mret 0%nat
  | seed :: seeds' =>
      existing ← getsM (get_active_skill (sd_skill_id seed));
      match existing with
      | Some _ => seed_missing_active_skills seeds'
      | None =>
          _ ← save_skill_config seed;
          n ← seed_missing_active_skills seeds';
          mret (S n)
      end
  end.

Definition get_skill_by_version (skill version : string) (s : Runtime) : option EvolutionSkillConfig :=
  head (filter (λ r, sk_skill_id r = skill ∧ sk_version r = version) (e_skills s)).

Definition promote_skill (skill version : string) : M Runtime unit :=
  _ ← modifyM (λ s, set_skills (map (λ r,
        if decide (sk_skill_id r = skill ∧ sk_status r = "active")
        then with_skill_status "retired" None r else r) (e_skills s)) s);
  now ← e_now;
  modifyM (λ s, set_skills (map (λ r,
    if decide (sk_skill_id r = skill ∧ sk_version r = version)
    then with_skill_status "active" (Some now) r else r) (e_skills s)) s).

(** The most recently promoted of the retired versions, those never promoted last. *)
Definition get_previous_active (skill : string) (s : Runtime) : option EvolutionSkillConfig :=
  head (py_sorted (λ a b, match sk_promoted_at a, sk_promoted_at b with
                          | _, None => true
                          | None, Some _ => false
                          | Some x, Some y => y <=? x
                          end)
          (filter (λ r, sk_skill_id r = skill ∧ sk_status r = "retired") (e_skills s))).

Definition set_skill (id_ : Z) (st : string) (promoted : option instant) : M Runtime unit :=
  modifyM (λ s, set_skills (map (λ r,
    if decide (sk_id r = id_) then with_skill_status st promoted r else r) (e_skills s)) s).

(** Whether the active release of the skill is the one that is rolled back. *)
Definition release_matches (release : EvolutionSkillRelease) (agent : string)
    (baseline active : EvolutionSkillConfig) : result bool :=
  let i := rl_identity release in
  if negb (bool_decide (rl_company_id release = control_plane_company_id))
     || negb (bool_decide (ri_agent_id i = agent)) then Ok false
  else
    vb ← py_int (PStr (sk_version baseline));
    if negb (bool_decide (ri_baseline_version i = vb)) then Ok false
    else
      va ← py_int (PStr (sk_version active));
      if negb (bool_decide (ri_candidate_version i = va)) then Ok false
      else
        hb ← skill_config_hash baseline;
        if negb (bool_decide (hb = ri_baseline_config_hash i)) then Ok false
        else
          ha ← skill_config_hash active;
          Ok (bool_decide (ha = ri_candidate_config_hash i)).

Definition roll_release_back (now : instant) (r : EvolutionSkillRelease) : EvolutionSkillRelease :=
  with_release {| rs_identity := rl_identity r; rs_state := ReleaseState_ROLLED_BACK;
                  rs_version := rl_version r + 1; rs_experiment_id := rl_experiment_id r |} now r.

(** Restores the baseline; the release that made the version active is closed
    with its experiment. *)
Definition restore_baseline (active baseline : EvolutionSkillConfig)
    (release : option EvolutionSkillRelease) : M Runtime unit :=
  _ ← set_skill (sk_id active) "retired" None;
  now ← e_now;
  _ ← set_skill (sk_id baseline) "active" (Some now);
  match release with
  | None => mret ()
  | Some r =>
      updated ← e_now;
      _ ← modifyM (λ s, set_releases (update_row rl_deployment_id (rl_deployment_id r)
                                        (roll_release_back updated) (e_releases s)) s);
      exp_ ← getsM (get_experiment (if truthy (rl_experiment_id r) then rl_experiment_id r else None));
      match exp_ with
      | Some exp => conclude_row exp "rolled_back"
      | None => mret ()
      end
  end.

Definition rollback_skill_if_current (skill expected_active baseline_version agent : string)
    : M Runtime bool :=
  configs ← getsM (λ s, py_sorted (λ a b, sk_id a <=? sk_id b)
                          (filter (λ r, sk_skill_id r = skill) (e_skills s)));
  match head (filter (λ r, sk_version r = expected_active ∧ sk_status r = "active") configs),
        head (filter (λ r, sk_version r = baseline_version ∧ sk_status r = "retired") configs) with
  | Some active, Some baseline =>
      releases ← getsM (λ s, filter (λ r, rl_skill_id r = skill ∧ rl_state r = ReleaseState_ACTIVE)
                               (e_releases s));
      match releases with
      | [] => _ ← restore_baseline active baseline None; mret true
      | [r] =>
          fits ← liftM (release_matches r agent baseline active);
          if fits : bool then _ ← restore_baseline active baseline (Some r); mret true else mret false
      | _ => mret false
      end
  | _, _ => mret false
  end.

(** ** Repository: traces *)
Definition get_recent_traces (agent : string) (limit : nat) (skill : option string) (s : Runtime)
    : list EvolutionTrace :=
  take limit (newest_first tr_created_at
    (filter (λ t, tr_agent_id t = agent ∧ (skill = None ∨ tr_skill_used t = skill)) (e_traces s))).

(** [sum(1 for t in traces if t.success) / len(traces)] *)
Definition calc_success_rate (agent : string) (skill : option string) (limit : nat) (s : Runtime) : float :=
  let traces := get_recent_traces agent limit skill s in
  match traces with
  | [] => f_zero
  | _ => f_div (f_of_Z (Z.of_nat (length (filter (λ t, tr_success t = true) traces))))
           (f_of_Z (Z.of_nat (length traces)))
  end.

Definition save_trace (trace agent event_type : string) (success : bool) (skill version : option string)
    (score : option float) : M Runtime unit :=
  now ← e_now;
  modifyM (λ s, set_traces (e_traces s ++ [{|
    tr_trace_id := trace; tr_agent_id := agent; tr_event_type := event_type; tr_success := success;
    tr_skill_used := skill; tr_skill_version := version; tr_auto_score := score;
    tr_created_at := now |}]) s).

(** ** Repository: experiments *)
Record experiment_args := {
  ea_experiment_id : string; ea_agent_id : string; ea_skill_id : string;
  ea_control_version : Z; ea_candidate_version : Z; ea_traffic_pct : Z; ea_min_samples : Z;
  ea_max_duration_hours : Z; ea_success_metric : string; ea_min_improvement : float;
  ea_status : string }.

Definition save_experiment (a : experiment_args) : M Runtime unit :=
  s ← getM;
  now ← e_now;
  _ ← raise_ifM (bool_decide (ea_experiment_id a ∈ ex_experiment_id <$> e_experiments s))
        (integrity_error "evolution_experiments");
  modifyM (λ s, set_experiments (e_experiments s ++ [{|
    ex_experiment_id := ea_experiment_id a; ex_agent_id := ea_agent_id a; ex_skill_id := ea_skill_id a;
    ex_control_version := ea_control_version a; ex_candidate_version := ea_candidate_version a;
    ex_traffic_pct := normalize_traffic_pct (ea_traffic_pct a);
    ex_min_samples := normalize_min_samples (ea_min_samples a);
    ex_max_duration_hours := ea_max_duration_hours a; ex_success_metric := ea_success_metric a;
    ex_min_improvement := normalize_min_improvement (ea_min_improvement a); ex_status := ea_status a;
    ex_control_results := Some []; ex_candidate_results := Some []; ex_created_at := now;
    ex_concluded_at := None |}]) s).

(** The running experiment of a canary release of this company. *)
Definition get_active_experiment (agent skill : string) (s : Runtime) : option EvolutionExperiment :=
  head (filter (λ x, ex_agent_id x = agent ∧ ex_skill_id x = skill ∧ ex_status x = "running"
    ∧ Some (ex_experiment_id x) ∈ rl_experiment_id <$>
        filter (λ r, rl_state r = ReleaseState_CANARY ∧ rl_company_id r = control_plane_company_id)
          (e_releases s)) (e_experiments s)).

Definition close_canary (now : instant) (r : EvolutionSkillRelease) : EvolutionSkillRelease :=
  with_release {| rs_identity := rl_identity r; rs_state := ReleaseState_ROLLED_BACK;
                  rs_version := rl_version r; rs_experiment_id := rl_experiment_id r |} now r.

Definition conclude_experiment (id_ status : string) : M Runtime unit :=
  now ← e_now;
  _ ← modifyM (λ s, set_experiments (update_row ex_experiment_id id_ (with_conclusion status now)
                                       (e_experiments s)) s);
  whenM (bool_decide (status = "rolled_back"))
    (updated ← e_now;
     modifyM (λ s, set_releases (map (λ r,
       if decide (rl_experiment_id r = Some id_ ∧ rl_state r = ReleaseState_CANARY)
       then close_canary updated r else r) (e_releases s)) s)).

Definition with_score (is_candidate : bool) (score : float) (r : EvolutionExperiment)
    : EvolutionExperiment := {|
  ex_experiment_id := ex_experiment_id r; ex_agent_id := ex_agent_id r; ex_skill_id := ex_skill_id r;
  ex_control_version := ex_control_version r; ex_candidate_version := ex_candidate_version r;
  ex_traffic_pct := ex_traffic_pct r; ex_min_samples := ex_min_samples r;
  ex_max_duration_hours := ex_max_duration_hours r; ex_success_metric := ex_success_metric r;
  ex_min_improvement := ex_min_improvement r; ex_status := ex_status r;
  ex_control_results := if is_candidate then ex_control_results r
                        else Some (default [] (ex_control_results r) ++ [score]);
  ex_candidate_results := if is_candidate then Some (default [] (ex_candidate_results r) ++ [score])
                          else ex_candidate_results r;
  ex_created_at := ex_created_at r; ex_concluded_at := ex_concluded_at r |}.

Definition add_experiment_result (id_ : string) (is_candidate : bool) (score : float) : M Runtime unit :=
  modifyM (λ s, set_experiments (update_row ex_experiment_id id_ (with_score is_candidate score)
                                   (e_experiments s)) s).

(** ** The canary router *)
Definition hex_value (c : ascii) : option Z :=
  let n := Z.of_N (code c) in
  if (48 <=? n) && (n <=? 57) then Some (n - 48)
  else if (97 <=? n) && (n <=? 102) then Some (n - 87) else None.

Definition parse_hex (s : string) : result Z :=
  match foldl (λ acc c, a ← acc; d ← hex_value c; Some (16 * a + d)) (Some 0) (list_ascii_of_string s) with
  | Some z => Ok z
  | None => Raise (value_error "invalid literal for int() with base 16")
  end.

Definition _bucket (trace_id : string) : result Z :=
  h ← parse_hex (substring 0 8 (md5_hex trace_id)); Ok (h mod 100).

(** The version to use: the text of the active one, else the number of an arm. *)
Definition resolve_skill_version (agent skill trace_id : string) (s : Runtime) : result pyval :=
  match get_active_experiment agent skill s with
  | None => Ok (match get_active_skill skill s with
                | Some active => PStr (sk_version active)
                | None => PInt 1
                end)
  | Some experiment =>
      b ← _bucket trace_id;
      decision ← route experiment b;
      Ok (PInt (rd_skill_version decision))
  end.

Definition record_result (agent skill trace_id : string) (score : float) : M Runtime unit :=
  experiment_ ← getsM (get_active_experiment agent skill);
  match experiment_ with
  | None => mret ()
  | Some experiment =>
      b ← liftM (_bucket trace_id);
      decision ← liftM (route experiment b);
      add_experiment_result (rd_experiment_id decision) (rd_is_candidate decision) score
  end.

Definition router_check_experiment (agent skill : string) (min_samples : option Z) : M Runtime string :=
  experiment_ ← getsM (get_active_experiment agent skill);
  match experiment_ with
  | None => mret "no_experiment"
  | Some experiment =>
      match canary_rollout_decision experiment min_samples with
      | Continue => mret "continue"
      | Promote => mret "promotion_pending"
      | Rollback =>
          id_ ← liftM (experiment_id experiment);
          _ ← conclude_experiment id_ (status_for_decision Rollback);
          mret "rollback"
      end
  end.

(** ** The skill optimizer's check *)
Definition optimizer_check_experiment (id_ : string) : M Runtime string :=
  experiment_ ← getsM (get_experiment (Some id_));
  match experiment_ with
  | None => mret "no_experiment"
  | Some experiment =>
      if negb (is_running experiment) then mret "no_experiment"
      else
        match optimizer_rollout_decision experiment with
        | Continue => mret "continue"
        | Promote => mret "promotion_pending"
        | Rollback => _ ← conclude_experiment id_ (status_for_decision Rollback); mret "rollback"
        end
  end.
End runtime.
