(* ===== verification/SkillExecution.v ===== *)
(** * Skill executions: selection, observation, guard

    [SqlAlchemySkillExecutionStore] of [src/shared/evolution/db/skill_execution_store.py]
    with the contract of [skill_execution_contract.py]: which configuration a
    trace runs with, and how its score reaches the experiment.  The emergency
    rollback of [evolution_guard.py] and the kill switch of [kill_switch.py].

    Redis is a parameter: what each call answers. *)

From S2P Require Import Prelude PyNum PyTime PyValue Store SkillRelease ReleaseStore.
From S2P Require Import EvolutionRuntime.

(** ** Contract *)
Record SkillSelection := {
  sl_company_id : string; sl_agent_id : string; sl_skill_id : string; sl_trace_id : string;
  sl_schema_version : string; sl_deployment_id : string; sl_experiment_id : option string;
  sl_version : Z; sl_configuration_hash : string; sl_configuration : pydict;
  sl_expires_at : datetime; sl_signature : string }.

Record SkillExecutionResult := { xr_selection : SkillSelection; xr_score : float; xr_success : bool }.

Record SkillSelectionRequest := {
  sq_company_id : string; sq_agent_id : string; sq_skill_id : string; sq_trace_id : string }.

Section execution.
Context {E : ReleaseEnv}.

(** The JSON of a selection without its signature. *)
Definition selection_dump (x : SkillSelection) : pydict :=
  [("company_id", PStr (sl_company_id x)); ("agent_id", PStr (sl_agent_id x));
   ("skill_id", PStr (sl_skill_id x)); ("trace_id", PStr (sl_trace_id x));
   ("schema_version", PStr (sl_schema_version x)); ("deployment_id", PStr (sl_deployment_id x));
   ("experiment_id", match sl_experiment_id x with Some e => PStr e | None => PNone end);
   ("version", PInt (sl_version x)); ("configuration_hash", PStr (sl_configuration_hash x));
   ("configuration", PDict (sl_configuration x));
   ("expires_at", PStr (dump_datetime (sl_expires_at x)))].

Definition selection_signature (x : SkillSelection) (secret : string) : result string :=
  if (String.length secret <? 32)%nat
  then Raise (value_error "evolution_deployment_signing_key_required")
  else digest ← canonical_hash (PDict (selection_dump x)); Ok (hmac_sha256_hex secret digest).

Definition verify_selection (x : SkillSelection) (secret : string) (now : instant) : result unit :=
  _ ← raise_if (expired_or_naive (sl_expires_at x) now) (value_error "evolution_skill_selection_expired");
  expected ← selection_signature x secret;
  _ ← raise_if (negb (bool_decide (sl_signature x = expected)))
        (value_error "evolution_skill_selection_signature_invalid");
  h ← canonical_hash (PDict (sl_configuration x));
  raise_if (negb (bool_decide (h = sl_configuration_hash x)))
    (value_error "evolution_skill_configuration_hash_mismatch").

(** ** Selection *)
Definition selection_rank (r : EvolutionSkillRelease) : Z :=
  match rl_state r with ReleaseState_CANARY => 0 | ReleaseState_ACTIVE => 1 | _ => 2 end.

(** The release that governs the skill while [active] is its live version. *)
Definition governing_release (q : SkillSelectionRequest) (active : Z) (s : Runtime)
    : option EvolutionSkillRelease :=
  head (py_sorted (λ a b, (selection_rank a <? selection_rank b)
                          || ((selection_rank a =? selection_rank b)
                              && (rl_updated_at b <=? rl_updated_at a)))
    (filter (λ r, rl_company_id r = sq_company_id q ∧ rl_agent_id r = sq_agent_id q
       ∧ rl_skill_id r = sq_skill_id q
       ∧ ((rl_state r = ReleaseState_CANARY ∧ ri_baseline_version (rl_identity r) = active)
          ∨ (rl_state r = ReleaseState_ACTIVE ∧ ri_candidate_version (rl_identity r) = active)
          ∨ (rl_state r = ReleaseState_ROLLED_BACK ∧ ri_baseline_version (rl_identity r) = active)))
       (e_releases s))).

Definition configuration_of (r : EvolutionSkillConfig) : pydict :=
  [("skill_id", PStr (sk_skill_id r)); ("version", PStr (sk_version r));
   ("system_prompt", PStr (sk_system_prompt r)); ("parameters", PDict (default [] (sk_parameters r)));
   ("few_shot_examples", PList (default [] (sk_few_shot_examples r)));
   ("output_format", PStr (sk_output_format r)); ("target_model", PStr (sk_target_model r))].

Definition expected_hash (release : EvolutionSkillRelease) (version : Z) : string :=
  if decide (version = ri_candidate_version (rl_identity release))
  then ri_candidate_config_hash (rl_identity release) else ri_baseline_config_hash (rl_identity release).

(** The version a trace runs: routed while the release is a canary. *)
Definition selected_version (q : SkillSelectionRequest) (active : Z) (release : EvolutionSkillRelease)
    (s : Runtime) : result Z :=
  if decide (rl_state release = ReleaseState_CANARY) then
    v ← resolve_skill_version (sq_agent_id q) (sq_skill_id q) (sq_trace_id q) s; py_int v
  else Ok active.

Definition signed_selection (x : SkillSelection) (secret : string) : result SkillSelection :=
  sig ← selection_signature x secret;
  Ok {| sl_company_id := sl_company_id x; sl_agent_id := sl_agent_id x; sl_skill_id := sl_skill_id x;
        sl_trace_id := sl_trace_id x; sl_schema_version := sl_schema_version x;
        sl_deployment_id := sl_deployment_id x; sl_experiment_id := sl_experiment_id x;
        sl_version := sl_version x; sl_configuration_hash := sl_configuration_hash x;
        sl_configuration := sl_configuration x; sl_expires_at := sl_expires_at x; sl_signature := sig |}.

Definition resolve (q : SkillSelectionRequest) (secret : string) : M Runtime (option SkillSelection) :=
  _ ← raise_ifM (negb (bool_decide (sq_company_id q = control_plane_company_id)))
        (value_error "release_company_not_owned");
  active_ ← getsM (get_active_skill (sq_skill_id q));
  match active_ with
  | None => mret None
  | Some active =>
      active_version ← liftM (py_int (PStr (sk_version active)));
      release_ ← getsM (governing_release q active_version);
      match release_ with
      | None => mret None
      | Some release =>
          s ← getM;
          version ← liftM (selected_version q active_version release s);
          match get_skill_by_version (sq_skill_id q) (pretty version) s with
          | None => raiseM (value_error "release_skill_version_missing")
          | Some config =>
              digest ← liftM (canonical_hash (PDict (configuration_of config)));
              _ ← raise_ifM (negb (bool_decide (digest = expected_hash release version)))
                    (value_error "release_skill_config_hash_mismatch");
              now ← e_now;
              selection ← liftM (signed_selection {|
                sl_company_id := sq_company_id q; sl_agent_id := sq_agent_id q;
                sl_skill_id := sq_skill_id q; sl_trace_id := sq_trace_id q; sl_schema_version := "1.0";
                sl_deployment_id := rl_deployment_id release;
                sl_experiment_id := if decide (rl_state release = ReleaseState_CANARY)
                                    then rl_experiment_id release else None;
                sl_version := version; sl_configuration_hash := digest;
                sl_configuration := configuration_of config;
                sl_expires_at := of_utc (now + us_per_hour); sl_signature := "" |} secret);
              mret (Some selection)
          end
      end
  end.

(** ** Observation *)

(** The canary the selection was made in, while it is still running. *)
Definition observed_canary (x : SkillSelection) (experiment : string) (s : Runtime)
    : result (EvolutionSkillRelease * EvolutionExperiment) :=
  match get_release (sl_deployment_id x) s, get_experiment (Some experiment) s with
  | Some release, Some exp =>
      if bool_decide (rl_company_id release = sl_company_id x)
         && bool_decide (rl_state release = ReleaseState_CANARY) && is_running exp
         && bool_decide (ex_agent_id exp = sl_agent_id x) && bool_decide (ex_skill_id exp = sl_skill_id x)
         && bool_decide (rl_experiment_id release = Some (ex_experiment_id exp))
      then Ok (release, exp) else Raise (value_error "release_experiment_not_running")
  | _, _ => Raise (value_error "release_experiment_not_running")
  end.

Definition prior_trace (x : SkillSelection) (s : Runtime) : option EvolutionTrace :=
  head (filter (λ t, tr_trace_id t = sl_trace_id x ∧ tr_agent_id t = sl_agent_id x
                     ∧ tr_skill_used t = Some (sl_skill_id x)) (e_traces s)).

Definition with_observation (score : float) (success : bool) (t : EvolutionTrace) : EvolutionTrace := {|
  tr_trace_id := tr_trace_id t; tr_agent_id := tr_agent_id t; tr_event_type := tr_event_type t;
  tr_success := success; tr_skill_used := tr_skill_used t; tr_skill_version := tr_skill_version t;
  tr_auto_score := Some score; tr_created_at := tr_created_at t |}.

(** Updates the first row that [f] selects. *)
Fixpoint update_first {A} (p : A → bool) (f : A → A) (l : list A) : list A :=
  match l with
  | [] => []
  | x :: l' => if p x then f x :: l' else x :: update_first p f l'
  end.

Definition trace_of (x : SkillSelection) (t : EvolutionTrace) : bool :=
  bool_decide (tr_trace_id t = sl_trace_id x ∧ tr_agent_id t = sl_agent_id x
               ∧ tr_skill_used t = Some (sl_skill_id x)).

Definition version_differs (t : EvolutionTrace) (version : Z) : bool :=
  negb (bool_decide (default "None" (tr_skill_version t) = pretty version)).

Definition is_int (v : pyval) (z : Z) : bool := match v with PInt y => y =? z | _ => false end.

Record observation := { ob_state : string; ob_recorded : bool }.

Definition store_observation (r : SkillExecutionResult) (exp : EvolutionExperiment) : M Runtime observation :=
  let x := xr_selection r in
  let count := add_experiment_result (ex_experiment_id exp)
                 (bool_decide (sl_version x = ex_candidate_version exp)) (xr_score r) in
  let conflict : M Runtime observation := raiseM (value_error "release_execution_result_conflict") in
  prior_ ← getsM (prior_trace x);
  match prior_ with
  | None =>
      _ ← save_trace (sl_trace_id x) (sl_agent_id x) "evolution.skill.executed" (xr_success r)
            (Some (sl_skill_id x)) (Some (pretty (sl_version x))) (Some (xr_score r));
      _ ← count;
      mret {| ob_state := "canary"; ob_recorded := true |}
  | Some prior =>
      match tr_auto_score prior with
      | Some score =>
          if version_differs prior (sl_version x) || negb (SFeqb score (xr_score r)) then conflict
          else mret {| ob_state := "canary"; ob_recorded := false |}
      | None =>
          if version_differs prior (sl_version x) then conflict
          else
            _ ← modifyM (λ s, set_traces (update_first (trace_of x)
                   (with_observation (xr_score r) (xr_success r)) (e_traces s)) s);
            _ ← count;
            mret {| ob_state := "canary"; ob_recorded := true |}
      end
  end.

Definition record (r : SkillExecutionResult) : M Runtime observation :=
  let x := xr_selection r in
  _ ← raise_ifM (negb (bool_decide (sl_company_id x = control_plane_company_id)))
        (value_error "release_company_not_owned");
  match sl_experiment_id x with
  | None => mret {| ob_state := "active"; ob_recorded := false |}
  | Some experiment =>
      found ← getsM (observed_canary x experiment);
      canary ← liftM found;
      s ← getM;
      expected ← liftM (resolve_skill_version (sl_agent_id x) (sl_skill_id x) (sl_trace_id x) s);
      _ ← raise_ifM (negb (is_int expected (sl_version x)))
            (value_error "release_executed_version_mismatch");
      _ ← raise_ifM (negb (bool_decide (expected_hash canary.1 (sl_version x) = sl_configuration_hash x)))
            (value_error "release_skill_config_hash_mismatch");
      store_observation r canary.2
  end.

(** [SkillExecutionUseCase.record] in the session of its request *)
Definition record_signed (r : SkillExecutionResult) (secret : string) : M Runtime observation :=
  in_transaction
    (now ← e_now;
     _ ← liftM (verify_selection (xr_selection r) secret now);
     record r).

(** ** The guard *)

(** What Redis answers at each call, numbered by the clock. *)
Record redis := {
  redis_get : string → nat → result (option string);
  redis_incr : string → nat → result Z;
  redis_expire : string → nat → result unit;
  redis_set : string → string → nat → result unit }.

Definition asks {A} (f : nat → result A) : M Runtime A := λ s,
  (f (e_ticks s), {| e_skills := e_skills s; e_releases := e_releases s; e_commands := e_commands s;
     e_experiments := e_experiments s; e_traces := e_traces s; e_ticks := S (e_ticks s) |}).

Record guard_config := { gc_rollback_threshold : float; gc_min_samples : nat; gc_max_rollbacks : Z }.
Definition default_guard : guard_config :=
  {| gc_rollback_threshold := float_lit 1 1; gc_min_samples := 10; gc_max_rollbacks := 3 |}.

(** The degradation is large enough and the samples are there. *)
Definition degraded (g : guard_config) (agent skill : string) (s : Runtime)
    : option EvolutionSkillConfig :=
  match get_active_skill skill s with
  | None => None
  | Some active =>
      if bool_decide (sk_promoted_at active = None) then None
      else if (length (get_recent_traces agent (gc_min_samples g) (Some skill) s) <? gc_min_samples g)%nat
      then None
      else if f_le (f_sub (sk_success_rate active)
                      (calc_success_rate agent (Some skill) (gc_min_samples g) s)) (gc_rollback_threshold g)
      then None else Some active
  end.

Definition guard_check (R : redis) (g : guard_config) (agent skill : string) : M Runtime bool :=
  active_ ← getsM (degraded g agent skill);
  match active_ with
  | None => mret false
  | Some active =>
      let counter := "evolution:rollback_count:" +:+ agent in
      count ← asks (redis_incr R counter);
      _ ← asks (redis_expire R counter);
      if gc_max_rollbacks g <? count then
        _ ← asks (redis_set R ("evolution:paused:" +:+ agent) "true"); mret false
      else
        prev_ ← getsM (get_previous_active skill);
        match prev_ with
        | None => mret false
        | Some prev => rollback_skill_if_current skill (sk_version active) (sk_version prev) agent
        end
  end.

(** ** The kill switch *)
Definition kill_switch_enabled (answer : result (option string)) : bool :=
  match answer with
  | Raise _ => false
  | Ok None => true
  | Ok (Some v) => negb (bool_decide (lower v = "false"))
  end.
End execution.
