(* ===== verification/EvaluationBatch.v ===== *)
(** * Fixed evaluation batches

    [src/shared/evolution/evaluation_batch.py]: the results of two
    configurations on the same cases, and the gates that decide whether the
    candidate is eligible for promotion. *)

From Stdlib Require Import SpecFloat.
From S2P Require Import Prelude PyNum PyTime PyValue SkillRelease.

Definition f_mul : float → float → float := SFmul 53 1024.
Definition f_sqrt : float → float := SFsqrt 53 1024.
(** [min(a, b)]: the first unless the second is smaller *)
Definition f_min (a b : float) : float := if f_lt b a then b else a.

(** ** Contracts *)
Record EvalCase := {
  ec_case_id : string; ec_case_revision : string; ec_expects_policy_denial : bool }.

Record EvalResult := {
  er_result_id : string; er_case_id : string; er_config_revision : string; er_accepted : bool;
  er_quality : float; er_total_attempt_cost_usd : float; er_latency_ms : float;
  er_human_interventions : Z; er_policy_denied : bool; er_policy_violation : bool }.

Record EvaluationBatch := {
  eb_evaluation_id : string; eb_dataset_revision : string; eb_config_revision : string;
  eb_budget_usd : float; eb_cases : list EvalCase; eb_results : list EvalResult }.

Record EvaluationPolicy := {
  ep_minimum_sample_count : Z; ep_minimum_candidate_accepted_quality : float;
  ep_maximum_cost_per_accepted_outcome_usd : float;
  ep_maximum_total_attempt_cost_usd : option float }.

Definition sized (hi : nat) (s : string) : bool :=
  (1 <=? String.length s)%nat && (String.length s <=? hi)%nat.
Definition non_negative (x : float) : bool := f_le f_zero x && f_isfinite x.
Definition unit_interval (x : float) : bool := f_le f_zero x && f_le x (f_of_Z 1) && f_isfinite x.

Definition case_valid (c : EvalCase) : bool := sized 200 (ec_case_id c) && sized 100 (ec_case_revision c).

Definition result_valid (r : EvalResult) : bool :=
  sized 200 (er_result_id r) && sized 200 (er_case_id r) && sized 200 (er_config_revision r)
  && unit_interval (er_quality r) && non_negative (er_total_attempt_cost_usd r)
  && non_negative (er_latency_ms r) && (0 <=? er_human_interventions r).

(** The field constraints and [_validate_identifiers]. *)
Definition batch_valid (b : EvaluationBatch) : bool :=
  sized 200 (eb_evaluation_id b) && sized 200 (eb_dataset_revision b)
  && sized 200 (eb_config_revision b) && non_negative (eb_budget_usd b)
  && forallb case_valid (eb_cases b) && forallb result_valid (eb_results b)
  && bool_decide (NoDup (ec_case_id <$> eb_cases b))
  && bool_decide (NoDup (er_result_id <$> eb_results b))
  && bool_decide (NoDup (er_case_id <$> eb_results b))
  && forallb (λ r, bool_decide (er_case_id r ∈ ec_case_id <$> eb_cases b)
                   && bool_decide (er_config_revision r = eb_config_revision b)) (eb_results b).

Definition policy_valid (p : EvaluationPolicy) : bool :=
  (1 <=? ep_minimum_sample_count p) && unit_interval (ep_minimum_candidate_accepted_quality p)
  && non_negative (ep_maximum_cost_per_accepted_outcome_usd p)
  && match ep_maximum_total_attempt_cost_usd p with Some x => non_negative x | None => true end.

Record WilsonInterval := { wi_lower : option float; wi_upper : option float }.

Record ArmEvaluationMetrics := {
  am_evaluation_id : string; am_config_revision : string; am_sample_count : Z; am_accepted_count : Z;
  am_accepted_outcome_rate : option float; am_accepted_outcome_rate_95_ci : WilsonInterval;
  am_mean_accepted_quality : float; am_total_attempt_cost_usd : float;
  am_cost_per_accepted_outcome_usd : option float; am_mean_latency_ms : float;
  am_total_human_interventions : Z; am_policy_denial_count : Z; am_policy_denial_failures : Z;
  am_policy_violation_count : Z }.

Record EvaluationComparison := {
  cp_eligible : bool; cp_reasons : list string; cp_baseline : ArmEvaluationMetrics;
  cp_candidate : ArmEvaluationMetrics; cp_dataset_revision : option string;
  cp_budget_usd : option float }.

(** ** The interval *)
Definition wilson_z : float := float_lit 1959963984540054 15.

Definition _wilson_interval (successes samples : Z) : WilsonInterval :=
  if samples =? 0 then {| wi_lower := None; wi_upper := None |}
  else
    let n := f_of_Z samples in
    let proportion := f_div (f_of_Z successes) n in
    let z_squared := f_mul wilson_z wilson_z in
    let denominator := f_add (f_of_Z 1) (f_div z_squared n) in
    let center := f_div (f_add proportion (f_div z_squared (f_of_Z (2 * samples)))) denominator in
    let variance := f_add (f_div (f_mul proportion (f_sub (f_of_Z 1) proportion)) n)
                          (f_div z_squared (f_of_Z (4 * samples * samples))) in
    let margin := f_div (f_mul wilson_z (f_sqrt variance)) denominator in
    {| wi_lower := Some (f_max f_zero (f_sub center margin));
       wi_upper := Some (f_min (f_of_Z 1) (f_add center margin)) |}.

(** ** One arm *)
Definition count {A} (p : A → bool) (l : list A) : Z := Z.of_nat (length (filter (λ x, p x = true) l)).

(** Whether the case of the result expects a denial; a batch has the case of each
    of its results. *)
Definition expects_denial (b : EvaluationBatch) (r : EvalResult) : bool :=
  match get_row ec_case_id (er_case_id r) (eb_cases b) with
  | Some c => ec_expects_policy_denial c
  | None => false
  end.

(** [sum(...) / n if n else 0.0] *)
Definition mean_over (l : list float) (n : Z) : float :=
  if n =? 0 then f_zero else f_div (py_sum l) (f_of_Z n).

Definition _aggregate (b : EvaluationBatch) : ArmEvaluationMetrics :=
  let results := eb_results b in
  let sample_count := Z.of_nat (length results) in
  let accepted := filter (λ r, er_accepted r = true) results in
  let accepted_count := Z.of_nat (length accepted) in
  let failures := count (λ r, expects_denial b r && negb (er_policy_denied r)) results in
  let violations := count er_policy_violation results in
  let total_cost := py_sum (er_total_attempt_cost_usd <$> results) in
  {| am_evaluation_id := eb_evaluation_id b; am_config_revision := eb_config_revision b;
     am_sample_count := sample_count; am_accepted_count := accepted_count;
     am_accepted_outcome_rate :=
       if sample_count =? 0 then None
       else Some (f_div (f_of_Z accepted_count) (f_of_Z sample_count));
     am_accepted_outcome_rate_95_ci := _wilson_interval accepted_count sample_count;
     am_mean_accepted_quality := mean_over (er_quality <$> accepted) accepted_count;
     am_total_attempt_cost_usd := total_cost;
     am_cost_per_accepted_outcome_usd :=
       if accepted_count =? 0 then None else Some (f_div total_cost (f_of_Z accepted_count));
     am_mean_latency_ms := mean_over (er_latency_ms <$> results) sample_count;
     am_total_human_interventions := foldr Z.add 0 (er_human_interventions <$> results);
     am_policy_denial_count := count er_policy_denied results;
     am_policy_denial_failures := failures;
     am_policy_violation_count := violations + failures |}.

(** ** The comparison *)

(** Case identifiers, revisions and expectations in order. *)
Definition case_leb (a b : EvalCase) : bool :=
  if negb (bool_decide (ec_case_id a = ec_case_id b)) then str_leb (ec_case_id a) (ec_case_id b)
  else if negb (bool_decide (ec_case_revision a = ec_case_revision b))
       then str_leb (ec_case_revision a) (ec_case_revision b)
  else implb (ec_expects_policy_denial a) (ec_expects_policy_denial b).

#[global] Instance EvalCase_eq_dec : EqDecision EvalCase.
Proof. solve_decision. Defined.

Definition _case_signature (b : EvaluationBatch) : list EvalCase := py_sorted case_leb (eb_cases b).

(** [{result.case_id for ...} == {case.case_id for ...}] *)
Definition complete (b : EvaluationBatch) : bool :=
  bool_decide (list_to_set (er_case_id <$> eb_results b)
               =@{gset string} list_to_set (ec_case_id <$> eb_cases b)).

Definition f_ne (x y : float) : bool := negb (SFeqb x y).

(** The reason code of a gate that is not met. *)
Definition reason (b : bool) (code : string) : list string := if b then [code] else [].

Definition comparison_reasons (baseline candidate : EvaluationBatch) (p : EvaluationPolicy) : list string :=
  let b := _aggregate baseline in
  let c := _aggregate candidate in
  reason (negb (bool_decide (eb_dataset_revision baseline = eb_dataset_revision candidate))
          || negb (bool_decide (_case_signature baseline = _case_signature candidate)))
    "evaluation_cases_mismatch"
  ++ reason (f_ne (eb_budget_usd baseline) (eb_budget_usd candidate)) "budget_mismatch"
  ++ reason (f_lt (eb_budget_usd baseline) (am_total_attempt_cost_usd b)) "baseline_budget_exceeded"
  ++ reason (f_lt (eb_budget_usd candidate) (am_total_attempt_cost_usd c)) "candidate_budget_exceeded"
  ++ reason (bool_decide (eb_config_revision baseline = eb_config_revision candidate))
       "config_revisions_must_differ"
  ++ reason (negb (complete baseline)) "baseline_evaluation_incomplete"
  ++ reason (negb (complete candidate)) "candidate_evaluation_incomplete"
  ++ reason (f_lt (am_mean_accepted_quality c) (am_mean_accepted_quality b)) "candidate_quality_regression"
  ++ reason (am_sample_count b <? ep_minimum_sample_count p) "baseline_sample_count_below_minimum"
  ++ reason (am_sample_count c <? ep_minimum_sample_count p) "candidate_sample_count_below_minimum"
  ++ reason (negb (am_policy_violation_count b =? 0)) "baseline_policy_violations"
  ++ reason (negb (am_policy_violation_count c =? 0)) "candidate_policy_violations"
  ++ reason (f_lt (am_mean_accepted_quality c) (ep_minimum_candidate_accepted_quality p))
       "candidate_quality_below_minimum"
  ++ (match am_cost_per_accepted_outcome_usd c with
      | None => ["candidate_has_no_accepted_outcomes"]
      | Some cost => reason (f_lt (ep_maximum_cost_per_accepted_outcome_usd p) cost)
                       "candidate_cost_per_accepted_outcome_exceeds_maximum"
      end)
  ++ (match ep_maximum_total_attempt_cost_usd p with
      | Some limit => reason (f_lt limit (am_total_attempt_cost_usd c))
                        "candidate_total_attempt_cost_exceeds_maximum"
      | None => []
      end).

Definition compare_evaluations (baseline candidate : EvaluationBatch) (p : EvaluationPolicy)
    : EvaluationComparison :=
  let reasons := comparison_reasons baseline candidate p in
  {| cp_eligible := bool_decide (reasons = []); cp_reasons := reasons;
     cp_baseline := _aggregate baseline; cp_candidate := _aggregate candidate;
     cp_dataset_revision :=
       if decide (eb_dataset_revision baseline = eb_dataset_revision candidate)
       then Some (eb_dataset_revision baseline) else None;
     cp_budget_usd := if SFeqb (eb_budget_usd baseline) (eb_budget_usd candidate)
                      then Some (eb_budget_usd baseline) else None |}.

(** ** What an eligible comparison says *)
Lemma reason_nil b code : reason b code = [] ↔ b = false.
Proof. destruct b; cbn; naive_solver. Qed.

Lemma count_zero {A} (p : A → bool) l : count p l = 0 ↔ ∀ x, x ∈ l → p x = false.
Proof.
  unfold count. split.
  - intros H x Hx. destruct (p x) eqn:Hp; [|done]. exfalso.
    assert (x ∈ filter (λ x, p x = true) l) as Hin by (by apply list_elem_of_filter).
    destruct (filter _ l); [by apply not_elem_of_nil in Hin|]. cbn in H. lia.
  - intros H. destruct (filter (λ x, p x = true) l) as [|y l'] eqn:Hl; [done|]. exfalso.
    assert (y ∈ filter (λ x, p x = true) l) as [Hy Hin]%list_elem_of_filter by (rewrite Hl; left).
    by rewrite H in Hy.
Qed.

Lemma count_nonneg {A} (p : A → bool) l : 0 ≤ count p l.
Proof. unfold count. lia. Qed.

Lemma str_leb_refl s : str_leb s s = true.
Proof. by destruct (str_leb_total s s). Qed.

Lemma case_leb_total a b : case_leb a b = true ∨ case_leb b a = true.
Proof.
  unfold case_leb. rewrite (bool_decide_ext (ec_case_id b = ec_case_id a) (ec_case_id a = ec_case_id b)),
    (bool_decide_ext (ec_case_revision b = ec_case_revision a) (ec_case_revision a = ec_case_revision b)) by done.
  repeat case_bool_decide; cbn; try apply str_leb_total.
  destruct (ec_expects_policy_denial a), (ec_expects_policy_denial b); cbn; auto.
Qed.

Lemma case_leb_trans a b c : case_leb a b = true → case_leb b c = true → case_leb a c = true.
Proof.
  unfold case_leb. destruct a as [i r e], b as [i' r' e'], c as [i'' r'' e'']; cbn.
  repeat case_bool_decide; cbn; subst; try done; eauto using str_leb_trans.
  all: try (destruct e, e', e''; done).
  all: intros; exfalso; eauto using str_leb_antisym.
Qed.

Lemma case_leb_antisym a b : case_leb a b = true → case_leb b a = true → a = b.
Proof.
  unfold case_leb. destruct a as [i r e], b as [i' r' e']; cbn. repeat case_bool_decide; cbn; subst; try done.
  - intros. destruct e, e'; done.
  - intros Ha Hb. by pose proof (str_leb_antisym _ _ Ha Hb).
  - intros Ha Hb. by pose proof (str_leb_antisym _ _ Ha Hb).
  - intros Ha Hb. by pose proof (str_leb_antisym _ _ Ha Hb).
Qed.

Lemma signature_perm a b : _case_signature a = _case_signature b ↔ eb_cases a ≡ₚ eb_cases b.
Proof.
  unfold _case_signature. split.
  - intros H. rewrite <- (py_sorted_perm case_leb (eb_cases a)), H. apply py_sorted_perm.
  - intros H. apply (sorted_unique case_leb); [apply case_leb_antisym|..].
    + apply py_sorted_sorted; [apply case_leb_total | apply case_leb_trans].
    + apply py_sorted_sorted; [apply case_leb_total | apply case_leb_trans].
    + by rewrite !py_sorted_perm.
Qed.

(** The results of a complete batch are those of its cases, one each. *)
Lemma complete_perm b :
  batch_valid b = true → complete b = true ↔ er_case_id <$> eb_results b ≡ₚ ec_case_id <$> eb_cases b.
Proof.
  unfold batch_valid, complete. intros H. rewrite !andb_true_iff, !bool_decide_eq_true in H.
  destruct H as [[[[_ Hc] _] Hr] _]. rewrite bool_decide_eq_true. split.
  - intros Hs. apply NoDup_Permutation; [done..|]. intros x.
    rewrite <- !(elem_of_list_to_set (C := gset string)). by rewrite Hs.
  - intros ->. done.
Qed.

(** The gates of an arm on its own. *)
Record arm_clean (b : EvaluationBatch) : Prop := {
  ac_within_budget : f_lt (eb_budget_usd b) (py_sum (er_total_attempt_cost_usd <$> eb_results b)) = false;
  ac_complete : er_case_id <$> eb_results b ≡ₚ ec_case_id <$> eb_cases b;
  ac_no_violation : ∀ r, r ∈ eb_results b →
    er_policy_violation r = false ∧ (expects_denial b r = true → er_policy_denied r = true) }.

Lemma violations_zero b :
  am_policy_violation_count (_aggregate b) = 0 ↔
  ∀ r, r ∈ eb_results b → er_policy_violation r = false ∧ (expects_denial b r = true → er_policy_denied r = true).
Proof.
  cbn. set (f := λ r, expects_denial b r && negb (er_policy_denied r)).
  pose proof (count_nonneg er_policy_violation (eb_results b)).
  pose proof (count_nonneg f (eb_results b)).
  assert (count er_policy_violation (eb_results b) + count f (eb_results b) = 0 ↔
    count er_policy_violation (eb_results b) = 0 ∧ count f (eb_results b) = 0) as -> by lia.
  rewrite !count_zero. subst f. cbn. split.
  - intros [H1 H2] r Hr. split; [by apply H1|]. specialize (H2 r Hr).
    destruct (expects_denial b r), (er_policy_denied r); naive_solver.
  - intros Hall. split; intros r Hr; destruct (Hall r Hr) as [Hv Hd]; [done|].
    destruct (expects_denial b r), (er_policy_denied r); naive_solver.
Qed.

(** A candidate is eligible exactly when it was compared like with like and
    passed every gate: both arms ran the same cases of the same data set under
    the same budget, each case once; neither arm exceeded the budget, violated a
    policy or let pass what a case expects to be denied; the configurations
    differ; the candidate's accepted quality is not below the baseline's nor
    below the minimum, and its cost per accepted outcome and its total cost are
    within the limits of the policy. *)
Theorem eligible_exactly baseline candidate p :
  batch_valid baseline = true → batch_valid candidate = true →
  cp_eligible (compare_evaluations baseline candidate p) = true ↔
  arm_clean baseline ∧ arm_clean candidate
  ∧ eb_dataset_revision baseline = eb_dataset_revision candidate
  ∧ eb_cases baseline ≡ₚ eb_cases candidate
  ∧ SFeqb (eb_budget_usd baseline) (eb_budget_usd candidate) = true
  ∧ eb_config_revision baseline ≠ eb_config_revision candidate
  ∧ ep_minimum_sample_count p ≤ Z.of_nat (length (eb_results baseline))
  ∧ ep_minimum_sample_count p ≤ Z.of_nat (length (eb_results candidate))
  ∧ f_lt (am_mean_accepted_quality (_aggregate candidate)) (am_mean_accepted_quality (_aggregate baseline)) = false
  ∧ f_lt (am_mean_accepted_quality (_aggregate candidate)) (ep_minimum_candidate_accepted_quality p) = false
  ∧ (∃ cost, am_cost_per_accepted_outcome_usd (_aggregate candidate) = Some cost
       ∧ f_lt (ep_maximum_cost_per_accepted_outcome_usd p) cost = false)
  ∧ (∀ limit, ep_maximum_total_attempt_cost_usd p = Some limit →
       f_lt limit (py_sum (er_total_attempt_cost_usd <$> eb_results candidate)) = false).
Proof.
  intros Hb Hc. unfold compare_evaluations, comparison_reasons. cbn [cp_eligible].
  rewrite bool_decide_eq_true, !app_nil, !reason_nil, orb_false_iff, !negb_false_iff, !bool_decide_eq_true,
    bool_decide_eq_false, !Z.ltb_ge, !Z.eqb_eq, signature_perm, !violations_zero, !complete_perm by done.
  unfold f_ne. rewrite negb_false_iff.
  assert (∀ o : option float, (match o with None => ["candidate_has_no_accepted_outcomes"]
     | Some cost => reason (f_lt (ep_maximum_cost_per_accepted_outcome_usd p) cost)
                       "candidate_cost_per_accepted_outcome_exceeds_maximum" end = [])
     ↔ ∃ cost, o = Some cost ∧ f_lt (ep_maximum_cost_per_accepted_outcome_usd p) cost = false) as ->.
  { intros [x|]; [rewrite reason_nil|]; naive_solver. }
  assert (match ep_maximum_total_attempt_cost_usd p with
      | Some limit => reason (f_lt limit (am_total_attempt_cost_usd (_aggregate candidate)))
                        "candidate_total_attempt_cost_exceeds_maximum"
      | None => [] end = [] ↔ ∀ limit, ep_maximum_total_attempt_cost_usd p = Some limit →
       f_lt limit (am_total_attempt_cost_usd (_aggregate candidate)) = false) as ->.
  { destruct (ep_maximum_total_attempt_cost_usd p); [rewrite reason_nil|]; naive_solver. }
  cbn [am_total_attempt_cost_usd am_sample_count _aggregate]. split.
  - intros (? & ? & ? & ? & ? & ? & ? & ? & ? & ? & ? & ? & ? & ? & ?).
    destruct_and?. split_and!; try done; by split.
  - intros ([? ? ?] & [? ? ?] & ? & ? & ? & ? & ? & ? & ? & ? & ? & ?). by split_and!.
Qed.

(** ** The interval is a proportion *)
Lemma f_le_of_lt x y : f_lt x y = true → f_le x y = true.
Proof. unfold f_lt, f_le, SFltb, SFleb. by destruct (SFcompare x y) as [[]|]. Qed.

(** The bounds reported for a rate are proportions: the lower bound is not
    below zero and the upper one not above one, whatever rounding did. *)
Theorem wilson_is_proportion successes samples lower upper :
  _wilson_interval successes samples = {| wi_lower := Some lower; wi_upper := Some upper |} →
  f_le f_zero lower = true ∧ f_le upper (f_of_Z 1) = true.
Proof.
  unfold _wilson_interval. cbv zeta. destruct (samples =? 0); [done|].
  match goal with |- {| wi_lower := Some (f_max _ ?a); wi_upper := Some (f_min _ ?b) |} = _ → _ =>
    generalize a b end.
  intros lo hi [= <- <-]. unfold f_max, f_min. split.
  - destruct (f_lt _ lo) eqn:H; [by apply f_le_of_lt | done].
  - destruct (f_lt hi _) eqn:H; [by apply f_le_of_lt | done].
Qed.
