(* ===== verification/ReleaseInvariants.v ===== *)
(** * What a release command that was applied went through

    Each part of [ReleaseStore.apply] read backwards: a run that returned passed
    these checks and left these tables. *)

From S2P Require Import Prelude PyNum PyTime PyValue Store SkillRelease ReleaseStore.
From S2P Require Import EvolutionRuntime SkillExecution.

Lemma gets_Ok {S A} (f : S → A) s a s' : getsM f s = (Ok a, s') → a = f s ∧ s' = s.
Proof. by intros [= <- <-]. Qed.
Lemma get_Ok {S} (s a s' : S) : getM s = (Ok a, s') → a = s ∧ s' = s.
Proof. by intros [= <- <-]. Qed.
Lemma lifted_Ok {S A} (m : result A) (s : S) a s' : liftM m s = (Ok a, s') → m = Ok a ∧ s' = s.
Proof. by intros [= -> <-]. Qed.
Lemma raise_ifM_Ok {S} b e (s s' : S) u : raise_ifM b e s = (Ok u, s') → b = false ∧ s' = s.
Proof. unfold raise_ifM. destruct b; [done|]. by intros [= _ <-]. Qed.
Lemma modify_Ok {S} (f : S → S) s u s' : modifyM f s = (Ok u, s') → s' = f s.
Proof. by intros [= _ <-]. Qed.

(** Reads back a run in any state that returned. *)
Ltac rinv :=
  repeat match goal with
  | H : mbind (M := M _) _ _ _ = (Ok _, _) |- _ =>
      let a := fresh "x" in let s := fresh "s" in let Hm := fresh "Hm" in
      apply M_bind_Ok in H as (a & s & Hm & H)
  | H : getsM _ _ = (Ok _, _) |- _ => apply gets_Ok in H as [-> ->]
  | H : getM _ = (Ok _, _) |- _ => apply get_Ok in H as [-> ->]
  | H : liftM _ _ = (Ok _, _) |- _ => apply lifted_Ok in H as [H ->]
  | H : raise_ifM _ _ _ = (Ok _, _) |- _ => apply raise_ifM_Ok in H as [H ->]
  | H : modifyM _ _ = (Ok _, _) |- _ => apply modify_Ok in H as ->
  | H : mret _ _ = (Ok _, _) |- _ => injection H as <- <-
  | H : raiseM _ _ = (Ok _, _) |- _ => discriminate H
  | H : (_ || _) = false |- _ => apply orb_false_iff in H as [? ?]
  | H : negb _ = false |- _ => apply negb_false_iff in H
  | H : bool_decide _ = true |- _ => apply bool_decide_eq_true in H
  | H : bool_decide _ = false |- _ => apply bool_decide_eq_false in H
  end.

(** The tables of two states, the clock apart. *)
Definition tables (s : Runtime) :=
  (e_skills s, e_releases s, e_commands s, e_experiments s, e_traces s).

Lemma e_now_Ok {E : ReleaseEnv} s t s' : e_now s = (Ok t, s') → t = clock (e_ticks s) ∧ tables s' = tables s.
Proof. by intros [= <- <-]. Qed.

(** Writes the tables of [s'] in terms of those of the state before it. *)
Ltac settle_tables :=
  repeat match goal with
  | H : e_now _ = (Ok _, _) |- _ => apply e_now_Ok in H as [? H]
  | H : tables _ = tables _ |- _ => unfold tables in H; cbn in H; injection H as ? ? ? ? ?
  end.

Ltac by_tables :=
  unfold tables; cbn;
  repeat match goal with
  | H : e_skills ?a = _ |- context [e_skills ?a] => rewrite H
  | H : e_releases ?a = _ |- context [e_releases ?a] => rewrite H
  | H : e_commands ?a = _ |- context [e_commands ?a] => rewrite H
  | H : e_experiments ?a = _ |- context [e_experiments ?a] => rewrite H
  | H : e_traces ?a = _ |- context [e_traces ?a] => rewrite H
  end; reflexivity.

Section inversion.
Context {E : ReleaseEnv}.

Lemma cas_skill_Ok id_ from to_ p s u s' :
  cas_skill id_ from to_ p s = (Ok u, s') →
  length (filter (λ r, sk_id r = id_ ∧ sk_status r = from) (e_skills s)) = 1%nat
  ∧ s' = set_skills (map (cas_row id_ from to_ p) (e_skills s)) s.
Proof. unfold cas_skill. intros H. by rinv. Qed.

Lemma conclude_row_Ok exp st s u s' :
  conclude_row exp st s = (Ok u, s') →
  ∃ now, tables s' = (e_skills s, e_releases s, e_commands s,
    update_row ex_experiment_id (ex_experiment_id exp) (with_conclusion st now) (e_experiments s),
    e_traces s).
Proof. unfold conclude_row. intros H. rinv. settle_tables. eexists. by_tables. Qed.

Lemma promote_Ok c b ca current s u s' :
  promote c b ca current s = (Ok u, s') →
  ∃ cur exp t1 t2, current = Some cur ∧ rs_state cur = ReleaseState_CANARY
    ∧ get_experiment (rs_experiment_id cur) s = Some exp ∧ is_running exp = true
    ∧ quality_gate c exp = Ok () ∧ sk_status b = "active" ∧ sk_status ca ∈ ["candidate"; "shadow"]
    ∧ tables s' = (map (cas_row (sk_id ca) (sk_status ca) "active" (Some t1))
                     (map (cas_row (sk_id b) "active" "retired" None) (e_skills s)),
        e_releases s, e_commands s,
        update_row ex_experiment_id (ex_experiment_id exp) (with_conclusion "promoted" t2) (e_experiments s),
        e_traces s).
Proof.
  unfold promote. destruct current as [cur|]; [|done]. intros H. rinv.
  destruct (get_experiment _ _) as [exp|] eqn:Hexp; [|done]. rinv.
  repeat match goal with H : cas_skill _ _ _ _ _ = _ |- _ => apply cas_skill_Ok in H as [_ ->] end.
  apply conclude_row_Ok in H as [t2 H]. settle_tables. destruct x1. exists cur, exp, x4, t2.
  split_and!; try done. rewrite H. by_tables.
Qed.

Lemma rollback_Ok b ca current s u s' :
  rollback_release b ca current s = (Ok u, s') →
  ∃ cur, current = Some cur ∧
  match rs_state cur with
  | ReleaseState_SHADOW => s' = s
  | ReleaseState_CANARY =>
      s' = s ∧ (∀ exp, get_experiment (rs_experiment_id cur) s = Some exp → is_running exp = false)
      ∨ ∃ exp t, get_experiment (rs_experiment_id cur) s = Some exp ∧
        tables s' = (e_skills s, e_releases s, e_commands s,
          update_row ex_experiment_id (ex_experiment_id exp) (with_conclusion "rolled_back" t)
            (e_experiments s), e_traces s)
  | ReleaseState_ACTIVE =>
      sk_status ca = "active" ∧ sk_status b = "retired" ∧ ∃ xs,
      tables s' = (map (cas_row (sk_id b) "retired" "active" None)
                     (map (cas_row (sk_id ca) "active" "retired" None) (e_skills s)),
        e_releases s, e_commands s, xs, e_traces s)
      ∧ (xs = e_experiments s ∨ ∃ exp t, get_experiment (rs_experiment_id cur) s = Some exp
           ∧ ex_status exp = "promoted" ∧
           xs = update_row ex_experiment_id (ex_experiment_id exp) (with_conclusion "rolled_back" t)
                  (e_experiments s))
  | ReleaseState_ROLLED_BACK => False
  end.
Proof.
  unfold rollback_release. destruct current as [cur|]; [|done]. intros H. exists cur. split; [done|].
  destruct (rs_state cur); rinv; try done.
  - destruct (get_experiment _ _) as [exp|]; [|rinv; left; split; [done|]; by intros].
    unfold whenM in H. destruct (is_running exp) eqn:Hr.
    + apply conclude_row_Ok in H as [t H]. right. by exists exp, t.
    + rinv. left. split; [done|]. by intros ? [= <-].
  - repeat match goal with H : cas_skill _ _ _ _ _ = _ |- _ => apply cas_skill_Ok in H as [_ ->] end.
    split_and!; [done..|]. destruct (get_experiment _ _) as [exp|].
    + unfold whenM in H. case_bool_decide as Hp.
      * apply conclude_row_Ok in H as [t H]. eexists. split; [exact H|]. right. by exists exp, t.
      * rinv. eexists. split; [done|]. by left.
    + rinv. eexists. split; [done|]. by left.
Qed.

Lemma canary_Ok c b release s u s' :
  canary_experiment c b release s = (Ok u, s') →
  truthy (cm_approval_id c) = true ∧ other_canary c s = false ∧ ∃ xs,
  tables s' = (e_skills s, e_releases s, e_commands s, xs, e_traces s)
  ∧ ((get_experiment (Some (cm_deployment_id c)) s = None
      ∧ rl_state <$> release = Some ReleaseState_SHADOW ∧ sk_status b = "active"
      ∧ ∃ now, xs = e_experiments s ++ [new_experiment c now])
     ∨ ∃ exp, get_experiment (Some (cm_deployment_id c)) s = Some exp ∧ is_running exp = true
        ∧ (ex_agent_id exp, ex_skill_id exp, ex_control_version exp, ex_candidate_version exp)
          = (cm_agent_id c, cm_skill_id c, cm_baseline_version c, cm_candidate_version c)
        ∧ xs = update_row ex_experiment_id (cm_deployment_id c)
                 (with_exposure (Z.min (cm_traffic_pct c) 10) (Z.max (cm_minimum_sample_count c) 50))
                 (e_experiments s)).
Proof.
  unfold canary_experiment. intros H. rinv. split_and!; [done..|].
  destruct (get_experiment _ _) as [exp|] eqn:Hexp; rinv.
  - eexists. split; [reflexivity|]. right. by exists exp.
  - settle_tables. eexists. split; [by_tables|]. left. by eauto.
Qed.

Lemma write_Ok c release next s u s' :
  write_release c release next s = (Ok u, s') →
  ∃ rs, tables s' = (e_skills s, rs, e_commands s, e_experiments s, e_traces s) ∧
  match release with
  | None => ∃ t1 t2, rs = e_releases s ++ [new_release c next t1 t2]
  | Some r => ∃ t, rs = map (next_row c r next t) (e_releases s)
  end.
Proof.
  unfold write_release. destruct release as [r|]; intros H; rinv; settle_tables;
    eexists; (split; [by_tables|]).
  - by eexists.
  - by eexists _, _.
Qed.

(** ** The whole command *)
Definition receipt (c : SkillReleaseCommand) (h : string) (next : SkillReleaseSnapshot) (t : instant)
    : EvolutionSkillReleaseCommand := {|
  ck_command_id := cm_command_id c; ck_deployment_id := cm_deployment_id c; ck_payload_hash := h;
  ck_response := response_of next; ck_created_at := t |}.

Definition written (c : SkillReleaseCommand) (next : SkillReleaseSnapshot) (s : Runtime)
    (rs : list EvolutionSkillRelease) : Prop :=
  match get_release (cm_deployment_id c) s with
  | None => ∃ t1 t2, rs = e_releases s ++ [new_release c next t1 t2]
  | Some r => ∃ t, rs = map (next_row c r next t) (e_releases s)
  end.

(** The skill versions and the experiments that a command leaves. *)
Definition effects (c : SkillReleaseCommand) (b ca : EvolutionSkillConfig) (s : Runtime)
    (sks : list EvolutionSkillConfig) (xs : list EvolutionExperiment) : Prop :=
  let release := get_release (cm_deployment_id c) s in
  match cm_action c with
  | ReleaseAction_SHADOW => sks = e_skills s ∧ xs = e_experiments s
  | ReleaseAction_CANARY =>
      sks = e_skills s ∧ truthy (cm_approval_id c) = true ∧ other_canary c s = false
      ∧ ((get_experiment (Some (cm_deployment_id c)) s = None
          ∧ ∃ now, xs = e_experiments s ++ [new_experiment c now])
         ∨ ∃ exp, get_experiment (Some (cm_deployment_id c)) s = Some exp ∧ is_running exp = true
            ∧ (ex_agent_id exp, ex_skill_id exp, ex_control_version exp, ex_candidate_version exp)
              = (cm_agent_id c, cm_skill_id c, cm_baseline_version c, cm_candidate_version c)
            ∧ xs = update_row ex_experiment_id (cm_deployment_id c)
                 (with_exposure (Z.min (cm_traffic_pct c) 10) (Z.max (cm_minimum_sample_count c) 50))
                 (e_experiments s))
  | ReleaseAction_PROMOTE =>
      ∃ r exp t1 t2, release = Some r ∧ rl_state r = ReleaseState_CANARY
        ∧ get_experiment (rl_experiment_id r) s = Some exp ∧ is_running exp = true
        ∧ quality_gate c exp = Ok () ∧ sk_status b = "active" ∧ sk_status ca ∈ ["candidate"; "shadow"]
        ∧ sks = map (cas_row (sk_id ca) (sk_status ca) "active" (Some t1))
                  (map (cas_row (sk_id b) "active" "retired" None) (e_skills s))
        ∧ xs = update_row ex_experiment_id (ex_experiment_id exp) (with_conclusion "promoted" t2)
                 (e_experiments s)
  | ReleaseAction_ROLLBACK =>
      ∃ r, release = Some r ∧
      match rl_state r with
      | ReleaseState_SHADOW => sks = e_skills s ∧ xs = e_experiments s
      | ReleaseState_CANARY =>
          sks = e_skills s ∧ (xs = e_experiments s ∨ ∃ exp t,
            get_experiment (rl_experiment_id r) s = Some exp ∧
            xs = update_row ex_experiment_id (ex_experiment_id exp) (with_conclusion "rolled_back" t)
                   (e_experiments s))
      | ReleaseState_ACTIVE =>
          sk_status ca = "active" ∧ sk_status b = "retired"
          ∧ sks = map (cas_row (sk_id b) "retired" "active" None)
                    (map (cas_row (sk_id ca) "active" "retired" None) (e_skills s))
          ∧ (xs = e_experiments s ∨ ∃ exp t, get_experiment (rl_experiment_id r) s = Some exp
               ∧ ex_status exp = "promoted" ∧
               xs = update_row ex_experiment_id (ex_experiment_id exp) (with_conclusion "rolled_back" t)
                      (e_experiments s))
      | ReleaseState_ROLLED_BACK => False
      end
  end.

Lemma effects_Ok c b ca s u s1 u' s2 :
  whenM (bool_decide (cm_action c = ReleaseAction_CANARY))
    (canary_experiment c b (get_release (cm_deployment_id c) s)) s = (Ok u, s1) →
  (match cm_action c with
   | ReleaseAction_PROMOTE => promote c b ca (snapshot_of <$> get_release (cm_deployment_id c) s)
   | ReleaseAction_ROLLBACK => rollback_release b ca (snapshot_of <$> get_release (cm_deployment_id c) s)
   | _ => mret ()
   end) s1 = (Ok u', s2) →
  ∃ sks xs, tables s2 = (sks, e_releases s, e_commands s, xs, e_traces s) ∧ effects c b ca s sks xs.
Proof.
  intros H1 H2. unfold effects. destruct (cm_action c); unfold whenM in H1;
    rewrite ?bool_decide_eq_true_2, ?bool_decide_eq_false_2 in H1 by done.
  - rinv. by eexists _, _.
  - rinv. apply canary_Ok in H1 as (Ha & Ho & xs & Ht & Hx). eexists _, _. split; [exact Ht|].
    split_and!; [done..|]. destruct Hx as [(? & _ & _ & ?)|?]; [by left | by right].
  - rinv. apply promote_Ok in H2 as (cur & exp & t1 & t2 & Hcur & Hrest).
    apply fmap_Some in Hcur as (r & Hr & ->). cbn in Hrest.
    destruct Hrest as (? & ? & ? & ? & ? & ? & Ht). eexists _, _. split; [exact Ht|]. by exists r, exp, t1, t2.
  - rinv. apply rollback_Ok in H2 as (cur & Hcur & Hrest). apply fmap_Some in Hcur as (r & Hr & ->).
    cbn in Hrest. destruct (rl_state r) eqn:Hst; [subst| | |done].
    + eexists _, _. split; [reflexivity|]. exists r. by rewrite Hst.
    + destruct Hrest as [[-> _]|(exp & t & He & Ht)]; eexists _, _.
      * split; [reflexivity|]. exists r. rewrite Hst. split_and!; [done..|by left].
      * split; [exact Ht|]. exists r. rewrite Hst. split_and!; [done..|]. right. by exists exp, t.
    + destruct Hrest as (Hc & Hb & xs & Ht & Hx). eexists _, _. split; [exact Ht|].
      exists r. rewrite Hst. by split_and!.
Qed.

Lemma apply_checked_Ok c h b ca s r s' :
  apply_checked c h b ca s = (Ok r, s') →
  ∃ next sks rs xs t,
    check_release c b ca (get_release (cm_deployment_id c) s) = Ok ()
    ∧ transition (snapshot_of <$> get_release (cm_deployment_id c) s) (cm_action c) (cm_identity c)
        (Some (match get_release (cm_deployment_id c) s with Some x => rl_version x | None => 0 end))
        (if decide (cm_action c = ReleaseAction_CANARY) then Some (cm_deployment_id c)
         else get_release (cm_deployment_id c) s ≫= rl_experiment_id) = Ok next
    ∧ r = response_of next
    ∧ tables s' = (sks, rs, e_commands s ++ [receipt c h next t], xs, e_traces s)
    ∧ written c next s rs ∧ effects c b ca s sks xs.
Proof.
  unfold apply_checked. intros H. apply M_bind_Ok in H as (release & s1 & Hr & H). rinv. destruct x0.
  destruct (effects_Ok _ _ _ _ _ _ _ _ Hm0 Hm2) as (sks & xs & Ht & Heff).
  apply write_Ok in Hm3 as (rs & Hw & Hrs). apply e_now_Ok in Hm4 as [_ Hn].
  unfold tables in Ht, Hw, Hn. injection Ht as T1 T2 T3 T4 T5. injection Hw as W1 W2 W3 W4 W5.
  injection Hn as N1 N2 N3 N4 N5.
  exists x1, sks, rs, xs, x4. destruct x. split_and!; [done| |done| | |done].
  - by destruct (get_release _ s).
  - unfold tables. cbn. by rewrite N1, N2, N3, N4, N5, W1, W2, W3, W4, W5, T1, T3, T4, T5.
  - unfold written. destruct (get_release _ s); by rewrite T2 in Hrs.
Qed.

Lemma replayed_Ok c h k s r s' :
  replayed c h k s = (Ok r, s') →
  (∃ prior, get_row ck_command_id (cm_command_id c) (e_commands s) = Some prior
     ∧ ck_payload_hash prior = h ∧ r = ck_response prior ∧ s' = s)
  ∨ (get_row ck_command_id (cm_command_id c) (e_commands s) = None ∧ k s = (Ok r, s')).
Proof.
  unfold replayed. intros H. rinv. destruct (get_row _ _ _) as [prior|]; [|by right].
  case_decide; rinv. left. by exists prior.
Qed.

Definition needs_approval (a : ReleaseAction) : bool :=
  bool_decide (a ∈ [ReleaseAction_PROMOTE; ReleaseAction_ROLLBACK]).

Lemma apply_Ok c s r s' :
  apply c s = (Ok r, s') →
  cm_company_id c = control_plane_company_id ∧ ∃ h, canonical_hash (command_dump c) = Ok h ∧
  ((∃ prior, get_row ck_command_id (cm_command_id c) (e_commands s) = Some prior
     ∧ ck_payload_hash prior = h ∧ r = ck_response prior ∧ s' = s)
   ∨ (get_row ck_command_id (cm_command_id c) (e_commands s) = None
      ∧ (needs_approval (cm_action c) = true → truthy (cm_approval_id c) = true)
      ∧ ∃ b ca s1 now, skill_version (cm_skill_id c) (cm_baseline_version c) s = Some b
          ∧ skill_version (cm_skill_id c) (cm_candidate_version c) s = Some ca
          ∧ sk_id b ≠ sk_id ca ∧ expired_or_naive (cm_expires_at c) now = false
          ∧ tables s1 = tables s ∧ apply_checked c h b ca s1 = (Ok r, s'))).
Proof.
  unfold apply. intros H. rinv. split; [done|]. exists x0. split; [done|].
  apply replayed_Ok in H as [?|[Hnone H]]; [by left|right]. split; [done|].
  rinv. destruct (skill_version _ _ s) as [b|] eqn:Hb; [|done].
  destruct (skill_version (cm_skill_id c) (cm_candidate_version c) s) as [ca|] eqn:Hca; [|done].
  rinv. apply replayed_Ok in H as [(p & Hp & _)|[_ H]]; [congruence|]. rinv.
  match goal with H : e_now s = _ |- _ => apply e_now_Ok in H as [? Ht] end. split.
  - unfold needs_approval. intros Hn. apply andb_false_iff in Hm1 as [Hm1|Hm1]; [congruence|].
    by apply negb_false_iff in Hm1.
  - exists b, ca. eexists _, _. by split_and!.
Qed.
End inversion.

(** ** What every history of the evolution runtime keeps

    Commands of the control plane, results and checks of canaries, observations,
    the emergency rollback, seeds and candidates, in any order: the live version
    of a skill is unique, at most one release of a skill is in canary, and every
    canary has its own running experiment with the exposure its command asked
    for. *)

(** *** Live versions *)
Definition one_active (l : list EvolutionSkillConfig) : Prop :=
  ∀ a b, a ∈ l → b ∈ l → sk_skill_id a = sk_skill_id b →
    sk_status a = "active" → sk_status b = "active" → sk_id a = sk_id b.

Definition skills_ok (l : list EvolutionSkillConfig) : Prop := NoDup (sk_id <$> l) ∧ one_active l.

(** A change of statuses in place. *)
Record restatus (g : EvolutionSkillConfig → EvolutionSkillConfig) : Prop := {
  rst_id : ∀ r, sk_id (g r) = sk_id r;
  rst_skill : ∀ r, sk_skill_id (g r) = sk_skill_id r }.

Lemma restatus_cas i from to_ p : restatus (cas_row i from to_ p).
Proof. by split; intros r; unfold cas_row; case_decide. Qed.

(** The live version moves from [b] to the row [t] of the same skill. *)
Lemma skills_ok_swap l g b t :
  restatus g → b ∈ l → sk_status b = "active" →
  (∀ r, r ∈ l → sk_id r = t → sk_skill_id r = sk_skill_id b) →
  (∀ r, r ∈ l → sk_status (g r) = "active" →
     sk_id r = t ∨ (sk_status r = "active" ∧ sk_id r ≠ sk_id b)) →
  skills_ok l → skills_ok (map g l).
Proof.
  intros [Hid Hsk] Hb Hba Ht Hg [Hnd Hone]. split.
  { replace (sk_id <$> map g l) with (sk_id <$> l); [done|]. change (map g l) with (g <$> l).
    rewrite <- list_fmap_compose. apply list_fmap_ext. intros ? r _. cbn. by rewrite Hid. }
  intros x y Hx Hy Hs Hxa Hya.
  apply list_elem_of_fmap in Hx as (x' & -> & Hx). apply list_elem_of_fmap in Hy as (y' & -> & Hy).
  rewrite !Hid. rewrite !Hsk in Hs.
  assert (∀ u v, u ∈ l → v ∈ l → sk_skill_id u = sk_skill_id v → sk_id u = t →
            sk_status v = "active" → sk_id v ≠ sk_id b → False) as Hno.
  { intros u v Hu Hv Huv Hut Hva Hvb. apply Hvb, Hone; try done. rewrite <- Huv. by apply Ht. }
  destruct (Hg _ Hx Hxa) as [Hxt|[Hxa' Hxb]], (Hg _ Hy Hya) as [Hyt|[Hya' Hyb]].
  - congruence.
  - destruct (Hno x' y'); done.
  - by destruct (Hno y' x').
  - by apply Hone.
Qed.

(** Moving the live version by two guarded updates. *)
Lemma skills_ok_cas_swap l b t st p q :
  b ∈ l → t ∈ l → sk_skill_id b = sk_skill_id t → sk_status b = "active" →
  skills_ok l →
  skills_ok (map (cas_row (sk_id t) st "active" p) (map (cas_row (sk_id b) "active" "retired" q) l)).
Proof.
  intros Hb Ht Hs Hba Hl. pose proof Hl as [Hnd _].
  change (map ?f (map ?g l)) with (f <$> (g <$> l)). rewrite <- list_fmap_compose.
  apply (skills_ok_swap l _ b (sk_id t)); [|done..| | |done].
  - split; intros r; cbn; unfold cas_row; repeat case_decide; done.
  - intros r Hr Hrt. by rewrite (get_row_NoDup sk_id l r t Hnd Hr Ht Hrt).
  - intros r Hr. cbn. unfold cas_row at 1. case_decide as Hd; [by left; destruct Hd as [<- _]; rewrite (rst_id _ (restatus_cas _ _ _ _))|].
    unfold cas_row. case_decide as Hc; cbn; [done|]. intros Ha. right. split; [done|].
    intros Hrb. apply Hc. split; done.
Qed.

Lemma skill_version_elem skill v s r :
  skill_version skill v s = Some r →
  r ∈ e_skills s ∧ sk_skill_id r = skill ∧ sk_version r = pretty v.
Proof.
  unfold skill_version. intros H. apply last_Some_elem_of in H.
  apply list_elem_of_filter in H as [Hv H]. rewrite py_sorted_perm in H.
  apply list_elem_of_filter in H as [? ?]. done.
Qed.

Lemma next_id_above l r : r ∈ l → sk_id r < next_id l.
Proof.
  unfold next_id. induction l as [|x l IH]; [by intros ?%not_elem_of_nil|].
  intros [->|Hr]%elem_of_cons; cbn; [lia|]. specialize (IH Hr). cbn in IH. lia.
Qed.

Lemma skills_ok_snoc l row :
  sk_id row = next_id l →
  (sk_status row = "active" → ∀ r, r ∈ l → sk_skill_id r = sk_skill_id row → sk_status r ≠ "active") →
  skills_ok l → skills_ok (l ++ [row]).
Proof.
  intros Hid Hact [Hnd Hone]. split.
  - rewrite fmap_app. apply NoDup_app. split; [done|]. split; [|apply NoDup_singleton].
    intros i (r & -> & Hr)%list_elem_of_fmap ?%list_elem_of_singleton.
    pose proof (next_id_above _ _ Hr). lia.
  - intros a b [Ha|Ha%list_elem_of_singleton]%elem_of_app [Hb|Hb%list_elem_of_singleton]%elem_of_app Hs Haa Hba;
      subst; [by apply Hone| | |done].
    + by destruct (Hact Hba a).
    + by destruct (Hact Haa b).
Qed.

Section live.
Context {E : ReleaseEnv}.

Lemma effects_skills_ok c b ca s sks xs :
  skill_version (cm_skill_id c) (cm_baseline_version c) s = Some b →
  skill_version (cm_skill_id c) (cm_candidate_version c) s = Some ca →
  effects c b ca s sks xs → skills_ok (e_skills s) → skills_ok sks.
Proof.
  intros (Hb & Hbs & _)%skill_version_elem (Hca & Hcs & _)%skill_version_elem Heff Hok.
  unfold effects in Heff. destruct (cm_action c).
  - by destruct Heff as [-> _].
  - by destruct Heff as [-> _].
  - destruct Heff as (r & exp & t1 & t2 & _ & _ & _ & _ & _ & Hba & _ & -> & _).
    apply skills_ok_cas_swap; congruence.
  - destruct Heff as (r & _ & Heff). destruct (rl_state r); try done.
    + by destruct Heff as [-> _].
    + by destruct Heff as [-> _].
    + destruct Heff as (Hca' & _ & -> & _). apply skills_ok_cas_swap; congruence.
Qed.

Lemma save_skill_ok a s row s' :
  save_skill_config a s = (Ok row, s') →
  (sd_status a = "active" → get_active_skill (sd_skill_id a) s = None) →
  skills_ok (e_skills s) → skills_ok (e_skills s').
Proof.
  unfold save_skill_config. intros H Hact Hok. rinv.
  match goal with H : e_now s = _ |- _ => apply e_now_Ok in H as [_ Ht]; unfold tables in Ht end.
  injection Ht as T1 _ _ _ _. cbn. rewrite T1. apply skills_ok_snoc; [done| |done]. cbn.
  intros Ha r Hr Hs Hra. specialize (Hact Ha). unfold get_active_skill, newest_first in Hact.
  apply head_None in Hact. assert (r ∈ filter (λ r, sk_skill_id r = sd_skill_id a ∧ sk_status r = "active")
    (e_skills s)) as Hin by (by apply list_elem_of_filter).
  rewrite <- (py_sorted_perm (λ a b, sk_created_at b <=? sk_created_at a)) in Hin.
  rewrite Hact in Hin. by apply not_elem_of_nil in Hin.
Qed.

Lemma seed_skills_ok seeds s n s' :
  seed_missing_active_skills seeds s = (Ok n, s') → skills_ok (e_skills s) → skills_ok (e_skills s').
Proof.
  revert s n s'. induction seeds as [|a seeds IH]; intros s n s' H Hok; cbn in H; rinv; [done|].
  destruct (get_active_skill _ s) eqn:Hget; [by eapply IH|]. rinv.
  eapply IH; [done|]. by eapply save_skill_ok.
Qed.

(** *** The emergency rollback *)
Lemma restatus_set i st p : restatus (λ r, if decide (sk_id r = i) then with_skill_status st p r else r).
Proof. by split; intros r; case_decide. Qed.

Lemma restore_Ok a b release s u s' :
  restore_baseline a b release s = (Ok u, s') →
  ∃ now rs xs, tables s' =
    (map (λ r, if decide (sk_id r = sk_id b) then with_skill_status "active" (Some now) r else r)
       (map (λ r, if decide (sk_id r = sk_id a) then with_skill_status "retired" None r else r) (e_skills s)),
     rs, e_commands s, xs, e_traces s)
  ∧ match release with
    | None => rs = e_releases s ∧ xs = e_experiments s
    | Some r => ∃ t, rs = update_row rl_deployment_id (rl_deployment_id r) (roll_release_back t) (e_releases s)
        ∧ (xs = e_experiments s ∨ ∃ e t', rl_experiment_id r = Some e ∧
             xs = update_row ex_experiment_id e (with_conclusion "rolled_back" t') (e_experiments s))
    end.
Proof.
  unfold restore_baseline, set_skill. intros H. rinv. settle_tables.
  destruct release as [r|]; rinv; settle_tables.
  2: { eexists _, _, _. split; [by_tables|]. done. }
  destruct (get_experiment _ _) as [exp|] eqn:Hexp.
  - apply conclude_row_Ok in H as [t' H]. unfold tables in H. injection H as ? ? ? ? ?.
    eexists _, _, _. split; [by_tables|]. eexists. split; [by_tables|]. right.
    destruct (rl_experiment_id r) as [e|]; [|done]. destruct (truthy (Some e)); [|done].
    cbn in Hexp. apply get_row_Some in Hexp as [_ <-]. eexists _, _. split; [done|]. by_tables.
  - rinv. eexists _, _, _. split; [by_tables|]. eexists. split; [by_tables|]. by left; by_tables.
Qed.

Lemma rollback_current_Ok skill va vb agent s done_ s' :
  rollback_skill_if_current skill va vb agent s = (Ok done_, s') →
  (done_ = false ∧ s' = s)
  ∨ ∃ a b release, a ∈ e_skills s ∧ b ∈ e_skills s ∧ sk_skill_id a = skill ∧ sk_skill_id b = skill
      ∧ sk_status a = "active" ∧ restore_baseline a b release s = (Ok (), s')
      ∧ (∀ r, release = Some r → r ∈ e_releases s ∧ rl_state r = ReleaseState_ACTIVE ∧ rl_skill_id r = skill).
Proof.
  unfold rollback_skill_if_current. intros H. rinv.
  destruct (head _) as [a|] eqn:Ha in H; [|rinv; by left].
  destruct (head _) as [b|] eqn:Hb in H; [|rinv; by left]. rinv.
  apply head_Some_elem_of, list_elem_of_filter in Ha as [[_ Haa] Ha].
  apply head_Some_elem_of, list_elem_of_filter in Hb as [[_ _] Hb].
  rewrite py_sorted_perm in Ha, Hb. apply list_elem_of_filter in Ha as [? ?], Hb as [? ?].
  destruct (filter _ (e_releases s)) as [|r [|]] eqn:Hrs; [| |rinv; by left].
  - rinv. destruct x. right. exists a, b, None. by split_and!.
  - rinv. destruct x; rinv; [|by left]. destruct x. right. exists a, b, (Some r). split_and!; [done..|].
    intros ? [= <-]. assert (r ∈ filter (λ r, rl_skill_id r = skill ∧ rl_state r = ReleaseState_ACTIVE)
      (e_releases s)) as Hr by (rewrite Hrs; left).
    by apply list_elem_of_filter in Hr as [[? ?] ?].
Qed.

Lemma restore_skills_ok a b release s u s' :
  restore_baseline a b release s = (Ok u, s') →
  a ∈ e_skills s → b ∈ e_skills s → sk_skill_id a = sk_skill_id b → sk_status a = "active" →
  skills_ok (e_skills s) → skills_ok (e_skills s').
Proof.
  intros (now & rs & xs & Ht & _)%restore_Ok Ha Hb Hs Hact Hok. unfold tables in Ht. injection Ht as -> _ _ _ _.
  pose proof Hok as [Hnd _]. change (map ?f (map ?g ?l)) with (f <$> (g <$> l)). rewrite <- list_fmap_compose.
  apply (skills_ok_swap _ _ a (sk_id b)); [|done..| | |done].
  - split; intros r; cbn; repeat case_decide; done.
  - intros r Hr Hrt. by rewrite (get_row_NoDup sk_id _ r b Hnd Hr Hb Hrt).
  - intros r Hr. cbn. destruct (decide (sk_id r = sk_id a)) as [Hra|Hra]; cbn;
      case_decide; cbn; auto; done.
Qed.
End live.

(** *** Canaries and their experiments

    At most one release of a skill is in canary, every canary has its own running
    experiment, on its versions, with an exposure of at most ten per cent and at
    least fifty samples to collect; no operation of the runtime breaks this. *)

Definition is_canary (r : EvolutionSkillRelease) : Prop := rl_state r = ReleaseState_CANARY.

(** The experiment of a canary. *)
Record fits (r : EvolutionSkillRelease) (x : EvolutionExperiment) : Prop := {
  fit_id : ex_experiment_id x = rl_deployment_id r;
  fit_running : ex_status x = "running";
  fit_target : (ex_agent_id x, ex_skill_id x, ex_control_version x, ex_candidate_version x)
    = (rl_agent_id r, rl_skill_id r, ri_baseline_version (rl_identity r),
       ri_candidate_version (rl_identity r));
  fit_exposure : ex_traffic_pct x ≤ 10;
  fit_samples : 50 ≤ ex_min_samples x }.

Record canaries_ok (rs : list EvolutionSkillRelease) (xs : list EvolutionExperiment) : Prop := {
  co_deployments : NoDup (rl_deployment_id <$> rs);
  co_experiments : NoDup (ex_experiment_id <$> xs);
  co_own : ∀ r e, r ∈ rs → rl_experiment_id r = Some e → e = rl_deployment_id r;
  co_single : ∀ a b, a ∈ rs → b ∈ rs → is_canary a → is_canary b →
    rl_company_id a = rl_company_id b → rl_skill_id a = rl_skill_id b →
    rl_deployment_id a = rl_deployment_id b;
  co_running : ∀ r, r ∈ rs → is_canary r →
    rl_experiment_id r = Some (rl_deployment_id r) ∧ ∃ x, x ∈ xs ∧ fits r x }.

(** A change of releases in place that keeps what they are about. *)
Record same_release (f : EvolutionSkillRelease → EvolutionSkillRelease) : Prop := {
  sr_identity : ∀ r, rl_identity (f r) = rl_identity r;
  sr_company : ∀ r, rl_company_id (f r) = rl_company_id r }.

Lemma fits_identity r r' x : rl_identity r = rl_identity r' → fits r x → fits r' x.
Proof. intros Hi []. split; try done; unfold rl_deployment_id, rl_agent_id, rl_skill_id in *; by rewrite <- Hi. Qed.

Lemma keys_map {A B} (key : A → B) (f : A → A) l :
  (∀ x, key (f x) = key x) → key <$> map f l = key <$> l.
Proof.
  intros Hf. change (map f l) with (f <$> l). rewrite <- list_fmap_compose.
  apply list_fmap_ext. intros ? x _. apply Hf.
Qed.

(** No new canary; those that stay keep an experiment that fits. *)
Lemma canaries_ok_map rs xs f g :
  same_release f → (∀ x, ex_experiment_id (g x) = ex_experiment_id x) →
  (∀ r e, r ∈ rs → rl_experiment_id (f r) = Some e → e = rl_deployment_id r) →
  (∀ r, r ∈ rs → is_canary (f r) → is_canary r ∧ rl_experiment_id (f r) = rl_experiment_id r) →
  (∀ r x, r ∈ rs → x ∈ xs → is_canary (f r) → fits r x → fits r (g x)) →
  canaries_ok rs xs → canaries_ok (map f rs) (map g xs).
Proof.
  intros [Hi Hco] Hg Hown Hcan Hfit [H1 H2 _ H4 H5].
  assert (∀ r, rl_deployment_id (f r) = rl_deployment_id r) as Hd by (intros r; unfold rl_deployment_id; by rewrite Hi).
  assert (∀ r, rl_skill_id (f r) = rl_skill_id r) as Hs by (intros r; unfold rl_skill_id; by rewrite Hi).
  split.
  - by rewrite keys_map.
  - by rewrite keys_map.
  - intros r' e (r & -> & Hr)%list_elem_of_fmap He. rewrite Hd. by apply Hown.
  - intros a' b' (a & -> & Ha)%list_elem_of_fmap (b & -> & Hb)%list_elem_of_fmap.
    rewrite !Hco, !Hs, !Hd. intros [? _]%Hcan [? _]%Hcan; [|done..]. by apply H4.
  - intros r' (r & -> & Hr)%list_elem_of_fmap Hc. destruct (Hcan r Hr Hc) as [Hc' He].
    rewrite He, Hd. destruct (H5 r Hr Hc') as (? & x & Hx & Hf). split; [done|].
    exists (g x). split; [by apply list_elem_of_fmap_2|]. apply (fits_identity r); [by rewrite Hi|].
    by apply Hfit.
Qed.

(** Concluding an experiment of another deployment changes no fit. *)
Lemma fits_conclusion r x i st t :
  fits r x → rl_deployment_id r ≠ i →
  fits r (if decide (ex_experiment_id x = i) then with_conclusion st t x else x).
Proof. intros Hf Hi. rewrite decide_False; [done|]. by rewrite (fit_id _ _ Hf). Qed.

Lemma get_release_elem dep s r :
  get_release dep s = Some r → r ∈ e_releases s ∧ rl_deployment_id r = dep.
Proof. apply get_row_Some. Qed.

Section canaries.
Context {E : ReleaseEnv}.

Lemma same_release_next c r next t : same_release (next_row c r next t).
Proof. by split; intros x; unfold next_row; case_decide. Qed.

(** The row a command writes is the one of its deployment. *)
Lemma next_row_other c r next t x :
  rl_deployment_id x ≠ cm_deployment_id c → next_row c r next t x = x.
Proof. intros Hx. unfold next_row. rewrite decide_False; [done|]. by intros [? _]. Qed.

Lemma next_row_self c r next t x rs :
  NoDup (rl_deployment_id <$> rs) → r ∈ rs → x ∈ rs → rl_deployment_id r = cm_deployment_id c →
  rl_deployment_id x = cm_deployment_id c → next_row c r next t x = with_release next t r.
Proof.
  intros Hnd Hr Hx Hrd Hxd. assert (x = r) as -> by (eapply get_row_NoDup; eauto; congruence).
  unfold next_row. by rewrite decide_True.
Qed.

(** A release that stops being a canary, or never was one. *)
Lemma canaries_ok_closed c r next t rs xs g :
  canaries_ok rs xs → r ∈ rs → rl_deployment_id r = cm_deployment_id c →
  rs_state next ≠ ReleaseState_CANARY →
  rs_experiment_id next = rl_experiment_id r ∨ rs_experiment_id next = None →
  (∀ x, ex_experiment_id (g x) = ex_experiment_id x) →
  (∀ r' x, r' ∈ rs → x ∈ xs → is_canary r' → rl_deployment_id r' ≠ cm_deployment_id c → fits r' x → fits r' (g x)) →
  canaries_ok (map (next_row c r next t) rs) (map g xs).
Proof.
  intros Hok Hr Hd Hst He Hg Hfit. pose proof Hok as [H1 _ H3 _ _].
  apply canaries_ok_map; [apply same_release_next | done | | | | done].
  - intros r' e Hr' He'. destruct (decide (rl_deployment_id r' = cm_deployment_id c)) as [Hd'|Hd'].
    + rewrite (next_row_self c r next t r' rs) in He' by done. cbn in He'.
      assert (r' = r) as -> by (eapply get_row_NoDup; eauto; congruence).
      destruct He as [He|He]; rewrite He in He'; [by apply H3 | done].
    + rewrite next_row_other in He' by done. by apply H3.
  - intros r' Hr' Hc. destruct (decide (rl_deployment_id r' = cm_deployment_id c)) as [Hd'|Hd'].
    + by rewrite (next_row_self c r next t r' rs) in Hc.
    + by rewrite next_row_other in * by done.
  - intros r' x Hr' Hx Hc Hf. destruct (decide (rl_deployment_id r' = cm_deployment_id c)) as [Hd'|Hd'].
    + by rewrite (next_row_self c r next t r' rs) in Hc.
    + rewrite next_row_other in Hc by done. by apply Hfit.
Qed.

(** A release that enters its canary. *)
Lemma canaries_ok_opened c r next t s xs' :
  canaries_ok (e_releases s) (e_experiments s) → get_release (cm_deployment_id c) s = Some r →
  rl_state r = ReleaseState_SHADOW → rl_identity r = cm_identity c → rl_company_id r = cm_company_id c →
  rs_state next = ReleaseState_CANARY → rs_experiment_id next = Some (cm_deployment_id c) →
  other_canary c s = false → NoDup (ex_experiment_id <$> xs') →
  (∀ r' x, r' ∈ e_releases s → x ∈ e_experiments s → is_canary r' →
     rl_deployment_id r' ≠ cm_deployment_id c → fits r' x → x ∈ xs') →
  (∃ x, x ∈ xs' ∧ fits r x) →
  canaries_ok (map (next_row c r next t) (e_releases s)) xs'.
Proof.
  intros Hok [Hr Hd]%get_release_elem Hsh Hi Hco Hst He Hoc Hnd Hkeep Hx. pose proof Hok as [H1 _ H3 H4 H5].
  assert (same_release (next_row c r next t)) as [Si Sc] by apply same_release_next.
  assert (∀ r', rl_deployment_id (next_row c r next t r') = rl_deployment_id r') as Hdep
    by (intros r'; unfold rl_deployment_id; by rewrite Si).
  assert (∀ r', rl_skill_id (next_row c r next t r') = rl_skill_id r') as Hsk
    by (intros r'; unfold rl_skill_id; by rewrite Si).
  assert (∀ a, a ∈ e_releases s → is_canary a → rl_company_id a = rl_company_id r →
            rl_skill_id a = rl_skill_id r → rl_deployment_id a = cm_deployment_id c) as Hno.
  { intros a Ha Hc Hac Has. unfold other_canary in Hoc. apply bool_decide_eq_false in Hoc.
    destruct (decide (rl_deployment_id a = cm_deployment_id c)) as [?|Hne]; [done|]. destruct Hoc.
    apply Exists_exists. exists a. split_and!; try done; [congruence|].
    rewrite Has. unfold rl_skill_id. by rewrite Hi. }
  split.
  - by rewrite keys_map.
  - done.
  - intros r' e (r1 & -> & Hr1)%list_elem_of_fmap He'. rewrite Hdep.
    destruct (decide (rl_deployment_id r1 = cm_deployment_id c)) as [Hd'|Hd'].
    + rewrite (next_row_self c r next t r1 (e_releases s)) in He' by done. cbn in He'. congruence.
    + rewrite next_row_other in He' by done. by apply H3.
  - intros a' b' (a & -> & Ha)%list_elem_of_fmap (b & -> & Hb)%list_elem_of_fmap. rewrite !Sc, !Hsk, !Hdep.
    destruct (decide (rl_deployment_id a = cm_deployment_id c)) as [Hda|Hda],
      (decide (rl_deployment_id b = cm_deployment_id c)) as [Hdb|Hdb]; intros Hca Hcb Hcc Hss.
    + congruence.
    + assert (a = r) as -> by (eapply get_row_NoDup; eauto; congruence).
      rewrite next_row_other in Hcb by done. exfalso. by apply Hdb, Hno.
    + assert (b = r) as -> by (eapply get_row_NoDup; eauto; congruence).
      rewrite next_row_other in Hca by done. exfalso. by apply Hda, Hno.
    + rewrite !next_row_other in * by done. by apply H4.
  - intros r' (r1 & -> & Hr1)%list_elem_of_fmap Hc. rewrite Hdep.
    destruct (decide (rl_deployment_id r1 = cm_deployment_id c)) as [Hd'|Hd'].
    + rewrite (next_row_self c r next t r1 (e_releases s)) by done. cbn. split; [congruence|].
      destruct Hx as (x & Hx & Hf). exists x. split; [done|]. by apply (fits_identity r).
    + rewrite next_row_other in * by done. destruct (H5 r1 Hr1 Hc) as (? & x & Hin & Hf).
      split; [done|]. exists x. split; [by eapply Hkeep | done].
Qed.

(** *** Commands *)
Lemma canaries_ok_shadow c next t1 t2 s :
  get_release (cm_deployment_id c) s = None → rs_state next = ReleaseState_SHADOW →
  rs_experiment_id next = None → canaries_ok (e_releases s) (e_experiments s) →
  canaries_ok (e_releases s ++ [new_release c next t1 t2]) (e_experiments s).
Proof.
  intros Hnone Hst He [H1 H2 H3 H4 H5].
  assert (∀ r, r ∈ e_releases s ++ [new_release c next t1 t2] → is_canary r → r ∈ e_releases s) as Hold.
  { intros r [?| ->%list_elem_of_singleton]%elem_of_app Hc; [done|]. unfold is_canary in Hc. cbn in Hc. congruence. }
  split; [|done|..].
  - rewrite fmap_app. apply NoDup_app. split; [done|]. split; [|apply NoDup_singleton].
    intros d (r & -> & Hr)%list_elem_of_fmap Hd%list_elem_of_singleton. by apply (get_row_None _ _ _ Hnone r).
  - intros r e [Hr| ->%list_elem_of_singleton]%elem_of_app Hre; [by apply H3|]. cbn in Hre. congruence.
  - intros a b Ha Hb Hca Hcb. apply H4; auto.
  - intros r Hr Hc. apply H5; auto.
Qed.

Lemma experiment_of_release s r exp rs :
  canaries_ok rs (e_experiments s) → r ∈ rs → get_experiment (rl_experiment_id r) s = Some exp →
  ex_experiment_id exp = rl_deployment_id r.
Proof.
  intros Hok Hr Hexp. destruct (rl_experiment_id r) as [e|] eqn:He; [|done].
  cbn in Hexp. apply get_row_Some in Hexp as [_ ->]. by eapply co_own.
Qed.

Lemma canaries_ok_exposed c r next t s tr sa :
  canaries_ok (e_releases s) (e_experiments s) → get_release (cm_deployment_id c) s = Some r →
  rl_state r = ReleaseState_SHADOW → rl_identity r = cm_identity c → rl_company_id r = cm_company_id c →
  rs_state next = ReleaseState_CANARY → rs_experiment_id next = Some (cm_deployment_id c) →
  other_canary c s = false → tr ≤ 10 → 50 ≤ sa →
  (∃ exp, get_experiment (Some (cm_deployment_id c)) s = Some exp ∧ is_running exp = true
     ∧ (ex_agent_id exp, ex_skill_id exp, ex_control_version exp, ex_candidate_version exp)
       = (cm_agent_id c, cm_skill_id c, cm_baseline_version c, cm_candidate_version c)) →
  canaries_ok (map (next_row c r next t) (e_releases s))
    (update_row ex_experiment_id (cm_deployment_id c) (with_exposure tr sa) (e_experiments s)).
Proof.
  intros Hok Hget Hsh Hi Hco Hst He Hoc Htr Hsa (exp & Hexp & Hrun & Htarget).
  pose proof (get_release_elem _ _ _ Hget) as [_ Hd].
  apply canaries_ok_opened; try done.
  - rewrite update_row_keys by done. by destruct Hok.
  - intros r' x Hr' Hx Hc Hne Hf. apply list_elem_of_fmap. exists x. split; [|done].
    rewrite decide_False; [done|]. by rewrite (fit_id _ _ Hf).
  - cbn in Hexp. apply get_row_Some in Hexp as [Hin Hid]. exists (with_exposure tr sa exp). split.
    + apply list_elem_of_fmap. exists exp. by rewrite decide_True.
    + unfold is_running in Hrun. apply bool_decide_eq_true in Hrun. split; cbn; try done; [congruence|].
      rewrite Htarget. unfold rl_agent_id, rl_skill_id. by rewrite Hi.
Qed.

Lemma canaries_ok_started c r next t s now :
  canaries_ok (e_releases s) (e_experiments s) → get_release (cm_deployment_id c) s = Some r →
  rl_state r = ReleaseState_SHADOW → rl_identity r = cm_identity c → rl_company_id r = cm_company_id c →
  rs_state next = ReleaseState_CANARY → rs_experiment_id next = Some (cm_deployment_id c) →
  other_canary c s = false → get_experiment (Some (cm_deployment_id c)) s = None →
  canaries_ok (map (next_row c r next t) (e_releases s)) (e_experiments s ++ [new_experiment c now]).
Proof.
  intros Hok Hget Hsh Hi Hco Hst He Hoc Hnone. pose proof (get_release_elem _ _ _ Hget) as [_ Hd].
  apply canaries_ok_opened; try done.
  - rewrite fmap_app. apply NoDup_app. split; [by destruct Hok|]. split; [|apply NoDup_singleton].
    intros d (x & -> & Hx)%list_elem_of_fmap Hd'%list_elem_of_singleton. by apply (get_row_None _ _ _ Hnone x).
  - intros r' x Hr' Hx _ _ _. apply elem_of_app. by left.
  - exists (new_experiment c now). split; [apply elem_of_app; right; by apply list_elem_of_singleton|].
    split; cbn; try done; [|lia..]. unfold rl_agent_id, rl_skill_id. by rewrite Hi.
Qed.

Lemma check_release_company c b ca r :
  check_release c b ca (Some r) = Ok () → rl_company_id r = cm_company_id c.
Proof.
  unfold check_release. intros H. inv_bind.
  by match goal with
  | H : negb (bool_decide (rl_company_id r = _)) = false |- _ => apply negb_false_iff, bool_decide_eq_true in H
  end.
Qed.

Lemma command_canaries_ok c b ca next s sks rs xs :
  canaries_ok (e_releases s) (e_experiments s) → cm_deployment_id c ≠ "" →
  check_release c b ca (get_release (cm_deployment_id c) s) = Ok () →
  transition (snapshot_of <$> get_release (cm_deployment_id c) s) (cm_action c) (cm_identity c)
    (Some (match get_release (cm_deployment_id c) s with Some x => rl_version x | None => 0 end))
    (if decide (cm_action c = ReleaseAction_CANARY) then Some (cm_deployment_id c)
     else get_release (cm_deployment_id c) s ≫= rl_experiment_id) = Ok next →
  written c next s rs → effects c b ca s sks xs → canaries_ok rs xs.
Proof.
  intros Hok Hdep Hck [_ Htr]%transition_Ok Hw Heff. unfold written, effects in *.
  destruct (get_release _ s) as [r|] eqn:Hget; cbn in Htr.
  2: { destruct Htr as (Ha & Hst & _ & He). rewrite Ha in Heff. destruct Heff as [_ ->].
       destruct Hw as (t1 & t2 & ->). by apply canaries_ok_shadow. }
  apply check_release_company in Hck. destruct Hw as [t ->]. destruct Htr as [Hi Htr].
  pose proof (get_release_elem _ _ _ Hget) as [Hr Hd].
  assert (canaries_ok (map (next_row c r next t) (e_releases s)) (map id (e_experiments s)) ∨
          rs_state next = ReleaseState_CANARY) as Hid.
  { destruct (decide (rs_state next = ReleaseState_CANARY)) as [|Hn]; [by right|left].
    apply canaries_ok_closed; try done. left.
    destruct Htr as [(_ & _ & ->)|[_ [(_ & _ & ? & _)|[(_ & _ & _ & ?)|(_ & _ & _ & ?)]]]]; done. }
  change (map id (e_experiments s)) with (id <$> e_experiments s) in Hid. rewrite list_fmap_id in Hid.
  assert (∀ exp st t', get_experiment (rl_experiment_id r) s = Some exp → rs_state next ≠ ReleaseState_CANARY →
            rs_experiment_id next = rl_experiment_id r →
            canaries_ok (map (next_row c r next t) (e_releases s))
              (update_row ex_experiment_id (ex_experiment_id exp) (with_conclusion st t') (e_experiments s))) as Hcl.
  { intros exp st t' Hexp Hn He. apply canaries_ok_closed; try done; [by left|intros x; destruct (decide (ex_experiment_id x = ex_experiment_id exp)); reflexivity|].
    intros r' x Hr' Hx Hc Hne Hf. apply fits_conclusion; [done|].
    by rewrite (experiment_of_release _ _ _ _ Hok Hr Hexp), Hd. }
  destruct Htr as [(Ha & Hst & ->)|[_ [(Ha & Hst & Hn & He)|[(Ha & Hst & Hn & He)|(Ha & Hst & Hn & He)]]]];
    rewrite Ha in Heff.
  - destruct Heff as [_ ->]. destruct Hid as [|Hc]; [done|]. cbn in Hc. congruence.
  - rewrite Ha, decide_True in He by done.
    assert (rs_experiment_id next = Some (cm_deployment_id c)) as He'.
    { unfold truthy in He. by destruct (cm_deployment_id c). }
    destruct Heff as (_ & _ & Hoc & [[Hnone [now ->]]|(exp & Hexp & Hrun & Htg & ->)]).
    + by apply canaries_ok_started.
    + apply canaries_ok_exposed; try done; [lia|lia|]. by exists exp.
  - destruct Heff as (r' & exp & t1 & t2 & [= <-] & _ & Hexp & _ & _ & _ & _ & _ & ->).
    apply Hcl; congruence.
  - destruct Heff as (r' & [= <-] & Heff). cbn in Hst, He. destruct (rl_state r) eqn:Hrs; [| | |done].
    + destruct Heff as [_ ->]. destruct Hid; [done|congruence].
    + destruct Heff as [_ [->|(exp & t' & Hexp & ->)]]; [destruct Hid; [done|congruence]|]. apply Hcl; congruence.
    + destruct Heff as (_ & _ & _ & [->|(exp & t' & Hexp & _ & ->)]); [destruct Hid; [done|congruence]|].
      apply Hcl; congruence.
Qed.
End canaries.
