(* ===== verification/EvolutionHistory.v ===== *)
(** * Histories of the evolution runtime

    Every operation that changes the runtime's tables, each in a transaction of
    its own, and the invariant they keep together. *)

From S2P Require Import Prelude PyNum PyTime PyValue Store SkillRelease ReleaseStore.
From S2P Require Import EvolutionRuntime SkillExecution ReleaseInvariants.

(** The state after [log0] was written: live versions, canaries, and the command
    ledger only ever grows. *)
Record runtime_ok (log0 : list EvolutionSkillReleaseCommand) (s : Runtime) : Prop := {
  ro_skills : skills_ok (e_skills s);
  ro_canaries : canaries_ok (e_releases s) (e_experiments s);
  ro_log : log0 `prefix_of` e_commands s }.

Lemma runtime_ok_tables log0 s s' : tables s' = tables s → runtime_ok log0 s → runtime_ok log0 s'.
Proof. intros Ht []. unfold tables in Ht. injection Ht as ? ? ? ? ?. split; congruence. Qed.

(** ** Rules for computations that return *)
Definition keeps {A} (P : Runtime → Prop) (m : M Runtime A) : Prop :=
  ∀ s a s', m s = (Ok a, s') → P s → P s'.

Section rules.
Context (P : Runtime → Prop).

Lemma keeps_bind {A B} (m : M Runtime A) (k : A → M Runtime B) :
  keeps P m → (∀ a, keeps P (k a)) → keeps P (m ≫= k).
Proof. intros Hm Hk s b s' (a & s1 & H1 & H2)%M_bind_Ok Hs. eapply Hk; [done|]. by eapply Hm. Qed.
Lemma keeps_ret {A} (a : A) : keeps P (mret a).
Proof. by intros s b s' [= <- <-]. Qed.
Lemma keeps_raise {A} e : keeps P (raiseM (A := A) e).
Proof. by intros s b s'. Qed.
Lemma keeps_lift {A} (m : result A) : keeps P (liftM m).
Proof. by intros s b s' [_ ->]%lifted_Ok. Qed.
Lemma keeps_gets {A} (f : Runtime → A) : keeps P (getsM f).
Proof. by intros s b s' [= <- <-]. Qed.
Lemma keeps_get : keeps P getM.
Proof. by intros s b s' [= <- <-]. Qed.
Lemma keeps_raise_if b e : keeps P (raise_ifM b e).
Proof. by intros s u s' [_ ->]%raise_ifM_Ok. Qed.
Lemma keeps_when b (m : M Runtime unit) : keeps P m → keeps P (whenM b m).
Proof. destruct b; [done|]. intros _. apply keeps_ret. Qed.
Lemma keeps_modify f : (∀ s, P s → P (f s)) → keeps P (modifyM f).
Proof. by intros Hf s u s' ->%modify_Ok ?%Hf. Qed.
End rules.

Lemma in_transaction_keeps {A} (P : Runtime → Prop) (m : M Runtime A) :
  (∀ s s', tables s' = tables s → P s → P s') → keeps P m → preserves P (in_transaction m).
Proof.
  intros HP Hm s r s'. unfold in_transaction. destruct (m s) as [[a|e] s1] eqn:Hs; intros [= <- <-].
  - by eapply Hm.
  - by apply HP.
Qed.

Create HintDb runtime.
#[export] Hint Resolve keeps_ret keeps_raise keeps_lift keeps_gets keeps_get keeps_raise_if : runtime.

(** Walks a computation. *)
Ltac walk :=
  repeat first
    [ progress intros
    | solve [auto with runtime nocore]
    | apply keeps_bind | apply keeps_when
    | match goal with
      | |- keeps _ (match ?x with _ => _ end) => destruct x
      | |- keeps _ (let _ := _ in _) => cbv zeta
      end ].

Section operations.
Context {E : ReleaseEnv} (log0 : list EvolutionSkillReleaseCommand).
Abbreviation ok := (runtime_ok log0).

Lemma keeps_now : keeps ok e_now.
Proof. intros s t s' [_ Ht]%e_now_Ok. by apply runtime_ok_tables. Qed.

Lemma keeps_save_trace t a e su sk v sc : keeps ok (save_trace t a e su sk v sc).
Proof. unfold save_trace. apply keeps_bind; [apply keeps_now|]. intros now. apply keeps_modify. by intros s []. Qed.

Lemma keeps_asks {A} (f : nat → result A) : keeps ok (asks f).
Proof. intros s a s' [= _ <-]. by apply runtime_ok_tables. Qed.

(** Experiments that change in place without being concluded. *)
Lemma canaries_ok_scored rs xs i cand sc :
  canaries_ok rs xs → canaries_ok rs (update_row ex_experiment_id i (with_score cand sc) xs).
Proof.
  intros Hok. rewrite <- (list_fmap_id rs). apply canaries_ok_map; try done.
  - intros x. by destruct (decide (ex_experiment_id x = i)).
  - by intros r e Hr He; eapply co_own.
  - intros r x _ _ _ []. destruct (decide (ex_experiment_id x = i)); by split.
Qed.

Lemma keeps_result i cand sc : keeps ok (add_experiment_result i cand sc).
Proof.
  apply keeps_modify. intros s [Hs Hc Hl]. split; [done| |done]. by apply canaries_ok_scored.
Qed.

Lemma keeps_save_experiment a : keeps ok (save_experiment a).
Proof.
  intros s u s' H [Hs Hc Hl]. unfold save_experiment in H. rinv. settle_tables. unfold set_experiments.
  split; cbn; [by rewrite H0| |by rewrite H2]. rewrite H1, H3. destruct Hc as [C1 C2 C3 C4 C5]. split; try done.
  - rewrite fmap_app. apply NoDup_app. split; [done|]. split; [|apply NoDup_singleton].
    set_solver.
  - intros r Hr Hcn. destruct (C5 r Hr Hcn) as (? & x & Hx & Hf). split; [done|]. exists x.
    split; [|done]. apply elem_of_app. by left.
Qed.

Lemma canaries_ok_concluded s i t t' st :
  canaries_ok (e_releases s) (e_experiments s) →
  canaries_ok (map (λ r, if decide (rl_experiment_id r = Some i ∧ rl_state r = ReleaseState_CANARY)
                         then close_canary t r else r) (e_releases s))
    (update_row ex_experiment_id i (with_conclusion st t') (e_experiments s)).
Proof.
  intros Hok. pose proof Hok as [H1 H2 H3 H4 H5]. apply canaries_ok_map; [..|done].
  - split; intros r; by case_decide.
  - intros x. by destruct (decide (ex_experiment_id x = i)).
  - intros r e Hr. case_decide; by apply (H3 r).
  - intros r Hr. case_decide; [done|]. done.
  - intros r x Hr Hx. case_decide as Hd; [done|]. intros Hc Hf. apply fits_conclusion; [done|].
    intros Hi. apply Hd. split; [|done]. destruct (H5 r Hr Hc) as [-> _]. by rewrite Hi.
Qed.

Lemma keeps_conclude i : keeps ok (conclude_experiment i "rolled_back").
Proof.
  intros s u s' H [Hs Hc Hl]. unfold conclude_experiment in H. rinv.
  rewrite bool_decide_eq_true_2 in H by done. unfold whenM in H. rinv. settle_tables.
  unfold set_experiments, set_releases in *. cbn in *.
  split; cbn; [congruence| |congruence].
  match goal with |- canaries_ok ?a ?b => replace b with
    (update_row ex_experiment_id i (with_conclusion "rolled_back" x) (e_experiments s)) by congruence end.
  match goal with |- canaries_ok (map ?f ?l) _ => replace l with (e_releases s) by congruence end.
  by apply canaries_ok_concluded.
Qed.

Lemma canaries_ok_rolled_back s r t xs :
  canaries_ok (e_releases s) (e_experiments s) → r ∈ e_releases s → rl_state r = ReleaseState_ACTIVE →
  (xs = e_experiments s ∨ ∃ e t', rl_experiment_id r = Some e ∧
     xs = update_row ex_experiment_id e (with_conclusion "rolled_back" t') (e_experiments s)) →
  canaries_ok (update_row rl_deployment_id (rl_deployment_id r) (roll_release_back t) (e_releases s)) xs.
Proof.
  intros Hok Hr Hst Hxs. pose proof Hok as [H1 H2 H3 H4 H5].
  assert (∀ g, (∀ x, ex_experiment_id (g x) = ex_experiment_id x) →
    (∀ r' x, rl_deployment_id r' ≠ rl_deployment_id r → fits r' x → fits r' (g x)) →
    canaries_ok (update_row rl_deployment_id (rl_deployment_id r) (roll_release_back t) (e_releases s))
      (map g (e_experiments s))) as Hg.
  { intros g Hid Hfit. apply canaries_ok_map; [|done|..|done].
    - split; intros x; by destruct (decide (rl_deployment_id x = rl_deployment_id r)).
    - intros x e Hx. destruct (decide (rl_deployment_id x = rl_deployment_id r)); by apply (H3 x).
    - intros x Hx. by destruct (decide (rl_deployment_id x = rl_deployment_id r)).
    - intros x y Hx Hy. destruct (decide (rl_deployment_id x = rl_deployment_id r)) as [|Hne]; [done|].
      intros _. by apply Hfit. }
  destruct Hxs as [->|(e & t' & He & ->)].
  - rewrite <- (list_fmap_id (e_experiments s)). by apply Hg.
  - assert (e = rl_deployment_id r) as -> by (by eapply H3). apply Hg.
    + intros x. by destruct (decide (ex_experiment_id x = rl_deployment_id r)).
    + intros r' x Hne Hf. by apply fits_conclusion.
Qed.

Lemma keeps_rollback skill va vb agent : keeps ok (rollback_skill_if_current skill va vb agent).
Proof.
  intros s b s' H Hok. apply rollback_current_Ok in H as [[_ ->]|(a & bl & release & Ha & Hb & Has & Hbs & Hact & Hres & Hrel)];
    [done|]. destruct Hok as [Hs Hc Hl]. pose proof (restore_skills_ok _ _ _ _ _ _ Hres Ha Hb) as Hsk.
  apply restore_Ok in Hres as (now & rs & xs & Ht & Hrx). unfold tables in Ht. injection Ht as _ T2 T3 T4 _.
  split; [apply Hsk; congruence| |congruence]. rewrite T2, T4.
  destruct release as [r|]; [|destruct Hrx as [-> ->]; done].
  destruct Hrx as (t & -> & Hxs). destruct (Hrel r eq_refl) as (Hr & Hst & _). by apply canaries_ok_rolled_back.
Qed.

Lemma keeps_save_skill a : sd_status a ≠ "active" → keeps ok (save_skill_config a).
Proof.
  intros Ha s row s' H [Hs Hc Hl]. assert (skills_ok (e_skills s')) as Hs' by (by eapply save_skill_ok).
  unfold save_skill_config in H. rinv. settle_tables. unfold set_skills in *. split; [done| |]; cbn; congruence.
Qed.

Lemma seed_tables seeds s n s' :
  seed_missing_active_skills seeds s = (Ok n, s') →
  e_releases s' = e_releases s ∧ e_experiments s' = e_experiments s ∧ e_commands s' = e_commands s.
Proof.
  revert s n s'. induction seeds as [|a seeds IH]; intros s n s' H; cbn in H; rinv; [done|].
  destruct (get_active_skill _ s); [by eapply IH|]. rinv. apply IH in Hm0 as (? & ? & ?).
  unfold save_skill_config in Hm. rinv. settle_tables. unfold set_skills in *. cbn in *.
  split_and!; congruence.
Qed.

Lemma keeps_seeds seeds : keeps ok (seed_missing_active_skills seeds).
Proof.
  intros s n s' H [Hs Hc Hl]. pose proof (seed_skills_ok _ _ _ _ H Hs).
  apply seed_tables in H as (H1 & H2 & H3). split; [done|by rewrite H1, H2 | by rewrite H3].
Qed.

Lemma receive_body_ok c sig : keeps ok
  (_ ← raise_ifM (negb (command_valid c)) (validation_error "SkillReleaseCommand");
   now ← e_now;
   _ ← liftM (verify_command c sig evolution_deployment_signing_key now);
   apply c).
Proof.
  intros s r s' H [Hs Hc Hl]. rinv.
  assert (cm_deployment_id c ≠ "") as Hdep.
  { intros Hd. unfold command_valid in Hm. rewrite Hd in Hm.
    repeat (apply andb_true_iff in Hm as [Hm ?]). done. }
  match goal with H : e_now s = _ |- _ => apply e_now_Ok in H as [_ Ht] end.
  assert (runtime_ok log0 s1) as Hok by (by eapply runtime_ok_tables; [|split]).
  apply apply_Ok in H as (_ & h & _ & [(p & _ & _ & _ & ->)|(_ & _ & b & ca & s2 & now & Hb & Hca & _ & _ & Ht2 & H)]);
    [done|]. apply apply_checked_Ok in H as (next & sks & rs & xs & t & Hck & Htr & _ & Ht' & Hw & Heff).
  destruct (runtime_ok_tables _ _ _ Ht2 Hok) as [Os Oc Ol]. unfold tables in Ht'. injection Ht' as T1 T2 T3 T4 _.
  assert (e_skills s2 = e_skills s1) as Hsk by (unfold tables in Ht2; by injection Ht2).
  split; rewrite ?T1, ?T2, ?T3, ?T4.
  - eapply effects_skills_ok; [| |exact Heff|done]; unfold skill_version in *; by rewrite Hsk.
  - by eapply command_canaries_ok.
  - by apply prefix_app_r.
Qed.

Lemma keeps_record_body r secret : keeps ok
  (now ← e_now; _ ← liftM (verify_selection (xr_selection r) secret now); record r).
Proof.
  unfold record, store_observation, save_trace. walk; try apply keeps_now; try apply keeps_result.
  - apply keeps_modify. by intros ? [].
  - apply keeps_modify. by intros ? [].
Qed.
End operations.
#[export] Hint Resolve keeps_now keeps_save_trace keeps_asks keeps_result keeps_save_experiment
  keeps_conclude keeps_rollback keeps_seeds : runtime.

(** ** Histories *)
Inductive runtime_op :=
  | Receive (c : SkillReleaseCommand) (signature : string)
  | Resolve (q : SkillSelectionRequest) (secret : string)
  | Observe (r : SkillExecutionResult) (secret : string)
  | RouterResult (agent skill trace : string) (score : float)
  | RouterCheck (agent skill : string) (min_samples : option Z)
  | OptimizerCheck (id_ : string)
  | Guard (R : redis) (g : guard_config) (agent skill : string)
  | Seed (seeds : list skill_seed)
  | SaveCandidate (a : skill_seed)
  | SaveExperiment (a : experiment_args)
  | SaveTrace (trace agent event_type : string) (success : bool) (skill version : option string)
      (score : option float).

(** The optimizer saves the configuration it generated as a candidate. *)
Definition as_candidate (a : skill_seed) : skill_seed := {|
  sd_skill_id := sd_skill_id a; sd_version := sd_version a; sd_status := "candidate";
  sd_system_prompt := sd_system_prompt a; sd_parameters := sd_parameters a;
  sd_few_shot_examples := sd_few_shot_examples a; sd_output_format := sd_output_format a;
  sd_target_model := sd_target_model a |}.

Section histories.
Context {E : ReleaseEnv}.

Definition ignore {A} (m : M Runtime A) : M Runtime unit := _ ← m; mret ().

Definition run_op (o : runtime_op) : M Runtime unit :=
  match o with
  | Receive c sig => ignore (receive c sig)
  | Resolve q secret => ignore (in_transaction (resolve q secret))
  | Observe r secret => ignore (record_signed r secret)
  | RouterResult a k t sc => in_transaction (record_result a k t sc)
  | RouterCheck a k m => ignore (in_transaction (router_check_experiment a k m))
  | OptimizerCheck i => ignore (in_transaction (optimizer_check_experiment i))
  | Guard R g a k => ignore (in_transaction (guard_check R g a k))
  | Seed l => ignore (in_transaction (seed_missing_active_skills l))
  | SaveCandidate a => ignore (in_transaction (save_skill_config (as_candidate a)))
  | SaveExperiment a => in_transaction (save_experiment a)
  | SaveTrace t a e su k v sc => in_transaction (save_trace t a e su k v sc)
  end.

Fixpoint run_ops (ops : list runtime_op) (s : Runtime) : Runtime :=
  match ops with [] => s | o :: ops' => run_ops ops' (run_op o s).2 end.

Lemma preserves_ignore {A} (P : Runtime → Prop) (m : M Runtime A) : preserves P m → preserves P (ignore m).
Proof. intros Hm. apply preserves_bind; [done|]. intros _. apply preserves_ret. Qed.

Lemma run_op_ok log0 o : preserves (runtime_ok log0) (run_op o).
Proof.
  pose proof (runtime_ok_tables log0) as Ht.
  destruct o; cbn [run_op]; try apply preserves_ignore; apply in_transaction_keeps; try done.
  - apply receive_body_ok.
  - unfold resolve. walk.
  - apply keeps_record_body.
  - unfold record_result. walk.
  - unfold router_check_experiment. walk.
  - unfold optimizer_check_experiment. walk.
  - unfold guard_check. walk.
  - walk.
  - by apply keeps_save_skill.
  - walk.
  - walk.
Qed.

Lemma run_ops_ok log0 ops s : runtime_ok log0 s → runtime_ok log0 (run_ops ops s).
Proof.
  revert s. induction ops as [|o ops IH]; intros s Hs; [done|]. cbn. apply IH.
  destruct (run_op o s) as [r s1] eqn:Ho. by eapply run_op_ok.
Qed.
End histories.
