(* ===== verification/ReleaseTheorems.v ===== *)
(** * What the evolution runtime guarantees

    Over every history of operations: one live version per skill, one canary per
    skill with at most a tenth of the traces, and every command of the control
    plane applied exactly once.  A promotion needs an approval, the frozen
    configurations and measured quality; a rollback undoes it; an observation
    counts once. *)

From S2P Require Import Prelude PyNum PyTime PyValue Store SkillRelease ReleaseStore.
From S2P Require Import EvolutionRuntime SkillExecution ReleaseInvariants.
From S2P Require Import EvolutionHistory.

(** ** Helpers *)
Lemma get_row_app_Some {R K} `{!EqDecision K} (key : R → K) k l l' r :
  get_row key k l = Some r → get_row key k (l ++ l') = Some r.
Proof.
  unfold get_row. rewrite filter_app. destruct (filter _ l); [done|]. by intros [= ->].
Qed.

Lemma candidate_buckets_le r : Z.of_nat (length (candidate_buckets r)) ≤ Z.max 0 (ex_traffic_pct r).
Proof.
  destruct (str_empty (strip (ex_experiment_id r))) eqn:Hid.
  - assert (candidate_buckets r = []) as ->; [|cbn; lia].
    unfold candidate_buckets. destruct (filter _ buckets) as [|b l] eqn:Hb; [done|]. exfalso.
    assert (b ∈ filter (λ b, to_candidate r b = true) buckets) as Hin by (rewrite Hb; left).
    apply list_elem_of_filter in Hin as [Ht _].
    unfold to_candidate, route, experiment_id in Ht. rewrite Hid in Ht. by destruct (raise_if _ _).
  - rewrite candidate_share by done. lia.
Qed.

Section theorems.
Context {E : ReleaseEnv}.

Lemma start_ok s :
  skills_ok (e_skills s) → e_releases s = [] → NoDup (ex_experiment_id <$> e_experiments s) →
  ∀ log, log `prefix_of` e_commands s → runtime_ok log s.
Proof.
  intros Hs Hr Hx log Hl. split; [done| |done]. rewrite Hr. split; try done.
  - constructor.
  - by intros r e ?%not_elem_of_nil.
  - by intros a b ?%not_elem_of_nil.
  - by intros r ?%not_elem_of_nil.
Qed.

(** C15: after any history of commands, canary results and checks, observations,
    emergency rollbacks, seeds, candidates and traces, in any order and whether
    they succeeded or not, a skill has at most one live version, at most one
    release of a skill is in canary, and every canary has a running experiment
    that compares exactly its two versions, waits for at least fifty samples and
    sends at most ten of the hundred buckets of traces to the candidate. *)
Theorem runtime_history_safe ops s :
  skills_ok (e_skills s) → e_releases s = [] → NoDup (ex_experiment_id <$> e_experiments s) →
  let s' := run_ops ops s in
  (∀ a b, a ∈ e_skills s' → b ∈ e_skills s' → sk_skill_id a = sk_skill_id b →
     sk_status a = "active" → sk_status b = "active" → a = b)
  ∧ (∀ a b, a ∈ e_releases s' → b ∈ e_releases s' → rl_company_id a = rl_company_id b →
       rl_skill_id a = rl_skill_id b → rl_state a = ReleaseState_CANARY →
       rl_state b = ReleaseState_CANARY → a = b)
  ∧ ∀ r, r ∈ e_releases s' → rl_state r = ReleaseState_CANARY →
      ∃ x, get_experiment (rl_experiment_id r) s' = Some x ∧ is_running x = true
        ∧ (ex_agent_id x, ex_skill_id x, ex_control_version x, ex_candidate_version x)
          = (rl_agent_id r, rl_skill_id r, ri_baseline_version (rl_identity r),
             ri_candidate_version (rl_identity r))
        ∧ 50 ≤ ex_min_samples x ∧ Z.of_nat (length (candidate_buckets x)) ≤ 10.
Proof.
  intros Hs Hr Hx. destruct (run_ops_ok [] ops s) as [[Hnd Hone] Hc _].
  { apply start_ok; try done. apply prefix_nil. }
  cbv zeta. split_and!.
  - intros a b Ha Hb Hsk Haa Hba. eapply (get_row_NoDup sk_id); eauto.
  - intros a b Ha Hb Hco Hsk Hca Hcb. eapply (get_row_NoDup rl_deployment_id); eauto; [by destruct Hc|].
    by eapply co_single.
  - intros r Hin Hst. destruct (co_running _ _ Hc r Hin Hst) as (He & x & Hxin & [F1 F2 F3 F4 F5]).
    exists x. rewrite He. split_and!; try done.
    + cbn. apply get_row_elem; [by destruct Hc | done | done].
    + by apply bool_decide_eq_true_2.
    + pose proof (candidate_buckets_le x). lia.
Qed.

(** ** Receipts *)
Lemma apply_receipt c s r s' :
  apply c s = (Ok r, s') →
  ∃ h row, canonical_hash (command_dump c) = Ok h ∧ cm_company_id c = control_plane_company_id
    ∧ get_row ck_command_id (cm_command_id c) (e_commands s') = Some row
    ∧ ck_payload_hash row = h ∧ ck_response row = r.
Proof.
  intros (Hco & h & Hh & [(p & Hp & Hph & -> & ->)|(Hnone & _ & b & ca & s1 & now & _ & _ & _ & _ & Ht & H)])%apply_Ok.
  - by exists h, p.
  - apply apply_checked_Ok in H as (next & sks & rs & xs & t & _ & _ & -> & Ht' & _).
    unfold tables in Ht, Ht'. injection Ht as _ _ T3 _ _. injection Ht' as _ _ T3' _ _.
    exists h, (receipt c h next t). split_and!; try done. rewrite T3', T3. apply get_row_snoc; [|done].
    intros (p & Hp & Hin)%list_elem_of_fmap. by apply (get_row_None _ _ _ Hnone p).
Qed.

Lemma apply_with_receipt c s h row :
  cm_company_id c = control_plane_company_id → canonical_hash (command_dump c) = Ok h →
  get_row ck_command_id (cm_command_id c) (e_commands s) = Some row →
  apply c s = (if decide (ck_payload_hash row = h) then Ok (ck_response row)
               else Raise (Exn "ReleaseCommandConflict" "release_command_id_payload_conflict"), s).
Proof.
  intros Hco Hh Hrow. unfold apply, replayed, raise_ifM, liftM, getsM, mbind, M_bind.
  rewrite bool_decide_eq_true_2 by done. cbn [negb]. unfold mret, M_ret. cbv beta iota. rewrite Hh, Hrow. by case_decide.
Qed.

Lemma receive_Ok c sig s r s' :
  receive c sig s = (Ok r, s') →
  command_valid c = true ∧ ∃ s1, tables s1 = tables s
    ∧ verify_command c sig evolution_deployment_signing_key (clock (e_ticks s)) = Ok ()
    ∧ apply c s1 = (Ok r, s').
Proof.
  unfold receive, in_transaction. match goal with |- context [match ?m s with _ => _ end] => destruct (m s) as [[x|e] s2] eqn:H end; [|done]. intros [= <- <-].
  rinv. repeat match goal with u : () |- _ => destruct u end.
  match goal with H : e_now s = _ |- _ => apply e_now_Ok in H as [-> Ht] end.
  split; [done|]. eexists. by split_and!.
Qed.

(** C17: a command is applied exactly once.  Once it was accepted, then after
    any further history the store answers the same command with the same response
    and changes nothing, though its release may have moved on; and a request that
    is accepted under the same identifier has the same payload, gets the same
    answer and changes no table. *)
Theorem command_applied_once c sig s r s1 ops :
  runtime_ok [] s → receive c sig s = (Ok r, s1) →
  let s2 := run_ops ops s1 in
  apply c s2 = (Ok r, s2)
  ∧ ∀ c' sig' r' s3, cm_command_id c' = cm_command_id c → receive c' sig' s2 = (Ok r', s3) →
      r' = r ∧ canonical_hash (command_dump c') = canonical_hash (command_dump c)
      ∧ tables s3 = tables s2.
Proof.
  intros Hok Hrec. cbv zeta.
  assert (runtime_ok [] s1) as Hok1.
  { pose proof (run_op_ok [] (Receive c sig) s (Ok ()) s1) as Hp. apply Hp; [|done]. cbn.
    unfold ignore, mbind, M_bind. by rewrite Hrec. }
  apply receive_Ok in Hrec as (_ & s1' & _ & _ & H).
  apply apply_receipt in H as (h & row & Hh & Hco & Hrow & Hph & Hresp).
  assert (runtime_ok (e_commands s1) (run_ops ops s1)) as [_ _ [k Hk]].
  { apply run_ops_ok. by destruct Hok1. }
  apply (get_row_app_Some _ _ _ k) in Hrow. rewrite <- Hk in Hrow. split.
  - rewrite (apply_with_receipt _ _ _ _ Hco Hh Hrow), decide_True by done. by rewrite Hresp.
  - intros c' sig' r' s3 Hid (_ & s2' & Ht & _ & H)%receive_Ok.
    apply apply_Ok in H as (Hco' & h' & Hh' & [(p & Hp & Hph' & -> & ->)|(Hnone & _)]).
    + assert (p = row) as ->.
      { unfold tables in Ht. injection Ht as _ _ T3 _ _. rewrite T3, Hid in Hp. congruence. }
      split_and!; [done| by rewrite Hh, Hh', <- Hph, <- Hph' |done].
    + unfold tables in Ht. injection Ht as _ _ T3 _ _. rewrite T3, Hid in Hnone. congruence.
Qed.
End theorems.

(** ** Promotions and rollbacks

    What a promotion needs and what it changes, and that a rollback of the
    release puts the live version back. *)

(** [v] is a live version of the skill. *)
Definition live_in (l : list EvolutionSkillConfig) (skill v : string) : Prop :=
  ∃ x, x ∈ l ∧ sk_skill_id x = skill ∧ sk_version x = v ∧ sk_status x = "active".
Definition live (s : Runtime) : string → string → Prop := live_in (e_skills s).

Lemma live_unique l b v :
  skills_ok l → b ∈ l → sk_status b = "active" → live_in l (sk_skill_id b) v ↔ v = sk_version b.
Proof.
  intros [Hnd Hone] Hb Hba. split.
  - intros (x & Hx & Hs & <- & Hxa). f_equal. by eapply (get_row_NoDup sk_id); eauto.
  - intros ->. by exists b.
Qed.

Lemma cas_row_hit r from to_ p :
  sk_status r = from → cas_row (sk_id r) from to_ p r = with_skill_status to_ p r.
Proof. intros. unfold cas_row. by rewrite decide_True. Qed.
Lemma cas_row_miss i from to_ p r : sk_id r ≠ i → cas_row i from to_ p r = r.
Proof. intros. unfold cas_row. rewrite decide_False; [done|]. by intros [? _]. Qed.

(** The rows after the live version moved from [b] to [t]. *)
Lemma swap_elem l b t q p y :
  NoDup (sk_id <$> l) → b ∈ l → t ∈ l → sk_id b ≠ sk_id t → sk_status b = "active" →
  y ∈ map (cas_row (sk_id t) (sk_status t) "active" p) (map (cas_row (sk_id b) "active" "retired" q) l) ↔
  y = with_skill_status "active" p t ∨ y = with_skill_status "retired" q b
  ∨ (y ∈ l ∧ sk_id y ≠ sk_id t ∧ sk_id y ≠ sk_id b).
Proof.
  intros Hnd Hb Ht Hne Hba. change (map ?f (map ?g ?l)) with (f <$> (g <$> l)).
  rewrite list_elem_of_fmap. setoid_rewrite list_elem_of_fmap.
  assert (cas_row (sk_id t) (sk_status t) "active" p (cas_row (sk_id b) "active" "retired" q b)
          = with_skill_status "retired" q b) as Eb by (by rewrite cas_row_hit, cas_row_miss).
  assert (cas_row (sk_id t) (sk_status t) "active" p (cas_row (sk_id b) "active" "retired" q t)
          = with_skill_status "active" p t) as Et by (by rewrite (cas_row_miss (sk_id b)), cas_row_hit).
  split.
  - intros (y' & -> & x & -> & Hx).
    destruct (decide (sk_id x = sk_id b)) as [Hxb|Hxb].
    { assert (x = b) as -> by (by eapply (get_row_NoDup sk_id)). auto. }
    destruct (decide (sk_id x = sk_id t)) as [Hxt|Hxt].
    { assert (x = t) as -> by (by eapply (get_row_NoDup sk_id)). auto. }
    rewrite !cas_row_miss by (by rewrite ?cas_row_miss). auto.
  - intros [->|[->|(Hy & H1 & H2)]]; eexists; (split; [|eexists; split; [reflexivity|]]); [by rewrite Et|done|by rewrite Eb|done| |exact Hy].
    by rewrite !cas_row_miss by (by rewrite ?cas_row_miss).
Qed.

Lemma live_swap l b t p q skill v :
  skills_ok l → b ∈ l → t ∈ l → sk_id b ≠ sk_id t → sk_skill_id b = sk_skill_id t →
  sk_status b = "active" →
  live_in (map (cas_row (sk_id t) (sk_status t) "active" p)
             (map (cas_row (sk_id b) "active" "retired" q) l)) skill v
  ↔ (if decide (skill = sk_skill_id b) then v = sk_version t else live_in l skill v).
Proof.
  intros Hok Hb Ht Hne Hs Hba. pose proof Hok as [Hnd Hone]. unfold live_in.
  setoid_rewrite (swap_elem l b t q p) ; [|done..]. case_decide as Hsk.
  - subst skill. split.
    + intros (x & [->|[->|(Hx & Hxt & Hxb)]] & Hxs & Hxv & Hxa); cbn in *; [done|done|].
      destruct Hxb. by apply Hone.
    + intros ->. exists (with_skill_status "active" p t). by split; [left|].
  - split.
    + intros (x & [->|[->|(Hx & Hxt & Hxb)]] & Hxs & Hxv & Hxa); cbn in *; [congruence|done|].
      by exists x.
    + intros (x & Hx & Hxs & Hxv & Hxa). exists x. split; [|done]. right. right.
      split_and!; [done| |]; intros Hi; apply Hsk; rewrite <- Hxs.
      * rewrite Hs. f_equal. by eapply (get_row_NoDup sk_id).
      * f_equal. by eapply (get_row_NoDup sk_id).
Qed.

Section promotions.
Context {E : ReleaseEnv}.

(** A command that was accepted without a receipt. *)
Lemma receive_fresh c sig s r s' :
  receive c sig s = (Ok r, s') → get_row ck_command_id (cm_command_id c) (e_commands s) = None →
  (needs_approval (cm_action c) = true → truthy (cm_approval_id c) = true)
  ∧ ∃ h next sks rs xs t b ca,
    skill_version (cm_skill_id c) (cm_baseline_version c) s = Some b
    ∧ skill_version (cm_skill_id c) (cm_candidate_version c) s = Some ca ∧ sk_id b ≠ sk_id ca
    ∧ check_release c b ca (get_release (cm_deployment_id c) s) = Ok ()
    ∧ transition (snapshot_of <$> get_release (cm_deployment_id c) s) (cm_action c) (cm_identity c)
        (Some (match get_release (cm_deployment_id c) s with Some x => rl_version x | None => 0 end))
        (if decide (cm_action c = ReleaseAction_CANARY) then Some (cm_deployment_id c)
         else get_release (cm_deployment_id c) s ≫= rl_experiment_id) = Ok next
    ∧ r = response_of next
    ∧ tables s' = (sks, rs, e_commands s ++ [receipt c h next t], xs, e_traces s)
    ∧ written c next s rs ∧ effects c b ca s sks xs.
Proof.
  unfold receive, in_transaction.
  match goal with |- context [match ?m s with _ => _ end] => destruct (m s) as [[x|e] s2] eqn:H end; [|done].
  intros [= <- <-] Hnone. rinv. match goal with H : e_now s = _ |- _ => apply e_now_Ok in H as [_ Ht] end.
  assert (∀ s1 s2, tables s1 = tables s2 → get_release (cm_deployment_id c) s1 = get_release (cm_deployment_id c) s2
     ∧ (∀ k v, skill_version k v s1 = skill_version k v s2) ∧ (∀ n rs, written c n s1 rs ↔ written c n s2 rs)
     ∧ ∀ b ca sks xs, effects c b ca s1 sks xs ↔ effects c b ca s2 sks xs) as Hext.
  { intros u1 u2 Hu. unfold tables in Hu. injection Hu as U1 U2 U3 U4 U5.
    unfold written, effects, get_experiment, other_canary, skill_version, get_release.
    rewrite U1, U2, U4. by split_and!. }
  apply apply_Ok in H as (_ & h & _ & [(p & Hp & _)|(_ & Hap & b & ca & s1' & now & Hb & Hca & Hne & _ & Ht2 & H)]).
  { unfold tables in Ht. injection Ht as _ _ T3 _ _. congruence. }
  split; [done|]. apply apply_checked_Ok in H as (next & sks & rs & xs & t & Hck & Htr & -> & Ht' & Hw & Heff).
  assert (tables s1' = tables s) as Hts by congruence. destruct (Hext _ _ Hts) as (G1 & _ & G3 & G4).
  destruct (Hext _ _ Ht) as (_ & G2 & _ & _). rewrite G1 in Hck, Htr. rewrite G2 in Hb, Hca.
  apply G3 in Hw. apply G4 in Heff. unfold tables in Hts. injection Hts as _ _ T3 _ T5.
  exists h, next, sks, rs, xs, t, b, ca. rewrite <- T3, <- T5. by split_and!.
Qed.

Lemma check_release_Ok c b ca rel :
  check_release c b ca (Some rel) = Ok () →
  skill_config_hash b = Ok (cm_baseline_config_hash c)
  ∧ skill_config_hash ca = Ok (cm_candidate_config_hash c)
  ∧ rl_company_id rel = cm_company_id c
  ∧ (rl_proposal_id rel, rl_evaluation_report_id rel, rl_evaluation_hash rel)
    = (cm_proposal_id c, cm_evaluation_report_id c, cm_evaluation_hash c).
Proof.
  unfold check_release. intros H. inv_bind.
  repeat match goal with
  | H : _ || _ = false |- _ => apply orb_false_iff in H as [? ?]
  | H : negb _ = false |- _ => apply negb_false_iff, bool_decide_eq_true in H
  end. subst. rewrite decide_True in * by done. by split_and!.
Qed.

Lemma written_state c next s rel rs r' :
  written c next s rs → get_release (cm_deployment_id c) s = Some rel →
  NoDup (rl_deployment_id <$> e_releases s) → get_row rl_deployment_id (cm_deployment_id c) rs = Some r' →
  rl_state r' = rs_state next ∧ rl_identity r' = rl_identity rel.
Proof.
  intros Hw Hget Hnd Hr'. unfold written in Hw. rewrite Hget in Hw. destruct Hw as [t ->].
  apply get_release_elem in Hget as [Hin Hd]. apply get_row_Some in Hr' as [Hr' Hd'].
  apply list_elem_of_fmap in Hr' as (x & -> & Hx).
  assert (rl_deployment_id x = cm_deployment_id c) as Hxd.
  { rewrite <- Hd'. unfold rl_deployment_id. by rewrite (sr_identity _ (same_release_next c rel next t)). }
  by rewrite (next_row_self c rel next t x (e_releases s)).
Qed.

(** C16: a version goes live only through a measured canary.  When the runtime
    accepts a promotion it has not answered before, the command names an
    approval; its release was in canary for exactly these versions, this
    proposal and this evaluation; both stored configurations still have the
    hashes that were frozen; the experiment was running, with at least fifty
    scores on each arm, and the mean of the candidate was not below that of the
    baseline plus the required improvement.  Afterwards the candidate is the one
    live version of the skill, and no other skill has changed. *)
Theorem promotion_gated c sig s r s' :
  runtime_ok [] s → receive c sig s = (Ok r, s') → cm_action c = ReleaseAction_PROMOTE →
  get_row ck_command_id (cm_command_id c) (e_commands s) = None →
  truthy (cm_approval_id c) = true
  ∧ (∃ rel exp b ca, get_release (cm_deployment_id c) s = Some rel
      ∧ rl_state rel = ReleaseState_CANARY ∧ rl_identity rel = cm_identity c
      ∧ (rl_proposal_id rel, rl_evaluation_report_id rel, rl_evaluation_hash rel)
        = (cm_proposal_id c, cm_evaluation_report_id c, cm_evaluation_hash c)
      ∧ skill_version (cm_skill_id c) (cm_baseline_version c) s = Some b
      ∧ skill_config_hash b = Ok (cm_baseline_config_hash c)
      ∧ skill_version (cm_skill_id c) (cm_candidate_version c) s = Some ca
      ∧ skill_config_hash ca = Ok (cm_candidate_config_hash c)
      ∧ get_experiment (rl_experiment_id rel) s = Some exp ∧ is_running exp = true
      ∧ 50 ≤ Z.of_nat (length (default [] (ex_control_results exp)))
      ∧ 50 ≤ Z.of_nat (length (default [] (ex_candidate_results exp)))
      ∧ f_lt (mean (default [] (ex_candidate_results exp)))
          (f_add (mean (default [] (ex_control_results exp))) (ex_min_improvement exp)) = false)
  ∧ ∀ skill v, live s' skill v ↔
      (if decide (skill = cm_skill_id c) then v = pretty (cm_candidate_version c) else live s skill v).
Proof.
  intros [Hsk Hcan _] Hrec Ha Hnone. destruct (receive_fresh _ _ _ _ _ Hrec Hnone) as
    (Hap & h & next & sks & rs & xs & t & b & ca & Hb & Hca & Hne & Hck & Htr & -> & Ht & Hw & Heff).
  rewrite Ha in *. split; [by apply Hap|]. unfold effects in Heff. rewrite Ha in Heff.
  destruct Heff as (rel & exp & t1 & t2 & Hrel & Hst & Hexp & Hrun & Hq & Hba & Hcs & -> & ->).
  rewrite Hrel in Hck, Htr. apply check_release_Ok in Hck as (Hhb & Hhc & Hco & Hev).
  apply transition_Ok in Htr as [_ [Hi _]]. cbn in Hi.
  pose proof (skill_version_elem _ _ _ _ Hb) as (Hbin & Hbs & Hbv).
  pose proof (skill_version_elem _ _ _ _ Hca) as (Hcin & Hcsk & Hcv). split.
  - exists rel, exp, b, ca. unfold quality_gate in Hq. inv_bind.
    repeat match goal with H : _ || _ = false |- _ => apply orb_false_iff in H as [? ?] end.
    split_and!; try done; lia.
  - intros skill v. unfold live. unfold tables in Ht. injection Ht as -> _ _ _ _.
    rewrite live_swap by (done || congruence). by rewrite Hbs, Hcv.
Qed.

(** C18: a rollback undoes a promotion.  When a promotion and then a rollback of
    the same release are accepted, the live versions of every skill are those
    from before the promotion. *)
Theorem rollback_restores_live c1 sig1 c2 sig2 s r1 s1 r2 s2 :
  runtime_ok [] s → cm_identity c2 = cm_identity c1 →
  cm_action c1 = ReleaseAction_PROMOTE → cm_action c2 = ReleaseAction_ROLLBACK →
  receive c1 sig1 s = (Ok r1, s1) → receive c2 sig2 s1 = (Ok r2, s2) →
  get_row ck_command_id (cm_command_id c1) (e_commands s) = None →
  get_row ck_command_id (cm_command_id c2) (e_commands s1) = None →
  ∀ skill v, live s2 skill v ↔ live s skill v.
Proof.
  intros [Hsk Hcan _] Hid Ha1 Ha2 H1 H2 Hn1 Hn2 skill v.
  destruct (receive_fresh _ _ _ _ _ H1 Hn1) as
    (_ & h & next & sks & rs & xs & t & b & ca & Hb & Hca & Hne & _ & Htr & -> & Ht & Hw & Heff).
  unfold effects in Heff. rewrite Ha1 in *.
  destruct Heff as (rel & exp & t1 & t2 & Hrel & Hst & _ & _ & _ & Hba & _ & -> & _).
  rewrite Hrel in Htr. apply transition_Ok in Htr as [_ [_ [(? & _)|[_ [(? & _)|[(_ & _ & Hn & _)|(? & _)]]]]]]; try done.
  pose proof (skill_version_elem _ _ _ _ Hb) as (Hbin & Hbs & Hbv).
  pose proof (skill_version_elem _ _ _ _ Hca) as (Hcin & Hcsk & Hcv).
  unfold tables in Ht. injection Ht as T1 T2 _ _ _.
  assert (skills_ok (e_skills s1)) as Hsk1.
  { rewrite T1. apply skills_ok_cas_swap; congruence. }
  pose proof (λ k w, live_swap (e_skills s) b ca (Some t1) None k w Hsk Hbin Hcin Hne ltac:(congruence) Hba) as L1.
  rewrite <- T1 in L1. change (live_in (e_skills s1)) with (live s1) in L1.
  destruct (receive_fresh _ _ _ _ _ H2 Hn2) as
    (_ & h' & next' & sks' & rs' & xs' & t' & b' & ca' & Hb' & Hca' & Hne' & _ & Htr' & -> & Ht' & Hw' & Heff').
  unfold effects in Heff'. rewrite Ha2 in Heff'. destruct Heff' as (rel' & Hrel' & Heff').
  assert (cm_deployment_id c2 = cm_deployment_id c1 ∧ cm_skill_id c2 = cm_skill_id c1
    ∧ cm_baseline_version c2 = cm_baseline_version c1) as (Hd & Hs & Hv).
  { unfold cm_identity in Hid. by injection Hid. }
  assert (rl_state rel' = ReleaseState_ACTIVE) as Hst'.
  { rewrite <- Hn. unfold get_release in Hrel'. rewrite T2, Hd in Hrel'.
    by eapply (written_state c1); [exact Hw| exact Hrel | by destruct Hcan | done]. }
  rewrite Hst' in Heff'. destruct Heff' as (Hca'a & Hb'r & -> & _).
  pose proof (skill_version_elem _ _ _ _ Hb') as (Hb'in & Hb's & Hb'v).
  pose proof (skill_version_elem _ _ _ _ Hca') as (Hc'in & Hc'sk & _).
  unfold live at 1. unfold tables in Ht'. injection Ht' as -> _ _ _ _.
  pose proof (live_swap (e_skills s1) ca' b' None None skill v Hsk1 Hc'in Hb'in ltac:(congruence)
                ltac:(congruence) Hca'a) as L2.
  rewrite Hb'r in L2. rewrite L2. case_decide as Hskill.
  - rewrite Hskill, Hc'sk, Hs, <- Hbs, Hb'v, Hv, <- Hbv. symmetry. by apply live_unique.
  - change (live_in (e_skills s1) skill v) with (live s1 skill v). rewrite L1.
    by rewrite decide_False by congruence.
Qed.
End promotions.

(** *** Observations of canaries and the emergency guard

    The score of a trace enters its experiment once, on the arm the trace is
    routed to.  The guard, on the other hand, compares with a success rate that
    nothing records. *)

Section observations.
Context {E : ReleaseEnv}.

Lemma record_Ok r s o s' :
  record r s = (Ok o, s') →
  sl_company_id (xr_selection r) = control_plane_company_id ∧
  ((sl_experiment_id (xr_selection r) = None ∧ o = {| ob_state := "active"; ob_recorded := false |} ∧ s' = s)
   ∨ ∃ i rel x v, sl_experiment_id (xr_selection r) = Some i
       ∧ observed_canary (xr_selection r) i s = Ok (rel, x)
       ∧ resolve_skill_version (sl_agent_id (xr_selection r)) (sl_skill_id (xr_selection r))
           (sl_trace_id (xr_selection r)) s = Ok v
       ∧ is_int v (sl_version (xr_selection r)) = true
       ∧ expected_hash rel (sl_version (xr_selection r)) = sl_configuration_hash (xr_selection r)
       ∧ store_observation r x s = (Ok o, s')).
Proof.
  unfold record. cbv zeta. intros H. rinv. split; [done|]. destruct (sl_experiment_id _) as [i|].
  - rinv. match goal with p : (_ * EvolutionExperiment)%type |- _ => destruct p as [rel ex] end.
    right. exists i, rel, ex. eexists. by split_and!.
  - rinv. by left.
Qed.

(** The trace that is scored is the one the next report finds. *)
Lemma first_observed x sc ok l p :
  head (filter (λ t, tr_trace_id t = sl_trace_id x ∧ tr_agent_id t = sl_agent_id x
                     ∧ tr_skill_used t = Some (sl_skill_id x)) l) = Some p →
  head (filter (λ t, tr_trace_id t = sl_trace_id x ∧ tr_agent_id t = sl_agent_id x
                     ∧ tr_skill_used t = Some (sl_skill_id x))
    (update_first (trace_of x) (with_observation sc ok) l)) = Some (with_observation sc ok p).
Proof.
  induction l as [|t l IH]; [done|]. rewrite filter_cons. cbn [update_first]. unfold trace_of at 1.
  case_decide as Ht.
  - intros [= ->]. by rewrite bool_decide_eq_true_2, filter_cons, decide_True.
  - intros Hp. rewrite bool_decide_eq_false_2 by done. rewrite filter_cons, decide_False by done. by apply IH.
Qed.

(** A recorded score: the trace it is kept on, and the experiment it went to. *)
Lemma store_Ok r x s s' :
  store_observation r x s = (Ok {| ob_state := "canary"; ob_recorded := true |}, s') →
  ∃ t, prior_trace (xr_selection r) s' = Some t ∧ tr_auto_score t = Some (xr_score r)
    ∧ version_differs t (sl_version (xr_selection r)) = false
    ∧ e_skills s' = e_skills s ∧ e_releases s' = e_releases s
    ∧ e_experiments s' = update_row ex_experiment_id (ex_experiment_id x)
        (with_score (bool_decide (sl_version (xr_selection r) = ex_candidate_version x)) (xr_score r))
        (e_experiments s).
Proof.
  unfold store_observation, add_experiment_result, save_trace. cbv zeta. intros H. rinv.
  destruct (prior_trace (xr_selection r) s) as [p|] eqn:Hp.
  - destruct (tr_auto_score p); [by case_match|]. destruct (version_differs p _) eqn:Hv; [done|]. rinv.
    match goal with H : mret _ _ = _ |- _ => injection H as <- end.
    exists (with_observation (xr_score r) (xr_success r) p). split_and!; try done. by apply first_observed.
  - rinv. settle_tables. match goal with H : mret _ _ = _ |- _ => injection H as <- end.
    unfold prior_trace, set_experiments, set_traces in *. cbn [e_skills e_releases e_commands e_experiments e_traces].
    repeat match goal with H : ?f ?a = ?f s |- _ => rewrite H; clear H end.
    rewrite filter_app. destruct (filter _ (e_traces s)); [|done].
    cbn [app]. rewrite filter_cons, decide_True by (cbn; by split_and!). cbn [head].
    eexists. split_and!; try reflexivity. unfold version_differs. cbn. by rewrite bool_decide_eq_true_2.
Qed.

Lemma head_filter_map {A} (P : A → Prop) `{!∀ x, Decision (P x)} (g : A → A) l :
  (∀ x, P (g x) ↔ P x) → head (filter P (g <$> l)) = g <$> head (filter P l).
Proof.
  intros Hg. induction l as [|x l IH]; [done|]. rewrite fmap_cons, !filter_cons.
  destruct (decide (P x)) as [Hx|Hx].
  - by rewrite decide_True by (by apply Hg).
  - by rewrite decide_False by (by rewrite Hg).
Qed.

Definition scored (i : string) (cand : bool) (sc : float) (x : EvolutionExperiment) : EvolutionExperiment :=
  if decide (ex_experiment_id x = i) then with_score cand sc x else x.

Lemma resolve_scored agent skill trace s s' i cand sc :
  e_skills s' = e_skills s → e_releases s' = e_releases s →
  e_experiments s' = update_row ex_experiment_id i (with_score cand sc) (e_experiments s) →
  resolve_skill_version agent skill trace s' = resolve_skill_version agent skill trace s.
Proof.
  intros Hs Hr Hx. unfold resolve_skill_version, get_active_skill. rewrite Hs.
  assert (get_active_experiment agent skill s' = scored i cand sc <$> get_active_experiment agent skill s) as ->.
  { unfold get_active_experiment. rewrite Hr, Hx. unfold update_row.
    apply (head_filter_map _ (scored i cand sc)). intros x. unfold scored. by case_decide. }
  destruct (get_active_experiment agent skill s) as [x|]; cbn; [|done].
  destruct (_bucket trace) as [b|]; cbn; [|done]. unfold scored. by case_decide.
Qed.

Lemma observed_scored x i rel exp s s' cand sc :
  e_releases s' = e_releases s →
  e_experiments s' = update_row ex_experiment_id (ex_experiment_id exp) (with_score cand sc) (e_experiments s) →
  observed_canary x i s = Ok (rel, exp) →
  get_experiment (Some i) s = Some exp ∧ observed_canary x i s' = Ok (rel, with_score cand sc exp).
Proof.
  intros Hr Hx. unfold observed_canary, get_release, get_experiment. rewrite Hr, Hx. cbn [mbind option_bind].
  destruct (get_row rl_deployment_id _ _) as [rel'|]; [|done].
  destruct (get_row ex_experiment_id i (e_experiments s)) as [exp'|] eqn:He; [|done]. case_match eqn:Hc; [|done].
  intros [= -> ->]. split; [done|]. apply get_row_Some in He as Hid. destruct Hid as [_ <-].
  rewrite get_row_update, He by done. cbn [fmap option_fmap option_map].
  revert Hc. unfold is_running, with_score. cbn. by intros ->.
Qed.

(** The score of a trace counts once.  When a result is recorded, its score
    is added to its experiment exactly once, on the arm of the version that ran;
    reporting the same result again is answered as already recorded and changes
    nothing. *)
Theorem observation_counted_once r s s' :
  record r s = (Ok {| ob_state := "canary"; ob_recorded := true |}, s') →
  SFeqb (xr_score r) (xr_score r) = true →
  (∃ i exp, sl_experiment_id (xr_selection r) = Some i ∧ get_experiment (Some i) s = Some exp
     ∧ get_experiment (Some i) s' = Some (with_score
         (bool_decide (sl_version (xr_selection r) = ex_candidate_version exp)) (xr_score r) exp)
     ∧ ∀ j, j ≠ i → get_experiment (Some j) s' = get_experiment (Some j) s)
  ∧ record r s' = (Ok {| ob_state := "canary"; ob_recorded := false |}, s').
Proof.
  intros (Hco & [(_ & [=] & _)|(i & rel & x & v & Hi & Hobs & Hv & Hint & Hh & Hst)])%record_Ok Hsc.
  apply store_Ok in Hst as (t & Ht & Hts & Htv & H1 & H2 & H3).
  destruct (observed_scored _ _ _ _ _ _ _ _ H2 H3 Hobs) as [Hget Hobs'].
  split.
  - exists i, x. split_and!; [done..| |].
    + unfold get_experiment in *. cbn [mbind option_bind] in *. rewrite H3.
      apply get_row_Some in Hget as Hid. destruct Hid as [_ <-]. by rewrite get_row_update, Hget.
    + intros j Hj. unfold get_experiment in *. cbn [mbind option_bind] in *. rewrite H3.
      apply get_row_Some in Hget as [_ Hid]. unfold get_row, update_row.
      rewrite (head_filter_map (λ r, ex_experiment_id r = j)).
      * destruct (head _) as [y|] eqn:Hy; [|done]. cbn. rewrite decide_False; [done|].
        apply head_Some_elem_of, list_elem_of_filter in Hy as [Hy _]. congruence.
      * intros y. destruct (decide (ex_experiment_id y = ex_experiment_id x)); cbn; [reflexivity|done].
  - unfold record. cbv zeta. rewrite bool_decide_eq_true_2 by done. rewrite Hi.
    unfold raise_ifM, mret, M_ret, getsM, getM, liftM, mbind, M_bind. cbn [negb]. cbv beta iota.
    rewrite Hobs'. cbv beta iota. rewrite (resolve_scored _ _ _ _ _ _ _ _ H1 H2 H3), Hv. cbv beta iota.
    rewrite Hint. cbn [fst snd negb]. rewrite bool_decide_eq_true_2 by done. cbn [negb]. cbv beta iota.
    unfold store_observation, getsM, mbind, M_bind. cbv beta zeta iota.
    rewrite Ht, Hts, Htv, Hsc. reflexivity.
Qed.

(** *** The guard *)

(** The success rate of ten traces, whatever they were. *)
Lemma rate_within (k : nat) :
  (k ≤ 10)%nat →
  f_le (f_sub f_zero (f_div (f_of_Z (Z.of_nat k)) (f_of_Z 10))) (float_lit 1 1) = true.
Proof. intros Hk. do 11 (destruct k as [|k]; [vm_compute; reflexivity|]). lia. Qed.

(** The guard never acts on a version whose recorded success rate is the default
    of its column, and no code of the repository writes that column. *)
Lemma guard_never_acts R agent skill s :
  (∀ x, x ∈ e_skills s → sk_success_rate x = f_zero) →
  guard_check R default_guard agent skill s = (Ok false, s).
Proof.
  intros H0. unfold guard_check, getsM, mbind, M_bind.
  assert (degraded default_guard agent skill s = None) as ->; [|done].
  unfold degraded. destruct (get_active_skill skill s) as [a|] eqn:Ha; [|done].
  assert (a ∈ e_skills s) as Hin.
  { unfold get_active_skill, newest_first in Ha. apply head_Some_elem_of in Ha. rewrite py_sorted_perm in Ha.
    by apply list_elem_of_filter in Ha as [_ ?]. }
  case_bool_decide; [done|]. cbn [gc_min_samples default_guard gc_rollback_threshold].
  destruct (length _ <? 10)%nat eqn:Hl; [done|]. apply Nat.ltb_ge in Hl.
  rewrite (H0 a Hin). unfold calc_success_rate.
  assert (length (get_recent_traces agent 10 (Some skill) s) = 10%nat) as Hlen.
  { unfold get_recent_traces in *. rewrite length_take in *. lia. }
  destruct (get_recent_traces agent 10 (Some skill) s) as [|t l] eqn:Hr; [done|].
  rewrite Hlen. change (Z.of_nat 10) with 10. rewrite rate_within; [done|].
  rewrite <- Hlen. apply length_filter.
Qed.

(** *** Retired candidates *)

(** A candidate that was retired can be released again into shadow and canary,
    but its promotion is always refused. *)
Lemma retired_candidate_never_promoted c h b ca s r s' :
  cm_action c = ReleaseAction_PROMOTE → sk_status ca = "retired" →
  apply_checked c h b ca s ≠ (Ok r, s').
Proof.
  intros Ha Hca H. apply apply_checked_Ok in H as (? & ? & ? & ? & ? & _ & _ & _ & _ & _ & Heff).
  unfold effects in Heff. rewrite Ha in Heff. destruct Heff as (? & ? & ? & ? & _ & _ & _ & _ & _ & _ & Hin & _).
  rewrite Hca in Hin. set_solver.
Qed.
End observations.
