(* ===== verification/Deployment.v ===== *)
(** * Skill releases of the control plane

    [evolution_deployment_store.py] with [evolution_deployment_models.py]: which
    command may be sent to the evolution runtime, the row that remembers it until
    it is acknowledged, and the recovery of a command that expired unapplied.

    A row keeps its command and the answer of the receiver, and a report its
    batches, policy and comparison, as values; the source keeps their JSON. *)

From S2P Require Import Prelude PyNum PyTime PyValue Models EvolutionProposal DomainEvents.
From S2P Require Import GovernancePolicies Store ApprovalGate Proposals SkillRelease.
From S2P Require Import ReleaseStore EvaluationBatch.

(** ** Tables *)
Inductive DeploymentState := Pending | Reached (s : ReleaseState).
#[global] Instance DeploymentState_eq_dec : EqDecision DeploymentState.
Proof. solve_decision. Defined.
Definition DeploymentState_value (x : DeploymentState) : string :=
  match x with Pending => "pending" | Reached s => ReleaseState_value s end.

Record EvolutionDeployment := {
  dp_deployment_id : string; dp_company_id : string; dp_proposal_id : string;
  dp_evaluation_report_id : string; dp_state : DeploymentState; dp_desired_action : ReleaseAction;
  dp_command : SkillReleaseCommand; dp_acknowledgement : option release_response;
  dp_updated_at : instant }.

Record EvolutionEvaluationReport := {
  rp_evaluation_report_id : string; rp_report_company_id : string; rp_proposal_id : string;
  rp_baseline_skill_version_id : string; rp_candidate_skill_version_id : string;
  rp_dataset_revision : string; rp_baseline_batch_hash : string; rp_candidate_batch_hash : string;
  rp_baseline_batch : EvaluationBatch; rp_candidate_batch : EvaluationBatch;
  rp_policy : EvaluationPolicy; rp_comparison_report : EvaluationComparison;
  rp_evaluator_version : string; rp_created_at : datetime }.

Record DeploymentTables := {
  x_deployments : list EvolutionDeployment; x_reports : list EvolutionEvaluationReport }.

(** The session of the control plane with these tables beside the others. *)
Record Control := { c_session : Session; c_tables : DeploymentTables; c_durable : DeploymentTables }.

Definition set_deployments (l : list EvolutionDeployment) (c : Control) : Control :=
  {| c_session := c_session c;
     c_tables := {| x_deployments := l; x_reports := x_reports (c_tables c) |};
     c_durable := c_durable c |}.

Definition in_control {A} (m : M Session A) : M Control A := λ c,
  let '(r, s) := m (c_session c) in
  (r, {| c_session := s; c_tables := c_tables c; c_durable := c_durable c |}).

Definition in_tables {A} (f : DeploymentTables → A) : M Control A := getsM (λ c, f (c_tables c)).
Definition in_db {A} (f : DB → A) : M Control A := in_control (query f).

(** [session.commit()] and [session.rollback()] *)
Definition commit : M Control unit := λ c,
  (Ok (), {| c_session := (checkpoint (c_session c)).2; c_tables := c_tables c; c_durable := c_tables c |}).
Definition discard (c : Control) : Control :=
  {| c_session := rollback (c_session c); c_tables := c_durable c; c_durable := c_durable c |}.

(** ** Values that are hashed *)
Definition p_float (o : option float) : pyval := match o with Some f => PFloat f | None => PNone end.

Definition metrics_dump (m : ArmEvaluationMetrics) : pyval := PDict
  [("evaluation_id", PStr (am_evaluation_id m)); ("config_revision", PStr (am_config_revision m));
   ("sample_count", PInt (am_sample_count m)); ("accepted_count", PInt (am_accepted_count m));
   ("accepted_outcome_rate", p_float (am_accepted_outcome_rate m));
   ("accepted_outcome_rate_95_ci", PDict
      [("lower", p_float (wi_lower (am_accepted_outcome_rate_95_ci m)));
       ("upper", p_float (wi_upper (am_accepted_outcome_rate_95_ci m)))]);
   ("mean_accepted_quality", PFloat (am_mean_accepted_quality m));
   ("total_attempt_cost_usd", PFloat (am_total_attempt_cost_usd m));
   ("cost_per_accepted_outcome_usd", p_float (am_cost_per_accepted_outcome_usd m));
   ("mean_latency_ms", PFloat (am_mean_latency_ms m));
   ("total_human_interventions", PInt (am_total_human_interventions m));
   ("policy_denial_count", PInt (am_policy_denial_count m));
   ("policy_denial_failures", PInt (am_policy_denial_failures m));
   ("policy_violation_count", PInt (am_policy_violation_count m))].

Definition comparison_dump (c : EvaluationComparison) : pyval := PDict
  [("eligible", PBool (cp_eligible c)); ("reasons", PList (PStr <$> cp_reasons c));
   ("baseline", metrics_dump (cp_baseline c)); ("candidate", metrics_dump (cp_candidate c));
   ("dataset_revision", p_opt (cp_dataset_revision c)); ("budget_usd", p_float (cp_budget_usd c));
   ("report_kind", PStr "fixed_evaluation_case_comparison");
   ("is_live_model_benchmark", PBool false)].

(** What [validate_release] reads of a report.  The rate is absent only for an
    arm without samples, which is refused before it is read. *)
Definition side_of (m : ArmEvaluationMetrics) : EvaluationSide := {|
  ev_config_revision := am_config_revision m; ev_sample_count := am_sample_count m;
  ev_accepted_outcome_rate := default f_zero (am_accepted_outcome_rate m) |}.
Definition report_of (c : EvaluationComparison) : EvaluationReport := {|
  ev_baseline := side_of (cp_baseline c); ev_candidate := side_of (cp_candidate c);
  ev_eligible := PBool (cp_eligible c) |}.

(** ** What a release is asked for *)
Record release_request := {
  rq_company_id : string; rq_proposal_id : string; rq_evaluation_report_id : string;
  rq_skill_id : string; rq_agent_id : string; rq_baseline_version : Z; rq_candidate_version : Z;
  rq_baseline_config_hash : string; rq_candidate_config_hash : string; rq_action : ReleaseAction }.

(** The part of a command that must not change. *)
Record release_snapshot := {
  sn_company_id : string; sn_proposal_id : string; sn_evaluation_report_id : string;
  sn_evaluation_hash : string; sn_skill_id : string; sn_agent_id : string;
  sn_baseline_version : Z; sn_candidate_version : Z;
  sn_baseline_config_hash : string; sn_candidate_config_hash : string }.
#[global] Instance release_snapshot_eq_dec : EqDecision release_snapshot.
Proof. solve_decision. Defined.

Definition snapshot_of_request (q : release_request) (evaluation_hash : string) : release_snapshot := {|
  sn_company_id := rq_company_id q; sn_proposal_id := rq_proposal_id q;
  sn_evaluation_report_id := rq_evaluation_report_id q; sn_evaluation_hash := evaluation_hash;
  sn_skill_id := rq_skill_id q; sn_agent_id := rq_agent_id q;
  sn_baseline_version := rq_baseline_version q; sn_candidate_version := rq_candidate_version q;
  sn_baseline_config_hash := rq_baseline_config_hash q;
  sn_candidate_config_hash := rq_candidate_config_hash q |}.

Definition snapshot_of_command (c : SkillReleaseCommand) : release_snapshot := {|
  sn_company_id := cm_company_id c; sn_proposal_id := cm_proposal_id c;
  sn_evaluation_report_id := cm_evaluation_report_id c; sn_evaluation_hash := cm_evaluation_hash c;
  sn_skill_id := cm_skill_id c; sn_agent_id := cm_agent_id c;
  sn_baseline_version := cm_baseline_version c; sn_candidate_version := cm_candidate_version c;
  sn_baseline_config_hash := cm_baseline_config_hash c;
  sn_candidate_config_hash := cm_candidate_config_hash c |}.

Definition snapshot_dict (s : release_snapshot) : pydict :=
  [("company_id", PStr (sn_company_id s)); ("proposal_id", PStr (sn_proposal_id s));
   ("evaluation_report_id", PStr (sn_evaluation_report_id s));
   ("evaluation_hash", PStr (sn_evaluation_hash s)); ("skill_id", PStr (sn_skill_id s));
   ("agent_id", PStr (sn_agent_id s)); ("baseline_version", PInt (sn_baseline_version s));
   ("candidate_version", PInt (sn_candidate_version s));
   ("baseline_config_hash", PStr (sn_baseline_config_hash s));
   ("candidate_config_hash", PStr (sn_candidate_config_hash s))].

Definition request_of_command (c : SkillReleaseCommand) : release_request := {|
  rq_company_id := cm_company_id c; rq_proposal_id := cm_proposal_id c;
  rq_evaluation_report_id := cm_evaluation_report_id c; rq_skill_id := cm_skill_id c;
  rq_agent_id := cm_agent_id c; rq_baseline_version := cm_baseline_version c;
  rq_candidate_version := cm_candidate_version c;
  rq_baseline_config_hash := cm_baseline_config_hash c;
  rq_candidate_config_hash := cm_candidate_config_hash c; rq_action := cm_action c |}.

(** [TARGET_STATES[action]] *)
Definition target_state (a : ReleaseAction) : ReleaseState :=
  match a with
  | ReleaseAction_SHADOW => ReleaseState_SHADOW
  | ReleaseAction_CANARY => ReleaseState_CANARY
  | ReleaseAction_PROMOTE => ReleaseState_ACTIVE
  | ReleaseAction_ROLLBACK => ReleaseState_ROLLED_BACK
  end.

Definition response_dump (r : release_response) : pydict :=
  [("deployment_id", PStr (rr_deployment_id r)); ("state", PStr (ReleaseState_value (rr_state r)));
   ("version", PInt (rr_version r)); ("experiment_id", p_opt (rr_experiment_id r))].

(** The column [rollout_state] and the metadata of a proposal. *)
Definition with_proposal_rollout (state : string) (r : EvolutionProposalRecord)
    : EvolutionProposalRecord := {|
  proposal_id := proposal_id r; proposal_company_id := proposal_company_id r;
  proposal_tier := proposal_tier r; proposal_scope := proposal_scope r;
  proposal_evidence := proposal_evidence r;
  proposal_expected_benefit := proposal_expected_benefit r; proposal_risk := proposal_risk r;
  proposal_approval_state := proposal_approval_state r;
  proposal_record_rollout_state := Some (Str state);
  proposal_approval_id := proposal_approval_id r; proposal_metadata := proposal_metadata r;
  proposal_created_at := proposal_created_at r; proposal_updated_at := proposal_updated_at r |}.
Definition with_proposal_metadata (d : pydict) (r : EvolutionProposalRecord)
    : EvolutionProposalRecord := {|
  proposal_id := proposal_id r; proposal_company_id := proposal_company_id r;
  proposal_tier := proposal_tier r; proposal_scope := proposal_scope r;
  proposal_evidence := proposal_evidence r;
  proposal_expected_benefit := proposal_expected_benefit r; proposal_risk := proposal_risk r;
  proposal_approval_state := proposal_approval_state r;
  proposal_record_rollout_state := proposal_record_rollout_state r;
  proposal_approval_id := proposal_approval_id r; proposal_metadata := d;
  proposal_created_at := proposal_created_at r; proposal_updated_at := proposal_updated_at r |}.

Definition with_request (a : ReleaseAction) (c : SkillReleaseCommand) (now : instant)
    (r : EvolutionDeployment) : EvolutionDeployment := {|
  dp_deployment_id := dp_deployment_id r; dp_company_id := dp_company_id r;
  dp_proposal_id := dp_proposal_id r; dp_evaluation_report_id := dp_evaluation_report_id r;
  dp_state := Pending; dp_desired_action := a; dp_command := c;
  dp_acknowledgement := dp_acknowledgement r; dp_updated_at := now |}.
Definition with_deployment_state (st : DeploymentState) (now : instant) (r : EvolutionDeployment)
    : EvolutionDeployment := {|
  dp_deployment_id := dp_deployment_id r; dp_company_id := dp_company_id r;
  dp_proposal_id := dp_proposal_id r; dp_evaluation_report_id := dp_evaluation_report_id r;
  dp_state := st; dp_desired_action := dp_desired_action r; dp_command := dp_command r;
  dp_acknowledgement := dp_acknowledgement r; dp_updated_at := now |}.
Definition with_acknowledgement (st : ReleaseState) (r : release_response) (now : instant)
    (x : EvolutionDeployment) : EvolutionDeployment := {|
  dp_deployment_id := dp_deployment_id x; dp_company_id := dp_company_id x;
  dp_proposal_id := dp_proposal_id x; dp_evaluation_report_id := dp_evaluation_report_id x;
  dp_state := Reached st; dp_desired_action := dp_desired_action x; dp_command := dp_command x;
  dp_acknowledgement := Some r; dp_updated_at := now |}.

(** ** The store *)
Definition find_deployment (company proposal : string) (t : DeploymentTables) : option EvolutionDeployment :=
  head (filter (λ r, dp_company_id r = company ∧ dp_proposal_id r = proposal) (x_deployments t)).
Definition find_proposal (company proposal : string) (d : DB) : option EvolutionProposalRecord :=
  head (filter (λ r, proposal_company_id r = company ∧ proposal_id r = proposal) (t_proposals d)).

Definition owner_lost : exn := ExecutionDenied "evolution_release_owner_lost" 409.

Section store.
Context {E : ReleaseEnv}.

Definition update_deployment (id_ : string) (f : EvolutionDeployment → EvolutionDeployment) : M Control unit :=
  modifyM (λ c, set_deployments (update_row dp_deployment_id id_ f (x_deployments (c_tables c))) c).

Definition _audit (company proposal action actor : string) (detail : pydict) : M Control unit :=
  in_control (ev ← new_audit company action "evolution_proposal" proposal "operator" actor
                     None None None detail;
              _ ← append_audit_event ev;
              mret ()).

Definition pending (company proposal : string) : M Control SkillReleaseCommand :=
  row_ ← in_tables (find_deployment company proposal);
  match row_ with
  | Some row => if decide (dp_state row = Pending) then mret (dp_command row)
                else raiseM (ExecutionDenied "pending_release_not_found" 404)
  | None => raiseM (ExecutionDenied "pending_release_not_found" 404)
  end.

(** An approval that has not expired. *)
Definition unexpired (now : instant) (a : ApprovalRequestRecord) : bool :=
  match approval_expires_at a with Some t => now <? as_utc t | None => false end.
Definition approval_is (status : string) (a : ApprovalRequestRecord) : bool :=
  bool_decide (str_of <$> approval_record_status a = Some status).

(** Whether a pending command can be sent again as it is. *)
Definition resend (old : SkillReleaseCommand) (now : instant) (d : DB) : result SkillReleaseCommand :=
  _ ← raise_if (as_utc (cm_expires_at old) <=? now)
        (ExecutionDenied "release_command_expired_recovery_required" 409);
  _ ← (if truthy (cm_approval_id old) then
         raise_if (match get_row approval_id (str_or_empty (cm_approval_id old)) (t_approvals d) with
                   | Some a => negb (approval_is "approved" a && unexpired now a)
                   | None => true
                   end) (ExecutionDenied "skill_release_approval_revoked" 403)
       else Ok ());
  Ok old.

Definition version_ref (skill : string) (version : Z) : string := skill +:+ "@" +:+ pretty version.

Definition decision_dict (s : release_snapshot) (deployment : string) (a : ReleaseAction) : pydict :=
  snapshot_dict s ++ [("deployment_id", PStr deployment); ("action", PStr (ReleaseAction_value a))].

(** [metadata_json["release_decision_hash"].as_string() == decision_hash] *)
Definition bound_to (decision_hash : string) (a : ApprovalRequestRecord) : bool :=
  match dict_get (approval_metadata a) "release_decision_hash" with
  | Some (PStr h) => bool_decide (h = decision_hash)
  | _ => false
  end.

(** Approvals of this decision that have not expired. *)
Definition decision_approvals (company decision_hash : string) (now : instant) (d : DB)
    : list ApprovalRequestRecord :=
  filter (λ a, unexpired now a = true)
    (filter (λ a, approval_company_id a = company ∧ bound_to decision_hash a = true) (t_approvals d)).

Definition request_release_approval (q : release_request) (s : release_snapshot) (decision_hash actor : string)
    (now : instant) : M Session unit :=
  approval_id_ ← generate_id "apr";
  created ← now_utc;
  updated ← now_utc;
  let skill := rq_skill_id q in
  request ← liftM (validate_approval {|
    approval_id := approval_id_; approval_company_id := rq_company_id q;
    approval_category := Member ApprovalCategory_TECHNICAL;
    approval_record_status := Some (Member ApprovalStatus_PENDING); approval_requested_by := actor;
    approval_source_agent_id := rq_agent_id q;
    approval_proposed_action := ReleaseAction_value (rq_action q) +:+ " L1 skill "
                                +:+ version_ref skill (rq_candidate_version q);
    approval_reason := "Review frozen comparative quality, full attempt cost and interventions.";
    approval_risk := "Live routing can affect real work and consume budget.";
    approval_rollback_note := "Restore frozen baseline " +:+ version_ref skill (rq_baseline_version q)
                              +:+ " after CAS verification.";
    approval_affected_resources := ["skill:" +:+ skill; "proposal:" +:+ rq_proposal_id q];
    approval_artifact_links := []; approval_run_id := None; approval_work_item_id := None;
    approval_goal_id := None; approval_trace_id := None; approval_resolved_by := None;
    approval_resolved_at := None; approval_expires_at := Some (of_utc (now + us_per_day));
    approval_metadata := [("release_decision_hash", PStr decision_hash);
                          ("release_snapshot", PDict (snapshot_dict s));
                          ("action", PStr (ReleaseAction_value (rq_action q)))];
    approval_created_at := of_utc created; approval_updated_at := of_utc updated |});
  _ ← request_approval request;
  mret ().

(** The approval a live action uses, requested when there is none: the request is
    committed before the action is refused. *)
Definition granted_approval (q : release_request) (s : release_snapshot) (deployment actor : string)
    (now : instant) : M Control (option string) :=
  decision_hash ← liftM (canonical_hash (PDict (decision_dict s deployment (rq_action q))));
  if decide (rq_action q = ReleaseAction_SHADOW) then mret None
  else
    valid ← in_db (decision_approvals (rq_company_id q) decision_hash now);
    match head (filter (λ a, approval_is "approved" a = true) valid) with
    | Some granted => mret (Some (approval_id granted))
    | None =>
        _ ← whenM (negb (existsb (approval_is "pending") valid))
              (in_control (request_release_approval q s decision_hash actor now));
        _ ← commit;
        raiseM (ExecutionDenied "skill_release_approval_required" 403)
    end.

(** The command of a release, with the defaults of its contract. *)
Definition new_command (s : release_snapshot) (command_id deployment : string) (a : ReleaseAction)
    (approval : option string) (now : instant) : SkillReleaseCommand := {|
  cm_schema_version := "1.0"; cm_command_id := command_id; cm_deployment_id := deployment;
  cm_company_id := sn_company_id s; cm_proposal_id := sn_proposal_id s;
  cm_evaluation_report_id := sn_evaluation_report_id s; cm_evaluation_hash := sn_evaluation_hash s;
  cm_skill_id := sn_skill_id s; cm_agent_id := sn_agent_id s;
  cm_baseline_version := sn_baseline_version s; cm_candidate_version := sn_candidate_version s;
  cm_baseline_config_hash := sn_baseline_config_hash s;
  cm_candidate_config_hash := sn_candidate_config_hash s; cm_action := a; cm_traffic_pct := 10;
  cm_minimum_sample_count := 50; cm_approval_id := approval;
  cm_expires_at := of_utc (now + us_per_hour) |}.

(** The row of the release, new or existing, waits for the receiver. *)
Definition store_command (existing : option EvolutionDeployment) (q : release_request)
    (c : SkillReleaseCommand) (now : instant) : M Control unit :=
  match existing with
  | Some row => update_deployment (dp_deployment_id row) (with_request (rq_action q) c now)
  | None =>
      taken ← in_tables (λ t, bool_decide (cm_deployment_id c ∈ dp_deployment_id <$> x_deployments t));
      known ← in_db (λ d, company_fk d (rq_company_id q));
      _ ← raise_ifM (taken || negb known) (integrity_error "control_plane_evolution_deployments");
      modifyM (λ x, set_deployments (x_deployments (c_tables x) ++ [{|
        dp_deployment_id := cm_deployment_id c; dp_company_id := rq_company_id q;
        dp_proposal_id := rq_proposal_id q; dp_evaluation_report_id := rq_evaluation_report_id q;
        dp_state := Pending; dp_desired_action := rq_action q; dp_command := c;
        dp_acknowledgement := None; dp_updated_at := now |}]) x)
  end.

(** A new command for the release, after the checks on what already exists. *)
Definition issue (q : release_request) (s : release_snapshot) (proposal : EvolutionProposalRecord)
    (report : EvolutionEvaluationReport) (existing : option EvolutionDeployment)
    (override : option string) (actor : string) (now : instant) : M Control SkillReleaseCommand :=
  _ ← liftM (validate_release (str_of (proposal_tier proposal))
               ((λ r, DeploymentState_value (dp_state r)) <$> existing)
               (ReleaseAction_value (rq_action q)) (report_of (rp_comparison_report report))
               (version_ref (rq_skill_id q) (rq_baseline_version q))
               (version_ref (rq_skill_id q) (rq_candidate_version q)));
  deployment ← (match existing with
                | Some row => mret (dp_deployment_id row)
                | None => if truthy override then mret (str_or_empty override)
                          else u ← in_control uuid4; mret ("dep_" +:+ u)
                end : M Control string);
  approval ← granted_approval q s deployment actor now;
  u ← in_control uuid4;
  let command := new_command s ("cmd_" +:+ u) deployment (rq_action q) approval now in
  _ ← raise_ifM (negb (command_valid command)) (validation_error "SkillReleaseCommand");
  _ ← store_command existing q command now;
  _ ← _audit (rq_company_id q) (rq_proposal_id q) "evolution.release_requested" actor
        [("deployment_id", PStr deployment); ("command_id", PStr (cm_command_id command));
         ("action", PStr (ReleaseAction_value (rq_action q)));
         ("evaluation_report_id", PStr (rq_evaluation_report_id q)); ("approval_id", p_opt approval)];
  mret command.

Definition prepare (q : release_request) (actor : string) (override : option string)
    : M Control SkillReleaseCommand :=
  now ← in_control now_utc;
  proposal_ ← in_db (find_proposal (rq_company_id q) (rq_proposal_id q));
  report_ ← in_tables (λ t, get_row rp_evaluation_report_id (rq_evaluation_report_id q) (x_reports t));
  match proposal_, report_ with
  | Some proposal, Some report =>
      _ ← raise_ifM (negb (bool_decide (rp_report_company_id report = rq_company_id q))
                     || negb (bool_decide (rp_proposal_id report = rq_proposal_id q)))
            (ExecutionDenied "evolution_evidence_not_found" 404);
      existing ← in_tables (λ t, get_row dp_proposal_id (rq_proposal_id q) (x_deployments t));
      evaluation_hash ← liftM (canonical_hash (comparison_dump (rp_comparison_report report)));
      let s := snapshot_of_request q evaluation_hash in
      _ ← raise_ifM (match existing with
                     | Some row => negb (bool_decide (snapshot_of_command (dp_command row) = s))
                     | None => false
                     end) (ExecutionDenied "frozen_release_configuration_changed" 409);
      match existing with
      | Some row =>
          if bool_decide (dp_desired_action row = rq_action q) && bool_decide (dp_state row = Pending)
          then d ← in_db id; liftM (resend (dp_command row) now d)
          else issue q s proposal report existing override actor now
      | None => issue q s proposal report None override actor now
      end
  | _, _ => raiseM (ExecutionDenied "evolution_evidence_not_found" 404)
  end.

(** The row still holds this very command. *)
Definition holds_command (row : EvolutionDeployment) (c : SkillReleaseCommand) : result bool :=
  if negb (bool_decide (dp_state row = Pending))
     || negb (bool_decide (cm_command_id (dp_command row) = cm_command_id c)) then Ok false
  else
    stored ← canonical_hash (command_dump (dp_command row));
    given ← canonical_hash (command_dump c);
    Ok (bool_decide (stored = given)).

(** The last acknowledged state of the row is restored, or the row deleted when
    there is none. *)
Definition restore_acknowledged (row : EvolutionDeployment) (now : instant) : M Control unit :=
  match dp_acknowledgement row with
  | None =>
      _ ← raise_ifM (negb (bool_decide (cm_action (dp_command row) = ReleaseAction_SHADOW)))
            (ExecutionDenied "release_acknowledged_state_missing" 409);
      modifyM (λ c, set_deployments (filter (λ r, dp_deployment_id r ≠ dp_deployment_id row)
                                       (x_deployments (c_tables c))) c)
  | Some r =>
      _ ← raise_ifM (bool_decide (rr_state r = ReleaseState_ROLLED_BACK))
            (ExecutionDenied "release_acknowledged_state_invalid" 409);
      update_deployment (dp_deployment_id row) (with_deployment_state (Reached (rr_state r)) now)
  end.

Definition recover_expired_pending (c : SkillReleaseCommand) (actor : string)
    : M Control SkillReleaseCommand :=
  proposal_ ← in_db (find_proposal (cm_company_id c) (cm_proposal_id c));
  row_ ← in_tables (find_deployment (cm_company_id c) (cm_proposal_id c));
  match proposal_, row_ with
  | Some _, Some row =>
      let stored := dp_command row in
      same ← liftM (holds_command row c);
      _ ← raise_ifM (negb same) owner_lost;
      now ← in_control now_utc;
      _ ← raise_ifM (now <? as_utc (cm_expires_at stored)) (ExecutionDenied "release_command_not_expired" 409);
      h ← liftM (canonical_hash (command_dump stored));
      _ ← _audit (cm_company_id c) (cm_proposal_id c) "evolution.release_expired_command_recovered" actor
            [("deployment_id", PStr (dp_deployment_id row)); ("superseded_command", command_dump stored);
             ("superseded_payload_hash", PStr h); ("receiver_lookup", PStr "not_found");
             ("restored_acknowledged_state",
              match dp_acknowledgement row with Some r => PStr (ReleaseState_value (rr_state r)) | None => PNone end)];
      _ ← restore_acknowledged row now;
      prepare (request_of_command stored) actor (Some (dp_deployment_id row))
  | _, _ => raiseM (ExecutionDenied "pending_release_not_found" 404)
  end.

(** The proposal follows the release. *)
Definition follow_rollout (proposal : EvolutionProposalRecord) (st : ReleaseState) (actor : string)
    : M Session EvolutionProposalRecord :=
  let expected := ReleaseState_value st in
  if decide (str_of <$> proposal_record_rollout_state proposal = Some expected) then mret proposal
  else
    aggregate ← liftM (advance_rollout (EvolutionProposal.from_record proposal) (Some (Str expected)));
    reached ← liftM (rollout_state aggregate);
    let row := with_proposal_rollout (value reached) proposal in
    _ ← update_db (λ d, set_proposals (update_row proposal_id (proposal_id proposal) (λ _, row)
                                         (t_proposals d)) d);
    _ ← append_control_plane_domain_event_audits (EvRollout <$> (EvolutionProposal.pull_events aggregate).1)
          {| ctx_actor_type := "operator"; ctx_actor_id := actor; ctx_trace_id := None;
             ctx_run_id := None; ctx_work_item_id := None; ctx_detail := [] |};
    mret row.

Definition deployed_metadata (c : SkillReleaseCommand) (response : release_response) (st : ReleaseState)
    : pydict :=
  [("deployment_id", PStr (cm_deployment_id c)); ("evaluation_report_id", PStr (cm_evaluation_report_id c));
   ("experiment_id", p_opt (rr_experiment_id response));
   ("deployed_skill_version", PInt (if decide (st = ReleaseState_ACTIVE) then cm_candidate_version c
                                    else cm_baseline_version c))].

Definition acknowledge (c : SkillReleaseCommand) (response : release_response) (actor : string)
    : M Control unit :=
  let expected := target_state (cm_action c) in
  _ ← raise_ifM (negb (bool_decide (rr_state response = expected))
                 || negb (bool_decide (rr_deployment_id response = cm_deployment_id c)))
        (ExecutionDenied "evolution_receiver_state_mismatch" 502);
  proposal_ ← in_db (find_proposal (cm_company_id c) (cm_proposal_id c));
  row_ ← in_tables (λ t, head (filter (λ r, dp_company_id r = cm_company_id c
             ∧ dp_proposal_id r = cm_proposal_id c ∧ dp_deployment_id r = cm_deployment_id c)
             (x_deployments t)));
  match proposal_, row_ with
  | Some proposal, Some row =>
      same ← liftM (holds_command row c);
      _ ← raise_ifM (negb same) owner_lost;
      now ← in_control now_utc;
      _ ← update_deployment (dp_deployment_id row) (with_acknowledgement expected response now);
      moved ← in_control (follow_rollout proposal expected actor);
      let row' := with_proposal_metadata
                    (dict_update (proposal_metadata moved) (deployed_metadata c response expected)) moved in
      _ ← in_control (update_db (λ d, set_proposals
            (update_row proposal_id (proposal_id proposal) (λ _, row') (t_proposals d)) d));
      _audit (cm_company_id c) (cm_proposal_id c) "evolution.release_applied" actor (response_dump response)
  | _, _ => raiseM owner_lost
  end.
End store.

(** ** Recorded evaluations

    [evolution_evaluation_use_cases.py] with [evolution_evaluation_store.py]: the
    comparison of two batches becomes a report of a proposal, with the hashes of
    what was compared.  Reports are only ever added; the list query is left out. *)

(** *** [model_dump(mode="json")] *)
Definition case_dump (c : EvalCase) : pyval := PDict
  [("case_id", PStr (ec_case_id c)); ("case_revision", PStr (ec_case_revision c));
   ("expects_policy_denial", PBool (ec_expects_policy_denial c))].

Definition result_dump (r : EvalResult) : pyval := PDict
  [("result_id", PStr (er_result_id r)); ("case_id", PStr (er_case_id r));
   ("config_revision", PStr (er_config_revision r)); ("accepted", PBool (er_accepted r));
   ("quality", PFloat (er_quality r));
   ("total_attempt_cost_usd", PFloat (er_total_attempt_cost_usd r));
   ("latency_ms", PFloat (er_latency_ms r)); ("human_interventions", PInt (er_human_interventions r));
   ("policy_denied", PBool (er_policy_denied r)); ("policy_violation", PBool (er_policy_violation r))].

Definition batch_dump (b : EvaluationBatch) : pyval := PDict
  [("evaluation_id", PStr (eb_evaluation_id b)); ("dataset_revision", PStr (eb_dataset_revision b));
   ("config_revision", PStr (eb_config_revision b)); ("budget_usd", PFloat (eb_budget_usd b));
   ("cases", PList (case_dump <$> eb_cases b)); ("results", PList (result_dump <$> eb_results b))].

(** *** The use case *)
Definition EVALUATION_REPORT_VERSION : string := "fixed-case-evaluation-v1".
Definition evaluation_not_found (id_ : string) : exn := Exn "EvolutionEvaluationProposalNotFoundError" id_.
Definition evaluation_incompatible (reasons : list string) : exn :=
  Exn "EvolutionEvaluationCompatibilityError" (String.concat "," reasons).

Definition incompatible : list string := ["evaluation_cases_mismatch"; "budget_mismatch"].

Section use_case.
Context {E : ReleaseEnv}.

Definition _content_hash (v : pyval) : result string := sha256_hex <$> json_dumps v.

Definition create_evaluation_report (r : EvolutionEvaluationReport) : M Control EvolutionEvaluationReport :=
  taken ← in_tables (λ t, bool_decide (rp_evaluation_report_id r ∈ rp_evaluation_report_id <$> x_reports t));
  known ← in_db (λ d, company_fk d (rp_report_company_id r));
  _ ← raise_ifM (taken || negb known) (integrity_error "control_plane_evolution_evaluations");
  _ ← modifyM (λ c, {| c_session := c_session c;
                       c_tables := {| x_deployments := x_deployments (c_tables c);
                                      x_reports := x_reports (c_tables c) ++ [r] |};
                       c_durable := c_durable c |});
  mret r.

Definition record_evaluation_comparison (company proposal_id_ : string) (baseline candidate : EvaluationBatch)
    (policy : EvaluationPolicy) (actor : string) : M Control EvolutionEvaluationReport :=
  proposal_ ← in_db (get_evolution_proposal proposal_id_);
  _ ← raise_ifM (match proposal_ with
                 | Some p => negb (bool_decide (proposal_company_id p = company))
                 | None => true
                 end) (evaluation_not_found proposal_id_);
  let comparison := compare_evaluations baseline candidate policy in
  let clashes := filter (λ r, r ∈ incompatible) (cp_reasons comparison) in
  _ ← raise_ifM (negb (bool_decide (clashes = []))) (evaluation_incompatible clashes);
  report_id ← in_control (generate_id "evr");
  baseline_hash ← liftM (_content_hash (batch_dump baseline));
  candidate_hash ← liftM (_content_hash (batch_dump candidate));
  now ← in_control now_utc;
  created ← create_evaluation_report {|
    rp_evaluation_report_id := report_id; rp_report_company_id := company; rp_proposal_id := proposal_id_;
    rp_baseline_skill_version_id := eb_config_revision baseline;
    rp_candidate_skill_version_id := eb_config_revision candidate;
    rp_dataset_revision := eb_dataset_revision baseline;
    rp_baseline_batch_hash := baseline_hash; rp_candidate_batch_hash := candidate_hash;
    rp_baseline_batch := baseline; rp_candidate_batch := candidate; rp_policy := policy;
    rp_comparison_report := comparison; rp_evaluator_version := EVALUATION_REPORT_VERSION;
    rp_created_at := of_utc now |};
  ev ← in_control (new_audit company "evolution_evaluation.recorded" "evolution_evaluation_report"
         (rp_evaluation_report_id created) "user" actor None None None
         [("proposal_id", PStr proposal_id_);
          ("evaluation_report_id", PStr (rp_evaluation_report_id created));
          ("baseline_skill_version_id", PStr (rp_baseline_skill_version_id created));
          ("candidate_skill_version_id", PStr (rp_candidate_skill_version_id created));
          ("eligible", PBool (cp_eligible comparison));
          ("baseline_batch_hash", PStr (rp_baseline_batch_hash created));
          ("candidate_batch_hash", PStr (rp_candidate_batch_hash created))]);
  _ ← in_control (append_audit_event ev);
  mret created.
End use_case.
