(* ===== verification/DeploymentTriples.v ===== *)
(** * What the deployment store does to its tables

    One lemma per operation of [Deployment]: the tables it leaves when it returns
    and what it may have committed when it raises. *)

From S2P Require Import Prelude PyNum PyTime PyValue Models EvolutionProposal GovernancePolicies.
From S2P Require Import Store Proposals SkillRelease ReleaseStore EvaluationBatch Deployment.

(** The working tables are [T], the committed ones [D]. *)
Definition at_ (T D : DeploymentTables) (c : Control) : Prop := c_tables c = T ∧ c_durable c = D.

Definition update_row_of (T : DeploymentTables) (id_ : string) f : DeploymentTables :=
  {| x_deployments := update_row dp_deployment_id id_ f (x_deployments T); x_reports := x_reports T |}.

Section triples.
Context {E : ReleaseEnv}.
Implicit Types T D : DeploymentTables.

Lemma at_in_control {A} T D X (m : M Session A) :
  (∀ c, at_ T D c → X c) → triple (at_ T D) (in_control m) (λ _, at_ T D) X.
Proof.
  intros HX c r c' [HT HD] H. unfold in_control in H. destruct (m (c_session c)) as [r0 s]. injection H as <- <-.
  destruct r0; [done|]. by apply HX.
Qed.

Lemma at_in_tables {A} T D X (f : DeploymentTables → A) :
  triple (at_ T D) (in_tables f) (λ a c, a = f T ∧ at_ T D c) X.
Proof. unfold in_tables. intros c r c' [HT HD] [= <- <-]. by rewrite HT. Qed.

Lemma at_update T D X id_ f :
  triple (at_ T D) (update_deployment id_ f) (λ _, at_ (update_row_of T id_ f) D) X.
Proof. apply triple_modify. intros c [HT HD]. by unfold set_deployments, update_row_of; rewrite HT. Qed.

Lemma at_audit T D X c p a actor d :
  (∀ x, at_ T D x → X x) → triple (at_ T D) (_audit c p a actor d) (λ _, at_ T D) X.
Proof. apply at_in_control. Qed.

(** The refusal for want of an approval commits what was there. *)
Lemma at_granted T D q s dep actor now :
  triple (at_ T D) (granted_approval q s dep actor now) (λ _, at_ T D)
    (λ c, c_durable c = D ∨ c_durable c = T).
Proof.
  unfold granted_approval.
  assert (∀ x, at_ T D x → c_durable x = D ∨ c_durable x = T) as Hx by (intros x [_ ?]; auto).
  eapply triple_know; [by apply triple_lift|]. intros h _. case_decide; [by apply triple_ret|].
  eapply triple_step; [by apply at_in_control|]. intros valid.
  destruct (head _); [by apply triple_ret|].
  eapply triple_step; [apply triple_when, at_in_control, Hx|]. intros _.
  eapply triple_bind with (R := λ _ c, c_durable c = T).
  - intros c r c' [HT HD] [= <- <-]. done.
  - intros _. apply triple_raise. auto.
Qed.

(** What [prepare] leaves: a command to send again, or a row that waits for a new
    one. *)
Inductive prepared (T : DeploymentTables) (q : release_request) (cmd : SkillReleaseCommand)
    : DeploymentTables → Prop :=
  | prepared_again row :
      cm_company_id cmd = rq_company_id q → cm_proposal_id cmd = rq_proposal_id q →
      row ∈ x_deployments T → dp_proposal_id row = rq_proposal_id q → dp_state row = Pending →
      dp_command row = cmd → prepared T q cmd T
  | prepared_next row now :
      cm_company_id cmd = rq_company_id q → cm_proposal_id cmd = rq_proposal_id q →
      get_row dp_proposal_id (rq_proposal_id q) (x_deployments T) = Some row →
      cm_deployment_id cmd = dp_deployment_id row →
      snapshot_of_command (dp_command row) = snapshot_of_command cmd →
      prepared T q cmd (update_row_of T (dp_deployment_id row) (with_request (rq_action q) cmd now))
  | prepared_first row :
      cm_company_id cmd = rq_company_id q → cm_proposal_id cmd = rq_proposal_id q →
      get_row dp_proposal_id (rq_proposal_id q) (x_deployments T) = None →
      dp_deployment_id row ∉ dp_deployment_id <$> x_deployments T →
      dp_deployment_id row = cm_deployment_id cmd → dp_company_id row = cm_company_id cmd →
      dp_proposal_id row = cm_proposal_id cmd → dp_proposal_id row = rq_proposal_id q →
      dp_state row = Pending → dp_command row = cmd → dp_acknowledgement row = None →
      prepared T q cmd {| x_deployments := x_deployments T ++ [row]; x_reports := x_reports T |}.

Definition same_durable (D T : DeploymentTables) (c : Control) : Prop := c_durable c = D ∨ c_durable c = T.

Lemma at_same_durable D T T' c : at_ T' D c → same_durable D T c.
Proof. intros [_ ?]. by left. Qed.

(** The row of a new command. *)
Lemma at_store_command T D existing q cmd now :
  (∀ row, existing = Some row → get_row dp_proposal_id (rq_proposal_id q) (x_deployments T) = Some row
     ∧ cm_deployment_id cmd = dp_deployment_id row
     ∧ snapshot_of_command (dp_command row) = snapshot_of_command cmd) →
  (existing = None → get_row dp_proposal_id (rq_proposal_id q) (x_deployments T) = None) →
  cm_company_id cmd = rq_company_id q → cm_proposal_id cmd = rq_proposal_id q →
  triple (at_ T D) (store_command existing q cmd now)
    (λ _ c, ∃ T', prepared T q cmd T' ∧ at_ T' D c) (same_durable D T).
Proof.
  intros Hold Hnew Hco Hp. unfold store_command. destruct existing as [row|].
  - destruct (Hold row eq_refl) as (Hg & Hd & Hs).
    eapply triple_conseq; [apply (at_update T D (same_durable D T))|done| |done].
    intros [] c Hc. eexists. split; [by eapply prepared_next|done].
  - eapply triple_know; [apply at_in_tables|]. intros taken ->.
    eapply triple_step; [apply at_in_control, at_same_durable|]. intros known.
    eapply triple_know; [apply triple_raise_if, at_same_durable|].
    intros [] [Ht Hk]%orb_false_iff. apply bool_decide_eq_false in Ht.
    apply triple_modify. intros c [HT HD]. eexists. split; [|split; [|exact HD]].
    + eapply (prepared_first _ _ _ {| dp_deployment_id := cm_deployment_id cmd |}); by try done; apply Hnew.
    + unfold set_deployments. cbn. by rewrite HT.
Qed.

Lemma at_issue T D q s proposal report existing override actor now :
  snapshot_of_request q (sn_evaluation_hash s) = s →
  (∀ row, existing = Some row → get_row dp_proposal_id (rq_proposal_id q) (x_deployments T) = Some row
     ∧ snapshot_of_command (dp_command row) = s) →
  (existing = None → get_row dp_proposal_id (rq_proposal_id q) (x_deployments T) = None) →
  triple (at_ T D) (issue q s proposal report existing override actor now)
    (λ cmd c, ∃ T', prepared T q cmd T' ∧ at_ T' D c) (same_durable D T).
Proof.
  intros Hs Hold Hnew. unfold issue.
  eapply triple_know; [apply triple_lift, at_same_durable|]. intros _ _.
  eapply (triple_know _ (λ dep, ∀ row, existing = Some row → dep = dp_deployment_id row)).
  { destruct existing as [row|].
    - apply triple_ret. split; [|done]. by intros ? [= ->].
    - destruct (truthy override); [by apply triple_ret|].
      eapply triple_step; [apply at_in_control, at_same_durable|]. intros u. by apply triple_ret. }
  intros dep Hdep.
  eapply triple_step; [eapply triple_conseq; [apply at_granted|done|done|done]|]. intros approval.
  eapply triple_step; [apply at_in_control, at_same_durable|]. intros u.
  eapply triple_know; [apply triple_raise_if, at_same_durable|]. intros _ _. cbv zeta.
  set (cmd := new_command _ _ _ _ _ _).
  assert (snapshot_of_command cmd = s) as Hcs by (by destruct s).
  eapply triple_bind; [apply (at_store_command T D)|].
  - intros row Hr. destruct (Hold row Hr) as [Hg Hrs]. split; [done|]. split; [by apply Hdep|congruence].
  - done.
  - unfold cmd. cbn. by rewrite <- Hs.
  - unfold cmd. cbn. by rewrite <- Hs.
  - intros []. apply triple_exists. intros T' HT'.
    eapply triple_step; [apply at_audit, at_same_durable|]. intros _. apply triple_ret. eauto.
Qed.

Lemma at_prepare T D q actor override :
  triple (at_ T D) (prepare q actor override)
    (λ cmd c, ∃ T', prepared T q cmd T' ∧ at_ T' D c) (same_durable D T).
Proof.
  unfold prepare.
  eapply triple_step; [apply at_in_control, at_same_durable|]. intros now.
  eapply triple_step; [apply at_in_control, at_same_durable|]. intros proposal_.
  eapply triple_know; [apply at_in_tables|]. intros report_ ->.
  destruct proposal_ as [proposal|]; [|apply triple_raise, at_same_durable].
  destruct (get_row _ _ _) as [report|]; [|apply triple_raise, at_same_durable].
  eapply triple_know; [apply triple_raise_if, at_same_durable|]. intros _ _.
  eapply triple_know; [apply at_in_tables|]. intros existing ->.
  eapply triple_know; [apply triple_lift, at_same_durable|]. intros h _. cbv zeta.
  eapply triple_know; [apply triple_raise_if, at_same_durable|]. intros [] Hf.
  destruct (get_row dp_proposal_id _ _) as [row|] eqn:Hrow.
  - apply negb_false_iff, bool_decide_eq_true in Hf.
    destruct (_ && _) eqn:Hp.
    + apply andb_true_iff in Hp as [_ Hp]. apply bool_decide_eq_true in Hp.
      eapply triple_step; [apply at_in_control, at_same_durable|]. intros d.
      eapply triple_conseq; [apply triple_lift, at_same_durable|done| |done].
      intros cmd c [Hr Hc]. exists T. split; [|done].
      apply get_row_Some in Hrow as [Hin Hpid]. unfold resend in Hr. inv_bind.
      unfold snapshot_of_command, snapshot_of_request in Hf. injection Hf as Hco Hp' _.
      by eapply prepared_again.
    + apply at_issue; [done| |done]. intros ? [= <-]. by split.
  - apply at_issue; [done|done|done].
Qed.

(** ** Recovery *)

(** The last acknowledged state is back, or the row is gone. *)
Inductive restored (T : DeploymentTables) (row : EvolutionDeployment) : DeploymentTables → Prop :=
  | restored_none :
      dp_acknowledgement row = None → cm_action (dp_command row) = ReleaseAction_SHADOW →
      restored T row {| x_deployments := filter (λ r, dp_deployment_id r ≠ dp_deployment_id row) (x_deployments T);
                        x_reports := x_reports T |}
  | restored_state r now :
      dp_acknowledgement row = Some r → rr_state r ≠ ReleaseState_ROLLED_BACK →
      restored T row (update_row_of T (dp_deployment_id row)
                        (with_deployment_state (Reached (rr_state r)) now)).

Lemma find_deployment_Some company proposal T row :
  find_deployment company proposal T = Some row →
  row ∈ x_deployments T ∧ dp_company_id row = company ∧ dp_proposal_id row = proposal.
Proof.
  intros H%head_Some_elem_of. by apply list_elem_of_filter in H as [[? ?] ?].
Qed.

Lemma at_restore T D row now :
  triple (at_ T D) (restore_acknowledged row now)
    (λ _ c, ∃ T', restored T row T' ∧ at_ T' D c) (λ c, c_durable c = D).
Proof.
  assert (∀ c, at_ T D c → c_durable c = D) as Hx by (by intros ? [_ ?]).
  unfold restore_acknowledged. destruct (dp_acknowledgement row) as [r|] eqn:Hr.
  - eapply triple_know; [by apply triple_raise_if|]. intros [] Hst%bool_decide_eq_false.
    eapply triple_conseq; [apply (at_update T D (λ c, c_durable c = D))|done| |done].
    intros [] c Hc. eexists. split; [by eapply restored_state|done].
  - eapply triple_know; [by apply triple_raise_if|]. intros [] Hst%negb_false_iff%bool_decide_eq_true.
    apply triple_modify. intros c [HT HD]. eexists. split; [by apply restored_none|]. split; [|done].
    unfold set_deployments. cbn. by rewrite HT.
Qed.

Lemma holds_command_Ok row c :
  holds_command row c = Ok true →
  dp_state row = Pending ∧ cm_command_id (dp_command row) = cm_command_id c
  ∧ canonical_hash (command_dump (dp_command row)) = canonical_hash (command_dump c).
Proof.
  unfold holds_command. destruct (_ || _) eqn:Hb; [done|].
  apply orb_false_iff in Hb as [H1%negb_false_iff%bool_decide_eq_true H2%negb_false_iff%bool_decide_eq_true].
  intros H. inv_bind. apply bool_decide_eq_true in H. split_and!; congruence.
Qed.

(** What recovery may commit: nothing, or the restored row when the new command
    still needs an approval. *)
Definition recovered (T : DeploymentTables) (c : SkillReleaseCommand) (row : EvolutionDeployment)
    (T' : DeploymentTables) : Prop :=
  row ∈ x_deployments T ∧ dp_company_id row = cm_company_id c ∧ dp_proposal_id row = cm_proposal_id c
  ∧ holds_command row c = Ok true ∧ restored T row T'.

Lemma at_recover T D c actor :
  triple (at_ T D) (recover_expired_pending c actor)
    (λ cmd x, ∃ row T1 T', recovered T c row T1
       ∧ prepared T1 (request_of_command (dp_command row)) cmd T' ∧ at_ T' D x)
    (λ x, c_durable x = D ∨ ∃ row T1, recovered T c row T1 ∧ c_durable x = T1).
Proof.
  set (X := λ x, c_durable x = D ∨ ∃ row T1, recovered T c row T1 ∧ c_durable x = T1).
  assert (∀ x, at_ T D x → X x) as Hx by (intros ? [_ ?]; by left).
  unfold recover_expired_pending.
  eapply triple_step; [by apply at_in_control|]. intros proposal_.
  eapply triple_know; [apply at_in_tables|]. intros row_ ->.
  destruct proposal_ as [proposal|]; [|by apply triple_raise].
  destruct (find_deployment _ _ _) as [row|] eqn:Hrow; [|by apply triple_raise].
  apply find_deployment_Some in Hrow as (Hin & Hco & Hp). cbv zeta.
  eapply triple_know; [by apply triple_lift|]. intros same Hsame.
  eapply triple_know; [by apply triple_raise_if|]. intros [] ->%negb_false_iff.
  eapply triple_step; [by apply at_in_control|]. intros now.
  eapply triple_know; [by apply triple_raise_if|]. intros [] _.
  eapply triple_know; [by apply triple_lift|]. intros h _.
  eapply triple_step; [by apply at_audit|]. intros _.
  eapply triple_bind; [eapply triple_conseq; [apply at_restore|done|done|]; by left|].
  intros []. apply triple_exists. intros T1 HT1.
  assert (recovered T c row T1) as Hrec by done.
  eapply triple_conseq; [apply at_prepare|done| |].
  - intros cmd x (T' & HT' & Hat). eauto 10.
  - intros x [?|?]; [by left|right; eauto].
Qed.

(** ** Acknowledgement *)
Inductive acknowledged (T : DeploymentTables) (c : SkillReleaseCommand) (r : release_response)
    : DeploymentTables → Prop :=
  | acknowledged_row row now :
      row ∈ x_deployments T → dp_proposal_id row = cm_proposal_id c →
      dp_deployment_id row = cm_deployment_id c → holds_command row c = Ok true →
      rr_state r = target_state (cm_action c) → rr_deployment_id r = cm_deployment_id c →
      acknowledged T c r (update_row_of T (dp_deployment_id row)
                            (with_acknowledgement (target_state (cm_action c)) r now)).

Lemma at_acknowledge T D c r actor :
  triple (at_ T D) (acknowledge c r actor)
    (λ _ x, ∃ T', acknowledged T c r T' ∧ at_ T' D x) (λ x, c_durable x = D).
Proof.
  assert (∀ T' x, at_ T' D x → c_durable x = D) as Hx by (by intros ? ? [_ ?]).
  unfold acknowledge. cbv zeta.
  eapply triple_know; [apply triple_raise_if, Hx|]. intros [] [H1 H2]%orb_false_iff.
  apply negb_false_iff, bool_decide_eq_true in H1. apply negb_false_iff, bool_decide_eq_true in H2.
  eapply triple_step; [apply at_in_control, Hx|]. intros proposal_.
  eapply triple_know; [apply at_in_tables|]. intros row_ ->.
  destruct proposal_ as [proposal|]; [|apply triple_raise, Hx].
  destruct (head _) as [row|] eqn:Hrow; [|apply triple_raise, Hx].
  apply head_Some_elem_of, list_elem_of_filter in Hrow as [(Hco & Hp & Hd) Hin].
  eapply triple_know; [apply triple_lift, Hx|]. intros same Hsame.
  eapply triple_know; [apply triple_raise_if, Hx|]. intros [] ->%negb_false_iff.
  eapply triple_step; [apply at_in_control, Hx|]. intros now.
  eapply triple_bind; [apply at_update|]. intros [].
  eapply triple_step; [apply at_in_control, Hx|]. intros moved.
  eapply triple_step; [apply at_in_control, Hx|]. intros _.
  eapply triple_conseq; [apply at_audit, Hx|done| |done].
  intros [] x Hat. eexists. split; [|exact Hat]. by apply acknowledged_row.
Qed.

(** ** Evaluations *)

(** A report of the batches it was made of, which were comparable. *)
Record report_made (r : EvolutionEvaluationReport) (proposal : string) (baseline candidate : EvaluationBatch)
    (policy : EvaluationPolicy) : Prop := {
  rm_proposal : rp_proposal_id r = proposal;
  rm_baseline : rp_baseline_batch r = baseline;
  rm_candidate : rp_candidate_batch r = candidate;
  rm_hash_b : _content_hash (batch_dump baseline) = Ok (rp_baseline_batch_hash r);
  rm_hash_c : _content_hash (batch_dump candidate) = Ok (rp_candidate_batch_hash r);
  rm_comparison : rp_comparison_report r = compare_evaluations baseline candidate policy;
  rm_comparable : ∀ x, x ∈ cp_reasons (rp_comparison_report r) → x ∉ incompatible }.

Definition with_report (T : DeploymentTables) (r : EvolutionEvaluationReport) : DeploymentTables :=
  {| x_deployments := x_deployments T; x_reports := x_reports T ++ [r] |}.

Lemma at_create_report T D r :
  triple (at_ T D) (create_evaluation_report r)
    (λ r' x, r' = r ∧ rp_evaluation_report_id r ∉ rp_evaluation_report_id <$> x_reports T
       ∧ at_ (with_report T r) D x) (λ x, c_durable x = D).
Proof.
  assert (∀ T' x, at_ T' D x → c_durable x = D) as Hx by (by intros ? ? [_ ?]).
  unfold create_evaluation_report. eapply triple_know; [apply at_in_tables|]. intros taken ->.
  eapply triple_step; [apply at_in_control, Hx|]. intros known.
  eapply triple_know; [apply triple_raise_if, Hx|]. intros [] [Ht _]%orb_false_iff.
  apply bool_decide_eq_false in Ht.
  eapply triple_bind with (R := λ _, at_ (with_report T r) D).
  - apply triple_modify. intros x [HT HD]. split; [|done]. cbn. by rewrite HT.
  - intros []. by apply triple_ret.
Qed.

Lemma at_record T D company p b c policy actor :
  triple (at_ T D) (record_evaluation_comparison company p b c policy actor)
    (λ r x, report_made r p b c policy
       ∧ rp_evaluation_report_id r ∉ rp_evaluation_report_id <$> x_reports T
       ∧ at_ (with_report T r) D x)
    (λ x, c_durable x = D).
Proof.
  assert (∀ T' x, at_ T' D x → c_durable x = D) as Hx by (by intros ? ? [_ ?]).
  unfold record_evaluation_comparison. eapply triple_step; [apply at_in_control, Hx|]. intros proposal_.
  eapply triple_know; [apply triple_raise_if, Hx|]. intros [] _. cbv zeta.
  eapply triple_know; [apply triple_raise_if, Hx|]. intros [] Hr%negb_false_iff%bool_decide_eq_true.
  eapply triple_step; [apply at_in_control, Hx|]. intros report_id.
  eapply triple_know; [apply triple_lift, Hx|]. intros hb Hb.
  eapply triple_know; [apply triple_lift, Hx|]. intros hc Hc.
  eapply triple_step; [apply at_in_control, Hx|]. intros now.
  set (r := {| rp_evaluation_report_id := report_id |}).
  assert (report_made r p b c policy) as Hmade.
  { split; try done. cbn. intros x Hin Hin'. eapply not_elem_of_nil. rewrite <- Hr.
    by apply list_elem_of_filter. }
  eapply triple_bind; [apply (at_create_report T D r)|]. intros r'. cbn beta.
  intros x o x' (-> & Hfresh & Hat). revert x o x' Hat.
  eapply triple_step; [apply at_in_control, Hx|]. intros ev.
  eapply triple_step; [apply at_in_control, Hx|]. intros _. by apply triple_ret.
Qed.

Lemma at_pending T D company proposal :
  triple (at_ T D) (pending company proposal)
    (λ c x, at_ T D x ∧ ∃ row, find_deployment company proposal T = Some row ∧ dp_state row = Pending
       ∧ dp_command row = c) (λ x, c_durable x = D).
Proof.
  unfold pending. eapply triple_know; [apply at_in_tables|]. intros row_ ->.
  destruct (find_deployment _ _ _) as [row|]; [|by apply triple_raise; intros ? [_ ?]].
  case_decide; [apply triple_ret; eauto|]. by apply triple_raise; intros ? [_ ?].
Qed.
End triples.
