(* ===== verification/ReleaseProtocol.v ===== *)
(** * Releases across the network

    The routes of [api_routes/evolution_releases.py] with the client of
    [evolution_deployment_gateway.py]: the control plane stores a command, sends
    it to the evolution runtime and acknowledges the answer, over a network that
    may lose a request or its answer.  Both processes have the settings of one
    deployment.  Authentication and the parsing of requests are left out. *)

From S2P Require Import Prelude PyNum PyTime PyValue Store SkillRelease ReleaseStore.
From S2P Require Import EvolutionRuntime SkillExecution EvolutionHistory EvaluationBatch Deployment.

(** ** Two processes *)
Record World := { w_control : Control; w_runtime : Runtime; w_calls : nat }.

Definition on_control {A} (m : M Control A) : M World A := λ w,
  let '(r, c) := m (w_control w) in
  (r, {| w_control := c; w_runtime := w_runtime w; w_calls := w_calls w |}).

(** A unit of work: committed when it returns, rolled back when it raises. *)
Definition transaction {A} (m : M Control A) : M Control A := λ c,
  match m c with
  | (Ok a, c') => (Ok a, (commit c').2)
  | (Raise e, c') => (Raise e, discard c')
  end.

(** What becomes of a call. *)
Inductive exchange := Delivered | RequestLost | ResponseLost.

Definition transport_error : exn := Exn "TransportError" "evolution_runtime".
Definition status_error : exn := Exn "HTTPStatusError" "evolution_runtime".

(** The error a route answers with. *)
Definition route_error (e : exn) : exn :=
  match e with
  | ExecutionDenied _ _ => e
  | _ => Exn "HTTPException" "evolution_release_pending_reconciliation"
  end.

Definition in_route {A} (m : M World A) : M World A := λ w,
  match m w with
  | (Ok a, w') => (Ok a, w')
  | (Raise e, w') => (Raise (route_error e), w')
  end.

Section protocol.
Context {E : ReleaseEnv}.

(** The answer of a receipt, when it is the one of this command. *)
Definition receipt_answer (c : SkillReleaseCommand) (k : EvolutionSkillReleaseCommand)
    : result release_response :=
  digest ← canonical_hash (command_dump c);
  _ ← raise_if (negb (bool_decide (ck_command_id k = cm_command_id c))
                || negb (bool_decide (ck_deployment_id k = cm_deployment_id c))
                || negb (bool_decide (ck_payload_hash k = digest)))
        (value_error "invalid_evolution_reconciliation");
  Ok (ck_response k).

(** What a delivered call does at the receiver. *)
Definition deliver (c : SkillReleaseCommand) (signature : string) (s : Runtime)
    : result release_response * Runtime :=
  match receive c signature s with
  | (Ok r, s') =>
      (if decide (rr_deployment_id r = cm_deployment_id c) then Ok r
       else Raise (value_error "invalid_evolution_acknowledgement"), s')
  | (Raise _, s') => (Raise status_error, s')
  end.

Section network.
Context (net : nat → exchange).

Definition http {A} (m : M Runtime A) : M World A := λ w,
  let next s := {| w_control := w_control w; w_runtime := s; w_calls := S (w_calls w) |} in
  match net (w_calls w) with
  | Delivered => let '(r, s) := m (w_runtime w) in (r, next s)
  | RequestLost => (Raise transport_error, next (w_runtime w))
  | ResponseLost => (Raise transport_error, next (m (w_runtime w)).2)
  end.

Definition gateway_lookup (c : SkillReleaseCommand) : M World (option release_response) :=
  k_ ← http (getsM (get_command (cm_command_id c)));
  match k_ with
  | None => mret None
  | Some k => r ← liftM (receipt_answer c k); mret (Some r)
  end.

Definition gateway_apply (c : SkillReleaseCommand) : M World release_response :=
  signature ← liftM (sign_command c evolution_deployment_signing_key);
  http (deliver c signature).

(** The answer already given to the command, or the one it gets now. *)
Definition settle_answer (c : SkillReleaseCommand) : M World release_response :=
  known ← gateway_lookup c;
  match known with Some r => mret r | None => gateway_apply c end.

Definition finish (c : SkillReleaseCommand) (r : release_response) (actor : string)
    : M World release_response :=
  _ ← on_control (transaction (acknowledge c r actor)); mret r.

Definition release (q : release_request) (actor : string) : M World release_response :=
  in_route (c ← on_control (transaction (prepare q actor None));
            r ← settle_answer c;
            finish c r actor).

Definition reconcile (company proposal actor : string) : M World release_response :=
  in_route (c ← on_control (transaction (pending company proposal));
            known ← gateway_lookup c;
            match known with
            | None => raiseM (ExecutionDenied "release_not_applied_pending_review" 409)
            | Some r => finish c r actor
            end).

Definition recover_expired (company proposal actor : string) : M World release_response :=
  in_route (c ← on_control (transaction (pending company proposal));
            known ← gateway_lookup c;
            match known with
            | Some r => finish c r actor
            | None =>
                replacement ← on_control (transaction (recover_expired_pending c actor));
                r ← settle_answer replacement;
                finish replacement r actor
            end).
End network.

(** ** Any interleaving

    Recorded evaluations, transactions and deliveries of any number of concurrent requests: a command
    may be delivered late, twice or never, and an answer may come late or never.
    [n_issued] and [n_answers] are the messages that exist. *)
Record Net := {
  n_control : Control; n_runtime : Runtime; n_issued : list SkillReleaseCommand;
  n_answers : list (SkillReleaseCommand * release_response) }.

Definition issued_by (r : result SkillReleaseCommand) (l : list SkillReleaseCommand) :=
  match r with Ok c => c :: l | Raise _ => l end.

Inductive protocol_step : Net → Net → Prop :=
  | step_evaluate n company proposal baseline candidate policy actor r c :
      batch_valid baseline = true → batch_valid candidate = true →
      transaction (record_evaluation_comparison company proposal baseline candidate policy actor)
        (n_control n) = (r, c) →
      protocol_step n {| n_control := c; n_runtime := n_runtime n;
                         n_issued := n_issued n; n_answers := n_answers n |}
  | step_prepare n q actor r c :
      transaction (prepare q actor None) (n_control n) = (r, c) →
      protocol_step n {| n_control := c; n_runtime := n_runtime n;
                         n_issued := issued_by r (n_issued n); n_answers := n_answers n |}
  | step_recover n old actor r c :
      old ∈ n_issued n → transaction (recover_expired_pending old actor) (n_control n) = (r, c) →
      protocol_step n {| n_control := c; n_runtime := n_runtime n;
                         n_issued := issued_by r (n_issued n); n_answers := n_answers n |}
  | step_deliver n m sig r s :
      m ∈ n_issued n → deliver m sig (n_runtime n) = (r, s) →
      protocol_step n {| n_control := n_control n; n_runtime := s; n_issued := n_issued n;
        n_answers := match r with Ok a => (m, a) :: n_answers n | Raise _ => n_answers n end |}
  | step_lookup n m k a :
      m ∈ n_issued n → get_command (cm_command_id m) (n_runtime n) = Some k → receipt_answer m k = Ok a →
      protocol_step n {| n_control := n_control n; n_runtime := n_runtime n; n_issued := n_issued n;
                         n_answers := (m, a) :: n_answers n |}
  | step_acknowledge n m a actor r c :
      (m, a) ∈ n_answers n → transaction (acknowledge m a actor) (n_control n) = (r, c) →
      protocol_step n {| n_control := c; n_runtime := n_runtime n; n_issued := n_issued n;
                         n_answers := n_answers n |}
  | step_runtime n o :
      protocol_step n {| n_control := n_control n; n_runtime := (run_op o (n_runtime n)).2;
                         n_issued := n_issued n; n_answers := n_answers n |}
  | step_session n s :
      protocol_step n {| n_control := {| c_session := s; c_tables := c_tables (n_control n);
                                         c_durable := c_durable (n_control n) |};
                         n_runtime := n_runtime n; n_issued := n_issued n; n_answers := n_answers n |}.
End protocol.
