(* ===== verification/DeploymentTheorems.v ===== *)
(** * Releases of the control plane and of the runtime agree

    In every interleaving of the protocol, with any loss, delay and duplication
    of messages, the control plane records a state of a release only after the
    receiver has reached it; the routes are runs of the protocol; and losing an
    answer is repaired by reconciliation. *)

From S2P Require Import Prelude PyNum PyTime PyValue Models EvolutionProposal GovernancePolicies.
From S2P Require Import Store Proposals SkillRelease ReleaseStore EvaluationBatch.
From S2P Require Import EvolutionRuntime SkillExecution ReleaseInvariants.
From S2P Require Import EvolutionHistory ReleaseTheorems.
From S2P Require Import Deployment DeploymentTriples ReleaseProtocol.

(** ** The rows *)

(** An answer that the receiver keeps a receipt of. *)
Definition receipted (log : list EvolutionSkillReleaseCommand) (r : release_response) : Prop :=
  ∃ k, k ∈ log ∧ ck_response k = r.

Record row_ok (log : list EvolutionSkillReleaseCommand) (issued : list SkillReleaseCommand)
    (row : EvolutionDeployment) : Prop := {
  dk_command : dp_command row ∈ issued;
  dk_company : dp_company_id row = cm_company_id (dp_command row);
  dk_proposal : dp_proposal_id row = cm_proposal_id (dp_command row);
  dk_deployment : dp_deployment_id row = cm_deployment_id (dp_command row);
  dk_reached : ∀ st, dp_state row = Reached st → ∃ r, dp_acknowledgement row = Some r ∧ rr_state r = st;
  dk_received : ∀ r, dp_acknowledgement row = Some r →
    rr_deployment_id r = dp_deployment_id row ∧ receipted log r }.

Record tables_ok (log : list EvolutionSkillReleaseCommand) (issued : list SkillReleaseCommand)
    (T : DeploymentTables) : Prop := {
  to_deployments : NoDup (dp_deployment_id <$> x_deployments T);
  to_proposals : NoDup (dp_proposal_id <$> x_deployments T);
  to_rows : ∀ row, row ∈ x_deployments T → row_ok log issued row }.

Lemma tables_ok_mono log log' issued issued' T :
  log `prefix_of` log' → issued ⊆ issued' → tables_ok log issued T → tables_ok log' issued' T.
Proof.
  intros [k ->] Hi [H1 H2 H3]. split; [done..|]. intros row [R1 R2 R3 R4 R5 R6]%H3.
  split; try done; [by apply Hi|]. intros r Hr. destruct (R6 r Hr) as (? & x & Hx & ?). split; [done|].
  exists x. split; [|done]. apply elem_of_app. by left.
Qed.

(** A change of one row in place. *)
Lemma tables_ok_update log issued T row f :
  row ∈ x_deployments T → (∀ r, dp_deployment_id (f r) = dp_deployment_id r) →
  (∀ r, dp_proposal_id (f r) = dp_proposal_id r) → row_ok log issued (f row) →
  tables_ok log issued T → tables_ok log issued (update_row_of T (dp_deployment_id row) f).
Proof.
  intros Hin Hd Hp Hrow [H1 H2 H3].
  assert (∀ {A} (g : EvolutionDeployment → A), (∀ r, g (f r) = g r) →
    g <$> update_row dp_deployment_id (dp_deployment_id row) f (x_deployments T) = g <$> x_deployments T) as Hg.
  { intros A g Hf. apply (keys_map g). intros r. by case_decide. }
  split; cbn; [by rewrite Hg..|].
  intros r' (r & -> & Hr)%list_elem_of_fmap. case_decide as Hid; [|by apply H3].
  by rewrite (get_row_NoDup dp_deployment_id _ r row H1 Hr Hin Hid).
Qed.

Lemma prepared_ok log issued T q cmd T' :
  prepared T q cmd T' → tables_ok log issued T → tables_ok log (cmd :: issued) T'.
Proof.
  intros Hp Hok. assert (tables_ok log (cmd :: issued) T) as Hok'.
  { eapply tables_ok_mono; [done| |done]. set_solver. }
  destruct Hp as [row Hq1 Hq2 Hin Hpid Hst Hc|row now Hq1 Hq2 Hget Hd Hs|row Hq1 Hq2 Hget Hfresh Hd Hco Hp Hpq Hst Hc Ha].
  - done.
  - apply get_row_Some in Hget as [Hin Hpid]. destruct (to_rows _ _ _ Hok row Hin) as [R1 R2 R3 R4 R5 R6].
    unfold snapshot_of_command in Hs. injection Hs as S1 S2 _.
    apply tables_ok_update; try done. split; cbn; [by left|congruence..| |done]. done.
  - destruct Hok' as [H1 H2 H3]. split; cbn.
    + rewrite fmap_app. apply NoDup_app. split; [done|]. split; [|apply NoDup_singleton]. set_solver.
    + rewrite fmap_app. apply NoDup_app. split; [done|]. split; [|apply NoDup_singleton].
      intros x (r & -> & Hr)%list_elem_of_fmap Hx. apply list_elem_of_singleton in Hx.
      apply (get_row_None _ _ _ Hget r Hr). congruence.
    + intros r [Hr|Hr]%elem_of_app; [by apply H3|]. apply list_elem_of_singleton in Hr as ->.
      rewrite <- Hc in Hco, Hp, Hd. split; try done; [rewrite Hc; left| |]; congruence.
Qed.

Lemma restored_ok log issued T row T' :
  row ∈ x_deployments T → restored T row T' → tables_ok log issued T → tables_ok log issued T'.
Proof.
  intros Hin Hr Hok. destruct Hr as [Ha Hc|r now Ha Hst].
  - destruct Hok as [H1 H2 H3].
    assert (∀ {A} (g : EvolutionDeployment → A), NoDup (g <$> x_deployments T) →
      NoDup (g <$> filter (λ r, dp_deployment_id r ≠ dp_deployment_id row) (x_deployments T))) as Hf.
    { intros A g Hnd. eapply sublist_NoDup; [exact Hnd|]. apply fmap_sublist, sublist_filter. }
    split; cbn; [by apply Hf..|]. intros r [_ ?]%list_elem_of_filter. by apply H3.
  - destruct (to_rows _ _ _ Hok row Hin) as [R1 R2 R3 R4 R5 R6].
    apply tables_ok_update; try done. split; try done. cbn. intros st [= <-]. eauto.
Qed.

(** ** The protocol *)
Section protocol.
Context {E : ReleaseEnv}.

Lemma acknowledged_ok log issued T c r T' :
  receipted log r → acknowledged T c r T' → tables_ok log issued T → tables_ok log issued T'.
Proof.
  intros Hr Ha Hok. destruct Ha as [row now Hin Hp Hd Hh Hst Hrd].
  destruct (to_rows _ _ _ Hok row Hin) as [R1 R2 R3 R4 R5 R6].
  apply tables_ok_update; try done. split; try done; cbn.
  - intros st [= <-]. eauto.
  - intros ? [= <-]. split; [congruence|done].
Qed.

Record net_ok (n : Net) : Prop := {
  no_tables : tables_ok (e_commands (n_runtime n)) (n_issued n) (c_tables (n_control n));
  no_settled : c_durable (n_control n) = c_tables (n_control n);
  no_runtime : runtime_ok [] (n_runtime n);
  no_answers : ∀ m a, (m, a) ∈ n_answers n → receipted (e_commands (n_runtime n)) a }.

(** What a unit of work leaves. *)
Lemma transaction_triple {A} T D (m : M Control A) (Q : A → Control → Prop) X :
  triple (at_ T D) m Q X →
  triple (at_ T D) (transaction m)
    (λ a c, ∃ c', Q a c' ∧ c_tables c = c_tables c' ∧ c_durable c = c_tables c')
    (λ c, ∃ c', X c' ∧ c_tables c = c_durable c' ∧ c_durable c = c_durable c').
Proof.
  intros Hm c r c' Hc H. unfold transaction in H. destruct (m c) as [[a|e] c1] eqn:Hmc; injection H as <- <-.
  - exists c1. split; [by apply (Hm c (Ok a) c1)|done].
  - exists c1. split; [by apply (Hm c (Raise e) c1)|done].
Qed.

Lemma receive_op c sig s : (run_op (Receive c sig) s).2 = (receive c sig s).2.
Proof. cbn. unfold ignore, mbind, M_bind. by destruct (receive c sig s) as [[]]. Qed.

Lemma run_op_grows o s :
  runtime_ok [] s → runtime_ok [] (run_op o s).2 ∧ e_commands s `prefix_of` e_commands (run_op o s).2.
Proof.
  intros Hs. destruct (run_op o s) as [r s'] eqn:Ho. split; [by eapply run_op_ok|].
  assert (runtime_ok (e_commands s) s') as [_ _ ?]; [|done].
  eapply run_op_ok; [exact Ho|]. by destruct Hs; split.
Qed.

Lemma deliver_receipt c sig s r s' :
  deliver c sig s = (Ok r, s') → receive c sig s = (Ok r, s') ∧ receipted (e_commands s') r.
Proof.
  unfold deliver. destruct (receive c sig s) as [[a|e] s1] eqn:Hr; [|done]. case_decide; [|done].
  intros [= <- <-]. split; [done|]. apply receive_Ok in Hr as (_ & s2 & _ & _ & Hap).
  apply apply_receipt in Hap as (h & row & _ & _ & Hrow & _ & <-). apply get_row_Some in Hrow as [Hin _].
  by exists row.
Qed.

Lemma deliver_op c sig s : (deliver c sig s).2 = (run_op (Receive c sig) s).2.
Proof. rewrite receive_op. unfold deliver. by destruct (receive c sig s) as [[]]. Qed.

Lemma protocol_step_ok n n' : protocol_step n n' → net_ok n → net_ok n'.
Proof.
  intros Hstep [H1 H2 H3 H4].
  destruct Hstep as [n co p b ca pol actor r c Hb Hca Hr|n q actor r c Hr|n old actor r c Ho Hr|n m sig r s Hm Hr|n m k a Hm Hk Ha|n m a actor r c Hma Hr|n o|n s].
  - apply (transaction_triple (c_tables (n_control n)) (c_durable (n_control n)) _ _ _
      (at_record _ _ co p b ca pol actor)) in Hr; [|done].
    destruct r as [x|e]; destruct Hr as (c' & Hc' & Ht & Hd).
    + destruct Hc' as (_ & _ & HTc & _). split; cbn; try done; [|congruence].
      rewrite Ht, HTc. by destruct H1.
    + split; cbn; try done; [|congruence]. by rewrite Ht, Hc', H2.
  - apply (transaction_triple (c_tables (n_control n)) (c_durable (n_control n)) _ _ _ (at_prepare _ _ q actor None)) in Hr; [|done].
    destruct r as [cmd|e]; destruct Hr as (c' & Hc' & Ht & Hd).
    + destruct Hc' as (T' & HT' & [HTc _]). split; cbn; try done; [|congruence].
      rewrite Ht, HTc. by eapply prepared_ok.
    + split; cbn; try done; [|congruence]. rewrite Ht. by destruct Hc' as [->| ->]; rewrite ?H2.
  - apply (transaction_triple (c_tables (n_control n)) (c_durable (n_control n)) _ _ _ (at_recover _ _ old actor)) in Hr; [|done].
    destruct r as [cmd|e]; destruct Hr as (c' & Hc' & Ht & Hd).
    + destruct Hc' as (row & T1 & T' & (Hin & _ & _ & _ & Hres) & Hprep & [HTc _]). split; cbn; try done; [|congruence].
      rewrite Ht, HTc. eapply prepared_ok; [done|]. by eapply restored_ok.
    + split; cbn; try done; [|congruence]. rewrite Ht. destruct Hc' as [->|(row & T1 & (Hin & _ & _ & _ & Hres) & ->)].
      * by rewrite H2.
      * by eapply restored_ok.
  - pose proof (deliver_op m sig (n_runtime n)) as Hop. rewrite Hr in Hop. cbn [snd] in Hop.
    destruct (run_op_grows (Receive m sig) (n_runtime n) H3) as [G1 G2]. rewrite <- Hop in G1, G2.
    split; cbn; try done; [by eapply tables_ok_mono|].
    assert (∀ m a, (m, a) ∈ n_answers n → receipted (e_commands s) a) as Hold.
    { intros x a (k & Hk & ?)%H4. destruct G2 as [l ->]. exists k. split; [|done]. apply elem_of_app. by left. }
    destruct r as [a|e]; [|done]. apply deliver_receipt in Hr as [_ Hrec].
    intros x b [[= -> ->]|?]%elem_of_cons; [done|by eapply Hold].
  - split; cbn; try done. intros x b [[= -> ->]|?]%elem_of_cons; [|by eapply H4].
    unfold receipt_answer in Ha. inv_bind. unfold get_command in Hk.
    destruct (get_row _ _ _) as [k'|] eqn:Hget; [|done]. destruct (get_release _ _); [|done].
    case_decide; [|done]. injection Hk as ->. apply get_row_Some in Hget as [Hin _]. by exists k.
  - apply (transaction_triple (c_tables (n_control n)) (c_durable (n_control n)) _ _ _ (at_acknowledge _ _ m a actor)) in Hr; [|done].
    destruct r as [u|e]; destruct Hr as (c' & Hc' & Ht & Hd).
    + destruct Hc' as (T' & HT' & [HTc _]). split; cbn; try done; [|congruence].
      rewrite Ht, HTc. eapply acknowledged_ok; [by eapply H4|done|done].
    + split; cbn; try done; [|congruence]. by rewrite Ht, Hc', H2.
  - destruct (run_op_grows o (n_runtime n) H3) as [G1 G2]. split; cbn; try done; [by eapply tables_ok_mono|].
    intros x a (k & Hk & ?)%H4. destruct G2 as [l ->]. exists k. split; [|done]. apply elem_of_app. by left.
  - done.
Qed.

Lemma protocol_run_ok n n' : rtc protocol_step n n' → net_ok n → net_ok n'.
Proof. induction 1; [done|]. intros. by eauto using protocol_step_ok. Qed.

(** C20: the control plane never runs ahead of the runtime.  From an empty
    deployment table, after any interleaving of requests, recoveries,
    deliveries, lookups, acknowledgements and operations of the runtime, with
    messages delayed, repeated or lost, every state that the control plane has
    recorded for a release is the state of an answer of the receiver for this
    very release, of which the receiver keeps a receipt; and a proposal has one
    release. *)
Theorem recorded_states_were_reached n0 n :
  rtc protocol_step n0 n →
  runtime_ok [] (n_runtime n0) → n_answers n0 = [] →
  x_deployments (c_tables (n_control n0)) = [] → c_durable (n_control n0) = c_tables (n_control n0) →
  (∀ row st, row ∈ x_deployments (c_durable (n_control n)) → dp_state row = Reached st →
     ∃ r k, dp_acknowledgement row = Some r ∧ rr_state r = st ∧ rr_deployment_id r = dp_deployment_id row
       ∧ k ∈ e_commands (n_runtime n) ∧ ck_response k = r)
  ∧ ∀ a b, a ∈ x_deployments (c_durable (n_control n)) → b ∈ x_deployments (c_durable (n_control n)) →
      dp_proposal_id a = dp_proposal_id b → a = b.
Proof.
  intros Hrun Hrt Hans Hemp Hset. assert (net_ok n) as [[T1 T2 T3] Hs _ _].
  { eapply protocol_run_ok; [exact Hrun|]. split; [|done..|].
    - split; rewrite Hemp; [constructor..|]. by intros row ?%not_elem_of_nil.
    - rewrite Hans. by intros m a ?%not_elem_of_nil. }
  rewrite Hs. split.
  - intros row st Hin Hst. destruct (T3 row Hin) as [_ _ _ _ R5 R6].
    destruct (R5 st Hst) as (r & Hr & <-). destruct (R6 r Hr) as (Hd & k & Hk & <-). by exists (ck_response k), k.
  - intros a b Ha Hb Hp. by eapply (get_row_NoDup dp_proposal_id).
Qed.

(** ** Routes are runs of the protocol *)
Definition net_of (w : World) (issued : list SkillReleaseCommand)
    (answers : list (SkillReleaseCommand * release_response)) : Net :=
  {| n_control := w_control w; n_runtime := w_runtime w; n_issued := issued; n_answers := answers |}.

Section routes.
Context (net : nat → exchange) (n0 : Net) (Hn0 : net_ok n0).

(** The world is what some run of the protocol leaves, in which [φ] holds of the
    messages. *)
Definition reached (φ : list SkillReleaseCommand → list (SkillReleaseCommand * release_response) → Prop)
    (w : World) : Prop :=
  ∃ issued answers, rtc protocol_step n0 (net_of w issued answers) ∧ φ issued answers.
Definition anywhere : World → Prop := reached (λ _ _, True).

Lemma reached_anywhere φ w : reached φ w → anywhere w.
Proof. intros (i & a & H & _). by exists i, a. Qed.

Lemma rtc_session n w s :
  rtc protocol_step n0 n → n = net_of w (n_issued n) (n_answers n) →
  rtc protocol_step n0 (net_of {| w_control := {| c_session := s; c_tables := c_tables (w_control w);
    c_durable := c_durable (w_control w) |}; w_runtime := w_runtime w; w_calls := w_calls w |}
    (n_issued n) (n_answers n)).
Proof.
  intros H Hn. eapply rtc_r; [exact H|]. pose proof (step_session n s) as Hs. rewrite Hn in Hs at 2 3 4. exact Hs.
Qed.

Lemma reached_pending company proposal :
  triple anywhere (on_control (transaction (pending company proposal)))
    (λ c, reached (λ i _, c ∈ i)) anywhere.
Proof.
  intros w r w' (i & a & Hrun & _) H. unfold on_control, transaction in H.
  destruct (protocol_run_ok _ _ Hrun Hn0) as [[T1 T2 T3] Hset _ _]. cbn in Hset, T3.
  assert (∀ c', c_tables c' = c_tables (w_control w) → c_durable c' = c_tables (w_control w) →
    rtc protocol_step n0 (net_of {| w_control := c'; w_runtime := w_runtime w; w_calls := w_calls w |} i a)) as Hgo.
  { intros [s T D] HT HD. cbn in HT, HD. subst. rewrite <- Hset at 2.
    apply (rtc_session (net_of w i a) w s Hrun). done. }
  destruct (pending company proposal (w_control w)) as [[c|e] c1] eqn:Hp; injection H as <- <-;
    apply (at_pending (c_tables (w_control w)) (c_durable (w_control w))) in Hp; try done.
  - destruct Hp as ([HT HD] & row & Hrow & Hst & <-). exists i, a. split; [by apply Hgo|].
    apply find_deployment_Some in Hrow as (Hin & _ & _). by destruct (T3 row Hin).
  - exists i, a. split; [|done]. apply Hgo; cbn; congruence.
Qed.

Lemma reached_prepare q actor :
  triple anywhere (on_control (transaction (prepare q actor None))) (λ c, reached (λ i _, c ∈ i)) anywhere.
Proof.
  intros w r w' (i & a & Hrun & _) H. unfold on_control in H.
  destruct (transaction (prepare q actor None) (w_control w)) as [r1 c1] eqn:Hp. injection H as <- <-.
  pose proof (step_prepare (net_of w i a) q actor r1 c1 Hp) as Hstep.
  pose proof (rtc_r _ _ _ Hrun Hstep) as Hrun'.
  destruct r1 as [c|e]; [exists (c :: i), a|exists i, a]; (split; [exact Hrun'|]); [left|done].
Qed.

Lemma reached_recover c actor :
  triple (reached (λ i _, c ∈ i)) (on_control (transaction (recover_expired_pending c actor)))
    (λ c, reached (λ i _, c ∈ i)) anywhere.
Proof.
  intros w r w' (i & a & Hrun & Hc) H. unfold on_control in H.
  destruct (transaction (recover_expired_pending c actor) (w_control w)) as [r1 c1] eqn:Hp. injection H as <- <-.
  pose proof (step_recover (net_of w i a) c actor r1 c1 Hc Hp) as Hstep.
  pose proof (rtc_r _ _ _ Hrun Hstep) as Hrun'.
  destruct r1 as [c'|e]; [exists (c' :: i), a|exists i, a]; (split; [exact Hrun'|]); [left|done].
Qed.

Lemma reached_finish c r actor :
  triple (reached (λ _ a, (c, r) ∈ a)) (finish c r actor) (λ _, anywhere) anywhere.
Proof.
  unfold finish. eapply triple_bind with (R := λ _, anywhere); [|intros; by apply triple_ret].
  intros w o w' (i & a & Hrun & Hc) H. unfold on_control in H.
  destruct (transaction (acknowledge c r actor) (w_control w)) as [r1 c1] eqn:Hp. injection H as <- <-.
  pose proof (step_acknowledge (net_of w i a) c r actor r1 c1 Hc Hp) as Hstep.
  pose proof (rtc_r _ _ _ Hrun Hstep) as Hrun'. destruct r1; by exists i, a.
Qed.

Lemma reached_lookup c :
  triple (reached (λ i _, c ∈ i)) (gateway_lookup net c)
    (λ o, reached (λ i a, c ∈ i ∧ ∀ r, o = Some r → (c, r) ∈ a)) anywhere.
Proof.
  intros w o w' (i & a & Hrun & Hc) H. unfold gateway_lookup, mbind, M_bind, http, getsM in H.
  cbv beta zeta in H. destruct (net (w_calls w)); cbv beta iota in H; [|injection H as <- <-; by exists i, a..].
  destruct (get_command (cm_command_id c) (w_runtime w)) as [k|] eqn:Hk.
  - unfold liftM in H. destruct (receipt_answer c k) as [r|e] eqn:Ha; injection H as <- <-; [|by exists i, a].
    pose proof (step_lookup (net_of w i a) c k r Hc Hk Ha) as Hstep.
    exists i, ((c, r) :: a). split; [exact (rtc_r _ _ _ Hrun Hstep)|]. split; [done|].
    intros ? [= <-]. left.
  - injection H as <- <-. by exists i, a.
Qed.

Lemma reached_apply c :
  triple (reached (λ i _, c ∈ i)) (gateway_apply net c) (λ r, reached (λ _ a, (c, r) ∈ a)) anywhere.
Proof.
  intros w o w' (i & a & Hrun & Hc) H. unfold gateway_apply, liftM, mbind, M_bind, http in H.
  destruct (sign_command c _) as [sig|e]; [|injection H as <- <-; by exists i, a].
  destruct (deliver c sig (w_runtime w)) as [r s] eqn:Hd.
  pose proof (step_deliver (net_of w i a) c sig r s Hc Hd) as Hstep.
  pose proof (rtc_r _ _ _ Hrun Hstep) as Hrun'.
  destruct (net (w_calls w)); injection H as <- <-.
  - destruct r as [r|e]; [exists i, ((c, r) :: a)|exists i, a]; (split; [exact Hrun'|]); [left|done].
  - by exists i, a.
  - by eexists _, _.
Qed.

Lemma reached_settle c :
  triple (reached (λ i _, c ∈ i)) (settle_answer net c) (λ r, reached (λ _ a, (c, r) ∈ a)) anywhere.
Proof.
  unfold settle_answer. eapply triple_bind; [apply reached_lookup|]. intros [r|].
  - apply triple_ret. intros w (i & a & Hrun & _ & Hr). exists i, a. split; [done|]. by apply Hr.
  - eapply triple_conseq; [apply reached_apply| |done|done].
    intros w (i & a & Hrun & Hc & _). by exists i, a.
Qed.

Lemma reached_finish_found c r actor :
  triple (reached (λ i a, c ∈ i ∧ ∀ r', Some r = Some r' → (c, r') ∈ a)) (finish c r actor)
    (λ _, anywhere) anywhere.
Proof.
  eapply triple_conseq; [exact (reached_finish c r actor)|..]; try done.
  intros w (i & a & Hrun & _ & Hr). exists i, a. split; [done|]. by apply Hr.
Qed.

Lemma reached_recover_lost c actor :
  triple (reached (λ i a, c ∈ i ∧ ∀ r, None = Some r → (c, r) ∈ a))
    (on_control (transaction (recover_expired_pending c actor))) (λ c, reached (λ i _, c ∈ i)) anywhere.
Proof.
  eapply triple_conseq; [exact (reached_recover c actor)|..]; try done.
  intros w (i & a & Hrun & Hc & _). by exists i, a.
Qed.

Lemma reached_route {A} (m : M World A) :
  triple anywhere m (λ _, anywhere) anywhere → preserves anywhere (in_route m).
Proof.
  intros Hm w r w' H Hw. unfold in_route in H. destruct (m w) as [[x|e] w1] eqn:Hr; injection H as <- <-.
  - by apply (Hm w (Ok x) w1).
  - by apply (Hm w (Raise e) w1).
Qed.
End routes.

(** A request to the control plane. *)
Inductive route_call :=
  | CallRelease (q : release_request) (actor : string)
  | CallReconcile (company proposal actor : string)
  | CallRecover (company proposal actor : string).

Definition serve (net : nat → exchange) (o : route_call) : M World release_response :=
  match o with
  | CallRelease q actor => release net q actor
  | CallReconcile c p actor => reconcile net c p actor
  | CallRecover c p actor => recover_expired net c p actor
  end.

Fixpoint serve_all (net : nat → exchange) (calls : list route_call) (w : World) : World :=
  match calls with [] => w | o :: calls' => serve_all net calls' (serve net o w).2 end.

Lemma serve_reached net n0 o : net_ok n0 → preserves (anywhere n0) (serve net o).
Proof.
  intros Hn0. destruct o as [q actor|c p actor|c p actor]; apply reached_route.
  - eapply triple_bind; [apply reached_prepare|]. intros c.
    eapply triple_bind; [apply reached_settle|]. intros r. apply reached_finish.
  - eapply triple_bind; [by apply reached_pending|]. intros cmd.
    eapply triple_bind; [apply reached_lookup|]. intros [r|].
    + apply reached_finish_found.
    + apply triple_raise, reached_anywhere.
  - eapply triple_bind; [by apply reached_pending|]. intros cmd.
    eapply triple_bind; [apply reached_lookup|]. intros [r|].
    + apply reached_finish_found.
    + eapply triple_bind; [apply reached_recover_lost|]. intros c'.
      eapply triple_bind; [apply reached_settle|]. intros r. apply reached_finish.
Qed.

(** C21: the routes implement the protocol.  Any sequence of release, reconcile
    and recovery requests, over a network that delivers, loses the request or
    loses the answer of each call, is a run of the protocol, whatever each
    request returns or raises. *)
Theorem routes_refine_protocol net calls w issued answers :
  net_ok (net_of w issued answers) →
  ∃ issued' answers', rtc protocol_step (net_of w issued answers)
    (net_of (serve_all net calls w) issued' answers').
Proof.
  intros Hn0. assert (anywhere (net_of w issued answers) w) as Hw by (by exists issued, answers).
  revert Hw. generalize w at 2 4. induction calls as [|o calls IH]; intros w' Hw.
  - destruct Hw as (i & a & H & _). by exists i, a.
  - cbn. apply IH. destruct (serve net o w') as [r w1] eqn:Ho. by eapply serve_reached.
Qed.
End protocol.
