(* ===== verification/ReleaseEvidence.v ===== *)
(** * What a release command rests on

    A command leaves the control plane only on the evidence that the proposal
    was evaluated with, under an approval of this very decision, and only one at
    a time. *)

From S2P Require Import Prelude PyNum PyTime PyValue Models EvolutionProposal GovernancePolicies.
From S2P Require Import Store ApprovalGate Proposals SkillRelease ReleaseStore.
From S2P Require Import EvaluationBatch Deployment DeploymentTriples EvolutionRuntime.
From S2P Require Import SkillExecution ReleaseInvariants EvolutionHistory.
From S2P Require Import ReleaseProtocol DeploymentTheorems.

Section issue.
Context {E : ReleaseEnv}.

(** The rows that a request finds. *)
Definition seen (D : DB) (T : DeploymentTables) (c : Control) : Prop :=
  db (c_session c) = D ∧ c_tables c = T.
Definition whatever (c : Control) : Prop := True.

Lemma seen_now D T : triple (seen D T) (in_control now_utc) (λ _, seen D T) whatever.
Proof. intros c r c' [HD HT] [= <- <-]. done. Qed.
Lemma seen_uuid D T : triple (seen D T) (in_control uuid4) (λ _, seen D T) whatever.
Proof. intros c r c' [HD HT] [= <- <-]. done. Qed.
Lemma seen_db {A} D T (f : DB → A) : triple (seen D T) (in_db f) (λ a c, a = f D ∧ seen D T c) whatever.
Proof. intros c r c' [<- HT] [= <- <-]. done. Qed.
Lemma seen_tables {A} D T (f : DeploymentTables → A) :
  triple (seen D T) (in_tables f) (λ a c, a = f T ∧ seen D T c) whatever.
Proof. intros c r c' [HD <-] [= <- <-]. done. Qed.
Lemma says {A B} (φ : A → Prop) (m : M Control A) (k : A → M Control B) P (ψ : B → Prop) :
  triple P m (λ a _, φ a) whatever → (∀ a, φ a → triple whatever (k a) (λ b _, ψ b) whatever) →
  triple P (m ≫= k) (λ b _, ψ b) whatever.
Proof.
  intros Hm Hk. eapply triple_bind; [exact Hm|]. intros a c r c' Ha. by apply (Hk a Ha).
Qed.
Lemma silent {A} P (m : M Control A) : triple P m (λ _ _, True) whatever.
Proof. by intros c [] c' _ _. Qed.

(** An approval that still stands. *)
Definition stands (d : DB) (now : instant) (id_ : string) (a : ApprovalRequestRecord) : Prop :=
  a ∈ t_approvals d ∧ approval_id a = id_ ∧ approval_is "approved" a = true ∧ unexpired now a = true.

(** An approval of this decision. *)
Definition approves (d : DB) (now : instant) (company : string) (cmd : pydict) (id_ : string) : Prop :=
  ∃ a h, stands d now id_ a ∧ approval_company_id a = company ∧ canonical_hash (PDict cmd) = Ok h
    ∧ bound_to h a = true.

Lemma granted_says D T q s dep actor now :
  triple (seen D T) (granted_approval q s dep actor now)
    (λ o _, match o with
            | Some id_ => approves D now (rq_company_id q) (decision_dict s dep (rq_action q)) id_
            | None => rq_action q = ReleaseAction_SHADOW
            end) whatever.
Proof.
  unfold granted_approval. eapply triple_know; [by apply triple_lift|]. intros h Hh.
  case_decide as Ha; [by apply triple_ret|].
  eapply triple_know; [apply seen_db|]. intros valid ->.
  destruct (head _) as [a|] eqn:Hhd.
  - apply triple_ret. intros _ _. unfold decision_approvals in Hhd.
    apply head_Some_elem_of, list_elem_of_filter in Hhd as [Hap Hin].
    apply list_elem_of_filter in Hin as [Hun [[Hco Hb] Hin]%list_elem_of_filter].
    exists a, h. by split_and!.
  - eapply triple_bind; [apply silent|]. intros []. eapply triple_bind; [apply silent|].
    intros []. by apply triple_raise.
Qed.

(** The new command of a request, and what was checked before it. *)
Definition issued_on (D : DB) (q : release_request) (s : release_snapshot) (tier : string)
    (state : option DeploymentState) (report : EvolutionEvaluationReport) (now : instant)
    (cmd : SkillReleaseCommand) : Prop :=
  validate_release tier (DeploymentState_value <$> state) (ReleaseAction_value (rq_action q))
    (report_of (rp_comparison_report report)) (version_ref (rq_skill_id q) (rq_baseline_version q))
    (version_ref (rq_skill_id q) (rq_candidate_version q)) = Ok ()
  ∧ cm_action cmd = rq_action q ∧ snapshot_of_command cmd = s ∧ command_valid cmd = true
  ∧ cm_expires_at cmd = of_utc (now + us_per_hour)
  ∧ match cm_approval_id cmd with
    | Some id_ => approves D now (rq_company_id q)
                    (decision_dict (snapshot_of_command cmd) (cm_deployment_id cmd) (cm_action cmd)) id_
    | None => cm_action cmd = ReleaseAction_SHADOW
    end.

Lemma issue_says D T q s proposal report existing override actor now :
  triple (seen D T) (issue q s proposal report existing override actor now)
    (λ cmd _, issued_on D q s (str_of (proposal_tier proposal)) (dp_state <$> existing) report now cmd) whatever.
Proof.
  unfold issue. eapply triple_know; [by apply triple_lift|]. intros [] Hval.
  eapply triple_step.
  { destruct existing as [row|]; [by apply triple_ret|]. destruct (truthy override); [by apply triple_ret|].
    eapply triple_step; [apply seen_uuid|]. intros u. by apply triple_ret. }
  intros dep. eapply says; [apply granted_says|]. intros approval Hap.
  eapply says; [apply silent|]. intros u _. cbv zeta. set (cmd := new_command _ _ _ _ _ _).
  eapply triple_know; [by apply triple_raise_if|]. intros [] Hv%negb_false_iff.
  eapply says; [apply silent|]. intros [] _. eapply says; [apply silent|]. intros [] _.
  apply triple_ret. intros _ _. assert (snapshot_of_command cmd = s) as Hs by (by destruct s).
  unfold issued_on. rewrite Hs. split_and!; try done. by destruct existing.
Qed.

(** The command of a pending row, sent again while it and its approval stand. *)
Definition resent (D : DB) (T : DeploymentTables) (q : release_request) (now : instant)
    (cmd : SkillReleaseCommand) : Prop :=
  ∃ row, get_row dp_proposal_id (rq_proposal_id q) (x_deployments T) = Some row ∧ dp_state row = Pending
    ∧ dp_desired_action row = rq_action q ∧ dp_command row = cmd ∧ now < as_utc (cm_expires_at cmd)
    ∧ (truthy (cm_approval_id cmd) = true → ∃ a, stands D now (str_or_empty (cm_approval_id cmd)) a).

Lemma resend_says D old now cmd :
  resend old now D = Ok cmd →
  old = cmd ∧ now < as_utc (cm_expires_at cmd)
  ∧ (truthy (cm_approval_id cmd) = true → ∃ a, stands D now (str_or_empty (cm_approval_id cmd)) a).
Proof.
  unfold resend. intros H. inv_bind. apply Z.leb_gt in Hm. split_and!; [done..|]. intros Ht.
  rewrite Ht in *. match goal with H : raise_if ?b _ = Ok _ |- _ => destruct b eqn:Hb; [done|] end.
  destruct (get_row _ _ _) as [x|] eqn:Hg; [|done]. apply negb_false_iff, andb_true_iff in Hb as [? ?].
  apply get_row_Some in Hg as [? ?]. exists x. by split_and!.
Qed.

Lemma pending_allows_nothing tier a report b c :
  ¬ validate_release tier (Some "pending") a report b c = Ok ().
Proof.
  intros (_ & H & _)%validate_release_sound. unfold ALLOWED_ACTIONS in H.
  repeat (case_decide as Hx; [by simplify_eq/=|]). by apply not_elem_of_nil in H.
Qed.

(** What a request was answered on. *)
Definition answered (D : DB) (T : DeploymentTables) (q : release_request) (now : instant)
    (cmd : SkillReleaseCommand) : Prop :=
  resent D T q now cmd ∨ ∃ proposal report h,
    find_proposal (rq_company_id q) (rq_proposal_id q) D = Some proposal
    ∧ get_row rp_evaluation_report_id (rq_evaluation_report_id q) (x_reports T) = Some report
    ∧ rp_report_company_id report = rq_company_id q ∧ rp_proposal_id report = rq_proposal_id q
    ∧ canonical_hash (comparison_dump (rp_comparison_report report)) = Ok h
    ∧ issued_on D q (snapshot_of_request q h) (str_of (proposal_tier proposal))
        (dp_state <$> get_row dp_proposal_id (rq_proposal_id q) (x_deployments T)) report now cmd.

Lemma prepare_says D T q actor override :
  triple (seen D T) (prepare q actor override) (λ cmd _, ∃ now, answered D T q now cmd) whatever.
Proof.
  unfold prepare, answered. eapply triple_step; [apply seen_now|]. intros now.
  eapply triple_know; [apply seen_db|]. intros proposal_ ->.
  eapply triple_know; [apply seen_tables|]. intros report_ ->.
  destruct (find_proposal _ _ D) as [proposal|] eqn:Hp; [|by apply triple_raise].
  destruct (get_row rp_evaluation_report_id _ _) as [report|] eqn:Hr; [|by apply triple_raise].
  eapply triple_know; [by apply triple_raise_if|]. intros [] [H1 H2]%orb_false_iff.
  apply negb_false_iff, bool_decide_eq_true in H1. apply negb_false_iff, bool_decide_eq_true in H2.
  eapply triple_know; [apply seen_tables|]. intros existing ->.
  eapply triple_know; [by apply triple_lift|]. intros h Hh. cbv zeta.
  eapply triple_know; [by apply triple_raise_if|]. intros [] _.
  destruct (get_row dp_proposal_id _ _) as [row|] eqn:Hrow; [destruct (_ && _) eqn:Hb|].
  - apply andb_true_iff in Hb as [Ha%bool_decide_eq_true Hst%bool_decide_eq_true].
    eapply triple_know; [apply seen_db|]. intros d ->.
    eapply triple_conseq; [by apply triple_lift|done| |done].
    intros x y [(Hc & Hexp & Hap)%resend_says _]. exists now. left. exists row. by split_and!.
  - eapply triple_conseq; [apply issue_says|done| |done]. intros x y Hx. exists now. right. by exists proposal, report, h.
  - eapply triple_conseq; [apply issue_says|done| |done]. intros x y Hx. exists now. right. by exists proposal, report, h.
Qed.

(** No command without evidence and approval.  A request gets a command only
    in two ways.  The command of the pending row of the same action is sent
    again, while it has not expired and its approval still stands.  Or the
    proposal has no pending row and gets a new command, which carries the
    snapshot of the request and the hash of a stored report of this proposal of
    an L1 skill; a command other than for shadow then names an approval of the
    company that is approved, unexpired and bound to the hash of exactly this
    command's decision, and canary and promotion need an eligible report with
    fifty samples in each arm and no regression. *)
Theorem command_needs_approval q actor override c cmd c' :
  prepare q actor override c = (Ok cmd, c') →
  let D := db (c_session c) in let T := c_tables c in
  ∃ now,
    resent D T q now cmd
    ∨ (∀ row, get_row dp_proposal_id (rq_proposal_id q) (x_deployments T) = Some row → dp_state row ≠ Pending)
      ∧ cm_action cmd = rq_action q
      ∧ (∃ report, report ∈ x_reports T ∧ rp_evaluation_report_id report = rq_evaluation_report_id q
          ∧ rp_report_company_id report = rq_company_id q ∧ rp_proposal_id report = rq_proposal_id q
          ∧ canonical_hash (comparison_dump (rp_comparison_report report)) = Ok (cm_evaluation_hash cmd)
          ∧ snapshot_of_command cmd = snapshot_of_request q (cm_evaluation_hash cmd)
          ∧ (cm_action cmd = ReleaseAction_CANARY ∨ cm_action cmd = ReleaseAction_PROMOTE →
             live_grade (report_of (rp_comparison_report report))
               (version_ref (rq_skill_id q) (rq_baseline_version q))
               (version_ref (rq_skill_id q) (rq_candidate_version q))))
      ∧ (∃ proposal, find_proposal (rq_company_id q) (rq_proposal_id q) D = Some proposal
          ∧ str_of (proposal_tier proposal) = "L1")
      ∧ (cm_action cmd ≠ ReleaseAction_SHADOW → ∃ id_, cm_approval_id cmd = Some id_
          ∧ approves D now (rq_company_id q)
              (decision_dict (snapshot_of_command cmd) (cm_deployment_id cmd) (cm_action cmd)) id_).
Proof.
  intros H. cbv zeta. apply (prepare_says (db (c_session c)) (c_tables c)) in H; [|done].
  destruct H as (now & [H|(proposal & report & h & Hp & Hr & H1 & H2 & Hh & Hval & Ha & Hs & _ & _ & Hap)]);
    exists now; [by left|right].
  assert (cm_evaluation_hash cmd = h) as Hch by (by injection Hs).
  apply get_row_Some in Hr as [Hin Hid]. split; [|split; [done|split; [|split]]].
  - intros row Hrow Hpend. rewrite Hrow in Hval. cbn in Hval. rewrite Hpend in Hval.
    by apply pending_allows_nothing in Hval.
  - exists report. rewrite Hch, Ha. split_and!; try done. intros Hlive.
    apply validate_release_sound in Hval as (_ & _ & Hg). apply Hg.
    destruct Hlive as [->| ->]; auto.
  - exists proposal. split; [done|]. by apply validate_release_sound in Hval as (? & _).
  - intros Hne. destruct (cm_approval_id cmd) as [id_|]; [by exists id_|done].
Qed.

(** While a command waits for its answer no other action of the proposal gets
    one, a rollback included. *)
Lemma pending_blocks_other_actions q actor override c row :
  get_row dp_proposal_id (rq_proposal_id q) (x_deployments (c_tables c)) = Some row →
  dp_state row = Pending → dp_desired_action row ≠ rq_action q →
  ∃ e, (prepare q actor override c).1 = Raise e.
Proof.
  intros Hrow Hst Hne. destruct (prepare q actor override c) as [[cmd|e] c'] eqn:H; [|by exists e].
  exfalso. apply (prepare_says (db (c_session c)) (c_tables c)) in H as (now & H); [|done].
  destruct H as [(x & Hx & _ & Hd & _)|(p & r & h & _ & _ & _ & _ & _ & Hval & _)].
  - rewrite Hrow in Hx. injection Hx as <-. done.
  - rewrite Hrow in Hval. cbn in Hval. rewrite Hst in Hval. by apply pending_allows_nothing in Hval.
Qed.
End issue.

(** ** The evidence behind live traffic

    Along every run of the release protocol, a command that exposes a candidate
    to live traffic traces back to two recorded batches. *)

Section evidence.
Context {E : ReleaseEnv}.

(** A stored report of an eligible comparison, which the command names by its
    identifier and by the hash of the comparison. *)
Definition measured_by (c : SkillReleaseCommand) (reports : list EvolutionEvaluationReport) : Prop :=
  ∃ report baseline candidate policy,
    report ∈ reports ∧ rp_evaluation_report_id report = cm_evaluation_report_id c
    ∧ canonical_hash (comparison_dump (rp_comparison_report report)) = Ok (cm_evaluation_hash c)
    ∧ report_made report (cm_proposal_id c) baseline candidate policy
    ∧ batch_valid baseline = true ∧ batch_valid candidate = true
    ∧ cp_eligible (compare_evaluations baseline candidate policy) = true
    ∧ 50 ≤ Z.of_nat (length (eb_results baseline)) ∧ 50 ≤ Z.of_nat (length (eb_results candidate))
    ∧ eb_config_revision baseline = version_ref (cm_skill_id c) (cm_baseline_version c)
    ∧ eb_config_revision candidate = version_ref (cm_skill_id c) (cm_candidate_version c).

Definition live_action (a : ReleaseAction) : Prop :=
  a = ReleaseAction_CANARY ∨ a = ReleaseAction_PROMOTE.

Record backed (n : Net) : Prop := {
  bk_net : net_ok n;
  bk_reports : ∀ r, r ∈ x_reports (c_tables (n_control n)) → ∃ b c policy,
    report_made r (rp_proposal_id r) b c policy ∧ batch_valid b = true ∧ batch_valid c = true;
  bk_issued : ∀ c, c ∈ n_issued n → live_action (cm_action c) →
    measured_by c (x_reports (c_tables (n_control n))) }.

Lemma prepared_reports T q cmd T' : prepared T q cmd T' → x_reports T' = x_reports T.
Proof. by destruct 1. Qed.
Lemma restored_reports T row T' : restored T row T' → x_reports T' = x_reports T.
Proof. by destruct 1. Qed.
Lemma acknowledged_reports T c r T' : acknowledged T c r T' → x_reports T' = x_reports T.
Proof. by destruct 1. Qed.

(** An answered request is backed when what was issued before is. *)
Lemma answered_measured log issued D T q now cmd :
  answered D T q now cmd → tables_ok log issued T →
  (∀ r, r ∈ x_reports T → ∃ b c policy,
    report_made r (rp_proposal_id r) b c policy ∧ batch_valid b = true ∧ batch_valid c = true) →
  (∀ c, c ∈ issued → live_action (cm_action c) → measured_by c (x_reports T)) →
  live_action (cm_action cmd) → measured_by cmd (x_reports T).
Proof.
  intros [(row & Hrow & _ & _ & <- & _)|(p & r & h & _ & Hr & _ & Hp & Hh & Hval & Ha & Hs & _)] Hok Hreps Hiss Hlive.
  - apply get_row_Some in Hrow as [Hin _]. apply Hiss; [|done]. apply (to_rows _ _ _ Hok row Hin).
  - apply get_row_Some in Hr as [Hin Hid]. destruct (Hreps r Hin) as (b & c & policy & Hmade & Hb & Hc).
    apply validate_release_sound in Hval as (_ & _ & Hg).
    destruct Hg as (He & Hnb & Hnc & _ & Hvb & Hvc).
    { rewrite Ha in Hlive. destruct Hlive as [->| ->]; auto. }
    injection Hs as S1 S2 S3 S4 S5 S6 S7 S8 S9 S10.
    exists r, b, c, policy. destruct Hmade as [M1 M2 M3 M4 M5 M6 M7].
    unfold report_of, side_of in *. cbn in He, Hnb, Hnc, Hvb, Hvc. rewrite M6 in He, Hnb, Hnc, Hvb, Hvc. cbn in Hnb, Hnc, Hvb, Hvc.
    injection He as He. split_and!; try done; try congruence. split; [congruence|done..].
Qed.

Lemma prepare_answers T D q actor override :
  triple (at_ T D) (prepare q actor override)
    (λ cmd _, ∃ D0 now, answered D0 T q now cmd) whatever.
Proof.
  intros c r c' [HT _] H. pose proof (prepare_says (db (c_session c)) T q actor override c r c' (conj eq_refl HT) H) as Hs.
  destruct r as [cmd|e]; [|done]. destruct Hs as (now & Hs). by exists (db (c_session c)), now.
Qed.

Lemma recover_answers T D c actor :
  triple (at_ T D) (recover_expired_pending c actor)
    (λ cmd _, ∃ row T1 D1 now, recovered T c row T1
       ∧ answered D1 T1 (request_of_command (dp_command row)) now cmd) whatever.
Proof.
  assert (∀ x, at_ T D x → whatever x) as Hx by done.
  unfold recover_expired_pending.
  eapply triple_step; [by apply at_in_control|]. intros proposal_.
  eapply triple_know; [apply at_in_tables|]. intros row_ ->.
  destruct proposal_ as [proposal|]; [|by apply triple_raise].
  destruct (find_deployment _ _ _) as [row|] eqn:Hrow; [|by apply triple_raise].
  apply find_deployment_Some in Hrow as (Hin & Hco & Hp). cbv zeta.
  eapply triple_know; [by apply triple_lift|]. intros same Hsame.
  eapply triple_know; [by apply triple_raise_if|]. intros [] ->%negb_false_iff.
  eapply triple_step; [by apply at_in_control|]. intros now.
  eapply triple_know; [by apply triple_raise_if|]. intros [] _.
  eapply triple_know; [by apply triple_lift|]. intros h _.
  eapply triple_step; [by apply at_audit|]. intros _.
  eapply triple_bind; [eapply triple_conseq; [apply at_restore|done|done|done]|].
  intros []. apply triple_exists. intros T1 HT1.
  eapply triple_conseq; [apply (prepare_answers T1 D)|done| |done].
  intros cmd x (D1 & now1 & H). exists row, T1, D1, now1. by split.
Qed.

(** What a unit of work returns, from the tables it starts on. *)
Lemma transaction_says {A} T D (m : M Control A) (φ : A → Prop) c a c' :
  triple (at_ T D) m (λ x _, φ x) whatever → at_ T D c → transaction m c = (Ok a, c') → φ a.
Proof.
  intros Hm Hc H. unfold transaction in H. destruct (m c) as [[x|e] c1] eqn:Hmc; [|done].
  injection H as -> <-. by apply (Hm c (Ok a) c1).
Qed.

Lemma measured_more c reports reports' : reports ⊆ reports' → measured_by c reports → measured_by c reports'.
Proof. intros Hs (r & b & ca & p & Hin & H). exists r, b, ca, p. split; [by apply Hs|done]. Qed.

Lemma step_reports n n' :
  protocol_step n n' → net_ok n →
  x_reports (c_tables (n_control n')) = x_reports (c_tables (n_control n))
  ∨ ∃ r b c policy, x_reports (c_tables (n_control n')) = x_reports (c_tables (n_control n)) ++ [r]
      ∧ report_made r (rp_proposal_id r) b c policy ∧ batch_valid b = true ∧ batch_valid c = true
      ∧ n_issued n' = n_issued n.
Proof.
  intros Hstep [H1 H2 H3 H4]. pose proof (conj eq_refl eq_refl :
    at_ (c_tables (n_control n)) (c_durable (n_control n)) (n_control n)) as Hat.
  destruct Hstep as [n co p b ca pol actor r c Hb Hca Hr|n q actor r c Hr|n old actor r c Ho Hr|n m sig r s Hm Hr
    |n m k a Hm Hk Ha|n m a actor r c Hma Hr|n o|n s]; try by left.
  - apply (transaction_triple _ _ _ _ _ (at_record _ _ co p b ca pol actor) _ _ _ Hat) in Hr.
    destruct r as [x|e]; destruct Hr as (c' & Hc' & Ht & Hd).
    + destruct Hc' as (Hm & _ & HTc & _). right. exists x, b, ca, pol. cbn. rewrite Ht, HTc.
      split_and!; try done. by destruct Hm as [<-]; split.
    + left. cbn. by rewrite Ht, Hc', H2.
  - left. apply (transaction_triple _ _ _ _ _ (at_prepare _ _ q actor None) _ _ _ Hat) in Hr. cbn.
    destruct r as [cmd|e]; destruct Hr as (c' & Hc' & Ht & Hd); rewrite Ht.
    + destruct Hc' as (T' & HT' & [-> _]). by eapply prepared_reports.
    + by destruct Hc' as [->| ->]; rewrite ?H2.
  - left. apply (transaction_triple _ _ _ _ _ (at_recover _ _ old actor) _ _ _ Hat) in Hr. cbn.
    destruct r as [cmd|e]; destruct Hr as (c' & Hc' & Ht & Hd); rewrite Ht.
    + destruct Hc' as (row & T1 & T' & (_ & _ & _ & _ & Hres) & Hprep & [-> _]).
      by rewrite (prepared_reports _ _ _ _ Hprep), (restored_reports _ _ _ Hres).
    + destruct Hc' as [->|(row & T1 & (_ & _ & _ & _ & Hres) & ->)]; [by rewrite H2|].
      by eapply restored_reports.
  - left. apply (transaction_triple _ _ _ _ _ (at_acknowledge _ _ m a actor) _ _ _ Hat) in Hr. cbn.
    destruct r as [u|e]; destruct Hr as (c' & Hc' & Ht & Hd); rewrite Ht.
    + destruct Hc' as (T' & HT' & [-> _]). by eapply acknowledged_reports.
    + by rewrite Hc', H2.
Qed.

(** A step issues at most an answered command. *)
Lemma step_issues n n' c :
  protocol_step n n' → backed n → c ∈ n_issued n' → live_action (cm_action c) →
  measured_by c (x_reports (c_tables (n_control n))).
Proof.
  intros Hstep [[H1 H2 H3 H4] Hreps Hiss] Hin Hlive.
  assert (at_ (c_tables (n_control n)) (c_durable (n_control n)) (n_control n)) as Hat by done.
  destruct Hstep as [n co p b ca pol actor r x Hb Hca Hr|n q actor r x Hr|n old actor r x Ho Hr|n m sig r s Hm Hr
    |n m k a Hm Hk Ha|n m a actor r x Hma Hr|n o|n s]; cbn in Hin; try by apply Hiss.
  - destruct r as [cmd|e]; [|by apply Hiss]. cbn in Hin. apply elem_of_cons in Hin as [->|]; [|by apply Hiss].
    apply (transaction_says _ _ _ _ _ _ _ (prepare_answers _ _ q actor None) Hat) in Hr as (D & now & Ha).
    by eapply answered_measured.
  - destruct r as [cmd|e]; [|by apply Hiss]. cbn in Hin. apply elem_of_cons in Hin as [->|]; [|by apply Hiss].
    apply (transaction_says _ _ _ _ _ _ _ (recover_answers _ _ old actor) Hat) in Hr
      as (row & T1 & D1 & now & (Hrow & _ & _ & _ & Hres) & Ha).
    rewrite <- (restored_reports _ _ _ Hres). eapply answered_measured; [exact Ha| | | |exact Hlive].
    + by eapply restored_ok.
    + by rewrite (restored_reports _ _ _ Hres).
    + by rewrite (restored_reports _ _ _ Hres).
Qed.

Lemma backed_step n n' : protocol_step n n' → backed n → backed n'.
Proof.
  intros Hstep Hn. pose proof (protocol_step_ok _ _ Hstep (bk_net _ Hn)) as Hok.
  pose proof (λ c, step_issues n n' c Hstep Hn) as Hiss. destruct Hn as [Hnet Hr Hi].
  destruct (step_reports _ _ Hstep Hnet) as [Heq|(r & b & c & policy & Heq & Hm & Hb & Hc & Hsame)];
    (split; [done|..]); rewrite Heq; [done|done| |].
  - intros x [Hx| ->%list_elem_of_singleton]%elem_of_app; [by apply Hr|by exists b, c, policy].
  - intros x Hx Hl. eapply measured_more; [|by apply Hiss]. set_solver.
Qed.

(** C19: no live traffic without a measurement.  Whatever the interleaving of
    evaluations, requests, recoveries, deliveries and acknowledgements, from
    tables that hold no report and no release, every command that was issued for
    canary or promotion names a stored report of its proposal by identifier and
    by the hash of its comparison; the report compares two valid batches, of
    which it keeps the hashes, made with the two versions the command moves
    traffic between, with fifty results each, and the comparison is eligible. *)
Theorem live_commands_were_measured n0 n c :
  rtc protocol_step n0 n →
  runtime_ok [] (n_runtime n0) → n_issued n0 = [] → n_answers n0 = [] →
  x_deployments (c_tables (n_control n0)) = [] → x_reports (c_tables (n_control n0)) = [] →
  c_durable (n_control n0) = c_tables (n_control n0) →
  c ∈ n_issued n → live_action (cm_action c) →
  measured_by c (x_reports (c_durable (n_control n))).
Proof.
  intros Hrun Hrt Hiss Hans Hdep Hrep Hset Hin Hl.
  assert (backed n) as [Hok _ Hi].
  { assert (backed n0) as Hn0.
    { split; [split; [|done|done|]|by rewrite Hrep; intros r ?%not_elem_of_nil|by rewrite Hiss; intros x ?%not_elem_of_nil].
      - split; rewrite Hdep; [constructor..|]. by intros row ?%not_elem_of_nil.
      - rewrite Hans. by intros m a ?%not_elem_of_nil. }
    clear -Hrun Hn0. induction Hrun; eauto using backed_step. }
  rewrite (no_settled _ Hok). by apply Hi.
Qed.
End evidence.
