(* ===== verification/ReleaseRecovery.v ===== *)
(** * A lost answer is repaired

    What the receiver did for a command is found again by its receipt, so that
    the control plane ends where it would have ended had the answer arrived. *)

From S2P Require Import Prelude PyNum PyTime PyValue Store SkillRelease ReleaseStore.
From S2P Require Import EvolutionRuntime SkillExecution ReleaseInvariants.
From S2P Require Import EvolutionHistory ReleaseTheorems Deployment DeploymentTriples.
From S2P Require Import ReleaseProtocol DeploymentTheorems.

Section recovery.
Context {E : ReleaseEnv}.

(** Every receipt is of a release of this company. *)
Definition receipts_owned (s : Runtime) : Prop :=
  ∀ k, k ∈ e_commands s → ∃ rel, get_release (ck_deployment_id k) s = Some rel
    ∧ rl_company_id rel = control_plane_company_id.

(** The release that an accepted command leaves. *)
Lemma receive_leaves_release c sig s r s' :
  receive c sig s = (Ok r, s') → get_row ck_command_id (cm_command_id c) (e_commands s) = None →
  ∃ rel, get_release (cm_deployment_id c) s' = Some rel ∧ rl_company_id rel = cm_company_id c.
Proof.
  intros Hr Hn. destruct (receive_fresh _ _ _ _ _ Hr Hn) as
    (_ & h & next & sks & rs & xs & t & b & ca & _ & _ & _ & Hck & _ & _ & Ht & Hw & _).
  unfold tables in Ht. injection Ht as _ T2 _ _ _. unfold written in Hw. unfold get_release at 1. rewrite T2.
  destruct (get_release (cm_deployment_id c) s) as [rel|] eqn:Hrel.
  - apply check_release_Ok in Hck as (_ & _ & Hco & _). destruct Hw as [t' ->].
    exists (next_row c rel next t' rel). split.
    + unfold get_release in Hrel. change (map ?f ?l) with (f <$> l). rewrite get_row_fmap, Hrel; [done|].
      intros x. unfold rl_deployment_id. by rewrite (sr_identity _ (same_release_next c rel next t')).
    + unfold next_row. by case_decide.
  - destruct Hw as (t1 & t2 & ->). exists (new_release c next t1 t2). split; [|done].
    apply get_row_snoc; [|done]. intros (x & Hx & Hin)%list_elem_of_fmap.
    by apply (get_row_None _ _ _ Hrel x).
Qed.

(** What was answered is what a later lookup finds. *)
Lemma receive_then_lookup c sig s r s' :
  receive c sig s = (Ok r, s') → get_row ck_command_id (cm_command_id c) (e_commands s) = None →
  ∃ k, get_command (cm_command_id c) s' = Some k ∧ receipt_answer c k = Ok r.
Proof.
  intros Hr Hn. destruct (receive_leaves_release _ _ _ _ _ Hr Hn) as (rel & Hrel & Hco).
  pose proof Hr as (_ & s1 & _ & _ & Hap)%receive_Ok.
  apply apply_receipt in Hap as (h & row & Hh & Hown & Hrow & Hph & Hresp).
  assert (ck_deployment_id row = cm_deployment_id c) as Hd.
  { destruct (receive_fresh _ _ _ _ _ Hr Hn) as
      (_ & h' & next & sks & rs & xs & t & b & ca & _ & _ & _ & _ & _ & _ & Ht & _).
    unfold tables in Ht. injection Ht as _ _ T3 _ _. rewrite T3 in Hrow.
    rewrite (get_row_snoc ck_command_id (cm_command_id c) (e_commands s) (receipt c h' next t)) in Hrow; [|
      |done]; [by injection Hrow as <-|].
    intros (x & Hx & Hin)%list_elem_of_fmap. by apply (get_row_None _ _ _ Hn x). }
  exists row. split.
  - unfold get_command. rewrite Hrow, Hd, Hrel, Hco, decide_True; done.
  - unfold receipt_answer. rewrite Hh. apply get_row_Some in Hrow as [_ Hid]. cbn.
    rewrite !bool_decide_eq_true_2 by done. cbn. by rewrite Hresp.
Qed.

Lemma lookup_new c s :
  receipts_owned s → get_command (cm_command_id c) s = None →
  get_row ck_command_id (cm_command_id c) (e_commands s) = None.
Proof.
  unfold get_command. intros Ho H. destruct (get_row _ _ _) as [k|] eqn:Hk; [|done].
  apply get_row_Some in Hk as [Hin _]. destruct (Ho k Hin) as (rel & Hrel & Hco).
  by rewrite Hrel, decide_True in H.
Qed.

(** A stored command is the pending one of its proposal. *)
Lemma prepared_pending T q cmd T' log issued :
  prepared T q cmd T' → tables_ok log issued T →
  ∃ row, find_deployment (rq_company_id q) (rq_proposal_id q) T' = Some row ∧ dp_state row = Pending
    ∧ dp_command row = cmd.
Proof.
  intros Hp Hok. pose proof (prepared_ok _ _ _ _ _ _ Hp Hok) as [_ Hnd Hrows].
  assert (∃ row, row ∈ x_deployments T' ∧ dp_proposal_id row = rq_proposal_id q ∧ dp_state row = Pending
    ∧ dp_command row = cmd ∧ cm_company_id cmd = rq_company_id q) as (row & Hin & Hpid & Hst & Hc & Hco).
  { destruct Hp as [row|row now ? ? Hget|row]; [by exists row| |].
    - apply get_row_Some in Hget as [Hin Hpid]. exists (with_request (rq_action q) cmd now row).
      split_and!; try done. unfold update_row_of, update_row. cbn. apply list_elem_of_fmap.
      exists row. by rewrite decide_True.
    - exists row. split_and!; try done. cbn. apply elem_of_app. right. by left. }
  exists row. split_and!; try done. unfold find_deployment.
  destruct (head _) as [row'|] eqn:Hh.
  - apply head_Some_elem_of, list_elem_of_filter in Hh as [[_ Hp'] Hin']. f_equal.
    eapply (get_row_NoDup dp_proposal_id); [exact Hnd|done|done|congruence].
  - exfalso. apply head_None in Hh. eapply not_elem_of_nil. rewrite <- Hh. apply list_elem_of_filter.
    split; [|exact Hin]. split; [|done]. rewrite (dk_company _ _ _ (Hrows row Hin)). congruence.
Qed.

(** A release whose command was not known to the receiver. *)
Lemma release_applied net q actor w r w1 :
  release net q actor w = (Ok r, w1) → w_calls w1 = S (S (w_calls w)) →
  ∃ c ctl sig s ctl',
    transaction (prepare q actor None) (w_control w) = (Ok c, ctl)
    ∧ get_command (cm_command_id c) (w_runtime w) = None
    ∧ sign_command c evolution_deployment_signing_key = Ok sig ∧ deliver c sig (w_runtime w) = (Ok r, s)
    ∧ transaction (acknowledge c r actor) ctl = (Ok (), ctl')
    ∧ w1 = {| w_control := ctl'; w_runtime := s; w_calls := S (S (w_calls w)) |}.
Proof.
  unfold release, in_route, settle_answer, gateway_lookup, gateway_apply, finish, on_control, http, getsM, liftM.
  unfold mbind, M_bind, mret, M_ret. cbv beta iota zeta.
  destruct (transaction (prepare q actor None) (w_control w)) as [[c|e] ctl] eqn:Hp; [|done].
  cbn [w_calls w_runtime w_control].
  destruct (net (w_calls w)) eqn:Hn; [|done..].
  destruct (get_command (cm_command_id c) (w_runtime w)) as [k|] eqn:Hk.
  - destruct (receipt_answer c k) as [a|e]; [|done].
    cbn [w_calls w_runtime w_control].
    destruct (transaction (acknowledge c a actor) ctl) as [[u|e] ctl'] eqn:Ha; [|done].
    intros [= <- <-]. cbn [w_calls]. lia.
  - destruct (sign_command c _) as [sig|e] eqn:Hs; [|done].
    cbn [w_calls w_runtime w_control].
    destruct (net (S (w_calls w))) eqn:Hn'; [|done..].
    cbn [w_calls w_runtime w_control].
    destruct (deliver c sig (w_runtime w)) as [[a|e] s] eqn:Hd; [|done].
    cbn [w_calls w_runtime w_control].
    destruct (transaction (acknowledge c a actor) ctl) as [[[]|e] ctl'] eqn:Ha; [|done].
    intros [= <- <-] _. by exists c, ctl, sig, s, ctl'.
Qed.

Lemma transaction_settled {A} (m : M Control A) c a c' :
  transaction m c = (Ok a, c') → (commit c').2 = c' ∧ discard c' = c'.
Proof. unfold transaction. destruct (m c) as [[x|e] c1]; [|done]. intros [= <- <-]. done. Qed.

(** C22: a lost answer costs nothing.  Where a release would have succeeded, let
    the answer of the receiver be lost instead: the release is answered as
    pending, and reconciling the proposal afterwards returns the answer that was
    lost and leaves the control plane and the runtime as the undisturbed release
    would have left them. *)
Theorem lost_answer_repaired net net' q actor w r w1 issued answers :
  net_ok (net_of w issued answers) → receipts_owned (w_runtime w) →
  release net q actor w = (Ok r, w1) → w_calls w1 = S (S (w_calls w)) →
  net' (w_calls w) = Delivered → net' (S (w_calls w)) = ResponseLost → net' (S (S (w_calls w))) = Delivered →
  ∃ w2, release net' q actor w = (Raise (route_error transport_error), w2)
    ∧ w_runtime w2 = w_runtime w1
    ∧ reconcile net' (rq_company_id q) (rq_proposal_id q) actor w2
      = (Ok r, {| w_control := w_control w1; w_runtime := w_runtime w1; w_calls := S (S (S (w_calls w))) |}).
Proof.
  intros Hok Hown Hrel Hcalls N1 N2 N3.
  destruct (release_applied _ _ _ _ _ _ Hrel Hcalls) as (c & ctl & sig & s & ctl' & Hp & Hnone & Hs & Hd & Ha & ->).
  cbn [w_runtime w_control].
  destruct (deliver_receipt _ _ _ _ _ Hd) as [Hrec _].
  destruct (receive_then_lookup _ _ _ _ _ Hrec (lookup_new _ _ Hown Hnone)) as (k & Hk & Hans).
  assert (find_deployment (rq_company_id q) (rq_proposal_id q) (c_tables ctl) ≠ None
    ∧ pending (rq_company_id q) (rq_proposal_id q) ctl = (Ok c, ctl)) as [_ Hpend].
  { destruct Hok as [Ht Hset _ _]. cbn in Ht, Hset.
    pose proof (transaction_triple (c_tables (w_control w)) (c_durable (w_control w)) _ _ _
      (at_prepare _ _ q actor None) _ _ _ (conj eq_refl eq_refl) Hp) as (c1 & (T' & HT' & [HT _]) & HTc & _).
    destruct (prepared_pending _ _ _ _ _ _ HT' Ht) as (row & Hrow & Hst & <-).
    rewrite HTc, HT, Hrow. split; [done|]. unfold pending, in_tables, getsM, mbind, M_bind.
    rewrite HTc, HT, Hrow. by rewrite decide_True. }
  destruct (transaction_settled _ _ _ _ Hp) as [Hc1 _].
  exists {| w_control := ctl; w_runtime := s; w_calls := S (S (w_calls w)) |}. split_and!.
  - unfold release, in_route, settle_answer, gateway_lookup, gateway_apply, on_control, http, getsM, liftM.
    unfold mbind, M_bind, mret, M_ret. cbv beta iota zeta. rewrite Hp. cbn [w_calls w_runtime w_control].
    rewrite N1, Hnone. cbn [w_calls w_runtime w_control]. rewrite Hs. cbn [w_calls w_runtime w_control]. rewrite N2. cbn [w_calls w_runtime w_control]. by rewrite Hd.
  - done.
  - unfold reconcile, in_route, gateway_lookup, finish, on_control, http, getsM, liftM.
    unfold mbind, M_bind, mret, M_ret. cbv beta iota zeta. cbn [w_calls w_runtime w_control].
    unfold transaction at 1. rewrite Hpend. cbv beta iota. rewrite Hc1. cbn [w_calls w_runtime w_control].
    rewrite N3, Hk. cbn [w_calls w_runtime w_control]. rewrite Hans. cbn [w_calls w_runtime w_control]. by rewrite Ha.
Qed.
End recovery.
