(* ===== verification/ReleaseScenario.v ===== *)
(** * A release from shadow to rollback

    A concrete runtime: one live configuration of a skill and one candidate, the
    signed commands that take the candidate through shadow, canary, promotion and
    rollback, and the scores that the canary collects in between. *)

From Stdlib Require Import SpecFloat.
From S2P Require Import Prelude PyNum PyTime PyValue Store Scenario SkillRelease ReleaseStore.
From S2P Require Import EvolutionRuntime SkillExecution ReleaseInvariants EvolutionHistory.
From S2P Require Import ReleaseTheorems Models EvolutionProposal GovernancePolicies ApprovalGate.
From S2P Require Import Proposals EvaluationBatch Deployment DeploymentTriples ReleaseProtocol.
From S2P Require Import DeploymentTheorems ReleaseEvidence ReleaseRecovery.

(** ** An environment *)
Definition hex_char (d : Z) : ascii :=
  ascii_of_nat (Z.to_nat (if d <? 10 then 48 + d else 87 + d)).

Fixpoint hex_digits (n : nat) (z : Z) (acc : string) : string :=
  match n with
  | O => acc
  | S n' => hex_digits n' (Z.shiftr z 4) (String (hex_char (Z.land z 15)) acc)
  end.

Definition checksum (s : string) : Z :=
  foldl (λ acc c, Z.land (acc * 0x100000001b3 + Z.of_N (code c) + 1) (Z.ones 64)) 7 (list_ascii_of_string s).

Definition digest_hex (n : nat) (s : string) : string :=
  hex_digits n (checksum s * 0x9e3779b97f4a7c15f39cc0605cedc8341082276bf3a27251) "".

#[export] Instance release_sample : ReleaseEnv := {|
  release_env := {|
    sha256_hex := digest_hex 64; ulid := λ n, pretty (N.of_nat n);
    uuid4_hex := λ n, pretty (N.of_nat n);
    clock := λ n, ymd2ord 2026 8 17 * us_per_day + Z.of_nat n;
    sql_sum := foldl f_add f_zero; operator_id := None; enforce_foreign_keys := false |};
  hmac_sha256_hex := λ k m, digest_hex 64 (k +:+ m);
  md5_hex := digest_hex 32;
  dump_datetime := λ d, pretty (as_utc d);
  model_dump_json := λ c, cm_command_id c +:+ "/" +:+ ReleaseAction_value (cm_action c);
  control_plane_company_id := "cmp_1";
  evolution_deployment_signing_key := "0123456789abcdef0123456789abcdef" |}.

Definition sample_skill (id_ : Z) (version status : string) : EvolutionSkillConfig := {|
  sk_id := id_; sk_skill_id := "summarize"; sk_version := version; sk_status := status;
  sk_system_prompt := "Summarize."; sk_parameters := None; sk_few_shot_examples := None;
  sk_output_format := "json"; sk_target_model := "default"; sk_success_rate := f_zero;
  sk_created_at := id_; sk_promoted_at := None |}.

(** The live version 1 and version 2 in a status. *)
Definition runtime0 (status : string) : Runtime := {|
  e_skills := [sample_skill 1 "1" "active"; sample_skill 2 "2" status];
  e_releases := []; e_commands := []; e_experiments := []; e_traces := []; e_ticks := 0 |}.

Definition ok_or {A} (d : A) (m : result A) : A := match m with Ok a => a | Raise _ => d end.

Definition sample_command (id_ : string) (action : ReleaseAction) : SkillReleaseCommand := {|
  cm_schema_version := "1.0"; cm_command_id := id_; cm_deployment_id := "dep_1";
  cm_company_id := "cmp_1"; cm_proposal_id := "prop_1"; cm_evaluation_report_id := "eval_1";
  cm_evaluation_hash := digest_hex 64 "evaluation"; cm_skill_id := "summarize"; cm_agent_id := "qa";
  cm_baseline_version := 1; cm_candidate_version := 2;
  cm_baseline_config_hash := ok_or "" (skill_config_hash (sample_skill 1 "1" "active"));
  cm_candidate_config_hash := ok_or "" (skill_config_hash (sample_skill 2 "2" "candidate"));
  cm_action := action; cm_traffic_pct := 10; cm_minimum_sample_count := 50;
  cm_approval_id := Some "apr_1"; cm_expires_at := of_utc (ymd2ord 2026 9 1 * us_per_day) |}.

Definition signed (c : SkillReleaseCommand) : string :=
  ok_or "" (sign_command c evolution_deployment_signing_key).
Definition send (id_ : string) (action : ReleaseAction) : runtime_op :=
  let c := sample_command id_ action in Receive c (signed c).

Definition scores (trace : string) (score : float) : list runtime_op :=
  repeat (RouterResult "qa" "summarize" trace score) 50.
Definition candidate_trace : string := "trace-1".
Definition control_trace : string := "trace-2".

Definition observed : list runtime_op := scores candidate_trace (f_of_Z 1) ++ scores control_trace (float_lit 5 1).

Definition to_canary : list runtime_op := [send "c1" ReleaseAction_SHADOW; send "c2" ReleaseAction_CANARY].

(** A whole release. *)
Definition whole_release : list runtime_op :=
  to_canary ++ observed ++ [send "c3" ReleaseAction_PROMOTE; send "c4" ReleaseAction_ROLLBACK].

Definition measured : Runtime := run_ops (to_canary ++ observed) (runtime0 "candidate").
Definition accepted (id_ : string) (action : ReleaseAction) (s : Runtime) : release_response * Runtime :=
  let c := sample_command id_ action in
  match receive c (signed c) s with
  | (Ok r, s') => (r, s')
  | (Raise _, s') => ({| rr_deployment_id := ""; rr_state := ReleaseState_SHADOW; rr_version := 0;
                         rr_experiment_id := None |}, s')
  end.
Definition promoted : release_response * Runtime := accepted "c3" ReleaseAction_PROMOTE measured.
Definition rolled_back : release_response * Runtime := accepted "c4" ReleaseAction_ROLLBACK promoted.2.

Lemma runtime0_ok status :
  status ≠ "active" →
  skills_ok (e_skills (runtime0 status)) ∧ e_releases (runtime0 status) = []
  ∧ NoDup (ex_experiment_id <$> e_experiments (runtime0 status)).
Proof.
  intros Hst. split_and!; [split| |constructor].
  - cbn. apply NoDup_cons. split; [set_solver|apply NoDup_singleton].
  - intros a b Ha Hb _ Haa Hba. cbn in Ha, Hb. set_unfold.
    destruct Ha as [->|[->|[]]], Hb as [->|[->|[]]]; done.
  - done.
Qed.

Lemma measured_ok : runtime_ok [] measured.
Proof.
  apply run_ops_ok. destruct (runtime0_ok "candidate") as (? & ? & ?); [done|].
  apply start_ok; done.
Qed.

(** ** What it comes to *)
Example release_ends :
  (λ r, (rl_state r, rl_version r)) <$> e_releases (run_ops whole_release (runtime0 "candidate"))
  = [(ReleaseState_ROLLED_BACK, 4)].
Proof. vm_compute. reflexivity. Qed.

(** A release of a retired version is taken into canary. *)
Lemma retired_candidate_in_canary :
  (λ r, rl_state r) <$> e_releases (run_ops to_canary (runtime0 "retired")) = [ReleaseState_CANARY].
Proof. vm_compute. reflexivity. Qed.

Definition promote_c : SkillReleaseCommand := sample_command "c3" ReleaseAction_PROMOTE.
Definition rollback_c : SkillReleaseCommand := sample_command "c4" ReleaseAction_ROLLBACK.

Lemma promote_accepted : receive promote_c (signed promote_c) measured = (Ok promoted.1, promoted.2).
Proof. vm_compute. reflexivity. Qed.
Lemma promote_new : get_row ck_command_id (cm_command_id promote_c) (e_commands measured) = None.
Proof. vm_compute. reflexivity. Qed.
Lemma rollback_accepted :
  receive rollback_c (signed rollback_c) promoted.2 = (Ok rolled_back.1, rolled_back.2).
Proof. vm_compute. reflexivity. Qed.
Lemma rollback_new : get_row ck_command_id (cm_command_id rollback_c) (e_commands promoted.2) = None.
Proof. vm_compute. reflexivity. Qed.

(** ** Witnesses *)
Lemma runtime_history_safe_witness :
  rl_state <$> e_releases (run_ops to_canary (runtime0 "candidate")) = [ReleaseState_CANARY]
  ∧ ∀ a b, a ∈ e_skills (run_ops whole_release (runtime0 "candidate")) →
      b ∈ e_skills (run_ops whole_release (runtime0 "candidate")) → sk_skill_id a = sk_skill_id b →
      sk_status a = "active" → sk_status b = "active" → a = b.
Proof.
  split; [vm_compute; reflexivity|].
  destruct (runtime0_ok "candidate") as (H1 & H2 & H3); [done|].
  exact (proj1 (runtime_history_safe whole_release (runtime0 "candidate") H1 H2 H3)).
Defined.

Lemma command_applied_once_witness :
  let s := run_ops [send "c4" ReleaseAction_ROLLBACK] promoted.2 in
  apply promote_c s = (Ok promoted.1, s).
Proof.
  exact (proj1 (command_applied_once promote_c (signed promote_c) measured promoted.1 promoted.2
    [send "c4" ReleaseAction_ROLLBACK] measured_ok promote_accepted)).
Defined.

Lemma promotion_gated_witness :
  rr_state promoted.1 = ReleaseState_ACTIVE
  ∧ ∀ skill v, live promoted.2 skill v ↔
      (if decide (skill = cm_skill_id promote_c) then v = pretty (cm_candidate_version promote_c)
       else live measured skill v).
Proof.
  split; [vm_compute; reflexivity|].
  exact (proj2 (proj2 (promotion_gated promote_c (signed promote_c) measured promoted.1 promoted.2
    measured_ok promote_accepted eq_refl promote_new))).
Defined.

Lemma rollback_restores_live_witness :
  rr_state rolled_back.1 = ReleaseState_ROLLED_BACK
  ∧ ∀ skill v, live rolled_back.2 skill v ↔ live measured skill v.
Proof.
  split; [vm_compute; reflexivity|].
  exact (rollback_restores_live promote_c (signed promote_c) rollback_c (signed rollback_c) measured
    promoted.1 promoted.2 rolled_back.1 rolled_back.2 measured_ok eq_refl eq_refl eq_refl
    promote_accepted rollback_accepted promote_new rollback_new).
Defined.

(** A trace that the canary routes to the candidate, and the report of its run. *)
Definition in_canary : Runtime := run_ops to_canary (runtime0 "candidate").
Definition no_selection : SkillSelection := {|
  sl_company_id := ""; sl_agent_id := ""; sl_skill_id := ""; sl_trace_id := ""; sl_schema_version := "";
  sl_deployment_id := ""; sl_experiment_id := None; sl_version := 0; sl_configuration_hash := "";
  sl_configuration := []; sl_expires_at := of_utc 0; sl_signature := "" |}.
Definition selected : SkillSelection := default no_selection (ok_or None (SkillExecution.resolve {|
  sq_company_id := "cmp_1"; sq_agent_id := "qa"; sq_skill_id := "summarize";
  sq_trace_id := candidate_trace |} evolution_deployment_signing_key in_canary).1).
Definition report : SkillExecutionResult :=
  {| xr_selection := selected; xr_score := f_of_Z 1; xr_success := true |}.
Definition reported : Runtime := (SkillExecution.record report in_canary).2.

Lemma report_recorded :
  SkillExecution.record report in_canary = (Ok {| ob_state := "canary"; ob_recorded := true |}, reported).
Proof. vm_compute. reflexivity. Qed.

Lemma observation_counted_once_witness :
  sl_version selected = 2
  ∧ SkillExecution.record report reported = (Ok {| ob_state := "canary"; ob_recorded := false |}, reported).
Proof.
  split; [vm_compute; reflexivity|].
  exact (proj2 (observation_counted_once report in_canary reported report_recorded eq_refl)).
Defined.

(** ** A release asked for at the control plane

    One L1 proposal with an eligible report, one receiver, and the requests that
    take the candidate into shadow and, once the operator has approved it, into
    canary; the witnesses of the theorems on releases across the network. *)

(** *** Evaluation *)
Definition sample_case (n : nat) : EvalCase :=
  {| ec_case_id := "case-" +:+ pretty n; ec_case_revision := "1"; ec_expects_policy_denial := false |}.
Definition sample_result (revision : string) (n : nat) : EvalResult := {|
  er_result_id := "result-" +:+ pretty n; er_case_id := "case-" +:+ pretty n;
  er_config_revision := revision; er_accepted := true; er_quality := f_of_Z 1;
  er_total_attempt_cost_usd := float_lit 5 1; er_latency_ms := f_of_Z 20; er_human_interventions := 0;
  er_policy_denied := false; er_policy_violation := false |}.
Definition sample_batch (id_ revision : string) : EvaluationBatch := {|
  eb_evaluation_id := id_; eb_dataset_revision := "data@1"; eb_config_revision := revision;
  eb_budget_usd := f_of_Z 40; eb_cases := sample_case <$> seq 0 50;
  eb_results := sample_result revision <$> seq 0 50 |}.
Definition baseline_batch : EvaluationBatch := sample_batch "evb" "summarize@1".
Definition candidate_batch : EvaluationBatch := sample_batch "evc" "summarize@2".
Definition sample_gates : EvaluationPolicy := {|
  ep_minimum_sample_count := 50; ep_minimum_candidate_accepted_quality := float_lit 5 1;
  ep_maximum_cost_per_accepted_outcome_usd := f_of_Z 1;
  ep_maximum_total_attempt_cost_usd := Some (f_of_Z 30) |}.
Definition sample_comparison : EvaluationComparison :=
  compare_evaluations baseline_batch candidate_batch sample_gates.

Lemma batches_valid : batch_valid baseline_batch = true ∧ batch_valid candidate_batch = true.
Proof. vm_compute. done. Qed.
Lemma comparison_eligible : cp_eligible sample_comparison = true.
Proof. vm_compute. reflexivity. Qed.

Lemma eligible_exactly_witness :
  cp_eligible sample_comparison = true
  ∧ arm_clean candidate_batch ∧ eb_cases baseline_batch ≡ₚ eb_cases candidate_batch.
Proof.
  destruct (proj1 (eligible_exactly baseline_batch candidate_batch sample_gates
    (proj1 batches_valid) (proj2 batches_valid)) comparison_eligible) as (_ & H1 & _ & H2 & _).
  exact (conj comparison_eligible (conj H1 H2)).
Defined.

(** *** The control plane *)
Definition sample_proposal : EvolutionProposalRecord := {|
  proposal_id := "prop_1"; proposal_company_id := "cmp_1"; proposal_tier := Str "L1";
  proposal_scope := "skill:summarize"; proposal_evidence := []; proposal_expected_benefit := "quality";
  proposal_risk := "low"; proposal_approval_state := Some (Str "pending");
  proposal_record_rollout_state := Some (Str "proposed"); proposal_approval_id := None;
  proposal_metadata := []; proposal_created_at := of_utc 0; proposal_updated_at := of_utc 0 |}.
Definition release_db : DB := set_proposals [sample_proposal] (sample_db []).
Definition control0 : Control := {|
  c_session := {| db := release_db; durable := release_db; ticks := 0; ids := 0 |};
  c_tables := {| x_deployments := []; x_reports := [] |};
  c_durable := {| x_deployments := []; x_reports := [] |} |}.
(** The evaluation is recorded first. *)
Definition evaluated : Control :=
  (transaction (record_evaluation_comparison "cmp_1" "prop_1" baseline_batch candidate_batch sample_gates "lead")
     control0).2.
Definition world0 : World := {| w_control := evaluated; w_runtime := runtime0 "candidate"; w_calls := 0 |}.

Definition ask (a : ReleaseAction) : release_request := {|
  rq_company_id := "cmp_1"; rq_proposal_id := "prop_1"; rq_evaluation_report_id := "evr_0";
  rq_skill_id := "summarize"; rq_agent_id := "qa"; rq_baseline_version := 1; rq_candidate_version := 2;
  rq_baseline_config_hash := cm_baseline_config_hash promote_c;
  rq_candidate_config_hash := cm_candidate_config_hash promote_c; rq_action := a |}.

Definition delivers (_ : nat) : exchange := Delivered.
(** The answer of the second call is lost. *)
Definition loses_second (n : nat) : exchange := if decide (n = 1%nat) then ResponseLost else Delivered.

Definition shadowed : result release_response * World := release delivers (ask ReleaseAction_SHADOW) "ops" world0.

(** *** Shadow, then canary once it is approved *)
Definition after {A} (m : result A * World) : World := m.2.
Definition shadow_world : World := after shadowed.
Definition refused : result release_response * World :=
  release delivers (ask ReleaseAction_CANARY) "ops" shadow_world.
Definition pending_ids (w : World) : list string :=
  approval_id <$> t_approvals (db (c_session (w_control w))).
Definition approval_session : Session :=
  (approve (default "" (head (pending_ids (after refused)))) "lead" (c_session (w_control (after refused)))).2.
Definition approved_world : World := {|
  w_control := {| c_session := (checkpoint approval_session).2; c_tables := c_tables (w_control (after refused));
                  c_durable := c_durable (w_control (after refused)) |};
  w_runtime := w_runtime (after refused); w_calls := w_calls (after refused) |}.
Definition canaried : result release_response * World :=
  release delivers (ask ReleaseAction_CANARY) "ops" approved_world.

Lemma shadow_then_canary :
  (shadowed.1, refused.1) =
    (Ok {| rr_deployment_id := "dep_2"; rr_state := ReleaseState_SHADOW; rr_version := 1; rr_experiment_id := None |},
     Raise (ExecutionDenied "skill_release_approval_required" 403)).
Proof. vm_compute. reflexivity. Qed.

(** *** Witnesses *)
Definition start_net : Net :=
  {| n_control := control0; n_runtime := runtime0 "candidate"; n_issued := []; n_answers := [] |}.

Lemma start_net_ok : net_ok start_net.
Proof.
  destruct (runtime0_ok "candidate") as (H1 & H2 & H3); [done|].
  split; [|done|by apply start_ok; try done; apply prefix_nil|].
  - split; [constructor..|]. by intros row ?%not_elem_of_nil.
  - by intros m a ?%not_elem_of_nil.
Qed.

Lemma evaluation_step : protocol_step start_net (net_of world0 [] []).
Proof.
  exact (step_evaluate start_net "cmp_1" "prop_1" baseline_batch candidate_batch sample_gates "lead" _ evaluated
    (proj1 batches_valid) (proj2 batches_valid) (surjective_pairing _)).
Qed.
Lemma world0_ok : net_ok (net_of world0 [] []).
Proof. exact (protocol_step_ok _ _ evaluation_step start_net_ok). Qed.
Lemma world0_reached : anywhere start_net world0.
Proof. exists [], []. split; [|done]. exact (rtc_once _ _ evaluation_step). Qed.

Lemma preserves_after {S A} (P : S → Prop) (m : M S A) s : preserves P m → P s → P (m s).2.
Proof. intros Hm Hs. destruct (m s) as [r s'] eqn:H. by eapply Hm. Qed.

Lemma shadow_reached : ∃ issued answers, rtc protocol_step start_net (net_of shadow_world issued answers).
Proof.
  pose proof (serve_reached delivers start_net (CallRelease (ask ReleaseAction_SHADOW) "ops") start_net_ok) as Hs.
  cbn [serve] in Hs. destruct (preserves_after _ _ _ Hs world0_reached) as (i & a & H & _).
  exists i, a. unfold shadow_world, after, shadowed. exact H.
Qed.

Lemma shadow_rows :
  dp_state <$> x_deployments (c_durable (w_control shadow_world)) = [Reached ReleaseState_SHADOW].
Proof. vm_compute. reflexivity. Qed.

Lemma recorded_states_were_reached_witness :
  ∃ row r k, row ∈ x_deployments (c_durable (w_control shadow_world)) ∧ dp_acknowledgement row = Some r
    ∧ rr_state r = ReleaseState_SHADOW ∧ k ∈ e_commands (w_runtime shadow_world) ∧ ck_response k = r.
Proof.
  destruct shadow_reached as (i & a & Hrun). destruct (runtime0_ok "candidate") as (H1 & H2 & H3); [done|].
  pose proof (recorded_states_were_reached start_net (net_of shadow_world i a) Hrun
    (start_ok _ H1 H2 H3 [] (prefix_nil _)) eq_refl eq_refl eq_refl) as [Hst _].
  assert (Reached ReleaseState_SHADOW ∈ dp_state <$> x_deployments (c_durable (w_control shadow_world)))
    as (row & Hrow & Hin)%list_elem_of_fmap by (rewrite shadow_rows; left).
  destruct (Hst row _ Hin (eq_sym Hrow)) as (r & k & Ha & Hs & _ & Hk & Hr).
  exists row, r, k. exact (conj Hin (conj Ha (conj Hs (conj Hk Hr)))).
Defined.

Lemma routes_refine_protocol_witness :
  ∃ issued answers, rtc protocol_step (net_of world0 [] [])
    (net_of (serve_all loses_second [CallRelease (ask ReleaseAction_SHADOW) "ops";
                                     CallReconcile "cmp_1" "prop_1" "ops"] world0) issued answers).
Proof. exact (routes_refine_protocol loses_second _ world0 [] [] world0_ok). Defined.

Lemma no_receipts_owned : receipts_owned (w_runtime world0).
Proof. by intros k ?%not_elem_of_nil. Qed.
Definition shadow_answer : release_response :=
  {| rr_deployment_id := "dep_2"; rr_state := ReleaseState_SHADOW; rr_version := 1; rr_experiment_id := None |}.
Lemma shadow_Ok : release delivers (ask ReleaseAction_SHADOW) "ops" world0 = (Ok shadow_answer, shadow_world).
Proof. vm_compute. reflexivity. Qed.
Lemma shadow_calls : w_calls shadow_world = 2%nat.
Proof. vm_compute. reflexivity. Qed.

Lemma lost_answer_repaired_witness :
  let q := ask ReleaseAction_SHADOW in
  ∃ w2, release loses_second q "ops" world0 = (Raise (route_error transport_error), w2)
    ∧ w_runtime w2 = w_runtime shadow_world
    ∧ reconcile loses_second (rq_company_id q) (rq_proposal_id q) "ops" w2
      = (Ok shadow_answer, {| w_control := w_control shadow_world; w_runtime := w_runtime shadow_world;
                              w_calls := S (S (S (w_calls world0))) |}).
Proof.
  exact (lost_answer_repaired delivers loses_second (ask ReleaseAction_SHADOW) "ops" world0 shadow_answer
    shadow_world [] [] world0_ok no_receipts_owned shadow_Ok shadow_calls eq_refl eq_refl eq_refl).
Defined.

Definition canary_c : SkillReleaseCommand :=
  ok_or promote_c (transaction (prepare (ask ReleaseAction_CANARY) "ops" None) (w_control approved_world)).1.
Lemma canary_prepared : ∃ c', prepare (ask ReleaseAction_CANARY) "ops" None (w_control approved_world) = (Ok canary_c, c').
Proof. eexists. vm_compute. reflexivity. Qed.
Lemma canary_not_resent :
  dp_state <$> get_row dp_proposal_id "prop_1" (x_deployments (c_tables (w_control approved_world)))
  = Some (Reached ReleaseState_SHADOW).
Proof. vm_compute. reflexivity. Qed.
Lemma canary_action : cm_action canary_c = ReleaseAction_CANARY.
Proof. vm_compute. reflexivity. Qed.

Lemma command_needs_approval_witness :
  ∃ now id_, cm_approval_id canary_c = Some id_
    ∧ approves (db (c_session (w_control approved_world))) now (rq_company_id (ask ReleaseAction_CANARY))
        (decision_dict (snapshot_of_command canary_c) (cm_deployment_id canary_c) (cm_action canary_c)) id_.
Proof.
  destruct canary_prepared as [c' Hc].
  destruct (command_needs_approval _ _ _ _ _ _ Hc) as (now & [(row & Hrow & Hst & _)|(_ & _ & _ & _ & Hap)]).
  - exfalso. pose proof canary_not_resent as Hr. change (rq_proposal_id (ask ReleaseAction_CANARY)) with "prop_1" in Hrow.
    rewrite Hrow in Hr. cbn in Hr. rewrite Hst in Hr. discriminate.
  - destruct Hap as (id_ & Hid & Ha); [rewrite canary_action; discriminate|].
    exact (ex_intro _ now (ex_intro _ id_ (conj Hid Ha))).
Defined.

Lemma anywhere_session n0 w s :
  anywhere n0 w →
  anywhere n0 {| w_control := {| c_session := s; c_tables := c_tables (w_control w);
    c_durable := c_durable (w_control w) |}; w_runtime := w_runtime w; w_calls := w_calls w |}.
Proof.
  intros (i & a & H & _). exists i, a. split; [|done]. exact (rtc_r _ _ _ H (step_session _ s)).
Qed.

Lemma anywhere_prepare n0 w q actor c x :
  anywhere n0 w → prepare q actor None (w_control w) = (Ok c, x) →
  ∃ n, rtc protocol_step n0 n ∧ c ∈ n_issued n.
Proof.
  intros (i & a & H & _) Hc.
  assert (transaction (prepare q actor None) (w_control w) = (Ok c, (commit x).2)) as Ht
    by (unfold transaction; by rewrite Hc).
  eexists. split; [exact (rtc_r _ _ _ H (step_prepare (net_of w i a) q actor _ _ Ht))|]. left.
Qed.

Lemma canary_issued : ∃ n, rtc protocol_step start_net n ∧ canary_c ∈ n_issued n.
Proof.
  assert (anywhere start_net shadow_world) as H1.
  { destruct shadow_reached as (i & a & H). by exists i, a. }
  pose proof (serve_reached delivers start_net (CallRelease (ask ReleaseAction_CANARY) "ops") start_net_ok) as Hs.
  cbn [serve] in Hs. pose proof (preserves_after _ _ _ Hs H1) as H2.
  assert (anywhere start_net (after refused)) as H3 by (unfold refused, after; exact H2).
  pose proof (anywhere_session _ _ (checkpoint approval_session).2 H3) as H4.
  destruct canary_prepared as [c' Hc].
  exact (anywhere_prepare start_net approved_world _ _ _ _ H4 Hc).
Qed.

Lemma live_commands_were_measured_witness :
  ∃ n, canary_c ∈ n_issued n ∧ measured_by canary_c (x_reports (c_durable (n_control n))).
Proof.
  destruct canary_issued as (n & Hrun & Hin). destruct (runtime0_ok "candidate") as (H1 & H2 & H3); [done|].
  exists n. split; [exact Hin|].
  exact (live_commands_were_measured start_net n canary_c Hrun (start_ok _ H1 H2 H3 [] (prefix_nil _))
    eq_refl eq_refl eq_refl eq_refl eq_refl Hin (or_introl canary_action)).
Defined.
