(* ===== verification/ProcessSupervisor.v ===== *)
(** * Supervision of a local executor process

    [AgentWakeupAdapterConfig.command] of [domain/agent_wakeup_adapter.py] and
    [ControlPlaneAgentRunner._execute_process] of [agent_runner.py]: a local
    adapter is run in a workspace of its own, polled against its deadline and the
    operator's control action, and killed and reaped when anything goes wrong.

    The operating system is a parameter: what the process and its pipes do, the
    clock at each poll, the outcome of each signal, and what other sessions do to
    the database between two polls.  The deadline is checked before every wait of
    a quarter of a second, so [4 * timeout + 2] polls are enough fuel.
    Cancellation of the coroutine from outside and a workspace whose removal fails
    are not modelled, nor what becomes of the pipes: the code closes none itself, it
    only ends the task that reads and writes them. *)

From S2P Require Import Prelude PyNum PyTime PyValue Models Metadata WakeupAdapter Store.
From S2P Require Import ExecutionLedger AgentRunner.

(** ** [shlex.split]: POSIX rules, no comments *)
Inductive lex_state :=
  | LexStart
  | LexWord
  | LexQuote (q : ascii)
  | LexEscape (back : option ascii).

Definition lex_space (c : ascii) : bool :=
  (code c =? 32)%N || (code c =? 9)%N || (code c =? 13)%N || (code c =? 10)%N.
Definition quote_single : ascii := ascii_of_N 39.
Definition quote_double : ascii := ascii_of_N 34.
Definition backslash : ascii := ascii_of_N 92.
Definition is_quote (c : ascii) : bool := bool_decide (c = quote_single) || bool_decide (c = quote_double).

Definition snoc (t : string) (c : ascii) : string := t +:+ String c "".

(** [tok] is the token so far, [quoted] whether it has a quoted part. *)
Fixpoint lex (st : lex_state) (tok : string) (quoted : bool) (s : string) : result (list string) :=
  match st, s with
  | LexStart, EmptyString => Ok []
  | LexWord, EmptyString => Ok (if str_empty tok && negb quoted then [] else [tok])
  | LexQuote _, EmptyString => Raise (value_error "No closing quotation")
  | LexEscape _, EmptyString => Raise (value_error "No escaped character")
  | LexStart, String c s' =>
      if lex_space c then lex LexStart "" false s'
      else if bool_decide (c = backslash) then lex (LexEscape None) "" false s'
      else if is_quote c then lex (LexQuote c) "" false s'
      else lex LexWord (snoc "" c) false s'
  | LexWord, String c s' =>
      if lex_space c then
        if str_empty tok && negb quoted then lex LexStart "" false s'
        else ts ← lex LexStart "" false s'; Ok (tok :: ts)
      else if is_quote c then lex (LexQuote c) tok quoted s'
      else if bool_decide (c = backslash) then lex (LexEscape None) tok quoted s'
      else lex LexWord (snoc tok c) quoted s'
  | LexQuote q, String c s' =>
      if bool_decide (c = q) then lex LexWord tok true s'
      else if bool_decide (c = backslash) && bool_decide (q = quote_double)
      then lex (LexEscape (Some q)) tok true s'
      else lex (LexQuote q) (snoc tok c) true s'
  | LexEscape None, String c s' => lex LexWord (snoc tok c) quoted s'
  | LexEscape (Some q), String c s' =>
      let tok := if bool_decide (c = backslash) || bool_decide (c = q) then tok else snoc tok backslash in
      lex (LexQuote q) (snoc tok c) quoted s'
  end.
Definition shlex_split (s : string) : result (list string) := lex LexStart "" false s.

Example lex_plain : shlex_split " run  --input 'a b' x\ y " = Ok ["run"; "--input"; "a b"; "x y"].
Proof. reflexivity. Qed.
Example lex_empty_quotes : shlex_split "a ''" = Ok ["a"; ""].
Proof. reflexivity. Qed.
Example lex_open : is_ok (shlex_split "a 'b") = false.
Proof. reflexivity. Qed.

Definition command (c : AgentWakeupAdapterConfig) : result (list string) :=
  match dict_get (awc_config c) "command" with
  | Some (PStr s) => shlex_split s
  | Some (PList l) | Some (PTuple l) => Ok (filter (λ s, s ≠ "") (py_str <$> l))
  | _ => Ok []
  end.

(** ** The outside *)
Definition _MAX_STDIO_CHARS : nat := 20000.
Definition _MAX_PROCESS_TIMEOUT_SECONDS : Z := 900.

Definition newline : ascii := ascii_of_N 10.
Definition _truncate (s : string) : string :=
  if (String.length s <=? _MAX_STDIO_CHARS)%nat then s
  else str_take _MAX_STDIO_CHARS s +:+ String newline "...[truncated]".

(** The bytes of a stream and their decoded text. *)
Record stream := { sm_bytes : string; sm_text : string }.

(** What the communication task ends with: both streams, or what it raised (the
    output limit, a broken pipe). *)
Definition communication := result (stream * stream).

Inductive signal := SIGSTOP | SIGCONT | SIGKILL.
#[global] Instance signal_eq_dec : EqDecision signal.
Proof. solve_decision. Defined.

(** One execution of the operating system: [os_done n] is the state of the
    communication task at the [n]-th poll, [os_time n] the loop's clock there, in
    microseconds. *)
Record process_os := {
  os_spawn : list string → pydict → result unit;
  os_start : Z;
  os_time : nat → Z;
  os_done : nat → option communication;
  os_signal : nat → signal → result unit;
  os_interference : nat → Session → Session;
  os_exited : bool;
  os_returncode : Z;
}.

(** What was done to the process: the signals sent to its group, whether it has been
    waited for, whether the communication task is still running, and whether the
    workspace exists. *)
Record supervision := {
  sv_signals : list signal;
  sv_reaped : bool;
  sv_communicating : bool;
  sv_workspace : bool;
}.

Definition Proc : Type := Session * supervision.

Definition in_session_db {A} (m : M Session A) : M Proc A := λ w,
  let '(r, s) := m w.1 in (r, (s, w.2)).

(** [json.dumps(request)] accepts the value. *)
Fixpoint json_serializable (v : pyval) : bool :=
  match v with
  | PSet _ | PDatetime _ | PObject _ => false
  | PList l | PTuple l => forallb json_serializable l
  | PDict d => forallb (λ kv, json_serializable kv.2) d
  | _ => true
  end.

Section supervisor.
Context (O : process_os) (model_validate_json : string → option ExecutorResponse).

(** [os.killpg(process.pid, sig)] at the [n]-th poll *)
Definition killpg (n : nat) (sig : signal) : M Proc unit := λ w,
  match os_signal O n sig with
  | Raise e => (Raise e, w)
  | Ok _ => (Ok (), (w.1, {| sv_signals := sv_signals w.2 ++ [sig]; sv_reaped := sv_reaped w.2;
                             sv_communicating := sv_communicating w.2;
                             sv_workspace := sv_workspace w.2 |}))
  end.

Definition reap : M Proc unit := modifyM (λ w,
  (w.1, {| sv_signals := sv_signals w.2; sv_reaped := true;
           sv_communicating := sv_communicating w.2; sv_workspace := sv_workspace w.2 |})).

Definition timeout_error : exn := Exn "TimeoutError" "".
Definition out_of_fuel : exn := Exn "OutOfFuel" "".

(** Read the control action and apply it; the new [paused] flag. *)
Definition apply_control (ticket : option ExecutionTicket) (n : nat) (paused : bool) : M Proc bool :=
  match ticket with
  | None => mret paused
  | Some t =>
      action ← in_session_db (control_action t);
      if decide (action = "terminate")
      then raiseM (AgentWakeupError "execution_terminated" 409 "cancelled")
      else if decide (action = "pause" ∧ paused = false)
      then _ ← killpg n SIGSTOP; mret true
      else if decide (action = "resume" ∧ paused = true)
      then _ ← killpg n SIGCONT; mret false
      else mret paused
  end.

(** [while not communication.done()], where a finished communication has waited for
    the process when it did not raise: the [n]-th poll and the ones after it. *)
Fixpoint poll (fuel : nat) (ticket : option ExecutionTicket) (deadline : Z) (n : nat) (paused : bool)
    : M Proc communication :=
  match fuel with
  | 0%nat => raiseM out_of_fuel
  | S fuel' =>
      _ ← modifyM (λ w, (os_interference O n w.1, w.2));
      match os_done O n with
      | Some c =>
          _ ← modifyM (λ w, (w.1, {| sv_signals := sv_signals w.2; sv_reaped := is_ok c;
                                     sv_communicating := false; sv_workspace := sv_workspace w.2 |}));
          mret c
      | None =>
          if deadline <=? os_time O n then raiseM timeout_error
          else paused' ← apply_control ticket n paused; poll fuel' ticket deadline (S n) paused'
      end
  end.

(** The handlers of the [try] block: kill a process that is still there and wait
    for it; one whose return code is known has been waited for. *)
Definition on_failure (n : nat) (e : exn) : M Proc (stream * stream) :=
  _ ← whenM (negb (os_exited O)) (killpg n SIGKILL);
  _ ← reap;
  raiseM (if decide (e = timeout_error) then AgentWakeupError "local_adapter_timeout" 504 "timeout" else e).

(** The [finally] block: a communication task that has not ended is cancelled and
    waited for, and the workspace is removed. *)
Definition finally {A} (m : M Proc A) : M Proc A := λ w,
  let '(r, w') := m w in
  (r, (w'.1, {| sv_signals := sv_signals w'.2; sv_reaped := sv_reaped w'.2;
                sv_communicating := false; sv_workspace := false |})).

Definition fuel_for (timeout : Z) : nat := Z.to_nat (4 * timeout) + 2.

Definition supervise (ticket : option ExecutionTicket) (timeout : Z) : M Proc (stream * stream) :=
  finally (catchM (c ← poll (fuel_for timeout) ticket (os_start O + timeout * us_per_second) 0 false;
                   liftM c)
             (on_failure 0)).

(** [bytes.strip()] is empty *)
Fixpoint blank_bytes (s : string) : bool :=
  match s with
  | EmptyString => true
  | String c s' => ((9 <=? code c)%N && (code c <=? 13)%N || (code c =? 32)%N) && blank_bytes s'
  end.

(** [s.splitlines()[-1]] of a text that does not end in a line break *)
Definition line_break (c : ascii) : bool :=
  ((10 <=? code c)%N && (code c <=? 13)%N) || ((28 <=? code c)%N && (code c <=? 30)%N) || (code c =? 133)%N.
Fixpoint last_line (acc s : string) : string :=
  match s with
  | EmptyString => acc
  | String c s' => if line_break c then last_line "" s' else last_line (snoc acc c) s'
  end.

(** The answer of a process that ended. *)
Definition process_output (c : AgentWakeupAdapterConfig) (out err : stream) : result pydict :=
  let stdout := _truncate (sm_text out) in
  if negb (os_returncode O =? 0)
  then Raise (AgentWakeupError "local_adapter_failed" 502 "process_failed")
  else if contract_v1 c then
    match model_validate_json (sm_bytes out) with
    | None => Raise (AgentWakeupError "executor_contract_invalid" 502 "wakeup_error")
    | Some r =>
        if decide (er_status r = "failed") then Raise (wakeup_error "process_executor_failed" 502)
        else Ok (executor_output "process" r)
    end
  else
    Ok [("status", PStr (if blank_bytes (sm_bytes out) then "recorded" else "ok"));
        ("adapter", PStr "process"); ("exit_code", PInt (os_returncode O)); ("stdout", PStr stdout);
        ("stderr", PStr (_truncate (sm_text err)));
        ("summary", PStr (if str_empty (strip stdout) then "ok" else last_line "" (strip stdout)))].

Definition fresh_supervision : supervision := {|
  sv_signals := []; sv_reaped := false; sv_communicating := true; sv_workspace := true |}.

Definition _execute_process (c : AgentWakeupAdapterConfig) (request : pydict)
    (ticket : option ExecutionTicket) : M Proc pydict :=
  cmd ← liftM (command c);
  _ ← raise_ifM (bool_decide (cmd = []))
        (AgentWakeupError "local_adapter_command_required" 400 "adapter_config_error");
  _ ← raise_ifM (truthy (string_value c ["cwd"; "working_directory"]))
        (wakeup_error "local_adapter_custom_workspace_forbidden" 403);
  timeout ← liftM (process_timeout_seconds c _MAX_PROCESS_TIMEOUT_SECONDS);
  _ ← raise_ifM (negb (json_serializable (PDict request)))
        (Exn "TypeError" "Object is not JSON serializable");
  _ ← liftM (os_spawn O cmd request);
  _ ← modifyM (λ w, (w.1, fresh_supervision));
  streams ← supervise ticket timeout;
  liftM (process_output c streams.1 streams.2).

(** As the [execute_process] of an adapter, for the session alone. *)
Definition run_process (c : AgentWakeupAdapterConfig) (request : pydict)
    (ticket : option ExecutionTicket) : M Session pydict := λ s,
  let '(r, w) := _execute_process c request ticket (s, {|
    sv_signals := []; sv_reaped := true; sv_communicating := false; sv_workspace := false |}) in
  (r, w.1).
End supervisor.

(** ** The loop ends *)
Section termination.
Context (O : process_os).

(** Each wait of the loop takes a quarter of a second, unless the task ends. *)
Definition clock_advances : Prop :=
  os_start O ≤ os_time O 0 ∧ ∀ n, os_time O n + 250000 ≤ os_time O (S n).

Lemma time_at n : clock_advances → os_start O + 250000 * Z.of_nat n ≤ os_time O n.
Proof.
  intros [H0 Hs]. induction n as [|n IH]; [lia|]. specialize (Hs n). lia.
Qed.

Lemma poll_enough ticket timeout f k n paused w :
  clock_advances → (0 < f)%nat → 4 * timeout + 1 ≤ Z.of_nat (n + f) →
  poll O (f + k) ticket (os_start O + timeout * us_per_second) n paused w =
  poll O f ticket (os_start O + timeout * us_per_second) n paused w.
Proof.
  intros Hc. revert n paused w. induction f as [|f IH]; intros n paused w Hf Hle; [lia|].
  cbn [poll Nat.add]. rewrite !M_bind_run. cbn [modifyM]. destruct (os_done O n) as [c|]; [done|].
  destruct (Z.leb_spec (os_start O + timeout * us_per_second) (os_time O n)) as [|Hlt]; [done|].
  pose proof (time_at n Hc). unfold us_per_second in Hlt.
  rewrite !M_bind_run. destruct (apply_control O ticket n paused _) as [[p|e] w']; [|done].
  apply IH; lia.
Qed.

(** Whatever the operator does, the loop makes no more polls than the fuel. *)
Lemma supervise_enough ticket timeout k w :
  clock_advances → 0 ≤ timeout →
  poll O (fuel_for timeout + k) ticket (os_start O + timeout * us_per_second) 0 false w =
  poll O (fuel_for timeout) ticket (os_start O + timeout * us_per_second) 0 false w.
Proof. intros Hc Ht. apply poll_enough; [done| |]; unfold fuel_for; lia. Qed.
End termination.

(** ** What is left of the process *)
Section safety.
Context (O : process_os).

(** Stops and continues alternate; [paused] tells which comes next. *)
Inductive alternating : bool → list signal → Prop :=
  | alt_nil : alternating false []
  | alt_stop l : alternating false l → alternating true (l ++ [SIGSTOP])
  | alt_cont l : alternating true l → alternating false (l ++ [SIGCONT]).

Lemma control_signals ticket n paused w r w' :
  apply_control O ticket n paused w = (r, w') → alternating paused (sv_signals w.2) →
  ∃ p, alternating p (sv_signals w'.2) ∧ (∀ q, r = Ok q → p = q)
    ∧ sv_workspace w'.2 = sv_workspace w.2 ∧ sv_reaped w'.2 = sv_reaped w.2.
Proof.
  unfold apply_control. destruct ticket as [t|].
  2:{ intros [= <- <-] Ha. exists paused. split_and!; try done. by intros q [= ->]. }
  intros H Ha. apply M_bind_inv in H as [(action & w1 & H1 & H)|(e & H1 & ->)].
  2:{ unfold in_session_db, control_action in H1. rewrite M_bind_run in H1. cbn in H1. discriminate H1. }
  assert (w1.2 = w.2) as Hw1.
  { unfold in_session_db in H1. destruct (control_action t w.1). by injection H1 as _ <-. }
  rewrite <- Hw1 in *. repeat case_decide.
  - injection H as <- <-. exists paused. split_and!; try done.
  - destruct_and!. subst. rewrite M_bind_run in H. unfold killpg in H.
    destruct (os_signal O n SIGSTOP); injection H as <- <-.
    + exists true. split_and!; try done; [by constructor|]. by intros q [= <-].
    + exists false. split_and!; try done.
  - destruct_and!. subst. rewrite M_bind_run in H. unfold killpg in H.
    destruct (os_signal O n SIGCONT); injection H as <- <-.
    + exists false. split_and!; try done; [by constructor|]. by intros q [= <-].
    + exists true. split_and!; try done.
  - injection H as <- <-. exists paused. split_and!; try done. by intros q [= ->].
Qed.

Lemma poll_signals fuel ticket deadline n paused w r w' :
  poll O fuel ticket deadline n paused w = (r, w') → alternating paused (sv_signals w.2) →
  (∃ p, alternating p (sv_signals w'.2))
  ∧ (∀ c, r = Ok c → sv_reaped w'.2 = is_ok c ∧ ∃ m, os_done O m = Some c).
Proof.
  revert n paused w. induction fuel as [|fuel IH]; intros n paused w; cbn [poll].
  - intros [= <- <-] Ha. split; [eauto|done].
  - rewrite M_bind_run. cbn [modifyM]. destruct (os_done O n) as [c|] eqn:Hd.
    + intros [= <- <-] Ha. split; [by eauto|]. intros c' [= <-]. eauto.
    + destruct (deadline <=? os_time O n); [intros [= <- <-] Ha; split; [by eauto|done]|].
      intros H Ha. apply M_bind_inv in H as [(p & w1 & H1 & H)|(e & H1 & ->)].
      * destruct (control_signals _ _ _ _ _ _ H1 Ha) as (p' & Hp & Hq & _).
        rewrite (Hq p eq_refl) in Hp. by eapply IH.
      * destruct (control_signals _ _ _ _ _ _ H1 Ha) as (p' & Hp & _). split; [eauto|done].
Qed.

(** A process can be killed. *)
Definition killable : Prop := ∀ n, os_signal O n SIGKILL = Ok ().

(** What supervision leaves behind. *)
Definition put_away (r : result (stream * stream)) (v : supervision) : Prop :=
  sv_workspace v = false ∧ sv_communicating v = false ∧ sv_reaped v = true
  ∧ ∃ p l, alternating p l
    ∧ match r with
      | Ok streams => sv_signals v = l ∧ ∃ n, os_done O n = Some (Ok streams)
      | Raise _ => sv_signals v = l ++ (if os_exited O then [] else [SIGKILL])
      end.

Lemma supervise_put_away ticket timeout s r w' :
  killable → supervise O ticket timeout (s, fresh_supervision) = (r, w') → put_away r w'.2.
Proof.
  intros Hk. unfold supervise, finally.
  destruct (catchM _ _ _) as [r1 w1] eqn:H1. intros [= <- <-]. unfold put_away. cbn [snd sv_workspace
    sv_communicating sv_reaped sv_signals]. split; [done|]. split; [done|].
  unfold catchM in H1.
  match type of H1 with
  | match ?m with _ => _ end = _ => destruct m as [[streams|e] w2] eqn:H2
  end.
  - injection H1 as <- <-. rewrite M_bind_Ok in H2. destruct H2 as (c & w3 & H3 & H2).
    injection H2 as Hc <-. apply poll_signals in H3 as [(p & Ha) Hd]; [|constructor].
    destruct (Hd c eq_refl) as [Hr Hm]. rewrite Hr, Hc. split; [done|]. exists p, (sv_signals w3.2).
    rewrite <- Hc. split_and!; done.
  - assert (∃ p, alternating p (sv_signals w2.2)) as (p & Ha).
    { apply M_bind_inv in H2 as [(c & w3 & H3 & H2)|(e' & H3 & [= <-])].
      - unfold liftM in H2. injection H2 as _ <-. apply poll_signals in H3 as [? _]; [done|constructor].
      - apply poll_signals in H3 as [? _]; [done|constructor]. }
    unfold on_failure in H1. rewrite M_bind_run in H1.
    destruct (os_exited O); cbn [negb whenM] in H1.
    + cbn in H1. injection H1 as <- <-. split; [done|]. exists p, (sv_signals w2.2).
      split; [done|]. cbn. by rewrite app_nil_r.
    + unfold killpg in H1. rewrite Hk in H1. cbn in H1. injection H1 as <- <-. split; [done|].
      by exists p, (sv_signals w2.2).
Qed.
End safety.

(** C36. A supervised process is always put away, and its loop ends: when the clock
    advances by the length of a wait between polls, the poll loop needs no more
    than [4 * timeout + 2] polls, whatever the operators do meanwhile; when the
    process can be killed and the supervision is not cancelled from outside, then
    whether it returns or raises, the process has been waited for, the task that
    talks to it is over (finished or cancelled; the pipes themselves are not part
    of the claim) and its workspace is removed; when it raises, a process that had
    not exited by itself was killed last, after stops and continues that alternate;
    output is returned only from a communication that finished. *)
Theorem process_put_away O ticket timeout s r w' :
  clock_advances O → killable O → 0 ≤ timeout →
  supervise O ticket timeout (s, fresh_supervision) = (r, w') →
  put_away O r w'.2
  ∧ ∀ k, poll O (fuel_for timeout + k) ticket (os_start O + timeout * us_per_second) 0 false
           (s, fresh_supervision)
       = poll O (fuel_for timeout) ticket (os_start O + timeout * us_per_second) 0 false
           (s, fresh_supervision).
Proof.
  intros Hc Hk Ht H. split; [by eapply supervise_put_away|]. intros k. by apply supervise_enough.
Qed.

(** ** A process that hangs *)
Definition hanging : process_os := {|
  os_spawn := λ _ _, Ok (); os_start := 0; os_time := λ n, 250000 * Z.of_nat n; os_done := λ _, None;
  os_signal := λ _ _, Ok (); os_interference := λ _ s, s; os_exited := false; os_returncode := 0 |}.

Definition idle_session : Session :=
  let d := Build_DB [] [] [] [] [] [] [] [] [] [] [] [] [] [] [] [] [] in
  {| db := d; durable := d; ticks := 0; ids := 0 |}.

Lemma process_put_away_witness :
  ∃ w', supervise hanging None 2 (idle_session, fresh_supervision)
          = (Raise (AgentWakeupError "local_adapter_timeout" 504 "timeout"), w')
    ∧ sv_signals w'.2 = [SIGKILL] ∧ put_away hanging (Raise timeout_error) w'.2.
Proof.
  assert (clock_advances hanging) as Hc by (split; cbn; intros; lia).
  assert (killable hanging) as Hk by done.
  assert (supervise hanging None 2 (idle_session, fresh_supervision)
          = (Raise (AgentWakeupError "local_adapter_timeout" 504 "timeout"),
             (supervise hanging None 2 (idle_session, fresh_supervision)).2)) as H by (vm_compute; reflexivity).
  eexists. split; [exact H|]. split; [vm_compute; reflexivity|].
  exact (proj1 (process_put_away hanging None 2 _ _ _ Hc Hk ltac:(lia) H)).
Defined.
