(* ===== verification/CoordinatorWorkflow.v ===== *)
(** * Coordinator workflow aggregate

    [services/orchestration/coordinator/core/domain/workflow_state.py]: one
    workflow row, its lifecycle, its participating agents and its phase.  The
    clock reading of an operation is an argument of it. *)

From S2P Require Import Prelude PyNum PyTime PyValue StateMachine.

Definition invalid_workflow (msg : string) : exn := Exn "InvalidCoordinatorWorkflowError" msg.

Inductive CoordinatorWorkflowStatus :=
  | Workflow_ACTIVE
  | Workflow_PAUSED
  | Workflow_COMPLETED
  | Workflow_FAILED.
#[global] Instance CoordinatorWorkflowStatus_eq_dec : EqDecision CoordinatorWorkflowStatus.
Proof. solve_decision. Defined.
Definition CoordinatorWorkflowStatus_value (x : CoordinatorWorkflowStatus) : string :=
  match x with
  | Workflow_ACTIVE => "active"
  | Workflow_PAUSED => "paused"
  | Workflow_COMPLETED => "completed"
  | Workflow_FAILED => "failed"
  end.
#[global] Program Instance CoordinatorWorkflowStatus_StrEnum : StrEnum CoordinatorWorkflowStatus := {|
  enum_name := "CoordinatorWorkflowStatus";
  members := [Workflow_ACTIVE; Workflow_PAUSED; Workflow_COMPLETED; Workflow_FAILED];
  value := CoordinatorWorkflowStatus_value;
|}.
Solve All Obligations with solve_str_enum.

Definition VALID_TRANSITIONS (s : CoordinatorWorkflowStatus) : list CoordinatorWorkflowStatus :=
  match s with
  | Workflow_ACTIVE => [Workflow_PAUSED; Workflow_COMPLETED; Workflow_FAILED]
  | Workflow_PAUSED => [Workflow_ACTIVE; Workflow_FAILED]
  | Workflow_COMPLETED => []
  | Workflow_FAILED => []
  end.

(** The persisted record ([db/models.py]). *)
Record WorkflowState := {
  wf_workflow_id : string;
  wf_type : string;
  wf_status : string;
  wf_current_phase : string;
  wf_agents_involved : list string;
  wf_created_at : datetime;
  wf_updated_at : datetime;
  wf_context : pydict;
}.

Record CoordinatorWorkflowStatusChanged := {
  wsc_workflow_id : string;
  wsc_previous_status : CoordinatorWorkflowStatus;
  wsc_status : CoordinatorWorkflowStatus;
  wsc_occurred_at : datetime;
}.

Definition to_payload (e : CoordinatorWorkflowStatusChanged) : pydict :=
  [("workflow_id", PStr (wsc_workflow_id e));
   ("previous_status", PStr (value (wsc_previous_status e)));
   ("status", PStr (value (wsc_status e)));
   ("occurred_at", PStr (isoformat "T" (wsc_occurred_at e)))].

Record CoordinatorWorkflowState := {
  workflow_id : string;
  workflow_type : string;
  status : CoordinatorWorkflowStatus;
  current_phase : string;
  agents_involved : list string;
  created_at : datetime;
  updated_at : datetime;
  context : pydict;
  _events : list CoordinatorWorkflowStatusChanged;
}.

(** [a < b]: a naive and an aware datetime cannot be compared. *)
Definition dt_lt (a b : datetime) : result bool :=
  match dt_offset a, dt_offset b with
  | None, None | Some _, Some _ => Ok (as_utc a <? as_utc b)
  | _, _ => Raise (Exn "TypeError" "can't compare offset-naive and offset-aware datetimes")
  end.

Definition _require_text (s field_name : string) : result string :=
  let normalized := strip s in
  if str_empty normalized then Raise (invalid_workflow (field_name +:+ " must not be empty"))
  else Ok normalized.

Definition _normalize_agents (agents : list string) : result (list string) :=
  normalized ← mapR (λ a, _require_text a "agent_id") agents;
  if decide (NoDup normalized) then Ok normalized
  else Raise (invalid_workflow "agents_involved must be unique").

Definition _validate (w : CoordinatorWorkflowState) : result unit :=
  before ← dt_lt (updated_at w) (created_at w);
  _ ← raise_if before (invalid_workflow "updated_at cannot precede created_at");
  _ ← raise_if (negb (bool_decide (NoDup (agents_involved w))))
        (invalid_workflow "agents_involved must be unique");
  raise_if (bool_decide (agents_involved w = []))
    (invalid_workflow "workflow must involve at least one agent").

Definition create (id_ type_ phase : string) (agents : list string) (ctx : option pydict)
    (st : CoordinatorWorkflowStatus) (created : option datetime) (now : datetime)
    : result CoordinatorWorkflowState :=
  id' ← _require_text id_ "workflow_id";
  type' ← _require_text type_ "workflow_type";
  phase' ← _require_text phase "current_phase";
  agents' ← _normalize_agents agents;
  let state := {| workflow_id := id'; workflow_type := type'; status := st; current_phase := phase';
                  agents_involved := agents'; created_at := default now created; updated_at := now;
                  context := dict_or_empty ctx; _events := [] |} in
  _ ← _validate state;
  Ok state.

Definition from_record (r : WorkflowState) : result CoordinatorWorkflowState :=
  id' ← _require_text (wf_workflow_id r) "workflow_id";
  type' ← _require_text (wf_type r) "workflow_type";
  st ← parse_enum (wf_status r);
  phase' ← _require_text (wf_current_phase r) "current_phase";
  agents' ← _normalize_agents (wf_agents_involved r);
  let state := {| workflow_id := id'; workflow_type := type'; status := st; current_phase := phase';
                  agents_involved := agents'; created_at := wf_created_at r;
                  updated_at := wf_updated_at r; context := wf_context r; _events := [] |} in
  _ ← _validate state;
  Ok state.

Definition transition_to (w : CoordinatorWorkflowState) (st : CoordinatorWorkflowStatus)
    (occurred_at : option datetime) (now : datetime) : result CoordinatorWorkflowState :=
  if decide (st = status w) then Ok w
  else if decide (st ∈ VALID_TRANSITIONS (status w)) then
    let timestamp := default now occurred_at in
    Ok {| workflow_id := workflow_id w; workflow_type := workflow_type w; status := st;
          current_phase := current_phase w; agents_involved := agents_involved w;
          created_at := created_at w; updated_at := timestamp; context := context w;
          _events := _events w ++ [{| wsc_workflow_id := workflow_id w;
                                      wsc_previous_status := status w; wsc_status := st;
                                      wsc_occurred_at := timestamp |}] |}
  else Raise (Exn "InvalidCoordinatorWorkflowTransitionError"
         ("cannot transition coordinator workflow " +:+ workflow_id w +:+ " from "
          +:+ value (status w) +:+ " to " +:+ value st)).

Definition add_agent (w : CoordinatorWorkflowState) (agent_id : string) (now : datetime)
    : result CoordinatorWorkflowState :=
  normalized ← _require_text agent_id "agent_id";
  if decide (normalized ∈ agents_involved w) then Ok w
  else Ok {| workflow_id := workflow_id w; workflow_type := workflow_type w; status := status w;
             current_phase := current_phase w; agents_involved := agents_involved w ++ [normalized];
             created_at := created_at w; updated_at := now; context := context w;
             _events := _events w |}.

Definition advance_phase (w : CoordinatorWorkflowState) (phase : string) (now : datetime)
    : result CoordinatorWorkflowState :=
  normalized ← _require_text phase "current_phase";
  if decide (normalized = current_phase w) then Ok w
  else Ok {| workflow_id := workflow_id w; workflow_type := workflow_type w; status := status w;
             current_phase := normalized; agents_involved := agents_involved w;
             created_at := created_at w; updated_at := now; context := context w;
             _events := _events w |}.

Definition to_record_kwargs (w : CoordinatorWorkflowState) : result WorkflowState :=
  _ ← _validate w;
  Ok {| wf_workflow_id := workflow_id w; wf_type := workflow_type w; wf_status := value (status w);
        wf_current_phase := current_phase w; wf_agents_involved := agents_involved w;
        wf_created_at := created_at w; wf_updated_at := updated_at w; wf_context := context w |}.

Definition pull_events (w : CoordinatorWorkflowState)
    : list CoordinatorWorkflowStatusChanged * CoordinatorWorkflowState :=
  (_events w, {| workflow_id := workflow_id w; workflow_type := workflow_type w; status := status w;
                 current_phase := current_phase w; agents_involved := agents_involved w;
                 created_at := created_at w; updated_at := updated_at w; context := context w;
                 _events := [] |}).

(** ** Sequences of commands *)
Inductive workflow_command :=
  | TransitionTo (st : CoordinatorWorkflowStatus) (occurred_at : option datetime)
  | AddAgent (agent_id : string)
  | AdvancePhase (phase : string).

Definition run_command (w : CoordinatorWorkflowState) (c : workflow_command * datetime)
    : result CoordinatorWorkflowState :=
  match c with
  | (TransitionTo st at_, now) => transition_to w st at_ now
  | (AddAgent a, now) => add_agent w a now
  | (AdvancePhase p, now) => advance_phase w p now
  end.

Fixpoint run_commands (w : CoordinatorWorkflowState) (cs : list (workflow_command * datetime))
    : result CoordinatorWorkflowState :=
  match cs with
  | [] => Ok w
  | c :: cs' => w' ← run_command w c; run_commands w' cs'
  end.

(** ** The invariant *)
Definition clean_text (s : string) : Prop := strip s = s ∧ s ≠ "".

Definition well_formed (w : CoordinatorWorkflowState) : Prop :=
  clean_text (workflow_id w) ∧ clean_text (workflow_type w) ∧ clean_text (current_phase w)
  ∧ Forall clean_text (agents_involved w) ∧ NoDup (agents_involved w) ∧ agents_involved w ≠ [].

(** A log that leads from one status to another along the table. *)
Inductive replays : CoordinatorWorkflowStatus → list CoordinatorWorkflowStatusChanged →
    CoordinatorWorkflowStatus → Prop :=
  | replays_nil s : replays s [] s
  | replays_snoc s log e :
      replays s log (wsc_previous_status e) →
      wsc_status e ∈ VALID_TRANSITIONS (wsc_previous_status e) →
      replays s (log ++ [e]) (wsc_status e).

Lemma require_text_Ok s f t : _require_text s f = Ok t ↔ t = strip s ∧ t ≠ "".
Proof.
  unfold _require_text. destruct (str_empty (strip s)) eqn:E.
  - apply str_empty_true in E. split; [done|]. intros [-> ?]. done.
  - apply str_empty_false in E. split; [by intros [= <-]|]. by intros [-> _].
Qed.

Lemma require_text_clean s f t : _require_text s f = Ok t → clean_text t.
Proof. intros [-> Hne]%require_text_Ok. split; [apply strip_idem|done]. Qed.

Lemma require_text_fixed s f : clean_text s → _require_text s f = Ok s.
Proof. intros [Hs Hne]. apply require_text_Ok. by rewrite Hs. Qed.

Lemma normalize_agents_clean l l' :
  _normalize_agents l = Ok l' → Forall clean_text l' ∧ NoDup l'.
Proof.
  unfold _normalize_agents. intros H. inv_bind. case_decide; [|done]. injection H as <-.
  split; [|done]. apply mapR_Ok in Hm. clear -Hm.
  induction Hm; constructor; eauto using require_text_clean.
Qed.

Lemma normalize_agents_fixed l : Forall clean_text l → NoDup l → _normalize_agents l = Ok l.
Proof.
  intros Hc Hnd. unfold _normalize_agents.
  assert (mapR (λ a, _require_text a "agent_id") l = Ok l) as ->.
  { apply mapR_Ok. induction Hc; constructor; [by apply require_text_fixed|].
    inversion Hnd; subst. auto. }
  cbn. by rewrite decide_True.
Qed.

Lemma validate_Ok w u : _validate w = Ok u → NoDup (agents_involved w) ∧ agents_involved w ≠ [].
Proof.
  unfold _validate. intros H. inv_bind.
  by apply negb_false_iff, bool_decide_eq_true in Hm1; apply bool_decide_eq_false in H.
Qed.

Lemma from_record_well_formed r w : from_record r = Ok w → well_formed w ∧ _events w = [].
Proof.
  unfold from_record. intros H. inv_bind. split; [|done].
  apply validate_Ok in Hm4 as [? ?]. apply normalize_agents_clean in Hm3 as [? ?].
  unfold well_formed; cbn in *. split_and!; eauto using require_text_clean.
Qed.

Lemma run_command_well_formed w c w' : run_command w c = Ok w' → well_formed w → well_formed w'.
Proof.
  intros H (Hi & Ht & Hp & Ha & Hn & Hne). unfold well_formed.
  destruct c as [[st at_|a|p] now]; cbn in H.
  - unfold transition_to in H. repeat case_decide; simplify_eq; cbn; by split_and!.
  - unfold add_agent in H. inv_bind. case_decide; simplify_eq; cbn; split_and!; try done.
    + apply Forall_app. split; [done|]. constructor; [by eapply require_text_clean|constructor].
    + apply NoDup_app. split_and!; [done| |apply NoDup_singleton].
      intros x Hx ->%list_elem_of_singleton. done.
    + intros Hnil. by apply app_nil in Hnil as [_ ?].
  - unfold advance_phase in H. inv_bind. case_decide; simplify_eq; cbn; split_and!; try done.
    all: by eapply require_text_clean.
Qed.

Lemma run_command_replays s w c w' :
  run_command w c = Ok w' → replays s (_events w) (status w) → replays s (_events w') (status w').
Proof.
  intros H Hr. destruct c as [[st at_|a|p] now]; cbn in H.
  - unfold transition_to in H. repeat case_decide; simplify_eq; cbn; [done|].
    by apply (replays_snoc _ _ (Build_CoordinatorWorkflowStatusChanged (workflow_id w) (status w) st _)).
  - unfold add_agent in H. inv_bind. by case_decide; simplify_eq.
  - unfold advance_phase in H. inv_bind. by case_decide; simplify_eq.
Qed.

Lemma run_commands_inv s w cs w' :
  run_commands w cs = Ok w' → well_formed w → replays s (_events w) (status w) →
  well_formed w' ∧ replays s (_events w') (status w').
Proof.
  revert w. induction cs as [|c cs IH]; intros w H Hw Hr; cbn in H; [by simplify_eq|].
  apply bind_Ok in H as (w1 & H1 & H). eapply IH; [exact H| |].
  - by eapply run_command_well_formed.
  - by eapply run_command_replays.
Qed.

Lemma run_command_id w c w' :
  run_command w c = Ok w' → workflow_id w' = workflow_id w ∧ created_at w' = created_at w.
Proof.
  destruct c as [[st at_|a|p] now]; cbn.
  - unfold transition_to. repeat case_decide; intros; by simplify_eq.
  - unfold add_agent. intros H. inv_bind. by case_decide; simplify_eq.
  - unfold advance_phase. intros H. inv_bind. by case_decide; simplify_eq.
Qed.

Lemma run_commands_id w cs w' :
  run_commands w cs = Ok w' → workflow_id w' = workflow_id w ∧ created_at w' = created_at w.
Proof.
  revert w. induction cs as [|c cs IH]; intros w H; cbn in H; [by simplify_eq|].
  apply bind_Ok in H as (w1 & H1 & H). apply run_command_id in H1 as [<- <-]. by apply IH.
Qed.

(** A closed workflow takes no other status. *)
Lemma closed_status_kept w cs w' :
  VALID_TRANSITIONS (status w) = [] → run_commands w cs = Ok w' → status w' = status w.
Proof.
  revert w. induction cs as [|c cs IH]; intros w Hc H; cbn in H; [by simplify_eq|].
  apply bind_Ok in H as (w1 & H1 & H).
  assert (status w1 = status w) as He.
  { destruct c as [[st at_|a|p] now]; cbn in H1.
    - unfold transition_to in H1. case_decide; [by simplify_eq|]. rewrite Hc in H1.
      by rewrite decide_False in H1 by apply not_elem_of_nil.
    - unfold add_agent in H1. inv_bind. by case_decide; simplify_eq.
    - unfold advance_phase in H1. inv_bind. by case_decide; simplify_eq. }
  rewrite <- He. apply IH; [by rewrite He|done].
Qed.

Lemma to_record_roundtrip w r :
  well_formed w → to_record_kwargs w = Ok r → from_record r = Ok (pull_events w).2.
Proof.
  intros (Hi & Ht & Hp & Ha & Hn & Hne). unfold to_record_kwargs. intros H. inv_bind.
  unfold from_record, wf_workflow_id, wf_type, wf_status, wf_current_phase, wf_agents_involved.
  change (CoordinatorWorkflowStatus_value (status w)) with (value (status w)).
  rewrite !require_text_fixed, parse_enum_value, normalize_agents_fixed by done.
  cbn -[_validate]. unfold _validate in *. cbn in *.
  destruct (dt_lt (updated_at w) (created_at w)) as [b|]; [|done].
  cbn in *. destruct b; [done|]. by rewrite Hm.
Qed.

(** A workflow survives its commands and its storage: whatever accepted
    commands follow the hydration of a row, the aggregate keeps its identity, its
    creation time and its invariant (trimmed texts, unique agents, at least one),
    its log replays its status along the transition table, a completed or failed
    workflow keeps its status, and the row it writes hydrates to the same
    aggregate. *)
Theorem workflow_commands_and_storage r w cs w' :
  from_record r = Ok w → run_commands w cs = Ok w' →
  well_formed w' ∧ workflow_id w' = workflow_id w ∧ created_at w' = wf_created_at r
  ∧ replays (status w) (_events w') (status w')
  ∧ (VALID_TRANSITIONS (status w) = [] → status w' = status w)
  ∧ ∀ r', to_record_kwargs w' = Ok r' → from_record r' = Ok (pull_events w').2.
Proof.
  intros Hr H. destruct (from_record_well_formed _ _ Hr) as [Hw He].
  destruct (run_commands_inv (status w) _ _ _ H Hw) as [Hw' Hlog]; [rewrite He; constructor|].
  destruct (run_commands_id _ _ _ H) as [Hid Hc]. split_and!; try done.
  - rewrite Hc. unfold from_record in Hr. by inv_bind.
  - intros Hclosed. by eapply closed_status_kept.
  - intros r' Hr'. by apply to_record_roundtrip.
Qed.

Definition sample_workflow : WorkflowState := {|
  wf_workflow_id := " wf_1 "; wf_type := "delivery"; wf_status := "active";
  wf_current_phase := "plan"; wf_agents_involved := ["dev-agent"];
  wf_created_at := of_utc 10; wf_updated_at := of_utc 20; wf_context := [] |}.

Definition sample_commands : list (workflow_command * datetime) :=
  [(AddAgent " qa-agent ", of_utc 30); (TransitionTo Workflow_PAUSED None, of_utc 40);
   (AdvancePhase "verify", of_utc 50); (TransitionTo Workflow_FAILED (Some (of_utc 60)), of_utc 61)].

Lemma workflow_commands_and_storage_witness :
  ∃ w w' r', from_record sample_workflow = Ok w ∧ run_commands w sample_commands = Ok w'
    ∧ status w' = Workflow_FAILED ∧ length (_events w') = 2%nat
    ∧ to_record_kwargs w' = Ok r' ∧ from_record r' = Ok (pull_events w').2.
Proof.
  do 3 eexists. split; [vm_compute; reflexivity|]. split; [vm_compute; reflexivity|].
  split; [reflexivity|]. split; [reflexivity|]. split; [vm_compute; reflexivity|].
  refine (proj2 (proj2 (proj2 (proj2 (proj2
    (workflow_commands_and_storage sample_workflow _ sample_commands _ _ _))))) _ _);
    vm_compute; reflexivity.
Defined.
