(* ===== verification/CoordinatorDispatch.v ===== *)
(** * Coordinator decisions and their dispatch

    [core/models.py], [core/domain/dispatch.py], [core/dispatcher.py],
    [core/domain/state_records.py] and [core/domain/scratchpad.py] of
    [services/orchestration/coordinator]: a decision of the thinker, the outbound
    contract it is mapped to, and the value objects of the coordinator's own
    state. *)

From S2P Require Import Prelude PyNum PyTime PyValue Store Event DomainEvents.

(** ** Decisions *)
Record Decision := {
  dc_target_agent : string;
  dc_action : string;
  dc_task_id : string;
  dc_instruction : string;
  dc_workflow_id : option string;
  dc_priority : string;
  dc_reasoning : string;
  dc_context : pydict;
  dc_command_id : option string;
  dc_trace_id : option string;
  dc_status : option string;
  dc_summary : option string;
  dc_scratchpad_ref : option string;
  dc_permissions : pyval;
}.

(** [decision.model_copy(update={"trace_id": trace_id})] *)
Definition with_trace (t : string) (d : Decision) : Decision := {|
  dc_target_agent := dc_target_agent d; dc_action := dc_action d; dc_task_id := dc_task_id d;
  dc_instruction := dc_instruction d; dc_workflow_id := dc_workflow_id d;
  dc_priority := dc_priority d; dc_reasoning := dc_reasoning d; dc_context := dc_context d;
  dc_command_id := dc_command_id d; dc_trace_id := Some t; dc_status := dc_status d;
  dc_summary := dc_summary d; dc_scratchpad_ref := dc_scratchpad_ref d;
  dc_permissions := dc_permissions d |}.

(** ** Routes *)
Inductive CoordinatorDispatchTarget :=
  | Target_REQUIREMENT_MANAGER
  | Target_PJM_AGENT
  | Target_DEV_AGENT
  | Target_QA_AGENT
  | Target_CHAT_AGENT.
#[global] Instance CoordinatorDispatchTarget_eq_dec : EqDecision CoordinatorDispatchTarget.
Proof. solve_decision. Defined.
Definition CoordinatorDispatchTarget_value (x : CoordinatorDispatchTarget) : string :=
  match x with
  | Target_REQUIREMENT_MANAGER => "requirement-manager"
  | Target_PJM_AGENT => "pjm-agent"
  | Target_DEV_AGENT => "dev-agent"
  | Target_QA_AGENT => "qa-agent"
  | Target_CHAT_AGENT => "chat-agent"
  end.
#[global] Program Instance CoordinatorDispatchTarget_StrEnum : StrEnum CoordinatorDispatchTarget := {|
  enum_name := "CoordinatorDispatchTarget";
  members := [Target_REQUIREMENT_MANAGER; Target_PJM_AGENT; Target_DEV_AGENT; Target_QA_AGENT;
              Target_CHAT_AGENT];
  value := CoordinatorDispatchTarget_value;
|}.
Solve All Obligations with solve_str_enum.

Inductive CoordinatorTargetRelationship := CUSTOMER_SUPPLIER | OPEN_HOST_SERVICE.
#[global] Instance relationship_eq_dec : EqDecision CoordinatorTargetRelationship.
Proof. solve_decision. Defined.

Record CoordinatorDispatchRoute := {
  rt_target_agent : string;
  rt_relationship : CoordinatorTargetRelationship;
  rt_target : option CoordinatorDispatchTarget;
}.

Definition from_target_agent (target_agent : string) : CoordinatorDispatchRoute :=
  match lookup_value target_agent with
  | None => {| rt_target_agent := target_agent; rt_relationship := OPEN_HOST_SERVICE;
               rt_target := None |}
  | Some known_target => {| rt_target_agent := value known_target;
                            rt_relationship := CUSTOMER_SUPPLIER;
                            rt_target := Some known_target |}
  end.

Definition uses_specialized_contract (r : CoordinatorDispatchRoute) : bool :=
  match rt_target r with
  | Some (Target_DEV_AGENT | Target_QA_AGENT | Target_CHAT_AGENT) => true
  | _ => false
  end.

(** ** Envelopes *)
Record CoordinatorDispatchEnvelope := {
  ve_event_type : string;
  ve_payload : pydict;
  ve_route : CoordinatorDispatchRoute;
}.

Definition PM_TASKS_READY_FOR_DEV : string := "pm.tasks-ready-for-dev".
Definition QA_RUN_REQUESTED : string := "qa.run-requested".
Definition COORDINATOR_RESPONSE : string := "coordinator.response".
Definition COORDINATOR_DISPATCH : string := "coordinator.dispatch".

(** [value or default] on an optional text *)
Definition text_or (o : option string) (d : string) : string := if truthy o then str_or_empty o else d.

(** [CoordinatorResponse(...).model_dump()] *)
Definition coordinator_response (command_id status summary : string) : result pydict :=
  if decide (status ∈ ["completed"; "in_progress"; "failed"]) then
    Ok [("command_id", PStr command_id); ("status", PStr status); ("summary", PStr summary);
        ("details", PDict []); ("follow_up", PNone)]
  else Raise (validation_error "CoordinatorResponse").

Definition ctx_get (d : Decision) (k : string) : pyval := dget (dc_context d) k.
Definition ctx_list (d : Decision) (k : string) : pyval := default (PList []) (dict_get (dc_context d) k).

Definition envelope_for (d : Decision) : result CoordinatorDispatchEnvelope :=
  let route := from_target_agent (dc_target_agent d) in
  match rt_target route with
  | Some Target_DEV_AGENT =>
      Ok {| ve_event_type := PM_TASKS_READY_FOR_DEV;
            ve_payload := [("wp_id", ctx_get d "wp_id"); ("tasks", ctx_list d "tasks");
                           ("instruction", PStr (dc_instruction d));
                           ("workflow_id", p_opt (dc_workflow_id d))];
            ve_route := route |}
  | Some Target_QA_AGENT =>
      Ok {| ve_event_type := QA_RUN_REQUESTED;
            ve_payload := [("agent_name", ctx_get d "agent_name"); ("commit_sha", ctx_get d "commit_sha");
                           ("mr_iid", ctx_get d "mr_iid");
                           ("gitlab_project_id", ctx_get d "gitlab_project_id");
                           ("files_changed", ctx_list d "files_changed");
                           ("requested_by", PStr "coordinator");
                           ("instruction", PStr (dc_instruction d));
                           ("workflow_id", p_opt (dc_workflow_id d))];
            ve_route := route |}
  | Some Target_CHAT_AGENT =>
      payload ← coordinator_response (text_or (dc_command_id d) "") (text_or (dc_status d) "completed")
                  (text_or (dc_summary d) "");
      Ok {| ve_event_type := COORDINATOR_RESPONSE; ve_payload := payload; ve_route := route |}
  | _ =>
      Ok {| ve_event_type := COORDINATOR_DISPATCH;
            ve_payload := [("target_agent", PStr (rt_target_agent route));
                           ("task_id", PStr (dc_task_id d));
                           ("instruction", PStr (dc_instruction d));
                           ("workflow_id", p_opt (dc_workflow_id d));
                           ("scratchpad_ref", p_opt (dc_scratchpad_ref d))];
            ve_route := route |}
  end.

Definition decision_to_event (event_id : string) (now : datetime) (d : Decision) : result Event :=
  envelope ← envelope_for d;
  event_create event_id now (ve_event_type envelope) "coordinator" (ve_payload envelope) (dc_trace_id d).

(** ** State records *)
Inductive CoordinatorAgentStatus := Agent_IDLE | Agent_WORKING | Agent_BLOCKED | Agent_ERROR.
#[global] Instance CoordinatorAgentStatus_eq_dec : EqDecision CoordinatorAgentStatus.
Proof. solve_decision. Defined.
Definition CoordinatorAgentStatus_value (x : CoordinatorAgentStatus) : string :=
  match x with
  | Agent_IDLE => "idle"
  | Agent_WORKING => "working"
  | Agent_BLOCKED => "blocked"
  | Agent_ERROR => "error"
  end.
#[global] Program Instance CoordinatorAgentStatus_StrEnum : StrEnum CoordinatorAgentStatus := {|
  enum_name := "CoordinatorAgentStatus";
  members := [Agent_IDLE; Agent_WORKING; Agent_BLOCKED; Agent_ERROR];
  value := CoordinatorAgentStatus_value;
|}.
Solve All Obligations with solve_str_enum.

Definition coordinator_agent_id (raw : string) : result string :=
  if str_empty (strip raw) then Raise (Exn "ValueError" "coordinator agent id must not be empty")
  else Ok (strip raw).
Definition coordinator_decision_id (raw : string) : result string :=
  if str_empty (strip raw) then Raise (Exn "ValueError" "coordinator decision id must not be empty")
  else Ok (strip raw).
Definition coordinator_task_id (raw : option string) : option string :=
  raw ≫= λ s, if str_empty (strip s) then None else Some (strip s).
Definition coordinator_workflow_id (raw : option string) : option string :=
  raw ≫= λ s, if str_empty (strip s) then None else Some (strip s).

Record CoordinatorAgentStateRecord := {
  as_agent_id : string;
  as_status : CoordinatorAgentStatus;
  as_current_task : option string;
  as_last_output_at : option datetime;
  as_error : option string;
}.

Definition agent_state_create (agent_id status : string) (current_task : option string)
    (last_output_at : option datetime) (error : option string) : result CoordinatorAgentStateRecord :=
  id' ← coordinator_agent_id agent_id;
  st ← parse_enum status;
  Ok {| as_agent_id := id'; as_status := st; as_current_task := coordinator_task_id current_task;
        as_last_output_at := last_output_at; as_error := error |}.

Definition p_datetime (o : option datetime) : pyval :=
  match o with Some d => PDatetime d | None => PNone end.

Definition agent_state_dump (r : CoordinatorAgentStateRecord) : pydict :=
  [("agent_id", PStr (as_agent_id r)); ("status", PStr (value (as_status r)));
   ("current_task", if truthy (as_current_task r) then p_opt (as_current_task r) else PNone);
   ("last_output_at", p_datetime (as_last_output_at r)); ("error", p_opt (as_error r))].

Record CoordinatorDecisionRecord := {
  dr_decision_id : string;
  dr_reasoning : string;
  dr_action : string;
  dr_target_agent : string;
  dr_workflow_id : option string;
  dr_created_at : option datetime;
  dr_outcome : option string;
  dr_task_id : option string;
}.

Definition decision_create (decision_id reasoning action target_agent : string)
    (workflow_id : option string) (created_at : option datetime) (outcome task_id : option string)
    : result CoordinatorDecisionRecord :=
  id' ← coordinator_decision_id decision_id;
  target' ← coordinator_agent_id target_agent;
  _ ← raise_if (str_empty (strip action))
        (Exn "ValueError" "coordinator decision action must not be empty");
  Ok {| dr_decision_id := id'; dr_reasoning := reasoning; dr_action := action;
        dr_target_agent := target'; dr_workflow_id := coordinator_workflow_id workflow_id;
        dr_created_at := created_at; dr_outcome := outcome;
        dr_task_id := coordinator_task_id task_id |}.

Definition decision_dump (r : CoordinatorDecisionRecord) : pydict :=
  [("decision_id", PStr (dr_decision_id r)); ("workflow_id", p_opt (dr_workflow_id r));
   ("reasoning", PStr (dr_reasoning r)); ("action", PStr (dr_action r));
   ("target_agent", PStr (dr_target_agent r)); ("created_at", p_datetime (dr_created_at r));
   ("outcome", p_opt (dr_outcome r)); ("task_id", p_opt (dr_task_id r))].

(** ** The scratchpad projection *)
Definition requires_projection_update (decisions : list Decision) : bool :=
  negb (bool_decide (length decisions = 0%nat)).

Definition can_schedule_compaction (decisions : list Decision)
    (compaction_requested decisions_persisted projection_updated : bool) : bool :=
  if negb compaction_requested then false
  else if negb (requires_projection_update decisions) then true
  else decisions_persisted && projection_updated.

(** ** What a dispatch can be *)
Definition published_events : list string :=
  [COORDINATOR_RESPONSE; COORDINATOR_DISPATCH; PM_TASKS_READY_FOR_DEV; QA_RUN_REQUESTED].

Lemma route_known target r :
  from_target_agent target = r → rt_target_agent r = target
  ∧ (rt_relationship r = OPEN_HOST_SERVICE ↔ rt_target r = None)
  ∧ ∀ k, rt_target r = Some k ↔ value k = target.
Proof.
  unfold from_target_agent. intros <-. destruct (lookup_value target) as [k|] eqn:E.
  - apply lookup_value_Some in E. cbn. split_and!; [done|done|]. intros k'. split.
    + by intros [= <-].
    + intros H. f_equal. apply value_inj. exact (eq_trans E (eq_sym H)).
  - cbn. split_and!; [done|done|]. intros k'. split; [done|].
    intros H. change (value k' = target) in H. apply lookup_value_Some in H. by rewrite H in E.
Qed.

Definition chat_reply_invalid (d : Decision) : Prop :=
  dc_target_agent d = "chat-agent"
  ∧ text_or (dc_status d) "completed" ∉ ["completed"; "in_progress"; "failed"].

Lemma envelope_total d :
  (∃ v, envelope_for d = Ok v) ∨ (envelope_for d = Raise (validation_error "CoordinatorResponse")
                                  ∧ chat_reply_invalid d).
Proof.
  unfold envelope_for. destruct (rt_target _) as [k|] eqn:E; [|by left; eexists].
  apply (route_known _ _ eq_refl) in E.
  destruct k; try (by left; eexists).
  unfold coordinator_response. case_decide as Hs; cbn; [by left; eexists|].
  right. done.
Qed.

(** Dispatch keeps the declared contracts: a decision becomes an envelope
    unless it is a chat reply with an unknown status; the envelope's event is one
    the coordinator declares to publish, in the naming convention; its route names
    the decision's own target; only the development, QA and chat agents get their
    own contract, and every other target, known or not, gets a dispatch event that
    names it and its task. *)
Theorem dispatch_contract d :
  (envelope_for d = Raise (validation_error "CoordinatorResponse") ∧ chat_reply_invalid d)
  ∨ ∃ v, envelope_for d = Ok v
    ∧ ve_event_type v ∈ published_events ∧ event_type_ok (ve_event_type v) = true
    ∧ rt_target_agent (ve_route v) = dc_target_agent d
    ∧ (uses_specialized_contract (ve_route v) = false ↔ ve_event_type v = COORDINATOR_DISPATCH)
    ∧ (dc_target_agent d ∉ ["dev-agent"; "qa-agent"; "chat-agent"] →
       dget (ve_payload v) "target_agent" = PStr (dc_target_agent d)
       ∧ dget (ve_payload v) "task_id" = PStr (dc_task_id d)).
Proof.
  destruct (envelope_total d) as [[v Hv]|?]; [right|by left]. exists v. split; [done|].
  unfold envelope_for in Hv.
  destruct (route_known (dc_target_agent d) _ eq_refl) as (Hn & _ & Hk).
  destruct (rt_target _) as [k|] eqn:E.
  - specialize (Hk k). destruct Hk as [Hk _]. specialize (Hk eq_refl).
    destruct k; inv_bind; unfold uses_specialized_contract; cbn; rewrite ?E;
      (split_and!; [unfold published_events; set_solver|reflexivity|done|split; done|]);
      intros Hnin; cbn in Hk; try (rewrite <- Hk in Hnin; set_solver); by rewrite Hn.
  - inv_bind. unfold uses_specialized_contract; cbn. rewrite E.
    split_and!; [unfold published_events; set_solver|reflexivity|done|done|]. intros _. by rewrite Hn.
Qed.
