(* ===== verification/CoordinatorStore.v ===== *)
(** * The coordinator's state store and its two adapters

    [core/state_ports.py] as an interface, implemented by the in-memory adapter
    of [db/state_store.py] and the PostgreSQL one of [db/postgres_state_store.py].
    The tables are lists of rows; [ORDER BY] is a parameter that sorts by the
    given column and may break ties in any way.  A [String(n)] column refuses
    longer text; the generated decision identifiers fit theirs. *)

From S2P Require Import Prelude PyNum PyTime PyValue Metadata Store Event CoordinatorDispatch.
From S2P Require CoordinatorWorkflow.
Abbreviation WorkflowState := CoordinatorWorkflow.WorkflowState (only parsing).

Class CoordinatorStateStorePort (S : Type) := {
  get_agent_states : M S (list (string * CoordinatorAgentStateRecord));
  update_agent_state : string → string → option string → option string → M S unit;
  get_pending_decisions : M S (list CoordinatorDecisionRecord);
  persist : list Decision → M S unit;
  get_workflow_states : M S (list (string * WorkflowState));
  upsert_workflow_state : WorkflowState → M S unit;
}.

(** [ORDER BY key ASC]: the rows, sorted; the order of equal keys is open. *)
Class SqlOrder := {
  order_by : ∀ {A}, (A → instant) → list A → list A;
  order_by_perm : ∀ A (key : A → instant) l, order_by key l ≡ₚ l;
  order_by_sorted : ∀ A (key : A → instant) l,
    StronglySorted (λ a b, key a ≤ key b) (order_by key l);
}.

Definition PENDING_DECISIONS_LIMIT : nat := 100.

(** ** The in-memory adapter *)
Record MemoryStore := {
  mm_agent_states : list (string * CoordinatorAgentStateRecord);
  mm_workflows : list (string * WorkflowState);
  mm_pending : list CoordinatorDecisionRecord;
  mm_ticks : nat;
  mm_ids : nat;
}.

Section memory.
Context `{!Env}.

Definition mm_now : M MemoryStore instant := λ s,
  (Ok (clock (mm_ticks s)),
   {| mm_agent_states := mm_agent_states s; mm_workflows := mm_workflows s;
      mm_pending := mm_pending s; mm_ticks := S (mm_ticks s); mm_ids := mm_ids s |}).
Definition mm_fresh_id (prefix : string) : M MemoryStore string := λ s,
  (Ok (prefix +:+ "_" +:+ ulid (mm_ids s)),
   {| mm_agent_states := mm_agent_states s; mm_workflows := mm_workflows s;
      mm_pending := mm_pending s; mm_ticks := mm_ticks s; mm_ids := S (mm_ids s) |}).
Definition mm_set_agents (x : list (string * CoordinatorAgentStateRecord)) (s : MemoryStore) : MemoryStore :=
  {| mm_agent_states := x; mm_workflows := mm_workflows s; mm_pending := mm_pending s;
     mm_ticks := mm_ticks s; mm_ids := mm_ids s |}.
Definition mm_set_pending (x : list CoordinatorDecisionRecord) (s : MemoryStore) : MemoryStore :=
  {| mm_agent_states := mm_agent_states s; mm_workflows := mm_workflows s; mm_pending := x;
     mm_ticks := mm_ticks s; mm_ids := mm_ids s |}.
Definition mm_set_workflows (x : list (string * WorkflowState)) (s : MemoryStore) : MemoryStore :=
  {| mm_agent_states := mm_agent_states s; mm_workflows := x; mm_pending := mm_pending s;
     mm_ticks := mm_ticks s; mm_ids := mm_ids s |}.

Definition mm_update_agent_state (agent_id status : string) (current_task error : option string)
    : M MemoryStore unit :=
  now ← mm_now;
  state ← liftM (agent_state_create agent_id status current_task (Some (of_utc now)) error);
  modifyM (λ s, mm_set_agents (dict_set (mm_agent_states s) (as_agent_id state) state) s).

Definition mm_persist_one (d : Decision) : M MemoryStore unit :=
  id_ ← mm_fresh_id "dec";
  record ← liftM (decision_create id_ (dc_reasoning d) (dc_action d) (dc_target_agent d)
                    (dc_workflow_id d) None None (Some (dc_task_id d)));
  _ ← modifyM (λ s, mm_set_pending (mm_pending s ++ [record]) s);
  mm_update_agent_state (dc_target_agent d) "working" (Some (dc_task_id d)) None.

(** [l[-100:]] *)
Definition last_n (n : nat) {A} (l : list A) : list A := drop (length l - n) l.

Definition mm_persist (decisions : list Decision) : M MemoryStore unit :=
  _ ← forM decisions mm_persist_one;
  modifyM (λ s, mm_set_pending (last_n PENDING_DECISIONS_LIMIT (mm_pending s)) s).

Definition mm_upsert_workflow_state (st : WorkflowState) : M MemoryStore unit :=
  workflow ← liftM (CoordinatorWorkflow.from_record st);
  record ← liftM (CoordinatorWorkflow.to_record_kwargs workflow);
  modifyM (λ s, mm_set_workflows
    (dict_set (mm_workflows s) (CoordinatorWorkflow.workflow_id workflow) record) s).

#[export] Instance memory_store : CoordinatorStateStorePort MemoryStore := {|
  get_agent_states := getsM mm_agent_states;
  update_agent_state := mm_update_agent_state;
  get_pending_decisions := getsM mm_pending;
  persist := mm_persist;
  get_workflow_states := getsM mm_workflows;
  upsert_workflow_state := mm_upsert_workflow_state;
|}.
End memory.

Definition empty_memory : MemoryStore := {|
  mm_agent_states := []; mm_workflows := []; mm_pending := []; mm_ticks := 0; mm_ids := 0 |}.

(** ** The PostgreSQL adapter *)
Record AgentStateRow := {
  ra_agent_id : string;
  ra_status : string;
  ra_current_task : option string;
  ra_last_output_at : option instant;
  ra_error : option string;
  ra_updated_at : instant;
}.

Record PendingDecisionRow := {
  rd_decision_id : string;
  rd_workflow_id : option string;
  rd_reasoning : string;
  rd_action : string;
  rd_target_agent : string;
  rd_task_id : option string;
  rd_outcome : option string;
  rd_created_at : instant;
  rd_resolved_at : option instant;
  rd_retry_count : Z;
}.

Record PgStore := {
  pg_agent_states : list AgentStateRow;
  pg_workflows : list WorkflowState;
  pg_pending : list PendingDecisionRow;
  pg_ticks : nat;
  pg_ids : nat;
}.

Definition _row_to_agent_state (row : AgentStateRow) : result CoordinatorAgentStateRecord :=
  agent_state_create (ra_agent_id row) (ra_status row) (ra_current_task row)
    (of_utc <$> ra_last_output_at row) (ra_error row).

Definition _row_to_decision_record (row : PendingDecisionRow) : result CoordinatorDecisionRecord :=
  decision_create (rd_decision_id row) (rd_reasoning row) (rd_action row) (rd_target_agent row)
    (rd_workflow_id row) (Some (of_utc (rd_created_at row))) (rd_outcome row) (rd_task_id row).

(** [INSERT ... ON CONFLICT DO UPDATE]: the row of the key is replaced by [f] of
    it, or [new] is inserted. *)
Definition upsert_row {R} (key : R → string) (new : R) (f : R → R) (t : list R) : list R :=
  if decide (key new ∈ key <$> t) then update_row key (key new) f t else t ++ [new].

(** [String(n)] columns, at their width in the database.  (A value whose characters
    beyond the width are all spaces is cut by PostgreSQL and refused here.) *)
Definition fits (n : nat) (s : string) : bool := (String.length s <=? n)%nat.
Definition fits_opt (n : nat) (o : option string) : bool := match o with Some s => fits n s | None => true end.
Definition too_long : exn := Exn "DBAPIError" "value too long for type character varying".

Definition agent_row_fits (r : AgentStateRow) : bool :=
  fits 64 (ra_agent_id r) && fits 16 (ra_status r) && fits_opt 64 (ra_current_task r).
Definition decision_fits (d : Decision) : bool :=
  fits_opt 64 (dc_workflow_id d) && fits 64 (dc_action d) && fits 64 (dc_target_agent d)
  && fits 64 (dc_task_id d).
Definition workflow_fits (r : WorkflowState) : bool :=
  fits 64 (CoordinatorWorkflow.wf_workflow_id r) && fits 64 (CoordinatorWorkflow.wf_type r)
  && fits 16 (CoordinatorWorkflow.wf_status r) && fits 64 (CoordinatorWorkflow.wf_current_phase r).

Section postgres.
Context `{!Env, !SqlOrder}.

Definition pg_now : M PgStore instant := λ s,
  (Ok (clock (pg_ticks s)),
   {| pg_agent_states := pg_agent_states s; pg_workflows := pg_workflows s;
      pg_pending := pg_pending s; pg_ticks := S (pg_ticks s); pg_ids := pg_ids s |}).
Definition pg_fresh_id (prefix : string) : M PgStore string := λ s,
  (Ok (prefix +:+ "_" +:+ ulid (pg_ids s)),
   {| pg_agent_states := pg_agent_states s; pg_workflows := pg_workflows s;
      pg_pending := pg_pending s; pg_ticks := pg_ticks s; pg_ids := S (pg_ids s) |}).
Definition pg_set_agents (x : list AgentStateRow) (s : PgStore) : PgStore :=
  {| pg_agent_states := x; pg_workflows := pg_workflows s; pg_pending := pg_pending s;
     pg_ticks := pg_ticks s; pg_ids := pg_ids s |}.
Definition pg_set_pending (x : list PendingDecisionRow) (s : PgStore) : PgStore :=
  {| pg_agent_states := pg_agent_states s; pg_workflows := pg_workflows s; pg_pending := x;
     pg_ticks := pg_ticks s; pg_ids := pg_ids s |}.
Definition pg_set_workflows (x : list WorkflowState) (s : PgStore) : PgStore :=
  {| pg_agent_states := pg_agent_states s; pg_workflows := x; pg_pending := pg_pending s;
     pg_ticks := pg_ticks s; pg_ids := pg_ids s |}.

Definition pg_get_agent_states : M PgStore (list (string * CoordinatorAgentStateRecord)) :=
  rows ← getsM pg_agent_states;
  items ← liftM (mapR (λ row, r ← _row_to_agent_state row; Ok (ra_agent_id row, r)) rows);
  mret (dict_of_items items).

Definition pg_update_agent_state (agent_id status : string) (current_task error : option string)
    : M PgStore unit :=
  now ← pg_now;
  let row := {| ra_agent_id := agent_id; ra_status := status; ra_current_task := current_task;
                ra_last_output_at := Some now; ra_error := error; ra_updated_at := now |} in
  _ ← raise_ifM (negb (agent_row_fits row)) too_long;
  modifyM (λ s, pg_set_agents (upsert_row ra_agent_id row (λ _, row) (pg_agent_states s)) s).

Definition unresolved (rows : list PendingDecisionRow) : list PendingDecisionRow :=
  filter (λ r, rd_resolved_at r = None) rows.

Definition pg_get_pending_decisions : M PgStore (list CoordinatorDecisionRecord) :=
  rows ← getsM pg_pending;
  liftM (mapR _row_to_decision_record (order_by rd_created_at (unresolved rows))).

Definition pg_persist_one (now : instant) (d : Decision) : M PgStore unit :=
  id_ ← pg_fresh_id "dec";
  rows ← getsM pg_pending;
  _ ← raise_ifM (bool_decide (id_ ∈ rd_decision_id <$> rows))
        (integrity_error "coordinator_pending_decision");
  _ ← raise_ifM (negb (decision_fits d)) too_long;
  _ ← modifyM (λ s, pg_set_pending (pg_pending s ++
        [{| rd_decision_id := id_; rd_workflow_id := dc_workflow_id d; rd_reasoning := dc_reasoning d;
            rd_action := dc_action d; rd_target_agent := dc_target_agent d;
            rd_task_id := Some (dc_task_id d); rd_outcome := None; rd_created_at := now;
            rd_resolved_at := None; rd_retry_count := 0 |}]) s);
  pg_update_agent_state (dc_target_agent d) "working" (Some (dc_task_id d)) None.

Definition _trim_pending_decisions : M PgStore unit :=
  rows ← getsM pg_pending;
  let newest_first := order_by (λ r, - rd_created_at r) (unresolved rows) in
  let stale_ids := rd_decision_id <$> drop PENDING_DECISIONS_LIMIT newest_first in
  modifyM (λ s, pg_set_pending (filter (λ r, rd_decision_id r ∉ stale_ids) (pg_pending s)) s).

Definition pg_persist (decisions : list Decision) : M PgStore unit :=
  now ← pg_now;
  _ ← forM decisions (pg_persist_one now);
  _trim_pending_decisions.

Definition pg_get_workflow_states : M PgStore (list (string * WorkflowState)) :=
  rows ← getsM pg_workflows;
  mret (dict_of_items ((λ r, (CoordinatorWorkflow.wf_workflow_id r, r)) <$> rows)).

(** The columns an update keeps or takes from the new record. *)
Definition workflow_row (r : WorkflowState) (created updated : datetime) : WorkflowState :=
  CoordinatorWorkflow.Build_WorkflowState (CoordinatorWorkflow.wf_workflow_id r)
    (CoordinatorWorkflow.wf_type r) (CoordinatorWorkflow.wf_status r)
    (CoordinatorWorkflow.wf_current_phase r) (CoordinatorWorkflow.wf_agents_involved r)
    created updated (CoordinatorWorkflow.wf_context r).

Definition pg_upsert_workflow_state (st : WorkflowState) : M PgStore unit :=
  workflow ← liftM (CoordinatorWorkflow.from_record st);
  record ← liftM (CoordinatorWorkflow.to_record_kwargs workflow);
  now ← pg_now;
  _ ← raise_ifM (negb (workflow_fits record)) too_long;
  modifyM (λ s, pg_set_workflows
    (upsert_row CoordinatorWorkflow.wf_workflow_id
       (workflow_row record (CoordinatorWorkflow.wf_created_at record) (of_utc now))
       (λ old, workflow_row record (CoordinatorWorkflow.wf_created_at old) (of_utc now))
       (pg_workflows s)) s).

#[export] Instance postgres_store : CoordinatorStateStorePort PgStore := {|
  get_agent_states := pg_get_agent_states;
  update_agent_state := pg_update_agent_state;
  get_pending_decisions := pg_get_pending_decisions;
  persist := pg_persist;
  get_workflow_states := pg_get_workflow_states;
  upsert_workflow_state := pg_upsert_workflow_state;
|}.
End postgres.

Definition empty_postgres : PgStore := {|
  pg_agent_states := []; pg_workflows := []; pg_pending := []; pg_ticks := 0; pg_ids := 0 |}.

(** ** Sequences of writes, through the interface *)
Inductive store_write :=
  | UpdateAgent (agent_id status : string) (current_task error : option string)
  | PersistDecisions (decisions : list Decision)
  | UpsertWorkflow (st : WorkflowState).

Definition write {S} `{!CoordinatorStateStorePort S} (w : store_write) : M S unit :=
  match w with
  | UpdateAgent a st t e => update_agent_state a st t e
  | PersistDecisions ds => persist ds
  | UpsertWorkflow st => upsert_workflow_state st
  end.

(** What a reader learns, without identifiers and times. *)
Definition agent_view (r : CoordinatorAgentStateRecord) :=
  (as_agent_id r, as_status r, as_current_task r, as_error r).
Definition decision_view (r : CoordinatorDecisionRecord) :=
  (dr_reasoning r, dr_action r, dr_target_agent r, dr_workflow_id r, dr_outcome r, dr_task_id r).
Definition workflow_view (r : WorkflowState) :=
  (CoordinatorWorkflow.wf_workflow_id r, CoordinatorWorkflow.wf_type r,
   CoordinatorWorkflow.wf_status r, CoordinatorWorkflow.wf_current_phase r,
   CoordinatorWorkflow.wf_agents_involved r, CoordinatorWorkflow.wf_context r).
