(* ===== verification/CoordinatorRefinement.v ===== *)
(** * The PostgreSQL adapter refines the in-memory one

    A simulation between the two implementations of the coordinator's state
    store: writes that the domain accepts as they are and that fit the columns, in
    any order, leave both in related states, and the reads of related states agree
    up to identifiers, times and the order of the decisions of one batch. *)

From S2P Require Import Prelude PyNum PyTime PyValue Metadata Store Event CoordinatorDispatch CoordinatorStore.
From S2P Require CoordinatorWorkflow.

Definition good_agent (a : string) : Prop := strip a = a ∧ a ≠ "" ∧ fits 64 a = true.
Definition good_decision (d : Decision) : Prop :=
  good_agent (dc_target_agent d) ∧ strip (dc_action d) ≠ "" ∧ decision_fits d = true.

(** Writes the domain records accept as they are, and that fit the columns. *)
Definition good_write (w : store_write) : Prop :=
  match w with
  | UpdateAgent a st t _ =>
      good_agent a ∧ is_Some (lookup_value (E := CoordinatorAgentStatus) st) ∧ fits_opt 64 t = true
  | PersistDecisions ds => Forall good_decision ds
  | UpsertWorkflow st =>
      ∃ r, (w ← CoordinatorWorkflow.from_record st; CoordinatorWorkflow.to_record_kwargs w) = Ok r
           ∧ workflow_fits r = true
  end.

Definition decisions_of (w : store_write) : list Decision :=
  match w with PersistDecisions ds => ds | _ => [] end.

(** ** A dictionary and a keyed table side by side *)
Section upsert.
Context {V R : Type} (Rel : string * V → R → Prop) (key : R → string).
Context (rel_key : ∀ kv r, Rel kv r → kv.1 = key r).

Lemma rel_keys d rows : Forall2 Rel d rows → d.*1 = key <$> rows.
Proof. induction 1; csimpl; [done|]. f_equal; eauto. Qed.

Lemma update_row_cons k f r rows :
  update_row key k f (r :: rows) = (if decide (key r = k) then f r else r) :: update_row key k f rows.
Proof. done. Qed.

Lemma update_other k f rows : k ∉ key <$> rows → update_row key k f rows = rows.
Proof.
  induction rows as [|r rows IH]; [done|]. rewrite fmap_cons, update_row_cons.
  intros [? ?]%not_elem_of_cons. rewrite decide_False by congruence. by rewrite IH.
Qed.

Lemma upsert_dict d rows v new f :
  Rel (key new, v) new → (∀ r, key r = key new → Rel (key new, v) (f r)) →
  NoDup d.*1 → Forall2 Rel d rows →
  Forall2 Rel (dict_set d (key new) v) (upsert_row key new f rows).
Proof.
  intros Hnew Hf Hnd H. pose proof (rel_keys _ _ H) as Hk. unfold upsert_row.
  rewrite <- Hk. case_decide as Hin.
  - clear Hk. induction H as [|[k0 v0] r d rows Hr H IH]; [by apply not_elem_of_nil in Hin|].
    pose proof (rel_key _ _ Hr) as Hkr. cbn in Hkr. subst k0. csimpl in Hnd. inversion Hnd; subst.
    rewrite update_row_cons. cbn [dict_set]. destruct (decide (key r = key new)) as [He|He].
    + constructor; [rewrite He; by apply Hf|]. rewrite update_other; [done|].
      by rewrite <- (rel_keys _ _ H), <- He.
    + constructor; [done|]. apply IH; [done|]. csimpl in Hin. set_solver.
  - rewrite dict_set_fresh by done. apply Forall2_app; [done|]. by repeat constructor.
Qed.
End upsert.

(** ** The relation *)
Definition agent_rel (kv : string * CoordinatorAgentStateRecord) (row : AgentStateRow) : Prop :=
  kv.1 = ra_agent_id row
  ∧ ∃ r, _row_to_agent_state row = Ok r ∧ agent_view r = agent_view kv.2.

Definition decision_rel (s : CoordinatorDecisionRecord) (row : PendingDecisionRow) : Prop :=
  rd_resolved_at row = None
  ∧ ∃ r, _row_to_decision_record row = Ok r ∧ decision_view r = decision_view s.

Definition workflow_rel (kv : string * WorkflowState) (row : WorkflowState) : Prop :=
  kv.1 = CoordinatorWorkflow.wf_workflow_id row ∧ workflow_view row = workflow_view kv.2.

Section simulation.
Context `{!Env, !SqlOrder} (ulid_inj : Inj (=) (=) ulid).

(** What readers learn of a decision that was persisted. *)
Definition seen (d : Decision) :=
  (dc_reasoning d, dc_action d, dc_target_agent d, coordinator_workflow_id (dc_workflow_id d),
   None : option string, coordinator_task_id (Some (dc_task_id d))).

(** [ds]: the decisions so far. *)
Record related (ds : list Decision) (m : MemoryStore) (p : PgStore) : Prop := {
  rel_agents : Forall2 agent_rel (mm_agent_states m) (pg_agent_states p);
  rel_agents_nodup : NoDup (mm_agent_states m).*1;
  rel_pending : Forall2 decision_rel (mm_pending m) (pg_pending p);
  rel_pending_ids : Forall (λ r, ∃ i, (i < pg_ids p)%nat ∧ rd_decision_id r = "dec_" +:+ ulid i)
                      (pg_pending p);
  rel_seen : decision_view <$> mm_pending m = seen <$> ds;
  rel_workflows : Forall2 workflow_rel (mm_workflows m) (pg_workflows p);
  rel_workflows_nodup : NoDup (mm_workflows m).*1;
}.

Lemma strip_dec_id x : strip ("dec_" +:+ x) ≠ "".
Proof.
  change (strip ("dec_" +:+ x)) with (rstrip (String "d" ("ec_" +:+ x))).
  cbn [rstrip]. destruct (rstrip ("ec_" +:+ x)); done.
Qed.

Lemma agent_create_Ok a st t at_ e (x : CoordinatorAgentStatus) :
  strip a = a → a ≠ "" → lookup_value st = Some x →
  agent_state_create a st t at_ e =
    Ok {| as_agent_id := a; as_status := x; as_current_task := coordinator_task_id t;
          as_last_output_at := at_; as_error := e |}.
Proof.
  intros Hs Hne Hx. unfold agent_state_create, coordinator_agent_id. rewrite Hs.
  rewrite (proj2 (str_empty_false a)) by done. cbn. unfold parse_enum. by rewrite Hx.
Qed.

Lemma decision_create_Ok i d at_ :
  good_decision d →
  decision_create ("dec_" +:+ ulid i) (dc_reasoning d) (dc_action d) (dc_target_agent d)
    (dc_workflow_id d) at_ None (Some (dc_task_id d)) =
    Ok {| dr_decision_id := strip ("dec_" +:+ ulid i); dr_reasoning := dc_reasoning d;
          dr_action := dc_action d; dr_target_agent := dc_target_agent d;
          dr_workflow_id := coordinator_workflow_id (dc_workflow_id d); dr_created_at := at_;
          dr_outcome := None; dr_task_id := coordinator_task_id (Some (dc_task_id d)) |}.
Proof.
  intros ((Ht & Hne & _) & Ha & _). unfold decision_create, coordinator_decision_id, coordinator_agent_id.
  rewrite (proj2 (str_empty_false _) (strip_dec_id _)), Ht. cbn -[strip String.append].
  rewrite (proj2 (str_empty_false _) Hne). cbn -[strip String.append].
  by rewrite (proj2 (str_empty_false _) Ha).
Qed.

Lemma status_fits st : is_Some (lookup_value (E := CoordinatorAgentStatus) st) → fits 16 st = true.
Proof. by intros [[] <-%lookup_value_Some]. Qed.

Lemma update_agent_sim n a st t e m p :
  related n m p → good_agent a → is_Some (lookup_value (E := CoordinatorAgentStatus) st) →
  fits_opt 64 t = true →
  ∃ m' p', mm_update_agent_state a st t e m = (Ok (), m')
    ∧ pg_update_agent_state a st t e p = (Ok (), p') ∧ related n m' p'
    ∧ pg_ids p' = pg_ids p.
Proof.
  intros [Ha Hn Hp Hi Hl Hw Hwn] (Hs & Hne & Hfit) Hst Htask.
  pose proof (status_fits _ Hst) as Hsf. destruct Hst as [x Hx].
  unfold mm_update_agent_state, pg_update_agent_state. rewrite !M_bind_run. cbn -[agent_state_create].
  rewrite !M_bind_run. unfold liftM at 1. rewrite (agent_create_Ok _ _ _ _ _ x) by done.
  unfold agent_row_fits. cbn [ra_agent_id ra_status ra_current_task]. rewrite Hfit, Hsf, Htask. cbn [andb negb raise_ifM].
  do 2 eexists. split; [reflexivity|]. split; [reflexivity|]. split; [|done].
  constructor; cbn; try done.
  - set (row := Build_AgentStateRow _ _ _ _ _ _).
    apply (upsert_dict agent_rel ra_agent_id (λ kv r H, proj1 H) _ _ _ row); try done.
    all: assert (∃ r, _row_to_agent_state row = Ok r ∧
           agent_view r = (a, x, coordinator_task_id t, e)) as (r & Hr & Hv)
         by (eexists; split; [by apply agent_create_Ok|reflexivity]).
    + split; [done|]. by exists r.
    + intros r0 _. split; [done|]. by exists r.
  - by apply dict_set_NoDup.
Qed.

Lemma persist_one_sim n now d m p :
  related n m p → good_decision d →
  ∃ m' p', mm_persist_one d m = (Ok (), m') ∧ pg_persist_one now d p = (Ok (), p')
    ∧ related (n ++ [d]) m' p'.
Proof.
  intros [Ha Hn Hp Hi Hl Hw Hwn] Hd. pose proof Hd as (Ht & _ & Hfits).
  assert ("dec_" +:+ ulid (pg_ids p) ∉ rd_decision_id <$> pg_pending p) as Hfresh.
  { intros (r & Hr & Hin)%list_elem_of_fmap. rewrite Forall_forall in Hi.
    destruct (Hi r Hin) as (i & Hlt & Hid). rewrite Hid in Hr.
    apply (inj (String.append "dec_")) in Hr. apply ulid_inj in Hr. lia. }
  unfold mm_persist_one, pg_persist_one. rewrite !M_bind_run. cbn -[decision_create String.append].
  change ("dec" +:+ "_" +:+ ulid (mm_ids m)) with ("dec_" +:+ ulid (mm_ids m)).
  change ("dec" +:+ "_" +:+ ulid (pg_ids p)) with ("dec_" +:+ ulid (pg_ids p)).
  rewrite !M_bind_run. unfold liftM at 1. rewrite (decision_create_Ok _ d) by done.
  unfold getsM at 1. cbn -[decision_create String.append]. rewrite M_bind_run.
  rewrite bool_decide_eq_false_2 by exact Hfresh. cbn -[decision_create String.append].
  rewrite !M_bind_run, Hfits. cbn -[String.append mm_update_agent_state pg_update_agent_state].
  unfold mret at 1, M_ret at 1. rewrite !M_bind_run. cbn [modifyM].
  match goal with
  | |- ∃ _ _, mm_update_agent_state _ _ _ _ ?m1 = _ ∧ pg_update_agent_state _ _ _ _ ?p1 = _ ∧ _ =>
      destruct (update_agent_sim (n ++ [d]) (dc_target_agent d) "working" (Some (dc_task_id d)) None m1 p1)
        as (m' & p' & Hm' & Hp' & Hr & _)
  end; [|done|by eexists|by apply andb_true_iff in Hfits as [_ ?]|by exists m', p'].
  constructor; cbn -[String.append]; try done.
  - apply Forall2_app; [done|]. repeat constructor. eexists. split; [by apply decision_create_Ok|done].
  - apply Forall_app. split.
    + eapply Forall_impl; [exact Hi|]. intros r (i & ? & ?). exists i. split; [lia|done].
    + repeat constructor. exists (pg_ids p). split; [lia|done].
  - by rewrite !fmap_app, Hl.
Qed.

Lemma persist_loop_sim n now ds m p :
  related n m p → Forall good_decision ds →
  ∃ m' p', forM ds mm_persist_one m = (Ok (), m') ∧ forM ds (pg_persist_one now) p = (Ok (), p')
    ∧ related (n ++ ds) m' p'.
Proof.
  intros Hr Hds. revert n m p Hr. induction Hds as [|d ds Hd Hds IH]; intros n m p Hr; cbn [forM].
  - exists m, p. rewrite app_nil_r. done.
  - destruct (persist_one_sim n now d m p Hr Hd) as (m1 & p1 & H1 & H2 & Hr1).
    destruct (IH _ _ _ Hr1) as (m2 & p2 & H3 & H4 & Hr2). exists m2, p2.
    rewrite !M_bind_run, H1, H2. split_and!; [done..|].
    by rewrite <- app_assoc in Hr2.
Qed.

Lemma pg_tick_related n m p : related n m p → related n m (pg_now p).2.
Proof. by intros [Ha Hn Hp Hi Hl Hw Hwn]. Qed.

Lemma unresolved_related n m p : related n m p → unresolved (pg_pending p) = pg_pending p.
Proof.
  intros [_ _ Hp _ _ _ _]. unfold unresolved. apply filter_all.
  clear -Hp. induction Hp as [|s r l l' [Hr _] Hp IH]; intros x Hx; [by apply not_elem_of_nil in Hx|].
  apply elem_of_cons in Hx as [->|Hx]; [done|auto].
Qed.

(** Below the limit nothing is trimmed. *)
Lemma trim_noop p :
  unresolved (pg_pending p) = pg_pending p → (length (pg_pending p) ≤ PENDING_DECISIONS_LIMIT)%nat →
  _trim_pending_decisions p = (Ok (), p).
Proof.
  intros Hu Hl. unfold _trim_pending_decisions. rewrite M_bind_run. cbn [getsM modifyM].
  rewrite Hu, drop_ge by by rewrite order_by_perm. cbn [fmap list_fmap].
  unfold modifyM. rewrite filter_all; [by destruct p|]. intros. apply not_elem_of_nil.
Qed.

Lemma persist_sim n ds m p :
  related n m p → Forall good_decision ds → (length (n ++ ds) ≤ PENDING_DECISIONS_LIMIT)%nat →
  ∃ m' p', mm_persist ds m = (Ok (), m') ∧ pg_persist ds p = (Ok (), p')
    ∧ related (n ++ ds) m' p' ∧ forM ds (pg_persist_one (clock (pg_ticks p))) (pg_now p).2 = (Ok (), p').
Proof.
  intros Hr Hds Hle. unfold mm_persist, pg_persist.
  destruct (persist_loop_sim n (clock (pg_ticks p)) ds m (pg_now p).2 (pg_tick_related _ _ _ Hr) Hds)
    as (m1 & p1 & H1 & H2 & Hr1). pose proof H2 as Hloop.
  rewrite !M_bind_run. cbn [pg_now]. rewrite M_bind_run. cbn [pg_now snd] in H2. rewrite H1, H2.
  do 2 eexists. split; [reflexivity|].
  assert (length (mm_pending m1) = length (n ++ ds)) as Hlen
    by (rewrite <- (length_fmap decision_view), (rel_seen _ _ _ Hr1); apply length_fmap).
  rewrite trim_noop.
  2:{ by eapply unresolved_related. }
  2:{ rewrite <- (Forall2_length _ _ _ (rel_pending _ _ _ Hr1)). lia. }
  split; [reflexivity|].
  assert (mm_set_pending (last_n PENDING_DECISIONS_LIMIT (mm_pending m1)) m1 = m1) as ->; [|done].
  unfold last_n. replace (length (mm_pending m1) - PENDING_DECISIONS_LIMIT)%nat with 0%nat by lia.
  by destruct m1.
Qed.

Lemma upsert_sim n st m p :
  related n m p → good_write (UpsertWorkflow st) →
  ∃ m' p', mm_upsert_workflow_state st m = (Ok (), m') ∧ pg_upsert_workflow_state st p = (Ok (), p')
    ∧ related n m' p' ∧ pg_pending p' = pg_pending p ∧ pg_ticks p' = S (pg_ticks p).
Proof.
  intros [Ha Hn Hp Hi Hl Hw Hwn] (r & Hok & Hfit). apply bind_Ok in Hok as (w & E & Hr).
  assert (CoordinatorWorkflow.wf_workflow_id r = CoordinatorWorkflow.workflow_id w) as Hid
    by (unfold CoordinatorWorkflow.to_record_kwargs in Hr; by inv_bind).
  unfold mm_upsert_workflow_state, pg_upsert_workflow_state. rewrite !M_bind_run.
  unfold liftM at 1 3. rewrite E, !M_bind_run. unfold liftM. rewrite Hr, M_bind_run.
  cbn [pg_now]. rewrite M_bind_run, Hfit. cbn [negb raise_ifM]. do 2 eexists. split; [reflexivity|]. split; [reflexivity|]. split; [|done].
  constructor; cbn; try done; [|by apply dict_set_NoDup].
  set (row := workflow_row r _ _). rewrite <- Hid.
  apply (upsert_dict workflow_rel CoordinatorWorkflow.wf_workflow_id (λ kv r H, proj1 H) _ _ _ row); done.
Qed.

(** *** The times of the rows

    The rows a write inserts carry the time at which it began, so a clock that
    moves between writes keeps the batches apart. *)
Definition stamped (dss : list (list Decision)) (p : PgStore) : Prop :=
  ∃ batches stamps, pg_pending p = concat batches
    ∧ Forall2 (λ b ds, length b = length ds) batches dss
    ∧ Forall2 (λ k b, Forall (λ r, rd_created_at r = clock k) b) stamps batches
    ∧ StronglySorted lt stamps ∧ Forall (λ k, k < pg_ticks p)%nat stamps.

Lemma sorted_snoc (l : list nat) n : StronglySorted lt l → Forall (λ k, k < n)%nat l → StronglySorted lt (l ++ [n]).
Proof.
  induction 1 as [|k l Hs IH Hk]; intros Hl; cbn; [repeat constructor|]. inversion Hl; subst.
  constructor; [auto|]. apply Forall_app. split; [done|by repeat constructor].
Qed.

Lemma stamped_snoc dss ds p p' b :
  stamped dss p → pg_pending p' = pg_pending p ++ b → length b = length ds →
  Forall (λ r, rd_created_at r = clock (pg_ticks p)) b → (pg_ticks p < pg_ticks p')%nat →
  stamped (dss ++ [ds]) p'.
Proof.
  intros (bs & ks & Hp & Hlen & Hk & Hs & Hlt) Hp' Hb Hnow Hticks.
  exists (bs ++ [b]), (ks ++ [pg_ticks p]). split_and!.
  - rewrite Hp', Hp, concat_app. cbn. by rewrite app_nil_r.
  - apply Forall2_app; [done|by repeat constructor].
  - apply Forall2_app; [done|by repeat constructor].
  - by apply sorted_snoc.
  - apply Forall_app. split; [|by repeat constructor]. eapply Forall_impl; [exact Hlt|]. cbn. lia.
Qed.

Lemma pg_update_run a st t e p p' :
  pg_update_agent_state a st t e p = (Ok (), p') → pg_pending p' = pg_pending p ∧ pg_ticks p' = S (pg_ticks p).
Proof.
  unfold pg_update_agent_state. rewrite M_bind_run. cbn [pg_now]. rewrite M_bind_run.
  destruct (negb _); [done|]. by intros [= <-].
Qed.

Lemma pg_persist_one_run now d p p' :
  pg_persist_one now d p = (Ok (), p') →
  ∃ r, pg_pending p' = pg_pending p ++ [r] ∧ rd_created_at r = now ∧ (pg_ticks p ≤ pg_ticks p')%nat.
Proof.
  unfold pg_persist_one. intros Hr. apply M_bind_Ok in Hr as (i & p1 & [= <- <-] & Hr).
  apply M_bind_Ok in Hr as (rows & p2 & [= <- <-] & Hr). apply M_bind_Ok in Hr as (u & p3 & Hn & Hr).
  destruct (bool_decide _); [done|]. injection Hn as <- <-. apply M_bind_Ok in Hr as (u & p4 & Hf & Hr).
  destruct (negb _); [done|]. injection Hf as <- <-. apply M_bind_Ok in Hr as (u & p5 & [= <- <-] & Hr).
  apply pg_update_run in Hr as [Hp Ht]. eexists. split; [rewrite Hp; reflexivity|]. split; [done|]. rewrite Ht. cbn. lia.
Qed.

Lemma pg_loop_run now ds p p' :
  forM ds (pg_persist_one now) p = (Ok (), p') →
  ∃ b, pg_pending p' = pg_pending p ++ b ∧ length b = length ds ∧ Forall (λ r, rd_created_at r = now) b
    ∧ (pg_ticks p ≤ pg_ticks p')%nat.
Proof.
  revert p. induction ds as [|d ds IH]; intros p; cbn [forM].
  - intros [= <-]. exists []. rewrite app_nil_r. by repeat constructor.
  - rewrite M_bind_run. destruct (pg_persist_one now d p) as [[[]|e] p1] eqn:H1; [|done].
    intros (b & Hp & Hb & Hn & Ht)%IH. apply pg_persist_one_run in H1 as (r & Hp1 & Hr & Ht1).
    exists (r :: b). rewrite Hp, Hp1, <- app_assoc. split_and!; [done|cbn; lia|by constructor|lia].
Qed.

Lemma write_sim ds w m p :
  related ds m p → good_write w → (length (ds ++ decisions_of w) ≤ PENDING_DECISIONS_LIMIT)%nat →
  ∃ m' p', write w m = (Ok (), m') ∧ write w p = (Ok (), p')
    ∧ related (ds ++ decisions_of w) m' p'
    ∧ ∀ dss, stamped dss p → stamped (dss ++ [decisions_of w]) p'.
Proof.
  intros Hr Hw Hle. destruct w as [a st t e|ds'|st]; cbn -[good_write] in *.
  - rewrite app_nil_r in *. destruct Hw as (? & ? & ?).
    destruct (update_agent_sim ds a st t e m p Hr) as (m' & p' & ? & Hu & ? & _); [done..|].
    exists m', p'. split_and!; [done..|]. intros dss Hs. apply pg_update_run in Hu as [Hp Ht].
    eapply (stamped_snoc _ _ _ _ []); [exact Hs|by rewrite app_nil_r|done|constructor|lia].
  - destruct (persist_sim ds ds' m p Hr Hw Hle) as (m' & p' & ? & ? & ? & Hloop).
    exists m', p'. split_and!; [done..|]. intros dss Hs.
    apply pg_loop_run in Hloop as (b & Hp & Hb & Hn & Ht). eapply stamped_snoc; [exact Hs|exact Hp|done|done|].
    cbn in Ht. lia.
  - rewrite app_nil_r in *. destruct (upsert_sim ds st m p Hr Hw) as (m' & p' & ? & ? & ? & Hp & Ht).
    exists m', p'. split_and!; [done..|]. intros dss Hs.
    eapply (stamped_snoc _ _ _ _ []); [exact Hs|by rewrite app_nil_r|done|constructor|lia].
Qed.

Lemma writes_sim ds dss ws m p :
  related ds m p → stamped dss p → Forall good_write ws →
  (length (ds ++ (ws ≫= decisions_of)) ≤ PENDING_DECISIONS_LIMIT)%nat →
  ∃ m' p', forM ws write m = (Ok (), m') ∧ forM ws write p = (Ok (), p')
    ∧ related (ds ++ (ws ≫= decisions_of)) m' p' ∧ stamped (dss ++ (decisions_of <$> ws)) p'.
Proof.
  intros Hr Hst Hws. revert ds dss m p Hr Hst. induction Hws as [|w ws Hw Hws IH]; intros ds dss m p Hr Hst Hle; cbn [forM].
  - exists m, p. cbn. by rewrite !app_nil_r.
  - rewrite bind_cons in *.
    destruct (write_sim ds w m p Hr Hw) as (m1 & p1 & H1 & H2 & Hr1 & Hs1); [rewrite !length_app in *; lia|].
    destruct (IH _ _ _ _ Hr1 (Hs1 _ Hst)) as (m2 & p2 & H3 & H4 & Hr2 & Hs2); [by rewrite <- app_assoc|].
    exists m2, p2. rewrite !M_bind_run, H1, H2. rewrite <- app_assoc in Hr2, Hs2. done.
Qed.

(** ** Reads of related states *)
Lemma agents_read n m p :
  related n m p →
  ∃ l, get_agent_states p = (Ok l, p)
    ∧ ∀ k, agent_view <$> dict_get (mm_agent_states m) k = agent_view <$> dict_get l k.
Proof.
  intros [Ha Hn _ _ _ _ _]. cbn. unfold pg_get_agent_states. rewrite M_bind_run. cbn [getsM].
  assert (∃ l, mapR (λ row, r ← _row_to_agent_state row; Ok (ra_agent_id row, r)) (pg_agent_states p) = Ok l
    ∧ l.*1 = (mm_agent_states m).*1
    ∧ ∀ k, agent_view <$> dict_get (mm_agent_states m) k = agent_view <$> dict_get l k) as (l & Hl & Hk & Hv).
  { clear Hn. induction Ha as [|[k s] row l l' (Hk & r & Hr & Hv) Ha (l0 & Hl0 & Hk0 & Hv0)]; [by exists []|].
    cbn in Hk, Hv. exists ((k, r) :: l0). cbn [mapR]. rewrite Hr. cbn [mbind result_bind]. rewrite Hl0. cbn.
    split_and!; [by rewrite Hk|by rewrite Hk0|]. intros k'. case_decide; [cbn; by rewrite Hv|done]. }
  exists l. unfold liftM. rewrite M_bind_run, Hl. split; [|done].
  rewrite dict_of_items_NoDup by (by rewrite Hk). done.
Qed.

Lemma sorted_filter {A} (R : A → A → Prop) (P : A → Prop) `{!∀ x, base.Decision (P x)} l :
  StronglySorted R l → StronglySorted R (filter P l).
Proof.
  induction 1 as [|x l Hs IH Hx]; [constructor|]. rewrite filter_cons. case_decide; [|done].
  constructor; [done|]. apply Forall_forall. intros y [_ Hy]%list_elem_of_filter.
  rewrite Forall_forall in Hx. by apply Hx.
Qed.

Lemma some_perm {A} (l1 l2 : list A) : Some <$> l1 ≡ₚ Some <$> l2 → l1 ≡ₚ l2.
Proof.
  assert (∀ l : list A, (Some <$> l) ≫= option_list = l) as Hl
    by (induction l as [|x l IH]; [done|]; cbn in *; by rewrite IH).
  intros Hp. rewrite <- (Hl l1), <- (Hl l2). by rewrite Hp.
Qed.

(** A sorted list is the concatenation of the groups of its keys. *)
Lemma split_least {A} (key : A → instant) k l :
  StronglySorted (λ a b, key a ≤ key b) l → (∀ x, x ∈ l → k ≤ key x) →
  l = filter (λ x, key x = k) l ++ filter (λ x, key x ≠ k) l.
Proof.
  induction 1 as [|x l Hs IH Hx]; intros Hk; [done|]. rewrite !filter_cons.
  destruct (decide (key x = k)) as [He|He].
  - rewrite decide_False by tauto. cbn. f_equal. apply IH. set_solver.
  - rewrite decide_True by done. rewrite Forall_forall in Hx.
    assert (k < key x) by (specialize (Hk x ltac:(left)); lia).
    rewrite filter_none, (filter_all _ l); [done|..]; intros y Hy; specialize (Hx y Hy); lia.
Qed.

Lemma sorted_parts {A} (key : A → instant) stamps batches l :
  StronglySorted Z.lt stamps → Forall2 (λ k b, Forall (λ r, key r = k) b) stamps batches →
  l ≡ₚ concat batches → StronglySorted (λ a b, key a ≤ key b) l →
  ∃ parts, l = concat parts ∧ Forall2 (≡ₚ) parts batches.
Proof.
  intros Hst Hb. revert l Hst. induction Hb as [|k b stamps batches Hkb Hb IH]; intros l Hst Hp Hs.
  - exists []. apply Permutation_nil_r in Hp as ->. by split.
  - inversion Hst as [|? ? Hst' Hk]; subst. cbn in Hp.
    assert (∀ x, x ∈ concat batches → k < key x) as Hlater.
    { intros x Hx. clear -Hb Hk Hx. induction Hb as [|k' b' ks bs Hkb' Hb IH]; [by apply not_elem_of_nil in Hx|].
      cbn in Hx. inversion Hk; subst. apply elem_of_app in Hx as [Hx|Hx]; [|auto].
      rewrite Forall_forall in Hkb'. specialize (Hkb' x Hx). lia. }
    assert (∀ x, x ∈ b → key x = k) as Hnow by by apply Forall_forall.
    assert (filter (λ x, key x = k) l ≡ₚ b) as H1.
    { rewrite Hp, filter_app, filter_all, filter_none, app_nil_r; [done| |done]. intros x Hx%Hlater. lia. }
    assert (filter (λ x, key x ≠ k) l ≡ₚ concat batches) as H2.
    { rewrite Hp, filter_app, filter_none, filter_all; [done| |by auto]. intros x Hx%Hlater. lia. }
    destruct (IH (filter (λ x, key x ≠ k) l) Hst' H2) as (parts & Hl & Hf).
    { by apply sorted_filter. }
    exists (filter (λ x, key x = k) l :: parts). split; [|by constructor]. cbn. rewrite <- Hl.
    apply split_least; [done|]. intros x Hx. rewrite Hp in Hx. apply elem_of_app in Hx as [Hx|Hx].
    + rewrite (Hnow x Hx). lia.
    + specialize (Hlater x Hx). lia.
Qed.

(** What a reader learns of a row. *)
Definition row_view (row : PendingDecisionRow) :=
  match _row_to_decision_record row with Ok r => Some (decision_view r) | Raise _ => None end.

Lemma rows_seen ds m p : related ds m p → row_view <$> pg_pending p = Some ∘ seen <$> ds.
Proof.
  intros [_ _ Hp _ Hs _ _].
  assert (row_view <$> pg_pending p = Some <$> (decision_view <$> mm_pending m)) as ->.
  { clear Hs. induction Hp as [|s row l l' (_ & r & Hr & Hv) Hp IH]; [done|]. rewrite !fmap_cons.
    f_equal; [|done]. unfold row_view. by rewrite Hr, Hv. }
  by rewrite Hs, <- list_fmap_compose.
Qed.

(** The rows of a batch are those of its decisions. *)
Lemma batches_seen (batches : list (list PendingDecisionRow)) (dss : list (list Decision)) :
  Forall2 (λ b ds, length b = length ds) batches dss →
  row_view <$> concat batches = Some ∘ seen <$> concat dss →
  Forall2 (λ b ds, row_view <$> b = Some ∘ seen <$> ds) batches dss.
Proof.
  induction 1 as [|b ds batches dss Hl Hf IH]; intros He; [constructor|]. cbn in He.
  rewrite !fmap_app in He. apply app_inj_1 in He as [H1 H2]; [|by rewrite !length_fmap]. constructor; auto.
Qed.

(** Records of rows that can all be read. *)
Lemma read_rows rows ds :
  row_view <$> rows ≡ₚ Some ∘ seen <$> ds →
  ∃ l, mapR _row_to_decision_record rows = Ok l ∧ decision_view <$> l ≡ₚ seen <$> ds.
Proof.
  intros Hp. assert (∀ r, r ∈ rows → ∃ v, row_view r = Some v) as Hall.
  { intros r Hr. assert (row_view r ∈ row_view <$> rows) as Hin by by apply list_elem_of_fmap_2.
    rewrite Hp in Hin. apply list_elem_of_fmap in Hin as (d & -> & _). by eexists. }
  assert (∃ l, mapR _row_to_decision_record rows = Ok l ∧ row_view <$> rows = Some <$> (decision_view <$> l))
    as (l & Hl & Hv).
  { clear Hp. induction rows as [|r rows IH]; [by exists []|]. destruct IH as (l & Hl & Hv); [set_solver|].
    destruct (Hall r ltac:(left)) as [v Hr]. unfold row_view in Hr.
    destruct (_row_to_decision_record r) as [x|] eqn:Hx; [|done].
    exists (x :: l). cbn [mapR]. rewrite Hx. cbn [mbind result_bind]. rewrite Hl. split; [done|].
    rewrite !fmap_cons, <- Hv. unfold row_view at 1. by rewrite Hx. }
  exists l. split; [done|]. rewrite Hv, list_fmap_compose in Hp.
  by apply some_perm.
Qed.

Lemma mapR_concat {A B} (f : A → result B) parts out :
  Forall2 (λ part o, mapR f part = Ok o) parts out → mapR f (concat parts) = Ok (concat out).
Proof.
  induction 1 as [|part o parts out Ho _ IH]; [done|]. cbn. revert o Ho.
  induction part as [|x part IHp]; cbn; intros o Ho.
  - injection Ho as <-. exact IH.
  - destruct (f x) as [y|]; [|done]. cbn in *. destruct (mapR f part) as [o'|]; [|done]. cbn in Ho.
    injection Ho as <-. cbn. by rewrite (IHp _ eq_refl).
Qed.

Lemma pending_read dss m p :
  (∀ i j, (i < j)%nat → clock i < clock j) → related (concat dss) m p → stamped dss p →
  ∃ parts, get_pending_decisions p = (Ok (concat parts), p)
    ∧ Forall2 (λ part ds, decision_view <$> part ≡ₚ seen <$> ds) parts dss.
Proof.
  intros Hclock Hr (batches & stamps & Hp & Hlen & Hst & Hsorted & _).
  pose proof (rows_seen _ _ _ Hr) as Hseen. rewrite Hp in Hseen.
  pose proof (batches_seen _ _ Hlen Hseen) as Hb.
  destruct (sorted_parts rd_created_at (clock <$> stamps) batches (order_by rd_created_at (pg_pending p)))
    as (rows & Hrows & Hperm).
  - clear -Hclock Hsorted. induction Hsorted as [|k ks Hs IH Hk]; [constructor|]. rewrite fmap_cons.
    constructor; [done|]. apply Forall_fmap. eapply Forall_impl; [exact Hk|]. intros j. apply Hclock.
  - by apply Forall2_fmap_l.
  - rewrite Hp. apply order_by_perm.
  - apply order_by_sorted.
  - assert (∃ parts, Forall2 (λ part o, mapR _row_to_decision_record part = Ok o) rows parts
        ∧ Forall2 (λ part ds, decision_view <$> part ≡ₚ seen <$> ds) parts dss) as (parts & H1 & H2).
    { clear -Hperm Hb ulid_inj. revert dss Hb. induction Hperm as [|rw b rows batches Hpb Hperm IH]; intros dss Hb.
      - inversion Hb; subst. exists []. by repeat constructor.
      - inversion Hb as [|? ds ? dss' Hd Hb']; subst. destruct (IH _ Hb') as (parts & H1 & H2).
        destruct (read_rows rw ds) as (l & Hl & Hv); [by rewrite Hpb, Hd|].
        exists (l :: parts). by split; constructor. }
    exists parts. split; [|done]. cbn. unfold pg_get_pending_decisions. rewrite M_bind_run. cbn [getsM].
    rewrite (unresolved_related _ _ _ Hr). unfold liftM. by rewrite Hrows, (mapR_concat _ _ _ H1).
Qed.

Lemma workflows_read n m p :
  related n m p →
  ∃ l, get_workflow_states p = (Ok l, p)
    ∧ ∀ k, workflow_view <$> dict_get (mm_workflows m) k = workflow_view <$> dict_get l k.
Proof.
  intros [_ _ _ _ _ Hw Hwn]. cbn. unfold pg_get_workflow_states. rewrite M_bind_run. cbn [getsM].
  eexists. split; [reflexivity|].
  assert (((λ r, (CoordinatorWorkflow.wf_workflow_id r, r)) <$> pg_workflows p).*1 = (mm_workflows m).*1) as Hk.
  { rewrite <- list_fmap_compose. symmetry. by apply (rel_keys workflow_rel _ (λ kv r H, proj1 H)). }
  rewrite dict_of_items_NoDup by (by rewrite Hk). clear Hk Hwn. intros k.
  induction Hw as [|[k0 r0] row l l' [Hk Hv] Hw IH]; [done|]. cbn in Hk, Hv. cbn. rewrite <- Hk.
  case_decide; [cbn; by rewrite Hv|done].
Qed.

Lemma related_empty : related [] empty_memory empty_postgres.
Proof. constructor; cbn; constructor. Qed.
Lemma stamped_empty : stamped [] empty_postgres.
Proof. exists [], []. by repeat constructor. Qed.
End simulation.


(** ** The backlog is bounded, newest first *)
Section trim.
Context `{!Env, !SqlOrder}.

Lemma filter_stale {A} (key : A → string) (l l1 l2 : list A) :
  NoDup (key <$> l) → l ≡ₚ l1 ++ l2 → filter (λ r, key r ∉ key <$> l2) l ≡ₚ l1.
Proof.
  intros Hnd Hp. rewrite Hp, filter_app. rewrite Hp, fmap_app in Hnd.
  apply NoDup_app in Hnd as (H1 & Hdis & H2).
  rewrite (filter_all _ l1) by (intros x Hx; apply Hdis; by apply list_elem_of_fmap_2).
  rewrite (filter_none _ l2), app_nil_r; [done|].
  intros x Hx Hn. apply Hn. by apply list_elem_of_fmap_2.
Qed.

Lemma sorted_app {A} (R : A → A → Prop) l1 l2 x y :
  StronglySorted R (l1 ++ l2) → x ∈ l1 → y ∈ l2 → R x y.
Proof.
  induction l1 as [|z l1 IH]; [by intros _ ?%not_elem_of_nil|]. cbn. intros Hs0 Hx Hy.
  inversion Hs0 as [|? ? Hs Hall]; subst. apply elem_of_cons in Hx as [->|Hx]; [|auto].
  rewrite Forall_forall in Hall. apply Hall. apply elem_of_app. by right.
Qed.

Lemma unresolved_filter (P : PendingDecisionRow → Prop) `{!∀ x, base.Decision (P x)} rows :
  unresolved (filter P rows) = filter P (unresolved rows).
Proof.
  unfold unresolved. rewrite !list_filter_filter. apply list_filter_iff. intros; tauto.
Qed.

(** What trimming leaves: the first rows of the newest-first order. *)
Lemma trim_kept s s' :
  NoDup (rd_decision_id <$> pg_pending s) → _trim_pending_decisions s = (Ok (), s') →
  unresolved (pg_pending s') ≡ₚ
    take PENDING_DECISIONS_LIMIT (order_by (λ r, - rd_created_at r) (unresolved (pg_pending s))).
Proof.
  intros Hnd Htr. unfold _trim_pending_decisions in Htr. rewrite M_bind_run in Htr. cbn [getsM modifyM] in Htr.
  injection Htr as <-. cbn [pg_pending pg_set_pending]. rewrite unresolved_filter.
  apply filter_stale.
  - eapply sublist_NoDup; [exact Hnd|]. apply fmap_sublist, sublist_filter.
  - rewrite take_drop. symmetry. apply order_by_perm.
Qed.

Lemma NoDup_key {A} (key : A → string) (l : list A) x y :
  NoDup (key <$> l) → x ∈ l → y ∈ l → key x = key y → x = y.
Proof.
  induction l as [|z l IH]; [by intros _ ?%not_elem_of_nil|]. rewrite fmap_cons. intros Hnd Hx Hy He.
  inversion Hnd as [|? ? Hn Hnd']; subst.
  apply elem_of_cons in Hx as [->|Hx]; apply elem_of_cons in Hy as [->|Hy]; [done| | |auto];
    destruct Hn; rewrite ?He; [|rewrite <- He]; by apply list_elem_of_fmap_2.
Qed.

Lemma trim_resolved s s' r :
  NoDup (rd_decision_id <$> pg_pending s) → _trim_pending_decisions s = (Ok (), s') →
  r ∈ pg_pending s → rd_resolved_at r ≠ None → r ∈ pg_pending s'.
Proof.
  intros Hnd Htr Hr Hres. unfold _trim_pending_decisions in Htr. rewrite M_bind_run in Htr.
  cbn [getsM modifyM] in Htr. injection Htr as <-. cbn [pg_pending pg_set_pending].
  apply list_elem_of_filter. split; [|done].
  intros (x & He & Hx)%list_elem_of_fmap.
  assert (x ∈ unresolved (pg_pending s)) as [Hu Hxs]%list_elem_of_filter.
  { rewrite <- (order_by_perm _ (λ r, - rd_created_at r)). 
    rewrite <- (take_drop PENDING_DECISIONS_LIMIT (order_by _ _)). apply elem_of_app. by right. }
  by rewrite (NoDup_key _ _ _ _ Hnd Hr Hxs He) in Hres.
Qed.

(** The backlog of decisions is bounded and keeps the newest: after a batch is
    persisted at most the limit stays pending, resolved rows are untouched by the
    trimming, and no pending row that was dropped is newer than one that was
    kept. *)
Theorem trim_keeps_newest s s' :
  NoDup (rd_decision_id <$> pg_pending s) → _trim_pending_decisions s = (Ok (), s') →
  length (unresolved (pg_pending s')) = (length (unresolved (pg_pending s)) `min` PENDING_DECISIONS_LIMIT)%nat
  ∧ (∀ r, r ∈ pg_pending s → rd_resolved_at r ≠ None → r ∈ pg_pending s')
  ∧ (∀ r r', r ∈ unresolved (pg_pending s) → r ∉ pg_pending s' → r' ∈ unresolved (pg_pending s') →
       rd_created_at r ≤ rd_created_at r').
Proof.
  intros Hnd Htr. pose proof (trim_kept _ _ Hnd Htr) as Hk. split_and!.
  - rewrite Hk, length_take, order_by_perm. lia.
  - intros r. by apply trim_resolved.
  - intros r r' Hr Hn Hr'. rewrite Hk in Hr'.
    set (l := order_by (λ r, - rd_created_at r) (unresolved (pg_pending s))) in *.
    assert (r ∈ drop PENDING_DECISIONS_LIMIT l) as Hd.
    { assert (r ∈ l) as Hl by (unfold l; by rewrite order_by_perm).
      rewrite <- (take_drop PENDING_DECISIONS_LIMIT l) in Hl. apply elem_of_app in Hl as [Hl|]; [|done].
      rewrite <- Hk in Hl. by apply list_elem_of_filter in Hl as [_ ?]. }
    pose proof (order_by_sorted _ (λ r, - rd_created_at r) (unresolved (pg_pending s))) as Hs. fold l in Hs.
    rewrite <- (take_drop PENDING_DECISIONS_LIMIT l) in Hs.
    apply (sorted_app _ _ _ _ _ Hs Hr') in Hd. cbn in Hd. lia.
Qed.
End trim.

(** ** A concrete environment *)
#[local] Instance sample_order : SqlOrder.
Proof.
  refine {| order_by := λ A key, py_sorted (λ a b, key a <=? key b) |}.
  - intros A key l. apply py_sorted_perm.
  - intros A key l.
    assert (StronglySorted (λ a b, (key a <=? key b) = true) (py_sorted (λ a b, key a <=? key b) l)) as Hs
      by (apply py_sorted_sorted; intros; rewrite ?Z.leb_le in *; lia).
    induction Hs as [|x l' Hs IH Hall]; constructor; [done|].
    eapply Forall_impl; [exact Hall|]. intros y. cbn. by rewrite Z.leb_le.
Defined.

#[local] Instance sample_env : Env := {|
  sha256_hex := λ s, s; ulid := pretty; uuid4_hex := pretty; clock := Z.of_nat;
  sql_sum := λ _, f_zero; operator_id := None; enforce_foreign_keys := true |}.

Definition sample_decision (target action task : string) : Decision := {|
  dc_target_agent := target; dc_action := action; dc_task_id := task; dc_instruction := "do it";
  dc_workflow_id := Some "wf_1"; dc_priority := "normal"; dc_reasoning := ""; dc_context := [];
  dc_command_id := None; dc_trace_id := None; dc_status := None; dc_summary := None;
  dc_scratchpad_ref := None; dc_permissions := PNone |}.

Definition sample_writes : list store_write :=
  [UpdateAgent "dev-agent" "idle" None None;
   PersistDecisions [sample_decision "dev-agent" "dispatch_task" "t1";
                     sample_decision "qa-agent" "dispatch_task" " "];
   UpsertWorkflow CoordinatorWorkflow.sample_workflow;
   PersistDecisions [sample_decision "dev-agent" "wait" "t2"]].


(** Outside these writes the adapters differ: a padded identifier is stripped by
    the in-memory store only, and a long one is refused by PostgreSQL only. *)
Lemma padded_agent_diverges :
  fst <$> mm_agent_states (update_agent_state " dev " "idle" None None empty_memory).2 = ["dev"]
  ∧ ra_agent_id <$> pg_agent_states (update_agent_state " dev " "idle" None None empty_postgres).2 = [" dev "].
Proof. vm_compute. auto. Qed.

Lemma long_task_diverges :
  let task := Some (str_join "" (replicate 65 "x")) in
  is_ok (update_agent_state "dev" "working" task None empty_memory).1 = true
  ∧ (update_agent_state "dev" "working" task None empty_postgres).1 = Raise too_long.
Proof. vm_compute. auto. Qed.

Definition full_backlog : PgStore := {|
  pg_agent_states := []; pg_workflows := []; pg_ticks := 0; pg_ids := 0;
  pg_pending := (λ n, {|
    rd_decision_id := pretty (N.of_nat n); rd_workflow_id := None; rd_reasoning := ""; rd_action := "wait";
    rd_target_agent := "dev-agent"; rd_task_id := None; rd_outcome := None;
    rd_created_at := Z.of_nat n; rd_resolved_at := None; rd_retry_count := 0 |}) <$> seq 0 102 |}.

Lemma trim_keeps_newest_witness :
  length (unresolved (pg_pending (_trim_pending_decisions full_backlog).2)) = 100%nat.
Proof.
  assert (NoDup (rd_decision_id <$> pg_pending full_backlog)) as Hnd
    by (apply (bool_decide_unpack _); vm_compute; exact I).
  assert (_trim_pending_decisions full_backlog = (Ok (), (_trim_pending_decisions full_backlog).2)) as Htr
    by (vm_compute; reflexivity).
  rewrite (proj1 (trim_keeps_newest _ _ Hnd Htr)). vm_compute. reflexivity.
Defined.

(** A decision without an action is refused by the in-memory store, but stored by
    the PostgreSQL one, after which its readers raise. *)
Lemma blank_action_poisons_backlog :
  let ds := [sample_decision "dev-agent" " " "t1"] in
  is_ok (persist ds empty_memory).1 = false
  ∧ (persist ds empty_postgres).1 = Ok ()
  ∧ is_ok (get_pending_decisions (persist ds empty_postgres).2).1 = false.
Proof. vm_compute. auto. Qed.
