(* ===== verification/CoordinatorEvents.v ===== *)
(** * Coordinator event handling

    [core/classifier.py], [core/event_use_cases.py] and the unit of work of
    [db/in_memory_unit_of_work.py]: an inbound event either reports progress or is
    turned into decisions, which are persisted before they are noted in the
    scratchpad ([src/shared/infra/scratchpad.py]), entry by entry.  The handler is
    written against the store interface; the thinker (a language model), the
    failures of the file system, the size of the scratchpad directory and the
    schemas' field validation (Pydantic) are parameters. *)

From S2P Require Import CoordinatorRefinement.
From S2P Require Import Prelude PyNum PyTime PyValue Store Event CoordinatorDispatch CoordinatorStore.
From S2P Require Import DomainEvents.

(** Reads leave the store alone. *)
Class CoordinatorStateStoreLaws (S : Type) `{!CoordinatorStateStorePort S} := {
  agent_states_read_only : ∀ s : S, (get_agent_states s).2 = s;
  pending_decisions_read_only : ∀ s : S, (get_pending_decisions s).2 = s;
}.

#[export] Instance memory_store_laws `{!Env} : CoordinatorStateStoreLaws MemoryStore.
Proof. by constructor. Qed.

#[export] Instance postgres_store_laws `{!Env, !SqlOrder} : CoordinatorStateStoreLaws PgStore.
Proof.
  constructor; intros s; cbn.
  - unfold pg_get_agent_states. rewrite !M_bind_run. cbn [getsM]. rewrite M_bind_run. unfold liftM.
    by destruct (mapR _ _).
  - unfold pg_get_pending_decisions. rewrite M_bind_run. cbn [getsM]. unfold liftM. by destruct (mapR _ _).
Qed.

(** ** Inbound events *)
Definition COORDINATOR_COMMAND : string := "coordinator.command".
Definition TASK_NOTIFICATION : string := "task.notification".
Definition TASK_PROGRESS : string := "task.progress".

(** The [kind] and the data of a [ClassifiedEvent]; of the typed schemas only what
    the handler reads is kept: their dump, and the two fields of a progress
    report. *)
Inductive ClassifiedEvent :=
  | Command (dump : pydict)
  | Notification (dump : pydict)
  | Progress (agent_id task_id : string)
  | OtherEvent (event : Event).

Record schemas := {
  parse_command : pydict → result pydict;
  parse_notification : pydict → result pydict;
  parse_progress : pydict → result (string * string);
}.

Definition classify_event (sc : schemas) (e : Event) : result ClassifiedEvent :=
  if decide (ev_event_type e = COORDINATOR_COMMAND) then
    d ← parse_command sc (ev_payload e); Ok (Command d)
  else if decide (ev_event_type e = TASK_NOTIFICATION) then
    d ← parse_notification sc (ev_payload e); Ok (Notification d)
  else if decide (ev_event_type e = TASK_PROGRESS) then
    p ← parse_progress sc (ev_payload e); Ok (Progress p.1 p.2)
  else Ok (OtherEvent e).

(** [event.model_dump()] *)
Definition event_dump (e : Event) : pydict :=
  [("event_id", PStr (ev_event_id e)); ("event_type", PStr (ev_event_type e));
   ("timestamp", PDatetime (ev_timestamp e)); ("source_agent", PStr (ev_source e));
   ("payload", PDict (ev_payload e)); ("schema_version", PStr (ev_schema_version e));
   ("metadata", PDict [("trace_id", p_opt (em_trace_id (ev_metadata e)));
                       ("retry_count", PInt (em_retry_count (ev_metadata e)));
                       ("correlation_id", p_opt (em_correlation_id (ev_metadata e)))])].

Definition incoming_event (c : ClassifiedEvent) : pydict :=
  match c with
  | Command d => [("kind", PStr "command"); ("data", PDict d)]
  | Notification d => [("kind", PStr "notification"); ("data", PDict d)]
  | Progress a t => [("kind", PStr "progress"); ("data", PDict [("task_id", PStr t); ("agent_id", PStr a)])]
  | OtherEvent e => [("kind", PStr "event"); ("data", PDict (event_dump e))]
  end.

Definition _build_context (scratchpad : string)
    (agent_states : list (string * CoordinatorAgentStateRecord)) (incoming : ClassifiedEvent)
    (pending : list CoordinatorDecisionRecord) : pydict :=
  [("scratchpad", PStr scratchpad);
   ("agent_states", PDict ((λ kv, (kv.1, PDict (agent_state_dump kv.2))) <$> agent_states));
   ("incoming_event", PDict (incoming_event incoming));
   ("pending_decisions", PList (PDict ∘ decision_dump <$> pending))].

(** ** The unit of work: [commit] and [rollback] are marks, nothing is undone *)
Record UnitOfWork := { uw_completed : bool; uw_rolled_back : bool }.

Definition uow_commit : M UnitOfWork unit := λ u,
  if uw_rolled_back u then (Raise (Exn "RuntimeError" "cannot commit a rolled-back unit of work"), u)
  else (Ok (), {| uw_completed := true; uw_rolled_back := false |}).
Definition uow_rollback : M UnitOfWork unit := λ u,
  (Ok (), {| uw_completed := false; uw_rolled_back := true |}).

(** [async with factory() as uow: body; await uow.commit()], with the commit the
    context manager adds when the body has not completed the unit of work. *)
Definition in_uow {W A} (body : M W A) : M W A := λ w,
  let u := {| uw_completed := false; uw_rolled_back := false |} in
  match body w with
  | (Raise e, w') => let '(_, _) := uow_rollback u in (Raise e, w')
  | (Ok a, w') =>
      let '(r, u1) := uow_commit u in
      match r with
      | Raise e => (Raise e, w')
      | Ok _ =>
          if uw_completed u1 then (Ok a, w')
          else match (uow_commit u1).1 with Ok _ => (Ok a, w') | Raise e => (Raise e, w') end
      end
  end.

(** ** The scratchpad

    The decision log and the files of the workflows, by identifier: each workflow
    has a file of its own, so identifiers that are not plain file names (path
    separators, names that resolve to another file) are not resolved.  A failing
    write leaves in its file whatever it leaves. *)
Record Scratchpad := { sp_log : string; sp_workflows : list (string * string) }.

Inductive file_outcome := FileDone | FileFailed (e : exn) (left_behind : string).

Definition with_log (log : string) (f : Scratchpad) : Scratchpad :=
  {| sp_log := log; sp_workflows := sp_workflows f |}.
Definition with_workflow (id_ content : string) (f : Scratchpad) : Scratchpad :=
  {| sp_log := sp_log f; sp_workflows := dict_set (sp_workflows f) id_ content |}.

Definition lf : string := String (ascii_of_N 10) "".

Definition _format_decision_entry (d : Decision) (now : instant) : string :=
  str_join lf
    (["- timestamp: " +:+ isoformat "T" (of_utc now);
      "  action: " +:+ dc_action d;
      "  target_agent: " +:+ dc_target_agent d;
      "  task_id: " +:+ dc_task_id d]
     ++ (if truthy (dc_workflow_id d) then ["  workflow_id: " +:+ str_or_empty (dc_workflow_id d)] else [])
     ++ (if str_empty (dc_reasoning d) then [] else ["  reasoning: " +:+ dc_reasoning d])
     ++ (if str_empty (dc_instruction d) then [] else ["  instruction: " +:+ dc_instruction d])).

(** Reading a text file turns every line ending into a line feed. *)
Fixpoint universal_newlines (s : string) : string :=
  match s with
  | EmptyString => EmptyString
  | String c s' =>
      if (code c =? 13)%N
      then match s' with
           | String c' s'' => if (code c' =? 10)%N then String c' (universal_newlines s'')
                              else String (ascii_of_N 10) (universal_newlines s')
           | EmptyString => lf
           end
      else String c (universal_newlines s')
  end.

(** The file of a workflow, with one more entry. *)
Definition with_entry (current entry : string) : string :=
  if str_empty (strip current) then entry else rstrip current +:+ lf +:+ lf +:+ entry.

(** ** The handler

    What was written to the scratchpad, and what was scheduled, in order. *)
Inductive projection :=
  | DecisionLogged (entry : string)
  | WorkflowNoted (workflow_id content : string)
  | CompactionScheduled.

Record World (S : Type) := {
  w_store : S;
  w_files : Scratchpad;
  w_projections : list projection;
  w_ticks : nat;
  w_ids : nat;
  w_io : nat;
}.
Arguments w_store {S} _.
Arguments w_files {S} _.
Arguments w_projections {S} _.
Arguments w_ticks {S} _.
Arguments w_ids {S} _.
Arguments w_io {S} _.

Record ports := {
  pt_schemas : schemas;
  pt_read_incremental : Scratchpad → result string;
  pt_io : nat → file_outcome;
  pt_should_compact : Scratchpad → result bool;
  pt_thinker : pydict → result (list Decision);
  pt_uow_wired : bool;
}.

Section handler.
Context `{!Env} {S : Type} `{!CoordinatorStateStorePort S}.

Definition in_store {A} (m : M S A) : M (World S) A := λ w,
  let '(r, s) := m (w_store w) in
  (r, {| w_store := s; w_files := w_files w; w_projections := w_projections w; w_ticks := w_ticks w;
         w_ids := w_ids w; w_io := w_io w |}).

Definition project (p : projection) : M (World S) unit := modifyM (λ w,
  {| w_store := w_store w; w_files := w_files w; w_projections := w_projections w ++ [p];
     w_ticks := w_ticks w; w_ids := w_ids w; w_io := w_io w |}).

Definition pad_now : M (World S) instant := λ w,
  (Ok (clock (w_ticks w)),
   {| w_store := w_store w; w_files := w_files w; w_projections := w_projections w;
      w_ticks := Datatypes.S (w_ticks w); w_ids := w_ids w; w_io := w_io w |}).

(** The next file operation: [f] of what it writes, or of what it leaves behind. *)
Definition file_op (pt : ports) (f : Scratchpad → Scratchpad) (broken : string → Scratchpad → Scratchpad)
    : M (World S) unit := λ w,
  let over files := {| w_store := w_store w; w_files := files; w_projections := w_projections w;
                       w_ticks := w_ticks w; w_ids := w_ids w; w_io := Datatypes.S (w_io w) |} in
  match pt_io pt (w_io w) with
  | FileDone => (Ok (), over (f (w_files w)))
  | FileFailed e left_behind => (Raise e, over (broken left_behind (w_files w)))
  end.

Definition append_decision (pt : ports) (entry : string) : M (World S) unit :=
  _ ← file_op pt (λ f, with_log (sp_log f +:+ lf +:+ entry) f) with_log;
  project (DecisionLogged entry).
Definition read_workflow (pt : ports) (id_ : string) : M (World S) string :=
  _ ← file_op pt id (λ _, id);
  getsM (λ w, universal_newlines (default "" (dict_get (sp_workflows (w_files w)) id_))).
Definition write_workflow (pt : ports) (id_ content : string) : M (World S) unit :=
  _ ← file_op pt (with_workflow id_ content) (with_workflow id_);
  project (WorkflowNoted id_ content).

Definition note_decision (pt : ports) (d : Decision) : M (World S) unit :=
  now ← pad_now;
  let entry := _format_decision_entry d now in
  _ ← append_decision pt entry;
  whenM (truthy (dc_workflow_id d))
    (let id_ := str_or_empty (dc_workflow_id d) in
     current ← read_workflow pt id_;
     write_workflow pt id_ (with_entry current entry)).

(** [Scratchpad.update] *)
Definition update (pt : ports) (decisions : list Decision) : M (World S) unit :=
  forM decisions (note_decision pt).

Definition _update_agent_state_in_uow (pt : ports) (agent_id status : string)
    (current_task : option string) : M (World S) unit :=
  let m := in_store (update_agent_state agent_id status current_task None) in
  if pt_uow_wired pt then in_uow m else m.

Definition _persist_decisions_in_uow (pt : ports) (decisions : list Decision) : M (World S) unit :=
  let m := in_store (persist decisions) in
  if pt_uow_wired pt then in_uow m else m.

(** The trace of the inbound event, for decisions without one. *)
Definition traced (e : Event) (ds : list Decision) : list Decision :=
  match em_trace_id (ev_metadata e) with
  | Some t => if str_empty t then ds
              else (λ d, if truthy (dc_trace_id d) then d else with_trace t d) <$> ds
  | None => ds
  end.

(** [decision_to_event], with the identifier and time an event defaults to. *)
Definition outgoing_event (d : Decision) : M (World S) Event := λ w,
  (decision_to_event ("evt_" +:+ ulid (w_ids w)) (of_utc (clock (w_ticks w))) d,
   {| w_store := w_store w; w_files := w_files w; w_projections := w_projections w;
      w_ticks := Datatypes.S (w_ticks w); w_ids := Datatypes.S (w_ids w); w_io := w_io w |}).

Fixpoint outgoing_events (ds : list Decision) : M (World S) (list Event) :=
  match ds with
  | [] => mret []
  | d :: ds' => ev ← outgoing_event d; evs ← outgoing_events ds'; mret (ev :: evs)
  end.

Definition handle (pt : ports) (e : Event) : M (World S) (list Event) :=
  classified ← liftM (classify_event (pt_schemas pt) e);
  match classified with
  | Progress agent_id task_id =>
      _ ← _update_agent_state_in_uow pt agent_id "working" (Some task_id);
      mret []
  | _ =>
      files ← getsM w_files;
      scratchpad ← liftM (pt_read_incremental pt files);
      agent_states ← in_store get_agent_states;
      pending ← in_store get_pending_decisions;
      let context := _build_context scratchpad agent_states classified pending in
      decisions ← liftM (pt_thinker pt context);
      let decisions := traced e decisions in
      outgoing ← outgoing_events decisions;
      _ ← _persist_decisions_in_uow pt decisions;
      _ ← whenM (requires_projection_update decisions) (update pt decisions);
      files ← getsM w_files;
      requested ← liftM (pt_should_compact pt files);
      _ ← whenM (can_schedule_compaction decisions requested true (requires_projection_update decisions))
            (project CompactionScheduled);
      mret outgoing
  end.

(** ** Facts *)
Lemma in_uow_run {W A} (m : M W A) w : in_uow m w = m w.
Proof. unfold in_uow. by destruct (m w) as [[a|e] w']. Qed.

Lemma persist_in_uow_run pt ds w : _persist_decisions_in_uow pt ds w = in_store (persist ds) w.
Proof. unfold _persist_decisions_in_uow. destruct (pt_uow_wired pt); [apply in_uow_run|done]. Qed.

Lemma update_in_uow_run pt a st t w :
  _update_agent_state_in_uow pt a st t w = in_store (update_agent_state a st t None) w.
Proof. unfold _update_agent_state_in_uow. destruct (pt_uow_wired pt); [apply in_uow_run|done]. Qed.

(** Nothing was written to the scratchpad and nothing scheduled. *)
Definition quiet (w w' : World S) : Prop :=
  w_projections w' = w_projections w ∧ w_files w' = w_files w.

Lemma in_store_run {A} (m : M S A) w r w' :
  in_store m w = (r, w') → m (w_store w) = (r, w_store w') ∧ quiet w w'.
Proof. unfold in_store. destruct (m (w_store w)) as [r0 s]. by intros [= <- <-]. Qed.

(** The event of a decision, whatever identifier and time it was given. *)
Definition event_of (d : Decision) (e : Event) : Prop :=
  ∃ id_ now, decision_to_event id_ now d = Ok e.

Lemma outgoing_events_run ds w r w' :
  outgoing_events ds w = (r, w') →
  w_store w' = w_store w ∧ quiet w w' ∧ ∀ evs, r = Ok evs → Forall2 event_of ds evs.
Proof.
  revert w r. induction ds as [|d ds IH]; intros w r; cbn [outgoing_events].
  - intros [= <- <-]. split_and!; [done..|]. intros evs [= <-]. constructor.
  - intros Hr. apply M_bind_inv in Hr as [(ev & w1 & H1 & Hr)|(e & H1 & ->)].
    + unfold outgoing_event in H1. injection H1 as H1 <-.
      apply M_bind_inv in Hr as [(evs & w2 & H2 & Hr)|(e & H2 & ->)].
      * injection Hr as <- <-. apply IH in H2 as (Hs & Hp & Hf). split_and!; [done..|].
        intros ? [= <-]. constructor; [by eexists _, _|by apply Hf].
      * apply IH in H2 as (Hs & Hp & _). done.
    + unfold outgoing_event in H1. injection H1 as H1 <-. done.
Qed.

(** The writes that note a decision: its entry at the end of the log, and at the
    end of its workflow's file when it names one. *)
Definition notes (d : Decision) (ws : list projection) : Prop :=
  ∃ now current, let entry := _format_decision_entry d now in
    ws = DecisionLogged entry ::
      (if truthy (dc_workflow_id d)
       then [WorkflowNoted (str_or_empty (dc_workflow_id d)) (with_entry current entry)] else []).

(** [m] leaves the store alone and writes a beginning of [ws], all of it when it returns. *)
Definition writes (ws : list projection) (w : World S) (r : result unit) (w' : World S) : Prop :=
  w_store w' = w_store w
  ∧ ∃ done_, w_projections w' = w_projections w ++ done_ ∧ done_ `prefix_of` ws ∧ (r = Ok () → done_ = ws).

Lemma file_op_run pt f broken w r w' :
  file_op pt f broken w = (r, w') →
  w_store w' = w_store w ∧ w_projections w' = w_projections w.
Proof. unfold file_op. by destruct (pt_io pt (w_io w)); intros [= <- <-]. Qed.

Lemma notes_exist ds : ∃ W, Forall2 notes ds W.
Proof.
  induction ds as [|d ds [W HW]]; [by exists []|]. eexists (_ :: W). constructor; [|done].
  exists 0, "". reflexivity.
Qed.

Lemma append_run pt entry w r w' :
  append_decision pt entry w = (r, w') → writes [DecisionLogged entry] w r w'.
Proof.
  unfold append_decision. intros Hr. apply M_bind_inv in Hr as [([] & w1 & H1 & Hr)|(e & H1 & ->)];
    apply file_op_run in H1 as [Hs Hp].
  - injection Hr as <- <-. split; [done|]. exists [DecisionLogged entry]. cbn. by rewrite Hp.
  - split; [done|]. exists []. rewrite app_nil_r. split_and!; [done|apply prefix_nil|done].
Qed.

Lemma note_run pt d w r w' : note_decision pt d w = (r, w') → ∃ ws, notes d ws ∧ writes ws w r w'.
Proof.
  unfold note_decision. intros Hr. apply M_bind_inv in Hr as [(now & w0 & [= <- <-] & Hr)|(e & [=] & _)].
  set (w0 := Build_World _ _ _ _ _ _ _) in Hr.
  assert (w_store w0 = w_store w) as S0 by done. assert (w_projections w0 = w_projections w) as P0 by done.
  clearbody w0. set (entry := _format_decision_entry d _) in Hr.
  assert (∀ current, notes d (DecisionLogged entry :: (if truthy (dc_workflow_id d)
    then [WorkflowNoted (str_or_empty (dc_workflow_id d)) (with_entry current entry)] else []))) as Hn
    by (intros current; exists (clock (w_ticks w)), current; reflexivity).
  apply M_bind_inv in Hr as [([] & w1 & H1 & Hr)|(e & H1 & ->)].
  2:{ eexists. split; [apply (Hn "")|]. apply append_run in H1 as [Hs (l & Hp & Hl & _)]. rewrite P0 in Hp. split; [congruence|].
      exists l. split_and!; [done| |done]. etrans; [exact Hl|]. apply prefix_cons, prefix_nil. }
  apply append_run in H1 as [Hs (l & Hp & _ & Hl)]. rewrite (Hl eq_refl), P0 in Hp.
  revert Hr Hn. destruct (truthy (dc_workflow_id d)); cbn [whenM]; intros Hr Hn.
  2:{ injection Hr as <- <-. eexists. split; [apply (Hn "")|]. split; [congruence|]. by exists [DecisionLogged entry]. }
  apply M_bind_inv in Hr as [(current & w2 & H2 & Hr)|(e & H2 & ->)]; unfold read_workflow in H2.
  - apply M_bind_Ok in H2 as (u & w3 & [Hs3 Hp3]%file_op_run & [= Hcur <-]).
    exists [DecisionLogged entry; WorkflowNoted (str_or_empty (dc_workflow_id d)) (with_entry current entry)].
    split; [apply (Hn current)|]. unfold write_workflow in Hr.
    apply M_bind_inv in Hr as [(u2 & w4 & [Hs4 Hp4]%file_op_run & Hr)|(e & [Hs4 Hp4]%file_op_run & ->)].
    + injection Hr as <- <-. split; [cbn; congruence|]. eexists. cbn. rewrite Hp4, Hp3, Hp, <- app_assoc. done.
    + split; [congruence|]. exists [DecisionLogged entry]. rewrite Hp4, Hp3. split_and!; [done| |done].
      apply prefix_cons, prefix_nil.
  - apply M_bind_inv in H2 as [(u & w3 & _ & [=])|(e' & [Hs3 Hp3]%file_op_run & [= ->])].
    exists [DecisionLogged entry; WorkflowNoted (str_or_empty (dc_workflow_id d)) (with_entry "" entry)].
    split; [apply (Hn "")|]. split; [congruence|]. exists [DecisionLogged entry]. rewrite Hp3.
    split_and!; [done| |done]. apply prefix_cons, prefix_nil.
Qed.

Lemma update_run pt ds w r w' :
  update pt ds w = (r, w') → ∃ W, Forall2 notes ds W ∧ writes (concat W) w r w'.
Proof.
  revert w. induction ds as [|d ds IH]; intros w; unfold update; cbn [forM].
  - intros [= <- <-]. exists []. split; [done|]. split; [done|]. exists []. by rewrite app_nil_r.
  - intros Hr. apply M_bind_inv in Hr as [([] & w1 & H1 & Hr)|(e & H1 & ->)];
      apply note_run in H1 as (ws & Hn & Hs & l & Hp & Hpre & Hl).
    + apply IH in Hr as (W & HW & Hs2 & l2 & Hp2 & Hpre2 & Hl2). exists (ws :: W). split; [by constructor|].
      split; [congruence|]. rewrite (Hl eq_refl) in Hp. exists (ws ++ l2). cbn. rewrite Hp2, Hp, app_assoc.
      split_and!; [done|by apply prefix_app|]. intros Hok. by rewrite (Hl2 Hok).
    + destruct (notes_exist ds) as [W HW]. exists (ws :: W). split; [by constructor|]. split; [done|].
      exists l. split_and!; [done| |done]. cbn. by apply prefix_app_r.
Qed.

(** What one event can do to the world; [persisted ds] when the batch went in. *)
Definition persisted (w w' : World S) (ds : list Decision) : Prop :=
  persist ds (w_store w) = (Ok (), w_store w').

(** The branch that consults the thinker.  Either it failed with the scratchpad as
    it was; or the decisions are in the store, [W] are the writes that note them,
    and all of them were made, after which the compaction the scratchpad asks for
    was scheduled, or only a beginning of them, when the handler raised. *)
Definition decided (pt : ports) (e : Event) (w : World S) (r : result (list Event)) (w' : World S) : Prop :=
  (∃ err, r = Raise err) ∧ quiet w w'
  ∨ ∃ context ds0 W, let ds := traced e ds0 in
      pt_thinker pt context = Ok ds0 ∧ persisted w w' ds ∧ Forall2 notes ds W
      ∧ ((∃ evs requested, r = Ok evs ∧ Forall2 event_of ds evs
            ∧ pt_should_compact pt (w_files w') = Ok requested
            ∧ w_projections w' = w_projections w ++ concat W
                ++ (if requested : bool then [CompactionScheduled] else []))
         ∨ ∃ err done_, r = Raise err ∧ w_projections w' = w_projections w ++ done_
            ∧ done_ `prefix_of` concat W).

(** From the stored batch on. *)
Lemma project_tail pt ds (evs : list Event) w r w' :
  (_ ← whenM (requires_projection_update ds) (update pt ds);
   files ← getsM w_files;
   requested ← liftM (pt_should_compact pt files);
   _ ← whenM (can_schedule_compaction ds requested true (requires_projection_update ds))
         (project CompactionScheduled);
   mret evs) w = (r, w') →
  w_store w' = w_store w
  ∧ ∃ W, Forall2 notes ds W
    ∧ ((∃ requested, r = Ok evs ∧ pt_should_compact pt (w_files w') = Ok requested
          ∧ w_projections w' = w_projections w ++ concat W
              ++ (if requested : bool then [CompactionScheduled] else []))
       ∨ ∃ err done_, r = Raise err ∧ w_projections w' = w_projections w ++ done_
          ∧ done_ `prefix_of` concat W).
Proof.
  assert (whenM (requires_projection_update ds) (update pt ds) w = update pt ds w) as Hup
    by by destruct ds.
  rewrite M_bind_run, Hup. destruct (update pt ds w) as [r1 w1] eqn:H1.
  apply update_run in H1 as (W & HW & Hs & l & Hp & Hpre & Hl).
  destruct r1 as [[]|e].
  2:{ intros [= <- <-]. split; [done|]. exists W. split; [done|]. right. by eexists _, l. }
  rewrite (Hl eq_refl) in Hp. intros Hr. apply M_bind_inv in Hr as [(files & w2 & [= <- <-] & Hr)|(e & [=] & _)].
  apply M_bind_inv in Hr as [(requested & w2 & [= Hc <-] & Hr)|(e & [= Hc <-] & ->)].
  2:{ split; [done|]. exists W. split; [done|]. right. by eexists _, (concat W). }
  assert (can_schedule_compaction ds requested true (requires_projection_update ds) = requested) as Hcan
    by (unfold can_schedule_compaction; by destruct requested, (requires_projection_update ds)).
  rewrite Hcan in Hr. destruct requested; cbn [whenM] in Hr; injection Hr as <- <-.
  - split; [done|]. exists W. split; [done|]. left. exists true. cbn. by rewrite Hp, <- app_assoc.
  - split; [done|]. exists W. split; [done|]. left. exists false. by rewrite Hp, app_nil_r.
Qed.

Context `{!CoordinatorStateStoreLaws S}.

Lemma quiet_trans w1 w2 w3 : quiet w1 w2 → quiet w2 w3 → quiet w1 w3.
Proof. intros [] []. split; congruence. Qed.

(** The branch that does not report progress, once the event is classified. *)
Lemma decided_run pt e c w r w' :
  (files ← getsM w_files;
   scratchpad ← liftM (pt_read_incremental pt files);
   agent_states ← in_store get_agent_states;
   pending ← in_store get_pending_decisions;
   let context := _build_context scratchpad agent_states c pending in
   decisions ← liftM (pt_thinker pt context);
   let decisions := traced e decisions in
   outgoing ← outgoing_events decisions;
   _ ← _persist_decisions_in_uow pt decisions;
   _ ← whenM (requires_projection_update decisions) (update pt decisions);
   files ← getsM w_files;
   requested ← liftM (pt_should_compact pt files);
   _ ← whenM (can_schedule_compaction decisions requested true (requires_projection_update decisions))
         (project CompactionScheduled);
   mret outgoing) w = (r, w') → decided pt e w r w'.
Proof.
  intros Hr. apply M_bind_inv in Hr as [(files & w0 & [= <- <-] & Hr)|(err & [=] & _)].
  apply M_bind_inv in Hr as [(pad & w0 & [= _ <-] & Hr)|(err & [= _ <-] & ->)]; [|left; split; [eauto|done]].
  apply M_bind_inv in Hr as [(sts & w1 & H1 & Hr)|(err & H1 & ->)];
    [|left; apply in_store_run in H1 as [_ H1]; eauto].
  apply in_store_run in H1 as [H1 P1].
  assert (w_store w1 = w_store w) as S1 by (rewrite <- (agent_states_read_only (w_store w)), H1; done).
  apply M_bind_inv in Hr as [(pend & w2 & H2 & Hr)|(err & H2 & ->)];
    [|left; apply in_store_run in H2 as [_ H2]; split; [eauto|by eapply quiet_trans]].
  apply in_store_run in H2 as [H2 P2].
  assert (w_store w2 = w_store w1) as S2 by (rewrite <- (pending_decisions_read_only (w_store w1)), H2; done).
  pose proof (quiet_trans _ _ _ P1 P2) as Q2. cbv zeta in Hr.
  apply M_bind_inv in Hr as [(ds0 & w3 & [= H3 <-] & Hr)|(err & [= H3 <-] & ->)]; [|left; split; [eauto|done]].
  apply M_bind_inv in Hr as [(evs & w4 & H4 & Hr)|(err & H4 & ->)];
    apply outgoing_events_run in H4 as (S4 & P4 & F4); pose proof (quiet_trans _ _ _ Q2 P4) as Q4;
    [|left; split; [eauto|done]].
  apply M_bind_inv in Hr as [([] & w5 & H5 & Hr)|(err & H5 & ->)];
    rewrite persist_in_uow_run in H5; apply in_store_run in H5 as [H5 P5];
    pose proof (quiet_trans _ _ _ Q4 P5) as [Q5 _]; [|left; split; [eauto|by eapply quiet_trans]].
  apply project_tail in Hr as [S6 (W & HW & Hr)]. right. eexists _, ds0, W.
  split_and!; [exact H3| |done|].
  { unfold persisted. rewrite S6, <- H5. congruence. }
  rewrite Q5 in Hr. destruct Hr as [(rq & -> & Hc & Hp)|Hr]; [left|by right].
  exists evs, rq. split_and!; [done|by apply F4|done|done].
Qed.

Lemma handle_cases pt e w r w' :
  handle pt e w = (r, w') →
  (∃ a t, classify_event (pt_schemas pt) e = Ok (Progress a t)
     ∧ quiet w w' ∧ (r = Ok [] ∨ ∃ err, r = Raise err)
     ∧ (update_agent_state a "working" (Some t) None (w_store w)).2 = w_store w')
  ∨ (∀ a t, classify_event (pt_schemas pt) e ≠ Ok (Progress a t)) ∧ decided pt e w r w'.
Proof.
  unfold handle. intros Hr. apply M_bind_inv in Hr as [(c & w0 & [= Hc <-] & Hr)|(err & [= Hc <-] & ->)].
  2:{ right. split; [by rewrite Hc|]. left. split; [eauto|done]. }
  destruct c as [d|d|a t|ev].
  3:{ left. exists a, t. split; [done|]. apply M_bind_inv in Hr as [(u & w1 & H1 & Hr)|(err & H1 & ->)];
        rewrite update_in_uow_run in H1; apply in_store_run in H1 as [H1 H2].
      - injection Hr as <- <-. rewrite H1. auto.
      - rewrite H1. eauto 6. }
  all: right; split; [by rewrite Hc|by eapply decided_run].
Qed.
End handler.


(** ** A concrete run *)
Definition sample_ports : ports := {|
  pt_schemas := {| parse_command := Ok; parse_notification := Ok;
                   parse_progress := λ d, Ok ("dev-agent", "t1") |};
  pt_read_incremental := λ f, Ok (sp_log f); pt_io := λ _, FileDone; pt_should_compact := λ _, Ok true;
  pt_thinker := λ _, Ok [CoordinatorRefinement.sample_decision "dev-agent" "dispatch_task" "t1"];
  pt_uow_wired := true |}.

Definition sample_event : Event := {|
  ev_event_id := "evt_1"; ev_event_type := "pm.prd-ready"; ev_timestamp := of_utc 0;
  ev_source := "pjm-agent"; ev_payload := []; ev_schema_version := "1.0";
  ev_metadata := {| em_trace_id := Some "trace-1"; em_retry_count := 0; em_correlation_id := None |} |}.

Definition sample_world : World MemoryStore := {|
  w_store := empty_memory; w_files := {| sp_log := ""; sp_workflows := [] |}; w_projections := [];
  w_ticks := 0; w_ids := 0; w_io := 0 |}.

(** The disk is full when the file of the workflow is written. *)
Definition full_disk : ports := {|
  pt_schemas := pt_schemas sample_ports; pt_read_incremental := pt_read_incremental sample_ports;
  pt_io := λ n, match n with 2%nat => FileFailed (Exn "OSError" "No space left on device") "" | _ => FileDone end;
  pt_should_compact := pt_should_compact sample_ports; pt_thinker := pt_thinker sample_ports;
  pt_uow_wired := true |}.

Section witnesses.
#[local] Existing Instance CoordinatorRefinement.sample_env.


(** A batch whose second write fails: the decision is in the store and in the log,
    its workflow's file is not written, and nothing is compacted. *)
Example projection_cut_short :
  (handle full_disk sample_event sample_world).1 = Raise (Exn "OSError" "No space left on device")
  ∧ (∃ entry, w_projections (handle full_disk sample_event sample_world).2 = [DecisionLogged entry])
  ∧ length (mm_pending (w_store (handle full_disk sample_event sample_world).2)) = 1%nat.
Proof. split_and!; [vm_compute; reflexivity|eexists; vm_compute; reflexivity|vm_compute; reflexivity]. Qed.
End witnesses.
