(* ===== verification/OutboxDelivery.v ===== *)
(** * Delivery of the coordinator's outbox

    [db/repository.py], [db/outbox_store.py] and
    [core/outbox_delivery_use_cases.py] of [services/orchestration/coordinator]:
    events are stored in the outbox before they are published, and pending rows
    are retried, oldest first.  Every store call is a session of its own that
    commits.  The event bus and the failures of the database while a row is
    marked are parameters: what they answer at the [n]-th attempt.  Ties of
    [created_at] are broken by the identifier, compared by code points. *)

From S2P Require Import CoordinatorRefinement.
From S2P Require Import Prelude PyNum PyTime PyValue Store Event.

Record CoordinatorEventOutbox := {
  co_event_id : string;
  co_event_type : string;
  co_source_agent : string;
  co_payload : pydict;
  co_schema_version : string;
  co_trace_id : option string;
  co_correlation_id : option string;
  co_retry_count : Z;
  co_status : string;
  co_attempts : Z;
  co_last_error : option string;
  co_created_at : instant;
  co_published_at : option instant;
}.

(** [attempts] numbers the publish attempts; [accepted] is what the bus took. *)
Record Delivery := {
  dl_rows : list CoordinatorEventOutbox;
  dl_accepted : list Event;
  dl_attempts : nat;
  dl_ticks : nat;
}.

Record transport := {
  tp_connect : nat → result unit;
  tp_publish : nat → Event → result bool;
  tp_mark_error : nat → option exn;
}.

Definition set_status (st : string) (error : option string) (published_at : option instant)
    (r : CoordinatorEventOutbox) : CoordinatorEventOutbox := {|
  co_event_id := co_event_id r; co_event_type := co_event_type r;
  co_source_agent := co_source_agent r; co_payload := co_payload r;
  co_schema_version := co_schema_version r; co_trace_id := co_trace_id r;
  co_correlation_id := co_correlation_id r; co_retry_count := co_retry_count r;
  co_status := st; co_attempts := co_attempts r + 1; co_last_error := error;
  co_created_at := co_created_at r;
  co_published_at := match published_at with Some t => Some t | None => co_published_at r end |}.

(** [_EventOutboxRepository.add]'s row: [created_at] is the column's default. *)
Definition outbox_row (e : Event) (now : instant) : CoordinatorEventOutbox := {|
  co_event_id := ev_event_id e; co_event_type := ev_event_type e; co_source_agent := ev_source e;
  co_payload := json_dict (ev_payload e); co_schema_version := ev_schema_version e;
  co_trace_id := em_trace_id (ev_metadata e); co_correlation_id := em_correlation_id (ev_metadata e);
  co_retry_count := em_retry_count (ev_metadata e); co_status := "pending"; co_attempts := 0;
  co_last_error := None; co_created_at := now; co_published_at := None |}.

Definition event_from_outbox (r : CoordinatorEventOutbox) : result Event :=
  mk_event {| ev_event_id := co_event_id r; ev_event_type := co_event_type r;
              ev_timestamp := of_utc (co_created_at r); ev_source := co_source_agent r;
              ev_payload := co_payload r; ev_schema_version := co_schema_version r;
              ev_metadata := {| em_trace_id := co_trace_id r; em_retry_count := co_retry_count r;
                                em_correlation_id := co_correlation_id r |} |}.

Definition is_pending (r : CoordinatorEventOutbox) : bool := bool_decide (co_status r = "pending").

Definition row_leb (a b : CoordinatorEventOutbox) : bool :=
  (co_created_at a <? co_created_at b)
  || ((co_created_at a =? co_created_at b) && str_leb (co_event_id a) (co_event_id b)).

Definition pending_rows (rows : list CoordinatorEventOutbox) : list CoordinatorEventOutbox :=
  py_sorted row_leb (filter (λ r, is_pending r = true) rows).

Definition list_pending (limit : nat) (rows : list CoordinatorEventOutbox) : list CoordinatorEventOutbox :=
  take limit (pending_rows rows).

Definition set_rows (rows : list CoordinatorEventOutbox) (s : Delivery) : Delivery := {|
  dl_rows := rows; dl_accepted := dl_accepted s; dl_attempts := dl_attempts s; dl_ticks := dl_ticks s |}.

Section delivery.
Context `{!Env} (tp : transport).

Definition dl_now : M Delivery instant := λ s,
  (Ok (clock (dl_ticks s)),
   {| dl_rows := dl_rows s; dl_accepted := dl_accepted s; dl_attempts := dl_attempts s;
      dl_ticks := S (dl_ticks s) |}).

Definition add (e : Event) : M Delivery unit :=
  now ← dl_now;
  rows ← getsM dl_rows;
  _ ← raise_ifM (bool_decide (ev_event_id e ∈ co_event_id <$> rows))
        (integrity_error "coordinator_event_outbox");
  modifyM (λ s, set_rows (dl_rows s ++ [outbox_row e now]) s).

(** A failing database raises before the row changes. *)
Definition mark_row (event_id : string) (f : instant → CoordinatorEventOutbox → CoordinatorEventOutbox)
    : M Delivery unit := λ s,
  match tp_mark_error tp (dl_attempts s) with
  | Some e => (Raise e, s)
  | None => (now ← dl_now;
             modifyM (λ s, set_rows (update_row co_event_id event_id (f now) (dl_rows s)) s)) s
  end.

Definition mark_published (event_id : string) : M Delivery unit :=
  mark_row event_id (λ now, set_status "published" None (Some now)).

Definition mark_failed (event_id error : string) : M Delivery unit :=
  mark_row event_id (λ _, set_status "pending" (Some (str_take 1000 error)) None).

(** The two best-effort marks: a failure to mark is logged. *)
Definition mark_event_published (e : Event) : M Delivery unit :=
  catchM (mark_published (ev_event_id e)) (λ _, mret ()).
Definition mark_event_failed (e : Event) (error : string) : M Delivery unit :=
  catchM (mark_failed (ev_event_id e) error) (λ _, mret ()).

(** [connect] and [publish] on the bus; the number of the attempt is over with it. *)
Definition bus_publish (e : Event) : M Delivery bool := λ s,
  let n := dl_attempts s in
  match tp_connect tp n with
  | Raise err => (Raise err, s)
  | Ok _ =>
      match tp_publish tp n e with
      | Raise err => (Raise err, s)
      | Ok ok => (Ok ok, if ok then {| dl_rows := dl_rows s; dl_accepted := dl_accepted s ++ [e];
                                       dl_attempts := dl_attempts s; dl_ticks := dl_ticks s |}
                         else s)
      end
  end.

Definition error_text (e : exn) : string :=
  match e with
  | Exn _ msg => msg
  | ExecutionDenied reason _ => reason
  | AgentWakeupError detail _ _ => detail
  end.

Definition next_attempt : M Delivery unit := modifyM (λ s,
  {| dl_rows := dl_rows s; dl_accepted := dl_accepted s; dl_attempts := S (dl_attempts s);
     dl_ticks := dl_ticks s |}).

Definition publish_staged_event (e : Event) : M Delivery bool :=
  r ← catchM (ok ← bus_publish e;
              _ ← raise_ifM (negb ok) (Exn "RuntimeError" "event_bus_publish_returned_false");
              _ ← mark_event_published e;
              mret true)
        (λ err, _ ← mark_event_failed e (error_text err); mret false);
  _ ← next_attempt;
  mret r.

Fixpoint publish_rows (rows : list CoordinatorEventOutbox) (published failed : Z) : M Delivery (Z * Z) :=
  match rows with
  | [] => mret (published, failed)
  | row :: rows' =>
      event ← liftM (event_from_outbox row);
      ok ← publish_staged_event event;
      if ok : bool then publish_rows rows' (published + 1) failed
      else publish_rows rows' published (failed + 1)
  end.

(** The counts [total], [published] and [failed]. *)
Definition publish_pending_events (limit : nat) : M Delivery (Z * Z * Z) :=
  rows ← getsM (λ s, list_pending limit (dl_rows s));
  counts ← publish_rows rows 0 0;
  mret (Z.of_nat (length rows), counts.1, counts.2).

Definition publish_event_via_outbox (e : Event) : M Delivery bool :=
  _ ← add e;
  publish_staged_event e.
End delivery.

(** ** Rebuilding an event from its row *)
Definition row_of_event (e : Event) (r : CoordinatorEventOutbox) : Prop :=
  co_event_id r = ev_event_id e ∧ co_event_type r = ev_event_type e ∧ co_source_agent r = ev_source e
  ∧ co_payload r = json_dict (ev_payload e) ∧ co_schema_version r = ev_schema_version e
  ∧ co_trace_id r = em_trace_id (ev_metadata e) ∧ co_correlation_id r = em_correlation_id (ev_metadata e)
  ∧ co_retry_count r = em_retry_count (ev_metadata e).

(** The event as it reads after storage: payload in JSON form, time of the row. *)
Definition stored_event (e : Event) (at_ : instant) : Event := {|
  ev_event_id := ev_event_id e; ev_event_type := ev_event_type e; ev_timestamp := of_utc at_;
  ev_source := ev_source e; ev_payload := json_dict (ev_payload e);
  ev_schema_version := ev_schema_version e; ev_metadata := ev_metadata e |}.

Lemma frozen_dict_json d : frozen_dict (json_dict (frozen_dict d)) = json_dict (frozen_dict d).
Proof.
  pose proof (frozen_to_json (PDict d)) as H. cbn in H. by injection H.
Qed.

Lemma rebuild_event e0 e r :
  mk_event e0 = Ok e → row_of_event e r →
  event_from_outbox r = Ok (stored_event e (co_created_at r)).
Proof.
  intros [Hv ->]%mk_event_Ok (H1 & H2 & H3 & H4 & H5 & H6 & H7 & H8). cbn in *.
  unfold event_from_outbox. apply mk_event_Ok. rewrite H1, H2, H3, H4, H5, H6, H7, H8. split.
  - unfold event_valid in *. cbn in *. rewrite !andb_true_iff in *.
    destruct Hv as (((((? & ?) & ?) & Hj) & ?) & ?). split_and!; try done.
    apply (frozen_json_ok (PDict (ev_payload e0))) in Hj. exact Hj.
  - unfold stored_event. cbn. rewrite frozen_dict_json. by destruct (ev_metadata e0).
Qed.

(** ** What delivery does to the rows, whatever the bus and the database do *)
Definition core (r : CoordinatorEventOutbox) :=
  (co_event_id r, co_event_type r, co_source_agent r, co_payload r, co_schema_version r,
   co_trace_id r, co_correlation_id r, co_retry_count r, co_created_at r).

Lemma core_event a b : core a = core b → event_from_outbox a = event_from_outbox b ∧ co_event_id a = co_event_id b.
Proof. unfold core, event_from_outbox. intros [=]. split; [congruence|done]. Qed.

(** Row by row: only rows of [ids] change, their content never does, and a row
    stops being pending only with its event among the accepted ones. *)
Definition row_tracks (ids : list string) (acc : list Event) (a b : CoordinatorEventOutbox) : Prop :=
  core b = core a
  ∧ (co_event_id a ∉ ids → b = a)
  ∧ (is_pending a = true → is_pending b = false → co_event_id a ∈ ev_event_id <$> acc).

Definition tracks ids acc (rows rows' : list CoordinatorEventOutbox) : Prop :=
  Forall2 (row_tracks ids acc) rows rows'.

Lemma tracks_refl rows : tracks [] [] rows rows.
Proof. apply Forall2_same_length_lookup_2; [done|]. intros i a b Ha Hb. simplify_eq. split_and!; congruence. Qed.

Lemma tracks_trans ids1 acc1 ids2 acc2 l1 l2 l3 :
  tracks ids1 acc1 l1 l2 → tracks ids2 acc2 l2 l3 → tracks (ids1 ++ ids2) (acc1 ++ acc2) l1 l3.
Proof.
  intros H12. revert l3. induction H12 as [|a b l1 l2 (C1 & U1 & P1) H12 IH]; intros l3 H23;
    inversion H23 as [|b' c l2' l3' (C2 & U2 & P2) H23']; subst; constructor; [|by apply IH]. clear IH H12 H23. pose proof (core_event _ _ C1) as [_ Hid]. split_and!.
  - congruence.
  - intros [N1 N2]%not_elem_of_app. rewrite U2, U1; [done|done|]. by rewrite Hid.
  - intros Ha Hc. rewrite fmap_app. apply elem_of_app. destruct (is_pending b) eqn:Hb; [right|left]; auto.
    rewrite <- Hid. auto.
Qed.

Section facts.
Context `{!Env} (tp : transport).

Lemma tracks_update e f rows acc :
  (∀ r, core (f r) = core r) → ev_event_id e ∈ ev_event_id <$> acc ∨ (∀ r, is_pending (f r) = true) →
  tracks [ev_event_id e] acc rows (update_row co_event_id (ev_event_id e) f rows).
Proof.
  intros Hf Hacc. unfold tracks, update_row. apply Forall2_fmap_r, Forall_Forall2_diag, Forall_true.
  intros r. split_and!.
  - by case_decide.
  - rewrite list_elem_of_singleton. intros. by rewrite decide_False.
  - case_decide as Hd; [|congruence]. intros _ Hp. destruct Hacc as [Ha|Ha]; [by rewrite Hd|].
    by rewrite Ha in Hp.
Qed.

(** One attempt never raises, and reports exactly whether the bus took the event. *)
Lemma staged_run e s r s' :
  publish_staged_event tp e s = (r, s') →
  ∃ b, r = Ok b ∧ dl_accepted s' = dl_accepted s ++ (if b : bool then [e] else [])
    ∧ tracks [ev_event_id e] (if b : bool then [e] else []) (dl_rows s) (dl_rows s').
Proof.
  unfold publish_staged_event. rewrite M_bind_run. unfold catchM at 1. rewrite M_bind_run.
  assert (∀ rows acc, tracks [ev_event_id e] acc rows rows) as Hsame.
  { intros rows acc. apply Forall_Forall2_diag, Forall_true. intros r0. split_and!; congruence. }
  assert (∀ err s0, dl_rows s0 = dl_rows s → dl_accepted s0 = dl_accepted s →
    (r1 ← (λ err, _ ← mark_event_failed tp e (error_text err); mret false) err; _ ← next_attempt; mret r1) s0
      = (r, s') →
    ∃ b, r = Ok b ∧ dl_accepted s' = dl_accepted s ++ (if b : bool then [e] else [])
    ∧ tracks [ev_event_id e] (if b : bool then [e] else []) (dl_rows s) (dl_rows s')) as Hfail.
  { intros err s0 Hr0 Ha0 Hx. exists false. cbn beta in Hx. rewrite !M_bind_run in Hx.
    unfold mark_event_failed, catchM, mark_failed, mark_row in Hx.
    destruct (tp_mark_error tp (dl_attempts s0)); cbn in Hx; injection Hx as <- <-; cbn;
      rewrite Hr0, Ha0, app_nil_r; split_and!; try done.
    apply tracks_update; [done|]. right. intros r0. cbn. done. }
  unfold bus_publish. destruct (tp_connect tp (dl_attempts s)) as [[]|err]; cbn beta iota zeta.
  2:{ intros Hx. by apply (Hfail err s). }
  destruct (tp_publish tp (dl_attempts s) e) as [[]|err]; cbn beta iota zeta.
  3:{ intros Hx. by apply (Hfail err s). }
  2:{ cbn [negb raise_ifM]. rewrite M_bind_run. cbn [raiseM]. intros Hx.
      by apply (Hfail (Exn "RuntimeError" "event_bus_publish_returned_false") s). }
  cbn [negb raise_ifM]. rewrite !M_bind_run. cbn [mret M_ret].
  unfold mark_event_published, catchM, mark_published, mark_row. rewrite M_bind_run.
  cbn [dl_attempts dl_rows].
  destruct (tp_mark_error tp (dl_attempts s)); cbn; intros [= <- <-]; cbn; exists true;
    split_and!; try done.
  apply tracks_update; [done|]. left. set_solver.
Qed.

Lemma rows_run rows p q s r s' :
  (∀ row, row ∈ rows → ∃ e, event_from_outbox row = Ok e) →
  publish_rows tp rows p q s = (r, s') →
  ∃ acc, (∃ counts, r = Ok counts) ∧ dl_accepted s' = dl_accepted s ++ acc
    ∧ tracks (co_event_id <$> rows) acc (dl_rows s) (dl_rows s')
    ∧ ∀ e, e ∈ acc → ∃ row, row ∈ rows ∧ event_from_outbox row = Ok e.
Proof.
  revert p q s. induction rows as [|row rows IH]; intros p q s Hv; cbn [publish_rows].
  - intros [= <- <-]. exists []. rewrite app_nil_r. split_and!; [eauto|done|apply tracks_refl|set_solver].
  - destruct (Hv row) as [e He]; [left|]. rewrite M_bind_run. unfold liftM. rewrite He, M_bind_run.
    assert (ev_event_id e = co_event_id row) as Hid
      by (unfold event_from_outbox in He; by apply mk_event_Ok in He as [_ ->]).
    destruct (publish_staged_event tp e s) as [r1 s1] eqn:H1.
    apply staged_run in H1 as (b & -> & Ha1 & Ht1). rewrite Hid in Ht1. intros Hx.
    assert (∃ p' q', publish_rows tp rows p' q' s1 = (r, s')) as (p' & q' & Hx') by (destruct b; eauto).
    apply IH in Hx' as (acc & Hc & Ha2 & Ht2 & Hacc); [|intros; apply Hv; by right].
    exists ((if b then [e] else []) ++ acc). split_and!; [done| | |].
    + by rewrite Ha2, Ha1, app_assoc.
    + rewrite fmap_cons. exact (tracks_trans [_] _ _ _ _ _ _ Ht1 Ht2).
    + intros e' [Hin|Hin]%elem_of_app; [|destruct (Hacc e' Hin) as (x & ? & ?); exists x; set_solver].
      destruct b; [|set_solver]. apply list_elem_of_singleton in Hin as ->. exists row. split; [left|done].
Qed.
End facts.

(** ** Safety *)

(** Every row was written by [add] for an event that had passed validation. *)
Definition valid_rows (rows : list CoordinatorEventOutbox) : Prop :=
  ∀ row, row ∈ rows → ∃ e0 e, mk_event e0 = Ok e ∧ row_of_event e row.

Lemma valid_rows_events rows row : valid_rows rows → row ∈ rows → ∃ e, event_from_outbox row = Ok e.
Proof. intros Hv Hr. destruct (Hv row Hr) as (e0 & e & He & Hre). eexists. by eapply rebuild_event. Qed.

Lemma pending_rows_elem rows row : row ∈ pending_rows rows ↔ row ∈ rows ∧ is_pending row = true.
Proof. unfold pending_rows. rewrite py_sorted_perm, list_elem_of_filter. tauto. Qed.

Lemma list_pending_elem n rows row : row ∈ list_pending n rows → row ∈ rows ∧ is_pending row = true.
Proof.
  intros H. apply pending_rows_elem. rewrite <- (take_drop n (pending_rows rows)). apply elem_of_app. by left.
Qed.

Lemma unique_row (rows : list CoordinatorEventOutbox) a b :
  NoDup (co_event_id <$> rows) → a ∈ rows → b ∈ rows → co_event_id a = co_event_id b → a = b.
Proof.
  intros Hnd [i Ha]%list_elem_of_lookup [j Hb]%list_elem_of_lookup He.
  assert (i = j) as ->; [|congruence].
  eapply (NoDup_lookup _ i j (co_event_id a) Hnd); rewrite list_lookup_fmap, ?Ha, ?Hb; cbn; congruence.
Qed.

(** C25. At least once: whatever the bus answers and however often the database
    fails to mark a row, a dispatch round returns, no row of the outbox is lost or
    altered in its content, rows that were not pending stay as they are, a row
    stops being pending only when the bus has accepted its event, and the bus
    only ever sees events of pending rows. *)
Theorem outbox_at_least_once `{!Env} tp limit s r s' :
  valid_rows (dl_rows s) → NoDup (co_event_id <$> dl_rows s) →
  publish_pending_events tp limit s = (r, s') →
  is_ok r = true
  ∧ ∃ acc, dl_accepted s' = dl_accepted s ++ acc
    ∧ (∀ e, e ∈ acc → ∃ row, row ∈ dl_rows s ∧ is_pending row = true ∧ event_from_outbox row = Ok e)
    ∧ Forall2 (λ a b, core b = core a ∧ (is_pending a = false → b = a)
                 ∧ (is_pending a = true → is_pending b = false → co_event_id a ∈ ev_event_id <$> acc))
        (dl_rows s) (dl_rows s').
Proof.
  intros Hv Hnd Hr. unfold publish_pending_events in Hr. rewrite M_bind_run in Hr. cbn [getsM] in Hr.
  rewrite M_bind_run in Hr.
  destruct (publish_rows tp (list_pending limit (dl_rows s)) 0 0 s) as [r1 s1] eqn:H1.
  apply rows_run in H1 as (acc & [c ->] & Ha & Ht & Hacc).
  2:{ intros row [Hin _]%list_pending_elem. by eapply valid_rows_events. }
  injection Hr as <- <-. split; [done|]. exists acc. split_and!; [done| |].
  - intros e He. destruct (Hacc e He) as (row & [? ?]%list_pending_elem & ?). eauto.
  - assert (Forall (λ a, is_pending a = false → co_event_id a ∉ co_event_id <$> list_pending limit (dl_rows s))
              (dl_rows s)) as Hold.
    { apply Forall_forall. intros a Ha' Hp (b & Hid & [Hb Hpb]%list_pending_elem)%list_elem_of_fmap.
      rewrite (unique_row _ _ _ Hnd Ha' Hb Hid) in Hp. congruence. }
    set (ids := co_event_id <$> list_pending limit (dl_rows s)) in Ht, Hold. clearbody ids.
    clear -Ht Hold. unfold tracks in Ht. revert Hold.
    induction Ht as [|a b l l' (C & U & P) Ht IH]; intros Hold; [constructor|].
    inversion Hold; subst. constructor; [|by apply IH]. split_and!; auto.
Qed.

(** ** Progress when the bus is up *)
Definition healthy (tp : transport) : Prop :=
  ∀ n, tp_connect tp n = Ok () ∧ (∀ e, tp_publish tp n e = Ok true) ∧ tp_mark_error tp n = None.

Lemma row_leb_total a b : row_leb a b = true ∨ row_leb b a = true.
Proof.
  unfold row_leb. rewrite !orb_true_iff, !andb_true_iff, !Z.ltb_lt, !Z.eqb_eq.
  destruct (Z.lt_total (co_created_at a) (co_created_at b)) as [?|[?|?]]; [by auto| |by auto].
  destruct (str_leb_total (co_event_id a) (co_event_id b)); [left|right]; right; auto.
Qed.

Lemma row_leb_trans a b c : row_leb a b = true → row_leb b c = true → row_leb a c = true.
Proof.
  unfold row_leb. rewrite !orb_true_iff, !andb_true_iff, !Z.ltb_lt, !Z.eqb_eq.
  intros [?|[? H1]] [?|[? H2]]; [left; lia..|]. right. split; [lia|]. by eapply str_leb_trans.
Qed.

Lemma row_leb_antisym a b : row_leb a b = true → row_leb b a = true → co_event_id a = co_event_id b.
Proof.
  unfold row_leb. rewrite !orb_true_iff, !andb_true_iff, !Z.ltb_lt, !Z.eqb_eq.
  intros [?|[? H1]] [?|[? H2]]; try lia. by apply str_leb_antisym.
Qed.

Lemma pending_rows_sorted rows : StronglySorted (λ a b, row_leb a b = true) (pending_rows rows).
Proof. apply py_sorted_sorted; [apply row_leb_total|apply row_leb_trans]. Qed.

Lemma sorted_drop {A} (R : A → A → Prop) n l : StronglySorted R l → StronglySorted R (drop n l).
Proof.
  revert n. induction l as [|x l IH]; intros [|n] H; cbn; try done. apply IH. by inversion H.
Qed.

Lemma pending_NoDup rows : NoDup (co_event_id <$> rows) → NoDup (co_event_id <$> pending_rows rows).
Proof.
  intros H. unfold pending_rows. rewrite py_sorted_perm.
  eapply sublist_NoDup; [exact H|]. apply fmap_sublist, sublist_filter.
Qed.

Section progress.
Context `{!Env} (tp : transport) (up : healthy tp).

(** The rows named in [ids] are no longer pending, the others are as before. *)
Definition settled_rows (ids : list string) (rows rows' : list CoordinatorEventOutbox) : Prop :=
  Forall2 (λ a b, core b = core a ∧ (co_event_id a ∉ ids → b = a)
                  ∧ (co_event_id a ∈ ids → is_pending b = false)) rows rows'.

Lemma staged_healthy e s :
  ∃ s', publish_staged_event tp e s = (Ok true, s') ∧ dl_accepted s' = dl_accepted s ++ [e]
    ∧ settled_rows [ev_event_id e] (dl_rows s) (dl_rows s').
Proof.
  destruct (up (dl_attempts s)) as (Hc & Hp & Hm).
  unfold publish_staged_event. rewrite M_bind_run. unfold catchM at 1. rewrite M_bind_run.
  unfold bus_publish. rewrite Hc, Hp. cbn [negb raise_ifM]. rewrite !M_bind_run. cbn [mret M_ret].
  unfold mark_event_published, catchM, mark_published, mark_row. rewrite M_bind_run.
  cbn [dl_attempts]. rewrite Hm. eexists. split; [reflexivity|]. split; [reflexivity|]. cbn.
  unfold settled_rows, update_row. apply Forall2_fmap_r, Forall_Forall2_diag, Forall_true. intros r.
  split_and!.
  - by case_decide.
  - rewrite list_elem_of_singleton. intros. by rewrite decide_False.
  - rewrite list_elem_of_singleton. intros. by rewrite decide_True.
Qed.

Lemma settled_trans i1 i2 l1 l2 l3 :
  settled_rows i1 l1 l2 → settled_rows i2 l2 l3 → (∀ r, r ∈ l1 → co_event_id r ∈ i1 → co_event_id r ∉ i2) →
  settled_rows (i1 ++ i2) l1 l3.
Proof.
  intros H12. revert l3. induction H12 as [|a b l1 l2 (C1 & U1 & P1) H12 IH]; intros l3 H23 Hdis;
    inversion H23 as [|b' c l2' l3' (C2 & U2 & P2) H23']; subst; constructor.
  2:{ apply IH; [done|]. intros r Hr. apply Hdis. by right. }
  pose proof (core_event _ _ C1) as [_ Hid]. split_and!; [congruence| |].
  - intros [N1 N2]%not_elem_of_app. rewrite U2, U1; [done|done|by rewrite Hid].
  - intros [N|N]%elem_of_app.
    + rewrite U2; [auto|]. rewrite Hid. apply Hdis; [left|done].
    + apply P2. by rewrite Hid.
Qed.

Lemma rows_healthy rows evs p q s :
  Forall2 (λ r e, event_from_outbox r = Ok e) rows evs → NoDup (co_event_id <$> rows) →
  ∃ s', publish_rows tp rows p q s = (Ok (p + Z.of_nat (length rows), q), s')
    ∧ dl_accepted s' = dl_accepted s ++ evs
    ∧ settled_rows (co_event_id <$> rows) (dl_rows s) (dl_rows s').
Proof.
  intros Hev. revert p s. induction Hev as [|row e rows evs He Hev IH]; intros p s Hnd; cbn [publish_rows].
  - exists s. cbn. rewrite Z.add_0_r, app_nil_r. split_and!; [done|done|].
    apply Forall_Forall2_diag, Forall_true. intros r. split_and!; [done|done|by intros ?%not_elem_of_nil].
  - rewrite fmap_cons in Hnd. inversion Hnd as [|? ? Hnew Hnd']; subst.
    rewrite M_bind_run. unfold liftM. rewrite He, M_bind_run.
    destruct (staged_healthy e s) as (s1 & H1 & Ha1 & Ht1). rewrite H1.
    destruct (IH (p + 1) s1) as (s2 & H2 & Ha2 & Ht2); [done|]. exists s2. rewrite H2. cbn [length].
    assert (ev_event_id e = co_event_id row) as Hid
      by (unfold event_from_outbox in He; by apply mk_event_Ok in He as [_ ->]).
    split_and!.
    + do 3 f_equal. lia.
    + by rewrite Ha2, Ha1, <- app_assoc.
    + rewrite Hid in Ht1. apply (settled_trans [_] _ _ _ _ Ht1 Ht2).
      intros r _ ->%list_elem_of_singleton. done.
Qed.

(** The rows that stay pending are the ones the round did not take. *)
Lemma settled_pending ids rows rows' :
  settled_rows ids rows rows' →
  filter (λ r, is_pending r = true) rows' = filter (λ r, co_event_id r ∉ ids) (filter (λ r, is_pending r = true) rows).
Proof.
  induction 1 as [|a b l l' (Hc & Hu & Hp) Hs IH]; [done|]. rewrite !filter_cons.
  destruct (decide (co_event_id a ∈ ids)) as [Hin|Hin].
  - rewrite (decide_False (P := is_pending b = true)) by (by rewrite Hp).
    case_decide; rewrite ?filter_cons, ?decide_False by (intros Hn; by apply Hn); done.
  - rewrite (Hu Hin). case_decide; rewrite ?filter_cons, ?decide_True by done; by rewrite IH.
Qed.

Lemma take_filtered n l :
  NoDup (co_event_id <$> l) → filter (λ r, co_event_id r ∉ co_event_id <$> take n l) l = drop n l.
Proof.
  intros Hnd.
  transitivity (filter (λ r, co_event_id r ∉ co_event_id <$> take n l) (take n l ++ drop n l));
    [by rewrite take_drop|]. rewrite filter_app.
  rewrite <- (take_drop n l), fmap_app in Hnd. apply NoDup_app in Hnd as (_ & Hdis & _).
  assert (∀ l1 : list CoordinatorEventOutbox, (∀ r, r ∈ l1 → r ∈ take n l) → filter (λ r, co_event_id r ∉ co_event_id <$> take n l) l1 = []) as H1.
  { induction l1 as [|r l1 IH]; intros Hs; [done|]. rewrite filter_cons_False; [apply IH; set_solver|].
    intros Hn. apply Hn, list_elem_of_fmap_2, Hs. left. }
  assert (∀ l2 : list CoordinatorEventOutbox, (∀ r, r ∈ l2 → r ∈ drop n l) → filter (λ r, co_event_id r ∉ co_event_id <$> take n l) l2 = l2) as H2.
  { induction l2 as [|r l2 IH]; intros Hs; [done|]. rewrite filter_cons_True; [f_equal; apply IH; set_solver|].
    intros Hn. eapply Hdis; [exact Hn|]. apply list_elem_of_fmap_2, Hs. left. }
  by rewrite H1, H2.
Qed.

Lemma round_pending n rows rows' :
  NoDup (co_event_id <$> rows) → settled_rows (co_event_id <$> list_pending n rows) rows rows' →
  pending_rows rows' = drop n (pending_rows rows).
Proof.
  intros Hnd Hs. pose proof (pending_NoDup _ Hnd) as Hpn.
  assert (drop n (pending_rows rows) ≡ₚ filter (λ r, is_pending r = true) rows') as Hperm.
  { rewrite (settled_pending _ _ _ Hs), <- (take_filtered n (pending_rows rows) Hpn).
    unfold list_pending. apply filter_Permutation, py_sorted_perm. }
  symmetry. apply (sorted_unique_on (λ a b, row_leb a b = true)).
  - intros a b Ha Hb H1 H2. apply (unique_row rows a b Hnd); [..|by apply row_leb_antisym].
    all: apply pending_rows_elem; rewrite <- (take_drop n (pending_rows rows)); apply elem_of_app; by right.
  - apply sorted_drop, pending_rows_sorted.
  - apply pending_rows_sorted.
  - rewrite Hperm. unfold pending_rows. by rewrite py_sorted_perm.
Qed.

Lemma settled_ids ids rows rows' : settled_rows ids rows rows' → core <$> rows' = core <$> rows.
Proof. induction 1 as [|a b l l' (Hc & _) Hs IH]; [done|]. by rewrite !fmap_cons, Hc, IH. Qed.

(** [n] rounds of the dispatcher. *)
Fixpoint rounds (n : nat) (limit : nat) : M Delivery unit :=
  match n with
  | 0%nat => mret ()
  | S n' => _ ← publish_pending_events tp limit; rounds n' limit
  end.

(** The events of rows, in their order. *)
Definition events_of (rows : list CoordinatorEventOutbox) (evs : list Event) : Prop :=
  Forall2 (λ r e, event_from_outbox r = Ok e) rows evs.

Definition dispatchable (rows : list CoordinatorEventOutbox) : Prop :=
  (∀ row, row ∈ rows → ∃ e, event_from_outbox row = Ok e) ∧ NoDup (co_event_id <$> rows).

Lemma dispatchable_core rows rows' : core <$> rows' = core <$> rows → dispatchable rows → dispatchable rows'.
Proof.
  intros Hc [Hv Hnd]. assert (co_event_id <$> rows' = co_event_id <$> rows) as Hid.
  { apply (f_equal (fmap (λ t : string * string * string * pydict * string * option string
                              * option string * Z * instant, t.1.1.1.1.1.1.1.1))) in Hc.
    rewrite <- !list_fmap_compose in Hc. exact Hc. }
  split; [|by rewrite Hid]. intros row [i Hi]%list_elem_of_lookup.
  assert ((core <$> rows) !! i = Some (core row)) as Hl by (rewrite <- Hc, list_lookup_fmap, Hi; done).
  rewrite list_lookup_fmap in Hl. destruct (rows !! i) as [r0|] eqn:E; [|done]. cbn in Hl.
  apply (inj Some) in Hl. destruct (Hv r0) as [e He]; [by apply list_elem_of_lookup_2 in E|].
  exists e. rewrite <- He. symmetry. exact (proj1 (core_event _ _ Hl)).
Qed.

Lemma events_exist rows : (∀ row, row ∈ rows → ∃ e, event_from_outbox row = Ok e) → ∃ evs, events_of rows evs.
Proof.
  induction rows as [|r rows IH]; intros Hv; [by exists []; constructor|].
  destruct (Hv r) as [e He]; [left|]. destruct IH as [evs Hevs]; [intros; apply Hv; by right|].
  exists (e :: evs). by constructor.
Qed.

Lemma round_healthy limit s :
  dispatchable (dl_rows s) →
  ∃ s' evs, publish_pending_events tp limit s =
      (Ok (Z.of_nat (length evs), Z.of_nat (length evs), 0), s')
    ∧ events_of (list_pending limit (dl_rows s)) evs ∧ dl_accepted s' = dl_accepted s ++ evs
    ∧ pending_rows (dl_rows s') = drop limit (pending_rows (dl_rows s)) ∧ dispatchable (dl_rows s').
Proof.
  intros [Hv Hnd]. destruct (events_exist (list_pending limit (dl_rows s))) as [evs Hevs].
  { intros row [Hin _]%list_pending_elem. auto. }
  assert (NoDup (co_event_id <$> list_pending limit (dl_rows s))) as Hnp.
  { eapply sublist_NoDup; [exact (pending_NoDup _ Hnd)|]. apply fmap_sublist, sublist_take. }
  destruct (rows_healthy _ _ 0 0 s Hevs Hnp) as (s' & Hr & Ha & Hs). exists s', evs.
  unfold publish_pending_events. rewrite M_bind_run. cbn [getsM]. rewrite M_bind_run, Hr. cbn.
  rewrite (Forall2_length _ _ _ Hevs). split_and!; [done..| |].
  - by apply round_pending.
  - eapply dispatchable_core; [by eapply settled_ids|done].
Qed.
End progress.

(** C26. Nothing waits for ever: while the bus accepts and the database marks, each
    round publishes the oldest pending events, up to its limit; after enough
    rounds for the backlog nothing is pending, and every pending event was
    accepted exactly once, in the order of its time and identifier. *)
Theorem outbox_drains `{!Env} tp limit n s :
  healthy tp → dispatchable (dl_rows s) → (length (pending_rows (dl_rows s)) ≤ n * limit)%nat →
  ∃ s' evs, rounds tp n limit s = (Ok (), s')
    ∧ events_of (pending_rows (dl_rows s)) evs
    ∧ dl_accepted s' = dl_accepted s ++ evs ∧ pending_rows (dl_rows s') = [].
Proof.
  intros Hup. revert s. induction n as [|n IH]; intros s Hd Hle; cbn [rounds].
  - apply Nat.le_0_r, nil_length_inv in Hle. exists s, []. rewrite Hle, app_nil_r.
    split_and!; [done|constructor|done..].
  - destruct (round_healthy tp Hup limit s Hd) as (s1 & evs1 & H1 & He1 & Ha1 & Hp1 & Hd1).
    destruct (IH s1 Hd1) as (s2 & evs2 & H2 & He2 & Ha2 & Hp2).
    { rewrite Hp1, length_drop. lia. }
    exists s2, (evs1 ++ evs2). rewrite M_bind_run, H1. split_and!; [done| |by rewrite Ha2, Ha1, app_assoc|done].
    rewrite <- (take_drop limit (pending_rows (dl_rows s))). apply Forall2_app; [done|]. by rewrite <- Hp1.
Qed.

(** ** A concrete outbox *)
Definition bus_up : transport := {|
  tp_connect := λ _, Ok (); tp_publish := λ _ _, Ok true; tp_mark_error := λ _, None |}.

(** The bus refuses every second attempt, and the database fails now and then. *)
Definition bus_flaky : transport := {|
  tp_connect := λ _, Ok (); tp_publish := λ n _, Ok (Nat.even n);
  tp_mark_error := λ n, if (n =? 2)%nat then Some (Exn "OperationalError" "") else None |}.

Definition sample_outbox_event (id_ : string) : Event := {|
  ev_event_id := id_; ev_event_type := "coordinator.dispatch"; ev_timestamp := of_utc 5;
  ev_source := "coordinator"; ev_payload := [("task_id", PStr "t1"); ("tasks", PTuple [PInt 1])];
  ev_schema_version := "1.0";
  ev_metadata := {| em_trace_id := None; em_retry_count := 0; em_correlation_id := None |} |}.

Definition sample_staged (id_ : string) : Event := {|
  ev_event_id := id_; ev_event_type := "coordinator.dispatch"; ev_timestamp := of_utc 5;
  ev_source := "coordinator"; ev_payload := [("task_id", PStr "t1"); ("tasks", PList [PInt 1])];
  ev_schema_version := "1.0";
  ev_metadata := {| em_trace_id := None; em_retry_count := 0; em_correlation_id := None |} |}.

Definition sample_delivery : Delivery := {|
  dl_rows := [outbox_row (sample_staged "evt_b") 7; outbox_row (sample_staged "evt_a") 7;
              outbox_row (sample_staged "evt_c") 6];
  dl_accepted := []; dl_attempts := 0; dl_ticks := 0 |}.

Lemma sample_valid : valid_rows (dl_rows sample_delivery).
Proof.
  intros row Hr. repeat (apply elem_of_cons in Hr as [->|Hr]); [..|by apply not_elem_of_nil in Hr].
  - exists (sample_outbox_event "evt_b"), (sample_staged "evt_b"). by split_and!.
  - exists (sample_outbox_event "evt_a"), (sample_staged "evt_a"). by split_and!.
  - exists (sample_outbox_event "evt_c"), (sample_staged "evt_c"). by split_and!.
Defined.

Lemma sample_unique : NoDup (co_event_id <$> dl_rows sample_delivery).
Proof. apply (bool_decide_unpack _). vm_compute. exact I. Defined.

Section witnesses.
#[local] Existing Instance CoordinatorRefinement.sample_env.

Lemma outbox_at_least_once_witness :
  ∃ acc, dl_accepted (publish_pending_events bus_flaky 100 sample_delivery).2 = [] ++ acc
    ∧ ev_event_id <$> acc = ["evt_c"; "evt_b"].
Proof.
  destruct (outbox_at_least_once bus_flaky 100 sample_delivery _ _ sample_valid sample_unique
              (surjective_pairing _)) as (_ & acc & Ha & _).
  exists acc. split; [exact Ha|]. cbn in Ha. by rewrite <- Ha.
Defined.

Lemma outbox_drains_witness :
  ∃ s' evs, rounds bus_up 2 2 sample_delivery = (Ok (), s')
    ∧ events_of (pending_rows (dl_rows sample_delivery)) evs ∧ length evs = 3%nat
    ∧ pending_rows (dl_rows s') = [].
Proof.
  assert (healthy bus_up) as Hup by done.
  assert (dispatchable (dl_rows sample_delivery)) as Hd.
  { split; [|exact sample_unique]. intros row Hr. exact (valid_rows_events _ _ sample_valid Hr). }
  assert (length (pending_rows (dl_rows sample_delivery)) ≤ 2 * 2)%nat as Hle by (vm_compute; lia).
  destruct (outbox_drains bus_up 2 2 sample_delivery Hup Hd Hle) as (s' & evs & Hs & He & _ & Hp).
  exists s', evs. split_and!; [exact Hs|exact He|exact (eq_sym (Forall2_length _ _ _ He))|exact Hp].
Defined.
End witnesses.
