(* ===== verification/DevPlan.v ===== *)
(** * What the Dev agent accepts and plans

    Below [src/agents/dev_agent]: the task and workflow schemas
    ([models/schemas.py]), the sanitizer, the risk assessor, the tool router and
    the workflow validator of [core], with the prompt scanner of
    [src/shared/evolution/prompt_safety_scanner.py].  The validator's acyclicity
    check is shown to accept exactly the dependency graphs that have an order. *)

From S2P Require Import Prelude PyNum PyValue PyRegex.

(** ** Schemas *)
Inductive RiskLevel := RiskLevel_LOW | RiskLevel_MEDIUM | RiskLevel_HIGH | RiskLevel_CRITICAL.
#[global] Instance RiskLevel_eq_dec : EqDecision RiskLevel.
Proof. solve_decision. Defined.
Definition RiskLevel_value (r : RiskLevel) : string :=
  match r with
  | RiskLevel_LOW => "LOW" | RiskLevel_MEDIUM => "MEDIUM" | RiskLevel_HIGH => "HIGH"
  | RiskLevel_CRITICAL => "CRITICAL"
  end.
(** [RiskLevel(value)] *)
Definition risk_of_value (s : string) : result RiskLevel :=
  match find (λ r, bool_decide (RiskLevel_value r = s))
          [RiskLevel_LOW; RiskLevel_MEDIUM; RiskLevel_HIGH; RiskLevel_CRITICAL] with
  | Some r => Ok r
  | None => Raise (value_error (str_repr s +:+ " is not a valid RiskLevel"))
  end.
Lemma risk_roundtrip r : risk_of_value (RiskLevel_value r) = Ok r.
Proof. by destruct r. Qed.

Record WorkflowNode := {
  wn_name : string; wn_type : string; wn_dependsOn : list string; wn_config : pydict }.
Record WorkflowPlan := {
  wp_name : string; wp_description : string; wp_nodes : list WorkflowNode;
  wp_metadata : list (string * string) }.
Record ToolRule := { tr_match_tags : list string; tr_tool : string; tr_priority : Z }.

(** [TaskInput], and [SanitizedTask] which adds the risk. *)
Record TaskInput := {
  ti_title : string; ti_description : string; ti_estimated_hours : float; ti_wp_id : Z;
  ti_parent_story : string; ti_related_files : list string; ti_risk_level : RiskLevel }.

(** ** The prompt scanner *)
Definition white1 : regex := at_least 1 is_space.
Definition words (l : list string) : regex := alts (lit <$> l).

Definition MAX_PROMPT_LENGTH : Z := 50000.
Definition _BUILTIN_PATTERNS : list (regex * string) := [
  (seqs [lit "ignore"; white1; opt (RSeq (lit "all") white1); words ["previous"; "prior"; "above"]; white1;
         words ["instructions"; "rules"; "constraints"]],
   "Ignore instructions pattern detected");
  (seqs [words ["output"; "reveal"; "show"; "print"; "display"]; white1; opt (RSeq (lit "your") white1);
         alts [seqs [lit "system"; white1; lit "prompt"]; lit "instructions"; lit "rules"]],
   "System prompt leak attempt");
  (seqs [lit "you"; white1; lit "are"; white1; lit "now"; white1; at_least 1 is_word],
   "Role override attempt");
  (alts [seqs [lit "no"; white1; lit "restrictions"]; seqs [lit "no"; white1; lit "rules"];
         seqs [lit "no"; white1; lit "limits"]; lit "unrestricted"],
   "Restriction bypass attempt");
  (seqs [words ["forget"; "discard"; "override"]; white1;
         alts [lit "everything"; lit "all"; seqs [lit "your"; white1; words ["rules"; "instructions"]]]],
   "Memory override attempt");
  (seqs [lit "<"; RStar is_space; opt (lit "/"); words ["script"; "iframe"; "object"; "embed"]],
   "HTML injection attempt")].

(** [PromptSafetyScanner.scan]: the violations; safe when there is none. *)
Definition scan (prompt : string) : list string :=
  if str_empty prompt || str_empty (strip prompt) then ["Prompt is empty or too short"]
  else if MAX_PROMPT_LENGTH <? Z.of_nat (String.length prompt) then ["Prompt length exceeds max"]
  else (filter (λ p, re_search p.1 prompt = true) _BUILTIN_PATTERNS).*2.

(** ** Tasks *)
Definition input_rejected (reasons : list string) : exn :=
  Exn "InputRejectedError" ("Input rejected: " +:+ str_join "; " reasons).

Definition newline : string := String (ascii_of_N 10) "".
Definition has_shell_meta (s : string) : bool := existsb (one_of "$`|;><") (list_ascii_of_string s).

Definition too_long (what : string) (limit : Z) (s : string) : list string :=
  let n := Z.of_nat (String.length s) in
  if limit <? n then [what +:+ " too long: " +:+ pretty n +:+ " > " +:+ pretty limit] else [].

Definition sanitize (task : TaskInput) : result TaskInput :=
  let violations :=
    too_long "Title" 200 (ti_title task) ++ too_long "Description" 5000 (ti_description task)
    ++ (if has_shell_meta (ti_title task) then ["Shell metacharacters in title"] else [])
    ++ scan (ti_title task +:+ newline +:+ ti_description task) in
  if bool_decide (violations = []) then Ok task else Raise (input_rejected violations).

(** [\b(...)\b] *)
Definition keywords (l : list regex) : regex := seqs [RBoundary; alts l; RBoundary].
Definition _CRITICAL_KEYWORDS : regex := keywords
  ((lit <$> ["migration"; "infra"; "infrastructure"; "permission"; "secret"; "credential"])
   ++ [seqs [lit "database"; white1; lit "schema"]]
   ++ (lit <$> ["alembic"; "docker-compose"; "helm"; "terraform"])).
Definition any_but_newline (c : ascii) : bool := negb (code c =? 10)%N.
Definition _HIGH_KEYWORDS : regex := keywords
  ((lit <$> ["security"; "auth"; "encrypt"; "token"])
   ++ [seqs [lit "cross"; RClass any_but_newline; lit "agent"]; lit "shared/"]
   ++ (lit <$> ["middleware"; "gateway"; "certificate"])).
Definition _LOW_KEYWORDS : regex := keywords
  ([RSeq (lit "doc") (opt (lit "s"))] ++ (lit <$> ["readme"; "comment"; "typo"])
   ++ [RSeq (lit "test") (opt (lit "s"))] ++ (lit <$> ["spec"; "config"; "lint"; "format"])).

(** [p in s] for strings *)
Fixpoint str_contains (p s : string) : bool :=
  str_startswith p s || match s with String _ s' => str_contains p s' | EmptyString => false end.

Definition assess (task : TaskInput) : RiskLevel :=
  let text := ti_title task +:+ " " +:+ ti_description task in
  if re_search _CRITICAL_KEYWORDS text then RiskLevel_CRITICAL
  else if re_search _HIGH_KEYWORDS text || str_contains "shared/" (str_join " " (ti_related_files task))
  then RiskLevel_HIGH
  else if re_search _LOW_KEYWORDS text then RiskLevel_LOW
  else RiskLevel_MEDIUM.

(** [domain/delivery_policy.py] *)
Definition rejects_automatic_delivery (r : RiskLevel) : bool := bool_decide (r = RiskLevel_CRITICAL).
Definition requires_workflow_approval (r : RiskLevel) : bool := bool_decide (r = RiskLevel_HIGH).

(** ** Tools *)
Definition hashable (v : pyval) : bool :=
  match v with PList _ | PDict _ | PSet _ => false | _ => true end.
(** The strings among the members of an iterable, as [set.update] takes them. *)
Definition tags_of (config : pydict) : result (list string) :=
  let strings (l : list pyval) : result (list string) :=
    _ ← raise_if (negb (forallb hashable l)) (type_error "unhashable type");
    Ok (omap (λ v, match v with PStr s | PEnum s => Some s | _ => None end) l) in
  match default (PList []) (dict_get config "tags") with
  | PList l | PTuple l | PSet l => strings l
  | PStr s => Ok ((λ c, String c "") <$> list_ascii_of_string s)
  | PDict d => Ok (d.*1)
  | _ => Raise (type_error "object is not iterable")
  end.

Definition DEFAULT_RULES : list ToolRule := [
  {| tr_match_tags := ["plan"; "review"; "architecture"]; tr_tool := "codex"; tr_priority := 10 |};
  {| tr_match_tags := ["implement"; "fix"; "refactor"; "core"]; tr_tool := "claude"; tr_priority := 5 |};
  {| tr_match_tags := ["models"; "api"; "tests"; "docs"; "config"]; tr_tool := "gemini"; tr_priority := 5 |};
  {| tr_match_tags := ["acceptance"; "packaging"]; tr_tool := "claude"; tr_priority := 5 |}].
Definition DEFAULT_TOOL : string := "claude".

(** Sorted by decreasing priority, ties in order. *)
Definition router_rules (rules : list ToolRule) : list ToolRule :=
  py_sorted (λ a b, tr_priority b <=? tr_priority a) rules.

(** [ToolRouter.route], without overrides, which nothing sets. *)
Definition route (node : WorkflowNode) : result string :=
  tags ← tags_of (wn_config node);
  Ok (match find (λ r, existsb (λ t, bool_decide (t ∈ tr_match_tags r)) tags) (router_rules DEFAULT_RULES) with
      | Some r => tr_tool r
      | None => DEFAULT_TOOL
      end).

(** ** The dependency graph *)
Section dag.
Context (nodes : list WorkflowNode).

(** [set], in the order of first occurrence; nothing depends on the order. *)
Definition node_names : list string := remove_dups (wn_name <$> nodes).

Definition missing_dependencies : list string :=
  nodes ≫= λ n, (λ d, "Node '" +:+ wn_name n +:+ "' depends on non-existent '" +:+ d +:+ "'")
    <$> filter (λ d, d ∉ wn_name <$> nodes) (wn_dependsOn n).

(** The two [defaultdict]s of the check. *)
Record dag_state := { dg_in_degree : list (string * Z); dg_graph : list (string * list string) }.
Definition degree (s : list (string * Z)) (n : string) : Z := default 0 (dict_get s n).
Definition successors (g : list (string * list string)) (n : string) : list string :=
  default [] (dict_get g n).

Definition add_edge (s : dag_state) (dep name : string) : dag_state := {|
  dg_in_degree := dict_set (dg_in_degree s) name (degree (dg_in_degree s) name + 1);
  dg_graph := dict_set (dg_graph s) dep (successors (dg_graph s) dep ++ [name]) |}.
Definition add_node (s : dag_state) (n : WorkflowNode) : dag_state :=
  let s := {| dg_in_degree := match dict_get (dg_in_degree s) (wn_name n) with
                              | Some _ => dg_in_degree s
                              | None => dict_set (dg_in_degree s) (wn_name n) 0
                              end;
              dg_graph := dg_graph s |} in
  foldl (λ s dep, add_edge s dep (wn_name n)) s (wn_dependsOn n).
Definition build_graph : dag_state := foldl add_node {| dg_in_degree := []; dg_graph := [] |} nodes.

(** One neighbour of the node that was taken. *)
Definition relax (s : list (string * Z) * list string) (n : string) : list (string * Z) * list string :=
  let k := degree s.1 n - 1 in
  (dict_set s.1 n k, if k =? 0 then s.2 ++ [n] else s.2).

Fixpoint drain (fuel : nat) (graph : list (string * list string)) (in_degree : list (string * Z))
    (queue : list string) (visited : Z) : option Z :=
  match queue with
  | [] => Some visited
  | current :: queue' =>
      match fuel with
      | O => None
      | S fuel' =>
          let '(in_degree', queue'') := foldl relax (in_degree, queue') (successors graph current) in
          drain fuel' graph in_degree' queue'' (visited + 1)
      end
  end.

Definition visited_nodes : option Z :=
  drain (length node_names) (dg_graph build_graph) (dg_in_degree build_graph)
    (filter (λ n, degree (dg_in_degree build_graph) n = 0) node_names) 0.

Definition _check_dag : list string :=
  missing_dependencies
  ++ match visited_nodes with
     | Some v => if v <? Z.of_nat (length node_names)
                 then ["Cyclic dependency detected in workflow DAG"] else []
     | None => []
     end.
End dag.

(** ** The validator *)
Definition prompt_of (n : WorkflowNode) : pyval := default (PStr "") (dict_get (wn_config n) "prompt").
Definition text_prompt (n : WorkflowNode) : result string :=
  match prompt_of n with
  | PStr s | PEnum s => Ok s
  | _ => Raise (type_error "expected string or bytes-like object")
  end.

(** The group of [_PATH_PATTERN] *)
Definition path_group : regex :=
  RAlt (seqs [RAlt (RSeq (RClass (λ c, Ascii.eqb c ".")) (RSeq (RClass (λ c, Ascii.eqb c "."))
                (RClass (λ c, Ascii.eqb c "/")))) (RClass (λ c, Ascii.eqb c "/"));
              at_least 1 (λ c, negb (is_space c) && negb (one_of "'" c) && negb (code c =? 34)%N)])
       (seqs [RClass (λ c, is_letter c || Ascii.eqb c "_"); RStar (λ c, is_word c || one_of "/.-" c);
              RClass (λ c, Ascii.eqb c "."); at_least 1 is_word]).

(** What the whole pattern matches at a position: the characters before the
    group and those of the group. *)
Definition path_at (prev : option ascii) (s : string) : option (nat * nat) :=
  let after_space :=
    match s with
    | String c s' => if is_space c then (λ n, (1%nat, n)) <$> match_length path_group (Some c) s' else None
    | EmptyString => None
    end in
  match prev with
  | None => match match_length path_group None s with Some n => Some (0%nat, n) | None => after_space end
  | Some _ => after_space
  end.

(** [_PATH_PATTERN.findall]; [skip] passes over the current match. *)
Fixpoint find_paths (prev : option ascii) (skip : nat) (s : string) : list string :=
  match s with
  | EmptyString => []
  | String c s' =>
      match skip with
      | S k => find_paths (Some c) k s'
      | O => match path_at prev s with
             | Some (before, n) => str_take n (str_drop before s) :: find_paths (Some c) (before + n - 1) s'
             | None => find_paths (Some c) 0 s'
             end
      end
  end.

Definition _ALLOWED_PREFIXES : list string := ["agents/"; "shared/"; "tests/"; "docs/"; ".acceptance/"].

Definition path_violation (n : WorkflowNode) (path : string) : list string :=
  if str_startswith ".." path || str_startswith "/" path
  then ["Path traversal in node '" +:+ wn_name n +:+ "': " +:+ path]
  else if str_contains "." (default "" (last (str_split "/" path)))
          && negb (existsb (λ p, str_startswith p path) _ALLOWED_PREFIXES)
  then ["Path outside whitelist in node '" +:+ wn_name n +:+ "': " +:+ path]
  else [].

Definition _check_acceptance_push (nodes : list WorkflowNode) : result (list string) :=
  match last nodes with
  | None => Ok []
  | Some n =>
      match prompt_of n with
      | PStr s | PEnum s =>
          let p := lower s in
          Ok (if negb (str_contains "git push" p)
              then ["Final node '" +:+ wn_name n +:+ "' prompt must include git push"]
              else if negb (str_contains "dev/wp-" p)
              then ["Final node '" +:+ wn_name n +:+ "' must push to dev/wp-<id> branch"]
              else [])
      | _ => Raise (Exn "AttributeError" "object has no attribute 'lower'")
      end
  end.

Definition scan_violations (n : WorkflowNode) (prompt : string) : list string :=
  if str_empty prompt then []
  else (λ v, "Node '" +:+ wn_name n +:+ "' prompt: " +:+ v) <$> scan prompt.

(** [WorkflowValidator.validate]: the violations; valid when there is none. *)
Definition validate (plan : WorkflowPlan) : result (list string) :=
  let nodes := wp_nodes plan in
  push ← _check_acceptance_push nodes;
  tags ← mapR (λ n, tags_of (wn_config n)) nodes;
  let tags := concat tags in
  prompts ← mapR text_prompt nodes;
  Ok (_check_dag nodes ++ push
      ++ (if decide ("review" ∈ tags) then [] else ["Missing 'review' node (quality gate)"])
      ++ (if decide ("acceptance" ∈ tags) then [] else ["Missing 'acceptance' node (quality gate)"])
      ++ concat (zip_with (λ n p, concat (path_violation n <$> find_paths None 0 p)) nodes prompts)
      ++ concat (zip_with scan_violations nodes prompts)).

#[global] Arguments degree : simpl never.
#[global] Arguments successors : simpl never.

(** ** The acyclicity check is exact *)
Section dag_facts.
Context (nodes : list WorkflowNode).

Definition edges : list (string * string) :=
  nodes ≫= λ n, (λ d, (d, wn_name n)) <$> wn_dependsOn n.
(** How many edges into [n] come from elsewhere than [V]. *)
Definition waiting (E : list (string * string)) (V : list string) (n : string) : Z :=
  Z.of_nat (length (filter (λ e, e.2 = n ∧ e.1 ∉ V) E)).
Definition from (E : list (string * string)) (d : string) : list string := (filter (λ e, e.1 = d) E).*2.
Definition times_in (n : string) (l : list string) : Z := Z.of_nat (length (filter (λ m, m = n) l)).

Lemma degree_set s n k m : degree (dict_set s n k) m = if decide (n = m) then k else degree s m.
Proof.
  unfold degree. case_decide as H; [subst; by rewrite dict_get_set_eq | by rewrite dict_get_set_ne].
Qed.
Lemma successors_set g n l m : successors (dict_set g n l) m = if decide (n = m) then l else successors g m.
Proof.
  unfold successors. case_decide as H; [subst; by rewrite dict_get_set_eq | by rewrite dict_get_set_ne].
Qed.

(** What the two dictionaries say of the edges read so far. *)
Definition describes (s : dag_state) (E : list (string * string)) : Prop :=
  (∀ n, degree (dg_in_degree s) n = waiting E [] n) ∧ (∀ d, successors (dg_graph s) d = from E d).

Lemma waiting_app E F V n : waiting (E ++ F) V n = waiting E V n + waiting F V n.
Proof. unfold waiting. rewrite filter_app, length_app. lia. Qed.

Lemma describes_edge s E dep name : describes s E → describes (add_edge s dep name) (E ++ [(dep, name)]).
Proof.
  intros [H1 H2]. split; intros x; cbn.
  - rewrite degree_set, waiting_app, !H1. unfold waiting at 4. rewrite filter_cons. cbn.
    case_decide as Hx; subst.
    + rewrite decide_True by (split; [done|apply not_elem_of_nil]). done.
    + rewrite decide_False by tauto. cbn. lia.
  - rewrite successors_set, !H2. unfold from. rewrite filter_app, fmap_app, filter_cons. cbn.
    case_decide as Hx; subst; [done|]. cbn. by rewrite app_nil_r.
Qed.

Lemma describes_node s E n :
  describes s E → describes (add_node s n) (E ++ ((λ d, (d, wn_name n)) <$> wn_dependsOn n)).
Proof.
  intros Hs. unfold add_node. set (s0 := Build_dag_state _ _).
  assert (describes s0 E) as H0.
  { destruct Hs as [H1 H2]. split; [|exact H2]. intros m. cbn. rewrite <- H1.
    destruct (dict_get _ (wn_name n)) as [k|] eqn:Hk; [done|]. rewrite degree_set.
    case_decide; [subst; unfold degree; by rewrite Hk|done]. }
  clearbody s0. clear Hs. revert s0 E H0. induction (wn_dependsOn n) as [|d l IH]; cbn; intros s0 E H0.
  - by rewrite app_nil_r.
  - rewrite cons_middle, app_assoc. apply IH, describes_edge, H0.
Qed.

Lemma build_describes : describes (build_graph nodes) edges.
Proof.
  unfold build_graph, edges.
  assert (∀ s E, describes s E →
    describes (foldl add_node s nodes) (E ++ (nodes ≫= λ n, (λ d, (d, wn_name n)) <$> wn_dependsOn n))) as H.
  { induction nodes as [|n l IH]; cbn; intros s E Hs; [by rewrite app_nil_r|].
    rewrite app_assoc. apply IH, describes_node, Hs. }
  by apply (H _ []).
Qed.

(** Releasing the neighbours of a node. *)
Lemma relax_all l s q :
  (∀ n, times_in n l ≤ degree s n) →
  ∃ s' new, foldl relax (s, q) l = (s', q ++ new) ∧ NoDup new
    ∧ (∀ n, degree s' n = degree s n - times_in n l)
    ∧ (∀ n, n ∈ new ↔ n ∈ l ∧ degree s' n = 0).
Proof.
  revert s q. induction l as [|m l IH]; intros s q Hle; cbn [foldl].
  - exists s, []. rewrite app_nil_r. split_and!; [done|constructor|intros n; unfold times_in; cbn; lia|].
    intros n. rewrite !elem_of_nil. tauto.
  - assert (∀ n, times_in n (m :: l) = (if decide (m = n) then 1 else 0) + times_in n l) as Hcons.
    { intros n. unfold times_in. rewrite filter_cons. case_decide; cbn; lia. }
    unfold relax at 2. cbn [fst snd].
    destruct (IH (dict_set s m (degree s m - 1)) (if degree s m - 1 =? 0 then q ++ [m] else q))
      as (s' & new & -> & Hnd & Hdeg & Hnew).
    { intros n. specialize (Hle n). rewrite Hcons in Hle. rewrite degree_set. case_decide; subst; lia. }
    assert (∀ n, degree s' n = degree s n - times_in n (m :: l)) as Hdeg'.
    { intros n. rewrite Hdeg, Hcons, degree_set. case_decide; subst; lia. }
    assert (∀ n, n ∈ l → 1 ≤ times_in n l) as Hin.
    { intros n Hn. unfold times_in. assert (n ∈ filter (λ m, m = n) l) as Hf by (by apply list_elem_of_filter).
      destruct (filter _ l); [by apply elem_of_nil in Hf|cbn; lia]. }
    destruct (Z.eqb_spec (degree s m - 1) 0) as [Hz|Hz].
    + assert (m ∉ l) as Hml.
      { intros Hm%Hin. specialize (Hle m). rewrite Hcons, decide_True in Hle by done. lia. }
      exists s', (m :: new). rewrite <- app_assoc. split_and!; [done| |exact Hdeg'|].
      * constructor; [|done]. by intros [? _]%Hnew.
      * intros n. rewrite !elem_of_cons, Hnew. split; [|tauto].
        intros [->|[? ?]]; [|tauto]. split; [by left|]. rewrite Hdeg', Hcons, decide_True by done.
        assert (times_in m l = 0) as ->; [|lia]. unfold times_in. by rewrite filter_none by naive_solver.
    + exists s', new. split_and!; [done|done|exact Hdeg'|]. intros n. rewrite Hnew, elem_of_cons.
      split; [tauto|]. intros [[->|?] H0]; [|tauto]. split; [|done].
      destruct (decide (m ∈ l)) as [?|Hml]; [done|]. exfalso. rewrite Hdeg', Hcons, decide_True in H0 by done.
      assert (times_in m l = 0) as Hx; [|lia]. unfold times_in. by rewrite filter_none by naive_solver.
Qed.

(** Every dependency of a member comes before it. *)
Definition topological (order : list string) : Prop :=
  ∀ i n, order !! i = Some n → ∀ d, (d, n) ∈ edges → d ∈ take i order.

Record draining (V Q : list string) (deg : list (string * Z)) : Prop := {
  dr_nodup : NoDup (V ++ Q);
  dr_names : ∀ n, n ∈ V ++ Q → n ∈ node_names nodes;
  dr_degree : ∀ n, degree deg n = waiting edges V n;
  dr_ready : ∀ n, n ∈ node_names nodes → n ∈ V ++ Q ↔ waiting edges V n = 0;
  dr_order : topological V }.

Lemma waiting_zero V n : waiting edges V n = 0 ↔ ∀ d, (d, n) ∈ edges → d ∈ V.
Proof.
  unfold waiting. split.
  - intros H d Hd. destruct (decide (d ∈ V)) as [?|Hv]; [done|].
    assert ((d, n) ∈ filter (λ e, e.2 = n ∧ e.1 ∉ V) edges) as Hf by (by apply list_elem_of_filter).
    destruct (filter _ edges); [by apply elem_of_nil in Hf|cbn in H; lia].
  - intros H. rewrite filter_none; [done|]. intros [d m] Hin [Hm Hv]. cbn in Hm, Hv. subst m. by apply Hv, H.
Qed.

Lemma waiting_snoc V c n :
  c ∉ V → waiting edges (V ++ [c]) n = waiting edges V n - times_in n (from edges c).
Proof.
  intros Hc. induction edges as [|[d m] l IH]; [done|].
  assert (∀ W, waiting ((d, m) :: l) W n = (if decide (m = n ∧ d ∉ W) then 1 else 0) + waiting l W n) as Hw.
  { intros W. unfold waiting. rewrite filter_cons. cbn [fst snd]. case_decide; cbn [length]; lia. }
  assert (times_in n (from ((d, m) :: l) c)
          = (if decide (m = n ∧ d = c) then 1 else 0) + times_in n (from l c)) as Ht.
  { unfold times_in, from. rewrite filter_cons. cbn [fst snd]. destruct (decide (d = c)) as [->|Hd].
    - rewrite fmap_cons, filter_cons. cbn [snd]. repeat case_decide; cbn [length]; try lia; tauto.
    - rewrite decide_False by tauto. lia. }
  rewrite !Hw, Ht, IH. clear Hw Ht IH.
  assert (d ∉ V ++ [c] ↔ d ∉ V ∧ d ≠ c) as Hd.
  { rewrite not_elem_of_app, list_elem_of_singleton. tauto. }
  destruct (decide (m = n ∧ d ∉ V ++ [c])) as [H1|H1], (decide (m = n ∧ d ∉ V)) as [H2|H2],
    (decide (m = n ∧ d = c)) as [H3|H3]; rewrite Hd in H1; try lia; exfalso; try tauto.
  destruct H3 as [? ->]. tauto.
Qed.

Lemma times_in_pos n l : n ∈ l → 1 ≤ times_in n l.
Proof.
  intros Hn. unfold times_in. assert (n ∈ filter (λ m, m = n) l) as Hf by (by apply list_elem_of_filter).
  destruct (filter _ l); [by apply elem_of_nil in Hf|cbn; lia].
Qed.
Lemma times_in_none n l : n ∉ l → times_in n l = 0.
Proof. intros Hn. unfold times_in. rewrite filter_none; [done|]. by intros x Hx ->. Qed.

Lemma from_names c n : n ∈ from edges c → n ∈ node_names nodes.
Proof.
  intros Hn. unfold from in Hn. apply list_elem_of_fmap in Hn as ([d m] & -> & Hn).
  apply list_elem_of_filter in Hn as [_ Hn]. unfold edges in Hn.
  apply list_elem_of_bind in Hn as (w & Hn & Hw). apply list_elem_of_fmap in Hn as (? & [= -> ->] & _).
  cbn. apply elem_of_remove_dups. by apply (list_elem_of_fmap_2 wn_name).
Qed.

(** Taking the first node of the queue and releasing its neighbours. *)
Section step.
Context (V Q : list string) (c : string) (deg : list (string * Z)).
Hypothesis Hd : draining V (c :: Q) deg.

Lemma popped_fresh : c ∉ V ∧ c ∉ Q ∧ NoDup V ∧ NoDup Q ∧ ∀ x, x ∈ V → x ∉ Q.
Proof.
  destruct Hd as [H1 _ _ _ _]. apply NoDup_app in H1 as (HV & Hdis & HQ). apply NoDup_cons in HQ as [HcQ HQ].
  split_and!; try done; [intros Hx; by apply (Hdis c Hx); left|].
  intros x Hx HxQ. by apply (Hdis x Hx); right.
Qed.

Lemma step_degree n :
  waiting edges (V ++ [c]) n = degree deg n - times_in n (from edges c) ∧ times_in n (from edges c) ≤ degree deg n.
Proof.
  destruct popped_fresh as (Hc & _). rewrite (dr_degree _ _ _ Hd), (waiting_snoc V c n Hc).
  pose proof (waiting_snoc V c n Hc) as Hw. assert (0 ≤ waiting edges (V ++ [c]) n) by (unfold waiting; lia). lia.
Qed.

Context (deg' : list (string * Z)) (new : list string).
Hypothesis Hnd : NoDup new.
Hypothesis Hdeg : ∀ n, degree deg' n = degree deg n - times_in n (from edges c).
Hypothesis Hnew : ∀ n, n ∈ new ↔ n ∈ from edges c ∧ degree deg' n = 0.

Lemma new_fresh n : n ∈ new → n ∉ V ∧ n ∉ c :: Q.
Proof.
  intros [Hn _]%Hnew. rewrite <- not_elem_of_app. intros Hin.
  apply (dr_ready _ _ _ Hd) in Hin; [|by eapply from_names]. rewrite <- (dr_degree _ _ _ Hd) in Hin.
  pose proof (times_in_pos _ _ Hn). destruct (step_degree n). lia.
Qed.

Lemma step_ready n : degree deg' n = 0 ↔ degree deg n = 0 ∨ n ∈ new.
Proof.
  destruct (step_degree n) as [_ Hle]. assert (0 ≤ times_in n (from edges c)) by (unfold times_in; lia).
  split.
  - intros Hz. rewrite Hdeg in Hz. destruct (decide (n ∈ from edges c)) as [Hin|Hno%times_in_none]; [|left; lia].
    right. apply Hnew. split; [done|]. by rewrite Hdeg.
  - intros [Hz|Hin]; [|by apply Hnew]. rewrite Hdeg. lia.
Qed.

Lemma draining_step : draining (V ++ [c]) (Q ++ new) deg'.
Proof.
  destruct popped_fresh as (Hc & HcQ & HV & HQ & HVQ). destruct Hd as [H1 H2 H3 H4 H5]. split.
  - rewrite <- app_assoc. cbn. apply NoDup_app. split; [done|]. split.
    + intros x Hx Hin. apply elem_of_cons in Hin as [->|[Hin|Hin]%elem_of_app]; [done|by apply (HVQ x)|].
      by destruct (new_fresh x Hin).
    + constructor; [|apply NoDup_app; split; [done|]; split; [|done]].
      * intros [?|[_ Hx]%new_fresh]%elem_of_app; [done|]. apply Hx. left.
      * intros x Hx [_ Hx']%new_fresh. apply Hx'. by right.
  - intros n. rewrite <- app_assoc, elem_of_app. cbn. rewrite elem_of_cons, elem_of_app.
    intros [Hn|[->|[Hn|Hn]]]; [apply H2, elem_of_app; by left|apply H2, elem_of_app; right; left| |].
    + apply H2, elem_of_app. by right; right.
    + apply Hnew in Hn as [Hn _]. by eapply from_names.
  - intros n. rewrite Hdeg. by destruct (step_degree n) as [-> _].
  - intros n Hn. destruct (step_degree n) as [Hw _]. rewrite Hw, <- Hdeg, step_ready, H3, <- H4 by done.
    rewrite !elem_of_app, !elem_of_cons, elem_of_nil. tauto.
  - intros i n Hi d Hdn. apply lookup_app_Some in Hi as [Hi|[Hlen Hi]].
    + rewrite take_app_le by (apply lookup_lt_Some in Hi; lia). by eapply H5.
    + destruct (i - length V)%nat as [|k] eqn:Hk; [|by destruct k]. injection Hi as <-.
      assert (i = length V) as -> by lia. rewrite take_app_length. revert d Hdn. apply waiting_zero, H4.
      * apply H2, elem_of_app. right; left.
      * apply elem_of_app. right; left.
Qed.
End step.

(** The loop empties the queue within as many rounds as there are names. *)
Lemma drain_spec fuel V Q deg :
  draining V Q deg → (length (node_names nodes) ≤ fuel + length V)%nat →
  ∃ W deg', drain fuel (dg_graph (build_graph nodes)) deg Q (Z.of_nat (length V)) = Some (Z.of_nat (length W))
    ∧ draining W [] deg'.
Proof.
  revert V Q deg. induction fuel as [|fuel IH]; intros V Q deg Hd Hfuel; destruct Q as [|c Q].
  1, 3: by exists V, deg.
  - exfalso. pose proof (submseteq_length _ _ (NoDup_submseteq _ _ (dr_nodup _ _ _ Hd) (dr_names _ _ _ Hd))) as H.
    rewrite length_app in H. cbn in H. lia.
  - cbn [drain]. destruct build_describes as [_ Hsucc]. rewrite Hsucc.
    destruct (relax_all (from edges c) deg Q) as (deg' & new & -> & Hnd & Hdeg & Hnew).
    { intros n. by apply (step_degree V Q c deg Hd). }
    assert (Z.of_nat (length V) + 1 = Z.of_nat (length (V ++ [c]))) as ->.
    { rewrite length_app. cbn. lia. }
    apply IH; [|rewrite length_app; cbn; lia]. by apply draining_step with deg.
Qed.

(** The queue the loop starts with. *)
Lemma draining_start :
  draining [] (filter (λ n, degree (dg_in_degree (build_graph nodes)) n = 0) (node_names nodes))
    (dg_in_degree (build_graph nodes)).
Proof.
  destruct build_describes as [Hd _]. split; cbn.
  - apply NoDup_filter, NoDup_remove_dups.
  - by intros n [_ ?]%list_elem_of_filter.
  - exact Hd.
  - intros n Hn. rewrite list_elem_of_filter, Hd. tauto.
  - intros i n Hi. by rewrite lookup_nil in Hi.
Qed.

Lemma visited_spec :
  ∃ W deg, visited_nodes nodes = Some (Z.of_nat (length W)) ∧ draining W [] deg.
Proof. unfold visited_nodes. apply (drain_spec _ []); [apply draining_start|cbn; lia]. Qed.

Lemma missing_none :
  missing_dependencies nodes = [] ↔
  ∀ n d, n ∈ nodes → d ∈ wn_dependsOn n → d ∈ wn_name <$> nodes.
Proof.
  unfold missing_dependencies. generalize (wn_name <$> nodes) as names. intros names.
  induction nodes as [|w l IH]; cbn.
  - split; [|done]. by intros _ n d ?%elem_of_nil.
  - rewrite app_nil, IH. split.
    + intros [Hw%fmap_nil_inv Hl] n d [->|Hn]%elem_of_cons Hd; [|by eapply Hl].
      destruct (decide (d ∈ names)) as [?|Hno]; [done|]. exfalso.
      assert (d ∈ filter (λ d, d ∉ names) (wn_dependsOn w)) as Hf by (by apply list_elem_of_filter).
      rewrite Hw in Hf. by apply elem_of_nil in Hf.
    + intros H. split; [|intros n d Hn; apply H; by right]. rewrite filter_none; [done|]. intros d Hd Hno.
      apply Hno. eapply H; [left|exact Hd].
Qed.

(** C32: The check finds nothing exactly when every dependency is a node and the
    nodes have an order in which each follows its dependencies. *)
Theorem check_dag_exact :
  _check_dag nodes = [] ↔
  (∀ n d, n ∈ nodes → d ∈ wn_dependsOn n → d ∈ wn_name <$> nodes)
  ∧ ∃ order, order ≡ₚ node_names nodes ∧ topological order.
Proof.
  unfold _check_dag. destruct visited_spec as (W & deg & -> & [H1 H2 H3 H4 H5]).
  rewrite app_nil_r in H1, H2, H4. rewrite app_nil, missing_none.
  assert (W ⊆+ node_names nodes) as Hsub by (by apply NoDup_submseteq).
  split; intros [Hdeps H]; (split; [exact Hdeps|]).
  - destruct (Z.ltb_spec (Z.of_nat (length W)) (Z.of_nat (length (node_names nodes)))) as [Hlt|Hge]; [done|].
    exists W. split; [|exact H5]. apply submseteq_length_Permutation; [exact Hsub|lia].
  - destruct H as (order & Hperm & Htop).
    assert (∀ i n, order !! i = Some n → n ∈ W) as Hall.
    { intros i. induction (lt_wf i) as [i _ IH]. intros n Hi. apply H4.
      - rewrite <- Hperm. by eapply list_elem_of_lookup_2.
      - apply waiting_zero. intros d Hd. specialize (Htop i n Hi d Hd).
        apply elem_of_take in Htop as (j & Hj & Hlt). by eapply IH. }
    destruct (Z.ltb_spec (Z.of_nat (length W)) (Z.of_nat (length (node_names nodes)))) as [Hlt|Hge]; [|done].
    exfalso. assert (node_names nodes ⊆+ W) as Hsup.
    { apply NoDup_submseteq; [apply NoDup_remove_dups|]. intros n Hn. rewrite <- Hperm in Hn.
      apply list_elem_of_lookup in Hn as [i Hi]. by eapply Hall. }
    apply submseteq_length in Hsup. lia.
Qed.
End dag_facts.
