(* ===== verification/DevTasks.v ===== *)
(** * The tasks of the Dev agent

    The task aggregate ([core/domain/task.py], [lifecycle/task_lifecycle.py]),
    the tables ([models/dev.py]) and the repositories ([db/repository.py]) of
    [src/agents/dev_agent], in a world with the control plane's session, whose
    clock and identifiers it shares, and the calls made to the outside. *)

From S2P Require Import Prelude PyNum PyTime PyValue Models Store DevPlan.

(** ** The life of a task *)
Definition PENDING := "pending".
Definition PLANNING := "planning".
Definition AWAITING_APPROVAL := "awaiting_approval".
Definition EXECUTING := "executing".
Definition SECURITY_SCANNING := "security_scanning".
Definition MR_CREATING := "mr_creating".
Definition MR_CREATED := "mr_created".
Definition QA_TRIGGERED := "qa_triggered".
Definition REVIEWING := "reviewing".
Definition COMPLETED := "completed".
Definition FAILED := "failed".
Definition EXPIRED := "expired".

Definition TASK_TRANSITIONS : list (string * list string) := [
  (PENDING, [PLANNING; EXPIRED; FAILED]); (PLANNING, [AWAITING_APPROVAL; EXECUTING; FAILED]);
  (AWAITING_APPROVAL, [EXECUTING; FAILED]); (EXECUTING, [SECURITY_SCANNING; FAILED]);
  (SECURITY_SCANNING, [MR_CREATING; FAILED]); (MR_CREATING, [MR_CREATED; FAILED]);
  (MR_CREATED, [QA_TRIGGERED; FAILED]); (QA_TRIGGERED, [REVIEWING; FAILED]);
  (REVIEWING, [COMPLETED; FAILED]); (COMPLETED, []); (FAILED, [PLANNING]); (EXPIRED, [])].

Definition ACTIVE_STATUSES : list string :=
  [EXECUTING; SECURITY_SCANNING; MR_CREATING; MR_CREATED; QA_TRIGGERED; REVIEWING].
Definition IN_PROGRESS_STATUSES : list string := PLANNING :: AWAITING_APPROVAL :: ACTIVE_STATUSES.

(** [can_transition] of the lifecycle *)
Definition task_can_transition (from_ to_ : string) : bool :=
  bool_decide (to_ ∈ default [] (dict_get TASK_TRANSITIONS from_)).

Definition invalid_task_transition (task_id from_ to_ : string) : exn :=
  Exn "InvalidTaskTransitionError"
    ("illegal dev task transition task_id=" +:+ task_id +:+ " " +:+ from_ +:+ " -> " +:+ to_).

(** [Task(task_id, status).transition_to(new_status)]: the new status. *)
Definition task_transition (task_id status new : string) : result string :=
  _ ← raise_if (bool_decide (status ∉ TASK_TRANSITIONS.*1)) (value_error "unknown dev task status");
  _ ← raise_if (bool_decide (new ∉ TASK_TRANSITIONS.*1) || negb (task_can_transition status new))
        (invalid_task_transition task_id status new);
  Ok new.

(** ** Tables *)
Record DevTask := {
  dt_id : string; dt_wp_id : Z; dt_task_title : option string; dt_risk_level : string;
  dt_status : string; dt_workflow_id : option string; dt_mr_iid : option Z; dt_mr_url : option string;
  dt_retry_count : Z; dt_error_message : option string; dt_failed_step : option string;
  dt_workflow_started_at : option instant; dt_last_polled_at : option instant;
  dt_created_at : instant; dt_updated_at : instant }.

Record DevWorkflowLog := {
  wl_id : string; wl_task_id : string; wl_workflow_json : pydict; wl_created_at : instant }.

(** An integration event: its type, payload and trace. *)
Record dev_event := { de_type : string; de_payload : pydict; de_trace_id : option string }.

Record DevDB := { dv_tasks : list DevTask; dv_logs : list DevWorkflowLog; dv_outbox : list dev_event }.

(** The calls for a task that change something outside, in their order.  A run
    names the risk of the task's row. *)
Inductive dev_effect :=
  | CreateWorkflow (task_id : string)
  | RunWorkflow (task_id risk workflow_id : string)
  | Scan (task_id : string) (passed : bool)
  | MergeRequest (task_id source_branch : string).

Record World := {
  dw_db : DevDB; dw_control : Session; dw_effects : list dev_effect; dw_calls : nat }.

Definition with_dev (w : World) (d : DevDB) : World :=
  {| dw_db := d; dw_control := dw_control w; dw_effects := dw_effects w; dw_calls := dw_calls w |}.
Definition set_tasks (l : list DevTask) (d : DevDB) : DevDB :=
  {| dv_tasks := l; dv_logs := dv_logs d; dv_outbox := dv_outbox d |}.
Definition set_logs (l : list DevWorkflowLog) (d : DevDB) : DevDB :=
  {| dv_tasks := dv_tasks d; dv_logs := l; dv_outbox := dv_outbox d |}.

Definition update_dev (f : DevDB → DevDB) : M World unit := modifyM (λ w, with_dev w (f (dw_db w))).
Definition query_dev {A} (f : DevDB → A) : M World A := getsM (λ w, f (dw_db w)).
Definition did (e : dev_effect) : M World unit :=
  modifyM (λ w, {| dw_db := dw_db w; dw_control := dw_control w; dw_effects := dw_effects w ++ [e];
                   dw_calls := dw_calls w |}).
(** What the control plane does in its own session. *)
Definition on_control {A} (m : M Session A) : M World A := λ w,
  let '(r, s) := m (dw_control w) in
  (r, {| dw_db := dw_db w; dw_control := s; dw_effects := dw_effects w; dw_calls := dw_calls w |}).
(** A call to the outside: the answers come in the order of the calls. *)
Definition call {A} (answer : nat → result A) : M World A := λ w,
  (answer (dw_calls w),
   {| dw_db := dw_db w; dw_control := dw_control w; dw_effects := dw_effects w; dw_calls := S (dw_calls w) |}).

(** The unit of work: left without [commit], which every path that wrote
    reaches, it rolls back. *)
Definition in_dev_uow {A} (m : M World A) : M World A := λ w,
  match m w with
  | (Ok a, w') => (Ok a, w')
  | (Raise e, w') => (Raise e, with_dev w' (dw_db w))
  end.

Definition multiple_results : exn :=
  Exn "MultipleResultsFound" "Multiple rows were found when one or none was required".
(** [result.scalar_one_or_none()] *)
Definition scalar_one_or_none {A} (l : list A) : M World (option A) :=
  match l with
  | [] => mret None
  | [x] => mret (Some x)
  | _ => raiseM multiple_results
  end.

Section repository.
Context {E : Env}.

Definition dev_now : M World instant := on_control now_utc.

Definition get_by_wp_id (wp_id : Z) : M World (option DevTask) :=
  l ← query_dev (λ d, filter (λ t, dt_wp_id t = wp_id) (dv_tasks d)); scalar_one_or_none l.
Definition get_by_id (task_id : string) : M World (option DevTask) :=
  l ← query_dev (λ d, filter (λ t, dt_id t = task_id) (dv_tasks d)); scalar_one_or_none l.
Definition get_by_mr_iid (mr_iid : Z) : M World (option DevTask) :=
  l ← query_dev (λ d, filter (λ t, dt_mr_iid t = Some mr_iid) (dv_tasks d)); scalar_one_or_none l.

Definition new_task (id_ : string) (wp_id : Z) (title : string) (risk : RiskLevel) (created updated : instant)
    : DevTask := {|
  dt_id := id_; dt_wp_id := wp_id; dt_task_title := Some title; dt_risk_level := RiskLevel_value risk;
  dt_status := PENDING; dt_workflow_id := None; dt_mr_iid := None; dt_mr_url := None; dt_retry_count := 0;
  dt_error_message := None; dt_failed_step := None; dt_workflow_started_at := None;
  dt_last_polled_at := None; dt_created_at := created; dt_updated_at := updated |}.

(** [ON CONFLICT (wp_id) DO NOTHING] *)
Definition create_task (wp_id : Z) (title : string) (risk : RiskLevel) : M World (option DevTask) :=
  id_ ← on_control (generate_id "dev");
  created ← dev_now;
  updated ← dev_now;
  taken ← query_dev (λ d, bool_decide (wp_id ∈ dt_wp_id <$> dv_tasks d));
  if (taken : bool) then mret None
  else
    l ← query_dev dv_tasks;
    _ ← raise_ifM (bool_decide (id_ ∈ dt_id <$> l)) (integrity_error "dev_agent_tasks");
    _ ← update_dev (set_tasks (l ++ [new_task id_ wp_id title risk created updated]));
    get_by_wp_id wp_id.

(** The row with its new status, [updated_at] and keyword columns. *)
Definition with_task_status (new : string) (now : instant) (t : DevTask) : DevTask := {|
  dt_id := dt_id t; dt_wp_id := dt_wp_id t; dt_task_title := dt_task_title t;
  dt_risk_level := dt_risk_level t; dt_status := new; dt_workflow_id := dt_workflow_id t;
  dt_mr_iid := dt_mr_iid t; dt_mr_url := dt_mr_url t; dt_retry_count := dt_retry_count t;
  dt_error_message := dt_error_message t; dt_failed_step := dt_failed_step t;
  dt_workflow_started_at := dt_workflow_started_at t; dt_last_polled_at := dt_last_polled_at t;
  dt_created_at := dt_created_at t; dt_updated_at := now |}.

(** The keyword arguments of [update_status]. *)
Record task_changes := {
  tc_workflow : option (string * instant); tc_mr : option (Z * string); tc_retry_count : option Z;
  tc_error_message : option string; tc_failed_step : option string }.
Definition no_changes : task_changes :=
  {| tc_workflow := None; tc_mr := None; tc_retry_count := None; tc_error_message := None;
     tc_failed_step := None |}.
Definition failing (message : string) (step : option string) : task_changes :=
  {| tc_workflow := None; tc_mr := None; tc_retry_count := None; tc_error_message := Some message;
     tc_failed_step := step |}.

Definition or_else {A} (new : option A) (old : option A) : option A :=
  match new with Some x => Some x | None => old end.
Definition with_changes (c : task_changes) (t : DevTask) : DevTask := {|
  dt_id := dt_id t; dt_wp_id := dt_wp_id t; dt_task_title := dt_task_title t;
  dt_risk_level := dt_risk_level t; dt_status := dt_status t;
  dt_workflow_id := or_else (fst <$> tc_workflow c) (dt_workflow_id t);
  dt_mr_iid := or_else (fst <$> tc_mr c) (dt_mr_iid t); dt_mr_url := or_else (snd <$> tc_mr c) (dt_mr_url t);
  dt_retry_count := default (dt_retry_count t) (tc_retry_count c);
  dt_error_message := or_else (tc_error_message c) (dt_error_message t);
  dt_failed_step := or_else (tc_failed_step c) (dt_failed_step t);
  dt_workflow_started_at := or_else (snd <$> tc_workflow c) (dt_workflow_started_at t);
  dt_last_polled_at := dt_last_polled_at t; dt_created_at := dt_created_at t;
  dt_updated_at := dt_updated_at t |}.

Definition write_task (task_id : string) (f : DevTask → DevTask) : M World unit :=
  update_dev (λ d, set_tasks ((λ t, if decide (dt_id t = task_id) then f t else t) <$> dv_tasks d) d).

(** An illegal move is logged and refused. *)
Definition update_status (task_id new : string) (changes : task_changes) : M World bool :=
  task_ ← get_by_id task_id;
  match task_ with
  | None => mret false
  | Some task =>
      match task_transition task_id (dt_status task) new with
      | Raise _ => mret false
      | Ok st =>
          now ← dev_now;
          _ ← write_task task_id (λ t, with_changes changes (with_task_status st now t));
          mret true
      end
  end.

Definition polled (at_ : instant) (t : DevTask) : DevTask := {|
  dt_id := dt_id t; dt_wp_id := dt_wp_id t; dt_task_title := dt_task_title t;
  dt_risk_level := dt_risk_level t; dt_status := dt_status t; dt_workflow_id := dt_workflow_id t;
  dt_mr_iid := dt_mr_iid t; dt_mr_url := dt_mr_url t; dt_retry_count := dt_retry_count t;
  dt_error_message := dt_error_message t; dt_failed_step := dt_failed_step t;
  dt_workflow_started_at := dt_workflow_started_at t; dt_last_polled_at := Some at_;
  dt_created_at := dt_created_at t; dt_updated_at := at_ |}.
Definition mark_polled (task_id : string) (at_ : instant) : M World bool :=
  task_ ← get_by_id task_id;
  match task_ with
  | None => mret false
  | Some _ => _ ← write_task task_id (polled at_); mret true
  end.

Definition list_active_tasks : M World (list DevTask) :=
  query_dev (λ d, filter (λ t, dt_status t ∈ ACTIVE_STATUSES) (dv_tasks d)).
(** The oldest first; the most recently changed failures first. *)
Definition oldest (status : string) (limit : Z) (l : list DevTask) : list DevTask :=
  take (Z.to_nat limit)
    (py_sorted (λ a b, dt_created_at a <=? dt_created_at b) (filter (λ t, dt_status t = status) l)).
Definition list_pending_tasks (limit : Z) : M World (list DevTask) :=
  query_dev (λ d, oldest PENDING limit (dv_tasks d)).
Definition list_planning_tasks (limit : Z) : M World (list DevTask) :=
  query_dev (λ d, oldest PLANNING limit (dv_tasks d)).
Definition list_failed_tasks : M World (list DevTask) :=
  query_dev (λ d, take 50 (py_sorted (λ a b, dt_updated_at b <=? dt_updated_at a)
                             (filter (λ t, dt_status t = FAILED) (dv_tasks d)))).
Definition in_progress (l : list DevTask) : Z :=
  Z.of_nat (length (filter (λ t, dt_status t ∈ IN_PROGRESS_STATUSES) l)).
Definition count_active_workflows : M World Z := query_dev (λ d, in_progress (dv_tasks d)).

Definition stale (cutoff : instant) (t : DevTask) : bool :=
  bool_decide (dt_status t = PENDING) && (dt_created_at t <? cutoff).
(** Expires the pending tasks older than [hours]; how many there were. *)
Definition expire_stale_pending (hours : Z) : M World Z :=
  t0 ← dev_now;
  let cutoff := t0 - hours * us_per_hour in
  l ← query_dev dv_tasks;
  now ← dev_now;
  let expires t := stale cutoff t && match task_transition (dt_id t) (dt_status t) EXPIRED with
                                     | Ok _ => true | Raise _ => false end in
  _ ← update_dev (set_tasks ((λ t, if expires t : bool then with_task_status EXPIRED now t else t) <$> l));
  mret (Z.of_nat (length (filter (λ t, expires t = true) l))).

(** ** Workflow logs *)
Definition create_log (task_id : string) (workflow_json : pydict) : M World unit :=
  id_ ← on_control (generate_id "dwl");
  now ← dev_now;
  update_dev (λ d, set_logs (dv_logs d ++ [{| wl_id := id_; wl_task_id := task_id;
                      wl_workflow_json := workflow_json; wl_created_at := now |}]) d).

(** Ordered by [created_at], newest first, without a limit, and read as the only
    row. *)
Definition get_by_task_id (task_id : string) : M World (option DevWorkflowLog) :=
  l ← query_dev (λ d, py_sorted (λ a b, wl_created_at b <=? wl_created_at a)
                        (filter (λ r, wl_task_id r = task_id) (dv_logs d)));
  scalar_one_or_none l.
End repository.
