(* ===== verification/DevWorkflow.v ===== *)
(** * What the Dev agent does with its tasks

    Below [src/agents/dev_agent]: planning and running a workflow
    ([core/workflow_planner.py], [core/workflow_execution_use_cases.py]), the
    events and requests ([core/event_use_cases.py], [core/request_use_cases.py]),
    the collection of results ([core/result_collector.py],
    [core/security_scanner.py]) and the reconciliation loop ([app/main.py],
    [core/scheduler_use_cases.py]).  The language model, AgentForge, GitLab, the
    scanning tools, JSON and Pydantic are the class [DevPorts]; a notification
    never fails ([core/notifier.py] catches everything) and is left out. *)

From S2P Require Import Prelude PyNum PyTime PyValue Models Store ApprovalGate DevPlan DevTasks.

(** How a scanning tool ended. *)
Inductive tool_outcome :=
  | Exited (code : Z) (stdout : string)
  | NotInstalled
  | TimedOut
  | Broken (e : exn).

Class DevPorts := {
  dp_complete : nat → TaskInput → result string;
  dp_json_loads : string → option pyval;
  dp_task_input : pydict → result TaskInput;
  dp_sanitized_task : pyval → result TaskInput;
  dp_workflow_plan : pyval → result WorkflowPlan;
  dp_forge : bool;
  dp_create_workflow : nat → WorkflowPlan → result string;
  dp_run_workflow : nat → string → result unit;
  dp_get_status : nat → string → result pydict;
  dp_gitlab : bool;
  dp_check_existing_mr : nat → string → result (option (Z * string));
  dp_create_mr : nat → string → string → string → result (Z * string);
  dp_tool : nat → list string → tool_outcome;
  dp_reconcile_lock : nat → bool;
  dp_max_concurrent : Z;
  dp_agentforge_project_id : string;
  dp_gitlab_project_id : string;
  dp_gate : ApprovalGateService;
  dp_gate_settings : gate_settings;
  dp_run_context : option ControlPlaneRunContext }.

(** [str(exc)] *)
Definition exn_str (e : exn) : string :=
  match e with Exn _ m | ExecutionDenied m _ | AgentWakeupError m _ _ => m end.
Definition exn_class (e : exn) : string :=
  match e with
  | Exn c _ => c | ExecutionDenied _ _ => "ExecutionDenied" | AgentWakeupError _ _ _ => "AgentWakeupError"
  end.

(** The results of [f], a failure of which is logged and gives none. *)
Fixpoint gather {A B} (f : A → M World (list B)) (l : list A) : M World (list B) :=
  match l with
  | [] => mret []
  | x :: l' =>
      y ← catchM (f x) (λ _, mret []);
      ys ← gather f l';
      mret (y ++ ys)
  end.

(** The results of [f], an exception of which is not caught. *)
Fixpoint gather_all {A B} (f : A → M World (list B)) (l : list A) : M World (list B) :=
  match l with
  | [] => mret []
  | x :: l' => y ← f x; ys ← gather_all f l'; mret (y ++ ys)
  end.

(** The row, when there is one and it passes the test. *)
Definition only {A} (p : A → bool) (o : option A) : option A :=
  match o with Some x => if p x then Some x else None | None => None end.

(** ** Planning *)
Definition fence : string := "```".

Fixpoint split_at_first (p s : string) : option (string * string) :=
  if str_startswith p s then Some ("", str_drop (String.length p) s)
  else match s with
       | EmptyString => None
       | String c s' => prod_map (String c) id <$> split_at_first p s'
       end.
(** The first group of [_FENCE_PATTERN], stripped. *)
Definition fenced (raw : string) : option string :=
  match split_at_first fence raw with
  | None => None
  | Some (_, rest) =>
      let rest := if str_startswith "json" rest then str_drop 4 rest else rest in
      strip ∘ fst <$> split_at_first fence rest
  end.
(** From the first opening to the last closing brace after it. *)
Fixpoint up_to_last_brace (s : string) : option string :=
  match s with
  | EmptyString => None
  | String c s' =>
      match up_to_last_brace s' with
      | Some t => Some (String c t)
      | None => if Ascii.eqb c "}" then Some (String c "") else None
      end
  end.
Fixpoint braced (s : string) : option string :=
  match s with
  | EmptyString => None
  | String c s' => if Ascii.eqb c "{" then String c <$> up_to_last_brace s' else braced s'
  end.

Section workflow.
Context {E : Env} {P : DevPorts}.

Definition extract_json (raw : string) : option pyval :=
  if str_empty (strip raw) then None
  else match dp_json_loads (strip raw) with
  | Some v => Some v
  | None =>
      match fenced raw ≫= dp_json_loads with
      | Some v => Some v
      | None => braced raw ≫= dp_json_loads
      end
  end.

(** [WorkflowPlanner.plan]: a failure of any kind gives no plan. *)
Definition plan_task (task : TaskInput) : M World (option WorkflowPlan) :=
  catchM (raw ← call (λ k, dp_complete k task);
          match extract_json raw with
          | None => mret None
          | Some PNone => mret None
          | Some v => p ← liftM (dp_workflow_plan v); mret (Some p)
          end)
    (λ _, mret None).

Definition with_config (f : pydict → pydict) (n : WorkflowNode) : WorkflowNode :=
  {| wn_name := wn_name n; wn_type := wn_type n; wn_dependsOn := wn_dependsOn n; wn_config := f (wn_config n) |}.
Definition with_nodes (l : list WorkflowNode) (p : WorkflowPlan) : WorkflowPlan :=
  {| wp_name := wp_name p; wp_description := wp_description p; wp_nodes := l; wp_metadata := wp_metadata p |}.

Definition inject_project_id (p : WorkflowPlan) : WorkflowPlan :=
  let project := strip dp_agentforge_project_id in
  if str_empty project then p
  else with_nodes (with_config (λ c, dict_set c "projectId" (PStr project)) <$> wp_nodes p) p.

(** [node.config["cliTool"] = router.route(node)] *)
Definition assign_tool (n : WorkflowNode) : result WorkflowNode :=
  tool ← route n;
  Ok (with_config (λ c, dict_set c "cliTool" (PStr tool)) n).

(** [model_dump] *)
Definition task_dump (t : TaskInput) : pyval := PDict [
  ("title", PStr (ti_title t)); ("description", PStr (ti_description t));
  ("estimated_hours", PFloat (ti_estimated_hours t)); ("wp_id", PInt (ti_wp_id t));
  ("parent_story", PStr (ti_parent_story t)); ("related_files", PList (PStr <$> ti_related_files t));
  ("risk_level", PStr (RiskLevel_value (ti_risk_level t)))].
Definition node_dump (n : WorkflowNode) : pyval := PDict [
  ("name", PStr (wn_name n)); ("type", PStr (wn_type n));
  ("dependsOn", PList (PStr <$> wn_dependsOn n)); ("config", PDict (wn_config n))].
Definition plan_dump (p : WorkflowPlan) : pydict := [
  ("name", PStr (wp_name p)); ("description", PStr (wp_description p));
  ("nodes", PList (node_dump <$> wp_nodes p))].
(** The trace that is kept with a log, when there is one. *)
Definition trace_metadata (trace_id : option string) : pydict :=
  if truthy trace_id then [("metadata", PDict [("trace_id", PStr (str_or_empty trace_id))])] else [].

(** ** Running a workflow *)
Definition is_forge_error (e : exn) : bool := bool_decide (exn_class e = "ForgeClientError").

Definition workflow_created (task_id workflow_id : string) (p : WorkflowPlan) (trace_id : option string)
    : dev_event := {|
  de_type := "dev.workflow-created";
  de_payload := [("task_id", PStr task_id); ("workflow_id", PStr workflow_id);
                 ("node_count", PInt (Z.of_nat (length (wp_nodes p))))];
  de_trace_id := trace_id |}.

Definition running (workflow_id : string) (started : instant) : task_changes :=
  {| tc_workflow := Some (workflow_id, started); tc_mr := None; tc_retry_count := None;
     tc_error_message := None; tc_failed_step := None |}.

Definition execute_workflow (plan : WorkflowPlan) (task : DevTask) (trace_id : option string)
    : M World (list dev_event) :=
  if negb dp_forge then mret []
  else catchM
    (let plan := inject_project_id plan in
     _ ← did (CreateWorkflow (dt_id task));
     workflow_id ← call (λ k, dp_create_workflow k plan);
     _ ← did (RunWorkflow (dt_id task) (dt_risk_level task) workflow_id);
     _ ← call (λ k, dp_run_workflow k workflow_id);
     started ← dev_now;
     _ ← update_status (dt_id task) EXECUTING (running workflow_id started);
     mret [workflow_created (dt_id task) workflow_id plan trace_id])
    (λ e, _ ← raise_ifM (negb (is_forge_error e)) e;
          _ ← update_status (dt_id task) FAILED (failing (exn_str e) None);
          mret []).

Definition approval_args (sanitized : TaskInput) (task_id : string) (nodes : nat) : approval_request_args := {|
  aq_company_id := ""; aq_category := ApprovalCategory_TECHNICAL; aq_requested_by := "";
  aq_source_agent_id := "";
  aq_proposed_action := "Start high-risk AgentForge workflow for WP#" +:+ pretty (ti_wp_id sanitized);
  aq_reason := ti_title sanitized;
  aq_risk := "HIGH risk dev task will create and run an AgentForge workflow with " +:+ pretty nodes +:+ " nodes.";
  aq_rollback_note := "Cancel or mark the dev task failed before external workflow execution.";
  aq_affected_resources := ["dev_task:" +:+ task_id; "openproject:wp:" +:+ pretty (ti_wp_id sanitized);
                            "agentforge:workflow"];
  aq_artifact_links := []; aq_run_id := None; aq_work_item_id := None; aq_goal_id := None;
  aq_trace_id := None |}.

Definition request_workflow_approval (sanitized : TaskInput) (task_id : string) (plan : WorkflowPlan)
    : M World (option string) :=
  catchM (r ← on_control (service_request_approval dp_gate_settings dp_gate dp_run_context None None
                            (approval_args sanitized task_id (length (wp_nodes plan))));
          mret (approval_id <$> r))
    (λ e, _ ← raise_ifM (service_enforced dp_gate_settings dp_gate) e; mret None).

Definition plan_and_execute (sanitized : TaskInput) (task : DevTask) (risk : RiskLevel)
    (trace_id : option string) : M World (list dev_event) :=
  let task_id := dt_id task in
  _ ← update_status task_id PLANNING no_changes;
  plan_ ← plan_task sanitized;
  match plan_ with
  | None => _ ← update_status task_id FAILED (failing "Workflow planning failed" None); mret []
  | Some plan =>
      let plan := inject_project_id plan in
      violations ← liftM (validate plan);
      if negb (bool_decide (violations = [])) then
        _ ← update_status task_id FAILED (failing ("Validation: " +:+ str_join "; " violations) None);
        mret []
      else
        nodes ← liftM (mapR assign_tool (wp_nodes plan));
        let plan := with_nodes nodes plan in
        let plan_json := plan_dump plan ++ trace_metadata trace_id in
        approval ← (if requires_workflow_approval risk
                    then request_workflow_approval sanitized task_id plan else mret None);
        _ ← create_log task_id
              (plan_json ++ (if truthy approval
                             then [("control_plane_approval_id", PStr (str_or_empty approval))] else []));
        if requires_workflow_approval risk then
          _ ← update_status task_id AWAITING_APPROVAL no_changes; mret []
        else execute_workflow plan task trace_id
  end.

Definition process_single_task (sanitized : TaskInput) (risk : RiskLevel) (trace_id : option string)
    : M World (list dev_event) :=
  task_ ← create_task (ti_wp_id sanitized) (ti_title sanitized) risk;
  match task_ with
  | None => mret []
  | Some task =>
      _ ← create_log (dt_id task) (("task_input", task_dump sanitized) :: trace_metadata trace_id);
      active ← count_active_workflows;
      if negb (active <? dp_max_concurrent) then mret []
      else plan_and_execute sanitized task risk trace_id
  end.

(** ** Results *)
Record scan_report := { sr_passed : bool; sr_issues : list string }.
Definition add_issue (issue : string) (r : scan_report) : scan_report :=
  {| sr_passed := false; sr_issues := sr_issues r ++ [issue] |}.

Definition audit_issues (o : tool_outcome) (r : scan_report) : result scan_report :=
  match o with
  | Exited code stdout =>
      Ok (if code =? 0 then r else add_issue ("pip-audit: " +:+ str_take 500 stdout) r)
  | NotInstalled => Ok (add_issue "pip-audit not installed - security scan skipped" r)
  | TimedOut => Ok (add_issue "pip-audit timed out - treating as failure" r)
  | Broken e => Raise e
  end.
Definition secret_issues (o : tool_outcome) (r : scan_report) : result scan_report :=
  match o with
  | Exited code stdout =>
      let output := str_take 500 stdout in
      Ok (if negb (code =? 0) && (str_contains "secret" (lower output) || str_contains "potential" (lower output))
          then add_issue ("detect-secrets: " +:+ output) r else r)
  | NotInstalled => Ok (add_issue "detect-secrets not installed - security scan skipped" r)
  | TimedOut => Ok (add_issue "detect-secrets timed out - treating as failure" r)
  | Broken e => Raise e
  end.
(** [SecurityScanner.scan] *)
Definition security_scan (workspace_path : string) : M World scan_report :=
  audit ← call (λ k, Ok (dp_tool k ["pip-audit"; "--strict"]));
  report ← liftM (audit_issues audit {| sr_passed := true; sr_issues := [] |});
  secrets ← call (λ k, Ok (dp_tool k ["detect-secrets"; "scan"; workspace_path]));
  liftM (secret_issues secrets report).

Definition _workflow_trace_id (task_id : string) : M World (option string) :=
  log_ ← get_by_task_id task_id;
  mret (match log_ with
        | None => None
        | Some l => match dget (wl_workflow_json l) "metadata" with
                    | PDict m => match dget m "trace_id" with
                                 | PStr s => if str_empty s then None else Some s
                                 | _ => None
                                 end
                    | _ => None
                    end
        end).

Definition _WORKSPACE_PATH_KEYS : list string :=
  ["workspace_path"; "workspacePath"; "worktree_path"; "worktreePath"; "working_directory"; "workingDirectory"].
Definition path_in (section : pyval) : option string :=
  match section with
  | PDict d => head (omap (λ k, match dget d k with
                                | PStr s => if str_empty (strip s) then None else Some (strip s)
                                | _ => None
                                end) _WORKSPACE_PATH_KEYS)
  | _ => None
  end.
Definition _resolve_workspace_path (status : pydict) : string :=
  default "." (head (omap path_in (PDict status ::
    ((λ k, default (PDict []) (dict_get status k)) <$> ["workflow"; "result"; "execution"; "metadata"])))).

Definition replace_dash (by_ : ascii) (s : string) : string :=
  string_of_list_ascii ((λ c, if Ascii.eqb c "-" then by_ else c) <$> list_ascii_of_string s).
Definition agent_names : list string :=
  ["chat-agent"; "pjm-agent"; "sync-module"; "analysis-module"; "requirement-manager"; "evolution-module";
   "qa-agent"; "dev-agent"].
Definition _infer_agent_name (task : DevTask) : string :=
  let title := lower (str_or_empty (dt_task_title task)) in
  default "dev-agent" (find (λ n, str_contains (replace_dash "_" n) title
                                  || str_contains (replace_dash " " n) title) agent_names).

Definition merge_request (mr : Z * string) : task_changes :=
  {| tc_workflow := None; tc_mr := Some mr; tc_retry_count := None; tc_error_message := None;
     tc_failed_step := None |}.
Definition retrying (count : Z) : task_changes :=
  {| tc_workflow := None; tc_mr := None; tc_retry_count := Some count; tc_error_message := None;
     tc_failed_step := None |}.

Definition qa_run_requested (task : DevTask) (iid : Z) (trace_id : option string) : dev_event := {|
  de_type := "qa.run-requested";
  de_payload := [("agent_name", PStr (_infer_agent_name task)); ("level", PStr "all"); ("mr_iid", PInt iid);
                 ("gitlab_project_id", PStr dp_gitlab_project_id); ("requested_by", PStr "dev-agent")];
  de_trace_id := trace_id |}.
Definition mr_created (task : DevTask) (branch url : string) (trace_id : option string) : dev_event := {|
  de_type := "dev.mr-created";
  de_payload := [("mr_url", PStr url); ("wp_id", PInt (dt_wp_id task)); ("branch", PStr branch);
                 ("risk_level", PStr (if str_empty (dt_risk_level task) then "MEDIUM" else dt_risk_level task))];
  de_trace_id := trace_id |}.

Definition source_branch (task : DevTask) : string := "dev/wp-" +:+ pretty (dt_wp_id task).
Definition mr_title (task : DevTask) : string :=
  "[DevAgent] " +:+ (if truthy (dt_task_title task) then str_or_empty (dt_task_title task)
                     else "WP#" +:+ pretty (dt_wp_id task)).
Definition mr_description (task : DevTask) : string :=
  "Auto-generated by dev_agent" +:+ newline +:+ newline
  +:+ "- OP Work Package: #" +:+ pretty (dt_wp_id task) +:+ newline
  +:+ "- Risk Level: " +:+ dt_risk_level task +:+ newline +:+ newline
  +:+ "## Security Checklist" +:+ newline +:+ "- [ ] New dependency review" +:+ newline
  +:+ "- [ ] Secret/credential leak check" +:+ newline.

(** The open merge request of the branch, or a new one. *)
Definition open_merge_request (task : DevTask) : M World (Z * string) :=
  existing ← call (λ k, dp_check_existing_mr k (source_branch task));
  match existing with
  | Some mr => mret mr
  | None =>
      _ ← did (MergeRequest (dt_id task) (source_branch task));
      call (λ k, dp_create_mr k (source_branch task) (mr_title task) (mr_description task))
  end.

Definition handle_completion (task : DevTask) (status : pydict) : M World (list dev_event) :=
  let task_id := dt_id task in
  trace_id ← _workflow_trace_id task_id;
  _ ← update_status task_id SECURITY_SCANNING no_changes;
  report ← security_scan (_resolve_workspace_path status);
  _ ← did (Scan task_id (sr_passed report));
  if negb (sr_passed report) then
    _ ← update_status task_id FAILED
          (failing ("Security scan failed: " +:+ str_join "; " (sr_issues report)) (Some "security_scanning"));
    mret []
  else
    _ ← update_status task_id MR_CREATING no_changes;
    mr ← tryM (mr ← open_merge_request task;
               _ ← update_status task_id MR_CREATED (merge_request mr);
               mret mr);
    match mr with
    | Raise e => _ ← update_status task_id FAILED (failing (exn_str e) (Some "mr_creating")); mret []
    | Ok (iid, url) =>
        _ ← update_status task_id QA_TRIGGERED no_changes;
        _ ← update_status task_id REVIEWING no_changes;
        mret [qa_run_requested task iid trace_id; mr_created task (source_branch task) url trace_id]
    end.

(** [is_qa_acceptance_passed] of [src/shared/core/qa_acceptance.py] *)
Definition is_qa_acceptance_passed (summary : pydict) : bool :=
  bool_decide (py_str (default (PStr "ERROR") (dict_get summary "l0_gate")) = "PASS").
(** [timedelta.total_seconds] *)
Definition total_seconds (us : Z) : float :=
  match us with
  | 0 => f_zero
  | Zpos p => float_of_ratio false p 1000000
  | Zneg p => float_of_ratio true p 1000000
  end.

Definition task_completed (task : DevTask) (duration : float) (trace_id : option string) : dev_event := {|
  de_type := "dev.task-completed";
  de_payload := [("wp_id", PInt (dt_wp_id task)); ("mr_url", PStr (str_or_empty (dt_mr_url task)));
                 ("duration_s", PFloat duration)];
  de_trace_id := trace_id |}.
Definition task_failed (wp_id : pyval) (error failed_node : string) (trace_id : option string) : dev_event := {|
  de_type := "dev.task-failed";
  de_payload := [("wp_id", wp_id); ("error", PStr error); ("failed_node", PStr failed_node);
                 ("runbook_url", PStr "")];
  de_trace_id := trace_id |}.

(** [qa_retry_decision], with its default of one retry *)
Definition should_retry (retry_count : Z) : bool := retry_count <? 1.

Definition handle_qa_result (task : DevTask) (payload : pydict) : M World (list dev_event) :=
  let task_id := dt_id task in
  summary ← liftM (as_pydict (default (PDict []) (dict_get payload "summary")));
  trace_id ← _workflow_trace_id task_id;
  if is_qa_acceptance_passed summary then
    _ ← update_status task_id COMPLETED no_changes;
    now ← dev_now;
    mret [task_completed task (total_seconds (now - dt_created_at task)) trace_id]
  else if should_retry (dt_retry_count task) then
    _ ← update_status task_id FAILED (failing "QA L0 failed" (Some "qa"));
    _ ← update_status task_id PLANNING (retrying (dt_retry_count task + 1));
    mret []
  else
    _ ← update_status task_id FAILED (failing "QA failed after retry" (Some "qa"));
    mret [task_failed (PInt (dt_wp_id task)) "QA failed after retry" "qa" trace_id].

(** ** Events *)
Record incoming := { ie_type : string; ie_payload : pydict; ie_trace_id : option string }.

Definition with_risk (r : RiskLevel) (t : TaskInput) : TaskInput := {|
  ti_title := ti_title t; ti_description := ti_description t; ti_estimated_hours := ti_estimated_hours t;
  ti_wp_id := ti_wp_id t; ti_parent_story := ti_parent_story t; ti_related_files := ti_related_files t;
  ti_risk_level := r |}.

Definition read_task (wp_id data : pyval) : result TaskInput :=
  d ← as_pydict data;
  let field k v := (k, default v (dict_get d k)) in
  dp_task_input [field "title" (PStr ""); field "description" (PStr ""); field "estimated_hours" (PInt 8);
                 ("wp_id", default wp_id (dict_get d "id")); field "parent_story" (PStr "");
                 field "related_files" (PList [])].

(** What the first loop makes of one task: the events it reports and the task
    it accepts. *)
Definition admit_task (wp_id : pyval) (trace_id : option string) (data : pyval)
    : list dev_event * list TaskInput :=
  match t ← read_task wp_id data; sanitize t with
  | Raise e =>
      if bool_decide (exn_class e = "InputRejectedError") then ([], [])
      else ([task_failed wp_id (exn_str e) "" trace_id], [])
  | Ok sanitized =>
      let risk := assess sanitized in
      if rejects_automatic_delivery risk
      then ([task_failed (PInt (ti_wp_id sanitized)) "CRITICAL risk - requires human implementation" ""
               trace_id], [])
      else ([], [with_risk risk sanitized])
  end.

Definition _handle_tasks_ready (event : incoming) : M World (list dev_event) :=
  let wp_id := dget (ie_payload event) "wp_id" in
  tasks ← liftM (py_iter (default (PList []) (dict_get (ie_payload event) "tasks")));
  let admitted := admit_task wp_id (ie_trace_id event) <$> tasks in
  let reported := concat admitted.*1 in
  let accepted := concat admitted.*2 in
  if bool_decide (length accepted = 0%nat) then mret reported
  else
    started ← in_dev_uow (gather (λ t, process_single_task t (ti_risk_level t) (ie_trace_id event)) accepted);
    mret (reported ++ started).

Definition _handle_qa_result (event : incoming) : M World (list dev_event) :=
  match dget (ie_payload event) "mr_iid" with
  | PNone => mret []
  | PInt iid =>
      in_dev_uow
        (task_ ← get_by_mr_iid iid;
         match task_ with
         | None => mret []
         | Some task =>
             if negb (bool_decide (dt_status task = REVIEWING)) || negb dp_gitlab then mret []
             else handle_qa_result task (ie_payload event)
         end)
  | _ => raiseM (Exn "DBAPIError" "invalid input for query argument")
  end.

Definition handle_event (event : incoming) : M World (list dev_event) :=
  if bool_decide (ie_type event = "pm.tasks-ready-for-dev") then _handle_tasks_ready event
  else if bool_decide (ie_type event = "qa.acceptance-completed") then _handle_qa_result event
  else mret [].

(** ** The reconciliation loop *)
Definition us_per_minute : Z := 60 * us_per_second.
(** [None]: the workflow has run for too long. *)
Definition workflow_poll_interval (elapsed : Z) : option Z :=
  if elapsed <? 10 * us_per_minute then Some (30 * us_per_second)
  else if elapsed <? 2 * us_per_hour then Some (2 * us_per_minute)
  else if elapsed <? 6 * us_per_hour then Some (5 * us_per_minute)
  else None.

Definition stage (events : list dev_event) : M World unit :=
  update_dev (λ d, {| dv_tasks := dv_tasks d; dv_logs := dv_logs d; dv_outbox := dv_outbox d ++ events |}).

(** Asks AgentForge and collects the result of a finished workflow. *)
Definition collect (task : DevTask) (workflow_id : string) : M World (list dev_event) :=
  if negb dp_forge then mret []
  else
    status ← call (λ k, dp_get_status k workflow_id);
    workflow ← liftM (as_pydict (default (PDict []) (dict_get status "workflow")));
    let wf_status := py_or (dget workflow "status") (default (PStr "") (dict_get status "status")) in
    if negb (existsb (λ s, match wf_status with PStr t | PEnum t => String.eqb s t | _ => false end)
               ["completed"; "finished"; "done"]) then mret []
    else if dp_gitlab then
      events ← handle_completion task status;
      _ ← stage events;
      mret events
    else _ ← update_status (dt_id task) SECURITY_SCANNING no_changes; mret [].

Definition poll_task (now : instant) (task : DevTask) : M World (list dev_event) :=
  match dt_workflow_id task, dt_workflow_started_at task with
  | Some workflow_id, Some started =>
      if str_empty workflow_id || negb (bool_decide (dt_status task = EXECUTING)) then mret []
      else match workflow_poll_interval (now - started) with
           | None =>
               _ ← update_status (dt_id task) FAILED
                     (failing "Workflow execution timed out (>6h)" (Some "timeout"));
               mret []
           | Some min_interval =>
               if now - default started (dt_last_polled_at task) <? min_interval then mret []
               else
                 _ ← mark_polled (dt_id task) now;
                 catchM (collect task workflow_id) (λ _, mret [])
           end
  | _, _ => mret []
  end.

(** The task as the log kept it, or what its row still says. *)
Definition restore_task (task : DevTask) (log_ : option DevWorkflowLog) : result TaskInput :=
  let data := match log_ with Some l => dget (wl_workflow_json l) "task_input" | None => PNone end in
  if py_bool data then dp_sanitized_task data
  else
    risk ← (if str_empty (dt_risk_level task) then Ok RiskLevel_MEDIUM else risk_of_value (dt_risk_level task));
    dp_sanitized_task (PDict [("title", PStr (str_or_empty (dt_task_title task))); ("description", PStr "");
                              ("estimated_hours", PInt 8); ("wp_id", PInt (dt_wp_id task));
                              ("risk_level", PEnum (RiskLevel_value risk))]).

Definition _start_pending_task (task : DevTask) : M World (list dev_event) :=
  log_ ← get_by_task_id (dt_id task);
  sanitized ← liftM (restore_task task log_);
  plan_and_execute sanitized task (ti_risk_level sanitized) None.

Definition start_and_stage (task : DevTask) : M World (list dev_event) :=
  events ← _start_pending_task task;
  _ ← stage events;
  mret events.

(** Starts tasks of [candidates], which is asked for as many as there are free
    slots. *)
Definition fill_slots (candidates : Z → M World (list DevTask)) (wanted : DevTask → bool)
    : M World (list dev_event) :=
  active ← count_active_workflows;
  if active <? dp_max_concurrent then
    tasks ← candidates (dp_max_concurrent - active);
    gather start_and_stage (filter (λ t, wanted t = true) tasks)
  else mret [].

Definition reconcile_body : M World (list dev_event) :=
  active ← list_active_tasks;
  now ← dev_now;
  collected ← gather_all (poll_task now) active;
  started ← fill_slots list_pending_tasks (λ _, true);
  retried ← fill_slots list_planning_tasks (λ t, 0 <? dt_retry_count t);
  mret (collected ++ started ++ retried).

(** The staged events, which are then published. *)
Definition _reconcile : M World (list dev_event) :=
  catchM
    (in_dev_uow
       (locked ← call (λ k, Ok (dp_reconcile_lock k));
        if locked : bool then reconcile_body else mret []))
    (λ _, mret []).

Definition _expire_stale : M World unit :=
  catchM (_ ← in_dev_uow (expire_stale_pending 24); mret ()) (λ _, mret ()).

(** ** Requests *)
Definition is_none (v : pyval) : bool := match v with PNone => true | _ => false end.
Definition request_error (message error_code : string) (extra : pydict) : pydict :=
  dict_update [("error", PStr message); ("error_code", PStr error_code)]
    (filter (λ kv, is_none kv.2 = false) extra).

Definition opt_str (o : option string) : pyval := match o with Some s => PStr s | None => PNone end.

Definition _get_task_status (request : pydict) : M World pydict :=
  let wp_id := dget request "wp_id" in
  if negb (py_bool wp_id) then mret (request_error "wp_id required" "wp_id_required" [])
  else
    n ← liftM (py_int wp_id);
    task_ ← get_by_wp_id n;
    mret (match task_ with
          | None => request_error ("Task not found for wp_id=" +:+ py_str wp_id) "dev_task_not_found"
                      [("wp_id", wp_id)]
          | Some t => [("wp_id", PInt (dt_wp_id t)); ("status", PStr (dt_status t));
                       ("risk_level", PStr (dt_risk_level t)); ("workflow_id", opt_str (dt_workflow_id t));
                       ("mr_url", opt_str (dt_mr_url t)); ("retry_count", PInt (dt_retry_count t));
                       ("error_message", opt_str (dt_error_message t));
                       ("created_at", PStr (isoformat " " (of_utc (dt_created_at t))))]
          end).

Definition _list_active_workflows : M World pydict :=
  tasks ← list_active_tasks;
  mret [("workflows", PList ((λ t, PDict [
          ("wp_id", PInt (dt_wp_id t)); ("status", PStr (dt_status t));
          ("workflow_id", opt_str (dt_workflow_id t)); ("risk_level", PStr (dt_risk_level t))]) <$> tasks))].
Definition _list_failed : M World pydict :=
  tasks ← list_failed_tasks;
  mret [("workflows", PList ((λ t, PDict [
          ("wp_id", PInt (dt_wp_id t)); ("status", PStr (dt_status t));
          ("error_message", opt_str (dt_error_message t)); ("failed_step", opt_str (dt_failed_step t));
          ("retry_count", PInt (dt_retry_count t))]) <$> tasks))].

Definition task_id_required : pydict := request_error "task_id required" "task_id_required" [].

Definition _retry_task (request : pydict) : M World pydict :=
  let task_id := dget request "task_id" in
  if negb (py_bool task_id) then mret task_id_required
  else
    task_ ← get_by_id (py_str task_id);
    match only (λ t, bool_decide (dt_status t = FAILED)) task_ with
    | None => mret (request_error "Task not found or not in failed state" "dev_task_not_retryable"
                      [("task_id", task_id)])
    | Some task =>
        success ← update_status (py_str task_id) PLANNING (retrying (dt_retry_count task + 1));
        mret [("success", PBool success); ("task_id", task_id)]
    end.

Definition _cancel_workflow (request : pydict) : M World pydict :=
  let task_id := dget request "task_id" in
  if negb (py_bool task_id) then mret task_id_required
  else
    success ← update_status (py_str task_id) FAILED (failing "Manually cancelled" None);
    mret [("success", PBool success)].

(** A value used as text, or not given. *)
Definition text_of (v : pyval) : result (option string) :=
  match v with
  | PStr s | PEnum s => Ok (Some s)
  | v => if py_bool v then Raise (Exn "DBAPIError" "invalid input for query argument") else Ok None
  end.

(** [_approve_workflow], once the task and its log are known *)
Definition approve_planned (request : pydict) (task : DevTask) (l : DevWorkflowLog) : M World pydict :=
  let task_id := dget request "task_id" in
  let approval_id_ := py_or (dget request "approval_id")
                        (dget (wl_workflow_json l) "control_plane_approval_id") in
  let approved_by := py_or (dget request "approved_by") (dget request "operator") in
  if py_bool approval_id_ && negb (py_bool approved_by)
  then mret (request_error "approved_by required for control-plane approval"
               "control_plane_approval_resolver_required"
               [("task_id", task_id); ("control_plane_approval_id", approval_id_)])
  else
    id_ ← liftM (text_of approval_id_);
    by_ ← liftM (text_of (py_or approved_by (PStr "api")));
    decision ← tryM (on_control (approve_for_sensitive_action dp_gate_settings dp_gate id_ (str_or_empty by_)));
    match decision with
    | Raise e =>
        _ ← raise_ifM (negb (bool_decide (exn_class e = "ApprovalRequiredError"))) e;
        mret (request_error (exn_str e) "control_plane_approval_required" [("task_id", task_id)])
    | Ok decision =>
        plan ← liftM (dp_workflow_plan (PDict (wl_workflow_json l)));
        events ← execute_workflow plan task None;
        mret [("success", PBool true); ("task_id", task_id);
              ("workflow_started", PBool (negb (bool_decide (length events = 0%nat))));
              ("control_plane_approval_id",
               match decision with Some d => PStr (adc_approval_id d) | None => approval_id_ end)]
    end.

Definition _approve_workflow (request : pydict) : M World pydict :=
  let task_id := dget request "task_id" in
  if negb (py_bool task_id) then mret task_id_required
  else
    task_ ← get_by_id (py_str task_id);
    match only (λ t, bool_decide (dt_status t = AWAITING_APPROVAL)) task_ with
    | None => mret (request_error "Task not found or not awaiting approval" "dev_task_not_awaiting_approval"
                      [("task_id", task_id)])
    | Some task =>
        log_ ← get_by_task_id (py_str task_id);
        match only (λ l, py_bool (PDict (wl_workflow_json l))) log_ with
        | None => mret (request_error "Workflow plan not found - cannot execute without a plan"
                          "workflow_plan_not_found" [("task_id", task_id)])
        | Some l => approve_planned request task l
        end
    end.

Definition action_is (request : pydict) (name : string) : bool :=
  match dget request "action" with PStr a => bool_decide (a = name) | _ => false end.
Definition dispatch_request (request : pydict) : M World pydict :=
  if action_is request "get_task_status" then _get_task_status request
  else if action_is request "list_active_workflows" then _list_active_workflows
  else if action_is request "list_failed" then _list_failed
  else if action_is request "retry_task" then _retry_task request
  else if action_is request "cancel_workflow" then _cancel_workflow request
  else if action_is request "approve_workflow" then _approve_workflow request
  else
    let a := dget request "action" in
    mret (request_error ("Unknown action: " +:+ py_str a) "unknown_action" [("action", a)]).
(** The boundary, for a request that is not one of those all agents share. *)
Definition handle_request (request : pydict) : M World pydict := in_dev_uow (dispatch_request request).
End workflow.
