(* ===== verification/DevSteps.v ===== *)
(** * Rules for the operations of the Dev agent

    What the repository operations do to the tables, and how a property of the
    tables and of the outside calls that they keep is kept by the use cases.  The
    invariants of [DevTheorems] instantiate these rules. *)

From S2P Require Import Prelude PyNum PyTime PyValue Models Store Scenario ApprovalGate DevPlan DevTasks DevWorkflow.

Create HintDb dev.

Lemma dict_get_elem {V} (d : list (string * V)) k v : dict_get d k = Some v → (k, v) ∈ d.
Proof.
  induction d as [|[k' v'] d IH]; cbn; [done|]. case_decide; [intros [= ->]; subst; by left|].
  intros ?%IH. by right.
Qed.

(** Nothing but the control plane's session and the count of calls changed. *)
Definition outside (w w' : World) : Prop := dw_db w' = dw_db w ∧ dw_effects w' = dw_effects w.
Lemma outside_refl w : outside w w.
Proof. done. Qed.
Lemma outside_trans w1 w2 w3 : outside w1 w2 → outside w2 w3 → outside w1 w3.
Proof. unfold outside. intros [] []. split; congruence. Qed.
#[export] Hint Resolve outside_refl : dev.

(** A property of the tables and of the calls made. *)
Class Inside (P : World → Prop) := inside : ∀ w w', outside w w' → P w → P w'.
#[global] Hint Mode Inside ! : typeclass_instances.

Lemma inside_make (D : DevDB → list dev_effect → Prop) : Inside (λ w, D (dw_db w) (dw_effects w)).
Proof. by intros w w' [-> ->]. Qed.

Section keeping.
Context (P : World → Prop) {HP : Inside P}.

Lemma call_keeps {A} (f : nat → result A) : preserves P (call f).
Proof. intros w r w' [= <- <-]. by apply HP. Qed.
Lemma on_control_keeps {A} (m : M Session A) : preserves P (on_control m).
Proof. intros w r w'. unfold on_control. destruct (m _) as [r' s]. intros [= <- <-]. by apply HP. Qed.
Lemma scalar_keeps {A} (l : list A) : preserves P (scalar_one_or_none l).
Proof. destruct l as [|? [|]]; [apply preserves_ret|apply preserves_ret|apply preserves_raise]. Qed.

Lemma gather_keeps {A B} (f : A → M World (list B)) l :
  (∀ x, x ∈ l → preserves P (f x)) → preserves P (gather f l).
Proof.
  induction l as [|x l IH]; intros Hf; cbn; [apply preserves_ret|].
  apply preserves_bind; [|intros y; apply preserves_bind; [|intros ?; apply preserves_ret]].
  - apply preserves_catch; [|intros; apply preserves_ret]. apply Hf. by left.
  - apply IH. intros z Hz. apply Hf. by right.
Qed.
Lemma gather_all_keeps {A B} (f : A → M World (list B)) l :
  (∀ x, x ∈ l → preserves P (f x)) → preserves P (gather_all f l).
Proof.
  induction l as [|x l IH]; intros Hf; cbn; [apply preserves_ret|].
  apply preserves_bind; [apply Hf; by left|]. intros y.
  apply preserves_bind; [|intros ?; apply preserves_ret]. apply IH. intros z Hz. apply Hf. by right.
Qed.
Lemma try_keeps {A} (m : M World A) : preserves P m → preserves P (tryM m).
Proof. intros Hm w r w'. unfold tryM. destruct (m w) eqn:E. intros [= <- <-]. by eapply Hm. Qed.
End keeping.

(** From a state of [P] to one of [Q], however the computation ends. *)
Definition leads {A} (P Q : World → Prop) (m : M World A) : Prop :=
  ∀ w r w', m w = (r, w') → P w → Q w'.
Lemma leads_bind {A B} (P R Q : World → Prop) (m : M World A) (k : A → M World B) :
  leads P R m → (∀ a, leads R Q (k a)) → (∀ w, R w → Q w) → leads P Q (m ≫= k).
Proof.
  intros Hm Hk HQ w r w' H Hw.
  apply M_bind_inv in H as [(a & w1 & H1 & H2)|(e & H1 & ->)]; [|by eapply HQ, Hm].
  eapply Hk; [exact H2|]. by eapply Hm.
Qed.
Lemma leads_weaken {A} (P P' Q Q' : World → Prop) (m : M World A) :
  leads P' Q' m → (∀ w, P w → P' w) → (∀ w, Q' w → Q w) → leads P Q m.
Proof. intros Hm HP HQ w r w' H Hw. eapply HQ, Hm; [exact H|]. by apply HP. Qed.
Lemma leads_try {A} (P Q : World → Prop) (m : M World A) : leads P Q m → leads P Q (tryM m).
Proof. intros Hm w r w'. unfold tryM. destruct (m w) eqn:E. intros [= <- <-]. by eapply Hm. Qed.
(** The value of a read *)
Lemma keeps_read {A B} (P : World → Prop) (f : DevDB → A) (k : A → M World B) :
  (∀ w r w', k (f (dw_db w)) w = (r, w') → P w → P w') → preserves P (query_dev f ≫= k).
Proof. intros Hk w r w'. rewrite M_bind_run. cbn. apply Hk. Qed.

#[export] Hint Resolve preserves_ret preserves_raise preserves_lift preserves_gets preserves_raise_if
  call_keeps on_control_keeps scalar_keeps : dev.

(** Walks a computation. *)
Ltac dwalk :=
  repeat first
    [ progress intros
    | solve [eauto with dev nocore]
    | apply preserves_bind | apply preserves_when | apply preserves_catch | apply try_keeps
    | match goal with
      | |- preserves _ (match ?x with _ => _ end) => destruct x
      | |- preserves _ (let _ := _ in _) => cbv zeta
      end ].

(** ** The repository *)
Section repository.
Context {E : Env}.

Lemma dev_now_run w : ∃ t w', dev_now w = (Ok t, w') ∧ outside w w'.
Proof. by destruct w as [d [] ef k]; eexists _, _. Qed.
Lemma new_id_run p w : ∃ i w', on_control (generate_id p) w = (Ok i, w') ∧ outside w w'.
Proof. by destruct w as [d [] ef k]; eexists _, _. Qed.

Lemma scalar_run {A} (l : list A) (w : World) r w' :
  scalar_one_or_none l w = (r, w') →
  w' = w ∧ match r with
           | Ok None => l = []
           | Ok (Some x) => l = [x]
           | Raise e => e = multiple_results ∧ (2 ≤ length l)%nat
           end.
Proof. destruct l as [|? [|]]; intros [= <- <-]; cbn; repeat split; lia. Qed.

Lemma by_id_run i w r w' :
  get_by_id i w = (r, w') →
  w' = w ∧ match r with
           | Ok None => i ∉ dt_id <$> dv_tasks (dw_db w)
           | Ok (Some t) => t ∈ dv_tasks (dw_db w) ∧ dt_id t = i
           | Raise e => True
           end.
Proof.
  unfold get_by_id. rewrite M_bind_run. cbn. intros [-> H]%scalar_run. split; [done|].
  destruct r as [[t|]|]; [|..|done].
  - assert (t ∈ filter (λ t, dt_id t = i) (dv_tasks (dw_db w))) as Ht by (rewrite H; by left).
    by apply list_elem_of_filter in Ht as [??].
  - intros (t & -> & Ht)%list_elem_of_fmap.
    assert (t ∈ filter (λ u, dt_id u = dt_id t) (dv_tasks (dw_db w))) as Hin by by apply list_elem_of_filter.
    rewrite H in Hin. by apply elem_of_nil in Hin.
Qed.

Lemma by_id_found t w :
  NoDup (dt_id <$> dv_tasks (dw_db w)) → t ∈ dv_tasks (dw_db w) → get_by_id (dt_id t) w = (Ok (Some t), w).
Proof.
  unfold get_by_id. rewrite M_bind_run. cbn. generalize (dv_tasks (dw_db w)).
  intros l Hn Ht. assert (filter (λ u, dt_id u = dt_id t) l = [t]) as ->; [|done].
  induction l as [|u l IH]; [by apply elem_of_nil in Ht|].
  apply NoDup_cons in Hn as [Hu Hn]. apply elem_of_cons in Ht as [->|Ht].
  - rewrite filter_cons_True by done. f_equal. apply filter_none. intros v Hv Hid. apply Hu.
    rewrite <- Hid. by apply list_elem_of_fmap_2.
  - rewrite filter_cons_False; [by apply IH|]. intros Hid. apply Hu. rewrite Hid. by apply list_elem_of_fmap_2.
Qed.

(** The rows after [update_status]. *)
Definition restatus (id_ new : string) (now : instant) (ch : task_changes) (t : DevTask) : DevTask :=
  if decide (dt_id t = id_) then with_changes ch (with_task_status new now t) else t.

Lemma restatus_id id_ new now ch t : dt_id (restatus id_ new now ch t) = dt_id t.
Proof. unfold restatus. by destruct (decide _). Qed.

Lemma moves_known st new :
  task_can_transition st new = true → st ∈ TASK_TRANSITIONS.*1 ∧ new ∈ TASK_TRANSITIONS.*1.
Proof.
  unfold task_can_transition. intros Hc%bool_decide_eq_true.
  destruct (dict_get TASK_TRANSITIONS st) as [l|] eqn:Hd; [|by apply elem_of_nil in Hc].
  apply dict_get_elem in Hd. split; [by apply (list_elem_of_fmap_2 fst) in Hd|].
  assert (Forall (λ kv, Forall (λ s, s ∈ TASK_TRANSITIONS.*1) kv.2) TASK_TRANSITIONS) as Hall.
  { apply (bool_decide_unpack _). vm_compute. exact I. }
  rewrite Forall_forall in Hall. specialize (Hall _ Hd). rewrite Forall_forall in Hall. by apply Hall.
Qed.

Lemma task_transition_Ok i st new s : task_transition i st new = Ok s ↔ s = new ∧ task_can_transition st new = true.
Proof.
  unfold task_transition. rewrite bind_Ok. setoid_rewrite bind_Ok. setoid_rewrite raise_if_Ok. split.
  - intros (_ & H1 & _ & [H2 H3]%orb_false_iff & [= ->]). split; [done|].
    by destruct (task_can_transition st s).
  - intros [-> Hc]. destruct (moves_known _ _ Hc) as [Hst Hnew].
    exists tt. split; [apply bool_decide_eq_false; naive_solver|]. exists tt. split; [|done].
    rewrite Hc, orb_false_r. apply bool_decide_eq_false. naive_solver.
Qed.

Lemma task_update_run id_ new ch w r w' :
  update_status id_ new ch w = (r, w') →
  outside w w' ∨
  ∃ t now, t ∈ dv_tasks (dw_db w) ∧ dt_id t = id_ ∧ filter (λ u, dt_id u = id_) (dv_tasks (dw_db w)) = [t] ∧
    task_can_transition (dt_status t) new = true ∧ dw_effects w' = dw_effects w ∧
    dw_db w' = set_tasks (restatus id_ new now ch <$> dv_tasks (dw_db w)) (dw_db w).
Proof.
  intros H. unfold update_status in H.
  apply M_bind_inv in H as [(o & w1 & H1 & H2)|(e & H1 & ->)].
  2:{ apply by_id_run in H1 as [-> _]. by left. }
  pose proof H1 as H1'. apply by_id_run in H1 as [-> Ho].
  destruct o as [t|]; [|injection H2 as <- <-; by left].
  destruct (task_transition _ _ _) as [st|] eqn:Ht; [|injection H2 as <- <-; by left].
  apply task_transition_Ok in Ht as [-> Hc]. destruct Ho as [Hin Hid].
  destruct (dev_now_run w) as (now & w2 & Hn & Hd & He). rewrite M_bind_run, Hn, M_bind_run in H2.
  injection H2 as <- <-. right. exists t, now. cbn. rewrite Hd. split_and!; try done.
  unfold get_by_id in H1'. rewrite M_bind_run in H1'. by apply scalar_run in H1' as [_ ->].
Qed.

Lemma create_log_run id_ json w :
  ∃ l w', create_log id_ json w = (Ok (), w') ∧ wl_task_id l = id_ ∧ wl_workflow_json l = json ∧
    dw_effects w' = dw_effects w ∧ dw_db w' = set_logs (dv_logs (dw_db w) ++ [l]) (dw_db w).
Proof.
  unfold create_log. destruct (new_id_run "dwl" w) as (i & w1 & H1 & Hd1 & He1).
  destruct (dev_now_run w1) as (t & w2 & H2 & Hd2 & He2). rewrite M_bind_run, H1, M_bind_run, H2.
  eexists {| wl_id := i; wl_task_id := id_; wl_workflow_json := json; wl_created_at := t |}, _.
  split; [reflexivity|]. cbn. rewrite Hd2, Hd1, He2, He1. done.
Qed.

Lemma mark_polled_run id_ at_ w r w' :
  mark_polled id_ at_ w = (r, w') →
  outside w w' ∨
  (dw_effects w' = dw_effects w ∧
   dw_db w' = set_tasks ((λ t, if decide (dt_id t = id_) then polled at_ t else t) <$> dv_tasks (dw_db w))
                (dw_db w)).
Proof.
  unfold mark_polled. rewrite M_bind_run. intros H. destruct (get_by_id id_ w) as [[[t|]|e] w1] eqn:H1;
    apply by_id_run in H1 as [-> _]; injection H as <- <-; [by right|by left|by left].
Qed.

Lemma create_task_run wp title risk w r w' :
  create_task wp title risk w = (r, w') →
  (outside w w' ∧ match r with Ok (Some _) => False | _ => True end) ∨
  ∃ i t1 t2, let t := new_task i wp title risk t1 t2 in
    r = Ok (Some t) ∧ i ∉ dt_id <$> dv_tasks (dw_db w) ∧ wp ∉ dt_wp_id <$> dv_tasks (dw_db w) ∧
    dw_effects w' = dw_effects w ∧ dw_db w' = set_tasks (dv_tasks (dw_db w) ++ [t]) (dw_db w).
Proof.
  unfold create_task. destruct (new_id_run "dev" w) as (i & w1 & H1 & Ho1).
  destruct (dev_now_run w1) as (t1 & w2 & H2 & Ho2). destruct (dev_now_run w2) as (t2 & w3 & H3 & Ho3).
  rewrite M_bind_run, H1, M_bind_run, H2, M_bind_run, H3, M_bind_run.
  pose proof (outside_trans _ _ _ (outside_trans _ _ _ Ho1 Ho2) Ho3) as [Hd He]. clear Ho1 Ho2 Ho3 H1 H2 H3 w1 w2.
  cbn. case_bool_decide as Hwp; [intros [= <- <-]; by left|].
  rewrite M_bind_run. cbn. case_bool_decide as Hi; [intros [= <- <-]; by left|].
  intros H. right. rewrite M_bind_run in H. cbn in H. rewrite M_bind_run in H. cbn in H. rewrite Hd in *.
  exists i, t1, t2. cbn.
  unfold get_by_wp_id in H. rewrite M_bind_run in H. cbn in H.
  rewrite filter_app, filter_cons_True in H by done. rewrite filter_nil in H.
  rewrite (filter_none _ (dv_tasks (dw_db w))) in H.
  2:{ intros u Hu Hw. apply Hwp. rewrite <- Hw. by apply list_elem_of_fmap_2. }
  by injection H as <- <-.
Qed.

Lemma expire_run h w r w' :
  expire_stale_pending h w = (r, w') →
  dw_effects w' = dw_effects w ∧ ∃ cutoff now, dw_db w' = set_tasks
    ((λ t, if stale cutoff t && task_can_transition (dt_status t) EXPIRED : bool
           then with_task_status EXPIRED now t else t) <$> dv_tasks (dw_db w)) (dw_db w).
Proof.
  unfold expire_stale_pending. destruct (dev_now_run w) as (t0 & w1 & H1 & Hd1 & He1).
  rewrite M_bind_run, H1, M_bind_run. cbn. destruct (dev_now_run w1) as (now & w2 & H2 & Hd2 & He2).
  rewrite M_bind_run, H2, M_bind_run. cbn. intros [= <- <-]. cbn. rewrite Hd2, Hd1, He2, He1. split; [done|].
  exists (t0 - h * us_per_hour), now. f_equal. apply list_fmap_ext. intros i t _.
  destruct (stale _ t) eqn:Hs; [cbn|done].
  destruct (task_transition _ _ _) as [s|e] eqn:Ht.
  - apply task_transition_Ok in Ht as [_ ->]. done.
  - destruct (task_can_transition (dt_status t) EXPIRED) eqn:Hc; [|done].
    assert (task_transition (dt_id t) (dt_status t) EXPIRED = Ok EXPIRED) by by apply task_transition_Ok.
    congruence.
Qed.
End repository.

(** ** The use cases

    [P] is the property; a second one, which implies it, is what a step has
    established for the steps after it. *)
Section use_cases.
Context {E : Env} {Ports : DevPorts}.
Implicit Types P : World → Prop.

Abbreviation keeps_status P id_ new := (∀ ch, preserves P (update_status id_ new ch)).

Lemma execute_keeps P `{!Inside P} plan task trace :
  keeps_status P (dt_id task) EXECUTING → keeps_status P (dt_id task) FAILED →
  preserves P (did (CreateWorkflow (dt_id task))) →
  (∀ wf, preserves P (did (RunWorkflow (dt_id task) (dt_risk_level task) wf))) →
  preserves P (execute_workflow plan task trace).
Proof. intros H1 H2 H3 H4. unfold execute_workflow. dwalk. Qed.

Lemma request_approval_keeps P `{!Inside P} sanitized i plan :
  preserves P (request_workflow_approval sanitized i plan).
Proof. unfold request_workflow_approval. dwalk. Qed.

Lemma plan_task_keeps P `{!Inside P} sanitized : preserves P (plan_task sanitized).
Proof. unfold plan_task. dwalk. Qed.
Hint Resolve request_approval_keeps plan_task_keeps : dev.

(** The log of a plan holds no task. *)
Lemma plan_log_no_task plan trace approval :
  dget ((plan_dump plan ++ trace_metadata trace)
        ++ (if truthy approval then [("control_plane_approval_id", PStr (str_or_empty approval))] else []))
    "task_input" = PNone.
Proof. unfold trace_metadata. by destruct (truthy trace), (truthy approval). Qed.

Lemma plan_keeps P P' `{!Inside P, !Inside P'} sanitized task risk trace :
  keeps_status P (dt_id task) PLANNING → keeps_status P (dt_id task) FAILED →
  (∀ json w r w', dget json "task_input" = PNone →
     create_log (dt_id task) json w = (r, w') → P w → P' w') →
  (∀ w, P' w → P w) →
  (requires_workflow_approval risk = true → keeps_status P' (dt_id task) AWAITING_APPROVAL) →
  (requires_workflow_approval risk = false → ∀ plan, preserves P' (execute_workflow plan task trace)) →
  preserves P (plan_and_execute sanitized task risk trace).
Proof.
  intros Hp Hf Hlog HP' Ha He. unfold plan_and_execute. cbv zeta.
  apply preserves_bind; [apply Hp|intros _]. apply preserves_bind; [dwalk|intros [plan|]]; [|dwalk].
  apply preserves_bind; [dwalk|intros v]. case_match; [dwalk|].
  apply preserves_bind; [dwalk|intros nodes]. apply preserves_bind; [dwalk|intros a].
  apply (leads_bind _ P'); [|intros _|exact HP'].
  - intros w r w'. apply Hlog. apply plan_log_no_task.
  - apply (leads_weaken _ P' _ P'); [|done|exact HP'].
    destruct (requires_workflow_approval risk); [|by apply He].
    apply preserves_bind; [by apply Ha|dwalk].
Qed.

(** [PN]: a task was just created; [PT]: and its log; [PX]: and it may start. *)
Lemma process_keeps P (PN PT PX : DevTask → World → Prop) sanitized risk trace :
  (∀ w r w', create_task (ti_wp_id sanitized) (ti_title sanitized) risk w = (r, w') → P w →
     match r with Ok (Some t) => PN t w' ∧ dt_risk_level t = RiskLevel_value risk | _ => P w' end) →
  (∀ t w w', create_log (dt_id t) (("task_input", task_dump sanitized) :: trace_metadata trace) w = (Ok (), w') →
     dt_risk_level t = RiskLevel_value risk → PN t w → PT t w') →
  (∀ t w, PT t w → P w) →
  (∀ t w, PT t w → in_progress (dv_tasks (dw_db w)) < dp_max_concurrent → PX t w) →
  (∀ t w, PX t w → P w) →
  (∀ t, dt_risk_level t = RiskLevel_value risk → preserves (PX t) (plan_and_execute sanitized t risk trace)) →
  preserves P (process_single_task sanitized risk trace).
Proof.
  intros Hnew Hlog HPT HPX HX Hplan w r w' H HP. unfold process_single_task in H.
  apply M_bind_inv in H as [(o & w1 & H1 & H2)|(e & H2 & ->)]; [|by specialize (Hnew _ _ _ H2 HP)].
  rename H2 into H.
  specialize (Hnew _ _ _ H1 HP). destruct o as [t|]; [|by injection H as <- <-].
  destruct Hnew as [HN Hr]. rewrite M_bind_run in H.
  destruct (create_log_run (dt_id t) (("task_input", task_dump sanitized) :: trace_metadata trace) w1)
    as (l & w2 & Hl & _). rewrite Hl in H. specialize (Hlog t w1 w2 Hl Hr HN).
  rewrite M_bind_run in H. cbn in H. destruct (_ <? _) eqn:Hlt; cbn in H.
  - eapply HX, (Hplan t Hr); [exact H|]. apply HPX; [done|]. lia.
  - injection H as <- <-. by eapply HPT.
Qed.

(** [PS]: the scan has passed. *)
Lemma open_keeps P PS `{!Inside P, !Inside PS} task :
  (∀ w, PS w → P w) → leads PS P (did (MergeRequest (dt_id task) (source_branch task))) →
  leads PS P (open_merge_request task).
Proof.
  intros HPS Hmr. unfold open_merge_request.
  apply (leads_bind _ PS); [apply (call_keeps PS)|intros [mr|]|done].
  - apply (leads_weaken _ P _ P); [apply preserves_ret|done|done].
  - apply (leads_bind _ P); [done|intros _|done]. apply (call_keeps P).
Qed.

Lemma completion_keeps P PS `{!Inside P, !Inside PS} task status :
  (∀ new, keeps_status P (dt_id task) new) → (∀ new, keeps_status PS (dt_id task) new) →
  preserves P (did (Scan (dt_id task) false)) → leads P PS (did (Scan (dt_id task) true)) →
  (∀ w, PS w → P w) → leads PS P (did (MergeRequest (dt_id task) (source_branch task))) →
  preserves P (handle_completion task status).
Proof.
  intros Hu Hs Hno Hyes HPS Hmr. unfold handle_completion. cbv zeta.
  apply preserves_bind; [unfold _workflow_trace_id, get_by_task_id; dwalk|intros tr].
  apply preserves_bind; [apply Hu|intros _].
  apply preserves_bind; [unfold security_scan; dwalk|intros rep].
  destruct (sr_passed rep); cbn [negb]; [|dwalk].
  apply (leads_bind _ PS); [exact Hyes|intros _|exact HPS].
  apply (leads_bind _ PS); [apply Hs|intros _|exact HPS].
  apply (leads_bind _ P); [|intros [[iid url]|e]; fold (@preserves World (list dev_event) P); dwalk|done].
  apply leads_try, (leads_bind _ P); [by apply open_keeps|intros mr|done].
  apply preserves_bind; [apply Hu|dwalk].
Qed.

Lemma qa_result_keeps P `{!Inside P} task payload :
  (∀ new, keeps_status P (dt_id task) new) → preserves P (handle_qa_result task payload).
Proof. intros Hu. unfold handle_qa_result, _workflow_trace_id, get_by_task_id, dev_now. dwalk. Qed.

Lemma poll_keeps P `{!Inside P} now task :
  keeps_status P (dt_id task) FAILED →
  (dp_gitlab = false → keeps_status P (dt_id task) SECURITY_SCANNING) →
  preserves P (mark_polled (dt_id task) now) → (∀ l, preserves P (stage l)) →
  (dt_status task = EXECUTING → ∀ status, preserves P (handle_completion task status)) →
  preserves P (poll_task now task).
Proof.
  intros Hf Hn Hp Hs Hc. unfold poll_task. destruct (dt_workflow_id task), (dt_workflow_started_at task); try by dwalk.
  destruct (_ || _) eqn:Hst; [dwalk|]. apply orb_false_iff in Hst as [_ Hst%negb_false_iff%bool_decide_eq_true].
  specialize (Hc Hst). unfold collect. destruct dp_gitlab; [clear Hn|specialize (Hn eq_refl)]; dwalk.
Qed.

Lemma start_keeps P `{!Inside P} task :
  (∀ w log_ sanitized, P w → get_by_task_id (dt_id task) w = (Ok log_, w) →
     restore_task task log_ = Ok sanitized →
     preserves P (plan_and_execute sanitized task (ti_risk_level sanitized) None)) →
  (∀ l, preserves P (stage l)) → preserves P (start_and_stage task).
Proof.
  intros Hp Hs. unfold start_and_stage. apply preserves_bind; [|dwalk].
  intros w r w' H HP. unfold _start_pending_task in H.
  destruct (get_by_task_id (dt_id task) w) as [[log_|e] w1] eqn:Hl; rewrite M_bind_run, Hl in H;
    assert (w1 = w) as -> by (unfold get_by_task_id in Hl; rewrite M_bind_run in Hl;
                              by apply scalar_run in Hl as [-> _]); [|by injection H as <- <-].
  rewrite M_bind_run in H. cbn in H. destruct (restore_task task log_) as [s|] eqn:Hr; [|by injection H as <- <-].
  by eapply (Hp _ _ _ HP Hl Hr).
Qed.

Lemma fill_keeps P (PF : list DevTask → World → Prop) candidates f wanted :
  (∀ n, candidates n = query_dev (f n)) →
  (∀ w, P w → in_progress (dv_tasks (dw_db w)) < dp_max_concurrent →
     PF (filter (λ t, wanted t = true) (f (dp_max_concurrent - in_progress (dv_tasks (dw_db w))) (dw_db w))) w) →
  (∀ l w, PF l w → P w) → (∀ l t, t ∈ l → preserves (PF l) (start_and_stage t)) →
  preserves P (fill_slots candidates wanted).
Proof.
  intros Hf HPF HP Hs w r w' H HPw. unfold fill_slots in H. rewrite M_bind_run in H. cbn in H.
  destruct (_ <? _) eqn:Hlt; [|by injection H as <- <-].
  rewrite Hf, M_bind_run in H. cbn in H. eapply HP, (gather_keeps _ start_and_stage); [|exact H|].
  - intros t Ht. by apply Hs.
  - apply HPF; [done|]. lia.
Qed.

(** What is undone leaves the calls that were made. *)
Class Rolls (P : World → Prop) := rolls : ∀ w w', P w → P w' → P (with_dev w' (dw_db w)).

Lemma uow_keeps {A} P `{!Rolls P} (m : M World A) : preserves P m → preserves P (in_dev_uow m).
Proof.
  intros Hm w r w'. unfold in_dev_uow. destruct (m w) as [[a|e] w1] eqn:H; intros [= <- <-] Hw.
  - by eapply Hm.
  - apply rolls; [done|]. by eapply Hm.
Qed.

Lemma reconcile_keeps P (PA : list DevTask → World → Prop) `{!Inside P, !Rolls P} :
  (∀ l, Inside (PA l)) →
  (∀ w, P w → PA (filter (λ t, dt_status t ∈ ACTIVE_STATUSES) (dv_tasks (dw_db w))) w) →
  (∀ l w, PA l w → P w) → (∀ l t now, t ∈ l → preserves (PA l) (poll_task now t)) →
  preserves P (fill_slots list_pending_tasks (λ _, true)) →
  preserves P (fill_slots list_planning_tasks (λ t, 0 <? dt_retry_count t)) →
  preserves P _reconcile.
Proof.
  intros HA HPA HP Hpoll Hpend Hplan. unfold _reconcile. apply preserves_catch; [|dwalk].
  apply uow_keeps; [done|]. apply preserves_bind; [dwalk|intros []; [|dwalk]].
  unfold reconcile_body. apply keeps_read. cbv beta. intros w r w' H Hw. revert H. apply HPA in Hw. revert Hw.
  generalize (filter (λ t, dt_status t ∈ ACTIVE_STATUSES) (dv_tasks (dw_db w))). intros l Hw H.
  revert w r w' H Hw. apply (leads_bind _ (PA l)); [apply (on_control_keeps (PA l))|intros now|apply HP].
  apply (leads_bind _ (PA l)); [apply (gather_all_keeps (PA l)); eauto|intros ?|apply HP].
  apply (leads_weaken _ P _ P); [|apply HP|done]. apply (preserves_bind P); [done|]. dwalk.
Qed.

Lemma try_control_leads {A B} P0 P `{!Inside P} (m : M Session A) (k : result A → M World B) :
  (∀ w, P0 w → P w) → (∀ e, preserves P (k (Raise e))) →
  (∀ a w, P0 w → (m (dw_control w)).1 = Ok a → preserves P (k (Ok a))) →
  leads P0 P (tryM (on_control m) ≫= k).
Proof.
  intros HP He Ha w r w'. rewrite M_bind_run. unfold tryM, on_control.
  destruct (m (dw_control w)) as [d s] eqn:Hm. intros H Hw.
  set (w1 := Build_World _ _ _ _) in H. assert (P w1) as Hw1 by (apply (inside w); auto; done).
  destruct d as [a|e]; [|by eapply He]. eapply (Ha a w Hw); [|exact H|done]. by rewrite Hm.
Qed.
Lemma lift_leads {A B} P0 P (m : result A) (k : A → M World B) :
  (∀ w, P0 w → P w) → (∀ a, leads P0 P (k a)) → leads P0 P (liftM m ≫= k).
Proof. intros HP Hk w r w'. rewrite M_bind_run. cbn. destruct m; [apply Hk|]. intros [= <- <-]. apply HP. Qed.

(** The gate has let the task through. *)
Lemma planned_leads P0 P `{!Inside P} request t l :
  (∀ w, P0 w → P w) →
  (∀ plan w i by_ d, P0 w → (approve_for_sensitive_action dp_gate_settings dp_gate i by_ (dw_control w)).1 = Ok d →
     preserves P (execute_workflow plan t None)) →
  leads P0 P (approve_planned request t l).
Proof.
  intros HP Hx. unfold approve_planned. cbv zeta.
  destruct (_ && _); [apply (leads_weaken _ P _ P); [apply preserves_ret|done|done]|].
  apply lift_leads; [done|intros i]. apply lift_leads; [done|intros by_].
  apply try_control_leads; [done|done|intros e; dwalk|]. intros d w Hw Hg.
  specialize (λ plan, Hx plan w _ _ _ Hw Hg). dwalk.
Qed.

(** [PX]: the task awaits approval. *)
Lemma approve_leads Pin P (PX : DevTask → World → Prop) request `{!Inside P} :
  (∀ w, Pin w → P w) →
  (∀ w t log_, Pin w → t ∈ dv_tasks (dw_db w) → dt_id t = py_str (dget request "task_id") →
     dt_status t = AWAITING_APPROVAL → get_by_task_id (dt_id t) w = (Ok log_, w) → PX t w) →
  (∀ t w, PX t w → P w) →
  (∀ t l, dt_id t = py_str (dget request "task_id") → leads (PX t) P (approve_planned request t l)) →
  leads Pin P (_approve_workflow request).
Proof.
  intros HPin HX HP Hx w r w' H Hw. unfold _approve_workflow in H.
  destruct (negb _); [injection H as <- <-; auto|].
  rewrite M_bind_run in H. destruct (get_by_id _ w) as [[o|e] w1] eqn:Hid; apply by_id_run in Hid as [-> Ho];
    [|injection H as <- <-; auto].
  destruct o as [t|]; cbn [only] in H; [|injection H as <- <-; auto].
  case_bool_decide as Hst; [|injection H as <- <-; auto]. destruct Ho as [Hin Hid].
  rewrite M_bind_run in H. destruct (get_by_task_id _ w) as [[log_|e] w1] eqn:Hl;
    assert (w1 = w) as -> by (unfold get_by_task_id in Hl; rewrite M_bind_run in Hl;
                              by apply scalar_run in Hl as [-> _]); [|injection H as <- <-; auto].
  rewrite <- Hid in Hl. specialize (HX w t log_ Hw Hin Hid Hst Hl). revert H HX.
  destruct (only _ log_) as [l|]; [|intros [= <- <-]; apply HP].
  by apply Hx.
Qed.

Lemma request_keeps P request `{!Inside P, !Rolls P} :
  (action_is request "retry_task" = true →
     ∀ i w t ch, P w → t ∈ dv_tasks (dw_db w) → dt_id t = i → dt_status t = FAILED →
     ∀ r w', update_status i PLANNING ch w = (r, w') → P w') →
  (∀ i, keeps_status P i FAILED) →
  (action_is request "approve_workflow" = true → preserves P (_approve_workflow request)) →
  preserves P (handle_request request).
Proof.
  intros Hretry Hcancel Happrove. apply uow_keeps; [done|]. unfold dispatch_request.
  assert (preserves P (_get_task_status request)) by (unfold _get_task_status, get_by_wp_id; dwalk).
  assert (preserves P _list_active_workflows) by (unfold _list_active_workflows; dwalk).
  assert (preserves P _list_failed) by (unfold _list_failed; dwalk).
  assert (preserves P (_cancel_workflow request)) by (unfold _cancel_workflow; dwalk).
  assert (action_is request "retry_task" = true → preserves P (_retry_task request)).
  { intros Ha w r w' H' Hw. unfold _retry_task in H'. destruct (negb _); [by injection H' as <- <-|].
    rewrite M_bind_run in H'. destruct (get_by_id _ w) as [[o|e] w1] eqn:Hid; apply by_id_run in Hid as [-> Ho];
      [|by injection H' as <- <-].
    destruct o as [t|]; cbn [only] in H'; [|by injection H' as <- <-].
    case_bool_decide as Hst; [|by injection H' as <- <-]. destruct Ho as [Hin Hid].
    rewrite M_bind_run in H'. destruct (update_status _ _ _ w) as [[b|e] w1] eqn:Hu; injection H' as <- <-;
      by eapply (Hretry Ha _ _ _ _ Hw Hin Hid Hst). }
  repeat (case_match; [by dwalk || auto|]). dwalk.
Qed.

(** [PX]: the task is under review. *)
Lemma qa_event_keeps P (PX : DevTask → World → Prop) event `{!Inside P, !Rolls P} :
  (∀ w t, P w → t ∈ dv_tasks (dw_db w) → dt_status t = REVIEWING → PX t w) → (∀ t w, PX t w → P w) →
  (∀ t payload, preserves (PX t) (handle_qa_result t payload)) → preserves P (_handle_qa_result event).
Proof.
  intros HX HP Hq. unfold _handle_qa_result. destruct (dget _ _); try by dwalk. apply uow_keeps; [done|].
  intros w r w' H Hw. unfold get_by_mr_iid in H. rewrite M_bind_run, M_bind_run in H. cbn in H.
  destruct (scalar_one_or_none _ w) as [[o|e] w1] eqn:Hs; apply scalar_run in Hs as [-> Ho];
    [|by injection H as <- <-].
  destruct o as [t|]; [|by injection H as <- <-].
  destruct (_ || _) eqn:Hst; [by injection H as <- <-|].
  apply orb_false_iff in Hst as [Hst%negb_false_iff%bool_decide_eq_true _].
  eapply HP, (Hq t); [exact H|]. apply HX; try done.
  assert (t ∈ filter (λ u, dt_mr_iid u = Some z) (dv_tasks (dw_db w))) as Hin by (rewrite Ho; by left).
  by apply list_elem_of_filter in Hin as [_ ?].
Qed.

Lemma admitted_risk wp trace data t :
  t ∈ (admit_task wp trace data).2 → ti_risk_level t ≠ RiskLevel_CRITICAL.
Proof.
  unfold admit_task. destruct (_ ≫= _); [|by destruct (bool_decide _); intros ?%elem_of_nil].
  destruct (rejects_automatic_delivery _) eqn:Hr; cbn; [by intros ?%elem_of_nil|].
  intros ->%list_elem_of_singleton. cbn. by apply bool_decide_eq_false in Hr.
Qed.

Lemma ready_keeps P event `{!Inside P, !Rolls P} :
  (∀ t trace, ti_risk_level t ≠ RiskLevel_CRITICAL →
     preserves P (process_single_task t (ti_risk_level t) trace)) →
  preserves P (_handle_tasks_ready event).
Proof.
  intros Ht. unfold _handle_tasks_ready. cbv zeta. apply preserves_bind; [dwalk|intros tasks].
  case_bool_decide; [dwalk|]. apply preserves_bind; [|dwalk]. apply uow_keeps; [done|].
  apply gather_keeps. intros t Hin. apply Ht.
  apply list_elem_of_In, in_concat in Hin as (l & Hl%list_elem_of_In & Hin%list_elem_of_In).
  apply list_elem_of_fmap in Hl as ([evs ts] & -> & Hl).
  apply list_elem_of_fmap in Hl as (data & Hd & _). eapply admitted_risk. by rewrite <- Hd.
Qed.
End use_cases.

(** ** A scenario

    The planner answers a plan of three nodes, AgentForge completes every
    workflow, the tools find nothing; one workflow may be in progress. *)
Definition node (name : string) (deps tags : list string) (prompt : string) : WorkflowNode := {|
  wn_name := name; wn_type := "agent_task"; wn_dependsOn := deps;
  wn_config := [("tags", PList (PStr <$> tags)); ("prompt", PStr prompt)] |}.
Definition sample_plan : WorkflowPlan := {|
  wp_name := "wf"; wp_description := "";
  wp_nodes := [node "build" [] ["implement"] "Change agents/a.py"; node "review" ["build"] ["review"] "Look";
               node "accept" ["review"] ["acceptance"] "Run git push origin dev/wp-7"];
  wp_metadata := [] |}.

(** What Pydantic makes of the fields of a task. *)
Definition sample_validate (d : pydict) : result TaskInput :=
  let text k := match dget d k with PStr s => s | _ => "" end in
  risk ← match dget d "risk_level" with PStr v | PEnum v => risk_of_value v | _ => Ok RiskLevel_MEDIUM end;
  Ok {| ti_title := text "title"; ti_description := text "description"; ti_estimated_hours := f_zero;
        ti_wp_id := match dget d "wp_id" with PInt z => z | _ => 0 end; ti_parent_story := "";
        ti_related_files := []; ti_risk_level := risk |}.

Definition sample_ports : DevPorts := {|
  dp_complete := λ _ _, Ok "{}"; dp_json_loads := λ _, Some (PDict []);
  dp_task_input := sample_validate;
  dp_sanitized_task := λ v, match v with PDict d => sample_validate d | _ => Raise attribute_error end;
  dp_workflow_plan := λ _, Ok sample_plan;
  dp_forge := true; dp_create_workflow := λ _ _, Ok "wf_1"; dp_run_workflow := λ _ _, Ok tt;
  dp_get_status := λ _ _, Ok [("status", PStr "completed")];
  dp_gitlab := true; dp_check_existing_mr := λ _ _, Ok None; dp_create_mr := λ _ _ _ _, Ok (5, "http://mr/5");
  dp_tool := λ _ _, Exited 0 "{}"; dp_reconcile_lock := λ _, true;
  dp_max_concurrent := 1; dp_agentforge_project_id := "p1"; dp_gitlab_project_id := "42";
  dp_gate := {| sv_source_agent_id := "dev-agent"; sv_default_company_id := None; sv_enabled := Some false;
                sv_enforced := None |};
  dp_gate_settings := {| gs_control_plane_enabled := false; gs_approval_enforced := false; gs_company_id := "cmp_1" |};
  dp_run_context := None |}.

Lemma sample_validated d s v :
  sample_validate d = Ok s → dget d "risk_level" = PStr v ∨ dget d "risk_level" = PEnum v →
  RiskLevel_value (ti_risk_level s) = v.
Proof.
  unfold sample_validate. cbv zeta. rewrite bind_Ok. intros (r & Hr & [= <-]) [Hd|Hd]; rewrite Hd in Hr; cbn;
    unfold risk_of_value in Hr; destruct (find _ _) as [r'|] eqn:Hf; try done; injection Hr as <-;
    by apply find_some in Hf as [_ ?%bool_decide_eq_true].
Qed.

Definition sample_tables (tasks : list DevTask) (logs : list DevWorkflowLog) : World := {|
  dw_db := {| dv_tasks := tasks; dv_logs := logs; dv_outbox := [] |};
  dw_control := sample_session []; dw_effects := []; dw_calls := 0 |}.
Definition ready (wp_id : Z) (title : string) : incoming := {|
  ie_type := "pm.tasks-ready-for-dev"; ie_trace_id := Some "tr_1";
  ie_payload := [("wp_id", PInt wp_id); ("tasks", PList [PDict [("title", PStr title); ("id", PInt wp_id)]])] |}.
Definition approve_request (task_id : string) : pydict :=
  [("action", PStr "approve_workflow"); ("task_id", PStr task_id); ("approved_by", PStr "ops")].
(** A task row, and a log for it. *)
Definition sample_row (id_ : string) (wp_id : Z) (risk status : string) : DevTask := {|
  dt_id := id_; dt_wp_id := wp_id; dt_task_title := Some "Task"; dt_risk_level := risk; dt_status := status;
  dt_workflow_id := Some "wf_1"; dt_mr_iid := None; dt_mr_url := None; dt_retry_count := 0;
  dt_error_message := None; dt_failed_step := None;
  dt_workflow_started_at := Some (ymd2ord 2026 8 17 * us_per_day - 60 * us_per_second);
  dt_last_polled_at := None; dt_created_at := 0; dt_updated_at := 0 |}.
Definition sample_log (task_id : string) : DevWorkflowLog :=
  {| wl_id := "dwl_1"; wl_task_id := task_id; wl_workflow_json := plan_dump sample_plan; wl_created_at := 0 |}.
#[export] Instance sample_dev_env : Env := sample_env 60000000 false.
