(* ===== verification/DevTheorems.v ===== *)
(** * What the Dev agent guarantees

    Over every history of events, requests, reconciliations and expiries, with
    any answers from outside: how the tasks move, what was checked before a merge
    request is opened or a workflow is run, how many tasks are in progress, and
    that no task is ever delivered, because the log of a task is asked for as if
    there were only one. *)

From S2P Require Import Prelude PyNum PyTime PyValue Models Store ApprovalGate DevPlan DevTasks.
From S2P Require Import DevWorkflow DevSteps.

(** ** Histories *)
Section histories.
Context {E : Env} {Ports : DevPorts}.

Inductive dev_op :=
  | DevEvent (event : incoming)
  | DevReconcile
  | DevExpire
  | DevRequest (request : pydict).

Definition run_op (o : dev_op) : M World unit :=
  match o with
  | DevEvent e => _ ← handle_event e; mret ()
  | DevReconcile => _ ← _reconcile; mret ()
  | DevExpire => _expire_stale
  | DevRequest r => _ ← handle_request r; mret ()
  end.
Definition dev_step (w : World) (o : dev_op) : World := (run_op o w).2.
Definition dev_history (w : World) (ops : list dev_op) : World := foldl dev_step w ops.

Lemma step_keeps (P : World → Prop) o w : preserves P (run_op o) → P w → P (dev_step w o).
Proof. intros Hp Hw. unfold dev_step. destruct (run_op o w) as [r w'] eqn:H. by eapply Hp. Qed.

Lemma history_keeps_step (P : World → Prop) ops w :
  (∀ w o, P w → P (dev_step w o)) → P w → P (dev_history w ops).
Proof. intros Hp. revert w. induction ops as [|o ops IH]; intros w Hw; [done|]. by apply IH, Hp. Qed.
Lemma history_keeps (P : World → Prop) ops w :
  Forall (λ o, preserves P (run_op o)) ops → P w → P (dev_history w ops).
Proof. revert w. induction ops as [|o ops IH]; intros w; [done|]. inversion 1; intros. apply IH; [done|]. by apply step_keeps. Qed.

Lemma op_event (P : World → Prop) e :
  preserves P (_handle_tasks_ready e) → preserves P (_handle_qa_result e) → preserves P (run_op (DevEvent e)).
Proof. intros H1 H2. cbn. unfold handle_event. dwalk. Qed.
Lemma op_expire (P : World → Prop) `{!Inside P, !Rolls P} :
  preserves P (expire_stale_pending 24) → preserves P (run_op DevExpire).
Proof. intros H. cbn. unfold _expire_stale. apply preserves_catch; [|dwalk]. apply preserves_bind; [|dwalk]. by apply uow_keeps. Qed.

(** ** Properties that every repository operation keeps

    [PS i] holds from the passed scan of task [i] to its merge request. *)
Section plain.
Context (P : World → Prop) (PS : string → World → Prop) `{!Inside P, !Rolls P} {HI : ∀ i, Inside (PS i)}.
Hypothesis Hstatus : ∀ i new ch, preserves P (update_status i new ch).
Hypothesis Hstatus' : ∀ j i new ch, preserves (PS j) (update_status i new ch).
Hypothesis Hcreate : ∀ wp title risk, preserves P (create_task wp title risk).
Hypothesis Hlog : ∀ i json, preserves P (create_log i json).
Hypothesis Hpoll : ∀ i t, preserves P (mark_polled i t).
Hypothesis Hstage : ∀ l, preserves P (stage l).
Hypothesis Hexpire : preserves P (expire_stale_pending 24).
Hypothesis Hdone : ∀ i, preserves P (did (CreateWorkflow i)).
Hypothesis Hrun : ∀ i risk wf, preserves P (did (RunWorkflow i risk wf)).
Hypothesis Hfail : ∀ i, preserves P (did (Scan i false)).
Hypothesis Hpass : ∀ i, leads P (PS i) (did (Scan i true)).
Hypothesis HPS : ∀ i w, PS i w → P w.
Hypothesis Hmr : ∀ t, leads (PS (dt_id t)) P (did (MergeRequest (dt_id t) (source_branch t))).

Lemma plain_execute plan t trace : preserves P (execute_workflow plan t trace).
Proof. by apply execute_keeps. Qed.
Lemma plain_plan s t risk trace : preserves P (plan_and_execute s t risk trace).
Proof.
  apply (plan_keeps P P); try done.
  - intros. by eapply Hlog.
  - intros _ plan. apply plain_execute.
Qed.
Lemma plain_start t : preserves P (start_and_stage t).
Proof. apply start_keeps; [done| |done]. intros. apply plain_plan. Qed.
Lemma plain_fill candidates f wanted :
  (∀ n, candidates n = query_dev (f n)) → preserves P (fill_slots candidates wanted).
Proof. intros Hf. apply (fill_keeps P (λ _, P) _ f); try done. intros. apply plain_start. Qed.

Lemma plain_op o : preserves P (run_op o).
Proof.
  destruct o as [e| | |r].
  - apply op_event.
    + apply ready_keeps; [done..|]. intros t trace _. pose proof plain_plan. unfold process_single_task. dwalk.
    + apply (qa_event_keeps P (λ _, P)); [done..|]. intros. by apply qa_result_keeps.
  - apply preserves_bind; [|dwalk]. apply (reconcile_keeps P (λ _, P)); try done.
    + intros l t now _. apply poll_keeps; try done. intros _ status. apply (completion_keeps P (PS (dt_id t))); try done. apply HPS.
    + by eapply plain_fill.
    + by eapply plain_fill.
  - by apply op_expire.
  - apply preserves_bind; [|dwalk]. apply request_keeps; try done.
    + intros _ i w t ch Hw _ _ _ r0 w' H. by eapply Hstatus.
    + intros _. apply (approve_leads P P (λ _, P)); try done. intros t l _.
      apply planned_leads; [done|done|]. intros. apply plain_execute.
Qed.
End plain.

(** ** The tasks *)
Definition moves : relation string := rtc (λ a b, task_can_transition a b = true).

Record task_evolves (t t' : DevTask) : Prop := {
  te_id : dt_id t' = dt_id t;
  te_wp_id : dt_wp_id t' = dt_wp_id t;
  te_title : dt_task_title t' = dt_task_title t;
  te_risk : dt_risk_level t' = dt_risk_level t;
  te_created : dt_created_at t' = dt_created_at t;
  te_moves : moves (dt_status t) (dt_status t') }.

Lemma dev_evolves_refl t : task_evolves t t.
Proof. by split. Qed.
Lemma dev_evolves_trans t1 t2 t3 : task_evolves t1 t2 → task_evolves t2 t3 → task_evolves t1 t3.
Proof. intros [] []. split; try congruence. unfold moves in *. by etrans. Qed.

(** Distinct keys, the old tasks in their places, the new ones begun as pending. *)
Record tasks_from (l l' : list DevTask) : Prop := {
  tf_ids : NoDup (dt_id <$> l');
  tf_wp_ids : NoDup (dt_wp_id <$> l');
  tf_rows : ∃ kept new, l' = kept ++ new ∧ Forall2 task_evolves l kept ∧
              Forall (λ t, moves PENDING (dt_status t)) new }.

Lemma tasks_from_map l l' f :
  tasks_from l l' → (∀ t, t ∈ l' → task_evolves t (f t)) → tasks_from l (f <$> l').
Proof.
  intros [Hi Hw (kept & new & -> & Hk & Hn)] Hf.
  assert (∀ {B} (g : DevTask → B), (∀ t, t ∈ kept ++ new → g (f t) = g t) → g <$> (f <$> kept ++ new) = g <$> kept ++ new) as Hg.
  { intros B g Hg. rewrite <- list_fmap_compose. apply list_fmap_ext.
    intros i t Ht. apply Hg. by eapply list_elem_of_lookup_2. }
  split.
  - rewrite Hg; [done|]. intros t Ht. by destruct (Hf t Ht).
  - rewrite Hg; [done|]. intros t Ht. by destruct (Hf t Ht).
  - exists (f <$> kept), (f <$> new). rewrite fmap_app. split_and!; [done| |].
    + apply Forall2_fmap_r. assert (∀ t, t ∈ kept → task_evolves t (f t)) as Hf' by set_solver.
      clear - Hk Hf'. induction Hk as [|a b ? ? Hab _ IH]; constructor.
      * eapply dev_evolves_trans; [exact Hab|]. apply Hf'. by left.
      * apply IH. intros t Ht. apply Hf'. by right.
    + rewrite Forall_fmap, Forall_forall in *. intros t Ht. cbn.
      destruct (Hf t) as [_ _ _ _ _ Hm]; [set_solver|]. unfold moves in *. etrans; [by apply Hn|done].
Qed.

Lemma restatus_evolves id_ new now ch l t0 t :
  filter (λ u, dt_id u = id_) l = [t0] → task_can_transition (dt_status t0) new = true → t ∈ l →
  task_evolves t (restatus id_ new now ch t).
Proof.
  intros Hl Hc Ht. unfold restatus. case_decide as Hid; [|apply dev_evolves_refl].
  assert (t ∈ filter (λ u, dt_id u = id_) l) as Hin by by apply list_elem_of_filter.
  rewrite Hl in Hin. apply list_elem_of_singleton in Hin as ->. split; try done. by apply rtc_once.
Qed.

Definition tables_from (l : list DevTask) (w : World) : Prop := tasks_from l (dv_tasks (dw_db w)).
#[export] Instance tables_from_inside l : Inside (tables_from l).
Proof. by intros w w' [Hd _]; unfold tables_from; rewrite Hd. Qed.
#[export] Instance tables_from_rolls l : Rolls (tables_from l).
Proof. by intros w w' Hw _. Qed.

Lemma from_op l o : preserves (tables_from l) (run_op o).
Proof.
  apply (plain_op _ (λ _, tables_from l)).
  all: try (intros; intros w r w' [= <- <-] Hw; exact Hw); try done.
  2: intros j.
  1,2: intros i new ch w r w' [[Hd _]|(t & now & _ & _ & Hl & Hc & _ & Hd)]%task_update_run;
    unfold tables_from; rewrite Hd; [done|]; intros Hw; apply tasks_from_map; [done|]; intros;
    by eapply restatus_evolves.
  - intros wp title risk w r w' [[[Hd _] _]|(i & t1 & t2 & _ & Hi & Hwp & _ & Hd)]%create_task_run;
      unfold tables_from; rewrite Hd; [done|]. intros [Hni Hnw (kept & new & Ht & Hk & Hn)].
    split; cbn; rewrite ?fmap_app.
    + apply NoDup_app. split_and!; [done| |apply NoDup_singleton]. set_solver.
    + apply NoDup_app. split_and!; [done| |apply NoDup_singleton]. set_solver.
    + exists kept, (new ++ [new_task i wp title risk t1 t2]). rewrite Ht, <- app_assoc. split_and!; [done..|].
      apply Forall_app. split; [done|]. by apply Forall_singleton.
  - intros i t w r w' [[Hd _]|[_ Hd]]%mark_polled_run; unfold tables_from; rewrite Hd; [done|]. intros Hw.
    apply tasks_from_map; [done|]. intros u _. by case_decide.
  - intros w r w' [_ (cutoff & now & Hd)]%expire_run. unfold tables_from. rewrite Hd. intros Hw.
    apply tasks_from_map; [done|]. intros u _. destruct (_ && _) eqn:Hx; [|done].
    apply andb_true_iff in Hx as [_ Hx]. split; try done. by apply rtc_once.
Qed.

(** A status without a way out. *)
Lemma moves_final a b : a ∈ [COMPLETED; EXPIRED] → moves a b → b = a.
Proof.
  intros Ha Hm. destruct Hm as [|a c b Hac _]; [done|]. exfalso.
  apply list_elem_of_In in Ha. unfold task_can_transition in Hac. apply bool_decide_eq_true in Hac.
  destruct Ha as [<-|[<-|[]]]; vm_compute in Hac; by inversion Hac.
Qed.

(** C29: Over every history a task keeps its row, its work package, title and risk; there is one task per
    work package; a task's status only moves along the task machine, a new one from [pending], and a
    completed or expired task stays so. *)
Theorem dev_tasks_follow_machine w ops :
  NoDup (dt_id <$> dv_tasks (dw_db w)) → NoDup (dt_wp_id <$> dv_tasks (dw_db w)) →
  let w' := dev_history w ops in
  tasks_from (dv_tasks (dw_db w)) (dv_tasks (dw_db w')) ∧
  ∀ t, t ∈ dv_tasks (dw_db w) → dt_status t ∈ [COMPLETED; EXPIRED] →
    ∃ t', t' ∈ dv_tasks (dw_db w') ∧ dt_id t' = dt_id t ∧ dt_status t' = dt_status t.
Proof.
  intros Hi Hw w'.
  assert (tasks_from (dv_tasks (dw_db w)) (dv_tasks (dw_db w'))) as Hf.
  { apply (history_keeps (tables_from (dv_tasks (dw_db w)))).
    - apply Forall_true. intros o. apply from_op.
    - split; [done..|]. exists (dv_tasks (dw_db w)), []. rewrite app_nil_r. split_and!; [done| |done].
      apply Forall_Forall2_diag, Forall_true, dev_evolves_refl. }
  split; [done|]. intros t Ht Hs. destruct Hf as [_ _ (kept & new & -> & Hk & _)].
  apply list_elem_of_lookup_1 in Ht as (i & Ht).
  destruct (Forall2_lookup_l _ _ _ _ _ Hk Ht) as (t' & Ht' & He).
  exists t'. split; [apply elem_of_app; left; by eapply list_elem_of_lookup_2|].
  destruct He as [He _ _ _ _ Hm]. split; [done|]. by apply moves_final.
Qed.

(** ** Merge requests *)
Definition requests_scanned (effects : list dev_effect) : Prop :=
  ∀ i id_ branch, effects !! i = Some (MergeRequest id_ branch) →
    ∃ j, i = S j ∧ effects !! j = Some (Scan id_ true).

Definition scanned_world (w : World) : Prop := requests_scanned (dw_effects w).
Definition just_scanned (id_ : string) (w : World) : Prop :=
  scanned_world w ∧ last (dw_effects w) = Some (Scan id_ true).
#[export] Instance scanned_inside : Inside scanned_world.
Proof. intros w w' [_ He]. unfold scanned_world. by rewrite He. Qed.
#[export] Instance scanned_rolls : Rolls scanned_world.
Proof. by intros w w' _ Hw. Qed.
#[export] Instance just_scanned_inside i : Inside (just_scanned i).
Proof. intros w w' [_ He]. unfold just_scanned, scanned_world. by rewrite He. Qed.

Lemma scanned_snoc l e : requests_scanned l → (∀ i b, e ≠ MergeRequest i b) → requests_scanned (l ++ [e]).
Proof.
  intros Hl He i id_ b [Hi|[_ Hi]]%lookup_app_Some.
  - destruct (Hl _ _ _ Hi) as (j & -> & Hj). exists j. split; [done|]. by apply lookup_app_l_Some.
  - apply list_lookup_singleton_Some in Hi as [_ ->]. by destruct (He id_ b).
Qed.

Lemma scanned_op o : preserves scanned_world (run_op o).
Proof.
  assert (∀ (P : list dev_effect → Prop) {A} (m : M World A),
            (∀ w r w', m w = (r, w') → dw_effects w' = dw_effects w) →
            preserves (λ w, P (dw_effects w)) m) as Heff.
  { intros P A m Hm w r w' H. by rewrite (Hm _ _ _ H). }
  assert (∀ i new ch w r w', update_status i new ch w = (r, w') → dw_effects w' = dw_effects w) as Hst.
  { intros i new ch w r w' [[_ He]|(t & now & _ & _ & _ & _ & He & _)]%task_update_run; done. }
  apply (plain_op _ just_scanned).
  - intros i new ch. apply (Heff requests_scanned). apply Hst.
  - intros j i new ch. apply (Heff (λ l, requests_scanned l ∧ last l = Some (Scan j true))), Hst.
  - intros wp title risk. apply (Heff requests_scanned).
    intros w r w' [[[_ He] _]|(i & t1 & t2 & _ & _ & _ & He & _)]%create_task_run; done.
  - intros i json. apply (Heff requests_scanned). intros w r w'.
    destruct (create_log_run i json w) as (g & w1 & -> & _ & _ & He & _). by intros [= <- <-].
  - intros i t. apply (Heff requests_scanned). intros w r w' [[_ He]|[He _]]%mark_polled_run; done.
  - intros l. apply (Heff requests_scanned). by intros w r w' [= <- <-].
  - apply (Heff requests_scanned). by intros w r w' [He _]%expire_run.
  - intros i w r w' [= <- <-] Hw. by apply scanned_snoc.
  - intros i risk wf w r w' [= <- <-] Hw. by apply scanned_snoc.
  - intros i w r w' [= <- <-] Hw. by apply scanned_snoc.
  - intros i w r w' [= <- <-] Hw. split; [by apply scanned_snoc|]. cbn. by rewrite last_snoc.
  - by intros i w [].
  - intros t w r w' [= <- <-] [Hw Hl] i id_ b [Hi|[Hle Hi]]%lookup_app_Some; cbn in *.
    + destruct (Hw _ _ _ Hi) as (j & -> & Hj). exists j. split; [done|]. by apply lookup_app_l_Some.
    + apply list_lookup_singleton_Some in Hi as [Hi Heq]. injection Heq as <- _.
      rewrite last_lookup in Hl. exists (pred (length (dw_effects w))).
      assert (pred (length (dw_effects w)) < length (dw_effects w))%nat as Hlt by by eapply lookup_lt_Some.
      split; [lia|]. by apply lookup_app_l_Some.
Qed.

(** A scan passes only when both tools ran and neither found anything. *)
Definition tools_passed (k : nat) (path : string) : Prop :=
  (∃ out, dp_tool k ["pip-audit"; "--strict"] = Exited 0 out) ∧
  ∃ code out, dp_tool (S k) ["detect-secrets"; "scan"; path] = Exited code out ∧
    (code = 0 ∨ str_contains "secret" (lower (str_take 500 out)) = false ∧
                str_contains "potential" (lower (str_take 500 out)) = false).

Lemma scan_passed path w rep w' :
  security_scan path w = (Ok rep, w') → sr_passed rep = true → tools_passed (dw_calls w) path.
Proof.
  unfold security_scan, tools_passed. rewrite M_bind_run. cbn. rewrite M_bind_run. cbn.
  destruct (dp_tool (dw_calls w) _) as [code out| | |e]; cbn; [|rewrite M_bind_run; cbn..|done].
  2,3: destruct (dp_tool (S (dw_calls w)) _); cbn; [destruct (_ && _)|..]; by intros [= <- _].
  rewrite M_bind_run. cbn. destruct (code =? 0) eqn:Hc.
  2:{ destruct (dp_tool (S (dw_calls w)) _); cbn; [destruct (_ && _)|..]; by intros [= <- _]. }
  apply Z.eqb_eq in Hc as ->.
  destruct (dp_tool (S (dw_calls w)) _) as [code2 out2| | |e] eqn:H2; cbn; [|by intros [= <- _]..|done].
  destruct (_ && _) eqn:Hb; intros [= <- _]; [done|]. intros _. split; [eauto|].
  exists code2, out2. split; [done|]. apply andb_false_iff in Hb as [Hb|Hb]; [left|right].
  - apply negb_false_iff in Hb. lia.
  - by apply orb_false_iff in Hb.
Qed.

(** C30: Over every history the call before a request for a merge is a passed scan of the same task; and a
    scan passes only when [pip-audit] exited with success and [detect-secrets] ran and either exited with
    success, whatever it printed, or printed neither [secret] nor [potential] in its first 500
    characters. *)
Theorem merge_requests_scanned w ops :
  requests_scanned (dw_effects w) →
  requests_scanned (dw_effects (dev_history w ops)) ∧
  ∀ w1 path rep w2, security_scan path w1 = (Ok rep, w2) → sr_passed rep = true →
    tools_passed (dw_calls w1) path.
Proof.
  intros Hw. split; [|intros w1 path rep w2; apply scan_passed].
  apply (history_keeps scanned_world); [|done]. apply Forall_true. intros o. apply scanned_op.
Qed.

(** ** Capacity *)
Definition busy (l : list DevTask) : list string := dt_id <$> filter (λ t, dt_status t ∈ IN_PROGRESS_STATUSES) l.
Definition limit : nat := Z.to_nat dp_max_concurrent.

(** Only the tasks of [S] are in progress. *)
Record within (S : list string) (w : World) : Prop := {
  wi_ids : NoDup (dt_id <$> dv_tasks (dw_db w));
  wi_busy : ∀ t, t ∈ dv_tasks (dw_db w) → dt_status t ∈ IN_PROGRESS_STATUSES → dt_id t ∈ S }.
(** There is room among [cap] for the tasks in progress and for those of [l]. *)
Definition room (cap : nat) (l : list DevTask) (w : World) : Prop :=
  ∃ S, (length S ≤ cap)%nat ∧ Forall (λ t, dt_id t ∈ S) l ∧ within S w.

Lemma busy_spec i l : i ∈ busy l ↔ ∃ t, t ∈ l ∧ dt_id t = i ∧ dt_status t ∈ IN_PROGRESS_STATUSES.
Proof. unfold busy. rewrite list_elem_of_fmap. setoid_rewrite list_elem_of_filter. naive_solver. Qed.
Lemma in_progress_busy l : in_progress l = Z.of_nat (length (busy l)).
Proof. unfold in_progress, busy. by rewrite length_fmap. Qed.

Lemma busy_within S w : within S w → (length (busy (dv_tasks (dw_db w))) ≤ length S)%nat.
Proof.
  intros [Hn Hb]. apply submseteq_length, NoDup_submseteq.
  - eapply sublist_NoDup; [exact Hn|]. apply fmap_sublist, sublist_filter.
  - intros i (t & Ht & <- & Hs)%busy_spec. by apply Hb.
Qed.
Lemma within_busy w : NoDup (dt_id <$> dv_tasks (dw_db w)) → within (busy (dv_tasks (dw_db w))) w.
Proof. intros Hn. split; [done|]. intros t Ht Hs. apply busy_spec. eauto. Qed.
Lemma within_more S S' w : within S w → S ⊆ S' → within S' w.
Proof. intros [Hn Hb] HS. split; [done|]. intros t Ht Hs. by apply HS, Hb. Qed.
Lemma room_nil cap l w : room cap l w → room cap [] w.
Proof. intros (S & HS & _ & Hw). by exists S. Qed.

Lemma within_same S w w' : dv_tasks (dw_db w') = dv_tasks (dw_db w) → within S w → within S w'.
Proof. intros Ht [Hn Hb]. split; by rewrite Ht. Qed.
#[export] Instance within_inside S : Inside (within S).
Proof. intros w w' [Hd _]. apply within_same. by rewrite Hd. Qed.
#[export] Instance room_inside cap l : Inside (room cap l).
Proof. intros w w' Ho (S & HS & Hl & Hw). exists S. split_and!; try done. by apply (inside w). Qed.
#[export] Instance room_rolls cap l : Rolls (room cap l).
Proof. intros w w' (S & HS & Hl & Hw) _. exists S. split_and!; try done. by apply (within_same S w). Qed.

Lemma room_keeps {A} cap l (m : M World A) :
  (∀ S, Forall (λ t, dt_id t ∈ S) l → preserves (within S) m) → preserves (room cap l) m.
Proof. intros Hm w r w' H (S & HS & Hl & Hw). exists S. split_and!; try done. by eapply Hm. Qed.

Lemma within_map S w w' f :
  dv_tasks (dw_db w') = f <$> dv_tasks (dw_db w) →
  (∀ t, t ∈ dv_tasks (dw_db w) → dt_id (f t) = dt_id t ∧
     (dt_status (f t) ∈ IN_PROGRESS_STATUSES → dt_id t ∈ S ∨ dt_status t ∈ IN_PROGRESS_STATUSES)) →
  within S w → within S w'.
Proof.
  intros Ht Hf [Hn Hb]. split; rewrite Ht.
  - rewrite <- list_fmap_compose. erewrite list_fmap_ext; [exact Hn|]. intros i t Hi. apply Hf. by eapply list_elem_of_lookup_2.
  - intros t' (t & -> & Hin)%list_elem_of_fmap Hs. destruct (Hf t Hin) as [-> Hp].
    destruct (Hp Hs); [done|]. by apply Hb.
Qed.

Lemma within_status S i new ch :
  i ∈ S ∨ new ∉ IN_PROGRESS_STATUSES → preserves (within S) (update_status i new ch).
Proof.
  intros Hi w r w' [Ho|(t & now & _ & _ & _ & _ & _ & Hd)]%task_update_run; [by apply inside|].
  eapply within_map with (f := restatus i new now ch); [by rewrite Hd|]. intros u _.
  split; [apply restatus_id|]. unfold restatus. case_decide as Hu; [|auto]. subst. cbn. naive_solver.
Qed.
Lemma not_busy s : s ∈ [PENDING; FAILED; COMPLETED; EXPIRED] → s ∉ IN_PROGRESS_STATUSES.
Proof.
  intros Hs. apply list_elem_of_In in Hs.
  destruct Hs as [<-|[<-|[<-|[<-|[]]]]]; apply (bool_decide_unpack _); vm_compute; exact I.
Qed.
Lemma active_busy s : s ∈ ACTIVE_STATUSES → s ∈ IN_PROGRESS_STATUSES.
Proof. intros Hs. do 2 right. done. Qed.

Lemma within_log S i json : preserves (within S) (create_log i json).
Proof.
  intros w r w'. destruct (create_log_run i json w) as (g & w1 & -> & _ & _ & _ & Hd).
  intros [= <- <-]. apply within_same. by rewrite Hd.
Qed.
Lemma within_execute S plan t trace : dt_id t ∈ S → preserves (within S) (execute_workflow plan t trace).
Proof.
  intros HS. apply execute_keeps; [apply _|intros ch; apply within_status; by left..| |].
  - intros w r w' [= <- <-]. by apply within_same.
  - intros wf w r w' [= <- <-]. by apply within_same.
Qed.
Lemma within_plan S s t risk trace : dt_id t ∈ S → preserves (within S) (plan_and_execute s t risk trace).
Proof.
  intros HS. assert (∀ new ch, preserves (within S) (update_status (dt_id t) new ch)) by (intros new ch; apply within_status; by left).
  apply (plan_keeps _ (within S)); auto with typeclass_instances.
  - intros json w r w' _. apply within_log.
  - intros _ plan. by apply within_execute.
Qed.
Lemma within_stage S l : preserves (within S) (stage l).
Proof. intros w r w' [= <- <-]. by apply within_same. Qed.
Lemma within_start S t : dt_id t ∈ S → preserves (within S) (start_and_stage t).
Proof. intros HS. apply start_keeps; [apply _|intros w l s _ _ _; by apply within_plan|apply within_stage]. Qed.
Lemma within_completion S t status : dt_id t ∈ S → preserves (within S) (handle_completion t status).
Proof.
  intros HS. assert (∀ new ch, preserves (within S) (update_status (dt_id t) new ch)) by (intros new ch; apply within_status; by left).
  apply (completion_keeps _ (within S)); auto with typeclass_instances.
  all: intros w r w' [= <- <-]; by apply within_same.
Qed.
Lemma within_poll S now t : dt_id t ∈ S → preserves (within S) (poll_task now t).
Proof.
  intros HS. assert (∀ new ch, preserves (within S) (update_status (dt_id t) new ch)) by (intros new ch; apply within_status; by left).
  apply poll_keeps; auto with typeclass_instances.
  - intros w r w' [Ho|[_ Hd]]%mark_polled_run; [by apply inside|].
    eapply within_map with (f := λ u, if decide (dt_id u = dt_id t) then polled now u else u); [by rewrite Hd|].
    intros u _. case_decide; cbn; auto.
  - apply within_stage.
  - intros _ status. by apply within_completion.
Qed.

Lemma room_fill cap candidates st wanted :
  (limit ≤ cap)%nat →
  (∀ n, candidates n = query_dev (λ d, oldest st n (dv_tasks d))) → preserves (room cap []) (fill_slots candidates wanted).
Proof.
  intros Hcap Hf. apply (fill_keeps _ (room cap) _ (λ n d, oldest st n (dv_tasks d))); [done| |apply room_nil|].
  - intros w (S & HS & _ & Hw) Hlt. set (l := filter _ _).
    exists (busy (dv_tasks (dw_db w)) ++ (dt_id <$> l)). split_and!.
    + rewrite length_app, length_fmap. unfold limit in Hcap.
      assert (length l ≤ Z.to_nat (dp_max_concurrent - in_progress (dv_tasks (dw_db w))))%nat as Hl.
      { etrans; [apply length_filter|]. unfold oldest. rewrite length_take. lia. }
      rewrite in_progress_busy in Hl, Hlt. lia.
    + apply Forall_forall. intros t Ht. apply elem_of_app. right. by apply list_elem_of_fmap_2.
    + eapply within_more; [apply within_busy; by destruct Hw|]. set_solver.
  - intros l t Ht. apply room_keeps. intros S HS. apply within_start. by eapply Forall_forall in HS.
Qed.

Lemma room_process cap s risk trace :
  (limit ≤ cap)%nat → preserves (room cap []) (process_single_task s risk trace).
Proof.
  intros Hcap.
  apply (process_keeps _ (λ _, room cap []) (λ _, room cap []) (λ t, room cap [t])).
  - intros w r w' [[Ho Hr]|(i & t1 & t2 & -> & Hi & _ & _ & Hd)]%create_task_run Hw.
    { assert (room cap [] w') by by apply (inside w). by destruct r as [[|]|]. }
    split; [|done]. destruct Hw as (S & HS & _ & [Hn Hb]). exists S. split_and!; [done..|]. split; rewrite Hd; cbn.
    + rewrite fmap_app. apply NoDup_app. split_and!; [done| |apply NoDup_singleton]. set_solver.
    + intros t [Ht| ->%list_elem_of_singleton]%elem_of_app Hs; [by apply Hb|].
      exfalso. revert Hs. apply not_busy. left.
  - intros t w w' H _. revert w w' H. intros w w' H.
    eapply (room_keeps cap [] (create_log _ _)); [intros S _; apply within_log|exact H].
  - done.
  - intros t w (S & HS & _ & Hw) Hlt. exists (dt_id t :: busy (dv_tasks (dw_db w))). split_and!.
    + rewrite in_progress_busy in Hlt. cbn. unfold limit in Hcap. lia.
    + apply Forall_singleton. left.
    + eapply within_more; [apply within_busy; by destruct Hw|]. set_solver.
  - intros t w. apply room_nil.
  - intros t _. apply room_keeps. intros S HS. rewrite Forall_singleton in HS. by apply within_plan.
Qed.

Lemma room_known cap w t : room cap [] w → t ∈ dv_tasks (dw_db w) → dt_status t ∈ IN_PROGRESS_STATUSES → room cap [t] w.
Proof.
  intros (S & HS & _ & Hw) Ht Hs. exists S. split_and!; try done. apply Forall_singleton. by destruct Hw as [_ Hb]; apply Hb.
Qed.

(** What is done without a manual retry. *)
Definition automatic (o : dev_op) : Prop :=
  match o with DevRequest r => action_is r "retry_task" = false | _ => True end.

Lemma room_op cap o : (limit ≤ cap)%nat → automatic o → preserves (room cap []) (run_op o).
Proof.
  intros Hcap. destruct o as [e| | |r]; intros Ho.
  - apply op_event.
    + apply ready_keeps; try apply _. intros. by apply room_process.
    + apply (qa_event_keeps _ (λ t, room cap [t])); try apply _.
      * intros w t Hw Ht Hs. apply room_known; try done. rewrite Hs. by apply active_busy, (bool_decide_unpack _).
      * intros t w. apply room_nil.
      * intros t payload. apply room_keeps. intros S HS. rewrite Forall_singleton in HS. apply qa_result_keeps; [apply _|].
        intros new ch. apply within_status. by left.
  - apply preserves_bind; [|dwalk]. apply (reconcile_keeps _ (room cap)); try apply _.
    + intros w (S & HS & _ & Hw). exists S. split_and!; try done. apply Forall_forall.
      intros t [Hs Ht]%list_elem_of_filter. destruct Hw as [_ Hb]. by apply Hb, active_busy.
    + intros l w. apply room_nil.
    + intros l t now Ht. apply room_keeps. intros S HS. apply within_poll. by eapply Forall_forall in HS.
    + by eapply room_fill.
    + by eapply room_fill.
  - apply op_expire; try apply _. apply room_keeps. intros S _ w r w' [_ (cutoff & now & Hd)]%expire_run.
    eapply within_map; [by rewrite Hd|]. intros t _. cbn. destruct (_ && _); [|auto]. cbn. split; [done|].
    intros Hs. exfalso. revert Hs. apply not_busy. set_solver.
  - apply preserves_bind; [|dwalk]. apply request_keeps; try apply _.
    + intros Hr. cbn in Ho. congruence.
    + intros i ch. apply room_keeps. intros S _. apply within_status. right. apply not_busy. set_solver.
    + intros _. apply (approve_leads (room cap []) (room cap []) (λ t, room cap [t])); [apply _|auto| |intros t w; apply room_nil|].
      * intros w t log_ Hw Ht _ Hs _. apply room_known; try done. rewrite Hs. set_solver.
      * intros t l _. apply (leads_weaken _ (room cap [t]) _ (room cap [t])); [|auto|intros w; apply room_nil].
        apply planned_leads; [apply _|auto|]. intros plan w i by_ d _ _.
        apply room_keeps. intros S HS. rewrite Forall_singleton in HS. by apply within_execute.
Qed.

(** C31: Without manual retries no more tasks are in progress than the configured number of concurrent
    workflows, or than there were at the start if those were more. *)
Theorem dev_capacity w ops :
  NoDup (dt_id <$> dv_tasks (dw_db w)) → Forall automatic ops →
  in_progress (dv_tasks (dw_db (dev_history w ops)))
    ≤ Z.max (Z.max 0 dp_max_concurrent) (in_progress (dv_tasks (dw_db w))).
Proof.
  intros Hn Hops. rewrite !in_progress_busy. set (cap := (limit `max` length (busy (dv_tasks (dw_db w))))%nat).
  assert (room cap [] (dev_history w ops)) as (S & HS & _ & Hw).
  { apply history_keeps; [eapply Forall_impl; [exact Hops|intros o; apply room_op; lia]|].
    exists (busy (dv_tasks (dw_db w))). split_and!; [lia|done|by apply within_busy]. }
  apply busy_within in Hw. unfold cap, limit in HS. lia.
Qed.

(** A retried task waits in [planning], where it counts as in progress: once such tasks fill the limit,
    the loop starts neither them nor any other task. *)
Lemma retries_starve w :
  Forall (λ t, dt_status t ∈ IN_PROGRESS_STATUSES → dt_status t = PLANNING) (dv_tasks (dw_db w)) →
  dp_max_concurrent ≤ in_progress (dv_tasks (dw_db w)) →
  dw_db (dev_step w DevReconcile) = dw_db w.
Proof.
  intros Hp Hc. unfold dev_step. cbn. rewrite M_bind_run. unfold _reconcile, catchM, in_dev_uow.
  rewrite M_bind_run. cbn. destruct (dp_reconcile_lock _); [|done].
  unfold reconcile_body. rewrite M_bind_run. cbn. rewrite filter_none.
  2:{ intros t Ht Hs. rewrite Forall_forall in Hp. specialize (Hp t Ht (active_busy _ Hs)). rewrite Hp in Hs.
      revert Hs. apply (bool_decide_unpack (PLANNING ∉ ACTIVE_STATUSES)). vm_compute. exact I. }
  set (w0 := Build_World _ _ _ _). destruct (dev_now_run w0) as (now & w1 & H1 & Hd & _).
  rewrite M_bind_run, H1. cbn in Hd. cbn [gather_all]. rewrite M_bind_run. cbn [mret M_ret].
  assert (∀ c p, fill_slots c p w1 = (Ok [], w1)) as Hf.
  { intros c p. unfold fill_slots. rewrite M_bind_run. cbn. rewrite Hd.
    rewrite (proj2 (Z.ltb_ge _ _)) by lia. done. }
  rewrite M_bind_run, Hf, M_bind_run, Hf. cbn. exact Hd.
Qed.

(** ** Delivery *)
Definition logs_of (i : string) (w : World) : nat :=
  length (filter (λ l, wl_task_id l = i) (dv_logs (dw_db w))).
Definition light : list string := [PENDING; PLANNING; FAILED; EXPIRED].
Definition early (s : string) : Prop :=
  s ∈ [PENDING; PLANNING; AWAITING_APPROVAL; EXECUTING; FAILED; EXPIRED] ∨
  dp_gitlab = false ∧ s = SECURITY_SCANNING.
Definition only_runs (e : dev_effect) : Prop :=
  match e with CreateWorkflow _ | RunWorkflow _ _ _ => True | _ => False end.

(** The tasks with the rows [except] left out have a log, and two once they were planned. *)
Record undelivered_but (except : string → Prop) (w : World) : Prop := {
  un_ids : NoDup (dt_id <$> dv_tasks (dw_db w));
  un_early : ∀ t, t ∈ dv_tasks (dw_db w) → early (dt_status t);
  un_once : ∀ t, t ∈ dv_tasks (dw_db w) → ¬ except (dt_id t) → (1 ≤ logs_of (dt_id t) w)%nat;
  un_twice : ∀ t, t ∈ dv_tasks (dw_db w) → dt_status t ∉ light → (2 ≤ logs_of (dt_id t) w)%nat;
  un_calls : Forall only_runs (dw_effects w) }.
Definition undelivered : World → Prop := undelivered_but (λ _, False).
(** And the task [i] has [n] logs. *)
Definition logged (n : nat) (i : string) (w : World) : Prop := undelivered w ∧ (n ≤ logs_of i w)%nat.

Lemma un_same x w w' :
  dv_tasks (dw_db w') = dv_tasks (dw_db w) → (∀ i, (logs_of i w ≤ logs_of i w')%nat) →
  dw_effects w' = dw_effects w → undelivered_but x w → undelivered_but x w'.
Proof.
  intros Ht Hl He [H1 H2 H3 H4 H5]. split; rewrite ?Ht, ?He; try done.
  - intros t Hin Hx. etrans; [by apply H3|apply Hl].
  - intros t Hin Hs. etrans; [by apply H4|apply Hl].
Qed.
Lemma logs_same i w w' : dv_logs (dw_db w') = dv_logs (dw_db w) → logs_of i w' = logs_of i w.
Proof. unfold logs_of. by intros ->. Qed.

#[export] Instance undelivered_inside : Inside undelivered.
Proof.
  intros w w' [Hd He]. apply un_same; [by rewrite Hd| |done].
  intros i. by rewrite (logs_same i w w') by by rewrite Hd.
Qed.
#[export] Instance undelivered_rolls : Rolls undelivered.
Proof. by intros w w' [H1 H2 H3 H4 _] [_ _ _ _ H5]; split. Qed.
#[export] Instance logged_inside n i : Inside (logged n i).
Proof.
  intros w w' Ho [Hu Hn]. split; [by apply (inside w)|]. destruct Ho as [Hd _].
  rewrite (logs_same i w w'); [done|]. by rewrite Hd.
Qed.
Lemma logged_undelivered n i w : logged n i w → undelivered w.
Proof. by intros []. Qed.

Lemma un_update i new ch w r w' :
  early new → (new ∉ light → (2 ≤ logs_of i w)%nat) →
  update_status i new ch w = (r, w') → undelivered w →
  undelivered w' ∧ ∀ j, logs_of j w' = logs_of j w.
Proof.
  intros He Hn [Ho|(t & now & _ & _ & _ & _ & Hf & Hd)]%task_update_run Hu.
  { split; [by apply (inside w)|]. intros j. apply logs_same. by destruct Ho as [-> _]. }
  assert (∀ j, logs_of j w' = logs_of j w) as Hl by (intros j; apply logs_same; by rewrite Hd).
  split; [|done]. destruct Hu as [H1 H2 H3 H4 H5]. split; rewrite ?Hd, ?Hf; cbn; [|..|done].
  - rewrite <- list_fmap_compose. erewrite list_fmap_ext; [exact H1|]. intros. apply restatus_id.
  - intros u (v & -> & Hv)%list_elem_of_fmap. unfold restatus. case_decide; [done|by apply H2].
  - intros u (v & -> & Hv)%list_elem_of_fmap Hx. rewrite Hl. rewrite restatus_id in *. by apply H3.
  - intros u (v & -> & Hv)%list_elem_of_fmap. rewrite Hl, restatus_id. unfold restatus.
    case_decide as Hi; [|by apply H4]. cbn. rewrite Hi. exact Hn.
Qed.

Lemma light_status i new ch n j : new ∈ light → preserves (logged n j) (update_status i new ch).
Proof.
  intros Hl w r w' H [Hu Hn]. apply un_update in H as [Hu' Hs]; [|..|done].
  - split; [done|]. by rewrite Hs.
  - left. unfold light in Hl. set_solver.
  - done.
Qed.
Lemma planned_status i new ch : early new → preserves (logged 2 i) (update_status i new ch).
Proof.
  intros He w r w' H [Hu Hn]. apply un_update in H as [Hu' Hs]; [|done|done|done].
  split; [done|]. by rewrite Hs.
Qed.
Lemma un_light i new ch : new ∈ light → preserves undelivered (update_status i new ch).
Proof.
  intros Hl w r w' H Hu. assert (logged 0 i w) as Hw by (split; [done|lia]).
  eapply logged_undelivered, (light_status i new ch 0 i Hl w r w' H Hw).
Qed.
Lemma logged_call n i e : only_runs e → preserves (logged n i) (did e).
Proof.
  intros He w r w' [= <- <-] [[H1 H2 H3 H4 H5] Hn]. split; [|done]. split; try done.
  cbn. apply Forall_app. split; [done|]. by apply Forall_singleton.
Qed.

Lemma logs_snoc i json w w' :
  create_log i json w = (Ok (), w') →
  dv_tasks (dw_db w') = dv_tasks (dw_db w) ∧ dw_effects w' = dw_effects w ∧
  ∀ j, logs_of j w' = (logs_of j w + if decide (i = j) then 1 else 0)%nat.
Proof.
  intros H. destruct (create_log_run i json w) as (g & w1 & H' & Hi & _ & He & Hd). rewrite H in H'.
  injection H' as <-. rewrite Hd. split_and!; [done|done|]. intros j. unfold logs_of. rewrite Hd. cbn.
  rewrite filter_app, length_app, filter_cons, Hi. by case_decide.
Qed.
Lemma logged_log n i json w r w' :
  create_log i json w = (r, w') → logged n i w → logged (S n) i w'.
Proof.
  intros H [Hu Hn]. destruct (create_log_run i json w) as (g & w1 & H' & _). rewrite H in H'.
  injection H' as -> <-. apply logs_snoc in H as (Ht & He & Hl). split.
  - eapply un_same; [exact Ht| |exact He|done]. intros j. rewrite Hl. lia.
  - rewrite Hl, decide_True by done. lia.
Qed.

Lemma logged_execute plan t trace : preserves (logged 2 (dt_id t)) (execute_workflow plan t trace).
Proof.
  apply execute_keeps; [apply _|intros ch; apply planned_status; left; set_solver..| |].
  - by apply logged_call.
  - intros wf. by apply logged_call.
Qed.
Lemma logged_plan s t risk trace : preserves (logged 1 (dt_id t)) (plan_and_execute s t risk trace).
Proof.
  apply (plan_keeps _ (logged 2 (dt_id t))); try apply _.
  - intros ch. apply light_status. set_solver.
  - intros ch. apply light_status. set_solver.
  - intros json w r w' _. apply logged_log.
  - intros w [Hu Hn]. split; [done|lia].
  - intros _ ch. apply planned_status. left. set_solver.
  - intros _ plan. apply logged_execute.
Qed.

Lemma twice_log_raises i w : (2 ≤ logs_of i w)%nat → get_by_task_id i w = (Raise multiple_results, w).
Proof.
  intros Hn. unfold get_by_task_id. rewrite M_bind_run. cbn. set (l := py_sorted _ _).
  assert (2 ≤ length l)%nat as Hl by (unfold l; by rewrite py_sorted_perm).
  clearbody l. destruct l as [|? [|]]; cbn in *; try lia. done.
Qed.

(** The tasks of [l] have [n] logs each. *)
Definition all_logged (n : nat) (l : list DevTask) (w : World) : Prop :=
  undelivered w ∧ Forall (λ t, (n ≤ logs_of (dt_id t) w)%nat) l.
#[export] Instance all_logged_inside n l : Inside (all_logged n l).
Proof.
  intros w w' Ho [Hu Hn]. split; [by apply (inside w)|]. eapply Forall_impl; [exact Hn|]. cbn.
  intros t Ht. rewrite (logs_same _ w w'); [done|]. by destruct Ho as [-> _].
Qed.
(** Logs are never removed. *)
Lemma all_logged_keeps {A} n l t (m : M World A) :
  t ∈ l → preserves (logged n (dt_id t)) m →
  (∀ j w r w', m w = (r, w') → (logs_of j w ≤ logs_of j w')%nat) → preserves (all_logged n l) m.
Proof.
  intros Ht Hm Hl w r w' H [Hu Hn]. split.
  - assert (logged n (dt_id t) w) as Hw by (split; [done|]; by eapply Forall_forall in Hn).
    eapply logged_undelivered, (Hm w r w' H Hw).
  - eapply Forall_impl; [exact Hn|]. cbn. intros u Hu'. etrans; [exact Hu'|]. by eapply Hl.
Qed.

(** *** Logs only grow *)
Definition grown (w0 w : World) : Prop := ∀ j, (logs_of j w0 ≤ logs_of j w)%nat.
#[export] Instance grown_inside w0 : Inside (grown w0).
Proof. intros w w' [Hd _] Hg j. rewrite (logs_same j w w'); [done|by rewrite Hd]. Qed.
Lemma grown_frame {A} w0 (m : M World A) :
  (∀ w r w', m w = (r, w') → dv_logs (dw_db w') = dv_logs (dw_db w)) → preserves (grown w0) m.
Proof. intros Hm w r w' H Hg j. rewrite (logs_same j w w'); [done|by eapply Hm]. Qed.
Lemma grown_status w0 i new ch : preserves (grown w0) (update_status i new ch).
Proof.
  apply grown_frame. intros w r w' [[-> _]|(t & now & _ & _ & _ & _ & _ & ->)]%task_update_run; done.
Qed.
Lemma grown_did w0 e : preserves (grown w0) (did e).
Proof. apply grown_frame. by intros w r w' [= <- <-]. Qed.
Lemma grown_log w0 i json : preserves (grown w0) (create_log i json).
Proof.
  intros w r w' H Hg j. destruct (create_log_run i json w) as (g & w1 & H' & _). rewrite H in H'.
  injection H' as -> <-. apply logs_snoc in H as (_ & _ & ->). specialize (Hg j). lia.
Qed.
Lemma grown_poll w0 i t : preserves (grown w0) (mark_polled i t).
Proof. apply grown_frame. intros w r w' [[-> _]|[_ ->]]%mark_polled_run; done. Qed.
Lemma grown_stage w0 l : preserves (grown w0) (stage l).
Proof. apply grown_frame. by intros w r w' [= <- <-]. Qed.
Lemma grown_plan w0 s t risk trace : preserves (grown w0) (plan_and_execute s t risk trace).
Proof.
  apply (plan_keeps _ (grown w0)); try apply _; auto using grown_status.
  - intros json w r w' _. apply grown_log.
  - intros _ plan. apply execute_keeps; auto using grown_status, grown_did with typeclass_instances.
Qed.
Lemma grown_start w0 t : preserves (grown w0) (start_and_stage t).
Proof. apply start_keeps; [apply _|intros w l s _ _ _; apply grown_plan|apply grown_stage]. Qed.
Lemma grows {A} (m : M World A) : (∀ w0, preserves (grown w0) m) →
  ∀ j w r w', m w = (r, w') → (logs_of j w ≤ logs_of j w')%nat.
Proof. intros Hm j w r w' H. apply (Hm w w r w' H). intros k. lia. Qed.

Lemma logged_stage n i l : preserves (logged n i) (stage l).
Proof. intros w r w' [= <- <-] [[H1 H2 H3 H4 H5] Hn]. split; [by split|done]. Qed.
Lemma logged_start t : preserves (logged 1 (dt_id t)) (start_and_stage t).
Proof. apply start_keeps; [apply _|intros w l s _ _ _; apply logged_plan|apply logged_stage]. Qed.

Lemma logged_poll now t : preserves (logged 2 (dt_id t)) (poll_task now t).
Proof.
  apply poll_keeps; [apply _| | | |apply logged_stage|].
  - intros ch. apply light_status. set_solver.
  - intros Hg ch. apply planned_status. right. by split.
  - intros w r w' H [Hu Hn]. apply mark_polled_run in H as [Ho|[He Hd]].
    { by apply (inside w). }
    assert (∀ j, logs_of j w' = logs_of j w) as Hl by (intros j; apply logs_same; by rewrite Hd).
    split; [|by rewrite Hl]. destruct Hu as [H1 H2 H3 H4 H5]. split; rewrite ?Hd, ?He; cbn; [|..|done].
    + rewrite <- list_fmap_compose. erewrite list_fmap_ext; [exact H1|]. intros j x _. cbn. by case_decide.
    + intros u (v & -> & Hv)%list_elem_of_fmap. case_decide; by apply (H2 v).
    + intros u (v & -> & Hv)%list_elem_of_fmap Hx. rewrite Hl. case_decide; by apply (H3 v).
    + intros u (v & -> & Hv)%list_elem_of_fmap Hs. rewrite Hl. case_decide; by apply (H4 v).
  - intros _ status w r w' H [Hu Hn]. unfold handle_completion, _workflow_trace_id in H. cbv zeta in H.
    rewrite M_bind_run, M_bind_run, twice_log_raises in H by done. injection H as <- <-. by split.
Qed.
Lemma grown_poll_task w0 now t : preserves (grown w0) (poll_task now t).
Proof.
  apply poll_keeps; [apply _|apply grown_status|intros _; apply grown_status|apply grown_poll
    |apply grown_stage|].
  intros _ status. apply (completion_keeps _ (grown w0)); auto using grown_status, grown_did with typeclass_instances.
  - apply grown_did.
  - apply grown_did.
Qed.

Lemma un_fill candidates st wanted :
  (∀ n, candidates n = query_dev (λ d, oldest st n (dv_tasks d))) → preserves undelivered (fill_slots candidates wanted).
Proof.
  intros Hf. apply (fill_keeps _ (all_logged 1) _ (λ n d, oldest st n (dv_tasks d))); [done| |by intros l w []|].
  - intros w Hu _. split; [done|]. apply Forall_forall. intros t [_ Ht]%list_elem_of_filter.
    unfold oldest in Ht. apply elem_of_take in Ht as (i & Ht & _). apply list_elem_of_lookup_2 in Ht.
    rewrite py_sorted_perm in Ht. apply list_elem_of_filter in Ht as [_ Ht]. apply Hu; [done|]. by intros [].
  - intros l t Ht. eapply all_logged_keeps; [done|apply logged_start|]. apply grows. intros w0. apply grown_start.
Qed.

(** A task that was just created *)
Definition unlogged (t : DevTask) (w : World) : Prop :=
  undelivered_but (λ i, i = dt_id t) w.

Lemma un_process s risk trace : preserves undelivered (process_single_task s risk trace).
Proof.
  apply (process_keeps _ unlogged (λ t, logged 1 (dt_id t)) (λ t, logged 1 (dt_id t))).
  - intros w r w' [[Ho Hr]|(i & t1 & t2 & -> & Hi & _ & He & Hd)]%create_task_run Hw.
    { assert (undelivered w') by by apply (inside w). by destruct r as [[|]|]. }
    split; [|done]. destruct Hw as [H1 H2 H3 H4 H5].
    assert (∀ j, logs_of j w' = logs_of j w) as Hl by (intros j; apply logs_same; by rewrite Hd).
    split; rewrite ?Hd, ?He; cbn; [|..|done].
    + rewrite fmap_app. apply NoDup_app. split_and!; [done| |apply NoDup_singleton]. set_solver.
    + intros u [Hu| ->%list_elem_of_singleton]%elem_of_app; [by apply H2|]. left. set_solver.
    + intros u [Hu| ->%list_elem_of_singleton]%elem_of_app Hx; rewrite Hl; [apply H3; naive_solver|]. by destruct Hx.
    + intros u [Hu| ->%list_elem_of_singleton]%elem_of_app Hx; rewrite Hl; [by apply H4|].
      exfalso. apply Hx. cbn. set_solver.
  - intros t w w' H _ [H1 H2 H3 H4 H5]. apply logs_snoc in H as (Ht & He & Hl). split.
    + split; rewrite ?Ht, ?He; try done.
      * intros u Hu _. rewrite Hl. case_decide as Hi; [lia|]. etrans; [apply H3; naive_solver|lia].
      * intros u Hu Hs. rewrite Hl. specialize (H4 u Hu Hs). lia.
    + rewrite Hl, decide_True by done. lia.
  - intros t w. apply logged_undelivered.
  - done.
  - intros t w. apply logged_undelivered.
  - intros t _. apply logged_plan.
Qed.

Lemma active_planned s : s ∈ ACTIVE_STATUSES → s ∉ light.
Proof.
  intros Hs. apply list_elem_of_In in Hs.
  destruct Hs as [<-|[<-|[<-|[<-|[<-|[<-|[]]]]]]]; apply (bool_decide_unpack _); vm_compute; exact I.
Qed.

Lemma un_op o : preserves undelivered (run_op o).
Proof.
  destruct o as [e| | |r].
  - apply op_event.
    + apply ready_keeps; try apply _. intros. apply un_process.
    + apply (qa_event_keeps _ (λ _ _, False)); try apply _; [|done|by intros ? ? ? ? ?].
      intros w t Hw Ht Hs. destruct (un_early _ _ Hw t Ht) as [He|[_ He]]; rewrite Hs in He; [|done].
      revert He. apply (bool_decide_unpack (REVIEWING ∉ _)). vm_compute. exact I.
  - apply preserves_bind; [|dwalk]. apply (reconcile_keeps _ (all_logged 2)); try apply _.
    + intros w Hu. split; [done|]. apply Forall_forall. intros t [Hs Ht]%list_elem_of_filter.
      apply Hu; [done|]. by apply active_planned.
    + by intros l w [].
    + intros l t now Ht. eapply all_logged_keeps; [done|apply logged_poll|]. apply grows. intros w0. apply grown_poll_task.
    + by eapply un_fill.
    + by eapply un_fill.
  - apply op_expire; try apply _. intros w r w' [He (cutoff & now & Hd)]%expire_run [H1 H2 H3 H4 H5].
    assert (∀ j, logs_of j w' = logs_of j w) as Hl by (intros j; apply logs_same; by rewrite Hd).
    split; rewrite ?Hd, ?He; cbn; [|..|done].
    + rewrite <- list_fmap_compose. erewrite list_fmap_ext; [exact H1|]. intros j x _. cbn. by destruct (_ && _).
    + intros u (v & -> & Hv)%list_elem_of_fmap. destruct (_ && _); [left; set_solver|by apply H2].
    + intros u (v & -> & Hv)%list_elem_of_fmap Hx. rewrite Hl. destruct (_ && _); by apply (H3 v).
    + intros u (v & -> & Hv)%list_elem_of_fmap. rewrite Hl. destruct (_ && _); [|by apply H4].
      intros Hx. exfalso. apply Hx. cbn. set_solver.
  - apply preserves_bind; [|dwalk]. apply request_keeps; try apply _.
    + intros _ i w t ch Hw _ _ _ r0 w' H. eapply (un_light i PLANNING ch); [set_solver|exact H|done].
    + intros i ch. apply un_light. set_solver.
    + intros _. apply (approve_leads _ _ (λ _ _, False)); [apply _|done| |done|done].
      intros w t log_ Hw Ht _ Hs Hl. rewrite twice_log_raises in Hl; [done|].
      apply Hw; [done|]. rewrite Hs. apply (bool_decide_unpack _). vm_compute. exact I.
Qed.

(** C27: A log is written for a task when it is created and again when it is planned, and the log of a task
    is read with a query that allows for one row only.  So, starting from no tasks, over every history of
    the agent each task is pending, in planning, awaiting approval, executing, failed or expired (or, without
    GitLab, in security scanning): none is ever completed; the agent creates and runs workflows, but never
    scans a result and never asks for a merge; and every attempt to approve a task that awaits approval
    raises and changes nothing. *)
Theorem dev_never_delivers w ops :
  dv_tasks (dw_db w) = [] → dw_effects w = [] →
  let w' := dev_history w ops in
  (∀ t, t ∈ dv_tasks (dw_db w') → early (dt_status t)) ∧
  Forall only_runs (dw_effects w') ∧
  ∀ t request, t ∈ dv_tasks (dw_db w') → dt_status t = AWAITING_APPROVAL → dt_id t ≠ "" →
    dget request "action" = PStr "approve_workflow" → dget request "task_id" = PStr (dt_id t) →
    handle_request request w' = (Raise multiple_results, w').
Proof.
  intros Ht He w'. assert (undelivered w') as Hw.
  { apply history_keeps; [apply Forall_true, un_op|].
    split; rewrite ?Ht, ?He; try (intros t []%elem_of_nil); constructor. }
  destruct Hw as [Hn Hearly _ Htwice Hcalls]. split_and!; [done..|]. intros t request Hin Hs Hne Ha Hi.
  assert (dispatch_request request w' = (Raise multiple_results, w')) as Hd.
  { unfold dispatch_request, action_is. rewrite Ha.
    do 5 rewrite bool_decide_eq_false_2 by done. rewrite bool_decide_eq_true_2 by done.
    unfold _approve_workflow. rewrite Hi. cbn -[get_by_id get_by_task_id].
    rewrite (proj2 (str_empty_false _)) by done. cbn -[get_by_id get_by_task_id].
    unfold mbind, M_bind. rewrite by_id_found by done. cbn [only].
    rewrite bool_decide_eq_true_2 by done. rewrite twice_log_raises; [done|].
    apply Htwice; [done|]. rewrite Hs. apply (bool_decide_unpack _). vm_compute. exact I. }
  unfold handle_request, in_dev_uow. rewrite Hd. by destruct w'.
Qed.
End histories.

(** ** Witnesses *)
Section dev_witnesses.
#[local] Existing Instance sample_dev_env.
#[local] Existing Instance sample_ports.

Definition finished : World := sample_tables [sample_row "t1" 3 "LOW" COMPLETED] [].
Lemma dev_tasks_follow_machine_witness :
  let w' := dev_history finished [DevEvent (ready 7 "Fix docs"); DevReconcile] in
  dt_status <$> dv_tasks (dw_db w') = [COMPLETED; EXECUTING] ∧
  tasks_from (dv_tasks (dw_db finished)) (dv_tasks (dw_db w')).
Proof.
  split; [vm_compute; reflexivity|].
  apply (dev_tasks_follow_machine finished [DevEvent (ready 7 "Fix docs"); DevReconcile]).
  - apply NoDup_singleton.
  - apply NoDup_singleton.
Defined.

(** A task with a single log, as one that was planned before it was logged. *)
Definition running_once : World := sample_tables [sample_row "t1" 7 "LOW" EXECUTING] [sample_log "t1"].
Lemma merge_requests_scanned_witness :
  dw_effects (dev_history running_once [DevReconcile]) = [Scan "t1" true; MergeRequest "t1" "dev/wp-7"] ∧
  requests_scanned (dw_effects (dev_history running_once [DevReconcile])).
Proof.
  split; [vm_compute; reflexivity|]. apply (merge_requests_scanned running_once [DevReconcile]).
  by intros i id_ branch Hi.
Defined.

Lemma dev_capacity_witness :
  let ops := [DevEvent (ready 7 "Fix docs"); DevEvent (ready 8 "Fix more docs"); DevReconcile; DevExpire] in
  length (dv_tasks (dw_db (dev_history (sample_tables [] []) ops))) = 2%nat ∧
  in_progress (dv_tasks (dw_db (dev_history (sample_tables [] []) ops))) ≤ Z.max 0 dp_max_concurrent.
Proof.
  intros ops. split; [vm_compute; reflexivity|].
  assert (Forall automatic ops) as Ha by repeat constructor.
  exact (dev_capacity (sample_tables [] []) ops (NoDup_nil_2 (A := string)) Ha).
Defined.

Lemma dev_never_delivers_witness :
  let w := dev_history (sample_tables [] []) [DevEvent (ready 7 "Rotate auth token"); DevReconcile] in
  handle_request (approve_request "dev_0") w = (Raise multiple_results, w).
Proof.
  destruct (dev_never_delivers (sample_tables [] []) [DevEvent (ready 7 "Rotate auth token"); DevReconcile]
              eq_refl eq_refl) as (_ & _ & H).
  eapply (H _ (approve_request "dev_0")).
  - eapply (list_elem_of_lookup_2 _ 0). vm_compute. reflexivity.
  - vm_compute. reflexivity.
  - vm_compute. discriminate.
  - reflexivity.
  - vm_compute. reflexivity.
Defined.
End dev_witnesses.

(** ** Risk and approval of the Dev agent's workflows

    A task's log keeps the risk its row has; so a workflow is run without the
    approval gate only for a task of low or medium risk, and no task is critical. *)

Section risk.
Context {E : Env} {Ports : DevPorts}.

(** The task a log was written with, if it has one, is of the risk of its row. *)
Definition keeps_risk (json : pydict) (t : DevTask) : Prop :=
  py_bool (dget json "task_input") = true →
  ∃ s, dget json "task_input" = task_dump s ∧ RiskLevel_value (ti_risk_level s) = dt_risk_level t.

Record risks_ok (d : DevDB) : Prop := {
  rk_ids : NoDup (dt_id <$> dv_tasks d);
  rk_risk : ∀ t, t ∈ dv_tasks d → ∃ r, r ≠ RiskLevel_CRITICAL ∧ dt_risk_level t = RiskLevel_value r;
  rk_logs : ∀ l, l ∈ dv_logs d → wl_task_id l ∈ dt_id <$> dv_tasks d;
  rk_input : ∀ l t, l ∈ dv_logs d → t ∈ dv_tasks d → dt_id t = wl_task_id l → keeps_risk (wl_workflow_json l) t }.

(** The table has the row [t] was read from. *)
Definition row_of (d : DevDB) (t : DevTask) : Prop :=
  ∃ u, u ∈ dv_tasks d ∧ dt_id u = dt_id t ∧ dt_risk_level u = dt_risk_level t.

(** What may be run: anything but a workflow of a risk that needs approval, unless [gated]. *)
Definition may_run (gated : string → Prop) (e : dev_effect) : Prop :=
  match e with
  | RunWorkflow i risk _ => risk ∈ ["LOW"; "MEDIUM"] ∨ gated i
  | _ => True
  end.

Section one_operation.
Context (before : list dev_effect) (gated : string → Prop).
(** [SanitizedTask.model_validate] keeps a valid risk. *)
Hypothesis validated_risk : ∀ d s v, dp_sanitized_task (PDict d) = Ok s →
  dget d "risk_level" = PStr v ∨ dget d "risk_level" = PEnum v → RiskLevel_value (ti_risk_level s) = v.

(** [safe l]: the tables are in order, they have the rows of [l], and the calls made since were allowed. *)
Record safe (l : list DevTask) (w : World) : Prop := {
  sf_risks : risks_ok (dw_db w);
  sf_rows : Forall (row_of (dw_db w)) l;
  sf_calls : ∃ new, dw_effects w = before ++ new ∧ Forall (may_run gated) new }.

#[local] Instance safe_inside l : Inside (safe l).
Proof. intros w w' [Hd He] []. split; by rewrite ?Hd, ?He. Qed.
#[local] Instance safe_rolls : Rolls (safe []).
Proof. intros w w' [] []. by split. Qed.
Lemma safe_nil l w : safe l w → safe [] w.
Proof. intros []. by split. Qed.

Lemma safe_map l w w' f :
  dv_tasks (dw_db w') = f <$> dv_tasks (dw_db w) → dv_logs (dw_db w') = dv_logs (dw_db w) →
  dw_effects w' = dw_effects w →
  (∀ t, dt_id (f t) = dt_id t ∧ dt_risk_level (f t) = dt_risk_level t) → safe l w → safe l w'.
Proof.
  intros Ht Hl He Hf [[H1 H2 H3 H4] Hr Hc].
  assert (dt_id <$> (f <$> dv_tasks (dw_db w)) = dt_id <$> dv_tasks (dw_db w)) as Hids.
  { rewrite <- list_fmap_compose. apply list_fmap_ext. intros i t _. apply Hf. }
  split; [split; rewrite ?Ht, ?Hl, ?Hids; try done|..|by rewrite He].
  - intros u (t & -> & Hin)%list_elem_of_fmap. rewrite (proj2 (Hf t)). by apply H2.
  - intros g u Hg (t & -> & Hin)%list_elem_of_fmap. rewrite (proj1 (Hf t)). unfold keeps_risk.
    rewrite (proj2 (Hf t)). by apply H4.
  - eapply Forall_impl; [exact Hr|]. intros t (u & Hin & Hu1 & Hu2). exists (f u). rewrite Ht.
    split; [by apply list_elem_of_fmap_2|]. by rewrite (proj1 (Hf u)), (proj2 (Hf u)).
Qed.

Lemma safe_status l i new ch : preserves (safe l) (update_status i new ch).
Proof.
  intros w r w' [Ho|(t & now & _ & _ & _ & _ & He & Hd)]%task_update_run; [by apply inside|].
  apply safe_map with (f := restatus i new now ch); [by rewrite Hd|by rewrite Hd|done|].
  intros u. split; [apply restatus_id|]. unfold restatus. by case_decide.
Qed.
Lemma safe_poll l i t : preserves (safe l) (mark_polled i t).
Proof.
  intros w r w' [Ho|[He Hd]]%mark_polled_run; [by apply inside|].
  apply safe_map with (f := λ u, if decide (dt_id u = i) then polled t u else u); [by rewrite Hd|by rewrite Hd|done|].
  intros u. by case_decide.
Qed.
Lemma safe_expire l : preserves (safe l) (expire_stale_pending 24).
Proof.
  intros w r w' [He (cutoff & now & Hd)]%expire_run.
  eapply safe_map; [by rewrite Hd|by rewrite Hd|done|]. intros u. cbn. by destruct (_ && _).
Qed.
Lemma safe_stage l ev : preserves (safe l) (stage ev).
Proof. intros w r w' [= <- <-] [[H1 H2 H3 H4] Hr Hc]. split; [by split|exact Hr|done]. Qed.
Lemma safe_did l e : may_run gated e → preserves (safe l) (did e).
Proof.
  intros He w r w' [= <- <-] [H1 Hr (new & Hn & Hc)]. split; [done..|]. exists (new ++ [e]). cbn.
  rewrite Hn, app_assoc. split; [done|]. apply Forall_app. split; [done|]. by apply Forall_singleton.
Qed.

Lemma row_unique d t u : risks_ok d → row_of d t → u ∈ dv_tasks d → dt_id u = dt_id t →
  dt_risk_level u = dt_risk_level t.
Proof.
  intros [Hn _ _ _] (v & Hv & Hid & Hr) Hu Hut.
  assert (u = v) as ->; [|done]. eapply (get_row_NoDup dt_id); [exact Hn|done|done|congruence].
Qed.
Lemma safe_log l t json w r w' :
  t ∈ l → keeps_risk json t → create_log (dt_id t) json w = (r, w') → safe l w → safe l w'.
Proof.
  intros Ht Hj H [Hk Hr Hc]. destruct (create_log_run (dt_id t) json w) as (g & w1 & H' & Hi & Hgj & He & Hd).
  rewrite H in H'. injection H' as -> <-.
  assert (row_of (dw_db w) t) as Hrow by by eapply Forall_forall in Hr.
  pose proof Hk as [H1 H2 H3 H4].
  split; [split; rewrite ?Hd; cbn; try done|by rewrite Hd|by rewrite He].
  - intros l0 [Hl| ->%list_elem_of_singleton]%elem_of_app; [by apply H3|]. rewrite Hi.
    destruct Hrow as (u & Hu & <- & _). by apply list_elem_of_fmap_2.
  - intros l0 u [Hl| ->%list_elem_of_singleton]%elem_of_app Hu Hid; [by apply H4|].
    rewrite Hi in Hid. unfold keeps_risk. rewrite Hgj, (row_unique _ t u) by done. exact Hj.
Qed.

Lemma safe_execute l plan t trace :
  dt_risk_level t ∈ ["LOW"; "MEDIUM"] ∨ gated (dt_id t) → preserves (safe l) (execute_workflow plan t trace).
Proof.
  intros Hr. apply execute_keeps; [apply _|intros ch; apply safe_status|intros ch; apply safe_status| |].
  - by apply safe_did.
  - intros wf. by apply safe_did.
Qed.
Lemma safe_plan l s t risk trace :
  t ∈ l → risk ≠ RiskLevel_CRITICAL → dt_risk_level t = RiskLevel_value risk →
  preserves (safe l) (plan_and_execute s t risk trace).
Proof.
  intros Ht Hc Hr. apply (plan_keeps (safe l) (safe l)); try apply _; try done; auto using safe_status.
  - intros json w r w' Hj. apply safe_log; [done|]. intros Hb. rewrite Hj in Hb. done.
  - intros Ha plan. apply safe_execute. left. rewrite Hr. unfold requires_workflow_approval in Ha.
    apply bool_decide_eq_false in Ha. destruct risk; cbn; set_solver.
Qed.

Lemma restored_risk t log_ s d :
  risks_ok d → row_of d t → (∀ g, log_ = Some g → g ∈ dv_logs d ∧ wl_task_id g = dt_id t) →
  restore_task t log_ = Ok s → RiskLevel_value (ti_risk_level s) = dt_risk_level t.
Proof.
  intros Hk Hrow Hlog. unfold restore_task. set (data := match log_ with Some l => _ | None => _ end).
  destruct (py_bool data) eqn:Hb.
  - intros Hs. unfold data in *. destruct log_ as [g|]; [|done]. destruct (Hlog g eq_refl) as [Hg Hi].
    destruct Hrow as (u & Hu & Hid & Hr).
    destruct (rk_input _ Hk g u Hg Hu) as (s0 & Hd & Hr0); [congruence|done|].
    rewrite Hd in Hs. rewrite <- Hr, <- Hr0. eapply validated_risk; [exact Hs|]. by left.
  - destruct (str_empty (dt_risk_level t)) eqn:He.
    + apply str_empty_true in He. destruct Hrow as (u & Hu & _ & Hr).
      destruct (rk_risk _ Hk u Hu) as (r & _ & Hrv). rewrite Hr, He in Hrv. by destruct r.
    + rewrite bind_Ok. intros (r & Hr & Hs). unfold risk_of_value in Hr.
      destruct (find _ _) as [r'|] eqn:Hf; [|done]. injection Hr as <-.
      apply find_some in Hf as [_ Hv%bool_decide_eq_true]. rewrite <- Hv.
      eapply validated_risk; [exact Hs|]. by right.
Qed.

Lemma value_inj r r' : RiskLevel_value r = RiskLevel_value r' → r = r'.
Proof. intros H. assert (risk_of_value (RiskLevel_value r) = risk_of_value (RiskLevel_value r')) as Hr by congruence. rewrite !risk_roundtrip in Hr. by injection Hr. Qed.

Lemma safe_start l t : t ∈ l → preserves (safe l) (start_and_stage t).
Proof.
  intros Ht. apply start_keeps; [apply _| |apply safe_stage]. intros w log_ s [Hk Hr _] Hl Hs.
  assert (row_of (dw_db w) t) as Hrow by by eapply Forall_forall in Hr.
  assert (RiskLevel_value (ti_risk_level s) = dt_risk_level t) as Hrisk.
  { eapply restored_risk; [done|done| |exact Hs]. intros g ->. unfold get_by_task_id in Hl.
    rewrite M_bind_run in Hl. cbn in Hl. apply scalar_run in Hl as [_ Hl].
    match type of Hl with ?L = _ => assert (g ∈ L) as Hg by (rewrite Hl; by left) end.
    rewrite py_sorted_perm in Hg. by apply list_elem_of_filter in Hg as []. }
  apply safe_plan; [done| |done]. intros Hc. destruct Hrow as (u & Hu & _ & Hru).
  destruct (rk_risk _ Hk u Hu) as (r & Hne & Hrv). apply Hne, value_inj. rewrite <- Hrv, Hru, <- Hrisk. by rewrite Hc.
Qed.

Lemma safe_fill candidates st wanted :
  (∀ n, candidates n = query_dev (λ d, oldest st n (dv_tasks d))) → preserves (safe []) (fill_slots candidates wanted).
Proof.
  intros Hf. apply (fill_keeps _ safe _ (λ n d, oldest st n (dv_tasks d))); [done| |apply safe_nil|].
  - intros w [Hk _ Hc] _. split; [done| |done]. apply Forall_forall. intros t [_ Ht]%list_elem_of_filter.
    unfold oldest in Ht. apply elem_of_take in Ht as (i & Ht & _). apply list_elem_of_lookup_2 in Ht.
    rewrite py_sorted_perm in Ht. apply list_elem_of_filter in Ht as [_ Ht]. by exists t.
  - intros l t Ht. by apply safe_start.
Qed.

Lemma safe_process s trace : ti_risk_level s ≠ RiskLevel_CRITICAL →
  preserves (safe []) (process_single_task s (ti_risk_level s) trace).
Proof.
  intros Hne. apply (process_keeps _ (λ t, safe [t]) (λ t, safe [t]) (λ t, safe [t])).
  - intros w r w' [[Ho Hr]|(i & t1 & t2 & -> & Hi & _ & He & Hd)]%create_task_run Hw.
    { assert (safe [] w') by by apply (inside w). by destruct r as [[|]|]. }
    split; [|done]. destruct Hw as [[H1 H2 H3 H4] _ Hc].
    split; [split; rewrite ?Hd; cbn|rewrite Hd|by rewrite He].
    + rewrite fmap_app. apply NoDup_app. split_and!; [done| |apply NoDup_singleton]. set_solver.
    + intros t [Ht| ->%list_elem_of_singleton]%elem_of_app; [by apply H2|]. by exists (ti_risk_level s).
    + intros g Hg. rewrite fmap_app. apply elem_of_app. left. by apply H3.
    + intros g t Hg [Ht| ->%list_elem_of_singleton]%elem_of_app Hid; [by apply H4|].
      cbn in Hid. specialize (H3 g Hg). rewrite <- Hid in H3. done.
    + apply Forall_singleton. eexists. split; [apply elem_of_app; right; by apply list_elem_of_singleton|done].
  - intros t w w' H Hr. eapply safe_log; [by left| |exact H]. intros _. exists s. by split.
  - intros t w. apply safe_nil.
  - done.
  - intros t w. apply safe_nil.
  - intros t Hr. by apply safe_plan; [left| |].
Qed.

Lemma safe_known w t : safe [] w → t ∈ dv_tasks (dw_db w) → safe [t] w.
Proof. intros [Hk _ Hc] Ht. split; [done| |done]. apply Forall_singleton. by exists t. Qed.

(** The operations that do not pass the gate. *)
Lemma safe_op o :
  match o with DevRequest r => action_is r "approve_workflow" = false | _ => True end →
  preserves (safe []) (run_op o).
Proof.
  pose proof (safe_status []) as Hst. destruct o as [e| | |r]; intros Ho.
  - apply op_event.
    + apply ready_keeps; try apply _. intros. by apply safe_process.
    + apply (qa_event_keeps (safe []) (λ t, safe [])); try apply _; try done.
      intros t payload. apply qa_result_keeps; try apply _. auto.
  - apply preserves_bind; [|dwalk]. apply (reconcile_keeps (safe []) (λ _, safe [])); try apply _; try done.
    + intros l t now _. apply poll_keeps; try apply _; auto using safe_poll, safe_stage.
      intros _ status. apply (completion_keeps (safe []) (safe [])); try apply _; auto; by apply safe_did.
    + by eapply safe_fill.
    + by eapply safe_fill.
  - apply op_expire; try apply _. apply safe_expire.
  - apply preserves_bind; [|dwalk]. apply request_keeps; try apply _.
    + intros _ i w t ch Hw _ _ _ r0 w' H. by eapply safe_status.
    + auto.
    + congruence.
Qed.

Lemma dispatch_approve r : action_is r "approve_workflow" = true → dispatch_request r = _approve_workflow r.
Proof.
  unfold dispatch_request, action_is. destruct (dget r "action"); try done.
  intros ->%bool_decide_eq_true. do 5 rewrite bool_decide_eq_false_2 by done. by rewrite bool_decide_eq_true_2.
Qed.

(** The gate, asked in the state [w1], lets the operation's task through. *)
Definition gate_passed (w1 : World) (o : dev_op) (i : string) : Prop :=
  ∃ request id_ by_ d, o = DevRequest request ∧ action_is request "approve_workflow" = true ∧
    i = py_str (dget request "task_id") ∧
    (approve_for_sensitive_action dp_gate_settings dp_gate id_ by_ (dw_control w1)).1 = Ok d.

Lemma safe_step w1 o :
  (∀ i, gate_passed w1 o i → gated i) → safe [] w1 → safe [] (dev_step w1 o).
Proof.
  intros Hg Hw. destruct (match o with DevRequest r => action_is r "approve_workflow" | _ => false end) eqn:Ho.
  2:{ apply step_keeps; [|done]. apply safe_op. by destruct o. }
  destruct o as [| | |r]; try done.
  assert (leads (λ w, w = w1) (safe []) (_approve_workflow r)) as Hl.
  { apply (approve_leads _ (safe []) (λ t w, safe [t] w ∧ w = w1)); try apply _.
    - by intros w ->.
    - intros w t log_ -> Ht _ _ _. split; [by apply safe_known|done].
    - intros t w [Hs _]. by eapply safe_nil.
    - intros t l Ht. apply (leads_weaken _ (λ w, safe [t] w ∧ w = w1) _ (safe [t])); [|done|apply safe_nil].
      apply planned_leads; [apply _|by intros w []|]. intros plan w i by_ d [_ ->] Hd.
      apply safe_execute. right. apply Hg. rewrite Ht. by exists r, i, by_, d. }
  unfold dev_step. cbn. rewrite M_bind_run. unfold handle_request, in_dev_uow. rewrite dispatch_approve by done.
  destruct (_approve_workflow r w1) as [[a|e] w2] eqn:H; cbn; [by eapply Hl|].
  apply rolls; [done|]. by eapply Hl.
Qed.
End one_operation.

(** C28: In every history no task of critical risk is accepted, and each operation runs a workflow only for a
    task of low or medium risk, or as the request to approve that task, for which the control plane's
    approval gate let it through. *)
Theorem dev_high_risk_gated w ops o :
  (∀ d s v, dp_sanitized_task (PDict d) = Ok s →
     dget d "risk_level" = PStr v ∨ dget d "risk_level" = PEnum v → RiskLevel_value (ti_risk_level s) = v) →
  risks_ok (dw_db w) →
  let w1 := dev_history w ops in
  let w2 := dev_step w1 o in
  (∀ t, t ∈ dv_tasks (dw_db w2) → dt_risk_level t ≠ "CRITICAL") ∧
  ∃ new, dw_effects w2 = dw_effects w1 ++ new ∧
    ∀ i risk wf, RunWorkflow i risk wf ∈ new → risk ∈ ["LOW"; "MEDIUM"] ∨ gate_passed w1 o i.
Proof.
  intros Hlaw Hw w1 w2. assert (risks_ok (dw_db w1)) as H1.
  { assert (safe [] (λ _, True) [] w1) as []; [|done].
    apply history_keeps_step; [|split; [done|done|]].
    - intros w0 o0. by apply safe_step.
    - exists (dw_effects w). split; [done|]. apply Forall_true. intros []; cbn; auto. }
  assert (safe (dw_effects w1) (gate_passed w1 o) [] w2) as [H2 _ (new & Hn & Hc)].
  { apply safe_step; [done|done|]. split; [done|done|]. exists []. by rewrite app_nil_r. }
  split.
  - intros t Ht Hr. destruct (rk_risk _ H2 t Ht) as (r & Hne & Hv). rewrite Hr in Hv. by destruct r.
  - exists new. split; [done|]. intros i risk wf Hin. by apply (proj1 (Forall_forall _ _) Hc _ Hin).
Qed.
End risk.

(** *** Witness *)
Section risk_witness.
#[local] Existing Instance sample_dev_env.
#[local] Existing Instance sample_ports.

Definition waiting_once : World := sample_tables [sample_row "t1" 7 "HIGH" AWAITING_APPROVAL] [sample_log "t1"].

Lemma waiting_risks : risks_ok (dw_db waiting_once).
Proof.
  split; cbn.
  - apply NoDup_singleton.
  - intros t ->%list_elem_of_singleton. by exists RiskLevel_HIGH.
  - intros l ->%list_elem_of_singleton. by apply list_elem_of_singleton.
  - intros l t ->%list_elem_of_singleton ->%list_elem_of_singleton _. vm_compute. discriminate.
Qed.

Lemma dev_high_risk_gated_witness :
  let o := DevRequest (approve_request "t1") in
  dw_effects (dev_step waiting_once o) = [CreateWorkflow "t1"; RunWorkflow "t1" "HIGH" "wf_1"] ∧
  gate_passed waiting_once o "t1".
Proof.
  intros o. assert (dw_effects (dev_step waiting_once o) = [CreateWorkflow "t1"; RunWorkflow "t1" "HIGH" "wf_1"]) as He
    by (vm_compute; reflexivity).
  split; [exact He|].
  destruct (dev_high_risk_gated (E := sample_dev_env) (Ports := sample_ports) waiting_once [] o sample_validated waiting_risks) as (_ & new & Hn & Hr).
  cbn [dev_history foldl] in Hn, Hr. rewrite He in Hn. cbn in Hn. subst new.
  destruct (Hr "t1" "HIGH" "wf_1") as [Hl|Hg]; [by right; left| |exact Hg].
  exfalso. revert Hl. apply (bool_decide_unpack ("HIGH" ∉ ["LOW"; "MEDIUM"])). vm_compute. exact I.
Defined.
End risk_witness.
