(* ===== verification/QaDomain.v ===== *)
(** * The verdict of a QA acceptance run

    The domain of [src/agents/qa_agent]: the vocabulary the QA and the Dev agent
    share ([shared/core/qa_acceptance.py], [core/domain/acceptance_vocabulary.py]),
    the verdict ([core/domain/acceptance_verdict.py]), the run aggregate
    ([core/domain/acceptance_run.py]), the request and result models with their
    Pydantic checks ([models/schemas.py]), the translation of the inbound events
    ([adapters/acceptance_request_acl.py]) and the summary the acceptance
    framework writes ([.acceptance/runner.py]). *)

From S2P Require Import Prelude PyNum PyTime PyValue DomainEvents Store Event WakeupAdapter.

(** ** Vocabulary *)
Definition GATE_VALUES : list string := ["PASS"; "FAIL"; "ERROR"].
Definition L1_STATUS_VALUES : list string := ["PASS"; "WARN"; "ERROR"].
Definition L2_STATUS_VALUES : list string := ["INFO"].
Definition FINDING_STATUS_VALUES : list string := ["PASS"; "FAIL"; "WARN"; "INFO"; "SKIP"].
Definition FINDING_LEVELS : list string := ["L0"; "L1"; "L2"].
Definition SEVERITIES : list string := ["critical"; "high"; "medium"; "low"; "info"].

Definition is_qa_gate_failing (l0_gate : string) : bool := bool_decide (l0_gate = "FAIL").

(** [v == s], for a value of a report *)
Definition is_str (v : pyval) (s : string) : bool :=
  match v with PStr t | PEnum t => bool_decide (t = s) | _ => false end.
Definition is_qa_blocking_finding (level status : pyval) : bool := is_str level "L0" && is_str status "FAIL".
Definition is_qa_warning_finding (level status : pyval) : bool := is_str level "L1" && is_str status "WARN".
Definition is_qa_informational_finding (level status : pyval) : bool :=
  is_str level "L2" && is_str status "INFO".

(** [d.get(k, v)] *)
Definition dget_or (d : pydict) (k : string) (v : pyval) : pyval := default v (dict_get d k).
#[global] Arguments dget_or : simpl never.

(** ** The verdict *)
Record AcceptanceVerdict := {
  av_l0_gate : string; av_l1_status : string; av_l2_status : string;
  av_l0_failure_count : Z; av_l1_warning_count : Z }.

Definition invalid_verdict (msg : string) : exn := Exn "InvalidAcceptanceVerdictError" msg.

(** [__post_init__] *)
Definition mk_verdict (v : AcceptanceVerdict) : result AcceptanceVerdict :=
  _ ← raise_if (bool_decide (av_l0_gate v ∉ GATE_VALUES)) (invalid_verdict "unknown l0_gate");
  _ ← raise_if (bool_decide (av_l1_status v ∉ L1_STATUS_VALUES)) (invalid_verdict "unknown l1_status");
  _ ← raise_if (bool_decide (av_l2_status v ∉ L2_STATUS_VALUES)) (invalid_verdict "unknown l2_status");
  _ ← raise_if (av_l0_failure_count v <? 0) (invalid_verdict "l0_failure_count must be >= 0");
  _ ← raise_if (av_l1_warning_count v <? 0) (invalid_verdict "l1_warning_count must be >= 0");
  Ok v.

Definition is_blocking (v : AcceptanceVerdict) : bool := is_qa_gate_failing (av_l0_gate v).

Definition is_clean (v : AcceptanceVerdict) : bool :=
  bool_decide (av_l0_gate v = "PASS") && bool_decide (av_l1_status v = "PASS")
  && bool_decide (av_l2_status v = "INFO") && (av_l0_failure_count v =? 0) && (av_l1_warning_count v =? 0).

(** [int(d.get(k, 0) or 0)] *)
Definition count_of (d : pydict) (k : string) : result Z := py_int (py_or (dget_or d k (PInt 0)) (PInt 0)).

Definition from_summary (summary : pydict) : result AcceptanceVerdict :=
  l0 ← count_of summary "l0_failures";
  l1 ← count_of summary "l1_warnings";
  mk_verdict {| av_l0_gate := py_str (dget_or summary "l0_gate" (PStr "ERROR"));
                av_l1_status := py_str (dget_or summary "l1_check" (PStr "ERROR"));
                av_l2_status := py_str (dget_or summary "l2_report" (PStr "INFO"));
                av_l0_failure_count := l0; av_l1_warning_count := l1 |}.

(** ** The run aggregate *)
Inductive AcceptanceRunStatus :=
  | AcceptanceRunStatus_REQUESTED
  | AcceptanceRunStatus_RUNNING
  | AcceptanceRunStatus_COMPLETED.
#[global] Instance AcceptanceRunStatus_eq_dec : EqDecision AcceptanceRunStatus.
Proof. solve_decision. Defined.

Record AcceptanceRunCompleted := {
  rc_run_id : string; rc_agent_name : string; rc_commit_sha : option string; rc_mr_iid : option Z;
  rc_gitlab_project_id : option Z; rc_trigger : string; rc_level : string; rc_target : string;
  rc_summary : pydict; rc_findings : list pydict; rc_verdict : AcceptanceVerdict;
  rc_duration_seconds : float; rc_report_markdown : option string; rc_completed_at : instant }.

Definition blocking_findings (e : AcceptanceRunCompleted) : list pydict :=
  filter (λ f, is_qa_blocking_finding (PStr (py_str (dget_or f "level" (PStr ""))))
                 (PStr (py_str (dget_or f "status" (PStr "")))) = true) (rc_findings e).

Record AcceptanceRun := {
  ar_run_id : string; ar_agent_name : string; ar_commit_sha : option string; ar_mr_iid : option Z;
  ar_gitlab_project_id : option Z; ar_trigger : string; ar_level : string; ar_target : string;
  ar_status : AcceptanceRunStatus; ar_requested_at : instant; ar_started_at : option instant;
  ar_verdict : option AcceptanceVerdict; ar_total_checks : Z; ar_duration_seconds : float;
  ar_report_markdown : option string; ar_completed_at : option instant;
  ar_events : list AcceptanceRunCompleted }.

Definition invalid_run (msg : string) : exn := Exn "InvalidAcceptanceRunError" msg.

Definition _validate_run_identity (run_id agent_name target trigger level : string) : result unit :=
  _ ← raise_if (str_empty run_id) (invalid_run "acceptance run requires run_id");
  _ ← raise_if (str_empty agent_name) (invalid_run "acceptance run requires agent_name");
  _ ← raise_if (negb (str_startswith "agents/" target)) (invalid_run "acceptance run target must be agent-scoped");
  _ ← raise_if (str_empty trigger) (invalid_run "acceptance run requires trigger");
  raise_if (str_empty level) (invalid_run "acceptance run requires level").

Definition _validate_completion (run_id agent_name target : string) (total_checks l0 l1 : Z) (duration : float)
    : result unit :=
  _ ← _validate_run_identity run_id agent_name target "completion" "completion";
  _ ← raise_if (f_lt duration f_zero) (invalid_run "duration_seconds must be non-negative");
  _ ← raise_if (total_checks <? 0) (invalid_run "total_checks must be non-negative");
  _ ← raise_if (l0 <? 0) (invalid_run "l0_failure_count must be non-negative");
  _ ← raise_if (l1 <? 0) (invalid_run "l1_warning_count must be non-negative");
  raise_if (total_checks <? l0 + l1) (invalid_run "failure and warning counts cannot exceed total_checks").

(** [AcceptanceRun.start] *)
Definition run_start (started_at : instant) (run : AcceptanceRun) : result AcceptanceRun :=
  _ ← raise_if (negb (bool_decide (ar_status run = AcceptanceRunStatus_REQUESTED)))
        (invalid_run "only requested runs can start");
  Ok {| ar_run_id := ar_run_id run; ar_agent_name := ar_agent_name run; ar_commit_sha := ar_commit_sha run;
        ar_mr_iid := ar_mr_iid run; ar_gitlab_project_id := ar_gitlab_project_id run;
        ar_trigger := ar_trigger run; ar_level := ar_level run; ar_target := ar_target run;
        ar_status := AcceptanceRunStatus_RUNNING; ar_requested_at := ar_requested_at run;
        ar_started_at := Some started_at; ar_verdict := ar_verdict run; ar_total_checks := ar_total_checks run;
        ar_duration_seconds := ar_duration_seconds run; ar_report_markdown := ar_report_markdown run;
        ar_completed_at := ar_completed_at run; ar_events := ar_events run |}.

(** The event a completed run raises. *)
Definition completion_event (run : AcceptanceRun) (summary : pydict) (findings : list pydict)
    (verdict : AcceptanceVerdict) (duration : float) (report_markdown : option string) (completed_at : instant)
    : AcceptanceRunCompleted := {|
  rc_run_id := ar_run_id run; rc_agent_name := ar_agent_name run; rc_commit_sha := ar_commit_sha run;
  rc_mr_iid := ar_mr_iid run; rc_gitlab_project_id := ar_gitlab_project_id run; rc_trigger := ar_trigger run;
  rc_level := ar_level run; rc_target := ar_target run; rc_summary := summary; rc_findings := findings;
  rc_verdict := verdict; rc_duration_seconds := duration; rc_report_markdown := report_markdown;
  rc_completed_at := completed_at |}.

Definition record_completion (summary : pydict) (findings : list pyval) (duration : float)
    (report_markdown : option string) (completed_at : instant) (run : AcceptanceRun) : result AcceptanceRun :=
  _ ← raise_if (negb (bool_decide (ar_status run = AcceptanceRunStatus_RUNNING)))
        (invalid_run "only running runs can complete");
  verdict ← from_summary summary;
  total_checks ← count_of summary "total_checks";
  _ ← _validate_completion (ar_run_id run) (ar_agent_name run) (ar_target run) total_checks
        (av_l0_failure_count verdict) (av_l1_warning_count verdict) duration;
  findings ← mapR as_pydict findings;
  Ok {| ar_run_id := ar_run_id run; ar_agent_name := ar_agent_name run; ar_commit_sha := ar_commit_sha run;
        ar_mr_iid := ar_mr_iid run; ar_gitlab_project_id := ar_gitlab_project_id run;
        ar_trigger := ar_trigger run; ar_level := ar_level run; ar_target := ar_target run;
        ar_status := AcceptanceRunStatus_COMPLETED; ar_requested_at := ar_requested_at run;
        ar_started_at := ar_started_at run; ar_verdict := Some verdict; ar_total_checks := total_checks;
        ar_duration_seconds := duration; ar_report_markdown := report_markdown;
        ar_completed_at := Some completed_at;
        ar_events := ar_events run
          ++ [completion_event run summary findings verdict duration report_markdown completed_at] |}.

(** The property [is_blocking] of a run *)
Definition run_is_blocking (run : AcceptanceRun) : bool :=
  match ar_verdict run with Some v => is_blocking v | None => false end.

(** ** Requests *)
Record QARunRequest := {
  qr_agent_name : string; qr_level : string; qr_commit_sha : option string; qr_diff_ref : option string;
  qr_files_changed : list string; qr_branch : option string; qr_mr_iid : option Z;
  qr_gitlab_project_id : option Z; qr_trigger : string; qr_requested_by : string; qr_reason : option string }.

Definition is_lower (c : ascii) : bool := (97 <=? code c)%N && (code c <=? 122)%N.
Definition agent_name_char (c : ascii) : bool :=
  is_lower c || ((48 <=? code c)%N && (code c <=? 57)%N) || Ascii.eqb c "_" || Ascii.eqb c "-".
(** The pattern [^[a-z][a-z0-9_-]*$] *)
Definition agent_name_ok (s : string) : bool :=
  match s with
  | EmptyString => false
  | String c s' => is_lower c && forallb agent_name_char (list_ascii_of_string s')
  end.

Definition LEVELS : list string := ["l0"; "l1"; "l2"; "all"].
Definition TRIGGERS : list string := ["event"; "manual"; "api"; "scheduled"].
Definition opt_all {A} (p : A → bool) (o : option A) : bool := match o with Some x => p x | None => true end.
Definition sha_ok (s : string) : bool := (7 <=? String.length s)%nat && (String.length s <=? 40)%nat.
Definition at_least_one (z : Z) : bool := 1 <=? z.

Definition request_valid (r : QARunRequest) : bool :=
  agent_name_ok (qr_agent_name r) && bool_decide (qr_level r ∈ LEVELS) && opt_all sha_ok (qr_commit_sha r)
  && opt_all at_least_one (qr_mr_iid r) && opt_all at_least_one (qr_gitlab_project_id r)
  && bool_decide (qr_trigger r ∈ TRIGGERS).
Definition mk_request (r : QARunRequest) : result QARunRequest :=
  if request_valid r then Ok r else Raise (validation_error "QARunRequest").

(** The strict fields of a payload: [None] fails the validation. *)
Definition req_str (d : pydict) (k : string) : option string :=
  match dict_get d k with Some (PStr s) => Some s | _ => None end.
Definition str_field (d : pydict) (k : string) (dflt : string) : option string :=
  match dict_get d k with None => Some dflt | Some (PStr s) => Some s | _ => None end.
Definition opt_str_field (d : pydict) (k : string) : option (option string) :=
  match dict_get d k with None | Some PNone => Some None | Some (PStr s) => Some (Some s) | _ => None end.
Definition opt_int_field (d : pydict) (k : string) : option (option Z) :=
  match dict_get d k with None | Some PNone => Some None | Some (PInt z) => Some (Some z) | _ => None end.
Definition str_of_val (v : pyval) : option string := match v with PStr s => Some s | _ => None end.
Definition str_list_field (d : pydict) (k : string) : option (list string) :=
  match dict_get d k with None => Some [] | Some (PList l) => mapM str_of_val l | _ => None end.
Definition guard_field {A} (p : A → bool) (o : option A) : option A :=
  match o with Some x => if p x then Some x else None | None => None end.

(** [CodeCommittedPayload] and [QARunRequestedPayload] of
    [shared/schemas/event_payloads.py] *)
Record CodeCommittedPayload := {
  cc_agent_name : string; cc_commit_sha : string; cc_files_changed : list string; cc_branch : option string;
  cc_mr_iid : option Z; cc_gitlab_project_id : option Z; cc_diff_ref : option string;
  cc_triggered_by : string }.
Definition code_committed_payload (d : pydict) : result CodeCommittedPayload :=
  match
    agent ← guard_field agent_name_ok (req_str d "agent_name");
    sha ← guard_field sha_ok (req_str d "commit_sha");
    files ← str_list_field d "files_changed";
    branch ← opt_str_field d "branch";
    iid ← guard_field (opt_all at_least_one) (opt_int_field d "mr_iid");
    project ← guard_field (opt_all at_least_one) (opt_int_field d "gitlab_project_id");
    diff ← opt_str_field d "diff_ref";
    by_ ← str_field d "triggered_by" "event";
    Some {| cc_agent_name := agent; cc_commit_sha := sha; cc_files_changed := files; cc_branch := branch;
            cc_mr_iid := iid; cc_gitlab_project_id := project; cc_diff_ref := diff; cc_triggered_by := by_ |}
  with Some p => Ok p | None => Raise (validation_error "CodeCommittedPayload") end.

Record QARunRequestedPayload := {
  rq_agent_name : string; rq_level : string; rq_commit_sha : option string; rq_files_changed : list string;
  rq_mr_iid : option Z; rq_gitlab_project_id : option Z; rq_requested_by : string; rq_reason : option string }.
Definition qa_run_requested_payload (d : pydict) : result QARunRequestedPayload :=
  match
    agent ← guard_field agent_name_ok (req_str d "agent_name");
    level ← str_field d "level" "all";
    sha ← guard_field (opt_all sha_ok) (opt_str_field d "commit_sha");
    files ← str_list_field d "files_changed";
    iid ← guard_field (opt_all at_least_one) (opt_int_field d "mr_iid");
    project ← guard_field (opt_all at_least_one) (opt_int_field d "gitlab_project_id");
    by_ ← str_field d "requested_by" "system";
    reason ← opt_str_field d "reason";
    Some {| rq_agent_name := agent; rq_level := level; rq_commit_sha := sha; rq_files_changed := files;
            rq_mr_iid := iid; rq_gitlab_project_id := project; rq_requested_by := by_; rq_reason := reason |}
  with Some p => Ok p | None => Raise (validation_error "QARunRequestedPayload") end.

(** [OpenProjectWorkPackageContext.from_event_payload] *)
Definition work_package_id (payload : pydict) : result (option Z) :=
  match dget_or payload "work_package_id" (dget payload "wp_id") with
  | PNone => Ok None
  | v => z ← py_int v; Ok (Some z)
  end.

Definition from_code_committed (payload : pydict) : result QARunRequest :=
  p ← code_committed_payload payload;
  _ ← work_package_id payload;
  mk_request {| qr_agent_name := cc_agent_name p; qr_level := "all"; qr_commit_sha := Some (cc_commit_sha p);
                qr_diff_ref := cc_diff_ref p; qr_files_changed := cc_files_changed p; qr_branch := cc_branch p;
                qr_mr_iid := cc_mr_iid p; qr_gitlab_project_id := cc_gitlab_project_id p;
                qr_trigger := "event"; qr_requested_by := "code.committed"; qr_reason := None |}.

Definition from_run_requested (payload : pydict) : result QARunRequest :=
  p ← qa_run_requested_payload payload;
  _ ← work_package_id payload;
  mk_request {| qr_agent_name := rq_agent_name p; qr_level := rq_level p; qr_commit_sha := rq_commit_sha p;
                qr_diff_ref := None; qr_files_changed := rq_files_changed p; qr_branch := None;
                qr_mr_iid := rq_mr_iid p; qr_gitlab_project_id := rq_gitlab_project_id p;
                qr_trigger := "event"; qr_requested_by := rq_requested_by p; qr_reason := rq_reason p |}.

(** [AcceptanceRun.request], with the time it is given. *)
Definition run_request (run_id : string) (request : QARunRequest) (requested_at : instant)
    : result AcceptanceRun :=
  let target := "agents/" +:+ qr_agent_name request in
  _ ← _validate_run_identity run_id (qr_agent_name request) target (qr_trigger request) (qr_level request);
  Ok {| ar_run_id := run_id; ar_agent_name := qr_agent_name request; ar_commit_sha := qr_commit_sha request;
        ar_mr_iid := qr_mr_iid request; ar_gitlab_project_id := qr_gitlab_project_id request;
        ar_trigger := qr_trigger request; ar_level := qr_level request; ar_target := target;
        ar_status := AcceptanceRunStatus_REQUESTED; ar_requested_at := requested_at; ar_started_at := None;
        ar_verdict := None; ar_total_checks := 0; ar_duration_seconds := f_zero; ar_report_markdown := None;
        ar_completed_at := None; ar_events := [] |}.

(** ** Results *)
Record AcceptanceFinding := {
  af_level : string; af_category : string; af_check : string; af_status : string; af_details : option string;
  af_file : option string; af_line : option Z; af_severity : string; af_is_blocking : bool }.

Record AcceptanceSummary := {
  as_l0_gate : string; as_l1_check : string; as_l2_report : string; as_total_checks : Z;
  as_l0_failures : Z; as_l1_warnings : Z }.

Record AcceptanceExecutionResult := {
  er_success : bool; er_exit_code : Z; er_summary : AcceptanceSummary; er_findings : list AcceptanceFinding;
  er_raw_report : pydict; er_stdout : option string; er_stderr : option string; er_duration_seconds : float;
  er_report_markdown : option string; er_run_id : string; er_notification_summary : pydict }.

(** A value of a finding: what [get] answers, in a strict model. *)
Definition strict_str (v : pyval) : option string := match v with PStr s => Some s | _ => None end.
Definition strict_opt_str (v : pyval) : option (option string) :=
  match v with PNone => Some None | PStr s => Some (Some s) | _ => None end.
Definition strict_opt_int (v : pyval) : option (option Z) :=
  match v with PNone => Some None | PInt z => Some (Some z) | _ => None end.
Definition one_of (l : list string) (o : option string) : option string :=
  guard_field (λ s, bool_decide (s ∈ l)) o.

(** [AcceptanceFinding(...)] of a finding's dictionary, with a severity and a flag. *)
Definition mk_finding (f : pydict) (severity : pyval) (blocking : bool) : result AcceptanceFinding :=
  match
    level ← one_of FINDING_LEVELS (strict_str (dget_or f "level" (PStr "L0")));
    category ← strict_str (dget_or f "category" (PStr ""));
    check ← strict_str (dget_or f "check" (PStr ""));
    status ← one_of FINDING_STATUS_VALUES (strict_str (dget_or f "status" (PStr "SKIP")));
    details ← strict_opt_str (dget f "details");
    file ← strict_opt_str (dget f "file");
    line ← strict_opt_int (dget f "line");
    severity ← one_of SEVERITIES (strict_str severity);
    Some {| af_level := level; af_category := category; af_check := check; af_status := status;
            af_details := details; af_file := file; af_line := line; af_severity := severity;
            af_is_blocking := blocking |}
  with Some x => Ok x | None => Raise (validation_error "AcceptanceFinding") end.

Definition mk_summary (v : AcceptanceVerdict) (total_checks : pyval) : result AcceptanceSummary :=
  match total_checks with
  | PInt z =>
      if 0 <=? z
      then Ok {| as_l0_gate := av_l0_gate v; as_l1_check := av_l1_status v; as_l2_report := av_l2_status v;
                 as_total_checks := z; as_l0_failures := av_l0_failure_count v;
                 as_l1_warnings := av_l1_warning_count v |}
      else Raise (validation_error "AcceptanceSummary")
  | _ => Raise (validation_error "AcceptanceSummary")
  end.

Definition derive_severity (f : pydict) : string :=
  let level := dget_or f "level" (PStr "") in
  let status := dget_or f "status" (PStr "") in
  if is_qa_blocking_finding level status then "critical"
  else if is_qa_warning_finding level status then "medium"
  else if is_qa_informational_finding level status then "info"
  else "low".

(** The finding of a fresh report. *)
Definition report_finding (v : pyval) : result AcceptanceFinding :=
  f ← as_pydict v;
  mk_finding f (PStr (derive_severity f))
    (is_qa_blocking_finding (dget_or f "level" (PStr "L0")) (dget_or f "status" (PStr "SKIP"))).

(** ** The report of the acceptance framework *)
Record CheckResult := {
  ck_level : string; ck_category : string; ck_check : string; ck_status : string;
  ck_details : option string; ck_file : option string; ck_line : option Z }.

Definition p_int (o : option Z) : pyval := match o with Some z => PInt z | None => PNone end.
Definition check_dict (r : CheckResult) : pydict :=
  [("level", PStr (ck_level r)); ("category", PStr (ck_category r)); ("check", PStr (ck_check r));
   ("status", PStr (ck_status r)); ("details", p_opt (ck_details r)); ("file", p_opt (ck_file r));
   ("line", p_int (ck_line r))].

Definition has (level status : string) (r : CheckResult) : bool :=
  bool_decide (ck_level r = level) && bool_decide (ck_status r = status).
Definition l0_fails (l : list CheckResult) : list CheckResult := filter (λ r, has "L0" "FAIL" r = true) l.
Definition l1_warns (l : list CheckResult) : list CheckResult := filter (λ r, has "L1" "WARN" r = true) l.

(** [AcceptanceReport.finalize] *)
Definition finalize (results : list CheckResult) : pydict :=
  [("l0_gate", PStr (if bool_decide (l0_fails results = []) then "PASS" else "FAIL"));
   ("l1_check", PStr (if bool_decide (l1_warns results = []) then "PASS" else "WARN"));
   ("l2_report", PStr "INFO"); ("total_checks", PInt (Z.of_nat (length results)));
   ("l0_failures", PInt (Z.of_nat (length (l0_fails results))));
   ("l1_warnings", PInt (Z.of_nat (length (l1_warns results))))].

(** [asdict(report)] *)
Definition report_dict (mr_id timestamp target : string) (results : list CheckResult) (duration : float) : pydict :=
  [("framework_version", PStr "1.0"); ("mr_id", PStr mr_id); ("timestamp", PStr timestamp);
   ("target", PStr target); ("summary", PDict (finalize results));
   ("results", PList (PDict ∘ check_dict <$> results)); ("duration_seconds", PFloat duration)].
