(* ===== verification/QaAcceptance.v ===== *)
(** * Acceptance runs of the QA agent

    [src/agents/qa_agent] around its domain: the tables ([models/qa.py]) and
    the stores ([db/repository.py], [db/report_store.py], [db/run_store.py],
    [db/unit_of_work.py]), the runner ([core/acceptance_runner.py]), the
    notifications ([core/notifier.py]), the delivery of the outbox
    ([core/outbox_delivery_use_cases.py]), the use case
    ([core/acceptance_execution_use_cases.py]) and the events
    ([core/event_use_cases.py]).  The outbox table has the columns of the
    coordinator's.  The subprocess, JSON, the database's failures, the event
    bus, GitLab and the chat webhook are the class [QaPorts]; the calls of a
    kind are numbered together. *)

From S2P Require Import Prelude PyNum PyTime PyValue DomainEvents Store Event WakeupAdapter.
From S2P Require Import OutboxDelivery QaDomain.

(** ** Tables *)
Record QAAcceptanceRun := {
  qa_id : string; qa_trace_id : option string; qa_trigger_event_id : option string; qa_agent_name : string;
  qa_target_path : string; qa_commit_sha : option string; qa_branch : option string; qa_mr_iid : option Z;
  qa_gitlab_project_id : option Z; qa_trigger : string; qa_level : string; qa_l0_status : string;
  qa_l1_status : string; qa_l2_status : string; qa_total_checks : Z; qa_l0_failure_count : Z;
  qa_l1_warning_count : Z; qa_duration_seconds : float; qa_runner_exit_code : Z;
  qa_files_changed : list string; qa_raw_report : pydict; qa_report_markdown : option string;
  qa_notification_summary : pydict; qa_created_at : instant; qa_completed_at : option instant }.

Record QAAcceptanceResult := {
  qs_id : string; qs_run_id : string; qs_level : string; qs_category : string; qs_check_name : string;
  qs_status : string; qs_severity : string; qs_is_blocking : bool; qs_details : option string;
  qs_file_path : option string; qs_line_number : option Z; qs_created_at : instant }.

Record QaDB := {
  qd_runs : list QAAcceptanceRun; qd_results : list QAAcceptanceResult;
  qd_outbox : list CoordinatorEventOutbox }.

(** What left the agent, in order. *)
Inductive qa_effect :=
  | Published (e : Event)
  | ChatCard (card : pydict)
  | MergeRequestNote (mr_iid : Z) (body : string) (project : option string).

Record QaWorld := {
  qw_db : QaDB; qw_effects : list qa_effect; qw_ticks : nat; qw_ids : nat; qw_calls : nat }.

Definition with_qa (w : QaWorld) (d : QaDB) : QaWorld :=
  {| qw_db := d; qw_effects := qw_effects w; qw_ticks := qw_ticks w; qw_ids := qw_ids w;
     qw_calls := qw_calls w |}.
Definition update_qa (f : QaDB → QaDB) : M QaWorld unit := modifyM (λ w, with_qa w (f (qw_db w))).
Definition query_qa {A} (f : QaDB → A) : M QaWorld A := getsM (λ w, f (qw_db w)).
Definition set_qa_runs (l : list QAAcceptanceRun) (d : QaDB) : QaDB :=
  {| qd_runs := l; qd_results := qd_results d; qd_outbox := qd_outbox d |}.
Definition set_qa_results (l : list QAAcceptanceResult) (d : QaDB) : QaDB :=
  {| qd_runs := qd_runs d; qd_results := l; qd_outbox := qd_outbox d |}.
Definition set_qa_outbox (l : list CoordinatorEventOutbox) (d : QaDB) : QaDB :=
  {| qd_runs := qd_runs d; qd_results := qd_results d; qd_outbox := l |}.
Definition sent (e : qa_effect) : M QaWorld unit :=
  modifyM (λ w, {| qw_db := qw_db w; qw_effects := qw_effects w ++ [e]; qw_ticks := qw_ticks w;
                   qw_ids := qw_ids w; qw_calls := qw_calls w |}).

(** ** The surroundings *)
Inductive process_outcome :=
  | ProcessExited (returncode : option Z) (stdout stderr : string)
  | ProcessTimeout
  | ProcessNotStarted (e : exn)
  | ProcessBroken (e : exn).

(** A commit may be durable although its acknowledgement is lost. *)
Inductive commit_outcome := Committed | NotCommitted (e : exn) | Unacknowledged (e : exn).

Class QaPorts := {
  qp_timeout : Z;
  qp_process : nat → list string → process_outcome;
  qp_json_loads : string → option pyval;
  qp_read_error : nat → option exn;
  qp_write_error : nat → option exn;
  qp_commit : nat → commit_outcome;
  qp_publish : nat → Event → result bool;
  qp_webhook_url : string;
  qp_webhook : option (nat → string → pydict → result bool);
  qp_card : option (string → pydict → list pyval → option Z → result pydict);
  qp_gitlab : option (nat → Z → string → option string → result bool);
  qp_high_checks : list string }.

(** A call to the outside: the answers come in the order of the calls. *)
Definition qa_call {A} (answer : nat → result A) : M QaWorld A := λ w,
  (answer (qw_calls w),
   {| qw_db := qw_db w; qw_effects := qw_effects w; qw_ticks := qw_ticks w; qw_ids := qw_ids w;
      qw_calls := S (qw_calls w) |}).

Definition fault (o : option exn) : result unit := match o with Some e => Raise e | None => Ok () end.

Section qa.
Context {E : Env} {P : QaPorts}.

Definition qa_now : M QaWorld instant := λ w,
  (Ok (clock (qw_ticks w)),
   {| qw_db := qw_db w; qw_effects := qw_effects w; qw_ticks := S (qw_ticks w); qw_ids := qw_ids w;
      qw_calls := qw_calls w |}).
Definition qa_ulid : M QaWorld string := λ w,
  (Ok (ulid (qw_ids w)),
   {| qw_db := qw_db w; qw_effects := qw_effects w; qw_ticks := qw_ticks w; qw_ids := S (qw_ids w);
      qw_calls := qw_calls w |}).
Definition new_event_id : M QaWorld string := u ← qa_ulid; mret ("evt_" +:+ u).

(** ** Stores *)

(** A read in a session of its own. *)
Definition qa_read {A} (f : QaDB → A) : M QaWorld A :=
  _ ← qa_call (λ n, fault (qp_read_error n)); query_qa f.

Definition of_trigger (event_id : string) (d : QaDB) : option QAAcceptanceRun :=
  get_row qa_trigger_event_id (Some event_id) (qd_runs d).

(** [get_by_trigger_event_id], behind the test of [_get_existing_event_run]. *)
Definition _get_existing_event_run (trigger_event_id : option string) : M QaWorld (option QAAcceptanceRun) :=
  match trigger_event_id with
  | Some id_ => if str_empty id_ then mret None else qa_read (of_trigger id_)
  | None => mret None
  end.

(** The check constraints of the table of runs. *)
Definition run_row_ok (r : QAAcceptanceRun) : bool :=
  bool_decide (qa_trigger r ∈ ["event"; "api"; "manual"; "scheduled"])
  && bool_decide (qa_level r ∈ ["l0"; "l1"; "l2"; "all"])
  && bool_decide (qa_l0_status r ∈ GATE_VALUES) && bool_decide (qa_l1_status r ∈ L1_STATUS_VALUES)
  && f_le f_zero (qa_duration_seconds r).

(** The primary key and the partial unique index on the trigger. *)
Definition run_row_new (rows : list QAAcceptanceRun) (r : QAAcceptanceRun) : bool :=
  bool_decide (qa_id r ∉ qa_id <$> rows)
  && match qa_trigger_event_id r with
     | Some t => bool_decide (Some t ∉ qa_trigger_event_id <$> rows)
     | None => true
     end.

(** [AcceptanceRunRepository.create] *)
Definition create_run (row : QAAcceptanceRun) : M QaWorld unit :=
  _ ← qa_call (λ n, fault (qp_write_error n));
  rows ← query_qa qd_runs;
  _ ← raise_ifM (negb (run_row_ok row && run_row_new rows row)) (integrity_error "qa_acceptance_runs");
  update_qa (λ d, set_qa_runs (qd_runs d ++ [row]) d).

Definition result_row (run_id id_ : string) (now : instant) (f : AcceptanceFinding) : QAAcceptanceResult := {|
  qs_id := id_; qs_run_id := run_id; qs_level := af_level f; qs_category := af_category f;
  qs_check_name := af_check f; qs_status := af_status f; qs_severity := af_severity f;
  qs_is_blocking := af_is_blocking f; qs_details := af_details f; qs_file_path := af_file f;
  qs_line_number := af_line f; qs_created_at := now |}.

(** [AcceptanceResultRepository.create_batch] *)
Definition create_batch (run_id : string) (findings : list AcceptanceFinding) : M QaWorld unit :=
  _ ← qa_call (λ n, fault (qp_write_error n));
  forM findings (λ f,
    id_ ← qa_ulid;
    now ← qa_now;
    rows ← query_qa qd_results;
    _ ← raise_ifM (bool_decide (id_ ∈ qs_id <$> rows)) (integrity_error "qa_acceptance_results");
    update_qa (λ d, set_qa_results (qd_results d ++ [result_row run_id id_ now f]) d)).

(** The row of [save_execution_result]. *)
Definition run_row (request : QARunRequest) (result : AcceptanceExecutionResult) (run_id : string)
    (trace_id trigger_event_id : option string) (created_at completed_at : instant) : QAAcceptanceRun := {|
  qa_id := run_id; qa_trace_id := trace_id; qa_trigger_event_id := trigger_event_id;
  qa_agent_name := qr_agent_name request; qa_target_path := "agents/" +:+ qr_agent_name request;
  qa_commit_sha := qr_commit_sha request; qa_branch := qr_branch request; qa_mr_iid := qr_mr_iid request;
  qa_gitlab_project_id := qr_gitlab_project_id request; qa_trigger := qr_trigger request;
  qa_level := qr_level request; qa_l0_status := as_l0_gate (er_summary result);
  qa_l1_status := as_l1_check (er_summary result); qa_l2_status := as_l2_report (er_summary result);
  qa_total_checks := as_total_checks (er_summary result);
  qa_l0_failure_count := as_l0_failures (er_summary result);
  qa_l1_warning_count := as_l1_warnings (er_summary result);
  qa_duration_seconds := er_duration_seconds result; qa_runner_exit_code := er_exit_code result;
  qa_files_changed := qr_files_changed request; qa_raw_report := er_raw_report result;
  qa_report_markdown := er_report_markdown result; qa_notification_summary := [];
  qa_created_at := created_at; qa_completed_at := Some completed_at |}.

Definition save_execution_result (request : QARunRequest) (result : AcceptanceExecutionResult)
    (run_id : string) (trace_id trigger_event_id : option string) (completed_at : instant)
    : M QaWorld QAAcceptanceRun :=
  created_at ← qa_now;
  let row := run_row request result run_id trace_id trigger_event_id created_at completed_at in
  _ ← create_run row;
  _ ← whenM (negb (bool_decide (length (er_findings result) = 0%nat)))
        (create_batch (qa_id row) (er_findings result));
  mret row.

(** [QAEventOutboxRepository.add] *)
Definition outbox_stage (e : Event) : M QaWorld unit :=
  _ ← qa_call (λ n, fault (qp_write_error n));
  now ← qa_now;
  rows ← query_qa qd_outbox;
  _ ← raise_ifM (bool_decide (ev_event_id e ∈ co_event_id <$> rows)) (integrity_error "qa_agent_event_outbox");
  update_qa (λ d, set_qa_outbox (qd_outbox d ++ [outbox_row e now]) d).

(** The unit of work around [m], which ends in [commit]. *)
Definition in_qa_uow {A} (m : M QaWorld A) : M QaWorld A := λ w,
  match m w with
  | (Raise e, w') => (Raise e, with_qa w' (qw_db w))
  | (Ok a, w') =>
      let committed :=
        {| qw_db := qw_db w'; qw_effects := qw_effects w'; qw_ticks := qw_ticks w'; qw_ids := qw_ids w';
           qw_calls := S (qw_calls w') |} in
      match qp_commit (qw_calls w') with
      | Committed => (Ok a, committed)
      | NotCommitted e => (Raise e, with_qa committed (qw_db w))
      | Unacknowledged e => (Raise e, committed)
      end
  end.

Definition with_summary (summary : pydict) (r : QAAcceptanceRun) : QAAcceptanceRun := {|
  qa_id := qa_id r; qa_trace_id := qa_trace_id r; qa_trigger_event_id := qa_trigger_event_id r;
  qa_agent_name := qa_agent_name r; qa_target_path := qa_target_path r; qa_commit_sha := qa_commit_sha r;
  qa_branch := qa_branch r; qa_mr_iid := qa_mr_iid r; qa_gitlab_project_id := qa_gitlab_project_id r;
  qa_trigger := qa_trigger r; qa_level := qa_level r; qa_l0_status := qa_l0_status r;
  qa_l1_status := qa_l1_status r; qa_l2_status := qa_l2_status r; qa_total_checks := qa_total_checks r;
  qa_l0_failure_count := qa_l0_failure_count r; qa_l1_warning_count := qa_l1_warning_count r;
  qa_duration_seconds := qa_duration_seconds r; qa_runner_exit_code := qa_runner_exit_code r;
  qa_files_changed := qa_files_changed r; qa_raw_report := qa_raw_report r;
  qa_report_markdown := qa_report_markdown r; qa_notification_summary := summary;
  qa_created_at := qa_created_at r; qa_completed_at := qa_completed_at r |}.

(** [SqlAlchemyQAAcceptanceRunStore.update_notification_summary] *)
Definition store_notification_summary (run_id : string) (summary : pydict) : M QaWorld bool :=
  in_qa_uow
    (run_ ← qa_read (λ d, get_row qa_id run_id (qd_runs d));
     match run_ with
     | None => mret false
     | Some _ =>
         _ ← update_qa (λ d, set_qa_runs (update_row qa_id run_id (with_summary summary) (qd_runs d)) d);
         mret true
     end).

(** ** The runner *)
Definition runner_args (agent_name level format : string) (diff_ref : option string) (mr_id : string)
    : list string :=
  ["--target"; "agents/" +:+ agent_name; "--level"; level; "--format"; format]
  ++ (if truthy diff_ref then ["--diff"; str_or_empty diff_ref] else [])
  ++ (if str_empty mr_id then [] else ["--mr-id"; mr_id]).

Definition _error_report (error : string) (exit_code : Z) (duration : pyval) (stdout stderr : string) : pydict :=
  [("summary", PDict [("l0_gate", PStr "ERROR"); ("l1_check", PStr "ERROR"); ("l2_report", PStr "INFO");
                      ("total_checks", PInt 0); ("l0_failures", PInt 0); ("l1_warnings", PInt 0)]);
   ("results", PList []); ("duration_seconds", duration); ("exit_code", PInt exit_code);
   ("error", PStr error)]
  ++ (if str_empty stdout then [] else [("stdout", PStr stdout)])
  ++ (if str_empty stderr then [] else [("stderr", PStr stderr)]).

(** What the runner adds to a report it could parse. *)
Definition add_process_output (exit_code : Z) (stdout stderr : string) (report : pydict) : pydict :=
  let report := dict_set report "exit_code" (PInt exit_code) in
  let report := if exit_code =? 0 then report else dict_set report "stdout" (PStr (str_take 2000 stdout)) in
  if str_empty (strip stderr) then report else dict_set report "stderr" (PStr (str_take 2000 stderr)).

Definition parsed_report (exit_code : Z) (stdout stderr : string) : result pydict :=
  match qp_json_loads stdout with
  | None => Ok (_error_report ("JSON parse failed: " +:+ str_take 200 stderr) exit_code (PInt 0)
                  (str_take 1000 stdout) (str_take 1000 stderr))
  | Some (PDict d) =>
      let report := add_process_output exit_code stdout stderr d in
      (* the log line reads the gate *)
      _ ← as_pydict (dget_or report "summary" (PDict []));
      Ok report
  | Some _ => Raise (type_error "object does not support item assignment")
  end.

Definition run_json (agent_name level : string) (diff_ref : option string) (mr_id : string) : M QaWorld pydict :=
  outcome ← qa_call (λ n, Ok (qp_process n (runner_args agent_name level "json" diff_ref mr_id)));
  liftM match outcome with
  | ProcessExited returncode stdout stderr => parsed_report (default 0 returncode) stdout stderr
  | ProcessTimeout =>
      Ok (_error_report ("Runner timed out after " +:+ pretty qp_timeout +:+ "s") (-1)
            (PFloat (float_lit qp_timeout 0)) "" "")
  | ProcessNotStarted e =>
      Ok (_error_report ("Runner execution failed: " +:+ error_text e) (-1) (PInt 0) "" "")
  | ProcessBroken e => Raise e
  end.

Definition run_markdown (agent_name level : string) : M QaWorld string :=
  outcome ← qa_call (λ n, Ok (qp_process n (runner_args agent_name level "markdown" None "")));
  mret match outcome with
  | ProcessExited _ stdout stderr => if str_empty stdout then stderr else stdout
  | ProcessTimeout =>
      "> **ERROR**: Acceptance check timed out after " +:+ pretty qp_timeout +:+ "s. Please re-run."
  | ProcessNotStarted e | ProcessBroken e => "> **ERROR**: Acceptance check failed: " +:+ error_text e
  end.

(** ** Running the checks *)

(** The fields of [AcceptanceExecutionResult]: [run_json] always writes an
    integer exit code; a number becomes a non-negative float. *)
Definition int_field (v : pyval) : result Z :=
  match v with PInt z => Ok z | _ => Raise (validation_error "AcceptanceExecutionResult") end.
Definition lax_duration (v : pyval) : result float :=
  match py_float v with
  | Ok f => if f_le f_zero f then Ok f else Raise (validation_error "AcceptanceExecutionResult")
  | Raise _ => Raise (validation_error "AcceptanceExecutionResult")
  end.
Definition lax_text (v : pyval) : result (option string) :=
  match strict_opt_str v with Some o => Ok o | None => Raise (validation_error "AcceptanceExecutionResult") end.

(** The result of a report, with the summary and the findings it names. *)
Definition result_of_report (report : pydict) (report_md : option string)
    : result (AcceptanceExecutionResult * pydict * list pyval) :=
  summary_data ← as_pydict (dget_or report "summary" (PDict []));
  verdict ← from_summary summary_data;
  summary ← mk_summary verdict (dget_or summary_data "total_checks" (PInt 0));
  findings_data ← py_iter (dget_or report "results" (PList []));
  findings ← mapR report_finding findings_data;
  exit_code ← int_field (dget_or report "exit_code" (PInt (-1)));
  stdout ← lax_text (dget report "stdout");
  stderr ← lax_text (dget report "stderr");
  duration ← lax_duration (dget_or report "duration_seconds" (PInt 0));
  Ok ({| er_success := negb (is_blocking verdict); er_exit_code := exit_code; er_summary := summary;
         er_findings := findings; er_raw_report := report; er_stdout := stdout; er_stderr := stderr;
         er_duration_seconds := duration; er_report_markdown := report_md; er_run_id := "";
         er_notification_summary := [] |}, summary_data, findings_data).

Record checks := {
  cx_result : AcceptanceExecutionResult; cx_summary : pydict; cx_findings : list pyval;
  cx_report_md : option string }.

Definition _run_checks (request : QARunRequest) : M QaWorld checks :=
  let mr_id := match qr_mr_iid request with Some i => if i =? 0 then "" else "!" +:+ pretty i | None => "" end in
  report ← run_json (qr_agent_name request) (qr_level request) (qr_diff_ref request) mr_id;
  report_md ← (if str_empty mr_id then mret None
               else md ← run_markdown (qr_agent_name request) (qr_level request); mret (Some md));
  r ← liftM (result_of_report report report_md);
  let '(result, summary_data, findings_data) := r in
  mret {| cx_result := result; cx_summary := summary_data; cx_findings := findings_data;
          cx_report_md := report_md |}.

(** ** The aggregate and its events *)
Definition build_acceptance_run (run_id : string) (request : QARunRequest) (c : checks) : M QaWorld AcceptanceRun :=
  requested_at ← qa_now;
  run ← liftM (run_request run_id request requested_at);
  started_at ← qa_now;
  run ← liftM (run_start started_at run);
  completed_at ← qa_now;
  liftM (record_completion (cx_summary c) (cx_findings c) (er_duration_seconds (cx_result c)) (cx_report_md c)
           completed_at run).

Definition QA_ACCEPTANCE_COMPLETED : string := "qa.acceptance-completed".
Definition QA_GATE_FAILED : string := "qa.gate-failed".

Definition _completed_payload (e : AcceptanceRunCompleted) : pydict :=
  [("run_id", PStr (rc_run_id e)); ("agent_name", PStr (rc_agent_name e)); ("commit_sha", p_opt (rc_commit_sha e));
   ("mr_iid", p_int (rc_mr_iid e)); ("gitlab_project_id", p_int (rc_gitlab_project_id e));
   ("trigger", PStr (rc_trigger e)); ("level", PStr (rc_level e)); ("target", PStr (rc_target e));
   ("summary", PDict (rc_summary e)); ("findings", PList (PDict <$> rc_findings e));
   ("duration_seconds", PFloat (rc_duration_seconds e)); ("report_markdown", p_opt (rc_report_markdown e));
   ("completed_at", PStr (isoformat "T" (of_utc (rc_completed_at e))))].

Definition _gate_failed_payload (e : AcceptanceRunCompleted) : pydict :=
  [("run_id", PStr (rc_run_id e)); ("agent_name", PStr (rc_agent_name e)); ("commit_sha", p_opt (rc_commit_sha e));
   ("mr_iid", p_int (rc_mr_iid e)); ("gitlab_project_id", p_int (rc_gitlab_project_id e));
   ("l0_failure_count", PInt (av_l0_failure_count (rc_verdict e)));
   ("blocking_findings", PList (PDict <$> take 10 (blocking_findings e)));
   ("duration_seconds", PFloat (rc_duration_seconds e)); ("report_markdown", p_opt (rc_report_markdown e))].

(** [Event.create] *)
Definition create_event (event_type : string) (payload : pydict) (trace_id : option string) : M QaWorld Event :=
  id_ ← new_event_id;
  now ← qa_now;
  liftM (event_create id_ (of_utc now) event_type "qa-agent" payload trace_id).

Definition build_acceptance_events_from_run (run : AcceptanceRun) (trace_id : option string) : M QaWorld (list Event) :=
  match ar_events run with
  | [completion] =>
      completed ← create_event QA_ACCEPTANCE_COMPLETED (_completed_payload completion) trace_id;
      if run_is_blocking run then
        failed ← create_event QA_GATE_FAILED (_gate_failed_payload completion) trace_id;
        mret [completed; failed]
      else mret [completed]
  | _ => raiseM (value_error "not enough values to unpack")
  end.

(** ** Persistence *)
Definition is_integrity_error (e : exn) : bool :=
  match e with Exn cls _ => bool_decide (cls = "IntegrityError") | _ => false end.

Definition persist_body (request : QARunRequest) (c : checks) (trace_id trigger_event_id : option string)
    : M QaWorld (option string * list Event) :=
  id_ ← qa_ulid;
  run ← build_acceptance_run id_ request c;
  staged ← build_acceptance_events_from_run run trace_id;
  row ← in_qa_uow
    (row ← save_execution_result request (cx_result c) (ar_run_id run) trace_id trigger_event_id
             (default 0 (ar_completed_at run));
     _ ← raise_ifM (negb (bool_decide (qa_id row = ar_run_id run)))
           (Exn "RuntimeError" "persisted QA run id changed across the UOW boundary");
     _ ← forM staged outbox_stage;
     mret row);
  mret (Some (qa_id row), staged).

Definition _persist_result (request : QARunRequest) (c : checks) (trace_id trigger_event_id : option string)
    : M QaWorld (option string * list Event) :=
  catchM (persist_body request c trace_id trigger_event_id)
    (λ e, if is_integrity_error e then raiseM e else mret (None, [])).

(** ** Delivery of the outbox *)
Definition set_outbox_row (event_id : string) (f : CoordinatorEventOutbox → CoordinatorEventOutbox) : M QaWorld unit :=
  _ ← qa_call (λ n, fault (qp_write_error n));
  update_qa (λ d, set_qa_outbox (update_row co_event_id event_id f (qd_outbox d)) d).

(** [mark_event_published] and [mark_event_failed]: a failure is logged. *)
Definition mark_event_published (e : Event) : M QaWorld unit :=
  catchM (now ← qa_now; set_outbox_row (ev_event_id e) (set_status "published" None (Some now))) (λ _, mret ()).
Definition mark_event_failed (e : Event) (error : string) : M QaWorld unit :=
  catchM (set_outbox_row (ev_event_id e) (set_status "pending" (Some (str_take 1000 error)) None)) (λ _, mret ()).

Definition publish_staged_event (e : Event) : M QaWorld bool :=
  catchM
    (ok ← qa_call (λ n, qp_publish n e);
     _ ← raise_ifM (negb ok) (Exn "RuntimeError" "event_bus_publish_returned_false");
     _ ← sent (Published e);
     _ ← mark_event_published e;
     mret true)
    (λ err, _ ← mark_event_failed e (error_text err); mret false).

Fixpoint publish_each (events : list Event) (published failed : Z) : M QaWorld (Z * Z) :=
  match events with
  | [] => mret (published, failed)
  | e :: events' =>
      ok ← publish_staged_event e;
      if ok : bool then publish_each events' (published + 1) failed else publish_each events' published (failed + 1)
  end.

Definition publish_staged_events (events : list Event) : M QaWorld pydict :=
  if bool_decide (length events = 0%nat) then mret [("sent", PBool false); ("reason", PStr "no_events")]
  else
    counts ← publish_each events 0 0;
    mret [("sent", PBool (counts.2 =? 0)); ("published", PInt counts.1); ("failed", PInt counts.2)].

(** Whether the event was sent. *)
Definition publish_event_via_outbox (e : Event) : M QaWorld bool :=
  _ ← in_qa_uow (outbox_stage e);
  result ← publish_staged_events [e];
  mret (py_bool (dget result "sent")).

Fixpoint publish_rows (rows : list CoordinatorEventOutbox) (published failed : Z) : M QaWorld (Z * Z) :=
  match rows with
  | [] => mret (published, failed)
  | row :: rows' =>
      e ← liftM (event_from_outbox row);
      ok ← publish_staged_event e;
      if ok : bool then publish_rows rows' (published + 1) failed else publish_rows rows' published (failed + 1)
  end.

Definition publish_pending_qa_events (limit : nat) : M QaWorld (Z * Z * Z) :=
  rows ← qa_read (λ d, list_pending limit (qd_outbox d));
  counts ← publish_rows rows 0 0;
  mret (Z.of_nat (length rows), counts.1, counts.2).

(** ** Notifications *)
Definition not_sent (reason : string) : pydict := [("sent", PBool false); ("reason", PStr reason)].
Definition send_failed (e : exn) : pydict := [("sent", PBool false); ("error", PStr (error_text e))].

Definition _should_notify_feishu (summary : pydict) (findings : list pyval) : result bool :=
  verdict ← from_summary summary;
  if is_blocking verdict then Ok true
  else if bool_decide (length qp_high_checks = 0%nat) then Ok false
  else
    fs ← mapR as_pydict findings;
    Ok (existsb (λ f, is_qa_warning_finding (dget_or f "level" (PStr "")) (dget_or f "status" (PStr ""))
                      && existsb (is_str (dget f "check")) qp_high_checks) fs).

Definition _send_feishu (agent_name : string) (summary : pydict) (findings : list pyval) (mr_iid : option Z)
    : M QaWorld pydict :=
  if str_empty qp_webhook_url then mret (not_sent "no_webhook")
  else match qp_webhook, qp_card with
       | None, _ => mret (not_sent "no_webhook_adapter")
       | _, None => mret (not_sent "no_card_renderer")
       | Some send, Some build =>
           card ← liftM (build agent_name summary findings mr_iid);
           catchM (ok ← qa_call (λ n, send n qp_webhook_url card);
                   if ok : bool then _ ← sent (ChatCard card); mret [("sent", PBool true)]
                   else mret (not_sent "feishu_webhook_rejected"))
             (λ e, mret (send_failed e))
       end.

Definition _post_gitlab_comment (mr_iid : Z) (report_markdown : string) (project_id : option string)
    : M QaWorld pydict :=
  match qp_gitlab with
  | None => mret (not_sent "gitlab_adapter_not_configured")
  | Some upsert =>
      catchM (ok ← qa_call (λ n, upsert n mr_iid report_markdown project_id);
              if ok : bool then _ ← sent (MergeRequestNote mr_iid report_markdown project_id);
                                mret [("sent", PBool true)]
              else mret (not_sent "gitlab_api_rejected"))
        (λ e, mret (send_failed e))
  end.

(** [QANotifier.notify_all], for a given outcome of the event bus. *)
Definition notify_all (request : QARunRequest) (c : checks) (eventbus_summary : pydict) : M QaWorld pydict :=
  should ← liftM (_should_notify_feishu (cx_summary c) (cx_findings c));
  feishu ← (if should : bool
            then _send_feishu (qr_agent_name request) (cx_summary c) (cx_findings c) (qr_mr_iid request)
            else mret (not_sent "below_threshold"));
  gitlab ← match qr_mr_iid request, cx_report_md c with
           | Some iid, Some md =>
               if (iid =? 0) || str_empty md then mret (not_sent "no_mr")
               else _post_gitlab_comment iid md
                      (match qr_gitlab_project_id request with
                       | Some p => if p =? 0 then None else Some (pretty p)
                       | None => None
                       end)
           | _, _ => mret (not_sent "no_mr")
           end;
  mret [("eventbus", PDict eventbus_summary); ("feishu", PDict feishu); ("gitlab", PDict gitlab)].

Definition _update_notification_summary (run_id : option string) (summary : pydict) : M QaWorld unit :=
  match run_id with
  | None => mret ()
  | Some id_ =>
      if str_empty id_ then mret ()
      else catchM (_ ← store_notification_summary id_ summary; mret ()) (λ _, mret ())
  end.

Definition _notify (request : QARunRequest) (c : checks) (run_id : option string) (eventbus_summary : pydict)
    : M QaWorld pydict :=
  catchM (summary ← notify_all request c eventbus_summary;
          _ ← _update_notification_summary run_id summary;
          mret summary)
    (λ e, mret [("_error", PStr (error_text e))]).

(** ** Replays *)

(** A finding that cannot be decoded is logged and left out. *)
Definition replayed_findings (l : list pyval) : list AcceptanceFinding :=
  omap (λ v, match v with
             | PDict f =>
                 match mk_finding f (dget_or f "severity" (PStr "info"))
                         (py_bool (dget_or f "is_blocking" (PBool false))) with
                 | Ok x => Some x | Raise _ => None
                 end
             | _ => None
             end) l.

Definition result_from_run (run : QAAcceptanceRun) : result AcceptanceExecutionResult :=
  findings ← py_iter (py_or (dget_or (qa_raw_report run) "results" (PList [])) (PList []));
  verdict ← mk_verdict {| av_l0_gate := qa_l0_status run; av_l1_status := qa_l1_status run;
                          av_l2_status := qa_l2_status run; av_l0_failure_count := qa_l0_failure_count run;
                          av_l1_warning_count := qa_l1_warning_count run |};
  summary ← mk_summary verdict (PInt (qa_total_checks run));
  duration ← lax_duration (PFloat (qa_duration_seconds run));
  Ok {| er_success := negb (is_blocking verdict); er_exit_code := qa_runner_exit_code run; er_summary := summary;
        er_findings := replayed_findings findings; er_raw_report := qa_raw_report run; er_stdout := None;
        er_stderr := None; er_duration_seconds := duration; er_report_markdown := qa_report_markdown run;
        er_run_id := qa_id run; er_notification_summary := qa_notification_summary run |}.

(** ** [run_acceptance]: what happens before the result is persisted, and after *)
Definition with_outcome (run_id : string) (notification : pydict) (r : AcceptanceExecutionResult)
    : AcceptanceExecutionResult := {|
  er_success := er_success r; er_exit_code := er_exit_code r; er_summary := er_summary r;
  er_findings := er_findings r; er_raw_report := er_raw_report r; er_stdout := er_stdout r;
  er_stderr := er_stderr r; er_duration_seconds := er_duration_seconds r;
  er_report_markdown := er_report_markdown r; er_run_id := run_id; er_notification_summary := notification |}.

(** A finished replay, or checks to persist. *)
Definition start_acceptance (request : QARunRequest) (trigger_event_id : option string)
    : M QaWorld (AcceptanceExecutionResult + checks) :=
  existing_run ← _get_existing_event_run trigger_event_id;
  match existing_run with
  | Some run => r ← liftM (result_from_run run); mret (inl r)
  | None => c ← _run_checks request; mret (inr c)
  end.

(** [inl]: the run another worker recorded for the same event. *)
Definition persist_or_replay (request : QARunRequest) (c : checks) (trace_id trigger_event_id : option string)
    : M QaWorld (AcceptanceExecutionResult + option string * list Event) :=
  catchM (p ← _persist_result request c trace_id trigger_event_id; mret (inr p))
    (λ e,
      if negb (is_integrity_error e) then raiseM e
      else
        existing_run ← _get_existing_event_run trigger_event_id;
        match existing_run with
        | Some run => r ← liftM (result_from_run run); mret (inl r)
        | None => mret (inr (None, []))
        end).

Definition finish_acceptance (request : QARunRequest) (c : checks) (trace_id trigger_event_id : option string)
    : M QaWorld AcceptanceExecutionResult :=
  p ← persist_or_replay request c trace_id trigger_event_id;
  match p with
  | inl r => mret r
  | inr (run_id, staged_events) =>
      eventbus_summary ← publish_staged_events staged_events;
      notification_summary ← _notify request c run_id eventbus_summary;
      mret (with_outcome (str_or_empty run_id) notification_summary (cx_result c))
  end.

Definition run_acceptance (request : QARunRequest) (trace_id trigger_event_id : option string)
    : M QaWorld AcceptanceExecutionResult :=
  s ← start_acceptance request trigger_event_id;
  match s with
  | inl r => mret r
  | inr c => finish_acceptance request c trace_id trigger_event_id
  end.

(** ** Events *)
Definition qa_request_of (e : Event) : option (result QARunRequest) :=
  if bool_decide (ev_event_type e = "code.committed") then Some (from_code_committed (ev_payload e))
  else if bool_decide (ev_event_type e = "qa.run-requested") then Some (from_run_requested (ev_payload e))
  else None.

Definition handle (e : Event) : M QaWorld (list Event) :=
  match qa_request_of e with
  | None => mret []
  | Some r =>
      request ← liftM r;
      _ ← run_acceptance request (em_trace_id (ev_metadata e)) (Some (ev_event_id e));
      mret []
  end.

(** ** Requests ([core/api_use_cases.py], [core/run_query_use_cases.py]) *)
Definition qa_api_status_from_l0_gate (l0_gate : string) : string :=
  default "error" (dict_get [("PASS", "passed"); ("FAIL", "failed"); ("ERROR", "error")] l0_gate).

(** A timeout stays one; any other failure of the run is reported as such. *)
Definition run_failed (e : exn) : exn :=
  match e with
  | Exn cls _ => if bool_decide (cls = "TimeoutError") then Exn "QAApiTimeoutError" ""
                 else Exn "QAApiRunFailedError" (error_text e)
  | _ => Exn "QAApiRunFailedError" (error_text e)
  end.

(** [trigger_run]: the identifier and the status of the answer, with the result. *)
Definition trigger_run (command : QARunRequest) : M QaWorld (string * string * AcceptanceExecutionResult) :=
  request ← liftM (mk_request {|
    qr_agent_name := qr_agent_name command; qr_level := qr_level command; qr_commit_sha := qr_commit_sha command;
    qr_diff_ref := None; qr_files_changed := qr_files_changed command; qr_branch := None;
    qr_mr_iid := qr_mr_iid command; qr_gitlab_project_id := qr_gitlab_project_id command; qr_trigger := "manual";
    qr_requested_by := qr_requested_by command; qr_reason := qr_reason command |});
  result ← catchM (run_acceptance request None None) (λ e, raiseM (run_failed e));
  mret (er_run_id result, qa_api_status_from_l0_gate (as_l0_gate (er_summary result)), result).

Definition p_instant (t : instant) : pyval := PStr (isoformat "T" (of_utc t)).

Definition _list_item (run : QAAcceptanceRun) : pydict :=
  [("id", PStr (qa_id run)); ("run_id", PStr (qa_id run)); ("agent_name", PStr (qa_agent_name run));
   ("commit_sha", p_opt (qa_commit_sha run)); ("mr_iid", p_int (qa_mr_iid run)); ("trigger", PStr (qa_trigger run));
   ("l0_status", PStr (qa_l0_status run)); ("l1_status", PStr (qa_l1_status run));
   ("total_checks", PInt (qa_total_checks run)); ("duration_seconds", PFloat (qa_duration_seconds run));
   ("created_at", p_instant (qa_created_at run))].

Definition of_agent (agent_name : option string) (r : QAAcceptanceRun) : bool :=
  negb (truthy agent_name) || bool_decide (qa_agent_name r = str_or_empty agent_name).

(** Newest first; the database breaks ties as it likes, here by age of the row. *)
Definition list_runs (agent_name : option string) (limit offset : nat) : M QaWorld (list pydict) :=
  runs ← qa_read (λ d,
    take limit (drop offset
      (py_sorted (λ a b, qa_created_at b <=? qa_created_at a)
         (filter (λ r, of_agent agent_name r = true) (qd_runs d)))));
  mret (_list_item <$> runs).

Definition run_detail (run : QAAcceptanceRun) : pydict :=
  [("id", PStr (qa_id run)); ("run_id", PStr (qa_id run)); ("agent_name", PStr (qa_agent_name run));
   ("commit_sha", p_opt (qa_commit_sha run)); ("mr_iid", p_int (qa_mr_iid run)); ("trigger", PStr (qa_trigger run));
   ("level", PStr (qa_level run)); ("files_changed", PList (PStr <$> qa_files_changed run));
   ("summary", PDict [("l0_gate", PStr (qa_l0_status run)); ("l1_check", PStr (qa_l1_status run));
                      ("l2_report", PStr (qa_l2_status run)); ("total_checks", PInt (qa_total_checks run));
                      ("l0_failures", PInt (qa_l0_failure_count run));
                      ("l1_warnings", PInt (qa_l1_warning_count run))]);
   ("findings", dget_or (qa_raw_report run) "results" (PList [])); ("raw_report", PDict (qa_raw_report run));
   ("report_markdown", p_opt (qa_report_markdown run));
   ("notification_summary", PDict (qa_notification_summary run));
   ("created_at", p_instant (qa_created_at run));
   ("completed_at", match qa_completed_at run with Some t => p_instant t | None => PNone end)].

Definition get_run (run_id : string) : M QaWorld (option pydict) :=
  run ← qa_read (λ d, get_row qa_id run_id (qd_runs d)); mret (run_detail <$> run).

(** The counts of [get_stats]: in all, passed, with warnings, failed. *)
Definition count_if (p : QAAcceptanceRun → bool) (rows : list QAAcceptanceRun) : nat :=
  length (filter (λ r, p r = true) rows).
Definition status_is (l0 l1 : string) (r : QAAcceptanceRun) : bool :=
  bool_decide (qa_l0_status r = l0) && bool_decide (qa_l1_status r = l1).
Definition run_counts (rows : list QAAcceptanceRun) : nat * nat * nat * nat :=
  (length rows, count_if (status_is "PASS" "PASS") rows, count_if (status_is "PASS" "WARN") rows,
   count_if (λ r, bool_decide (qa_l0_status r = "FAIL")) rows).
Definition get_stats_counts (agent_name : option string) (cutoff : instant) : M QaWorld (nat * nat * nat * nat) :=
  qa_read (λ d, run_counts (filter (λ r,
    cutoff ≤ qa_created_at r ∧ of_agent agent_name r = true) (qd_runs d))).
End qa.
