(* ===== verification/QaTheorems.v ===== *)
(** * What the QA agent records, announces and replays

    The records, the findings and the staged events of every history of
    interleaved workers agree, and a replayed event changes nothing. *)

From S2P Require Import Prelude PyNum PyTime PyValue DomainEvents Store Event WakeupAdapter OutboxDelivery QaDomain QaAcceptance.

(** ** Delivery and notification *)

(** All but the delivery columns and the notification summaries *)
Definition view (d : QaDB) := (with_summary [] <$> qd_runs d, qd_results d, core <$> qd_outbox d).

(** From [w] to [w']: the records keep their content, and what was published has
    an identifier of [K]. *)
Definition delivers (K : list string) (w w' : QaWorld) : Prop :=
  view (qw_db w') = view (qw_db w)
  ∧ ∀ e, Published e ∈ qw_effects w' → Published e ∈ qw_effects w ∨ ev_event_id e ∈ K.

Lemma delivers_refl K w : delivers K w w.
Proof. split; auto. Qed.
Lemma delivers_trans K w1 w2 w3 : delivers K w1 w2 → delivers K w2 w3 → delivers K w1 w3.
Proof. intros [V1 P1] [V2 P2]. split; [congruence|]. intros e [H|H]%P2; auto. Qed.

Create HintDb qa.
#[export] Hint Resolve preserves_ret preserves_raise preserves_lift preserves_gets preserves_raise_if
  preserves_when : qa.

Section frame.
Context {E : Env} {P : QaPorts} (K : list string) (w0 : QaWorld).
Notation keeps := (preserves (delivers K w0)).

Lemma keeps_intro {A} (m : M QaWorld A) :
  (∀ w r w', m w = (r, w') → delivers K w w') → keeps m.
Proof. intros Hm w r w' H H0. eapply delivers_trans; [exact H0|]. by eapply Hm. Qed.

Lemma keeps_quiet {A} (m : M QaWorld A) :
  (∀ w r w', m w = (r, w') → qw_db w' = qw_db w ∧ qw_effects w' = qw_effects w) → keeps m.
Proof. intros Hm. apply keeps_intro. intros w r w' [Hd He]%Hm. unfold delivers. rewrite Hd, He. auto. Qed.

Lemma keeps_call {A} (f : nat → result A) : keeps (qa_call f).
Proof. apply keeps_quiet. by intros w r w' [= <- <-]. Qed.
Lemma qa_keeps_now : keeps qa_now.
Proof. apply keeps_quiet. by intros w r w' [= <- <-]. Qed.
Lemma keeps_ulid : keeps qa_ulid.
Proof. apply keeps_quiet. by intros w r w' [= <- <-]. Qed.
Lemma keeps_update f : (∀ d, view (f d) = view d) → keeps (update_qa f).
Proof. intros Hf. apply keeps_intro. intros w r w' [= <- <-]. split; cbn; auto. Qed.
Lemma keeps_sent e : (∀ ev, e = Published ev → ev_event_id ev ∈ K) → keeps (sent e).
Proof.
  intros He. apply keeps_intro. intros w r w' [= <- <-]. split; [done|]. cbn.
  intros ev [H|H%list_elem_of_singleton]%elem_of_app; [by left|right; by apply He].
Qed.
Lemma qa_keeps_bind {A B} (m : M QaWorld A) (k : A → M QaWorld B) : keeps m → (∀ a, keeps (k a)) → keeps (m ≫= k).
Proof. apply preserves_bind. Qed.

Lemma keeps_uow {A} (m : M QaWorld A) : keeps m → keeps (in_qa_uow m).
Proof.
  intros Hm w r w' H H0. unfold in_qa_uow in H. destruct (m w) as [[a|e] w1] eqn:Hr;
    pose proof (Hm _ _ _ Hr H0) as [V1 P1]; destruct H0 as [V0 P0].
  - cbn zeta in H. destruct (qp_commit (qw_calls w1)); injection H as <- <-; split; cbn; auto.
  - injection H as <- <-. split; cbn; auto.
Qed.
End frame.
#[export] Hint Resolve keeps_call qa_keeps_now keeps_ulid : qa.

(** Walks a computation that delivers; [leaf] does its parts. *)
Ltac qwalk_with leaf :=
  repeat first
    [ progress auto with qa
    | leaf
    | apply preserves_bind; [|intros]
    | apply preserves_catch; [|intros]
    | apply keeps_uow
    | match goal with
      | |- preserves _ (match ?x with _ => _ end) => destruct x
      | |- preserves _ (if ?x then _ else _) => destruct x
      | |- preserves _ (let '(_, _) := ?x in _) => destruct x
      end ].
Ltac qwalk := qwalk_with fail.

Section delivery.
Context {E : Env} {P : QaPorts} (w0 : QaWorld).

Lemma qa_keeps_read {A} K (f : QaDB → A) : preserves (delivers K w0) (qa_read f).
Proof. unfold qa_read, query_qa. qwalk. Qed.

Lemma keeps_row K id_ f : (∀ r, core (f r) = core r) → preserves (delivers K w0) (set_outbox_row id_ f).
Proof.
  intros Hf. unfold set_outbox_row. qwalk. apply keeps_update. intros d. unfold view. cbn.
  by rewrite (update_row_fmap co_event_id core).
Qed.

Lemma keeps_published K e : ev_event_id e ∈ K → preserves (delivers K w0) (publish_staged_event e).
Proof.
  intros He. unfold publish_staged_event, mark_event_published, mark_event_failed.
  qwalk_with ltac:(first [apply keeps_row; done | apply keeps_sent; by intros ? [= <-]]).
Qed.

Lemma keeps_each K l p q :
  (∀ e, e ∈ l → ev_event_id e ∈ K) → preserves (delivers K w0) (publish_each l p q).
Proof.
  revert p q. induction l as [|e l IH]; intros p q Hl; cbn [publish_each]; [qwalk|].
  apply preserves_bind; [apply keeps_published, Hl; left|].
  assert (∀ e, e ∈ l → ev_event_id e ∈ K) by (intros; apply Hl; by right).
  intros [|]; auto.
Qed.

Lemma keeps_staged K l :
  (∀ e, e ∈ l → ev_event_id e ∈ K) → preserves (delivers K w0) (publish_staged_events l).
Proof. intros Hl. unfold publish_staged_events. qwalk_with ltac:(by apply keeps_each). Qed.

Lemma keeps_rows K rows p q :
  (∀ r, r ∈ rows → co_event_id r ∈ K) → preserves (delivers K w0) (publish_rows rows p q).
Proof.
  revert p q. induction rows as [|row rows IH]; intros p q Hl; cbn [publish_rows]; [qwalk|].
  intros w r w' H. apply M_bind_inv in H as [(e & w1 & He & H)|(err & [= _ <-] & _)]; [|done].
  injection He as He <-. unfold event_from_outbox in He. apply mk_event_Ok in He as [_ ->]. revert H.
  apply preserves_bind; [apply keeps_published, Hl; left|].
  assert (∀ r, r ∈ rows → co_event_id r ∈ K) by (intros; apply Hl; by right).
  intros [|]; auto.
Qed.

(** Notifications publish nothing. *)
Lemma keeps_notify request c run_id summary : preserves (delivers [] w0) (_notify request c run_id summary).
Proof.
  unfold _notify, notify_all, _send_feishu, _post_gitlab_comment, _update_notification_summary,
    store_notification_summary.
  qwalk_with ltac:(first [apply qa_keeps_read | by apply keeps_sent]).
  apply keeps_update. intros d. unfold view. cbn. by rewrite (update_row_fmap qa_id (with_summary [])).
Qed.

Lemma keeps_existing t : preserves (delivers [] w0) (_get_existing_event_run t).
Proof. unfold _get_existing_event_run. qwalk_with ltac:(apply qa_keeps_read). Qed.
Lemma keeps_checks request : preserves (delivers [] w0) (_run_checks request).
Proof. unfold _run_checks, run_json, run_markdown. qwalk. Qed.
Lemma keeps_start request t : preserves (delivers [] w0) (start_acceptance request t).
Proof. unfold start_acceptance. qwalk_with ltac:(first [apply keeps_existing | apply keeps_checks]). Qed.
Lemma keeps_aggregate id_ request c : preserves (delivers [] w0) (build_acceptance_run id_ request c).
Proof. unfold build_acceptance_run. qwalk. Qed.
Lemma keeps_events run t : preserves (delivers [] w0) (build_acceptance_events_from_run run t).
Proof. unfold build_acceptance_events_from_run, create_event, new_event_id. qwalk. Qed.
End delivery.

Section runs.
Context {E : Env} {P : QaPorts}.

Lemma keeps_dispatch w n r w' :
  publish_pending_qa_events n w = (r, w') → delivers (co_event_id <$> qd_outbox (qw_db w)) w w'.
Proof.
  intros H. apply M_bind_inv in H as [(rows & w1 & H1 & H)|(e & H1 & _)].
  - assert (delivers [] w w1 ∧ rows = list_pending n (qd_outbox (qw_db w))) as [[V1 P1] ->].
    { split; [eapply (qa_keeps_read w []); [exact H1|apply delivers_refl]|].
      unfold qa_read in H1. rewrite M_bind_run in H1. cbn in H1. destruct (fault _); by injection H1. }
    eapply (preserves_bind (delivers _ w)); [apply keeps_rows| |exact H|].
    + intros r0 [Hr _]%list_pending_elem. by apply list_elem_of_fmap_2.
    + intros. apply preserves_ret.
    + split; [done|]. intros e [He|He]%P1; [by left|by apply not_elem_of_nil in He].
  - eapply (qa_keeps_read w); [exact H1|apply delivers_refl].
Qed.

End runs.

(** ** What a recorded run says *)
Definition as_member (v : pyval) : option pydict := match v with PDict d => Some d | _ => None end.
Definition dict_members (v : pyval) : list pydict :=
  match py_iter v with Ok l => omap as_member l | Raise _ => [] end.

(** The completion of a run, read off its row. *)
Definition completion_of (r : QAAcceptanceRun) : AcceptanceRunCompleted := {|
  rc_run_id := qa_id r; rc_agent_name := qa_agent_name r; rc_commit_sha := qa_commit_sha r;
  rc_mr_iid := qa_mr_iid r; rc_gitlab_project_id := qa_gitlab_project_id r; rc_trigger := qa_trigger r;
  rc_level := qa_level r; rc_target := qa_target_path r;
  rc_summary := match dget_or (qa_raw_report r) "summary" (PDict []) with PDict d => d | _ => [] end;
  rc_findings := dict_members (dget_or (qa_raw_report r) "results" (PList []));
  rc_verdict := {| av_l0_gate := qa_l0_status r; av_l1_status := qa_l1_status r; av_l2_status := qa_l2_status r;
                   av_l0_failure_count := qa_l0_failure_count r; av_l1_warning_count := qa_l1_warning_count r |};
  rc_duration_seconds := qa_duration_seconds r; rc_report_markdown := qa_report_markdown r;
  rc_completed_at := default 0 (qa_completed_at r) |}.

(** Type, payload and trace of an event, and the form the outbox stores. *)
Definition event_key (e : Event) : string * pydict * option string :=
  (ev_event_type e, ev_payload e, em_trace_id (ev_metadata e)).
Definition in_json (k : string * pydict * option string) : string * pydict * option string :=
  (k.1.1, json_dict k.1.2, k.2).

(** The events that announce a completion, and a row. *)
Definition completion_keys (e : AcceptanceRunCompleted) (trace_id : option string)
    : list (string * pydict * option string) :=
  (QA_ACCEPTANCE_COMPLETED, frozen_dict (_completed_payload e), trace_id)
  :: (if is_blocking (rc_verdict e) then [(QA_GATE_FAILED, frozen_dict (_gate_failed_payload e), trace_id)] else []).
Definition announcements (r : QAAcceptanceRun) : list (string * pydict * option string) :=
  in_json <$> completion_keys (completion_of r) (qa_trace_id r).

(** Run, level, check, status and flag of its findings. *)
Definition finding_key (run_id : string) (f : AcceptanceFinding) : string * string * string * string * bool :=
  (run_id, af_level f, af_check f, af_status f, af_is_blocking f).
Definition keyed_finding (run_id : string) (d : pydict) : option (string * string * string * string * bool) :=
  match report_finding (PDict d) with Ok f => Some (finding_key run_id f) | Raise _ => None end.
Definition findings_of (r : QAAcceptanceRun) : list (string * string * string * string * bool) :=
  omap (keyed_finding (qa_id r)) (dict_members (dget_or (qa_raw_report r) "results" (PList []))).

Definition announced (o : CoordinatorEventOutbox) : string * pydict * option string :=
  (co_event_type o, co_payload o, co_trace_id o).
Definition found (s : QAAcceptanceResult) : string * string * string * string * bool :=
  (qs_run_id s, qs_level s, qs_check_name s, qs_status s, qs_is_blocking s).

(** A row that can be replayed. *)
Definition row_sound (r : QAAcceptanceRun) : Prop :=
  mk_verdict (rc_verdict (completion_of r)) = Ok (rc_verdict (completion_of r))
  ∧ f_le f_zero (qa_duration_seconds r) = true
  ∧ qa_l0_failure_count r + qa_l1_warning_count r ≤ qa_total_checks r
  ∧ ∃ l, py_iter (dget_or (qa_raw_report r) "results" (PList [])) = Ok l.

Record consistent (d : QaDB) : Prop := {
  cs_ids : NoDup (qa_id <$> qd_runs d);
  cs_triggers : NoDup (omap qa_trigger_event_id (qd_runs d));
  cs_rows : Forall row_sound (qd_runs d);
  cs_events : announced <$> qd_outbox d = qd_runs d ≫= announcements;
  cs_findings : found <$> qd_results d = qd_runs d ≫= findings_of;
  cs_event_ids : NoDup (co_event_id <$> qd_outbox d) }.

(** ** Persistence *)
Section persist.
Context {E : Env} {P : QaPorts}.

Definition checks_ok (c : checks) : Prop :=
  ∃ report, result_of_report report (cx_report_md c) = Ok (cx_result c, cx_summary c, cx_findings c).

Definition same (d : QaDB) (l : list qa_effect) (w : QaWorld) : Prop := qw_db w = d ∧ qw_effects w = l.

Lemma same_call {A} d l (f : nat → result A) : preserves (same d l) (qa_call f).
Proof. by intros w r w' [= <- <-]. Qed.
Lemma same_now d l : preserves (same d l) qa_now.
Proof. by intros w r w' [= <- <-]. Qed.
Lemma same_ulid d l : preserves (same d l) qa_ulid.
Proof. by intros w r w' [= <- <-]. Qed.
#[local] Hint Resolve same_call same_now same_ulid : qa.

Lemma same_aggregate d l id_ request c : preserves (same d l) (build_acceptance_run id_ request c).
Proof. unfold build_acceptance_run. qwalk. Qed.
Lemma same_events d l run t : preserves (same d l) (build_acceptance_events_from_run run t).
Proof. unfold build_acceptance_events_from_run, create_event, new_event_id. qwalk. Qed.

Lemma same_run {A} (m : M QaWorld A) w r w' :
  (∀ d l, preserves (same d l) m) → m w = (r, w') → qw_db w' = qw_db w ∧ qw_effects w' = qw_effects w.
Proof. intros Hm H. by apply (Hm (qw_db w) (qw_effects w) _ _ _ H). Qed.

(** The aggregate of a request and its checks. *)
Definition completion (id_ : string) (request : QARunRequest) (c : checks) (fs : list pydict)
    (v : AcceptanceVerdict) (at_ : instant) : AcceptanceRunCompleted := {|
  rc_run_id := id_; rc_agent_name := qr_agent_name request; rc_commit_sha := qr_commit_sha request;
  rc_mr_iid := qr_mr_iid request; rc_gitlab_project_id := qr_gitlab_project_id request;
  rc_trigger := qr_trigger request; rc_level := qr_level request;
  rc_target := "agents/" +:+ qr_agent_name request; rc_summary := cx_summary c; rc_findings := fs;
  rc_verdict := v; rc_duration_seconds := er_duration_seconds (cx_result c);
  rc_report_markdown := cx_report_md c; rc_completed_at := at_ |}.

Lemma aggregate_Ok id_ request c w run w' :
  build_acceptance_run id_ request c w = (Ok run, w') →
  ∃ fs v t, mapR as_pydict (cx_findings c) = Ok fs ∧ from_summary (cx_summary c) = Ok v
    ∧ (∃ n, count_of (cx_summary c) "total_checks" = Ok n ∧ av_l0_failure_count v + av_l1_warning_count v ≤ n)
    ∧ ar_run_id run = id_ ∧ ar_completed_at run = Some t ∧ run_is_blocking run = is_blocking v
    ∧ ar_events run = [completion id_ request c fs v t].
Proof.
  intros H. unfold build_acceptance_run in H.
  apply M_bind_Ok in H as (t1 & w1 & _ & H). apply M_bind_Ok in H as (r1 & w2 & H1 & H).
  apply M_bind_Ok in H as (t2 & w3 & _ & H). apply M_bind_Ok in H as (r2 & w4 & H2 & H).
  apply M_bind_Ok in H as (t3 & w5 & _ & H). injection H1 as H1 _. injection H2 as H2 _. injection H as H _.
  unfold run_request in H1. inv_bind. unfold run_start in H2. inv_bind. unfold record_completion in H. inv_bind.
  exists a5, a2, t3. split_and!; try done. exists a3. split; [done|].
  unfold _validate_completion in Hm4. inv_bind. by apply Z.ltb_ge in Hm4.
Qed.

(** The events of a completion. *)
Lemma events_Ok run e t w evs w' :
  ar_events run = [e] → run_is_blocking run = is_blocking (rc_verdict e) →
  build_acceptance_events_from_run run t w = (Ok evs, w') →
  event_key <$> evs = completion_keys e t.
Proof.
  intros He Hb H. unfold build_acceptance_events_from_run in H. rewrite He, Hb in H.
  assert (∀ ty p w ev w', create_event ty p t w = (Ok ev, w') →
    ev_event_type ev = ty ∧ ev_payload ev = frozen_dict p ∧ em_trace_id (ev_metadata ev) = t) as Hc.
  { intros ty p w0 ev w1 H0. unfold create_event in H0.
    apply M_bind_Ok in H0 as (i & w2 & _ & H0). apply M_bind_Ok in H0 as (n & w3 & _ & H0).
    injection H0 as H0 _. by apply mk_event_Ok in H0 as [_ ->]. }
  apply M_bind_Ok in H as (e1 & w1 & (Ht1 & Hp1 & Hi1)%Hc & H). destruct (is_blocking (rc_verdict e)) eqn:Hb2.
  - apply M_bind_Ok in H as (e2 & w2 & (Ht2 & Hp2 & Hi2)%Hc & [= <- _]). unfold completion_keys, event_key. rewrite Hb2, !fmap_cons, Ht1, Hp1, Hi1, Ht2, Hp2, Hi2. done.
  - injection H as <- _. unfold completion_keys, event_key. rewrite Hb2, !fmap_cons, Ht1, Hp1, Hi1. done.
Qed.

(** What a step of the transaction adds when it succeeds. *)
Lemma fault_Ok f w u w' : qa_call (λ n, fault (f n)) w = (Ok u, w') → qw_db w' = qw_db w ∧ qw_effects w' = qw_effects w.
Proof. by intros [= _ <-]. Qed.

Lemma create_run_Ok row w u w' :
  create_run row w = (Ok u, w') →
  run_row_ok row = true ∧ run_row_new (qd_runs (qw_db w)) row = true
  ∧ qw_db w' = set_qa_runs (qd_runs (qw_db w) ++ [row]) (qw_db w) ∧ qw_effects w' = qw_effects w.
Proof.
  intros H. unfold create_run in H. apply M_bind_Ok in H as (u1 & w1 & [Hd He]%fault_Ok & H).
  apply M_bind_Ok in H as (rows & w2 & [= <- <-] & H). apply M_bind_Ok in H as (u2 & w3 & H2 & [= _ <-]).
  rewrite Hd in H2. destruct (run_row_ok row && run_row_new _ row) eqn:Hb; [|done]. apply andb_true_iff in Hb as [? ?].
  injection H2 as _ <-. cbn. by rewrite Hd, He.
Qed.

Lemma create_batch_Ok run_id fs w u w' :
  create_batch run_id fs w = (Ok u, w') →
  ∃ rs, qw_db w' = set_qa_results (qd_results (qw_db w) ++ rs) (qw_db w) ∧ qw_effects w' = qw_effects w
    ∧ found <$> rs = finding_key run_id <$> fs.
Proof.
  intros H. unfold create_batch in H. apply M_bind_Ok in H as (u1 & w1 & [<- <-]%fault_Ok & H).
  revert w1 H. induction fs as [|f fs IH]; intros w1 H.
  { injection H as _ <-. exists []. rewrite app_nil_r. by destruct (qw_db w1). }
  apply M_bind_Ok in H as (u2 & w2 & H2 & H). apply M_bind_Ok in H2 as (i & w3 & [= <- <-] & H2).
  apply M_bind_Ok in H2 as (n & w4 & [= <- <-] & H2). apply M_bind_Ok in H2 as (rows & w5 & [= <- <-] & H2).
  apply M_bind_Ok in H2 as (u3 & w6 & H3 & [= _ <-]).
  destruct (bool_decide _) in H3; [done|]. injection H3 as _ <-.
  apply IH in H as (rs & Hd & He & Hf). eexists (_ :: rs). split_and!; [|exact He|].
  - rewrite Hd. cbn. by rewrite <- app_assoc.
  - rewrite !fmap_cons, Hf. done.
Qed.

Lemma stages_Ok evs w u w' :
  forM evs outbox_stage w = (Ok u, w') →
  ∃ os, qw_db w' = set_qa_outbox (qd_outbox (qw_db w) ++ os) (qw_db w) ∧ qw_effects w' = qw_effects w
    ∧ announced <$> os = in_json ∘ event_key <$> evs
    ∧ co_event_id <$> os = ev_event_id <$> evs
    ∧ (NoDup (co_event_id <$> qd_outbox (qw_db w)) → NoDup (co_event_id <$> qd_outbox (qw_db w) ++ os)).
Proof.
  revert w. induction evs as [|e evs IH]; intros w H.
  { injection H as _ <-. exists []. rewrite app_nil_r. by destruct (qw_db w). }
  apply M_bind_Ok in H as (u2 & w2 & H2 & H). unfold outbox_stage in H2.
  apply M_bind_Ok in H2 as (u1 & w1 & [Hd0 He0]%fault_Ok & H2).
  apply M_bind_Ok in H2 as (n & w4 & [= <- <-] & H2). apply M_bind_Ok in H2 as (rows & w5 & [= <- <-] & H2).
  apply M_bind_Ok in H2 as (u3 & w6 & H3 & [= _ <-]).
  destruct (bool_decide _) eqn:Hin in H3; [done|]. apply bool_decide_eq_false in Hin. injection H3 as _ <-.
  apply IH in H as (os & Hd & He & Ha & Hi & Hn). cbn in *. rewrite Hd0 in *. eexists (_ :: os). split_and!.
  - rewrite Hd. cbn. by rewrite <- app_assoc.
  - by rewrite He.
  - rewrite !fmap_cons, Ha. done.
  - rewrite !fmap_cons, Hi. done.
  - intros H0. rewrite (app_assoc _ [_] os : _ ++ _ :: os = _). apply Hn. rewrite fmap_app. apply NoDup_app.
    split_and!; [done| |apply NoDup_singleton]. intros x Hx ->%list_elem_of_singleton. done.
Qed.
(** What a report gives. *)
Lemma report_facts report md r s l :
  result_of_report report md = Ok (r, s, l) →
  dget_or report "summary" (PDict []) = PDict s
  ∧ (∃ v, from_summary s = Ok v ∧ mk_summary v (dget_or s "total_checks" (PInt 0)) = Ok (er_summary r)
          ∧ er_success r = negb (is_blocking v))
  ∧ py_iter (dget_or report "results" (PList [])) = Ok l ∧ mapR report_finding l = Ok (er_findings r)
  ∧ er_raw_report r = report ∧ er_report_markdown r = md ∧ f_le f_zero (er_duration_seconds r) = true.
Proof.
  intros H. unfold result_of_report in H. inv_bind. cbn.
  unfold as_pydict in Hm. destruct (dget_or report "summary" _); try done. injection Hm as <-.
  split_and!; eauto. unfold lax_duration in Hm7. destruct (py_float (dget_or report "duration_seconds" (PInt 0))) as [x|]; [|done].
  destruct (f_le f_zero x) eqn:Hf; [|done]. by injection Hm7 as <-.
Qed.

Lemma summary_facts v n s :
  mk_summary v n = Ok s →
  as_l0_gate s = av_l0_gate v ∧ as_l1_check s = av_l1_status v ∧ as_l2_report s = av_l2_status v
  ∧ as_l0_failures s = av_l0_failure_count v ∧ as_l1_warnings s = av_l1_warning_count v
  ∧ n = PInt (as_total_checks s).
Proof. unfold mk_summary. destruct n; try done. destruct (0 <=? z); [|done]. by intros [= <-]. Qed.

Lemma verdict_valid s v : from_summary s = Ok v → mk_verdict v = Ok v.
Proof.
  unfold from_summary. intros H. inv_bind. unfold mk_verdict in *. inv_bind. cbn in *.
  by rewrite Hm1, Hm2, Hm3, Hm4, Hm5.
Qed.

Lemma mapR_members l fs : mapR as_pydict l = Ok fs → omap as_member l = fs.
Proof.
  intros H%mapR_Ok. induction H as [|x y l l' Hx H IH]; [done|]. destruct x; try done. injection Hx as ->.
  cbn. by rewrite IH.
Qed.

Lemma finding_rows id_ l fs :
  mapR report_finding l = Ok fs → omap (keyed_finding id_) (omap as_member l) = finding_key id_ <$> fs.
Proof.
  intros H%mapR_Ok. induction H as [|x y l l' Hx H IH]; [done|]. destruct x; try done.
  rewrite fmap_cons, <- IH. simpl. unfold keyed_finding at 1. by rewrite Hx.
Qed.

(** A row written for checks says what they found. *)
Lemma row_facts c request id_ tr trg now t fs v :
  checks_ok c → mapR as_pydict (cx_findings c) = Ok fs → from_summary (cx_summary c) = Ok v →
  (∃ n, count_of (cx_summary c) "total_checks" = Ok n ∧ av_l0_failure_count v + av_l1_warning_count v ≤ n) →
  let row := run_row request (cx_result c) id_ tr trg now t in
  completion_of row = completion id_ request c fs v t ∧ row_sound row
  ∧ findings_of row = finding_key id_ <$> er_findings (cx_result c).
Proof.
  intros [report Hr] Hfs Hv (n & Hn & Hle) row.
  apply report_facts in Hr as (Hs & (v' & Hv' & Hsum & _) & Hi & Hf & Hraw & Hmd & Hdur).
  assert (v' = v) as -> by congruence. clear Hv'.
  apply summary_facts in Hsum as (G0 & G1 & G2 & G3 & G4 & G5).
  assert (rc_verdict (completion_of row) = v) as Hver.
  { unfold completion_of, row. cbn. rewrite G0, G1, G2, G3, G4. by destruct v. }
  split_and!.
  - unfold completion, completion_of in *. cbn in Hver |- *. rewrite Hver, Hraw, Hs, Hmd. f_equal.
    unfold dict_members. rewrite Hi. by apply mapR_members.
  - unfold row_sound. rewrite Hver. split_and!; [by eapply verdict_valid|done| |].
    + cbn. rewrite G3, G4. unfold count_of in Hn. rewrite G5 in Hn.
      assert (as_total_checks (er_summary (cx_result c)) = n) as -> by
        (unfold py_or in Hn; cbn in Hn; destruct (_ =? 0) eqn:Hz in Hn; cbn in Hn; injection Hn as <-; lia).
      done.
    + exists (cx_findings c). cbn. by rewrite Hraw.
  - unfold findings_of, row. cbn. rewrite Hraw. unfold dict_members. rewrite Hi. by apply finding_rows.
Qed.

(** The transaction adds one run with its findings and events, or nothing. *)
Definition recorded (d d' : QaDB) (row : QAAcceptanceRun) (os : list CoordinatorEventOutbox) : Prop :=
  ∃ rs, d' = {| qd_runs := qd_runs d ++ [row]; qd_results := qd_results d ++ rs; qd_outbox := qd_outbox d ++ os |}
    ∧ run_row_new (qd_runs d) row = true ∧ row_sound row
    ∧ announced <$> os = announcements row ∧ found <$> rs = findings_of row
    ∧ (NoDup (co_event_id <$> qd_outbox d) → NoDup (co_event_id <$> qd_outbox d ++ os)).

Lemma save_Ok request result id_ tr trg t w row w' :
  save_execution_result request result id_ tr trg t w = (Ok row, w') →
  ∃ now rs, row = run_row request result id_ tr trg now t
    ∧ qw_db w' = {| qd_runs := qd_runs (qw_db w) ++ [row]; qd_results := qd_results (qw_db w) ++ rs;
                    qd_outbox := qd_outbox (qw_db w) |}
    ∧ qw_effects w' = qw_effects w ∧ run_row_new (qd_runs (qw_db w)) row = true
    ∧ found <$> rs = finding_key id_ <$> er_findings result.
Proof.
  intros H. unfold save_execution_result in H. apply M_bind_Ok in H as (now & w1 & [= <- <-] & H).
  apply M_bind_Ok in H as (u1 & w2 & (_ & Hnew & Hd & He)%create_run_Ok & H).
  apply M_bind_Ok in H as (u2 & w3 & H2 & [= <- <-]). cbn in Hnew, Hd, He.
  exists (clock (qw_ticks w)). destruct (er_findings result) as [|f fs] eqn:Hf.
  - cbn in H2. injection H2 as _ <-. exists []. rewrite app_nil_r, Hd. done.
  - apply create_batch_Ok in H2 as (rs & Hd2 & He2 & Hf2). exists rs. rewrite Hd2, Hd, He2. done.
Qed.
Lemma transaction_Ok c request run tr trg v fs t evs w row w' :
  checks_ok c → mapR as_pydict (cx_findings c) = Ok fs → from_summary (cx_summary c) = Ok v →
  (∃ n, count_of (cx_summary c) "total_checks" = Ok n ∧ av_l0_failure_count v + av_l1_warning_count v ≤ n) →
  event_key <$> evs = completion_keys (completion (ar_run_id run) request c fs v t) tr →
  (row ← save_execution_result request (cx_result c) (ar_run_id run) tr trg t;
   _ ← raise_ifM (negb (bool_decide (qa_id row = ar_run_id run)))
         (Exn "RuntimeError" "persisted QA run id changed across the UOW boundary");
   _ ← forM evs outbox_stage;
   mret row) w = (Ok row, w') →
  ∃ os, recorded (qw_db w) (qw_db w') row os ∧ co_event_id <$> os = ev_event_id <$> evs
    ∧ qa_trigger_event_id row = trg ∧ qw_effects w' = qw_effects w.
Proof.
  intros Hc Hfs Hv Hn Hevs H. apply M_bind_Ok in H as (row' & w1 & Hsave & H).
  apply save_Ok in Hsave as (now & rs & Hrow & Hd & He & Hnew & Hf).
  apply M_bind_Ok in H as (u1 & w2 & H2 & H). rewrite Hrow, bool_decide_true in H2 by done.
  injection H2 as _ <-. apply M_bind_Ok in H as (u2 & w3 & (os & Hd3 & He3 & Ha & Hi & Hnd)%stages_Ok & [= <- <-]).
  destruct (row_facts c request (ar_run_id run) tr trg now t fs v) as (Hcomp & Hsound & Hfound); [done..|].
  rewrite <- Hrow in Hcomp, Hsound, Hfound. rewrite Hd in Hd3, Hnd.
  assert (qa_trace_id row' = tr ∧ qa_trigger_event_id row' = trg) as [Htr Htrg] by (by rewrite Hrow).
  exists os. split_and!; [|done|done|congruence]. exists rs. split_and!; [done..| |congruence|done].
  unfold announcements. by rewrite Ha, list_fmap_compose, Hevs, Hcomp, Htr.
Qed.

Lemma uow_inv {A} (m : M QaWorld A) w r w' :
  in_qa_uow m w = (r, w') →
  ∃ r1 w1, m w = (r1, w1) ∧ qw_effects w' = qw_effects w1
    ∧ ((qw_db w' = qw_db w ∧ ∃ e, r = Raise e)
       ∨ ∃ a, r1 = Ok a ∧ qw_db w' = qw_db w1 ∧ (r = Ok a ∨ ∃ e, r = Raise e)).
Proof.
  unfold in_qa_uow. destruct (m w) as [[a|e] w1]; cbn zeta.
  - destruct (qp_commit (qw_calls w1)); intros [= <- <-]; exists (Ok a), w1; cbn; eauto 10.
  - intros [= <- <-]. exists (Raise e), w1. cbn. eauto 10.
Qed.

Lemma quiet_stages l evs : preserves (λ w, qw_effects w = l) (forM evs outbox_stage).
Proof.
  apply preserves_for. intros e _. unfold outbox_stage. qwalk_with ltac:(by intros w r w' [= <- <-]).
Qed.
Lemma quiet_save l request result id_ tr trg t :
  preserves (λ w, qw_effects w = l) (save_execution_result request result id_ tr trg t).
Proof.
  unfold save_execution_result, create_run, create_batch.
  qwalk_with ltac:(first [apply preserves_when | apply preserves_for; intros ? _ | by intros w r w' [= <- <-]]).
Qed.

Lemma quiet_body l request result run tr trg t evs :
  preserves (λ w, qw_effects w = l)
    (row ← save_execution_result request result (ar_run_id run) tr trg t;
     _ ← raise_ifM (negb (bool_decide (qa_id row = ar_run_id run)))
           (Exn "RuntimeError" "persisted QA run id changed across the UOW boundary");
     _ ← forM evs outbox_stage;
     mret row).
Proof. qwalk_with ltac:(first [apply quiet_save | apply quiet_stages]). Qed.

Lemma persisted request c tr trg w r w' :
  checks_ok c → persist_body request c tr trg w = (r, w') →
  qw_effects w' = qw_effects w
  ∧ ((qw_db w' = qw_db w ∧ ∃ e, r = Raise e)
     ∨ ∃ row os evs, recorded (qw_db w) (qw_db w') row os ∧ co_event_id <$> os = ev_event_id <$> evs
         ∧ qa_trigger_event_id row = trg ∧ (r = Ok (Some (qa_id row), evs) ∨ ∃ e, r = Raise e)).
Proof.
  intros Hc H. unfold persist_body in H.
  apply M_bind_inv in H as [(id_ & w1 & [= <- <-] & H)|(e & [= ] & _)].
  apply M_bind_inv in H as [(run & w2 & H2 & H)|(e & H2 & ->)];
    destruct (same_run _ _ _ _ (λ d l, same_aggregate d l _ _ _) H2) as [Hd2 He2]; cbn in Hd2, He2; [|eauto 6].
  apply aggregate_Ok in H2 as (fs & v & t & Hfs & Hv & Hn & Hid & Ht & Hb & Hev).
  apply M_bind_inv in H as [(evs & w3 & H3 & H)|(e & H3 & ->)];
    destruct (same_run _ _ _ _ (λ d l, same_events d l _ _) H3) as [Hd3 He3];
    [|split; [congruence|left; split; [congruence|eauto]]].
  eapply events_Ok in H3; [|exact Hev|exact Hb]. rewrite Ht in H. simpl default in H.
  rewrite <- Hid in H3.
  apply M_bind_inv in H as [(row & w4 & H4 & [= <- <-])|(e & H4 & ->)];
    apply uow_inv in H4 as (r1 & w5 & Hbody & He5 & Hcase);
    assert (qw_effects w5 = qw_effects w3) as Heq by exact (quiet_body (qw_effects w3) _ _ _ _ _ _ _ _ _ _ Hbody eq_refl).
  all: split; [congruence|].
  all: destruct Hcase as [[Hdb [e' He']]|(a & -> & Hdb & Hres)]; [first [done | left; split; [congruence|eauto]]|].
  all: eapply transaction_Ok in Hbody as (os & Hrec & Hids & Htrg & _); [|done..]; right.
  all: rewrite <- Hdb, Hd3, Hd2 in Hrec; exists a, os, evs; split_and!; [done..|].
  - left. destruct Hres as [[= ->]|[? [=]]]. done.
  - eauto.
Qed.
End persist.

(** ** Histories of interleaved workers *)

(** A worker between its checks and their record. *)
Record flight := { fl_request : QARunRequest; fl_checks : checks; fl_trace : option string; fl_trigger : option string }.
Record QaState := { st_world : QaWorld; st_flights : list flight }.

Inductive qa_step :=
  | StartEvent (e : Event)
  | StartRequest (request : QARunRequest)
  | Finish (i : nat)
  | Dispatch (limit : nat).

Definition qa_init : QaState :=
  {| st_world := {| qw_db := {| qd_runs := []; qd_results := []; qd_outbox := [] |}; qw_effects := [];
                    qw_ticks := 0; qw_ids := 0; qw_calls := 0 |};
     st_flights := [] |}.

Section histories.
Context {E : Env} {P : QaPorts}.

Definition start_run (request : QARunRequest) (trace_id trigger : option string) (s : QaState) : QaState :=
  match start_acceptance request trigger (st_world s) with
  | (Ok (inr c), w) =>
      {| st_world := w;
         st_flights := st_flights s
           ++ [{| fl_request := request; fl_checks := c; fl_trace := trace_id; fl_trigger := trigger |}] |}
  | (_, w) => {| st_world := w; st_flights := st_flights s |}
  end.

Definition finish_flight (f : flight) (w : QaWorld) : QaWorld :=
  (finish_acceptance (fl_request f) (fl_checks f) (fl_trace f) (fl_trigger f) w).2.

Definition qa_exec (s : QaState) (step : qa_step) : QaState :=
  match step with
  | StartEvent e =>
      match qa_request_of e with
      | Some (Ok request) => start_run request (em_trace_id (ev_metadata e)) (Some (ev_event_id e)) s
      | _ => s
      end
  | StartRequest request =>
      match mk_request request with Ok request => start_run request None None s | Raise _ => s end
  | Finish i =>
      match st_flights s !! i with
      | Some f => {| st_world := finish_flight f (st_world s); st_flights := delete i (st_flights s) |}
      | None => s
      end
  | Dispatch limit =>
      {| st_world := (publish_pending_qa_events limit (st_world s)).2; st_flights := st_flights s |}
  end.

Definition qa_history (steps : list qa_step) : QaState := foldl qa_exec qa_init steps.

(** A worker alone: [handle] is its two halves. *)
Lemma handle_halves e request c w w1 :
  qa_request_of e = Some (Ok request) →
  start_acceptance request (Some (ev_event_id e)) w = (Ok (inr c), w1) →
  (handle e w).2
  = finish_flight {| fl_request := request; fl_checks := c; fl_trace := em_trace_id (ev_metadata e);
                     fl_trigger := Some (ev_event_id e) |} w1.
Proof.
  intros Hr Hs. unfold handle, finish_flight. rewrite Hr. cbn [fl_request fl_checks fl_trace fl_trigger].
  rewrite M_bind_run. cbn [liftM]. unfold run_acceptance. rewrite !M_bind_run, Hs. cbn iota.
  by destruct (finish_acceptance _ _ _ _ w1) as [[|] ?].
Qed.

(** ** The invariant *)
Definition sound (w : QaWorld) : Prop :=
  consistent (qw_db w) ∧ ∀ e, Published e ∈ qw_effects w → ev_event_id e ∈ co_event_id <$> qd_outbox (qw_db w).

Lemma view_columns d d' :
  view d' = view d →
  (∀ A (f : QAAcceptanceRun → A), (∀ r, f (with_summary [] r) = f r) → f <$> qd_runs d' = f <$> qd_runs d)
  ∧ qd_results d' = qd_results d
  ∧ (∀ A (f : CoordinatorEventOutbox → A), (∀ a b, core a = core b → f a = f b) → f <$> qd_outbox d' = f <$> qd_outbox d).
Proof.
  intros [= Hr Hs Ho]. split_and!; [|done|].
  - intros A f Hf. assert (∀ l : list QAAcceptanceRun, f <$> l = f <$> (with_summary [] <$> l)) as Hl.
    { intros l. rewrite <- list_fmap_compose. apply list_fmap_ext. intros. symmetry. apply Hf. }
    by rewrite (Hl (qd_runs d')), (Hl (qd_runs d)), Hr.
  - intros A f Hf. revert Ho. generalize (qd_outbox d), (qd_outbox d'). intros l l'. revert l.
    induction l' as [|x l' IH]; intros [|y l] He; try discriminate; [done|].
    rewrite !fmap_cons in *. apply (inj2 cons) in He as [Hx Hl]. f_equal; [by apply Hf|by apply IH].
Qed.

Lemma core_columns a b : core a = core b → announced a = announced b ∧ co_event_id a = co_event_id b.
Proof. unfold core, announced. intros [=]. split; congruence. Qed.

Lemma bind_columns {A B} (f : A → list B) (l l' : list A) : f <$> l' = f <$> l → l' ≫= f = l ≫= f.
Proof. intros H. assert (∀ l : list A, l ≫= f = concat (f <$> l)) as Hb by (intros k; induction k; cbn; congruence). by rewrite !Hb, H. Qed.

Lemma consistent_view d d' : view d' = view d → consistent d → consistent d'.
Proof.
  intros Hv [C1 C2 C3 C4 C5 C6]. apply view_columns in Hv as (Hr & Hs & Ho). constructor.
  - by rewrite (Hr _ qa_id).
  - assert (∀ l : list QAAcceptanceRun, omap qa_trigger_event_id l = omap id (qa_trigger_event_id <$> l)) as Hl.
    { intros l. induction l as [|x l IH]; [done|]. cbn. by rewrite IH. }
    by rewrite Hl, (Hr _ qa_trigger_event_id), <- Hl.
  - rewrite Forall_forall in *. intros r Hin.
    assert (with_summary [] r ∈ with_summary [] <$> qd_runs d) as (r0 & He & Hin0)%list_elem_of_fmap.
    { rewrite <- (Hr _ (with_summary [])) by done. by apply list_elem_of_fmap_2. }
    apply C3 in Hin0. change (row_sound (with_summary [] r)). rewrite He. exact Hin0.
  - rewrite (Ho _ announced) by (intros; by apply core_columns).
    rewrite C4. symmetry. apply bind_columns. by apply Hr.
  - rewrite Hs, C5. symmetry. apply bind_columns. by apply Hr.
  - by rewrite (Ho _ co_event_id) by (intros; by apply core_columns).
Qed.

Lemma consistent_recorded d d' row os : recorded d d' row os → consistent d → consistent d'.
Proof.
  intros (rs & -> & Hnew & Hrow & Ha & Hf & Hn) [C1 C2 C3 C4 C5 C6]. unfold run_row_new in Hnew.
  apply andb_true_iff in Hnew as [Hid%bool_decide_eq_true Ht]. constructor; cbn.
  - rewrite fmap_app. apply NoDup_app. split_and!; [done| |apply NoDup_singleton]. intros x Hx ->%list_elem_of_singleton. done.
  - rewrite omap_app. apply NoDup_app. split_and!; [done| |cbn; destruct (qa_trigger_event_id row); [apply NoDup_singleton|constructor]].
    intros t Hin. cbn. destruct (qa_trigger_event_id row) as [t'|] eqn:Hrt; [|apply not_elem_of_nil].
    intros ->%list_elem_of_singleton. apply bool_decide_eq_true in Ht. apply Ht.
    apply list_elem_of_omap in Hin as (r & Hin & <-). by apply list_elem_of_fmap_2.
  - apply Forall_app. split; [done|]. by apply Forall_singleton.
  - rewrite fmap_app, bind_app, C4, Ha. cbn. by rewrite app_nil_r.
  - rewrite fmap_app, bind_app, C5, Hf. cbn. by rewrite app_nil_r.
  - by apply Hn.
Qed.

Lemma sound_delivers K w w' :
  delivers K w w' → (∀ i, i ∈ K → i ∈ co_event_id <$> qd_outbox (qw_db w)) → sound w → sound w'.
Proof.
  intros [Hv Hp] HK [Hc Hr]. split; [by eapply consistent_view|].
  apply view_columns in Hv as (_ & _ & Ho). rewrite (Ho _ co_event_id) by (intros; by apply core_columns).
  intros e [He|He]%Hp; auto.
Qed.
Lemma sound_quiet w w' : delivers [] w w' → sound w → sound w'.
Proof. intros Hd. apply (sound_delivers [] _ _ Hd). by intros i Hi%not_elem_of_nil. Qed.
Lemma recorded_ids d d' row os : recorded d d' row os → co_event_id <$> qd_outbox d' = (co_event_id <$> qd_outbox d) ++ (co_event_id <$> os).
Proof. intros (rs & -> & _). cbn. apply fmap_app. Qed.

(** What the persistence leaves behind, and what it hands on. *)
Lemma persist_sound request c tr trg w r w' :
  checks_ok c → persist_or_replay request c tr trg w = (r, w') → sound w →
  sound w' ∧ ∀ run_id evs, r = Ok (inr (run_id, evs)) → ∀ e, e ∈ evs → ev_event_id e ∈ co_event_id <$> qd_outbox (qw_db w').
Proof.
  intros Hc H Hs. unfold persist_or_replay, catchM in H. rewrite M_bind_run in H. unfold _persist_result, catchM in H.
  destruct (persist_body request c tr trg w) as [rb wb] eqn:Hb. apply persisted in Hb as [He Hcase]; [|done].
  assert (sound wb) as Hsb.
  { destruct Hs as [Hcs Hps]. destruct Hcase as [[Hd _]|(row & os & evs & Hrec & _)].
    - split; [by rewrite Hd|]. intros e. rewrite He, Hd. apply Hps.
    - split; [by eapply consistent_recorded|]. intros e. rewrite He, (recorded_ids _ _ _ _ Hrec).
      intros. apply elem_of_app. left. auto. }
  destruct rb as [[run_id evs]|e].
  - injection H as <- <-. split; [done|]. intros ? ? [= <- <-] e Hin.
    destruct Hcase as [[_ [? [=]]]|(row & os & evs' & Hrec & Hids & _ & [[= -> ->]|[? [=]]])].
    rewrite (recorded_ids _ _ _ _ Hrec), Hids. apply elem_of_app. right. by apply list_elem_of_fmap_2.
  - cbn beta in H. destruct (is_integrity_error e) eqn:Hi; cbn [raiseM mret M_ret] in H.
    + rewrite Hi in H. cbn [negb] in H. rewrite M_bind_run in H.
      destruct (_get_existing_event_run trg wb) as [rx wx] eqn:Hx.
      assert (sound wx) as Hsx by (eapply sound_quiet; [|exact Hsb]; by eapply keeps_existing; [exact Hx|apply delivers_refl]).
      destruct rx as [[row|]|e']; cbn in H.
      * destruct (result_from_run row); injection H as <- <-; (split; [done|]); by intros.
      * injection H as <- <-. split; [done|]. intros ? ? [= <- <-] ? Hin%not_elem_of_nil. done.
      * injection H as <- <-. split; [done|]. by intros.
    + injection H as <- <-. split; [done|]. intros ? ? [= <- <-] ? Hin%not_elem_of_nil. done.
Qed.

Lemma finish_sound request c tr trg w r w' :
  checks_ok c → finish_acceptance request c tr trg w = (r, w') → sound w → sound w'.
Proof.
  intros Hc H Hs. unfold finish_acceptance in H.
  apply M_bind_inv in H as [(p & w1 & Hp & H)|(e & Hp & ->)]; apply persist_sound in Hp as [Hs1 Hids]; [|done..].
  destruct p as [res|[run_id evs]]; [by injection H as _ <-|]. specialize (Hids run_id evs eq_refl).
  apply M_bind_inv in H as [(sum & w2 & H2 & H)|(e & H2 & ->)].
  - assert (sound w2) as Hs2.
    { eapply (sound_delivers (ev_event_id <$> evs)); [|intros i (e & -> & He)%list_elem_of_fmap; by apply Hids|done].
      eapply keeps_staged; [|exact H2|apply delivers_refl]. intros. by apply list_elem_of_fmap_2. }
    apply M_bind_inv in H as [(n & w3 & H3 & [= _ <-])|(e & H3 & ->)];
      (eapply sound_quiet; [|exact Hs2]); (eapply keeps_notify; [exact H3|apply delivers_refl]).
  - eapply (sound_delivers (ev_event_id <$> evs)); [|intros i (e' & -> & He)%list_elem_of_fmap; by apply Hids|done].
    eapply keeps_staged; [|exact H2|apply delivers_refl]. intros. by apply list_elem_of_fmap_2.
Qed.

Lemma run_checks_ok request w c w' : _run_checks request w = (Ok c, w') → checks_ok c.
Proof.
  intros H. unfold _run_checks in H. apply M_bind_Ok in H as (report & w1 & _ & H).
  apply M_bind_Ok in H as (md & w2 & _ & H). apply M_bind_Ok in H as ([[r s] l] & w3 & Hr & [= <- _]).
  injection Hr as Hr _. by exists report.
Qed.

Lemma started_checks request trg w c w' : start_acceptance request trg w = (Ok (inr c), w') → checks_ok c.
Proof.
  intros H. unfold start_acceptance in H. apply M_bind_Ok in H as ([row|] & w1 & _ & H).
  - by apply M_bind_Ok in H as (r & w2 & _ & [=]).
  - apply M_bind_Ok in H as (c' & w2 & H & [= <- _]). by eapply run_checks_ok.
Qed.

Definition state_sound (s : QaState) : Prop := sound (st_world s) ∧ Forall (λ f, checks_ok (fl_checks f)) (st_flights s).

Lemma start_run_sound request tr trg s : state_sound s → state_sound (start_run request tr trg s).
Proof.
  intros [Hs Hf]. unfold start_run. destruct (start_acceptance request trg (st_world s)) as [r w] eqn:Hr.
  assert (sound w) as Hw.
  { eapply sound_quiet; [|exact Hs]. eapply keeps_start; [exact Hr|apply delivers_refl]. }
  destruct r as [[res|c]|e]; split; try done. cbn. apply Forall_app. split; [done|]. apply Forall_singleton.
  by eapply started_checks.
Qed.

Lemma exec_sound s step : state_sound s → state_sound (qa_exec s step).
Proof.
  intros Hs. destruct step as [e|request|i|n]; cbn.
  - destruct (qa_request_of e) as [[request|]|]; [by apply start_run_sound|done..].
  - destruct (mk_request request); [by apply start_run_sound|done].
  - destruct (st_flights s !! i) as [f|] eqn:Hi; [|done]. destruct Hs as [Hs Hf]. split; cbn.
    + unfold finish_flight. destruct (finish_acceptance _ _ _ _ _) as [r w] eqn:Hr. eapply finish_sound; [|exact Hr|done].
      by eapply (Forall_lookup_1 _ _ _ _ Hf).
    + rewrite delete_take_drop. apply Forall_app. split; [by apply Forall_take|by apply Forall_drop].
  - destruct Hs as [Hs Hf]. split; [|done]. cbn. destruct (publish_pending_qa_events n (st_world s)) as [r w] eqn:Hr.
    apply keeps_dispatch in Hr. by eapply sound_delivers; [exact Hr| |].
Qed.

Lemma history_sound steps : state_sound (qa_history steps).
Proof.
  unfold qa_history. assert (state_sound qa_init) as H0.
  { split; [split|constructor]; [constructor; constructor|]. intros e He. by apply not_elem_of_nil in He. }
  revert H0. generalize qa_init. induction steps as [|x steps IH]; intros s Hs; cbn; [done|]. by apply IH, exec_sound.
Qed.

(** C33: whatever the subprocess, the database, the bus and the channels do, and
    however workers interleave: one run at most is recorded for an event; the
    outbox holds, for every recorded run and in the order of the runs, its
    completion and, exactly when its gate failed, a gate failure, with the
    payloads its row describes; the findings stored are those of the report of
    the row; and nothing is published that is not in the outbox. *)
Theorem qa_records_agree (steps : list qa_step) :
  let w := st_world (qa_history steps) in
  NoDup (qa_id <$> qd_runs (qw_db w)) ∧ NoDup (omap qa_trigger_event_id (qd_runs (qw_db w)))
  ∧ announced <$> qd_outbox (qw_db w) = qd_runs (qw_db w) ≫= announcements
  ∧ found <$> qd_results (qw_db w) = qd_runs (qw_db w) ≫= findings_of
  ∧ ∀ e, Published e ∈ qw_effects w → ev_event_id e ∈ co_event_id <$> qd_outbox (qw_db w).
Proof. destruct (history_sound steps) as [[[] Hp] _]. done. Qed.
End histories.

(** ** Replays *)
Section replay.
Context {E : Env} {P : QaPorts}.

Lemma row_replays r :
  row_sound r →
  ∃ res, result_from_run r = Ok res ∧ er_run_id res = qa_id r
    ∧ er_success res = negb (is_blocking (rc_verdict (completion_of r)))
    ∧ er_summary res = {| as_l0_gate := qa_l0_status r; as_l1_check := qa_l1_status r; as_l2_report := qa_l2_status r;
                          as_total_checks := qa_total_checks r; as_l0_failures := qa_l0_failure_count r;
                          as_l1_warnings := qa_l1_warning_count r |}
    ∧ er_raw_report res = qa_raw_report r ∧ er_notification_summary res = qa_notification_summary r.
Proof.
  intros (Hv & Hd & Hle & l & Hl). unfold result_from_run. change (rc_verdict _) with
    {| av_l0_gate := qa_l0_status r; av_l1_status := qa_l1_status r; av_l2_status := qa_l2_status r;
       av_l0_failure_count := qa_l0_failure_count r; av_l1_warning_count := qa_l1_warning_count r |} in Hv.
  assert (∃ l', py_iter (py_or (dget_or (qa_raw_report r) "results" (PList [])) (PList [])) = Ok l') as [l' ->].
  { unfold py_or. destruct (py_bool _); eauto. }
  cbn [mbind result_bind]. rewrite Hv. unfold mk_verdict in Hv. inv_bind. cbn in *. unfold mk_summary.
  rewrite (proj2 (Z.leb_le 0 (qa_total_checks r))) by lia. unfold lax_duration, py_float. cbn. rewrite Hd. cbn. eauto 10.
Qed.

Lemma omap_unique {A B} (f : A → option B) l x y b :
  NoDup (omap f l) → x ∈ l → y ∈ l → f x = Some b → f y = Some b → x = y.
Proof.
  intros Hn Hx Hy Hfx Hfy. induction l as [|z l IH]; [by apply not_elem_of_nil in Hx|]. simpl omap in Hn.
  apply elem_of_cons in Hx, Hy. destruct Hx as [->|Hx], Hy as [->|Hy]; [done| | |].
  - rewrite Hfx in Hn. apply NoDup_cons in Hn as [Hn _]. destruct Hn. apply list_elem_of_omap. eauto.
  - rewrite Hfy in Hn. apply NoDup_cons in Hn as [Hn _]. destruct Hn. apply list_elem_of_omap. eauto.
  - apply IH; try done. destruct (f z); [by apply NoDup_cons in Hn as [_ ?]|done].
Qed.

Lemma of_trigger_run d r id_ : consistent d → r ∈ qd_runs d → qa_trigger_event_id r = Some id_ → of_trigger id_ d = Some r.
Proof.
  intros [] Hr Hid. unfold of_trigger. destruct (get_row _ _ _) as [r'|] eqn:Hg.
  - apply get_row_Some in Hg as [Hr' Hid']. f_equal. by eapply omap_unique.
  - by destruct (get_row_None _ _ _ Hg r Hr).
Qed.

(** C34: an event whose run is recorded, delivered again at any later moment, is
    answered with that run, its verdict, its counts and its report; nothing is
    run, recorded, published or notified. *)
Theorem replay_changes_nothing (steps : list qa_step) (run : QAAcceptanceRun) (id_ : string)
    (request : QARunRequest) (trace_id : option string) :
  let w := st_world (qa_history steps) in
  run ∈ qd_runs (qw_db w) → qa_trigger_event_id run = Some id_ → id_ ≠ "" → qp_read_error (qw_calls w) = None →
  ∃ res w', run_acceptance request trace_id (Some id_) w = (Ok res, w')
    ∧ qw_db w' = qw_db w ∧ qw_effects w' = qw_effects w
    ∧ er_run_id res = qa_id run ∧ er_success res = negb (is_qa_gate_failing (qa_l0_status run))
    ∧ er_summary res = {| as_l0_gate := qa_l0_status run; as_l1_check := qa_l1_status run;
                          as_l2_report := qa_l2_status run; as_total_checks := qa_total_checks run;
                          as_l0_failures := qa_l0_failure_count run; as_l1_warnings := qa_l1_warning_count run |}
    ∧ er_raw_report res = qa_raw_report run ∧ er_notification_summary res = qa_notification_summary run.
Proof.
  intros w Hr Hid Hne Hread. destruct (history_sound steps) as [[Hc _] _]. fold w in Hc.
  destruct (row_replays run) as (res & Hres & Hfacts); [by eapply Forall_forall; [apply cs_rows|]|].
  exists res. unfold run_acceptance, start_acceptance, _get_existing_event_run.
  destruct (str_empty id_) eqn:He; [by destruct id_|]. rewrite !M_bind_run. unfold qa_read, query_qa, getsM.
  rewrite M_bind_run. cbn [qa_call]. rewrite Hread. cbn [fault qw_db]. rewrite (of_trigger_run _ run) by done.
  rewrite M_bind_run. cbn [liftM]. rewrite Hres. cbn. eexists. split_and!; try done; apply Hfacts.
Qed.
End replay.

(** ** Statistics *)

(** Passed, warned and failed runs are disjoint. *)
Lemma stats_disjoint rows :
  let '(total, passed, warned, failed) := run_counts rows in (passed + warned + failed ≤ total)%nat.
Proof.
  cbn. induction rows as [|r rows IH]; [done|]. unfold count_if in *. rewrite !filter_cons.
  unfold status_is in *. repeat case_decide; cbn; try lia; exfalso; rewrite ?andb_true_iff, ?bool_decide_eq_true in *;
    destruct_and?; congruence.
Qed.

