(* ===== verification/QaReports.v ===== *)
(** * Reports of the acceptance framework

    What [.acceptance/runner.py] writes is read by the QA agent as it was meant:
    the framework's gate, the flags of the findings, the run's verdict and what
    the Dev agent reads in the event agree. *)

From S2P Require Import Prelude PyNum PyTime PyValue DomainEvents Store Event WakeupAdapter.
From S2P Require Import OutboxDelivery QaDomain QaAcceptance QaTheorems Scenario.
From S2P Require DevWorkflow.

(** ** Reports of the acceptance framework *)
Definition check_valid (r : CheckResult) : Prop := ck_level r ∈ FINDING_LEVELS ∧ ck_status r ∈ FINDING_STATUS_VALUES.

Definition check_finding (r : CheckResult) : AcceptanceFinding := {|
  af_level := ck_level r; af_category := ck_category r; af_check := ck_check r; af_status := ck_status r;
  af_details := ck_details r; af_file := ck_file r; af_line := ck_line r;
  af_severity := derive_severity (check_dict r); af_is_blocking := has "L0" "FAIL" r |}.

Lemma strict_opt o : strict_opt_str (p_opt o) = Some o.
Proof. by destruct o. Qed.
Lemma strict_int o : strict_opt_int (p_int o) = Some o.
Proof. by destruct o. Qed.

Lemma severity_known f : derive_severity f ∈ SEVERITIES.
Proof. unfold derive_severity, SEVERITIES. repeat case_match; set_solver. Qed.

Lemma one_of_in l s : s ∈ l → one_of l (Some s) = Some s.
Proof. intros H. unfold one_of. cbn. by rewrite bool_decide_true. Qed.

Lemma mk_check_finding r severity b :
  check_valid r → severity ∈ SEVERITIES →
  mk_finding (check_dict r) (PStr severity) b
  = Ok {| af_level := ck_level r; af_category := ck_category r; af_check := ck_check r; af_status := ck_status r;
          af_details := ck_details r; af_file := ck_file r; af_line := ck_line r; af_severity := severity;
          af_is_blocking := b |}.
Proof.
  intros [Hl Hs] Hv. unfold mk_finding.
  change (dget_or (check_dict r) "level" _) with (PStr (ck_level r)).
  change (dget_or (check_dict r) "category" _) with (PStr (ck_category r)).
  change (dget_or (check_dict r) "check" _) with (PStr (ck_check r)).
  change (dget_or (check_dict r) "status" _) with (PStr (ck_status r)).
  change (dget (check_dict r) "details") with (p_opt (ck_details r)).
  change (dget (check_dict r) "file") with (p_opt (ck_file r)).
  change (dget (check_dict r) "line") with (p_int (ck_line r)).
  unfold strict_str. rewrite !one_of_in by done. rewrite !strict_opt, strict_int. done.
Qed.

Lemma report_check_finding r : check_valid r → report_finding (PDict (check_dict r)) = Ok (check_finding r).
Proof. intros Hr. unfold report_finding. cbn [as_pydict mbind result_bind]. by rewrite mk_check_finding by (done || apply severity_known). Qed.

Lemma count_nat d k n : dget_or d k (PInt 0) = PInt (Z.of_nat n) → count_of d k = Ok (Z.of_nat n).
Proof. unfold count_of. intros ->. by destruct n. Qed.

Lemma counts_fit l : (length (l0_fails l) + length (l1_warns l) ≤ length l)%nat.
Proof.
  induction l as [|r l IH]; [done|]. unfold l0_fails, l1_warns in *. rewrite !filter_cons.
  destruct (decide (has "L0" "FAIL" r = true)) as [H0|], (decide (has "L1" "WARN" r = true)) as [H1|]; cbn; try lia.
  exfalso. unfold has in *. apply andb_true_iff in H0 as [H0%bool_decide_eq_true _], H1 as [H1%bool_decide_eq_true _]. congruence.
Qed.

Lemma gate_failed l : bool_decide (l0_fails l = []) = negb (existsb (has "L0" "FAIL") l).
Proof.
  unfold l0_fails. induction l as [|r l IH]; [done|]. rewrite filter_cons. cbn [existsb].
  destruct (has "L0" "FAIL" r); cbn; [|done]. by apply bool_decide_false.
Qed.

(** The verdict of the framework's summary. *)
Definition framework_verdict (l : list CheckResult) : AcceptanceVerdict := {|
  av_l0_gate := if bool_decide (l0_fails l = []) then "PASS" else "FAIL";
  av_l1_status := if bool_decide (l1_warns l = []) then "PASS" else "WARN"; av_l2_status := "INFO";
  av_l0_failure_count := Z.of_nat (length (l0_fails l)); av_l1_warning_count := Z.of_nat (length (l1_warns l)) |}.

Lemma framework_from_summary l : from_summary (finalize l) = Ok (framework_verdict l).
Proof.
  unfold from_summary. rewrite (count_nat _ "l0_failures" (length (l0_fails l))) by done.
  rewrite (count_nat _ "l1_warnings" (length (l1_warns l))) by done. cbn [mbind result_bind].
  change (py_str (dget_or (finalize l) "l0_gate" _)) with (if bool_decide (l0_fails l = []) then "PASS" else "FAIL").
  change (py_str (dget_or (finalize l) "l1_check" _)) with (if bool_decide (l1_warns l = []) then "PASS" else "WARN").
  change (py_str (dget_or (finalize l) "l2_report" _)) with "INFO". fold (framework_verdict l).
  unfold mk_verdict, framework_verdict. cbn [av_l0_gate av_l1_status av_l2_status av_l0_failure_count av_l1_warning_count].
  rewrite !(proj2 (Z.ltb_ge _ 0)) by lia. by destruct (bool_decide (l0_fails l = [])), (bool_decide (l1_warns l = [])).
Qed.

Lemma framework_blocking l : is_blocking (framework_verdict l) = existsb (has "L0" "FAIL") l.
Proof.
  unfold is_blocking, framework_verdict. cbn [av_l0_gate]. rewrite gate_failed. by destruct (existsb _ _).
Qed.

(** ** From the process to the result *)
Section reading.
Context (results : list CheckResult) (Hvalid : Forall check_valid results).
Context (duration : float) (Hfinite : f_isfinite duration = true) (Hpos : f_le f_zero duration = true).
Context (mr_id timestamp target stdout stderr : string) (exit_code : Z).

Definition framework_report : pydict :=
  add_process_output exit_code stdout stderr (report_dict mr_id timestamp target results duration).

Lemma output_keeps k :
  k ≠ "exit_code" → k ≠ "stdout" → k ≠ "stderr" →
  dict_get framework_report k = dict_get (report_dict mr_id timestamp target results duration) k.
Proof.
  intros H1 H2 H3. unfold framework_report, add_process_output.
  destruct (str_empty (strip stderr)), (exit_code =? 0); by rewrite !dict_get_set_ne.
Qed.

Lemma output_fields :
  dget_or framework_report "exit_code" (PInt (-1)) = PInt exit_code
  ∧ (∃ o, lax_text (dget framework_report "stdout") = Ok o) ∧ (∃ o, lax_text (dget framework_report "stderr") = Ok o).
Proof.
  unfold framework_report, add_process_output, dget_or, dget.
  destruct (str_empty (strip stderr)), (exit_code =? 0); cbn [report_dict]; split_and!; eauto; cbn; eauto.
Qed.

Lemma read_findings : mapR report_finding (PDict ∘ check_dict <$> results) = Ok (check_finding <$> results).
Proof.
  apply mapR_Ok. induction Hvalid as [|r l Hr Hl IH]; [constructor|]. rewrite !fmap_cons. constructor; [|exact (IH Hl)].
  by apply report_check_finding.
Qed.

Lemma flags_fold : existsb af_is_blocking (check_finding <$> results) = existsb (has "L0" "FAIL") results.
Proof. clear. induction results as [|r l IH]; [done|]. cbn. by rewrite IH. Qed.

Lemma report_key k v x :
  dict_get (report_dict mr_id timestamp target results duration) k = Some x →
  k ≠ "exit_code" → k ≠ "stdout" → k ≠ "stderr" → dget_or framework_report k v = x.
Proof. intros Hx H1 H2 H3. unfold dget_or. by rewrite output_keeps, Hx. Qed.

Definition framework_summary : AcceptanceSummary := {|
  as_l0_gate := av_l0_gate (framework_verdict results); as_l1_check := av_l1_status (framework_verdict results);
  as_l2_report := "INFO"; as_total_checks := Z.of_nat (length results);
  as_l0_failures := Z.of_nat (length (l0_fails results));
  as_l1_warnings := Z.of_nat (length (l1_warns results)) |}.

Lemma read_report md :
  ∃ result, result_of_report framework_report md = Ok (result, finalize results, PDict ∘ check_dict <$> results)
    ∧ er_success result = negb (existsb (has "L0" "FAIL") results)
    ∧ er_findings result = check_finding <$> results ∧ er_duration_seconds result = duration
    ∧ er_summary result = framework_summary.
Proof.
  destruct output_fields as (He & [o1 Ho1] & [o2 Ho2]). unfold result_of_report.
  rewrite (report_key "summary" _ (PDict (finalize results))) by done. cbn [as_pydict mbind result_bind].
  rewrite framework_from_summary. cbn [mbind result_bind].
  change (dget_or (finalize results) "total_checks" _) with (PInt (Z.of_nat (length results))).
  assert (mk_summary (framework_verdict results) (PInt (Z.of_nat (length results))) = Ok framework_summary) as ->.
  { unfold mk_summary. by rewrite (proj2 (Z.leb_le 0 _)) by lia. }
  cbn [mbind result_bind]. rewrite (report_key "results" _ (PList (PDict ∘ check_dict <$> results))) by done.
  cbn [py_iter mbind result_bind]. rewrite read_findings, He, Ho1, Ho2.
  rewrite (report_key "duration_seconds" _ (PFloat duration)) by done.
  unfold lax_duration. cbn [py_float int_field mbind result_bind]. rewrite Hpos. cbn [mbind result_bind].
  eexists. split; [reflexivity|]. cbn. by rewrite framework_blocking.
Qed.
End reading.

(** ** From the result to the events *)
Lemma members_read l : mapR as_pydict (PDict ∘ check_dict <$> l) = Ok (check_dict <$> l).
Proof. induction l as [|r l IH]; [done|]. rewrite !fmap_cons. cbn [mapR]. cbn [compose as_pydict mbind result_bind]. by rewrite IH. Qed.

Lemma strip_head c s : is_space c = false → str_empty (strip (String c s)) = false.
Proof. intros Hc. unfold strip. cbn [lstrip]. rewrite Hc. cbn [rstrip]. destruct (rstrip s); by rewrite ?Hc. Qed.

Lemma p_opt_json o : event_json_ok (p_opt o) = true.
Proof. by destruct o. Qed.
Lemma p_int_json o : event_json_ok (p_int o) = true.
Proof. by destruct o. Qed.

Lemma check_json r : event_json_ok (PDict (check_dict r)) = true.
Proof. cbn. by rewrite !p_opt_json, p_int_json. Qed.

Definition from_checks (results : list CheckResult) (e : AcceptanceRunCompleted) : Prop :=
  rc_summary e = finalize results ∧ rc_findings e = check_dict <$> results.

Lemma dicts_json ds : (∀ d, d ∈ ds → event_json_ok (PDict d) = true) → forallb event_json_ok (PDict <$> ds) = true.
Proof.
  intros Hd. apply forallb_forall. intros x (d & -> & Hin)%list_elem_of_In%list_elem_of_fmap. by apply Hd.
Qed.

Lemma completed_json results e :
  from_checks results e → f_isfinite (rc_duration_seconds e) = true → event_json_ok (PDict (_completed_payload e)) = true.
Proof.
  intros [Hs Hf] Hd. unfold _completed_payload. cbn -[event_json_ok]. cbn [event_json_ok forallb snd].
  rewrite dicts_json, !p_opt_json, !p_int_json, Hs, Hd; [done|].
  intros d. rewrite Hf. intros (r & -> & _)%list_elem_of_fmap. apply check_json.
Qed.

Lemma gate_failed_json results e :
  from_checks results e → f_isfinite (rc_duration_seconds e) = true → event_json_ok (PDict (_gate_failed_payload e)) = true.
Proof.
  intros [Hs Hf] Hd. unfold _gate_failed_payload. cbn -[event_json_ok]. cbn [event_json_ok forallb snd].
  rewrite dicts_json, !p_opt_json, !p_int_json, Hd; [done|].
  intros d Hin%elem_of_take. destruct Hin as (i & Hin%list_elem_of_lookup_2 & _). unfold blocking_findings in Hin.
  rewrite Hf in Hin. apply list_elem_of_filter in Hin as [_ (r & -> & _)%list_elem_of_fmap]. apply check_json.
Qed.

Section announcing.
Context {E : Env} {P : QaPorts}.

Lemma create_event_runs ty p t w :
  event_type_ok ty = true → event_json_ok (PDict p) = true →
  ∃ ev w', create_event ty p t w = (Ok ev, w') ∧ ev_event_type ev = ty ∧ ev_payload ev = frozen_dict p.
Proof.
  intros Ht Hp. unfold create_event.
  assert (∀ u d, ∃ ev, event_create ("evt_" +:+ u) d ty "qa-agent" p t = Ok ev
    ∧ ev_event_type ev = ty ∧ ev_payload ev = frozen_dict p) as Hev.
  { intros u d. eexists. split; [apply mk_event_Ok; split; [|reflexivity]|done]. unfold event_valid. cbn [ev_event_id
      ev_event_type ev_source ev_payload ev_schema_version ev_metadata em_retry_count].
    rewrite Ht, Hp. change ("evt_" +:+ u) with (String "e" ("vt_" +:+ u)). by rewrite strip_head. }
  destruct (Hev (ulid (qw_ids w)) (of_utc (clock (qw_ticks w)))) as (ev & Hc & Hty & Hpay). exists ev. eexists.
  split; [|done]. apply M_bind_Ok. eexists _, _. split; [reflexivity|]. apply M_bind_Ok. eexists _, _.
  split; [reflexivity|]. unfold liftM. cbn [qw_ticks]. by rewrite Hc.
Qed.

Definition requested_run (id_ : string) (request : QARunRequest) (at_ : instant) : AcceptanceRun := {|
  ar_run_id := id_; ar_agent_name := qr_agent_name request; ar_commit_sha := qr_commit_sha request;
  ar_mr_iid := qr_mr_iid request; ar_gitlab_project_id := qr_gitlab_project_id request;
  ar_trigger := qr_trigger request; ar_level := qr_level request; ar_target := "agents/" +:+ qr_agent_name request;
  ar_status := AcceptanceRunStatus_REQUESTED; ar_requested_at := at_; ar_started_at := None;
  ar_verdict := None; ar_total_checks := 0; ar_duration_seconds := f_zero; ar_report_markdown := None;
  ar_completed_at := None; ar_events := [] |}.

Definition started_run (at_ : instant) (run : AcceptanceRun) : AcceptanceRun :=
  match run_start at_ run with Ok r => r | Raise _ => run end.

Lemma le_not_lt f : f_le f_zero f = true → f_lt f f_zero = false.
Proof. unfold f_le, f_lt, f_zero. destruct f as [[]|[]| |[] m e]; cbn; done. Qed.

Lemma completes results c run t :
  cx_summary c = finalize results → cx_findings c = PDict ∘ check_dict <$> results →
  ar_status run = AcceptanceRunStatus_RUNNING → ar_events run = [] →
  _validate_completion (ar_run_id run) (ar_agent_name run) (ar_target run) (Z.of_nat (length results))
    (Z.of_nat (length (l0_fails results))) (Z.of_nat (length (l1_warns results)))
    (er_duration_seconds (cx_result c)) = Ok () →
  ∃ run', record_completion (cx_summary c) (cx_findings c) (er_duration_seconds (cx_result c)) (cx_report_md c) t run = Ok run'
    ∧ ar_status run' = AcceptanceRunStatus_COMPLETED
    ∧ run_is_blocking run' = is_blocking (framework_verdict results)
    ∧ ∃ e, ar_events run' = [e] ∧ from_checks results e
        ∧ rc_duration_seconds e = er_duration_seconds (cx_result c) ∧ rc_verdict e = framework_verdict results.
Proof.
  intros Hs Hf Hst Hev Hval. unfold record_completion. rewrite Hst, Hs, Hf, framework_from_summary.
  rewrite bool_decide_true by done. cbn [negb raise_if mbind result_bind].
  rewrite (count_nat _ "total_checks" (length results)) by done. cbn [mbind result_bind framework_verdict
    av_l0_failure_count av_l1_warning_count]. rewrite Hval, members_read. cbn [mbind result_bind]. rewrite Hev.
  eexists. split; [reflexivity|]. split_and!; [done..|]. eexists. split; [reflexivity|]. done.
Qed.

Lemma aggregate_runs results c request id_ w :
  cx_summary c = finalize results → cx_findings c = PDict ∘ check_dict <$> results →
  f_le f_zero (er_duration_seconds (cx_result c)) = true → request_valid request = true → id_ ≠ "" →
  ∃ run w1, build_acceptance_run id_ request c w = (Ok run, w1) ∧ ar_status run = AcceptanceRunStatus_COMPLETED
    ∧ run_is_blocking run = is_blocking (framework_verdict results)
    ∧ ∃ e, ar_events run = [e] ∧ from_checks results e
        ∧ rc_duration_seconds e = er_duration_seconds (cx_result c) ∧ rc_verdict e = framework_verdict results.
Proof.
  intros Hs Hf Hpos Hreq Hid. unfold request_valid in Hreq. rewrite !andb_true_iff in Hreq.
  destruct Hreq as (((((Hname & Hlevel%bool_decide_eq_true) & _) & _) & _) & Htrig%bool_decide_eq_true).
  assert (str_empty id_ = false) as Hid' by (by destruct id_).
  assert (str_empty (qr_agent_name request) = false) as Hname' by (by destruct (qr_agent_name request)).
  assert (∀ trigger level, str_empty trigger = false → str_empty level = false →
    _validate_run_identity id_ (qr_agent_name request) ("agents/" +:+ qr_agent_name request) trigger level = Ok ()) as Hval.
  { intros tg lv Ht Hl. unfold _validate_run_identity. by rewrite Hid', Hname', Ht, Hl. }
  assert (∀ l s, s ∈ l → Forall (λ x, str_empty x = false) l → str_empty s = false) as Hnon.
  { intros l x Hx Hl. by eapply Forall_forall in Hl. }
  assert (run_request id_ request (clock (qw_ticks w)) = Ok (requested_run id_ request (clock (qw_ticks w)))) as Hq.
  { unfold run_request. rewrite Hval; [done|eapply Hnon; [exact Htrig|]|eapply Hnon; [exact Hlevel|]]; by repeat constructor. }
  set (t1 := clock (qw_ticks w)) in *. set (t2 := clock (S (qw_ticks w))). set (t3 := clock (S (S (qw_ticks w)))).
  destruct (completes results c (started_run t2 (requested_run id_ request t1)) t3) as (run & Hrun & Hfacts); try done.
  { unfold _validate_completion. cbn. rewrite Hval by done. cbn. rewrite (le_not_lt _ Hpos). cbn.
    rewrite !(proj2 (Z.ltb_ge _ 0)) by lia. cbn. rewrite (proj2 (Z.ltb_ge _ _)); [done|]. pose proof (counts_fit results). lia. }
  exists run. eexists. split; [|exact Hfacts].
  apply M_bind_Ok. eexists _, _. split; [reflexivity|]. apply M_bind_Ok. eexists _, _. split; [unfold liftM; cbn [qw_ticks]; fold t1; by rewrite Hq|].
  apply M_bind_Ok. eexists _, _. split; [reflexivity|].
  apply M_bind_Ok. exists (started_run t2 (requested_run id_ request t1)). eexists. split; [reflexivity|].
  apply M_bind_Ok. eexists _, _. split; [reflexivity|]. rewrite <- Hrun. reflexivity.
Qed.


Lemma announce_runs results run e t w :
  ar_events run = [e] → from_checks results e → f_isfinite (rc_duration_seconds e) = true →
  ∃ events w', build_acceptance_events_from_run run t w = (Ok events, w')
    ∧ (λ ev, (ev_event_type ev, ev_payload ev)) <$> events
      = (QA_ACCEPTANCE_COMPLETED, frozen_dict (_completed_payload e))
        :: (if run_is_blocking run then [(QA_GATE_FAILED, frozen_dict (_gate_failed_payload e))] else []).
Proof.
  intros He Hf Hd. unfold build_acceptance_events_from_run. rewrite He.
  destruct (create_event_runs QA_ACCEPTANCE_COMPLETED (_completed_payload e) t w) as (ev & w1 & H1 & Ht1 & Hp1);
    [done|by eapply completed_json|]. rewrite M_bind_run, H1.
  destruct (run_is_blocking run); [|eexists _, _; split; [reflexivity|]; by rewrite fmap_cons, Ht1, Hp1].
  destruct (create_event_runs QA_GATE_FAILED (_gate_failed_payload e) t w1) as (ev2 & w2 & H2 & Ht2 & Hp2);
    [done|by eapply gate_failed_json|]. rewrite M_bind_run, H2. eexists _, _. split; [reflexivity|].
  by rewrite !fmap_cons, Ht1, Hp1, Ht2, Hp2.
Qed.

(** C35: a report the framework wrote for checks of its own levels and statuses is
    accepted whatever its process printed and returned; the framework's gate, the
    flags the agent puts on the findings, the verdict of the completed run, the
    events announcing it and what the Dev agent reads in the completion event
    agree: the gate failed exactly when some check failed at level L0. *)
Theorem framework_report_judged (results : list CheckResult) (duration : float) (exit_code : Z)
    (mr_id timestamp target stdout stderr id_ : string) (md trace_id : option string) (request : QARunRequest)
    (w : QaWorld) :
  Forall check_valid results → f_isfinite duration = true → f_le f_zero duration = true →
  request_valid request = true → id_ ≠ "" →
  let report := framework_report results duration mr_id timestamp target stdout stderr exit_code in
  let failed := existsb (has "L0" "FAIL") results in
  ∃ result run w1 events w2,
    result_of_report report md = Ok (result, finalize results, PDict ∘ check_dict <$> results)
    ∧ er_success result = negb failed
    ∧ existsb af_is_blocking (er_findings result) = failed
    ∧ build_acceptance_run id_ request
        {| cx_result := result; cx_summary := finalize results; cx_findings := PDict ∘ check_dict <$> results;
           cx_report_md := md |} w = (Ok run, w1)
    ∧ ar_status run = AcceptanceRunStatus_COMPLETED ∧ run_is_blocking run = failed
    ∧ build_acceptance_events_from_run run trace_id w1 = (Ok events, w2)
    ∧ ev_event_type <$> events = QA_ACCEPTANCE_COMPLETED :: (if failed then [QA_GATE_FAILED] else [])
    ∧ ∀ e, e ∈ events → ev_event_type e = QA_ACCEPTANCE_COMPLETED →
        ∃ s, dget (ev_payload e) "summary" = PDict s ∧ DevWorkflow.is_qa_acceptance_passed s = negb failed.
Proof.
  intros Hv Hfin Hpos Hreq Hid report failed.
  destruct (read_report results Hv duration Hpos mr_id timestamp target stdout stderr exit_code md)
    as (result & Hr & Hsuc & Hfs & Hdur & _). exists result.
  set (c := {| cx_result := result; cx_summary := finalize results; cx_findings := PDict ∘ check_dict <$> results;
               cx_report_md := md |}).
  destruct (aggregate_runs results c request id_ w) as (run & w1 & Hrun & Hst & Hb & e & He & Hfrom & Hd & Hver); [done|done|cbn; by rewrite Hdur|done|done|].
  destruct (announce_runs results run e trace_id w1) as (events & w2 & Hev & Hkeys); [done|done|rewrite Hd; cbn; by rewrite Hdur|].
  exists run, w1, events, w2. split_and!; try done.
  - by rewrite Hfs, flags_fold.
  - rewrite Hb. apply framework_blocking.
  - assert (ev_event_type <$> events = ((λ ev, (ev_event_type ev, ev_payload ev)) <$> events).*1) as ->
      by (by rewrite <- list_fmap_compose).
    rewrite Hkeys, Hb, framework_blocking. fold failed. by destruct failed.
  - intros e' He' Ht'. apply (list_elem_of_fmap_2 (λ ev, (ev_event_type ev, ev_payload ev))) in He'.
    rewrite Hkeys, Ht' in He'. apply elem_of_cons in He' as [[= ->]|He'].
    + exists (finalize results). destruct Hfrom as [Hsum _]. split; [by rewrite Hsum|].
      unfold DevWorkflow.is_qa_acceptance_passed. cbn [finalize dict_get default]. cbn. rewrite gate_failed. fold failed.
      by destruct failed.
    + destruct (run_is_blocking run); [|by apply not_elem_of_nil in He'].
      by apply list_elem_of_singleton in He'.
Qed.
End announcing.

(** A replay takes severity and flag from the stored report, where the
    framework writes neither: the findings of a failed run come back without a
    blocking one. *)
Theorem replay_forgets_flags (results : list CheckResult) (run : QAAcceptanceRun) (res : AcceptanceExecutionResult) :
  Forall check_valid results →
  dget_or (qa_raw_report run) "results" (PList []) = PList (PDict ∘ check_dict <$> results) →
  result_from_run run = Ok res →
  (λ f, (af_level f, af_check f, af_status f)) <$> er_findings res
    = (λ r, (ck_level r, ck_check r, ck_status r)) <$> results
  ∧ Forall (λ f, af_severity f = "info" ∧ af_is_blocking f = false) (er_findings res).
Proof.
  intros Hv Hr H. unfold result_from_run in H. rewrite Hr in H.
  assert (py_iter (py_or (PList (PDict ∘ check_dict <$> results)) (PList [])) = Ok (PDict ∘ check_dict <$> results)) as Hi
    by (by destruct results).
  rewrite Hi in H. cbn [mbind result_bind] in H. inv_bind. cbn [er_findings]. clear -Hv.
  unfold replayed_findings. induction Hv as [|r l Hr Hl [IH1 IH2]]; [done|].
  rewrite fmap_cons. simpl omap. change (dget_or (check_dict r) "severity" _) with (PStr "info").
  change (py_bool (dget_or (check_dict r) "is_blocking" _)) with false.
  rewrite mk_check_finding by (done || set_solver). cbn. split; [by f_equal|]. by constructor.
Qed.

(** ** A failing commit *)
Definition sample_checks : list CheckResult := [
  {| ck_level := "L0"; ck_category := "security"; ck_check := "hardcoded_secrets"; ck_status := "FAIL";
     ck_details := Some "Potential secret"; ck_file := Some "agents/dev_agent/a.py"; ck_line := Some 7 |};
  {| ck_level := "L1"; ck_category := "quality"; ck_check := "test_quality"; ck_status := "WARN";
     ck_details := None; ck_file := None; ck_line := None |};
  {| ck_level := "L2"; ck_category := "ai_patterns"; ck_check := "excessive_comments"; ck_status := "INFO";
     ck_details := None; ck_file := None; ck_line := None |}].

#[export] Instance sample_qa_env : Env := sample_env 1000000 false.

#[export] Instance sample_qa_ports : QaPorts := {|
  qp_timeout := 120;
  qp_process := λ _ _, ProcessExited (Some 1) "report" "";
  qp_json_loads := λ s,
    if bool_decide (s = "report")
    then Some (PDict (report_dict "" "" "agents/dev_agent" sample_checks (float_lit 3 0))) else None;
  qp_read_error := λ _, None; qp_write_error := λ _, None; qp_commit := λ _, Committed;
  qp_publish := λ _ _, Ok true; qp_webhook_url := ""; qp_webhook := None; qp_card := None; qp_gitlab := None;
  qp_high_checks := [] |}.

Definition sample_commit : Event := {|
  ev_event_id := "evt_commit"; ev_event_type := "code.committed"; ev_timestamp := of_utc 0; ev_source := "dev-agent";
  ev_payload := [("agent_name", PStr "dev_agent"); ("commit_sha", PStr "abcdef0")]; ev_schema_version := "1.0";
  ev_metadata := {| em_trace_id := Some "trace"; em_retry_count := 0; em_correlation_id := None |} |}.

Definition sample_request : QARunRequest := {|
  qr_agent_name := "dev_agent"; qr_level := "all"; qr_commit_sha := Some "abcdef0"; qr_diff_ref := None;
  qr_files_changed := []; qr_branch := None; qr_mr_iid := None; qr_gitlab_project_id := None;
  qr_trigger := "event"; qr_requested_by := "code.committed"; qr_reason := None |}.

(** Two workers take the event before either has recorded its run. *)
Definition sample_steps : list qa_step :=
  [StartEvent sample_commit; StartEvent sample_commit; Finish 0; Finish 0; Dispatch 10].
Definition sample_world : QaWorld := st_world (qa_history sample_steps).
Definition sample_run : QAAcceptanceRun :=
  default (run_row sample_request
             {| er_success := true; er_exit_code := 0; er_summary := framework_summary []; er_findings := [];
                er_raw_report := []; er_stdout := None; er_stderr := None; er_duration_seconds := f_zero;
                er_report_markdown := None; er_run_id := ""; er_notification_summary := [] |} "" None None 0 0)
    (head (qd_runs (qw_db sample_world))).

Example one_run_of_two_workers :
  qd_runs (qw_db sample_world) = [sample_run] ∧ qa_l0_status sample_run = "FAIL"
  ∧ co_event_type <$> qd_outbox (qw_db sample_world) = [QA_ACCEPTANCE_COMPLETED; QA_GATE_FAILED]
  ∧ co_status <$> qd_outbox (qw_db sample_world) = ["published"; "published"].
Proof. vm_compute. done. Qed.

Lemma replay_changes_nothing_witness :
  ∃ res w', run_acceptance sample_request None (Some "evt_commit") sample_world = (Ok res, w')
    ∧ qw_db w' = qw_db sample_world ∧ qw_effects w' = qw_effects sample_world ∧ er_success res = false.
Proof.
  destruct (replay_changes_nothing sample_steps sample_run "evt_commit" sample_request None)
    as (res & w' & Hr & Hd & He & _ & Hs & _).
  - apply list_elem_of_lookup. exists 0%nat. vm_compute. reflexivity.
  - vm_compute. reflexivity.
  - done.
  - reflexivity.
  - exists res, w'. split; [exact Hr|]. split; [exact Hd|]. split; [exact He|]. rewrite Hs. vm_compute. reflexivity.
Defined.

Lemma framework_report_judged_witness :
  Forall check_valid sample_checks ∧ request_valid sample_request = true
  ∧ ∃ result, result_of_report (framework_report sample_checks (float_lit 3 0) "" "" "agents/dev_agent" "report" "" 1) None
              = Ok (result, finalize sample_checks, PDict ∘ check_dict <$> sample_checks)
    ∧ er_success result = false ∧ existsb af_is_blocking (er_findings result) = true.
Proof.
  assert (Forall check_valid sample_checks) as Hv by (repeat constructor; vm_compute; set_solver).
  split; [exact Hv|]. split; [vm_compute; reflexivity|].
  destruct (framework_report_judged sample_checks (float_lit 3 0) 1 "" "" "agents/dev_agent" "report" "" "01RUN" None
              None sample_request sample_world) as (result & run & w1 & events & w2 & Hr & Hs & Hf & _).
  - exact Hv.
  - vm_compute. reflexivity.
  - vm_compute. reflexivity.
  - vm_compute. reflexivity.
  - done.
  - exists result. split; [exact Hr|]. split; [exact Hs|exact Hf].
Defined.
